(* ===== verification/_CoqProject ===== *)
-Q . S2P
Prelude.v
KeyedList.v
OrderedMap.v
Multiplexer.v
ActionTypes.v
CBuffers.v
ClientStateMachine.v
ServerStateMachine.v
ActionConfiguration.v
PduPacket.v
Routing.v
ServerInterface.v
ClientInterface.v
ServerEndpoint.v
ServerEndpointFacts.v
ServerEndpointProps.v
ServerEndpointRuns.v
ClientEndpoint.v
ClientEndpointFacts.v
ClientEndpointProps.v
ClientEndpointRuns.v
ClientContract.v
NetworkFlow.v
EndToEnd.v
ActionNetwork.v
ServicesServer.v
ServicesServerFacts.v
ServicesServerProps.v
ActionServicesMuxServer.v
ActionMuxFacts.v
ActionMuxInv.v
ActionMuxProps.v
ServicesClient.v
ServicesClientFacts.v
ServicesClientProps.v
ServicesNetwork.v
ServicesNetworkInv.v
ServicesNetworkProps.v
CAction.v
CActionProps.v
RpcTypes.v
RpcServerEndpoint.v
RpcServerProps.v
RpcServerFacts.v
RpcServicesServer.v
RpcServicesServerFacts.v
RpcServicesServerProps.v
RpcServicesMuxServer.v
RpcMuxFacts.v
RpcMuxProps.v
RpcClientEndpoint.v
RpcClientProps.v
RpcNetwork.v
RpcInstances.v
RpcServicesClient.v
RpcServicesClientProps.v
RpcServiceHelper.v
RpcServiceHelperProps.v
CRpc.v
CRpcProps.v
CMemory.v
