(* ===== verification/Prelude.v ===== *)
(** * Verification of hakoniwa-pdu-rpc

    hakoniwa-pdu-rpc implements request/response RPC and long-running Actions
    (goal, feedback, cancel, result) on top of the byte transport of
    hakoniwa-pdu-endpoint. This library models its C++ core and proves what
    makes it correct.

    ** The program and the files that model it

    An Action application talks to a services layer, which keeps one protocol
    state machine per goal and delegates packets to an endpoint; the endpoint
    maps goals to numbered slots, each with a Request, a Response and a Feedback
    channel, and calls the transport. Client and server have the same two
    layers. RPC has one endpoint per service and side, and a services layer that
    keeps the endpoints by service name. A mux server of either kind gives every
    connection of a multiplexer its own services, and the C interfaces wrap all
    of these for other languages.

    - [Prelude]: 32- and 64-bit reductions on [Z], list and string lemmas, the
      case-analysis tactics [simpl_bools], [split_guard] and [split_guard_in],
      and the hint database [hako].
    - [KeyedList]: lists that are searched by key, as the services keep goals.
    - [OrderedMap]: a [std::map] that is iterated, as a list in key order.
    - [Multiplexer]: what the mux servers use of [EndpointCommMultiplexer].
    - [ActionTypes]: include/hakoniwa/pdu/action/action_types.hpp.
    - [ClientStateMachine], [ServerStateMachine]: the transition functions of
      src/action_client_state_machine.cpp and src/action_server_state_machine.cpp,
      and the state matrices as inductive relations (for the server with the
      reclassification of 04-state-model.md, section 11).
    - [ActionConfiguration]: src/action_configuration.cpp on JSON values.
    - [PduPacket]: the packet layout checks both endpoints use. The generated
      header codec, the PDU allocator and the size registry are the fields of
      the class [PduPlatform]; what the code relies on from them is
      [PduPlatformLaws]; [ConcretePdu] is an instance that meets the laws. The
      transport is a [Transport]: a function that decides, from everything sent
      before, whether a send succeeds. All sends are recorded in a [Wire].
    - [Routing]: the slot table that [initialize] builds from a definition.
    - [ServerInterface]: [IActionServerEndpoint] as a type class, the abstract
      packet protocol [protocol], a labelled transition relation with the results
      of the calls and the responses they send, and the contract
      [ServerEndpointSpec].
    - [ServerEndpoint], [ServerEndpointFacts], [ServerEndpointProps],
      [ServerEndpointRuns]: src/action_server_endpoint_impl.cpp — its operations;
      the invariant [ep_wf], the contract of each operation and the step relation
      [ep_step] of all calls in any order; the theorems about single calls and
      reachable states; the theorems about whole runs and what is seen of them.
      [poll] takes a packet under one lock and applies it under another: the
      second half is [poll_packet], and steps and runs may interleave the halves
      with other calls.
    - [ClientEndpoint], [ClientEndpointFacts], [ClientEndpointProps],
      [ClientEndpointRuns]: src/action_client_endpoint_impl.cpp in the same way.
      [send_goal] and [send_cancel] release their mutex around the transport call
      and [poll] has several critical sections, so these are separate definitions
      and [cl_step] interleaves them. [ClientEndpointRuns] has the client side of
      the protocol as an automaton on what the application sees.
    - [ClientInterface], [ClientContract]: [IActionClientEndpoint] as a type
      class with its contract [ClientEndpointSpec], and the proof that the client
      endpoint meets it.
    - [EndToEnd]: the two endpoints joined by a transport that delivers.
      [NetworkFlow], [ActionNetwork]: the two endpoints over a network that
      delays, reorders and loses packets, with any calls at both sides; the
      first file holds what this shares with [RpcNetwork].
    - [ServicesServer], [ServicesServerFacts], [ServicesServerProps]:
      src/action_services_server.cpp over any endpoint that meets the contract.
    - [ServicesClient], [ServicesClientFacts], [ServicesClientProps]:
      src/action_services_client.cpp in the same way.
    - [ServicesNetwork], [ServicesNetworkInv], [ServicesNetworkProps]: a client
      node and a server node, each with its services and all its Actions, over
      the unreliable network; the logs of what each application called and saw,
      the invariant [sys_inv] that ties them to the endpoints and the packets in
      flight, and the accounting.
    - [ActionServicesMuxServer], [ActionMuxFacts], [ActionMuxInv],
      [ActionMuxProps]: src/action_services_mux_server.cpp — the connection slots
      and the table of goal owners; the invariant [amux_wf] that ties owners,
      slots and the services of each connection; the abstract goal registry and
      the theorems.
    - [RpcTypes], [RpcServerEndpoint], [RpcServerFacts], [RpcServerProps],
      [RpcClientEndpoint], [RpcClientProps]: src/rpc_server_endpoint_impl.cpp and
      src/rpc_client_endpoint_impl.cpp with their headers. The codec and the
      size table are the class [RpcPlatform] with [RpcPlatformLaws].
      [RpcNetwork]: client and server over the unreliable network, next to other
      clients. [RpcInstances]: the static vector of instances both endpoint
      classes keep, and how long an endpoint lives.
    - [RpcServicesServer], [RpcServicesServerFacts], [RpcServicesServerProps]:
      src/rpc_services_server.cpp; [RpcServicesClient], [RpcServicesClientProps]:
      src/rpc_services_client.cpp, with the round trip between the two.
      [RpcServiceHelper], [RpcServiceHelperProps]: the typed calls and replies of
      include/hakoniwa/pdu/rpc/rpc_service_helper.hpp, for any body types.
    - [RpcServicesMuxServer], [RpcMuxFacts], [RpcMuxProps]:
      src/rpc_services_mux_server.cpp.
    - [CBuffers]: the helpers the C interfaces share (names, caller buffers,
      allocated buffers). [CAction], [CActionProps]: src/c_action.cpp and
      c_action.h. [CRpc], [CRpcProps]: src/c_rpc.cpp, c_rpc_cancel.cpp,
      c_rpc_alloc.cpp, c_rpc_mux.cpp and c_rpc.h. The functions of the two
      servers of each interface differ only in the services they call, which is
      a class ([ServerServices], [RpcServerServices]) with an instance each; a
      third instance of the latter, in [CRpcProps], records the calls it gets.
      [CMemory]: the functions that allocate, with addresses in a heap in place
      of the blocks, the functions that free, and a program that uses them.

    ** How code becomes definitions

    State is a record with the members of the class; an operation takes it (and
    the [Wire] when it may send) and returns the new state with its result, one
    branch per branch of the code. [std::map] is [gmap], with the iteration
    order written out where the code iterates; [std::vector] and [std::deque]
    are lists; [std::optional] and early error returns are [option]. Widths are
    kept where the code can reach the wrap-around: feedback sequence numbers,
    RPC request ids and the alignment arithmetic. A clock reading is an argument
    of the operation that takes it. Callbacks of the transport are [deliver]
    (actions) and [receive] (RPC). A connection can go down at any time, also
    during a poll of a mux server: which connections do so before each of the
    passes of a poll is an argument of it. A member of the RPC configuration is
    [None] where reading it throws. In the C interfaces a pointer is an [option],
    a block of memory a list of bytes, and whether [malloc] succeeds and what
    the endpoint container answers or throws are arguments; a destroy function
    gives the handle as [delete] finds it. No definition needs fuel: every loop runs
    over a finite list; where a theorem counts polls, the number it asks for is
    the number of packets queued or of calls outstanding.

    ** What the theorems show

    - State machines: the functions perform exactly the transitions of the rules;
      reachable contexts are well formed; CANCELED needs an accepted request.
    - Configuration and packets: the loader accepts exactly the well-formed
      definitions and gives every slot its own channels; size arithmetic is
      exact; buffers that are created validate; client and server agree.
    - Endpoints: one-to-one slot ownership in every reachable state; every run of
      the server, with the result of each call and the responses it delivers, is a
      run of the abstract protocol; results never outnumber acceptances;
      decisions and completions are atomic and correctly addressed; feedback is
      numbered without gaps and reaches the application in order; every outcome
      of sending a goal or a cancel; the results and events a client application
      sees of a goal are accepted by the client automaton, which always knows the
      goal's phase; a timed-out goal stays quarantined.
    - Both sides together: the goal and the cancel handshake, the delivery of
      feedback and of results. Over a network that loses and reorders packets:
      every event shown is about one packet really sent, and per goal id results
      and acceptances seen never outnumber acceptances sent, those requests
      shown, and those goals sent. The same for the whole stack in terms of the
      applications' calls, per Action and terminal status: [complete],
      [accept_goal] and [send_goal] calls that succeeded on nodes configured
      alike.
    - Services server: the goal state machine and the endpoint agree in every
      reachable state; completion ends a goal in both layers or in neither;
      disconnection reaches every goal; when polling can raise an error.
    - Services client: the context of every goal is the one the endpoint's phase
      determines; polling shows every event of the endpoints and never an error;
      a cancel request changes both layers or neither.
    - Action mux server: its tables agree in every reachable state; what the
      application sees is a run of the goal registry; a goal is active on one
      connection; calls reach the owner only; a disconnection drops no active
      goal.
    - RPC endpoints: replies match admitted requests, responses never outnumber
      calls, a call makes the round trip, and what each poll means; the same
      accounting end to end over the unreliable network.
    - RPC services: well-formed tables; polling empties the queues; a waiting
      request of an idle, listed client is raised and a queued response is delivered within a counted
      number of polls; replies reach the endpoint that raised the request; the
      round trip through both layers on both sides, and of typed bodies through
      the helper.
    - RPC mux server: replies match requests per connection; every endpoint
      taken is held or closed once; ids are not reused; waiting requests are
      raised while connections come and go.
    - C interfaces: the blocks handed over are owned by the program, never lost
      and never freed twice, and polling with pointers refines polling with
      blocks; action events cross exactly once and in order whatever the
      buffer sizes, and lead back to their goal; buffers are written within their
      capacity; an RPC token is spent at most once, and what the services are
      asked to send is for the request it was issued for, with the program's bytes; an Action handle starts and stops cleanly whatever its endpoint
      container answers or throws, an RPC handle stops for good.
    - Behaviour worth knowing: a result packet without room for its header
      commits the goal unsent; a BUSY reply drops the request in progress; a
      timeout hides a queued response, and keeps the services client from
      polling the services after it; a REJECT of a duplicate goal that cannot be
      sent leaves a goal without owner; an RPC poll through the C interface with
      too small a buffer loses its event; RPC endpoints outlive services that are
      dropped without clearing the static vector of instances, and clearing it
      then destroys them while it is being cleared; a runtime cancel overwrites
      the origin of a pending client cancel, which section 11 of 04-state-model.md
      asks for and its section 17 excludes.

    Theorems that carry hypotheses have a witness, which applies them to a
    concrete run.

    ** What is not modelled

    Log output and file reading; the [catch] arms that nothing but a failing C++
    allocation reaches (except the one that releases a block, in [CMemory]);
    threads below the level of critical sections. Bindings,
    tools, examples and tests are out of scope. *)

From Stdlib Require Import ZArith Lia.
From stdpp Require Import base gmap strings list fin_maps.

(** ** Machine integers

    Integers of the source are kept as [Z]; the operations whose wrap-around
    the source can reach go through these reductions. *)

Definition UINT32_MODULUS : Z := 2 ^ 32.

Definition UINT64_MODULUS : Z := 2 ^ 64.

Definition INT_MAX : Z := 2 ^ 31 - 1.

Definition u32 (n : Z) : Z := n mod UINT32_MODULUS.

Definition u64 (n : Z) : Z := n mod UINT64_MODULUS.

Definition in_u32 (n : Z) : Prop := (0 <= n < UINT32_MODULUS)%Z.

Definition in_u64 (n : Z) : Prop := (0 <= n < UINT64_MODULUS)%Z.

(** The prefix increment [++x] on a [std::uint32_t]. *)
Definition u32_succ (n : Z) : Z := u32 (n + 1).

Lemma u32_small n : in_u32 n -> u32 n = n.
Proof. intros H. by apply Z.mod_small. Qed.

Lemma u64_small n : in_u64 n -> u64 n = n.
Proof. intros H. by apply Z.mod_small. Qed.

Lemma u32_range n : in_u32 (u32 n).
Proof. by apply Z.mod_pos_bound. Qed.

Lemma u64_range n : in_u64 (u64 n).
Proof. by apply Z.mod_pos_bound. Qed.

Lemma u32_succ_range n : in_u32 (u32_succ n).
Proof. apply u32_range. Qed.

Lemma u32_succ_neq n : u32_succ n <> n.
Proof.
  intros H. pose proof (u32_range (n + 1)) as Hr. unfold u32_succ in H.
  rewrite H in Hr. unfold u32, UINT32_MODULUS, in_u32 in *.
  destruct (decide (n + 1 < 2 ^ 32)%Z).
  - rewrite Z.mod_small in H; lia.
  - replace (n + 1)%Z with (2 ^ 32)%Z in H by (unfold UINT32_MODULUS in *; lia).
    rewrite Z.mod_same in H; unfold UINT32_MODULUS in *; lia.
Qed.

(** Incrementing [n] times counts modulo 2^32. *)
Lemma u32_succ_iter_from x n :
  in_u32 x -> Nat.iter n u32_succ x = u32 (x + Z.of_nat n).
Proof.
  intros Hx. induction n as [|n IH]; simpl; [by rewrite Z.add_0_r, u32_small|].
  rewrite IH. unfold u32_succ, u32. rewrite Zplus_mod_idemp_l. f_equal. lia.
Qed.

(** ** Lists *)

Lemma triple_eta {A B C} (x : A * B * C) : x = (x.1.1, x.1.2, x.2).
Proof. by destruct x as [[]]. Qed.

Lemma omap_cons_Some {A B} (f : A -> option B) x l y :
  f x = Some y -> omap f (x :: l) = y :: omap f l.
Proof. intros H. cbn. by rewrite H. Qed.

Lemma omap_cons_None {A B} (f : A -> option B) x l :
  f x = None -> omap f (x :: l) = omap f l.
Proof. intros H. cbn. by rewrite H. Qed.

Lemma Forall_filter_keep {A} (R Q : A -> Prop) `{forall x, Decision (Q x)} l :
  Forall R l -> Forall R (filter Q l).
Proof.
  rewrite !Forall_forall. intros Hl x [_ Hx]%list_elem_of_filter. auto.
Qed.

(** ** Strings *)

Lemma string_app_length (p q : string) :
  String.length (p +:+ q) = String.length p + String.length q.
Proof. induction p as [|a p IH]; simpl; [done|]. by rewrite IH. Qed.

(** A common suffix can be cancelled. *)
Lemma string_app_inj_r (p q t : string) : p +:+ t = q +:+ t -> p = q.
Proof.
  revert q. induction p as [|a p IH]; intros q Heq;
    pose proof (f_equal String.length Heq) as Hl; rewrite !string_app_length in Hl;
    destruct q as [|b q]; cbn [String.length] in Hl; [done|lia|lia|].
  injection Heq as -> Heq. by rewrite (IH q).
Qed.

(** ** Automation *)

Create HintDb hako.

#[export] Hint Resolve u32_range u64_range u32_succ_range : hako.

(** Turns boolean guards of the code into propositions. *)
Ltac simpl_bools :=
  repeat match goal with
  | H : andb _ _ = true |- _ => apply andb_true_iff in H; destruct H
  | H : orb _ _ = false |- _ => apply orb_false_iff in H; destruct H
  | H : negb _ = true |- _ => apply negb_true_iff in H
  | H : negb _ = false |- _ => apply negb_false_iff in H
  | H : bool_decide _ = true |- _ => apply bool_decide_eq_true in H
  | H : bool_decide _ = false |- _ => apply bool_decide_eq_false in H
  | H : (_ =? _)%Z = true |- _ => apply Z.eqb_eq in H
  | H : (_ =? _)%Z = false |- _ => apply Z.eqb_neq in H
  | H : (_ <=? _)%Z = true |- _ => apply Z.leb_le in H
  | H : (_ <=? _)%Z = false |- _ => apply Z.leb_gt in H
  | H : (_ <? _)%Z = true |- _ => apply Z.ltb_lt in H
  | H : (_ <? _)%Z = false |- _ => apply Z.ltb_ge in H
  end.

(** Case analysis on the scrutinee of the first [if] or [match] of the goal,
    keeping the equation. *)
Ltac split_guard :=
  match goal with
  | |- context [if ?c then _ else _] =>
      lazymatch c with
      | context [if _ then _ else _] => fail
      | context [match _ with _ => _ end] => fail
      | _ => let E := fresh "E" in destruct c eqn:E
      end
  | |- context [match ?c with _ => _ end] =>
      lazymatch c with
      | context [if _ then _ else _] => fail
      | context [match _ with _ => _ end] => fail
      | _ => let E := fresh "E" in destruct c eqn:E
      end
  end.

Ltac split_guard_in H :=
  match type of H with
  | context [if ?c then _ else _] =>
      lazymatch c with
      | context [if _ then _ else _] => fail
      | context [match _ with _ => _ end] => fail
      | _ => let E := fresh "E" in destruct c eqn:E
      end
  | context [match ?c with _ => _ end] =>
      lazymatch c with
      | context [if _ then _ else _] => fail
      | context [match _ with _ => _ end] => fail
      | _ => let E := fresh "E" in destruct c eqn:E
      end
  end.
