(* ===== verification/KeyedList.v ===== *)
(** * Lists searched by key

    Both services layers keep their goals in a [std::vector] and find, update,
    erase and append by goal id. A list whose keys are distinct behaves as the
    map [keyed] of its values. *)

From S2P Require Import Prelude.
From stdpp Require Import base list.

Section Keyed.
Context {A K V : Type} `{EqDecision K} (key : A -> K) (val : A -> V).

(** The value of the first element with this key. *)
Definition keyed (l : list A) (k : K) : option V :=
  (fun x => val x.2) <$> list_find (fun x => key x = k) l.

Lemma keyed_cons x l k :
  keyed (x :: l) k = if decide (key x = k) then Some (val x) else keyed l k.
Proof.
  unfold keyed. cbn. case_decide; [done|]. by destruct (list_find _ l) as [[]|].
Qed.

Arguments keyed : simpl never.

Lemma keyed_found l k i x :
  list_find (fun y => key y = k) l = Some (i, x) ->
  keyed l k = Some (val x) /\ key x = k /\ l !! i = Some x.
Proof.
  intros Hf. unfold keyed. rewrite Hf. by apply list_find_Some in Hf as (? & ? & _).
Qed.

Lemma keyed_None l k : keyed l k = None -> k ∉ key <$> l.
Proof.
  induction l as [|x l IH]; [intros _; apply not_elem_of_nil|].
  rewrite keyed_cons. case_decide; [done|]. intros Hn. cbn. apply not_elem_of_cons. auto.
Qed.

Lemma keyed_insert l k i x y k' :
  list_find (fun z => key z = k) l = Some (i, x) -> key y = key x ->
  keyed (<[i := y]> l) k' = if decide (k = k') then Some (val y) else keyed l k'.
Proof.
  revert i. induction l as [|z l IH]; intros i; cbn; [done|].
  destruct (decide (key z = k)) as [Hz|Hz].
  - intros [= <- <-] Hy. cbn. rewrite !keyed_cons, Hy, Hz. by case_decide.
  - destruct (list_find _ l) as [[j u]|]; [|done]. intros [= <- <-] Hy.
    change (<[S j := y]> (z :: l)) with (z :: <[j := y]> l).
    rewrite !keyed_cons, (IH j) by done. repeat case_decide; congruence.
Qed.

Lemma keyed_delete l k i x k' :
  NoDup (key <$> l) -> list_find (fun y => key y = k) l = Some (i, x) ->
  keyed (delete i l) k' = if decide (k = k') then None else keyed l k'.
Proof.
  revert i. induction l as [|z l IH]; intros i; cbn; [done|].
  intros [Hnin Hnd]%NoDup_cons. destruct (decide (key z = k)) as [Hz|Hz].
  - intros [= <- <-]. cbn. rewrite keyed_cons, Hz. case_decide; [|done]. subst k'.
    destruct (keyed l k) eqn:Hc; [|done]. unfold keyed in Hc.
    destruct (list_find _ l) as [[j y]|] eqn:Hf; [|done].
    apply list_find_Some in Hf as (Hy & Hi & _). destruct Hnin.
    apply list_elem_of_fmap. exists y. split; [congruence|]. by eapply list_elem_of_lookup_2.
  - destruct (list_find _ l) as [[j y]|]; [|done]. intros [= <- <-].
    change (delete (S j) (z :: l)) with (z :: delete j l).
    rewrite !keyed_cons, (IH j) by done. repeat case_decide; congruence.
Qed.

Lemma keyed_app l x k :
  keyed l (key x) = None ->
  keyed (l ++ [x]) k = if decide (key x = k) then Some (val x) else keyed l k.
Proof.
  induction l as [|z l IH]; cbn; [intros _; by rewrite keyed_cons|]. rewrite !keyed_cons.
  destruct (decide (key z = key x)) as [Hz|Hz]; [done|].
  intros Hn. rewrite IH by done. repeat case_decide; congruence.
Qed.

Lemma keyed_fmap (f : A -> A) l k :
  (forall x, key (f x) = key x) -> (forall x, val (f x) = val x) ->
  keyed (f <$> l) k = keyed l k.
Proof.
  intros Hk Hv. induction l as [|x l IH]; [done|]. cbn. by rewrite !keyed_cons, Hk, Hv, IH.
Qed.

Lemma keyed_not_elem l k : k ∉ key <$> l -> keyed l k = None.
Proof.
  induction l as [|x l IH]; cbn; [done|]. intros [Hk Hl]%not_elem_of_cons. rewrite keyed_cons.
  rewrite decide_False by congruence. auto.
Qed.

Lemma keyed_elem l k : k ∈ key <$> l -> is_Some (keyed l k).
Proof.
  intros Hin. destruct (keyed l k) eqn:Hk; [eauto|]. by apply keyed_None in Hk.
Qed.

(** Removing elements removes keys and changes no value. *)
Lemma keyed_filter (Q : A -> Prop) `{forall x, Decision (Q x)} l k :
  NoDup (key <$> l) ->
  keyed (filter Q l) k = keyed l k \/ keyed (filter Q l) k = None.
Proof.
  induction l as [|x l IH]; [by left|]. rewrite fmap_cons, filter_cons.
  intros [Hx Hl]%NoDup_cons.
  destruct (IH Hl) as [Heq|Hn]; case_decide; rewrite !keyed_cons.
  - left. by rewrite Heq.
  - case_decide; [|by left]. subst. right. rewrite Heq. by apply keyed_not_elem.
  - case_decide; [by left|by right].
  - by right.
Qed.

(** ** Keys stay distinct *)

Lemma keys_insert l k i x y :
  list_find (fun z => key z = k) l = Some (i, x) -> key y = key x ->
  key <$> <[i := y]> l = key <$> l.
Proof.
  intros (Hl & _ & _)%list_find_Some Hy. rewrite list_fmap_insert.
  apply list_insert_id. by rewrite list_lookup_fmap, Hl, Hy.
Qed.

Lemma keys_delete l i : NoDup (key <$> l) -> NoDup (key <$> delete i l).
Proof.
  intros Hn. rewrite list_fmap_delete. eapply sublist_NoDup; [done|]. apply sublist_delete.
Qed.

Lemma keys_app l x : NoDup (key <$> l) -> keyed l (key x) = None -> NoDup (key <$> (l ++ [x])).
Proof.
  intros Hn Hk. rewrite fmap_app. apply NoDup_app. split_and!; [done| |apply NoDup_singleton].
  intros k Hin Heq. apply list_elem_of_singleton in Heq as ->. by apply keyed_None in Hk.
Qed.
End Keyed.

#[global] Arguments keyed : simpl never.
