(* ===== verification/OrderedMap.v ===== *)
(** * Maps kept in key order

    [std::map<std::string, T>] where the code iterates over it: a list of
    entries in the order of the keys, which is the lexicographic order of the
    bytes. [rpc_endpoints_] of the RPC services is such a map. *)

From S2P Require Import Prelude.
From stdpp Require Import base list strings sorting.

(** The order of [std::less<std::string>]. *)
Definition string_lt (a b : string) : Prop := String.le a b /\ a <> b.

#[export] Instance string_lt_trans : Transitive string_lt.
Proof.
  intros a b c [Hab Nab] [Hbc Nbc]. split; [by transitivity b|]. intros ->.
  apply Nab. by apply (anti_symm String.le).
Qed.

#[export] Instance string_lt_irreflexive : Irreflexive string_lt.
Proof. by intros a [_ Ha]. Qed.

Lemma string_lt_total a b : a <> b -> ~ String.le a b -> string_lt b a.
Proof. intros Hn Hl. destruct (total String.le a b); [done|]. split; congruence. Qed.

Section OrderedMap.
Context {V : Type}.

Abbreviation omap_t := (list (string * V)).

(** [m[k] = v]. *)
Fixpoint om_insert (k : string) (v : V) (m : omap_t) : omap_t :=
  match m with
  | [] => [(k, v)]
  | (k', v') :: rest =>
      if decide (k = k') then (k, v) :: rest
      else if decide (String.le k k') then (k, v) :: (k', v') :: rest
      else (k', v') :: om_insert k v rest
  end.

(** [m.find(k)], with [None] for [m.end()]. *)
Fixpoint om_find (k : string) (m : omap_t) : option V :=
  match m with
  | [] => None
  | (k', v') :: rest => if decide (k = k') then Some v' else om_find k rest
  end.

(** A write through the iterator [m.find(k)]. *)
Fixpoint om_update (k : string) (v : V) (m : omap_t) : omap_t :=
  match m with
  | [] => []
  | (k', v') :: rest =>
      if decide (k = k') then (k', v) :: rest else (k', v') :: om_update k v rest
  end.

Definition om_sorted (m : omap_t) : Prop := StronglySorted string_lt m.*1.

Lemma om_find_insert k v m k' :
  om_sorted m -> om_find k' (om_insert k v m) = if decide (k = k') then Some v else om_find k' m.
Proof.
  unfold om_sorted. induction m as [|[k1 v1] m IH]; cbn.
  { intros _. repeat case_decide; congruence. }
  intros [Hs Hf]%StronglySorted_inv.
  destruct (decide (k = k1)) as [->|Hn]; [cbn; repeat case_decide; congruence|].
  destruct (decide (String.le k k1)); cbn; [repeat case_decide; congruence|].
  rewrite IH by done. repeat case_decide; congruence.
Qed.

Lemma om_insert_keys k v m : forall k', k' ∈ (om_insert k v m).*1 <-> k' = k \/ k' ∈ m.*1.
Proof.
  induction m as [|[k1 v1] m IH]; intros k'; cbn; [by rewrite list_elem_of_singleton, elem_of_nil; tauto|].
  destruct (decide (k = k1)) as [->|Hn]; [cbn; rewrite !elem_of_cons; tauto|].
  destruct (decide (String.le k k1)); cbn; rewrite !elem_of_cons; [tauto|].
  rewrite IH. tauto.
Qed.

Lemma om_insert_sorted k v m : om_sorted m -> om_sorted (om_insert k v m).
Proof.
  unfold om_sorted. induction m as [|[k1 v1] m IH]; cbn.
  { intros _. by repeat constructor. }
  intros [Hs Hf]%StronglySorted_inv.
  destruct (decide (k = k1)) as [->|Hn]; [by constructor|].
  destruct (decide (String.le k k1)) as [Hle|Hle]; cbn.
  - constructor; [by constructor|]. constructor; [by split|].
    eapply Forall_impl; [exact Hf|]. intros x Hx. transitivity k1; [by split|done].
  - constructor; [by apply IH|]. apply Forall_forall. intros x Hx%om_insert_keys.
    destruct Hx as [->|Hx]; [by apply string_lt_total|]. by eapply Forall_forall in Hf.
Qed.

Lemma om_update_keys k v m : (om_update k v m).*1 = m.*1.
Proof. induction m as [|[k1 v1] m IH]; cbn; [done|]. case_decide; cbn; congruence. Qed.

Lemma om_update_sorted k v m : om_sorted m -> om_sorted (om_update k v m).
Proof. unfold om_sorted. by rewrite om_update_keys. Qed.

Lemma om_find_update k v m k' u :
  om_find k m = Some u ->
  om_find k' (om_update k v m) = if decide (k = k') then Some v else om_find k' m.
Proof.
  induction m as [|[k1 v1] m IH]; cbn; [done|].
  destruct (decide (k = k1)) as [->|Hn]; cbn.
  - intros [= ->]. repeat case_decide; congruence.
  - intros Hk. rewrite IH by done. repeat case_decide; congruence.
Qed.

Lemma om_find_fmap (f : V -> V) (m : omap_t) k :
  om_find k ((fun kv => (kv.1, f kv.2)) <$> m) = f <$> om_find k m.
Proof. induction m as [|[k1 v1] m IH]; cbn; [done|]. by case_decide. Qed.

Lemma om_fmap_keys (f : V -> V) (m : omap_t) : ((fun kv => (kv.1, f kv.2)) <$> m).*1 = m.*1.
Proof. rewrite <-list_fmap_compose. by apply list_fmap_ext. Qed.

Lemma om_find_elem k v m : om_find k m = Some v -> (k, v) ∈ m.
Proof.
  induction m as [|[k1 v1] m IH]; cbn; [done|].
  case_decide; [intros [= ->]; subst; left|]. intros Hk. right. auto.
Qed.

Lemma om_elem_find k v m : om_sorted m -> (k, v) ∈ m -> om_find k m = Some v.
Proof.
  unfold om_sorted. induction m as [|[k1 v1] m IH]; cbn; [by intros _ ?%elem_of_nil|].
  intros [Hs Hf]%StronglySorted_inv [[= -> ->]|Hin]%elem_of_cons; [by rewrite decide_True|].
  rewrite decide_False; [auto|]. intros ->. rewrite Forall_forall in Hf.
  destruct (irreflexivity string_lt k1). apply Hf. apply list_elem_of_fmap. by exists (k1, v).
Qed.

(** The entries split at the one that is found. *)
Lemma om_find_split k v m :
  om_find k m = Some v -> exists m1 m2, m = m1 ++ (k, v) :: m2 /\ om_find k m1 = None.
Proof.
  induction m as [|[k1 v1] m IH]; cbn; [done|].
  destruct (decide (k = k1)) as [->|Hn]; [intros [= ->]; by exists [], m|].
  intros (m1 & m2 & -> & Hk)%IH. exists ((k1, v1) :: m1), m2. split; [done|]. cbn.
  by rewrite decide_False.
Qed.

Lemma om_update_split k v v' m1 m2 :
  om_find k m1 = None -> om_update k v' (m1 ++ (k, v) :: m2) = m1 ++ (k, v') :: m2.
Proof.
  induction m1 as [|[k1 v1] m1 IH]; cbn; [by rewrite decide_True|].
  case_decide; [done|]. intros Hk. by rewrite IH.
Qed.

Lemma om_insert_values k v m x : x ∈ (om_insert k v m).*2 -> x = v \/ x ∈ m.*2.
Proof.
  induction m as [|[k1 v1] m IH]; cbn.
  - rewrite list_elem_of_singleton. auto.
  - repeat case_decide; cbn; rewrite !elem_of_cons; naive_solver.
Qed.

Lemma om_insert_value_kept k v m x :
  x ∈ m.*2 -> om_find k m = Some x \/ x ∈ (om_insert k v m).*2.
Proof.
  induction m as [|[k1 v1] m IH]; cbn; [by intros ?%elem_of_nil|].
  rewrite elem_of_cons. destruct (decide (k = k1)) as [->|Hn]; cbn; [rewrite elem_of_cons; naive_solver|].
  case_decide; cbn; rewrite ?elem_of_cons; naive_solver.
Qed.

Lemma om_insert_value k v m : v ∈ (om_insert k v m).*2.
Proof.
  induction m as [|[k1 v1] m IH]; cbn; [by apply list_elem_of_singleton|].
  repeat case_decide; cbn; rewrite elem_of_cons; auto.
Qed.

Lemma om_find_fresh k m : k ∉ m.*1 -> om_find k m = None.
Proof.
  induction m as [|[k1 v1] m IH]; cbn; [done|]. rewrite not_elem_of_cons.
  intros [? ?]. rewrite decide_False by done. auto.
Qed.
End OrderedMap.

#[export] Hint Resolve om_insert_sorted om_update_sorted : hako.
