(* ===== verification/Multiplexer.v ===== *)
(** * The communication multiplexer

    What the two mux servers ask of [EndpointCommMultiplexer], which belongs to
    the transport library: whether opening its configuration and starting it
    succeed, and how many connections it expects. The endpoints it hands over
    are arguments of the operations that take them. *)

From S2P Require Import Prelude.
From stdpp Require Import base strings.

Class CommMultiplexer := {
  mux_open : string -> bool;
  mux_start : bool;
  mux_expected_count : nat;
}.
