(* ===== verification/ActionTypes.v ===== *)
(** * Shared Action types

    The public types of include/hakoniwa/pdu/action/action_types.hpp: goal
    identities, the handles of the two sides, the enumerations and the two
    event structures. A scoped enumerator [E::X] of the source is the
    constructor [E_X]. *)

From S2P Require Import Prelude.
From Stdlib Require Import ZArith Lia.
From stdpp Require Import base gmap strings list fin_maps.

(** [std::vector<std::uint8_t>]: bytes as integers. *)
Abbreviation PduData := (list Z).

(** [std::array<std::uint8_t, 16>]. *)
Abbreviation GoalId := (list Z).

(** A well-formed identity has the sixteen bytes of the array. *)
Definition goal_id_wf (g : GoalId) : Prop :=
  length g = 16 /\ Forall (fun b => (0 <= b < 256)%Z) g.

(** The all-zero [GoalId{}]. *)
Definition zero_goal_id : GoalId := replicate 16 0%Z.

Definition is_valid_goal_id (goal_id : GoalId) : bool :=
  existsb (fun byte => negb (byte =? 0)%Z) goal_id.

Lemma zero_goal_id_invalid : is_valid_goal_id zero_goal_id = false.
Proof. reflexivity. Qed.

Record ClientGoalHandle := mkClientGoalHandle { cgh_goal_id : GoalId }.

Definition ClientGoalHandle_valid (h : ClientGoalHandle) : bool :=
  is_valid_goal_id (cgh_goal_id h).

Record ServerGoalHandle := mkServerGoalHandle { sgh_goal_id : GoalId }.

Definition ServerGoalHandle_valid (h : ServerGoalHandle) : bool :=
  is_valid_goal_id (sgh_goal_id h).

Inductive GoalSendResult :=
  | GoalSendResult_SUCCESS
  | GoalSendResult_INVALID_ARGUMENT
  | GoalSendResult_ACTION_NOT_FOUND
  | GoalSendResult_NOT_INITIALIZED
  | GoalSendResult_DUPLICATE_GOAL
  | GoalSendResult_NO_FREE_SLOT
  | GoalSendResult_INVALID_PACKET
  | GoalSendResult_TRANSPORT_ERROR.

(** [UNSPECIFIED] and [NONE] are one value in the source. *)
Inductive ClientEventType :=
  | ClientEventType_NONE
  | ClientEventType_GOAL_RESPONSE
  | ClientEventType_FEEDBACK
  | ClientEventType_CANCEL_RESPONSE
  | ClientEventType_RESULT
  | ClientEventType_TIMEOUT
  | ClientEventType_ERROR.

Inductive ServerEventType :=
  | ServerEventType_NONE
  | ServerEventType_GOAL_REQUEST
  | ServerEventType_CANCEL_REQUEST
  | ServerEventType_RUNTIME_CANCEL_REQUEST
  | ServerEventType_ERROR.

Inductive Decision :=
  | Decision_UNSPECIFIED
  | Decision_ACCEPTED
  | Decision_REJECTED.

Inductive TerminalStatus :=
  | TerminalStatus_UNSPECIFIED
  | TerminalStatus_SUCCEEDED
  | TerminalStatus_CANCELED
  | TerminalStatus_ABORTED.

Inductive GoalState :=
  | GoalState_UNSPECIFIED
  | GoalState_EXECUTING
  | GoalState_CANCELING
  | GoalState_FINISHING.

Inductive RuntimeCancelCause :=
  | RuntimeCancelCause_UNSPECIFIED
  | RuntimeCancelCause_TRANSPORT_DISCONNECTED
  | RuntimeCancelCause_SERVER_SHUTDOWN
  | RuntimeCancelCause_INTERNAL_POLICY.

#[export] Instance GoalSendResult_eq_dec : EqDecision GoalSendResult.
Proof. solve_decision. Defined.
#[export] Instance ClientEventType_eq_dec : EqDecision ClientEventType.
Proof. solve_decision. Defined.
#[export] Instance ServerEventType_eq_dec : EqDecision ServerEventType.
Proof. solve_decision. Defined.
#[export] Instance Decision_eq_dec : EqDecision Decision.
Proof. solve_decision. Defined.
#[export] Instance TerminalStatus_eq_dec : EqDecision TerminalStatus.
Proof. solve_decision. Defined.
#[export] Instance GoalState_eq_dec : EqDecision GoalState.
Proof. solve_decision. Defined.
#[export] Instance RuntimeCancelCause_eq_dec : EqDecision RuntimeCancelCause.
Proof. solve_decision. Defined.

(** The wire values of the two enumerations the packet headers carry
    ([static_cast<std::uint8_t>] and back). *)
Definition Decision_to_u8 (d : Decision) : Z :=
  match d with
  | Decision_UNSPECIFIED => 0
  | Decision_ACCEPTED => 1
  | Decision_REJECTED => 2
  end.

Definition TerminalStatus_to_u8 (s : TerminalStatus) : Z :=
  match s with
  | TerminalStatus_UNSPECIFIED => 0
  | TerminalStatus_SUCCEEDED => 1
  | TerminalStatus_CANCELED => 2
  | TerminalStatus_ABORTED => 3
  end.

(** The source casts back only values it has compared with a named
    enumerator; every other value is sent to [UNSPECIFIED] here. *)
Definition Decision_of_u8 (n : Z) : Decision :=
  if (n =? 1)%Z then Decision_ACCEPTED
  else if (n =? 2)%Z then Decision_REJECTED
  else Decision_UNSPECIFIED.

Definition TerminalStatus_of_u8 (n : Z) : TerminalStatus :=
  if (n =? 1)%Z then TerminalStatus_SUCCEEDED
  else if (n =? 2)%Z then TerminalStatus_CANCELED
  else if (n =? 3)%Z then TerminalStatus_ABORTED
  else TerminalStatus_UNSPECIFIED.

Lemma Decision_of_to_u8 d : Decision_of_u8 (Decision_to_u8 d) = d.
Proof. by destruct d. Qed.

Lemma TerminalStatus_of_to_u8 s : TerminalStatus_of_u8 (TerminalStatus_to_u8 s) = s.
Proof. by destruct s. Qed.

Record ClientEvent := mkClientEvent {
  ce_type : ClientEventType;
  ce_action_name : string;
  ce_goal : ClientGoalHandle;
  ce_decision : Decision;
  ce_terminal_status : TerminalStatus;
  ce_feedback_sequence : Z;
  ce_pdu : PduData;
}.

(** [ClientEvent{}]. *)
Definition empty_client_event : ClientEvent := {|
  ce_type := ClientEventType_NONE;
  ce_action_name := "";
  ce_goal := mkClientGoalHandle zero_goal_id;
  ce_decision := Decision_UNSPECIFIED;
  ce_terminal_status := TerminalStatus_UNSPECIFIED;
  ce_feedback_sequence := 0;
  ce_pdu := [];
|}.

Record ServerEvent := mkServerEvent {
  se_type : ServerEventType;
  se_goal : ServerGoalHandle;
  se_runtime_cancel_cause : RuntimeCancelCause;
  se_action_name : string;
  se_pdu : PduData;
}.

(** [ServerEvent{}]. *)
Definition empty_server_event : ServerEvent := {|
  se_type := ServerEventType_NONE;
  se_goal := mkServerGoalHandle zero_goal_id;
  se_runtime_cancel_cause := RuntimeCancelCause_UNSPECIFIED;
  se_action_name := "";
  se_pdu := [];
|}.
