(* ===== verification/CBuffers.v ===== *)
(** * Buffers of the C interfaces

    The helpers that src/c_action.cpp and the src/c_rpc*.cpp files each define
    for themselves: text arguments, fixed-size name fields, byte buffers of the
    caller and buffers handed over to the caller.

    A pointer is an [option]: [None] is NULL. An output parameter is the value
    it points to before the call, and the value after it is returned. A byte
    buffer is the block of bytes it points to. What [malloc] returns is an
    argument. *)

From S2P Require Import Prelude ActionTypes.
From Stdlib Require Import ZArith Lia Ascii String.
From stdpp Require Import base gmap strings list fin_maps.

(** The error codes the helpers return, in either error enumeration. *)
Class CErrors (Err : Type) := {
  err_ok : Err;
  err_invalid_argument : Err;
  err_buffer_too_small : Err;
  err_internal : Err;
}.

Module CBuffers.

Definition valid_text (value : option string) : bool :=
  match value with
  | Some text => negb (bool_decide (text = ""))
  | None => false
  end.

(** The characters of a [std::string], as bytes. *)
Definition bytes_of (s : string) : list Z :=
  (fun c => Z.of_N (N_of_ascii c)) <$> list_ascii_of_string s.

(** [memcpy] to the start of a block. *)
Definition memcpy (destination source : list Z) : list Z :=
  source ++ drop (length source) destination.

Definition copy_name (destination : option (list Z)) (capacity : nat) (source : string)
    : option (list Z) :=
  match destination with
  | None => None
  | Some block =>
      if bool_decide (capacity = 0) then Some block
      else
        let count := Nat.min (capacity - 1) (length (bytes_of source)) in
        Some (<[count := 0%Z]> (memcpy block (take count (bytes_of source))))
  end.

(** [data, data + size). *)
Definition make_pdu (data : option (list Z)) (size : nat) : PduData :=
  if bool_decide (size = 0) then [] else take size (default [] data).

Section Errors.
Context {Err : Type} `{CErrors Err}.

Definition copy_pdu (source : PduData) (destination : option (list Z)) (capacity : nat)
    (out_size : option Z) : option (list Z) * option Z * Err :=
  match out_size with
  | None => (destination, out_size, err_invalid_argument)
  | Some _ =>
      let out_size := Some (Z.of_nat (length source)) in
      if (capacity <? length source)
         || (negb (bool_decide (source = [])) && bool_decide (destination = None))
      then (destination, out_size, err_buffer_too_small)
      else if bool_decide (source = []) then (destination, out_size, err_ok)
      else ((fun block => memcpy block source) <$> destination, out_size, err_ok)
  end.

(** [out_buffer] points to a pointer, which is NULL or a block. *)
Definition allocate_pdu (malloc_ok : bool) (source : PduData)
    (out_buffer : option (option (list Z))) (out_size : option Z)
    : option (option (list Z)) * option Z * Err :=
  match out_buffer, out_size with
  | Some _, Some _ =>
      if bool_decide (source = []) then (Some None, Some 0%Z, err_ok)
      else if negb malloc_ok then (Some None, Some 0%Z, err_internal)
      else (Some (Some source), Some (Z.of_nat (length source)), err_ok)
  | _, _ => (out_buffer, out_size, err_invalid_argument)
  end.
End Errors.

(** ** Names *)

(** The text a C program reads from a field: up to the first NUL. *)
Fixpoint c_text (block : list Z) : list Z :=
  match block with
  | [] => []
  | b :: rest => if (b =? 0)%Z then [] else b :: c_text rest
  end.

Lemma c_text_app l rest : Forall (fun b => b <> 0%Z) l -> c_text (l ++ 0%Z :: rest) = l.
Proof.
  induction 1 as [|b l Hb _ IH]; [done|]. cbn. destruct (Z.eqb_spec b 0); [done|]. by rewrite IH.
Qed.

Lemma memcpy_length destination source :
  length source <= length destination -> length (memcpy destination source) = length destination.
Proof. intros Hl. unfold memcpy. rewrite length_app, length_drop. lia. Qed.

Lemma memcpy_take destination source :
  take (length source) (memcpy destination source) = source.
Proof. unfold memcpy. by rewrite take_app_length. Qed.

Lemma memcpy_drop destination source :
  drop (length source) (memcpy destination source) = drop (length source) destination.
Proof. unfold memcpy. by rewrite drop_app_length. Qed.

(** The field keeps its size, ends in NUL within it, and reads back as the
    longest prefix of the name that fits. *)
Lemma copy_name_spec block source :
  0 < length block -> Forall (fun b => b <> 0%Z) (bytes_of source) ->
  exists block', copy_name (Some block) (length block) source = Some block'
    /\ length block' = length block
    /\ c_text block' = take (length block - 1) (bytes_of source).
Proof.
  intros Hl Hs. unfold copy_name. rewrite bool_decide_eq_false_2 by lia.
  set (count := Nat.min _ _). eexists. split; [done|].
  assert (Hc : length (take count (bytes_of source)) = count) by (rewrite length_take; lia).
  split; [rewrite length_insert, memcpy_length; rewrite ?Hc; lia|].
  unfold memcpy. rewrite Hc, insert_app_r_alt by lia. rewrite Hc, Nat.sub_diag.
  destruct (drop count block) as [|b rest] eqn:Hd.
  { assert (Hz : length (drop count block) = 0) by (by rewrite Hd). rewrite length_drop in Hz. lia. }
  cbn [list_insert insert]. rewrite c_text_app by (by apply Forall_take). subst count.
  destruct (Nat.min_spec (length block - 1) (length (bytes_of source))) as [[? ->]|[? ->]]; [done|].
  by rewrite !take_ge by lia.
Qed.

(** ** Caller buffers *)

Section Facts.
Context {Err : Type} `{CErrors Err} `{EqDecision Err}.

(** What [copy_pdu] does to the caller's memory when the caller told the truth
    about the capacity: the size needed is always reported; either the whole
    packet is copied and nothing beyond it is touched, or nothing is written. *)
Lemma copy_pdu_spec source destination capacity size destination' out_size' (e : Err) :
  copy_pdu source destination capacity (Some size) = (destination', out_size', e) ->
  err_ok <> err_buffer_too_small ->
  out_size' = Some (Z.of_nat (length source))
  /\ (e = err_ok \/ e = err_buffer_too_small)
  /\ (e = err_ok <-> length source <= capacity /\ (source = [] \/ is_Some destination))
  /\ (e = err_ok -> forall block, destination = Some block -> capacity <= length block ->
        exists block', destination' = Some block' /\ length block' = length block
          /\ take (length source) block' = source
          /\ drop (length source) block' = drop (length source) block)
  /\ (e <> err_ok -> destination' = destination).
Proof.
  intros Hc Hne. revert Hc. unfold copy_pdu.
  destruct (Nat.ltb_spec capacity (length source)) as [Hlt|Hge]; cbn [orb].
  { intros [= <- <- <-]. split_and!; try done; [by right|split; [done|lia]]. }
  destruct (decide (source = [])) as [->|Hs].
  - rewrite (bool_decide_eq_true_2 ([] = [])) by done. cbn. intros [= <- <- <-].
    split_and!; try done; [by left|split; [split; [lia|by left]|done]|].
    intros _ block -> _. by exists block.
  - rewrite (bool_decide_eq_false_2 (source = [])) by done. cbn [negb andb].
    case_bool_decide as Hd; intros [= <- <- <-].
    + split_and!; try done; [by right|]. split; [done|]. intros [_ [?|[? ?]]]; congruence.
    + destruct destination as [block|]; [|done]. split_and!; try done; [by left| |].
      * split; [|done]. intros _. split; [done|]. right. eauto.
      * intros _ block0 [= <-] Hcap. exists (memcpy block source).
        split_and!; [done|apply memcpy_length; lia|apply memcpy_take|apply memcpy_drop].
Qed.
End Facts.
End CBuffers.
