(* ===== verification/ClientStateMachine.v ===== *)
(** * Client goal state machine

    The pure transition function of src/action_client_state_machine.cpp with
    the types of action_client_state_machine.hpp, the transition rules of
    docs/design/action/05-client-state-model.md as an inductive relation, and
    the proof that the function implements exactly those rules. *)

From S2P Require Import Prelude ActionTypes.
From Stdlib Require Import ZArith Lia.
From stdpp Require Import base gmap strings list fin_maps relations.

Module ClientSM.

Inductive ClientGoalEventType :=
  | ClientGoalEventType_REQUEST_CANCEL
  | ClientGoalEventType_FEEDBACK_RECEIVED
  | ClientGoalEventType_CANCEL_RESPONSE_ACCEPTED
  | ClientGoalEventType_CANCEL_RESPONSE_REJECTED
  | ClientGoalEventType_RESULT_RECEIVED
  | ClientGoalEventType_CANCEL_REQUEST_SEND_FAILED
  | ClientGoalEventType_CANCEL_RESPONSE_TIMEOUT
  | ClientGoalEventType_RESULT_TIMEOUT
  | ClientGoalEventType_TRANSPORT_DISCONNECTED
  | ClientGoalEventType_CLIENT_SHUTDOWN_REQUESTED
  (** A value of the underlying [std::uint8_t] that names no enumerator. *)
  | ClientGoalEventType_unnamed (raw : Z).

Record ClientGoalEvent := mkClientGoalEvent {
  cge_type : ClientGoalEventType;
  cge_terminal_status : TerminalStatus;
  cge_feedback_sequence : Z;
}.

(** [{type}]: the two other members keep their default initialisers. *)
Definition client_goal_event (t : ClientGoalEventType) : ClientGoalEvent :=
  mkClientGoalEvent t TerminalStatus_UNSPECIFIED 0.

Record ClientGoalContext := mkClientGoalContext {
  cgc_state : GoalState;
  cgc_cancel_response_pending : bool;
  cgc_result_pending : bool;
  cgc_next_feedback_sequence : Z;
  cgc_terminal_status : TerminalStatus;
}.

(** [ClientGoalContext{}]. *)
Definition initial_client_context : ClientGoalContext :=
  mkClientGoalContext GoalState_EXECUTING false true 0 TerminalStatus_UNSPECIFIED.

Inductive ClientTransitionKind :=
  | ClientTransitionKind_TRANSITIONED
  | ClientTransitionKind_NOP
  | ClientTransitionKind_ERROR.

Inductive ClientTransitionError :=
  | ClientTransitionError_NONE
  | ClientTransitionError_INVALID_CONTEXT
  | ClientTransitionError_EVENT_NOT_ALLOWED
  | ClientTransitionError_CANCEL_REQUEST_ALREADY_PENDING
  | ClientTransitionError_UNKNOWN_EVENT.

Record ClientTransition := mkClientTransition {
  ct_kind : ClientTransitionKind;
  ct_next : ClientGoalContext;
  ct_error : ClientTransitionError;
}.

#[export] Instance ClientTransitionKind_eq_dec : EqDecision ClientTransitionKind.
Proof. solve_decision. Defined.
#[export] Instance ClientTransitionError_eq_dec : EqDecision ClientTransitionError.
Proof. solve_decision. Defined.
#[export] Instance ClientGoalContext_eq_dec : EqDecision ClientGoalContext.
Proof. solve_decision. Defined.

Definition ct_transitioned (t : ClientTransition) : bool :=
  bool_decide (ct_kind t = ClientTransitionKind_TRANSITIONED).

Definition ct_is_nop (t : ClientTransition) : bool :=
  bool_decide (ct_kind t = ClientTransitionKind_NOP).

Definition ct_is_error (t : ClientTransition) : bool :=
  bool_decide (ct_kind t = ClientTransitionKind_ERROR).

Definition client_result (current : ClientGoalContext) (kind : ClientTransitionKind)
    (error : ClientTransitionError) : ClientTransition :=
  mkClientTransition kind current error.

Definition is_goal_state (state : GoalState) : bool :=
  bool_decide (state = GoalState_EXECUTING)
  || bool_decide (state = GoalState_CANCELING)
  || bool_decide (state = GoalState_FINISHING).

Definition is_valid_client_context (context : ClientGoalContext) : bool :=
  if negb (is_goal_state (cgc_state context)) then false
  else if cgc_cancel_response_pending context
          && negb (bool_decide (cgc_state context = GoalState_EXECUTING)) then false
  else if bool_decide (cgc_state context = GoalState_FINISHING) then
    negb (cgc_result_pending context)
    && (bool_decide (cgc_terminal_status context = TerminalStatus_SUCCEEDED)
        || bool_decide (cgc_terminal_status context = TerminalStatus_CANCELED)
        || bool_decide (cgc_terminal_status context = TerminalStatus_ABORTED))
  else
    cgc_result_pending context
    && bool_decide (cgc_terminal_status context = TerminalStatus_UNSPECIFIED).

(** The statuses a Result may carry in each state (the [allowed] flag). *)
Definition result_allowed (state : GoalState) (status : TerminalStatus) : bool :=
  (bool_decide (state = GoalState_EXECUTING)
   && (bool_decide (status = TerminalStatus_SUCCEEDED)
       || bool_decide (status = TerminalStatus_ABORTED)))
  || (bool_decide (state = GoalState_CANCELING)
      && (bool_decide (status = TerminalStatus_CANCELED)
          || bool_decide (status = TerminalStatus_ABORTED))).

Definition receive_client_result (current : ClientGoalContext)
    (status : TerminalStatus) : ClientTransition :=
  if bool_decide (cgc_state current = GoalState_FINISHING) then
    client_result current ClientTransitionKind_NOP ClientTransitionError_NONE
  else if negb (result_allowed (cgc_state current) status) then
    client_result current ClientTransitionKind_NOP ClientTransitionError_NONE
  else
    client_result
      (mkClientGoalContext GoalState_FINISHING false false
         (cgc_next_feedback_sequence current) status)
      ClientTransitionKind_TRANSITIONED ClientTransitionError_NONE.

(** [result.next.cancel_response_pending = b]. *)
Definition set_cancel_response_pending (b : bool) (c : ClientGoalContext)
    : ClientGoalContext :=
  mkClientGoalContext (cgc_state c) b (cgc_result_pending c)
    (cgc_next_feedback_sequence c) (cgc_terminal_status c).

Definition transition_client_goal (current : ClientGoalContext)
    (event : ClientGoalEvent) : ClientTransition :=
  let nop := client_result current ClientTransitionKind_NOP ClientTransitionError_NONE in
  let err e := client_result current ClientTransitionKind_ERROR e in
  let moved next :=
    client_result next ClientTransitionKind_TRANSITIONED ClientTransitionError_NONE in
  if negb (is_valid_client_context current) then
    err ClientTransitionError_INVALID_CONTEXT
  else
    match cge_type event with
    | ClientGoalEventType_REQUEST_CANCEL =>
        if negb (bool_decide (cgc_state current = GoalState_EXECUTING)) then
          err ClientTransitionError_EVENT_NOT_ALLOWED
        else if cgc_cancel_response_pending current then
          err ClientTransitionError_CANCEL_REQUEST_ALREADY_PENDING
        else moved (set_cancel_response_pending true current)
    | ClientGoalEventType_FEEDBACK_RECEIVED =>
        if bool_decide (cgc_state current = GoalState_FINISHING)
           || negb (cge_feedback_sequence event =? cgc_next_feedback_sequence current)%Z
        then nop
        else moved (mkClientGoalContext (cgc_state current)
                      (cgc_cancel_response_pending current) (cgc_result_pending current)
                      (u32_succ (cgc_next_feedback_sequence current))
                      (cgc_terminal_status current))
    | ClientGoalEventType_CANCEL_RESPONSE_ACCEPTED =>
        if bool_decide (cgc_state current = GoalState_CANCELING) then nop
        else if negb (bool_decide (cgc_state current = GoalState_EXECUTING))
                || negb (cgc_cancel_response_pending current) then nop
        else moved (mkClientGoalContext GoalState_CANCELING false
                      (cgc_result_pending current)
                      (cgc_next_feedback_sequence current) (cgc_terminal_status current))
    | ClientGoalEventType_CANCEL_RESPONSE_REJECTED =>
        if negb (bool_decide (cgc_state current = GoalState_EXECUTING))
           || negb (cgc_cancel_response_pending current) then nop
        else moved (set_cancel_response_pending false current)
    | ClientGoalEventType_RESULT_RECEIVED =>
        receive_client_result current (cge_terminal_status event)
    | ClientGoalEventType_CANCEL_REQUEST_SEND_FAILED =>
        if bool_decide (cgc_state current = GoalState_EXECUTING)
           && cgc_cancel_response_pending current
        then moved (set_cancel_response_pending false current)
        else err ClientTransitionError_EVENT_NOT_ALLOWED
    | ClientGoalEventType_CANCEL_RESPONSE_TIMEOUT
    | ClientGoalEventType_RESULT_TIMEOUT
    | ClientGoalEventType_TRANSPORT_DISCONNECTED
    | ClientGoalEventType_CLIENT_SHUTDOWN_REQUESTED => nop
    | ClientGoalEventType_unnamed _ => err ClientTransitionError_UNKNOWN_EVENT
    end.

(** ** The documented rules *)

(** Rows of the matrices of 05-client-state-model.md (sections 8, 9 and 11)
    whose outcome changes the context. *)
Inductive client_rule : ClientGoalContext -> ClientGoalEvent -> ClientGoalContext -> Prop :=
  | rule_request_cancel n st sq :
      client_rule
        (mkClientGoalContext GoalState_EXECUTING false true n TerminalStatus_UNSPECIFIED)
        (mkClientGoalEvent ClientGoalEventType_REQUEST_CANCEL st sq)
        (mkClientGoalContext GoalState_EXECUTING true true n TerminalStatus_UNSPECIFIED)
  | rule_feedback s p n st :
      s = GoalState_EXECUTING \/ s = GoalState_CANCELING ->
      client_rule
        (mkClientGoalContext s p true n TerminalStatus_UNSPECIFIED)
        (mkClientGoalEvent ClientGoalEventType_FEEDBACK_RECEIVED st n)
        (mkClientGoalContext s p true (u32_succ n) TerminalStatus_UNSPECIFIED)
  | rule_cancel_accepted n st sq :
      client_rule
        (mkClientGoalContext GoalState_EXECUTING true true n TerminalStatus_UNSPECIFIED)
        (mkClientGoalEvent ClientGoalEventType_CANCEL_RESPONSE_ACCEPTED st sq)
        (mkClientGoalContext GoalState_CANCELING false true n TerminalStatus_UNSPECIFIED)
  | rule_cancel_rejected n st sq :
      client_rule
        (mkClientGoalContext GoalState_EXECUTING true true n TerminalStatus_UNSPECIFIED)
        (mkClientGoalEvent ClientGoalEventType_CANCEL_RESPONSE_REJECTED st sq)
        (mkClientGoalContext GoalState_EXECUTING false true n TerminalStatus_UNSPECIFIED)
  | rule_cancel_send_failed n st sq :
      client_rule
        (mkClientGoalContext GoalState_EXECUTING true true n TerminalStatus_UNSPECIFIED)
        (mkClientGoalEvent ClientGoalEventType_CANCEL_REQUEST_SEND_FAILED st sq)
        (mkClientGoalContext GoalState_EXECUTING false true n TerminalStatus_UNSPECIFIED)
  | rule_result_executing p n st sq :
      st = TerminalStatus_SUCCEEDED \/ st = TerminalStatus_ABORTED ->
      client_rule
        (mkClientGoalContext GoalState_EXECUTING p true n TerminalStatus_UNSPECIFIED)
        (mkClientGoalEvent ClientGoalEventType_RESULT_RECEIVED st sq)
        (mkClientGoalContext GoalState_FINISHING false false n st)
  | rule_result_canceling n st sq :
      st = TerminalStatus_CANCELED \/ st = TerminalStatus_ABORTED ->
      client_rule
        (mkClientGoalContext GoalState_CANCELING false true n TerminalStatus_UNSPECIFIED)
        (mkClientGoalEvent ClientGoalEventType_RESULT_RECEIVED st sq)
        (mkClientGoalContext GoalState_FINISHING false false n st).

(** One step of the machine: an event that the function reports as a
    transition. *)
Definition client_step (c c' : ClientGoalContext) : Prop :=
  exists e, ct_kind (transition_client_goal c e) = ClientTransitionKind_TRANSITIONED
            /\ ct_next (transition_client_goal c e) = c'.

(** ** Lemmas *)

Lemma client_rule_transition c e c' :
  client_rule c e c' ->
  is_valid_client_context c = true ->
  transition_client_goal c e
  = mkClientTransition ClientTransitionKind_TRANSITIONED c' ClientTransitionError_NONE.
Proof.
  intros Hr Hv. unfold transition_client_goal. rewrite Hv. clear Hv.
  destruct Hr; cbn; rewrite ?Z.eqb_refl; try done.
  - by destruct H as [-> | ->].
  - by destruct H as [-> | ->].
  - by destruct H as [-> | ->].
Qed.

Lemma transition_client_rule c e :
  ct_kind (transition_client_goal c e) = ClientTransitionKind_TRANSITIONED ->
  is_valid_client_context c = true
  /\ client_rule c e (ct_next (transition_client_goal c e)).
Proof.
  destruct c as [[] [] [] n []], e as [[] [] sq];
    unfold transition_client_goal, receive_client_result; cbn; try done;
    repeat split_guard; cbn; intros; simpl_bools; try done; subst;
    split; try done; constructor; auto.
Qed.

Lemma client_rule_valid c e c' :
  client_rule c e c' -> is_valid_client_context c = true ->
  is_valid_client_context c' = true.
Proof. destruct 1; naive_solver. Qed.

Lemma client_rule_changes c e c' : client_rule c e c' -> c <> c'.
Proof.
  destruct 1; try done. intros [= Hn]. by apply (u32_succ_neq n).
Qed.

Lemma transition_client_stays c e :
  ct_kind (transition_client_goal c e) <> ClientTransitionKind_TRANSITIONED ->
  ct_next (transition_client_goal c e) = c.
Proof.
  unfold transition_client_goal, receive_client_result, client_result.
  repeat split_guard; cbn; congruence.
Qed.

Lemma client_step_valid c c' :
  is_valid_client_context c = true -> client_step c c' ->
  is_valid_client_context c' = true.
Proof.
  intros Hv (e & Hk & <-). apply transition_client_rule in Hk as [_ Hr].
  eauto using client_rule_valid.
Qed.

Lemma client_steps_valid c c' :
  rtc client_step c c' -> is_valid_client_context c = true ->
  is_valid_client_context c' = true.
Proof. induction 1; eauto using client_step_valid. Qed.

Lemma client_step_not_finishing c c' :
  client_step c c' -> cgc_state c <> GoalState_FINISHING.
Proof.
  intros (e & Hk & _). apply transition_client_rule in Hk as [_ Hr].
  destruct Hr; cbn; naive_solver.
Qed.

(** ** Properties *)

(** C27 — The client transition function implements exactly the documented
    rules: an event moves a context to [c'] if and only if the context is
    well formed and a row of the state matrices leads there; the reported
    error is then [NONE]. *)
Theorem transition_client_goal_spec c e c' :
  transition_client_goal c e
  = mkClientTransition ClientTransitionKind_TRANSITIONED c' ClientTransitionError_NONE
  <-> is_valid_client_context c = true /\ client_rule c e c'.
Proof.
  split.
  - intros Ht. pose proof (transition_client_rule c e) as Hr.
    rewrite Ht in Hr. by apply Hr.
  - intros [Hv Hr]. by apply client_rule_transition.
Qed.

(** Every context a client goal can reach from its initial one is well
    formed, so the machine never reports [INVALID_CONTEXT]; a transition always
    changes the context, NOP and ERROR never do, and nothing leaves
    [FINISHING]. *)
Theorem client_goal_reachable_contexts c e :
  rtc client_step initial_client_context c ->
  is_valid_client_context c = true
  /\ ct_error (transition_client_goal c e) <> ClientTransitionError_INVALID_CONTEXT
  /\ (ct_kind (transition_client_goal c e) = ClientTransitionKind_TRANSITIONED
      <-> ct_next (transition_client_goal c e) <> c)
  /\ (cgc_state c = GoalState_FINISHING -> ct_next (transition_client_goal c e) = c).
Proof.
  intros Hr. apply client_steps_valid in Hr as Hv; [|done]. repeat split; [done|..].
  - unfold transition_client_goal, receive_client_result. rewrite Hv.
    by repeat split_guard.
  - intros Hk Heq. apply transition_client_rule in Hk as [_ Hk].
    apply client_rule_changes in Hk. by rewrite Heq in Hk.
  - intros Hne. destruct (decide (ct_kind (transition_client_goal c e)
      = ClientTransitionKind_TRANSITIONED)); [done|].
    by apply transition_client_stays in n.
  - intros Hf. apply transition_client_stays. intros Hk.
    apply (client_step_not_finishing c (ct_next (transition_client_goal c e))); [|done].
    by exists e.
Qed.

Lemma client_goal_reachable_contexts_witness :
  ct_next (transition_client_goal
             (set_cancel_response_pending true initial_client_context)
             (mkClientGoalEvent ClientGoalEventType_RESULT_RECEIVED
                TerminalStatus_SUCCEEDED 0))
  <> set_cancel_response_pending true initial_client_context.
Proof.
  apply (client_goal_reachable_contexts
           (set_cancel_response_pending true initial_client_context)
           (mkClientGoalEvent ClientGoalEventType_RESULT_RECEIVED
              TerminalStatus_SUCCEEDED 0)); [|reflexivity].
  apply rtc_once. by exists (client_goal_event ClientGoalEventType_REQUEST_CANCEL).
Defined.

End ClientSM.
