(* ===== verification/ServerStateMachine.v ===== *)
(** * Server goal state machine

    The pure transition function of src/action_server_state_machine.cpp with
    the types of action_server_state_machine.hpp, its transition rules as an
    inductive relation, and the proof that the function implements exactly those
    rules. The rules are those of docs/design/action/04-state-model.md, sections
    9 to 12, with the reclassification section 11 describes for a client cancel
    that is pending when the transport disconnects. The document is not
    consistent there: the list of fixed cells in its section 17 makes a runtime
    cancel against a pending decision a NOP that leaves the origin alone. The code
    follows section 11, and so do the rules. *)

From S2P Require Import Prelude ActionTypes.
From Stdlib Require Import ZArith Lia.
From stdpp Require Import base gmap strings list fin_maps relations.

Module ServerSM.

Inductive CancelOrigin :=
  | CancelOrigin_NONE
  | CancelOrigin_CLIENT
  | CancelOrigin_RUNTIME.

Inductive ServerGoalEvent :=
  | ServerGoalEvent_PUBLISH_FEEDBACK
  | ServerGoalEvent_COMPLETE_SUCCEEDED
  | ServerGoalEvent_COMPLETE_CANCELED
  | ServerGoalEvent_COMPLETE_ABORTED
  | ServerGoalEvent_COMPLETE_UNSPECIFIED
  | ServerGoalEvent_ACCEPT_CANCEL
  | ServerGoalEvent_REJECT_CANCEL
  | ServerGoalEvent_CANCEL_REQUEST_RECEIVED
  | ServerGoalEvent_DUPLICATE_CANCEL_REQUEST_RECEIVED
  | ServerGoalEvent_DUPLICATE_GOAL_REQUEST_RECEIVED
  | ServerGoalEvent_FEEDBACK_SEND_COMPLETED
  | ServerGoalEvent_FEEDBACK_SEND_FAILED
  | ServerGoalEvent_RESULT_SEND_COMPLETED
  | ServerGoalEvent_RESULT_SEND_FAILED
  | ServerGoalEvent_TRANSPORT_DISCONNECTED
  | ServerGoalEvent_RUNTIME_CANCEL_REQUESTED
  | ServerGoalEvent_APPLICATION_RESPONSE_TIMEOUT
  | ServerGoalEvent_SERVER_SHUTDOWN_REQUESTED
  (** A value of the underlying [std::uint8_t] that names no enumerator. *)
  | ServerGoalEvent_unnamed (raw : Z).

#[export] Instance CancelOrigin_eq_dec : EqDecision CancelOrigin.
Proof. solve_decision. Defined.
#[export] Instance ServerGoalEvent_eq_dec : EqDecision ServerGoalEvent.
Proof. solve_decision. Defined.

Record ServerGoalContext := mkServerGoalContext {
  sgc_state : GoalState;
  sgc_cancel_decision_pending : bool;
  sgc_cancel_origin : CancelOrigin;
  sgc_terminal_status : TerminalStatus;
}.

(** [ServerGoalContext{}]. *)
Definition initial_server_context : ServerGoalContext :=
  mkServerGoalContext GoalState_EXECUTING false CancelOrigin_NONE
    TerminalStatus_UNSPECIFIED.

Inductive ServerTransitionKind :=
  | ServerTransitionKind_TRANSITIONED
  | ServerTransitionKind_NOP
  | ServerTransitionKind_ERROR.

Inductive ServerTransitionError :=
  | ServerTransitionError_NONE
  | ServerTransitionError_INVALID_CONTEXT
  | ServerTransitionError_EVENT_NOT_ALLOWED
  | ServerTransitionError_CANCEL_DECISION_NOT_PENDING
  | ServerTransitionError_INVALID_TERMINAL_STATUS
  | ServerTransitionError_UNKNOWN_EVENT.

Record ServerTransition := mkServerTransition {
  st_kind : ServerTransitionKind;
  st_next : ServerGoalContext;
  st_error : ServerTransitionError;
}.

#[export] Instance ServerTransitionKind_eq_dec : EqDecision ServerTransitionKind.
Proof. solve_decision. Defined.
#[export] Instance ServerTransitionError_eq_dec : EqDecision ServerTransitionError.
Proof. solve_decision. Defined.
#[export] Instance ServerGoalContext_eq_dec : EqDecision ServerGoalContext.
Proof. solve_decision. Defined.

Definition st_transitioned (t : ServerTransition) : bool :=
  bool_decide (st_kind t = ServerTransitionKind_TRANSITIONED).

Definition st_is_nop (t : ServerTransition) : bool :=
  bool_decide (st_kind t = ServerTransitionKind_NOP).

Definition st_is_error (t : ServerTransition) : bool :=
  bool_decide (st_kind t = ServerTransitionKind_ERROR).

Definition server_result (current : ServerGoalContext) (kind : ServerTransitionKind)
    (error : ServerTransitionError) : ServerTransition :=
  mkServerTransition kind current error.

Definition is_goal_state (state : GoalState) : bool :=
  bool_decide (state = GoalState_EXECUTING)
  || bool_decide (state = GoalState_CANCELING)
  || bool_decide (state = GoalState_FINISHING).

Definition is_valid_server_context (context : ServerGoalContext) : bool :=
  if negb (is_goal_state (sgc_state context)) then false
  else if negb (Bool.eqb (sgc_cancel_decision_pending context)
                  (negb (bool_decide (sgc_cancel_origin context = CancelOrigin_NONE))))
  then false
  else if sgc_cancel_decision_pending context
          && negb (bool_decide (sgc_state context = GoalState_EXECUTING)) then false
  else if bool_decide (sgc_state context = GoalState_FINISHING) then
    bool_decide (sgc_terminal_status context = TerminalStatus_SUCCEEDED)
    || bool_decide (sgc_terminal_status context = TerminalStatus_CANCELED)
    || bool_decide (sgc_terminal_status context = TerminalStatus_ABORTED)
  else bool_decide (sgc_terminal_status context = TerminalStatus_UNSPECIFIED).

(** The [allowed] flag of [complete_server_goal]. *)
Definition completion_allowed (state : GoalState) (status : TerminalStatus) : bool :=
  (bool_decide (state = GoalState_EXECUTING)
   && (bool_decide (status = TerminalStatus_SUCCEEDED)
       || bool_decide (status = TerminalStatus_ABORTED)))
  || (bool_decide (state = GoalState_CANCELING)
      && (bool_decide (status = TerminalStatus_CANCELED)
          || bool_decide (status = TerminalStatus_ABORTED))).

Definition complete_server_goal (current : ServerGoalContext)
    (status : TerminalStatus) : ServerTransition :=
  if negb (completion_allowed (sgc_state current) status) then
    server_result current ServerTransitionKind_ERROR
      (if bool_decide (status = TerminalStatus_UNSPECIFIED)
       then ServerTransitionError_INVALID_TERMINAL_STATUS
       else ServerTransitionError_EVENT_NOT_ALLOWED)
  else
    server_result
      (mkServerGoalContext GoalState_FINISHING false CancelOrigin_NONE status)
      ServerTransitionKind_TRANSITIONED ServerTransitionError_NONE.

Definition transition_server_goal (current : ServerGoalContext)
    (event : ServerGoalEvent) : ServerTransition :=
  let nop := server_result current ServerTransitionKind_NOP ServerTransitionError_NONE in
  let err e := server_result current ServerTransitionKind_ERROR e in
  let moved next :=
    server_result next ServerTransitionKind_TRANSITIONED ServerTransitionError_NONE in
  let state := sgc_state current in
  let pending := sgc_cancel_decision_pending current in
  let decide_cancel (accepted : bool) :=
    if negb (bool_decide (state = GoalState_EXECUTING)) then
      err ServerTransitionError_EVENT_NOT_ALLOWED
    else if negb pending
            || bool_decide (sgc_cancel_origin current = CancelOrigin_NONE) then
      err ServerTransitionError_CANCEL_DECISION_NOT_PENDING
    else moved (mkServerGoalContext
                  (if accepted then GoalState_CANCELING else GoalState_EXECUTING)
                  false CancelOrigin_NONE (sgc_terminal_status current)) in
  if negb (is_valid_server_context current) then
    err ServerTransitionError_INVALID_CONTEXT
  else
    match event with
    | ServerGoalEvent_PUBLISH_FEEDBACK =>
        if bool_decide (state = GoalState_EXECUTING)
           || bool_decide (state = GoalState_CANCELING)
        then nop else err ServerTransitionError_EVENT_NOT_ALLOWED
    | ServerGoalEvent_COMPLETE_SUCCEEDED =>
        complete_server_goal current TerminalStatus_SUCCEEDED
    | ServerGoalEvent_COMPLETE_CANCELED =>
        complete_server_goal current TerminalStatus_CANCELED
    | ServerGoalEvent_COMPLETE_ABORTED =>
        complete_server_goal current TerminalStatus_ABORTED
    | ServerGoalEvent_COMPLETE_UNSPECIFIED =>
        err ServerTransitionError_INVALID_TERMINAL_STATUS
    | ServerGoalEvent_ACCEPT_CANCEL => decide_cancel true
    | ServerGoalEvent_REJECT_CANCEL => decide_cancel false
    | ServerGoalEvent_CANCEL_REQUEST_RECEIVED =>
        if negb (bool_decide (state = GoalState_EXECUTING)) || pending then nop
        else moved (mkServerGoalContext state true CancelOrigin_CLIENT
                      (sgc_terminal_status current))
    | ServerGoalEvent_DUPLICATE_CANCEL_REQUEST_RECEIVED
    | ServerGoalEvent_DUPLICATE_GOAL_REQUEST_RECEIVED
    | ServerGoalEvent_FEEDBACK_SEND_COMPLETED
    | ServerGoalEvent_FEEDBACK_SEND_FAILED => nop
    | ServerGoalEvent_RESULT_SEND_COMPLETED
    | ServerGoalEvent_RESULT_SEND_FAILED =>
        if bool_decide (state = GoalState_FINISHING) then nop
        else err ServerTransitionError_EVENT_NOT_ALLOWED
    | ServerGoalEvent_TRANSPORT_DISCONNECTED
    | ServerGoalEvent_APPLICATION_RESPONSE_TIMEOUT
    | ServerGoalEvent_SERVER_SHUTDOWN_REQUESTED => nop
    | ServerGoalEvent_RUNTIME_CANCEL_REQUESTED =>
        if bool_decide (state = GoalState_CANCELING) then nop
        else if bool_decide (state = GoalState_FINISHING) then nop
        else if pending then
          if bool_decide (sgc_cancel_origin current = CancelOrigin_RUNTIME) then nop
          else moved (mkServerGoalContext state pending CancelOrigin_RUNTIME
                        (sgc_terminal_status current))
        else moved (mkServerGoalContext state true CancelOrigin_RUNTIME
                      (sgc_terminal_status current))
    | ServerGoalEvent_unnamed _ => err ServerTransitionError_UNKNOWN_EVENT
    end.

(** ** The documented rules *)

Abbreviation executing p o :=
  (mkServerGoalContext GoalState_EXECUTING p o TerminalStatus_UNSPECIFIED).
Abbreviation canceling :=
  (mkServerGoalContext GoalState_CANCELING false CancelOrigin_NONE
     TerminalStatus_UNSPECIFIED).
Abbreviation finishing st :=
  (mkServerGoalContext GoalState_FINISHING false CancelOrigin_NONE st).

(** The event that requests completion with a given status. *)
Definition complete_event (st : TerminalStatus) : ServerGoalEvent :=
  match st with
  | TerminalStatus_UNSPECIFIED => ServerGoalEvent_COMPLETE_UNSPECIFIED
  | TerminalStatus_SUCCEEDED => ServerGoalEvent_COMPLETE_SUCCEEDED
  | TerminalStatus_CANCELED => ServerGoalEvent_COMPLETE_CANCELED
  | TerminalStatus_ABORTED => ServerGoalEvent_COMPLETE_ABORTED
  end.

(** The rows of the matrices of 04-state-model.md, sections 9, 10 and 12, whose
    outcome changes the context, and the reclassification of section 11
    ([rule_runtime_cancel_reclassify], against section 17). *)
Inductive server_rule : ServerGoalContext -> ServerGoalEvent -> ServerGoalContext -> Prop :=
  | rule_complete_executing p o st :
      st = TerminalStatus_SUCCEEDED \/ st = TerminalStatus_ABORTED ->
      server_rule (executing p o) (complete_event st) (finishing st)
  | rule_complete_canceling st :
      st = TerminalStatus_CANCELED \/ st = TerminalStatus_ABORTED ->
      server_rule canceling (complete_event st) (finishing st)
  | rule_accept_cancel o :
      server_rule (executing true o) ServerGoalEvent_ACCEPT_CANCEL canceling
  | rule_reject_cancel o :
      server_rule (executing true o) ServerGoalEvent_REJECT_CANCEL
        (executing false CancelOrigin_NONE)
  | rule_cancel_request :
      server_rule (executing false CancelOrigin_NONE)
        ServerGoalEvent_CANCEL_REQUEST_RECEIVED (executing true CancelOrigin_CLIENT)
  | rule_runtime_cancel :
      server_rule (executing false CancelOrigin_NONE)
        ServerGoalEvent_RUNTIME_CANCEL_REQUESTED (executing true CancelOrigin_RUNTIME)
  | rule_runtime_cancel_reclassify :
      server_rule (executing true CancelOrigin_CLIENT)
        ServerGoalEvent_RUNTIME_CANCEL_REQUESTED (executing true CancelOrigin_RUNTIME).

Definition server_step (c c' : ServerGoalContext) : Prop :=
  exists e, st_kind (transition_server_goal c e) = ServerTransitionKind_TRANSITIONED
            /\ st_next (transition_server_goal c e) = c'.

(** The context after a sequence of events; NOP and ERROR leave it in place. *)
Fixpoint run_server (c : ServerGoalContext) (events : list ServerGoalEvent)
    : ServerGoalContext :=
  match events with
  | [] => c
  | e :: rest => run_server (st_next (transition_server_goal c e)) rest
  end.

(** ** Lemmas *)

Lemma server_rule_transition c e c' :
  server_rule c e c' -> is_valid_server_context c = true ->
  transition_server_goal c e
  = mkServerTransition ServerTransitionKind_TRANSITIONED c' ServerTransitionError_NONE.
Proof.
  intros Hr Hv. unfold transition_server_goal. rewrite Hv.
  destruct Hr as [p o st [-> | ->]|st [-> | ->]|[]|[]| | |]; done.
Qed.

Lemma transition_server_rule c e :
  st_kind (transition_server_goal c e) = ServerTransitionKind_TRANSITIONED ->
  is_valid_server_context c = true
  /\ server_rule c e (st_next (transition_server_goal c e)).
Proof.
  destruct c as [[] [] [] []]; destruct e; cbn; try done; intros _; split; try done;
    first [ by apply (rule_complete_executing _ _ TerminalStatus_SUCCEEDED); auto
          | by apply (rule_complete_executing _ _ TerminalStatus_ABORTED); auto
          | by apply (rule_complete_canceling TerminalStatus_CANCELED); auto
          | by apply (rule_complete_canceling TerminalStatus_ABORTED); auto
          | by constructor ].
Qed.

Lemma server_rule_valid c e c' :
  server_rule c e c' -> is_valid_server_context c'.
Proof. by destruct 1 as [? ? st [-> | ->]|st [-> | ->]| | | | |]. Qed.

Lemma server_rule_changes c e c' : server_rule c e c' -> c <> c'.
Proof. by destruct 1. Qed.

Lemma transition_server_stays c e :
  st_kind (transition_server_goal c e) <> ServerTransitionKind_TRANSITIONED ->
  st_next (transition_server_goal c e) = c.
Proof.
  unfold transition_server_goal, complete_server_goal, server_result.
  repeat split_guard; cbn; congruence.
Qed.

Lemma transition_server_cases c e :
  st_next (transition_server_goal c e) = c
  \/ server_rule c e (st_next (transition_server_goal c e)).
Proof.
  destruct (decide (st_kind (transition_server_goal c e)
                    = ServerTransitionKind_TRANSITIONED)).
  - right. by apply transition_server_rule.
  - left. by apply transition_server_stays.
Qed.

Lemma server_steps_valid c c' :
  rtc server_step c c' -> is_valid_server_context c = true ->
  is_valid_server_context c' = true.
Proof.
  induction 1 as [|c c1 c2 (e & Hk & <-) _ IH]; [done|]. intros _. apply IH.
  apply transition_server_rule in Hk as [_ Hr].
  apply Is_true_eq_true. eauto using server_rule_valid.
Qed.

Lemma run_server_app c l1 l2 :
  run_server c (l1 ++ l2) = run_server (run_server c l1) l2.
Proof. revert c. induction l1 as [|e l1 IH]; intros c; simpl; auto. Qed.

(** A pending decision stems from an earlier cancel request. *)
Lemma run_server_pending l :
  sgc_cancel_decision_pending (run_server initial_server_context l) = true ->
  ServerGoalEvent_CANCEL_REQUEST_RECEIVED ∈ l
  \/ ServerGoalEvent_RUNTIME_CANCEL_REQUESTED ∈ l.
Proof.
  induction l as [|e l IH] using rev_ind; [done|].
  rewrite run_server_app. simpl. rewrite !elem_of_app.
  set (c := run_server initial_server_context l) in *.
  destruct (transition_server_cases c e) as [-> | Hr]; [naive_solver|].
  destruct Hr; simpl; try done; rewrite ?list_elem_of_singleton; naive_solver.
Qed.

(** Entering the cancellation branch takes an accepted decision, after a
    request. *)
Lemma run_server_cancel_branch l :
  let c := run_server initial_server_context l in
  sgc_state c = GoalState_CANCELING \/ sgc_terminal_status c = TerminalStatus_CANCELED ->
  exists l1 l2, l = l1 ++ ServerGoalEvent_ACCEPT_CANCEL :: l2
    /\ (ServerGoalEvent_CANCEL_REQUEST_RECEIVED ∈ l1
        \/ ServerGoalEvent_RUNTIME_CANCEL_REQUESTED ∈ l1).
Proof.
  induction l as [|e l IH] using rev_ind; [by intros c [?|?]|].
  rewrite run_server_app. cbn [run_server].
  pose proof (run_server_pending l) as Hp.
  set (c := run_server initial_server_context l) in *.
  assert (Hold : sgc_state c = GoalState_CANCELING
                 \/ sgc_terminal_status c = TerminalStatus_CANCELED ->
          exists l1 l2, l ++ [e] = l1 ++ ServerGoalEvent_ACCEPT_CANCEL :: l2
            /\ (ServerGoalEvent_CANCEL_REQUEST_RECEIVED ∈ l1
                \/ ServerGoalEvent_RUNTIME_CANCEL_REQUESTED ∈ l1)).
  { intros Hc. destruct (IH Hc) as (l1 & l2 & -> & Hin). exists l1, (l2 ++ [e]).
    by rewrite <-(assoc_L (++)). }
  destruct (transition_server_cases c e) as [-> | Hr]; [exact Hold|].
  destruct Hr as [? ? st [-> | ->]|st Hst|o| | | |]; cbn; try (by intros [?|?]).
  - intros _. apply Hold. by left.
  - intros _. exists l, []. split; [done|]. by apply Hp.
Qed.

(** ** Properties *)

(** C26 — The server transition function implements exactly the rules
    [server_rule], and everything else leaves the context as it is: an event moves
    a context to [c'] if and only if the context is well formed and a rule leads
    there. Two cells of 04-state-model.md are stated as the code has them: a
    runtime cancel on a pending client decision is a transition that overwrites
    the origin (section 11; section 17 says NOP with the origin kept), and a failed
    feedback send in FINISHING is a NOP (the matrix of section 12 says invariant
    violation). *)
Theorem transition_server_goal_spec c e :
  (forall c', transition_server_goal c e
     = mkServerTransition ServerTransitionKind_TRANSITIONED c' ServerTransitionError_NONE
     <-> is_valid_server_context c = true /\ server_rule c e c')
  /\ (st_kind (transition_server_goal c e) = ServerTransitionKind_TRANSITIONED
      \/ st_next (transition_server_goal c e) = c)
  /\ transition_server_goal (executing true CancelOrigin_CLIENT)
       ServerGoalEvent_RUNTIME_CANCEL_REQUESTED
     = mkServerTransition ServerTransitionKind_TRANSITIONED
         (executing true CancelOrigin_RUNTIME) ServerTransitionError_NONE
  /\ (forall st, st = TerminalStatus_UNSPECIFIED
        \/ transition_server_goal (finishing st) ServerGoalEvent_FEEDBACK_SEND_FAILED
           = mkServerTransition ServerTransitionKind_NOP (finishing st)
               ServerTransitionError_NONE).
Proof.
  split; [|split; [|split; [done|intros []; auto]]].
  2: { destruct (decide (st_kind (transition_server_goal c e)
         = ServerTransitionKind_TRANSITIONED)); auto using transition_server_stays. }
  intros c'. split.
  - intros Ht. pose proof (transition_server_rule c e) as Hr.
    rewrite Ht in Hr. by apply Hr.
  - intros [Hv Hr]. by apply server_rule_transition.
Qed.

(** Every context a server goal can reach is well formed, so the machine
    never reports [INVALID_CONTEXT]; a transition always changes the context,
    NOP and ERROR never do, and a goal in [FINISHING] keeps its terminal
    status whatever event follows. *)
Theorem server_goal_reachable_contexts c e :
  rtc server_step initial_server_context c ->
  is_valid_server_context c = true
  /\ st_error (transition_server_goal c e) <> ServerTransitionError_INVALID_CONTEXT
  /\ (st_kind (transition_server_goal c e) = ServerTransitionKind_TRANSITIONED
      <-> st_next (transition_server_goal c e) <> c)
  /\ (sgc_state c = GoalState_FINISHING -> st_next (transition_server_goal c e) = c).
Proof.
  intros Hr. apply server_steps_valid in Hr as Hv; [|done]. repeat split; [done|..].
  - clear Hr. destruct c as [[] [] [] []]; try discriminate Hv; destruct e; discriminate.
  - intros Hk Heq. apply transition_server_rule in Hk as [_ Hk].
    apply server_rule_changes in Hk. by rewrite Heq in Hk.
  - intros Hne. destruct (decide (st_kind (transition_server_goal c e)
      = ServerTransitionKind_TRANSITIONED)); [done|].
    by apply transition_server_stays in n.
  - intros Hf. destruct (transition_server_cases c e) as [|Hrule]; [done|].
    by destruct Hrule.
Qed.

Lemma server_goal_reachable_contexts_witness :
  is_valid_server_context (executing true CancelOrigin_CLIENT) = true.
Proof.
  apply (server_goal_reachable_contexts (executing true CancelOrigin_CLIENT)
           ServerGoalEvent_ACCEPT_CANCEL).
  apply rtc_once. by exists ServerGoalEvent_CANCEL_REQUEST_RECEIVED.
Defined.

(** Cancellation is never invented: whatever sequence of events a goal
    has seen, a terminal status [CANCELED] means that the application accepted
    a cancel decision that a client or runtime request had opened before. *)
Theorem canceled_needs_accepted_request events :
  sgc_terminal_status (run_server initial_server_context events)
    = TerminalStatus_CANCELED ->
  exists before after,
    events = before ++ ServerGoalEvent_ACCEPT_CANCEL :: after
    /\ (ServerGoalEvent_CANCEL_REQUEST_RECEIVED ∈ before
        \/ ServerGoalEvent_RUNTIME_CANCEL_REQUESTED ∈ before).
Proof. intros H. apply run_server_cancel_branch. by right. Qed.

Lemma canceled_needs_accepted_request_witness :
  exists before after,
    [ServerGoalEvent_CANCEL_REQUEST_RECEIVED; ServerGoalEvent_ACCEPT_CANCEL;
     ServerGoalEvent_COMPLETE_CANCELED]
      = before ++ ServerGoalEvent_ACCEPT_CANCEL :: after
    /\ (ServerGoalEvent_CANCEL_REQUEST_RECEIVED ∈ before
        \/ ServerGoalEvent_RUNTIME_CANCEL_REQUESTED ∈ before).
Proof. apply canceled_needs_accepted_request. reflexivity. Defined.

End ServerSM.
