(* ===== verification/ActionConfiguration.v ===== *)
(** * Action configuration loader

    The loader of src/action_configuration.cpp over a model of the nlohmann
    JSON values it inspects. A function that reports failure through a [bool]
    and an [error_out] string returns [inr error] here and [inl value] on
    success; [load_file], which only opens and lexes a file before it calls
    [parse], is represented by [parse] on the value read. *)

From S2P Require Import Prelude ActionTypes.
From Stdlib Require Import ZArith Lia Ascii.
From stdpp Require Import base gmap strings list fin_maps pretty.

Module ActionConfig.

(** ** JSON values

    The kinds of nlohmann::json the loader distinguishes. Integers carry the
    tag nlohmann keeps: [JUnsigned] for a non-negative literal,
    [JInteger] for a signed one. *)
Inductive json :=
  | JNull
  | JBool (b : bool)
  | JUnsigned (n : N)
  | JInteger (n : Z)
  | JFloat (repr : string)
  | JString (s : string)
  | JArray (l : list json)
  | JObject (members : list (string * json)).

Fixpoint assoc_find (key : string) (members : list (string * json)) : option json :=
  match members with
  | [] => None
  | (k, v) :: rest => if bool_decide (k = key) then Some v else assoc_find key rest
  end.

(** [object.find(key)], with [None] for [object.end()]. *)
Definition json_find (object : json) (key : string) : option json :=
  match object with
  | JObject members => assoc_find key members
  | _ => None
  end.

Definition json_is_object (j : json) : bool :=
  match j with JObject _ => true | _ => false end.

(** ** Results *)

Definition result (A : Type) : Type := A + string.

Definition bind {A B} (r : result A) (k : A -> result B) : result B :=
  match r with
  | inl a => k a
  | inr e => inr e
  end.

Notation "'let!' x ':=' r 'in' k" := (bind r (fun x => k))
  (at level 10, x name, r at level 100, k at level 200).

(** ** Definitions *)

Inductive ActionChannelKind :=
  | ActionChannelKind_REQUEST
  | ActionChannelKind_RESPONSE
  | ActionChannelKind_FEEDBACK.

#[export] Instance ActionChannelKind_eq_dec : EqDecision ActionChannelKind.
Proof. solve_decision. Defined.

Record ActionEndpointReference := mkActionEndpointReference {
  aer_node_id : string;
  aer_endpoint_id : string;
}.

Record ActionChannelDefinition := mkActionChannelDefinition {
  acd_slot_index : nat;
  acd_kind : ActionChannelKind;
  acd_channel_id : Z;
  acd_channel_name : string;
  acd_packet_type : string;
}.

Definition DEFAULT_SIZE : Z := 1024 * 1024.

Record ActionBufferHeap := mkActionBufferHeap {
  abh_request_size : Z;
  abh_response_size : Z;
  abh_feedback_size : Z;
}.

(** [ActionBufferHeap{}]. *)
Definition default_buffer_heap : ActionBufferHeap :=
  mkActionBufferHeap DEFAULT_SIZE DEFAULT_SIZE DEFAULT_SIZE.

Record ActionDefinition := mkActionDefinition {
  ad_name : string;
  ad_type : string;
  ad_slot_count : Z;
  ad_buffer_heap : ActionBufferHeap;
  ad_client_endpoint : ActionEndpointReference;
  ad_server_endpoint : ActionEndpointReference;
  ad_channels : list ActionChannelDefinition;
}.

(** ** The loader *)

Definition read_required_text (object : json) (key : string) : result string :=
  match json_find object key with
  | Some (JString s) =>
      if bool_decide (s = "") then inr ("'" +:+ key +:+ "' must be a non-empty string")
      else inl s
  | _ => inr ("'" +:+ key +:+ "' must be a non-empty string")
  end.

Definition read_endpoint (action : json) (key : string)
    : result ActionEndpointReference :=
  match json_find action key with
  | Some (JObject m) =>
      let it := JObject m in
      let! node_id := read_required_text it "nodeId" in
      match json_find it "endpointId" with
      | None => inl (mkActionEndpointReference node_id "")
      | Some (JString s) =>
          if bool_decide (s = "") then
            inr "'endpointId' must be a non-empty string when present"
          else inl (mkActionEndpointReference node_id s)
      | Some _ => inr "'endpointId' must be a non-empty string when present"
      end
  | _ => inr ("'" +:+ key +:+ "' must be an object")
  end.

Definition read_buffer_heap_size (object : json) (key : string) : result Z :=
  let checked value :=
    if (INT_MAX <? value)%Z
    then inr ("'bufferHeap." +:+ key +:+ "' exceeds the supported allocation range")
    else inl value in
  match json_find object key with
  | None => inl DEFAULT_SIZE
  | Some (JUnsigned n) => checked (Z.of_N n)
  | Some (JInteger n) =>
      if (n <? 0)%Z
      then inr ("'bufferHeap." +:+ key +:+ "' must be a non-negative integer")
      else checked n
  | Some _ => inr ("'bufferHeap." +:+ key +:+ "' must be a non-negative integer")
  end.

Definition read_buffer_heap (action : json) : result ActionBufferHeap :=
  match json_find action "bufferHeap" with
  | None => inl default_buffer_heap
  | Some (JObject m) =>
      let it := JObject m in
      let! request_size := read_buffer_heap_size it "requestSize" in
      let! response_size := read_buffer_heap_size it "responseSize" in
      let! feedback_size := read_buffer_heap_size it "feedbackSize" in
      inl (mkActionBufferHeap request_size response_size feedback_size)
  | Some _ => inr "'bufferHeap' must be an object"
  end.

Definition packet_type (action_type suffix : string) : string :=
  action_type +:+ "Action" +:+ suffix.

(** [std::to_string(slot)]. *)
Definition to_string (slot : nat) : string := pretty (N.of_nat slot).

(** The three channels [append_slot_channels] pushes for a slot. *)
Definition append_slot_channels (type : string) (slot : nat)
    : list ActionChannelDefinition :=
  let base_id := u32 (u64 (Z.of_nat slot * 3)) in
  let slot_name := "Slot" +:+ to_string slot in
  [ mkActionChannelDefinition slot ActionChannelKind_REQUEST base_id
      (slot_name +:+ "Request") (packet_type type "Request");
    mkActionChannelDefinition slot ActionChannelKind_RESPONSE (u32 (base_id + 1))
      (slot_name +:+ "Response") (packet_type type "Response");
    mkActionChannelDefinition slot ActionChannelKind_FEEDBACK (u32 (base_id + 2))
      (slot_name +:+ "Feedback") (packet_type type "Feedback") ].

(** [std::string::find(c, pos)], with [None] for [npos]. *)
Fixpoint str_find (c : ascii) (pos : nat) (s : string) : option nat :=
  match s with
  | EmptyString => None
  | String a s' =>
      match pos with
      | O => if bool_decide (a = c) then Some 0 else S <$> str_find c 0 s'
      | S p => S <$> str_find c p s'
      end
  end.

(** The test on ['type'] of [parse_action]. *)
Definition is_package_action_format (type : string) : bool :=
  match str_find "/" 0 type with
  | None => false
  | Some separator =>
      negb ((separator =? 0)%nat
            || (separator + 1 =? String.length type)%nat
            || bool_decide (is_Some (str_find "/" (separator + 1) type)))
  end.

Definition max_slot_count : Z := (UINT32_MODULUS - 1 - 2) / 3 + 1.

Definition parse_action (action : json) : result ActionDefinition :=
  if negb (json_is_object action) then inr "Action entry must be an object"
  else
    let! name := read_required_text action "name" in
    let! type := read_required_text action "type" in
    if negb (is_package_action_format type) then
      inr "'type' must use package/ActionName format"
    else
      match json_find action "slotCount" with
      | Some (JUnsigned n) =>
          let slot_count := Z.of_N n in
          if (slot_count =? 0)%Z then inr "'slotCount' must be a positive integer"
          else if (max_slot_count <? slot_count)%Z then
            inr "'slotCount' exceeds the logical channel ID range"
          else
            let! client_endpoint := read_endpoint action "clientEndpoint" in
            let! server_endpoint := read_endpoint action "serverEndpoint" in
            let! buffer_heap := read_buffer_heap action in
            inl (mkActionDefinition name type slot_count buffer_heap
                   client_endpoint server_endpoint
                   (flat_map (append_slot_channels type)
                      (seq 0 (Z.to_nat slot_count))))
      | _ => inr "'slotCount' must be a positive integer"
      end.

(** The loop of [parse]; [names] is the set of names already inserted. *)
Fixpoint parse_actions (names : list string) (actions : list json)
    : result (list ActionDefinition) :=
  match actions with
  | [] => inl []
  | action :: rest =>
      match parse_action action with
      | inr action_error => inr ("invalid Action definition: " +:+ action_error)
      | inl definition =>
          if bool_decide (ad_name definition ∈ names) then
            inr ("duplicate Action name: " +:+ ad_name definition)
          else
            let! parsed := parse_actions (ad_name definition :: names) rest in
            inl (definition :: parsed)
      end
  end.

Definition parse (root : json) : result (list ActionDefinition) :=
  if negb (json_is_object root) then
    inr "Action configuration root must be an object"
  else
    match json_find root "actions" with
    | Some (JArray (a :: l)) => parse_actions [] (a :: l)
    | _ => inr "'actions' must be a non-empty array"
    end.

(** ** Lemmas *)

Lemma bind_inl {A B} (r : result A) (k : A -> result B) b :
  bind r k = inl b -> exists a, r = inl a /\ k a = inl b.
Proof. destruct r; naive_solver. Qed.

Ltac inv_bind H :=
  let a := fresh "v" in let H1 := fresh "Hv" in
  apply bind_inl in H as (a & H1 & H).

Lemma read_required_text_nonempty object key s :
  read_required_text object key = inl s -> s <> "".
Proof. unfold read_required_text. repeat split_guard; intros [=]; simpl_bools; congruence. Qed.

Lemma read_buffer_heap_size_bounds object key n :
  read_buffer_heap_size object key = inl n -> (0 <= n <= INT_MAX)%Z.
Proof.
  unfold read_buffer_heap_size, INT_MAX, DEFAULT_SIZE.
  repeat split_guard; intros [= <-]; simpl_bools; lia.
Qed.

Definition heap_bounds (h : ActionBufferHeap) : Prop :=
  (0 <= abh_request_size h <= INT_MAX)%Z
  /\ (0 <= abh_response_size h <= INT_MAX)%Z
  /\ (0 <= abh_feedback_size h <= INT_MAX)%Z.

Lemma read_buffer_heap_bounds action h :
  read_buffer_heap action = inl h -> heap_bounds h.
Proof.
  unfold read_buffer_heap. repeat split_guard; intros H; try discriminate H.
  - do 3 inv_bind H. injection H as <-.
    repeat split; simpl; eapply read_buffer_heap_size_bounds; eauto.
  - by injection H as <-.
Qed.

Lemma str_find_bound c pos s i : str_find c pos s = Some i -> i < String.length s.
Proof.
  revert pos i. induction s as [|a s IH]; intros pos i; [done|]. simpl.
  destruct pos; [case_bool_decide|].
  - intros [= <-]. lia.
  - intros (j & Hj & ->)%fmap_Some. apply IH in Hj. lia.
  - intros (j & Hj & ->)%fmap_Some. apply IH in Hj. lia.
Qed.

(** No occurrence of the separator. *)
Definition no_slash (s : string) : Prop := str_find "/" 0 s = None.

Lemma str_find_app c p s :
  str_find c 0 p = None -> str_find c 0 (p +:+ String c s) = Some (String.length p).
Proof.
  induction p as [|a p IH]; simpl.
  - intros _. by rewrite bool_decide_eq_true_2.
  - case_bool_decide; [done|]. intros Hs%fmap_None. by rewrite IH.
Qed.

Lemma str_find_skip c p a s :
  str_find c (String.length p + 1) (p +:+ String a s)
  = (fun n => String.length p + 1 + n) <$> str_find c 0 s.
Proof.
  induction p as [|b p IH]; simpl.
  - by destruct (str_find c 0 s).
  - rewrite IH. by destruct (str_find c 0 s).
Qed.

Lemma str_find_split c s i :
  str_find c 0 s = Some i ->
  exists p q, s = p +:+ String c q /\ String.length p = i /\ str_find c 0 p = None.
Proof.
  revert i. induction s as [|a s IH]; intros i; [done|]. simpl.
  case_bool_decide as Ha.
  - intros [= <-]. subst. by exists "", s.
  - intros (j & Hj & ->)%fmap_Some. destruct (IH _ Hj) as (p & q & -> & <- & Hp). exists (String a p), q. simpl.
    by rewrite bool_decide_eq_false_2, Hp.
Qed.

(** The format test accepts exactly [package/ActionName]. *)
Lemma is_package_action_format_spec type :
  is_package_action_format type = true <->
  exists p n, type = p +:+ String "/" n /\ p <> "" /\ n <> "" /\ no_slash p /\ no_slash n.
Proof.
  unfold is_package_action_format, no_slash. split.
  - destruct (str_find "/" 0 type) as [i|] eqn:Hi; [|done]. intros H.
    apply str_find_split in Hi as (p & q & -> & <- & Hp). exists p, q.
    apply negb_true_iff, orb_false_iff in H as [[H1 H2]%orb_false_iff H3].
    rewrite str_find_skip in H3. rewrite string_app_length in H2. simpl in H2.
    apply Nat.eqb_neq in H1, H2. apply bool_decide_eq_false in H3.
    repeat split; [by destruct p|destruct q; simpl in *; by try lia|done|].
    destruct (str_find "/" 0 q); [|done]. exfalso. apply H3. simpl. eauto.
  - intros (p & n & -> & Hp & Hn & Hsp & Hsn). rewrite str_find_app by done.
    rewrite str_find_skip, Hsn, string_app_length. simpl.
    destruct p; [done|]. destruct n; [done|]. simpl.
    apply negb_true_iff, orb_false_iff. split; [|done].
    apply Nat.eqb_neq. simpl. lia.
Qed.

(** ** Channel table *)

Definition kind_of (k : nat) : ActionChannelKind :=
  match k with
  | O => ActionChannelKind_REQUEST
  | 1 => ActionChannelKind_RESPONSE
  | _ => ActionChannelKind_FEEDBACK
  end.

Lemma flat_map_lookup_3 {A} (f : nat -> list A) n start i :
  (forall x, length (f x) = 3) -> i < 3 * n ->
  flat_map f (seq start n) !! i = f (start + i / 3) !! (i mod 3).
Proof.
  intros Hf. revert start i. induction n as [|n IH]; intros start i Hi; [lia|].
  cbn [seq flat_map]. destruct (decide (i < 3)) as [Hlt|Hge].
  - rewrite lookup_app_l by (rewrite Hf; lia).
    rewrite (Nat.div_small i 3), (Nat.mod_small i 3), Nat.add_0_r by lia. done.
  - rewrite lookup_app_r by (rewrite Hf; lia). rewrite Hf, IH by lia.
    replace (i / 3) with (S ((i - 3) / 3)).
    + replace (i mod 3) with ((i - 3) mod 3); [f_equal; f_equal; lia|].
      rewrite <-(Nat.Div0.mod_add (i - 3) 1 3). f_equal. lia.
    + replace i with ((i - 3) + 1 * 3) at 2 by lia. rewrite Nat.div_add by lia. lia.
Qed.

Lemma flat_map_length_3 {A} (f : nat -> list A) l :
  (forall x, length (f x) = 3) -> length (flat_map f l) = 3 * length l.
Proof. intros Hf. induction l; simpl; [done|]. rewrite length_app, Hf. lia. Qed.

Lemma slot_channel type slot k :
  (Z.of_nat slot < max_slot_count)%Z -> k < 3 ->
  exists name ptype,
    append_slot_channels type slot !! k
    = Some (mkActionChannelDefinition slot (kind_of k) (Z.of_nat (3 * slot + k)) name ptype).
Proof.
  intros Hs Hk.
  assert (Hmax : max_slot_count = 1431655765%Z) by reflexivity.
  assert (Hb : u32 (u64 (Z.of_nat slot * 3)) = (Z.of_nat slot * 3)%Z).
  { rewrite u64_small by (unfold in_u64, UINT64_MODULUS; lia).
    apply u32_small. unfold in_u32, UINT32_MODULUS. lia. }
  unfold append_slot_channels. rewrite Hb.
  destruct k as [|[|[|k]]]; [..|lia]; simpl; do 2 eexists; do 2 f_equal;
    try (rewrite u32_small; [|unfold in_u32, UINT32_MODULUS]); lia.
Qed.

(** What a successful [parse_action] guarantees. *)
Record definition_wf (d : ActionDefinition) : Prop := {
  dwf_name : ad_name d <> "";
  dwf_type : is_package_action_format (ad_type d) = true;
  dwf_slots : (0 < ad_slot_count d <= max_slot_count)%Z;
  dwf_heap : heap_bounds (ad_buffer_heap d);
  dwf_channels :
    ad_channels d
    = flat_map (append_slot_channels (ad_type d)) (seq 0 (Z.to_nat (ad_slot_count d)));
}.

Lemma parse_action_wf action d : parse_action action = inl d -> definition_wf d.
Proof.
  unfold parse_action. split_guard; [done|]. intros H. do 2 inv_bind H.
  repeat split_guard_in H; try discriminate H. do 3 inv_bind H. injection H as <-.
  simpl_bools. split; simpl; eauto using read_required_text_nonempty, read_buffer_heap_bounds.
  lia.
Qed.

Lemma definition_wf_channel d i :
  definition_wf d -> (Z.of_nat i < 3 * ad_slot_count d)%Z ->
  exists c, ad_channels d !! i = Some c
    /\ acd_channel_id c = Z.of_nat i
    /\ acd_slot_index c = i / 3
    /\ acd_kind c = kind_of (i mod 3).
Proof.
  intros [_ _ Hs _ Hc] Hi. rewrite Hc, flat_map_lookup_3 by (done || lia).
  rewrite Nat.add_0_l.
  assert (Hdm : i = 3 * (i / 3) + i mod 3) by (apply Nat.div_mod; lia).
  pose proof (Nat.mod_upper_bound i 3 ltac:(lia)).
  destruct (slot_channel (ad_type d) (i / 3) (i mod 3)) as (name & ptype & ->); [lia|lia|].
  eexists. split; [done|]. cbn [acd_channel_id acd_slot_index acd_kind].
  by rewrite <-Hdm.
Qed.

Lemma definition_wf_channel_count d :
  definition_wf d -> length (ad_channels d) = 3 * Z.to_nat (ad_slot_count d).
Proof. intros [_ _ _ _ Hc]. rewrite Hc, flat_map_length_3 by done. by rewrite length_seq. Qed.

Lemma parse_actions_sound names entries ds :
  parse_actions names entries = inl ds ->
  Forall2 (fun j d => parse_action j = inl d) entries ds
  /\ NoDup (ad_name <$> ds)
  /\ (forall d, d ∈ ds -> ad_name d ∉ names).
Proof.
  revert names ds. induction entries as [|j entries IH]; intros names ds; simpl.
  { intros [= <-]. repeat split; [constructor|constructor|set_solver]. }
  destruct (parse_action j) as [d|] eqn:Hd; [|done]. case_bool_decide as Hin; [done|].
  intros H. inv_bind H. injection H as <-. destruct (IH _ _ Hv) as (Hf & Hn & Ho).
  repeat split; [by constructor|..].
  - simpl. constructor; [|done]. intros (d' & Heq & Hd')%list_elem_of_fmap.
    apply Ho in Hd'. set_solver.
  - intros d' [-> | Hd']%elem_of_cons; [done|]. apply Ho in Hd'. set_solver.
Qed.

(** ** A rendering of definitions *)

Definition render_endpoint (r : ActionEndpointReference) : json :=
  JObject (("nodeId", JString (aer_node_id r))
           :: (if bool_decide (aer_endpoint_id r = "") then []
               else [("endpointId", JString (aer_endpoint_id r))])).

(** A configuration entry that spells a definition out; the channel table is
    not part of it, the loader derives it. *)
Definition render_definition (d : ActionDefinition) : json :=
  JObject
    [ ("name", JString (ad_name d));
      ("type", JString (ad_type d));
      ("slotCount", JUnsigned (Z.to_N (ad_slot_count d)));
      ("clientEndpoint", render_endpoint (ad_client_endpoint d));
      ("serverEndpoint", render_endpoint (ad_server_endpoint d));
      ("bufferHeap",
        JObject [ ("requestSize", JUnsigned (Z.to_N (abh_request_size (ad_buffer_heap d))));
                  ("responseSize", JUnsigned (Z.to_N (abh_response_size (ad_buffer_heap d))));
                  ("feedbackSize", JUnsigned (Z.to_N (abh_feedback_size (ad_buffer_heap d)))) ]) ].

Definition endpoint_wf (r : ActionEndpointReference) : Prop := aer_node_id r <> "".

Lemma assoc_find_eq key v members : assoc_find key ((key, v) :: members) = Some v.
Proof. simpl. by rewrite bool_decide_eq_true_2. Qed.

Lemma read_required_text_found object key s :
  json_find object key = Some (JString s) -> s <> "" ->
  read_required_text object key = inl s.
Proof.
  intros Hf Hs. unfold read_required_text. rewrite Hf. by rewrite bool_decide_eq_false_2.
Qed.

Lemma read_endpoint_render action key r :
  endpoint_wf r -> json_find action key = Some (render_endpoint r) ->
  read_endpoint action key = inl r.
Proof.
  intros Hr Hf. unfold read_endpoint. rewrite Hf. unfold render_endpoint.
  rewrite (read_required_text_found _ _ (aer_node_id r)) by done. cbn [bind].
  destruct r as [n e]. cbn [aer_node_id aer_endpoint_id].
  destruct (decide (e = "")) as [-> | He]; [done|].
  rewrite (bool_decide_eq_false_2 (e = "")) by done.
  replace (json_find (JObject [("nodeId", JString n); ("endpointId", JString e)]) "endpointId")
    with (Some (JString e)) by done.
  by rewrite (bool_decide_eq_false_2 (e = "")).
Qed.

Lemma read_endpoint_wf action key r : read_endpoint action key = inl r -> endpoint_wf r.
Proof.
  unfold read_endpoint. destruct (json_find action key) as [[]|]; try done. intros H.
  inv_bind H. apply read_required_text_nonempty in Hv.
  repeat split_guard_in H; try discriminate H; by injection H as <-.
Qed.

Lemma read_heap_render (n : Z) members key :
  (0 <= n <= INT_MAX)%Z ->
  json_find (JObject members) key = Some (JUnsigned (Z.to_N n)) ->
  read_buffer_heap_size (JObject members) key = inl n.
Proof.
  intros Hn Hf. unfold read_buffer_heap_size. rewrite Hf, Z2N.id by lia.
  destruct (Z.ltb_spec INT_MAX n); [lia|done].
Qed.

Lemma read_buffer_heap_render d :
  heap_bounds (ad_buffer_heap d) ->
  read_buffer_heap (render_definition d) = inl (ad_buffer_heap d).
Proof.
  intros (H1 & H2 & H3). unfold read_buffer_heap.
  replace (json_find (render_definition d) "bufferHeap") with
    (Some (JObject
       [ ("requestSize", JUnsigned (Z.to_N (abh_request_size (ad_buffer_heap d))));
         ("responseSize", JUnsigned (Z.to_N (abh_response_size (ad_buffer_heap d))));
         ("feedbackSize", JUnsigned (Z.to_N (abh_feedback_size (ad_buffer_heap d)))) ]))
    by done.
  rewrite (read_heap_render _ _ _ H1) by done. cbn [bind].
  rewrite (read_heap_render _ _ _ H2) by done. cbn [bind].
  rewrite (read_heap_render _ _ _ H3) by done. cbn [bind].
  by destruct (ad_buffer_heap d).
Qed.

Lemma parse_action_endpoints action d :
  parse_action action = inl d ->
  endpoint_wf (ad_client_endpoint d) /\ endpoint_wf (ad_server_endpoint d).
Proof.
  unfold parse_action. split_guard; [done|]. intros H. do 2 inv_bind H.
  repeat split_guard_in H; try discriminate H. do 3 inv_bind H. injection H as <-.
  eauto using read_endpoint_wf.
Qed.

Lemma parse_action_render d :
  definition_wf d -> endpoint_wf (ad_client_endpoint d) ->
  endpoint_wf (ad_server_endpoint d) ->
  parse_action (render_definition d) = inl d.
Proof.
  intros [H1 H2 H3 H4 H5] Hc Hs. unfold parse_action. cbn [json_is_object render_definition negb].
  fold (render_definition d).
  rewrite (read_required_text_found _ _ (ad_name d)) by done. cbn [bind].
  rewrite (read_required_text_found _ _ (ad_type d)); [|done|].
  2: { intros Ht. by rewrite Ht in H2. }
  cbn [bind]. rewrite H2. cbn [negb].
  replace (json_find (render_definition d) "slotCount")
    with (Some (JUnsigned (Z.to_N (ad_slot_count d)))) by done.
  rewrite Z2N.id by lia.
  destruct (Z.eqb_spec (ad_slot_count d) 0); [lia|].
  destruct (Z.ltb_spec max_slot_count (ad_slot_count d)); [lia|].
  rewrite (read_endpoint_render _ _ (ad_client_endpoint d)) by done. cbn [bind].
  rewrite (read_endpoint_render _ _ (ad_server_endpoint d)) by done. cbn [bind].
  rewrite read_buffer_heap_render by done. cbn [bind]. rewrite <-H5. by destruct d.
Qed.

(** A two-slot action used by the concrete instances below. *)
Definition sample_definition : ActionDefinition :=
  mkActionDefinition "fib" "tutorial/Fibonacci" 2
    (mkActionBufferHeap 16 16 16)
    (mkActionEndpointReference "client" "")
    (mkActionEndpointReference "server" "ep1")
    (flat_map (append_slot_channels "tutorial/Fibonacci") (seq 0 2)).

(** ** Properties *)

(** A definition the loader accepts has a complete, collision-free channel
    table: [slotCount] is positive and small enough that no channel id wraps
    around, there are exactly three channels per slot, the [i]-th channel has
    logical id [i], belongs to slot [i / 3] and is its Request, Response or
    Feedback channel in turn, so no two channels share an id. *)
Theorem parse_action_channel_table action d :
  parse_action action = inl d ->
  (0 < ad_slot_count d <= max_slot_count)%Z
  /\ length (ad_channels d) = 3 * Z.to_nat (ad_slot_count d)
  /\ (forall i, (Z.of_nat i < 3 * ad_slot_count d)%Z ->
        exists c, ad_channels d !! i = Some c
          /\ acd_channel_id c = Z.of_nat i
          /\ acd_slot_index c = i / 3
          /\ acd_kind c = kind_of (i mod 3))
  /\ NoDup (acd_channel_id <$> ad_channels d).
Proof.
  intros Hwf%parse_action_wf. pose proof (definition_wf_channel_count d Hwf) as Hlen.
  repeat split; [apply Hwf|apply Hwf|done|by intros; apply definition_wf_channel|].
  apply NoDup_alt. intros i j x Hi Hj.
  apply list_lookup_fmap_Some in Hi as (ci & -> & Hi), Hj as (cj & Heq & Hj).
  pose proof (lookup_lt_Some _ _ _ Hi). pose proof (lookup_lt_Some _ _ _ Hj).
  destruct (definition_wf_channel d i) as (c1 & ? & ? & _); [done|lia|].
  destruct (definition_wf_channel d j) as (c2 & ? & ? & _); [done|lia|].
  simplify_eq. lia.
Qed.

Lemma parse_action_channel_table_witness :
  length (ad_channels sample_definition) = 6.
Proof.
  apply (parse_action_channel_table (render_definition sample_definition)).
  vm_compute. reflexivity.
Defined.

(** C36 — Printing and parsing agree: an entry that spells a definition out is
    parsed back to that very definition exactly when its name is non-empty, its
    type is two non-empty slash-free parts around one slash, its slot count
    keeps the channel ids in range, its heap sizes fit an [int], its endpoints
    name a node and its channel table is the derived one. *)
Theorem parse_render_roundtrip d :
  parse_action (render_definition d) = inl d <->
  ad_name d <> ""
  /\ (exists p n, ad_type d = p +:+ String "/" n
        /\ p <> "" /\ n <> "" /\ no_slash p /\ no_slash n)
  /\ (0 < ad_slot_count d <= max_slot_count)%Z
  /\ heap_bounds (ad_buffer_heap d)
  /\ endpoint_wf (ad_client_endpoint d)
  /\ endpoint_wf (ad_server_endpoint d)
  /\ ad_channels d
     = flat_map (append_slot_channels (ad_type d)) (seq 0 (Z.to_nat (ad_slot_count d))).
Proof.
  rewrite <-is_package_action_format_spec. split.
  - intros H. destruct (parse_action_wf _ _ H) as [H1 H2 H3 H4 H5].
    destruct (parse_action_endpoints _ _ H) as [Hc Hs].
    exact (conj H1 (conj H2 (conj H3 (conj H4 (conj Hc (conj Hs H5)))))).
  - intros (H1 & H2 & H3 & H4 & Hc & Hs & H5). by apply parse_action_render.
Qed.

(** A configuration the loader accepts lists at least one action, its
    [i]-th definition is the parse of its [i]-th entry (the services pair the
    two by index), and no two actions share a name. *)
Theorem parse_sound root ds :
  parse root = inl ds ->
  exists entries,
    json_find root "actions" = Some (JArray entries)
    /\ entries <> []
    /\ Forall2 (fun j d => parse_action j = inl d) entries ds
    /\ NoDup (ad_name <$> ds).
Proof.
  unfold parse. repeat split_guard; try done. intros H.
  apply parse_actions_sound in H as (Hf & Hn & _). eauto.
Qed.

Lemma parse_sound_witness :
  NoDup (ad_name <$> [sample_definition]).
Proof.
  destruct (parse_sound (JObject [("actions", JArray [render_definition sample_definition])])
              [sample_definition]) as (entries & _ & _ & _ & Hn); [|exact Hn].
  vm_compute. reflexivity.
Defined.

End ActionConfig.
