(* ===== verification/PduPacket.v ===== *)
(** * Packets, the PDU platform and the transport

    The packet helpers both Action endpoints share (the anonymous namespaces
    of src/action_server_endpoint_impl.cpp and action_client_endpoint_impl.cpp)
    and the interface of the code they call but this repository does not
    contain: the PDU memory layout and the generated header convertors
    (hakoniwa-pdu-registry) and the transport (hakoniwa-pdu-endpoint). Those
    are parameters, collected in the classes [PduPlatform] and [Transport];
    what the code relies on is the class [PduPlatformLaws]. The end of the
    file instantiates all three concretely. *)

From S2P Require Import Prelude ActionTypes.
From Stdlib Require Import ZArith Lia.
From stdpp Require Import base gmap strings list fin_maps.

Local Open Scope Z_scope.

(** ** Headers of the Action packets *)

Record ActionRequestHeader := mkActionRequestHeader {
  arq_version : Z;
  arq_request_kind : Z;
  arq_reserved : list Z;
  arq_goal_id : GoalId;
}.

Record ActionResponseHeader := mkActionResponseHeader {
  arp_version : Z;
  arp_response_kind : Z;
  arp_status : Z;
  arp_reserved : Z;
  arp_goal_id : GoalId;
}.

Record ActionFeedbackHeader := mkActionFeedbackHeader {
  afb_version : Z;
  afb_reserved : list Z;
  afb_goal_id : GoalId;
  afb_sequence_no : Z;
}.

Definition ACTION_PROTOCOL_VERSION : Z := 1.
Definition REQUEST_KIND_GOAL : Z := 1.
Definition REQUEST_KIND_CANCEL : Z := 2.
Definition RESPONSE_KIND_GOAL : Z := 1.
Definition RESPONSE_KIND_CANCEL : Z := 2.
Definition RESPONSE_KIND_RESULT : Z := 3.

(** ** The PDU platform *)

Class PduPlatform := {
  HAKO_ALIGNMENT_SIZE : Z;
  HAKO_PDU_META_DATA_SIZE : Z;
  (** [HakoPduMetaDataType] and the members the code reads. *)
  HakoPduMetaDataType : Type;
  md_base_off : HakoPduMetaDataType -> Z;
  md_heap_off : HakoPduMetaDataType -> Z;
  md_total_size : HakoPduMetaDataType -> Z;
  HAKO_PDU_METADATA_IS_INVALID : HakoPduMetaDataType -> bool;
  sizeof_HakoPduMetaDataType : Z;
  (** [memcpy(&metadata, packet.data(), sizeof(metadata))]. *)
  memcpy_metadata : PduData -> HakoPduMetaDataType;
  (** The block from the top pointer to [total_size]; [None] when one of the
      pointers is null. *)
  hako_create_empty_pdu : Z -> Z -> option PduData;
  (** The size registry; [None] when it returns non-zero. *)
  hako_pdu_get_size : string -> option Z;
  sizeof_ActionRequestHeader : Z;
  sizeof_ActionResponseHeader : Z;
  sizeof_ActionFeedbackHeader : Z;
  (** Generated convertors; [None] when they return false. Writing goes
      through [hako_get_base_ptr_pdu]. *)
  pdu2cpp_ActionRequestHeader : PduData -> option ActionRequestHeader;
  pdu2cpp_ActionResponseHeader : PduData -> option ActionResponseHeader;
  pdu2cpp_ActionFeedbackHeader : PduData -> option ActionFeedbackHeader;
  cpp2pdu_ActionRequestHeader : ActionRequestHeader -> PduData -> option PduData;
  cpp2pdu_ActionResponseHeader : ActionResponseHeader -> PduData -> option PduData;
  cpp2pdu_ActionFeedbackHeader : ActionFeedbackHeader -> PduData -> option PduData;
  (** [static_cast<HakoPduChannelIdType>]. *)
  to_channel_id : Z -> Z;
}.

(** [packet.size()]. *)
Definition pdu_size (packet : PduData) : Z := Z.of_nat (length packet).

Section Helpers.
Context `{PduPlatform}.

Definition aligned_size (size : Z) : Z :=
  Z.land (u64 (size + HAKO_ALIGNMENT_SIZE - 1)) (u64 (Z.lnot (HAKO_ALIGNMENT_SIZE - 1))).

Definition supported_packet_capacity (base_size heap_capacity : Z) : bool :=
  let maximum := INT_MAX in
  if (maximum <? base_size) || (maximum <? heap_capacity) then false
  else
    let fixed_size := u64 (HAKO_PDU_META_DATA_SIZE + aligned_size base_size) in
    (fixed_size <=? maximum) && (aligned_size heap_capacity <=? u64 (maximum - fixed_size)).

(** The order of the tests keeps both [std::size_t] operations in range: the
    subtraction follows [base_off <= size], and the sum is at most the size
    of the packet when it is evaluated. *)
Definition has_valid_packet_prefix (packet : PduData) (required_base_size : Z) : bool :=
  if pdu_size packet <? sizeof_HakoPduMetaDataType then false
  else
    let metadata := memcpy_metadata packet in
    negb (HAKO_PDU_METADATA_IS_INVALID metadata)
    && (md_base_off metadata =? HAKO_PDU_META_DATA_SIZE)
    && (md_base_off metadata <=? pdu_size packet)
    && (required_base_size <=? pdu_size packet - md_base_off metadata)
    && (md_base_off metadata + required_base_size <=? md_heap_off metadata)
    && (md_heap_off metadata <=? md_total_size metadata)
    && (md_total_size metadata <=? pdu_size packet).

(** [validate_packet_capacity] with its [wire_size_out]; [None] is [false]. *)
Definition validate_packet_capacity (packet : PduData) (base_size heap_capacity : Z)
    (require_exact_buffer_size : bool) : option Z :=
  if negb (has_valid_packet_prefix packet 0) then None
  else
    let metadata := memcpy_metadata packet in
    if negb (supported_packet_capacity base_size heap_capacity) then None
    else
      let aligned_heap_capacity := aligned_size heap_capacity in
      if (pdu_size packet <? md_total_size metadata)
         || (require_exact_buffer_size && negb (md_total_size metadata =? pdu_size packet))
      then None
      else
        let actual_heap_storage_size := md_total_size metadata - md_heap_off metadata in
        if aligned_heap_capacity <? actual_heap_storage_size then None
        else Some (md_total_size metadata).

Definition create_packet_buffer (base_size heap_capacity : Z) : option PduData :=
  if (base_size =? 0) || (INT_MAX <? base_size)
     || negb (supported_packet_capacity base_size heap_capacity)
  then None
  else hako_create_empty_pdu base_size heap_capacity.

(** [std::span(packet.data(), wire_size)]. *)
Definition span_prefix (packet : PduData) (wire_size : Z) : PduData :=
  take (Z.to_nat wire_size) packet.
End Helpers.

(** What the code relies on from the platform: the alignment is a power of
    two, the metadata precede the base area, a fresh PDU has the layout its
    creation asked for, a written header is read back and leaves size and
    metadata alone, readers look at nothing behind the header, and the type of
    channel ids holds every 32-bit id. *)
Class PduPlatformLaws (P : PduPlatform) : Prop := {
  law_alignment : exists k, 0 <= k < 31 /\ HAKO_ALIGNMENT_SIZE = 2 ^ k;
  law_meta_size :
    0 <= sizeof_HakoPduMetaDataType <= HAKO_PDU_META_DATA_SIZE
    /\ HAKO_PDU_META_DATA_SIZE <= INT_MAX;
  law_header_sizes :
    0 < sizeof_ActionRequestHeader <= INT_MAX
    /\ 0 < sizeof_ActionResponseHeader <= INT_MAX
    /\ 0 < sizeof_ActionFeedbackHeader <= INT_MAX;
  law_metadata_range p :
    let m := memcpy_metadata p in
    in_u32 (md_base_off m) /\ in_u32 (md_heap_off m) /\ in_u32 (md_total_size m);
  law_create b h p :
    hako_create_empty_pdu b h = Some p ->
    let m := memcpy_metadata p in
    HAKO_PDU_METADATA_IS_INVALID m = false
    /\ md_base_off m = HAKO_PDU_META_DATA_SIZE
    /\ md_heap_off m = HAKO_PDU_META_DATA_SIZE + aligned_size b
    /\ md_total_size m = HAKO_PDU_META_DATA_SIZE + aligned_size b + aligned_size h
    /\ pdu_size p = md_total_size m;
  law_size_registry t n : hako_pdu_get_size t = Some n -> in_u32 n;
  law_write_request h p p' :
    cpp2pdu_ActionRequestHeader h p = Some p' ->
    length p' = length p /\ memcpy_metadata p' = memcpy_metadata p
    /\ pdu2cpp_ActionRequestHeader p' = Some h;
  law_write_response h p p' :
    cpp2pdu_ActionResponseHeader h p = Some p' ->
    length p' = length p /\ memcpy_metadata p' = memcpy_metadata p
    /\ pdu2cpp_ActionResponseHeader p' = Some h;
  law_write_feedback h p p' :
    cpp2pdu_ActionFeedbackHeader h p = Some p' ->
    length p' = length p /\ memcpy_metadata p' = memcpy_metadata p
    /\ pdu2cpp_ActionFeedbackHeader p' = Some h;
  law_read_metadata_prefix n p :
    sizeof_HakoPduMetaDataType <= Z.of_nat n ->
    memcpy_metadata (take n p) = memcpy_metadata p;
  law_read_request_prefix n p :
    HAKO_PDU_META_DATA_SIZE + sizeof_ActionRequestHeader <= Z.of_nat n ->
    pdu2cpp_ActionRequestHeader (take n p) = pdu2cpp_ActionRequestHeader p;
  law_read_response_prefix n p :
    HAKO_PDU_META_DATA_SIZE + sizeof_ActionResponseHeader <= Z.of_nat n ->
    pdu2cpp_ActionResponseHeader (take n p) = pdu2cpp_ActionResponseHeader p;
  law_read_feedback_prefix n p :
    HAKO_PDU_META_DATA_SIZE + sizeof_ActionFeedbackHeader <= Z.of_nat n ->
    pdu2cpp_ActionFeedbackHeader (take n p) = pdu2cpp_ActionFeedbackHeader p;
  law_channel_id n m :
    in_u32 n -> in_u32 m -> to_channel_id n = to_channel_id m -> n = m;
}.

(** ** The transport *)

Record PduResolvedKey := mkPduResolvedKey { prk_robot : string; prk_channel_id : Z }.

#[export] Instance PduResolvedKey_eq_dec : EqDecision PduResolvedKey.
Proof. solve_decision. Defined.

(** One [endpoint_->send] call and whether it returned [HAKO_PDU_ERR_OK]. *)
Record SendRecord := mkSendRecord {
  sr_key : PduResolvedKey;
  sr_data : PduData;
  sr_ok : bool;
}.

Abbreviation Wire := (list SendRecord).

(** The transport decides each send from everything sent before; every
    theorem holds for all such deciders. *)
Class Transport := {
  send_result : Wire -> PduResolvedKey -> PduData -> bool;
}.

Definition endpoint_send `{Transport} (w : Wire) (key : PduResolvedKey) (data : PduData)
    : Wire * bool :=
  let ok := send_result w key data in
  (w ++ [mkSendRecord key data ok], ok).

(** ** Lemmas on sizes *)

Lemma u64_land n : u64 n = Z.land n (Z.ones 64).
Proof. unfold u64, UINT64_MODULUS. by rewrite Z.land_ones. Qed.

(** Below the wrap-around, masking rounds up to a power of two. *)
Lemma mask_rounds_up a k size :
  0 <= k < 31 -> a = 2 ^ k -> 0 <= size -> size + a <= UINT64_MODULUS ->
  Z.land (u64 (size + a - 1)) (u64 (Z.lnot (a - 1))) = (size + a - 1) / a * a.
Proof.
  intros Hk Hk' H0 H1.
  assert (0 < a) by (subst a; apply Z.pow_pos_nonneg; lia).
  set (x := size + a - 1).
  assert (Hx : u64 x = x) by (apply u64_small; unfold in_u64, x; lia).
  rewrite (u64_land (Z.lnot _)), Z.land_assoc.
  rewrite <-(Z.land_assoc (u64 x)), (Z.land_comm (Z.lnot _)), Z.land_assoc.
  rewrite Hx, <-u64_land, Hx.
  replace (a - 1) with (Z.ones k) by (rewrite Z.ones_equiv, Hk'; lia).
  rewrite <-Z.ldiff_land, Z.ldiff_ones_r, Z.shiftl_mul_pow2, Z.shiftr_div_pow2 by lia.
  by rewrite <-Hk'.
Qed.

Section SizeLemmas.
Context {P : PduPlatform} {HL : PduPlatformLaws P}.

Lemma alignment_pos : 0 < HAKO_ALIGNMENT_SIZE <= 2 ^ 30.
Proof.
  destruct law_alignment as (k & Hk & ->). split; [apply Z.pow_pos_nonneg; lia|].
  apply Z.pow_le_mono_r; lia.
Qed.

Lemma aligned_size_eq size :
  0 <= size -> size + HAKO_ALIGNMENT_SIZE <= UINT64_MODULUS ->
  aligned_size size
  = (size + HAKO_ALIGNMENT_SIZE - 1) / HAKO_ALIGNMENT_SIZE * HAKO_ALIGNMENT_SIZE.
Proof. destruct law_alignment as (k & Hk & Hk'). by apply mask_rounds_up with k. Qed.

Lemma aligned_size_bounds size :
  0 <= size <= INT_MAX ->
  size <= aligned_size size < size + HAKO_ALIGNMENT_SIZE
  /\ aligned_size size mod HAKO_ALIGNMENT_SIZE = 0.
Proof.
  intros Hs. pose proof alignment_pos as Ha. unfold INT_MAX in Hs.
  rewrite aligned_size_eq by (unfold UINT64_MODULUS; lia).
  set (a := HAKO_ALIGNMENT_SIZE) in *. split.
  - pose proof (Z.mod_pos_bound (size + a - 1) a ltac:(lia)).
    pose proof (Z.div_mod (size + a - 1) a ltac:(lia)). lia.
  - by rewrite Z.mod_mul by lia.
Qed.

Lemma supported_packet_capacity_eq b h :
  0 <= b -> 0 <= h ->
  supported_packet_capacity b h = true <->
  HAKO_PDU_META_DATA_SIZE + aligned_size b + aligned_size h <= INT_MAX
  /\ b <= INT_MAX /\ h <= INT_MAX.
Proof.
  intros Hb Hh. unfold supported_packet_capacity.
  pose proof alignment_pos as Ha. pose proof law_meta_size as [Hm1 Hm2].
  destruct (Z.ltb_spec INT_MAX b); [simpl; split; [done|lia]|].
  destruct (Z.ltb_spec INT_MAX h); [simpl; split; [done|lia]|]. cbn [orb].
  destruct (aligned_size_bounds b ltac:(lia)) as [Hab _].
  destruct (aligned_size_bounds h ltac:(lia)) as [Hah _].
  unfold INT_MAX in *. rewrite (u64_small (_ + _)) by (unfold in_u64, UINT64_MODULUS; lia).
  destruct (Z.leb_spec (HAKO_PDU_META_DATA_SIZE + aligned_size b) (2 ^ 31 - 1)); cbn [andb].
  - rewrite (u64_small (_ - _)) by (unfold in_u64, UINT64_MODULUS; lia).
    rewrite Z.leb_le. lia.
  - split; [done|lia].
Qed.

(** The prefix test without machine arithmetic. *)
Lemma has_valid_packet_prefix_eq packet n :
  0 <= n ->
  has_valid_packet_prefix packet n = true <->
  let m := memcpy_metadata packet in
  sizeof_HakoPduMetaDataType <= pdu_size packet
  /\ HAKO_PDU_METADATA_IS_INVALID m = false
  /\ md_base_off m = HAKO_PDU_META_DATA_SIZE
  /\ HAKO_PDU_META_DATA_SIZE + n <= md_heap_off m
  /\ md_heap_off m <= md_total_size m <= pdu_size packet.
Proof.
  intros Hn. unfold has_valid_packet_prefix. simpl.
  set (m := memcpy_metadata packet).
  destruct (law_metadata_range packet) as (Hb & Hh & Ht).
  pose proof law_meta_size as [Hm1 Hm2].
  destruct (Z.ltb_spec (pdu_size packet) sizeof_HakoPduMetaDataType); [split; [done|lia]|].
  rewrite !andb_true_iff, negb_true_iff, !Z.leb_le, Z.eqb_eq. intuition lia.
Qed.

Lemma has_valid_packet_prefix_le packet n n' :
  0 <= n' <= n -> has_valid_packet_prefix packet n = true ->
  has_valid_packet_prefix packet n' = true.
Proof. intros Hn. rewrite !has_valid_packet_prefix_eq by lia. cbn zeta. intuition lia. Qed.

Lemma validate_packet_capacity_Some packet b h exact wire_size :
  validate_packet_capacity packet b h exact = Some wire_size <->
  let m := memcpy_metadata packet in
  has_valid_packet_prefix packet 0 = true
  /\ supported_packet_capacity b h = true
  /\ (exact = true -> md_total_size m = pdu_size packet)
  /\ md_total_size m - md_heap_off m <= aligned_size h
  /\ wire_size = md_total_size m.
Proof.
  unfold validate_packet_capacity. cbn zeta.
  destruct (has_valid_packet_prefix packet 0) eqn:Hp; cbn [negb]; [|naive_solver].
  apply has_valid_packet_prefix_eq in Hp; [|lia]. cbn zeta in Hp.
  destruct (supported_packet_capacity b h); cbn [negb]; [|naive_solver].
  set (m := memcpy_metadata packet) in *.
  destruct (Z.ltb_spec (pdu_size packet) (md_total_size m)); [lia|]. cbn [orb].
  destruct exact; cbn [andb].
  - destruct (Z.eqb_spec (md_total_size m) (pdu_size packet)); cbn [negb]; [|naive_solver].
    split_guard; simpl_bools; [split; [done|lia]|]. split; [|naive_solver].
    intros [= <-]. repeat split; done.
  - split_guard; simpl_bools; [split; [done|lia]|]. split; [|naive_solver].
    intros [= <-]. repeat split; done.
Qed.

(** A fresh buffer passes every later test with the sizes it was made for. *)
Lemma create_packet_buffer_valid b h p :
  0 <= b -> 0 <= h -> create_packet_buffer b h = Some p ->
  has_valid_packet_prefix p b = true
  /\ (forall h' exact, 0 <= h <= h' -> supported_packet_capacity b h' = true ->
       aligned_size h <= aligned_size h' ->
       validate_packet_capacity p b h' exact = Some (pdu_size p)).
Proof.
  intros Hb Hh. unfold create_packet_buffer.
  destruct (supported_packet_capacity b h) eqn:Hs;
    [|by rewrite orb_true_r]. rewrite orb_false_r.
  split_guard; [done|]. intros Hc. apply supported_packet_capacity_eq in Hs as Hs'; [|lia..].
  destruct (law_create b h p Hc) as (Hi & Hbo & Hho & Hto & Hsz).
  pose proof law_meta_size as [Hm1 Hm2].
  destruct (aligned_size_bounds b ltac:(lia)) as [Hab _].
  destruct (aligned_size_bounds h ltac:(lia)) as [Hah _].
  split.
  - apply has_valid_packet_prefix_eq; [lia|]. cbn zeta. intuition lia.
  - intros h' exact Hle Hs2 Hal. apply validate_packet_capacity_Some. cbn zeta.
    repeat split; [|done|lia|lia|lia]. apply has_valid_packet_prefix_eq; [lia|]. cbn zeta. intuition lia.
Qed.
End SizeLemmas.

(** ** Lemmas on sends *)

Section Sends.
Context {T : Transport}.

(** A call to the transport logs one record, with its outcome. *)
Definition sent_one (w w' : Wire) (ok : bool) : Prop :=
  exists rec, w' = w ++ [rec] /\ sr_ok rec = ok.

(** Success means one delivered packet; failure means at most one refused
    attempt. *)
Definition send_outcome (w w' : Wire) (ok : bool) : Prop :=
  if ok then sent_one w w' true else w' = w \/ sent_one w w' false.

Lemma endpoint_send_outcome w k d w' r :
  endpoint_send w k d = (w', r) -> send_outcome w w' r.
Proof.
  unfold endpoint_send. intros [= <- <-]. unfold send_outcome, sent_one.
  destruct (send_result w k d); eauto.
Qed.
End Sends.

Section Received.
Context {P : PduPlatform} {HL : PduPlatformLaws P}.

(** What the receiving endpoint needs of a packet: it validates at exactly
    its size and its header area is complete. *)
Definition receivable (data : PduData) (base_size heap_capacity header_size : Z) : Prop :=
  validate_packet_capacity data base_size heap_capacity true = Some (pdu_size data)
  /\ has_valid_packet_prefix data header_size = true.

(** Cutting a validated packet to its wire size keeps it receivable. *)
Lemma span_prefix_receivable packet b h n hs :
  (0 <= hs)%Z ->
  validate_packet_capacity packet b h false = Some n ->
  has_valid_packet_prefix packet hs = true ->
  receivable (span_prefix packet n) b h hs
  /\ (HAKO_PDU_META_DATA_SIZE + hs <= n)%Z
  /\ memcpy_metadata (span_prefix packet n) = memcpy_metadata packet.
Proof.
  intros Hhs Hv Hp. apply validate_packet_capacity_Some in Hv as (_ & Hs & _ & Hc & ->).
  apply has_valid_packet_prefix_eq in Hp as (H1 & H2 & H3 & H4 & H5); [|done].
  pose proof law_meta_size as [Hm1 Hm2].
  set (m := memcpy_metadata packet) in *.
  assert (Hmd : memcpy_metadata (span_prefix packet (md_total_size m)) = m).
  { unfold span_prefix. apply law_read_metadata_prefix. lia. }
  assert (Hsz : pdu_size (span_prefix packet (md_total_size m)) = md_total_size m).
  { unfold pdu_size, span_prefix in *. rewrite length_take. lia. }
  assert (Hpre : forall k, (0 <= k <= hs)%Z ->
            has_valid_packet_prefix (span_prefix packet (md_total_size m)) k = true).
  { intros k Hk. apply has_valid_packet_prefix_eq; [lia|]. cbn zeta.
    rewrite Hmd, Hsz. intuition lia. }
  split; [split; [|by apply Hpre]|split; [lia|done]].
  apply validate_packet_capacity_Some. cbn zeta. rewrite Hmd, Hsz.
  split_and!; [apply Hpre; lia|done|done|lia|done].
Qed.
End Received.


(** ** A concrete platform

    A little-endian layout with 24 bytes of metadata (magic, version, base
    offset, heap offset, total size, reserved) and 8-byte alignment. It shows
    that the laws can hold together and lets the definitions run. *)
Module ConcretePdu.

Fixpoint le_encode (n : nat) (v : Z) : list Z :=
  match n with
  | O => []
  | S n' => v mod 256 :: le_encode n' (v / 256)
  end.

Fixpoint le_decode (l : list Z) : Z :=
  match l with
  | [] => 0
  | b :: l' => b mod 256 + 256 * le_decode l'
  end.

(** Four bytes at an offset. *)
Definition read_u32 (off : nat) (p : PduData) : Z := le_decode (take 4 (drop off p)).

Record metadata := mkMetadata { m_magic : Z; m_base : Z; m_heap : Z; m_total : Z }.

Definition magic : Z := 305419896.

Definition read_metadata (p : PduData) : metadata :=
  mkMetadata (read_u32 0 p) (read_u32 8 p) (read_u32 12 p) (read_u32 16 p).

Definition align8 (n : Z) : Z := (n + 7) / 8 * 8.

Definition create (b h : Z) : option PduData :=
  let total := 24 + align8 b + align8 h in
  if (0 <=? b) && (0 <=? h) && (total <=? INT_MAX) then
    Some (le_encode 4 magic ++ le_encode 4 1 ++ le_encode 4 24
          ++ le_encode 4 (24 + align8 b) ++ le_encode 4 total ++ le_encode 4 0
          ++ replicate (Z.to_nat (total - 24)) 0)
  else None.

Definition is_byte (b : Z) : bool := (0 <=? b) && (b <? 256).

(** Writes [bytes] behind the metadata when they are bytes and fit. *)
Definition write_base (bytes : list Z) (n : nat) (p : PduData) : option PduData :=
  if forallb is_byte bytes && (length bytes =? n)%nat && (24 + n <=? length p)%nat then
    Some (take 24 p ++ bytes ++ drop (24 + n) p)
  else None.

Definition read_base (n : nat) (p : PduData) : option (list Z) :=
  if (24 + n <=? length p)%nat then Some (take n (drop 24 p)) else None.

Definition decode_request (l : list Z) : ActionRequestHeader :=
  mkActionRequestHeader (nth 0 l 0) (nth 1 l 0) (take 2 (drop 2 l)) (drop 4 l).
Definition encode_request (h : ActionRequestHeader) : list Z :=
  [arq_version h; arq_request_kind h] ++ arq_reserved h ++ arq_goal_id h.

Definition decode_response (l : list Z) : ActionResponseHeader :=
  mkActionResponseHeader (nth 0 l 0) (nth 1 l 0) (nth 2 l 0) (nth 3 l 0) (drop 4 l).
Definition encode_response (h : ActionResponseHeader) : list Z :=
  [arp_version h; arp_response_kind h; arp_status h; arp_reserved h] ++ arp_goal_id h.

Definition decode_feedback (l : list Z) : ActionFeedbackHeader :=
  mkActionFeedbackHeader (nth 0 l 0) (take 3 (drop 1 l)) (take 16 (drop 4 l))
    (le_decode (drop 20 l)).
Definition encode_feedback (h : ActionFeedbackHeader) : list Z :=
  [afb_version h] ++ afb_reserved h ++ afb_goal_id h ++ le_encode 4 (afb_sequence_no h).

Definition guarded (b : bool) (o : option PduData) : option PduData := if b then o else None.

#[export] Instance platform : PduPlatform := {|
  HAKO_ALIGNMENT_SIZE := 8;
  HAKO_PDU_META_DATA_SIZE := 24;
  HakoPduMetaDataType := metadata;
  md_base_off := m_base;
  md_heap_off := m_heap;
  md_total_size := m_total;
  HAKO_PDU_METADATA_IS_INVALID m := negb (m_magic m =? magic);
  sizeof_HakoPduMetaDataType := 24;
  memcpy_metadata := read_metadata;
  hako_create_empty_pdu := create;
  hako_pdu_get_size _ := Some 32;
  sizeof_ActionRequestHeader := 20;
  sizeof_ActionResponseHeader := 20;
  sizeof_ActionFeedbackHeader := 24;
  pdu2cpp_ActionRequestHeader p := decode_request <$> read_base 20 p;
  pdu2cpp_ActionResponseHeader p := decode_response <$> read_base 20 p;
  pdu2cpp_ActionFeedbackHeader p := decode_feedback <$> read_base 24 p;
  cpp2pdu_ActionRequestHeader h p :=
    guarded (length (arq_reserved h) =? 2)%nat (write_base (encode_request h) 20 p);
  cpp2pdu_ActionResponseHeader h p := write_base (encode_response h) 20 p;
  cpp2pdu_ActionFeedbackHeader h p :=
    guarded ((length (afb_reserved h) =? 3)%nat && (length (afb_goal_id h) =? 16)%nat
             && (0 <=? afb_sequence_no h) && (afb_sequence_no h <? UINT32_MODULUS))
      (write_base (encode_feedback h) 24 p);
  to_channel_id n := n;
|}.

Lemma le4 v :
  le_decode (le_encode 4 v) = v mod UINT32_MODULUS.
Proof.
  unfold UINT32_MODULUS. cbn [le_encode le_decode]. rewrite !Zmod_mod, Z.mul_0_r, Z.add_0_r.
  pose proof (Z.div_mod v 256). pose proof (Z.div_mod (v / 256) 256).
  pose proof (Z.div_mod (v / 256 / 256) 256). pose proof (Z.div_mod (v / 256 / 256 / 256) 256).
  pose proof (Z.mod_pos_bound v 256). pose proof (Z.mod_pos_bound (v / 256) 256).
  pose proof (Z.mod_pos_bound (v / 256 / 256) 256).
  pose proof (Z.mod_pos_bound (v / 256 / 256 / 256) 256).
  apply Z.mod_unique_pos with (v / 256 / 256 / 256 / 256); lia.
Qed.

Lemma le_decode_range l : 0 <= le_decode l < 256 ^ Z.of_nat (length l).
Proof.
  induction l as [|b l IH]; [done|]. cbn [le_decode length].
  rewrite Nat2Z.inj_succ, Z.pow_succ_r by lia.
  pose proof (Z.mod_pos_bound b 256). lia.
Qed.

Lemma read_u32_range off p : in_u32 (read_u32 off p).
Proof.
  unfold read_u32, in_u32, UINT32_MODULUS.
  pose proof (le_decode_range (take 4 (drop off p))) as Hr.
  pose proof (length_take (drop off p) 4).
  assert (256 ^ Z.of_nat (length (take 4 (drop off p))) <= 256 ^ 4)
    by (apply Z.pow_le_mono_r; lia). lia.
Qed.

Lemma aligned_size_concrete n :
  0 <= n <= INT_MAX -> aligned_size n = align8 n.
Proof.
  intros Hn. unfold aligned_size, align8. unfold INT_MAX in Hn. cbn [HAKO_ALIGNMENT_SIZE platform].
  rewrite (mask_rounds_up 8 3) by (unfold UINT64_MODULUS; lia).
  do 2 f_equal. lia.
Qed.

Lemma align8_bounds n : n <= align8 n < n + 8.
Proof.
  unfold align8. pose proof (Z.div_mod (n + 7) 8). pose proof (Z.mod_pos_bound (n + 7) 8). lia.
Qed.

Lemma write_base_spec bytes n p p' :
  write_base bytes n p = Some p' ->
  length p' = length p /\ read_base n p' = Some bytes
  /\ (forall off, (off + 4 <= 24)%nat -> read_u32 off p' = read_u32 off p).
Proof.
  unfold write_base. split_guard; [|done]. intros Hp'.
  assert (p' = take 24 p ++ bytes ++ drop (24 + n) p) as -> by congruence. clear Hp'.
  apply andb_true_iff in E as [[_ H0%Nat.eqb_eq]%andb_true_iff H1%Nat.leb_le].
  assert (Hl : length (take 24 p ++ bytes ++ drop (24 + n) p) = length p).
  { rewrite !length_app, length_take, length_drop. lia. }
  split; [exact Hl|split].
  - unfold read_base. rewrite Hl. rewrite (proj2 (Nat.leb_le _ _) H1).
    f_equal. rewrite drop_app_length'; [|rewrite length_take; lia].
    rewrite take_app_length'; [done|lia].
  - intros off Hoff. unfold read_u32. f_equal.
    apply list_eq. intros i. rewrite !lookup_take, !lookup_drop. case_decide; [|done].
    rewrite lookup_app_l by (rewrite length_take; lia).
    rewrite lookup_take_lt by lia. done.
Qed.

Lemma write_base_metadata bytes n p p' :
  write_base bytes n p = Some p' -> read_metadata p' = read_metadata p.
Proof.
  intros (_ & _ & Hr)%write_base_spec. unfold read_metadata. by rewrite !Hr by lia.
Qed.

Lemma read_base_take n m p :
  (24 + n <= m)%nat -> read_base n (take m p) = read_base n p.
Proof.
  intros Hm. unfold read_base. rewrite length_take.
  destruct (decide (24 + n <= length p)%nat).
  - rewrite !(proj2 (Nat.leb_le _ _)) by lia. f_equal.
    rewrite skipn_firstn_comm, take_take. f_equal. lia.
  - by rewrite !(proj2 (Nat.leb_gt _ _)) by lia.
Qed.


Lemma read_metadata_layout a b c d e f rest :
  read_metadata (le_encode 4 a ++ le_encode 4 b ++ le_encode 4 c ++ le_encode 4 d
                 ++ le_encode 4 e ++ le_encode 4 f ++ rest)
  = mkMetadata (u32 a) (u32 c) (u32 d) (u32 e).
Proof. unfold u32. rewrite <-!le4. reflexivity. Qed.

Lemma create_spec b h p :
  create b h = Some p ->
  0 <= b /\ 0 <= h /\ 24 + align8 b + align8 h <= INT_MAX
  /\ read_metadata p = mkMetadata magic 24 (24 + align8 b) (24 + align8 b + align8 h)
  /\ pdu_size p = 24 + align8 b + align8 h.
Proof.
  unfold create. split_guard; [|done]. intros Hp. simpl_bools.
  pose proof (align8_bounds b). pose proof (align8_bounds h).
  assert (forall v, 0 <= v <= INT_MAX -> u32 v = v) as Hle.
  { intros v Hv. apply u32_small. unfold in_u32, INT_MAX, UINT32_MODULUS in *. lia. }
  apply (inj Some) in Hp. subst p. repeat split; try done.
  - rewrite read_metadata_layout, !Hle by (unfold magic, INT_MAX in *; lia). done.
  - unfold pdu_size. rewrite !length_app, length_replicate. cbn [le_encode length]. lia.
Qed.

Lemma read_u32_take off n p :
  (off + 4 <= n)%nat -> read_u32 off (take n p) = read_u32 off p.
Proof.
  intros Hn. unfold read_u32. f_equal. apply list_eq. intros i.
  rewrite !lookup_take, !lookup_drop. case_decide; [|done].
  by rewrite lookup_take_lt by lia.
Qed.

Lemma decode_encode_request h :
  length (arq_reserved h) = 2%nat -> decode_request (encode_request h) = h.
Proof. by destruct h as [? ? [|? [|? [|]]] ?]. Qed.

Lemma decode_encode_response h : decode_response (encode_response h) = h.
Proof. by destruct h. Qed.

Lemma decode_encode_feedback h :
  length (afb_reserved h) = 3%nat -> length (afb_goal_id h) = 16%nat ->
  in_u32 (afb_sequence_no h) -> decode_feedback (encode_feedback h) = h.
Proof.
  destruct h as [v [|? [|? [|? [|]]]] g s]; try done. cbn [afb_reserved afb_goal_id afb_sequence_no].
  intros _ Hg Hs. unfold decode_feedback, encode_feedback.
  cbn [afb_version afb_reserved afb_goal_id afb_sequence_no nth app].
  f_equal.
  - change (take 16 (g ++ le_encode 4 s) = g). by apply take_app_length'.
  - change (le_decode (drop 16 (g ++ le_encode 4 s)) = s).
    rewrite drop_app_length' by done. rewrite le4. by apply Z.mod_small.
Qed.

#[export] Instance platform_laws : PduPlatformLaws platform.
Proof.
  split; cbn -[read_metadata read_base write_base aligned_size create in_u32].
  - by exists 3.
  - done.
  - done.
  - intros p. repeat split; apply read_u32_range.
  - intros b h p (Hb & Hh & Hm & -> & ->)%create_spec. cbn [m_magic m_base m_heap m_total].
    pose proof (align8_bounds b). pose proof (align8_bounds h).
    rewrite !aligned_size_concrete by lia. done.
  - by intros t n [= <-].
  - intros h p p' Hg. unfold guarded in Hg. split_guard_in Hg; [|done].
    apply Nat.eqb_eq in E. pose proof (write_base_spec _ _ _ _ Hg) as (Hl & Hr & _).
    split; [done|]. split; [by eapply write_base_metadata|]. rewrite Hr.
    change (Some (decode_request (encode_request h)) = Some h). by rewrite decode_encode_request.
  - intros h p p' Hg. pose proof (write_base_spec _ _ _ _ Hg) as (Hl & Hr & _).
    split; [done|]. split; [by eapply write_base_metadata|]. rewrite Hr.
    change (Some (decode_response (encode_response h)) = Some h). by rewrite decode_encode_response.
  - intros h p p' Hg. unfold guarded in Hg. split_guard_in Hg; [|done]. simpl_bools.
    repeat match goal with E : (_ =? _)%nat = true |- _ => apply Nat.eqb_eq in E end.
    pose proof (write_base_spec _ _ _ _ Hg) as (Hl & Hr & _).
    split; [done|]. split; [by eapply write_base_metadata|]. rewrite Hr.
    change (Some (decode_feedback (encode_feedback h)) = Some h). by rewrite decode_encode_feedback.
  - intros n p Hn. unfold read_metadata. by rewrite !read_u32_take by lia.
  - intros n p Hn. by rewrite read_base_take by lia.
  - intros n p Hn. by rewrite read_base_take by lia.
  - intros n p Hn. by rewrite read_base_take by lia.
  - done.
Qed.

End ConcretePdu.

(** ** Properties *)

(** Packet sizes are computed without overflow: for every size the
    capacity test lets through, masking yields the least multiple of the
    alignment that is not below the size, and the test accepts a base and heap
    size exactly when metadata, aligned base and aligned heap together fit in
    an [int]. *)
Theorem packet_capacity_exact {P : PduPlatform} {HL : PduPlatformLaws P} base_size heap_capacity :
  0 <= base_size <= INT_MAX -> 0 <= heap_capacity <= INT_MAX ->
  (supported_packet_capacity base_size heap_capacity = true
   <-> HAKO_PDU_META_DATA_SIZE + aligned_size base_size + aligned_size heap_capacity
       <= INT_MAX)
  /\ (forall size, 0 <= size <= INT_MAX ->
        aligned_size size mod HAKO_ALIGNMENT_SIZE = 0
        /\ size <= aligned_size size
        /\ forall m, size <= m -> m mod HAKO_ALIGNMENT_SIZE = 0 -> aligned_size size <= m).
Proof.
  intros Hb Hh. split.
  - rewrite supported_packet_capacity_eq by lia. lia.
  - intros size Hs. destruct (aligned_size_bounds size Hs) as [[Hl Hu] Hm].
    repeat split; [done|done|]. intros m Hsm Hmm. pose proof alignment_pos as Ha.
    set (a := HAKO_ALIGNMENT_SIZE) in *.
    pose proof (Z.div_mod (aligned_size size) a ltac:(lia)) as E1.
    pose proof (Z.div_mod m a ltac:(lia)) as E2.
    rewrite Hm in E1. rewrite Hmm in E2.
    destruct (decide (aligned_size size / a <= m / a)); nia.
Qed.

Import ConcretePdu.

Lemma packet_capacity_exact_witness :
  supported_packet_capacity 32 16 = true
  <-> HAKO_PDU_META_DATA_SIZE + aligned_size 32 + aligned_size 16 <= INT_MAX.
Proof. apply (packet_capacity_exact 32 16); done. Defined.

(** A freshly created buffer is accepted by every later check made with
    the sizes it was created for: its metadata cover the whole base struct (so
    a header can be written), it validates as a received packet of exactly its
    own size, and its wire size is the whole buffer. *)
Theorem created_buffer_validates {P : PduPlatform} {HL : PduPlatformLaws P} base_size heap_capacity packet exact :
  0 <= base_size -> 0 <= heap_capacity ->
  create_packet_buffer base_size heap_capacity = Some packet ->
  has_valid_packet_prefix packet base_size = true
  /\ validate_packet_capacity packet base_size heap_capacity exact = Some (pdu_size packet)
  /\ span_prefix packet (pdu_size packet) = packet.
Proof.
  intros Hb Hh Hc. destruct (create_packet_buffer_valid _ _ _ Hb Hh Hc) as [Hp Hv].
  split; [done|]. split.
  - apply Hv; [lia| |lia]. unfold create_packet_buffer in Hc.
    destruct (supported_packet_capacity base_size heap_capacity); [done|].
    by rewrite orb_true_r in Hc.
  - unfold span_prefix, pdu_size. by rewrite Nat2Z.id, take_ge.
Qed.

Lemma created_buffer_validates_witness :
  exists packet, create_packet_buffer 32 16 = Some packet
    /\ validate_packet_capacity packet 32 16 true = Some 72.
Proof.
  eexists. split; [vm_compute; reflexivity|].
  refine (proj1 (proj2 (created_buffer_validates 32 16 _ true _ _ _))); done.
Defined.
