(* ===== verification/Routing.v ===== *)
(** * Channel routing

    The table from slots to transport keys that both endpoints build in
    [initialize] (src/action_server_endpoint_impl.cpp; the client's loop in
    src/action_client_endpoint_impl.cpp is related to it in
    [ClientEndpoint.v]), and the proof that an accepted action definition
    routes every slot completely. *)

From S2P Require Import Prelude ActionTypes ActionConfiguration PduPacket.
From Stdlib Require Import ZArith Lia.
From stdpp Require Import base gmap strings list fin_maps.

Module RoutingTable.
Import ActionConfig.

Record SlotRouting := mkSlotRouting {
  rt_slot_index : nat;
  rt_request : PduResolvedKey;
  rt_response : PduResolvedKey;
  rt_feedback : PduResolvedKey;
  rt_request_packet_type : string;
  rt_response_packet_type : string;
  rt_feedback_packet_type : string;
  rt_request_packet_base_size : Z;
  rt_response_packet_base_size : Z;
  rt_feedback_packet_base_size : Z;
  rt_request_heap_capacity : Z;
  rt_response_heap_capacity : Z;
  rt_feedback_heap_capacity : Z;
}.

Section Routing.
Context {P : PduPlatform}.

(** Element [slot] of [parsed_routing] before the channels are read. *)
Definition initial_routing (heap : ActionBufferHeap) (slot : nat) : SlotRouting :=
  let no_key := mkPduResolvedKey "" 0 in
  mkSlotRouting slot no_key no_key no_key "" "" "" 0 0 0
    (abh_request_size heap) (abh_response_size heap) (abh_feedback_size heap).

(** The registry size of a packet type when it covers the header and fits the
    supported range with the given heap. *)
Definition channel_base_size (packet_type : string) (header_size heap_capacity : Z)
    : option Z :=
  match hako_pdu_get_size packet_type with
  | None => None
  | Some base_size =>
      if (base_size <? header_size)%Z then None
      else if negb (supported_packet_capacity base_size heap_capacity) then None
      else Some base_size
  end.

(** One iteration of the channel loop over [parsed_routing], [channel_masks]
    and [channel_ids]; [None] is the error return. *)
Definition route_channel (action_name : string)
    (acc : list SlotRouting * list Z * list Z) (channel : ActionChannelDefinition)
    : option (list SlotRouting * list Z * list Z) :=
  let '(routing, masks, ids) := acc in
  let slot := acd_slot_index channel in
  if bool_decide (acd_channel_id channel ∈ ids) then None
  else
    match routing !! slot, masks !! slot with
    | Some r, Some mask =>
        let key := mkPduResolvedKey action_name (to_channel_id (acd_channel_id channel)) in
        let type := acd_packet_type channel in
        let ids' := acd_channel_id channel :: ids in
        match acd_kind channel with
        | ActionChannelKind_REQUEST =>
            match channel_base_size type sizeof_ActionRequestHeader
                    (rt_request_heap_capacity r) with
            | None => None
            | Some size =>
                Some (<[slot := mkSlotRouting (rt_slot_index r) key (rt_response r)
                          (rt_feedback r) type (rt_response_packet_type r)
                          (rt_feedback_packet_type r) size
                          (rt_response_packet_base_size r)
                          (rt_feedback_packet_base_size r)
                          (rt_request_heap_capacity r) (rt_response_heap_capacity r)
                          (rt_feedback_heap_capacity r)]> routing,
                      <[slot := Z.lor mask 1]> masks, ids')
            end
        | ActionChannelKind_RESPONSE =>
            match channel_base_size type sizeof_ActionResponseHeader
                    (rt_response_heap_capacity r) with
            | None => None
            | Some size =>
                Some (<[slot := mkSlotRouting (rt_slot_index r) (rt_request r) key
                          (rt_feedback r) (rt_request_packet_type r) type
                          (rt_feedback_packet_type r) (rt_request_packet_base_size r)
                          size (rt_feedback_packet_base_size r)
                          (rt_request_heap_capacity r) (rt_response_heap_capacity r)
                          (rt_feedback_heap_capacity r)]> routing,
                      <[slot := Z.lor mask 2]> masks, ids')
            end
        | ActionChannelKind_FEEDBACK =>
            match channel_base_size type sizeof_ActionFeedbackHeader
                    (rt_feedback_heap_capacity r) with
            | None => None
            | Some size =>
                Some (<[slot := mkSlotRouting (rt_slot_index r) (rt_request r)
                          (rt_response r) key (rt_request_packet_type r)
                          (rt_response_packet_type r) type
                          (rt_request_packet_base_size r)
                          (rt_response_packet_base_size r) size
                          (rt_request_heap_capacity r) (rt_response_heap_capacity r)
                          (rt_feedback_heap_capacity r)]> routing,
                      <[slot := Z.lor mask 4]> masks, ids')
            end
        end
    | _, _ => None
    end.

Fixpoint route_channels (action_name : string)
    (acc : list SlotRouting * list Z * list Z) (channels : list ActionChannelDefinition)
    : option (list SlotRouting * list Z * list Z) :=
  match channels with
  | [] => Some acc
  | channel :: rest =>
      match route_channel action_name acc channel with
      | None => None
      | Some acc' => route_channels action_name acc' rest
      end
  end.

Definition build_routing (action_name : string) (definition : ActionDefinition)
    : option (list SlotRouting) :=
  let n := Z.to_nat (ad_slot_count definition) in
  let routing := initial_routing (ad_buffer_heap definition) <$> seq 0 n in
  match route_channels action_name (routing, replicate n 0%Z, []) (ad_channels definition) with
  | None => None
  | Some (routing', masks, _) =>
      if existsb (fun mask => negb (mask =? 7)%Z) masks then None else Some routing'
  end.
End Routing.

(** ** What routing guarantees *)

Section RoutingFacts.
Context {P : PduPlatform}.

(** The channel [c] of slot [s] and kind [k] is where [key] comes from, and
    [size] is its registered base size. *)
Definition routed_by (name : string) (channels : list ActionChannelDefinition)
    (s : nat) (k : ActionChannelKind) (header heap : Z) (key : PduResolvedKey) (size : Z)
    : Prop :=
  exists c, c ∈ channels /\ acd_slot_index c = s /\ acd_kind c = k
    /\ key = mkPduResolvedKey name (to_channel_id (acd_channel_id c))
    /\ channel_base_size (acd_packet_type c) header heap = Some size.

(** The loop invariant: the masks tell which parts of a slot are routed. *)
Definition routing_inv (name : string) (h : ActionBufferHeap) (n : nat)
    (done : list ActionChannelDefinition) (acc : list SlotRouting * list Z * list Z) : Prop :=
  let '(routing, masks, _) := acc in
  length routing = n /\ length masks = n
  /\ forall s r m, routing !! s = Some r -> masks !! s = Some m ->
       rt_slot_index r = s
       /\ rt_request_heap_capacity r = abh_request_size h
       /\ rt_response_heap_capacity r = abh_response_size h
       /\ rt_feedback_heap_capacity r = abh_feedback_size h
       /\ (Z.testbit m 0 = true ->
            routed_by name done s ActionChannelKind_REQUEST sizeof_ActionRequestHeader
              (abh_request_size h) (rt_request r) (rt_request_packet_base_size r))
       /\ (Z.testbit m 1 = true ->
            routed_by name done s ActionChannelKind_RESPONSE sizeof_ActionResponseHeader
              (abh_response_size h) (rt_response r) (rt_response_packet_base_size r))
       /\ (Z.testbit m 2 = true ->
            routed_by name done s ActionChannelKind_FEEDBACK sizeof_ActionFeedbackHeader
              (abh_feedback_size h) (rt_feedback r) (rt_feedback_packet_base_size r)).

Lemma routed_by_mono name l c s k hd hp key size :
  routed_by name l s k hd hp key size -> routed_by name (l ++ [c]) s k hd hp key size.
Proof. intros (c' & Hc & ?). exists c'. split; [|done]. apply elem_of_app. by left. Qed.

Lemma routed_by_new name l c hd hp size :
  channel_base_size (acd_packet_type c) hd hp = Some size ->
  routed_by name (l ++ [c]) (acd_slot_index c) (acd_kind c) hd hp
    (mkPduResolvedKey name (to_channel_id (acd_channel_id c))) size.
Proof. intros Hs. exists c. split; [|done]. apply elem_of_app. right. by apply list_elem_of_singleton. Qed.

Ltac mask_bits :=
  change (Z.testbit 1 0) with true; change (Z.testbit 1 1) with false;
  change (Z.testbit 1 2) with false; change (Z.testbit 2 0) with false;
  change (Z.testbit 2 1) with true; change (Z.testbit 2 2) with false;
  change (Z.testbit 4 0) with false; change (Z.testbit 4 1) with false;
  change (Z.testbit 4 2) with true.

Lemma route_channel_inv name h n l acc c acc' :
  routing_inv name h n l acc -> route_channel name acc c = Some acc' ->
  routing_inv name h n (l ++ [c]) acc'.
Proof.
  destruct acc as [[routing masks] ids], acc' as [[routing' masks'] ids'].
  intros (Hl & Hm & Hinv). unfold route_channel.
  case_bool_decide; [done|].
  destruct (routing !! acd_slot_index c) as [r|] eqn:Hr; [|done].
  destruct (masks !! acd_slot_index c) as [m|] eqn:Hmk; [|done].
  destruct (Hinv _ _ _ Hr Hmk) as (H1 & H2 & H3 & H4 & H5 & H6 & H7).
  rewrite H2, H3, H4.
  pose proof (routed_by_new name l c) as Hnew.
  destruct (acd_kind c) eqn:Hk;
    (destruct (channel_base_size _ _ _) as [size|] eqn:Hsz; [|done]);
    intros [= <- <- <-]; (split; [by rewrite length_insert|]);
    (split; [by rewrite length_insert|]); intros s r' m' Hr' Hm';
    (destruct (decide (s = acd_slot_index c)) as [->|Hne];
     [ rewrite list_lookup_insert_eq in Hr' by eauto using lookup_lt_Some;
       rewrite list_lookup_insert_eq in Hm' by eauto using lookup_lt_Some;
       injection Hr' as <-; injection Hm' as <-; cbn -[Z.testbit Z.lor]; rewrite !Z.lor_spec; mask_bits;
       rewrite ?orb_false_r; split_and!; try done; intros; eauto using routed_by_mono
     | rewrite list_lookup_insert_ne in Hr' by done;
       rewrite list_lookup_insert_ne in Hm' by done;
       destruct (Hinv _ _ _ Hr' Hm') as (? & ? & ? & ? & ? & ? & ?);
       split_and!; try done; intros; eauto using routed_by_mono ]).
Qed.

Lemma route_channels_inv name h n l acc cs acc' :
  routing_inv name h n l acc -> route_channels name acc cs = Some acc' ->
  routing_inv name h n (l ++ cs) acc'.
Proof.
  revert l acc. induction cs as [|c cs IH]; intros l acc Hi; cbn.
  { intros [= <-]. by rewrite app_nil_r. }
  destruct (route_channel name acc c) as [acc1|] eqn:Hc; [|done]. intros Hr.
  apply route_channel_inv with (n := n) (h := h) (l := l) in Hc; [|done].
  specialize (IH _ _ Hc Hr). by rewrite <-(assoc_L (++)) in IH.
Qed.

Lemma initial_routing_inv name h n :
  routing_inv name h n [] (initial_routing h <$> seq 0 n, replicate n 0%Z, []).
Proof.
  split; [by rewrite length_fmap, length_seq|]. split; [by rewrite length_replicate|].
  intros s r m Hr Hm. apply lookup_replicate in Hm as [-> _].
  apply list_lookup_fmap_Some in Hr as (x & -> & Hx). apply lookup_seq in Hx as [-> _].
  cbn. split_and!; try done; by rewrite Z.testbit_0_l.
Qed.

(** A completely routed slot. *)
Record slot_routed (name : string) (h : ActionBufferHeap) (s : nat) (r : SlotRouting)
    : Prop := {
  sr_index : rt_slot_index r = s;
  sr_request : rt_request r = mkPduResolvedKey name (to_channel_id (Z.of_nat (3 * s)));
  sr_response : rt_response r = mkPduResolvedKey name (to_channel_id (Z.of_nat (3 * s + 1)));
  sr_feedback : rt_feedback r = mkPduResolvedKey name (to_channel_id (Z.of_nat (3 * s + 2)));
  sr_heaps :
    rt_request_heap_capacity r = abh_request_size h
    /\ rt_response_heap_capacity r = abh_response_size h
    /\ rt_feedback_heap_capacity r = abh_feedback_size h;
  sr_request_size :
    (sizeof_ActionRequestHeader <= rt_request_packet_base_size r)%Z
    /\ supported_packet_capacity (rt_request_packet_base_size r) (abh_request_size h) = true;
  sr_response_size :
    (sizeof_ActionResponseHeader <= rt_response_packet_base_size r)%Z
    /\ supported_packet_capacity (rt_response_packet_base_size r) (abh_response_size h) = true;
  sr_feedback_size :
    (sizeof_ActionFeedbackHeader <= rt_feedback_packet_base_size r)%Z
    /\ supported_packet_capacity (rt_feedback_packet_base_size r) (abh_feedback_size h) = true;
}.

Lemma channel_base_size_Some t hd hp size :
  channel_base_size t hd hp = Some size ->
  (hd <= size)%Z /\ supported_packet_capacity size hp = true.
Proof.
  unfold channel_base_size. repeat (split_guard; try done). intros [= <-].
  by simpl_bools.
Qed.

Lemma definition_channel_id d c s k :
  definition_wf d -> c ∈ ad_channels d -> acd_slot_index c = s -> acd_kind c = kind_of k ->
  k < 3 -> acd_channel_id c = Z.of_nat (3 * s + k).
Proof.
  intros Hwf (i & Hi)%list_elem_of_lookup Hs Hk Hlt.
  pose proof (lookup_lt_Some _ _ _ Hi) as Hb. rewrite definition_wf_channel_count in Hb by done.
  destruct (definition_wf_channel d i) as (c' & Hc' & Hid & Hsl & Hkd); [done|lia|].
  simplify_eq. rewrite Hid. f_equal.
  pose proof (Nat.div_mod i 3 ltac:(lia)). pose proof (Nat.mod_upper_bound i 3 ltac:(lia)).
  assert (i mod 3 = k); [|lia]. rewrite Hkd in Hk.
  destruct k as [|[|[|]]], (i mod 3) as [|[|[|]]]; cbn in Hk; try done; lia.
Qed.

Lemma routed_by_definition name d s k hd hp key size :
  definition_wf d -> k < 3 ->
  routed_by name (ad_channels d) s (kind_of k) hd hp key size ->
  key = mkPduResolvedKey name (to_channel_id (Z.of_nat (3 * s + k)))
  /\ (hd <= size)%Z /\ supported_packet_capacity size hp = true.
Proof.
  intros Hwf Hk (c & Hc & Hs & Hkd & -> & Hsz).
  rewrite (definition_channel_id d c s k Hwf Hc Hs Hkd Hk).
  split; [done|]. by apply channel_base_size_Some in Hsz.
Qed.

(** An accepted definition yields a complete table or none. *)
Lemma build_routing_spec name d rs :
  definition_wf d -> build_routing name d = Some rs ->
  length rs = Z.to_nat (ad_slot_count d)
  /\ forall s r, rs !! s = Some r -> slot_routed name (ad_buffer_heap d) s r.
Proof.
  intros Hwf. unfold build_routing.
  destruct (route_channels _ _ _) as [[[routing masks] ids]|] eqn:Hr; [|done].
  apply route_channels_inv with (h := ad_buffer_heap d) (n := Z.to_nat (ad_slot_count d))
    (l := []) in Hr as (Hl & Hm & Hinv); [|apply initial_routing_inv].
  split_guard; [done|]. intros [= <-]. split; [done|]. intros s r Hs.
  assert (Hlt : s < length masks) by (apply lookup_lt_Some in Hs; lia).
  apply lookup_lt_is_Some in Hlt as [m Hms].
  assert (m = 7%Z) as ->.
  { destruct (Z.eqb_spec m 7) as [|Hne]; [done|].
    assert (existsb (fun mask => negb (mask =? 7)%Z) masks = true); [|congruence].
    apply existsb_exists. exists m. split.
    - apply list_elem_of_In. by eapply list_elem_of_lookup_2.
    - apply negb_true_iff. by apply Z.eqb_neq. }
  destruct (Hinv _ _ _ Hs Hms) as (H1 & H2 & H3 & H4 & H5 & H6 & H7).
  rewrite app_nil_l in *.
  destruct (routed_by_definition name d s 0 _ _ _ _ Hwf ltac:(lia) (H5 eq_refl)) as (K5 & S5).
  destruct (routed_by_definition name d s 1 _ _ _ _ Hwf ltac:(lia) (H6 eq_refl)) as (K6 & S6).
  destruct (routed_by_definition name d s 2 _ _ _ _ Hwf ltac:(lia) (H7 eq_refl)) as (K7 & S7).
  rewrite Nat.add_0_r in K5. by split.
Qed.
End RoutingFacts.

End RoutingTable.
