(* ===== verification/ServerInterface.v ===== *)
(** * The server endpoint interface

    [IActionServerEndpoint] of
    include/hakoniwa/pdu/action/action_server_endpoint.hpp as a class of
    operations, and what an implementation promises to the services above it:
    an abstract map from goals to the phase of their packet exchange and the
    effect of every operation on that map. The services are verified against
    this contract; [ServerEndpoint.v] discharges it for
    [ActionServerEndpointImpl]. *)

From S2P Require Import Prelude ActionTypes ActionConfiguration PduPacket.
From Stdlib Require Import ZArith Lia.
From stdpp Require Import base gmap strings list fin_maps.

Module ServerIface.

Inductive CompleteResult :=
  | CompleteResult_NOT_COMMITTED
  | CompleteResult_SENT
  | CompleteResult_SEND_FAILED_AFTER_COMMIT.

#[export] Instance CompleteResult_eq_dec : EqDecision CompleteResult.
Proof. solve_decision. Defined.

(** Operations return the new endpoint, the transport log where they may send,
    and their result; [poll] returns [event_out], whose type is the returned
    event type. *)
Class IActionServerEndpoint (E : Type) := {
  i_make : string -> bool -> bool -> E;
  i_initialize : E -> ActionConfig.json -> E * bool;
  i_deliver : PduResolvedKey -> PduData -> E -> E;
  i_poll : E -> Wire -> E * Wire * ServerEvent;
  i_accept_goal : E -> Wire -> ServerGoalHandle -> E * Wire * bool;
  i_reject_goal : E -> Wire -> ServerGoalHandle -> E * Wire * bool;
  i_accept_cancel : E -> Wire -> ServerGoalHandle -> E * Wire * bool;
  i_reject_cancel : E -> Wire -> ServerGoalHandle -> E * Wire * bool;
  i_accept_cancel_locally : E -> ServerGoalHandle -> E * bool;
  i_create_result_buffer : E -> option PduData;
  i_create_feedback_buffer : E -> option PduData;
  i_send_feedback : E -> Wire -> ServerGoalHandle -> PduData -> E * Wire * bool;
  i_complete : E -> Wire -> ServerGoalHandle -> TerminalStatus -> PduData
               -> E * Wire * CompleteResult;
  i_complete_locally : E -> ServerGoalHandle -> TerminalStatus -> PduData -> E * bool;
  i_discard_pending_goal : E -> ServerGoalHandle -> E * bool;
  i_clear_pending_events : E -> E;
  i_reset_contexts : E -> E;
}.

(** ** The abstract endpoint *)

(** The phases of a goal's packet exchange. *)
Inductive phase :=
  | Awaiting
  | Accepted
  | Canceling
  | Committed.

#[export] Instance phase_eq_dec : EqDecision phase.
Proof. solve_decision. Defined.

(** Goals the endpoint knows, each with its phase and whether a client's
    cancel request awaits its response. *)
Abbreviation view := (gmap GoalId (phase * bool)).

(** The terminal statuses a phase can commit. *)
Definition phase_completes (p : phase) (st : TerminalStatus) : Prop :=
  (p = Accepted /\ (st = TerminalStatus_SUCCEEDED \/ st = TerminalStatus_ABORTED))
  \/ (p = Canceling /\ (st = TerminalStatus_CANCELED \/ st = TerminalStatus_ABORTED)).

Definition poll_effect (v : view) (ev : ServerEvent) (v' : view) : Prop :=
  let g := sgh_goal_id (se_goal ev) in
  match se_type ev with
  | ServerEventType_NONE => v' = v
  | ServerEventType_GOAL_REQUEST =>
      is_valid_goal_id g = true /\ v !! g = None /\ v' = <[g := (Awaiting, false)]> v
  | ServerEventType_CANCEL_REQUEST =>
      v !! g = Some (Accepted, false) /\ v' = <[g := (Accepted, true)]> v
  | ServerEventType_RUNTIME_CANCEL_REQUEST | ServerEventType_ERROR => False
  end.

(** ** The packet protocol

    What one operation shows: the call, the goal it names, its result, and the
    responses (kind, status and goal id) the client side received because of
    it. *)

Inductive label :=
  | LQuiet
  | LPoll (ev : ServerEvent)
  | LAcceptGoal (g : GoalId) (ok : bool)
  | LRejectGoal (g : GoalId) (ok : bool)
  | LAcceptCancel (g : GoalId) (ok : bool)
  | LRejectCancel (g : GoalId) (ok : bool)
  | LAcceptCancelLocally (g : GoalId) (ok : bool)
  | LFeedback (g : GoalId) (ok : bool)
  | LComplete (g : GoalId) (st : TerminalStatus) (r : CompleteResult)
  | LCompleteLocally (g : GoalId) (st : TerminalStatus) (ok : bool)
  | LDiscard (g : GoalId) (ok : bool)
  | LReset.

Abbreviation response := (Z * Z * GoalId)%type.

Definition goal_response (d : ActionTypes.Decision) (g : GoalId) : response :=
  (RESPONSE_KIND_GOAL, Decision_to_u8 d, g).
Definition cancel_response (d : ActionTypes.Decision) (g : GoalId) : response :=
  (RESPONSE_KIND_CANCEL, Decision_to_u8 d, g).
Definition result_response (st : TerminalStatus) (g : GoalId) : response :=
  (RESPONSE_KIND_RESULT, TerminalStatus_to_u8 st, g).

(** The protocol of one action. Every row fixes the phase in which the operation
    can have the result, the phase after it, and the responses; there are no
    other moves. *)
Inductive protocol : view -> label -> list response -> view -> Prop :=
  | pr_quiet v : protocol v LQuiet [] v
  | pr_poll_none v ev : se_type ev = ServerEventType_NONE -> protocol v (LPoll ev) [] v
  | pr_poll_refused v ev g : se_type ev = ServerEventType_NONE ->
      protocol v (LPoll ev) [goal_response Decision_REJECTED g] v
  | pr_poll_goal v ev g : se_type ev = ServerEventType_GOAL_REQUEST ->
      sgh_goal_id (se_goal ev) = g -> is_valid_goal_id g = true -> v !! g = None ->
      protocol v (LPoll ev) [] (<[g := (Awaiting, false)]> v)
  | pr_poll_cancel v ev g : se_type ev = ServerEventType_CANCEL_REQUEST ->
      sgh_goal_id (se_goal ev) = g -> v !! g = Some (Accepted, false) ->
      protocol v (LPoll ev) [] (<[g := (Accepted, true)]> v)
  | pr_accept v g : v !! g = Some (Awaiting, false) ->
      protocol v (LAcceptGoal g true) [goal_response Decision_ACCEPTED g]
        (<[g := (Accepted, false)]> v)
  | pr_accept_failed v g : protocol v (LAcceptGoal g false) [] v
  | pr_reject v g : v !! g = Some (Awaiting, false) ->
      protocol v (LRejectGoal g true) [goal_response Decision_REJECTED g] (delete g v)
  | pr_reject_failed v g : protocol v (LRejectGoal g false) [] v
  | pr_cancel v g : v !! g = Some (Accepted, true) ->
      protocol v (LAcceptCancel g true) [cancel_response Decision_ACCEPTED g]
        (<[g := (Canceling, false)]> v)
  | pr_cancel_failed v g : protocol v (LAcceptCancel g false) [] v
  | pr_keep v g : v !! g = Some (Accepted, true) ->
      protocol v (LRejectCancel g true) [cancel_response Decision_REJECTED g]
        (<[g := (Accepted, false)]> v)
  | pr_keep_failed v g : protocol v (LRejectCancel g false) [] v
  | pr_cancel_locally v g c : v !! g = Some (Accepted, c) ->
      protocol v (LAcceptCancelLocally g true) [] (<[g := (Canceling, false)]> v)
  | pr_cancel_locally_failed v g : (forall c, v !! g <> Some (Accepted, c)) ->
      protocol v (LAcceptCancelLocally g false) [] v
  | pr_feedback v g p c : v !! g = Some (p, c) -> p = Accepted \/ p = Canceling ->
      protocol v (LFeedback g true) [] v
  | pr_feedback_failed v g : protocol v (LFeedback g false) [] v
  | pr_complete v g p c st : v !! g = Some (p, c) -> phase_completes p st ->
      protocol v (LComplete g st CompleteResult_SENT) [result_response st g] (delete g v)
  | pr_complete_unsent v g p c st : v !! g = Some (p, c) -> phase_completes p st ->
      protocol v (LComplete g st CompleteResult_SEND_FAILED_AFTER_COMMIT) []
        (<[g := (Committed, false)]> v)
  | pr_complete_failed v g st : protocol v (LComplete g st CompleteResult_NOT_COMMITTED) [] v
  | pr_complete_locally v g p c st : v !! g = Some (p, c) -> phase_completes p st ->
      protocol v (LCompleteLocally g st true) [] (delete g v)
  | pr_complete_locally_failed v g st : protocol v (LCompleteLocally g st false) [] v
  | pr_discard v g : v !! g = Some (Awaiting, false) ->
      protocol v (LDiscard g true) [] (delete g v)
  | pr_discard_failed v g : (forall c, v !! g <> Some (Awaiting, c)) ->
      protocol v (LDiscard g false) [] v
  | pr_reset v : protocol v LReset [] ∅.

#[export] Hint Constructors protocol : hako.

(** Labels and responses determine the next state. *)
Lemma protocol_functional v l out v1 v2 :
  protocol v l out v1 -> protocol v l out v2 -> v1 = v2.
Proof. destruct 1; inversion 1; subst; congruence. Qed.

(** A committed goal stays as it is until the endpoint is reset. *)
Lemma protocol_committed v l out v' g c :
  protocol v l out v' -> v !! g = Some (Committed, c) -> l <> LReset ->
  v' !! g = Some (Committed, c).
Proof.
  intros Hp Hg Hl. destruct Hp as [| | |v ev g0 _ _ _ Hn|v ev g0 _ _ Hn|v g0 Hn| |v g0 Hn| |v g0 Hn|
    |v g0 Hn| |v g0 c0 Hn| | | |v g0 p c0 st Hn Hc|v g0 p c0 st Hn Hc| |v g0 p c0 st Hn Hc| |v g0 Hn| |];
    try done; (destruct (decide (g0 = g)) as [->|];
      [exfalso; unfold phase_completes in *; naive_solver congruence|by simplify_map_eq]).
Qed.

(** The contract. Success of an operation says which phase the goal was in
    and which it is in afterwards; failure leaves the map alone. *)
Class ServerEndpointSpec (E : Type) `{IActionServerEndpoint E} := {
  ep_view : E -> view;
  ep_inv : E -> Prop;
  spec_make n a b : ep_inv (i_make n a b) /\ ep_view (i_make n a b) = ∅;
  spec_initialize e j e' b :
    ep_inv e -> i_initialize e j = (e', b) -> ep_inv e' /\ ep_view e' = ep_view e;
  spec_deliver k d e : ep_inv e -> ep_inv (i_deliver k d e)
    /\ ep_view (i_deliver k d e) = ep_view e;
  spec_view_valid e g x : ep_inv e -> ep_view e !! g = Some x -> is_valid_goal_id g = true;
  spec_view_pending e g p :
    ep_inv e -> ep_view e !! g = Some (p, true) -> p = Accepted;
  spec_poll e w e' w' ev :
    ep_inv e -> i_poll e w = (e', w', ev) -> ep_inv e' /\ poll_effect (ep_view e) ev (ep_view e');
  spec_accept_goal e w h e' w' b :
    ep_inv e -> i_accept_goal e w h = (e', w', b) ->
    ep_inv e' /\
    if b then ep_view e !! sgh_goal_id h = Some (Awaiting, false)
              /\ ep_view e' = <[sgh_goal_id h := (Accepted, false)]> (ep_view e)
    else ep_view e' = ep_view e;
  spec_reject_goal e w h e' w' b :
    ep_inv e -> i_reject_goal e w h = (e', w', b) ->
    ep_inv e' /\
    if b then ep_view e !! sgh_goal_id h = Some (Awaiting, false)
              /\ ep_view e' = delete (sgh_goal_id h) (ep_view e)
    else ep_view e' = ep_view e;
  spec_accept_cancel e w h e' w' b :
    ep_inv e -> i_accept_cancel e w h = (e', w', b) ->
    ep_inv e' /\
    if b then ep_view e !! sgh_goal_id h = Some (Accepted, true)
              /\ ep_view e' = <[sgh_goal_id h := (Canceling, false)]> (ep_view e)
    else ep_view e' = ep_view e;
  spec_reject_cancel e w h e' w' b :
    ep_inv e -> i_reject_cancel e w h = (e', w', b) ->
    ep_inv e' /\
    if b then ep_view e !! sgh_goal_id h = Some (Accepted, true)
              /\ ep_view e' = <[sgh_goal_id h := (Accepted, false)]> (ep_view e)
    else ep_view e' = ep_view e;
  spec_accept_cancel_locally e h e' b :
    ep_inv e -> i_accept_cancel_locally e h = (e', b) ->
    ep_inv e' /\
    if b then (exists c, ep_view e !! sgh_goal_id h = Some (Accepted, c))
              /\ ep_view e' = <[sgh_goal_id h := (Canceling, false)]> (ep_view e)
    else ep_view e' = ep_view e /\ forall c, ep_view e !! sgh_goal_id h <> Some (Accepted, c);
  spec_send_feedback e w h d e' w' b :
    ep_inv e -> i_send_feedback e w h d = (e', w', b) ->
    ep_inv e' /\ ep_view e' = ep_view e
    /\ (b = true -> exists p c, ep_view e !! sgh_goal_id h = Some (p, c)
                                /\ (p = Accepted \/ p = Canceling));
  spec_complete e w h st d e' w' r :
    ep_inv e -> i_complete e w h st d = (e', w', r) ->
    ep_inv e' /\
    match r with
    | CompleteResult_NOT_COMMITTED => ep_view e' = ep_view e
    | CompleteResult_SENT =>
        (exists p c, ep_view e !! sgh_goal_id h = Some (p, c) /\ phase_completes p st)
        /\ ep_view e' = delete (sgh_goal_id h) (ep_view e)
    | CompleteResult_SEND_FAILED_AFTER_COMMIT =>
        (exists p c, ep_view e !! sgh_goal_id h = Some (p, c) /\ phase_completes p st)
        /\ ep_view e' = <[sgh_goal_id h := (Committed, false)]> (ep_view e)
    end;
  spec_complete_locally e h st d e' b :
    ep_inv e -> i_complete_locally e h st d = (e', b) ->
    ep_inv e' /\
    if b then (exists p c, ep_view e !! sgh_goal_id h = Some (p, c) /\ phase_completes p st)
              /\ ep_view e' = delete (sgh_goal_id h) (ep_view e)
    else ep_view e' = ep_view e;
  spec_discard_pending_goal e h e' b :
    ep_inv e -> i_discard_pending_goal e h = (e', b) ->
    ep_inv e' /\
    if b then ep_view e !! sgh_goal_id h = Some (Awaiting, false)
              /\ ep_view e' = delete (sgh_goal_id h) (ep_view e)
    else ep_view e' = ep_view e /\ forall c, ep_view e !! sgh_goal_id h <> Some (Awaiting, c);
  spec_clear_pending_events e :
    ep_inv e -> ep_inv (i_clear_pending_events e)
    /\ ep_view (i_clear_pending_events e) = ep_view e;
  spec_reset_contexts e :
    ep_inv e -> ep_inv (i_reset_contexts e) /\ ep_view (i_reset_contexts e) = ∅;
}.

End ServerIface.
