(* ===== verification/ClientInterface.v ===== *)
(** * The client endpoint interface

    [IActionClientEndpoint] of include/hakoniwa/pdu/action/action_client_endpoint.hpp
    as a type class, and what an implementation promises: the goals it keeps, as a
    map from goal ids to phases and expected feedback numbers, change only by the
    rules below. The client-side action services are verified against this
    contract. *)

From S2P Require Import Prelude ActionTypes ActionConfiguration PduPacket.
From Stdlib Require Import ZArith Lia.
From stdpp Require Import base gmap strings list fin_maps.

Module ClientIface.

(** The clock reading an operation takes is its last argument; [poll] returns
    [event_out], whose type is the returned event type. *)
Class IActionClientEndpoint (E : Type) := {
  ic_make : string -> bool -> bool -> E;
  ic_initialize : E -> ActionConfig.json -> E * bool;
  ic_deliver : PduResolvedKey -> PduData -> E -> E;
  ic_send_goal : E -> Wire -> PduData -> GoalId -> Z -> Z
                 -> E * Wire * (bool * ClientGoalHandle);
  ic_send_goal_with_result : E -> Wire -> PduData -> GoalId -> Z -> Z
                             -> E * Wire * (GoalSendResult * ClientGoalHandle);
  ic_send_cancel : E -> Wire -> ClientGoalHandle -> E * Wire * bool;
  ic_poll : E -> Z -> E * ClientEvent;
  ic_create_goal_buffer : E -> option PduData;
  ic_clear_pending_events : E -> E;
  ic_reset_contexts : E -> E;
}.

(** ** The abstract endpoint *)

Inductive client_phase :=
  | WaitingResponse
  | Quarantined
  | Running
  | WaitingCancel
  | Cancelling.

#[export] Instance client_phase_eq_dec : EqDecision client_phase.
Proof. solve_decision. Defined.

(** Each goal with its phase and the feedback number expected next. *)
Abbreviation client_view := (gmap GoalId (client_phase * Z)).

(** What an event about a goal says of it before and leaves of it after. *)
Inductive event_rule (n : Z) (ev : ClientEvent)
    : client_phase -> option (client_phase * Z) -> Prop :=
  | er_accepted : ce_type ev = ClientEventType_GOAL_RESPONSE ->
      ce_decision ev = Decision_ACCEPTED -> event_rule n ev WaitingResponse (Some (Running, n))
  | er_rejected : ce_type ev = ClientEventType_GOAL_RESPONSE ->
      ce_decision ev = Decision_REJECTED -> event_rule n ev WaitingResponse None
  | er_timeout : ce_type ev = ClientEventType_TIMEOUT ->
      event_rule n ev WaitingResponse (Some (Quarantined, n))
  | er_cancel_accepted : ce_type ev = ClientEventType_CANCEL_RESPONSE ->
      ce_decision ev = Decision_ACCEPTED -> event_rule n ev WaitingCancel (Some (Cancelling, n))
  | er_cancel_rejected : ce_type ev = ClientEventType_CANCEL_RESPONSE ->
      ce_decision ev = Decision_REJECTED -> event_rule n ev WaitingCancel (Some (Running, n))
  | er_finished p : p = Running \/ p = WaitingCancel -> ce_type ev = ClientEventType_RESULT ->
      ce_terminal_status ev = TerminalStatus_SUCCEEDED
      \/ ce_terminal_status ev = TerminalStatus_ABORTED -> event_rule n ev p None
  | er_canceled : ce_type ev = ClientEventType_RESULT ->
      ce_terminal_status ev = TerminalStatus_CANCELED
      \/ ce_terminal_status ev = TerminalStatus_ABORTED -> event_rule n ev Cancelling None
  | er_feedback p : p = Running \/ p = WaitingCancel \/ p = Cancelling ->
      ce_type ev = ClientEventType_FEEDBACK -> ce_feedback_sequence ev = n ->
      event_rule n ev p (Some (p, u32_succ n)).

Definition client_poll_effect (v : client_view) (ev : ClientEvent) (v' : client_view) : Prop :=
  let g := cgh_goal_id (ce_goal ev) in
  (ce_type ev = ClientEventType_NONE /\ v' = v)
  \/ exists p n o, v !! g = Some (p, n) /\ event_rule n ev p o
       /\ v' = partial_alter (fun _ => o) g v.

(** The contract. *)
Class ClientEndpointSpec (E : Type) `{IActionClientEndpoint E} := {
  cep_view : E -> client_view;
  cep_inv : E -> Prop;
  cspec_make n a b : cep_inv (ic_make n a b) /\ cep_view (ic_make n a b) = ∅;
  cspec_initialize e j e' r : cep_inv e -> ic_initialize e j = (e', r) ->
    cep_inv e' /\ cep_view e' = cep_view e;
  cspec_deliver k d e : cep_inv e ->
    cep_inv (ic_deliver k d e) /\ cep_view (ic_deliver k d e) = cep_view e;
  cspec_view_valid e g x : cep_inv e -> cep_view e !! g = Some x -> is_valid_goal_id g = true;
  cspec_send_goal e w d g t now e' w' r h :
    cep_inv e -> ic_send_goal_with_result e w d g t now = (e', w', (r, h)) ->
    cep_inv e' /\
    if bool_decide (r = GoalSendResult_SUCCESS)
    then cep_view e !! g = None /\ h = mkClientGoalHandle g
         /\ cep_view e' = <[g := (WaitingResponse, 0%Z)]> (cep_view e)
    else cep_view e' = cep_view e;
  cspec_send_cancel e w h e' w' r :
    cep_inv e -> ic_send_cancel e w h = (e', w', r) ->
    cep_inv e' /\
    if (r : bool)
    then exists n, cep_view e !! cgh_goal_id h = Some (Running, n)
         /\ cep_view e' = <[cgh_goal_id h := (WaitingCancel, n)]> (cep_view e)
    else cep_view e' = cep_view e;
  cspec_poll e now e' ev :
    cep_inv e -> ic_poll e now = (e', ev) ->
    cep_inv e' /\ client_poll_effect (cep_view e) ev (cep_view e');
  cspec_clear e : cep_inv e ->
    cep_inv (ic_clear_pending_events e)
    /\ cep_view (ic_clear_pending_events e) = cep_view e;
  cspec_reset e : cep_inv e ->
    cep_inv (ic_reset_contexts e) /\ cep_view (ic_reset_contexts e) = ∅;
}.

#[export] Hint Constructors event_rule : hako.
End ClientIface.
