(* ===== verification/ServerEndpoint.v ===== *)
(** * Server packet endpoint

    [ActionServerEndpointImpl] of src/action_server_endpoint_impl.{hpp,cpp}:
    the association of goals with communication slots, the queue of received
    packets, and the requests, responses and feedback it exchanges. Each
    operation takes the endpoint state and the log of transport sends and
    returns both with its result. The operations of the source hold the endpoint
    mutex for their whole effect, except [poll], which takes a packet in one
    critical section and handles it in another; the second is [poll_packet], so
    that other operations can come in between. Diagnostics on [std::cerr] are
    left out. *)

From S2P Require Import Prelude ActionTypes ActionConfiguration PduPacket Routing ServerInterface.
From Stdlib Require Import ZArith Lia.
From stdpp Require Import base gmap strings list fin_maps relations.

Module ServerEp.
Import ActionConfig ServerIface RoutingTable.

(** ** State *)

Record PendingPacket := mkPendingPacket {
  pp_slot_index : nat;
  pp_pdu : PduData;
}.

Inductive PacketBindingState :=
  | AWAITING_GOAL_DECISION
  | GOAL_ACCEPTED
  | CANCEL_ACCEPTED
  | RESULT_COMMITTED.

#[export] Instance PacketBindingState_eq_dec : EqDecision PacketBindingState.
Proof. solve_decision. Defined.

Record ActionPacketBinding := mkActionPacketBinding {
  pb_goal_id : GoalId;
  pb_slot_index : nat;
  pb_state : PacketBindingState;
  pb_next_feedback_sequence : Z;
  pb_cancel_decision_pending : bool;
}.

Definition set_pb_state (s : PacketBindingState) (b : ActionPacketBinding) :=
  mkActionPacketBinding (pb_goal_id b) (pb_slot_index b) s
    (pb_next_feedback_sequence b) (pb_cancel_decision_pending b).

Definition set_pb_cancel_decision_pending (p : bool) (b : ActionPacketBinding) :=
  mkActionPacketBinding (pb_goal_id b) (pb_slot_index b) (pb_state b)
    (pb_next_feedback_sequence b) p.

Definition set_pb_next_feedback_sequence (n : Z) (b : ActionPacketBinding) :=
  mkActionPacketBinding (pb_goal_id b) (pb_slot_index b) (pb_state b)
    n (pb_cancel_decision_pending b).

(** The members of the class; the two shared pointers are represented by
    whether they are set. *)
Record ServerEndpoint := mkServerEndpoint {
  ep_action_name : string;
  ep_has_endpoint : bool;
  ep_has_time_source : bool;
  ep_pending_events : list ServerEvent;
  ep_pending_packets : list PendingPacket;
  ep_slot_routing : list SlotRouting;
  ep_slot_owners : list (option GoalId);
  ep_packet_bindings : gmap GoalId ActionPacketBinding;
  ep_action_definition : option ActionDefinition;
  ep_initialized : bool;
}.

(** The constructor. *)
Definition new_server_endpoint (action_name : string) (has_endpoint has_time_source : bool)
    : ServerEndpoint :=
  mkServerEndpoint action_name has_endpoint has_time_source [] [] [] [] ∅ None false.

Definition set_queues (events : list ServerEvent) (packets : list PendingPacket)
    (e : ServerEndpoint) : ServerEndpoint :=
  mkServerEndpoint (ep_action_name e) (ep_has_endpoint e) (ep_has_time_source e)
    events packets (ep_slot_routing e) (ep_slot_owners e) (ep_packet_bindings e)
    (ep_action_definition e) (ep_initialized e).

Definition set_goals (owners : list (option GoalId))
    (bindings : gmap GoalId ActionPacketBinding) (e : ServerEndpoint) : ServerEndpoint :=
  mkServerEndpoint (ep_action_name e) (ep_has_endpoint e) (ep_has_time_source e)
    (ep_pending_events e) (ep_pending_packets e) (ep_slot_routing e) owners bindings
    (ep_action_definition e) (ep_initialized e).

(** An assignment through the iterator [binding]. *)
Definition put_binding (k : GoalId) (b : ActionPacketBinding) (e : ServerEndpoint)
    : ServerEndpoint :=
  set_goals (ep_slot_owners e) (<[k := b]> (ep_packet_bindings e)) e.

Section Operations.
Context {P : PduPlatform} {T : Transport}.

(** ** Headers and packets *)

Definition decode_request_header (packet : PduData) : option ActionRequestHeader :=
  if negb (has_valid_packet_prefix packet sizeof_ActionRequestHeader) then None
  else pdu2cpp_ActionRequestHeader packet.

Definition validate_request_header (header : ActionRequestHeader) : bool :=
  if negb (arq_version header =? ACTION_PROTOCOL_VERSION)%Z then false
  else if negb (arq_request_kind header =? REQUEST_KIND_GOAL)%Z
          && negb (arq_request_kind header =? REQUEST_KIND_CANCEL)%Z then false
  else is_valid_goal_id (arq_goal_id header).

Definition write_response_header (packet : PduData) (header : ActionResponseHeader)
    : option PduData :=
  if negb (has_valid_packet_prefix packet sizeof_ActionResponseHeader) then None
  else cpp2pdu_ActionResponseHeader header packet.

Definition write_feedback_header (packet : PduData) (header : ActionFeedbackHeader)
    : option PduData :=
  if negb (has_valid_packet_prefix packet sizeof_ActionFeedbackHeader) then None
  else cpp2pdu_ActionFeedbackHeader header packet.

Definition create_control_response_packet (e : ServerEndpoint) : option PduData :=
  match ep_slot_routing e with
  | [] => None
  | routing :: _ => create_packet_buffer (rt_response_packet_base_size routing) 0
  end.

Definition send_response_packet (e : ServerEndpoint) (w : Wire)
    (binding : ActionPacketBinding) (response_kind status : Z) (packet : PduData)
    : Wire * bool :=
  match ep_slot_routing e !! pb_slot_index binding with
  | None => (w, false)
  | Some routing =>
      if bool_decide (packet = []) then (w, false)
      else
        match validate_packet_capacity packet (rt_response_packet_base_size routing)
                (rt_response_heap_capacity routing) false with
        | None => (w, false)
        | Some wire_size =>
            let header := mkActionResponseHeader ACTION_PROTOCOL_VERSION
                            response_kind status 0 (pb_goal_id binding) in
            match write_response_header packet header with
            | None => (w, false)
            | Some packet' =>
                endpoint_send w (rt_response routing) (span_prefix packet' wire_size)
            end
        end
  end.

(** [create_control_response_packet(response) && send_response_packet(...)]. *)
Definition send_control_response (e : ServerEndpoint) (w : Wire)
    (binding : ActionPacketBinding) (response_kind status : Z) : Wire * bool :=
  match create_control_response_packet e with
  | None => (w, false)
  | Some response => send_response_packet e w binding response_kind status response
  end.

Definition send_goal_error_reply (e : ServerEndpoint) (w : Wire) (goal_id : GoalId)
    (slot_index : nat) : Wire :=
  let rejected_binding :=
    mkActionPacketBinding goal_id slot_index AWAITING_GOAL_DECISION 0 false in
  fst (send_control_response e w rejected_binding RESPONSE_KIND_GOAL
         (Decision_to_u8 Decision_REJECTED)).

(** Releases the binding [b] stored under [k]. *)
Definition release_binding_locked (e : ServerEndpoint) (k : GoalId)
    (b : ActionPacketBinding) : ServerEndpoint :=
  let slot_index := pb_slot_index b in
  let owners :=
    if bool_decide (ep_slot_owners e !! slot_index = Some (Some k))
    then <[slot_index := None]> (ep_slot_owners e)
    else ep_slot_owners e in
  set_goals owners (delete k (ep_packet_bindings e)) e.

(** ** Initialisation *)

Definition initialize (e : ServerEndpoint) (action_config : json)
    : ServerEndpoint * bool :=
  match parse_action action_config with
  | inr _ => (e, false)
  | inl definition =>
      if negb (bool_decide (ad_name definition = ep_action_name e)) then (e, false)
      else if negb (ep_has_endpoint e) || negb (ep_has_time_source e) then (e, false)
      else
        match build_routing (ep_action_name e) definition with
        | None => (e, false)
        | Some routing =>
            if ep_initialized e then (e, false)
            else
              (mkServerEndpoint (ep_action_name e) (ep_has_endpoint e)
                 (ep_has_time_source e) (ep_pending_events e) (ep_pending_packets e)
                 routing
                 (resize (length routing) None (ep_slot_owners e))
                 (ep_packet_bindings e) (Some definition) true, true)
        end
  end.

(** The callback subscribed for the request channel of a slot. *)
Definition on_recv_request (slot_index : nat) (data : PduData) (e : ServerEndpoint)
    : ServerEndpoint :=
  set_queues (ep_pending_events e)
    (ep_pending_packets e ++ [mkPendingPacket slot_index data]) e.

(** The transport delivers data for a key to the subscribed callbacks. *)
Definition deliver (key : PduResolvedKey) (data : PduData) (e : ServerEndpoint)
    : ServerEndpoint :=
  if negb (ep_initialized e) then e
  else
    foldl (fun e' routing =>
             if bool_decide (rt_request routing = key)
             then on_recv_request (rt_slot_index routing) data e' else e')
      e (ep_slot_routing e).

(** ** Polling *)

Definition goal_event (type : ServerEventType) (e : ServerEndpoint) (g : GoalId)
    (pdu : PduData) : ServerEvent :=
  mkServerEvent type (mkServerGoalHandle g) RuntimeCancelCause_UNSPECIFIED
    (ep_action_name e) pdu.

Definition handle_cancel_packet (e : ServerEndpoint) (goal_id : GoalId)
    (packet : PendingPacket) : ServerEndpoint * ServerEvent :=
  match ep_packet_bindings e !! goal_id with
  | None => (e, empty_server_event)
  | Some binding =>
      if negb (bool_decide (pb_slot_index binding = pp_slot_index packet)) then
        (e, empty_server_event)
      else if bool_decide (pb_state binding = AWAITING_GOAL_DECISION) then
        (e, empty_server_event)
      else if bool_decide (pb_state binding = CANCEL_ACCEPTED) then
        (e, empty_server_event)
      else if bool_decide (pb_state binding = RESULT_COMMITTED) then
        (e, empty_server_event)
      else if pb_cancel_decision_pending binding then (e, empty_server_event)
      else
        (put_binding goal_id (set_pb_cancel_decision_pending true binding) e,
         goal_event ServerEventType_CANCEL_REQUEST e goal_id (pp_pdu packet))
  end.

Definition handle_goal_packet (e : ServerEndpoint) (w : Wire) (goal_id : GoalId)
    (packet : PendingPacket) : ServerEndpoint * Wire * ServerEvent :=
  if bool_decide (is_Some (ep_packet_bindings e !! goal_id)) then
    (e, send_goal_error_reply e w goal_id (pp_slot_index packet), empty_server_event)
  else
    match ep_slot_owners e !! pp_slot_index packet with
    | Some (Some _) =>
        (e, send_goal_error_reply e w goal_id (pp_slot_index packet), empty_server_event)
    | Some None =>
        (set_goals (<[pp_slot_index packet := Some goal_id]> (ep_slot_owners e))
           (<[goal_id := mkActionPacketBinding goal_id (pp_slot_index packet)
                AWAITING_GOAL_DECISION 0 false]> (ep_packet_bindings e)) e,
         w,
         goal_event ServerEventType_GOAL_REQUEST e goal_id (pp_pdu packet))
    | None =>
        (* [slot_owners_] has one element per routing entry, so the index
           is in range ([ep_wf] below). *)
        (e, w, empty_server_event)
    end.

(** [poll] takes the first packet under the queue's mutex, checks it without a
    mutex (the routing it reads is fixed once initialised) and handles it under
    the endpoint's. This is what follows the taking of a packet. *)
Definition poll_packet (e : ServerEndpoint) (w : Wire) (packet : PendingPacket)
    : ServerEndpoint * Wire * ServerEvent :=
  match ep_slot_routing e !! pp_slot_index packet with
  | None => (e, w, empty_server_event)
  | Some routing =>
      match validate_packet_capacity (pp_pdu packet)
              (rt_request_packet_base_size routing)
              (rt_request_heap_capacity routing) true with
      | None => (e, w, empty_server_event)
      | Some _ =>
          match decode_request_header (pp_pdu packet) with
          | None => (e, w, empty_server_event)
          | Some header =>
              if negb (validate_request_header header) then (e, w, empty_server_event)
              else if (arq_request_kind header =? REQUEST_KIND_CANCEL)%Z then
                let '(e', event) := handle_cancel_packet e (arq_goal_id header) packet in
                (e', w, event)
              else handle_goal_packet e w (arq_goal_id header) packet
          end
      end
  end.

(** [poll] returns [event_out]; the returned event type is its [se_type]. *)
Definition poll (e : ServerEndpoint) (w : Wire) : ServerEndpoint * Wire * ServerEvent :=
  if negb (ep_initialized e) then (e, w, empty_server_event)
  else
    match ep_pending_events e with
    | event :: rest => (set_queues rest (ep_pending_packets e) e, w, event)
    | [] =>
        match ep_pending_packets e with
        | [] => (e, w, empty_server_event)
        | packet :: rest => poll_packet (set_queues [] rest e) w packet
        end
    end.

(** ** Application decisions *)

(** The binding an operation on [goal] works on: the handle is valid, the
    endpoint is initialised and the binding exists. *)
Definition find_binding (e : ServerEndpoint) (goal : ServerGoalHandle)
    : option ActionPacketBinding :=
  if negb (ServerGoalHandle_valid goal) then None
  else if negb (ep_initialized e) then None
  else ep_packet_bindings e !! sgh_goal_id goal.

Definition accept_goal (e : ServerEndpoint) (w : Wire) (goal : ServerGoalHandle)
    : ServerEndpoint * Wire * bool :=
  match find_binding e goal with
  | None => (e, w, false)
  | Some binding =>
      if negb (bool_decide (pb_state binding = AWAITING_GOAL_DECISION)) then (e, w, false)
      else
        let '(w', sent) := send_control_response e w binding RESPONSE_KIND_GOAL
                             (Decision_to_u8 Decision_ACCEPTED) in
        if sent
        then (put_binding (sgh_goal_id goal) (set_pb_state GOAL_ACCEPTED binding) e, w', true)
        else (e, w', false)
  end.

Definition reject_goal (e : ServerEndpoint) (w : Wire) (goal : ServerGoalHandle)
    : ServerEndpoint * Wire * bool :=
  match find_binding e goal with
  | None => (e, w, false)
  | Some binding =>
      if negb (bool_decide (pb_state binding = AWAITING_GOAL_DECISION)) then (e, w, false)
      else
        let '(w', sent) := send_control_response e w binding RESPONSE_KIND_GOAL
                             (Decision_to_u8 Decision_REJECTED) in
        if sent
        then (release_binding_locked e (sgh_goal_id goal) binding, w', true)
        else (e, w', false)
  end.

Definition accept_cancel (e : ServerEndpoint) (w : Wire) (goal : ServerGoalHandle)
    : ServerEndpoint * Wire * bool :=
  match find_binding e goal with
  | None => (e, w, false)
  | Some binding =>
      if negb (bool_decide (pb_state binding = GOAL_ACCEPTED))
         || negb (pb_cancel_decision_pending binding) then (e, w, false)
      else
        let '(w', sent) := send_control_response e w binding RESPONSE_KIND_CANCEL
                             (Decision_to_u8 Decision_ACCEPTED) in
        if sent
        then (put_binding (sgh_goal_id goal)
                (set_pb_cancel_decision_pending false
                   (set_pb_state CANCEL_ACCEPTED binding)) e, w', true)
        else (e, w', false)
  end.

Definition reject_cancel (e : ServerEndpoint) (w : Wire) (goal : ServerGoalHandle)
    : ServerEndpoint * Wire * bool :=
  match find_binding e goal with
  | None => (e, w, false)
  | Some binding =>
      if negb (bool_decide (pb_state binding = GOAL_ACCEPTED))
         || negb (pb_cancel_decision_pending binding) then (e, w, false)
      else
        let '(w', sent) := send_control_response e w binding RESPONSE_KIND_CANCEL
                             (Decision_to_u8 Decision_REJECTED) in
        if sent
        then (put_binding (sgh_goal_id goal)
                (set_pb_cancel_decision_pending false binding) e, w', true)
        else (e, w', false)
  end.

Definition accept_cancel_locally (e : ServerEndpoint) (goal : ServerGoalHandle)
    : ServerEndpoint * bool :=
  match find_binding e goal with
  | None => (e, false)
  | Some binding =>
      if negb (bool_decide (pb_state binding = GOAL_ACCEPTED)) then (e, false)
      else (put_binding (sgh_goal_id goal)
              (set_pb_cancel_decision_pending false
                 (set_pb_state CANCEL_ACCEPTED binding)) e, true)
  end.

Definition create_result_buffer (e : ServerEndpoint) : option PduData :=
  if negb (ep_initialized e) then None
  else
    match ep_slot_routing e with
    | [] => None
    | routing :: _ =>
        create_packet_buffer (rt_response_packet_base_size routing)
          (rt_response_heap_capacity routing)
    end.

Definition create_feedback_buffer (e : ServerEndpoint) : option PduData :=
  if negb (ep_initialized e) then None
  else
    match ep_slot_routing e with
    | [] => None
    | routing :: _ =>
        create_packet_buffer (rt_feedback_packet_base_size routing)
          (rt_feedback_heap_capacity routing)
    end.

(** ** Feedback and completion *)

Definition send_feedback (e : ServerEndpoint) (w : Wire) (goal : ServerGoalHandle)
    (feedback_pdu : PduData) : ServerEndpoint * Wire * bool :=
  match find_binding e goal with
  | None => (e, w, false)
  | Some binding =>
      if negb (bool_decide (pb_state binding = GOAL_ACCEPTED))
         && negb (bool_decide (pb_state binding = CANCEL_ACCEPTED)) then (e, w, false)
      else
        match ep_slot_routing e !! pb_slot_index binding with
        | None => (e, w, false)
        | Some routing =>
            match validate_packet_capacity feedback_pdu
                    (rt_feedback_packet_base_size routing)
                    (rt_feedback_heap_capacity routing) false with
            | None => (e, w, false)
            | Some wire_size =>
                let header := mkActionFeedbackHeader ACTION_PROTOCOL_VERSION [0; 0; 0]%Z
                                (sgh_goal_id goal) (pb_next_feedback_sequence binding) in
                match write_feedback_header feedback_pdu header with
                | None => (e, w, false)
                | Some packet =>
                    let '(w', sent) :=
                      endpoint_send w (rt_feedback routing) (span_prefix packet wire_size) in
                    if sent
                    then (put_binding (sgh_goal_id goal)
                            (set_pb_next_feedback_sequence
                               (u32_succ (pb_next_feedback_sequence binding)) binding) e,
                          w', true)
                    else (e, w', false)
                end
            end
        end
  end.

Definition validate_terminal_packet_locked (e : ServerEndpoint)
    (binding : ActionPacketBinding) (status : TerminalStatus) (result_pdu : PduData)
    : option Z :=
  let executing_completion :=
    bool_decide (pb_state binding = GOAL_ACCEPTED)
    && (bool_decide (status = TerminalStatus_SUCCEEDED)
        || bool_decide (status = TerminalStatus_ABORTED)) in
  let canceling_completion :=
    bool_decide (pb_state binding = CANCEL_ACCEPTED)
    && (bool_decide (status = TerminalStatus_CANCELED)
        || bool_decide (status = TerminalStatus_ABORTED)) in
  if negb executing_completion && negb canceling_completion then None
  else
    match ep_slot_routing e !! pb_slot_index binding with
    | None => None
    | Some routing =>
        validate_packet_capacity result_pdu (rt_response_packet_base_size routing)
          (rt_response_heap_capacity routing) false
    end.

Definition complete (e : ServerEndpoint) (w : Wire) (goal : ServerGoalHandle)
    (status : TerminalStatus) (result_pdu : PduData)
    : ServerEndpoint * Wire * CompleteResult :=
  match find_binding e goal with
  | None => (e, w, CompleteResult_NOT_COMMITTED)
  | Some binding =>
      match validate_terminal_packet_locked e binding status result_pdu with
      | None => (e, w, CompleteResult_NOT_COMMITTED)
      | Some _ =>
          let committed :=
            set_pb_cancel_decision_pending false (set_pb_state RESULT_COMMITTED binding) in
          let e' := put_binding (sgh_goal_id goal) committed e in
          let '(w', sent) := send_response_packet e' w committed RESPONSE_KIND_RESULT
                               (TerminalStatus_to_u8 status) result_pdu in
          if sent
          then (release_binding_locked e' (sgh_goal_id goal) committed, w',
                CompleteResult_SENT)
          else (e', w', CompleteResult_SEND_FAILED_AFTER_COMMIT)
      end
  end.

Definition complete_locally (e : ServerEndpoint) (goal : ServerGoalHandle)
    (status : TerminalStatus) (result_pdu : PduData) : ServerEndpoint * bool :=
  match find_binding e goal with
  | None => (e, false)
  | Some binding =>
      match validate_terminal_packet_locked e binding status result_pdu with
      | None => (e, false)
      | Some _ =>
          let committed :=
            set_pb_cancel_decision_pending false (set_pb_state RESULT_COMMITTED binding) in
          let e' := put_binding (sgh_goal_id goal) committed e in
          (release_binding_locked e' (sgh_goal_id goal) committed, true)
      end
  end.

(** Unlike the other operations this one does not test [initialized_]. *)
Definition discard_pending_goal (e : ServerEndpoint) (goal : ServerGoalHandle)
    : ServerEndpoint * bool :=
  if negb (ServerGoalHandle_valid goal) then (e, false)
  else
    match ep_packet_bindings e !! sgh_goal_id goal with
    | None => (e, false)
    | Some binding =>
        if negb (bool_decide (pb_state binding = AWAITING_GOAL_DECISION)) then (e, false)
        else (release_binding_locked e (sgh_goal_id goal) binding, true)
    end.

Definition clear_pending_events (e : ServerEndpoint) : ServerEndpoint :=
  set_queues [] [] e.

Definition reset_contexts (e : ServerEndpoint) : ServerEndpoint :=
  set_queues [] [] (set_goals ((fun _ => None) <$> ep_slot_owners e) ∅ e).
End Operations.
End ServerEp.
