(* ===== verification/ServerEndpointFacts.v ===== *)
(** * Correctness of the server packet endpoint

    The slot-ownership invariant of [ActionServerEndpointImpl], its
    preservation by every operation, the proof that the implementation meets
    the contract of [ServerInterface.v], and the wire-level behaviour of
    decisions, feedback and completion. *)

From S2P Require Import Prelude ActionTypes ActionConfiguration PduPacket.
From S2P Require Import Routing ServerInterface ServerEndpoint.
From Stdlib Require Import ZArith Lia.
From stdpp Require Import base gmap strings list fin_maps relations.

Module ServerEpFacts.
Import ActionConfig ServerIface RoutingTable ServerEp.

(** ** The invariant *)

(** Bindings and slot owners are two views of one partial bijection between
    goals and slots; only an accepted goal can wait for a cancel decision;
    nothing enters the event queue; an endpoint that is not initialised has no
    slots. *)
Record ep_wf (e : ServerEndpoint) : Prop := {
  wf_owner g b : ep_packet_bindings e !! g = Some b ->
    pb_goal_id b = g /\ ep_slot_owners e !! pb_slot_index b = Some (Some g);
  wf_slot s g : ep_slot_owners e !! s = Some (Some g) ->
    exists b, ep_packet_bindings e !! g = Some b /\ pb_slot_index b = s;
  wf_len : length (ep_slot_owners e) = length (ep_slot_routing e);
  wf_cancel g b : ep_packet_bindings e !! g = Some b ->
    pb_cancel_decision_pending b = true -> pb_state b = GOAL_ACCEPTED;
  wf_valid g b : ep_packet_bindings e !! g = Some b -> is_valid_goal_id g = true;
  wf_sequence g b : ep_packet_bindings e !! g = Some b ->
    in_u32 (pb_next_feedback_sequence b);
  wf_events : ep_pending_events e = [];
  wf_uninit : ep_initialized e = false -> ep_slot_routing e = [];
}.

(** Bindings that keep goal and slot can be updated in place. *)
Lemma put_binding_wf e g b b' :
  ep_wf e -> ep_packet_bindings e !! g = Some b ->
  pb_goal_id b' = pb_goal_id b -> pb_slot_index b' = pb_slot_index b ->
  (pb_cancel_decision_pending b' = true -> pb_state b' = GOAL_ACCEPTED) ->
  in_u32 (pb_next_feedback_sequence b') ->
  ep_wf (put_binding g b' e).
Proof.
  intros [Ho Hs Hl Hc Hv Hq He Hu] Hb Hg Hi Hp Hn.
  split; cbn; try done; intros g' x; rewrite ?lookup_insert.
  - case_decide; [|by apply Ho]. intros [= <-]. subst g'.
    rewrite Hg, Hi. by apply Ho.
  - intros Hx. apply Hs in Hx as (y & Hy & <-). case_decide; [|by eauto].
    subst. simplify_eq. eauto.
  - case_decide; [|by apply Hc]. by intros [= <-].
  - case_decide; [|by apply Hv]. intros _. subst. eauto.
  - case_decide; [|by apply Hq]. by intros [= <-].
Qed.

(** Releasing a binding frees its slot and nothing else. *)
Lemma release_binding_owners e g b :
  ep_wf e -> ep_packet_bindings e !! g = Some b ->
  ep_slot_owners (release_binding_locked e g b)
  = <[pb_slot_index b := None]> (ep_slot_owners e).
Proof.
  intros Hwf Hb. unfold release_binding_locked. cbn.
  destruct (wf_owner e Hwf g b Hb) as [_ Ho]. by rewrite bool_decide_eq_true_2.
Qed.

Lemma release_binding_wf e g b :
  ep_wf e -> ep_packet_bindings e !! g = Some b -> ep_wf (release_binding_locked e g b).
Proof.
  intros Hwf Hb. pose proof (release_binding_owners e g b Hwf Hb) as Hown.
  destruct Hwf as [Ho Hs Hl Hc Hv Hq He Hu].
  assert (Hbi : ep_packet_bindings (release_binding_locked e g b)
                = delete g (ep_packet_bindings e)) by done.
  split; rewrite ?Hown, ?Hbi; try done.
  - intros g' x [Hne Hx]%lookup_delete_Some. destruct (Ho _ _ Hx) as [? Hox].
    split; [done|]. rewrite list_lookup_insert_ne; [done|]. intros Heq.
    destruct (Ho _ _ Hb) as [_ Hob]. rewrite Heq in Hob. congruence.
  - intros s g' Hx. destruct (decide (s = pb_slot_index b)) as [->|Hne].
    { destruct (Ho _ _ Hb) as [_ Hob%lookup_lt_Some].
      by rewrite list_lookup_insert_eq in Hx. }
    rewrite list_lookup_insert_ne in Hx by done. apply Hs in Hx as (y & Hy & <-).
    exists y. split; [|done]. apply lookup_delete_Some. split; [|done]. congruence.
  - by rewrite length_insert.
  - intros g' x [_ Hx]%lookup_delete_Some. by apply Hc with g'.
  - intros g' x [_ Hx]%lookup_delete_Some. by eapply Hv.
  - intros g' x [_ Hx]%lookup_delete_Some. by eapply Hq.
Qed.

Lemma set_queues_wf e packets : ep_wf e -> ep_wf (set_queues [] packets e).
Proof. by intros [????????]; split. Qed.

(** A goal enters with a fresh binding on a free slot. *)
Lemma add_goal_wf e g s :
  ep_wf e -> is_valid_goal_id g = true -> ep_packet_bindings e !! g = None ->
  ep_slot_owners e !! s = Some None ->
  ep_wf (set_goals (<[s := Some g]> (ep_slot_owners e))
           (<[g := mkActionPacketBinding g s AWAITING_GOAL_DECISION 0 false]>
              (ep_packet_bindings e)) e).
Proof.
  intros [Ho Hs Hl Hc Hv Hq He Hu] Hg Hn Hf.
  pose proof (lookup_lt_Some _ _ _ Hf) as Hlt.
  split; cbn; try done.
  - intros g' x. rewrite lookup_insert. case_decide; subst.
    + intros [= <-]. cbn. by rewrite list_lookup_insert_eq.
    + intros Hx. destruct (Ho _ _ Hx) as [? Hox]. split; [done|].
      rewrite list_lookup_insert_ne; [done|]. congruence.
  - intros s' g'. rewrite list_lookup_insert. case_decide.
    + intros [= <-]. eexists. rewrite lookup_insert_eq. split; [done|]. by destruct_and?.
    + intros Hx. apply Hs in Hx as (y & Hy & <-). exists y.
      rewrite lookup_insert_ne by congruence. done.
  - by rewrite length_insert.
  - intros g' x. rewrite lookup_insert. case_decide; [by intros [= <-]|by apply Hc].
  - intros g' x. rewrite lookup_insert. case_decide; [by subst|by apply Hv].
  - intros g' x. rewrite lookup_insert. case_decide; [by intros [= <-]|by apply Hq].
Qed.

(** ** The abstract view *)

Definition phase_of (s : PacketBindingState) : phase :=
  match s with
  | AWAITING_GOAL_DECISION => Awaiting
  | GOAL_ACCEPTED => Accepted
  | CANCEL_ACCEPTED => Canceling
  | RESULT_COMMITTED => Committed
  end.

Definition abs (b : ActionPacketBinding) : phase * bool :=
  (phase_of (pb_state b), pb_cancel_decision_pending b).

Definition view_of (e : ServerEndpoint) : view := abs <$> ep_packet_bindings e.

Lemma view_of_Some e g b :
  ep_packet_bindings e !! g = Some b -> view_of e !! g = Some (abs b).
Proof. intros H. unfold view_of. by rewrite lookup_fmap, H. Qed.

Lemma view_of_inv e g x :
  view_of e !! g = Some x -> exists b, ep_packet_bindings e !! g = Some b /\ x = abs b.
Proof. unfold view_of. rewrite lookup_fmap. intros (b & Hb & ->)%fmap_Some. eauto. Qed.

Lemma view_put_binding e g b : view_of (put_binding g b e) = <[g := abs b]> (view_of e).
Proof. apply fmap_insert. Qed.

Lemma view_release_binding e g b :
  view_of (release_binding_locked e g b) = delete g (view_of e).
Proof. apply fmap_delete. Qed.

(** A binding that is not accepted has no cancel decision pending. *)
Lemma abs_not_accepted e g b :
  ep_wf e -> ep_packet_bindings e !! g = Some b -> pb_state b <> GOAL_ACCEPTED ->
  abs b = (phase_of (pb_state b), false).
Proof.
  intros Hwf Hb Hs. unfold abs. destruct (pb_cancel_decision_pending b) eqn:Hc; [|done].
  by apply (wf_cancel e Hwf g) in Hc.
Qed.

Section Operations.
Context {P : PduPlatform} {T : Transport}.

Lemma find_binding_Some e h b :
  find_binding e h = Some b ->
  ServerGoalHandle_valid h = true /\ ep_initialized e = true
  /\ ep_packet_bindings e !! sgh_goal_id h = Some b.
Proof. unfold find_binding. repeat split_guard; try done; simpl_bools; auto. Qed.

(** On a well-formed endpoint a known goal is always found. *)
Lemma find_binding_known e h b :
  ep_wf e -> ep_packet_bindings e !! sgh_goal_id h = Some b -> find_binding e h = Some b.
Proof.
  intros Hwf Hb. unfold find_binding, ServerGoalHandle_valid.
  rewrite (wf_valid e Hwf _ _ Hb). cbn [negb].
  destruct (ep_initialized e) eqn:Hi; [done|]. exfalso.
  destruct (wf_owner e Hwf _ _ Hb) as [_ Ho%lookup_lt_Some].
  rewrite (wf_len e Hwf), (wf_uninit e Hwf Hi) in Ho. simpl in Ho. lia.
Qed.

Ltac op_start :=
  intros Hwf Hop;
  repeat (split_guard_in Hop; simplify_eq; auto);
  simpl_bools;
  match goal with
  | H : find_binding _ _ = Some _ |- _ =>
      apply find_binding_Some in H as (Hvalid & Hinit & Hbind)
  | _ => idtac
  end.

Ltac use_state :=
  repeat match goal with
  | H : pb_state ?b = _ |- _ => rewrite H in *; clear H
  | H : pb_cancel_decision_pending ?b = _ |- _ => rewrite H in *; clear H
  end.

Ltac solve_put :=
  eapply put_binding_wf; eauto; cbn; try done; eauto using wf_sequence.

Lemma accept_goal_spec e w h e' w' r :
  ep_wf e -> accept_goal e w h = (e', w', r) ->
  ep_wf e' /\
  if r then view_of e !! sgh_goal_id h = Some (Awaiting, false)
            /\ view_of e' = <[sgh_goal_id h := (Accepted, false)]> (view_of e)
  else view_of e' = view_of e.
Proof.
  unfold accept_goal. op_start.
  pose proof (abs_not_accepted _ _ _ Hwf Hbind) as Ha. use_state.
  specialize (Ha ltac:(done)). split_and!.
  - solve_put.
  - by rewrite (view_of_Some _ _ _ Hbind), Ha.
  - rewrite view_put_binding. f_equal. unfold abs in *. cbn in *. congruence.
Qed.

Lemma reject_goal_spec e w h e' w' r :
  ep_wf e -> reject_goal e w h = (e', w', r) ->
  ep_wf e' /\
  if r then view_of e !! sgh_goal_id h = Some (Awaiting, false)
            /\ view_of e' = delete (sgh_goal_id h) (view_of e)
  else view_of e' = view_of e.
Proof.
  unfold reject_goal. op_start.
  pose proof (abs_not_accepted _ _ _ Hwf Hbind) as Ha. use_state.
  specialize (Ha ltac:(done)). split_and!;
    [by apply release_binding_wf| |apply view_release_binding].
  by rewrite (view_of_Some _ _ _ Hbind), Ha.
Qed.

Lemma accept_cancel_spec e w h e' w' r :
  ep_wf e -> accept_cancel e w h = (e', w', r) ->
  ep_wf e' /\
  if r then view_of e !! sgh_goal_id h = Some (Accepted, true)
            /\ view_of e' = <[sgh_goal_id h := (Canceling, false)]> (view_of e)
  else view_of e' = view_of e.
Proof.
  unfold accept_cancel. op_start. split_and!; [solve_put| |by rewrite view_put_binding].
  rewrite (view_of_Some _ _ _ Hbind). unfold abs. by use_state.
Qed.

Lemma reject_cancel_spec e w h e' w' r :
  ep_wf e -> reject_cancel e w h = (e', w', r) ->
  ep_wf e' /\
  if r then view_of e !! sgh_goal_id h = Some (Accepted, true)
            /\ view_of e' = <[sgh_goal_id h := (Accepted, false)]> (view_of e)
  else view_of e' = view_of e.
Proof.
  unfold reject_cancel. op_start. split_and!; [solve_put|..].
  - rewrite (view_of_Some _ _ _ Hbind). unfold abs. by use_state.
  - rewrite view_put_binding. unfold abs. cbn. by use_state.
Qed.

Lemma accept_cancel_locally_spec e h e' r :
  ep_wf e -> accept_cancel_locally e h = (e', r) ->
  ep_wf e' /\
  if r then (exists c, view_of e !! sgh_goal_id h = Some (Accepted, c))
            /\ view_of e' = <[sgh_goal_id h := (Canceling, false)]> (view_of e)
  else view_of e' = view_of e /\ forall c, view_of e !! sgh_goal_id h <> Some (Accepted, c).
Proof.
  unfold accept_cancel_locally. intros Hwf.
  destruct (find_binding e h) as [b|] eqn:Hf.
  - apply find_binding_Some in Hf as (_ & _ & Hb).
    destruct (bool_decide_reflect (pb_state b = GOAL_ACCEPTED)); cbn; intros [= <- <-].
    + split_and!; [solve_put| |by rewrite view_put_binding].
      exists (pb_cancel_decision_pending b). rewrite (view_of_Some _ _ _ Hb).
      unfold abs. by rewrite e0.
    + split_and!; [done|done|]. intros c. rewrite (view_of_Some _ _ _ Hb).
      unfold abs. by destruct (pb_state b).
  - intros [= <- <-]. split_and!; [done|done|].
    intros c (b & Hb & _)%view_of_inv. by rewrite (find_binding_known _ _ _ Hwf Hb) in Hf.
Qed.

Lemma send_feedback_spec e w h d e' w' r :
  ep_wf e -> send_feedback e w h d = (e', w', r) ->
  ep_wf e' /\ view_of e' = view_of e
  /\ (r = true -> exists p c, view_of e !! sgh_goal_id h = Some (p, c)
                               /\ (p = Accepted \/ p = Canceling)).
Proof.
  unfold send_feedback. op_start; try (split_and!; done).
  split_and!.
  - eapply put_binding_wf; eauto using wf_cancel; cbn; eauto using wf_cancel with hako.
  - rewrite view_put_binding. apply insert_id. by rewrite (view_of_Some _ _ _ Hbind).
  - intros _. rewrite (view_of_Some _ _ _ Hbind). eexists _, _. split; [done|].
    match goal with E : andb _ _ = false |- _ => apply andb_false_iff in E as [E|E] end;
      simpl_bools; use_state; auto.
Qed.

Lemma validate_terminal_phase e b st d n :
  validate_terminal_packet_locked e b st d = Some n ->
  phase_completes (phase_of (pb_state b)) st
  /\ exists r, ep_slot_routing e !! pb_slot_index b = Some r.
Proof.
  unfold validate_terminal_packet_locked, phase_completes.
  destruct (pb_state b), st; cbn; try done;
    (destruct (ep_slot_routing e !! pb_slot_index b); [|done]); intros _; eauto 8.
Qed.

Lemma complete_spec e w h st d e' w' r :
  ep_wf e -> complete e w h st d = (e', w', r) ->
  ep_wf e' /\
  match r with
  | CompleteResult_NOT_COMMITTED => view_of e' = view_of e
  | CompleteResult_SENT =>
      (exists p c, view_of e !! sgh_goal_id h = Some (p, c) /\ phase_completes p st)
      /\ view_of e' = delete (sgh_goal_id h) (view_of e)
  | CompleteResult_SEND_FAILED_AFTER_COMMIT =>
      (exists p c, view_of e !! sgh_goal_id h = Some (p, c) /\ phase_completes p st)
      /\ view_of e' = <[sgh_goal_id h := (Committed, false)]> (view_of e)
  end.
Proof.
  intros Hwf. unfold complete. destruct (find_binding e h) as [b|] eqn:Hf;
    [|by intros [= <- <- <-]].
  apply find_binding_Some in Hf as (_ & _ & Hb).
  destruct (validate_terminal_packet_locked e b st d) as [n|] eqn:Hv;
    [|by intros [= <- <- <-]].
  apply validate_terminal_phase in Hv as [Hp _].
  set (c := set_pb_cancel_decision_pending false (set_pb_state RESULT_COMMITTED b)).
  assert (Hw1 : ep_wf (put_binding (sgh_goal_id h) c e)) by solve_put.
  assert (Hex : exists p x, view_of e !! sgh_goal_id h = Some (p, x) /\ phase_completes p st)
    by (rewrite (view_of_Some _ _ _ Hb); eauto).
  destruct (send_response_packet _ _ _ _ _ _) as [w1 []]; intros [= <- <- <-].
  - split_and!; [|done|].
    + apply release_binding_wf; [done|]. apply lookup_insert_eq.
    + rewrite view_release_binding, view_put_binding. apply delete_insert_eq.
  - split_and!; [done|done|]. by rewrite view_put_binding.
Qed.

Lemma complete_locally_spec e h st d e' r :
  ep_wf e -> complete_locally e h st d = (e', r) ->
  ep_wf e' /\
  if r then (exists p c, view_of e !! sgh_goal_id h = Some (p, c) /\ phase_completes p st)
            /\ view_of e' = delete (sgh_goal_id h) (view_of e)
  else view_of e' = view_of e.
Proof.
  intros Hwf. unfold complete_locally. destruct (find_binding e h) as [b|] eqn:Hf;
    [|by intros [= <- <-]].
  apply find_binding_Some in Hf as (_ & _ & Hb).
  destruct (validate_terminal_packet_locked e b st d) as [n|] eqn:Hv;
    [|by intros [= <- <-]].
  apply validate_terminal_phase in Hv as [Hp _]. intros [= <- <-].
  set (c := set_pb_cancel_decision_pending false (set_pb_state RESULT_COMMITTED b)).
  split_and!.
  - apply release_binding_wf; [solve_put|]. apply lookup_insert_eq.
  - rewrite (view_of_Some _ _ _ Hb). eauto.
  - rewrite view_release_binding, view_put_binding. apply delete_insert_eq.
Qed.

Lemma discard_pending_goal_spec e h e' r :
  ep_wf e -> discard_pending_goal e h = (e', r) ->
  ep_wf e' /\
  if r then view_of e !! sgh_goal_id h = Some (Awaiting, false)
            /\ view_of e' = delete (sgh_goal_id h) (view_of e)
  else view_of e' = view_of e /\ forall c, view_of e !! sgh_goal_id h <> Some (Awaiting, c).
Proof.
  intros Hwf. unfold discard_pending_goal, ServerGoalHandle_valid.
  destruct (ep_packet_bindings e !! sgh_goal_id h) as [b|] eqn:Hb.
  - rewrite (wf_valid e Hwf _ _ Hb). cbn [negb].
    destruct (bool_decide_reflect (pb_state b = AWAITING_GOAL_DECISION)) as [Hs|Hs];
      cbn; intros [= <- <-].
    + split_and!; [by apply release_binding_wf| |apply view_release_binding].
      pose proof (abs_not_accepted _ _ _ Hwf Hb) as Ha. rewrite Hs in Ha.
      by rewrite (view_of_Some _ _ _ Hb), Ha.
    + split_and!; [done|done|]. intros c. rewrite (view_of_Some _ _ _ Hb).
      unfold abs. by destruct (pb_state b).
  - split_guard; intros [= <- <-]; (split_and!; [done|done|]);
      intros c (b & Hb' & _)%view_of_inv; congruence.
Qed.

Lemma reset_contexts_wf e : ep_wf e -> ep_wf (reset_contexts e).
Proof.
  intros [Ho Hs Hl Hc Hv Hq He Hu]. split; cbn; try done.
  - intros s g Hx. rewrite list_lookup_fmap in Hx. by destruct (_ !! s).
  - by rewrite length_fmap.
Qed.

Lemma deliver_spec k d e :
  ep_wf e -> ep_wf (deliver k d e) /\ view_of (deliver k d e) = view_of e.
Proof.
  intros Hwf. unfold deliver. split_guard; [done|]. clear E.
  generalize (ep_slot_routing e) as l. intros l.
  assert (forall e0, ep_wf e0 ->
    let e1 := foldl (fun e' routing =>
             if bool_decide (rt_request routing = k)
             then on_recv_request (rt_slot_index routing) d e' else e') e0 l in
    ep_wf e1 /\ view_of e1 = view_of e0) as Hgen; [|by apply Hgen].
  induction l as [|r l IH]; intros e0 Hw0; [done|]. cbn.
  destruct (bool_decide (rt_request r = k)); [|by apply IH].
  destruct (IH (on_recv_request (rt_slot_index r) d e0)) as [H1 H2].
  - unfold on_recv_request. rewrite (wf_events e0 Hw0). by apply set_queues_wf.
  - split; [done|]. by rewrite H2.
Qed.

(** Without slots there are no goals. *)
Lemma uninit_no_bindings e :
  ep_wf e -> ep_initialized e = false ->
  ep_slot_owners e = [] /\ ep_packet_bindings e = ∅.
Proof.
  intros Hwf Hi. assert (Hl : ep_slot_owners e = []).
  { apply length_zero_iff_nil. by rewrite (wf_len e Hwf), (wf_uninit e Hwf Hi). }
  split; [done|]. apply map_eq. intros g. rewrite lookup_empty.
  destruct (ep_packet_bindings e !! g) as [b|] eqn:Hb; [|done].
  destruct (wf_owner e Hwf _ _ Hb) as [_ Ho]. by rewrite Hl in Ho.
Qed.

Lemma initialize_spec e j e' r :
  ep_wf e -> initialize e j = (e', r) ->
  ep_wf e' /\ view_of e' = view_of e /\ (r = false -> e' = e).
Proof.
  intros Hwf. unfold initialize.
  repeat (split_guard; try by intros [= <- <-]). intros [= <- <-].
  destruct (uninit_no_bindings e Hwf) as [Ho Hb]; [done|].
  split_and!; [|done|done].
  destruct Hwf as [_ _ _ _ _ _ He _]. split; cbn; rewrite ?Hb, ?Ho; try done.
  - intros s g. rewrite resize_nil. by intros [Hx _]%lookup_replicate_1.
  - by rewrite length_resize.
Qed.

Lemma handle_cancel_packet_spec e g pk e' ev :
  ep_wf e -> handle_cancel_packet e g pk = (e', ev) ->
  ep_wf e' /\ poll_effect (view_of e) ev (view_of e').
Proof.
  intros Hwf. unfold handle_cancel_packet.
  repeat (split_guard; try by intros [= <- <-]). intros [= <- <-]. simpl_bools.
  assert (Hs : pb_state a = GOAL_ACCEPTED) by (destruct (pb_state a); congruence).
  split; [solve_put|]. rewrite view_put_binding.
  unfold poll_effect. cbn [goal_event se_type se_goal sgh_goal_id].
  rewrite (view_of_Some _ _ _ E). unfold abs. cbn. by rewrite Hs, E4.
Qed.

Lemma handle_goal_packet_spec e w g pk e' w' ev :
  ep_wf e -> is_valid_goal_id g = true -> handle_goal_packet e w g pk = (e', w', ev) ->
  ep_wf e' /\ poll_effect (view_of e) ev (view_of e').
Proof.
  intros Hwf Hg. unfold handle_goal_packet.
  case_bool_decide as Hn; [by intros [= <- <- <-]|]. apply eq_None_not_Some in Hn.
  repeat (split_guard; try by intros [= <- <- <-]). intros [= <- <- <-].
  split; [by apply add_goal_wf|]. unfold poll_effect. cbn. split_and!; [done|..].
  - unfold view_of. by rewrite lookup_fmap, Hn.
  - unfold view_of. cbn. by rewrite fmap_insert.
Qed.

Lemma poll_packet_spec e w pk e' w' ev :
  ep_wf e -> poll_packet e w pk = (e', w', ev) ->
  ep_wf e' /\ poll_effect (view_of e) ev (view_of e').
Proof.
  intros Hwf. unfold poll_packet.
  repeat (split_guard; try (by intros [= <- <- <-])).
  - intros [= <- <- <-]. by eapply handle_cancel_packet_spec.
  - intros Hh. eapply handle_goal_packet_spec in Hh; [done|done|].
    match goal with H : negb (validate_request_header _) = false |- _ =>
      apply negb_false_iff in H; unfold validate_request_header in H;
      by repeat split_guard_in H end.
Qed.

Lemma poll_spec e w e' w' ev :
  ep_wf e -> poll e w = (e', w', ev) ->
  ep_wf e' /\ poll_effect (view_of e) ev (view_of e').
Proof.
  intros Hwf. unfold poll. rewrite (wf_events e Hwf).
  repeat (split_guard; try (by intros [= <- <- <-])).
  intros Hp. apply poll_packet_spec in Hp; [done|by apply set_queues_wf].
Qed.

(** ** The implementation meets the interface contract *)

#[export] Instance impl_server_endpoint : IActionServerEndpoint ServerEndpoint := {|
  i_make := new_server_endpoint;
  i_initialize := initialize;
  i_deliver := deliver;
  i_poll := poll;
  i_accept_goal := accept_goal;
  i_reject_goal := reject_goal;
  i_accept_cancel := accept_cancel;
  i_reject_cancel := reject_cancel;
  i_accept_cancel_locally := accept_cancel_locally;
  i_create_result_buffer := create_result_buffer;
  i_create_feedback_buffer := create_feedback_buffer;
  i_send_feedback := send_feedback;
  i_complete := complete;
  i_complete_locally := complete_locally;
  i_discard_pending_goal := discard_pending_goal;
  i_clear_pending_events := clear_pending_events;
  i_reset_contexts := reset_contexts;
|}.

Lemma new_server_endpoint_wf n a b : ep_wf (new_server_endpoint n a b).
Proof. by split. Qed.

#[export] Instance impl_server_endpoint_spec : ServerEndpointSpec ServerEndpoint.
Proof.
  refine {| ep_view := view_of; ep_inv := ep_wf;
    spec_deliver := deliver_spec; spec_poll := poll_spec;
    spec_accept_goal := accept_goal_spec; spec_reject_goal := reject_goal_spec;
    spec_accept_cancel := accept_cancel_spec; spec_reject_cancel := reject_cancel_spec;
    spec_accept_cancel_locally := accept_cancel_locally_spec;
    spec_send_feedback := send_feedback_spec; spec_complete := complete_spec;
    spec_complete_locally := complete_locally_spec;
    spec_discard_pending_goal := discard_pending_goal_spec |}.
  - intros. split; [apply new_server_endpoint_wf|apply fmap_empty].
  - intros e j e' b Hwf Hi. by apply initialize_spec in Hi as (? & ? & _).
  - intros e g x Hwf (b & Hb & _)%view_of_inv. by eapply wf_valid.
  - intros e g p Hwf (b & Hb & Hx)%view_of_inv. unfold abs in Hx. simplify_eq.
    by rewrite (wf_cancel e Hwf g b).
  - intros e Hwf. split; [by apply set_queues_wf|done].
  - intros e Hwf. split; [by apply reset_contexts_wf|apply fmap_empty].
Defined.

(** ** Reachable states *)

(** One operation of the application, the transport or the owner, or one of
    the two critical sections of [poll], between which any other may run. *)
Inductive ep_step : ServerEndpoint * Wire -> ServerEndpoint * Wire -> Prop :=
  | step_initialize e w j e' r : initialize e j = (e', r) -> ep_step (e, w) (e', w)
  | step_deliver e w k d : ep_step (e, w) (deliver k d e, w)
  | step_poll e w e' w' ev : poll e w = (e', w', ev) -> ep_step (e, w) (e', w')
  | step_poll_take e w pk rest : ep_pending_packets e = pk :: rest ->
      ep_step (e, w) (set_queues (ep_pending_events e) rest e, w)
  | step_poll_packet e w pk e' w' ev : ep_initialized e = true ->
      poll_packet e w pk = (e', w', ev) -> ep_step (e, w) (e', w')
  | step_accept_goal e w h e' w' r : accept_goal e w h = (e', w', r) ->
      ep_step (e, w) (e', w')
  | step_reject_goal e w h e' w' r : reject_goal e w h = (e', w', r) ->
      ep_step (e, w) (e', w')
  | step_accept_cancel e w h e' w' r : accept_cancel e w h = (e', w', r) ->
      ep_step (e, w) (e', w')
  | step_reject_cancel e w h e' w' r : reject_cancel e w h = (e', w', r) ->
      ep_step (e, w) (e', w')
  | step_accept_cancel_locally e w h e' r : accept_cancel_locally e h = (e', r) ->
      ep_step (e, w) (e', w)
  | step_send_feedback e w h d e' w' r : send_feedback e w h d = (e', w', r) ->
      ep_step (e, w) (e', w')
  | step_complete e w h st d e' w' r : complete e w h st d = (e', w', r) ->
      ep_step (e, w) (e', w')
  | step_complete_locally e w h st d e' r : complete_locally e h st d = (e', r) ->
      ep_step (e, w) (e', w)
  | step_discard e w h e' r : discard_pending_goal e h = (e', r) -> ep_step (e, w) (e', w)
  | step_clear e w : ep_step (e, w) (clear_pending_events e, w)
  | step_reset e w : ep_step (e, w) (reset_contexts e, w).

Lemma ep_step_wf x y : ep_step x y -> ep_wf x.1 -> ep_wf y.1.
Proof.
  destruct 1 as [? ? ? ? ? Hop| |? ? ? ? ? Hop|? ? ? ? Hq|? ? ? ? ? ? Hi Hop|? ? ? ? ? ? Hop
    |? ? ? ? ? ? Hop|? ? ? ? ? ? Hop|? ? ? ? ? ? Hop|? ? ? ? ? Hop|? ? ? ? ? ? ? Hop
    |? ? ? ? ? ? ? ? Hop|? ? ? ? ? ? ? Hop|? ? ? ? ? Hop| |]; cbn; intros Hwf.
  - by apply initialize_spec in Hop as [? _].
  - by apply deliver_spec.
  - by apply poll_spec in Hop as [? _].
  - rewrite (wf_events e Hwf). by apply set_queues_wf.
  - by apply poll_packet_spec in Hop as [? _].
  - by apply accept_goal_spec in Hop as [? _].
  - by apply reject_goal_spec in Hop as [? _].
  - by apply accept_cancel_spec in Hop as [? _].
  - by apply reject_cancel_spec in Hop as [? _].
  - by apply accept_cancel_locally_spec in Hop as [? _].
  - by apply send_feedback_spec in Hop as [? _].
  - by apply complete_spec in Hop as [? _].
  - by apply complete_locally_spec in Hop as [? _].
  - by apply discard_pending_goal_spec in Hop as [? _].
  - by apply set_queues_wf.
  - by apply reset_contexts_wf.
Qed.

Lemma ep_reachable_wf n a b e w :
  rtc ep_step (new_server_endpoint n a b, []) (e, w) -> ep_wf e.
Proof.
  intros Hr. change e with (e, w).1.
  assert (forall x y, rtc ep_step x y -> ep_wf x.1 -> ep_wf y.1) as Hg.
  { induction 1; eauto using ep_step_wf. }
  eapply Hg; [done|]. apply new_server_endpoint_wf.
Qed.

(** At most one goal per slot. *)
Lemma wf_goal_count e :
  ep_wf e -> size (ep_packet_bindings e) <= length (ep_slot_routing e).
Proof.
  intros Hwf. rewrite <-(wf_len e Hwf).
  set (l := (fun kv => pb_slot_index kv.2) <$> map_to_list (ep_packet_bindings e)).
  assert (Hl : length l = size (ep_packet_bindings e)).
  { unfold l. by rewrite length_fmap, length_map_to_list. }
  rewrite <-Hl, <-(length_seq (length (ep_slot_owners e)) 0).
  apply NoDup_incl_length.
  - apply NoDup_ListNoDup. unfold l. apply NoDup_fmap_2_strong; [|apply NoDup_map_to_list].
    intros [g1 b1] [g2 b2] H1%elem_of_map_to_list H2%elem_of_map_to_list Heq. cbn in Heq.
    destruct (wf_owner e Hwf _ _ H1) as [_ Ho1], (wf_owner e Hwf _ _ H2) as [_ Ho2].
    rewrite Heq in Ho1. simplify_eq. done.
  - intros s Hs%list_elem_of_In. unfold l in Hs.
    apply list_elem_of_fmap in Hs as ([g b] & -> & Hin%elem_of_map_to_list).
    destruct (wf_owner e Hwf _ _ Hin) as [_ Ho%lookup_lt_Some].
    apply in_seq. cbn. lia.
Qed.
End Operations.

(** ** Sends *)

Section Sends.
Context {P : PduPlatform} {T : Transport}.

Lemma send_response_packet_outcome e w b k st d w' r :
  send_response_packet e w b k st d = (w', r) -> send_outcome w w' r.
Proof.
  unfold send_response_packet.
  repeat (split_guard; try (by intros [= <- <-]; left)). apply endpoint_send_outcome.
Qed.

Lemma send_control_response_outcome e w b k st w' r :
  send_control_response e w b k st = (w', r) -> send_outcome w w' r.
Proof.
  unfold send_control_response. split_guard; [apply send_response_packet_outcome|].
  by intros [= <- <-]; left.
Qed.

(** The application operations that answer or inform the client. *)
Inductive reply_op :=
  | ReplyAcceptGoal
  | ReplyRejectGoal
  | ReplyAcceptCancel
  | ReplyRejectCancel
  | ReplyFeedback (pdu : PduData).

Definition run_reply (op : reply_op) (e : ServerEndpoint) (w : Wire)
    (h : ServerGoalHandle) : ServerEndpoint * Wire * bool :=
  match op with
  | ReplyAcceptGoal => accept_goal e w h
  | ReplyRejectGoal => reject_goal e w h
  | ReplyAcceptCancel => accept_cancel e w h
  | ReplyRejectCancel => reject_cancel e w h
  | ReplyFeedback pdu => send_feedback e w h pdu
  end.

Lemma run_reply_outcome op e w h e' w' r :
  run_reply op e w h = (e', w', r) ->
  send_outcome w w' r /\ (r = false -> e' = e).
Proof.
  destruct op; cbn;
    unfold accept_goal, reject_goal, accept_cancel, reject_cancel, send_feedback;
    repeat (split_guard; try (by intros [= <- <- <-]; split; [left|]));
    intros [= <- <- <-]; (split; [|done]);
    match goal with
    | H : send_control_response _ _ _ _ _ = _ |- _ =>
        by apply send_control_response_outcome in H
    | H : endpoint_send _ _ _ = _ |- _ => by apply endpoint_send_outcome in H
    end.
Qed.
End Sends.

(** ** Packets on the wire *)

Section WireContents.
Context {P : PduPlatform} {HL : PduPlatformLaws P} {T : Transport}.

Lemma send_response_packet_wire e w b k st d w' :
  send_response_packet e w b k st d = (w', true) ->
  exists routing data,
    ep_slot_routing e !! pb_slot_index b = Some routing
    /\ w' = w ++ [mkSendRecord (rt_response routing) data true]
    /\ receivable data (rt_response_packet_base_size routing)
         (rt_response_heap_capacity routing) sizeof_ActionResponseHeader
    /\ pdu2cpp_ActionResponseHeader data
       = Some (mkActionResponseHeader ACTION_PROTOCOL_VERSION k st 0 (pb_goal_id b)).
Proof.
  unfold send_response_packet, write_response_header.
  repeat (split_guard; try done). simpl_bools. intros Hs.
  match goal with H : cpp2pdu_ActionResponseHeader _ _ = Some ?q |- _ =>
    destruct (law_write_response _ _ _ H) as (Hlen & Hmd & Hrd) end.
  exists s, (span_prefix l z). split; [done|].
  assert (Hv : validate_packet_capacity l (rt_response_packet_base_size s)
                 (rt_response_heap_capacity s) false = Some z).
  { match goal with H : validate_packet_capacity _ _ _ _ = Some _ |- _ =>
      rewrite <-H end.
    unfold validate_packet_capacity, has_valid_packet_prefix, pdu_size.
    by rewrite Hmd, Hlen. }
  assert (Hp : has_valid_packet_prefix l sizeof_ActionResponseHeader = true).
  { match goal with H : has_valid_packet_prefix _ _ = true |- _ => rewrite <-H end.
    unfold has_valid_packet_prefix, pdu_size. by rewrite Hmd, Hlen. }
  pose proof law_header_sizes as (_ & Hh & _).
  assert (Hh0 : (0 <= sizeof_ActionResponseHeader)%Z) by lia.
  destruct (span_prefix_receivable l _ _ z _ Hh0 Hv Hp) as (Hr & Hn & _).
  split; [|split; [done|]].
  - unfold endpoint_send in Hs. injection Hs as <- Hok. by rewrite Hok.
  - unfold span_prefix. rewrite law_read_response_prefix; [done|].
    pose proof law_meta_size. lia.
Qed.

Lemma send_control_response_wire e w b k st w' :
  send_control_response e w b k st = (w', true) ->
  exists routing data,
    ep_slot_routing e !! pb_slot_index b = Some routing
    /\ w' = w ++ [mkSendRecord (rt_response routing) data true]
    /\ receivable data (rt_response_packet_base_size routing)
         (rt_response_heap_capacity routing) sizeof_ActionResponseHeader
    /\ pdu2cpp_ActionResponseHeader data
       = Some (mkActionResponseHeader ACTION_PROTOCOL_VERSION k st 0 (pb_goal_id b)).
Proof.
  unfold send_control_response. split_guard; [apply send_response_packet_wire|done].
Qed.

Lemma send_feedback_wire e w h d e' w' :
  send_feedback e w h d = (e', w', true) ->
  exists b routing data,
    ep_packet_bindings e !! sgh_goal_id h = Some b
    /\ ep_slot_routing e !! pb_slot_index b = Some routing
    /\ w' = w ++ [mkSendRecord (rt_feedback routing) data true]
    /\ receivable data (rt_feedback_packet_base_size routing)
         (rt_feedback_heap_capacity routing) sizeof_ActionFeedbackHeader
    /\ pdu2cpp_ActionFeedbackHeader data
       = Some (mkActionFeedbackHeader ACTION_PROTOCOL_VERSION [0; 0; 0]%Z
                 (sgh_goal_id h) (pb_next_feedback_sequence b))
    /\ e' = put_binding (sgh_goal_id h)
              (set_pb_next_feedback_sequence (u32_succ (pb_next_feedback_sequence b)) b) e.
Proof.
  unfold send_feedback, write_feedback_header.
  repeat (split_guard; try done). simpl_bools. intros [= <- <-].
  match goal with H : find_binding _ _ = Some _ |- _ =>
    apply find_binding_Some in H as (_ & _ & Hb) end.
  match goal with H : cpp2pdu_ActionFeedbackHeader _ _ = Some ?q |- _ =>
    destruct (law_write_feedback _ _ _ H) as (Hlen & Hmd & Hrd) end.
  exists a, s, (span_prefix l z). split; [done|]. split; [done|].
  assert (Hv : validate_packet_capacity l (rt_feedback_packet_base_size s)
                 (rt_feedback_heap_capacity s) false = Some z).
  { match goal with H : validate_packet_capacity _ _ _ _ = Some _ |- _ =>
      rewrite <-H end.
    unfold validate_packet_capacity, has_valid_packet_prefix, pdu_size.
    by rewrite Hmd, Hlen. }
  assert (Hp : has_valid_packet_prefix l sizeof_ActionFeedbackHeader = true).
  { match goal with H : has_valid_packet_prefix _ _ = true |- _ => rewrite <-H end.
    unfold has_valid_packet_prefix, pdu_size. by rewrite Hmd, Hlen. }
  pose proof law_header_sizes as (_ & _ & Hh).
  assert (Hh0 : (0 <= sizeof_ActionFeedbackHeader)%Z) by lia.
  destruct (span_prefix_receivable l _ _ z _ Hh0 Hv Hp) as (Hr & Hn & _).
  split; [|split; [done|split; [|done]]].
  - match goal with H : endpoint_send _ _ _ = _ |- _ =>
      unfold endpoint_send in H; injection H as <- Hok end. by rewrite Hok.
  - unfold span_prefix. rewrite law_read_feedback_prefix; [done|].
    pose proof law_meta_size. lia.
Qed.

End WireContents.

End ServerEpFacts.
