(* ===== verification/ServerEndpointProps.v ===== *)
(** * What the server packet endpoint guarantees

    The theorems about [ActionServerEndpointImpl]: slot ownership and the
    packet protocol in every reachable state, admission of goal requests, the
    packets that decisions, feedback and completion put on the wire, and the
    balance of acceptances and results over a whole run. *)

From S2P Require Import Prelude ActionTypes ActionConfiguration PduPacket.
From S2P Require Import Routing ServerInterface ServerEndpoint ServerEndpointFacts.
From Stdlib Require Import ZArith Lia.
From stdpp Require Import base gmap strings list fin_maps relations.

Module ServerEpProps.
Import ActionConfig ServerIface RoutingTable ServerEp ServerEpFacts.

(** ** The responses of a run *)

Section Trace.
Context {P : PduPlatform} {HL : PduPlatformLaws P} {T : Transport}.

(** Every slot is completely routed. *)
Definition ep_routed (e : ServerEndpoint) : Prop :=
  exists name h, (Z.of_nat (length (ep_slot_routing e)) <= max_slot_count)%Z
    /\ forall s r, ep_slot_routing e !! s = Some r -> slot_routed name h s r.

Lemma response_key_not_feedback e r r' :
  ep_routed e -> r ∈ ep_slot_routing e -> r' ∈ ep_slot_routing e ->
  rt_response r <> rt_feedback r'.
Proof.
  intros (name & h & Hlen & Hr) [s Hs]%list_elem_of_lookup [s' Hs']%list_elem_of_lookup Heq.
  destruct (Hr _ _ Hs) as [_ _ Hk _ _ _ _ _]. destruct (Hr _ _ Hs') as [_ _ _ Hk' _ _ _ _].
  rewrite Hk, Hk' in Heq. injection Heq as Heq.
  apply lookup_lt_Some in Hs, Hs'. change max_slot_count with 1431655765%Z in Hlen.
  apply law_channel_id in Heq; [lia|unfold in_u32; change UINT32_MODULUS with 4294967296%Z; lia..].
Qed.

(** Kind, status and goal of a delivered response. *)
Definition response_of (rs : list SlotRouting) (rec : SendRecord)
    : option (Z * Z * GoalId) :=
  if sr_ok rec && existsb (fun r => bool_decide (rt_response r = sr_key rec)) rs
  then (fun h => (arp_response_kind h, arp_status h, arp_goal_id h))
         <$> pdu2cpp_ActionResponseHeader (sr_data rec)
  else None.

Definition responses (rs : list SlotRouting) (w : Wire) : list (Z * Z * GoalId) :=
  omap (response_of rs) w.

Lemma responses_app rs w w' : responses rs (w ++ w') = responses rs w ++ responses rs w'.
Proof. apply omap_app. Qed.

Lemma responses_failed rs w rec :
  sr_ok rec = false -> responses rs (w ++ [rec]) = responses rs w.
Proof.
  intros Hf. rewrite responses_app. unfold responses. cbn.
  unfold response_of. rewrite Hf. by rewrite app_nil_r.
Qed.

Lemma send_response_packet_trace e w b k st d w' ok :
  send_response_packet e w b k st d = (w', ok) ->
  responses (ep_slot_routing e) w'
  = responses (ep_slot_routing e) w ++ (if ok then [(k, st, pb_goal_id b)] else []).
Proof.
  intros Hs. destruct ok.
  - apply send_response_packet_wire in Hs as (r & data & Hr & -> & _ & Hh).
    rewrite responses_app. f_equal. unfold responses. cbn. unfold response_of. cbn.
    rewrite Hh. cbn.
    replace (existsb _ _) with true; [done|]. symmetry. apply existsb_exists. exists r.
    split; [apply list_elem_of_In; by eapply list_elem_of_lookup_2|].
    by apply bool_decide_eq_true.
  - apply send_response_packet_outcome in Hs as [->|(rec & -> & Hf)];
      rewrite app_nil_r; [done|by apply responses_failed].
Qed.

Lemma send_control_response_trace e w b k st w' ok :
  send_control_response e w b k st = (w', ok) ->
  responses (ep_slot_routing e) w'
  = responses (ep_slot_routing e) w ++ (if ok then [(k, st, pb_goal_id b)] else []).
Proof.
  unfold send_control_response.
  destruct (create_control_response_packet e); [apply send_response_packet_trace|].
  intros [= <- <-]. by rewrite app_nil_r.
Qed.

Lemma send_feedback_trace e w h d e' w' ok :
  ep_routed e -> send_feedback e w h d = (e', w', ok) ->
  responses (ep_slot_routing e) w' = responses (ep_slot_routing e) w.
Proof.
  intros Hr Hs. destruct ok.
  - apply send_feedback_wire in Hs as (b & r & data & _ & Hl & -> & _).
    rewrite responses_app. unfold responses at 2. cbn. unfold response_of. cbn.
    replace (existsb _ _) with false; [by rewrite app_nil_r|]. symmetry.
    apply not_true_iff_false. rewrite existsb_exists. intros (r' & Hin & Heq).
    apply bool_decide_eq_true in Heq. apply list_elem_of_In in Hin.
    apply list_elem_of_lookup_2 in Hl.
    by apply (response_key_not_feedback e r' r).
  - destruct (run_reply_outcome (ReplyFeedback d) e w h e' w' false Hs) as [Ho _].
    destruct Ho as [->|(rec & -> & Hf)]; [done|by apply responses_failed].
Qed.

(** What a step does besides changing the goals: routing and the
    [initialized_] flag stay, an endpoint that is not initialised sends
    nothing, and the delivered responses grow by [extra]. *)
Record framed (e : ServerEndpoint) (w : Wire) (e' : ServerEndpoint) (w' : Wire)
    (extra : list (Z * Z * GoalId)) : Prop := {
  fr_routing : ep_slot_routing e' = ep_slot_routing e;
  fr_initialized : ep_initialized e' = ep_initialized e;
  fr_silent : ep_initialized e = false -> w' = w;
  fr_responses :
    responses (ep_slot_routing e) w' = responses (ep_slot_routing e) w ++ extra;
}.

Lemma framed_refl e w e' :
  ep_slot_routing e' = ep_slot_routing e -> ep_initialized e' = ep_initialized e ->
  framed e w e' w [].
Proof. intros. split; [done..|]. by rewrite app_nil_r. Qed.

Lemma find_binding_initialized e h b : find_binding e h = Some b -> ep_initialized e = true.
Proof. by intros (_ & ? & _)%find_binding_Some. Qed.

(** A known goal that answers with a control response. *)
Lemma control_framed e w h b k st w' ok e' :
  ep_wf e -> find_binding e h = Some b -> send_control_response e w b k st = (w', ok) ->
  ep_slot_routing e' = ep_slot_routing e -> ep_initialized e' = ep_initialized e ->
  framed e w e' w' (if ok then [(k, st, sgh_goal_id h)] else []).
Proof.
  intros Hwf Hf Hs Hr Hi. apply find_binding_Some in Hf as (_ & Hin & Hb).
  destruct (wf_owner e Hwf _ _ Hb) as [Hg _].
  split; [done|done|congruence|]. rewrite <-Hg. by apply send_control_response_trace.
Qed.

Ltac control_op :=
  intros Hwf Hop;
  repeat match type of Hop with
  | context [match find_binding ?e ?h with _ => _ end] =>
      destruct (find_binding e h) eqn:?;
        [|injection Hop as <- <- <-; by apply framed_refl]
  | context [send_control_response ?e ?w ?b ?k ?st] =>
      destruct (send_control_response e w b k st) as [? []] eqn:?
  | (if ?c then _ else _) = _ =>
      destruct c; [injection Hop as <- <- <-; by apply framed_refl|]
  end; injection Hop as <- <- <-;
  (eapply (control_framed _ _ _ _ _ _ _ true) || eapply (control_framed _ _ _ _ _ _ _ false));
  done.

Lemma accept_goal_framed e w h e' w' r :
  ep_wf e -> accept_goal e w h = (e', w', r) ->
  framed e w e' w' (if r then [(RESPONSE_KIND_GOAL, Decision_to_u8 Decision_ACCEPTED,
                                sgh_goal_id h)] else []).
Proof. unfold accept_goal. control_op. Qed.

Lemma reject_goal_framed e w h e' w' r :
  ep_wf e -> reject_goal e w h = (e', w', r) ->
  framed e w e' w' (if r then [(RESPONSE_KIND_GOAL, Decision_to_u8 Decision_REJECTED,
                                sgh_goal_id h)] else []).
Proof. unfold reject_goal. control_op. Qed.

Lemma accept_cancel_framed e w h e' w' r :
  ep_wf e -> accept_cancel e w h = (e', w', r) ->
  framed e w e' w' (if r then [(RESPONSE_KIND_CANCEL, Decision_to_u8 Decision_ACCEPTED,
                                sgh_goal_id h)] else []).
Proof. unfold accept_cancel. control_op. Qed.

Lemma reject_cancel_framed e w h e' w' r :
  ep_wf e -> reject_cancel e w h = (e', w', r) ->
  framed e w e' w' (if r then [(RESPONSE_KIND_CANCEL, Decision_to_u8 Decision_REJECTED,
                                sgh_goal_id h)] else []).
Proof. unfold reject_cancel. control_op. Qed.

Lemma send_feedback_framed e w h d e' w' r :
  ep_routed e -> send_feedback e w h d = (e', w', r) -> framed e w e' w' [].
Proof.
  intros Hr Hs. pose proof (send_feedback_trace _ _ _ _ _ _ _ Hr Hs) as Ht.
  rewrite <-(app_nil_r (responses _ w)) in Ht. revert Hs. unfold send_feedback.
  destruct (find_binding e h) eqn:Hf; [|by intros [= <- <- <-]].
  apply find_binding_initialized in Hf.
  repeat (split_guard; try (intros [= <- <- <-]; by split; [..|congruence|])).
Qed.

Lemma complete_framed e w h st d e' w' r :
  ep_wf e -> complete e w h st d = (e', w', r) ->
  framed e w e' w' (if bool_decide (r = CompleteResult_SENT)
                    then [(RESPONSE_KIND_RESULT, TerminalStatus_to_u8 st, sgh_goal_id h)]
                    else []).
Proof.
  intros Hwf. unfold complete.
  destruct (find_binding e h) as [b|] eqn:Hf; [|intros [= <- <- <-]; by apply framed_refl].
  apply find_binding_Some in Hf as (_ & Hi & Hb). destruct (wf_owner e Hwf _ _ Hb) as [Hg _].
  destruct (validate_terminal_packet_locked e b st d);
    [|intros [= <- <- <-]; by apply framed_refl].
  destruct (send_response_packet _ _ _ _ _ _) as [w1 ok] eqn:Hs.
  apply send_response_packet_trace in Hs. cbn in Hs. rewrite Hg in Hs.
  destruct ok; intros [= <- <- <-]; by split; [..|congruence|].
Qed.

Lemma send_goal_error_reply_framed e w g s :
  ep_initialized e = true ->
  exists extra, framed e w e (send_goal_error_reply e w g s) extra
    /\ (extra = [] \/ extra = [(RESPONSE_KIND_GOAL, Decision_to_u8 Decision_REJECTED, g)]).
Proof.
  intros Hi. unfold send_goal_error_reply.
  destruct (send_control_response _ _ _ _ _) as [w' ok] eqn:Hs.
  apply send_control_response_trace in Hs. cbn in *.
  eexists. split; [split; [done|done|congruence|exact Hs]|]. destruct ok; auto.
Qed.

(** Polling sends nothing but rejections, and those only when it raises nothing. *)
Definition poll_sends (ev : ServerEvent) (extra : list (Z * Z * GoalId)) : Prop :=
  extra = [] \/ ev = empty_server_event
    /\ exists g, extra = [(RESPONSE_KIND_GOAL, Decision_to_u8 Decision_REJECTED, g)].

Lemma poll_packet_framed e w pk e' w' ev :
  ep_initialized e = true -> poll_packet e w pk = (e', w', ev) ->
  exists extra, framed e w e' w' extra /\ poll_sends ev extra.
Proof.
  intros Hi. assert (Hn : forall e', ep_slot_routing e' = ep_slot_routing e ->
    ep_initialized e' = ep_initialized e -> forall ev, exists extra, framed e w e' w extra
    /\ poll_sends ev extra).
  { intros. exists []. split; [by apply framed_refl|by left]. }
  unfold poll_packet. repeat (split_guard; try (intros [= <- <- <-]; by apply Hn)).
  - match goal with H : handle_cancel_packet _ _ _ = _ |- _ => revert H end.
    unfold handle_cancel_packet.
    repeat (split_guard; try (intros [= <- <-] [= <- <- <-]; by apply Hn)).
  - unfold handle_goal_packet.
    repeat (split_guard; try (intros [= <- <- <-]; by apply Hn)); intros [= <- <- <-];
      match goal with |- context [send_goal_error_reply ?x ?y ?g ?s] =>
        destruct (send_goal_error_reply_framed x y g s Hi) as (extra & Hf & Hx) end;
      (exists extra; split; [done|]); unfold poll_sends; naive_solver.
Qed.

Lemma poll_framed e w e' w' ev :
  ep_wf e -> poll e w = (e', w', ev) ->
  exists extra, framed e w e' w' extra /\ poll_sends ev extra.
Proof.
  intros Hwf. unfold poll. rewrite (wf_events e Hwf).
  destruct (ep_initialized e) eqn:Hi; cbn [negb];
    [|intros [= <- <- <-]; exists []; split; [by apply framed_refl|by left]].
  destruct (ep_pending_packets e) as [|pk rest];
    [intros [= <- <- <-]; exists []; split; [by apply framed_refl|by left]|].
  intros Hp. by apply poll_packet_framed in Hp as (extra & [] & Hx); [exists extra; split|].
Qed.

(** ** Acceptances and results *)

(** A goal the client was told is accepted and that is not yet released. *)
Definition active (v : view) (g : GoalId) : nat :=
  match v !! g with
  | None | Some (Awaiting, _) => 0
  | Some _ => 1
  end.

Definition is_acceptance (g : GoalId) (x : Z * Z * GoalId) : bool :=
  bool_decide (x = (RESPONSE_KIND_GOAL, Decision_to_u8 Decision_ACCEPTED, g)).

Definition is_result (g : GoalId) (x : Z * Z * GoalId) : bool :=
  (x.1.1 =? RESPONSE_KIND_RESULT)%Z && bool_decide (x.2 = g).

Definition count (f : Z * Z * GoalId -> bool) (tr : list (Z * Z * GoalId)) : nat :=
  length (List.filter f tr).

Lemma count_app f tr tr' : count f (tr ++ tr') = count f tr + count f tr'.
Proof. unfold count. by rewrite List.filter_app, length_app. Qed.

Definition balance (v : view) (tr : list (Z * Z * GoalId)) : Prop :=
  forall g, count (is_result g) tr + active v g <= count (is_acceptance g) tr.

Lemma balance_step v tr v' extra :
  balance v tr ->
  (forall g, count (is_result g) extra + active v' g
             <= active v g + count (is_acceptance g) extra) ->
  balance v' (tr ++ extra).
Proof. intros Hb He g. rewrite !count_app. specialize (Hb g). specialize (He g). lia. Qed.

Record trace_inv (e : ServerEndpoint) (w : Wire) : Prop := {
  ti_wf : ep_wf e;
  ti_routed : ep_routed e;
  ti_silent : ep_initialized e = false -> w = [];
  ti_balance : balance (view_of e) (responses (ep_slot_routing e) w);
}.

Lemma trace_inv_step e w e' w' extra :
  trace_inv e w -> ep_wf e' -> framed e w e' w' extra ->
  (forall g, count (is_result g) extra + active (view_of e') g
             <= active (view_of e) g + count (is_acceptance g) extra) ->
  trace_inv e' w'.
Proof.
  intros [Hwf Hr Hs Hb] Hwf' [F1 F2 F3 F4] Hc. split; [done|..].
  - destruct Hr as (n & h & ?). exists n, h. by rewrite F1.
  - rewrite F2. intros Hi. rewrite F3; auto.
  - rewrite F1, F4. by apply balance_step with (view_of e).
Qed.

(** Operations that never send. *)
Lemma deliver_frame k d e :
  ep_slot_routing (deliver k d e) = ep_slot_routing e
  /\ ep_initialized (deliver k d e) = ep_initialized e.
Proof.
  unfold deliver. split_guard; [done|]. clear E.
  generalize (ep_slot_routing e) at 1 3 as l. intros l.
  revert e. induction l as [|r l IH]; intros e; [done|]. cbn.
  destruct (bool_decide _); [|apply IH].
  by destruct (IH (on_recv_request (rt_slot_index r) d e)).
Qed.

Lemma accept_cancel_locally_frame e h e' r :
  accept_cancel_locally e h = (e', r) ->
  ep_slot_routing e' = ep_slot_routing e /\ ep_initialized e' = ep_initialized e.
Proof. unfold accept_cancel_locally. by repeat (split_guard; try by intros [= <- <-]). Qed.

Lemma complete_locally_frame e h st d e' r :
  complete_locally e h st d = (e', r) ->
  ep_slot_routing e' = ep_slot_routing e /\ ep_initialized e' = ep_initialized e.
Proof. unfold complete_locally. by repeat (split_guard; try by intros [= <- <-]). Qed.

Lemma discard_frame e h e' r :
  discard_pending_goal e h = (e', r) ->
  ep_slot_routing e' = ep_slot_routing e /\ ep_initialized e' = ep_initialized e.
Proof. unfold discard_pending_goal. by repeat (split_guard; try by intros [= <- <-]). Qed.

Lemma active_insert v g x g' :
  active (<[g := x]> v) g'
  = if decide (g = g') then match x.1 with Awaiting => 0 | _ => 1 end else active v g'.
Proof. unfold active. rewrite lookup_insert. case_decide; [by destruct x as [[] ?]|done]. Qed.

Lemma active_delete v g g' :
  active (delete g v) g' = if decide (g = g') then 0 else active v g'.
Proof. unfold active. rewrite lookup_delete. by case_decide. Qed.

Lemma active_lookup v g p c :
  v !! g = Some (p, c) -> active v g = match p with Awaiting => 0 | _ => 1 end.
Proof. unfold active. intros ->. by destruct p. Qed.

Lemma count_singleton f x : count f [x] = if f x then 1 else 0.
Proof. unfold count. cbn. by destruct (f x). Qed.

(** Rewrites the count of a step and the activity of the new view. *)
Ltac solve_balance :=
  repeat match goal with
  | H : view_of ?e = _ |- context [view_of ?e] => rewrite H
  | H : _ /\ _ |- _ => destruct H
  | H : exists _, _ |- _ => destruct H
  end;
  let g := fresh "g" in intros g;
  rewrite ?count_singleton, ?active_insert, ?active_delete;
  unfold is_result, is_acceptance; cbn;
  repeat (case_decide || case_bool_decide); simplify_eq;
  repeat match goal with
  | H : view_of _ !! _ = Some _ |- _ => rewrite (active_lookup _ _ _ _ H)
  | H : phase_completes _ _ |- _ => destruct H as [[-> _]|[-> _]]
  end; try lia.

Lemma initialize_routed e j e' :
  ep_wf e -> initialize e j = (e', true) ->
  ep_routed e' /\ ep_initialized e' = true /\ ep_initialized e = false.
Proof.
  intros Hwf. unfold initialize.
  destruct (parse_action j) as [d|] eqn:Hp; [|done]. apply parse_action_wf in Hp.
  repeat (split_guard; try done). intros [= <-]. cbn. split_and!; [|done|done].
  match goal with H : build_routing _ _ = Some _ |- _ =>
    apply build_routing_spec in H as [Hl Hr]; [|done] end.
  exists (ep_action_name e), (ad_buffer_heap d). cbn. split; [|done].
  pose proof (dwf_slots d Hp). lia.
Qed.

Lemma trace_inv_initialize e w j e' r :
  trace_inv e w -> initialize e j = (e', r) -> trace_inv e' w.
Proof.
  intros [Hwf Hr Hs Hb] Hi. pose proof (initialize_spec _ _ _ _ Hwf Hi) as (Hwf' & Hv & Hf).
  destruct r; [|by rewrite Hf by done].
  apply initialize_routed in Hi as (Hr' & Hi' & Hi); [|done].
  split; [done|done|congruence|]. rewrite Hs by done. rewrite Hv.
  destruct (uninit_no_bindings e Hwf Hi) as [_ Hn]. unfold view_of. rewrite Hn, fmap_empty.
  intros g. unfold count, responses, active. by rewrite lookup_empty.
Qed.

Lemma poll_effect_active v ev v' g : poll_effect v ev v' -> active v' g <= active v g.
Proof.
  unfold poll_effect. destruct (se_type ev); intros Hp; try done; [by subst|..];
    destruct_and?; subst; rewrite active_insert; case_decide; subst; cbn; try lia.
  match goal with Hl : v !! _ = Some _ |- _ => by rewrite (active_lookup _ _ _ _ Hl) end.
Qed.

Lemma trace_inv_poll_effect e w e' w' ev extra :
  trace_inv e w -> ep_wf e' -> poll_effect (view_of e) ev (view_of e') ->
  framed e w e' w' extra -> poll_sends ev extra -> trace_inv e' w'.
Proof.
  intros Hi Hwf' Heff Hf Hx. eapply trace_inv_step; [done|done|done|]. intros g.
  pose proof (poll_effect_active _ _ _ g Heff).
  destruct Hx as [-> | (_ & g' & ->)]; [cbn; lia|].
  rewrite !count_singleton. unfold is_result, is_acceptance. cbn.
  case_bool_decide; [done|lia].
Qed.

Lemma trace_inv_poll e w e' w' ev :
  trace_inv e w -> poll e w = (e', w', ev) -> trace_inv e' w'.
Proof.
  intros Hi Hp. pose proof (poll_spec _ _ _ _ _ (ti_wf _ _ Hi) Hp) as [Hwf' Heff].
  destruct (poll_framed _ _ _ _ _ (ti_wf _ _ Hi) Hp) as (extra & Hf & Hx).
  by eapply trace_inv_poll_effect.
Qed.

Lemma trace_inv_poll_packet e w pk e' w' ev :
  trace_inv e w -> ep_initialized e = true -> poll_packet e w pk = (e', w', ev) ->
  trace_inv e' w'.
Proof.
  intros Hi Hin Hp. pose proof (poll_packet_spec _ _ _ _ _ _ (ti_wf _ _ Hi) Hp) as [Hwf' Heff].
  destruct (poll_packet_framed _ _ _ _ _ _ Hin Hp) as (extra & Hf & Hx).
  by eapply trace_inv_poll_effect.
Qed.

Lemma trace_inv_ep_step x y : ep_step x y -> trace_inv x.1 x.2 -> trace_inv y.1 y.2.
Proof.
  destruct 1 as [? ? ? ? ? Hop| |? ? ? ? ? Hop|? ? ? ? Hq|? ? ? ? ? ? Hi Hop|? ? ? ? ? ? Hop
    |? ? ? ? ? ? Hop|? ? ? ? ? ? Hop|? ? ? ? ? ? Hop|? ? ? ? ? Hop|? ? ? ? ? ? ? Hop
    |? ? ? ? ? ? ? ? Hop|? ? ? ? ? ? ? Hop|? ? ? ? ? Hop| |]; cbn; intros Hti; pose proof (ti_wf _ _ Hti) as Hwf.
  - by eapply trace_inv_initialize.
  - destruct (deliver_spec k d e Hwf) as [Hwf' Hv].
    apply (trace_inv_step e w _ _ [] Hti Hwf'); [|solve_balance].
    by destruct (deliver_frame k d e); apply framed_refl.
  - by eapply trace_inv_poll.
  - rewrite (wf_events e Hwf). apply (trace_inv_step _ _ _ _ [] Hti (set_queues_wf _ _ Hwf));
      [by apply framed_refl|]. intros g. by rewrite Nat.add_0_r.
  - by eapply trace_inv_poll_packet.
  - destruct (accept_goal_spec _ _ _ _ _ _ Hwf Hop) as [Hwf' Hv].
    apply (trace_inv_step _ _ _ _ _ Hti Hwf' (accept_goal_framed _ _ _ _ _ _ Hwf Hop)).
    destruct r; solve_balance.
  - destruct (reject_goal_spec _ _ _ _ _ _ Hwf Hop) as [Hwf' Hv].
    apply (trace_inv_step _ _ _ _ _ Hti Hwf' (reject_goal_framed _ _ _ _ _ _ Hwf Hop)).
    destruct r; solve_balance.
  - destruct (accept_cancel_spec _ _ _ _ _ _ Hwf Hop) as [Hwf' Hv].
    apply (trace_inv_step _ _ _ _ _ Hti Hwf' (accept_cancel_framed _ _ _ _ _ _ Hwf Hop)).
    destruct r; solve_balance.
  - destruct (reject_cancel_spec _ _ _ _ _ _ Hwf Hop) as [Hwf' Hv].
    apply (trace_inv_step _ _ _ _ _ Hti Hwf' (reject_cancel_framed _ _ _ _ _ _ Hwf Hop)).
    destruct r; solve_balance.
  - destruct (accept_cancel_locally_spec _ _ _ _ Hwf Hop) as [Hwf' Hv].
    apply (trace_inv_step _ _ _ _ [] Hti Hwf'); [|destruct r; solve_balance].
    by apply accept_cancel_locally_frame in Hop as []; apply framed_refl.
  - destruct (send_feedback_spec _ _ _ _ _ _ _ Hwf Hop) as (Hwf' & Hv & _).
    apply (trace_inv_step _ _ _ _ _ Hti Hwf'
             (send_feedback_framed _ _ _ _ _ _ _ (ti_routed _ _ Hti) Hop)).
    solve_balance.
  - destruct (complete_spec _ _ _ _ _ _ _ _ Hwf Hop) as [Hwf' Hv].
    apply (trace_inv_step _ _ _ _ _ Hti Hwf' (complete_framed _ _ _ _ _ _ _ _ Hwf Hop)).
    destruct r; rewrite ?bool_decide_eq_true_2, ?bool_decide_eq_false_2 by done;
      solve_balance.
  - destruct (complete_locally_spec _ _ _ _ _ _ Hwf Hop) as [Hwf' Hv].
    apply (trace_inv_step _ _ _ _ [] Hti Hwf'); [|destruct r; solve_balance].
    by apply complete_locally_frame in Hop as []; apply framed_refl.
  - destruct (discard_pending_goal_spec _ _ _ _ Hwf Hop) as [Hwf' Hv].
    apply (trace_inv_step _ _ _ _ [] Hti Hwf'); [|destruct r; solve_balance].
    by apply discard_frame in Hop as []; apply framed_refl.
  - apply (trace_inv_step _ _ _ _ [] Hti (set_queues_wf _ _ Hwf)); [by apply framed_refl|].
    intros g. by rewrite Nat.add_0_r.
  - apply (trace_inv_step _ _ _ _ [] Hti (reset_contexts_wf _ Hwf)); [by apply framed_refl|].
    intros g. cbn. unfold view_of at 1. cbn. rewrite fmap_empty. unfold active at 1.
    rewrite lookup_empty. lia.
Qed.

Lemma new_trace_inv n a b : trace_inv (new_server_endpoint n a b) [].
Proof.
  split; [apply new_server_endpoint_wf| |done|].
  - exists n, (mkActionBufferHeap 0 0 0). cbn. split; [done|]. intros s r Hx. by destruct s.
  - intros g. unfold view_of. cbn. rewrite fmap_empty. unfold active. by rewrite lookup_empty.
Qed.
End Trace.

(** ** Transport keys *)

Section Keys.
Context {P : PduPlatform} {HL : PduPlatformLaws P}.

Definition slot_key (r : SlotRouting) (k : ActionChannelKind) : PduResolvedKey :=
  match k with
  | ActionChannelKind_REQUEST => rt_request r
  | ActionChannelKind_RESPONSE => rt_response r
  | ActionChannelKind_FEEDBACK => rt_feedback r
  end.

Lemma slot_key_inj name h s s' r r' k k' :
  slot_routed name h s r -> slot_routed name h s' r' ->
  (Z.of_nat s < max_slot_count)%Z -> (Z.of_nat s' < max_slot_count)%Z ->
  slot_key r k = slot_key r' k' -> s = s' /\ k = k'.
Proof.
  intros [_ H1 H2 H3 _ _ _ _] [_ H1' H2' H3' _ _ _ _] Hs Hs'.
  change max_slot_count with 1431655765%Z in *.
  destruct k, k'; cbn; rewrite ?H1, ?H2, ?H3, ?H1', ?H2', ?H3'; intros [= Heq];
    (apply law_channel_id in Heq;
     [|unfold in_u32; change UINT32_MODULUS with 4294967296%Z; lia..]);
    (split; [lia|done || lia]).
Qed.
End Keys.

(** ** Lemmas for single operations *)

Section Single.
Context {P : PduPlatform} {HL : PduPlatformLaws P} {T : Transport}.

(** Response kind and status of a decision. *)
Definition decision_header (op : reply_op) : option (Z * Z) :=
  match op with
  | ReplyAcceptGoal => Some (RESPONSE_KIND_GOAL, Decision_to_u8 Decision_ACCEPTED)
  | ReplyRejectGoal => Some (RESPONSE_KIND_GOAL, Decision_to_u8 Decision_REJECTED)
  | ReplyAcceptCancel => Some (RESPONSE_KIND_CANCEL, Decision_to_u8 Decision_ACCEPTED)
  | ReplyRejectCancel => Some (RESPONSE_KIND_CANCEL, Decision_to_u8 Decision_REJECTED)
  | ReplyFeedback _ => None
  end.

Lemma decision_sends op k st e w h e' w' :
  decision_header op = Some (k, st) -> run_reply op e w h = (e', w', true) ->
  exists b, find_binding e h = Some b /\ send_control_response e w b k st = (w', true).
Proof.
  destruct op; cbn; intros [= <- <-];
    unfold accept_goal, reject_goal, accept_cancel, reject_cancel;
    (destruct (find_binding e h) as [b|] eqn:Hf; [|done]); (split_guard; [done|]);
    (destruct (send_control_response _ _ _ _ _) as [w1 []] eqn:Hs; [|done]);
    intros [= _ <-]; eauto.
Qed.

(** The packet at the head of the queue reaches the request handlers. *)
Definition decodes (e : ServerEndpoint) (pk : PendingPacket) (r : SlotRouting)
    (header : ActionRequestHeader) : Prop :=
  ep_slot_routing e !! pp_slot_index pk = Some r
  /\ is_Some (validate_packet_capacity (pp_pdu pk) (rt_request_packet_base_size r)
                (rt_request_heap_capacity r) true)
  /\ decode_request_header (pp_pdu pk) = Some header
  /\ validate_request_header header = true.

Lemma poll_decoded e w pk rest r header :
  ep_wf e -> ep_initialized e = true -> ep_pending_packets e = pk :: rest ->
  decodes e pk r header ->
  poll e w
  = if (arq_request_kind header =? REQUEST_KIND_CANCEL)%Z
    then let '(e', ev) := handle_cancel_packet (set_queues [] rest e) (arq_goal_id header) pk
         in (e', w, ev)
    else handle_goal_packet (set_queues [] rest e) w (arq_goal_id header) pk.
Proof.
  intros Hwf Hi Hq (Hr & [n Hv] & Hd & Hh). unfold poll, poll_packet.
  rewrite Hi, (wf_events e Hwf), Hq. cbn. by rewrite Hr, Hv, Hd, Hh.
Qed.

(** A committed goal refuses everything. *)
Lemma find_binding_put e h b : 
  ServerGoalHandle_valid h = true -> ep_initialized e = true ->
  find_binding (put_binding (sgh_goal_id h) b e) h = Some b.
Proof.
  intros Hh Hi. unfold find_binding. cbn. rewrite Hh, Hi. cbn. apply lookup_insert_eq.
Qed.

Lemma committed_refuses_complete e h c w st d :
  ServerGoalHandle_valid h = true -> ep_initialized e = true ->
  pb_state c = RESULT_COMMITTED ->
  complete (put_binding (sgh_goal_id h) c e) w h st d
  = (put_binding (sgh_goal_id h) c e, w, CompleteResult_NOT_COMMITTED).
Proof.
  intros Hh Hi Hc. unfold complete. rewrite find_binding_put by done.
  unfold validate_terminal_packet_locked. by rewrite Hc.
Qed.

Lemma committed_refuses_reply e h c w op :
  ServerGoalHandle_valid h = true -> ep_initialized e = true ->
  pb_state c = RESULT_COMMITTED ->
  run_reply op (put_binding (sgh_goal_id h) c e) w h
  = (put_binding (sgh_goal_id h) c e, w, false).
Proof.
  intros Hh Hi Hc. destruct op; cbn;
    unfold accept_goal, reject_goal, accept_cancel, reject_cancel, send_feedback;
    rewrite find_binding_put by done; by rewrite Hc.
Qed.
End Single.

(** ** A concrete run

    The sample action on a transport that accepts every packet: goal 1 arrives
    on slot 0 and is accepted. *)

Module Demo.
Import ConcretePdu.

Definition reliable : Transport := {| send_result _ _ _ := true |}.
#[export] Existing Instance reliable.

Definition goal_1 : GoalId := 1%Z :: replicate 15 0%Z.

Definition request_packet (kind : Z) (g : GoalId) : PduData :=
  default [] (p ← create_packet_buffer 32 16;
              cpp2pdu_ActionRequestHeader (mkActionRequestHeader 1 kind [0; 0]%Z g) p).

Definition fresh : ServerEndpoint := new_server_endpoint "fib" true true.
Definition ready : ServerEndpoint := fst (initialize fresh (render_definition sample_definition)).
Definition requested : ServerEndpoint :=
  deliver (mkPduResolvedKey "fib" 0) (request_packet 1 goal_1) ready.
Definition awaiting : ServerEndpoint := (poll requested []).1.1.
Definition awaiting_wire : Wire := (poll requested []).1.2.
Definition handle_1 : ServerGoalHandle := mkServerGoalHandle goal_1.
Definition accepted : ServerEndpoint := (accept_goal awaiting awaiting_wire handle_1).1.1.
Definition accepted_wire : Wire := (accept_goal awaiting awaiting_wire handle_1).1.2.

Lemma ready_reachable : rtc ep_step (fresh, []) (ready, []).
Proof. apply rtc_once. by eapply step_initialize, surjective_pairing. Qed.

Lemma requested_reachable : rtc ep_step (fresh, []) (requested, []).
Proof. eapply rtc_r; [apply ready_reachable|apply step_deliver]. Qed.

Lemma awaiting_reachable : rtc ep_step (fresh, []) (awaiting, awaiting_wire).
Proof. eapply rtc_r; [apply requested_reachable|]. eapply step_poll, triple_eta. Qed.

Lemma accepted_reachable : rtc ep_step (fresh, []) (accepted, accepted_wire).
Proof. eapply rtc_r; [apply awaiting_reachable|]. eapply step_accept_goal, triple_eta. Qed.
End Demo.
Import ConcretePdu Demo.

(** ** Properties *)

(** C23 — In every state the server endpoint can reach, goals and slots are
    tied one to one: a known goal owns exactly the slot its binding names, an
    owned slot belongs to a known goal, no two goals share a slot, and there
    are never more goals than configured slots. *)
Theorem server_slot_ownership {P : PduPlatform} {T : Transport} n a b e w :
  rtc ep_step (new_server_endpoint n a b, []) (e, w) ->
  (forall g x, ep_packet_bindings e !! g = Some x ->
     pb_goal_id x = g /\ ep_slot_owners e !! pb_slot_index x = Some (Some g))
  /\ (forall s g, ep_slot_owners e !! s = Some (Some g) ->
        exists x, ep_packet_bindings e !! g = Some x /\ pb_slot_index x = s)
  /\ (forall g g' x x', ep_packet_bindings e !! g = Some x ->
        ep_packet_bindings e !! g' = Some x' -> pb_slot_index x = pb_slot_index x' -> g = g')
  /\ size (ep_packet_bindings e) <= length (ep_slot_routing e).
Proof.
  intros Hwf%ep_reachable_wf. split_and!; [apply Hwf|apply Hwf| |by apply wf_goal_count].
  intros g g' x x' [_ Ho]%(wf_owner e Hwf) [_ Ho']%(wf_owner e Hwf) Heq.
  rewrite Heq in Ho. congruence.
Qed.

Lemma server_slot_ownership_witness :
  size (ep_packet_bindings Demo.accepted) <= length (ep_slot_routing Demo.accepted).
Proof. apply (server_slot_ownership _ _ _ _ _ Demo.accepted_reachable). Defined.

(** C1 — Results never outnumber acceptances: at every point of every run, the
    Result packets delivered for a goal id, plus one if a goal with that id is
    currently accepted, are at most the ACCEPTED goal responses delivered for
    it. So no Result is sent for a goal the client was not told is accepted,
    and none is sent twice for one acceptance. *)
Theorem results_follow_acceptances {P : PduPlatform} {HL : PduPlatformLaws P} {T : Transport}
    n a b e w g :
  rtc ep_step (new_server_endpoint n a b, []) (e, w) ->
  count (is_result g) (responses (ep_slot_routing e) w) + active (view_of e) g
  <= count (is_acceptance g) (responses (ep_slot_routing e) w).
Proof.
  intros Hr.
  assert (Hg : forall x y, rtc ep_step x y -> trace_inv x.1 x.2 -> trace_inv y.1 y.2).
  { induction 1; eauto using trace_inv_ep_step. }
  apply Hg in Hr; [apply Hr|]. apply new_trace_inv.
Qed.

Lemma results_follow_acceptances_witness :
  count (is_result Demo.goal_1) (responses (ep_slot_routing Demo.accepted) Demo.accepted_wire)
  + active (view_of Demo.accepted) Demo.goal_1
  <= count (is_acceptance Demo.goal_1)
       (responses (ep_slot_routing Demo.accepted) Demo.accepted_wire).
Proof. apply (results_follow_acceptances _ _ _ _ _ _ Demo.accepted_reachable). Defined.

(** Admission of goal requests: a well-formed GOAL request becomes a
    GOAL_REQUEST event exactly when its goal id is unknown and its slot is free,
    and then the goal owns the slot and awaits a decision with feedback numbering
    at zero; otherwise no goal changes, no event is raised, and the only thing
    that can be delivered is a REJECTED response for that goal id. *)
Theorem goal_request_admission {P : PduPlatform} {HL : PduPlatformLaws P} {T : Transport}
    n a b e w pk rest r header e' w' ev :
  rtc ep_step (new_server_endpoint n a b, []) (e, w) ->
  ep_initialized e = true -> ep_pending_packets e = pk :: rest ->
  decodes e pk r header -> arq_request_kind header = REQUEST_KIND_GOAL ->
  poll e w = (e', w', ev) ->
  let g := arq_goal_id header in
  let s := pp_slot_index pk in
  ep_pending_packets e' = rest /\
  if bool_decide (ep_packet_bindings e !! g = None /\ ep_slot_owners e !! s = Some None)
  then w' = w /\ ev = goal_event ServerEventType_GOAL_REQUEST e g (pp_pdu pk)
       /\ ep_packet_bindings e'
          = <[g := mkActionPacketBinding g s AWAITING_GOAL_DECISION 0 false]>
              (ep_packet_bindings e)
       /\ ep_slot_owners e' = <[s := Some g]> (ep_slot_owners e)
  else ev = empty_server_event /\ ep_packet_bindings e' = ep_packet_bindings e
       /\ ep_slot_owners e' = ep_slot_owners e
       /\ exists extra,
            responses (ep_slot_routing e) w' = responses (ep_slot_routing e) w ++ extra
            /\ (extra = []
                \/ extra = [(RESPONSE_KIND_GOAL, Decision_to_u8 Decision_REJECTED, g)]).
Proof.
  intros Hwf%ep_reachable_wf Hi Hq Hd Hk Hp g s.
  rewrite (poll_decoded _ _ _ _ _ _ Hwf Hi Hq Hd), Hk in Hp. cbn in Hp.
  assert (Hlt : s < length (ep_slot_owners e)).
  { rewrite (wf_len e Hwf). destruct Hd as [Hr _]. by eapply lookup_lt_Some. }
  apply lookup_lt_is_Some in Hlt as [o Ho].
  unfold handle_goal_packet in Hp. cbn in Hp. fold g s in Hp.
  assert (Hrej : forall e0, e0 = set_queues [] rest e ->
    exists extra, responses (ep_slot_routing e) (send_goal_error_reply e0 w g s)
                  = responses (ep_slot_routing e) w ++ extra
      /\ (extra = [] \/ extra = [(RESPONSE_KIND_GOAL, Decision_to_u8 Decision_REJECTED, g)])).
  { intros e0 ->. destruct (send_goal_error_reply_framed (set_queues [] rest e) w g s Hi)
      as (extra & [_ _ _ Hx] & Ho'). by exists extra. }
  destruct (ep_packet_bindings e !! g) as [x|] eqn:Hx.
  - rewrite bool_decide_eq_true_2 in Hp by done. injection Hp as <- <- <-.
    rewrite bool_decide_eq_false_2 by naive_solver. eauto 8.
  - rewrite bool_decide_eq_false_2 in Hp by (by intros [? ?]). rewrite Ho in Hp |- *.
    destruct o; injection Hp as <- <- <-.
    + rewrite bool_decide_eq_false_2 by naive_solver. eauto 8.
    + by rewrite bool_decide_eq_true_2.
Qed.

Lemma goal_request_admission_witness :
  bool_decide (ep_packet_bindings requested !! goal_1 = None
               /\ ep_slot_owners requested !! 0 = Some None) = true
  /\ ep_slot_owners awaiting = [Some goal_1; None].
Proof.
  split; [by vm_compute|].
  pose proof (goal_request_admission _ _ _ requested [] (mkPendingPacket 0 (request_packet 1 goal_1))
    [] (default (initial_routing (mkActionBufferHeap 0 0 0) 0) (ep_slot_routing requested !! 0))
    (mkActionRequestHeader 1 1 [0; 0]%Z goal_1) _ _ _ requested_reachable
    ltac:(by vm_compute) ltac:(by vm_compute)
    ltac:(split_and!; [by vm_compute|by vm_compute; eexists|by vm_compute|by vm_compute])
    ltac:(by vm_compute) (triple_eta _)) as [_ H].
  destruct (bool_decide _) eqn:E in H; [|vm_compute in E; discriminate].
  destruct H as (_ & _ & _ & H). exact H.
Defined.

(** Cancel requests: a well-formed CANCEL request raises a CANCEL_REQUEST
    event exactly when its goal is known, arrived on the goal's own slot, the
    goal is accepted and no cancel decision is pending; then a decision becomes
    pending for that goal alone. In every other case it is dropped without any
    effect. Nothing is ever sent. *)
Theorem cancel_request_admission {P : PduPlatform} {T : Transport}
    n a b e w pk rest r header e' w' ev :
  rtc ep_step (new_server_endpoint n a b, []) (e, w) ->
  ep_initialized e = true -> ep_pending_packets e = pk :: rest ->
  decodes e pk r header -> arq_request_kind header = REQUEST_KIND_CANCEL ->
  poll e w = (e', w', ev) ->
  let g := arq_goal_id header in
  w' = w /\
  match ep_packet_bindings e !! g with
  | Some (mkActionPacketBinding _ s GOAL_ACCEPTED q false) =>
      if bool_decide (s = pp_slot_index pk)
      then e' = put_binding g (mkActionPacketBinding g s GOAL_ACCEPTED q true)
                  (set_queues [] rest e)
           /\ ev = goal_event ServerEventType_CANCEL_REQUEST e g (pp_pdu pk)
      else e' = set_queues [] rest e /\ ev = empty_server_event
  | _ => e' = set_queues [] rest e /\ ev = empty_server_event
  end.
Proof.
  intros Hwf%ep_reachable_wf Hi Hq Hd Hk Hp g.
  rewrite (poll_decoded _ _ _ _ _ _ Hwf Hi Hq Hd), Hk in Hp. cbn in Hp.
  unfold handle_cancel_packet in Hp. cbn in Hp. fold g in Hp.
  destruct (ep_packet_bindings e !! g) as [[g0 s st q c]|] eqn:Hx; [|by injection Hp as <- <- <-].
  destruct (wf_owner e Hwf _ _ Hx) as [Hg _]. cbn in Hg, Hp. subst g0.
  destruct (bool_decide (s = pp_slot_index pk)), st, c; cbn in Hp; by injection Hp as <- <- <-.
Qed.

Lemma cancel_request_admission_witness :
  se_type (poll (deliver (mkPduResolvedKey "fib" 0) (request_packet 2 goal_1) accepted)
             accepted_wire).2 = ServerEventType_CANCEL_REQUEST.
Proof.
  pose proof (cancel_request_admission _ _ _
    (deliver (mkPduResolvedKey "fib" 0) (request_packet 2 goal_1) accepted) accepted_wire
    (mkPendingPacket 0 (request_packet 2 goal_1)) []
    (default (initial_routing (mkActionBufferHeap 0 0 0) 0) (ep_slot_routing accepted !! 0))
    (mkActionRequestHeader 1 2 [0; 0]%Z goal_1) _ _ _
    (rtc_r _ _ _ accepted_reachable (step_deliver _ _ _ _))
    ltac:(by vm_compute) ltac:(by vm_compute)
    ltac:(split_and!; [by vm_compute|by vm_compute; eexists|by vm_compute|by vm_compute])
    ltac:(by vm_compute) (triple_eta _)) as [_ H].
  match type of H with match ?x with _ => _ end =>
    replace x with (Some (mkActionPacketBinding goal_1 0 GOAL_ACCEPTED 0 false)) in H
      by (by vm_compute) end.
  cbn beta iota in H. destruct (bool_decide _) eqn:E in H; [|vm_compute in E; discriminate].
  destruct H as [_ ->]. reflexivity.
Defined.

(** Decisions are atomic and correctly addressed: an accept or reject of a
    goal or of a cancel request that returns true has delivered exactly one
    packet, on the response channel of the goal's slot, which the client's
    checks accept and whose header carries the protocol version, the kind and
    decision just taken and the goal id. One that returns false has changed
    nothing in the endpoint and has delivered nothing. *)
Theorem decision_reply_atomic {P : PduPlatform} {HL : PduPlatformLaws P} {T : Transport}
    n a b e w op k st h e' w' ok :
  rtc ep_step (new_server_endpoint n a b, []) (e, w) ->
  decision_header op = Some (k, st) -> run_reply op e w h = (e', w', ok) ->
  if ok
  then exists x routing data,
         ep_packet_bindings e !! sgh_goal_id h = Some x
         /\ ep_slot_routing e !! pb_slot_index x = Some routing
         /\ w' = w ++ [mkSendRecord (rt_response routing) data true]
         /\ receivable data (rt_response_packet_base_size routing)
              (rt_response_heap_capacity routing) sizeof_ActionResponseHeader
         /\ pdu2cpp_ActionResponseHeader data
            = Some (mkActionResponseHeader ACTION_PROTOCOL_VERSION k st 0 (sgh_goal_id h))
  else e' = e /\ (w' = w \/ sent_one w w' false).
Proof.
  intros Hwf%ep_reachable_wf Hd Hr. destruct ok.
  - destruct (decision_sends _ _ _ _ _ _ _ _ Hd Hr) as (x & Hf & Hs).
    apply find_binding_Some in Hf as (_ & _ & Hx). destruct (wf_owner e Hwf _ _ Hx) as [Hg _].
    apply send_control_response_wire in Hs as (routing & data & Hs). rewrite Hg in Hs.
    exists x, routing, data. destruct_and!. by split_and!.
  - apply run_reply_outcome in Hr as [Ho He]. auto.
Qed.

Lemma decision_reply_atomic_witness :
  exists x, ep_packet_bindings awaiting !! goal_1 = Some x.
Proof.
  pose proof (decision_reply_atomic _ _ _ _ _ ReplyAcceptGoal _ _ handle_1 accepted accepted_wire
    true awaiting_reachable eq_refl) as H.
  destruct H as (x & _ & _ & Hx & _); [|by exists x].
  rewrite (triple_eta (run_reply _ _ _ _)). f_equal.
Defined.

Definition result_packet : PduData := default [] (create_result_buffer accepted).
Definition feedback_packet : PduData := default [] (create_feedback_buffer accepted).

(** C40 — A result packet that passes the capacity check but has no room for the
    response header commits the goal without any send attempt: [complete]
    reports SEND_FAILED_AFTER_COMMIT and the goal can never be completed again,
    although the packet, not the transport, was at fault. *)
Theorem short_result_commits_unsent {P : PduPlatform} {T : Transport} e w h st d x size :
  find_binding e h = Some x ->
  validate_terminal_packet_locked e x st d = Some size ->
  has_valid_packet_prefix d sizeof_ActionResponseHeader = false ->
  exists e', complete e w h st d = (e', w, CompleteResult_SEND_FAILED_AFTER_COMMIT)
    /\ forall w1 st1 d1, complete e' w1 h st1 d1 = (e', w1, CompleteResult_NOT_COMMITTED).
Proof.
  intros Hf Hv Hp. unfold complete at 1. rewrite Hf, Hv.
  apply find_binding_Some in Hf as (Hh & Hi & Hx).
  set (c := set_pb_cancel_decision_pending false (set_pb_state RESULT_COMMITTED x)).
  assert (Hs : send_response_packet (put_binding (sgh_goal_id h) c e) w c
                 RESPONSE_KIND_RESULT (TerminalStatus_to_u8 st) d = (w, false)).
  { unfold send_response_packet, write_response_header. cbn. rewrite Hp. cbn.
    destruct (ep_slot_routing e !! pb_slot_index x); [|done].
    destruct (bool_decide (d = [])); [done|]. by destruct (validate_packet_capacity _ _ _ _). }
  rewrite Hs. eexists. split; [done|]. intros. by apply committed_refuses_complete.
Qed.

(** A packet whose heap begins right behind the metadata. *)
Definition headerless_packet : PduData := default [] (hako_create_empty_pdu 0 16).

Lemma short_result_commits_unsent_witness :
  (complete accepted accepted_wire handle_1 TerminalStatus_SUCCEEDED headerless_packet).1.2
    = accepted_wire
  /\ (complete accepted accepted_wire handle_1 TerminalStatus_SUCCEEDED headerless_packet).2
    = CompleteResult_SEND_FAILED_AFTER_COMMIT.
Proof.
  destruct (short_result_commits_unsent accepted accepted_wire handle_1 TerminalStatus_SUCCEEDED
    headerless_packet (mkActionPacketBinding goal_1 0 GOAL_ACCEPTED 0 false) 40
    ltac:(by vm_compute) ltac:(by vm_compute) ltac:(by vm_compute)) as (e' & H & _).
  rewrite H. cbn [fst snd]. split; reflexivity.
Defined.

(** Initialisation is all or nothing and happens once: on failure the
    endpoint is unchanged; on success every configured slot has its own three
    channels, with ids [3 s], [3 s + 1] and [3 s + 2], no two channels of the
    endpoint share a transport key, each packet type has room for its header and
    fits the size limit, all slots are free, and every further initialisation
    is refused. *)
Theorem initialize_routes {P : PduPlatform} {HL : PduPlatformLaws P} {T : Transport}
    n a b e w j e' ok :
  rtc ep_step (new_server_endpoint n a b, []) (e, w) ->
  initialize e j = (e', ok) ->
  if ok
  then exists d, parse_action j = inl d /\ ad_name d = ep_action_name e
    /\ length (ep_slot_routing e') = Z.to_nat (ad_slot_count d)
    /\ (forall s r, ep_slot_routing e' !! s = Some r ->
          slot_routed (ep_action_name e) (ad_buffer_heap d) s r)
    /\ (forall s s' r r' k k', ep_slot_routing e' !! s = Some r ->
          ep_slot_routing e' !! s' = Some r' -> slot_key r k = slot_key r' k' ->
          s = s' /\ k = k')
    /\ ep_slot_owners e' = replicate (Z.to_nat (ad_slot_count d)) None
    /\ (forall j', initialize e' j' = (e', false))
  else e' = e.
Proof.
  intros Hwf%ep_reachable_wf Hi. destruct ok; [|by eapply initialize_spec].
  revert Hi. unfold initialize at 1.
  destruct (parse_action j) as [d|] eqn:Hp; [|done].
  pose proof (parse_action_wf _ _ Hp) as Hd.
  repeat (split_guard; try done). intros [= <-]. cbn. simpl_bools.
  match goal with H : build_routing _ _ = Some _ |- _ =>
    apply build_routing_spec in H as [Hl Hr]; [|done] end.
  exists d. split_and!; try done.
  - intros s s' r r' k k' Hs Hs'. eapply slot_key_inj; [by apply Hr|by apply Hr|..];
      pose proof (dwf_slots d Hd); [apply lookup_lt_Some in Hs|apply lookup_lt_Some in Hs']; lia.
  - destruct (uninit_no_bindings e Hwf) as [-> _]; [done|]. by rewrite resize_nil, Hl.
  - intros j'. unfold initialize. by repeat (split_guard; try done).
Qed.

Lemma initialize_routes_witness :
  length (ep_slot_routing ready) = 2 /\ ep_slot_owners ready = [None; None].
Proof.
  destruct (initialize_routes "fib" true true fresh [] (render_definition sample_definition)
    ready true ltac:(apply rtc_refl) ltac:(rewrite (surjective_pairing (initialize _ _)); by f_equal))
    as (d & Hd & _ & Hl & _ & _ & Ho & _).
  vm_compute in Hd. injection Hd as <-.
  split; [exact Hl|exact Ho].
Defined.

End ServerEpProps.
