(* ===== verification/ServerEndpointRuns.v ===== *)
(** * Runs of the server packet endpoint

    Any sequence of calls of [ActionServerEndpointImpl], with the critical
    sections of [poll] also on their own. Each call shows a label (the goal it
    names and its result) and the responses it delivered; the theorems say which
    sequences of them are possible, what becomes of a committed goal and how
    feedback is numbered over a whole run. *)

From S2P Require Import Prelude ActionTypes ActionConfiguration PduPacket.
From S2P Require Import Routing ServerInterface ServerEndpoint ServerEndpointFacts.
From S2P Require Import ServerEndpointProps.
From Stdlib Require Import ZArith Lia.
From stdpp Require Import base gmap strings list fin_maps relations.

Module ServerEpRuns.
Import ActionConfig ServerIface RoutingTable ServerEp ServerEpFacts ServerEpProps.

(** ** Calls *)

Inductive ep_call :=
  | CallInitialize (j : json)
  | CallDeliver (key : PduResolvedKey) (data : PduData)
  | CallPoll
  | CallTake
  | CallPacket (packet : PendingPacket)
  | CallAcceptGoal (h : ServerGoalHandle)
  | CallRejectGoal (h : ServerGoalHandle)
  | CallAcceptCancel (h : ServerGoalHandle)
  | CallRejectCancel (h : ServerGoalHandle)
  | CallAcceptCancelLocally (h : ServerGoalHandle)
  | CallFeedback (h : ServerGoalHandle) (pdu : PduData)
  | CallComplete (h : ServerGoalHandle) (st : TerminalStatus) (pdu : PduData)
  | CallCompleteLocally (h : ServerGoalHandle) (st : TerminalStatus) (pdu : PduData)
  | CallDiscard (h : ServerGoalHandle)
  | CallClear
  | CallReset.

Section Runs.
Context {P : PduPlatform} {T : Transport}.

Definition run_call (e : ServerEndpoint) (w : Wire) (c : ep_call)
    : ServerEndpoint * Wire * label :=
  match c with
  | CallInitialize j => ((initialize e j).1, w, LQuiet)
  | CallDeliver key data => (deliver key data e, w, LQuiet)
  | CallPoll => let '(e', w', ev) := poll e w in (e', w', LPoll ev)
  | CallTake =>
      (match ep_pending_packets e with
       | [] => e
       | _ :: rest => set_queues (ep_pending_events e) rest e
       end, w, LQuiet)
  | CallPacket packet =>
      if ep_initialized e
      then let '(e', w', ev) := poll_packet e w packet in (e', w', LPoll ev)
      else (e, w, LQuiet)
  | CallAcceptGoal h =>
      let '(e', w', ok) := accept_goal e w h in (e', w', LAcceptGoal (sgh_goal_id h) ok)
  | CallRejectGoal h =>
      let '(e', w', ok) := reject_goal e w h in (e', w', LRejectGoal (sgh_goal_id h) ok)
  | CallAcceptCancel h =>
      let '(e', w', ok) := accept_cancel e w h in (e', w', LAcceptCancel (sgh_goal_id h) ok)
  | CallRejectCancel h =>
      let '(e', w', ok) := reject_cancel e w h in (e', w', LRejectCancel (sgh_goal_id h) ok)
  | CallAcceptCancelLocally h =>
      let '(e', ok) := accept_cancel_locally e h in
      (e', w, LAcceptCancelLocally (sgh_goal_id h) ok)
  | CallFeedback h pdu =>
      let '(e', w', ok) := send_feedback e w h pdu in (e', w', LFeedback (sgh_goal_id h) ok)
  | CallComplete h st pdu =>
      let '(e', w', r) := complete e w h st pdu in (e', w', LComplete (sgh_goal_id h) st r)
  | CallCompleteLocally h st pdu =>
      let '(e', ok) := complete_locally e h st pdu in
      (e', w, LCompleteLocally (sgh_goal_id h) st ok)
  | CallDiscard h =>
      let '(e', ok) := discard_pending_goal e h in (e', w, LDiscard (sgh_goal_id h) ok)
  | CallClear => (clear_pending_events e, w, LQuiet)
  | CallReset => (reset_contexts e, w, LReset)
  end.

(** The labels of a run, each with the responses delivered by its call. *)
Fixpoint run_calls (e : ServerEndpoint) (w : Wire) (calls : list ep_call)
    : ServerEndpoint * Wire * list (label * list response) :=
  match calls with
  | [] => (e, w, [])
  | c :: rest =>
      let '(e1, w1, l) := run_call e w c in
      let '(e2, w2, tr) := run_calls e1 w1 rest in
      (e2, w2, (l, responses (ep_slot_routing e1) (drop (length w) w1)) :: tr)
  end.

(** A run of the abstract protocol. *)
Inductive protocol_run : view -> list (label * list response) -> view -> Prop :=
  | protocol_nil v : protocol_run v [] v
  | protocol_cons v l out v1 tr v2 :
      protocol v l out v1 -> protocol_run v1 tr v2 -> protocol_run v ((l, out) :: tr) v2.

Lemma run_call_step e w c e' w' l : run_call e w c = (e', w', l) -> rtc ep_step (e, w) (e', w').
Proof.
  destruct c; cbn; repeat (split_guard; try done); intros [= <- <- <-]; try done;
    apply rtc_once; eauto using ep_step.
  eapply step_initialize, surjective_pairing.
Qed.

Lemma run_calls_steps calls e w e' w' tr :
  run_calls e w calls = (e', w', tr) -> rtc ep_step (e, w) (e', w').
Proof.
  revert e w e' w' tr. induction calls as [|c calls IH]; intros e w e' w' tr; cbn.
  { by intros [= <- <- <-]. }
  destruct (run_call e w c) as [[e1 w1] l] eqn:Hc.
  destruct (run_calls e1 w1 calls) as [[e2 w2] tr2] eqn:Hr. intros [= <- <- <-].
  etrans; [by eapply run_call_step|by eapply IH].
Qed.

(** ** What a call puts on the wire *)

Definition on_response (e : ServerEndpoint) (rec : SendRecord) : Prop :=
  exists r, r ∈ ep_slot_routing e /\ sr_key rec = rt_response r.

Definition sends_responses (e : ServerEndpoint) (w w' : Wire) : Prop :=
  exists recs, w' = w ++ recs /\ Forall (on_response e) recs.

Lemma sends_nothing e w : sends_responses e w w.
Proof. exists []. by rewrite app_nil_r. Qed.

Lemma send_response_packet_keys e e0 w b k st d w' ok :
  ep_slot_routing e0 = ep_slot_routing e ->
  send_response_packet e0 w b k st d = (w', ok) -> sends_responses e w w'.
Proof.
  intros Hr. unfold send_response_packet. rewrite Hr.
  destruct (ep_slot_routing e !! pb_slot_index b) as [r|] eqn:Hl;
    [|intros [= <- _]; apply sends_nothing].
  repeat (split_guard; try (intros [= <- _]; apply sends_nothing)).
  unfold endpoint_send. intros [= <- _]. eexists. split; [done|]. apply Forall_singleton.
  exists r. split; [by eapply list_elem_of_lookup_2|done].
Qed.

Lemma send_control_response_keys e w b k st w' ok :
  send_control_response e w b k st = (w', ok) -> sends_responses e w w'.
Proof.
  unfold send_control_response. split_guard; [by apply send_response_packet_keys|].
  intros [= <- _]. apply sends_nothing.
Qed.

Lemma poll_packet_keys e w pk e' w' ev :
  poll_packet e w pk = (e', w', ev) -> sends_responses e w w'.
Proof.
  unfold poll_packet, handle_goal_packet, send_goal_error_reply.
  repeat (split_guard; try (intros [= _ <- _]; apply sends_nothing)); intros [= _ <- _];
    match goal with |- context [send_control_response ?e ?w ?b ?k ?st] =>
      destruct (send_control_response e w b k st) eqn:Hs end;
    by eapply send_control_response_keys.
Qed.

Lemma poll_keys e w e' w' ev : poll e w = (e', w', ev) -> sends_responses e w w'.
Proof.
  unfold poll. repeat (split_guard; try (intros [= _ <- _]; apply sends_nothing)).
  intros Hp. apply poll_packet_keys in Hp as (recs & -> & Hk). by exists recs.
Qed.

Definition is_feedback (c : ep_call) : bool :=
  match c with CallFeedback _ _ => true | _ => false end.

(** An operation that answers through one send, or refuses without any. *)
Ltac response_op keys :=
  repeat (split_guard; try (intros [= _ <- _]; apply sends_nothing)); intros [= _ <- _];
  by eapply keys.

(** Everything but feedback goes to response channels. *)
Lemma run_call_keys e w c e' w' l :
  run_call e w c = (e', w', l) -> is_feedback c = false -> sends_responses e w w'.
Proof.
  destruct c; cbn; intros Hc Hf; try done;
    try (injection Hc as _ <- _; apply sends_nothing).
  - destruct (poll e w) as [[? ?] ?] eqn:Hp. injection Hc as _ <- _. by eapply poll_keys.
  - destruct (ep_initialized e); [|injection Hc as _ <- _; apply sends_nothing].
    destruct (poll_packet e w packet) as [[? ?] ?] eqn:Hp. injection Hc as _ <- _.
    by eapply poll_packet_keys.
  - revert Hc. unfold accept_goal. response_op send_control_response_keys.
  - revert Hc. unfold reject_goal. response_op send_control_response_keys.
  - revert Hc. unfold accept_cancel. response_op send_control_response_keys.
  - revert Hc. unfold reject_cancel. response_op send_control_response_keys.
  - destruct (accept_cancel_locally e h). injection Hc as _ <- _. apply sends_nothing.
  - revert Hc. unfold complete. response_op send_response_packet_keys.
  - destruct (complete_locally e h st pdu). injection Hc as _ <- _. apply sends_nothing.
  - destruct (discard_pending_goal e h). injection Hc as _ <- _. apply sends_nothing.
Qed.

Lemma run_call_grows e w c e' w' l :
  run_call e w c = (e', w', l) -> exists recs, w' = w ++ recs.
Proof.
  destruct (is_feedback c) eqn:Hf.
  - destruct c; try done. cbn. destruct (send_feedback e w h pdu) as [[e1 w1] ok] eqn:Hs.
    intros [= <- <- <-]. destruct (run_reply_outcome (ReplyFeedback pdu) e w h e1 w1 ok Hs) as [Ho _].
    destruct ok; [by destruct Ho as (rec & -> & _); eexists|].
    destruct Ho as [->|(rec & -> & _)]; [exists []; by rewrite app_nil_r|by eexists].
  - intros Hc. destruct (run_call_keys _ _ _ _ _ _ Hc Hf) as (recs & -> & _). by exists recs.
Qed.
End Runs.

(** ** Refinement of the packet protocol *)

Section Refinement.
Context {P : PduPlatform} {HL : PduPlatformLaws P} {T : Transport}.

Lemma framed_out e w e' w' extra :
  framed e w e' w' extra -> (exists recs, w' = w ++ recs) ->
  responses (ep_slot_routing e') (drop (length w) w') = extra.
Proof.
  intros [Hr _ _ Hw] (recs & ->). rewrite Hr, drop_app_length. rewrite responses_app in Hw.
  by apply app_inv_head in Hw.
Qed.

Lemma quiet_out rs (w : Wire) : responses rs (drop (length w) w) = [].
Proof. by rewrite drop_all. Qed.

Lemma poll_protocol v ev v' extra :
  poll_effect v ev v' -> poll_sends ev extra -> protocol v (LPoll ev) extra v'.
Proof.
  unfold poll_effect. intros Hp [->|(-> & g & ->)].
  - destruct (se_type ev) eqn:Ht; [subst; by apply pr_poll_none|..]; try done;
      destruct_and?; subst; by eauto with hako.
  - cbn in Hp. subst. by apply pr_poll_refused.
Qed.

(** Closes the case of an operation from its contract and what it sent. *)
Ltac protocol_step :=
  repeat match goal with
  | H : context [if ?r then _ else _] |- _ => is_var r; destruct r
  | H : context [match ?r with CompleteResult_NOT_COMMITTED => _ | _ => _ end] |- _ =>
      is_var r; destruct r
  | H : _ /\ _ |- _ => destruct H
  | H : exists _, _ |- _ => destruct H
  | H : view_of ?e = _ |- protocol _ _ _ (view_of ?e) => rewrite H
  end; cbn; by eauto with hako.

Lemma run_call_protocol e w c e' w' l :
  trace_inv e w -> run_call e w c = (e', w', l) ->
  protocol (view_of e) l (responses (ep_slot_routing e') (drop (length w) w')) (view_of e').
Proof.
  intros Ht Hc. pose proof (ti_wf _ _ Ht) as Hwf. pose proof (run_call_grows _ _ _ _ _ _ Hc) as Hg.
  destruct c; cbn in Hc.
  - destruct (initialize e j) as [e1 r] eqn:Hi. injection Hc as <- <- <-. rewrite quiet_out.
    apply initialize_spec in Hi as (_ & Hv & _); [|done]. cbn. rewrite Hv. constructor.
  - injection Hc as <- <- <-. rewrite quiet_out. destruct (deliver_spec key data e Hwf) as [_ ->].
    constructor.
  - destruct (poll e w) as [[e1 w1] ev] eqn:Hp. injection Hc as <- <- <-.
    destruct (poll_framed _ _ _ _ _ Hwf Hp) as (extra & Hf & Hx).
    rewrite (framed_out _ _ _ _ _ Hf Hg). apply poll_spec in Hp as [_ Hp]; [|done].
    by apply poll_protocol.
  - injection Hc as <- <- <-. rewrite quiet_out. destruct (ep_pending_packets e); constructor.
  - destruct (ep_initialized e) eqn:Hi; [|injection Hc as <- <- <-; rewrite quiet_out; constructor].
    destruct (poll_packet e w packet) as [[e1 w1] ev] eqn:Hp. injection Hc as <- <- <-.
    destruct (poll_packet_framed _ _ _ _ _ _ Hi Hp) as (extra & Hf & Hx).
    rewrite (framed_out _ _ _ _ _ Hf Hg). apply poll_packet_spec in Hp as [_ Hp]; [|done].
    by apply poll_protocol.
  - destruct (accept_goal e w h) as [[e1 w1] ok] eqn:Ho. injection Hc as <- <- <-.
    rewrite (framed_out _ _ _ _ _ (accept_goal_framed _ _ _ _ _ _ Hwf Ho) Hg).
    apply accept_goal_spec in Ho as [_ Ho]; [|done]. protocol_step.
  - destruct (reject_goal e w h) as [[e1 w1] ok] eqn:Ho. injection Hc as <- <- <-.
    rewrite (framed_out _ _ _ _ _ (reject_goal_framed _ _ _ _ _ _ Hwf Ho) Hg).
    apply reject_goal_spec in Ho as [_ Ho]; [|done]. protocol_step.
  - destruct (accept_cancel e w h) as [[e1 w1] ok] eqn:Ho. injection Hc as <- <- <-.
    rewrite (framed_out _ _ _ _ _ (accept_cancel_framed _ _ _ _ _ _ Hwf Ho) Hg).
    apply accept_cancel_spec in Ho as [_ Ho]; [|done]. protocol_step.
  - destruct (reject_cancel e w h) as [[e1 w1] ok] eqn:Ho. injection Hc as <- <- <-.
    rewrite (framed_out _ _ _ _ _ (reject_cancel_framed _ _ _ _ _ _ Hwf Ho) Hg).
    apply reject_cancel_spec in Ho as [_ Ho]; [|done]. protocol_step.
  - destruct (accept_cancel_locally e h) as [e1 ok] eqn:Ho. injection Hc as <- <- <-.
    rewrite quiet_out. apply accept_cancel_locally_spec in Ho as [_ Ho]; [|done]. protocol_step.
  - destruct (send_feedback e w h pdu) as [[e1 w1] ok] eqn:Ho. injection Hc as <- <- <-.
    rewrite (framed_out _ _ _ _ _ (send_feedback_framed _ _ _ _ _ _ _ (ti_routed _ _ Ht) Ho) Hg).
    apply send_feedback_spec in Ho as (_ & Hv & Hp); [|done]. rewrite Hv.
    destruct ok; [destruct (Hp eq_refl) as (p & c & ? & ?)|]; by eauto with hako.
  - destruct (complete e w h st pdu) as [[e1 w1] r] eqn:Ho. injection Hc as <- <- <-.
    rewrite (framed_out _ _ _ _ _ (complete_framed _ _ _ _ _ _ _ _ Hwf Ho) Hg).
    apply complete_spec in Ho as [_ Ho]; [|done]. protocol_step.
  - destruct (complete_locally e h st pdu) as [e1 ok] eqn:Ho. injection Hc as <- <- <-.
    rewrite quiet_out. apply complete_locally_spec in Ho as [_ Ho]; [|done]. protocol_step.
  - destruct (discard_pending_goal e h) as [e1 ok] eqn:Ho. injection Hc as <- <- <-.
    rewrite quiet_out. apply discard_pending_goal_spec in Ho as [_ Ho]; [|done]. protocol_step.
  - injection Hc as <- <- <-. rewrite quiet_out. constructor.
  - injection Hc as <- <- <-. rewrite quiet_out. unfold view_of at 2. cbn. rewrite fmap_empty.
    constructor.
Qed.

Lemma run_call_inv e w c e' w' l :
  trace_inv e w -> run_call e w c = (e', w', l) -> trace_inv e' w'.
Proof.
  intros Ht Hr%run_call_step.
  assert (Hg : forall x y, rtc ep_step x y -> trace_inv x.1 x.2 -> trace_inv y.1 y.2).
  { induction 1; eauto using trace_inv_ep_step. }
  by apply Hg in Hr.
Qed.

Lemma run_calls_protocol calls e w e' w' tr :
  trace_inv e w -> run_calls e w calls = (e', w', tr) ->
  protocol_run (view_of e) tr (view_of e').
Proof.
  revert e w e' w' tr. induction calls as [|c calls IH]; intros e w e' w' tr Ht; cbn.
  { intros [= <- <- <-]. constructor. }
  destruct (run_call e w c) as [[e1 w1] l] eqn:Hc.
  destruct (run_calls e1 w1 calls) as [[e2 w2] tr2] eqn:Hr. intros [= <- <- <-].
  econstructor; [by eapply run_call_protocol|]. eapply IH; [|done]. by eapply run_call_inv.
Qed.

Lemma reachable_trace_inv n a b e w :
  rtc ep_step (new_server_endpoint n a b, []) (e, w) -> trace_inv e w.
Proof.
  intros Hr. assert (Hg : forall x y, rtc ep_step x y -> trace_inv x.1 x.2 -> trace_inv y.1 y.2).
  { induction 1; eauto using trace_inv_ep_step. }
  apply Hg in Hr; [done|]. apply new_trace_inv.
Qed.

(** ** Committed goals *)

Definition is_reset (c : ep_call) : bool := match c with CallReset => true | _ => false end.

Lemma run_call_reset e w c e' w' l :
  run_call e w c = (e', w', l) -> is_reset c = false -> l <> LReset.
Proof. destruct c; cbn; repeat (split_guard; try done); by intros [= <- <- <-]. Qed.

Lemma run_calls_committed calls e w e' w' tr g c :
  trace_inv e w -> run_calls e w calls = (e', w', tr) ->
  Forall (fun c => is_reset c = false) calls ->
  view_of e !! g = Some (Committed, c) -> view_of e' !! g = Some (Committed, c).
Proof.
  revert e w e' w' tr. induction calls as [|cl calls IH]; intros e w e' w' tr Ht; cbn.
  { by intros [= <- <- <-]. }
  destruct (run_call e w cl) as [[e1 w1] l] eqn:Hc.
  destruct (run_calls e1 w1 calls) as [[e2 w2] tr2] eqn:Hr. intros [= <- <- <-] [Hn Hf]%Forall_cons Hg.
  eapply IH; [by eapply run_call_inv|done|done|].
  eapply protocol_committed; [by eapply run_call_protocol|done|]. by eapply run_call_reset.
Qed.

Lemma committed_refuses_locally e h c st d :
  ServerGoalHandle_valid h = true -> ep_initialized e = true ->
  pb_state c = RESULT_COMMITTED ->
  let e' := put_binding (sgh_goal_id h) c e in
  accept_cancel_locally e' h = (e', false) /\ complete_locally e' h st d = (e', false)
  /\ discard_pending_goal e' h = (e', false).
Proof.
  intros Hh Hi Hc e'. unfold e', accept_cancel_locally, complete_locally, discard_pending_goal.
  rewrite !find_binding_put by done. unfold validate_terminal_packet_locked. cbn.
  by rewrite Hh, lookup_insert_eq, Hc.
Qed.

(** ** Feedback numbers *)

(** Goal and number of a delivered feedback packet. *)
Definition feedback_of (rs : list SlotRouting) (rec : SendRecord) : option (GoalId * Z) :=
  if sr_ok rec && existsb (fun r => bool_decide (rt_feedback r = sr_key rec)) rs
  then (fun h => (afb_goal_id h, afb_sequence_no h)) <$> pdu2cpp_ActionFeedbackHeader (sr_data rec)
  else None.

Definition feedback_numbers (rs : list SlotRouting) (g : GoalId) (w : Wire) : list Z :=
  omap (fun rec => '(g', n) ← feedback_of rs rec; if bool_decide (g' = g) then Some n else None) w.

Definition requests_goal (g : GoalId) (ev : ServerEvent) : bool :=
  bool_decide (se_type ev = ServerEventType_GOAL_REQUEST)
  && bool_decide (sgh_goal_id (se_goal ev) = g).

(** The numbers that feedback of goal [g] must carry: they count the successful
    calls since the goal was last requested, modulo 2^32. *)
Fixpoint numbered (g : GoalId) (n : Z) (tr : list (label * list response)) : list Z :=
  match tr with
  | [] => []
  | (LPoll ev, _) :: tr => numbered g (if requests_goal g ev then 0%Z else n) tr
  | (LFeedback g' true, _) :: tr =>
      if bool_decide (g' = g) then n :: numbered g (u32_succ n) tr else numbered g n tr
  | _ :: tr => numbered g n tr
  end.

Definition next_number (e : ServerEndpoint) (g : GoalId) : option Z :=
  pb_next_feedback_sequence <$> ep_packet_bindings e !! g.

Lemma next_number_put e k b b' g :
  ep_packet_bindings e !! k = Some b ->
  pb_next_feedback_sequence b' = pb_next_feedback_sequence b ->
  next_number (put_binding k b' e) g = next_number e g.
Proof.
  intros Hb Hs. unfold next_number. cbn. rewrite lookup_insert. case_decide as Hk; [|done].
  subst. rewrite Hb. cbn. congruence.
Qed.

Lemma next_number_release e k b g :
  next_number (release_binding_locked e k b) g = next_number e g
  \/ next_number (release_binding_locked e k b) g = None.
Proof.
  unfold next_number, release_binding_locked. cbn. rewrite lookup_delete.
  case_decide; [by right|by left].
Qed.

(** What a call does to the number a goal uses next. *)
Definition number_step (g : GoalId) (l : label) (o o' : option Z) : Prop :=
  match l with
  | LPoll ev => if requests_goal g ev then o' = Some 0%Z else o' = o \/ o' = None
  | LFeedback g' true =>
      if bool_decide (g' = g) then exists n, o = Some n /\ o' = Some (u32_succ n) else o' = o
  | _ => o' = o \/ o' = None
  end.

Lemma requests_nothing g : requests_goal g empty_server_event = false.
Proof. done. Qed.

Lemma poll_packet_number e w pk e' w' ev g :
  poll_packet e w pk = (e', w', ev) -> number_step g (LPoll ev) (next_number e g) (next_number e' g).
Proof.
  unfold poll_packet. repeat (split_guard; try (intros [= <- <- <-]; cbn; by left)).
  - match goal with H : handle_cancel_packet _ _ _ = _ |- _ => revert H end.
    unfold handle_cancel_packet.
    repeat (split_guard; try (intros [= <- <-] [= <- <- <-]; cbn; by left)).
    intros [= <- <-] [= <- <- <-]. cbn. left. by eapply next_number_put.
  - unfold handle_goal_packet. repeat (split_guard; try (intros [= <- <- <-]; cbn; by left)).
    intros [= <- <- <-]. unfold number_step, requests_goal. cbn [goal_event se_type se_goal].
    rewrite bool_decide_eq_true_2 by done. cbn.
    destruct (bool_decide_reflect (arq_goal_id a = g)) as [<-|Hg].
    + unfold next_number. cbn. by rewrite lookup_insert_eq.
    + left. unfold next_number. cbn. by rewrite lookup_insert_ne.
Qed.

Lemma deliver_number k d e g : next_number (deliver k d e) g = next_number e g.
Proof.
  unfold deliver. split_guard; [done|]. clear E.
  generalize (ep_slot_routing e) as l. intros l. revert e.
  induction l as [|r l IH]; intros e; [done|]. cbn. rewrite IH. by destruct (bool_decide _).
Qed.

Lemma reset_number e g : next_number (reset_contexts e) g = None.
Proof. done. Qed.

(** A reply keeps the number of every goal it does not release. *)
Ltac number_op :=
  repeat (split_guard; try (intros [= <- <- <-]; cbn; by left)); intros [= <- <- <-]; cbn;
  repeat match goal with
  | H : find_binding _ _ = Some _ |- _ => apply find_binding_Some in H as (_ & _ & H)
  end;
  first [left; by eapply next_number_put | by left | apply next_number_release].

Lemma complete_number e w h st d e' w' r g :
  complete e w h st d = (e', w', r) ->
  next_number e' g = next_number e g \/ next_number e' g = None.
Proof.
  unfold complete. destruct (find_binding e h) as [b|] eqn:Hf; [|intros [= <- <- <-]; by left].
  apply find_binding_Some in Hf as (_ & _ & Hb).
  destruct (validate_terminal_packet_locked e b st d); [|intros [= <- <- <-]; by left].
  set (c := set_pb_cancel_decision_pending false (set_pb_state RESULT_COMMITTED b)).
  rewrite <-(next_number_put e (sgh_goal_id h) b c) by done.
  destruct (send_response_packet _ _ _ _ _ _) as [w1 []]; intros [= <- <- <-];
    [apply next_number_release|by left].
Qed.

Lemma complete_locally_number e h st d e' r g :
  complete_locally e h st d = (e', r) ->
  next_number e' g = next_number e g \/ next_number e' g = None.
Proof.
  unfold complete_locally. destruct (find_binding e h) as [b|] eqn:Hf; [|intros [= <- <-]; by left].
  apply find_binding_Some in Hf as (_ & _ & Hb).
  destruct (validate_terminal_packet_locked e b st d); [|intros [= <- <-]; by left].
  set (c := set_pb_cancel_decision_pending false (set_pb_state RESULT_COMMITTED b)).
  rewrite <-(next_number_put e (sgh_goal_id h) b c) by done.
  intros [= <- <-]. apply next_number_release.
Qed.

Lemma send_feedback_number e w h d e' w' ok g :
  send_feedback e w h d = (e', w', ok) ->
  number_step g (LFeedback (sgh_goal_id h) ok) (next_number e g) (next_number e' g).
Proof.
  intros Hs. destruct ok.
  - apply send_feedback_wire in Hs as (b & r & data & Hb & _ & _ & _ & _ & ->). cbn.
    unfold next_number. cbn. case_bool_decide as Hg.
    + subst g. rewrite lookup_insert_eq, Hb. by eexists.
    + by rewrite lookup_insert_ne.
  - destruct (run_reply_outcome (ReplyFeedback d) e w h e' w' false Hs) as [_ He].
    rewrite (He eq_refl). cbn. by left.
Qed.

Lemma run_call_number e w c e' w' l g :
  ep_wf e -> run_call e w c = (e', w', l) -> number_step g l (next_number e g) (next_number e' g).
Proof.
  intros Hwf. destruct c; cbn [run_call].
  - intros [= <- <- <-]. cbn. left. unfold next_number, initialize.
    by repeat (split_guard; try done).
  - intros [= <- <- <-]. cbn. left. apply deliver_number.
  - destruct (poll e w) as [[e1 w1] ev] eqn:Hp. intros [= <- <- <-]. revert Hp. unfold poll.
    rewrite (wf_events e Hwf). repeat (split_guard; try (intros [= <- <- <-]; cbn; by left)).
    apply (poll_packet_number (set_queues _ _ e)).
  - intros [= <- <- <-]. cbn. left. by destruct (ep_pending_packets e).
  - destruct (ep_initialized e); [|intros [= <- <- <-]; by left].
    destruct (poll_packet e w packet) as [[e1 w1] ev] eqn:Hp. intros [= <- <- <-].
    by eapply poll_packet_number.
  - unfold accept_goal. number_op.
  - unfold reject_goal. number_op.
  - unfold accept_cancel. number_op.
  - unfold reject_cancel. number_op.
  - unfold accept_cancel_locally. number_op.
  - destruct (send_feedback e w h pdu) as [[e1 w1] ok] eqn:Hs. intros [= <- <- <-].
    by eapply send_feedback_number.
  - destruct (complete e w h st pdu) as [[e1 w1] r] eqn:Hs. intros [= <- <- <-].
    by eapply complete_number.
  - destruct (complete_locally e h st pdu) as [e1 r] eqn:Hs. intros [= <- <- <-].
    by eapply complete_locally_number.
  - unfold discard_pending_goal. number_op.
  - intros [= <- <- <-]. by left.
  - intros [= <- <- <-]. by right.
Qed.

Lemma poll_packet_routing e w pk e' w' ev :
  poll_packet e w pk = (e', w', ev) ->
  ep_slot_routing e' = ep_slot_routing e /\ ep_initialized e' = ep_initialized e.
Proof.
  unfold poll_packet, handle_cancel_packet, handle_goal_packet.
  by repeat (split_guard; try (intros [= <- <- <-]; simplify_eq; done)).
Qed.

Lemma run_call_routing e w c e' w' l :
  ep_initialized e = true -> run_call e w c = (e', w', l) ->
  ep_slot_routing e' = ep_slot_routing e /\ ep_initialized e' = true.
Proof.
  intros Hi. destruct c; cbn [run_call].
  - unfold initialize. rewrite Hi. repeat (split_guard; try done); by intros [= <- <- <-].
  - intros [= <- <- <-]. destruct (deliver_frame key data e) as [? ->]. done.
  - unfold poll. rewrite Hi. repeat (split_guard; try done); intros [= <- <- <-]; try done.
    match goal with H : poll_packet _ _ _ = _ |- _ => apply poll_packet_routing in H as [-> ->] end.
    done.
  - intros [= <- <- <-]. by destruct (ep_pending_packets e).
  - rewrite Hi. destruct (poll_packet e w packet) as [[e1 w1] ev] eqn:Hp. intros [= <- <- <-].
    apply poll_packet_routing in Hp as [-> ->]. done.
  - unfold accept_goal. by repeat (split_guard; try done); intros [= <- <- <-].
  - unfold reject_goal. by repeat (split_guard; try done); intros [= <- <- <-].
  - unfold accept_cancel. by repeat (split_guard; try done); intros [= <- <- <-].
  - unfold reject_cancel. by repeat (split_guard; try done); intros [= <- <- <-].
  - unfold accept_cancel_locally. by repeat (split_guard; try done); intros [= <- <- <-].
  - unfold send_feedback. by repeat (split_guard; try done); intros [= <- <- <-].
  - unfold complete. by repeat (split_guard; try done); intros [= <- <- <-].
  - unfold complete_locally. by repeat (split_guard; try done); intros [= <- <- <-].
  - unfold discard_pending_goal. by repeat (split_guard; try done); intros [= <- <- <-].
  - by intros [= <- <- <-].
  - by intros [= <- <- <-].
Qed.

Lemma run_calls_routing calls e w e' w' tr :
  ep_initialized e = true -> run_calls e w calls = (e', w', tr) ->
  ep_slot_routing e' = ep_slot_routing e.
Proof.
  revert e w e' w' tr. induction calls as [|c calls IH]; intros e w e' w' tr Hi; cbn.
  { by intros [= <- <- <-]. }
  destruct (run_call e w c) as [[e1 w1] l] eqn:Hc.
  destruct (run_calls e1 w1 calls) as [[e2 w2] tr2] eqn:Hr. intros [= <- <- <-].
  apply run_call_routing in Hc as [<- Hi1]; [|done]. by eapply IH.
Qed.

Lemma run_call_silent e w c e' w' l :
  ep_initialized e = false -> run_call e w c = (e', w', l) -> w' = w.
Proof.
  intros Hi. assert (Hf : forall h, find_binding e h = None)
    by (intros h; unfold find_binding; rewrite Hi; by destruct (negb _)).
  destruct c; cbn [run_call]; unfold poll, accept_goal, reject_goal, accept_cancel, reject_cancel,
    send_feedback, complete; rewrite ?Hi, ?Hf; cbn; repeat (split_guard; try done);
    by intros [= <- <- <-].
Qed.

Lemma response_not_feedback e rec g :
  ep_routed e -> on_response e rec -> feedback_numbers (ep_slot_routing e) g [rec] = [].
Proof.
  intros Hr (r & Hin & Hk). unfold feedback_numbers. cbn. unfold feedback_of.
  replace (existsb _ _) with false; [by rewrite andb_false_r|]. symmetry.
  apply not_true_iff_false. rewrite existsb_exists. intros (r' & Hin' & Heq).
  apply bool_decide_eq_true in Heq. apply list_elem_of_In in Hin'.
  apply (response_key_not_feedback e r r'); [done|done|done|congruence].
Qed.

Lemma feedback_numbers_app rs g w w' :
  feedback_numbers rs g (w ++ w') = feedback_numbers rs g w ++ feedback_numbers rs g w'.
Proof. apply omap_app. Qed.

Lemma responses_no_feedback e w w' g :
  ep_routed e -> sends_responses e w w' ->
  feedback_numbers (ep_slot_routing e) g (drop (length w) w') = [].
Proof.
  intros Hr (recs & -> & Hf). rewrite drop_app_length.
  induction Hf as [|rec recs Hrec _ IH]; [done|].
  change (rec :: recs) with ([rec] ++ recs).
  by rewrite feedback_numbers_app, response_not_feedback, IH.
Qed.

(** The numbers of goal [g] a call delivers. *)
Definition call_numbers (g : GoalId) (l : label) (o : option Z) : list Z :=
  match l with
  | LFeedback g' true => if bool_decide (g' = g) then option_list o else []
  | _ => []
  end.

Lemma send_feedback_numbers e w h d e' w' ok g :
  ep_routed e -> send_feedback e w h d = (e', w', ok) ->
  feedback_numbers (ep_slot_routing e) g (drop (length w) w')
  = call_numbers g (LFeedback (sgh_goal_id h) ok) (next_number e g).
Proof.
  intros Hr Hs. destruct ok.
  - apply send_feedback_wire in Hs as (b & r & data & Hb & Hl & -> & _ & Hd & _).
    rewrite drop_app_length. unfold feedback_numbers, feedback_of. cbn.
    replace (existsb _ _) with true.
    + rewrite Hd. cbn. unfold next_number. case_bool_decide as Hg; [|done].
      subst g. by rewrite Hb.
    + symmetry. apply existsb_exists. exists r. split; [|by apply bool_decide_eq_true].
      apply list_elem_of_In. by eapply list_elem_of_lookup_2.
  - destruct (run_reply_outcome (ReplyFeedback d) e w h e' w' false Hs) as [Ho _]. cbn.
    destruct Ho as [->|(rec & -> & Hf)]; [by rewrite drop_all|].
    rewrite drop_app_length. unfold feedback_numbers, feedback_of. cbn. by rewrite Hf.
Qed.

Lemma run_call_numbers e w c e' w' l g :
  ep_routed e -> run_call e w c = (e', w', l) ->
  feedback_numbers (ep_slot_routing e) g (drop (length w) w') = call_numbers g l (next_number e g).
Proof.
  intros Hr Hc. destruct (is_feedback c) eqn:Hf.
  - destruct c; try done. cbn in Hc. destruct (send_feedback e w h pdu) as [[e1 w1] ok] eqn:Hs.
    injection Hc as <- <- <-. by eapply send_feedback_numbers.
  - rewrite (responses_no_feedback e w w' g Hr); [|by eapply run_call_keys].
    destruct c; cbn in Hc; try done; repeat (split_guard_in Hc; try done); by injection Hc as _ _ <-.
Qed.

(** Number and label agree after a call. *)
Lemma number_step_numbered g n l out tr o o' :
  number_step g l o o' -> o = Some n \/ o = None ->
  exists n', (o' = Some n' \/ o' = None)
    /\ numbered g n ((l, out) :: tr) = call_numbers g l o ++ numbered g n' tr.
Proof.
  intros Hs Ho. destruct l as [|ev| | | | | |g' [] | | | | ]; cbn in *;
    try (exists n; split; [destruct Hs as [-> | ->]; auto|done]).
  - destruct (requests_goal g ev); [exists 0%Z; auto|]. exists n. naive_solver.
  - revert Hs. case_bool_decide; [|intros ->; exists n; auto].
    intros (n0 & -> & ->). exists (u32_succ n). naive_solver.
Qed.

Lemma run_calls_numbered calls e w e' w' tr g n :
  trace_inv e w -> next_number e g = Some n \/ next_number e g = None ->
  run_calls e w calls = (e', w', tr) ->
  exists recs, w' = w ++ recs /\ feedback_numbers (ep_slot_routing e') g recs = numbered g n tr.
Proof.
  revert e w e' w' tr n. induction calls as [|c calls IH]; intros e w e' w' tr n Ht Hn; cbn [run_calls].
  { intros [= <- <- <-]. exists []. by rewrite app_nil_r. }
  destruct (run_call e w c) as [[e1 w1] l] eqn:Hc.
  destruct (run_calls e1 w1 calls) as [[e2 w2] tr2] eqn:Hr. intros [= <- <- <-].
  pose proof (run_call_number _ _ _ _ _ _ g (ti_wf _ _ Ht) Hc) as Hs.
  pose proof (run_call_numbers _ _ _ _ _ _ g (ti_routed _ _ Ht) Hc) as Hcall.
  destruct (number_step_numbered g n l (responses (ep_slot_routing e1) (drop (length w) w1)) tr2
    _ _ Hs Hn) as (n' & Hn' & ->).
  destruct (run_call_grows _ _ _ _ _ _ Hc) as (recs1 & Hw1).
  destruct (IH e1 w1 e2 w2 tr2 n' (run_call_inv _ _ _ _ _ _ Ht Hc) Hn' Hr) as (recs2 & -> & Hf2).
  exists (recs1 ++ recs2). rewrite Hw1, <-app_assoc. split; [done|].
  rewrite feedback_numbers_app, Hf2. f_equal.
  rewrite Hw1, drop_app_length in Hcall. rewrite <-Hcall.
  destruct (ep_initialized e) eqn:Hi.
  - destruct (run_call_routing _ _ _ _ _ _ Hi Hc) as [Hr1 Hi1].
    by rewrite (run_calls_routing _ _ _ _ _ _ Hi1 Hr), Hr1.
  - pose proof (run_call_silent _ _ _ _ _ _ Hi Hc) as Hsil. rewrite Hw1 in Hsil.
    assert (recs1 = []) as -> by (apply (app_inv_head w); by rewrite app_nil_r). done.
Qed.
End Refinement.
Import ConcretePdu ServerEpProps.Demo.

(** ** Properties *)

(** C2 — The endpoint refines the packet protocol: whatever is called in whatever
    order, and however the two critical sections of [poll] are spread over it,
    the sequence of results and delivered responses is a run of [protocol] that
    starts without goals and ends in the goals the endpoint knows. A goal is
    requested only while unknown; accepting it and rejecting it succeed only
    while it awaits the decision and deliver exactly that decision; a cancel
    request is raised only while the goal is accepted and none is pending, and is
    answered once; feedback is sent only for an accepted goal; a Result only with
    a status the phase allows, once, after which the goal is gone; a failed call
    delivers nothing and changes nothing. *)
Theorem server_refines_protocol {P : PduPlatform} {HL : PduPlatformLaws P} {T : Transport}
    n a b calls e w tr :
  run_calls (new_server_endpoint n a b) [] calls = (e, w, tr) ->
  protocol_run ∅ tr (view_of e).
Proof.
  intros Hr. apply run_calls_protocol in Hr; [|apply new_trace_inv].
  unfold view_of in Hr at 1. cbn in Hr. by rewrite fmap_empty in Hr.
Qed.

(** Goal 1 is requested, accepted twice, asked to cancel, and completed. *)
Definition demo_calls : list ep_call :=
  [ CallInitialize (render_definition sample_definition);
    CallDeliver (mkPduResolvedKey "fib" 0) (request_packet 1 goal_1); CallPoll;
    CallAcceptGoal handle_1; CallAcceptGoal handle_1;
    CallFeedback handle_1 feedback_packet;
    CallDeliver (mkPduResolvedKey "fib" 0) (request_packet 2 goal_1); CallPoll;
    CallRejectCancel handle_1; CallFeedback handle_1 [];
    CallFeedback handle_1 feedback_packet;
    CallComplete handle_1 TerminalStatus_SUCCEEDED result_packet ].

Lemma server_refines_protocol_witness :
  let r := run_calls fresh [] demo_calls in
  concat (snd <$> r.2) = [goal_response Decision_ACCEPTED goal_1;
    cancel_response Decision_REJECTED goal_1; result_response TerminalStatus_SUCCEEDED goal_1]
  /\ protocol_run ∅ r.2 (view_of r.1.1).
Proof.
  split; [by vm_compute|].
  apply (server_refines_protocol "fib" true true demo_calls _ _ _ (triple_eta _)).
Defined.

(** C28 — Completion has three outcomes. NOT_COMMITTED changes nothing. SENT means
    exactly one Result packet with that status was delivered on the slot's
    response channel, the goal is forgotten and its slot is free. After
    SEND_FAILED_AFTER_COMMIT nothing was delivered, the goal still owns its
    slot, every further operation on it is refused and changes nothing
    (completions, decisions and feedback, also the local ones of the mux server
    and discarding), and whatever is called in between it stays committed until
    the endpoint is reset. *)
Theorem completion_outcomes {P : PduPlatform} {HL : PduPlatformLaws P} {T : Transport}
    n a b e w h st d e' w' r :
  rtc ep_step (new_server_endpoint n a b, []) (e, w) ->
  complete e w h st d = (e', w', r) ->
  match r with
  | CompleteResult_NOT_COMMITTED => e' = e /\ w' = w
  | CompleteResult_SENT =>
      exists x routing data,
        ep_packet_bindings e !! sgh_goal_id h = Some x
        /\ ep_slot_routing e !! pb_slot_index x = Some routing
        /\ w' = w ++ [mkSendRecord (rt_response routing) data true]
        /\ receivable data (rt_response_packet_base_size routing)
             (rt_response_heap_capacity routing) sizeof_ActionResponseHeader
        /\ pdu2cpp_ActionResponseHeader data
           = Some (mkActionResponseHeader ACTION_PROTOCOL_VERSION RESPONSE_KIND_RESULT
                     (TerminalStatus_to_u8 st) 0 (sgh_goal_id h))
        /\ ep_packet_bindings e' = delete (sgh_goal_id h) (ep_packet_bindings e)
        /\ ep_slot_owners e' = <[pb_slot_index x := None]> (ep_slot_owners e)
  | CompleteResult_SEND_FAILED_AFTER_COMMIT =>
      (w' = w \/ sent_one w w' false)
      /\ ep_slot_owners e' = ep_slot_owners e
      /\ view_of e' = <[sgh_goal_id h := (Committed, false)]> (view_of e)
      /\ (forall w1 st1 d1, complete e' w1 h st1 d1 = (e', w1, CompleteResult_NOT_COMMITTED))
      /\ (forall w1 op, run_reply op e' w1 h = (e', w1, false))
      /\ accept_cancel_locally e' h = (e', false)
      /\ (forall st1 d1, complete_locally e' h st1 d1 = (e', false))
      /\ discard_pending_goal e' h = (e', false)
      /\ (forall calls e2 w2 tr, run_calls e' w' calls = (e2, w2, tr) ->
            Forall (fun c => is_reset c = false) calls ->
            view_of e2 !! sgh_goal_id h = Some (Committed, false))
  end.
Proof.
  intros Hti%reachable_trace_inv Hc. pose proof (ti_wf _ _ Hti) as Hwf.
  pose proof (complete_spec _ _ _ _ _ _ _ _ Hwf Hc) as [_ Hv].
  assert (Hti' : trace_inv e' w')
    by (eapply (run_call_inv _ _ (CallComplete h st d)); [exact Hti|cbn; by rewrite Hc]).
  revert Hc. unfold complete at 1.
  destruct (find_binding e h) as [x|] eqn:Hf; [|by intros [= <- <- <-]].
  apply find_binding_Some in Hf as (Hh & Hi & Hx). destruct (wf_owner e Hwf _ _ Hx) as [Hg Ho].
  destruct (validate_terminal_packet_locked e x st d) eqn:Hvt; [|by intros [= <- <- <-]].
  set (c := set_pb_cancel_decision_pending false (set_pb_state RESULT_COMMITTED x)).
  destruct (send_response_packet _ _ c _ _ _) as [w1 []] eqn:Hs; intros [= <- <- <-].
  - apply send_response_packet_wire in Hs as (routing & data & Hr & -> & Hrec & Hd).
    cbn in Hr, Hd. rewrite Hg in Hd. exists x, routing, data. split_and!; try done.
    + cbn. by rewrite delete_insert_eq.
    + cbn. by rewrite bool_decide_eq_true_2.
  - apply send_response_packet_outcome in Hs. destruct Hv as [_ Hv].
    split_and!; [done|done|done|..].
    + intros w2 st1 d1. by apply committed_refuses_complete.
    + intros w2 op. by apply committed_refuses_reply.
    + by apply (committed_refuses_locally e h c st d).
    + intros st1 d1. by apply committed_refuses_locally.
    + by apply (committed_refuses_locally e h c st d).
    + intros calls e2 w2 tr Hr Hn. eapply run_calls_committed; [exact Hti'|exact Hr|done|].
      rewrite Hv. apply lookup_insert_eq.
Qed.

Lemma completion_outcomes_witness :
  (complete accepted accepted_wire handle_1 TerminalStatus_SUCCEEDED result_packet).2
    = CompleteResult_SENT
  /\ exists x, ep_slot_owners
       (complete accepted accepted_wire handle_1 TerminalStatus_SUCCEEDED result_packet).1.1
     = <[pb_slot_index x := None]> (ep_slot_owners accepted).
Proof.
  split; [by vm_compute|].
  pose proof (completion_outcomes _ _ _ _ _ handle_1 TerminalStatus_SUCCEEDED result_packet _ _ _
    accepted_reachable (triple_eta _)) as H.
  destruct (complete _ _ _ _ _).2 eqn:E in H; [vm_compute in E; discriminate| |
    vm_compute in E; discriminate].
  destruct H as (x & _ & _ & _ & _ & _ & _ & _ & _ & H). by exists x.
Defined.

(** C34 — Feedback is numbered without gaps: over any run of the endpoint, the
    feedback packets delivered for a goal carry the numbers 0, 1, 2, ... modulo
    2^32, counted from the goal's last request, one for each successful
    [send_feedback], whatever else is called in between; failed attempts use no
    number. *)
Theorem feedback_sequence_numbers {P : PduPlatform} {HL : PduPlatformLaws P} {T : Transport}
    n a b calls e w tr g :
  run_calls (new_server_endpoint n a b) [] calls = (e, w, tr) ->
  feedback_numbers (ep_slot_routing e) g w = numbered g 0 tr.
Proof.
  intros Hr. apply run_calls_numbered with (g := g) (n := 0%Z) in Hr as (recs & -> & Hn);
    [done|apply new_trace_inv|by right].
Qed.

Lemma feedback_sequence_numbers_witness :
  let r := run_calls fresh [] demo_calls in
  feedback_numbers (ep_slot_routing r.1.1) goal_1 r.1.2 = [0; 1]%Z.
Proof.
  intros r. unfold r. rewrite (feedback_sequence_numbers "fib" true true demo_calls _ _ _ goal_1
    (triple_eta _)). by vm_compute.
Defined.
End ServerEpRuns.
