(* ===== verification/ClientEndpoint.v ===== *)
(** * Client packet endpoint

    [ActionClientEndpointImpl] of src/action_client_endpoint_impl.{hpp,cpp}: the
    client's slots, the goals it is waiting for, the packets it sends and the
    events it raises. The clock reading an operation takes is an argument.

    [send_goal] and [send_cancel] release the mutex around the transport call:
    the critical sections ([reserve_goal], [rollback_goal], [commit_cancel],
    [rollback_cancel]) are definitions of their own, so that other operations
    can come in between, and the public operations are their composition. *)

From S2P Require Import Prelude ActionTypes ActionConfiguration PduPacket Routing.
From Stdlib Require Import ZArith Lia.
From stdpp Require Import base gmap strings list sorting fin_maps relations.

Module ClientEp.
Import ActionConfig RoutingTable.

(** ** State *)

Inductive BindingState :=
  | AWAITING_GOAL_RESPONSE
  | GOAL_RESPONSE_TIMED_OUT
  | ACCEPTED
  | AWAITING_CANCEL_RESPONSE
  | CANCELING.

#[export] Instance BindingState_eq_dec : EqDecision BindingState.
Proof. solve_decision. Defined.

Record ClientPacketBinding := mkClientPacketBinding {
  cb_goal_id : GoalId;
  cb_slot_index : nat;
  cb_state : BindingState;
  cb_sent_at_usec : Z;
  cb_timeout_usec : Z;
  cb_next_feedback_sequence : Z;
}.

Definition set_cb_state (s : BindingState) (b : ClientPacketBinding) :=
  mkClientPacketBinding (cb_goal_id b) (cb_slot_index b) s (cb_sent_at_usec b)
    (cb_timeout_usec b) (cb_next_feedback_sequence b).

Definition set_cb_next_feedback_sequence (n : Z) (b : ClientPacketBinding) :=
  mkClientPacketBinding (cb_goal_id b) (cb_slot_index b) (cb_state b) (cb_sent_at_usec b)
    (cb_timeout_usec b) n.

Inductive PendingPacketKind :=
  | PendingPacketKind_RESPONSE
  | PendingPacketKind_FEEDBACK.

#[export] Instance PendingPacketKind_eq_dec : EqDecision PendingPacketKind.
Proof. solve_decision. Defined.

Record PendingPacket := mkPendingPacket {
  pp_slot_index : nat;
  pp_kind : PendingPacketKind;
  pp_pdu : PduData;
}.

Record ClientEndpoint := mkClientEndpoint {
  cl_action_name : string;
  cl_has_endpoint : bool;
  cl_has_time_source : bool;
  cl_pending_packets : list PendingPacket;
  cl_slot_routing : list SlotRouting;
  cl_slot_owners : list (option GoalId);
  cl_packet_bindings : gmap GoalId ClientPacketBinding;
  cl_action_definition : option ActionDefinition;
  cl_initialized : bool;
}.

Definition new_client_endpoint (action_name : string) (has_endpoint has_time_source : bool)
    : ClientEndpoint :=
  mkClientEndpoint action_name has_endpoint has_time_source [] [] [] ∅ None false.

Definition set_packets (packets : list PendingPacket) (c : ClientEndpoint) : ClientEndpoint :=
  mkClientEndpoint (cl_action_name c) (cl_has_endpoint c) (cl_has_time_source c) packets
    (cl_slot_routing c) (cl_slot_owners c) (cl_packet_bindings c) (cl_action_definition c)
    (cl_initialized c).

Definition set_goals (owners : list (option GoalId))
    (bindings : gmap GoalId ClientPacketBinding) (c : ClientEndpoint) : ClientEndpoint :=
  mkClientEndpoint (cl_action_name c) (cl_has_endpoint c) (cl_has_time_source c)
    (cl_pending_packets c) (cl_slot_routing c) owners bindings (cl_action_definition c)
    (cl_initialized c).

Definition put_binding (k : GoalId) (b : ClientPacketBinding) (c : ClientEndpoint)
    : ClientEndpoint :=
  set_goals (cl_slot_owners c) (<[k := b]> (cl_packet_bindings c)) c.

(** ** The order of [std::map<GoalId, ...>]

    [std::array] compares lexicographically; iteration follows that order. *)

Fixpoint goal_id_leb (a b : GoalId) : bool :=
  match a, b with
  | [], _ => true
  | _ :: _, [] => false
  | x :: a', y :: b' => (x <? y)%Z || ((x =? y)%Z && goal_id_leb a' b')
  end.

Definition entry_le (x y : GoalId * ClientPacketBinding) : Prop :=
  goal_id_leb x.1 y.1 = true.

#[export] Instance entry_le_dec x y : Decision (entry_le x y).
Proof. unfold entry_le. apply _. Defined.

Definition in_map_order (m : gmap GoalId ClientPacketBinding)
    : list (GoalId * ClientPacketBinding) :=
  merge_sort entry_le (map_to_list m).

Section Operations.
Context {P : PduPlatform} {T : Transport}.

(** ** Packets *)

Definition client_aligned_size (size : Z) : Z :=
  Z.land (u64 (size + HAKO_ALIGNMENT_SIZE - 1)) (u64 (Z.lnot (HAKO_ALIGNMENT_SIZE - 1))).

Definition client_supported_packet_capacity (base_size heap_capacity : Z) : bool :=
  let maximum := INT_MAX in
  if (maximum <? base_size)%Z || (maximum <? heap_capacity)%Z then false
  else
    let fixed_size := u64 (HAKO_PDU_META_DATA_SIZE + client_aligned_size base_size) in
    (fixed_size <=? maximum)%Z
    && (client_aligned_size heap_capacity <=? u64 (maximum - fixed_size))%Z.

Definition valid_packet_prefix (packet : PduData) (base_size : Z) : bool :=
  if (pdu_size packet <? sizeof_HakoPduMetaDataType)%Z then false
  else
    let metadata := memcpy_metadata packet in
    negb (HAKO_PDU_METADATA_IS_INVALID metadata)
    && (md_base_off metadata =? HAKO_PDU_META_DATA_SIZE)%Z
    && (md_base_off metadata <=? pdu_size packet)%Z
    && (base_size <=? pdu_size packet - md_base_off metadata)%Z
    && (md_base_off metadata + base_size <=? md_heap_off metadata)%Z
    && (md_heap_off metadata <=? md_total_size metadata)%Z
    && (md_total_size metadata <=? pdu_size packet)%Z.

Definition client_create_packet_buffer (base_size heap_capacity : Z) : option PduData :=
  if (base_size =? 0)%Z || negb (client_supported_packet_capacity base_size heap_capacity)
  then None
  else hako_create_empty_pdu base_size heap_capacity.

(** The prefix test makes the subtraction of the two [uint32_t] members
    exact. *)
Definition client_validate_packet_capacity (packet : PduData)
    (base_size heap_capacity : Z) (require_exact_buffer_size : bool) : option Z :=
  if negb (valid_packet_prefix packet 0)
     || negb (client_supported_packet_capacity base_size heap_capacity) then None
  else
    let metadata := memcpy_metadata packet in
    let aligned_heap_capacity := client_aligned_size heap_capacity in
    if (pdu_size packet <? md_total_size metadata)%Z
       || (require_exact_buffer_size && negb (md_total_size metadata =? pdu_size packet)%Z)
       || (aligned_heap_capacity <? md_total_size metadata - md_heap_off metadata)%Z
    then None
    else Some (md_total_size metadata).

Definition write_request_header (packet : PduData) (goal_id : GoalId) (request_kind : Z)
    : option PduData :=
  if negb (valid_packet_prefix packet sizeof_ActionRequestHeader) then None
  else
    let header := mkActionRequestHeader ACTION_PROTOCOL_VERSION request_kind
                    [0; 0]%Z goal_id in
    cpp2pdu_ActionRequestHeader header packet.

Definition create_control_request_packet (c : ClientEndpoint) : option PduData :=
  match cl_slot_routing c with
  | [] => None
  | routing :: _ => client_create_packet_buffer (rt_request_packet_base_size routing) 0
  end.

Definition decode_response_header (packet : PduData) : option ActionResponseHeader :=
  if negb (valid_packet_prefix packet sizeof_ActionResponseHeader) then None
  else pdu2cpp_ActionResponseHeader packet.

Definition decode_feedback_header (packet : PduData) : option ActionFeedbackHeader :=
  if negb (valid_packet_prefix packet sizeof_ActionFeedbackHeader) then None
  else pdu2cpp_ActionFeedbackHeader packet.

(** ** Initialisation *)

(** The assignments through [slot] and [base_size]. *)
Definition set_channel (kind : ActionChannelKind) (key : PduResolvedKey) (type : string)
    (size : Z) (r : SlotRouting) : SlotRouting :=
  match kind with
  | ActionChannelKind_REQUEST =>
      mkSlotRouting (rt_slot_index r) key (rt_response r) (rt_feedback r) type
        (rt_response_packet_type r) (rt_feedback_packet_type r) size
        (rt_response_packet_base_size r) (rt_feedback_packet_base_size r)
        (rt_request_heap_capacity r) (rt_response_heap_capacity r)
        (rt_feedback_heap_capacity r)
  | ActionChannelKind_RESPONSE =>
      mkSlotRouting (rt_slot_index r) (rt_request r) key (rt_feedback r)
        (rt_request_packet_type r) type (rt_feedback_packet_type r)
        (rt_request_packet_base_size r) size (rt_feedback_packet_base_size r)
        (rt_request_heap_capacity r) (rt_response_heap_capacity r)
        (rt_feedback_heap_capacity r)
  | ActionChannelKind_FEEDBACK =>
      mkSlotRouting (rt_slot_index r) (rt_request r) (rt_response r) key
        (rt_request_packet_type r) (rt_response_packet_type r) type
        (rt_request_packet_base_size r) (rt_response_packet_base_size r) size
        (rt_request_heap_capacity r) (rt_response_heap_capacity r)
        (rt_feedback_heap_capacity r)
  end.

(** What the [switch] selects: heap capacity, minimum header and mask bit. *)
Definition channel_parameters (kind : ActionChannelKind) (r : SlotRouting) : Z * Z * Z :=
  match kind with
  | ActionChannelKind_REQUEST =>
      (rt_request_heap_capacity r, sizeof_ActionRequestHeader, 1%Z)
  | ActionChannelKind_RESPONSE =>
      (rt_response_heap_capacity r, sizeof_ActionResponseHeader, 2%Z)
  | ActionChannelKind_FEEDBACK =>
      (rt_feedback_heap_capacity r, sizeof_ActionFeedbackHeader, 4%Z)
  end.

Definition client_route_channel (action_name : string)
    (acc : list SlotRouting * list Z * list Z) (channel : ActionChannelDefinition)
    : option (list SlotRouting * list Z * list Z) :=
  let '(routing, masks, channel_ids) := acc in
  let slot := acd_slot_index channel in
  match routing !! slot, masks !! slot with
  | Some r, Some mask =>
      if bool_decide (acd_channel_id channel ∈ channel_ids) then None
      else
        let key := mkPduResolvedKey action_name (to_channel_id (acd_channel_id channel)) in
        let '(heap_capacity, minimum_header, bit) :=
          channel_parameters (acd_kind channel) r in
        match hako_pdu_get_size (acd_packet_type channel) with
        | None => None
        | Some base_size =>
            if (base_size <? minimum_header)%Z
               || negb (client_supported_packet_capacity base_size heap_capacity) then None
            else
              Some (<[slot := set_channel (acd_kind channel) key
                                (acd_packet_type channel) base_size r]> routing,
                    <[slot := Z.lor mask bit]> masks,
                    acd_channel_id channel :: channel_ids)
        end
  | _, _ => None
  end.

Fixpoint client_route_channels (action_name : string)
    (acc : list SlotRouting * list Z * list Z) (channels : list ActionChannelDefinition)
    : option (list SlotRouting * list Z * list Z) :=
  match channels with
  | [] => Some acc
  | channel :: rest =>
      match client_route_channel action_name acc channel with
      | None => None
      | Some acc' => client_route_channels action_name acc' rest
      end
  end.

Definition client_build_routing (action_name : string) (definition : ActionDefinition)
    : option (list SlotRouting) :=
  let n := Z.to_nat (ad_slot_count definition) in
  let routing := initial_routing (ad_buffer_heap definition) <$> seq 0 n in
  match client_route_channels action_name (routing, replicate n 0%Z, [])
          (ad_channels definition) with
  | None => None
  | Some (routing', masks, _) =>
      if existsb (fun mask => negb (mask =? 7)%Z) masks then None else Some routing'
  end.

Definition initialize (c : ClientEndpoint) (action_config : json) : ClientEndpoint * bool :=
  match parse_action action_config with
  | inr _ => (c, false)
  | inl definition =>
      if negb (bool_decide (ad_name definition = cl_action_name c))
         || negb (cl_has_endpoint c) || negb (cl_has_time_source c) then (c, false)
      else
        match client_build_routing (cl_action_name c) definition with
        | None => (c, false)
        | Some routing =>
            if cl_initialized c then (c, false)
            else
              (mkClientEndpoint (cl_action_name c) (cl_has_endpoint c)
                 (cl_has_time_source c) (cl_pending_packets c) routing
                 (resize (length routing) None (cl_slot_owners c))
                 (cl_packet_bindings c) (Some definition) true, true)
        end
  end.

(** The two callbacks subscribed for a slot. *)
Definition on_recv (slot_index : nat) (kind : PendingPacketKind) (data : PduData)
    (c : ClientEndpoint) : ClientEndpoint :=
  set_packets (cl_pending_packets c ++ [mkPendingPacket slot_index kind data]) c.

Definition deliver (key : PduResolvedKey) (data : PduData) (c : ClientEndpoint)
    : ClientEndpoint :=
  if negb (cl_initialized c) then c
  else
    foldl (fun c' routing =>
             let c1 := if bool_decide (rt_response routing = key)
                       then on_recv (rt_slot_index routing) PendingPacketKind_RESPONSE data c'
                       else c' in
             if bool_decide (rt_feedback routing = key)
             then on_recv (rt_slot_index routing) PendingPacketKind_FEEDBACK data c1
             else c1)
      c (cl_slot_routing c).

Definition create_goal_buffer (c : ClientEndpoint) : option PduData :=
  if negb (cl_initialized c) then None
  else
    match cl_slot_routing c with
    | [] => None
    | routing :: _ =>
        client_create_packet_buffer (rt_request_packet_base_size routing)
          (rt_request_heap_capacity routing)
    end.

(** ** Sending a goal *)

Definition release_binding_locked (c : ClientEndpoint) (k : GoalId)
    (b : ClientPacketBinding) : ClientEndpoint :=
  let owners :=
    if decide (cb_slot_index b < length (cl_slot_owners c))
    then <[cb_slot_index b := None]> (cl_slot_owners c)
    else cl_slot_owners c in
  set_goals owners (delete k (cl_packet_bindings c)) c.

(** The first critical section: an error, or the reserved slot. *)
Definition reserve_goal (c : ClientEndpoint) (goal_id : GoalId) (timeout_usec now : Z)
    : ClientEndpoint * (GoalSendResult + nat) :=
  if negb (is_valid_goal_id goal_id) then (c, inl GoalSendResult_INVALID_ARGUMENT)
  else if negb (cl_initialized c) then (c, inl GoalSendResult_NOT_INITIALIZED)
  else if bool_decide (is_Some (cl_packet_bindings c !! goal_id)) then
    (c, inl GoalSendResult_DUPLICATE_GOAL)
  else
    match list_find (fun owner => owner = None) (cl_slot_owners c) with
    | None => (c, inl GoalSendResult_NO_FREE_SLOT)
    | Some (slot_index, _) =>
        (set_goals (<[slot_index := Some goal_id]> (cl_slot_owners c))
           (<[goal_id := mkClientPacketBinding goal_id slot_index AWAITING_GOAL_RESPONSE
                           now timeout_usec 0]> (cl_packet_bindings c)) c,
         inr slot_index)
    end.

(** Outside the mutex: check the packet, write its header, send it. *)
Definition transmit_request (c : ClientEndpoint) (w : Wire) (slot_index : nat)
    (goal_id : GoalId) (request_kind : Z) (packet : PduData) : Wire * GoalSendResult :=
  match cl_slot_routing c !! slot_index with
  | None =>
      (* [slot_routing_[slot_index]]: slots and routing have one length. *)
      (w, GoalSendResult_INVALID_PACKET)
  | Some routing =>
      match client_validate_packet_capacity packet (rt_request_packet_base_size routing)
              (rt_request_heap_capacity routing) false with
      | None => (w, GoalSendResult_INVALID_PACKET)
      | Some wire_size =>
          match write_request_header packet goal_id request_kind with
          | None => (w, GoalSendResult_INVALID_PACKET)
          | Some packet' =>
              let '(w', sent) :=
                endpoint_send w (rt_request routing) (span_prefix packet' wire_size) in
              (w', if sent then GoalSendResult_SUCCESS else GoalSendResult_TRANSPORT_ERROR)
          end
      end
  end.

Definition rollback_goal (c : ClientEndpoint) (goal_id : GoalId) : ClientEndpoint :=
  match cl_packet_bindings c !! goal_id with
  | None => c
  | Some binding => release_binding_locked c goal_id binding
  end.

Definition send_goal_with_result (c : ClientEndpoint) (w : Wire) (goal_pdu : PduData)
    (goal_id : GoalId) (timeout_usec now : Z)
    : ClientEndpoint * Wire * (GoalSendResult * ClientGoalHandle) :=
  let no_handle := mkClientGoalHandle zero_goal_id in
  match reserve_goal c goal_id timeout_usec now with
  | (c', inl error) => (c', w, (error, no_handle))
  | (c', inr slot_index) =>
      match transmit_request c' w slot_index goal_id REQUEST_KIND_GOAL goal_pdu with
      | (w', GoalSendResult_SUCCESS) =>
          (c', w', (GoalSendResult_SUCCESS, mkClientGoalHandle goal_id))
      | (w', error) => (rollback_goal c' goal_id, w', (error, no_handle))
      end
  end.

Definition send_goal (c : ClientEndpoint) (w : Wire) (goal_pdu : PduData)
    (goal_id : GoalId) (timeout_usec now : Z)
    : ClientEndpoint * Wire * (bool * ClientGoalHandle) :=
  let '(c', w', (result, handle)) :=
    send_goal_with_result c w goal_pdu goal_id timeout_usec now in
  (c', w', (bool_decide (result = GoalSendResult_SUCCESS), handle)).

(** ** Sending a cancel request *)

Definition commit_cancel (c : ClientEndpoint) (goal : ClientGoalHandle)
    : option (ClientEndpoint * ClientPacketBinding) :=
  if negb (ClientGoalHandle_valid goal) then None
  else if negb (cl_initialized c) then None
  else
    match cl_packet_bindings c !! cgh_goal_id goal with
    | None => None
    | Some binding =>
        if negb (bool_decide (cb_state binding = ACCEPTED)) then None
        else
          let committed := set_cb_state AWAITING_CANCEL_RESPONSE binding in
          Some (put_binding (cgh_goal_id goal) committed c, committed)
    end.

Definition rollback_cancel (c : ClientEndpoint) (goal : ClientGoalHandle) : ClientEndpoint :=
  match cl_packet_bindings c !! cgh_goal_id goal with
  | None => c
  | Some binding =>
      if bool_decide (cb_state binding = AWAITING_CANCEL_RESPONSE)
      then put_binding (cgh_goal_id goal) (set_cb_state ACCEPTED binding) c
      else c
  end.

(** Both failure exits of the code do the same rollback. *)
Definition send_cancel (c : ClientEndpoint) (w : Wire) (goal : ClientGoalHandle)
    : ClientEndpoint * Wire * bool :=
  match commit_cancel c goal with
  | None => (c, w, false)
  | Some (c', committed_binding) =>
      match create_control_request_packet c' with
      | None => (rollback_cancel c' goal, w, false)
      | Some packet =>
          let '(w', result) :=
            transmit_request c' w (cb_slot_index committed_binding) (cgh_goal_id goal)
              REQUEST_KIND_CANCEL packet in
          if bool_decide (result = GoalSendResult_SUCCESS) then (c', w', true)
          else (rollback_cancel c' goal, w', false)
      end
  end.

(** ** Polling *)

Definition response_event (type : ClientEventType) (c : ClientEndpoint) (g : GoalId)
    (decision : ActionTypes.Decision) (status : TerminalStatus) (sequence : Z) (pdu : PduData)
    : ClientEvent :=
  mkClientEvent type (cl_action_name c) (mkClientGoalHandle g) decision status sequence pdu.

Definition is_decision (status : Z) : bool :=
  (status =? Decision_to_u8 Decision_ACCEPTED)%Z
  || (status =? Decision_to_u8 Decision_REJECTED)%Z.

(** The states in which a Result with this status is taken. *)
Definition result_expected (state : BindingState) (status : Z) : bool :=
  ((bool_decide (state = ACCEPTED) || bool_decide (state = AWAITING_CANCEL_RESPONSE))
   && ((status =? TerminalStatus_to_u8 TerminalStatus_SUCCEEDED)%Z
       || (status =? TerminalStatus_to_u8 TerminalStatus_ABORTED)%Z))
  || (bool_decide (state = CANCELING)
      && ((status =? TerminalStatus_to_u8 TerminalStatus_CANCELED)%Z
          || (status =? TerminalStatus_to_u8 TerminalStatus_ABORTED)%Z)).

(** The three tests on a decoded response whose binding was found on the
    slot it came from; [None] falls through. *)
Definition apply_response (c : ClientEndpoint) (header : ActionResponseHeader)
    (binding : ClientPacketBinding) (pdu : PduData) : option (ClientEndpoint * ClientEvent) :=
  let g := arp_goal_id header in
  let status := arp_status header in
  if (arp_response_kind header =? RESPONSE_KIND_GOAL)%Z
     && bool_decide (cb_state binding = AWAITING_GOAL_RESPONSE) && is_decision status then
    let decision := Decision_of_u8 status in
    let event := response_event ClientEventType_GOAL_RESPONSE c g decision
                   TerminalStatus_UNSPECIFIED 0 pdu in
    Some (if bool_decide (decision = Decision_ACCEPTED)
          then put_binding g (set_cb_state ACCEPTED binding) c
          else release_binding_locked c g binding, event)
  else if (arp_response_kind header =? RESPONSE_KIND_RESULT)%Z
          && result_expected (cb_state binding) status then
    Some (release_binding_locked c g binding,
          response_event ClientEventType_RESULT c g Decision_UNSPECIFIED
            (TerminalStatus_of_u8 status) 0 pdu)
  else if (arp_response_kind header =? RESPONSE_KIND_CANCEL)%Z
          && bool_decide (cb_state binding = AWAITING_CANCEL_RESPONSE)
          && is_decision status then
    let decision := Decision_of_u8 status in
    Some (put_binding g
            (set_cb_state (if bool_decide (decision = Decision_ACCEPTED)
                           then CANCELING else ACCEPTED) binding) c,
          response_event ClientEventType_CANCEL_RESPONSE c g decision
            TerminalStatus_UNSPECIFIED 0 pdu)
  else None.

Definition handle_response (c : ClientEndpoint) (pending : PendingPacket)
    : option (ClientEndpoint * ClientEvent) :=
  match cl_slot_routing c !! pp_slot_index pending with
  | None => None
  | Some routing =>
      match client_validate_packet_capacity (pp_pdu pending)
              (rt_response_packet_base_size routing) (rt_response_heap_capacity routing)
              true with
      | None => None
      | Some _ =>
          match decode_response_header (pp_pdu pending) with
          | None => None
          | Some header =>
              if negb (arp_version header =? ACTION_PROTOCOL_VERSION)%Z
                 || negb (is_valid_goal_id (arp_goal_id header)) then None
              else
                match cl_packet_bindings c !! arp_goal_id header with
                | None => None
                | Some binding =>
                    if bool_decide (cb_slot_index binding = pp_slot_index pending)
                    then apply_response c header binding (pp_pdu pending)
                    else None
                end
          end
      end
  end.

Definition handle_feedback (c : ClientEndpoint) (pending : PendingPacket)
    : option (ClientEndpoint * ClientEvent) :=
  match cl_slot_routing c !! pp_slot_index pending with
  | None => None
  | Some routing =>
      match client_validate_packet_capacity (pp_pdu pending)
              (rt_feedback_packet_base_size routing) (rt_feedback_heap_capacity routing)
              true with
      | None => None
      | Some _ =>
          match decode_feedback_header (pp_pdu pending) with
          | None => None
          | Some header =>
              if negb (afb_version header =? ACTION_PROTOCOL_VERSION)%Z
                 || negb (is_valid_goal_id (afb_goal_id header)) then None
              else
                match cl_packet_bindings c !! afb_goal_id header with
                | None => None
                | Some binding =>
                    if bool_decide (cb_slot_index binding = pp_slot_index pending)
                       && (bool_decide (cb_state binding = ACCEPTED)
                           || bool_decide (cb_state binding = AWAITING_CANCEL_RESPONSE)
                           || bool_decide (cb_state binding = CANCELING)) then
                      if negb (afb_sequence_no header
                               =? cb_next_feedback_sequence binding)%Z
                      then None
                      else
                        Some (put_binding (afb_goal_id header)
                                (set_cb_next_feedback_sequence
                                   (u32_succ (cb_next_feedback_sequence binding)) binding) c,
                              response_event ClientEventType_FEEDBACK c (afb_goal_id header)
                                Decision_UNSPECIFIED TerminalStatus_UNSPECIFIED
                                (afb_sequence_no header) (pp_pdu pending))
                    else None
                end
          end
      end
  end.

Definition expired (now : Z) (binding : ClientPacketBinding) : bool :=
  bool_decide (cb_state binding = AWAITING_GOAL_RESPONSE)
  && negb (cb_timeout_usec binding =? 0)%Z
  && (cb_sent_at_usec binding <=? now)%Z
  && (cb_timeout_usec binding <=? now - cb_sent_at_usec binding)%Z.

(** The loop over the bindings: the first expired one is quarantined. *)
Definition check_timeouts (c : ClientEndpoint) (now : Z) : ClientEndpoint * ClientEvent :=
  if negb (cl_initialized c) then (c, empty_client_event)
  else
    match List.find (fun kv => expired now kv.2) (in_map_order (cl_packet_bindings c)) with
    | None => (c, empty_client_event)
    | Some (goal_id, binding) =>
        (put_binding goal_id (set_cb_state GOAL_RESPONSE_TIMED_OUT binding) c,
         mkClientEvent ClientEventType_TIMEOUT (cl_action_name c)
           (mkClientGoalHandle goal_id) Decision_UNSPECIFIED TerminalStatus_UNSPECIFIED 0 [])
    end.

Definition handle_packet (c : ClientEndpoint) (pending : PendingPacket)
    : option (ClientEndpoint * ClientEvent) :=
  match pp_kind pending with
  | PendingPacketKind_RESPONSE => handle_response c pending
  | PendingPacketKind_FEEDBACK => handle_feedback c pending
  end.

Definition poll (c : ClientEndpoint) (now : Z) : ClientEndpoint * ClientEvent :=
  match cl_pending_packets c with
  | [] => check_timeouts c now
  | pending :: rest =>
      let c' := set_packets rest c in
      match handle_packet c' pending with
      | Some result => result
      | None => check_timeouts c' now
      end
  end.

Definition clear_pending_events (c : ClientEndpoint) : ClientEndpoint := set_packets [] c.

Definition reset_contexts (c : ClientEndpoint) : ClientEndpoint :=
  set_packets [] (set_goals ((fun _ => None) <$> cl_slot_owners c) ∅ c).
End Operations.
End ClientEp.
