(* ===== verification/ClientEndpointFacts.v ===== *)
(** * Correctness of the client packet endpoint

    The client's packet checks and routing agree with the server's; its slot
    invariant survives every interleaving of critical sections; what sending,
    polling and timing out do. *)

From S2P Require Import Prelude ActionTypes ActionConfiguration PduPacket Routing.
From S2P Require Import ClientEndpoint.
From Stdlib Require Import ZArith Lia.
From stdpp Require Import base gmap strings list sorting fin_maps relations.

Module ClientEpFacts.
Import ActionConfig RoutingTable ClientEp.

(** ** Agreement with the server's helpers *)

Section Agreement.
Context {P : PduPlatform}.

Lemma client_validate_same packet b h exact :
  client_validate_packet_capacity packet b h exact
  = validate_packet_capacity packet b h exact.
Proof.
  unfold client_validate_packet_capacity, validate_packet_capacity.
  change (valid_packet_prefix packet 0) with (has_valid_packet_prefix packet 0).
  change (client_supported_packet_capacity b h) with (supported_packet_capacity b h).
  change (client_aligned_size h) with (aligned_size h).
  destruct (has_valid_packet_prefix packet 0); [|done].
  destruct (supported_packet_capacity b h); [|done]. cbn [negb orb].
  destruct (_ <? md_total_size _)%Z; [done|].
  destruct (exact && negb _); [done|]. cbn [orb]. by destruct (_ <? _)%Z.
Qed.

Lemma client_create_same b h :
  client_create_packet_buffer b h = create_packet_buffer b h.
Proof.
  unfold client_create_packet_buffer, create_packet_buffer.
  change (client_supported_packet_capacity b h) with (supported_packet_capacity b h).
  destruct (b =? 0)%Z; [done|]. cbn [orb].
  destruct (supported_packet_capacity b h) eqn:Hs; cbn [negb orb];
    [|by rewrite orb_true_r].
  unfold supported_packet_capacity in Hs. by destruct (INT_MAX <? b)%Z.
Qed.

Lemma client_route_channel_same name acc c :
  client_route_channel name acc c = route_channel name acc c.
Proof.
  destruct acc as [[routing masks] ids]. unfold client_route_channel, route_channel.
  change client_supported_packet_capacity with supported_packet_capacity.
  destruct (routing !! acd_slot_index c) as [r|]; [|by destruct (bool_decide _)].
  destruct (masks !! acd_slot_index c) as [m|]; [|by destruct (bool_decide _)].
  destruct (bool_decide _); [done|]. unfold channel_base_size.
  destruct (acd_kind c); cbn;
    (destruct (hako_pdu_get_size (acd_packet_type c)); [|done]);
    (destruct (_ <? _)%Z; [done|]); by destruct (supported_packet_capacity _ _).
Qed.

Lemma client_build_routing_same name d :
  client_build_routing name d = build_routing name d.
Proof.
  unfold client_build_routing, build_routing.
  assert (Hl : forall acc cs, client_route_channels name acc cs = route_channels name acc cs).
  { intros acc cs. revert acc. induction cs as [|c cs IH]; intros acc; [done|]. cbn.
    rewrite client_route_channel_same. by destruct (route_channel name acc c). }
  by rewrite Hl.
Qed.
End Agreement.

(** ** The invariant *)

Record cl_wf (c : ClientEndpoint) : Prop := {
  wf_owner g b : cl_packet_bindings c !! g = Some b ->
    cb_goal_id b = g /\ cl_slot_owners c !! cb_slot_index b = Some (Some g);
  wf_slot s g : cl_slot_owners c !! s = Some (Some g) ->
    exists b, cl_packet_bindings c !! g = Some b /\ cb_slot_index b = s;
  wf_len : length (cl_slot_owners c) = length (cl_slot_routing c);
  wf_valid g b : cl_packet_bindings c !! g = Some b -> is_valid_goal_id g = true;
  wf_sequence g b : cl_packet_bindings c !! g = Some b ->
    in_u32 (cb_next_feedback_sequence b);
  wf_uninit : cl_initialized c = false -> cl_slot_routing c = [];
}.

Lemma cl_put_binding_wf c g b b' :
  cl_wf c -> cl_packet_bindings c !! g = Some b ->
  cb_goal_id b' = cb_goal_id b -> cb_slot_index b' = cb_slot_index b ->
  in_u32 (cb_next_feedback_sequence b') -> cl_wf (put_binding g b' c).
Proof.
  intros [Ho Hs Hl Hv Hq Hu] Hb Hg Hi Hn.
  split; cbn; try done; intros g' x; rewrite ?lookup_insert.
  - case_decide; [|by apply Ho]. intros [= <-]. subst g'. rewrite Hg, Hi. by apply Ho.
  - intros Hx. apply Hs in Hx as (y & Hy & <-). case_decide; [|by eauto].
    subst. simplify_eq. eauto.
  - case_decide; [|by apply Hv]. intros _. subst. eauto.
  - case_decide; [|by apply Hq]. by intros [= <-].
Qed.

Lemma cl_release_binding_owners c g b :
  cl_wf c -> cl_packet_bindings c !! g = Some b ->
  cl_slot_owners (release_binding_locked c g b)
  = <[cb_slot_index b := None]> (cl_slot_owners c).
Proof.
  intros Hwf Hb. unfold release_binding_locked. cbn. case_decide; [done|].
  destruct (wf_owner c Hwf g b Hb) as [_ Ho%lookup_lt_Some]. lia.
Qed.

Lemma cl_release_binding_wf c g b :
  cl_wf c -> cl_packet_bindings c !! g = Some b -> cl_wf (release_binding_locked c g b).
Proof.
  intros Hwf Hb. pose proof (cl_release_binding_owners c g b Hwf Hb) as Hown.
  destruct Hwf as [Ho Hs Hl Hv Hq Hu].
  assert (Hbi : cl_packet_bindings (release_binding_locked c g b)
                = delete g (cl_packet_bindings c)) by done.
  split; rewrite ?Hown, ?Hbi; try done.
  - intros g' x [Hne Hx]%lookup_delete_Some. destruct (Ho _ _ Hx) as [? Hox].
    split; [done|]. rewrite list_lookup_insert_ne; [done|]. intros Heq.
    destruct (Ho _ _ Hb) as [_ Hob]. rewrite Heq in Hob. congruence.
  - intros s g' Hx. destruct (decide (s = cb_slot_index b)) as [->|Hne].
    { destruct (Ho _ _ Hb) as [_ Hob%lookup_lt_Some].
      by rewrite list_lookup_insert_eq in Hx. }
    rewrite list_lookup_insert_ne in Hx by done. apply Hs in Hx as (y & Hy & <-).
    exists y. split; [|done]. apply lookup_delete_Some. split; [|done]. congruence.
  - by rewrite length_insert.
  - intros g' x [_ Hx]%lookup_delete_Some. by eapply Hv.
  - intros g' x [_ Hx]%lookup_delete_Some. by eapply Hq.
Qed.

Lemma set_packets_wf c packets : cl_wf c -> cl_wf (set_packets packets c).
Proof. by intros [??????]; split. Qed.

Lemma cl_add_goal_wf c g s now timeout :
  cl_wf c -> is_valid_goal_id g = true -> cl_packet_bindings c !! g = None ->
  cl_slot_owners c !! s = Some None ->
  cl_wf (set_goals (<[s := Some g]> (cl_slot_owners c))
           (<[g := mkClientPacketBinding g s AWAITING_GOAL_RESPONSE now timeout 0]>
              (cl_packet_bindings c)) c).
Proof.
  intros [Ho Hs Hl Hv Hq Hu] Hg Hn Hf.
  pose proof (lookup_lt_Some _ _ _ Hf) as Hlt.
  split; cbn; try done.
  - intros g' x. rewrite lookup_insert. case_decide; subst.
    + intros [= <-]. cbn. by rewrite list_lookup_insert_eq.
    + intros Hx. destruct (Ho _ _ Hx) as [? Hox]. split; [done|].
      rewrite list_lookup_insert_ne; [done|]. congruence.
  - intros s' g'. rewrite list_lookup_insert. case_decide.
    + intros [= <-]. eexists. rewrite lookup_insert_eq. split; [done|]. by destruct_and?.
    + intros Hx. apply Hs in Hx as (y & Hy & <-). exists y.
      rewrite lookup_insert_ne by congruence. done.
  - by rewrite length_insert.
  - intros g' x. rewrite lookup_insert. case_decide; [by subst|by apply Hv].
  - intros g' x. rewrite lookup_insert. case_decide; [by intros [= <-]|by apply Hq].
Qed.

#[export] Hint Resolve cl_put_binding_wf cl_release_binding_wf set_packets_wf : hako.

Section Operations.
Context {P : PduPlatform} {T : Transport}.

Lemma find_free_slot l i o :
  list_find (fun owner : option GoalId => owner = None) l = Some (i, o) ->
  l !! i = Some None /\ forall j, j < i -> exists g, l !! j = Some (Some g).
Proof.
  intros (Hl & -> & Hb)%list_find_Some. split; [done|]. intros j Hj.
  assert (Hlt : j < length l) by (apply lookup_lt_Some in Hl; lia).
  apply lookup_lt_is_Some in Hlt as [[g|] Hx]; [by eauto|]. by destruct (Hb _ _ Hx).
Qed.

Lemma reserve_goal_spec c g timeout now c' r :
  cl_wf c -> reserve_goal c g timeout now = (c', r) ->
  cl_wf c' /\
  match r with
  | inl _ => c' = c
  | inr s =>
      is_valid_goal_id g = true /\ cl_initialized c = true
      /\ cl_packet_bindings c !! g = None
      /\ cl_slot_owners c !! s = Some None
      /\ (forall j, j < s -> exists g', cl_slot_owners c !! j = Some (Some g'))
      /\ c' = set_goals (<[s := Some g]> (cl_slot_owners c))
                (<[g := mkClientPacketBinding g s AWAITING_GOAL_RESPONSE now timeout 0]>
                   (cl_packet_bindings c)) c
  end.
Proof.
  intros Hwf. unfold reserve_goal.
  destruct (is_valid_goal_id g) eqn:Hg; cbn [negb]; [|by intros [= <- <-]].
  destruct (cl_initialized c) eqn:Hi; cbn [negb]; [|by intros [= <- <-]].
  case_bool_decide as Hn; [by intros [= <- <-]|]. apply eq_None_not_Some in Hn.
  destruct (list_find _ _) as [[s o]|] eqn:Hf; [|by intros [= <- <-]].
  apply find_free_slot in Hf as [Hs Hj]. intros [= <- <-].
  split; [by apply cl_add_goal_wf|]. by split_and!.
Qed.

Lemma rollback_goal_wf c g : cl_wf c -> cl_wf (rollback_goal c g).
Proof. intros Hwf. unfold rollback_goal. split_guard; eauto with hako. Qed.

(** Rolling back right after reserving restores the endpoint exactly. *)
Lemma rollback_reserved c g timeout now c' s :
  cl_wf c -> reserve_goal c g timeout now = (c', inr s) -> rollback_goal c' g = c.
Proof.
  intros Hwf Hr. apply reserve_goal_spec in Hr as (_ & _ & _ & Hn & Hs & _ & ->); [|done].
  unfold rollback_goal, release_binding_locked. cbn.
  rewrite lookup_insert_eq. cbn. rewrite length_insert, delete_insert_id by done.
  rewrite decide_True by (by eapply lookup_lt_Some).
  rewrite list_insert_insert_eq, list_insert_id by done. by destruct c.
Qed.

Lemma commit_cancel_spec c h c' b' :
  commit_cancel c h = Some (c', b') ->
  exists b, cl_packet_bindings c !! cgh_goal_id h = Some b /\ cb_state b = ACCEPTED
    /\ b' = set_cb_state AWAITING_CANCEL_RESPONSE b
    /\ c' = put_binding (cgh_goal_id h) b' c.
Proof.
  unfold commit_cancel. repeat (split_guard; try done). intros [= <- <-].
  simpl_bools. eauto 8.
Qed.

Lemma commit_cancel_wf c h c' b' : cl_wf c -> commit_cancel c h = Some (c', b') -> cl_wf c'.
Proof.
  intros Hwf (b & Hb & _ & -> & ->)%commit_cancel_spec.
  eapply cl_put_binding_wf; eauto. cbn. by eapply wf_sequence.
Qed.

Lemma rollback_cancel_wf c h : cl_wf c -> cl_wf (rollback_cancel c h).
Proof.
  intros Hwf. unfold rollback_cancel. repeat (split_guard; try done).
  eapply cl_put_binding_wf; eauto. cbn. by eapply wf_sequence.
Qed.

Lemma rollback_committed c h c' b' :
  commit_cancel c h = Some (c', b') -> rollback_cancel c' h = c.
Proof.
  intros (b & Hb & Hs & -> & ->)%commit_cancel_spec. unfold rollback_cancel. cbn.
  rewrite lookup_insert_eq. cbn. unfold put_binding. cbn.
  rewrite insert_insert_eq, insert_id; [by destruct c|].
  rewrite Hb. destruct b. cbn in *. by subst.
Qed.

Lemma apply_response_wf c hd b pdu c' ev :
  cl_wf c -> cl_packet_bindings c !! arp_goal_id hd = Some b ->
  apply_response c hd b pdu = Some (c', ev) -> cl_wf c'.
Proof.
  intros Hwf Hb. unfold apply_response.
  repeat (split_guard; try done); intros [= <- <-];
    eauto with hako; eapply cl_put_binding_wf; eauto; cbn; by eapply wf_sequence.
Qed.

Lemma handle_response_Some c pk c' ev :
  handle_response c pk = Some (c', ev) ->
  exists routing header b,
    cl_slot_routing c !! pp_slot_index pk = Some routing
    /\ decode_response_header (pp_pdu pk) = Some header
    /\ cl_packet_bindings c !! arp_goal_id header = Some b
    /\ cb_slot_index b = pp_slot_index pk
    /\ apply_response c header b (pp_pdu pk) = Some (c', ev).
Proof.
  unfold handle_response.
  destruct (cl_slot_routing c !! pp_slot_index pk) as [r|] eqn:Hr; [|done].
  destruct (client_validate_packet_capacity _ _ _ _); [|done].
  destruct (decode_response_header (pp_pdu pk)) as [hd|] eqn:Hd; [|done].
  split_guard; [done|].
  destruct (cl_packet_bindings c !! arp_goal_id hd) as [b|] eqn:Hb; [|done].
  case_bool_decide; [|done]. intros Ha. by exists r, hd, b.
Qed.

Lemma handle_feedback_Some c pk c' ev :
  handle_feedback c pk = Some (c', ev) ->
  exists header b,
    decode_feedback_header (pp_pdu pk) = Some header
    /\ cl_packet_bindings c !! afb_goal_id header = Some b
    /\ (cb_state b = ACCEPTED \/ cb_state b = AWAITING_CANCEL_RESPONSE
        \/ cb_state b = CANCELING)
    /\ afb_sequence_no header = cb_next_feedback_sequence b
    /\ c' = put_binding (afb_goal_id header)
              (set_cb_next_feedback_sequence
                 (u32_succ (cb_next_feedback_sequence b)) b) c
    /\ ev = response_event ClientEventType_FEEDBACK c (afb_goal_id header)
              Decision_UNSPECIFIED TerminalStatus_UNSPECIFIED
              (cb_next_feedback_sequence b) (pp_pdu pk).
Proof.
  unfold handle_feedback.
  repeat (split_guard; try done). simpl_bools. intros [= <- <-].
  match goal with H : (_ || _ || _) = true |- _ => rewrite !orb_true_iff in H end.
  rewrite !bool_decide_eq_true in *.
  match goal with H : afb_sequence_no _ = _ |- _ => rewrite H end.
  eexists _, _. split_and!; [done|done|naive_solver|done|done|done].
Qed.

Lemma in_map_order_elem m x : x ∈ in_map_order m <-> m !! x.1 = Some x.2.
Proof.
  destruct x as [g b]. cbn. rewrite <-elem_of_map_to_list.
  unfold in_map_order. by rewrite merge_sort_Permutation.
Qed.

Lemma check_timeouts_Some c now c' ev :
  check_timeouts c now = (c', ev) ->
  (c' = c /\ ev = empty_client_event)
  \/ exists g b, cl_packet_bindings c !! g = Some b /\ expired now b = true
       /\ c' = put_binding g (set_cb_state GOAL_RESPONSE_TIMED_OUT b) c
       /\ ev = mkClientEvent ClientEventType_TIMEOUT (cl_action_name c)
                 (mkClientGoalHandle g) Decision_UNSPECIFIED TerminalStatus_UNSPECIFIED 0 [].
Proof.
  unfold check_timeouts. split_guard; [intros [= <- <-]; by left|].
  destruct (List.find _ _) as [[g b]|] eqn:Hf; intros [= <- <-]; [|by left].
  right. apply List.find_some in Hf as [Hin He]. apply list_elem_of_In, in_map_order_elem in Hin.
  by exists g, b.
Qed.

Lemma check_timeouts_wf c now c' ev :
  cl_wf c -> check_timeouts c now = (c', ev) -> cl_wf c'.
Proof.
  intros Hwf [[-> _]|(g & b & Hb & _ & -> & _)]%check_timeouts_Some; [done|].
  eapply cl_put_binding_wf; eauto. cbn. by eapply wf_sequence.
Qed.

Lemma handle_packet_wf c pk c' ev :
  cl_wf c -> handle_packet c pk = Some (c', ev) -> cl_wf c'.
Proof.
  intros Hwf. unfold handle_packet. destruct (pp_kind pk).
  - intros (r & hd & b & _ & _ & Hb & _ & Ha)%handle_response_Some.
    by eapply apply_response_wf.
  - intros (hd & b & _ & Hb & _ & _ & -> & _)%handle_feedback_Some.
    eapply cl_put_binding_wf; eauto. cbn. apply u32_succ_range.
Qed.

Lemma poll_wf c now c' ev : cl_wf c -> poll c now = (c', ev) -> cl_wf c'.
Proof.
  intros Hwf. unfold poll. destruct (cl_pending_packets c) as [|pk rest].
  { by apply check_timeouts_wf. }
  assert (Hwf' := set_packets_wf c rest Hwf).
  destruct (handle_packet _ pk) as [[c1 ev1]|] eqn:Hh; [|by apply check_timeouts_wf].
  intros [= <- <-]. by eapply handle_packet_wf.
Qed.

Lemma cl_uninit_no_bindings c :
  cl_wf c -> cl_initialized c = false ->
  cl_slot_owners c = [] /\ cl_packet_bindings c = ∅.
Proof.
  intros Hwf Hi. assert (Hl : cl_slot_owners c = []).
  { apply length_zero_iff_nil. by rewrite (wf_len c Hwf), (wf_uninit c Hwf Hi). }
  split; [done|]. apply map_eq. intros g. rewrite lookup_empty.
  destruct (cl_packet_bindings c !! g) as [b|] eqn:Hb; [|done].
  destruct (wf_owner c Hwf _ _ Hb) as [_ Ho]. by rewrite Hl in Ho.
Qed.

Lemma initialize_wf c j c' r :
  cl_wf c -> initialize c j = (c', r) -> cl_wf c' /\ (r = false -> c' = c).
Proof.
  intros Hwf. unfold initialize.
  repeat (split_guard; try by intros [= <- <-]). intros [= <- <-].
  destruct (cl_uninit_no_bindings c Hwf) as [Ho Hb]; [done|].
  split; [|done]. split; cbn; rewrite ?Hb, ?Ho; try done.
  - intros s g. rewrite resize_nil. by intros [Hx _]%lookup_replicate_1.
  - by rewrite length_resize.
Qed.

Lemma deliver_wf k d c : cl_wf c -> cl_wf (deliver k d c).
Proof.
  intros Hwf. unfold deliver. split_guard; [done|]. clear E.
  generalize (cl_slot_routing c) as l. intros l. revert c Hwf.
  induction l as [|r l IH]; intros c Hwf; [done|]. cbn. apply IH.
  unfold on_recv. repeat split_guard; auto with hako.
Qed.

Lemma cl_reset_contexts_wf c : cl_wf c -> cl_wf (reset_contexts c).
Proof.
  intros [Ho Hs Hl Hv Hq Hu]. split; cbn; try done.
  - intros s g Hx. rewrite list_lookup_fmap in Hx. by destruct (_ !! s).
  - by rewrite length_fmap.
Qed.

(** ** Critical sections in any order *)

(** One critical section of any thread. Sends happen between them and do not
    touch the endpoint. A poll is three of them: the packet is taken under the
    queue's lock, examined and applied under the endpoint's, by which time any
    other call may have run, and the timeouts are checked under it again; a poll
    that nothing interrupts is [step_poll]. *)
Inductive cl_step : ClientEndpoint -> ClientEndpoint -> Prop :=
  | step_initialize c j c' r : initialize c j = (c', r) -> cl_step c c'
  | step_deliver c k d : cl_step c (deliver k d c)
  | step_reserve c g timeout now c' r :
      reserve_goal c g timeout now = (c', r) -> cl_step c c'
  | step_rollback_goal c g : cl_step c (rollback_goal c g)
  | step_commit_cancel c h c' b : commit_cancel c h = Some (c', b) -> cl_step c c'
  | step_rollback_cancel c h : cl_step c (rollback_cancel c h)
  | step_poll c now c' ev : poll c now = (c', ev) -> cl_step c c'
  | step_poll_take c pk rest :
      cl_pending_packets c = pk :: rest -> cl_step c (set_packets rest c)
  | step_poll_packet c pk c' ev : handle_packet c pk = Some (c', ev) -> cl_step c c'
  | step_poll_timeouts c now c' ev : check_timeouts c now = (c', ev) -> cl_step c c'
  | step_clear c : cl_step c (clear_pending_events c)
  | step_reset c : cl_step c (reset_contexts c).

Lemma cl_step_wf c c' : cl_step c c' -> cl_wf c -> cl_wf c'.
Proof.
  destruct 1 as [c j c' r H| |c g t now c' r H| |c h c' b H| |c now c' ev H|c pk rest H
    |c pk c' ev H|c now c' ev H| |]; intros Hwf.
  - by apply initialize_wf in H as [? _].
  - by apply deliver_wf.
  - by apply reserve_goal_spec in H as [? _].
  - by apply rollback_goal_wf.
  - by eapply commit_cancel_wf.
  - by apply rollback_cancel_wf.
  - by eapply poll_wf.
  - by apply set_packets_wf.
  - by eapply handle_packet_wf.
  - by eapply check_timeouts_wf.
  - by apply set_packets_wf.
  - by apply cl_reset_contexts_wf.
Qed.

Lemma new_client_endpoint_wf n a b : cl_wf (new_client_endpoint n a b).
Proof. by split. Qed.

Lemma cl_reachable_wf n a b c : rtc cl_step (new_client_endpoint n a b) c -> cl_wf c.
Proof.
  intros Hr. assert (Hg : forall x y, rtc cl_step x y -> cl_wf x -> cl_wf y).
  { induction 1; eauto using cl_step_wf. }
  eapply Hg; [done|]. apply new_client_endpoint_wf.
Qed.
End Operations.
End ClientEpFacts.
