(* ===== verification/ClientEndpointProps.v ===== *)
(** * What the client packet endpoint guarantees

    The theorems about [ActionClientEndpointImpl]: agreement with the server's
    packet contract, slot ownership under interleaving, the outcome of sending
    goals and cancel requests, the order of feedback and the quarantine of a
    goal that timed out. *)

From S2P Require Import Prelude ActionTypes ActionConfiguration PduPacket Routing.
From S2P Require Import ClientEndpoint ClientEndpointFacts.
From Stdlib Require Import ZArith Lia.
From stdpp Require Import base gmap strings list sorting fin_maps relations.

Module ClientEpProps.
Import ActionConfig RoutingTable ClientEp ClientEpFacts.

(** ** Transmission *)

Section Transmit.
Context {P : PduPlatform} {HL : PduPlatformLaws P} {T : Transport}.

(** A request packet with the given header, delivered on a slot. *)
Definition request_sent (c : ClientEndpoint) (slot : nat) (g : GoalId) (kind : Z)
    (w w' : Wire) : Prop :=
  exists routing data,
    cl_slot_routing c !! slot = Some routing
    /\ w' = w ++ [mkSendRecord (rt_request routing) data true]
    /\ receivable data (rt_request_packet_base_size routing)
         (rt_request_heap_capacity routing) sizeof_ActionRequestHeader
    /\ pdu2cpp_ActionRequestHeader data
       = Some (mkActionRequestHeader ACTION_PROTOCOL_VERSION kind [0; 0]%Z g).

(** Why a packet cannot be sent as a request on a slot: it does not fit the
    slot's request channel, it has no room for the request header, or the
    header's convertor refuses it. *)
Definition unsendable (c : ClientEndpoint) (slot : nat) (g : GoalId) (kind : Z)
    (packet : PduData) : Prop :=
  exists routing,
    cl_slot_routing c !! slot = Some routing
    /\ (validate_packet_capacity packet (rt_request_packet_base_size routing)
          (rt_request_heap_capacity routing) false = None
        \/ has_valid_packet_prefix packet sizeof_ActionRequestHeader = false
        \/ cpp2pdu_ActionRequestHeader
             (mkActionRequestHeader ACTION_PROTOCOL_VERSION kind [0; 0]%Z g) packet = None).

Lemma transmit_request_outcome c w s g k d w' r :
  transmit_request c w s g k d = (w', r) ->
  match r with
  | GoalSendResult_SUCCESS => request_sent c s g k w w'
  | GoalSendResult_INVALID_PACKET =>
      w' = w /\ (is_Some (cl_slot_routing c !! s) -> unsendable c s g k d)
  | GoalSendResult_TRANSPORT_ERROR => sent_one w w' false
  | _ => False
  end.
Proof.
  unfold transmit_request, unsendable.
  destruct (cl_slot_routing c !! s) as [routing|] eqn:Hr;
    [|intros [= <- <-]; split; [done|by intros [? ?]]].
  rewrite client_validate_same.
  destruct (validate_packet_capacity d _ _ _) as [size|] eqn:Hv;
    [|intros [= <- <-]; by eauto 6].
  unfold write_request_header.
  change valid_packet_prefix with has_valid_packet_prefix.
  destruct (has_valid_packet_prefix d _) eqn:Hp; cbn [negb]; [|intros [= <- <-]; by eauto 6].
  destruct (cpp2pdu_ActionRequestHeader _ d) as [d'|] eqn:Hc; [|intros [= <- <-]; by eauto 6].
  destruct (endpoint_send _ _ _) as [w1 ok] eqn:Hs. unfold endpoint_send in Hs.
  injection Hs as <- Hok. rewrite Hok. intros [= <- <-].
  destruct ok; [|by eexists].
  destruct (law_write_request _ _ _ Hc) as (Hlen & Hmd & Hrd).
  pose proof law_header_sizes as (Hh & _ & _).
  assert (Hh0 : (0 <= sizeof_ActionRequestHeader)%Z) by lia.
  assert (Hv' : validate_packet_capacity d' (rt_request_packet_base_size routing)
                  (rt_request_heap_capacity routing) false = Some size).
  { rewrite <-Hv. unfold validate_packet_capacity, has_valid_packet_prefix, pdu_size.
    by rewrite Hmd, Hlen. }
  assert (Hp' : has_valid_packet_prefix d' sizeof_ActionRequestHeader = true).
  { rewrite <-Hp. unfold has_valid_packet_prefix, pdu_size. by rewrite Hmd, Hlen. }
  destruct (span_prefix_receivable d' _ _ size _ Hh0 Hv' Hp') as (Hrec & Hn & _).
  exists routing, (span_prefix d' size). split_and!; [done|done|done|].
  unfold span_prefix. rewrite law_read_request_prefix; [done|].
  pose proof law_meta_size. lia.
Qed.

Lemma send_cancel_cases c w h c' w' ok :
  send_cancel c w h = (c', w', ok) ->
  if ok
  then exists b, cl_packet_bindings c !! cgh_goal_id h = Some b /\ cb_state b = ACCEPTED
         /\ c' = put_binding (cgh_goal_id h) (set_cb_state AWAITING_CANCEL_RESPONSE b) c
         /\ request_sent c (cb_slot_index b) (cgh_goal_id h) REQUEST_KIND_CANCEL w w'
  else c' = c /\ (w' = w \/ sent_one w w' false).
Proof.
  unfold send_cancel.
  destruct (commit_cancel c h) as [[c1 b1]|] eqn:Hc; [|by intros [= <- <- <-]; auto].
  pose proof (rollback_committed _ _ _ _ Hc) as Hrb.
  apply commit_cancel_spec in Hc as (b & Hb & Hst & -> & Hc1).
  destruct (create_control_request_packet c1) as [pkt|];
    [|intros [= <- <- <-]; auto].
  destruct (transmit_request _ _ _ _ _ _) as [w1 r] eqn:Ht.
  apply transmit_request_outcome in Ht. case_bool_decide as Hr; intros [= <- <- <-].
  - subst r. exists b. split_and!; [done|done|done|].
    destruct Ht as (routing & data & Hl & Ht). exists routing, data.
    split; [by rewrite Hc1 in Hl|done].
  - split; [done|]. destruct r; try done; naive_solver.
Qed.

(** The slot a goal is given: the lowest free one. *)
Definition lowest_free (c : ClientEndpoint) (s : nat) : Prop :=
  cl_slot_owners c !! s = Some None
  /\ forall j, j < s -> exists g, cl_slot_owners c !! j = Some (Some g).
End Transmit.

(** ** The event protocol *)

Section Protocol.
Context {P : PduPlatform} {T : Transport}.

(** How one event of a goal changes what the client keeps of it. *)
Inductive poll_rule (b : ClientPacketBinding) (ev : ClientEvent)
    : option ClientPacketBinding -> Prop :=
  | rule_accepted :
      cb_state b = AWAITING_GOAL_RESPONSE -> ce_type ev = ClientEventType_GOAL_RESPONSE ->
      ce_decision ev = Decision_ACCEPTED -> poll_rule b ev (Some (set_cb_state ACCEPTED b))
  | rule_rejected :
      cb_state b = AWAITING_GOAL_RESPONSE -> ce_type ev = ClientEventType_GOAL_RESPONSE ->
      ce_decision ev = Decision_REJECTED -> poll_rule b ev None
  | rule_timeout :
      cb_state b = AWAITING_GOAL_RESPONSE -> ce_type ev = ClientEventType_TIMEOUT ->
      poll_rule b ev (Some (set_cb_state GOAL_RESPONSE_TIMED_OUT b))
  | rule_cancel_accepted :
      cb_state b = AWAITING_CANCEL_RESPONSE -> ce_type ev = ClientEventType_CANCEL_RESPONSE ->
      ce_decision ev = Decision_ACCEPTED -> poll_rule b ev (Some (set_cb_state CANCELING b))
  | rule_cancel_rejected :
      cb_state b = AWAITING_CANCEL_RESPONSE -> ce_type ev = ClientEventType_CANCEL_RESPONSE ->
      ce_decision ev = Decision_REJECTED -> poll_rule b ev (Some (set_cb_state ACCEPTED b))
  | rule_finished :
      cb_state b = ACCEPTED \/ cb_state b = AWAITING_CANCEL_RESPONSE ->
      ce_type ev = ClientEventType_RESULT ->
      ce_terminal_status ev = TerminalStatus_SUCCEEDED
      \/ ce_terminal_status ev = TerminalStatus_ABORTED -> poll_rule b ev None
  | rule_canceled :
      cb_state b = CANCELING -> ce_type ev = ClientEventType_RESULT ->
      ce_terminal_status ev = TerminalStatus_CANCELED
      \/ ce_terminal_status ev = TerminalStatus_ABORTED -> poll_rule b ev None
  | rule_feedback :
      cb_state b = ACCEPTED \/ cb_state b = AWAITING_CANCEL_RESPONSE
      \/ cb_state b = CANCELING ->
      ce_type ev = ClientEventType_FEEDBACK ->
      ce_feedback_sequence ev = cb_next_feedback_sequence b ->
      poll_rule b ev (Some (set_cb_next_feedback_sequence
                              (u32_succ (cb_next_feedback_sequence b)) b)).

(** A poll either changes no goal and raises nothing, or raises one event
    about one known goal and changes that goal by a rule. *)
Definition poll_outcome (m m' : gmap GoalId ClientPacketBinding) (ev : ClientEvent) : Prop :=
  (m' = m /\ ev = empty_client_event)
  \/ exists g b o, m !! g = Some b /\ ce_goal ev = mkClientGoalHandle g
       /\ ce_type ev <> ClientEventType_NONE
       /\ poll_rule b ev o /\ m' = partial_alter (fun _ => o) g m.

Lemma is_decision_cases st :
  is_decision st = true ->
  Decision_of_u8 st = Decision_ACCEPTED \/ Decision_of_u8 st = Decision_REJECTED.
Proof.
  unfold is_decision, Decision_of_u8. cbn. destruct (st =? 1)%Z; [by left|]. cbn.
  intros ->. by right.
Qed.

Lemma result_expected_cases s st :
  result_expected s st = true ->
  ((s = ACCEPTED \/ s = AWAITING_CANCEL_RESPONSE)
   /\ (TerminalStatus_of_u8 st = TerminalStatus_SUCCEEDED
       \/ TerminalStatus_of_u8 st = TerminalStatus_ABORTED))
  \/ (s = CANCELING
      /\ (TerminalStatus_of_u8 st = TerminalStatus_CANCELED
          \/ TerminalStatus_of_u8 st = TerminalStatus_ABORTED)).
Proof.
  unfold result_expected, TerminalStatus_to_u8. intros H.
  rewrite !orb_true_iff, !andb_true_iff, !orb_true_iff, !bool_decide_eq_true, !Z.eqb_eq in H.
  destruct H as [[Hs [-> | ->]]|[Hs [-> | ->]]]; cbn; tauto.
Qed.

Lemma apply_response_rule c hd b pdu c' ev :
  cl_packet_bindings c !! arp_goal_id hd = Some b ->
  apply_response c hd b pdu = Some (c', ev) ->
  exists o, ce_goal ev = mkClientGoalHandle (arp_goal_id hd)
    /\ ce_type ev <> ClientEventType_NONE /\ poll_rule b ev o
    /\ cl_packet_bindings c' = partial_alter (fun _ => o) (arp_goal_id hd) (cl_packet_bindings c).
Proof.
  intros Hb. unfold apply_response.
  destruct (_ && bool_decide (cb_state b = AWAITING_GOAL_RESPONSE) && _) eqn:E1.
  { simpl_bools. intros [= <- <-].
    match goal with H : is_decision _ = true |- _ => apply is_decision_cases in H as [Hd|Hd] end; rewrite Hd;
      [exists (Some (set_cb_state ACCEPTED b))|exists None]; split_and!; try done;
      [by apply rule_accepted|by apply rule_rejected]. }
  destruct (_ && result_expected _ _) eqn:E2.
  { simpl_bools. intros [= <- <-]. exists None. split_and!; try done.
    match goal with H : result_expected _ _ = true |- _ =>
      apply result_expected_cases in H as [[? ?]|[? ?]] end;
      [by apply rule_finished|by apply rule_canceled]. }
  destruct (_ && bool_decide (cb_state b = AWAITING_CANCEL_RESPONSE) && _) eqn:E3; [|done].
  simpl_bools. intros [= <- <-].
  match goal with H : is_decision _ = true |- _ => apply is_decision_cases in H as [Hd|Hd] end; rewrite Hd;
    [exists (Some (set_cb_state CANCELING b))|exists (Some (set_cb_state ACCEPTED b))];
    split_and!; try done; [by apply rule_cancel_accepted|by apply rule_cancel_rejected].
Qed.

Lemma check_timeouts_rule c now c' ev :
  check_timeouts c now = (c', ev) ->
  poll_outcome (cl_packet_bindings c) (cl_packet_bindings c') ev.
Proof.
  intros [[-> ->]|(g & b & Hb & He & -> & ->)]%check_timeouts_Some; [by left|].
  right. exists g, b, (Some (set_cb_state GOAL_RESPONSE_TIMED_OUT b)).
  unfold expired in He. simpl_bools. split_and!; try done. by apply rule_timeout.
Qed.

Lemma handle_packet_rule c pk c' ev :
  handle_packet c pk = Some (c', ev) ->
  poll_outcome (cl_packet_bindings c) (cl_packet_bindings c') ev.
Proof.
  intros Hh. right. unfold handle_packet in Hh. destruct (pp_kind pk).
  - apply handle_response_Some in Hh as (r & hd & b & _ & _ & Hb & _ & Ha).
    destruct (apply_response_rule _ _ _ _ _ _ Hb Ha) as (o & ? & ? & ? & ?).
    by exists (arp_goal_id hd), b, o.
  - apply handle_feedback_Some in Hh as (hd & b & _ & Hb & Hs & _ & -> & ->).
    eexists _, b, _. split_and!; [done|done|done|by apply rule_feedback|done].
Qed.

Lemma poll_rule_outcome c now c' ev :
  poll c now = (c', ev) -> poll_outcome (cl_packet_bindings c) (cl_packet_bindings c') ev.
Proof.
  unfold poll. destruct (cl_pending_packets c) as [|pk rest]; [apply check_timeouts_rule|].
  destruct (handle_packet _ pk) as [[c1 ev1]|] eqn:Hh.
  - intros [= <- <-]. by apply handle_packet_rule in Hh.
  - intros Ht. by apply check_timeouts_rule in Ht.
Qed.

(** ** Runs *)

(** Calls of one client thread and the deliveries between them. *)
Inductive client_op :=
  | OpSendGoal (pdu : PduData) (g : GoalId) (timeout_usec now : Z)
  | OpSendCancel (h : ClientGoalHandle)
  | OpPoll (now : Z)
  | OpDeliver (key : PduResolvedKey) (data : PduData)
  | OpClear.

Definition run_op (c : ClientEndpoint) (w : Wire) (op : client_op)
    : ClientEndpoint * Wire * list ClientEvent :=
  match op with
  | OpSendGoal pdu g timeout now =>
      let '(c', w', _) := send_goal_with_result c w pdu g timeout now in (c', w', [])
  | OpSendCancel h => let '(c', w', _) := send_cancel c w h in (c', w', [])
  | OpPoll now => let '(c', ev) := poll c now in (c', w, [ev])
  | OpDeliver key data => (deliver key data c, w, [])
  | OpClear => (clear_pending_events c, w, [])
  end.

Fixpoint run_ops (c : ClientEndpoint) (w : Wire) (ops : list client_op)
    : ClientEndpoint * Wire * list ClientEvent :=
  match ops with
  | [] => (c, w, [])
  | op :: rest =>
      let '(c1, w1, evs1) := run_op c w op in
      let '(c2, w2, evs2) := run_ops c1 w1 rest in
      (c2, w2, evs1 ++ evs2)
  end.

(** The events of goal [g]. *)
Definition events_of (g : GoalId) (evs : list ClientEvent) : list ClientEvent :=
  List.filter (fun ev => bool_decide (ce_type ev <> ClientEventType_NONE)
                         && bool_decide (cgh_goal_id (ce_goal ev) = g)) evs.

Lemma deliver_bindings k d c : cl_packet_bindings (deliver k d c) = cl_packet_bindings c.
Proof.
  unfold deliver. split_guard; [done|]. clear E.
  generalize (cl_slot_routing c) as l. intros l. revert c.
  induction l as [|r l IH]; intros c; [done|]. cbn. rewrite IH. by repeat split_guard.
Qed.

Lemma send_goal_cases {HL : PduPlatformLaws P} c w pdu g timeout now c' w' r h :
  cl_wf c -> send_goal_with_result c w pdu g timeout now = (c', w', (r, h)) ->
  (r <> GoalSendResult_SUCCESS /\ c' = c /\ h = mkClientGoalHandle zero_goal_id
   /\ match r with
      | GoalSendResult_INVALID_ARGUMENT => w' = w /\ is_valid_goal_id g = false
      | GoalSendResult_NOT_INITIALIZED => w' = w /\ cl_initialized c = false
      | GoalSendResult_DUPLICATE_GOAL => w' = w /\ is_Some (cl_packet_bindings c !! g)
      | GoalSendResult_NO_FREE_SLOT =>
          w' = w /\ forall s o, cl_slot_owners c !! s = Some o -> is_Some o
      | GoalSendResult_INVALID_PACKET =>
          w' = w /\ exists s, lowest_free c s /\ unsendable c s g REQUEST_KIND_GOAL pdu
      | GoalSendResult_TRANSPORT_ERROR => sent_one w w' false
      | _ => False
      end)
  \/ (r = GoalSendResult_SUCCESS /\ h = mkClientGoalHandle g
      /\ exists s, reserve_goal c g timeout now = (c', inr s)
           /\ request_sent c s g REQUEST_KIND_GOAL w w').
Proof.
  intros Hwf. unfold send_goal_with_result.
  destruct (reserve_goal c g timeout now) as [c1 [e|s]] eqn:Hr.
  - destruct (reserve_goal_spec _ _ _ _ _ _ Hwf Hr) as [_ ->]. intros [= <- <- <- <-]. left.
    unfold reserve_goal in Hr. revert Hr.
    destruct (is_valid_goal_id g); cbn [negb]; [|by intros [= <-]].
    destruct (cl_initialized c); cbn [negb]; [|by intros [= <-]].
    case_bool_decide; [by intros [= <-]|].
    destruct (list_find _ _) as [[? ?]|] eqn:Hf; [done|]. intros [= <-].
    split_and!; try done. intros s [o|] Hs; [done|].
    apply list_find_None in Hf. rewrite Forall_lookup in Hf. by destruct (Hf _ _ Hs).
  - pose proof (rollback_reserved _ _ _ _ _ _ Hwf Hr) as Hrb.
    destruct (transmit_request _ _ _ _ _ _) as [w1 r1] eqn:Ht.
    apply transmit_request_outcome in Ht.
    destruct (reserve_goal_spec _ _ _ _ _ _ Hwf Hr) as (_ & _ & _ & Hn & Hf & Hj & Hc1).
    assert (Hrt : cl_slot_routing c1 = cl_slot_routing c) by (by subst c1).
    unfold request_sent, unsendable in *. rewrite Hrt in Ht.
    destruct r1; try done; intros [= <- <- <- <-]; [right|left; rewrite Hrb..]; [|..|done].
    + split_and!; [done|done|]. by exists s.
    + destruct Ht as [-> Hu]. split_and!; [done..|]. exists s. split; [done|]. apply Hu.
      apply lookup_lt_is_Some. rewrite <-(wf_len c Hwf). by eapply lookup_lt_Some.
Qed.

Context {HL : PduPlatformLaws P}.

Lemma run_op_wf c w op c' w' evs : cl_wf c -> run_op c w op = (c', w', evs) -> cl_wf c'.
Proof.
  intros Hwf. destruct op as [pdu g timeout now|h|now|k d|]; cbn.
  - destruct (send_goal_with_result _ _ _ _ _ _) as [[c1 w1] [r h]] eqn:Hs.
    intros [= <- <- <-]. apply send_goal_cases in Hs as [(_ & -> & _)|(_ & _ & s & Hs & _)];
      [done| |done]. by apply reserve_goal_spec in Hs as [? _].
  - destruct (send_cancel c w h) as [[c1 w1] ok] eqn:Hs. intros [= <- <- <-].
    apply send_cancel_cases in Hs. destruct ok; [|by destruct Hs as [-> _]].
    destruct Hs as (b & Hb & _ & -> & _). eapply cl_put_binding_wf; eauto. cbn.
    by eapply wf_sequence.
  - destruct (poll c now) as [c1 ev] eqn:Hp. intros [= <- <- <-]. by eapply poll_wf.
  - intros [= <- <- <-]. by apply deliver_wf.
  - intros [= <- <- <-]. by apply set_packets_wf.
Qed.

(** What one call does to what is kept of [g]. *)
Lemma run_op_goal c w op c' w' evs g :
  cl_wf c -> run_op c w op = (c', w', evs) ->
  let o := cl_packet_bindings c !! g in
  let o' := cl_packet_bindings c' !! g in
  (events_of g evs = [] /\ o' = o)
  \/ (exists b ev, o = Some b /\ evs = [ev] /\ events_of g evs = [ev] /\ poll_rule b ev o')
  \/ (exists b, events_of g evs = [] /\ o = Some b /\ cb_state b = ACCEPTED
               /\ o' = Some (set_cb_state AWAITING_CANCEL_RESPONSE b))
  \/ (exists pdu timeout now s, op = OpSendGoal pdu g timeout now
        /\ events_of g evs = [] /\ o = None
        /\ o' = Some (mkClientPacketBinding g s AWAITING_GOAL_RESPONSE now timeout 0)).
Proof.
  intros Hwf Hop. destruct op as [pdu g0 timeout now|h|now|k d|]; cbn in Hop.
  - destruct (send_goal_with_result _ _ _ _ _ _) as [[c1 w1] [r h]] eqn:Hs.
    injection Hop as <- <- <-.
    apply send_goal_cases in Hs as [(_ & -> & _)|(_ & _ & s & Hs & _)]; [by left| |done].
    apply reserve_goal_spec in Hs as (_ & _ & _ & Hn & _ & _ & ->); [|done]. cbn.
    rewrite lookup_insert. case_decide; [subst|by left]. do 3 right. by eauto 10.
  - destruct (send_cancel c w h) as [[c1 w1] ok] eqn:Hs. injection Hop as <- <- <-.
    apply send_cancel_cases in Hs. destruct ok; [|left; by destruct Hs as [-> _]].
    destruct Hs as (b & Hb & Hst & -> & _). cbn. rewrite lookup_insert.
    case_decide; [subst|by left]. do 2 right. left. by exists b.
  - destruct (poll c now) as [c1 ev] eqn:Hp. injection Hop as <- <- <-.
    apply poll_rule_outcome in Hp as [[-> ->]|(g0 & b & o & Hb & Hg & Ht & Hr & ->)];
      [by left|]. rewrite lookup_partial_alter. cbn. rewrite Hg. cbn.
    rewrite (bool_decide_eq_true_2 _ Ht). cbn. case_decide.
    + subst g0. rewrite bool_decide_eq_true_2 by done. right. left. by exists b, ev.
    + rewrite bool_decide_eq_false_2 by done. by left.
  - injection Hop as <- <- <-. left. by rewrite deliver_bindings.
  - injection Hop as <- <- <-. by left.
Qed.

Lemma events_of_app g evs evs' : events_of g (evs ++ evs') = events_of g evs ++ events_of g evs'.
Proof. apply List.filter_app. Qed.

(** ** Feedback numbers *)

Definition feedback_no (g : GoalId) (ev : ClientEvent) : option Z :=
  if bool_decide (ce_type ev = ClientEventType_FEEDBACK)
     && bool_decide (cgh_goal_id (ce_goal ev) = g)
  then Some (ce_feedback_sequence ev) else None.

Definition resends (g : GoalId) (op : client_op) : bool :=
  match op with
  | OpSendGoal _ g' _ _ => bool_decide (g' = g)
  | _ => false
  end.

Lemma feedback_no_other g evs : events_of g evs = [] -> omap (feedback_no g) evs = [].
Proof.
  induction evs as [|ev evs IH]; [done|]. cbn. unfold feedback_no at 1.
  destruct (bool_decide (cgh_goal_id (ce_goal ev) = g)); [|rewrite !andb_false_r; apply IH].
  rewrite !andb_true_r. case_bool_decide as H1; [done|]. intros Hev.
  case_bool_decide; [congruence|by apply IH].
Qed.

Lemma poll_rule_feedback b ev o g :
  poll_rule b ev o -> events_of g [ev] = [ev] ->
  match feedback_no g ev with
  | Some n => n = cb_next_feedback_sequence b
      /\ exists b', o = Some b'
           /\ cb_next_feedback_sequence b' = u32_succ (cb_next_feedback_sequence b)
  | None => forall b', o = Some b' ->
              cb_next_feedback_sequence b' = cb_next_feedback_sequence b
  end.
Proof.
  intros Hr Hev. cbn in Hev. unfold feedback_no.
  destruct (bool_decide (cgh_goal_id (ce_goal ev) = g)); [|by rewrite andb_false_r in Hev].
  rewrite andb_true_r. clear Hev.
  destruct Hr; case_bool_decide; try congruence;
    try (intros b' Hb'; by simplify_eq). split; [done|]. by eexists.
Qed.

Lemma run_ops_numbered g ops c w c' w' evs b :
  cl_wf c -> Forall (fun op => resends g op = false) ops ->
  run_ops c w ops = (c', w', evs) ->
  (cl_packet_bindings c !! g = None -> omap (feedback_no g) evs = [])
  /\ (cl_packet_bindings c !! g = Some b ->
      exists n, omap (feedback_no g) evs
        = (fun i => Nat.iter i u32_succ (cb_next_feedback_sequence b)) <$> seq 0 n).
Proof.
  intros Hwf Hops. revert c w c' w' evs b Hwf.
  induction Hops as [|op ops Hop _ IH]; intros c w c' w' evs b Hwf; cbn.
  { intros [= <- <- <-]. split; [done|]. intros _. by exists 0. }
  destruct (run_op c w op) as [[c1 w1] evs1] eqn:Ho.
  destruct (run_ops c1 w1 ops) as [[c2 w2] evs2] eqn:Hr. intros [= <- <- <-].
  pose proof (fun b => IH _ _ _ _ _ b (run_op_wf _ _ _ _ _ _ Hwf Ho) Hr) as IH'.
  rewrite omap_app.
  destruct (run_op_goal _ _ _ _ _ _ g Hwf Ho)
    as [[He Ho']|[(b0 & ev & Hb & -> & Hev & Hru)|[(b0 & He & Hb & Hs & Ho')
       |(pdu & t & now & s & -> & _)]]].
  - rewrite (feedback_no_other _ _ He). cbn. rewrite <-Ho'. apply IH'.
  - rewrite Hb. split; [done|]. intros [= <-].
    pose proof (poll_rule_feedback _ _ _ _ Hru Hev) as Hf.
    cbn [omap list_omap]. destruct (feedback_no g ev) as [n|].
    + destruct Hf as (-> & b' & Hb' & Hq). destruct (IH' b') as [_ IH2].
      destruct (IH2 Hb') as [m Hm]. exists (S m). rewrite Hm. cbn. f_equal.
      rewrite <-(fmap_S_seq 0), <-list_fmap_compose. apply list_fmap_ext. intros i x _.
      cbn. by rewrite Hq, <-Nat.iter_succ_r.
    + cbn. destruct (cl_packet_bindings c1 !! g) as [b'|].
      * destruct (IH' b') as [_ IH2]. destruct (IH2 eq_refl) as [m Hm]. exists m.
        by rewrite Hm, (Hf b').
      * exists 0. destruct (IH' b0) as [IH1 _]. by apply IH1.
  - rewrite (feedback_no_other _ _ He), Hb. split; [done|]. intros [= <-]. cbn.
    destruct (IH' (set_cb_state AWAITING_CANCEL_RESPONSE b0)) as [_ IH2].
    by apply IH2.
  - cbn in Hop. by case_bool_decide.
Qed.
End Protocol.
(** ** Timeouts *)

Section Timeouts.
Context {P : PduPlatform} {HL : PduPlatformLaws P} {T : Transport}.

Lemma goal_id_leb_total a b : goal_id_leb a b = true \/ goal_id_leb b a = true.
Proof.
  revert b. induction a as [|x a IH]; intros [|y b]; cbn; auto.
  destruct (Z.lt_trichotomy x y) as [H|[->|H]].
  - left. by rewrite (proj2 (Z.ltb_lt x y) H).
  - rewrite Z.ltb_irrefl, Z.eqb_refl. apply IH.
  - right. by rewrite (proj2 (Z.ltb_lt y x) H).
Qed.

Lemma goal_id_leb_trans a b c :
  goal_id_leb a b = true -> goal_id_leb b c = true -> goal_id_leb a c = true.
Proof.
  revert b c. induction a as [|x a IH]; intros [|y b] [|z c]; cbn; try done.
  rewrite !orb_true_iff, !andb_true_iff, !Z.ltb_lt, !Z.eqb_eq.
  intros [?|[-> ?]] [?|[-> ?]]; [left; lia..|by left|]. right. eauto.
Qed.

#[local] Instance entry_le_total : Total entry_le.
Proof. intros x y. apply goal_id_leb_total. Qed.

#[local] Instance entry_le_trans : Transitive entry_le.
Proof. intros x y z. apply goal_id_leb_trans. Qed.

Lemma find_first_sorted f l x y :
  StronglySorted entry_le l -> List.find f l = Some x -> y ∈ l -> f y = true ->
  goal_id_leb x.1 y.1 = true.
Proof.
  induction 1 as [|z l _ IH Hz]; cbn; [done|]. destruct (f z) eqn:Hf.
  - intros [= <-] [->|Hin]%elem_of_cons Hy.
    + by destruct (goal_id_leb_total z.1 z.1).
    + rewrite Forall_forall in Hz. by apply Hz.
  - intros Hx [->|Hin]%elem_of_cons Hy; [congruence|by apply IH].
Qed.

(** The timeout loop reports the least expired goal id. *)
Lemma check_timeouts_least c now c' ev g b :
  check_timeouts c now = (c', ev) -> ce_type ev = ClientEventType_TIMEOUT ->
  cl_packet_bindings c !! g = Some b -> expired now b = true ->
  goal_id_leb (cgh_goal_id (ce_goal ev)) g = true.
Proof.
  unfold check_timeouts. split_guard; [by intros [= <- <-]|].
  destruct (List.find _ _) as [[g0 b0]|] eqn:Hf; intros [= <- <-]; [|done].
  intros _ Hb He. apply (find_first_sorted _ _ _ (g, b)) in Hf; [done| |..].
  - unfold in_map_order. by apply (StronglySorted_merge_sort entry_le).
  - by apply in_map_order_elem.
  - done.
Qed.

(** Only the timeout loop raises TIMEOUT. *)
Lemma poll_timeout c now c' ev :
  poll c now = (c', ev) -> ce_type ev = ClientEventType_TIMEOUT ->
  exists c0, cl_packet_bindings c0 = cl_packet_bindings c
    /\ cl_slot_owners c0 = cl_slot_owners c /\ check_timeouts c0 now = (c', ev).
Proof.
  unfold poll. destruct (cl_pending_packets c) as [|pk rest]; [by exists c|].
  destruct (handle_packet _ pk) as [[c1 ev1]|] eqn:Hh; [|by exists (set_packets rest c)].
  intros [= <- <-] Ht. exfalso. unfold handle_packet in Hh. destruct (pp_kind pk).
  - apply handle_response_Some in Hh as (r & hd & b & _ & _ & _ & _ & Ha).
    unfold apply_response in Ha. repeat (split_guard_in Ha; simplify_eq; try done).
  - by apply handle_feedback_Some in Hh as (hd & b & _ & _ & _ & _ & _ & ->).
Qed.

Lemma timed_out_run g b ops c w c' w' evs :
  cl_wf c -> cl_packet_bindings c !! g = Some b -> cb_state b = GOAL_RESPONSE_TIMED_OUT ->
  run_ops c w ops = (c', w', evs) ->
  cl_wf c' /\ cl_packet_bindings c' !! g = Some b /\ events_of g evs = [].
Proof.
  revert c w c' w' evs. induction ops as [|op ops IH]; intros c w c' w' evs Hwf Hb Hs; cbn.
  { by intros [= <- <- <-]. }
  destruct (run_op c w op) as [[c1 w1] evs1] eqn:Ho.
  destruct (run_ops c1 w1 ops) as [[c2 w2] evs2] eqn:Hr. intros [= <- <- <-].
  pose proof (run_op_wf _ _ _ _ _ _ Hwf Ho) as Hwf1.
  destruct (run_op_goal _ _ _ _ _ _ g Hwf Ho)
    as [[He Ho']|[(b0 & ev & Hb0 & _ & _ & Hru)|[(b0 & _ & Hb0 & Hs0 & _)
       |(? & ? & ? & ? & _ & _ & Hn & _)]]].
  - rewrite Hb in Ho'. rewrite events_of_app, He. by eapply IH.
  - rewrite Hb in Hb0. simplify_eq. destruct Hru; naive_solver congruence.
  - congruence.
  - congruence.
Qed.
End Timeouts.

(** ** A concrete run

    The sample action on a transport that accepts every packet: goal 1 is sent
    and its acceptance arrives. *)

Module Demo.
Import ConcretePdu.

Definition reliable : Transport := {| send_result _ _ _ := true |}.
#[export] Existing Instance reliable.

Definition goal_1 : GoalId := 1%Z :: replicate 15 0%Z.
Definition handle_1 : ClientGoalHandle := mkClientGoalHandle goal_1.

Definition response_packet (kind status : Z) (g : GoalId) : PduData :=
  default [] (p ← create_packet_buffer 32 16;
              cpp2pdu_ActionResponseHeader (mkActionResponseHeader 1 kind status 0 g) p).

Definition feedback_packet (g : GoalId) (n : Z) : PduData :=
  default [] (p ← create_packet_buffer 32 16;
              cpp2pdu_ActionFeedbackHeader (mkActionFeedbackHeader 1 [0; 0; 0]%Z g n) p).

Definition fresh : ClientEndpoint := new_client_endpoint "fib" true true.
Definition ready : ClientEndpoint := (initialize fresh (render_definition sample_definition)).1.
Definition goal_packet : PduData := default [] (create_goal_buffer ready).
Definition sent : ClientEndpoint :=
  (send_goal_with_result ready [] goal_packet goal_1 1000 50).1.1.
Definition accepted : ClientEndpoint :=
  (poll (deliver (mkPduResolvedKey "fib" 1) (response_packet 1 1 goal_1) sent) 100).1.

Lemma client_ready_reachable : rtc cl_step fresh ready.
Proof. apply rtc_once. eapply step_initialize, surjective_pairing. Qed.

Lemma client_sent_reachable : rtc cl_step fresh sent.
Proof.
  eapply rtc_r; [apply client_ready_reachable|]. eapply (step_reserve ready goal_1 1000 50).
  rewrite (surjective_pairing (reserve_goal _ _ _ _)). f_equal.
Qed.

Lemma client_accepted_reachable : rtc cl_step fresh accepted.
Proof.
  eapply rtc_r; [eapply rtc_r; [apply client_sent_reachable|apply step_deliver]|].
  eapply step_poll, surjective_pairing.
Qed.
End Demo.
Import ConcretePdu Demo.

(** ** Properties *)

(** Client and server, which are written independently, agree on the
    packet contract: they build the same routing table from a definition (or
    both refuse it), accept the same packets with the same wire size, and
    create the same buffers. *)
Theorem client_server_packet_agreement {P : PduPlatform} :
  (forall name d, client_build_routing name d = build_routing name d)
  /\ (forall packet base heap exact,
        client_validate_packet_capacity packet base heap exact
        = validate_packet_capacity packet base heap exact)
  /\ (forall base heap, client_create_packet_buffer base heap = create_packet_buffer base heap).
Proof.
  auto using client_build_routing_same, client_validate_same, client_create_same.
Qed.

(** C24 — Goals and slots of the client stay tied one to one whatever order the
    critical sections of concurrent calls run in: between reserving a goal and
    rolling it back, or committing a cancel and taking it back, any other call
    may run. Every known goal owns the slot it names, every owned slot belongs
    to a known goal, and no two goals share one. *)
Theorem client_slot_ownership {P : PduPlatform} {T : Transport} n a b c :
  rtc cl_step (new_client_endpoint n a b) c ->
  (forall g x, cl_packet_bindings c !! g = Some x ->
     cb_goal_id x = g /\ cl_slot_owners c !! cb_slot_index x = Some (Some g))
  /\ (forall s g, cl_slot_owners c !! s = Some (Some g) ->
        exists x, cl_packet_bindings c !! g = Some x /\ cb_slot_index x = s)
  /\ (forall g g' x x', cl_packet_bindings c !! g = Some x ->
        cl_packet_bindings c !! g' = Some x' -> cb_slot_index x = cb_slot_index x' -> g = g')
  /\ length (cl_slot_owners c) = length (cl_slot_routing c).
Proof.
  intros Hwf%cl_reachable_wf. split_and!; [apply Hwf|apply Hwf| |apply Hwf].
  intros g g' x x' [_ Ho]%(wf_owner c Hwf) [_ Ho']%(wf_owner c Hwf) Heq.
  rewrite Heq in Ho. congruence.
Qed.

Lemma client_slot_ownership_witness :
  length (cl_slot_owners accepted) = length (cl_slot_routing accepted).
Proof. apply (client_slot_ownership _ _ _ _ client_accepted_reachable). Defined.

(** C33 — Sending a goal has exactly the documented outcomes. On SUCCESS the
    goal owns the lowest free slot, its handle is returned and exactly one GOAL
    request with its id, which the server's checks accept, was delivered on that
    slot. Every error leaves the endpoint as it was (a reserved slot is given
    back), returns the empty handle, has delivered nothing, and has the cause
    its name says: INVALID_PACKET means that the packet does not fit the request
    channel of the slot the goal would get or cannot take the request header,
    TRANSPORT_ERROR that the transport refused the packet. *)
Theorem send_goal_outcomes {P : PduPlatform} {HL : PduPlatformLaws P} {T : Transport}
    n a b c w pdu g timeout now c' w' r h :
  rtc cl_step (new_client_endpoint n a b) c ->
  send_goal_with_result c w pdu g timeout now = (c', w', (r, h)) ->
  (r = GoalSendResult_SUCCESS /\ h = mkClientGoalHandle g
   /\ is_valid_goal_id g = true /\ cl_packet_bindings c !! g = None
   /\ exists s, lowest_free c s
        /\ cl_slot_owners c' = <[s := Some g]> (cl_slot_owners c)
        /\ cl_packet_bindings c'
           = <[g := mkClientPacketBinding g s AWAITING_GOAL_RESPONSE now timeout 0]>
               (cl_packet_bindings c)
        /\ request_sent c s g REQUEST_KIND_GOAL w w')
  \/ (c' = c /\ h = mkClientGoalHandle zero_goal_id
      /\ match r with
         | GoalSendResult_INVALID_ARGUMENT => w' = w /\ is_valid_goal_id g = false
         | GoalSendResult_NOT_INITIALIZED => w' = w /\ cl_initialized c = false
         | GoalSendResult_DUPLICATE_GOAL => w' = w /\ is_Some (cl_packet_bindings c !! g)
         | GoalSendResult_NO_FREE_SLOT =>
             w' = w /\ forall s o, cl_slot_owners c !! s = Some o -> is_Some o
         | GoalSendResult_INVALID_PACKET =>
             w' = w /\ exists s, lowest_free c s /\ unsendable c s g REQUEST_KIND_GOAL pdu
         | GoalSendResult_TRANSPORT_ERROR => sent_one w w' false
         | GoalSendResult_SUCCESS | GoalSendResult_ACTION_NOT_FOUND => False
         end).
Proof.
  intros Hwf%cl_reachable_wf Hs.
  apply send_goal_cases in Hs as [(Hr & -> & -> & Hm)|(-> & -> & s & Hr & Hs)]; [..|done].
  - right. split_and!; [done|done|]. by destruct r.
  - left. apply reserve_goal_spec in Hr as (_ & Hg & _ & Hn & Hf & Hj & ->); [|done].
    split_and!; try done. by exists s.
Qed.

Lemma send_goal_outcomes_witness :
  (send_goal_with_result ready [] goal_packet goal_1 1000 50).2
    = (GoalSendResult_SUCCESS, handle_1)
  /\ is_valid_goal_id goal_1 = true
  /\ exists s, lowest_free ready s /\ unsendable ready s goal_1 REQUEST_KIND_GOAL [].
Proof.
  split; [by vm_compute|]. split.
  - destruct (send_goal_outcomes _ _ _ ready [] goal_packet goal_1 1000 50 _ _
      GoalSendResult_SUCCESS handle_1 client_ready_reachable
      ltac:(rewrite (triple_eta (send_goal_with_result _ _ _ _ _ _)); f_equal))
      as [(_ & _ & H & _)|(_ & H & _)]; [exact H|vm_compute in H; discriminate H].
  - destruct (send_goal_outcomes _ _ _ ready [] [] goal_1 1000 50 _ _
      GoalSendResult_INVALID_PACKET (mkClientGoalHandle zero_goal_id) client_ready_reachable
      ltac:(rewrite (triple_eta (send_goal_with_result _ _ _ _ _ _)); f_equal))
      as [(H & _)|(_ & _ & _ & H)]; [discriminate H|exact H].
Defined.

(** A cancel request is sent at most while the goal is accepted: success
    means exactly one CANCEL request was delivered on the goal's slot and the
    goal now awaits the cancel response; failure leaves the endpoint as it was
    and has delivered nothing. *)
Theorem send_cancel_outcomes {P : PduPlatform} {HL : PduPlatformLaws P} {T : Transport}
    c w h c' w' ok :
  send_cancel c w h = (c', w', ok) ->
  if ok
  then exists x, cl_packet_bindings c !! cgh_goal_id h = Some x /\ cb_state x = ACCEPTED
         /\ c' = put_binding (cgh_goal_id h) (set_cb_state AWAITING_CANCEL_RESPONSE x) c
         /\ request_sent c (cb_slot_index x) (cgh_goal_id h) REQUEST_KIND_CANCEL w w'
  else c' = c /\ (w' = w \/ sent_one w w' false).
Proof. apply send_cancel_cases. Qed.

Lemma send_cancel_outcomes_witness :
  exists x, cl_packet_bindings accepted !! goal_1 = Some x /\ cb_state x = ACCEPTED.
Proof.
  destruct (send_cancel_outcomes accepted [] handle_1 _ _ true
    ltac:(rewrite (triple_eta (send_cancel _ _ _)); f_equal)) as (x & Hx & Hs & _).
  exists x. split; [exact Hx|exact Hs].
Defined.

(** Acceptance, a duplicate acceptance, two feedbacks, one out of order, and
    the Result. *)
Definition demo_ops : list client_op :=
  [ OpSendGoal goal_packet goal_1 1000 50;
    OpDeliver (mkPduResolvedKey "fib" 1) (response_packet 1 1 goal_1);
    OpDeliver (mkPduResolvedKey "fib" 1) (response_packet 1 1 goal_1);
    OpDeliver (mkPduResolvedKey "fib" 2) (feedback_packet goal_1 0);
    OpDeliver (mkPduResolvedKey "fib" 2) (feedback_packet goal_1 7);
    OpDeliver (mkPduResolvedKey "fib" 2) (feedback_packet goal_1 1);
    OpDeliver (mkPduResolvedKey "fib" 1) (response_packet 3 1 goal_1);
    OpPoll 60; OpPoll 60; OpPoll 60; OpPoll 60; OpPoll 60; OpPoll 60 ].

(** Feedback reaches the application in order and without gaps: over any
    run that does not send the goal id again, the FEEDBACK events of a goal
    carry consecutive 32-bit numbers starting at the goal's next one, whatever
    packets were delivered. *)
Theorem client_feedback_in_order {P : PduPlatform} {HL : PduPlatformLaws P} {T : Transport}
    n a b c w ops c' w' evs g x :
  rtc cl_step (new_client_endpoint n a b) c ->
  Forall (fun op => resends g op = false) ops ->
  cl_packet_bindings c !! g = Some x ->
  run_ops c w ops = (c', w', evs) ->
  exists k, omap (feedback_no g) evs
    = (fun i => u32 (cb_next_feedback_sequence x + Z.of_nat i)) <$> seq 0 k.
Proof.
  intros Hwf%cl_reachable_wf Hops Hx Hr.
  destruct (run_ops_numbered _ _ _ _ _ _ _ x Hwf Hops Hr) as [_ Hn].
  destruct (Hn Hx) as [k Hk]. exists k. rewrite Hk. apply list_fmap_ext. intros i y _.
  apply u32_succ_iter_from. by eapply wf_sequence.
Qed.

Lemma client_feedback_in_order_witness :
  exists k, omap (feedback_no goal_1) (run_ops sent [] (tail demo_ops)).2
    = (fun i => u32 (0 + Z.of_nat i)) <$> seq 0 k.
Proof.
  apply (client_feedback_in_order _ _ _ sent [] (tail demo_ops)
    (run_ops sent [] (tail demo_ops)).1.1 (run_ops sent [] (tail demo_ops)).1.2 _ goal_1
    (mkClientPacketBinding goal_1 0 AWAITING_GOAL_RESPONSE 50 1000 0) client_sent_reachable).
  - by repeat constructor.
  - by vm_compute.
  - apply triple_eta.
Defined.

(** A goal-response timeout quarantines the goal: TIMEOUT is raised for the
    least goal id among those whose deadline has passed, and from then on the
    goal keeps its slot and raises no event, whatever is sent, cancelled,
    delivered or polled; only a reset frees it. *)
Theorem timeout_quarantines_goal {P : PduPlatform} {HL : PduPlatformLaws P} {T : Transport}
    n a b c now c' ev :
  rtc cl_step (new_client_endpoint n a b) c ->
  poll c now = (c', ev) -> ce_type ev = ClientEventType_TIMEOUT ->
  let g := cgh_goal_id (ce_goal ev) in
  exists x, cl_packet_bindings c !! g = Some x /\ expired now x = true
    /\ (forall g' x', cl_packet_bindings c !! g' = Some x' -> expired now x' = true ->
          goal_id_leb g g' = true)
    /\ forall w ops c'' w'' evs, run_ops c' w ops = (c'', w'', evs) ->
         events_of g evs = []
         /\ cl_packet_bindings c'' !! g = Some (set_cb_state GOAL_RESPONSE_TIMED_OUT x)
         /\ cl_slot_owners c'' !! cb_slot_index x = Some (Some g).
Proof.
  intros Hwf%cl_reachable_wf Hp Ht g. pose proof (poll_wf _ _ _ _ Hwf Hp) as Hwf'.
  destruct (poll_timeout _ _ _ _ Hp Ht) as (c0 & Hb0 & Ho0 & Hc).
  pose proof (fun g x => check_timeouts_least c0 now c' ev g x Hc Ht) as Hl.
  pose proof (check_timeouts_Some _ _ _ _ Hc) as [[_ ->]|(g0 & x & Hx & He & -> & ->)]; [done|].
  subst g. cbn in *. exists x. rewrite <-Hb0. split_and!; [done|done|by eauto|].
  intros w ops c'' w'' evs Hr.
  eapply timed_out_run in Hr as (Hwf'' & Hb'' & Hev); [|done|apply lookup_insert_eq|done].
  split_and!; [done|done|]. by destruct (wf_owner _ Hwf'' _ _ Hb'').
Qed.

Lemma timeout_quarantines_goal_witness :
  ce_type (poll sent 5000).2 = ClientEventType_TIMEOUT
  /\ exists x, expired 5000 x = true.
Proof.
  split; [by vm_compute|].
  destruct (timeout_quarantines_goal _ _ _ sent 5000 _ _ client_sent_reachable
    (surjective_pairing _) ltac:(by vm_compute)) as (x & _ & Hx & _).
  exists x. exact Hx.
Defined.

End ClientEpProps.
