(* ===== verification/ClientEndpointRuns.v ===== *)
(** * Runs of the client packet endpoint

    What an application sees of the client over whole runs: the results of its
    calls and the events it polls, checked step by step by a small automaton that
    is the client side of the packet protocol. *)

From S2P Require Import Prelude ActionTypes ActionConfiguration PduPacket Routing.
From S2P Require Import ClientEndpoint ClientEndpointFacts ClientEndpointProps.
From Stdlib Require Import ZArith Lia.
From stdpp Require Import base gmap strings list relations.

Module ClientEpRuns.
Import ActionConfig RoutingTable ClientEp ClientEpFacts ClientEpProps.

(** ** Calls and what is seen of them *)

(** A call of the application, the transport or the owner. The last three are
    the critical sections a [poll] consists of, for polls that other calls come
    in between of: the packet handled may be any that was taken before. *)
Inductive cl_call :=
  | CallInitialize (config : json)
  | CallDeliver (key : PduResolvedKey) (data : PduData)
  | CallSendGoal (pdu : PduData) (g : GoalId) (timeout_usec now : Z)
  | CallSendCancel (h : ClientGoalHandle)
  | CallPoll (now : Z)
  | CallClear
  | CallReset
  | CallPollTake
  | CallPollPacket (pk : PendingPacket)
  | CallPollTimeouts (now : Z).

Inductive observation :=
  | SawSend (g : GoalId) (r : GoalSendResult)
  | SawCancel (g : GoalId) (ok : bool)
  | SawEvent (ev : ClientEvent)
  | SawReset.

Section Runs.
Context {P : PduPlatform} {T : Transport}.

Definition run_call (c : ClientEndpoint) (w : Wire) (call : cl_call)
    : ClientEndpoint * Wire * list observation :=
  match call with
  | CallInitialize config => ((initialize c config).1, w, [])
  | CallDeliver key data => (deliver key data c, w, [])
  | CallSendGoal pdu g timeout now =>
      let '(c', w', (r, _)) := send_goal_with_result c w pdu g timeout now in
      (c', w', [SawSend g r])
  | CallSendCancel h =>
      let '(c', w', ok) := send_cancel c w h in (c', w', [SawCancel (cgh_goal_id h) ok])
  | CallPoll now => let '(c', ev) := poll c now in (c', w, [SawEvent ev])
  | CallClear => (clear_pending_events c, w, [])
  | CallReset => (reset_contexts c, w, [SawReset])
  | CallPollTake => (set_packets (tail (cl_pending_packets c)) c, w, [])
  | CallPollPacket pk =>
      match handle_packet c pk with
      | Some (c', ev) => (c', w, [SawEvent ev])
      | None => (c, w, [])
      end
  | CallPollTimeouts now => let '(c', ev) := check_timeouts c now in (c', w, [SawEvent ev])
  end.

Fixpoint run_calls (c : ClientEndpoint) (w : Wire) (calls : list cl_call)
    : ClientEndpoint * Wire * list observation :=
  match calls with
  | [] => (c, w, [])
  | call :: rest =>
      let '(c1, w1, l1) := run_call c w call in
      let '(c2, w2, l2) := run_calls c1 w1 rest in
      (c2, w2, l1 ++ l2)
  end.
End Runs.

(** ** The client side of the protocol, for one goal id *)

(** The phase of a goal and the number its next feedback must carry; an id the
    client does not know has none. *)
Abbreviation goal_view := (option (BindingState * Z)).

(** The phase after an event of the goal; [None] where the event may not be
    shown. *)
Definition after_event (phase : BindingState) (n : Z) (ev : ClientEvent) : option goal_view :=
  match ce_type ev, phase, ce_decision ev, ce_terminal_status ev with
  | ClientEventType_GOAL_RESPONSE, AWAITING_GOAL_RESPONSE, Decision_ACCEPTED, _ =>
      Some (Some (ACCEPTED, n))
  | ClientEventType_GOAL_RESPONSE, AWAITING_GOAL_RESPONSE, Decision_REJECTED, _ => Some None
  | ClientEventType_TIMEOUT, AWAITING_GOAL_RESPONSE, _, _ =>
      Some (Some (GOAL_RESPONSE_TIMED_OUT, n))
  | ClientEventType_CANCEL_RESPONSE, AWAITING_CANCEL_RESPONSE, Decision_ACCEPTED, _ =>
      Some (Some (CANCELING, n))
  | ClientEventType_CANCEL_RESPONSE, AWAITING_CANCEL_RESPONSE, Decision_REJECTED, _ =>
      Some (Some (ACCEPTED, n))
  | ClientEventType_FEEDBACK, (ACCEPTED | AWAITING_CANCEL_RESPONSE | CANCELING), _, _ =>
      if (ce_feedback_sequence ev =? n)%Z then Some (Some (phase, u32_succ n)) else None
  | ClientEventType_RESULT, (ACCEPTED | AWAITING_CANCEL_RESPONSE), _,
      (TerminalStatus_SUCCEEDED | TerminalStatus_ABORTED) => Some None
  | ClientEventType_RESULT, CANCELING, _,
      (TerminalStatus_CANCELED | TerminalStatus_ABORTED) => Some None
  | _, _, _, _ => None
  end.

(** The result of sending a goal, by whether its id was known: SUCCESS makes
    it known, DUPLICATE_GOAL is for a known id and every other error for an
    unknown one. *)
Definition after_send (r : GoalSendResult) (o : goal_view) : option goal_view :=
  match r, o with
  | GoalSendResult_SUCCESS, None => Some (Some (AWAITING_GOAL_RESPONSE, 0%Z))
  | GoalSendResult_DUPLICATE_GOAL, Some _ => Some o
  | (GoalSendResult_INVALID_ARGUMENT | GoalSendResult_NOT_INITIALIZED
     | GoalSendResult_NO_FREE_SLOT | GoalSendResult_INVALID_PACKET
     | GoalSendResult_TRANSPORT_ERROR), None => Some o
  | _, _ => None
  end.

(** One observation: those about another goal change nothing. *)
Definition observe (g : GoalId) (o : goal_view) (saw : observation) : option goal_view :=
  match saw with
  | SawSend g' r => if bool_decide (g' = g) then after_send r o else Some o
  | SawCancel g' ok =>
      if bool_decide (g' = g) && ok then
        match o with
        | Some (ACCEPTED, n) => Some (Some (AWAITING_CANCEL_RESPONSE, n))
        | _ => None
        end
      else Some o
  | SawEvent ev =>
      if bool_decide (ce_type ev <> ClientEventType_NONE)
         && bool_decide (cgh_goal_id (ce_goal ev) = g) then
        match o with
        | Some (phase, n) => after_event phase n ev
        | None => None
        end
      else Some o
  | SawReset => Some None
  end.

Fixpoint observe_all (g : GoalId) (o : goal_view) (seen : list observation)
    : option goal_view :=
  match seen with
  | [] => Some o
  | saw :: rest => o' ← observe g o saw; observe_all g o' rest
  end.

Lemma observe_all_app g o l l' :
  observe_all g o (l ++ l') = (o' ← observe_all g o l; observe_all g o' l').
Proof.
  revert o. induction l as [|saw l IH]; intros o; [done|]. cbn.
  destruct (observe g o saw); [apply IH|done].
Qed.

(** ** The endpoint keeps what the automaton computes *)

Section Simulation.
Context {P : PduPlatform} {HL : PduPlatformLaws P} {T : Transport}.

Definition binding_view (b : ClientPacketBinding) : BindingState * Z :=
  (cb_state b, cb_next_feedback_sequence b).

Definition view_of (c : ClientEndpoint) (g : GoalId) : goal_view :=
  binding_view <$> cl_packet_bindings c !! g.

Lemma poll_rule_after b ev o :
  poll_rule b ev o ->
  after_event (cb_state b) (cb_next_feedback_sequence b) ev = Some (binding_view <$> o).
Proof.
  unfold after_event. intros Hr.
  destruct Hr; repeat match goal with
    | H : _ \/ _ |- _ => destruct H
    | H : cb_state b = _ |- _ => rewrite H
    | H : ce_type ev = _ |- _ => rewrite H
    | H : ce_decision ev = _ |- _ => rewrite H
    | H : ce_terminal_status ev = _ |- _ => rewrite H
    end; try done; try (by destruct (ce_decision ev));
    match goal with H : ce_feedback_sequence ev = _ |- _ => rewrite H, Z.eqb_refl end;
    unfold binding_view; cbn;
    by match goal with H : cb_state b = _ |- _ => rewrite H end.
Qed.

(** The events of a poll, or of one of its sections. *)
Lemma poll_outcome_observed c c' ev g :
  poll_outcome (cl_packet_bindings c) (cl_packet_bindings c') ev ->
  observe g (view_of c g) (SawEvent ev) = Some (view_of c' g).
Proof.
  unfold view_of. intros [[-> ->]|(g0 & b & o & Hb & Hg & Ht & Hr & ->)]; [done|].
  cbn [observe]. rewrite Hg, (bool_decide_eq_true_2 _ Ht), lookup_partial_alter.
  cbn [cgh_goal_id andb]. destruct (decide (g0 = g)) as [->|Hne].
  - rewrite bool_decide_eq_true_2, Hb by done. by apply poll_rule_after.
  - by rewrite bool_decide_eq_false_2.
Qed.

Lemma send_goal_observed c w pdu g0 timeout now c' w' r h g :
  cl_wf c -> send_goal_with_result c w pdu g0 timeout now = (c', w', (r, h)) ->
  observe g (view_of c g) (SawSend g0 r) = Some (view_of c' g).
Proof.
  intros Hwf Hs. cbn [observe]. unfold view_of.
  assert (Hu : r <> GoalSendResult_DUPLICATE_GOAL -> cl_packet_bindings c !! g0 = None).
  { intros Hr. revert Hs. unfold send_goal_with_result, reserve_goal.
    destruct (cl_packet_bindings c !! g0) as [b|] eqn:Hb; [|done].
    rewrite (wf_valid c Hwf _ _ Hb). destruct (cl_initialized c) eqn:Hi; cbn [negb].
    - rewrite bool_decide_eq_true_2 by done. by intros [= <- <- <- <-].
    - by rewrite (proj2 (cl_uninit_no_bindings c Hwf Hi)) in Hb. }
  apply send_goal_cases in Hs as [(Hr & -> & _ & Hm)|(-> & _ & s & Hs & _)]; [| |done].
  - destruct (bool_decide_reflect (g0 = g)) as [->|_]; [|done].
    destruct r; try done; try (by rewrite Hu). by destruct Hm as [_ [b ->]].
  - apply reserve_goal_spec in Hs as (_ & _ & _ & Hn & _ & _ & ->); [|done]. cbn.
    rewrite lookup_insert. destruct (bool_decide_reflect (g0 = g)) as [->|Hne].
    + by rewrite Hn, decide_True.
    + by rewrite decide_False.
Qed.

Lemma send_cancel_observed c w h c' w' ok g :
  send_cancel c w h = (c', w', ok) ->
  observe g (view_of c g) (SawCancel (cgh_goal_id h) ok) = Some (view_of c' g).
Proof.
  intros Hs%send_cancel_cases. cbn [observe]. unfold view_of.
  destruct ok; [|rewrite andb_false_r; by destruct Hs as [-> _]].
  destruct Hs as (b & Hb & Hst & -> & _). cbn. rewrite lookup_insert, andb_true_r.
  destruct (bool_decide_reflect (cgh_goal_id h = g)) as [Heq|Hne].
  - subst g. rewrite Hb, decide_True by done. cbn. unfold binding_view. by rewrite Hst.
  - by rewrite decide_False.
Qed.

Lemma initialize_bindings c j :
  cl_packet_bindings (initialize c j).1 = cl_packet_bindings c.
Proof. unfold initialize. by repeat split_guard. Qed.

Lemma run_call_observed c w call c' w' l g :
  cl_wf c -> run_call c w call = (c', w', l) ->
  cl_wf c' /\ observe_all g (view_of c g) l = Some (view_of c' g).
Proof.
  assert (Hone : forall o saw o', observe g o saw = Some o' -> observe_all g o [saw] = Some o')
    by (intros o saw o' H; cbn; by rewrite H).
  intros Hwf. destruct call as [j|k d|pdu g0 t now|h|now| | | |pk|now]; cbn [run_call].
  - intros [= <- <- <-]. unfold view_of. rewrite initialize_bindings. split; [|done].
    by apply (initialize_wf c j _ (initialize c j).2 Hwf), surjective_pairing.
  - intros [= <- <- <-]. unfold view_of. rewrite deliver_bindings. by split; [apply deliver_wf|].
  - destruct (send_goal_with_result c w pdu g0 t now) as [[c1 w1] [r h]] eqn:Hs.
    intros [= <- <- <-]. split; [|by eapply Hone, send_goal_observed].
    eapply (run_op_wf c w (OpSendGoal pdu g0 t now)); [done|]. cbn. by rewrite Hs.
  - destruct (send_cancel c w h) as [[c1 w1] ok] eqn:Hs. intros [= <- <- <-].
    split; [|by eapply Hone, send_cancel_observed].
    eapply (run_op_wf c w (OpSendCancel h)); [done|]. cbn. by rewrite Hs.
  - destruct (poll c now) as [c1 ev] eqn:Hp. intros [= <- <- <-].
    split; [by eapply poll_wf|]. by eapply Hone, poll_outcome_observed, poll_rule_outcome.
  - intros [= <- <- <-]. by split; [apply set_packets_wf|].
  - intros [= <- <- <-]. by split; [apply cl_reset_contexts_wf|].
  - intros [= <- <- <-]. by split; [apply set_packets_wf|].
  - destruct (handle_packet c pk) as [[c1 ev]|] eqn:Hp; intros [= <- <- <-]; [|done].
    split; [by eapply handle_packet_wf|].
    by eapply Hone, poll_outcome_observed, handle_packet_rule.
  - destruct (check_timeouts c now) as [c1 ev] eqn:Hp. intros [= <- <- <-].
    split; [by eapply check_timeouts_wf|].
    by eapply Hone, poll_outcome_observed, check_timeouts_rule.
Qed.

Lemma run_calls_observed calls c w c' w' seen g :
  cl_wf c -> run_calls c w calls = (c', w', seen) ->
  observe_all g (view_of c g) seen = Some (view_of c' g).
Proof.
  revert c w seen. induction calls as [|call calls IH]; intros c w seen Hwf; cbn [run_calls].
  { by intros [= <- <- <-]. }
  destruct (run_call c w call) as [[c1 w1] l1] eqn:Hc.
  destruct (run_calls c1 w1 calls) as [[c2 w2] l2] eqn:Hr. intros [= <- <- <-].
  destruct (run_call_observed _ _ _ _ _ _ g Hwf Hc) as [Hwf1 Ho].
  rewrite observe_all_app, Ho. cbn. by eapply IH.
Qed.
End Simulation.

Import ConcretePdu Demo.

(** ** Properties *)

(** C12 — The client follows its side of the packet protocol: over any sequence
    of calls and deliveries, and of the critical sections of polls that other
    calls interrupt, an automaton that sees only the results of the calls and the
    polled events of one goal id never gets stuck and ends in the phase and the
    feedback number the endpoint keeps. A send succeeds only for an unknown id and
    reports a duplicate only for a known one; a cancel request succeeds only while
    the goal is accepted; GOAL_RESPONSE and TIMEOUT come only while the response is
    awaited, CANCEL_RESPONSE only after a successful cancel request that is not yet
    answered, FEEDBACK only after acceptance and with the next number, RESULT only
    with a status the phase allows; after a rejection or a Result nothing more until
    the id is sent again, and after a TIMEOUT nothing until a reset. *)
Theorem client_events_follow_protocol {P : PduPlatform} {HL : PduPlatformLaws P} {T : Transport}
    n a b calls c w seen g :
  run_calls (new_client_endpoint n a b) [] calls = (c, w, seen) ->
  observe_all g None seen = Some (view_of c g).
Proof.
  intros Hr. eapply run_calls_observed in Hr; [|apply new_client_endpoint_wf].
  revert Hr. unfold view_of at 1. cbn. by rewrite lookup_empty.
Qed.

(** Acceptance, a duplicate acceptance, a cancel request that is rejected, and
    feedback in and out of order. *)
Definition demo_calls : list cl_call :=
  [ CallInitialize (render_definition sample_definition);
    CallSendGoal goal_packet goal_1 1000 50; CallSendGoal goal_packet goal_1 1000 50;
    CallSendCancel handle_1;
    CallDeliver (mkPduResolvedKey "fib" 1) (response_packet 1 1 goal_1);
    CallDeliver (mkPduResolvedKey "fib" 1) (response_packet 1 1 goal_1);
    CallDeliver (mkPduResolvedKey "fib" 1) (response_packet 2 2 goal_1);
    CallDeliver (mkPduResolvedKey "fib" 2) (feedback_packet goal_1 0);
    CallDeliver (mkPduResolvedKey "fib" 2) (feedback_packet goal_1 7);
    CallPoll 60; CallSendCancel handle_1; CallPoll 60; CallPoll 60; CallPoll 60; CallPoll 60 ].

Lemma client_events_follow_protocol_witness :
  let r := run_calls fresh [] demo_calls in
  omap (fun saw => match saw with SawEvent ev => Some (ce_type ev) | _ => None end) r.2
    = [ClientEventType_GOAL_RESPONSE; ClientEventType_NONE; ClientEventType_CANCEL_RESPONSE;
       ClientEventType_FEEDBACK; ClientEventType_NONE]
  /\ observe_all goal_1 None r.2 = Some (view_of r.1.1 goal_1)
  /\ view_of r.1.1 goal_1 = Some (ACCEPTED, 1%Z).
Proof.
  split; [by vm_compute|]. split; [|by vm_compute].
  apply (client_events_follow_protocol "fib" true true demo_calls _ _ _ goal_1 (triple_eta _)).
Defined.
End ClientEpRuns.
