(* ===== verification/ClientContract.v ===== *)
(** * The client packet endpoint meets its interface

    [ActionClientEndpointImpl] is an instance of [IActionClientEndpoint], and
    its operations keep the contract [ClientEndpointSpec]. *)

From S2P Require Import Prelude ActionTypes ActionConfiguration PduPacket Routing.
From S2P Require Import ClientInterface ClientEndpoint ClientEndpointFacts ClientEndpointProps.
From Stdlib Require Import ZArith Lia.
From stdpp Require Import base gmap strings list sorting fin_maps relations.

Module ClientContract.
Import ClientIface ClientEp ClientEpFacts ClientEpProps.

Definition client_phase_of (s : BindingState) : client_phase :=
  match s with
  | AWAITING_GOAL_RESPONSE => WaitingResponse
  | GOAL_RESPONSE_TIMED_OUT => Quarantined
  | ACCEPTED => Running
  | AWAITING_CANCEL_RESPONSE => WaitingCancel
  | CANCELING => Cancelling
  end.

Definition client_abs (b : ClientPacketBinding) : client_phase * Z :=
  (client_phase_of (cb_state b), cb_next_feedback_sequence b).

Definition client_view_of (c : ClientEndpoint) : client_view :=
  client_abs <$> cl_packet_bindings c.

Section Contract.
Context {P : PduPlatform} {HL : PduPlatformLaws P} {T : Transport}.

#[export] Instance impl_client_endpoint : IActionClientEndpoint ClientEndpoint := {
  ic_make := new_client_endpoint;
  ic_initialize := initialize;
  ic_deliver := deliver;
  ic_send_goal := send_goal;
  ic_send_goal_with_result := send_goal_with_result;
  ic_send_cancel := send_cancel;
  ic_poll := poll;
  ic_create_goal_buffer := create_goal_buffer;
  ic_clear_pending_events := clear_pending_events;
  ic_reset_contexts := reset_contexts;
}.

(** A rule on bindings is a rule on their abstractions. *)
Lemma poll_rule_abs b ev o :
  poll_rule b ev o ->
  event_rule (cb_next_feedback_sequence b) ev (client_phase_of (cb_state b)) (client_abs <$> o).
Proof.
  destruct 1 as [Hs|Hs|Hs|Hs|Hs|[Hs|Hs]|Hs|[Hs|[Hs|Hs]]]; rewrite Hs;
    cbn; unfold client_abs; cbn; rewrite ?Hs; eauto with hako.
Qed.

Lemma poll_meets c now c' ev :
  cl_wf c -> poll c now = (c', ev) ->
  cl_wf c' /\ client_poll_effect (client_view_of c) ev (client_view_of c').
Proof.
  intros Hwf Hp. split; [by eapply poll_wf|].
  apply poll_rule_outcome in Hp as [[Hm ->]|(g & b & o & Hb & Hg & _ & Hr & Hm)];
    unfold client_view_of; rewrite Hm; [by left|].
  right. exists (client_phase_of (cb_state b)), (cb_next_feedback_sequence b), (client_abs <$> o).
  rewrite Hg. cbn. split_and!; [by rewrite lookup_fmap, Hb|by apply poll_rule_abs|].
  apply map_eq. intros g'. rewrite lookup_fmap, !lookup_partial_alter, lookup_fmap.
  by case_decide.
Qed.

Lemma send_goal_meets c w d g t now c' w' r h :
  cl_wf c -> send_goal_with_result c w d g t now = (c', w', (r, h)) ->
  cl_wf c' /\
  if bool_decide (r = GoalSendResult_SUCCESS)
  then client_view_of c !! g = None /\ h = mkClientGoalHandle g
       /\ client_view_of c' = <[g := (WaitingResponse, 0%Z)]> (client_view_of c)
  else client_view_of c' = client_view_of c.
Proof.
  intros Hwf Hs.
  destruct (send_goal_cases _ _ _ _ _ _ _ _ _ _ Hwf Hs)
    as [(Hr & -> & _)|(-> & -> & s & Hr & _)].
  - by rewrite bool_decide_eq_false_2.
  - rewrite bool_decide_eq_true_2 by done.
    apply reserve_goal_spec in Hr as (Hwf' & _ & _ & Hn & _ & _ & ->); [|done].
    split; [done|]. unfold client_view_of. cbn. by rewrite lookup_fmap, Hn, fmap_insert.
Qed.

Lemma send_cancel_meets c w h c' w' r :
  cl_wf c -> send_cancel c w h = (c', w', r) ->
  cl_wf c' /\
  if r
  then exists n, client_view_of c !! cgh_goal_id h = Some (Running, n)
       /\ client_view_of c' = <[cgh_goal_id h := (WaitingCancel, n)]> (client_view_of c)
  else client_view_of c' = client_view_of c.
Proof.
  intros Hwf Hs. apply send_cancel_cases in Hs. destruct r; [|by destruct Hs as [-> _]].
  destruct Hs as (b & Hb & Hst & -> & _). split.
  - eapply cl_put_binding_wf; eauto. cbn. by eapply wf_sequence.
  - exists (cb_next_feedback_sequence b). unfold client_view_of. cbn.
    rewrite lookup_fmap, Hb, fmap_insert. cbn. unfold client_abs. by rewrite Hst.
Qed.

#[export] Instance impl_client_endpoint_spec : ClientEndpointSpec ClientEndpoint.
Proof.
  refine {| cep_view := client_view_of; cep_inv := cl_wf |}; cbn.
  - intros n a b. split; [apply new_client_endpoint_wf|]. apply fmap_empty.
  - intros c j c' r Hwf Hi. destruct (initialize_wf _ _ _ _ Hwf Hi) as [Hwf' _].
    split; [done|]. revert Hi. unfold initialize.
    by repeat (split_guard; try by intros [= <- <-]).
  - intros k d c Hwf. split; [by apply deliver_wf|].
    unfold client_view_of. by rewrite deliver_bindings.
  - intros c g x Hwf. unfold client_view_of. rewrite lookup_fmap.
    destruct (cl_packet_bindings c !! g) eqn:Hb; [|done]. intros _. by eapply wf_valid.
  - exact send_goal_meets.
  - exact send_cancel_meets.
  - exact poll_meets.
  - intros c Hwf. split; [by apply set_packets_wf|done].
  - intros c Hwf. split; [by apply cl_reset_contexts_wf|]. apply fmap_empty.
Defined.
End Contract.
End ClientContract.
