(* ===== verification/NetworkFlow.v ===== *)
(** * Packets on their way

    One direction of a network between two endpoints: what the sender's
    transport accepted is in flight, waits in the receiver's queue, is behind an
    event the receiver showed, or is lost. Shared by the networks of Actions and
    of RPC, whose send records differ. *)

From S2P Require Import Prelude.
From Stdlib Require Import Lia.
From stdpp Require Import base list.

Section Flow.
Context {R Q E : Type} (ok : R -> bool).
Context (queued : Q -> R -> Prop) (shows : E -> R -> Prop).

(** The packets the transport accepted while the log grew from [w] to [w']. *)
Definition accepted_since (w w' : list R) : list R :=
  filter (fun rec => ok rec = true) (drop (length w) w').

(** Every packet is in one place; together they are a sub-multiset of what was
    sent. *)
Definition flow (queue : list Q) (shown : list E) (flight w : list R) : Prop :=
  exists ss qs, Forall2 shows shown ss /\ Forall2 queued queue qs
    /\ Forall (fun rec => ok rec = true) flight /\ ss ++ qs ++ flight ⊆+ w.

Lemma flow_nil : flow [] [] [] [].
Proof. by exists [], []. Qed.

(** New packets: [new] of the ones that were sent, all accepted, go on their
    way. *)
Lemma flow_new queue shown flight w new sent :
  flow queue shown flight w -> Forall (fun rec => ok rec = true) new -> new ⊆+ sent ->
  flow queue shown (flight ++ new) (w ++ sent).
Proof.
  intros (ss & qs & Hs & Hq & Hf & Hw) Hn Hsub. exists ss, qs. split_and!; [done|done|..].
  - by apply Forall_app.
  - rewrite !app_assoc. apply submseteq_app; [by rewrite <-app_assoc|done].
Qed.

Lemma accepted_since_app w new :
  accepted_since w (w ++ new) = filter (fun rec => ok rec = true) new.
Proof. unfold accepted_since. by rewrite drop_app_length. Qed.

Lemma filter_ok l : Forall (fun rec => ok rec = true) (filter (fun rec => ok rec = true) l).
Proof. apply Forall_forall. by intros x [? _]%list_elem_of_filter. Qed.

Lemma flow_send queue shown flight w w' :
  flow queue shown flight w -> w `prefix_of` w' ->
  flow queue shown (flight ++ accepted_since w w') w'.
Proof.
  intros Hf [new ->]. rewrite accepted_since_app. apply flow_new; [done|apply filter_ok|].
  apply sublist_submseteq. by apply sublist_filter.
Qed.

Lemma flow_lose queue shown flight w i :
  flow queue shown flight w -> flow queue shown (delete i flight) w.
Proof.
  intros (ss & qs & Hs & Hq & Hf & Hw). exists ss, qs. split_and!; [done|done|..].
  - by apply Forall_delete.
  - etrans; [|done]. apply submseteq_app, submseteq_app; try done.
    apply sublist_submseteq, sublist_delete.
Qed.

Lemma flow_enqueue queue shown flight w i rec q :
  flow queue shown flight w -> flight !! i = Some rec ->
  (ok rec = true -> queued q rec) ->
  flow (queue ++ [q]) shown (delete i flight) w.
Proof.
  intros (ss & qs & Hs & Hq & Hf & Hw) Hi Hr. exists ss, (qs ++ [rec]).
  split_and!; [done| |by apply Forall_delete|].
  - apply Forall2_app; [done|]. constructor; [|done]. apply Hr.
    by apply (Forall_lookup_1 _ _ _ _ Hf Hi).
  - etrans; [|done]. apply submseteq_app; [done|]. rewrite <-app_assoc.
    apply submseteq_app; [done|]. cbn. by rewrite <-delete_Permutation.
Qed.

Lemma flow_grow queue shown flight w w' :
  flow queue shown flight w -> w ⊆+ w' -> flow queue shown flight w'.
Proof.
  intros (ss & qs & Hs & Hq & Hf & Hw) Hsub. exists ss, qs. split_and!; try done. by etrans.
Qed.

Lemma flow_show_at i q queue shown ev flight w :
  flow queue shown flight w -> queue !! i = Some q ->
  (forall rec, queued q rec -> shows ev rec) ->
  flow (delete i queue) (shown ++ [ev]) flight w.
Proof.
  intros (ss & qs & Hs & Hq & Hf & Hw) Hi He.
  destruct (Forall2_lookup_l _ _ _ _ _ Hq Hi) as (rec & Hr & Hqr).
  exists (ss ++ [rec]), (delete i qs). split_and!; [|by apply Forall2_delete|done|].
  - apply Forall2_app; [done|]. constructor; auto.
  - etrans; [|done]. rewrite <-app_assoc. apply submseteq_app; [done|].
    rewrite app_assoc. apply submseteq_app; [|done]. cbn.
    by rewrite <-(delete_Permutation qs i rec Hr).
Qed.

Lemma flow_drop_at i queue shown flight w :
  flow queue shown flight w -> flow (delete i queue) shown flight w.
Proof.
  intros (ss & qs & Hs & Hq & Hf & Hw). exists ss, (delete i qs).
  split_and!; [done|by apply Forall2_delete|done|]. etrans; [|done].
  apply submseteq_app; [done|]. apply submseteq_app; [|done].
  apply sublist_submseteq, sublist_delete.
Qed.

Lemma flow_show q queue shown ev flight w :
  flow (q :: queue) shown flight w -> (forall rec, queued q rec -> shows ev rec) ->
  flow queue (shown ++ [ev]) flight w.
Proof. intros Hf He. exact (flow_show_at 0 q _ _ _ _ _ Hf eq_refl He). Qed.

Lemma flow_drop q queue shown flight w :
  flow (q :: queue) shown flight w -> flow queue shown flight w.
Proof. exact (flow_drop_at 0 (q :: queue) shown flight w). Qed.

Lemma flow_clear queue shown flight w :
  flow queue shown flight w -> flow [] shown flight w.
Proof. induction queue; eauto using flow_drop. Qed.

(** The packets behind the events shown so far. *)
Lemma flow_shown queue shown flight w :
  flow queue shown flight w -> exists ss, Forall2 shows shown ss /\ ss ⊆+ w.
Proof.
  intros (ss & qs & Hs & _ & _ & Hw). exists ss. split; [done|]. etrans; [|done].
  apply submseteq_inserts_r. done.
Qed.
End Flow.

(** ** Counting *)

Lemma filter_length_submseteq {A} (q : A -> bool) (l k : list A) :
  l ⊆+ k -> length (List.filter q l) <= length (List.filter q k).
Proof.
  induction 1 as [|x l k _ IH|x y l|x l k _ IH|l k m _ IH1 _ IH2]; cbn;
    [done|destruct (q x); cbn; lia|destruct (q x), (q y); cbn; lia|destruct (q x); cbn; lia|lia].
Qed.

(** Events of a kind are at most as many as the packets of the kind that
    raises them. *)
Lemma shown_count {E R} (shows : E -> R -> Prop) (p : E -> bool)
    (q : R -> bool) shown ss w :
  Forall2 shows shown ss -> ss ⊆+ w ->
  (forall ev rec, shows ev rec -> p ev = true -> q rec = true) ->
  length (List.filter p shown) <= length (List.filter q w).
Proof.
  intros Hs Hw Hpq. etrans; [|by apply filter_length_submseteq]. clear Hw.
  induction Hs as [|ev rec evs recs Her _ IH]; [done|]. cbn. specialize (Hpq _ _ Her).
  destruct (p ev); [rewrite Hpq by done; cbn; lia|]. destruct (q rec); cbn; lia.
Qed.

Lemma filter_weaken {A} (p f : A -> bool) l :
  (forall x, p x = true -> f x = true) -> List.filter p (List.filter f l) = List.filter p l.
Proof.
  intros Hpf. induction l as [|x l IH]; [done|]. cbn. specialize (Hpf x).
  destruct (f x); cbn; rewrite IH; [done|]. by destruct (p x); [discriminate Hpf|].
Qed.
