(* ===== verification/EndToEnd.v ===== *)
(** * Client and server together

    The packets one Action endpoint sends are the ones the other understands:
    requests a client sends raise the matching event at the server, and the
    server's decisions and results raise the matching event at the client, when
    the transport hands the sent bytes to the callbacks of the same key. *)

From S2P Require Import Prelude ActionTypes ActionConfiguration PduPacket Routing.
From S2P Require Import ServerInterface ServerEndpoint ServerEndpointFacts ServerEndpointProps.
From S2P Require Import ClientEndpoint ClientEndpointFacts ClientEndpointProps.
From Stdlib Require Import ZArith Lia.
From stdpp Require Import base gmap strings list fin_maps relations.

Module EndToEnd.
Import ActionConfig RoutingTable ServerIface.

(** A fold that ignores every element. *)
Lemma foldl_skip {A B} (f : A -> B -> A) a l :
  (forall x y, y ∈ l -> f x y = x) -> foldl f a l = a.
Proof.
  revert a. induction l as [|y l IH]; intros a Hf; [done|]. cbn.
  rewrite Hf by (apply elem_of_cons; by left). apply IH. intros x z Hz.
  apply Hf. apply elem_of_cons. by right.
Qed.

(** A fold in which only the element at [s] acts. *)
Lemma foldl_at {A B} (f : A -> B -> A) a l s y :
  l !! s = Some y -> (forall x j z, l !! j = Some z -> j <> s -> f x z = x) ->
  foldl f a l = f a y.
Proof.
  intros Hs Hf. rewrite <-(take_drop_middle l s y Hs) at 1. rewrite foldl_app. cbn.
  rewrite (foldl_skip f a).
  - apply foldl_skip. intros x z [j Hj]%list_elem_of_lookup.
    rewrite lookup_drop in Hj. apply (Hf x _ z Hj). lia.
  - intros x z [j Hj]%list_elem_of_lookup. apply lookup_take_Some in Hj as [Hj Hlt].
    apply (Hf x _ z Hj). lia.
Qed.

Section Wiring.
Context {P : PduPlatform} {HL : PduPlatformLaws P}.

(** The routing table both endpoints have built. *)
Definition routed (rs : list SlotRouting) : Prop :=
  exists name h, (Z.of_nat (length rs) <= max_slot_count)%Z
    /\ forall s r, rs !! s = Some r -> slot_routed name h s r.

Lemma routed_keys rs s s' r r' k k' :
  routed rs -> rs !! s = Some r -> rs !! s' = Some r' ->
  ServerEpProps.slot_key r k = ServerEpProps.slot_key r' k' -> s = s' /\ k = k'.
Proof.
  intros (name & h & Hl & Hr) Hs Hs'.
  apply ServerEpProps.slot_key_inj with name h; [by apply Hr|by apply Hr|..];
    [apply lookup_lt_Some in Hs|apply lookup_lt_Some in Hs']; lia.
Qed.

Lemma server_deliver e s r data :
  routed (ServerEp.ep_slot_routing e) -> ServerEp.ep_initialized e = true ->
  ServerEp.ep_slot_routing e !! s = Some r ->
  ServerEp.deliver (rt_request r) data e
  = ServerEp.set_queues (ServerEp.ep_pending_events e)
      (ServerEp.ep_pending_packets e ++ [ServerEp.mkPendingPacket s data]) e.
Proof.
  intros Hr Hi Hs. unfold ServerEp.deliver. rewrite Hi. cbn [negb].
  rewrite (foldl_at _ _ _ s r Hs).
  - rewrite bool_decide_eq_true_2 by done. destruct Hr as (name & h & _ & Hr).
    by rewrite (sr_index _ _ _ _ (Hr _ _ Hs)).
  - intros x j z Hj Hne. rewrite bool_decide_eq_false_2; [done|]. intros Heq.
    destruct (routed_keys _ _ _ _ _ ActionChannelKind_REQUEST ActionChannelKind_REQUEST
                Hr Hj Hs Heq). done.
Qed.

Lemma client_deliver_response c s r data :
  routed (ClientEp.cl_slot_routing c) -> ClientEp.cl_initialized c = true ->
  ClientEp.cl_slot_routing c !! s = Some r ->
  ClientEp.deliver (rt_response r) data c
  = ClientEp.set_packets (ClientEp.cl_pending_packets c
      ++ [ClientEp.mkPendingPacket s ClientEp.PendingPacketKind_RESPONSE data]) c.
Proof.
  intros Hr Hi Hs. unfold ClientEp.deliver. rewrite Hi. cbn [negb].
  assert (Hf : forall j z, ClientEp.cl_slot_routing c !! j = Some z ->
                           rt_feedback z <> rt_response r).
  { intros j z Hj Heq.
    by destruct (routed_keys _ _ _ _ _ ActionChannelKind_FEEDBACK ActionChannelKind_RESPONSE
                   Hr Hj Hs Heq). }
  rewrite (foldl_at _ _ _ s r Hs).
  - cbn zeta. rewrite (bool_decide_eq_true_2 (rt_response r = rt_response r)) by done.
    rewrite (bool_decide_eq_false_2 (rt_feedback _ = _)) by exact (Hf _ _ Hs). destruct Hr as (name & h & _ & Hr).
    by rewrite (sr_index _ _ _ _ (Hr _ _ Hs)).
  - intros x j z Hj Hne. cbn zeta. rewrite (bool_decide_eq_false_2 (rt_response z = _)).
    + by rewrite (bool_decide_eq_false_2 (rt_feedback _ = _)) by exact (Hf _ _ Hj).
    + intros Heq. destruct (routed_keys _ _ _ _ _ ActionChannelKind_RESPONSE
        ActionChannelKind_RESPONSE Hr Hj Hs Heq). done.
Qed.

Lemma client_deliver_feedback c s r data :
  routed (ClientEp.cl_slot_routing c) -> ClientEp.cl_initialized c = true ->
  ClientEp.cl_slot_routing c !! s = Some r ->
  ClientEp.deliver (rt_feedback r) data c
  = ClientEp.set_packets (ClientEp.cl_pending_packets c
      ++ [ClientEp.mkPendingPacket s ClientEp.PendingPacketKind_FEEDBACK data]) c.
Proof.
  intros Hr Hi Hs. unfold ClientEp.deliver. rewrite Hi. cbn [negb].
  assert (Hf : forall j z, ClientEp.cl_slot_routing c !! j = Some z ->
                           rt_response z <> rt_feedback r).
  { intros j z Hj Heq.
    by destruct (routed_keys _ _ _ _ _ ActionChannelKind_RESPONSE
                   ActionChannelKind_FEEDBACK Hr Hj Hs Heq). }
  rewrite (foldl_at _ _ _ s r Hs).
  - cbn zeta. rewrite (bool_decide_eq_true_2 (rt_feedback r = rt_feedback r)) by done.
    rewrite (bool_decide_eq_false_2 (rt_response _ = _)) by exact (Hf _ _ Hs).
    destruct Hr as (name & h & _ & Hr). by rewrite (sr_index _ _ _ _ (Hr _ _ Hs)).
  - intros x j z Hj Hne. cbn zeta. rewrite (bool_decide_eq_false_2 (rt_feedback z = _)).
    + by rewrite (bool_decide_eq_false_2 (rt_response _ = _)) by exact (Hf _ _ Hj).
    + intros Heq. destruct (routed_keys _ _ _ _ _ ActionChannelKind_FEEDBACK
        ActionChannelKind_FEEDBACK Hr Hj Hs Heq). done.
Qed.

(** ** Requests arrive *)

Lemma request_decodes e s r data g kind :
  ServerEp.ep_slot_routing e !! s = Some r ->
  receivable data (rt_request_packet_base_size r) (rt_request_heap_capacity r)
    sizeof_ActionRequestHeader ->
  pdu2cpp_ActionRequestHeader data
    = Some (mkActionRequestHeader ACTION_PROTOCOL_VERSION kind [0; 0]%Z g) ->
  kind = REQUEST_KIND_GOAL \/ kind = REQUEST_KIND_CANCEL -> is_valid_goal_id g = true ->
  ServerEpProps.decodes e (ServerEp.mkPendingPacket s data) r
    (mkActionRequestHeader ACTION_PROTOCOL_VERSION kind [0; 0]%Z g).
Proof.
  intros Hr [Hv Hp] Hh Hk Hg. split_and!; [done|by eexists| |].
  - unfold ServerEp.decode_request_header. cbn. by rewrite Hp.
  - unfold ServerEp.validate_request_header. by destruct Hk as [-> | ->].
Qed.

(** ** Responses arrive *)

Lemma client_receives_response c s r data hd b :
  ClientEp.cl_slot_routing c !! s = Some r ->
  receivable data (rt_response_packet_base_size r) (rt_response_heap_capacity r)
    sizeof_ActionResponseHeader ->
  pdu2cpp_ActionResponseHeader data = Some hd ->
  arp_version hd = ACTION_PROTOCOL_VERSION -> is_valid_goal_id (arp_goal_id hd) = true ->
  ClientEp.cl_packet_bindings c !! arp_goal_id hd = Some b -> ClientEp.cb_slot_index b = s ->
  ClientEp.handle_response c
    (ClientEp.mkPendingPacket s ClientEp.PendingPacketKind_RESPONSE data)
  = ClientEp.apply_response c hd b data.
Proof.
  intros Hr [Hv Hp] Hh Hver Hg Hb Hsl. unfold ClientEp.handle_response. cbn.
  rewrite Hr, ClientEpFacts.client_validate_same, Hv.
  unfold ClientEp.decode_response_header.
  change ClientEp.valid_packet_prefix with has_valid_packet_prefix.
  rewrite Hp. cbn [negb]. rewrite Hh, Hver, Hg, Hb. cbn.
  by rewrite bool_decide_eq_true_2.
Qed.

(** A request packet waiting at the head of an empty queue raises its event. *)
Lemma server_receives_goal {T : Transport} e w s r data g :
  ServerEpFacts.ep_wf e -> routed (ServerEp.ep_slot_routing e) ->
  ServerEp.ep_initialized e = true -> ServerEp.ep_pending_packets e = [] ->
  ServerEp.ep_slot_routing e !! s = Some r ->
  receivable data (rt_request_packet_base_size r) (rt_request_heap_capacity r)
    sizeof_ActionRequestHeader ->
  pdu2cpp_ActionRequestHeader data
    = Some (mkActionRequestHeader ACTION_PROTOCOL_VERSION REQUEST_KIND_GOAL [0; 0]%Z g) ->
  is_valid_goal_id g = true -> ServerEp.ep_packet_bindings e !! g = None ->
  ServerEp.ep_slot_owners e !! s = Some None ->
  ServerEp.poll (ServerEp.deliver (rt_request r) data e) w
  = (ServerEp.set_goals (<[s := Some g]> (ServerEp.ep_slot_owners e))
       (<[g := ServerEp.mkActionPacketBinding g s ServerEp.AWAITING_GOAL_DECISION 0 false]>
          (ServerEp.ep_packet_bindings e)) (ServerEp.set_queues [] [] e),
     w, ServerEp.goal_event ServerEventType_GOAL_REQUEST e g data).
Proof.
  intros Hwf Hrt Hi Hq Hr Hrec Hd Hg Hn Ho. rewrite (server_deliver e s r data) by done.
  rewrite Hq, (ServerEpFacts.wf_events e Hwf). cbn [app].
  erewrite ServerEpProps.poll_decoded;
    [|by apply ServerEpFacts.set_queues_wf|exact Hi|reflexivity
     |apply (request_decodes _ s r data g REQUEST_KIND_GOAL); eauto].
  cbn. unfold ServerEp.handle_goal_packet. cbn. rewrite Hn.
  rewrite bool_decide_eq_false_2 by (by intros [? ?]). by rewrite Ho.
Qed.

(** A response packet waiting at the head of an empty queue is applied,
    whatever the clock says. *)
Lemma client_polls_response c s r data hd b now res :
  routed (ClientEp.cl_slot_routing c) -> ClientEp.cl_initialized c = true ->
  ClientEp.cl_pending_packets c = [] -> ClientEp.cl_slot_routing c !! s = Some r ->
  receivable data (rt_response_packet_base_size r) (rt_response_heap_capacity r)
    sizeof_ActionResponseHeader ->
  pdu2cpp_ActionResponseHeader data = Some hd ->
  arp_version hd = ACTION_PROTOCOL_VERSION -> is_valid_goal_id (arp_goal_id hd) = true ->
  ClientEp.cl_packet_bindings c !! arp_goal_id hd = Some b -> ClientEp.cb_slot_index b = s ->
  ClientEp.apply_response c hd b data = Some res ->
  ClientEp.poll (ClientEp.deliver (rt_response r) data c) now = res.
Proof.
  intros Hrt Hi Hq Hr Hrec Hd Hv Hg Hb Hs Ha. rewrite (client_deliver_response c s r data) by done.
  assert (Hc : ClientEp.set_packets [] c = c) by (destruct c; cbn in *; by subst).
  rewrite Hq. unfold ClientEp.poll. cbn. change (ClientEp.set_packets [] _) with (ClientEp.set_packets [] c).
  rewrite Hc. by rewrite (client_receives_response c s r data hd b), Ha.
Qed.

(** Reachable endpoints are well formed and routed. *)
Lemma server_reachable {T : Transport} n a b e w :
  rtc ServerEpFacts.ep_step (ServerEp.new_server_endpoint n a b, []) (e, w) ->
  ServerEpFacts.ep_wf e /\ routed (ServerEp.ep_slot_routing e).
Proof.
  intros Hr. assert (Hg : forall x y, rtc ServerEpFacts.ep_step x y ->
    ServerEpProps.trace_inv x.1 x.2 -> ServerEpProps.trace_inv y.1 y.2).
  { induction 1; eauto using ServerEpProps.trace_inv_ep_step. }
  apply Hg in Hr as [Hwf Hrt _ _]; [|apply ServerEpProps.new_trace_inv]. by split.
Qed.

(** ** Replies to a goal both sides keep on one slot *)

(** The decision a server takes on a new goal. *)
Definition decide_goal {T : Transport} (accept : bool) (e : ServerEp.ServerEndpoint)
    (w : Wire) (h : ServerGoalHandle) : ServerEp.ServerEndpoint * Wire * bool :=
  if accept then ServerEp.accept_goal e w h else ServerEp.reject_goal e w h.

Definition goal_decision (accept : bool) : ActionTypes.Decision :=
  if accept then Decision_ACCEPTED else Decision_REJECTED.

Lemma decide_goal_sends {T : Transport} accept e w h e' w' :
  ServerEpFacts.ep_wf e -> decide_goal accept e w h = (e', w', true) ->
  exists b r data,
    ServerEp.ep_packet_bindings e !! sgh_goal_id h = Some b
    /\ ServerEp.ep_slot_routing e !! ServerEp.pb_slot_index b = Some r
    /\ w' = w ++ [mkSendRecord (rt_response r) data true]
    /\ receivable data (rt_response_packet_base_size r) (rt_response_heap_capacity r)
         sizeof_ActionResponseHeader
    /\ pdu2cpp_ActionResponseHeader data
       = Some (mkActionResponseHeader ACTION_PROTOCOL_VERSION RESPONSE_KIND_GOAL
                 (Decision_to_u8 (goal_decision accept)) 0 (sgh_goal_id h)).
Proof.
  intros Hwf Hd.
  destruct (ServerEpProps.decision_sends
    (if accept then ServerEpFacts.ReplyAcceptGoal else ServerEpFacts.ReplyRejectGoal)
    RESPONSE_KIND_GOAL (Decision_to_u8 (goal_decision accept)) e w h e' w')
    as (b & Hf & Hs); [by destruct accept|by destruct accept|].
  apply ServerEpFacts.find_binding_Some in Hf as (_ & _ & Hb).
  destruct (ServerEpFacts.wf_owner e Hwf _ _ Hb) as [Hg _].
  apply ServerEpFacts.send_control_response_wire in Hs as (r & data & Hs).
  rewrite Hg in Hs. exists b, r, data. by destruct_and!.
Qed.

Lemma decide_goal_binding {T : Transport} accept e w h e' w' b :
  ServerEp.ep_packet_bindings e !! sgh_goal_id h = Some b ->
  decide_goal accept e w h = (e', w', true) ->
  ServerEp.ep_packet_bindings e' !! sgh_goal_id h
  = if accept then Some (ServerEp.set_pb_state ServerEp.GOAL_ACCEPTED b) else None.
Proof.
  intros Hb. destruct accept; cbn; unfold ServerEp.accept_goal, ServerEp.reject_goal;
    (destruct (ServerEp.find_binding e h) eqn:Hf; [|done]);
    apply ServerEpFacts.find_binding_Some in Hf as (_ & _ & Hf);
    rewrite Hb in Hf; injection Hf as <-; repeat (split_guard; try done);
    intros [= <- <-]; cbn; [apply lookup_insert_eq|apply lookup_delete_eq].
Qed.

Lemma complete_sends {T : Transport} e w h st d e' w' :
  ServerEpFacts.ep_wf e ->
  ServerEp.complete e w h st d = (e', w', CompleteResult_SENT) ->
  exists b r data,
    ServerEp.ep_packet_bindings e !! sgh_goal_id h = Some b
    /\ is_Some (ServerEp.validate_terminal_packet_locked e b st d)
    /\ ServerEp.ep_slot_routing e !! ServerEp.pb_slot_index b = Some r
    /\ w' = w ++ [mkSendRecord (rt_response r) data true]
    /\ receivable data (rt_response_packet_base_size r) (rt_response_heap_capacity r)
         sizeof_ActionResponseHeader
    /\ pdu2cpp_ActionResponseHeader data
       = Some (mkActionResponseHeader ACTION_PROTOCOL_VERSION RESPONSE_KIND_RESULT
                 (TerminalStatus_to_u8 st) 0 (sgh_goal_id h))
    /\ ServerEp.ep_packet_bindings e' = delete (sgh_goal_id h) (ServerEp.ep_packet_bindings e)
    /\ ServerEp.ep_slot_owners e'
       = <[ServerEp.pb_slot_index b := None]> (ServerEp.ep_slot_owners e).
Proof.
  intros Hwf. unfold ServerEp.complete.
  destruct (ServerEp.find_binding e h) as [b|] eqn:Hf; [|done].
  apply ServerEpFacts.find_binding_Some in Hf as (_ & _ & Hb).
  destruct (ServerEpFacts.wf_owner e Hwf _ _ Hb) as [Hg Ho].
  destruct (ServerEp.validate_terminal_packet_locked e b st d) eqn:Hv; [|done].
  destruct (ServerEp.send_response_packet _ _ _ _ _ _) as [w1 []] eqn:Hs; [|done].
  intros [= <- <-].
  apply ServerEpFacts.send_response_packet_wire in Hs as (r & data & Hr & Hw & Hrec & Hd).
  cbn in Hr, Hd. rewrite Hg in Hd. exists b, r, data. split_and!; try done.
  - cbn. by rewrite delete_insert_eq.
  - cbn. by rewrite bool_decide_eq_true_2.
Qed.

(** The client takes a goal decision while it awaits one. *)
Lemma apply_goal_decision c g b accept data :
  ClientEp.cb_state b = ClientEp.AWAITING_GOAL_RESPONSE ->
  ClientEp.apply_response c
    (mkActionResponseHeader ACTION_PROTOCOL_VERSION RESPONSE_KIND_GOAL
       (Decision_to_u8 (goal_decision accept)) 0 g) b data
  = Some (if accept
          then ClientEp.put_binding g (ClientEp.set_cb_state ClientEp.ACCEPTED b) c
          else ClientEp.release_binding_locked c g b,
          ClientEp.response_event ClientEventType_GOAL_RESPONSE c g (goal_decision accept)
            TerminalStatus_UNSPECIFIED 0 data).
Proof. intros Hb. unfold ClientEp.apply_response. cbn. rewrite Hb. by destruct accept. Qed.

(** The phases in which the two sides agree on whether a cancel was granted. *)
Definition phases_agree (sb : ServerEp.ActionPacketBinding)
    (cb : ClientEp.ClientPacketBinding) : Prop :=
  (ServerEp.pb_state sb = ServerEp.GOAL_ACCEPTED
   /\ (ClientEp.cb_state cb = ClientEp.ACCEPTED
       \/ ClientEp.cb_state cb = ClientEp.AWAITING_CANCEL_RESPONSE))
  \/ (ServerEp.pb_state sb = ServerEp.CANCEL_ACCEPTED
      /\ ClientEp.cb_state cb = ClientEp.CANCELING).

Lemma apply_result e c g sb cb st d data :
  phases_agree sb cb -> is_Some (ServerEp.validate_terminal_packet_locked e sb st d) ->
  ClientEp.apply_response c
    (mkActionResponseHeader ACTION_PROTOCOL_VERSION RESPONSE_KIND_RESULT
       (TerminalStatus_to_u8 st) 0 g) cb data
  = Some (ClientEp.release_binding_locked c g cb,
          ClientEp.response_event ClientEventType_RESULT c g Decision_UNSPECIFIED st 0 data).
Proof.
  intros Ha [n Hv]. unfold ServerEp.validate_terminal_packet_locked in Hv.
  unfold ClientEp.apply_response. cbn.
  destruct Ha as [[Hs [Hc|Hc]]|[Hs Hc]]; rewrite Hs in Hv; rewrite Hc;
    destruct st; cbn in *; done.
Qed.

(** ** Cancel requests and feedback *)

(** A cancel request waiting at the head of an empty queue raises its event. *)
Lemma server_receives_cancel {T : Transport} e w s r data g b :
  ServerEpFacts.ep_wf e -> routed (ServerEp.ep_slot_routing e) ->
  ServerEp.ep_initialized e = true -> ServerEp.ep_pending_packets e = [] ->
  ServerEp.ep_slot_routing e !! s = Some r ->
  receivable data (rt_request_packet_base_size r) (rt_request_heap_capacity r)
    sizeof_ActionRequestHeader ->
  pdu2cpp_ActionRequestHeader data
    = Some (mkActionRequestHeader ACTION_PROTOCOL_VERSION REQUEST_KIND_CANCEL [0; 0]%Z g) ->
  ServerEp.ep_packet_bindings e !! g = Some b -> ServerEp.pb_slot_index b = s ->
  ServerEp.pb_state b = ServerEp.GOAL_ACCEPTED ->
  ServerEp.pb_cancel_decision_pending b = false ->
  ServerEp.poll (ServerEp.deliver (rt_request r) data e) w
  = (ServerEp.put_binding g (ServerEp.set_pb_cancel_decision_pending true b)
       (ServerEp.set_queues [] [] e), w,
     ServerEp.goal_event ServerEventType_CANCEL_REQUEST e g data).
Proof.
  intros Hwf Hrt Hi Hq Hr Hrec Hd Hb Hs Hst Hc. rewrite (server_deliver e s r data) by done.
  rewrite Hq, (ServerEpFacts.wf_events e Hwf). cbn [app].
  erewrite ServerEpProps.poll_decoded;
    [|by apply ServerEpFacts.set_queues_wf|exact Hi|reflexivity
     |apply (request_decodes _ s r data g REQUEST_KIND_CANCEL); eauto;
      by eapply ServerEpFacts.wf_valid].
  cbn. unfold ServerEp.handle_cancel_packet. cbn. by rewrite Hb, Hs, Hst, Hc, bool_decide_eq_true_2.
Qed.

(** The answer a server gives to a cancel request. *)
Definition decide_cancel {T : Transport} (accept : bool) (e : ServerEp.ServerEndpoint)
    (w : Wire) (h : ServerGoalHandle) : ServerEp.ServerEndpoint * Wire * bool :=
  if accept then ServerEp.accept_cancel e w h else ServerEp.reject_cancel e w h.

Lemma decide_cancel_sends {T : Transport} accept e w h e' w' b :
  ServerEpFacts.ep_wf e -> ServerEp.ep_packet_bindings e !! sgh_goal_id h = Some b ->
  decide_cancel accept e w h = (e', w', true) ->
  exists r data,
    ServerEp.ep_slot_routing e !! ServerEp.pb_slot_index b = Some r
    /\ w' = w ++ [mkSendRecord (rt_response r) data true]
    /\ receivable data (rt_response_packet_base_size r) (rt_response_heap_capacity r)
         sizeof_ActionResponseHeader
    /\ pdu2cpp_ActionResponseHeader data
       = Some (mkActionResponseHeader ACTION_PROTOCOL_VERSION RESPONSE_KIND_CANCEL
                 (Decision_to_u8 (goal_decision accept)) 0 (sgh_goal_id h))
    /\ ServerEp.ep_packet_bindings e' !! sgh_goal_id h
       = Some (ServerEp.set_pb_cancel_decision_pending false
                 (if accept then ServerEp.set_pb_state ServerEp.CANCEL_ACCEPTED b else b)).
Proof.
  intros Hwf Hb Hd. assert (Hbind : ServerEp.ep_packet_bindings e' !! sgh_goal_id h
       = Some (ServerEp.set_pb_cancel_decision_pending false
                 (if accept then ServerEp.set_pb_state ServerEp.CANCEL_ACCEPTED b else b))).
  { revert Hd. destruct accept; cbn; unfold ServerEp.accept_cancel, ServerEp.reject_cancel;
      rewrite (ServerEpFacts.find_binding_known _ _ _ Hwf Hb);
      repeat (split_guard; try done); intros [= <- <-]; cbn; apply lookup_insert_eq. }
  destruct (ServerEpProps.decision_sends
    (if accept then ServerEpFacts.ReplyAcceptCancel else ServerEpFacts.ReplyRejectCancel)
    RESPONSE_KIND_CANCEL (Decision_to_u8 (goal_decision accept)) e w h e' w')
    as (b' & Hf & Hs); [by destruct accept|by destruct accept|].
  apply ServerEpFacts.find_binding_Some in Hf as (_ & _ & Hb'). rewrite Hb in Hb'.
  injection Hb' as <-. destruct (ServerEpFacts.wf_owner e Hwf _ _ Hb) as [Hg _].
  apply ServerEpFacts.send_control_response_wire in Hs as (r & data & Hs).
  rewrite Hg in Hs. exists r, data. by destruct_and!.
Qed.

Lemma apply_cancel_decision c g b accept data :
  ClientEp.cb_state b = ClientEp.AWAITING_CANCEL_RESPONSE ->
  ClientEp.apply_response c
    (mkActionResponseHeader ACTION_PROTOCOL_VERSION RESPONSE_KIND_CANCEL
       (Decision_to_u8 (goal_decision accept)) 0 g) b data
  = Some (ClientEp.put_binding g
            (ClientEp.set_cb_state (if accept then ClientEp.CANCELING else ClientEp.ACCEPTED) b) c,
          ClientEp.response_event ClientEventType_CANCEL_RESPONSE c g (goal_decision accept)
            TerminalStatus_UNSPECIFIED 0 data).
Proof. intros Hb. unfold ClientEp.apply_response. cbn. rewrite Hb. by destruct accept. Qed.

(** A feedback packet waiting at the head of an empty queue raises its event,
    whatever the clock says. *)
Lemma client_polls_feedback c s r data hd b now :
  routed (ClientEp.cl_slot_routing c) -> ClientEp.cl_initialized c = true ->
  ClientEp.cl_pending_packets c = [] -> ClientEp.cl_slot_routing c !! s = Some r ->
  receivable data (rt_feedback_packet_base_size r) (rt_feedback_heap_capacity r)
    sizeof_ActionFeedbackHeader ->
  pdu2cpp_ActionFeedbackHeader data = Some hd ->
  afb_version hd = ACTION_PROTOCOL_VERSION -> is_valid_goal_id (afb_goal_id hd) = true ->
  ClientEp.cl_packet_bindings c !! afb_goal_id hd = Some b -> ClientEp.cb_slot_index b = s ->
  ClientEp.cb_state b = ClientEp.ACCEPTED
  \/ ClientEp.cb_state b = ClientEp.AWAITING_CANCEL_RESPONSE
  \/ ClientEp.cb_state b = ClientEp.CANCELING ->
  afb_sequence_no hd = ClientEp.cb_next_feedback_sequence b ->
  ClientEp.poll (ClientEp.deliver (rt_feedback r) data c) now
  = (ClientEp.put_binding (afb_goal_id hd)
       (ClientEp.set_cb_next_feedback_sequence
          (u32_succ (ClientEp.cb_next_feedback_sequence b)) b) c,
     ClientEp.response_event ClientEventType_FEEDBACK c (afb_goal_id hd)
       Decision_UNSPECIFIED TerminalStatus_UNSPECIFIED
       (ClientEp.cb_next_feedback_sequence b) data).
Proof.
  intros Hrt Hi Hq Hr [Hv Hp] Hh Hver Hg Hb Hsl Hst Hseq.
  rewrite (client_deliver_feedback c s r data) by done.
  assert (Hc : ClientEp.set_packets [] c = c) by (destruct c; cbn in *; by subst).
  rewrite Hq. unfold ClientEp.poll. cbn. change (ClientEp.set_packets [] _) with (ClientEp.set_packets [] c).
  rewrite Hc. unfold ClientEp.handle_feedback. cbn.
  rewrite Hr, ClientEpFacts.client_validate_same, Hv. unfold ClientEp.decode_feedback_header.
  change ClientEp.valid_packet_prefix with has_valid_packet_prefix.
  rewrite Hp. cbn [negb]. rewrite Hh, Hver, Hg, Hb, Hsl, Hseq, Z.eqb_refl. cbn.
  rewrite (bool_decide_eq_true_2 (s = s)) by done.
  destruct Hst as [Hx|[Hx|Hx]]; rewrite Hx, Z.eqb_refl; done.
Qed.
End Wiring.

Import ConcretePdu.
#[local] Existing Instance ServerEpProps.Demo.reliable.

(** ** Properties *)

(** C5 — The goal handshake works across both endpoints: when a client and a
    server built from one routing table have empty queues and every slot free at
    the client is free at the server, a goal the client sends successfully raises
    GOAL_REQUEST for it at the server with the bytes that were sent; and whatever
    the server then decides, if the reply is sent, the client's next poll raises
    GOAL_RESPONSE with that decision, and both sides keep the goal on the same
    slot as accepted, or both have forgotten it. *)
Theorem goal_handshake {P : PduPlatform} {HL : PduPlatformLaws P} {T : Transport}
    n a b e sw n' a' b' c cw pdu g timeout now c' cw' h :
  rtc ServerEpFacts.ep_step (ServerEp.new_server_endpoint n a b, []) (e, sw) ->
  rtc ClientEpFacts.cl_step (ClientEp.new_client_endpoint n' a' b') c ->
  ServerEp.ep_initialized e = true ->
  ClientEp.cl_slot_routing c = ServerEp.ep_slot_routing e ->
  ServerEp.ep_pending_packets e = [] -> ClientEp.cl_pending_packets c = [] ->
  ServerEp.ep_packet_bindings e !! g = None ->
  (forall s, ClientEp.cl_slot_owners c !! s = Some None ->
             ServerEp.ep_slot_owners e !! s = Some None) ->
  ClientEp.send_goal_with_result c cw pdu g timeout now
    = (c', cw', (GoalSendResult_SUCCESS, h)) ->
  exists s key data, cw' = cw ++ [mkSendRecord key data true] /\
    let '(e1, sw1, ev) := ServerEp.poll (ServerEp.deliver key data e) sw in
    sw1 = sw /\ ev = ServerEp.goal_event ServerEventType_GOAL_REQUEST e g data /\
    forall accept e2 sw2, decide_goal accept e1 sw1 (mkServerGoalHandle g) = (e2, sw2, true) ->
    exists key' data', sw2 = sw1 ++ [mkSendRecord key' data' true] /\
      forall now',
      let '(c2, cev) := ClientEp.poll (ClientEp.deliver key' data' c') now' in
      cev = ClientEp.response_event ClientEventType_GOAL_RESPONSE c g (goal_decision accept)
              TerminalStatus_UNSPECIFIED 0 data'
      /\ ClientEp.cl_packet_bindings c2 !! g
         = (if accept then Some (ClientEp.mkClientPacketBinding g s ClientEp.ACCEPTED
                                   now timeout 0) else None)
      /\ ServerEp.ep_packet_bindings e2 !! g
         = (if accept then Some (ServerEp.mkActionPacketBinding g s ServerEp.GOAL_ACCEPTED
                                   0 false) else None).
Proof.
  intros Hse Hcl%ClientEpFacts.cl_reachable_wf Hi Hrt Hq Hcq Hn Hfree Hs.
  apply server_reachable in Hse as [Hwf Hr].
  destruct (ClientEpProps.send_goal_cases _ _ _ _ _ _ _ _ _ _ Hcl Hs)
    as [(? & _)|(_ & _ & s & Hres & r & data & Hl & -> & Hrec & Hd)]; [done|].
  apply ClientEpFacts.reserve_goal_spec in Hres as (_ & Hg & Hci & _ & Hso & _ & ->); [|done].
  rewrite Hrt in Hl. exists s, (rt_request r), data. split; [done|].
  rewrite (server_receives_goal e sw s r data g) by auto. split_and!; [done|done|].
  set (e1 := ServerEp.set_goals _ _ _). intros accept e2 sw2 Hdec.
  assert (Hwf1 : ServerEpFacts.ep_wf e1)
    by (apply (ServerEpFacts.add_goal_wf (ServerEp.set_queues [] [] e));
        auto using ServerEpFacts.set_queues_wf).
  assert (Hb1 : ServerEp.ep_packet_bindings e1 !! g = Some (ServerEp.mkActionPacketBinding g s
                  ServerEp.AWAITING_GOAL_DECISION 0 false)) by apply lookup_insert_eq.
  pose proof (decide_goal_binding _ _ _ (mkServerGoalHandle g) _ _ _ Hb1 Hdec) as Hb2.
  apply decide_goal_sends in Hdec as (sb & r' & data' & Hsb & Hl' & -> & Hrec' & Hd'); [|done].
  cbn [sgh_goal_id] in Hsb. rewrite Hb1 in Hsb. injection Hsb as <-. cbn in Hl', Hd'.
  rewrite Hl in Hl'. injection Hl' as <-. exists (rt_response r), data'. split; [done|].
  intros now'. erewrite client_polls_response; cycle 1; [cbn; by rewrite Hrt|exact Hci|exact Hcq
    |cbn; by rewrite Hrt|exact Hrec'|exact Hd'|done|exact Hg|apply lookup_insert_eq|done
    |by apply apply_goal_decision|].
  cbn in Hb2. rewrite Hb2. split_and!; [done| |by destruct accept].
  destruct accept; cbn; [apply lookup_insert_eq|apply lookup_delete_eq].
Qed.

Lemma goal_handshake_witness :
  exists key data,
    (ClientEp.send_goal_with_result ClientEpProps.Demo.ready [] ClientEpProps.Demo.goal_packet
       ClientEpProps.Demo.goal_1 1000 50).1.2 = [mkSendRecord key data true]
    /\ se_type (ServerEp.poll (ServerEp.deliver key data ServerEpProps.Demo.ready) []).2
       = ServerEventType_GOAL_REQUEST.
Proof.
  destruct (goal_handshake _ _ _ ServerEpProps.Demo.ready [] _ _ _ ClientEpProps.Demo.ready []
    ClientEpProps.Demo.goal_packet ClientEpProps.Demo.goal_1 1000 50 ClientEpProps.Demo.sent
    (ClientEp.send_goal_with_result ClientEpProps.Demo.ready [] ClientEpProps.Demo.goal_packet
       ClientEpProps.Demo.goal_1 1000 50).1.2 ClientEpProps.Demo.handle_1
    ServerEpProps.Demo.ready_reachable ClientEpProps.Demo.client_ready_reachable
    ltac:(by vm_compute) ltac:(by vm_compute) ltac:(by vm_compute) ltac:(by vm_compute)
    ltac:(by vm_compute) ltac:(intros s Hs; exact Hs)
    ltac:(rewrite (triple_eta (ClientEp.send_goal_with_result _ _ _ _ _ _)); f_equal))
    as (s & key & data & Hw & H).
  exists key, data. split; [exact Hw|].
  destruct (ServerEp.poll _ _) as [[e1 sw1] ev]. destruct H as (_ & Hev & _).
  cbn [snd]. rewrite Hev. reflexivity.
Defined.

(** C6 — Results reach the client: when both sides keep a goal on one slot, with
    empty queues, and agree on whether a cancel was granted (the client may still
    be waiting for the answer to a cancel request), a completion the server
    reports as SENT raises RESULT with that terminal status at the client's next
    poll, whatever the clock says, and afterwards both have forgotten the goal
    and the slot is free on both sides. *)
Theorem result_arrives {P : PduPlatform} {HL : PduPlatformLaws P} {T : Transport}
    n a b e sw n' a' b' c g sb cb st d e' sw' :
  rtc ServerEpFacts.ep_step (ServerEp.new_server_endpoint n a b, []) (e, sw) ->
  rtc ClientEpFacts.cl_step (ClientEp.new_client_endpoint n' a' b') c ->
  ClientEp.cl_initialized c = true ->
  ClientEp.cl_slot_routing c = ServerEp.ep_slot_routing e ->
  ClientEp.cl_pending_packets c = [] ->
  ServerEp.ep_packet_bindings e !! g = Some sb ->
  ClientEp.cl_packet_bindings c !! g = Some cb ->
  ClientEp.cb_slot_index cb = ServerEp.pb_slot_index sb -> phases_agree sb cb ->
  ServerEp.complete e sw (mkServerGoalHandle g) st d = (e', sw', CompleteResult_SENT) ->
  exists key data, sw' = sw ++ [mkSendRecord key data true] /\
    forall now,
    let '(c', ev) := ClientEp.poll (ClientEp.deliver key data c) now in
    ev = ClientEp.response_event ClientEventType_RESULT c g Decision_UNSPECIFIED st 0 data
    /\ ClientEp.cl_packet_bindings c' !! g = None
    /\ ServerEp.ep_packet_bindings e' !! g = None
    /\ ClientEp.cl_slot_owners c' !! ClientEp.cb_slot_index cb = Some None
    /\ ServerEp.ep_slot_owners e' !! ServerEp.pb_slot_index sb = Some None.
Proof.
  intros Hse Hcl%ClientEpFacts.cl_reachable_wf Hci Hrt Hcq Hsb Hcb Hsl Hph Hco.
  apply server_reachable in Hse as [Hwf Hr].
  apply complete_sends in Hco
    as (sb' & r & data & Hsb' & Hv & Hl & -> & Hrec & Hd & Hbe & Hoe); [|done].
  cbn in Hsb', Hd, Hbe. rewrite Hsb in Hsb'. injection Hsb' as <-.
  exists (rt_response r), data. split; [done|]. intros now.
  erewrite client_polls_response; cycle 1; [by rewrite Hrt|exact Hci|exact Hcq
    |by rewrite Hrt|exact Hrec|exact Hd|done|by eapply ClientEpFacts.wf_valid|exact Hcb|done
    |by eapply apply_result|].
  split_and!; [done|cbn; apply lookup_delete_eq|rewrite Hbe; apply lookup_delete_eq|..].
  - rewrite ClientEpFacts.cl_release_binding_owners by done. apply list_lookup_insert_eq.
    destruct (ClientEpFacts.wf_owner c Hcl _ _ Hcb) as [_ Ho]. by eapply lookup_lt_Some.
  - rewrite Hoe. apply list_lookup_insert_eq.
    destruct (ServerEpFacts.wf_owner e Hwf _ _ Hsb) as [_ Ho]. by eapply lookup_lt_Some.
Qed.

Lemma result_arrives_witness :
  exists key data, forall now,
    ce_terminal_status (ClientEp.poll (ClientEp.deliver key data ClientEpProps.Demo.accepted) now).2
    = TerminalStatus_SUCCEEDED.
Proof.
  destruct (result_arrives _ _ _ _ _ _ _ _ ClientEpProps.Demo.accepted ServerEpProps.Demo.goal_1
    (ServerEp.mkActionPacketBinding ServerEpProps.Demo.goal_1 0 ServerEp.GOAL_ACCEPTED 0 false)
    (ClientEp.mkClientPacketBinding ServerEpProps.Demo.goal_1 0 ClientEp.ACCEPTED 50 1000 0)
    TerminalStatus_SUCCEEDED ServerEpProps.result_packet
    (ServerEp.complete ServerEpProps.Demo.accepted ServerEpProps.Demo.accepted_wire
       ServerEpProps.Demo.handle_1 TerminalStatus_SUCCEEDED ServerEpProps.result_packet).1.1
    (ServerEp.complete ServerEpProps.Demo.accepted ServerEpProps.Demo.accepted_wire
       ServerEpProps.Demo.handle_1 TerminalStatus_SUCCEEDED ServerEpProps.result_packet).1.2
    ServerEpProps.Demo.accepted_reachable ClientEpProps.Demo.client_accepted_reachable
    ltac:(by vm_compute) ltac:(by vm_compute) ltac:(by vm_compute) ltac:(by vm_compute)
    ltac:(by vm_compute) ltac:(by vm_compute) ltac:(left; split; [reflexivity|left; reflexivity])
    ltac:(rewrite (triple_eta (ServerEp.complete _ _ _ _ _)); f_equal))
    as (key & data & _ & H).
  exists key, data. intros now. specialize (H now).
  destruct (ClientEp.poll _ _) as [c' ev]. destruct H as (Hev & _). cbn [snd].
  rewrite Hev. reflexivity.
Defined.

(** C7 — The cancel handshake works across both endpoints: when both sides keep an
    accepted goal on one slot with empty queues and no cancel request is open, a
    cancel request the client sends successfully raises CANCEL_REQUEST for that
    goal at the server with the bytes that were sent; and whatever the server
    answers, if the reply is sent, the client's next poll raises CANCEL_RESPONSE
    with that answer, whatever the clock says, and both sides agree again on
    whether the goal is being canceled, on the same slot and with their feedback
    counters unchanged. *)
Theorem cancel_handshake {P : PduPlatform} {HL : PduPlatformLaws P} {T : Transport}
    n a b e sw n' a' b' c cw g sb cb c' cw' :
  rtc ServerEpFacts.ep_step (ServerEp.new_server_endpoint n a b, []) (e, sw) ->
  rtc ClientEpFacts.cl_step (ClientEp.new_client_endpoint n' a' b') c ->
  ServerEp.ep_initialized e = true -> ClientEp.cl_initialized c = true ->
  ClientEp.cl_slot_routing c = ServerEp.ep_slot_routing e ->
  ServerEp.ep_pending_packets e = [] -> ClientEp.cl_pending_packets c = [] ->
  ServerEp.ep_packet_bindings e !! g = Some sb ->
  ClientEp.cl_packet_bindings c !! g = Some cb ->
  ClientEp.cb_slot_index cb = ServerEp.pb_slot_index sb ->
  ServerEp.pb_state sb = ServerEp.GOAL_ACCEPTED ->
  ServerEp.pb_cancel_decision_pending sb = false ->
  ClientEp.send_cancel c cw (mkClientGoalHandle g) = (c', cw', true) ->
  exists key data, cw' = cw ++ [mkSendRecord key data true] /\
    let '(e1, sw1, ev) := ServerEp.poll (ServerEp.deliver key data e) sw in
    sw1 = sw /\ ev = ServerEp.goal_event ServerEventType_CANCEL_REQUEST e g data /\
    forall accept e2 sw2, decide_cancel accept e1 sw1 (mkServerGoalHandle g) = (e2, sw2, true) ->
    exists key' data' sb' cb', sw2 = sw1 ++ [mkSendRecord key' data' true]
      /\ ServerEp.ep_packet_bindings e2 !! g = Some sb'
      /\ (forall now, let '(c2, cev) := ClientEp.poll (ClientEp.deliver key' data' c') now in
            cev = ClientEp.response_event ClientEventType_CANCEL_RESPONSE c g
                    (goal_decision accept) TerminalStatus_UNSPECIFIED 0 data'
            /\ ClientEp.cl_packet_bindings c2 !! g = Some cb')
      /\ phases_agree sb' cb'
      /\ ServerEp.pb_slot_index sb' = ServerEp.pb_slot_index sb
      /\ ClientEp.cb_slot_index cb' = ClientEp.cb_slot_index cb
      /\ ServerEp.pb_next_feedback_sequence sb' = ServerEp.pb_next_feedback_sequence sb
      /\ ClientEp.cb_next_feedback_sequence cb' = ClientEp.cb_next_feedback_sequence cb.
Proof.
  intros Hse Hcl%ClientEpFacts.cl_reachable_wf Hi Hci Hrt Hq Hcq Hsb Hcb Hsl Hst Hpe Hs.
  apply server_reachable in Hse as [Hwf Hr].
  apply ClientEpProps.send_cancel_cases in Hs as (cb0 & Hcb0 & _ & -> & r & data & Hl & -> & Hrec & Hd).
  cbn in Hcb0, Hd. rewrite Hcb in Hcb0. injection Hcb0 as <-. rewrite Hrt, Hsl in Hl.
  exists (rt_request r), data. split; [done|].
  rewrite (server_receives_cancel e sw _ r data g sb) by done. split_and!; [done|done|].
  set (e1 := ServerEp.put_binding _ _ _). intros accept e2 sw2 Hdec.
  set (sb1 := ServerEp.set_pb_cancel_decision_pending true sb) in *.
  assert (Hwf1 : ServerEpFacts.ep_wf e1).
  { eapply (ServerEpFacts.put_binding_wf (ServerEp.set_queues [] [] e));
      [by apply ServerEpFacts.set_queues_wf|exact Hsb|done|done|done|].
    exact (ServerEpFacts.wf_sequence e Hwf g sb Hsb). }
  assert (Hb1 : ServerEp.ep_packet_bindings e1 !! g = Some sb1) by apply lookup_insert_eq.
  apply (decide_cancel_sends _ _ _ _ _ _ sb1) in Hdec
    as (r' & data' & Hl' & -> & Hrec' & Hd' & Hb2); [|done|done]. cbn in Hl', Hd', Hb2.
  rewrite Hl in Hl'. injection Hl' as <-. eexists (rt_response r), data', _, _.
  split_and!; [done|exact Hb2| |..].
  - intros now. erewrite client_polls_response; cycle 1; [cbn; by rewrite Hrt|exact Hci|exact Hcq
      |cbn; rewrite Hrt; exact Hl|exact Hrec'|exact Hd'|done|by eapply ClientEpFacts.wf_valid
      |apply lookup_insert_eq|exact Hsl|by apply apply_cancel_decision|].
    split; [done|]. apply lookup_insert_eq.
  - unfold phases_agree. destruct accept; cbn; [by right|]. left. split; [done|by left].
  - by destruct accept.
  - done.
  - by destruct accept.
  - done.
Qed.

Lemma cancel_handshake_witness :
  exists key data,
    (ClientEp.send_cancel ClientEpProps.Demo.accepted [] ClientEpProps.Demo.handle_1).1.2
      = [mkSendRecord key data true]
    /\ se_type (ServerEp.poll (ServerEp.deliver key data ServerEpProps.Demo.accepted)
                  ServerEpProps.Demo.accepted_wire).2 = ServerEventType_CANCEL_REQUEST.
Proof.
  destruct (cancel_handshake _ _ _ ServerEpProps.Demo.accepted ServerEpProps.Demo.accepted_wire
    _ _ _ ClientEpProps.Demo.accepted [] ServerEpProps.Demo.goal_1
    (ServerEp.mkActionPacketBinding ServerEpProps.Demo.goal_1 0 ServerEp.GOAL_ACCEPTED 0 false)
    (ClientEp.mkClientPacketBinding ServerEpProps.Demo.goal_1 0 ClientEp.ACCEPTED 50 1000 0)
    (ClientEp.send_cancel ClientEpProps.Demo.accepted [] ClientEpProps.Demo.handle_1).1.1
    (ClientEp.send_cancel ClientEpProps.Demo.accepted [] ClientEpProps.Demo.handle_1).1.2
    ServerEpProps.Demo.accepted_reachable ClientEpProps.Demo.client_accepted_reachable
    ltac:(by vm_compute) ltac:(by vm_compute) ltac:(by vm_compute) ltac:(by vm_compute)
    ltac:(by vm_compute) ltac:(by vm_compute) ltac:(by vm_compute) eq_refl eq_refl eq_refl
    ltac:(rewrite (triple_eta (ClientEp.send_cancel _ _ _)); f_equal))
    as (key & data & Hw & H).
  exists key, data. split; [exact Hw|].
  destruct (ServerEp.poll _ _) as [[e1 sw1] ev]. destruct H as (_ & Hev & _).
  cbn [snd]. rewrite Hev. reflexivity.
Defined.

(** C8 — Feedback arrives in step: when both sides keep a goal on one slot, agree on
    whether a cancel was granted and on the next feedback number, a feedback the
    server sends successfully raises FEEDBACK with exactly that number and the
    bytes that were sent at the client's next poll, whatever the clock says, and
    both sides then agree on the next number again. *)
Theorem feedback_arrives {P : PduPlatform} {HL : PduPlatformLaws P} {T : Transport}
    n a b e sw n' a' b' c g sb cb d e' sw' :
  rtc ServerEpFacts.ep_step (ServerEp.new_server_endpoint n a b, []) (e, sw) ->
  rtc ClientEpFacts.cl_step (ClientEp.new_client_endpoint n' a' b') c ->
  ClientEp.cl_initialized c = true ->
  ClientEp.cl_slot_routing c = ServerEp.ep_slot_routing e ->
  ClientEp.cl_pending_packets c = [] ->
  ServerEp.ep_packet_bindings e !! g = Some sb ->
  ClientEp.cl_packet_bindings c !! g = Some cb ->
  ClientEp.cb_slot_index cb = ServerEp.pb_slot_index sb -> phases_agree sb cb ->
  ClientEp.cb_next_feedback_sequence cb = ServerEp.pb_next_feedback_sequence sb ->
  ServerEp.send_feedback e sw (mkServerGoalHandle g) d = (e', sw', true) ->
  exists key data, sw' = sw ++ [mkSendRecord key data true] /\
    forall now,
    let '(c', ev) := ClientEp.poll (ClientEp.deliver key data c) now in
    let next := u32_succ (ServerEp.pb_next_feedback_sequence sb) in
    ev = ClientEp.response_event ClientEventType_FEEDBACK c g Decision_UNSPECIFIED
           TerminalStatus_UNSPECIFIED (ServerEp.pb_next_feedback_sequence sb) data
    /\ ServerEp.ep_packet_bindings e' !! g
       = Some (ServerEp.set_pb_next_feedback_sequence next sb)
    /\ ClientEp.cl_packet_bindings c' !! g
       = Some (ClientEp.set_cb_next_feedback_sequence next cb).
Proof.
  intros Hse Hcl%ClientEpFacts.cl_reachable_wf Hci Hrt Hcq Hsb Hcb Hsl Hph Hseq Hfb.
  apply server_reachable in Hse as [Hwf Hr].
  apply ServerEpFacts.send_feedback_wire in Hfb
    as (sb' & r & data & Hsb' & Hl & -> & Hrec & Hd & ->).
  cbn in Hsb', Hd. rewrite Hsb in Hsb'. injection Hsb' as <-.
  exists (rt_feedback r), data. split; [done|]. intros now.
  erewrite client_polls_feedback; cycle 1; [by rewrite Hrt|exact Hci|exact Hcq
    |rewrite Hrt; exact Hl|exact Hrec|exact Hd|done|by eapply ClientEpFacts.wf_valid|exact Hcb
    |exact Hsl|destruct Hph as [[_ [?|?]]|[_ ?]]; auto|exact (eq_sym Hseq)|].
  rewrite Hseq. split_and!; [done|apply lookup_insert_eq..].
Qed.

Lemma feedback_arrives_witness :
  exists key data, forall now,
    ce_type (ClientEp.poll (ClientEp.deliver key data ClientEpProps.Demo.accepted) now).2
    = ClientEventType_FEEDBACK.
Proof.
  destruct (feedback_arrives _ _ _ _ _ _ _ _ ClientEpProps.Demo.accepted ServerEpProps.Demo.goal_1
    (ServerEp.mkActionPacketBinding ServerEpProps.Demo.goal_1 0 ServerEp.GOAL_ACCEPTED 0 false)
    (ClientEp.mkClientPacketBinding ServerEpProps.Demo.goal_1 0 ClientEp.ACCEPTED 50 1000 0)
    ServerEpProps.feedback_packet
    (ServerEp.send_feedback ServerEpProps.Demo.accepted ServerEpProps.Demo.accepted_wire
       ServerEpProps.Demo.handle_1 ServerEpProps.feedback_packet).1.1
    (ServerEp.send_feedback ServerEpProps.Demo.accepted ServerEpProps.Demo.accepted_wire
       ServerEpProps.Demo.handle_1 ServerEpProps.feedback_packet).1.2
    ServerEpProps.Demo.accepted_reachable ClientEpProps.Demo.client_accepted_reachable
    ltac:(by vm_compute) ltac:(by vm_compute) ltac:(by vm_compute) ltac:(by vm_compute)
    ltac:(by vm_compute) ltac:(by vm_compute) ltac:(left; split; [reflexivity|left; reflexivity])
    eq_refl ltac:(rewrite (triple_eta (ServerEp.send_feedback _ _ _ _)); f_equal))
    as (key & data & _ & H).
  exists key, data. intros now. specialize (H now).
  destruct (ClientEp.poll _ _) as [c' ev]. destruct H as (Hev & _). cbn [snd].
  rewrite Hev. reflexivity.
Defined.
End EndToEnd.
