(* ===== verification/ActionNetwork.v ===== *)
(** * A client and a server over an unreliable network

    One [ActionClientEndpointImpl] and one [ActionServerEndpointImpl] of the
    same Action, called in any order by their applications, with a transport
    between them that delays, reorders and loses packets but neither invents,
    alters nor duplicates them. A packet the transport accepted ([send]
    returned [HAKO_PDU_ERR_OK]) is in flight until it is handed to the
    callback of its key at the other side, or lost. *)

From S2P Require Import Prelude ActionTypes ActionConfiguration PduPacket Routing.
From S2P Require Import NetworkFlow ServerInterface ServerEndpoint ServerEndpointFacts ServerEndpointProps.
From S2P Require Import ClientEndpoint ClientEndpointFacts ClientEndpointProps EndToEnd.
From Stdlib Require Import ZArith Lia.
From stdpp Require Import base gmap strings list fin_maps relations.

Module ActionNetwork.
Import ActionConfig RoutingTable ServerIface ServerEpFacts.

(** ** State and steps *)

Record network := mkNetwork {
  nw_client : ClientEp.ClientEndpoint;
  nw_client_wire : Wire;
  nw_server : ServerEp.ServerEndpoint;
  nw_server_wire : Wire;
  nw_to_server : list SendRecord;
  nw_to_client : list SendRecord;
  nw_client_events : list ClientEvent;
  nw_server_events : list ServerEvent;
}.

(** The calls of the server's application. *)
Inductive server_op :=
  | SrvPoll
  | SrvReply (op : ServerEpFacts.reply_op) (h : ServerGoalHandle)
  | SrvAcceptCancelLocally (h : ServerGoalHandle)
  | SrvComplete (h : ServerGoalHandle) (status : TerminalStatus) (pdu : PduData)
  | SrvCompleteLocally (h : ServerGoalHandle) (status : TerminalStatus) (pdu : PduData)
  | SrvDiscard (h : ServerGoalHandle)
  | SrvClear
  | SrvReset.

(** What can happen next: a call at one of the two applications, the transport
    handing over the [i]-th packet in flight, or losing it. *)
Inductive net_op :=
  | NetSendGoal (pdu : PduData) (g : GoalId) (timeout_usec now : Z)
  | NetSendCancel (h : ClientGoalHandle)
  | NetClientPoll (now : Z)
  | NetClientClear
  | NetClientReset
  | NetServer (op : server_op)
  | NetDeliverToServer (i : nat)
  | NetDeliverToClient (i : nat)
  | NetLoseToServer (i : nat)
  | NetLoseToClient (i : nat).

Section Steps.
Context {P : PduPlatform} {T : Transport}.

Definition run_server_op (e : ServerEp.ServerEndpoint) (w : Wire) (op : server_op)
    : ServerEp.ServerEndpoint * Wire * list ServerEvent :=
  match op with
  | SrvPoll => let '(e', w', ev) := ServerEp.poll e w in (e', w', [ev])
  | SrvReply op h => let '(e', w', _) := ServerEpFacts.run_reply op e w h in (e', w', [])
  | SrvAcceptCancelLocally h => ((ServerEp.accept_cancel_locally e h).1, w, [])
  | SrvComplete h st d => let '(e', w', _) := ServerEp.complete e w h st d in (e', w', [])
  | SrvCompleteLocally h st d => ((ServerEp.complete_locally e h st d).1, w, [])
  | SrvDiscard h => ((ServerEp.discard_pending_goal e h).1, w, [])
  | SrvClear => (ServerEp.clear_pending_events e, w, [])
  | SrvReset => (ServerEp.reset_contexts e, w, [])
  end.

Definition after_client (n : network)
    (r : ClientEp.ClientEndpoint * Wire * list ClientEvent) : network :=
  let '(c', w', evs) := r in
  mkNetwork c' w' (nw_server n) (nw_server_wire n)
    (nw_to_server n ++ accepted_since sr_ok (nw_client_wire n) w') (nw_to_client n)
    (nw_client_events n ++ evs) (nw_server_events n).

Definition after_server (n : network)
    (r : ServerEp.ServerEndpoint * Wire * list ServerEvent) : network :=
  let '(e', w', evs) := r in
  mkNetwork (nw_client n) (nw_client_wire n) e' w' (nw_to_server n)
    (nw_to_client n ++ accepted_since sr_ok (nw_server_wire n) w')
    (nw_client_events n) (nw_server_events n ++ evs).

Definition deliver_to_server (n : network) (i : nat) : network :=
  match nw_to_server n !! i with
  | None => n
  | Some rec =>
      mkNetwork (nw_client n) (nw_client_wire n)
        (ServerEp.deliver (sr_key rec) (sr_data rec) (nw_server n)) (nw_server_wire n)
        (delete i (nw_to_server n)) (nw_to_client n)
        (nw_client_events n) (nw_server_events n)
  end.

Definition deliver_to_client (n : network) (i : nat) : network :=
  match nw_to_client n !! i with
  | None => n
  | Some rec =>
      mkNetwork (ClientEp.deliver (sr_key rec) (sr_data rec) (nw_client n))
        (nw_client_wire n) (nw_server n) (nw_server_wire n)
        (nw_to_server n) (delete i (nw_to_client n))
        (nw_client_events n) (nw_server_events n)
  end.

Definition lose_to_server (n : network) (i : nat) : network :=
  mkNetwork (nw_client n) (nw_client_wire n) (nw_server n) (nw_server_wire n)
    (delete i (nw_to_server n)) (nw_to_client n) (nw_client_events n) (nw_server_events n).

Definition lose_to_client (n : network) (i : nat) : network :=
  mkNetwork (nw_client n) (nw_client_wire n) (nw_server n) (nw_server_wire n)
    (nw_to_server n) (delete i (nw_to_client n)) (nw_client_events n) (nw_server_events n).

Definition run_net_op (n : network) (op : net_op) : network :=
  let client := ClientEpProps.run_op (nw_client n) (nw_client_wire n) in
  match op with
  | NetSendGoal pdu g timeout now =>
      after_client n (client (ClientEpProps.OpSendGoal pdu g timeout now))
  | NetSendCancel h => after_client n (client (ClientEpProps.OpSendCancel h))
  | NetClientPoll now => after_client n (client (ClientEpProps.OpPoll now))
  | NetClientClear => after_client n (client ClientEpProps.OpClear)
  | NetClientReset =>
      after_client n (ClientEp.reset_contexts (nw_client n), nw_client_wire n, [])
  | NetServer op => after_server n (run_server_op (nw_server n) (nw_server_wire n) op)
  | NetDeliverToServer i => deliver_to_server n i
  | NetDeliverToClient i => deliver_to_client n i
  | NetLoseToServer i => lose_to_server n i
  | NetLoseToClient i => lose_to_client n i
  end.

Definition run_net (n : network) (ops : list net_op) : network := foldl run_net_op n ops.

(** Two endpoints of one Action, constructed and initialised from one
    definition, with nothing sent yet. *)
Definition network_start (c : ClientEp.ClientEndpoint) (e : ServerEp.ServerEndpoint)
    : network :=
  mkNetwork c [] e [] [] [] [] [].
End Steps.

(** ** Where events come from *)

Section Provenance.
Context {P : PduPlatform}.

(** The channel of a routing entry a queued packet of the client came by. *)
Definition packet_key (r : SlotRouting) (k : ClientEp.PendingPacketKind) : PduResolvedKey :=
  match k with
  | ClientEp.PendingPacketKind_RESPONSE => rt_response r
  | ClientEp.PendingPacketKind_FEEDBACK => rt_feedback r
  end.

Definition client_queued (rs : list SlotRouting) (pk : ClientEp.PendingPacket)
    (rec : SendRecord) : Prop :=
  ClientEp.pp_pdu pk = sr_data rec /\ sr_ok rec = true
  /\ exists r, rs !! ClientEp.pp_slot_index pk = Some r
       /\ packet_key r (ClientEp.pp_kind pk) = sr_key rec.

Definition server_queued (rs : list SlotRouting) (pk : ServerEp.PendingPacket)
    (rec : SendRecord) : Prop :=
  ServerEp.pp_pdu pk = sr_data rec /\ sr_ok rec = true
  /\ exists r, rs !! ServerEp.pp_slot_index pk = Some r /\ rt_request r = sr_key rec.

(** The event of the client that a sent packet with this response header
    raises. *)
Definition response_shown (ev : ClientEvent) (hd : ActionResponseHeader) : Prop :=
  match ce_type ev with
  | ClientEventType_GOAL_RESPONSE =>
      arp_response_kind hd = RESPONSE_KIND_GOAL
      /\ arp_status hd = Decision_to_u8 (ce_decision ev)
  | ClientEventType_CANCEL_RESPONSE =>
      arp_response_kind hd = RESPONSE_KIND_CANCEL
      /\ arp_status hd = Decision_to_u8 (ce_decision ev)
  | ClientEventType_RESULT =>
      arp_response_kind hd = RESPONSE_KIND_RESULT
      /\ arp_status hd = TerminalStatus_to_u8 (ce_terminal_status ev)
  | _ => False
  end.

(** The packet [rec] of the server is the one the client's event [ev] is
    about: it holds the same bytes, went by a response or feedback channel,
    and its header says what the event says. *)
Definition client_shows (rs : list SlotRouting) (ev : ClientEvent) (rec : SendRecord)
    : Prop :=
  ce_pdu ev = sr_data rec /\ sr_ok rec = true
  /\ ((exists r hd, r ∈ rs /\ sr_key rec = rt_response r
         /\ pdu2cpp_ActionResponseHeader (sr_data rec) = Some hd
         /\ arp_goal_id hd = cgh_goal_id (ce_goal ev) /\ response_shown ev hd)
      \/ (exists r hd, r ∈ rs /\ sr_key rec = rt_feedback r
            /\ pdu2cpp_ActionFeedbackHeader (sr_data rec) = Some hd
            /\ ce_type ev = ClientEventType_FEEDBACK
            /\ afb_goal_id hd = cgh_goal_id (ce_goal ev)
            /\ afb_sequence_no hd = ce_feedback_sequence ev)).

Definition server_shows (rs : list SlotRouting) (ev : ServerEvent) (rec : SendRecord)
    : Prop :=
  se_pdu ev = sr_data rec /\ sr_ok rec = true
  /\ exists r hd, r ∈ rs /\ sr_key rec = rt_request r
       /\ pdu2cpp_ActionRequestHeader (sr_data rec) = Some hd
       /\ arq_goal_id hd = sgh_goal_id (se_goal ev)
       /\ ((se_type ev = ServerEventType_GOAL_REQUEST
            /\ arq_request_kind hd = REQUEST_KIND_GOAL)
           \/ (se_type ev = ServerEventType_CANCEL_REQUEST
               /\ arq_request_kind hd = REQUEST_KIND_CANCEL)).

(** Events that a packet raises: not [NONE], not the local [TIMEOUT]. *)
Definition from_packet (ev : ClientEvent) : bool :=
  match ce_type ev with
  | ClientEventType_NONE | ClientEventType_TIMEOUT => false
  | _ => true
  end.

Definition shown_to_client (evs : list ClientEvent) : list ClientEvent :=
  List.filter from_packet evs.

Definition shown_to_server (evs : list ServerEvent) : list ServerEvent :=
  List.filter (fun ev => negb (bool_decide (se_type ev = ServerEventType_NONE))) evs.
End Provenance.

(** ** The client's side *)

Section Client.
Context {P : PduPlatform} {HL : PduPlatformLaws P} {T : Transport}.

(** A delivery queues at most one packet, on the slot and channel of its key. *)
Lemma client_deliver_cases c rec :
  EndToEnd.routed (ClientEp.cl_slot_routing c) -> ClientEp.cl_initialized c = true ->
  ClientEp.deliver (sr_key rec) (sr_data rec) c = c
  \/ exists pk, (sr_ok rec = true -> client_queued (ClientEp.cl_slot_routing c) pk rec)
       /\ ClientEp.deliver (sr_key rec) (sr_data rec) c
          = ClientEp.set_packets (ClientEp.cl_pending_packets c ++ [pk]) c.
Proof.
  intros Hr Hi.
  destruct (decide (Exists (fun r => rt_response r = sr_key rec) (ClientEp.cl_slot_routing c)))
    as [(r & [s Hs]%list_elem_of_lookup & Hk)%Exists_exists|Hnr].
  { right. rewrite <-Hk, (EndToEnd.client_deliver_response c s r) by done. eexists. split; [|done].
    intros Hok. unfold client_queued. split_and!; [done|done|]. by exists r. }
  destruct (decide (Exists (fun r => rt_feedback r = sr_key rec) (ClientEp.cl_slot_routing c)))
    as [(r & [s Hs]%list_elem_of_lookup & Hk)%Exists_exists|Hnf].
  { right. rewrite <-Hk, (EndToEnd.client_deliver_feedback c s r) by done. eexists. split; [|done].
    intros Hok. unfold client_queued. split_and!; [done|done|]. by exists r. }
  left. unfold ClientEp.deliver. rewrite Hi. cbn [negb].
  apply EndToEnd.foldl_skip. intros x r Hin. cbn zeta.
  rewrite Exists_exists in Hnr, Hnf.
  rewrite !bool_decide_eq_false_2; [done|eauto..].
Qed.

Lemma apply_response_shown c hd b data c' ev :
  ClientEp.apply_response c hd b data = Some (c', ev) ->
  ce_pdu ev = data /\ cgh_goal_id (ce_goal ev) = arp_goal_id hd /\ response_shown ev hd
  /\ ClientEp.cl_pending_packets c' = ClientEp.cl_pending_packets c
  /\ ClientEp.cl_slot_routing c' = ClientEp.cl_slot_routing c
  /\ ClientEp.cl_initialized c' = ClientEp.cl_initialized c.
Proof.
  unfold ClientEp.apply_response.
  assert (Hdec : forall st, ClientEp.is_decision st = true ->
                            st = Decision_to_u8 (Decision_of_u8 st)).
  { intros st. unfold ClientEp.is_decision, Decision_of_u8. cbn.
    destruct (Z.eqb_spec st 1); [by subst|]. destruct (Z.eqb_spec st 2); [by subst|done]. }
  assert (Hres : forall x st, ClientEp.result_expected x st = true ->
                              st = TerminalStatus_to_u8 (TerminalStatus_of_u8 st)).
  { intros x st H. unfold ClientEp.result_expected in H. cbn in H.
    rewrite !orb_true_iff, !andb_true_iff, !orb_true_iff, !Z.eqb_eq in H.
    by destruct H as [[_ [-> | ->]]|[_ [-> | ->]]]. }
  repeat (split_guard; try done); intros [= <- <-]; simpl_bools;
    split_and!; try done; unfold response_shown; cbn; eauto.
Qed.

(** A poll takes the first queued packet, if any, and the event it raises is
    that packet's. *)
Lemma client_poll_flow c now c' ev :
  ClientEp.poll c now = (c', ev) ->
  ClientEp.cl_slot_routing c' = ClientEp.cl_slot_routing c
  /\ ClientEp.cl_initialized c' = ClientEp.cl_initialized c
  /\ ClientEp.cl_pending_packets c' = tail (ClientEp.cl_pending_packets c)
  /\ (from_packet ev = false
      \/ exists pk, head (ClientEp.cl_pending_packets c) = Some pk
           /\ from_packet ev = true
           /\ forall rec, client_queued (ClientEp.cl_slot_routing c) pk rec ->
                client_shows (ClientEp.cl_slot_routing c) ev rec).
Proof.
  assert (Ht : forall c now c' ev, ClientEp.check_timeouts c now = (c', ev) ->
    ClientEp.cl_slot_routing c' = ClientEp.cl_slot_routing c
    /\ ClientEp.cl_initialized c' = ClientEp.cl_initialized c
    /\ ClientEp.cl_pending_packets c' = ClientEp.cl_pending_packets c
    /\ from_packet ev = false).
  { clear. intros c now c' ev [[-> ->]|(g & b & _ & _ & -> & ->)]%ClientEpFacts.check_timeouts_Some; done. }
  unfold ClientEp.poll. destruct (ClientEp.cl_pending_packets c) as [|pk rest] eqn:Hq.
  { intros (? & ? & Hp & ?)%Ht. rewrite Hq in Hp. auto. }
  destruct (ClientEp.handle_packet _ pk) as [[c1 ev1]|] eqn:Hh;
    [|intros (? & ? & ? & ?)%Ht; auto].
  intros [= <- <-]. unfold ClientEp.handle_packet in Hh.
  destruct (ClientEp.pp_kind pk) eqn:Hk.
  - apply ClientEpFacts.handle_response_Some in Hh as (r & hd & b & Hr & Hd & _ & _ & Ha).
    apply apply_response_shown in Ha as (Hpdu & Hg & Hs & Hp & Hrt & Hi).
    split_and!; [done|done|done|]. right. exists pk. split_and!; [done| |].
    { unfold response_shown in Hs. unfold from_packet. by destruct (ce_type ev1). }
    intros rec (Hdata & Hok & r' & Hr' & Hkey). rewrite Hk in Hkey. cbn in Hkey.
    split_and!; [congruence|done|]. left. exists r', hd. rewrite <-Hdata.
    unfold ClientEp.decode_response_header in Hd. split_guard_in Hd; [done|].
    split_and!; try done. by eapply list_elem_of_lookup_2.
  - apply ClientEpFacts.handle_feedback_Some in Hh as (hd & b & Hd & _ & _ & Hseq & -> & ->).
    split_and!; [done|done|done|]. right. exists pk. split_and!; [done|done|].
    intros rec (Hdata & Hok & r' & Hr' & Hkey). rewrite Hk in Hkey. cbn in Hkey.
    split_and!; [done|done|]. right. exists r', hd. rewrite <-Hdata.
    unfold ClientEp.decode_feedback_header in Hd. split_guard_in Hd; [done|].
    split_and!; try done. by eapply list_elem_of_lookup_2.
Qed.
End Client.

(** ** The server's side *)

Section Server.
Context {P : PduPlatform} {HL : PduPlatformLaws P} {T : Transport}.

Lemma server_deliver_cases e rec :
  EndToEnd.routed (ServerEp.ep_slot_routing e) -> ServerEp.ep_initialized e = true ->
  ServerEp.deliver (sr_key rec) (sr_data rec) e = e
  \/ exists pk, (sr_ok rec = true -> server_queued (ServerEp.ep_slot_routing e) pk rec)
       /\ ServerEp.deliver (sr_key rec) (sr_data rec) e
          = ServerEp.set_queues (ServerEp.ep_pending_events e)
              (ServerEp.ep_pending_packets e ++ [pk]) e.
Proof.
  intros Hr Hi.
  destruct (decide (Exists (fun r => rt_request r = sr_key rec) (ServerEp.ep_slot_routing e)))
    as [(r & [s Hs]%list_elem_of_lookup & Hk)%Exists_exists|Hn].
  { right. rewrite <-Hk, (EndToEnd.server_deliver e s r) by done. eexists. split; [|done].
    intros Hok. unfold server_queued. split_and!; [done|done|]. by exists r. }
  left. unfold ServerEp.deliver. rewrite Hi. cbn [negb].
  apply EndToEnd.foldl_skip. intros x r Hin. rewrite Exists_exists in Hn.
  rewrite bool_decide_eq_false_2; [done|eauto].
Qed.

(** What a handled request packet raises. *)
Lemma handle_cancel_shown e g pk e' ev :
  ServerEp.handle_cancel_packet e g pk = (e', ev) ->
  ServerEp.ep_pending_packets e' = ServerEp.ep_pending_packets e
  /\ (ev = empty_server_event
      \/ ev = ServerEp.goal_event ServerEventType_CANCEL_REQUEST e g (ServerEp.pp_pdu pk)).
Proof.
  unfold ServerEp.handle_cancel_packet.
  repeat (split_guard; try (intros [= <- <-]; by auto)).
Qed.

Lemma handle_goal_shown e w g pk e' w' ev :
  ServerEp.handle_goal_packet e w g pk = (e', w', ev) ->
  ServerEp.ep_pending_packets e' = ServerEp.ep_pending_packets e
  /\ (ev = empty_server_event
      \/ ev = ServerEp.goal_event ServerEventType_GOAL_REQUEST e g (ServerEp.pp_pdu pk)).
Proof.
  unfold ServerEp.handle_goal_packet.
  repeat (split_guard; try (intros [= <- <- <-]; by auto)).
Qed.

Lemma decoded_kind hd :
  ServerEp.validate_request_header hd = true ->
  (arq_request_kind hd =? REQUEST_KIND_CANCEL)%Z = false ->
  arq_request_kind hd = REQUEST_KIND_GOAL.
Proof.
  unfold ServerEp.validate_request_header. repeat (split_guard; try done).
  intros _ Hc. rewrite Hc in *. cbn in *. rewrite andb_true_r in *. by simpl_bools.
Qed.

Lemma server_poll_flow e w e' w' ev :
  ServerEpFacts.ep_wf e -> ServerEp.ep_initialized e = true ->
  ServerEp.poll e w = (e', w', ev) ->
  ServerEp.ep_pending_packets e' = tail (ServerEp.ep_pending_packets e)
  /\ (se_type ev = ServerEventType_NONE
      \/ exists pk, head (ServerEp.ep_pending_packets e) = Some pk
           /\ se_type ev <> ServerEventType_NONE
           /\ forall rec, server_queued (ServerEp.ep_slot_routing e) pk rec ->
                server_shows (ServerEp.ep_slot_routing e) ev rec).
Proof.
  intros Hwf Hi. unfold ServerEp.poll, ServerEp.poll_packet.
  rewrite Hi, (ServerEpFacts.wf_events e Hwf). cbn [negb].
  destruct (ServerEp.ep_pending_packets e) as [|pk rest] eqn:Hq;
    [intros [= <- <- <-]; by auto|]. cbn [ServerEp.set_queues ServerEp.ep_slot_routing].
  destruct (ServerEp.ep_slot_routing e !! _) as [r|] eqn:Hr; [|intros [= <- <- <-]; by auto].
  destruct (validate_packet_capacity _ _ _ _); [|intros [= <- <- <-]; by auto].
  destruct (ServerEp.decode_request_header _) as [hd|] eqn:Hd; [|intros [= <- <- <-]; by auto].
  unfold ServerEp.decode_request_header in Hd. split_guard_in Hd; [done|].
  destruct (ServerEp.validate_request_header hd) eqn:Hv; cbn [negb];
    [|intros [= <- <- <-]; by auto].
  assert (Hshow : forall type, (type = ServerEventType_GOAL_REQUEST
            /\ arq_request_kind hd = REQUEST_KIND_GOAL)
           \/ (type = ServerEventType_CANCEL_REQUEST
               /\ arq_request_kind hd = REQUEST_KIND_CANCEL) ->
    forall rec, server_queued (ServerEp.ep_slot_routing e) pk rec ->
    server_shows (ServerEp.ep_slot_routing e)
      (ServerEp.goal_event type (ServerEp.set_queues [] rest e) (arq_goal_id hd)
         (ServerEp.pp_pdu pk)) rec).
  { intros type Ht rec (Hdata & Hok & r' & Hr' & Hkey). split_and!; [done|done|].
    exists r', hd. rewrite <-Hdata. split_and!; try done. by eapply list_elem_of_lookup_2. }
  destruct (_ =? REQUEST_KIND_CANCEL)%Z eqn:Hc.
  - destruct (ServerEp.handle_cancel_packet _ _ _) as [e1 ev1] eqn:Hh. intros [= <- <- <-].
    apply handle_cancel_shown in Hh as [Hp [-> | ->]]; (split; [done|]); [by left|].
    right. exists pk. split_and!; [done|done|]. apply Hshow. right. by apply Z.eqb_eq in Hc.
  - intros [Hp [-> | ->]]%handle_goal_shown; (split; [done|]); [by left|].
    right. exists pk. split_and!; [done|done|]. apply Hshow. left. split; [done|].
    by apply decoded_kind.
Qed.

(** ** Goals the server was asked for *)

Definition awaiting (v : view) (g : GoalId) : nat :=
  match v !! g with
  | Some (Awaiting, _) => 1
  | _ => 0
  end.

Lemma awaiting_insert v g x g' :
  awaiting (<[g := x]> v) g'
  = if decide (g = g') then match x.1 with Awaiting => 1 | _ => 0 end else awaiting v g'.
Proof. unfold awaiting. rewrite lookup_insert. case_decide; [by destruct x as [[] ?]|done]. Qed.

Lemma awaiting_delete v g g' :
  awaiting (delete g v) g' = if decide (g = g') then 0 else awaiting v g'.
Proof. unfold awaiting. rewrite lookup_delete. by case_decide. Qed.

Lemma awaiting_lookup v g p c :
  v !! g = Some (p, c) -> awaiting v g = match p with Awaiting => 1 | _ => 0 end.
Proof. unfold awaiting. intros ->. by destruct p. Qed.

(** GOAL_REQUEST events for [g]. *)
Definition is_goal_request (g : GoalId) (ev : ServerEvent) : bool :=
  bool_decide (se_type ev = ServerEventType_GOAL_REQUEST)
  && bool_decide (sgh_goal_id (se_goal ev) = g).

Definition goal_requests (g : GoalId) (evs : list ServerEvent) : nat :=
  length (List.filter (is_goal_request g) evs).

Lemma goal_requests_app g evs evs' :
  goal_requests g (evs ++ evs') = goal_requests g evs + goal_requests g evs'.
Proof. unfold goal_requests. by rewrite List.filter_app, length_app. Qed.

(** Rewrites the acceptances of a step and the goals that await a decision. *)
Ltac solve_awaiting :=
  repeat match goal with
  | H : view_of ?e = _ |- context [view_of ?e] => rewrite H
  | H : _ /\ _ |- _ => destruct H
  | H : exists _, _ |- _ => destruct H
  end;
  let g := fresh "g" in intros g;
  rewrite ?ServerEpProps.count_singleton, ?awaiting_insert, ?awaiting_delete;
  unfold ServerEpProps.is_acceptance, goal_requests; cbn;
  repeat (case_decide || case_bool_decide); simplify_eq;
  repeat match goal with
  | H : view_of _ !! _ = Some _ |- _ => rewrite (awaiting_lookup _ _ _ _ H)
  | H : phase_completes _ _ |- _ => destruct H as [[-> _]|[-> _]]
  end; try lia.

(** A step of the server asks for no more acceptances than it had requests. *)
Definition requested (e : ServerEp.ServerEndpoint) (e' : ServerEp.ServerEndpoint)
    (evs : list ServerEvent) (extra : list (Z * Z * GoalId)) : Prop :=
  forall g, ServerEpProps.count (ServerEpProps.is_acceptance g) extra
              + awaiting (view_of e') g <= awaiting (view_of e) g + goal_requests g evs.

Lemma poll_requested e w e' w' ev :
  ServerEpFacts.ep_wf e -> ServerEp.poll e w = (e', w', ev) ->
  exists extra, ServerEpProps.framed e w e' w' extra /\ requested e e' [ev] extra.
Proof.
  intros Hwf Hp. pose proof (poll_spec _ _ _ _ _ Hwf Hp) as [_ Heff].
  destruct (ServerEpProps.poll_framed _ _ _ _ _ Hwf Hp) as (extra & Hf & Hx).
  exists extra. split; [done|]. intros g.
  assert (ServerEpProps.count (ServerEpProps.is_acceptance g) extra = 0) as ->.
  { destruct Hx as [-> | (_ & g' & ->)]; [done|]. rewrite ServerEpProps.count_singleton.
    unfold ServerEpProps.is_acceptance. by case_bool_decide. }
  unfold goal_requests, is_goal_request. cbn.
  unfold poll_effect in Heff. destruct (se_type ev); try done; cbn; [rewrite Heff; lia|..];
    destruct_and?; match goal with H : view_of e' = _ |- _ => rewrite H end;
    rewrite awaiting_insert; case_decide; cbn;
    repeat (case_bool_decide; cbn); subst; try done; lia.
Qed.

Lemma reply_requested op e w h e' w' r :
  ServerEpProps.trace_inv e w -> run_reply op e w h = (e', w', r) ->
  exists extra, ServerEpProps.framed e w e' w' extra /\ requested e e' [] extra.
Proof.
  intros Hti Hop. pose proof (ServerEpProps.ti_wf _ _ Hti) as Hwf. unfold requested.
  destruct op; cbn in Hop.
  - eexists. split; [by eapply ServerEpProps.accept_goal_framed|].
    apply accept_goal_spec in Hop as [_ Hv]; [|done]. destruct r; solve_awaiting.
  - eexists. split; [by eapply ServerEpProps.reject_goal_framed|].
    apply reject_goal_spec in Hop as [_ Hv]; [|done]. destruct r; solve_awaiting.
  - eexists. split; [by eapply ServerEpProps.accept_cancel_framed|].
    apply accept_cancel_spec in Hop as [_ Hv]; [|done]. destruct r; solve_awaiting.
  - eexists. split; [by eapply ServerEpProps.reject_cancel_framed|].
    apply reject_cancel_spec in Hop as [_ Hv]; [|done]. destruct r; solve_awaiting.
  - eexists. split; [by eapply ServerEpProps.send_feedback_framed; [eapply ServerEpProps.ti_routed|]|].
    apply send_feedback_spec in Hop as (_ & Hv & _); [|done]. solve_awaiting.
Qed.

Lemma server_op_requested e w op e' w' evs :
  ServerEpProps.trace_inv e w -> run_server_op e w op = (e', w', evs) ->
  exists extra, ServerEpProps.framed e w e' w' extra /\ requested e e' evs extra.
Proof.
  intros Hti Hop. pose proof (ServerEpProps.ti_wf _ _ Hti) as Hwf.
  destruct op as [|op h|h|h st d|h st d|h| |]; cbn in Hop.
  - destruct (ServerEp.poll e w) as [[e1 w1] ev] eqn:Hp. injection Hop as <- <- <-.
    by apply poll_requested.
  - destruct (run_reply op e w h) as [[e1 w1] r] eqn:Hr. injection Hop as <- <- <-.
    by eapply reply_requested.
  - destruct (ServerEp.accept_cancel_locally e h) as [e1 r] eqn:Hr. injection Hop as <- <- <-.
    exists []. split; [apply ServerEpProps.accept_cancel_locally_frame in Hr as [];
                       by apply ServerEpProps.framed_refl|].
    apply accept_cancel_locally_spec in Hr as [_ Hv]; [|done]. unfold requested. cbn [fst].
    destruct r; solve_awaiting.
  - destruct (ServerEp.complete e w h st d) as [[e1 w1] r] eqn:Hr. injection Hop as <- <- <-.
    eexists. split; [by eapply ServerEpProps.complete_framed|].
    apply complete_spec in Hr as [_ Hv]; [|done]. unfold requested.
    destruct r; rewrite ?bool_decide_eq_true_2, ?bool_decide_eq_false_2 by done; solve_awaiting.
  - destruct (ServerEp.complete_locally e h st d) as [e1 r] eqn:Hr. injection Hop as <- <- <-.
    exists []. split; [apply ServerEpProps.complete_locally_frame in Hr as [];
                       by apply ServerEpProps.framed_refl|].
    apply complete_locally_spec in Hr as [_ Hv]; [|done]. unfold requested. cbn [fst].
    destruct r; solve_awaiting.
  - destruct (ServerEp.discard_pending_goal e h) as [e1 r] eqn:Hr. injection Hop as <- <- <-.
    exists []. split; [apply ServerEpProps.discard_frame in Hr as [];
                       by apply ServerEpProps.framed_refl|].
    apply discard_pending_goal_spec in Hr as [_ Hv]; [|done]. unfold requested. cbn [fst].
    destruct r; solve_awaiting.
  - injection Hop as <- <- <-. exists []. split; [by apply ServerEpProps.framed_refl|].
    intros g. change (view_of (ServerEp.clear_pending_events e)) with (view_of e).
    unfold ServerEpProps.count, goal_requests. simpl length. lia.
  - injection Hop as <- <- <-. exists []. split; [by apply ServerEpProps.framed_refl|].
    intros g. unfold view_of at 1. cbn. rewrite fmap_empty. unfold awaiting at 1.
    rewrite lookup_empty. unfold ServerEpProps.count. simpl length. lia.
Qed.

Lemma server_op_step e w op e' w' evs :
  run_server_op e w op = (e', w', evs) -> ep_step (e, w) (e', w').
Proof.
  destruct op as [|[] h|h|h st d|h st d|h| |]; cbn; intros Hop;
    repeat match type of Hop with
    | match ?x with _ => _ end = _ => destruct x as [[? ?] ?] eqn:?
    end; injection Hop as <- <- <-; eauto using ep_step;
    econstructor; by rewrite <-surjective_pairing.
Qed.

Lemma server_op_prefix e w op e' w' evs :
  run_server_op e w op = (e', w', evs) -> w `prefix_of` w'.
Proof.
  assert (Ho : forall w' ok, send_outcome w w' ok -> w `prefix_of` w').
  { intros w1 []; [intros (rec & -> & _); by eexists|].
    intros [->|(rec & -> & _)]; [done|by eexists]. }
  destruct op as [|op h|h|h st d|h st d|h| |]; cbn; try by intros [= <- <- <-].
  - unfold ServerEp.poll, ServerEp.poll_packet, ServerEp.handle_goal_packet,
      ServerEp.send_goal_error_reply.
    repeat (split_guard; try by intros [= <- <- <-]);
      intros [= <- <- <-]; simplify_eq; try done;
      match goal with |- context [ServerEp.send_control_response ?a ?b ?c ?d ?f] =>
        destruct (ServerEp.send_control_response a b c d f) eqn:Hs end;
      apply send_control_response_outcome in Hs; cbn; eauto.
  - destruct (run_reply op e w h) as [[e1 w1] r] eqn:Hr. intros [= <- <- <-].
    apply run_reply_outcome in Hr as [Hr _]. eauto.
  - unfold ServerEp.complete. repeat (split_guard; try by intros [= <- <- <-]);
      intros [= <- <- <-]; simplify_eq; try done;
      match goal with H : ServerEp.send_response_packet _ _ _ _ _ _ = _ |- _ =>
        apply send_response_packet_outcome in H end; eauto.
Qed.

(** Only a poll takes from the queue. *)
Lemma server_op_queue e w op e' w' evs :
  op <> SrvPoll -> run_server_op e w op = (e', w', evs) ->
  evs = [] /\ (ServerEp.ep_pending_packets e' = ServerEp.ep_pending_packets e
               \/ ServerEp.ep_pending_packets e' = []).
Proof.
  intros Hne Hop. destruct op as [|[] h|h|h st d|h st d|h| |]; cbn in Hop; try done;
    revert Hop; unfold ServerEp.accept_goal, ServerEp.reject_goal, ServerEp.accept_cancel,
      ServerEp.reject_cancel, ServerEp.send_feedback, ServerEp.accept_cancel_locally,
      ServerEp.complete, ServerEp.complete_locally, ServerEp.discard_pending_goal;
    repeat (split_guard; try (intros [= <- <- <-]; by auto)); intros [= <- <- <-];
    simplify_eq; auto.
Qed.
End Server.

(** ** The invariant *)

Section Invariant.
Context {P : PduPlatform} {HL : PduPlatformLaws P} {T : Transport}.

Record net_inv (n : network) : Prop := {
  ni_trace : ServerEpProps.trace_inv (nw_server n) (nw_server_wire n);
  ni_client : ClientEpFacts.cl_wf (nw_client n);
  ni_routing : ClientEp.cl_slot_routing (nw_client n) = ServerEp.ep_slot_routing (nw_server n);
  ni_cinit : ClientEp.cl_initialized (nw_client n) = true;
  ni_sinit : ServerEp.ep_initialized (nw_server n) = true;
  ni_to_client :
    flow sr_ok (client_queued (ServerEp.ep_slot_routing (nw_server n)))
         (client_shows (ServerEp.ep_slot_routing (nw_server n)))
         (ClientEp.cl_pending_packets (nw_client n)) (shown_to_client (nw_client_events n))
         (nw_to_client n) (nw_server_wire n);
  ni_to_server :
    flow sr_ok (server_queued (ServerEp.ep_slot_routing (nw_server n)))
         (server_shows (ServerEp.ep_slot_routing (nw_server n)))
         (ServerEp.ep_pending_packets (nw_server n)) (shown_to_server (nw_server_events n))
         (nw_to_server n) (nw_client_wire n);
  ni_requested g :
    ServerEpProps.count (ServerEpProps.is_acceptance g)
      (ServerEpProps.responses (ServerEp.ep_slot_routing (nw_server n)) (nw_server_wire n))
    + awaiting (view_of (nw_server n)) g <= goal_requests g (nw_server_events n);
}.

(** What a client call may do: keep the routing and the invariant, log sends,
    and take packets from its queue only to show them or to drop them. *)
Definition client_call (c : ClientEp.ClientEndpoint) (w : Wire)
    (c' : ClientEp.ClientEndpoint) (w' : Wire) (evs : list ClientEvent) : Prop :=
  let rs := ClientEp.cl_slot_routing c in
  ClientEpFacts.cl_wf c' /\ ClientEp.cl_slot_routing c' = rs
  /\ ClientEp.cl_initialized c' = ClientEp.cl_initialized c /\ w `prefix_of` w'
  /\ forall shown flight w0,
       flow sr_ok (client_queued rs) (client_shows rs) (ClientEp.cl_pending_packets c) shown flight w0 ->
       flow sr_ok (client_queued rs) (client_shows rs) (ClientEp.cl_pending_packets c')
         (shown ++ shown_to_client evs) flight w0.

Lemma after_client_inv n c' w' evs :
  net_inv n -> client_call (nw_client n) (nw_client_wire n) c' w' evs ->
  net_inv (after_client n (c', w', evs)).
Proof.
  intros [Ht Hc Hr Hci Hsi Hfc Hfs Hq] (Hwf & Hr' & Hi' & Hp & Hf).
  split; cbn; try done; [congruence|congruence| |by apply flow_send].
  unfold shown_to_client in *. rewrite List.filter_app. rewrite <-Hr in *. by apply Hf.
Qed.

(** A call that leaves the queue alone and shows nothing. *)
Lemma quiet_call c w c' w' :
  ClientEpFacts.cl_wf c' -> ClientEp.cl_slot_routing c' = ClientEp.cl_slot_routing c ->
  ClientEp.cl_initialized c' = ClientEp.cl_initialized c -> w `prefix_of` w' ->
  ClientEp.cl_pending_packets c' = ClientEp.cl_pending_packets c ->
  client_call c w c' w' [].
Proof. intros ? ? ? ? Hq. split_and!; try done. intros. by rewrite Hq, app_nil_r. Qed.

Lemma send_goal_call c w pdu g timeout now :
  ClientEpFacts.cl_wf c ->
  let r := ClientEpProps.run_op c w (ClientEpProps.OpSendGoal pdu g timeout now) in
  client_call c w r.1.1 r.1.2 r.2.
Proof.
  intros Hwf r. subst r. cbn.
  destruct (ClientEp.send_goal_with_result _ _ _ _ _ _) as [[c1 w1] [r h]] eqn:Hs. cbn.
  apply ClientEpProps.send_goal_cases in Hs
    as [(_ & -> & _ & Hw)|(_ & _ & s & Hs & rt & data & _ & -> & _)]; [..|done].
  - apply quiet_call; try done. destruct r; try done; try (by destruct Hw as [-> _]).
    destruct Hw as (rec & -> & _). by eexists.
  - destruct (ClientEpFacts.reserve_goal_spec _ _ _ _ _ _ Hwf Hs) as (Hwf' & _ & _ & _ & _ & _ & Hc).
    apply quiet_call; [done|by rewrite Hc|by rewrite Hc|by eexists|by rewrite Hc].
Qed.

Lemma send_cancel_call c w h :
  ClientEpFacts.cl_wf c ->
  let r := ClientEpProps.run_op c w (ClientEpProps.OpSendCancel h) in
  client_call c w r.1.1 r.1.2 r.2.
Proof.
  intros Hwf r. subst r. pose proof (ClientEpProps.run_op_wf c w (ClientEpProps.OpSendCancel h)) as Hop.
  cbn in *. destruct (ClientEp.send_cancel c w h) as [[c1 w1] ok] eqn:Hs. cbn.
  specialize (Hop _ _ _ Hwf eq_refl). apply ClientEpProps.send_cancel_cases in Hs. destruct ok.
  - destruct Hs as (b & _ & _ & -> & rt & data & _ & -> & _). apply quiet_call; try done. by eexists.
  - destruct Hs as [-> [->|(rec & -> & _)]]; apply quiet_call; try done. by eexists.
Qed.

Lemma poll_call c w now :
  ClientEpFacts.cl_wf c ->
  let r := ClientEpProps.run_op c w (ClientEpProps.OpPoll now) in
  client_call c w r.1.1 r.1.2 r.2.
Proof.
  intros Hwf r. subst r. cbn. destruct (ClientEp.poll c now) as [c1 ev] eqn:Hp. cbn.
  pose proof (ClientEpFacts.poll_wf _ _ _ _ Hwf Hp) as Hwf'.
  apply client_poll_flow in Hp as (Hr & Hi & Hq & Hev). split_and!; try done.
  intros shown flight w0 Hf. rewrite Hq. unfold shown_to_client. cbn.
  destruct Hev as [Hev|(pk & Hh & Hev & Hsh)]; rewrite Hev.
  - rewrite app_nil_r. destruct (ClientEp.cl_pending_packets c); [done|by eapply flow_drop].
  - destruct (ClientEp.cl_pending_packets c) as [|pk' rest]; [done|]. injection Hh as ->.
    by eapply flow_show.
Qed.

Lemma clear_call c w c' :
  ClientEpFacts.cl_wf c' -> ClientEp.cl_slot_routing c' = ClientEp.cl_slot_routing c ->
  ClientEp.cl_initialized c' = ClientEp.cl_initialized c ->
  ClientEp.cl_pending_packets c' = [] -> client_call c w c' w [].
Proof.
  intros ? ? ? Hq. split_and!; try done. intros. rewrite Hq, app_nil_r. by eapply flow_clear.
Qed.

Lemma after_server_inv n op :
  net_inv n -> net_inv (after_server n (run_server_op (nw_server n) (nw_server_wire n) op)).
Proof.
  intros [Ht Hc Hr Hci Hsi Hfc Hfs Hq].
  destruct (run_server_op _ _ op) as [[e' w'] evs] eqn:Hop.
  pose proof (ServerEpProps.trace_inv_ep_step _ _ (server_op_step _ _ _ _ _ _ Hop) Ht) as Ht'.
  destruct (server_op_requested _ _ _ _ _ _ Ht Hop) as (extra & [F1 F2 _ F4] & Hreq).
  pose proof (server_op_prefix _ _ _ _ _ _ Hop) as Hp.
  split; cbn -[ServerEpProps.responses ServerEpProps.count goal_requests]; rewrite ?F1, ?F2; try done;
    [by apply flow_send| |].
  - unfold shown_to_server in *. rewrite List.filter_app.
    assert (Hpoll : op = SrvPoll \/ op <> SrvPoll) by (destruct op; auto).
    destruct Hpoll as [->|Hne].
    + cbn in Hop. destruct (ServerEp.poll _ _) as [[e1 w1] ev] eqn:Hpl. injection Hop as -> -> <-.
      apply server_poll_flow in Hpl as [-> Hev]; [|by eapply ServerEpProps.ti_wf|done]. cbn.
      destruct Hev as [Hev|(pk & Hh & Hev & Hsh)].
      * rewrite Hev, app_nil_r. destruct (ServerEp.ep_pending_packets _);
          [done|by eapply flow_drop].
      * rewrite bool_decide_eq_false_2 by done. cbn.
        destruct (ServerEp.ep_pending_packets _) as [|pk' rest]; [done|]. injection Hh as ->.
        by eapply flow_show.
    + apply server_op_queue in Hop as [-> [Hs|Hs]]; [..|done]; rewrite Hs; cbn;
        rewrite app_nil_r; [done|by eapply flow_clear].
  - intros g. rewrite F4, ServerEpProps.count_app, goal_requests_app.
    specialize (Hq g). specialize (Hreq g). lia.
Qed.

Lemma deliver_to_client_inv n i : net_inv n -> net_inv (deliver_to_client n i).
Proof.
  intros Hn. unfold deliver_to_client. destruct (nw_to_client n !! i) as [rec|] eqn:Hi; [|done].
  destruct Hn as [Ht Hc Hr Hci Hsi Hfc Hfs Hq].
  pose proof (ServerEpProps.ti_routed _ _ Ht) as Hrt.
  change (EndToEnd.routed (ServerEp.ep_slot_routing (nw_server n))) in Hrt.
  rewrite <-Hr in Hrt. pose proof (ClientEpFacts.deliver_wf (sr_key rec) (sr_data rec) _ Hc) as Hwf.
  destruct (client_deliver_cases _ rec Hrt Hci) as [Hd|(pk & Hpk & Hd)]; rewrite Hd in *;
    split; cbn; try done; [by apply flow_lose|]. rewrite Hr in Hpk. by eapply flow_enqueue.
Qed.

Lemma deliver_to_server_inv n i : net_inv n -> net_inv (deliver_to_server n i).
Proof.
  intros Hn. unfold deliver_to_server. destruct (nw_to_server n !! i) as [rec|] eqn:Hi; [|done].
  destruct Hn as [Ht Hc Hr Hci Hsi Hfc Hfs Hq].
  pose proof (ServerEpProps.ti_routed _ _ Ht) as Hrt.
  change (EndToEnd.routed (ServerEp.ep_slot_routing (nw_server n))) in Hrt.
  pose proof (ServerEpProps.trace_inv_ep_step _ _
    (step_deliver (nw_server n) (nw_server_wire n) (sr_key rec) (sr_data rec)) Ht) as Ht'.
  destruct (server_deliver_cases _ rec Hrt Hsi) as [Hd|(pk & Hpk & Hd)]; rewrite Hd in *;
    split; cbn; try done; [by apply flow_lose|by eapply flow_enqueue].
Qed.

Lemma run_net_op_inv n op : net_inv n -> net_inv (run_net_op n op).
Proof.
  intros Hn. pose proof (ni_client n Hn) as Hc.
  destruct op as [pdu g timeout now|h|now| | |op|i|i|i|i]; cbn [run_net_op].
  - rewrite (triple_eta (ClientEpProps.run_op _ _ _)).
    by apply after_client_inv; [|apply send_goal_call].
  - rewrite (triple_eta (ClientEpProps.run_op _ _ _)).
    by apply after_client_inv; [|apply send_cancel_call].
  - rewrite (triple_eta (ClientEpProps.run_op _ _ _)).
    by apply after_client_inv; [|apply poll_call].
  - apply after_client_inv; [done|]. by apply clear_call; [apply ClientEpFacts.set_packets_wf|..].
  - apply after_client_inv; [done|].
    by apply clear_call; [apply ClientEpFacts.cl_reset_contexts_wf|..].
  - by apply after_server_inv.
  - by apply deliver_to_server_inv.
  - by apply deliver_to_client_inv.
  - destruct Hn. split; try done. by apply flow_lose.
  - destruct Hn. split; try done. by apply flow_lose.
Qed.

(** Both endpoints were initialised from one configuration. *)
Definition started (n : network) : Prop :=
  exists j name a b name' a' b' c e,
    ClientEp.initialize (ClientEp.new_client_endpoint name a b) j = (c, true)
    /\ ServerEp.initialize (ServerEp.new_server_endpoint name' a' b') j = (e, true)
    /\ n = network_start c e.

Lemma started_inv n : started n -> net_inv n.
Proof.
  intros (j & name & a & b & name' & a' & b' & c & e & Hc & He & ->).
  pose proof (ClientEpFacts.new_client_endpoint_wf name a b) as Hwf.
  apply (ClientEpFacts.initialize_wf _ _ _ _ Hwf) in Hc as Hc'. destruct Hc' as [Hcwf _].
  pose proof (ServerEpProps.trace_inv_initialize _ _ _ _ _
                (ServerEpProps.new_trace_inv name' a' b') He) as Ht.
  revert Hc He. unfold ClientEp.initialize, ServerEp.initialize.
  destruct (parse_action j) as [d|] eqn:Hd; [|done].
  repeat (split_guard; try done). intros [= Hc] [= He]. simpl_bools.
  rewrite ClientEpFacts.client_build_routing_same in *. cbn in *.
  split; rewrite <-?Hc, <-?He in *; cbn; try done; [congruence|apply flow_nil..].
Qed.

Lemma run_net_inv n ops : started n -> net_inv (run_net n ops).
Proof.
  intros Hs%started_inv. unfold run_net. revert n Hs.
  induction ops as [|op ops IH]; intros n Hn; [done|]. cbn. by apply IH, run_net_op_inv.
Qed.
End Invariant.

(** ** Counting *)

Section Counting.
Context {P : PduPlatform} {HL : PduPlatformLaws P}.

(** A record that is a delivered response satisfying [f]. *)
Definition response_is (rs : list SlotRouting) (f : Z * Z * GoalId -> bool)
    (rec : SendRecord) : bool :=
  match ServerEpProps.response_of rs rec with
  | Some x => f x
  | None => false
  end.

Lemma count_responses rs f w :
  ServerEpProps.count f (ServerEpProps.responses rs w)
  = length (List.filter (response_is rs f) w).
Proof.
  unfold ServerEpProps.count, ServerEpProps.responses.
  induction w as [|rec w IH]; [done|]. cbn. unfold response_is at 1.
  destruct (ServerEpProps.response_of rs rec) as [x|]; [|done]. cbn.
  destruct (f x); cbn; by rewrite IH.
Qed.

(** Events of goal [g] at the client: results, and acceptances. *)
Definition is_result_event (g : GoalId) (ev : ClientEvent) : bool :=
  bool_decide (ce_type ev = ClientEventType_RESULT)
  && bool_decide (cgh_goal_id (ce_goal ev) = g).

Definition is_acceptance_event (g : GoalId) (ev : ClientEvent) : bool :=
  bool_decide (ce_type ev = ClientEventType_GOAL_RESPONSE)
  && bool_decide (ce_decision ev = Decision_ACCEPTED)
  && bool_decide (cgh_goal_id (ce_goal ev) = g).

Definition results_shown (g : GoalId) (evs : list ClientEvent) : nat :=
  length (List.filter (is_result_event g) evs).

Definition acceptances_shown (g : GoalId) (evs : list ClientEvent) : nat :=
  length (List.filter (is_acceptance_event g) evs).

(** A delivered goal request for [g]. *)
Definition is_goal_packet (rs : list SlotRouting) (g : GoalId) (rec : SendRecord) : bool :=
  sr_ok rec && existsb (fun r => bool_decide (rt_request r = sr_key rec)) rs
  && match pdu2cpp_ActionRequestHeader (sr_data rec) with
     | Some hd => (arq_request_kind hd =? REQUEST_KIND_GOAL)%Z
                  && bool_decide (arq_goal_id hd = g)
     | None => false
     end.

Definition goals_sent (rs : list SlotRouting) (g : GoalId) (w : Wire) : nat :=
  length (List.filter (is_goal_packet rs g) w).

Lemma client_shows_response rs ev rec :
  client_shows rs ev rec -> ce_type ev <> ClientEventType_FEEDBACK ->
  exists hd, response_shown ev hd
    /\ ServerEpProps.response_of rs rec
       = Some (arp_response_kind hd, arp_status hd, cgh_goal_id (ce_goal ev)).
Proof.
  intros (Hd & Hok & [(r & hd & Hin & Hk & Hh & Hg & Hs)|(r & hd & _ & _ & _ & Ht & _)]) Hne;
    [|done].
  exists hd. split; [done|]. unfold ServerEpProps.response_of. rewrite Hok, Hh, <-Hg. cbn.
  replace (existsb _ _) with true; [done|]. symmetry. apply existsb_exists. exists r.
  split; [by apply list_elem_of_In|]. by apply bool_decide_eq_true.
Qed.

Lemma result_event_packet rs g ev rec :
  client_shows rs ev rec -> is_result_event g ev = true ->
  response_is rs (ServerEpProps.is_result g) rec = true.
Proof.
  unfold is_result_event. intros Hs Hev. simpl_bools.
  destruct (client_shows_response rs ev rec Hs) as (hd & Hh & Hr); [congruence|].
  unfold response_is, response_shown in *. rewrite Hr. unfold ServerEpProps.is_result. cbn.
  match goal with H : ce_type ev = _ |- _ => rewrite H in Hh end. destruct Hh as [-> _].
  cbn. by rewrite bool_decide_eq_true_2.
Qed.

Lemma acceptance_event_packet rs g ev rec :
  client_shows rs ev rec -> is_acceptance_event g ev = true ->
  response_is rs (ServerEpProps.is_acceptance g) rec = true.
Proof.
  unfold is_acceptance_event. intros Hs Hev. simpl_bools.
  destruct (client_shows_response rs ev rec Hs) as (hd & Hh & Hr); [congruence|].
  unfold response_is, response_shown in *. rewrite Hr. unfold ServerEpProps.is_acceptance.
  repeat match goal with H : _ ev = _ |- _ => rewrite H in Hh; clear H end.
  destruct Hh as [-> ->]. by rewrite bool_decide_eq_true_2 by congruence.
Qed.

Lemma goal_request_packet rs g ev rec :
  server_shows rs ev rec -> is_goal_request g ev = true -> is_goal_packet rs g rec = true.
Proof.
  unfold is_goal_request. intros (Hd & Hok & r & hd & Hin & Hk & Hh & Hg & Ht) Hev. simpl_bools.
  unfold is_goal_packet. rewrite Hok, Hh. cbn.
  destruct Ht as [[_ ->]|[? _]]; [|congruence]. cbn.
  rewrite bool_decide_eq_true_2 by congruence.
  rewrite andb_true_r. apply existsb_exists. exists r.
  split; [by apply list_elem_of_In|]. by apply bool_decide_eq_true.
Qed.
End Counting.

(** ** A run *)

Import ConcretePdu.
#[local] Existing Instance ServerEpProps.Demo.reliable.

Module NetDemo.

Definition start : network :=
  network_start ClientEpProps.Demo.ready ServerEpProps.Demo.ready.

Definition handle : ServerGoalHandle := ServerEpProps.Demo.handle_1.

(** A goal is sent, accepted and completed; the result overtakes the feedback,
    which arrives when the client has forgotten the goal. *)
Definition ops : list net_op :=
  [ NetSendGoal ClientEpProps.Demo.goal_packet ServerEpProps.Demo.goal_1 1000 50;
    NetDeliverToServer 0; NetServer SrvPoll; NetServer (SrvReply ReplyAcceptGoal handle);
    NetDeliverToClient 0; NetClientPoll 60;
    NetServer (SrvReply (ReplyFeedback ServerEpProps.feedback_packet) handle);
    NetServer (SrvComplete handle TerminalStatus_SUCCEEDED ServerEpProps.result_packet);
    NetDeliverToClient 1; NetClientPoll 70; NetDeliverToClient 0; NetClientPoll 80 ].

Lemma start_started : started start.
Proof.
  exists (render_definition sample_definition), "fib", true, true, "fib", true, true.
  do 2 eexists. split; [|split; [|reflexivity]].
  - rewrite (surjective_pairing (ClientEp.initialize _ _)). f_equal; by vm_compute.
  - rewrite (surjective_pairing (ServerEp.initialize _ _)). f_equal; by vm_compute.
Qed.
End NetDemo.

(** ** Properties *)

(** C4 — Over a network that delays, reorders and loses packets, whatever the two
    applications do, every event a client or a server is shown is about a packet
    the other side really sent, no packet is shown twice, and the event carries
    exactly the bytes that were sent and the goal, decision, status or sequence
    number its header holds: the packets behind the events shown are a
    sub-multiset of the packets the transport accepted from the other side. *)
Theorem network_packets_shown_once {P : PduPlatform} {HL : PduPlatformLaws P} {T : Transport}
    n ops :
  started n ->
  let n' := run_net n ops in
  let rs := ServerEp.ep_slot_routing (nw_server n') in
  (exists sent, Forall2 (client_shows rs) (shown_to_client (nw_client_events n')) sent
     /\ sent ⊆+ nw_server_wire n')
  /\ exists sent, Forall2 (server_shows rs) (shown_to_server (nw_server_events n')) sent
     /\ sent ⊆+ nw_client_wire n'.
Proof.
  intros Hs n' rs. destruct (run_net_inv n ops Hs) as [_ _ _ _ _ Hc Hsv _].
  split; by eapply flow_shown.
Qed.

Lemma network_packets_shown_once_witness :
  exists sent, Forall2 (client_shows (ServerEp.ep_slot_routing
      (nw_server (run_net NetDemo.start NetDemo.ops))))
    (shown_to_client (nw_client_events (run_net NetDemo.start NetDemo.ops))) sent
    /\ length sent = 2.
Proof.
  destruct (network_packets_shown_once NetDemo.start NetDemo.ops NetDemo.start_started)
    as [(sent & Hs & _) _].
  exists sent. split; [exact Hs|]. rewrite <-(Forall2_length _ _ _ Hs). vm_compute. reflexivity.
Defined.

(** Results are never invented and never repeated, end to end: for every goal
    id, whatever is delayed, reordered or lost and whatever the applications do,
    the client sees at most as many RESULTs, and at most as many acceptances, as
    the server sent acceptances; the server accepts at most as often as it was
    shown a GOAL_REQUEST; and it is shown at most as many GOAL_REQUESTs as the
    client successfully sent goal packets with that id. *)
Theorem network_goal_accounting {P : PduPlatform} {HL : PduPlatformLaws P} {T : Transport}
    n ops g :
  started n ->
  let n' := run_net n ops in
  let rs := ServerEp.ep_slot_routing (nw_server n') in
  let accepted := ServerEpProps.count (ServerEpProps.is_acceptance g)
                    (ServerEpProps.responses rs (nw_server_wire n')) in
  results_shown g (nw_client_events n') <= accepted
  /\ acceptances_shown g (nw_client_events n') <= accepted
  /\ accepted <= goal_requests g (nw_server_events n')
  /\ goal_requests g (nw_server_events n') <= goals_sent rs g (nw_client_wire n').
Proof.
  intros Hs n' rs accepted. destruct (run_net_inv n ops Hs) as [Ht _ _ _ _ Hc Hsv Hq].
  apply flow_shown in Hc as (sc & Hsc & Hwc), Hsv as (ss & Hss & Hws).
  pose proof (ServerEpProps.ti_balance _ _ Ht g) as Hb. split_and!.
  - etrans; [|exact (Nat.le_trans _ _ _ (Nat.le_add_r _ _) Hb)]. rewrite count_responses.
    unfold results_shown. rewrite <-(filter_weaken _ from_packet).
    + eapply shown_count; [done|done|]. apply result_event_packet.
    + unfold is_result_event, from_packet. intros ev Hev. simpl_bools. by destruct (ce_type ev).
  - unfold accepted. rewrite count_responses.
    unfold acceptances_shown. rewrite <-(filter_weaken _ from_packet).
    + eapply shown_count; [done|done|]. apply acceptance_event_packet.
    + unfold is_acceptance_event, from_packet. intros ev Hev. simpl_bools.
      by destruct (ce_type ev).
  - specialize (Hq g). unfold accepted, rs, n'. lia.
  - unfold goal_requests. rewrite <-(filter_weaken _
      (fun ev => negb (bool_decide (se_type ev = ServerEventType_NONE)))).
    + eapply shown_count; [done|done|]. apply goal_request_packet.
    + unfold is_goal_request. intros ev Hev. simpl_bools. by destruct (se_type ev).
Qed.

Lemma network_goal_accounting_witness :
  results_shown ServerEpProps.Demo.goal_1
    (nw_client_events (run_net NetDemo.start NetDemo.ops)) = 1
  /\ 1 <= goals_sent (ServerEp.ep_slot_routing (nw_server (run_net NetDemo.start NetDemo.ops)))
           ServerEpProps.Demo.goal_1 (nw_client_wire (run_net NetDemo.start NetDemo.ops)).
Proof.
  destruct (network_goal_accounting NetDemo.start NetDemo.ops ServerEpProps.Demo.goal_1
              NetDemo.start_started) as (H1 & _ & H2 & H3).
  assert (H0 : results_shown ServerEpProps.Demo.goal_1
    (nw_client_events (run_net NetDemo.start NetDemo.ops)) = 1) by (vm_compute; reflexivity).
  split; [exact H0|]. rewrite H0 in H1.
  exact (Nat.le_trans _ _ _ H1 (Nat.le_trans _ _ _ H2 H3)).
Defined.
End ActionNetwork.
