(* ===== verification/ServicesServer.v ===== *)
(** * Action services, server side

    [ActionServicesServer] of
    include/hakoniwa/pdu/action/action_services_server.hpp and
    src/action_services_server.cpp: the configured actions of a node, the
    semantic state of every accepted goal, and the events and operations the
    application uses. It is written against the endpoint interface
    [IActionServerEndpoint], so every definition and lemma holds for any
    implementation that meets [ServerEndpointSpec].

    All operations hold the services mutex, so they are atomic. The
    configuration file is an argument of the initialisation ([None] when it
    cannot be opened or is not JSON), and so is what the endpoint container
    finds. *)

From S2P Require Import Prelude ActionTypes ActionConfiguration PduPacket.
From S2P Require Import ServerStateMachine ServerInterface.
From Stdlib Require Import ZArith Lia.
From stdpp Require Import base gmap strings list fin_maps relations.

Module Services.
Import ActionConfig ServerIface ServerSM.

(** ** State *)

Record GoalInstance := mkGoalInstance {
  gi_goal : ServerGoalHandle;
  gi_context : ServerGoalContext;
}.

Record ActionInstance (E : Type) := mkActionInstance {
  ai_action_name : string;
  ai_endpoint : E;
  ai_goals : list GoalInstance;
}.
Arguments mkActionInstance {E} _ _ _.
Arguments ai_action_name {E} _.
Arguments ai_endpoint {E} _.
Arguments ai_goals {E} _.

Record ServicesServer (E : Type) := mkServicesServer {
  ss_node_id : string;
  ss_impl_type : string;
  ss_has_time_source : bool;
  ss_actions : list (ActionInstance E);
  ss_pending_runtime_events : list ServerEvent;
}.
Arguments mkServicesServer {E} _ _ _ _ _.
Arguments ss_node_id {E} _.
Arguments ss_impl_type {E} _.
Arguments ss_has_time_source {E} _.
Arguments ss_actions {E} _.
Arguments ss_pending_runtime_events {E} _.

Section Operations.
Context {E : Type} `{IActionServerEndpoint E}.

Definition new_services_server (node_id impl_type : string) (has_time_source : bool)
    : ServicesServer E :=
  mkServicesServer node_id impl_type has_time_source [] [].

Definition set_actions (actions : list (ActionInstance E)) (s : ServicesServer E)
    : ServicesServer E :=
  mkServicesServer (ss_node_id s) (ss_impl_type s) (ss_has_time_source s) actions
    (ss_pending_runtime_events s).

Definition set_runtime_events (events : list ServerEvent) (s : ServicesServer E)
    : ServicesServer E :=
  mkServicesServer (ss_node_id s) (ss_impl_type s) (ss_has_time_source s) (ss_actions s)
    events.

Definition set_endpoint (e : E) (a : ActionInstance E) : ActionInstance E :=
  mkActionInstance (ai_action_name a) e (ai_goals a).

Definition set_ai_goals (goals : list GoalInstance) (a : ActionInstance E)
    : ActionInstance E :=
  mkActionInstance (ai_action_name a) (ai_endpoint a) goals.

(** A write through the pointer [action], which is the element at [i]. *)
Definition put_action (i : nat) (a : ActionInstance E) (s : ServicesServer E)
    : ServicesServer E :=
  set_actions (<[i := a]> (ss_actions s)) s.

(** ** Lookups; a pointer is an index with the element *)

Definition get_action_locked (s : ServicesServer E) (action_name : string)
    : option (nat * ActionInstance E) :=
  list_find (fun a => ai_action_name a = action_name) (ss_actions s).

Definition get_goal_locked (a : ActionInstance E) (goal_id : GoalId)
    : option (nat * GoalInstance) :=
  list_find (fun gi => sgh_goal_id (gi_goal gi) = goal_id) (ai_goals a).

Definition has_goal_locked (a : ActionInstance E) (goal_id : GoalId) : bool :=
  bool_decide (is_Some (get_goal_locked a goal_id)).

Definition remove_goal_locked (a : ActionInstance E) (goal_id : GoalId)
    : ActionInstance E :=
  match get_goal_locked a goal_id with
  | Some (i, _) => set_ai_goals (delete i (ai_goals a)) a
  | None => a
  end.

(** [goal->context = next] for the goal at [i]. *)
Definition set_context (i : nat) (gi : GoalInstance) (next : ServerGoalContext)
    (a : ActionInstance E) : ActionInstance E :=
  set_ai_goals (<[i := mkGoalInstance (gi_goal gi) next]> (ai_goals a)) a.

(** ** Initialisation *)

(** The loop over the parsed definitions and their JSON entries. [container]
    tells which endpoint ids are found; [override] that a direct endpoint was
    given. [None] is the error return. *)
Fixpoint init_actions (s : ServicesServer E) (container : option (string -> bool))
    (override : bool) (definitions : list (ActionDefinition * json))
    : option (list (ActionInstance E)) :=
  match definitions with
  | [] => Some []
  | (definition, entry) :: rest =>
      if negb (bool_decide (aer_node_id (ad_server_endpoint definition) = ss_node_id s))
      then init_actions s container override rest
      else
        let endpoint_id :=
          if bool_decide (aer_endpoint_id (ad_server_endpoint definition) = "")
          then aer_node_id (ad_server_endpoint definition)
          else aer_endpoint_id (ad_server_endpoint definition) in
        let found :=
          override || match container with Some ref => ref endpoint_id | None => false end in
        if negb found then None
        else if negb (bool_decide (ss_impl_type s = "ActionServerEndpointImpl")) then None
        else
          let '(endpoint, ok) :=
            i_initialize (i_make (ad_name definition) true (ss_has_time_source s)) entry in
          if negb ok then None
          else
            match init_actions s container override rest with
            | None => None
            | Some actions =>
                Some (mkActionInstance (ad_name definition) endpoint [] :: actions)
            end
  end.

Definition initialize_services_impl (s : ServicesServer E)
    (container : option (string -> bool)) (override : bool) (config : option json)
    : ServicesServer E * bool :=
  if bool_decide (container = None) && negb override then (s, false)
  else
    match config with
    | None => (s, false)
    | Some root =>
        match parse root with
        | inr _ => (s, false)
        | inl configuration =>
            if negb (bool_decide (ss_actions s = [])) then (s, false)
            else
              match json_find root "actions" with
              | Some (JArray entries) =>
                  match init_actions s container override (zip configuration entries) with
                  | None => (s, false)
                  | Some actions => (set_actions actions s, true)
                  end
              | _ => (s, false) (* excluded by [parse] *)
              end
        end
    end.

Definition start_all_services (s : ServicesServer E) : bool := true.

Definition stop_all_services (s : ServicesServer E) : ServicesServer E :=
  set_runtime_events []
    (set_actions ((fun a => set_endpoint (i_clear_pending_events (ai_endpoint a)) a)
                  <$> ss_actions s) s).

Definition clear_all_instances (s : ServicesServer E) : ServicesServer E :=
  set_runtime_events []
    (set_actions
       ((fun a => set_endpoint (i_reset_contexts (ai_endpoint a)) (set_ai_goals [] a))
        <$> ss_actions s) s).

(** ** Transport lifecycle *)

Definition runtime_cancel_event (action_name : string) (goal : ServerGoalHandle)
    : ServerEvent :=
  mkServerEvent ServerEventType_RUNTIME_CANCEL_REQUEST goal
    RuntimeCancelCause_TRANSPORT_DISCONNECTED action_name [].

Definition already_pending (action_name : string) (goal_id : GoalId)
    (events : list ServerEvent) : bool :=
  existsb (fun event =>
             bool_decide (se_type event = ServerEventType_RUNTIME_CANCEL_REQUEST)
             && bool_decide (se_action_name event = action_name)
             && bool_decide (sgh_goal_id (se_goal event) = goal_id)) events.

Definition notify_goal (action_name : string) (events : list ServerEvent)
    (goal : GoalInstance) : list ServerEvent :=
  if already_pending action_name (sgh_goal_id (gi_goal goal)) events then events
  else events ++ [runtime_cancel_event action_name (gi_goal goal)].

Definition notify_transport_disconnected (s : ServicesServer E) : ServicesServer E :=
  set_runtime_events
    (foldl (fun events a => foldl (notify_goal (ai_action_name a)) events (ai_goals a))
       (ss_pending_runtime_events s) (ss_actions s)) s.

Definition discard_pending_goal (s : ServicesServer E) (action_name : string)
    (goal : ServerGoalHandle) : ServicesServer E * bool :=
  if bool_decide (action_name = "") || negb (ServerGoalHandle_valid goal) then (s, false)
  else
    match get_action_locked s action_name with
    | None => (s, false)
    | Some (i, a) =>
        if has_goal_locked a (sgh_goal_id goal) then (s, false)
        else
          let '(e, ok) := i_discard_pending_goal (ai_endpoint a) goal in
          (put_action i (set_endpoint e a) s, ok)
    end.

(** ** Polling *)

Definition as_error (event : ServerEvent) : ServerEvent :=
  mkServerEvent ServerEventType_ERROR (se_goal event) (se_runtime_cancel_cause event)
    (se_action_name event) (se_pdu event).

(** The changed action and [event_out] with the returned type; [None] is the
    return of [NONE], which leaves both alone. *)
Definition handle_cancel_event_locked (a : ActionInstance E) (event_type : ServerEventType)
    (event : ServerEvent) : option (ActionInstance E * ServerEvent) :=
  match get_goal_locked a (sgh_goal_id (se_goal event)) with
  | None => Some (a, as_error event)
  | Some (i, goal) =>
      let state_event :=
        if bool_decide (event_type = ServerEventType_CANCEL_REQUEST)
        then ServerGoalEvent_CANCEL_REQUEST_RECEIVED
        else ServerGoalEvent_RUNTIME_CANCEL_REQUESTED in
      let transition := transition_server_goal (gi_context goal) state_event in
      if st_is_error transition then Some (a, as_error event)
      else if st_is_nop transition then None
      else Some (set_context i goal (st_next transition) a, event)
  end.

(** The loop over [pending_runtime_events_]: the remaining events, and the
    index and new value of the action whose event is returned. *)
Fixpoint poll_runtime_events (s : ServicesServer E) (events : list ServerEvent)
    : list ServerEvent * option (nat * ActionInstance E * ServerEvent) :=
  match events with
  | [] => ([], None)
  | event :: rest =>
      match get_action_locked s (se_action_name event) with
      | None => poll_runtime_events s rest
      | Some (i, a) =>
          match handle_cancel_event_locked a ServerEventType_RUNTIME_CANCEL_REQUEST event with
          | None => poll_runtime_events s rest
          | Some (a', event_out) => (rest, Some (i, a', event_out))
          end
      end
  end.

Definition with_action_name (action_name : string) (event : ServerEvent) : ServerEvent :=
  mkServerEvent (se_type event) (se_goal event) (se_runtime_cancel_cause event)
    action_name (se_pdu event).

(** The body of the loop over [actions_] for one action: its new value, and
    the event when the loop returns. *)
Definition poll_action (a : ActionInstance E) (w : Wire)
    : ActionInstance E * Wire * option ServerEvent :=
  let '(e, w', polled) := i_poll (ai_endpoint a) w in
  let a1 := set_endpoint e a in
  let event := with_action_name (ai_action_name a) polled in
  match se_type polled with
  | ServerEventType_NONE => (a1, w', None)
  | ServerEventType_GOAL_REQUEST | ServerEventType_ERROR => (a1, w', Some event)
  | ServerEventType_CANCEL_REQUEST | ServerEventType_RUNTIME_CANCEL_REQUEST =>
      match handle_cancel_event_locked a1 (se_type polled) event with
      | None => (a1, w', None)
      | Some (a2, event_out) => (a2, w', Some event_out)
      end
  end.

Fixpoint poll_actions (actions : list (ActionInstance E)) (w : Wire)
    : list (ActionInstance E) * Wire * option (string * ServerEvent) :=
  match actions with
  | [] => ([], w, None)
  | a :: rest =>
      match poll_action a w with
      | (a', w', Some event) => (a' :: rest, w', Some (ai_action_name a, event))
      | (a', w', None) =>
          let '(rest', w'', result) := poll_actions rest w' in
          (a' :: rest', w'', result)
      end
  end.

(** The action name and [event_out]; the returned type is its [se_type]. *)
Definition poll (s : ServicesServer E) (w : Wire)
    : ServicesServer E * Wire * (string * ServerEvent) :=
  match poll_runtime_events s (ss_pending_runtime_events s) with
  | (rest, Some (i, a, event)) =>
      (set_runtime_events rest (put_action i a s), w, (ai_action_name a, event))
  | (rest, None) =>
      let '(actions, w', result) := poll_actions (ss_actions s) w in
      (set_runtime_events rest (set_actions actions s), w',
       default ("", empty_server_event) result)
  end.

(** ** Decisions *)

Definition accept_goal (s : ServicesServer E) (w : Wire) (action_name : string)
    (goal : ServerGoalHandle) : ServicesServer E * Wire * bool :=
  if bool_decide (action_name = "") || negb (ServerGoalHandle_valid goal) then (s, w, false)
  else
    match get_action_locked s action_name with
    | None => (s, w, false)
    | Some (i, a) =>
        if has_goal_locked a (sgh_goal_id goal) then (s, w, false)
        else
          let '(e, w', ok) := i_accept_goal (ai_endpoint a) w goal in
          let staged :=
            set_ai_goals (ai_goals a ++ [mkGoalInstance goal initial_server_context]) a in
          if ok then (put_action i (set_endpoint e staged) s, w', true)
          else (put_action i (set_endpoint e a) s, w', false)
    end.

Definition reject_goal (s : ServicesServer E) (w : Wire) (action_name : string)
    (goal : ServerGoalHandle) : ServicesServer E * Wire * bool :=
  if bool_decide (action_name = "") || negb (ServerGoalHandle_valid goal) then (s, w, false)
  else
    match get_action_locked s action_name with
    | None => (s, w, false)
    | Some (i, a) =>
        if has_goal_locked a (sgh_goal_id goal) then (s, w, false)
        else
          let '(e, w', ok) := i_reject_goal (ai_endpoint a) w goal in
          (put_action i (set_endpoint e a) s, w', ok)
    end.

Definition create_feedback_buffer (s : ServicesServer E) (action_name : string)
    : option PduData :=
  if bool_decide (action_name = "") then None
  else
    match get_action_locked s action_name with
    | None => None
    | Some (_, a) => i_create_feedback_buffer (ai_endpoint a)
    end.

Definition create_result_buffer (s : ServicesServer E) (action_name : string)
    : option PduData :=
  if bool_decide (action_name = "") then None
  else
    match get_action_locked s action_name with
    | None => None
    | Some (_, a) => i_create_result_buffer (ai_endpoint a)
    end.

(** The lookups that [accept_cancel], [reject_cancel], [send_feedback],
    [complete] and [complete_locally] share. *)
Definition find_goal (s : ServicesServer E) (action_name : string)
    (goal : ServerGoalHandle) : option (nat * ActionInstance E * (nat * GoalInstance)) :=
  if bool_decide (action_name = "") || negb (ServerGoalHandle_valid goal) then None
  else
    match get_action_locked s action_name with
    | None => None
    | Some (i, a) =>
        match get_goal_locked a (sgh_goal_id goal) with
        | None => None
        | Some found => Some (i, a, found)
        end
    end.

Definition accept_cancel (s : ServicesServer E) (w : Wire) (action_name : string)
    (goal : ServerGoalHandle) : ServicesServer E * Wire * bool :=
  match find_goal s action_name goal with
  | None => (s, w, false)
  | Some (i, a, (k, gi)) =>
      let cancel_origin := sgc_cancel_origin (gi_context gi) in
      let transition := transition_server_goal (gi_context gi) ServerGoalEvent_ACCEPT_CANCEL in
      if st_is_error transition then (s, w, false)
      else if negb (st_transitioned transition) then (s, w, false)
      else
        let '(e, w', endpoint_accepted) :=
          if bool_decide (cancel_origin = CancelOrigin_CLIENT)
          then i_accept_cancel (ai_endpoint a) w goal
          else let '(e, ok) := i_accept_cancel_locally (ai_endpoint a) goal in (e, w, ok) in
        if negb endpoint_accepted then (put_action i (set_endpoint e a) s, w', false)
        else (put_action i (set_endpoint e (set_context k gi (st_next transition) a)) s,
              w', true)
  end.

Definition reject_cancel (s : ServicesServer E) (w : Wire) (action_name : string)
    (goal : ServerGoalHandle) : ServicesServer E * Wire * bool :=
  match find_goal s action_name goal with
  | None => (s, w, false)
  | Some (i, a, (k, gi)) =>
      let cancel_origin := sgc_cancel_origin (gi_context gi) in
      let transition := transition_server_goal (gi_context gi) ServerGoalEvent_REJECT_CANCEL in
      if st_is_error transition then (s, w, false)
      else if negb (st_transitioned transition) then (s, w, false)
      else
        let '(e, w', ok) :=
          if bool_decide (cancel_origin = CancelOrigin_CLIENT)
          then i_reject_cancel (ai_endpoint a) w goal
          else (ai_endpoint a, w, true) in
        if negb ok then (put_action i (set_endpoint e a) s, w', false)
        else (put_action i (set_endpoint e (set_context k gi (st_next transition) a)) s,
              w', true)
  end.

(** ** Feedback and completion *)

Definition send_feedback (s : ServicesServer E) (w : Wire) (action_name : string)
    (goal : ServerGoalHandle) (feedback_pdu : PduData) : ServicesServer E * Wire * bool :=
  if bool_decide (feedback_pdu = []) then (s, w, false)
  else
    match find_goal s action_name goal with
    | None => (s, w, false)
    | Some (i, a, (_, gi)) =>
        let transition :=
          transition_server_goal (gi_context gi) ServerGoalEvent_PUBLISH_FEEDBACK in
        if st_is_error transition then (s, w, false)
        else if negb (st_is_nop transition) then (s, w, false)
        else
          let '(e, w', ok) := i_send_feedback (ai_endpoint a) w goal feedback_pdu in
          (put_action i (set_endpoint e a) s, w', ok)
    end.

Definition completion_event (status : TerminalStatus) : ServerGoalEvent :=
  match status with
  | TerminalStatus_SUCCEEDED => ServerGoalEvent_COMPLETE_SUCCEEDED
  | TerminalStatus_CANCELED => ServerGoalEvent_COMPLETE_CANCELED
  | TerminalStatus_ABORTED => ServerGoalEvent_COMPLETE_ABORTED
  | TerminalStatus_UNSPECIFIED => ServerGoalEvent_COMPLETE_UNSPECIFIED
  end.

Definition complete_goal_locked (a : ActionInstance E) (w : Wire) (k : nat)
    (gi : GoalInstance) (status : TerminalStatus) (result_pdu : PduData)
    (local_only : bool) : ActionInstance E * Wire * bool :=
  let transition := transition_server_goal (gi_context gi) (completion_event status) in
  if st_is_error transition then (a, w, false)
  else if negb (st_transitioned transition) then (a, w, false)
  else if local_only then
    let '(e, ok) := i_complete_locally (ai_endpoint a) (gi_goal gi) status result_pdu in
    if negb ok then (set_endpoint e a, w, false)
    else (remove_goal_locked (set_endpoint e a) (sgh_goal_id (gi_goal gi)), w, true)
  else
    let '(e, w', result) := i_complete (ai_endpoint a) w (gi_goal gi) status result_pdu in
    match result with
    | CompleteResult_NOT_COMMITTED => (set_endpoint e a, w', false)
    | CompleteResult_SENT =>
        (remove_goal_locked (set_endpoint e a) (sgh_goal_id (gi_goal gi)), w', true)
    | CompleteResult_SEND_FAILED_AFTER_COMMIT =>
        (set_context k gi (st_next transition) (set_endpoint e a), w', false)
    end.

Definition complete (s : ServicesServer E) (w : Wire) (action_name : string)
    (goal : ServerGoalHandle) (status : TerminalStatus) (result_pdu : PduData)
    : ServicesServer E * Wire * bool :=
  if bool_decide (result_pdu = []) then (s, w, false)
  else
    match find_goal s action_name goal with
    | None => (s, w, false)
    | Some (i, a, (k, gi)) =>
        let '(a', w', ok) := complete_goal_locked a w k gi status result_pdu false in
        (put_action i a' s, w', ok)
    end.

Definition complete_locally (s : ServicesServer E) (w : Wire) (action_name : string)
    (goal : ServerGoalHandle) (status : TerminalStatus) (result_pdu : PduData)
    : ServicesServer E * Wire * bool :=
  if bool_decide (result_pdu = []) then (s, w, false)
  else
    match find_goal s action_name goal with
    | None => (s, w, false)
    | Some (i, a, (k, gi)) =>
        let '(a', w', ok) := complete_goal_locked a w k gi status result_pdu true in
        (put_action i a' s, w', ok)
    end.
End Operations.
End Services.
