(* ===== verification/ServicesServerFacts.v ===== *)
(** * Correctness of the server-side action services

    The coupling between the semantic goals of [ActionServicesServer] and the
    packet bindings of its endpoints, for every endpoint that meets the
    interface contract, and the theorems about the services. *)

From S2P Require Import Prelude KeyedList ActionTypes ActionConfiguration PduPacket.
From S2P Require Import ServerStateMachine ServerInterface ServicesServer.
From Stdlib Require Import ZArith Lia.
From stdpp Require Import base gmap strings list fin_maps relations.

Module ServicesFacts.
Import ActionConfig ServerIface ServerSM Services.

(** ** The goal list as a map *)

Abbreviation instance_id gi := (sgh_goal_id (gi_goal gi)).

(** The context of the instance with this id. *)
Definition context_of : list GoalInstance -> GoalId -> option ServerGoalContext :=
  keyed (fun gi => instance_id gi) gi_context.

(** ** Transitions the services ask for *)

Lemma runtime_transition ctx :
  is_valid_server_context ctx = true ->
  let t := transition_server_goal ctx ServerGoalEvent_RUNTIME_CANCEL_REQUESTED in
  st_is_error t = false
  /\ (st_is_nop t = false ->
      sgc_state ctx = GoalState_EXECUTING
      /\ st_next t = mkServerGoalContext GoalState_EXECUTING true CancelOrigin_RUNTIME
                       TerminalStatus_UNSPECIFIED).
Proof. by destruct ctx as [[] [] [] []]. Qed.

Lemma client_transition ctx :
  is_valid_server_context ctx = true -> sgc_state ctx = GoalState_EXECUTING ->
  let t := transition_server_goal ctx ServerGoalEvent_CANCEL_REQUEST_RECEIVED in
  st_is_error t = false
  /\ (st_is_nop t = false ->
      st_next t = mkServerGoalContext GoalState_EXECUTING true CancelOrigin_CLIENT
                    TerminalStatus_UNSPECIFIED).
Proof. by destruct ctx as [[] [] [] []]. Qed.

Lemma accept_cancel_transition ctx :
  is_valid_server_context ctx = true ->
  let t := transition_server_goal ctx ServerGoalEvent_ACCEPT_CANCEL in
  st_transitioned t = true ->
  sgc_state ctx = GoalState_EXECUTING
  /\ st_next t = mkServerGoalContext GoalState_CANCELING false CancelOrigin_NONE
                   TerminalStatus_UNSPECIFIED.
Proof. by destruct ctx as [[] [] [] []]. Qed.

Lemma reject_cancel_transition ctx :
  is_valid_server_context ctx = true ->
  let t := transition_server_goal ctx ServerGoalEvent_REJECT_CANCEL in
  st_transitioned t = true ->
  sgc_state ctx = GoalState_EXECUTING
  /\ st_next t = mkServerGoalContext GoalState_EXECUTING false CancelOrigin_NONE
                   TerminalStatus_UNSPECIFIED.
Proof. by destruct ctx as [[] [] [] []]. Qed.

Lemma complete_transition ctx st :
  is_valid_server_context ctx = true ->
  let t := transition_server_goal ctx (completion_event st) in
  st_transitioned t = true ->
  st_next t = mkServerGoalContext GoalState_FINISHING false CancelOrigin_NONE st
  /\ is_valid_server_context (st_next t) = true.
Proof. by destruct ctx as [[] [] [] []], st. Qed.

(** ** Coupling *)

Definition phase_of_state (st : GoalState) : option phase :=
  match st with
  | GoalState_UNSPECIFIED => None
  | GoalState_EXECUTING => Some Accepted
  | GoalState_CANCELING => Some Canceling
  | GoalState_FINISHING => Some Committed
  end.

(** A semantic goal and the endpoint's entry for its id belong together: they
    are in the same phase, and a cancel decision a client asked for is pending
    at the endpoint, too. Only a goal without decision may be known to the
    endpoint alone. *)
Definition related (o : option ServerGoalContext) (v : option (phase * bool)) : Prop :=
  match o, v with
  | None, None => True
  | None, Some (p, _) => p = Awaiting
  | Some _, None => False
  | Some ctx, Some (p, c) =>
      is_valid_server_context ctx = true
      /\ phase_of_state (sgc_state ctx) = Some p
      /\ (sgc_cancel_origin ctx = CancelOrigin_CLIENT -> c = true)
  end.

Section Facts.
Context {E : Type} `{HE : ServerEndpointSpec E}.

Record coupled (a : ActionInstance E) : Prop := {
  co_inv : ep_inv (ai_endpoint a);
  co_nodup : NoDup ((fun gi => instance_id gi) <$> ai_goals a);
  co_related g : related (context_of (ai_goals a) g) (ep_view (ai_endpoint a) !! g);
}.

Lemma get_goal_context (a : ActionInstance E) g i gi :
  get_goal_locked a g = Some (i, gi) ->
  context_of (ai_goals a) g = Some (gi_context gi) /\ instance_id gi = g
  /\ ai_goals a !! i = Some gi.
Proof. exact (keyed_found (fun gi => instance_id gi) gi_context (ai_goals a) g i gi). Qed.

Lemma has_goal_context (a : ActionInstance E) g :
  has_goal_locked a g = false -> context_of (ai_goals a) g = None.
Proof.
  unfold has_goal_locked, context_of, keyed, get_goal_locked. intros Hh. simpl_bools.
  destruct (list_find _ _); [|done]. by destruct Hh.
Qed.

(** Updating one goal: the new context and the new view agree at its id and
    the view keeps every other entry. *)
Lemma set_context_coupled (a : ActionInstance E) e k gi ctx x :
  coupled a -> get_goal_locked a (instance_id gi) = Some (k, gi) -> ep_inv e ->
  ep_view e = <[instance_id gi := x]> (ep_view (ai_endpoint a)) ->
  related (Some ctx) (Some x) ->
  coupled (set_endpoint e (set_context k gi ctx a)).
Proof.
  intros [Hi Hn Hr] Hg He Hv Hx.
  split; cbn; [done|..].
  - by rewrite (keys_insert _ _ (instance_id gi) k gi).
  - intros g. unfold context_of. rewrite (keyed_insert _ _ _ (instance_id gi) k gi) by done.
    rewrite Hv, lookup_insert. by case_decide.
Qed.

(** The endpoint changed only the entry of a goal without semantic state, or
    one whose context still fits. *)
Lemma set_endpoint_coupled (a : ActionInstance E) e g x :
  coupled a -> ep_inv e ->
  ep_view e = partial_alter (fun _ => x) g (ep_view (ai_endpoint a)) ->
  related (context_of (ai_goals a) g) x -> coupled (set_endpoint e a).
Proof.
  intros [Hi Hn Hr] He Hv Hx. split; cbn; [done|done|]. intros g'.
  rewrite Hv, lookup_partial_alter. case_decide; [by subst|done].
Qed.

Lemma same_view_coupled (a : ActionInstance E) e :
  coupled a -> ep_inv e -> ep_view e = ep_view (ai_endpoint a) -> coupled (set_endpoint e a).
Proof. intros [Hi Hn Hr] He Hv. split; cbn; [done|done|]. by rewrite Hv. Qed.

Lemma remove_goal_coupled (a : ActionInstance E) e g k gi :
  coupled a -> get_goal_locked a g = Some (k, gi) -> ep_inv e ->
  ep_view e = delete g (ep_view (ai_endpoint a)) ->
  coupled (remove_goal_locked (set_endpoint e a) g).
Proof.
  intros [Hi Hn Hr] Hg He Hv. unfold remove_goal_locked.
  change (get_goal_locked (set_endpoint e a) g) with (get_goal_locked a g). rewrite Hg.
  split; cbn; [done|..].
  - by apply keys_delete.
  - intros g'. unfold context_of. rewrite (keyed_delete _ _ _ g k gi) by done. rewrite Hv, lookup_delete.
    by case_decide.
Qed.

Lemma append_goal_coupled (a : ActionInstance E) e goal c :
  coupled a -> has_goal_locked a (sgh_goal_id goal) = false -> ep_inv e ->
  ep_view e = <[sgh_goal_id goal := (Accepted, c)]> (ep_view (ai_endpoint a)) ->
  coupled (set_endpoint e (set_ai_goals
             (ai_goals a ++ [mkGoalInstance goal initial_server_context]) a)).
Proof.
  intros [Hi Hn Hr] Hh%has_goal_context He Hv. split; cbn; [done|..].
  - by apply (keys_app _ gi_context).
  - intros g. unfold context_of. rewrite keyed_app by done. cbn. rewrite Hv, lookup_insert.
    by case_decide.
Qed.

(** ** Every operation keeps all actions coupled *)

Definition svc_coupled (s : ServicesServer E) : Prop := Forall coupled (ss_actions s).

Lemma put_action_coupled i a s : svc_coupled s -> coupled a -> svc_coupled (put_action i a s).
Proof. intros Hs Ha. unfold svc_coupled. cbn. by apply Forall_insert. Qed.

Lemma get_action_coupled s n i a :
  svc_coupled s -> get_action_locked s n = Some (i, a) ->
  coupled a /\ ss_actions s !! i = Some a /\ ai_action_name a = n.
Proof.
  intros Hs (Hl & Hn & _)%list_find_Some. split; [|done].
  unfold svc_coupled in Hs. rewrite Forall_lookup in Hs. by eapply Hs.
Qed.

Lemma find_goal_Some s n h i a k gi :
  svc_coupled s -> find_goal s n h = Some (i, a, (k, gi)) ->
  coupled a /\ get_goal_locked a (instance_id gi) = Some (k, gi)
  /\ instance_id gi = sgh_goal_id h /\ gi_goal gi = h
  /\ exists p c, ep_view (ai_endpoint a) !! sgh_goal_id h = Some (p, c)
       /\ related (Some (gi_context gi)) (Some (p, c)).
Proof.
  intros Hs. unfold find_goal. split_guard; [done|].
  destruct (get_action_locked s n) as [[i' a']|] eqn:Ha; [|done].
  destruct (get_goal_locked a' (sgh_goal_id h)) as [[k' gi']|] eqn:Hg; [|done].
  intros [= <- <- <- <-]. destruct (get_action_coupled _ _ _ _ Hs Ha) as (Hc & _).
  destruct (get_goal_context _ _ _ _ Hg) as (Hctx & Hid & _).
  split_and!; [done|by rewrite Hid|done| |].
  - destruct (gi_goal gi'), h. cbn in Hid. by subst.
  - pose proof (co_related _ Hc (sgh_goal_id h)) as Hr. rewrite Hctx in Hr.
    destruct (ep_view (ai_endpoint a') !! sgh_goal_id h) as [[p c]|]; [|done]. eauto.
Qed.

Lemma reject_like_coupled s i a e h :
  svc_coupled s -> coupled a -> has_goal_locked a (sgh_goal_id h) = false -> ep_inv e ->
  ep_view e = delete (sgh_goal_id h) (ep_view (ai_endpoint a))
  \/ ep_view e = ep_view (ai_endpoint a) ->
  svc_coupled (put_action i (set_endpoint e a) s).
Proof.
  intros Hs Ha Hh He Hv. apply put_action_coupled; [done|].
  destruct Hv as [Hv|Hv]; [|by apply same_view_coupled].
  apply (set_endpoint_coupled a e (sgh_goal_id h) None); [done|done|done|].
  by rewrite (has_goal_context _ _ Hh).
Qed.

Lemma discard_coupled s n h s' r :
  svc_coupled s -> discard_pending_goal s n h = (s', r) -> svc_coupled s'.
Proof.
  intros Hs. unfold discard_pending_goal. split_guard; [by intros [= <- <-]|].
  destruct (get_action_locked s n) as [[i a]|] eqn:Ha; [|by intros [= <- <-]].
  destruct (get_action_coupled _ _ _ _ Hs Ha) as (Hc & _).
  destruct (has_goal_locked a _) eqn:Hh; [by intros [= <- <-]|].
  destruct (i_discard_pending_goal _ _) as [e ok] eqn:Hop. intros [= <- <-].
  apply spec_discard_pending_goal in Hop as [He Hv]; [|apply Hc].
  eapply reject_like_coupled; eauto. destruct ok; [left|right]; tauto.
Qed.

Lemma reject_goal_coupled s w n h s' w' r :
  svc_coupled s -> reject_goal s w n h = (s', w', r) -> svc_coupled s'.
Proof.
  intros Hs. unfold reject_goal. split_guard; [by intros [= <- <- <-]|].
  destruct (get_action_locked s n) as [[i a]|] eqn:Ha; [|by intros [= <- <- <-]].
  destruct (get_action_coupled _ _ _ _ Hs Ha) as (Hc & _).
  destruct (has_goal_locked a _) eqn:Hh; [by intros [= <- <- <-]|].
  destruct (i_reject_goal _ _ _) as [[e w1] ok] eqn:Hop. intros [= <- <- <-].
  apply spec_reject_goal in Hop as [He Hv]; [|apply Hc].
  eapply reject_like_coupled; eauto. destruct ok; [left|right]; tauto.
Qed.

Lemma accept_goal_coupled s w n h s' w' r :
  svc_coupled s -> accept_goal s w n h = (s', w', r) -> svc_coupled s'.
Proof.
  intros Hs. unfold accept_goal. split_guard; [by intros [= <- <- <-]|].
  destruct (get_action_locked s n) as [[i a]|] eqn:Ha; [|by intros [= <- <- <-]].
  destruct (get_action_coupled _ _ _ _ Hs Ha) as (Hc & _).
  destruct (has_goal_locked a _) eqn:Hh; [by intros [= <- <- <-]|].
  destruct (i_accept_goal _ _ _) as [[e w1] ok] eqn:Hop.
  apply spec_accept_goal in Hop as [He Hv]; [|apply Hc].
  destruct ok; intros [= <- <- <-]; apply put_action_coupled; try done.
  - destruct Hv as [_ Hv]. by apply append_goal_coupled with false.
  - by apply same_view_coupled.
Qed.

Lemma accept_cancel_coupled s w n h s' w' r :
  svc_coupled s -> accept_cancel s w n h = (s', w', r) -> svc_coupled s'.
Proof.
  intros Hs. unfold accept_cancel.
  destruct (find_goal s n h) as [[[i a] [k gi]]|] eqn:Hf; [|by intros [= <- <- <-]].
  apply find_goal_Some in Hf as (Hc & Hg & Hid & <- & p & c & Hv & Hval & Hp & Ho); [|done].
  split_guard; [by intros [= <- <- <-]|].
  destruct (st_transitioned _) eqn:Ht; cbn [negb]; [|by intros [= <- <- <-]].
  apply accept_cancel_transition in Ht as [Hst ->]; [|done].
  assert (Hend : forall e w1 ok,
    (if bool_decide (sgc_cancel_origin (gi_context gi) = CancelOrigin_CLIENT)
     then i_accept_cancel (ai_endpoint a) w (gi_goal gi)
     else let '(e, ok) := i_accept_cancel_locally (ai_endpoint a) (gi_goal gi) in (e, w, ok))
    = (e, w1, ok) ->
    ep_inv e /\ ep_view e = if ok then <[instance_id gi := (Canceling, false)]>
                                         (ep_view (ai_endpoint a))
                            else ep_view (ai_endpoint a)).
  { intros e w1 ok. case_bool_decide.
    - intros Hop. apply spec_accept_cancel in Hop as [He Hv']; [|apply Hc].
      destruct ok; tauto.
    - destruct (i_accept_cancel_locally _ _) as [e0 ok0] eqn:Hop. intros [= <- <- <-].
      apply spec_accept_cancel_locally in Hop as [He Hv']; [|apply Hc].
      destruct ok0; tauto. }
  destruct (if bool_decide _ then _ else _) as [[e w1] ok] eqn:Hop.
  destruct (Hend _ _ _ eq_refl) as [He Hv1].
  destruct ok; cbn [negb]; intros [= <- <- <-]; apply put_action_coupled; try done.
  - by eapply set_context_coupled.
  - by apply same_view_coupled.
Qed.

Lemma reject_cancel_coupled s w n h s' w' r :
  svc_coupled s -> reject_cancel s w n h = (s', w', r) -> svc_coupled s'.
Proof.
  intros Hs. unfold reject_cancel.
  destruct (find_goal s n h) as [[[i a] [k gi]]|] eqn:Hf; [|by intros [= <- <- <-]].
  apply find_goal_Some in Hf as (Hc & Hg & Hid & <- & p & c & Hv & Hval & Hp & Ho); [|done].
  split_guard; [by intros [= <- <- <-]|].
  destruct (st_transitioned _) eqn:Ht; cbn [negb]; [|by intros [= <- <- <-]].
  apply reject_cancel_transition in Ht as [Hst ->]; [|done].
  rewrite Hst in Hp. injection Hp as <-.
  case_bool_decide.
  - destruct (i_reject_cancel _ _ _) as [[e w1] ok] eqn:Hop.
    apply spec_reject_cancel in Hop as [He Hv']; [|apply Hc].
    destruct ok; cbn [negb]; intros [= <- <- <-]; apply put_action_coupled; try done.
    + destruct Hv' as [_ Hv']. by eapply set_context_coupled.
    + by apply same_view_coupled.
  - cbn [negb]. intros [= <- <- <-]. apply put_action_coupled; [done|].
    eapply set_context_coupled with (x := (Accepted, c)); try done; [apply Hc|].
    by rewrite insert_id.
Qed.

Lemma send_feedback_coupled s w n h d s' w' r :
  svc_coupled s -> send_feedback s w n h d = (s', w', r) -> svc_coupled s'.
Proof.
  intros Hs. unfold send_feedback. split_guard; [by intros [= <- <- <-]|].
  destruct (find_goal s n h) as [[[i a] [k gi]]|] eqn:Hf; [|by intros [= <- <- <-]].
  apply find_goal_Some in Hf as (Hc & _); [|done].
  do 2 (split_guard; [by intros [= <- <- <-]|]).
  destruct (i_send_feedback _ _ _ _) as [[e w1] ok] eqn:Hop. intros [= <- <- <-].
  apply spec_send_feedback in Hop as (He & Hv & _); [|apply Hc].
  apply put_action_coupled; [done|]. by apply same_view_coupled.
Qed.

Lemma complete_goal_coupled a w k gi st d local a' w' r p c :
  coupled a -> get_goal_locked a (instance_id gi) = Some (k, gi) ->
  related (Some (gi_context gi)) (Some (p, c)) ->
  complete_goal_locked a w k gi st d local = (a', w', r) -> coupled a'.
Proof.
  intros Hc Hg (Hval & _ & _). unfold complete_goal_locked.
  split_guard; [by intros [= <- <- <-]|].
  destruct (st_transitioned _) eqn:Ht; cbn [negb]; [|by intros [= <- <- <-]].
  apply complete_transition in Ht as [Hn Hnv]; [|done]. destruct local.
  - destruct (i_complete_locally _ _ _ _) as [e ok] eqn:Hop.
    apply spec_complete_locally in Hop as [He Hv]; [|apply Hc].
    destruct ok; cbn [negb]; intros [= <- <- <-].
    + destruct Hv as [_ Hv]. by eapply remove_goal_coupled.
    + by apply same_view_coupled.
  - destruct (i_complete _ _ _ _ _) as [[e w1] res] eqn:Hop.
    apply spec_complete in Hop as [He Hv]; [|apply Hc].
    destruct res; intros [= <- <- <-].
    + by apply same_view_coupled.
    + destruct Hv as [_ Hv]. by eapply remove_goal_coupled.
    + destruct Hv as [_ Hv]. eapply set_context_coupled in Hv; [exact Hv|done|done|done|].
      rewrite Hn in *. done.
Qed.

Lemma complete_coupled s w n h st d s' w' r :
  svc_coupled s -> complete s w n h st d = (s', w', r) -> svc_coupled s'.
Proof.
  intros Hs. unfold complete. split_guard; [by intros [= <- <- <-]|].
  destruct (find_goal s n h) as [[[i a] [k gi]]|] eqn:Hf; [|by intros [= <- <- <-]].
  apply find_goal_Some in Hf as (Hc & Hg & _ & _ & p & c & _ & Hr); [|done].
  destruct (complete_goal_locked _ _ _ _ _ _ _) as [[a' w1] ok] eqn:Hop.
  intros [= <- <- <-]. apply put_action_coupled; [done|].
  by eapply complete_goal_coupled.
Qed.

Lemma complete_locally_coupled s w n h st d s' w' r :
  svc_coupled s -> complete_locally s w n h st d = (s', w', r) -> svc_coupled s'.
Proof.
  intros Hs. unfold complete_locally. split_guard; [by intros [= <- <- <-]|].
  destruct (find_goal s n h) as [[[i a] [k gi]]|] eqn:Hf; [|by intros [= <- <- <-]].
  apply find_goal_Some in Hf as (Hc & Hg & _ & _ & p & c & _ & Hr); [|done].
  destruct (complete_goal_locked _ _ _ _ _ _ _) as [[a' w1] ok] eqn:Hop.
  intros [= <- <- <-]. apply put_action_coupled; [done|].
  by eapply complete_goal_coupled.
Qed.

Lemma set_context_same_endpoint (a : ActionInstance E) k gi ctx :
  set_context k gi ctx a = set_endpoint (ai_endpoint a) (set_context k gi ctx a).
Proof. by destruct a. Qed.

(** A runtime cancel request is an error only for a goal that is gone. *)
Lemma handle_runtime_event a ev a' ev' :
  coupled a ->
  handle_cancel_event_locked a ServerEventType_RUNTIME_CANCEL_REQUEST ev = Some (a', ev') ->
  coupled a' /\ ai_action_name a' = ai_action_name a
  /\ ((ev' = ev /\ is_Some (context_of (ai_goals a) (sgh_goal_id (se_goal ev))))
      \/ (ev' = as_error ev /\ context_of (ai_goals a) (sgh_goal_id (se_goal ev)) = None)).
Proof.
  intros Hc. unfold handle_cancel_event_locked.
  destruct (get_goal_locked a _) as [[k gi]|] eqn:Hg.
  - destruct (get_goal_context _ _ _ _ Hg) as (Hctx & Hid & _).
    pose proof (co_related _ Hc (sgh_goal_id (se_goal ev))) as Hr. rewrite Hctx in Hr.
    destruct (ep_view (ai_endpoint a) !! _) as [[p c]|] eqn:Hv; [|done].
    destruct Hr as (Hval & Hp & Ho). cbn zeta. rewrite bool_decide_eq_false_2 by done.
    destruct (runtime_transition _ Hval) as [-> Hn].
    destruct (st_is_nop _); [done|]. destruct (Hn eq_refl) as [Hst ->].
    intros [= <- <-]. rewrite Hst in Hp. injection Hp as <-. split_and!; [|done|left; eauto].
    rewrite set_context_same_endpoint.
    eapply set_context_coupled with (x := (Accepted, c)); rewrite ?Hid; try done;
      [apply Hc|by rewrite insert_id].
  - intros [= <- <-]. split_and!; [done|done|]. right. split; [done|].
    unfold context_of, keyed. unfold get_goal_locked in Hg. by rewrite Hg.
Qed.

Lemma poll_runtime_events_spec s events rest i a ev :
  svc_coupled s -> poll_runtime_events s events = (rest, Some (i, a, ev)) ->
  coupled a /\
  exists e0 a0, e0 ∈ events /\ get_action_locked s (se_action_name e0) = Some (i, a0)
    /\ ai_action_name a = ai_action_name a0
    /\ ((ev = e0 /\ is_Some (context_of (ai_goals a0) (sgh_goal_id (se_goal e0))))
        \/ (ev = as_error e0 /\ context_of (ai_goals a0) (sgh_goal_id (se_goal e0)) = None)).
Proof.
  intros Hs. induction events as [|e0 events IH]; cbn; [done|].
  assert (Hrec : poll_runtime_events s events = (rest, Some (i, a, ev)) ->
    coupled a /\ exists e1 a0, e1 ∈ e0 :: events
    /\ get_action_locked s (se_action_name e1) = Some (i, a0)
    /\ ai_action_name a = ai_action_name a0
    /\ ((ev = e1 /\ is_Some (context_of (ai_goals a0) (sgh_goal_id (se_goal e1))))
        \/ (ev = as_error e1 /\ context_of (ai_goals a0) (sgh_goal_id (se_goal e1)) = None))).
  { intros Hp. destruct (IH Hp) as (Hc & e1 & a0 & Hin & ?). split; [done|].
    exists e1, a0. split; [by apply elem_of_cons; right|done]. }
  destruct (get_action_locked s _) as [[j a0]|] eqn:Ha; [|done].
  destruct (get_action_coupled _ _ _ _ Hs Ha) as (Hc & _).
  destruct (handle_cancel_event_locked a0 _ e0) as [[a1 ev1]|] eqn:Hh; [|done].
  intros [= <- <- <- <-]. destruct (handle_runtime_event _ _ _ _ Hc Hh) as (? & ? & ?).
  split; [done|]. exists e0, a0. split_and!; try done. apply elem_of_cons. by left.
Qed.

(** Endpoint events are never errors. *)
Lemma poll_action_spec a w a' w' o :
  coupled a -> poll_action a w = (a', w', o) ->
  coupled a' /\ (forall ev, o = Some ev -> se_type ev = ServerEventType_GOAL_REQUEST
                                           \/ se_type ev = ServerEventType_CANCEL_REQUEST).
Proof.
  intros Hc. unfold poll_action.
  destruct (i_poll (ai_endpoint a) w) as [[e w1] ev] eqn:Hp.
  apply spec_poll in Hp as [He Heff]; [|apply Hc]. unfold poll_effect in Heff.
  destruct (se_type ev) eqn:Ht; try done.
  - intros [= <- <- <-]. split; [by apply same_view_coupled|done].
  - intros [= <- <- <-]. destruct Heff as (Hg & Hn & Hv). split; [|naive_solver].
    apply (set_endpoint_coupled a e (sgh_goal_id (se_goal ev)) (Some (Awaiting, false)));
      [done|done|done|].
    pose proof (co_related _ Hc (sgh_goal_id (se_goal ev))) as Hr. rewrite Hn in Hr.
    by destruct (context_of _ _).
  - destruct Heff as [Ha Hv]. set (g := sgh_goal_id (se_goal ev)) in *.
    pose proof (co_related _ Hc g) as Hr. rewrite Ha in Hr.
    destruct (context_of (ai_goals a) g) as [ctx|] eqn:Hctx; [|done].
    destruct Hr as (Hval & Hp & Ho).
    assert (Hst : sgc_state ctx = GoalState_EXECUTING) by (by destruct (sgc_state ctx)).
    unfold handle_cancel_event_locked. cbn [with_action_name se_goal]. fold g.
    change (get_goal_locked (set_endpoint e a) g) with (get_goal_locked a g).
    destruct (get_goal_locked a g) as [[k gi]|] eqn:Hg; cycle 1.
    { unfold get_goal_locked in Hg. unfold context_of, keyed in Hctx. by rewrite Hg in Hctx. }
    destruct (get_goal_context _ _ _ _ Hg) as (Hctx' & Hid & _).
    rewrite Hctx in Hctx'. injection Hctx' as ->.
    cbn zeta. rewrite bool_decide_eq_true_2 by done. destruct (client_transition _ Hval Hst) as [-> Hn].
    destruct (st_is_nop _).
    + intros [= <- <- <-]. split; [|done].
      apply (set_endpoint_coupled a e g (Some (Accepted, true))); [done|done|done|].
      rewrite Hctx. by split_and!.
    + rewrite (Hn eq_refl). intros [= <- <- <-]. split.
      * match goal with |- coupled (set_context k gi ?c (set_endpoint e a)) =>
          change (coupled (set_endpoint e (set_context k gi c a))) end.
        eapply set_context_coupled with (x := (Accepted, true)); rewrite ?Hid; done.
      * intros ev0 [= <-]. by right.
Qed.

Lemma poll_actions_spec l w l' w' o :
  Forall coupled l -> poll_actions l w = (l', w', o) ->
  Forall coupled l' /\ (forall n ev, o = Some (n, ev) ->
    se_type ev = ServerEventType_GOAL_REQUEST \/ se_type ev = ServerEventType_CANCEL_REQUEST).
Proof.
  intros Hl. revert w l' w' o. induction Hl as [|a l Ha Hl IH]; intros w l' w' o; cbn.
  { by intros [= <- <- <-]. }
  destruct (poll_action a w) as [[a1 w1] r] eqn:Hp.
  destruct (poll_action_spec _ _ _ _ _ Ha Hp) as [Ha1 Hev].
  destruct r as [ev|].
  - intros [= <- <- <-]. split; [by constructor|]. intros n ev0 [= _ <-]. by apply Hev.
  - destruct (poll_actions l w1) as [[l2 w2] r2] eqn:Hr. intros [= <- <- <-].
    destruct (IH _ _ _ _ Hr) as [Hl2 Hev2]. split; [by constructor|done].
Qed.

Lemma poll_coupled s w s' w' r : svc_coupled s -> poll s w = (s', w', r) -> svc_coupled s'.
Proof.
  intros Hs. unfold poll.
  destruct (poll_runtime_events _ _) as [rest [[[i a] ev]|]] eqn:Hr.
  - apply poll_runtime_events_spec in Hr as [Ha _]; [|done]. intros [= <- <- <-].
    by apply put_action_coupled.
  - destruct (poll_actions _ w) as [[l w1] o] eqn:Hp. intros [= <- <- <-].
    by apply poll_actions_spec in Hp as [Hl _].
Qed.

(** ** Initialisation and lifecycle *)

Lemma init_actions_coupled s cont ov ds l :
  init_actions s cont ov ds = Some l -> Forall coupled l.
Proof.
  revert l. induction ds as [|[d j] ds IH]; intros l; cbn; [by intros [= <-]|].
  split_guard; [apply IH|]. destruct (negb (_ || _)); [done|].
  destruct (negb (bool_decide (ss_impl_type s = _))); [done|].
  destruct (i_initialize _ j) as [e ok] eqn:Hi. split_guard; [done|].
  destruct (init_actions s cont ov ds) as [l0|]; [|done]. intros [= <-].
  destruct (spec_make (ad_name d) true (ss_has_time_source s)) as [Hm Hv].
  apply spec_initialize in Hi as [He Hv']; [|done].
  constructor; [|by apply IH]. split; cbn; [done|apply NoDup_nil_2|].
  intros g. unfold context_of, keyed. cbn. by rewrite Hv', Hv, lookup_empty.
Qed.

Lemma initialize_coupled s cont ov cfg s' r :
  svc_coupled s -> initialize_services_impl s cont ov cfg = (s', r) -> svc_coupled s'.
Proof.
  intros Hs. unfold initialize_services_impl.
  repeat (split_guard; try by intros [= <- <-]). intros [= <- <-].
  by eapply init_actions_coupled.
Qed.

Lemma stop_coupled s : svc_coupled s -> svc_coupled (stop_all_services s).
Proof.
  intros Hs. unfold svc_coupled. cbn. apply Forall_fmap. eapply Forall_impl; [done|].
  intros a Ha. cbn. destruct (spec_clear_pending_events _ (co_inv _ Ha)) as [He Hv].
  by apply same_view_coupled.
Qed.

Lemma clear_coupled s : svc_coupled s -> svc_coupled (clear_all_instances s).
Proof.
  intros Hs. unfold svc_coupled. cbn. apply Forall_fmap. eapply Forall_impl; [done|].
  intros a Ha. cbn. destruct (spec_reset_contexts _ (co_inv _ Ha)) as [He Hv].
  split; cbn; [done|apply NoDup_nil_2|]. intros g. unfold context_of, keyed. cbn.
  by rewrite Hv, lookup_empty.
Qed.

Lemma deliver_coupled s i a k d :
  svc_coupled s -> ss_actions s !! i = Some a ->
  svc_coupled (put_action i (set_endpoint (i_deliver k d (ai_endpoint a)) a) s).
Proof.
  intros Hs Hi. apply put_action_coupled; [done|].
  unfold svc_coupled in Hs. rewrite Forall_lookup in Hs. pose proof (Hs _ _ Hi) as Ha.
  destruct (spec_deliver k d _ (co_inv _ Ha)). by apply same_view_coupled.
Qed.

(** ** Reachable states *)

Inductive svc_step : ServicesServer E * Wire -> ServicesServer E * Wire -> Prop :=
  | svc_initialize s w cont ov cfg s' r :
      initialize_services_impl s cont ov cfg = (s', r) -> svc_step (s, w) (s', w)
  | svc_deliver s w i a k d : ss_actions s !! i = Some a ->
      svc_step (s, w) (put_action i (set_endpoint (i_deliver k d (ai_endpoint a)) a) s, w)
  | svc_poll s w s' w' r : poll s w = (s', w', r) -> svc_step (s, w) (s', w')
  | svc_accept_goal s w n h s' w' r :
      accept_goal s w n h = (s', w', r) -> svc_step (s, w) (s', w')
  | svc_reject_goal s w n h s' w' r :
      reject_goal s w n h = (s', w', r) -> svc_step (s, w) (s', w')
  | svc_accept_cancel s w n h s' w' r :
      accept_cancel s w n h = (s', w', r) -> svc_step (s, w) (s', w')
  | svc_reject_cancel s w n h s' w' r :
      reject_cancel s w n h = (s', w', r) -> svc_step (s, w) (s', w')
  | svc_send_feedback s w n h d s' w' r :
      send_feedback s w n h d = (s', w', r) -> svc_step (s, w) (s', w')
  | svc_complete s w n h st d s' w' r :
      complete s w n h st d = (s', w', r) -> svc_step (s, w) (s', w')
  | svc_complete_locally s w n h st d s' w' r :
      complete_locally s w n h st d = (s', w', r) -> svc_step (s, w) (s', w')
  | svc_discard s w n h s' r :
      discard_pending_goal s n h = (s', r) -> svc_step (s, w) (s', w)
  | svc_notify s w : svc_step (s, w) (notify_transport_disconnected s, w)
  | svc_stop s w : svc_step (s, w) (stop_all_services s, w)
  | svc_clear s w : svc_step (s, w) (clear_all_instances s, w).

Lemma svc_step_coupled x y : svc_step x y -> svc_coupled x.1 -> svc_coupled y.1.
Proof.
  destruct 1; cbn; intros Hs.
  - by eapply initialize_coupled.
  - by apply deliver_coupled.
  - by eapply poll_coupled.
  - by eapply accept_goal_coupled.
  - by eapply reject_goal_coupled.
  - by eapply accept_cancel_coupled.
  - by eapply reject_cancel_coupled.
  - by eapply send_feedback_coupled.
  - by eapply complete_coupled.
  - by eapply complete_locally_coupled.
  - by eapply discard_coupled.
  - done.
  - by apply stop_coupled.
  - by apply clear_coupled.
Qed.

Lemma svc_reachable_coupled n t b s w :
  rtc svc_step (new_services_server n t b, []) (s, w) -> svc_coupled s.
Proof.
  intros Hr. change s with (s, w).1.
  assert (Hg : forall x y, rtc svc_step x y -> svc_coupled x.1 -> svc_coupled y.1).
  { induction 1 as [|x y z Hxy _ IH]; [done|]. intros Hx. apply IH.
    by eapply svc_step_coupled. }
  eapply Hg; [done|]. apply Forall_nil_2.
Qed.
End Facts.
End ServicesFacts.
