(* ===== verification/ServicesServerProps.v ===== *)
(** * What the server-side action services guarantee

    The theorems about [ActionServicesServer], proved for every endpoint that
    meets the interface contract and instantiated with
    [ActionServerEndpointImpl], and two runs of the real composition that show
    where a cancel decision of the runtime leaves the two layers apart. *)

From S2P Require Import Prelude KeyedList ActionTypes ActionConfiguration PduPacket.
From S2P Require Import ServerStateMachine ServerInterface.
From S2P Require Import ServicesServer ServicesServerFacts.
From S2P Require Import ServerEndpoint ServerEndpointFacts ServerEndpointProps.
From Stdlib Require Import ZArith Lia.
From stdpp Require Import base gmap strings list fin_maps relations.

Module ServicesProps.
Import ActionConfig ServerIface ServerSM Services ServicesFacts.

Section Lemmas.
Context {E : Type} `{HE : ServerEndpointSpec E}.

(** ** Pending runtime events *)

Definition runtime_events_typed (s : ServicesServer E) : Prop :=
  Forall (fun ev => se_type ev = ServerEventType_RUNTIME_CANCEL_REQUEST)
    (ss_pending_runtime_events s).

Lemma poll_runtime_events_suffix (s : ServicesServer E) events rest r :
  poll_runtime_events s events = (rest, r) -> rest `suffix_of` events.
Proof.
  revert rest r. induction events as [|e0 events IH]; intros rest r; cbn.
  { by intros [= <- <-]. }
  assert (Hrec : forall x, poll_runtime_events s events = (rest, x) ->
                           rest `suffix_of` e0 :: events).
  { intros x Hx. by eapply suffix_cons_r, IH. }
  destruct (get_action_locked s _) as [[j a0]|]; [|by apply Hrec].
  destruct (handle_cancel_event_locked a0 _ e0) as [[a1 ev1]|]; [|by apply Hrec].
  intros [= <- <-]. by apply suffix_cons_r.
Qed.

Lemma notify_goal_typed n l gi :
  Forall (fun ev => se_type ev = ServerEventType_RUNTIME_CANCEL_REQUEST) l ->
  Forall (fun ev => se_type ev = ServerEventType_RUNTIME_CANCEL_REQUEST) (notify_goal n l gi).
Proof.
  intros Hl. unfold notify_goal. split_guard; [done|]. apply Forall_app. split; [done|].
  by repeat constructor.
Qed.

Lemma svc_step_typed x y :
  svc_step x y -> runtime_events_typed x.1 -> runtime_events_typed y.1.
Proof.
  intros Hxy Hx. unfold runtime_events_typed in *.
  assert (Hsame : ss_pending_runtime_events y.1 `suffix_of` ss_pending_runtime_events x.1
    \/ exists s w, x = (s, w) /\ y = (notify_transport_disconnected s, w)).
  { destruct Hxy as [s w cont ov cfg s' r Hop| |s w s' w' r Hop|s w n h s' w' r Hop
      |s w n h s' w' r Hop|s w n h s' w' r Hop|s w n h s' w' r Hop|s w n h d s' w' r Hop
      |s w n h st d s' w' r Hop|s w n h st d s' w' r Hop|s w n h s' r Hop| | |]; cbn;
      try (left; done); try (right; by eauto); try (left; apply suffix_nil); left.
    - revert Hop. unfold initialize_services_impl.
      repeat (split_guard; try by intros [= <- <-]).
    - revert Hop. unfold poll.
      destruct (poll_runtime_events _ _) as [rest [[[i a] ev]|]] eqn:Hr;
        apply poll_runtime_events_suffix in Hr; [by intros [= <- <- <-]|].
      destruct (poll_actions _ w) as [[l w1] o]. by intros [= <- <- <-].
    - revert Hop. unfold accept_goal. repeat (split_guard; try by intros [= <- <- <-]).
    - revert Hop. unfold reject_goal. repeat (split_guard; try by intros [= <- <- <-]).
    - revert Hop. unfold accept_cancel. repeat (split_guard; try by intros [= <- <- <-]).
    - revert Hop. unfold reject_cancel. repeat (split_guard; try by intros [= <- <- <-]).
    - revert Hop. unfold send_feedback. repeat (split_guard; try by intros [= <- <- <-]).
    - revert Hop. unfold complete. repeat (split_guard; try by intros [= <- <- <-]).
    - revert Hop. unfold complete_locally. repeat (split_guard; try by intros [= <- <- <-]).
    - revert Hop. unfold discard_pending_goal. repeat (split_guard; try by intros [= <- <-]). }
  destruct Hsame as [[pre Hsuf]|(s & w & -> & ->)].
  - rewrite Hsuf in Hx. by apply Forall_app in Hx as [_ ?].
  - cbn in *. revert Hx. generalize (ss_pending_runtime_events s) as l.
    induction (ss_actions s) as [|a actions IH]; intros l Hl; [done|]. cbn. apply IH.
    revert l Hl. induction (ai_goals a) as [|gi gs IHg]; intros l Hl; [done|]. cbn.
    by apply IHg, notify_goal_typed.
Qed.

Lemma svc_reachable_typed n t b s w :
  rtc svc_step (new_services_server n t b, []) (s, w) -> runtime_events_typed s.
Proof.
  intros Hr. change s with (s, w).1.
  assert (Hg : forall x y, rtc svc_step x y -> runtime_events_typed x.1 ->
                           runtime_events_typed y.1).
  { induction 1 as [|x y z Hxy _ IH]; [done|]. intros Hx. apply IH.
    by eapply svc_step_typed. }
  eapply Hg; [done|]. apply Forall_nil_2.
Qed.

(** ** Disconnection *)

Lemma already_pending_app n g l l' :
  already_pending n g (l ++ l') = already_pending n g l || already_pending n g l'.
Proof. apply existsb_app. Qed.

Lemma notify_goal_prefix n l gi : l `prefix_of` notify_goal n l gi.
Proof. unfold notify_goal. split_guard; [done|]. by apply prefix_app_r. Qed.

Lemma notify_goals_prefix n l gs : l `prefix_of` foldl (notify_goal n) l gs.
Proof.
  revert l. induction gs as [|gi gs IH]; intros l; [done|]. cbn.
  etrans; [apply notify_goal_prefix|apply IH].
Qed.

Lemma notify_goal_pending n l gi :
  already_pending n (instance_id gi) (notify_goal n l gi) = true.
Proof.
  unfold notify_goal. split_guard; [done|]. rewrite already_pending_app.
  cbn. rewrite !bool_decide_eq_true_2 by done. by rewrite orb_true_r.
Qed.

Lemma already_pending_prefix n g l l' :
  l `prefix_of` l' -> already_pending n g l = true -> already_pending n g l' = true.
Proof. intros [x ->] Hp. by rewrite already_pending_app, Hp. Qed.

Lemma notify_goals_pending n l gs gi :
  gi ∈ gs -> already_pending n (instance_id gi) (foldl (notify_goal n) l gs) = true.
Proof.
  revert l. induction gs as [|x gs IH]; intros l; [by intros ?%not_elem_of_nil|]. cbn.
  intros [<-|Hin]%elem_of_cons; [|by apply IH].
  eapply already_pending_prefix; [apply notify_goals_prefix|]. apply notify_goal_pending.
Qed.

Abbreviation notify_all := (foldl (fun events (a : ActionInstance E) =>
  foldl (notify_goal (ai_action_name a)) events (ai_goals a))).

Lemma notify_all_prefix l actions : l `prefix_of` notify_all l actions.
Proof.
  revert l. induction actions as [|a actions IH]; intros l; [done|]. cbn.
  etrans; [apply notify_goals_prefix|apply IH].
Qed.

Lemma notify_all_pending l actions a gi :
  a ∈ actions -> gi ∈ ai_goals a ->
  already_pending (ai_action_name a) (instance_id gi) (notify_all l actions) = true.
Proof.
  revert l. induction actions as [|x actions IH]; intros l; [by intros ?%not_elem_of_nil|].
  cbn. intros [<-|Hin]%elem_of_cons Hg; [|by apply IH].
  eapply already_pending_prefix; [apply notify_all_prefix|]. by apply notify_goals_pending.
Qed.

Lemma notify_all_done l actions :
  (forall a gi, a ∈ actions -> gi ∈ ai_goals a ->
     already_pending (ai_action_name a) (instance_id gi) l = true) ->
  notify_all l actions = l.
Proof.
  induction actions as [|a actions IH]; [done|]. intros Hp. cbn.
  assert (Hg : foldl (notify_goal (ai_action_name a)) l (ai_goals a) = l).
  { assert (Hpa : forall gi, gi ∈ ai_goals a ->
      already_pending (ai_action_name a) (instance_id gi) l = true).
    { intros gi. apply Hp. apply elem_of_cons. by left. }
    induction (ai_goals a) as [|gi gs IHg]; [done|]. cbn. unfold notify_goal at 2.
    rewrite Hpa by (apply elem_of_cons; by left). apply IHg. intros. apply Hpa.
    apply elem_of_cons. by right. }
  rewrite Hg. apply IH. intros. apply Hp; [apply elem_of_cons; by right|done].
Qed.

(** ** Completion *)

Lemma complete_goal_outcome a w k gi st d local a' w' ok :
  coupled a -> get_goal_locked a (instance_id gi) = Some (k, gi) ->
  is_valid_server_context (gi_context gi) = true ->
  complete_goal_locked a w k gi st d local = (a', w', ok) ->
  let g := instance_id gi in
  if ok
  then context_of (ai_goals a') g = None /\ ep_view (ai_endpoint a') !! g = None
  else (ai_goals a' = ai_goals a /\ ep_view (ai_endpoint a') = ep_view (ai_endpoint a))
       \/ (local = false
           /\ context_of (ai_goals a') g
              = Some (mkServerGoalContext GoalState_FINISHING false CancelOrigin_NONE st)
           /\ ep_view (ai_endpoint a') !! g = Some (Committed, false)).
Proof.
  intros Hc Hg Hval Hop g. revert Hop. unfold complete_goal_locked.
  assert (Hrm : forall e, ep_view e = delete g (ep_view (ai_endpoint a)) ->
    context_of (ai_goals (remove_goal_locked (set_endpoint e a) g)) g = None
    /\ ep_view (ai_endpoint (remove_goal_locked (set_endpoint e a) g)) !! g = None).
  { intros e Hv. unfold remove_goal_locked.
    change (get_goal_locked (set_endpoint e a) g) with (get_goal_locked a g).
    unfold g. rewrite Hg. cbn. rewrite Hv. split; [|apply lookup_delete_eq].
    unfold context_of. rewrite (keyed_delete _ _ _ _ _ gi _ (co_nodup _ Hc) Hg). by rewrite decide_True. }
  split_guard; [intros [= <- <- <-]; by left|].
  destruct (st_transitioned _) eqn:Ht; cbn [negb]; [|intros [= <- <- <-]; by left].
  apply complete_transition in Ht as [Hn _]; [|done]. destruct local.
  - destruct (i_complete_locally _ _ _ _) as [e r] eqn:Hcl.
    apply spec_complete_locally in Hcl as [He Hv]; [|apply Hc].
    destruct r; cbn [negb]; intros [= <- <- <-]; [|by left].
    destruct Hv as [_ Hv]. by apply Hrm.
  - destruct (i_complete _ _ _ _ _) as [[e w1] r] eqn:Hcl.
    apply spec_complete in Hcl as [He Hv]; [|apply Hc].
    destruct r; intros [= <- <- <-]; [by left|..]; destruct Hv as [_ Hv]; [by apply Hrm|].
    right. rewrite Hn. cbn. rewrite Hv. split_and!; [done| |apply lookup_insert_eq].
    unfold context_of. rewrite (keyed_insert _ _ _ _ _ _ _ _ Hg) by done. by rewrite decide_True.
Qed.
End Lemmas.

(** ** A concrete run

    The sample action served by [ActionServerEndpointImpl]: goal 1 arrives and
    the application accepts it. *)

Module Demo.
Import ConcretePdu ServerEpProps.
Import ServerEpProps.Demo(reliable, goal_1, handle_1, request_packet).

#[export] Existing Instance reliable.
#[export] Existing Instance ServerEpFacts.impl_server_endpoint.
#[export] Existing Instance ServerEpFacts.impl_server_endpoint_spec.

Definition server : Type := ServicesServer ServerEp.ServerEndpoint.

Definition config : json := JObject [("actions", JArray [render_definition sample_definition])].

Definition fresh : server := new_services_server "server" "ActionServerEndpointImpl" true.
Definition ready : server := (initialize_services_impl fresh None true (Some config)).1.

(** A packet for the first request channel. *)
Definition arrives (packet : PduData) (s : server) : server :=
  match ss_actions s with
  | a :: _ =>
      put_action 0 (set_endpoint
        (i_deliver (mkPduResolvedKey "fib" 0) packet (ai_endpoint a)) a) s
  | [] => s
  end.

Definition requested : server := arrives (request_packet 1 goal_1) ready.

(** Services and wire after a poll, and after an operation on goal 1. *)
Definition after_poll (x : server * Wire) : server * Wire := (poll x.1 x.2).1.
Definition after_accept (x : server * Wire) : server * Wire :=
  (accept_goal x.1 x.2 "fib" handle_1).1.
Definition after_complete (d : PduData) (x : server * Wire) : server * Wire :=
  (complete x.1 x.2 "fib" handle_1 TerminalStatus_SUCCEEDED d).1.

Definition executing_state : server * Wire := after_accept (after_poll (requested, [])).
Definition executing : server := executing_state.1.
Definition executing_wire : Wire := executing_state.2.

Lemma arrives_step packet s w : rtc svc_step (s, w) (arrives packet s, w).
Proof.
  unfold arrives. destruct (ss_actions s) as [|a l] eqn:Ha; [done|].
  apply rtc_once. apply svc_deliver. by rewrite Ha.
Qed.

Lemma services_ready_reachable : rtc svc_step (fresh, []) (ready, []).
Proof.
  apply rtc_once.
  exact (svc_initialize _ _ _ _ _ _ _
           (surjective_pairing (initialize_services_impl fresh None true (Some config)))).
Qed.

Lemma after_poll_step x : svc_step x (after_poll x).
Proof.
  destruct x as [s w]. rewrite (surjective_pairing (after_poll _)).
  eapply svc_poll, triple_eta.
Qed.

Lemma after_accept_step x : svc_step x (after_accept x).
Proof.
  destruct x as [s w]. rewrite (surjective_pairing (after_accept _)).
  eapply svc_accept_goal, triple_eta.
Qed.

Lemma after_complete_step d x : svc_step x (after_complete d x).
Proof.
  destruct x as [s w]. rewrite (surjective_pairing (after_complete d _)).
  eapply svc_complete, triple_eta.
Qed.

Lemma executing_reachable : rtc svc_step (fresh, []) (executing, executing_wire).
Proof.
  unfold executing, executing_wire. rewrite <-surjective_pairing. unfold executing_state.
  eapply rtc_r; [|apply after_accept_step]. eapply rtc_r; [|apply after_poll_step].
  etrans; [apply services_ready_reachable|apply arrives_step].
Qed.
End Demo.
Import ConcretePdu.
Import ServerEpProps.Demo(reliable, goal_1, handle_1, request_packet).
Import Demo.

(** ** Properties *)

(** C9 — The two layers of the server agree in every reachable state, for every
    endpoint implementation that meets the contract: goal ids are distinct; a
    goal the services execute, cancel or finish is accepted, cancelling or
    committed at the endpoint; a cancel decision a client waits for is pending
    there, too; and the endpoint knows no other goals than these and the ones
    still awaiting a decision. *)
Theorem services_endpoint_coupling {E} `{HE : ServerEndpointSpec E} n t b s w a g :
  rtc svc_step (new_services_server n t b, []) (s, w) -> a ∈ ss_actions s ->
  NoDup ((fun gi => sgh_goal_id (gi_goal gi)) <$> ai_goals a)
  /\ related (context_of (ai_goals a) g) (ep_view (ai_endpoint a) !! g).
Proof.
  intros Hs%svc_reachable_coupled Ha. unfold svc_coupled in Hs.
  rewrite Forall_forall in Hs. split; by apply Hs.
Qed.

Lemma services_endpoint_coupling_witness :
  match ss_actions executing with
  | a :: _ => related (context_of (ai_goals a) goal_1) (ep_view (ai_endpoint a) !! goal_1)
  | [] => False
  end.
Proof.
  destruct (ss_actions executing) as [|a l] eqn:Ha; [vm_compute in Ha; discriminate|].
  apply (services_endpoint_coupling _ _ _ _ _ a goal_1 executing_reachable).
  rewrite Ha. apply elem_of_cons. by left.
Defined.

(** Polling raises ERROR for one reason only: a runtime cancel request that
    was queued for a goal which has ended since. No packet from a client, and
    no order of application calls, makes it raise one otherwise. *)
Theorem services_poll_errors {E} `{HE : ServerEndpointSpec E} n t b s w s' w' name ev :
  rtc svc_step (new_services_server n t b, []) (s, w) ->
  poll s w = (s', w', (name, ev)) -> se_type ev = ServerEventType_ERROR ->
  exists e0 i a, e0 ∈ ss_pending_runtime_events s
    /\ get_action_locked s (se_action_name e0) = Some (i, a) /\ name = se_action_name e0
    /\ context_of (ai_goals a) (sgh_goal_id (se_goal e0)) = None.
Proof.
  intros Hr Hp Ht. pose proof (svc_reachable_coupled _ _ _ _ _ Hr) as Hs.
  pose proof (svc_reachable_typed _ _ _ _ _ Hr) as Hty. revert Hp. unfold poll.
  destruct (poll_runtime_events _ _) as [rest [[[i a] ev0]|]] eqn:Hq.
  - apply poll_runtime_events_spec in Hq as (_ & e0 & a0 & Hin & Hget & Hname & Hev); [|done].
    intros [= _ _ <- ->]. exists e0, i, a0.
    destruct (get_action_coupled _ _ _ _ Hs Hget) as (_ & _ & Hn).
    split_and!; [done|done|congruence|]. destruct Hev as [[-> _]|[_ ?]]; [|done].
    unfold runtime_events_typed in Hty. rewrite Forall_forall in Hty.
    rewrite (Hty _ Hin) in Ht. done.
  - destruct (poll_actions _ w) as [[l w1] o] eqn:Ho.
    apply poll_actions_spec in Ho as [_ Hev]; [|done]. intros [= _ _ Hd].
    destruct o as [[n0 ev0]|]; cbn in Hd; [|by simplify_eq].
    injection Hd as -> ->. by destruct (Hev _ _ eq_refl); congruence.
Qed.

(** Goal 1 completes after the disconnection was reported. *)
Definition stale_state : server * Wire :=
  after_complete ServerEpProps.result_packet
    (notify_transport_disconnected executing, executing_wire).

Lemma stale_reachable : rtc svc_step (fresh, []) (stale_state.1, stale_state.2).
Proof.
  rewrite <-surjective_pairing. unfold stale_state.
  eapply rtc_r; [|apply after_complete_step].
  eapply rtc_r; [apply executing_reachable|apply svc_notify].
Qed.

Lemma poll_eta (s : server) (w : Wire) :
  poll s w = ((poll s w).1.1, (poll s w).1.2, ((poll s w).2.1, (poll s w).2.2)).
Proof. by destruct (poll s w) as [[] []]. Qed.

Lemma services_poll_errors_witness :
  se_type (poll stale_state.1 stale_state.2).2.2 = ServerEventType_ERROR
  /\ exists e0, e0 ∈ ss_pending_runtime_events stale_state.1.
Proof.
  assert (Ht : se_type (poll stale_state.1 stale_state.2).2.2 = ServerEventType_ERROR)
    by (vm_compute; reflexivity).
  split; [exact Ht|].
  destruct (services_poll_errors _ _ _ _ _ _ _ _ _ stale_reachable
    (poll_eta stale_state.1 stale_state.2) Ht) as (e0 & _ & _ & H & _).
  exists e0. exact H.
Defined.

(** Reporting a disconnection queues a runtime cancel request for every
    accepted goal of every action, keeps the requests queued before in their
    order, and is idempotent: reporting it again queues nothing. *)
Theorem disconnect_notifies_every_goal {E} `{IActionServerEndpoint E} (s : ServicesServer E) :
  let s' := notify_transport_disconnected s in
  (forall a gi, a ∈ ss_actions s -> gi ∈ ai_goals a ->
     already_pending (ai_action_name a) (sgh_goal_id (gi_goal gi))
       (ss_pending_runtime_events s') = true)
  /\ ss_pending_runtime_events s `prefix_of` ss_pending_runtime_events s'
  /\ ss_actions s' = ss_actions s
  /\ notify_transport_disconnected s' = s'.
Proof.
  split_and!; [by intros; apply notify_all_pending|apply notify_all_prefix|done|].
  unfold notify_transport_disconnected, set_runtime_events. cbn. f_equal.
  apply notify_all_done. intros. by apply notify_all_pending.
Qed.

(** Completing a goal ends it in both layers or in neither: on success the
    services and the endpoint have forgotten it; on failure either nothing
    changed in either layer, or the result was committed but could not be sent
    and the goal is FINISHING with that status here and committed there. *)
Theorem services_complete_outcomes {E} `{HE : ServerEndpointSpec E}
    n t b s w name h st d s' w' ok i a k gi :
  rtc svc_step (new_services_server n t b, []) (s, w) ->
  find_goal s name h = Some (i, a, (k, gi)) -> d <> [] ->
  complete s w name h st d = (s', w', ok) ->
  exists a', s' = put_action i a' s
    /\ if ok
       then context_of (ai_goals a') (sgh_goal_id h) = None
            /\ ep_view (ai_endpoint a') !! sgh_goal_id h = None
       else (ai_goals a' = ai_goals a /\ ep_view (ai_endpoint a') = ep_view (ai_endpoint a))
            \/ (context_of (ai_goals a') (sgh_goal_id h)
                = Some (mkServerGoalContext GoalState_FINISHING false CancelOrigin_NONE st)
                /\ ep_view (ai_endpoint a') !! sgh_goal_id h = Some (Committed, false)).
Proof.
  intros Hs%svc_reachable_coupled Hf Hd. unfold complete.
  rewrite bool_decide_eq_false_2, Hf by done.
  apply find_goal_Some in Hf as (Hc & Hg & Hid & _ & p & c & _ & Hval & _); [|done].
  destruct (complete_goal_locked _ _ _ _ _ _ _) as [[a' w1] r] eqn:Hop. intros [= <- <- <-].
  exists a'. split; [done|]. rewrite <-Hid.
  pose proof (complete_goal_outcome _ _ _ _ _ _ _ _ _ _ Hc Hg Hval Hop) as Ho.
  destruct r; [done|]. destruct Ho as [?|(_ & ?)]; auto.
Qed.

Definition executing_action : ActionInstance ServerEp.ServerEndpoint :=
  default (mkActionInstance "" ServerEpProps.Demo.fresh []) (head (ss_actions executing)).

Lemma services_complete_outcomes_witness :
  exists a', (complete executing executing_wire "fib" handle_1 TerminalStatus_SUCCEEDED
                ServerEpProps.result_packet).1.1 = put_action 0 a' executing.
Proof.
  destruct (services_complete_outcomes _ _ _ executing executing_wire "fib" handle_1
    TerminalStatus_SUCCEEDED ServerEpProps.result_packet _ _ _ 0 executing_action 0
    (mkGoalInstance handle_1 initial_server_context) executing_reachable
    ltac:(by vm_compute) ltac:(by vm_compute) (triple_eta _)) as (a' & H & _).
  exists a'. exact H.
Defined.

(** ** Runs that separate the layers *)

(** A disconnection asks for a decision on goal 1; then the client asks for a
    cancel, and the application rejects the runtime's request. *)
Definition runtime_rejected : server :=
  let s1 := (poll (notify_transport_disconnected executing) executing_wire).1.1 in
  let s2 := (poll (arrives (request_packet 2 goal_1) s1) executing_wire).1.1 in
  (reject_cancel s2 executing_wire "fib" handle_1).1.1.

(** From then on the client's cancel requests are dropped without an event or
    a response, although no decision is pending: the endpoint still believes
    one is. *)
Lemma runtime_reject_starves_client_cancel :
  (sgc_cancel_decision_pending <$>
     (head (ss_actions runtime_rejected) ≫= fun a => context_of (ai_goals a) goal_1))
    = Some false
  /\ se_type (poll (arrives (request_packet 2 goal_1) runtime_rejected) executing_wire).2.2
     = ServerEventType_NONE.
Proof. split; by vm_compute. Qed.

(** A goal that completes after the disconnection was reported makes the next
    poll raise ERROR. *)
Lemma stale_runtime_event_is_error :
  (complete (notify_transport_disconnected executing) executing_wire "fib" handle_1
     TerminalStatus_SUCCEEDED ServerEpProps.result_packet).2 = true
  /\ se_type (poll stale_state.1 stale_state.2).2.2 = ServerEventType_ERROR.
Proof. split; by vm_compute. Qed.

End ServicesProps.
