(* ===== verification/ActionServicesMuxServer.v ===== *)
(** * Action services on multiplexed connections

    [ActionServicesMuxServer] of
    include/hakoniwa/pdu/action/action_services_mux_server.hpp and
    src/action_services_mux_server.cpp: every accepted connection gets its own
    [ActionServicesServer], and a table of owners records on which connection
    each goal lives, so that the application names goals only.

    As in [RpcServicesMuxServer], the multiplexer is a class, the endpoints it
    hands over are arguments of [poll], and the disconnection flags, which
    change outside the mutex, are set by [on_disconnected]: between operations,
    and in [poll] before each of its two passes over disconnected slots. A slot
    keeps the log of what was sent on its own transport. *)

From S2P Require Import Prelude Multiplexer KeyedList ActionTypes ActionConfiguration PduPacket.
From S2P Require Import ServerStateMachine ServerInterface ServicesServer.
From Stdlib Require Import ZArith Lia.
From stdpp Require Import base gmap strings list fin_maps.

Module ActionMux.
Import ActionConfig ServerIface Services.

(** An endpoint handed over by [take_endpoints], and the configuration as it is
    read when the connection is set up. *)
Record AcceptedEndpoint := mkAcceptedEndpoint {
  ae_id : nat;
  ae_config : option json;
}.

(** ** State *)

Inductive GoalOwnerState :=
  | GoalOwnerState_PENDING
  | GoalOwnerState_ACTIVE.

#[export] Instance GoalOwnerState_eq_dec : EqDecision GoalOwnerState.
Proof. solve_decision. Defined.

Record GoalOwner := mkGoalOwner {
  go_action_name : string;
  go_goal_id : GoalId;
  go_connection_id : Z;
  go_state : GoalOwnerState;
}.

Record ConnectionSlot (E : Type) := mkConnectionSlot {
  cs_connection_id : Z;
  cs_endpoint : option AcceptedEndpoint;
  cs_server : option (ServicesServer E);
  cs_disconnected : bool;
  cs_orphaned : bool;
  cs_disconnect_processed : bool;
  cs_retired : bool;
  cs_wire : Wire;
}.
Arguments mkConnectionSlot {E} _ _ _ _ _ _ _ _.
Arguments cs_connection_id {E} _.
Arguments cs_endpoint {E} _.
Arguments cs_server {E} _.
Arguments cs_disconnected {E} _.
Arguments cs_orphaned {E} _.
Arguments cs_disconnect_processed {E} _.
Arguments cs_retired {E} _.
Arguments cs_wire {E} _.

Record MuxServer (E : Type) := mkMuxServer {
  am_node_id : string;
  am_action_config_path : string;
  am_endpoint_mux_config_path : string;
  am_impl_type : string;
  am_delta_time_usec : Z;
  am_has_time_source : bool;
  am_mux : bool;
  am_slots : list (ConnectionSlot E);
  am_owners : list GoalOwner;
  am_next_connection_id : Z;
  am_started : bool;
  (** The endpoints that were stopped and closed. *)
  am_closed : list nat;
}.
Arguments mkMuxServer {E} _ _ _ _ _ _ _ _ _ _ _ _.
Arguments am_node_id {E} _.
Arguments am_action_config_path {E} _.
Arguments am_endpoint_mux_config_path {E} _.
Arguments am_impl_type {E} _.
Arguments am_delta_time_usec {E} _.
Arguments am_has_time_source {E} _.
Arguments am_mux {E} _.
Arguments am_slots {E} _.
Arguments am_owners {E} _.
Arguments am_next_connection_id {E} _.
Arguments am_started {E} _.
Arguments am_closed {E} _.

Section Operations.
Context {E : Type} `{IActionServerEndpoint E} {M : CommMultiplexer}.

Definition new_mux_server (node_id action_config_path endpoint_mux_config_path
    impl_type : string) (delta_time_usec : Z) (has_time_source : bool) : MuxServer E :=
  mkMuxServer node_id action_config_path endpoint_mux_config_path impl_type
    delta_time_usec has_time_source false [] [] 1 false [].

Definition set_mux (mux started : bool) (s : MuxServer E) : MuxServer E :=
  mkMuxServer (am_node_id s) (am_action_config_path s) (am_endpoint_mux_config_path s)
    (am_impl_type s) (am_delta_time_usec s) (am_has_time_source s) mux (am_slots s)
    (am_owners s) (am_next_connection_id s) started (am_closed s).

Definition set_slots (slots : list (ConnectionSlot E)) (owners : list GoalOwner)
    (s : MuxServer E) : MuxServer E :=
  mkMuxServer (am_node_id s) (am_action_config_path s) (am_endpoint_mux_config_path s)
    (am_impl_type s) (am_delta_time_usec s) (am_has_time_source s) (am_mux s) slots
    owners (am_next_connection_id s) (am_started s) (am_closed s).

Definition set_closed (closed : list nat) (s : MuxServer E) : MuxServer E :=
  mkMuxServer (am_node_id s) (am_action_config_path s) (am_endpoint_mux_config_path s)
    (am_impl_type s) (am_delta_time_usec s) (am_has_time_source s) (am_mux s) (am_slots s)
    (am_owners s) (am_next_connection_id s) (am_started s) closed.

Definition set_next_id (n : Z) (s : MuxServer E) : MuxServer E :=
  mkMuxServer (am_node_id s) (am_action_config_path s) (am_endpoint_mux_config_path s)
    (am_impl_type s) (am_delta_time_usec s) (am_has_time_source s) (am_mux s) (am_slots s)
    (am_owners s) n (am_started s) (am_closed s).

(** Server and wire of a slot after an operation. *)
Definition set_server (server : ServicesServer E) (w : Wire) (slot : ConnectionSlot E)
    : ConnectionSlot E :=
  mkConnectionSlot (cs_connection_id slot) (cs_endpoint slot) (Some server)
    (cs_disconnected slot) (cs_orphaned slot) (cs_disconnect_processed slot)
    (cs_retired slot) w.

Definition set_flags (disconnected orphaned processed retired : bool)
    (slot : ConnectionSlot E) : ConnectionSlot E :=
  mkConnectionSlot (cs_connection_id slot) (cs_endpoint slot) (cs_server slot)
    disconnected orphaned processed retired (cs_wire slot).

(** ** Lookups; a pointer is an index with the element *)

Definition find_slot (s : MuxServer E) (connection_id : Z)
    : option (nat * ConnectionSlot E) :=
  list_find (fun slot => cs_connection_id slot = connection_id) (am_slots s).

Definition find_owner (owners : list GoalOwner) (action_name : string) (goal_id : GoalId)
    : option (nat * GoalOwner) :=
  list_find (fun o => (go_action_name o, go_goal_id o) = (action_name, goal_id)) owners.

Definition find_active_owner (owners : list GoalOwner) (action_name : string)
    (goal_id : GoalId) : option (nat * GoalOwner) :=
  '(i, owner) ← find_owner owners action_name goal_id;
  if bool_decide (go_state owner = GoalOwnerState_ACTIVE) then Some (i, owner) else None.

Definition remove_owner (owners : list GoalOwner) (action_name : string) (goal_id : GoalId)
    : list GoalOwner :=
  match find_owner owners action_name goal_id with
  | Some (i, _) => delete i owners
  | None => owners
  end.

Definition find_any_server (s : MuxServer E) : option (ServicesServer E) :=
  head (omap cs_server (am_slots s)).

Definition connected_slot_count (s : MuxServer E) : nat :=
  length (filter (fun slot => cs_disconnected slot = false) (am_slots s)).

(** ** Life cycle *)

Definition initialize (s : MuxServer E) : MuxServer E * bool :=
  if am_mux s then (s, true)
  else if bool_decide (am_node_id s = "") || bool_decide (am_action_config_path s = "")
          || bool_decide (am_endpoint_mux_config_path s = "")
          || bool_decide (am_impl_type s = "") || (am_delta_time_usec s =? 0)%Z
  then (s, false)
  else if negb (mux_open (am_endpoint_mux_config_path s)) then (s, false)
  else if bool_decide (mux_expected_count = 0) then (s, false)
  else (set_mux true (am_started s) s, true).

Definition start (s : MuxServer E) : MuxServer E * bool :=
  if am_started s then (s, true)
  else if negb (am_mux s) || negb mux_start then (s, false)
  else (set_mux (am_mux s) true s, true).

(** The endpoint [close_slot_] stops and closes; the server is cleared and
    destroyed with the slot. *)
Definition close_slot (slot : ConnectionSlot E) : list nat :=
  match cs_endpoint slot with Some e => [ae_id e] | None => [] end.

Definition stop (s : MuxServer E) : MuxServer E :=
  set_mux false false
    (set_slots [] []
       (set_closed (am_closed s ++ concat (close_slot <$> am_slots s)) s)).

(** ** Connections *)

Definition accept_connection (s : MuxServer E) (endpoint_unique : option AcceptedEndpoint)
    : MuxServer E :=
  match endpoint_unique with
  | None => s
  | Some endpoint =>
      if (mux_expected_count <=? connected_slot_count s) then
        set_closed (am_closed s ++ [ae_id endpoint]) s
      else
        let connection_id := am_next_connection_id s in
        let s1 := set_next_id (u64 (connection_id + 1)) s in
        let '(server, ok) :=
          initialize_services_impl
            (new_services_server (am_node_id s) (am_impl_type s) (am_has_time_source s))
            None true (ae_config endpoint) in
        if negb ok || negb (start_all_services server) then
          set_closed (am_closed s1 ++ [ae_id endpoint]) s1
        else
          set_slots (am_slots s1
                     ++ [mkConnectionSlot connection_id (Some endpoint) (Some server)
                           false false false false []]) (am_owners s1) s1
  end.

Definition accept_new_connections (taken : list (option AcceptedEndpoint)) (s : MuxServer E)
    : MuxServer E :=
  foldl accept_connection s taken.

(** The disconnection callback of a connection; the flag is gone with its
    slot. *)
Definition disconnect_slot (connection_id : Z) (slot : ConnectionSlot E) : ConnectionSlot E :=
  if (cs_connection_id slot =? connection_id)%Z
  then set_flags true (cs_orphaned slot) (cs_disconnect_processed slot) (cs_retired slot) slot
  else slot.

Definition on_disconnected (connection_id : Z) (s : MuxServer E) : MuxServer E :=
  set_slots (disconnect_slot connection_id <$> am_slots s) (am_owners s) s.

Definition disconnect_all (ids : list Z) (s : MuxServer E) : MuxServer E :=
  foldl (fun s id => on_disconnected id s) s ids.

(** The loop over the owners of a disconnected slot: pending goals are
    discarded and their owners erased; tells whether an active one is left. *)
Fixpoint discard_pending (connection_id : Z) (owners : list GoalOwner)
    (server : option (ServicesServer E))
    : list GoalOwner * option (ServicesServer E) * bool :=
  match owners with
  | [] => ([], server, false)
  | owner :: rest =>
      if negb (go_connection_id owner =? connection_id)%Z then
        let '(rest', server', active) := discard_pending connection_id rest server in
        (owner :: rest', server', active)
      else if bool_decide (go_state owner = GoalOwnerState_ACTIVE) then
        let '(rest', server', _) := discard_pending connection_id rest server in
        (owner :: rest', server', true)
      else
        let server1 :=
          (fun srv => (discard_pending_goal srv (go_action_name owner)
                         (mkServerGoalHandle (go_goal_id owner))).1) <$> server in
        discard_pending connection_id rest server1
  end.

Definition process_slot (slot : ConnectionSlot E) (owners : list GoalOwner)
    : ConnectionSlot E * list GoalOwner :=
  if negb (cs_disconnected slot) || cs_disconnect_processed slot then (slot, owners)
  else
    let '(owners', server1, has_active_owner) :=
      discard_pending (cs_connection_id slot) owners (cs_server slot) in
    let server2 := stop_all_services <$> server1 in
    let server3 := (if has_active_owner then notify_transport_disconnected
                    else clear_all_instances) <$> server2 in
    (mkConnectionSlot (cs_connection_id slot) (cs_endpoint slot) server3
       (cs_disconnected slot) (if has_active_owner then true else cs_orphaned slot) true
       (if has_active_owner then cs_retired slot else true) (cs_wire slot), owners').

Fixpoint process_slots (slots : list (ConnectionSlot E)) (owners : list GoalOwner)
    : list (ConnectionSlot E) * list GoalOwner :=
  match slots with
  | [] => ([], owners)
  | slot :: rest =>
      let '(slot', owners1) := process_slot slot owners in
      let '(rest', owners2) := process_slots rest owners1 in
      (slot' :: rest', owners2)
  end.

Definition process_disconnected (s : MuxServer E) : MuxServer E :=
  let '(slots, owners) := process_slots (am_slots s) (am_owners s) in
  set_slots slots owners s.

(** ** Polling *)

(** The body of the loop for one slot: [None] is [continue]. *)
Definition poll_slot (slot : ConnectionSlot E) (owners : list GoalOwner)
    : ConnectionSlot E * list GoalOwner * option (string * ServerEvent) :=
  match cs_server slot with
  | None => (slot, owners, None)
  | Some server =>
      if cs_retired slot then (slot, owners, None)
      else
        let '(server', w', (action, candidate)) := Services.poll server (cs_wire slot) in
        let slot' := set_server server' w' slot in
        match se_type candidate with
        | ServerEventType_NONE => (slot', owners, None)
        | ServerEventType_GOAL_REQUEST =>
            let goal := se_goal candidate in
            if bool_decide (is_Some (find_owner owners action (sgh_goal_id goal))) then
              let '(server'', w'', _) := Services.reject_goal server' w' action goal in
              (set_server server'' w'' slot, owners, None)
            else
              (slot',
               owners ++ [mkGoalOwner action (sgh_goal_id goal) (cs_connection_id slot)
                            GoalOwnerState_PENDING],
               Some (action, candidate))
        | _ => (slot', owners, Some (action, candidate))
        end
  end.

Fixpoint poll_slots (slots : list (ConnectionSlot E)) (owners : list GoalOwner)
    : list (ConnectionSlot E) * list GoalOwner * option (string * ServerEvent) :=
  match slots with
  | [] => ([], owners, None)
  | slot :: rest =>
      match poll_slot slot owners with
      | (slot', owners', Some result) => (slot' :: rest, owners', Some result)
      | (slot', owners', None) =>
          let '(rest', owners'', result) := poll_slots rest owners' in
          (slot' :: rest', owners'', result)
      end
  end.

(** The action name and [event_out], both cleared when there is no event;
    [early] and [late] are the connections whose disconnection callback fires
    before the first and before the last pass over disconnected slots. *)
Definition poll (s : MuxServer E) (taken : list (option AcceptedEndpoint))
    (early late : list Z) : MuxServer E * (string * ServerEvent) :=
  if negb (am_started s) || negb (am_mux s) then (s, ("", empty_server_event))
  else
    let s1 := process_disconnected (disconnect_all early (accept_new_connections taken s)) in
    let '(slots, owners, result) := poll_slots (am_slots s1) (am_owners s1) in
    let s2 := set_slots slots owners s1 in
    match result with
    | Some result => (disconnect_all late s2, result)
    | None => (process_disconnected (disconnect_all late s2), ("", empty_server_event))
    end.

(** ** Decisions *)

(** Runs an operation of the services in the slot at [i]. *)
Definition run_in_slot (s : MuxServer E) (i : nat) (slot : ConnectionSlot E)
    (result : ServicesServer E * Wire * bool) : MuxServer E * bool :=
  let '(server', w', ok) := result in
  (set_slots (<[i := set_server server' w' slot]> (am_slots s)) (am_owners s) s, ok).

Definition set_owners (owners : list GoalOwner) (s : MuxServer E) : MuxServer E :=
  set_slots (am_slots s) owners s.

Definition accept_goal (s : MuxServer E) (action_name : string) (goal : ServerGoalHandle)
    : MuxServer E * bool :=
  match find_owner (am_owners s) action_name (sgh_goal_id goal) with
  | None => (s, false)
  | Some (k, owner) =>
      if negb (bool_decide (go_state owner = GoalOwnerState_PENDING)) then (s, false)
      else
        match find_slot s (go_connection_id owner) with
        | None => (s, false)
        | Some (i, slot) =>
            match cs_server slot with
            | None => (s, false)
            | Some server =>
                if cs_disconnected slot then (s, false)
                else
                  let '(s', ok) :=
                    run_in_slot s i slot
                      (Services.accept_goal server (cs_wire slot) action_name goal) in
                  if negb ok then (s', false)
                  else
                    (set_owners (<[k := mkGoalOwner (go_action_name owner) (go_goal_id owner)
                                          (go_connection_id owner) GoalOwnerState_ACTIVE]>
                                   (am_owners s')) s', true)
            end
        end
  end.

Definition reject_goal (s : MuxServer E) (action_name : string) (goal : ServerGoalHandle)
    : MuxServer E * bool :=
  match find_owner (am_owners s) action_name (sgh_goal_id goal) with
  | None => (s, false)
  | Some (k, owner) =>
      if negb (bool_decide (go_state owner = GoalOwnerState_PENDING)) then (s, false)
      else
        match find_slot s (go_connection_id owner) with
        | None => (s, false)
        | Some (i, slot) =>
            match cs_server slot with
            | None => (s, false)
            | Some server =>
                if cs_disconnected slot then (s, false)
                else
                  let '(s', ok) :=
                    run_in_slot s i slot
                      (Services.reject_goal server (cs_wire slot) action_name goal) in
                  if negb ok then (s', false)
                  else (set_owners (remove_owner (am_owners s') action_name
                                      (sgh_goal_id goal)) s', true)
            end
        end
  end.

(** The slot of the connection that owns an active goal, with its server. *)
Definition active_slot (s : MuxServer E) (action_name : string) (goal : ServerGoalHandle)
    : option (nat * ConnectionSlot E * ServicesServer E) :=
  '(_, owner) ← find_active_owner (am_owners s) action_name (sgh_goal_id goal);
  '(i, slot) ← find_slot s (go_connection_id owner);
  server ← cs_server slot;
  Some (i, slot, server).

Definition route_active_goal (s : MuxServer E) (action_name : string)
    (goal : ServerGoalHandle)
    (operation : ServicesServer E -> Wire -> string -> ServerGoalHandle
                 -> ServicesServer E * Wire * bool) : MuxServer E * bool :=
  match active_slot s action_name goal with
  | None => (s, false)
  | Some (i, slot, server) =>
      run_in_slot s i slot (operation server (cs_wire slot) action_name goal)
  end.

Definition accept_cancel (s : MuxServer E) (action_name : string) (goal : ServerGoalHandle)
    : MuxServer E * bool :=
  route_active_goal s action_name goal Services.accept_cancel.

Definition reject_cancel (s : MuxServer E) (action_name : string) (goal : ServerGoalHandle)
    : MuxServer E * bool :=
  route_active_goal s action_name goal Services.reject_cancel.

(** ** Feedback and completion *)

Definition create_feedback_buffer (s : MuxServer E) (action_name : string)
    : option PduData :=
  server ← find_any_server s; Services.create_feedback_buffer server action_name.

Definition create_result_buffer (s : MuxServer E) (action_name : string)
    : option PduData :=
  server ← find_any_server s; Services.create_result_buffer server action_name.

Definition send_feedback (s : MuxServer E) (action_name : string) (goal : ServerGoalHandle)
    (feedback_pdu : PduData) : MuxServer E * bool :=
  match active_slot s action_name goal with
  | None => (s, false)
  | Some (i, slot, server) =>
      if cs_disconnected slot then (s, false)
      else run_in_slot s i slot
             (Services.send_feedback server (cs_wire slot) action_name goal feedback_pdu)
  end.

Definition reclaim_orphaned_slot (connection_id : Z) (s : MuxServer E) : MuxServer E :=
  if existsb (fun o => (go_connection_id o =? connection_id)%Z) (am_owners s) then s
  else
    match list_find (fun slot => cs_connection_id slot = connection_id
                                 /\ cs_orphaned slot = true) (am_slots s) with
    | None => s
    | Some (i, slot) =>
        set_slots
          (<[i := mkConnectionSlot (cs_connection_id slot) (cs_endpoint slot)
                    (clear_all_instances <$> cs_server slot) (cs_disconnected slot)
                    (cs_orphaned slot) (cs_disconnect_processed slot) true (cs_wire slot)]>
             (am_slots s)) (am_owners s) s
    end.

Definition complete (s : MuxServer E) (action_name : string) (goal : ServerGoalHandle)
    (status : TerminalStatus) (result_pdu : PduData) : MuxServer E * bool :=
  match active_slot s action_name goal with
  | None => (s, false)
  | Some (i, slot, server) =>
      let '(s', completed) :=
        run_in_slot s i slot
          (if cs_disconnected slot
           then Services.complete_locally server (cs_wire slot) action_name goal status
                  result_pdu
           else Services.complete server (cs_wire slot) action_name goal status result_pdu) in
      if negb completed then (s', false)
      else
        (reclaim_orphaned_slot (cs_connection_id slot)
           (set_owners (remove_owner (am_owners s') action_name (sgh_goal_id goal)) s'), true)
  end.

(** A packet the transport delivers on a connection, for one of its actions. *)
Definition deliver (s : MuxServer E) (connection_id : Z) (action : nat)
    (key : PduResolvedKey) (data : PduData) : MuxServer E :=
  match find_slot s connection_id with
  | None => s
  | Some (i, slot) =>
      match cs_server slot with
      | None => s
      | Some server =>
          match ss_actions server !! action with
          | None => s
          | Some a =>
              set_slots
                (<[i := set_server
                          (put_action action
                             (set_endpoint (i_deliver key data (ai_endpoint a)) a) server)
                          (cs_wire slot) slot]> (am_slots s)) (am_owners s) s
          end
      end
  end.

(** ** Counts *)

Definition connected_count (s : MuxServer E) : nat :=
  length (filter (fun slot => cs_disconnected slot = false) (am_slots s)).

Definition expected_count (s : MuxServer E) : nat :=
  if am_mux s then mux_expected_count else 0.

Definition is_ready (s : MuxServer E) : bool :=
  am_started s && am_mux s && (mux_expected_count <=? connected_slot_count s).
End Operations.
End ActionMux.
