(* ===== verification/ActionMuxFacts.v ===== *)
(** * Facts about the Action mux server

    The services server as the mux sees it: which goals it knows, and whether
    they are pending or active. Every services operation changes that status of
    the goal it is about and of no other. *)

From S2P Require Import Prelude Multiplexer KeyedList ActionTypes ActionConfiguration PduPacket.
From S2P Require Import ServerStateMachine ServerInterface ServicesServer ServicesServerFacts.
From S2P Require Import ServicesServerProps ActionServicesMuxServer.
From Stdlib Require Import ZArith Lia.
From stdpp Require Import base gmap strings list fin_maps.

Module ActionMuxFacts.
Import ActionConfig ServerIface ServerSM Services ServicesFacts ActionMux.

(** ** Status of goals *)

Definition status_of_phase (x : phase * bool) : GoalOwnerState :=
  match x.1 with
  | Awaiting => GoalOwnerState_PENDING
  | _ => GoalOwnerState_ACTIVE
  end.

Section Facts.
Context {E : Type} `{HE : ServerEndpointSpec E}.

Definition endpoint_status (e : E) (g : GoalId) : option GoalOwnerState :=
  status_of_phase <$> ep_view e !! g.

(** The status of goal [g] of the action [n]. *)
Definition list_status (l : list (ActionInstance E)) (n : string) (g : GoalId)
    : option GoalOwnerState :=
  e ← keyed ai_action_name ai_endpoint l n; endpoint_status e g.

Definition goal_status (s : ServicesServer E) : string -> GoalId -> option GoalOwnerState :=
  list_status (ss_actions s).

Definition names (l : list (ActionInstance E)) : list string := ai_action_name <$> l.

Record svc_ok (s : ServicesServer E) : Prop := mkSvcOk {
  so_coupled : svc_coupled s;
  so_typed : ServicesProps.runtime_events_typed s;
  so_names : NoDup (names (ss_actions s));
}.

(** The status changes at one goal at most. *)
Definition status_set (s s' : ServicesServer E) (n : string) (g : GoalId)
    (o : option GoalOwnerState) : Prop :=
  forall n' g', goal_status s' n' g'
    = if decide (n' = n /\ g' = g) then o else goal_status s n' g'.

Definition status_same (s s' : ServicesServer E) : Prop :=
  forall n g, goal_status s' n g = goal_status s n g.

(** ** Writing one action *)

Lemma list_status_insert (l : list (ActionInstance E)) n i a a' :
  list_find (fun x => ai_action_name x = n) l = Some (i, a) ->
  ai_action_name a' = ai_action_name a ->
  forall n' g, list_status (<[i := a']> l) n' g
    = if decide (n = n') then endpoint_status (ai_endpoint a') g else list_status l n' g.
Proof.
  intros Hf Hn n' g. unfold list_status. rewrite (keyed_insert _ _ _ n i a) by done.
  by case_decide.
Qed.

Lemma list_status_found (l : list (ActionInstance E)) n i a g :
  list_find (fun x => ai_action_name x = n) l = Some (i, a) ->
  list_status l n g = endpoint_status (ai_endpoint a) g.
Proof.
  intros Hf. destruct (keyed_found ai_action_name ai_endpoint _ _ _ _ Hf) as (Hk & _ & _).
  unfold list_status. by rewrite Hk.
Qed.

Lemma names_insert (l : list (ActionInstance E)) n i a a' :
  list_find (fun x => ai_action_name x = n) l = Some (i, a) ->
  ai_action_name a' = ai_action_name a -> names (<[i := a']> l) = names l.
Proof. intros Hf Hn. by eapply keys_insert. Qed.

(** An operation on the action [n] whose endpoint changes at [g] only. *)
Lemma put_action_status s n i a a' g o :
  get_action_locked s n = Some (i, a) -> ai_action_name a' = ai_action_name a ->
  (forall g', endpoint_status (ai_endpoint a') g'
     = if decide (g' = g) then o else endpoint_status (ai_endpoint a) g') ->
  status_set s (put_action i a' s) n g o.
Proof.
  intros Hf Hn He n' g'. unfold goal_status. cbn.
  rewrite (list_status_insert _ _ _ _ _ Hf Hn). destruct (decide (n = n')) as [<-|Hne].
  - rewrite He, (list_status_found _ _ _ _ _ Hf).
    destruct (decide (g' = g)), (decide (n = n /\ g' = g)); naive_solver.
  - rewrite decide_False by naive_solver. done.
Qed.

Lemma put_action_same s n i a a' :
  get_action_locked s n = Some (i, a) -> ai_action_name a' = ai_action_name a ->
  (forall g, endpoint_status (ai_endpoint a') g = endpoint_status (ai_endpoint a) g) ->
  status_same s (put_action i a' s).
Proof.
  intros Hf Hn He n' g. unfold goal_status. cbn.
  rewrite (list_status_insert _ _ _ _ _ Hf Hn). case_decide; [|done]. subst n'.
  by rewrite He, (list_status_found _ _ _ _ _ Hf).
Qed.

Lemma endpoint_status_insert e e' g x g' :
  ep_view e' = <[g := x]> (ep_view e) ->
  endpoint_status e' g' = if decide (g' = g) then Some (status_of_phase x)
                          else endpoint_status e g'.
Proof.
  intros Hv. unfold endpoint_status. rewrite Hv, lookup_insert.
  destruct (decide (g = g')), (decide (g' = g)); subst; done.
Qed.

Lemma endpoint_status_delete e e' g g' :
  ep_view e' = delete g (ep_view e) ->
  endpoint_status e' g' = if decide (g' = g) then None else endpoint_status e g'.
Proof.
  intros Hv. unfold endpoint_status. rewrite Hv, lookup_delete.
  destruct (decide (g = g')), (decide (g' = g)); subst; done.
Qed.

Lemma endpoint_status_same e e' g :
  ep_view e' = ep_view e -> endpoint_status e' g = endpoint_status e g.
Proof. intros Hv. unfold endpoint_status. by rewrite Hv. Qed.

(** A change that keeps a goal on its side of the acceptance. *)
Lemma endpoint_status_keep e e' g x y g' :
  ep_view e !! g = Some x -> ep_view e' = <[g := y]> (ep_view e) ->
  status_of_phase x = status_of_phase y -> endpoint_status e' g' = endpoint_status e g'.
Proof.
  intros Hx Hv Hs. rewrite (endpoint_status_insert e e' g y g' Hv).
  case_decide; [|done]. subst. unfold endpoint_status. rewrite Hx. cbn. by rewrite Hs.
Qed.

(** ** Operations *)

Lemma get_action_ok s n i a :
  svc_ok s -> get_action_locked s n = Some (i, a) ->
  coupled a /\ ai_action_name a = n.
Proof. intros [Hs _ _] Ha. by destruct (get_action_coupled _ _ _ _ Hs Ha) as (? & _ & ?). Qed.

(** A write to the action that was found. *)
Lemma put_action_ok s n i a a' :
  svc_ok s -> get_action_locked s n = Some (i, a) -> ai_action_name a' = ai_action_name a ->
  svc_coupled (put_action i a' s) -> svc_ok (put_action i a' s).
Proof.
  intros Hok Ha Hn Hc. split; [done|apply Hok|]. cbn. rewrite (names_insert _ _ _ _ _ Ha) by done.
  apply Hok.
Qed.

Lemma found_pending s n i a g c :
  get_action_locked s n = Some (i, a) -> ep_view (ai_endpoint a) !! g = Some (Awaiting, c) ->
  goal_status s n g = Some GoalOwnerState_PENDING.
Proof.
  intros Ha Hp. unfold goal_status. rewrite (list_status_found _ _ _ _ _ Ha).
  unfold endpoint_status. by rewrite Hp.
Qed.

Lemma accept_goal_status s w n h s' w' ok :
  svc_ok s -> Services.accept_goal s w n h = (s', w', ok) ->
  svc_ok s' /\
  if ok then goal_status s n (sgh_goal_id h) = Some GoalOwnerState_PENDING
             /\ status_set s s' n (sgh_goal_id h) (Some GoalOwnerState_ACTIVE)
  else status_same s s'.
Proof.
  intros Hok Hop. pose proof (accept_goal_coupled _ _ _ _ _ _ _ (so_coupled _ Hok) Hop) as Hc'.
  revert Hop. unfold Services.accept_goal. split_guard; [by intros [= <- <- <-]|].
  destruct (get_action_locked s n) as [[i a]|] eqn:Ha; [|by intros [= <- <- <-]].
  destruct (get_action_ok _ _ _ _ Hok Ha) as [Hc Hn].
  destruct (has_goal_locked a _); [by intros [= <- <- <-]|].
  destruct (i_accept_goal _ _ _) as [[e w1] r] eqn:Hop.
  apply spec_accept_goal in Hop as [He Hv]; [|apply Hc].
  destruct r; intros [= <- <- <-]; (split; [by eapply put_action_ok|]).
  - destruct Hv as [Hp Hv]. split; [by eapply found_pending|].
    eapply put_action_status; [exact Ha|done|]. intros g'.
    exact (endpoint_status_insert (ai_endpoint a) e _ _ g' Hv).
  - eapply put_action_same; [exact Ha|done|]. intros g. by apply endpoint_status_same.
Qed.

(** What [reject_goal] and [discard_pending_goal] do to the endpoint. *)
Lemma drop_status s n i a e h (ok : bool) :
  get_action_locked s n = Some (i, a) ->
  (if ok then ep_view (ai_endpoint a) !! sgh_goal_id h = Some (Awaiting, false)
              /\ ep_view e = delete (sgh_goal_id h) (ep_view (ai_endpoint a))
   else ep_view e = ep_view (ai_endpoint a)) ->
  if ok then goal_status s n (sgh_goal_id h) = Some GoalOwnerState_PENDING
             /\ status_set s (put_action i (set_endpoint e a) s) n (sgh_goal_id h) None
  else status_same s (put_action i (set_endpoint e a) s).
Proof.
  intros Ha Hv. destruct ok.
  - destruct Hv as [Hp Hv]. split; [by eapply found_pending|].
    eapply put_action_status; [exact Ha|done|]. intros g'. by apply endpoint_status_delete.
  - eapply put_action_same; [exact Ha|done|]. intros g. by apply endpoint_status_same.
Qed.

Lemma reject_goal_status s w n h s' w' ok :
  svc_ok s -> Services.reject_goal s w n h = (s', w', ok) ->
  svc_ok s' /\
  if ok then goal_status s n (sgh_goal_id h) = Some GoalOwnerState_PENDING
             /\ status_set s s' n (sgh_goal_id h) None
  else status_same s s'.
Proof.
  intros Hok Hop. pose proof (reject_goal_coupled _ _ _ _ _ _ _ (so_coupled _ Hok) Hop) as Hc'.
  revert Hop. unfold Services.reject_goal. split_guard; [by intros [= <- <- <-]|].
  destruct (get_action_locked s n) as [[i a]|] eqn:Ha; [|by intros [= <- <- <-]].
  destruct (get_action_ok _ _ _ _ Hok Ha) as [Hc Hn].
  destruct (has_goal_locked a _); [by intros [= <- <- <-]|].
  destruct (i_reject_goal _ _ _) as [[e w1] r] eqn:Hop. intros [= <- <- <-].
  apply spec_reject_goal in Hop as [He Hv]; [|apply Hc].
  split; [by eapply put_action_ok|by apply drop_status].
Qed.

Lemma discard_status s n h s' ok :
  svc_ok s -> discard_pending_goal s n h = (s', ok) ->
  svc_ok s' /\
  if ok then goal_status s n (sgh_goal_id h) = Some GoalOwnerState_PENDING
             /\ status_set s s' n (sgh_goal_id h) None
  else status_same s s'.
Proof.
  intros Hok Hop. pose proof (discard_coupled _ _ _ _ _ (so_coupled _ Hok) Hop) as Hc'.
  revert Hop. unfold discard_pending_goal. split_guard; [by intros [= <- <-]|].
  destruct (get_action_locked s n) as [[i a]|] eqn:Ha; [|by intros [= <- <-]].
  destruct (get_action_ok _ _ _ _ Hok Ha) as [Hc Hn].
  destruct (has_goal_locked a _); [by intros [= <- <-]|].
  destruct (i_discard_pending_goal _ _) as [e r] eqn:Hop. intros [= <- <-].
  apply spec_discard_pending_goal in Hop as [He Hv]; [|apply Hc].
  split; [by eapply put_action_ok|apply drop_status; [done|]]. destruct r; tauto.
Qed.

(** *** Operations on accepted goals *)

Lemma find_goal_action s n h i a k gi :
  svc_ok s -> find_goal s n h = Some (i, a, (k, gi)) -> get_action_locked s n = Some (i, a).
Proof.
  intros Hok. unfold find_goal. split_guard; [done|].
  destruct (get_action_locked s n) as [[i' a']|]; [|done].
  destruct (get_goal_locked a' _) as [[k' gi']|]; [|done]. by intros [= <- <- <- <-].
Qed.

Lemma accept_cancel_status s w n h s' w' ok :
  svc_ok s -> Services.accept_cancel s w n h = (s', w', ok) -> svc_ok s' /\ status_same s s'.
Proof.
  intros Hok Hop. pose proof (accept_cancel_coupled _ _ _ _ _ _ _ (so_coupled _ Hok) Hop) as Hc'.
  revert Hop. unfold Services.accept_cancel.
  destruct (find_goal s n h) as [[[i a] [k gi]]|] eqn:Hf; [|by intros [= <- <- <-]].
  pose proof (find_goal_action _ _ _ _ _ _ _ Hok Hf) as Ha.
  destruct (get_action_ok _ _ _ _ Hok Ha) as [Hc Hn].
  do 2 (split_guard; [by intros [= <- <- <-]|]).
  assert (Hend : forall e w1 r,
    (if bool_decide (sgc_cancel_origin (gi_context gi) = CancelOrigin_CLIENT)
     then i_accept_cancel (ai_endpoint a) w h
     else let '(e, ok) := i_accept_cancel_locally (ai_endpoint a) h in (e, w, ok))
    = (e, w1, r) -> forall g, endpoint_status e g = endpoint_status (ai_endpoint a) g).
  { intros e w1 r. case_bool_decide.
    - intros Hop. apply spec_accept_cancel in Hop as [_ Hv]; [|apply Hc]. intros g.
      destruct r; [destruct Hv as [Hp Hv]; by eapply endpoint_status_keep|].
      by apply endpoint_status_same.
    - destruct (i_accept_cancel_locally _ _) as [e0 r0] eqn:Hop. intros [= <- <- <-].
      apply spec_accept_cancel_locally in Hop as [_ Hv]; [|apply Hc]. intros g.
      destruct r0; [destruct Hv as [[c Hp] Hv]; by eapply endpoint_status_keep|].
      by apply endpoint_status_same, Hv. }
  destruct (if bool_decide _ then _ else _) as [[e w1] r] eqn:Hop.
  specialize (Hend _ _ _ eq_refl).
  destruct r; cbn [negb]; intros [= <- <- <-];
    (split; [by eapply put_action_ok|eapply put_action_same; [exact Ha|done|exact Hend]]).
Qed.

Lemma reject_cancel_status s w n h s' w' ok :
  svc_ok s -> Services.reject_cancel s w n h = (s', w', ok) -> svc_ok s' /\ status_same s s'.
Proof.
  intros Hok Hop. pose proof (reject_cancel_coupled _ _ _ _ _ _ _ (so_coupled _ Hok) Hop) as Hc'.
  revert Hop. unfold Services.reject_cancel.
  destruct (find_goal s n h) as [[[i a] [k gi]]|] eqn:Hf; [|by intros [= <- <- <-]].
  pose proof (find_goal_action _ _ _ _ _ _ _ Hok Hf) as Ha.
  destruct (get_action_ok _ _ _ _ Hok Ha) as [Hc Hn].
  do 2 (split_guard; [by intros [= <- <- <-]|]). case_bool_decide.
  - destruct (i_reject_cancel _ _ _) as [[e w1] r] eqn:Hop.
    apply spec_reject_cancel in Hop as [_ Hv]; [|apply Hc].
    assert (Hend : forall g, endpoint_status e g = endpoint_status (ai_endpoint a) g).
    { intros g. destruct r; [destruct Hv as [Hp Hv]; by eapply endpoint_status_keep|].
      by apply endpoint_status_same. }
    destruct r; cbn [negb]; intros [= <- <- <-];
      (split; [by eapply put_action_ok|eapply put_action_same; [exact Ha|done|exact Hend]]).
  - cbn [negb]. intros [= <- <- <-].
    split; [by eapply put_action_ok|by eapply put_action_same; [exact Ha|done|]].
Qed.

Lemma send_feedback_status s w n h d s' w' ok :
  svc_ok s -> Services.send_feedback s w n h d = (s', w', ok) -> svc_ok s' /\ status_same s s'.
Proof.
  intros Hok Hop. pose proof (send_feedback_coupled _ _ _ _ _ _ _ _ (so_coupled _ Hok) Hop) as Hc'.
  revert Hop. unfold Services.send_feedback. split_guard; [by intros [= <- <- <-]|].
  destruct (find_goal s n h) as [[[i a] [k gi]]|] eqn:Hf; [|by intros [= <- <- <-]].
  pose proof (find_goal_action _ _ _ _ _ _ _ Hok Hf) as Ha.
  destruct (get_action_ok _ _ _ _ Hok Ha) as [Hc Hn].
  do 2 (split_guard; [by intros [= <- <- <-]|]).
  destruct (i_send_feedback _ _ _ _) as [[e w1] r] eqn:Hop. intros [= <- <- <-].
  apply spec_send_feedback in Hop as (_ & Hv & _); [|apply Hc].
  split; [by eapply put_action_ok|]. eapply put_action_same; [exact Ha|done|].
  intros g. by apply endpoint_status_same.
Qed.

Lemma remove_goal_endpoint (a : ActionInstance E) g :
  ai_endpoint (remove_goal_locked a g) = ai_endpoint a
  /\ ai_action_name (remove_goal_locked a g) = ai_action_name a.
Proof. unfold remove_goal_locked. by destruct (get_goal_locked a g) as [[]|]. Qed.

(** Completing removes the goal, or leaves it active. *)
Lemma complete_goal_status (a : ActionInstance E) w k gi st d local a' w' ok :
  coupled a -> complete_goal_locked a w k gi st d local = (a', w', ok) ->
  ai_action_name a' = ai_action_name a
  /\ (if ok then endpoint_status (ai_endpoint a) (instance_id gi) = Some GoalOwnerState_ACTIVE
                 /\ forall g, endpoint_status (ai_endpoint a') g
                      = if decide (g = instance_id gi) then None
                        else endpoint_status (ai_endpoint a) g
      else forall g, endpoint_status (ai_endpoint a') g = endpoint_status (ai_endpoint a) g).
Proof.
  intros Hc. unfold complete_goal_locked. do 2 (split_guard; [by intros [= <- <- <-]|]).
  assert (Hact : forall p c, ep_view (ai_endpoint a) !! instance_id gi = Some (p, c) ->
    phase_completes p st ->
    endpoint_status (ai_endpoint a) (instance_id gi) = Some GoalOwnerState_ACTIVE).
  { intros p c Hp Hpc. unfold endpoint_status. rewrite Hp.
    by destruct Hpc as [[-> _]|[-> _]]. }
  destruct local.
  - destruct (i_complete_locally _ _ _ _) as [e r] eqn:Hop.
    apply spec_complete_locally in Hop as [_ Hv]; [|apply Hc].
    destruct r; cbn [negb]; intros [= <- <- <-].
    + destruct (remove_goal_endpoint (set_endpoint e a) (instance_id gi)) as [-> ->].
      destruct Hv as [(p & c & Hp & Hpc) Hv]. split_and!; [done|by eapply Hact|].
      intros g. by apply endpoint_status_delete.
    + split; [done|]. intros g. by apply endpoint_status_same.
  - destruct (i_complete _ _ _ _ _) as [[e w1] r] eqn:Hop.
    apply spec_complete in Hop as [_ Hv]; [|apply Hc].
    destruct r; intros [= <- <- <-].
    + split; [done|]. intros g. by apply endpoint_status_same.
    + destruct (remove_goal_endpoint (set_endpoint e a) (instance_id gi)) as [-> ->].
      destruct Hv as [(p & c & Hp & Hpc) Hv]. split_and!; [done|by eapply Hact|].
      intros g. by apply endpoint_status_delete.
    + split; [done|]. intros g. destruct Hv as [(p & c & Hp & Hpc) Hv].
      eapply endpoint_status_keep; [exact Hp|exact Hv|].
      by destruct Hpc as [[-> _]|[-> _]].
Qed.

Lemma complete_either_status s w n h st d (local : bool) s' w' ok :
  svc_ok s ->
  (if local then complete_locally s w n h st d else Services.complete s w n h st d)
  = (s', w', ok) ->
  svc_ok s' /\
  if ok then goal_status s n (sgh_goal_id h) = Some GoalOwnerState_ACTIVE
             /\ status_set s s' n (sgh_goal_id h) None
  else status_same s s'.
Proof.
  intros Hok Hop. assert (Hc' : svc_coupled s').
  { destruct local; [by eapply complete_locally_coupled; [apply Hok|]|].
    by eapply complete_coupled; [apply Hok|]. }
  assert (Hop' : (if bool_decide (d = []) then (s, w, false) else
    match find_goal s n h with
    | None => (s, w, false)
    | Some (i, a, (k, gi)) =>
        let '(a', w', ok) := complete_goal_locked a w k gi st d local in
        (put_action i a' s, w', ok)
    end) = (s', w', ok)) by (by destruct local). clear Hop. revert Hop'.
  split_guard; [by intros [= <- <- <-]|].
  destruct (find_goal s n h) as [[[i a] [k gi]]|] eqn:Hf; [|by intros [= <- <- <-]].
  pose proof (find_goal_action _ _ _ _ _ _ _ Hok Hf) as Ha.
  apply find_goal_Some in Hf as (Hc & Hg & Hid & _); [|apply Hok].
  destruct (complete_goal_locked _ _ _ _ _ _ _) as [[a1 w1] r] eqn:Hop. intros [= <- <- <-].
  apply complete_goal_status in Hop as [Hn Hst]; [|done]. rewrite Hid in Hst.
  split; [by eapply put_action_ok|]. destruct r.
  - destruct Hst as [Hact Hst]. split; [|by eapply put_action_status].
    unfold goal_status. by rewrite (list_status_found _ _ _ _ _ Ha).
  - by eapply put_action_same.
Qed.

(** *** Polling *)

Definition is_goal_request (ev : ServerEvent) : bool :=
  bool_decide (se_type ev = ServerEventType_GOAL_REQUEST).

(** A goal request appears as a pending goal; any other event changes no
    status. *)
Definition polled (old new : GoalId -> option GoalOwnerState) (o : option ServerEvent) : Prop :=
  match o with
  | Some ev =>
      if is_goal_request ev
      then let g := sgh_goal_id (se_goal ev) in
           is_valid_goal_id g = true /\ old g = None
           /\ forall g', new g' = if decide (g' = g) then Some GoalOwnerState_PENDING else old g'
      else forall g, new g = old g
  | None => forall g, new g = old g
  end.

Lemma handle_cancel_frame (a : ActionInstance E) t ev a' ev' :
  handle_cancel_event_locked a t ev = Some (a', ev') ->
  ai_endpoint a' = ai_endpoint a /\ ai_action_name a' = ai_action_name a
  /\ (se_type ev' = se_type ev \/ se_type ev' = ServerEventType_ERROR).
Proof.
  unfold handle_cancel_event_locked. destruct (get_goal_locked a _) as [[k gi]|];
    [|intros [= <- <-]; by auto].
  cbn zeta. destruct (st_is_error _); [intros [= <- <-]; by auto|].
  destruct (st_is_nop _); [done|]. intros [= <- <-]. by auto.
Qed.

Lemma poll_action_status a w a' w' o :
  coupled a -> poll_action a w = (a', w', o) ->
  ai_action_name a' = ai_action_name a
  /\ polled (endpoint_status (ai_endpoint a)) (endpoint_status (ai_endpoint a')) o.
Proof.
  intros Hc. unfold poll_action.
  destruct (i_poll (ai_endpoint a) w) as [[e w1] ev] eqn:Hp.
  apply spec_poll in Hp as [_ Heff]; [|apply Hc]. unfold poll_effect in Heff.
  destruct (se_type ev) eqn:Ht; try done.
  - intros [= <- <- <-]. split; [done|]. intros g. by apply endpoint_status_same.
  - intros [= <- <- <-]. destruct Heff as (Hg & Hn & Hv). split; [done|].
    unfold polled, is_goal_request. cbn [se_type with_action_name]. rewrite Ht.
    rewrite bool_decide_eq_true_2 by done. split; [done|]. split.
    + unfold endpoint_status. cbn. by rewrite Hn.
    + intros g'. exact (endpoint_status_insert (ai_endpoint a) e _ _ g' Hv).
  - destruct Heff as [Ha Hv].
    assert (Hk : forall g, endpoint_status e g = endpoint_status (ai_endpoint a) g)
      by (intros g; by eapply endpoint_status_keep).
    destruct (handle_cancel_event_locked _ _ _) as [[a2 ev2]|] eqn:Hh; intros [= <- <- <-];
      [|split; [done|exact Hk]].
    apply handle_cancel_frame in Hh as (He & Hn & Hty). split; [done|].
    unfold polled, is_goal_request. cbn in Hty. rewrite bool_decide_eq_false_2;
      [|destruct Hty as [-> | ->]; by rewrite ?Ht].
    intros g. rewrite He. apply Hk.
Qed.

Lemma list_status_cons a (l : list (ActionInstance E)) n g :
  list_status (a :: l) n g
  = if decide (ai_action_name a = n) then endpoint_status (ai_endpoint a) g
    else list_status l n g.
Proof. unfold list_status. rewrite keyed_cons. by case_decide. Qed.

(** The result of [poll]: the named action has a new pending goal, or no status
    changes. *)
Definition polled_at (old new : string -> GoalId -> option GoalOwnerState)
    (r : option (string * ServerEvent)) : Prop :=
  match r with
  | Some (n, ev) =>
      if is_goal_request ev
      then let g := sgh_goal_id (se_goal ev) in
           is_valid_goal_id g = true /\ old n g = None
           /\ forall n' g', new n' g' = if decide (n' = n /\ g' = g)
                                        then Some GoalOwnerState_PENDING else old n' g'
      else forall n g, new n g = old n g
  | None => forall n g, new n g = old n g
  end.

Lemma poll_actions_status l w l' w' r :
  Forall coupled l -> NoDup (names l) -> poll_actions l w = (l', w', r) ->
  names l' = names l /\ polled_at (list_status l) (list_status l') r.
Proof.
  intros Hl. revert w l' w' r. induction Hl as [|a l Ha Hl IH]; intros w l' w' r Hd; cbn.
  { by intros [= <- <- <-]. }
  apply NoDup_cons in Hd as [Hnin Hd].
  destruct (poll_action a w) as [[a1 w1] o] eqn:Hp.
  destruct (poll_action_status _ _ _ _ _ Ha Hp) as [Hn Hst].
  destruct o as [ev|].
  - intros [= <- <- <-]. split; [cbn; by rewrite Hn|]. unfold polled_at, polled in *.
    destruct (is_goal_request ev).
    + destruct Hst as (Hv & H0 & Hst). rewrite list_status_cons, decide_True by done.
      split_and!; [done|done|]. intros n' g'. rewrite !list_status_cons, Hn.
      destruct (decide (ai_action_name a = n')) as [<-|Hne].
      * rewrite Hst. destruct (decide (g' = _)), (decide (_ /\ _)); naive_solver.
      * rewrite decide_False by naive_solver. done.
    + intros n' g'. rewrite !list_status_cons, Hn. by case_decide.
  - destruct (poll_actions l w1) as [[l2 w2] r2] eqn:Hr. intros [= <- <- <-].
    destruct (IH _ _ _ _ Hd Hr) as [Hns Hrs]. split;
      [change (ai_action_name a1 :: names l2 = ai_action_name a :: names l); by rewrite Hn, Hns|].
    assert (Hhead : forall g, endpoint_status (ai_endpoint a1) g = endpoint_status (ai_endpoint a) g)
      by exact Hst.
    unfold polled_at in *. destruct r2 as [[n ev]|]; [|intros n' g'; rewrite !list_status_cons, Hn;
      by case_decide].
    destruct (is_goal_request ev); [|intros n' g'; rewrite !list_status_cons, Hn; by case_decide].
    destruct Hrs as (Hv & H0 & Hrs). set (g := sgh_goal_id (se_goal ev)) in *.
    assert (Hin : ai_action_name a <> n).
    { intros <-. specialize (Hrs (ai_action_name a) g). rewrite decide_True in Hrs by done.
      unfold list_status in Hrs. rewrite keyed_not_elem in Hrs; [done|].
      intros Hx. apply Hnin. change (ai_action_name a ∈ names l). rewrite <-Hns. exact Hx. }
    rewrite list_status_cons, decide_False by done. split_and!; [done|done|].
    intros n' g'. rewrite !list_status_cons, Hn, Hrs.
    destruct (decide (ai_action_name a = n')) as [<-|]; [|done].
    rewrite decide_False by naive_solver. apply Hhead.
Qed.

Lemma poll_runtime_status (s : ServicesServer E) events rest i (a : ActionInstance E) ev :
  poll_runtime_events s events = (rest, Some (i, a, ev)) ->
  exists e0 a0, e0 ∈ events /\ get_action_locked s (se_action_name e0) = Some (i, a0)
    /\ ai_endpoint a = ai_endpoint a0 /\ ai_action_name a = ai_action_name a0
    /\ (se_type ev = se_type e0 \/ se_type ev = ServerEventType_ERROR).
Proof.
  induction events as [|e0 events IH]; cbn; [done|].
  assert (Hrec : poll_runtime_events s events = (rest, Some (i, a, ev)) ->
    exists e1 a0, e1 ∈ e0 :: events /\ get_action_locked s (se_action_name e1) = Some (i, a0)
    /\ ai_endpoint a = ai_endpoint a0 /\ ai_action_name a = ai_action_name a0
    /\ (se_type ev = se_type e1 \/ se_type ev = ServerEventType_ERROR)).
  { intros Hp. destruct (IH Hp) as (e1 & a0 & Hin & ?). exists e1, a0. split; [by right|done]. }
  destruct (get_action_locked s _) as [[j a0]|] eqn:Ha; [|done].
  destruct (handle_cancel_event_locked a0 _ e0) as [[a1 ev1]|] eqn:Hh; [|done].
  intros [= <- <- <- <-]. apply handle_cancel_frame in Hh as (? & ? & ?).
  exists e0, a0. split_and!; try done. left.
Qed.

(** What [poll] returns, [None] when it returns NONE. *)
Definition poll_result (r : string * ServerEvent) : option (string * ServerEvent) :=
  if bool_decide (se_type r.2 = ServerEventType_NONE) then None else Some r.

Lemma poll_status s w s' w' r :
  svc_ok s -> Services.poll s w = (s', w', r) ->
  svc_ok s' /\ polled_at (goal_status s) (goal_status s') (poll_result r).
Proof.
  intros Hok Hop. pose proof (poll_coupled _ _ _ _ _ (so_coupled _ Hok) Hop) as Hc'.
  pose proof (ServicesProps.svc_step_typed (s, w) (s', w') (svc_poll _ _ _ _ _ Hop)
    (so_typed _ Hok)) as Ht'. cbn in Ht'. revert Hop. unfold Services.poll.
  destruct (poll_runtime_events _ _) as [rest [[[i a] ev]|]] eqn:Hr.
  - apply poll_runtime_status in Hr as (e0 & a0 & Hin & Ha & He & Hn & Hty).
    pose proof (so_typed _ Hok) as Ht. unfold ServicesProps.runtime_events_typed in Ht.
    rewrite Forall_forall in Ht. specialize (Ht _ Hin). intros [= <- <- <-]. split.
    { split; [done|done|]. cbn. rewrite (names_insert _ _ _ _ _ Ha) by done. apply Hok. }
    assert (Hsame : status_same s (put_action i a s)).
    { eapply put_action_same; [exact Ha|done|]. by rewrite He. }
    unfold polled_at, poll_result, is_goal_request. cbn [snd].
    rewrite (bool_decide_eq_false_2 (_ = ServerEventType_NONE))
      by (destruct Hty as [-> | ->]; by rewrite ?Ht).
    rewrite bool_decide_eq_false_2 by (destruct Hty as [-> | ->]; by rewrite ?Ht).
    exact Hsame.
  - destruct (poll_actions _ w) as [[l w1] o] eqn:Hp. intros [= <- <- <-].
    destruct (poll_actions_status _ _ _ _ _ (so_coupled _ Hok) (so_names _ Hok) Hp) as [Hns Hst].
    split; [split; [done|done|cbn [ss_actions set_runtime_events set_actions]; rewrite Hns; apply Hok]|].
    apply poll_actions_spec in Hp as [_ Hev]; [|apply Hok].
    unfold poll_result. destruct o as [[n ev]|]; [|exact Hst].
    rewrite bool_decide_eq_false_2; [exact Hst|]. cbn.
    destruct (Hev n ev eq_refl) as [Hty|Hty]; by rewrite Hty.
Qed.

(** *** Life cycle *)

Lemma map_endpoint_status (f : ActionInstance E -> ActionInstance E) l :
  (forall a, ai_action_name (f a) = ai_action_name a) ->
  names (f <$> l) = names l
  /\ forall n g, list_status (f <$> l) n g
      = e ← keyed ai_action_name (fun a => ai_endpoint (f a)) l n; endpoint_status e g.
Proof.
  intros Hf. split.
  - unfold names. rewrite <-list_fmap_compose. apply list_fmap_ext; intros; apply Hf.
  - intros n g. unfold list_status. induction l as [|a l IH]; [done|]. cbn.
    rewrite !keyed_cons, Hf. case_decide; [done|exact IH].
Qed.

Lemma stop_status s : svc_ok s -> svc_ok (stop_all_services s) /\ status_same s (stop_all_services s).
Proof.
  intros Hok. pose proof (stop_coupled s (so_coupled _ Hok)) as Hc.
  destruct (map_endpoint_status
    (fun a => set_endpoint (i_clear_pending_events (ai_endpoint a)) a) (ss_actions s))
    as [Hn Hs]; [done|].
  split; [split; [done|constructor|unfold names in *; cbn; rewrite Hn; apply Hok]|].
  intros n g. unfold goal_status. cbn. rewrite Hs. unfold list_status.
  pose proof (so_coupled _ Hok) as Hcs. unfold svc_coupled in Hcs. clear -Hcs.
  induction Hcs as [|a l Ha Hl IH]; [done|]. rewrite !keyed_cons. case_decide; [|exact IH].
  cbn. apply endpoint_status_same. apply spec_clear_pending_events, Ha.
Qed.

Lemma clear_status s :
  svc_ok s -> svc_ok (clear_all_instances s)
              /\ forall n g, goal_status (clear_all_instances s) n g = None.
Proof.
  intros Hok. pose proof (clear_coupled s (so_coupled _ Hok)) as Hc.
  destruct (map_endpoint_status
    (fun a => set_endpoint (i_reset_contexts (ai_endpoint a)) (set_ai_goals [] a))
    (ss_actions s)) as [Hn Hs]; [done|].
  split; [split; [done|constructor|unfold names in *; cbn; rewrite Hn; apply Hok]|].
  intros n g. unfold goal_status. cbn. rewrite Hs.
  pose proof (so_coupled _ Hok) as Hcs. unfold svc_coupled in Hcs. clear -Hcs.
  induction Hcs as [|a l Ha Hl IH]; [done|]. rewrite !keyed_cons. case_decide; [|exact IH].
  cbn. unfold endpoint_status. destruct (spec_reset_contexts _ (co_inv _ Ha)) as [_ ->].
  by rewrite lookup_empty.
Qed.

Lemma notify_status s :
  svc_ok s -> svc_ok (notify_transport_disconnected s)
              /\ status_same s (notify_transport_disconnected s).
Proof.
  intros Hok. split; [|done]. split; [apply Hok| |apply Hok].
  exact (ServicesProps.svc_step_typed (s, []) (_, []) (svc_notify s []) (so_typed _ Hok)).
Qed.

Lemma deliver_status s i a k d :
  svc_ok s -> ss_actions s !! i = Some a ->
  let s' := put_action i (set_endpoint (i_deliver k d (ai_endpoint a)) a) s in
  svc_ok s' /\ status_same s s'.
Proof.
  intros Hok Hi s'. pose proof (deliver_coupled s i a k d (so_coupled _ Hok) Hi) as Hc.
  assert (Ha : get_action_locked s (ai_action_name a) = Some (i, a)).
  { apply list_find_Some. split_and!; [done|done|]. intros j y Hj Hlt Hy.
    pose proof (so_names _ Hok) as Hd. rewrite NoDup_alt in Hd.
    assert (j = i); [|lia]. apply (Hd j i (ai_action_name a)); unfold names;
      rewrite list_lookup_fmap; [by rewrite Hj, <-Hy|by rewrite Hi]. }
  split; [by eapply put_action_ok|]. eapply put_action_same; [exact Ha|done|].
  intros g. apply endpoint_status_same. apply spec_deliver.
  destruct (get_action_ok _ _ _ _ Hok Ha) as [Hca _]. apply Hca.
Qed.

(** *** Initialisation *)

Lemma init_actions_fresh s cont ov ds l :
  init_actions s cont ov ds = Some l ->
  names l `sublist_of` (ad_name ∘ fst <$> ds) /\ forall n g, list_status l n g = None.
Proof.
  revert l. induction ds as [|[d j] ds IH]; intros l; cbn; [by intros [= <-]|].
  split_guard.
  { intros (? & ?)%IH. split; [by apply sublist_cons|done]. }
  destruct (negb (_ || _)); [done|].
  destruct (negb (bool_decide (ss_impl_type s = _))); [done|].
  destruct (i_initialize _ j) as [e ok] eqn:Hi. split_guard; [done|].
  destruct (init_actions s cont ov ds) as [l0|]; [|done]. intros [= <-].
  destruct (IH l0 eq_refl) as [Hn Hl].
  destruct (spec_make (ad_name d) true (ss_has_time_source s)) as [Hm Hv].
  apply spec_initialize in Hi as [He Hv']; [|done].
  split; [by apply sublist_skip|]. intros n g. rewrite list_status_cons.
  destruct (decide (_ = n)); [|done]. unfold endpoint_status. cbn [ai_endpoint].
  by rewrite Hv', Hv, lookup_empty.
Qed.

Lemma initialize_status node impl time cont ov cfg s' :
  initialize_services_impl (new_services_server node impl time) cont ov cfg = (s', true) ->
  svc_ok s' /\ forall n g, goal_status s' n g = None.
Proof.
  intros Hop. assert (Hc : svc_coupled s')
    by (eapply initialize_coupled; [|exact Hop]; apply Forall_nil_2).
  revert Hop. unfold initialize_services_impl. repeat (split_guard; try by intros [= <-]).
  match goal with Hp : parse _ = inl _ |- _ => unfold parse in Hp; revert Hp end.
  repeat (split_guard; try done). intros Hp.
  match goal with Hi : init_actions _ _ _ _ = Some _ |- _ =>
    apply init_actions_fresh in Hi as [Hn Hs] end.
  apply parse_actions_sound in Hp as (_ & Hd & _). intros [= <-].
  split; [split; [done|constructor|]|exact Hs].
  eapply sublist_NoDup; [exact Hd|]. etrans; [exact Hn|].
  rewrite list_fmap_compose. apply fmap_sublist.
  match goal with |- (fst <$> zip ?a ?b) `sublist_of` _ => clear; generalize a b end.
  intros a b. revert b. induction a as [|x a IH]; intros [|y b]; cbn; try done.
  - apply sublist_nil_l.
  - apply sublist_skip, IH.
Qed.
End Facts.
End ActionMuxFacts.
