(* ===== verification/ActionMuxInv.v ===== *)
(** * The invariant of the Action mux server

    The owner table and the services of the connections agree: every owner's
    goal has the owner's state in the services of its connection, every active
    goal of a connection has an owner, and disconnected slots are retired
    exactly when nothing is left to finish on them. *)

From S2P Require Import Prelude Multiplexer KeyedList ActionTypes ActionConfiguration PduPacket.
From S2P Require Import ServerStateMachine ServerInterface ServicesServer ServicesServerFacts.
From S2P Require Import ServicesServerProps ActionServicesMuxServer ActionMuxFacts.
From Stdlib Require Import ZArith Lia.
From stdpp Require Import base gmap strings list fin_maps.

Module ActionMuxInv.
Import ActionConfig ServerIface ServerSM Services ServicesFacts ActionMux ActionMuxFacts.

(** ** The owner table *)

Definition owner_key (o : GoalOwner) : string * GoalId := (go_action_name o, go_goal_id o).

Definition keys (owners : list GoalOwner) : list (string * GoalId) := owner_key <$> owners.

Lemma keys_same owners o o' :
  NoDup (keys owners) -> o ∈ owners -> o' ∈ owners -> owner_key o = owner_key o' -> o = o'.
Proof.
  intros Hd (i & Hi)%list_elem_of_lookup (j & Hj)%list_elem_of_lookup Hk.
  rewrite NoDup_alt in Hd. assert (i = j) as ->; [|congruence].
  apply (Hd i j (owner_key o)); unfold keys; rewrite list_lookup_fmap; [by rewrite Hi|].
  by rewrite Hj, Hk.
Qed.

Lemma find_owner_Some owners n g k o :
  find_owner owners n g = Some (k, o) ->
  owners !! k = Some o /\ o ∈ owners /\ owner_key o = (n, g).
Proof.
  intros (Hl & Hk & _)%list_find_Some. split_and!; [done| |done].
  by eapply list_elem_of_lookup_2.
Qed.

Lemma find_owner_None owners n g o :
  find_owner owners n g = None -> o ∈ owners -> owner_key o <> (n, g).
Proof. intros Hf Ho Hk. apply list_find_None in Hf. rewrite Forall_forall in Hf. by eapply Hf. Qed.

Lemma find_owner_elem owners n g o :
  NoDup (keys owners) -> o ∈ owners -> owner_key o = (n, g) ->
  exists k, find_owner owners n g = Some (k, o).
Proof.
  intros Hd Ho Hk. destruct (find_owner owners n g) as [[k o']|] eqn:Hf.
  - apply find_owner_Some in Hf as (_ & Ho' & Hk'). exists k.
    rewrite (keys_same owners o o'); [done|done|done|done|congruence].
  - by destruct (find_owner_None _ _ _ _ Hf Ho).
Qed.

Lemma owner_delete owners k o o' :
  NoDup (keys owners) -> owners !! k = Some o ->
  o' ∈ delete k owners <-> o' ∈ owners /\ owner_key o' <> owner_key o.
Proof.
  intros Hd Hk. rewrite !list_elem_of_lookup. split.
  - intros (i & Hi). rewrite list_lookup_delete in Hi.
    assert (Hne : forall j, j <> k -> owners !! j = Some o' ->
      (exists i, owners !! i = Some o') /\ owner_key o' <> owner_key o).
    { intros j Hj Hl. split; [eauto|]. intros He. apply Hj. rewrite NoDup_alt in Hd.
      apply (Hd j k (owner_key o)); unfold keys; rewrite list_lookup_fmap;
        [by rewrite Hl, <-He|by rewrite Hk]. }
    revert Hi. case_decide; intros Hi; (eapply Hne; [|exact Hi]); lia.
  - intros [(i & Hi) Hne]. destruct (decide (i < k)) as [Hlt|Hlt].
    + exists i. by rewrite list_lookup_delete_lt.
    + assert (i <> k) by (intros ->; congruence). exists (pred i).
      rewrite list_lookup_delete_ge by lia. by replace (S (pred i)) with i by lia.
Qed.

Lemma remove_owner_elem owners n g o :
  NoDup (keys owners) ->
  o ∈ remove_owner owners n g <-> o ∈ owners /\ owner_key o <> (n, g).
Proof.
  intros Hd. unfold remove_owner. destruct (find_owner owners n g) as [[k o']|] eqn:Hf.
  - apply find_owner_Some in Hf as (Hl & _ & Hk). rewrite <-Hk. by apply owner_delete.
  - split; [|tauto]. intros Ho. split; [done|]. by eapply find_owner_None.
Qed.

Lemma remove_owner_keys owners n g : NoDup (keys owners) -> NoDup (keys (remove_owner owners n g)).
Proof.
  intros Hd. unfold remove_owner. destruct (find_owner owners n g) as [[k o']|]; [|done].
  by apply keys_delete.
Qed.

Lemma owner_insert owners k o o1 o' :
  NoDup (keys owners) -> owners !! k = Some o -> owner_key o1 = owner_key o ->
  o' ∈ <[k := o1]> owners <-> o' = o1 \/ (o' ∈ owners /\ owner_key o' <> owner_key o).
Proof.
  intros Hd Hk H1. rewrite list_elem_of_lookup. split.
  - intros (i & Hi). apply list_lookup_insert_Some in Hi as [(-> & <- & _)|[Hne Hi]]; [by left|].
    right. split; [by eapply list_elem_of_lookup_2|]. intros He. apply Hne.
    rewrite NoDup_alt in Hd. apply (Hd k i (owner_key o)); unfold keys;
      rewrite list_lookup_fmap; [by rewrite Hk|by rewrite Hi, <-He].
  - intros [->|[Ho Hne]].
    + exists k. apply list_lookup_insert_eq. by eapply lookup_lt_Some.
    + apply list_elem_of_lookup in Ho as (i & Hi). exists i.
      rewrite list_lookup_insert_ne; [done|]. intros ->. congruence.
Qed.

Lemma owner_insert_keys owners k o o1 :
  owners !! k = Some o -> owner_key o1 = owner_key o -> keys (<[k := o1]> owners) = keys owners.
Proof.
  intros Hk H1. unfold keys. rewrite list_fmap_insert. apply list_insert_id.
  by rewrite list_lookup_fmap, Hk, H1.
Qed.

(** Only owners of the connection [id] come and go. *)
Record owners_change (id : Z) (owners owners' : list GoalOwner) : Prop := mkOwnersChange {
  oc_keys : NoDup (keys owners');
  oc_others : forall o, go_connection_id o <> id -> o ∈ owners' <-> o ∈ owners;
}.

Section Inv.
Context {E : Type} `{HE : ServerEndpointSpec E} {M : CommMultiplexer}.

Definition ids (slots : list (ConnectionSlot E)) : list Z := cs_connection_id <$> slots.

#[local] Arguments ids : simpl never.

(** ** One connection *)

(** The services of the connection [id] against the owner table. *)
Record server_ok (owners : list GoalOwner) (id : Z) (server : ServicesServer E) : Prop :=
  mkServerOk {
  vo_services : svc_ok server;
  vo_owned o : o ∈ owners -> go_connection_id o = id ->
    goal_status server (go_action_name o) (go_goal_id o) = Some (go_state o);
  vo_active n g : goal_status server n g = Some GoalOwnerState_ACTIVE ->
    mkGoalOwner n g id GoalOwnerState_ACTIVE ∈ owners;
}.

Definition owns (owners : list GoalOwner) (id : Z) : Prop :=
  exists o, o ∈ owners /\ go_connection_id o = id.

Record slot_ok (owners : list GoalOwner) (slot : ConnectionSlot E) : Prop := mkSlotOk {
  sk_endpoint : is_Some (cs_endpoint slot);
  sk_server : exists server, cs_server slot = Some server
                             /\ server_ok owners (cs_connection_id slot) server;
  sk_processed : cs_disconnect_processed slot = true -> cs_disconnected slot = true;
  sk_orphaned : cs_orphaned slot = true -> cs_disconnect_processed slot = true;
  sk_retired : cs_retired slot = true ->
    cs_disconnect_processed slot = true /\ ~ owns owners (cs_connection_id slot);
  sk_live : cs_disconnect_processed slot = true -> cs_retired slot = false ->
    cs_orphaned slot = true /\ owns owners (cs_connection_id slot);
}.

Lemma slot_ok_change owners owners' id slot :
  owners_change id owners owners' -> cs_connection_id slot <> id ->
  slot_ok owners slot -> slot_ok owners' slot.
Proof.
  intros [_ Ho] Hid [He (server & Hs & [Hv Hown Ha]) Hp Hor Hr Hl].
  assert (Hw : owns owners' (cs_connection_id slot) <-> owns owners (cs_connection_id slot)).
  { split; intros (o & Hin & Hc); exists o; (split; [|done]); apply Ho; congruence. }
  split; [done| |done|done|by rewrite Hw|by rewrite Hw].
  exists server. split; [done|]. split; [done| |].
  - intros o Hin Hc. apply Hown; [|done]. apply Ho; congruence.
  - intros n g Hg. apply Ho; [done|]. by apply Ha.
Qed.

(** ** All connections *)

Record table_ok (slots : list (ConnectionSlot E)) (owners : list GoalOwner) : Prop :=
  mkTableOk {
  to_ids : NoDup (ids slots);
  to_keys : NoDup (keys owners);
  to_owners : forall o, o ∈ owners -> go_connection_id o ∈ ids slots;
  to_slots : Forall (slot_ok owners) slots;
}.

Lemma table_update pre slot slot' post owners owners' :
  table_ok (pre ++ slot :: post) owners ->
  cs_connection_id slot' = cs_connection_id slot ->
  owners_change (cs_connection_id slot) owners owners' ->
  slot_ok owners' slot' -> table_ok (pre ++ slot' :: post) owners'.
Proof.
  intros [Hi Hk Ho Hs] Hid Hc Hs'. pose proof Hi as Hids0.
  assert (Hids : ids (pre ++ slot' :: post) = ids (pre ++ slot :: post)).
  { unfold ids. by rewrite !fmap_app, !fmap_cons, Hid. }
  apply Forall_app in Hs as [Hpre [Hslot Hpost]%Forall_cons].
  assert (Hother : forall x, cs_connection_id slot ∉ ids x -> Forall (slot_ok owners) x ->
                             Forall (slot_ok owners') x).
  { intros x Hx. rewrite !Forall_forall. intros Hall y Hy. eapply slot_ok_change; [done| |auto].
    intros Heq. apply Hx. rewrite <-Heq. by apply list_elem_of_fmap_2. }
  unfold ids in Hi. rewrite fmap_app, fmap_cons in Hi. apply NoDup_app in Hi as (_ & Hnp & Hn).
  apply NoDup_cons in Hn as [Hnpost _].
  split; [rewrite Hids|apply Hc|rewrite Hids|].
  - exact Hids0.
  - intros o Hin. destruct (decide (go_connection_id o = cs_connection_id slot)) as [->|Hne].
    + unfold ids. rewrite fmap_app, fmap_cons. set_solver.
    + apply Ho. by apply (oc_others _ _ _ Hc).
  - apply Forall_app. split; [|constructor; [done|]]; apply Hother; try done.
    intros Hin. apply (Hnp _ Hin). apply elem_of_cons. by left.
Qed.

(** What the operations on services keep of a slot. *)
Record same_slot (a b : ConnectionSlot E) : Prop := mkSameSlot {
  ss_id : cs_connection_id b = cs_connection_id a;
  ss_endpoint : cs_endpoint b = cs_endpoint a;
  ss_disconnected : cs_disconnected b = cs_disconnected a;
}.

Lemma same_slot_refl a : same_slot a a.
Proof. done. Qed.

Definition same_slots : list (ConnectionSlot E) -> list (ConnectionSlot E) -> Prop :=
  Forall2 same_slot.

Lemma same_slots_refl l : same_slots l l.
Proof. induction l; constructor; auto using same_slot_refl. Qed.

Lemma same_slots_ids l l' : same_slots l l' -> ids l' = ids l.
Proof. induction 1 as [|a b l l' [Hi _ _] _ IH]; [done|]. unfold ids in *. cbn. by rewrite Hi, IH. Qed.

Definition connected (slots : list (ConnectionSlot E)) : nat :=
  length (filter (fun slot => cs_disconnected slot = false) slots).

Lemma same_slots_connected l l' : same_slots l l' -> connected l' = connected l.
Proof.
  unfold connected. induction 1 as [|a b l l' [_ _ Hd] _ IH]; [done|].
  rewrite !filter_cons, Hd. case_decide; cbn; by rewrite IH.
Qed.

(** ** Disconnected slots *)

Lemma existsb_owns owners id :
  existsb (fun o => (go_connection_id o =? id)%Z) owners = true <-> owns owners id.
Proof.
  rewrite existsb_exists. unfold owns.
  split; intros (o & Ho & Hid); exists o; rewrite ?list_elem_of_In in *; (split; [done|lia]).
Qed.

Lemma discard_pending_spec id owners server owners' server' active :
  svc_ok server -> discard_pending id owners (Some server) = (owners', server', active) ->
  owners' = filter (fun o => go_connection_id o <> id \/ go_state o = GoalOwnerState_ACTIVE)
              owners
  /\ (exists srv, server' = Some srv /\ svc_ok srv
        /\ forall n g, goal_status srv n g = Some GoalOwnerState_ACTIVE
                       <-> goal_status server n g = Some GoalOwnerState_ACTIVE)
  /\ active = existsb (fun o => (go_connection_id o =? id)%Z) owners'.
Proof.
  revert server owners' server' active.
  induction owners as [|o owners IH]; intros server owners' server' active Hok;
    cbn [discard_pending].
  { intros [= <- <- <-]. split_and!; [done|by exists server|done]. }
  rewrite filter_cons. destruct (Z.eqb_spec (go_connection_id o) id) as [Hid|Hid]; cbn [negb].
  2: { destruct (discard_pending id owners _) as [[rest' srv'] act'] eqn:Hd.
       apply IH in Hd as (-> & Hsrv & ->); [|done]. intros [= <- <- <-].
       rewrite decide_True by tauto. split_and!; [done|done|]. cbn.
       by rewrite (proj2 (Z.eqb_neq _ _) Hid). }
  case_bool_decide as Hst.
  - destruct (discard_pending id owners _) as [[rest' srv'] act'] eqn:Hd.
    apply IH in Hd as (-> & Hsrv & ->); [|done]. intros [= <- <- <-].
    rewrite decide_True by tauto. split_and!; [done|done|]. cbn.
    by rewrite (proj2 (Z.eqb_eq _ _) Hid).
  - rewrite decide_False by tauto. intros Hd.
    destruct (discard_pending_goal server (go_action_name o)
      (mkServerGoalHandle (go_goal_id o))) as [srv1 ok] eqn:Hg.
    cbn [fmap option_fmap option_map] in Hd. rewrite Hg in Hd. cbn [fst] in Hd.
    apply discard_status in Hg as [Hok1 Hg]; [|done].
    apply IH in Hd as (-> & (srv & -> & Hok' & Hs) & ->); [|done].
    split_and!; [done| |done]. exists srv. split_and!; [done|done|]. intros n g. rewrite Hs.
    destruct ok; [|by rewrite Hg]. destruct Hg as [Hp ->]. case_decide as Hk; [|done].
    destruct Hk as [-> ->]. by rewrite Hp.
Qed.

Lemma owners_change_filter id owners :
  NoDup (keys owners) ->
  owners_change id owners
    (filter (fun o => go_connection_id o <> id \/ go_state o = GoalOwnerState_ACTIVE) owners).
Proof.
  intros Hk. split.
  - unfold keys. eapply sublist_NoDup; [exact Hk|]. apply fmap_sublist, sublist_filter.
  - intros o Ho. rewrite list_elem_of_filter. tauto.
Qed.

Lemma process_slot_ok slot owners slot' owners' :
  NoDup (keys owners) -> slot_ok owners slot ->
  process_slot slot owners = (slot', owners') ->
  same_slot slot slot' /\ owners_change (cs_connection_id slot) owners owners'
  /\ slot_ok owners' slot'.
Proof.
  intros Hk Hok. unfold process_slot. split_guard.
  { intros [= <- <-]. split_and!; [done| |done]. by split. }
  simpl_bools. destruct Hok as [He (server & Hs & [Hv Hown Ha]) Hp Hor Hr Hl]. rewrite Hs.
  destruct (discard_pending _ owners _) as [[owners1 server1] active] eqn:Hd.
  apply discard_pending_spec in Hd as (-> & (srv & -> & Hsrv & Hst) & ->); [|done].
  intros [= <- <-]. pose proof (owners_change_filter (cs_connection_id slot) _ Hk) as Hc.
  set (owners' := filter _ owners) in *. split_and!; [done|done|].
  destruct (stop_status srv Hsrv) as [Hok1 Hst1].
  destruct (existsb _ owners') eqn:Hx.
  - apply existsb_owns in Hx. split; [exact He|..]; cbn; (try by auto);
    [|intros [? _]%Hr; congruence].
    exists (notify_transport_disconnected (stop_all_services srv)). split; [done|].
    destruct (notify_status _ Hok1) as [Hok2 Hst2]. split; [done| |].
    + intros o [Hf Ho]%list_elem_of_filter Hid. destruct Hf as [?|Hac]; [done|].
      rewrite Hst2, Hst1, Hac. apply Hst. rewrite <-Hac. by apply Hown.
    + intros n g. rewrite Hst2, Hst1. intros Hg%Hst%Ha. apply list_elem_of_filter.
      split; [by right|done].
  - assert (Hno : ~ owns owners' (cs_connection_id slot)) by (rewrite <-existsb_owns; congruence).
    split; [exact He|..]; cbn; (try by auto).
    exists (clear_all_instances (stop_all_services srv)). split; [done|].
    destruct (clear_status _ Hok1) as [Hok2 Hst2]. split; [done| |].
    + intros o Ho Hid. destruct Hno. by exists o.
    + intros n g. by rewrite Hst2.
Qed.

Lemma process_slots_ok pre slots owners slots' owners' :
  table_ok (pre ++ slots) owners -> process_slots slots owners = (slots', owners') ->
  same_slots slots slots' /\ table_ok (pre ++ slots') owners'.
Proof.
  revert pre owners slots' owners'.
  induction slots as [|slot slots IH]; intros pre owners slots' owners' Ht; cbn.
  { intros [= <- <-]. by split; [constructor|]. }
  destruct (process_slot slot owners) as [slot1 owners1] eqn:H1.
  destruct (process_slots slots owners1) as [slots2 owners2] eqn:H2. intros [= <- <-].
  pose proof (to_slots _ _ Ht) as Hs. apply Forall_app in Hs as [_ [Hs _]%Forall_cons].
  destruct (process_slot_ok _ _ _ _ (to_keys _ _ Ht) Hs H1) as (Hsame & Hc & Hs1).
  apply (IH (pre ++ [slot1])) in H2 as [Hss Ht2].
  - split; [by constructor|]. by rewrite <-app_assoc in Ht2.
  - rewrite <-app_assoc. cbn. eapply table_update; [exact Ht|apply Hsame|done|done].
Qed.

(** ** Operations on the services of a slot *)

(** The services changed without touching an active goal or an owned one. *)
Lemma server_ok_status owners id server server' :
  server_ok owners id server -> svc_ok server' ->
  (forall o, o ∈ owners -> go_connection_id o = id ->
     goal_status server' (go_action_name o) (go_goal_id o)
     = goal_status server (go_action_name o) (go_goal_id o)) ->
  (forall n g, goal_status server' n g = Some GoalOwnerState_ACTIVE ->
               goal_status server n g = Some GoalOwnerState_ACTIVE) ->
  server_ok owners id server'.
Proof.
  intros [_ Hown Ha] Hok Ho Hst. split; [done| |auto].
  intros o Hin Hid. rewrite Ho by done. by apply Hown.
Qed.

Lemma server_ok_same owners id server server' :
  server_ok owners id server -> svc_ok server' -> status_same server server' ->
  server_ok owners id server'.
Proof.
  intros Hs Hok Hst. eapply server_ok_status; [done|done|by intros; apply Hst|].
  intros n g. by rewrite Hst.
Qed.

(** The owner table when the goal [(n, g)] of connection [id] changes with it. *)
Definition entry_set (owners owners' : list GoalOwner) (id : Z) (n : string) (g : GoalId)
    (o : option GoalOwnerState) : Prop :=
  forall x, x ∈ owners' <->
    (x ∈ owners /\ owner_key x <> (n, g))
    \/ (exists st, o = Some st /\ x = mkGoalOwner n g id st).

Lemma server_ok_set owners owners' id n g o server server' :
  server_ok owners id server -> svc_ok server' ->
  entry_set owners owners' id n g o -> status_set server server' n g o ->
  server_ok owners' id server'.
Proof.
  intros [_ Hown Ha] Hok He Hst. split; [done| |].
  - intros x [[Hx Hk]|(st & -> & ->)]%He Hid; rewrite Hst.
    + rewrite decide_False; [by apply Hown|]. intros [Hn Hg]. apply Hk.
      unfold owner_key. by rewrite Hn, Hg.
    + by rewrite decide_True.
  - intros n' g'. rewrite Hst. case_decide as Hd.
    + destruct Hd as [-> ->]. intros ->. apply He. right. eauto.
    + intros Hg. apply He. left. split; [by apply Ha|]. intros [= -> ->]. by destruct Hd.
Qed.

Lemma slot_ok_server owners slot server w :
  slot_ok owners slot -> server_ok owners (cs_connection_id slot) server ->
  slot_ok owners (set_server server w slot).
Proof. intros [He _ Hp Ho Hr Hl] Hs. split; try done. by exists server. Qed.

(** The same with another owner table, on a slot that is not yet processed. *)
Lemma slot_ok_owners owners owners' slot server w :
  slot_ok owners slot -> server_ok owners' (cs_connection_id slot) server ->
  (cs_disconnect_processed slot = false
   \/ (owns owners (cs_connection_id slot) <-> owns owners' (cs_connection_id slot))) ->
  slot_ok owners' (set_server server w slot).
Proof.
  intros [He _ Hp Ho Hr Hl] Hs Hw. split; [exact He|by exists server|exact Hp|exact Ho|..]; cbn.
  - intros Hret. destruct (Hr Hret) as [Hpr Hno]. destruct Hw as [?|Hw]; [congruence|].
    by rewrite <-Hw.
  - intros Hpr Hret. destruct Hw as [?|Hw]; [congruence|]. rewrite <-Hw. auto.
Qed.

(** ** Polling *)

Lemma polled_cases server server1 n ev :
  polled_at (goal_status server) (goal_status server1) (poll_result (n, ev)) ->
  (se_type ev = ServerEventType_GOAL_REQUEST ->
     goal_status server n (sgh_goal_id (se_goal ev)) = None
     /\ status_set server server1 n (sgh_goal_id (se_goal ev)) (Some GoalOwnerState_PENDING))
  /\ (se_type ev <> ServerEventType_GOAL_REQUEST -> status_same server server1).
Proof.
  unfold poll_result, polled_at, is_goal_request. cbn [snd].
  destruct (decide (se_type ev = ServerEventType_GOAL_REQUEST)) as [Hr|Hr].
  - rewrite (bool_decide_eq_false_2 (_ = ServerEventType_NONE)) by congruence.
    rewrite bool_decide_eq_true_2 by done. intros (_ & Hn & Hs). by split.
  - intros Hst. split; [done|]. intros _. case_bool_decide; [exact Hst|].
    rewrite bool_decide_eq_false_2 in Hst by done. exact Hst.
Qed.

(** A request for a goal that another connection owns: rejected, or left
    pending without an owner when the rejection fails. *)
Lemma reject_duplicate_ok owners id server server1 w1 n h server2 w2 ok :
  server_ok owners id server -> svc_ok server1 ->
  goal_status server n (sgh_goal_id h) = None ->
  status_set server server1 n (sgh_goal_id h) (Some GoalOwnerState_PENDING) ->
  Services.reject_goal server1 w1 n h = (server2, w2, ok) -> server_ok owners id server2.
Proof.
  intros Hsrv Hok1 Hnone Hset Hrej. apply reject_goal_status in Hrej as [Hok2 Hst2]; [|done].
  assert (Hcase : forall n' g', goal_status server2 n' g' = goal_status server n' g'
    \/ (n' = n /\ g' = sgh_goal_id h
        /\ goal_status server2 n' g' <> Some GoalOwnerState_ACTIVE)).
  { intros n' g'. specialize (Hset n' g').
    assert (Hst2' : goal_status server2 n' g' = goal_status server1 n' g'
      \/ (n' = n /\ g' = sgh_goal_id h) /\ goal_status server2 n' g' = None).
    { destruct ok; [|by left]. destruct Hst2 as [_ Hst2]. specialize (Hst2 n' g').
      revert Hst2. case_decide; auto. }
    revert Hset. case_decide as Hd; intros Hset; [right|left];
      destruct Hst2' as [Heq|[? Heq]]; rewrite Heq, ?Hset; naive_solver. }
  eapply server_ok_status; [done|done| |].
  - intros o Ho Hid. destruct (Hcase (go_action_name o) (go_goal_id o)) as [?|(Hn & Hg & _)];
      [done|]. pose proof (vo_owned _ _ _ Hsrv o Ho Hid) as Hstat.
    by rewrite Hn, Hg, Hnone in Hstat.
  - intros n' g' Hact. destruct (Hcase n' g') as [<-|(_ & _ & ?)]; done.
Qed.

(** A new entry of the owner table. *)
Lemma owners_add owners n g id st :
  NoDup (keys owners) -> find_owner owners n g = None ->
  owners_change id owners (owners ++ [mkGoalOwner n g id st])
  /\ entry_set owners (owners ++ [mkGoalOwner n g id st]) id n g (Some st).
Proof.
  intros Hk Hf.
  assert (Hnew : forall o, o ∈ owners -> owner_key o <> (n, g))
    by (intros o Ho; by eapply find_owner_None).
  split; [split|].
  - unfold keys. rewrite fmap_app. apply NoDup_app. split_and!; [done| |apply NoDup_singleton].
    intros x (o & -> & Ho)%list_elem_of_fmap Hx%list_elem_of_singleton. by apply (Hnew o).
  - intros o Ho. rewrite elem_of_app, list_elem_of_singleton.
    split; [intros [? | ->]; done|by left].
  - intros x. rewrite elem_of_app, list_elem_of_singleton. naive_solver.
Qed.

Lemma poll_slot_ok slot owners slot' owners' r :
  NoDup (keys owners) -> slot_ok owners slot ->
  poll_slot slot owners = (slot', owners', r) ->
  same_slot slot slot' /\ owners_change (cs_connection_id slot) owners owners'
  /\ slot_ok owners' slot'.
Proof.
  intros Hk Hok. pose proof Hok as [He (server & Hs & Hsrv) Hp Hor Hr Hl].
  assert (Hsame : owners_change (cs_connection_id slot) owners owners) by done.
  unfold poll_slot. rewrite Hs. split_guard; [by intros [= <- <- <-]|].
  destruct (Services.poll server (cs_wire slot)) as [[server1 w1] [n ev]] eqn:Hpoll.
  apply poll_status in Hpoll as [Hok1 Hst]; [|apply Hsrv].
  apply polled_cases in Hst as [Hreq Hother].
  assert (Hquiet : se_type ev <> ServerEventType_GOAL_REQUEST ->
    slot_ok owners (set_server server1 w1 slot)).
  { intros Hne. apply slot_ok_server; [done|]. eapply server_ok_same; [done|done|auto]. }
  destruct (se_type ev) eqn:Hty;
    try (intros [= <- <- <-]; split_and!; [done|done|by apply Hquiet]).
  destruct (Hreq eq_refl) as (Hnone & Hset). case_bool_decide as Hfo.
  - destruct (Services.reject_goal server1 w1 n (se_goal ev)) as [[server2 w2] ok] eqn:Hrej.
    intros [= <- <- <-]. split_and!; [done|done|]. apply slot_ok_server; [done|].
    by eapply reject_duplicate_ok.
  - intros [= <- <- <-]. apply eq_None_not_Some in Hfo.
    destruct (owners_add owners n _ (cs_connection_id slot) GoalOwnerState_PENDING Hk Hfo)
      as [Hc Hent]. split_and!; [done|done|].
    eapply slot_ok_owners; [done|by eapply server_ok_set|].
    destruct (cs_disconnect_processed slot) eqn:Hpr; [right|by left]. split; [|by intros; apply Hl].
    intros (o & Ho & Hid). exists o. split; [apply elem_of_app; by left|done].
Qed.

Lemma poll_slots_ok pre slots owners slots' owners' r :
  table_ok (pre ++ slots) owners -> poll_slots slots owners = (slots', owners', r) ->
  same_slots slots slots' /\ table_ok (pre ++ slots') owners'.
Proof.
  revert pre owners slots' owners' r.
  induction slots as [|slot slots IH]; intros pre owners slots' owners' r Ht; cbn.
  { intros [= <- <- <-]. by split; [constructor|]. }
  destruct (poll_slot slot owners) as [[slot1 owners1] r1] eqn:H1.
  pose proof (to_slots _ _ Ht) as Hs. apply Forall_app in Hs as [_ [Hs _]%Forall_cons].
  destruct (poll_slot_ok _ _ _ _ _ (to_keys _ _ Ht) Hs H1) as (Hsame & Hc & Hs1).
  assert (Ht1 : table_ok (pre ++ slot1 :: slots) owners1)
    by (eapply table_update; [exact Ht|apply Hsame|done|done]).
  destruct r1 as [r1|].
  { intros [= <- <- <-]. split; [constructor; [done|apply same_slots_refl]|done]. }
  destruct (poll_slots slots owners1) as [[slots2 owners2] r2] eqn:H2. intros [= <- <- <-].
  apply (IH (pre ++ [slot1])) in H2 as [Hss Ht2]; rewrite <-app_assoc in *; [|done].
  split; [by constructor|done].
Qed.

(** ** The server *)

Record amux_wf (s : MuxServer E) : Prop := mkAmuxWf {
  aw_table : table_ok (am_slots s) (am_owners s);
  aw_issued : Forall (fun id => (1 <= id < am_next_connection_id s)%Z) (ids (am_slots s));
  aw_next : (1 <= am_next_connection_id s)%Z;
  aw_capacity : connected_slot_count s <= mux_expected_count;
}.

Lemma new_amux_wf node cfg mux impl delta time :
  amux_wf (new_mux_server node cfg mux impl delta time).
Proof.
  split; cbn; try lia; [|constructor]. split; try constructor.
  intros o Ho. by apply not_elem_of_nil in Ho.
Qed.

(** Other slots of the same shape. *)
Lemma amux_wf_slots s slots' owners' :
  amux_wf s -> same_slots (am_slots s) slots' -> table_ok slots' owners' ->
  amux_wf (set_slots slots' owners' s).
Proof.
  intros [_ Hi Hn Hc] Hs Ht. split; [done| |done|].
  - cbn. by rewrite (same_slots_ids _ _ Hs).
  - change (connected slots' <= mux_expected_count). by rewrite (same_slots_connected _ _ Hs).
Qed.

Lemma amux_wf_insert s i slot slot' owners' :
  amux_wf s -> am_slots s !! i = Some slot -> same_slot slot slot' ->
  owners_change (cs_connection_id slot) (am_owners s) owners' -> slot_ok owners' slot' ->
  amux_wf (set_slots (<[i := slot']> (am_slots s)) owners' s).
Proof.
  intros Hwf Hi Hsame Hc Hok. apply amux_wf_slots; [done| |].
  - rewrite <-(list_insert_id (am_slots s) i slot) at 1 by done.
    apply Forall2_insert; [apply same_slots_refl|done].
  - pose proof (aw_table _ Hwf) as Ht. pose proof (lookup_lt_Some _ _ _ Hi) as Hlt.
    rewrite insert_take_drop by done. rewrite <-(take_drop_middle _ _ _ Hi) in Ht.
    eapply table_update; [exact Ht|apply Hsame|done|done].
Qed.

Lemma slot_at (s : MuxServer E) i slot :
  amux_wf s -> am_slots s !! i = Some slot -> slot_ok (am_owners s) slot.
Proof. intros Hwf Hi. eapply Forall_lookup_1; [apply Hwf|exact Hi]. Qed.

Lemma find_slot_Some (s : MuxServer E) id i slot :
  find_slot s id = Some (i, slot) -> am_slots s !! i = Some slot /\ cs_connection_id slot = id.
Proof. by intros (? & ? & _)%list_find_Some. Qed.

Lemma owners_change_refl id owners : NoDup (keys owners) -> owners_change id owners owners.
Proof. done. Qed.

Lemma process_disconnected_wf s : amux_wf s -> amux_wf (process_disconnected s).
Proof.
  intros Hwf. unfold process_disconnected.
  destruct (process_slots _ _) as [slots owners] eqn:Hp.
  apply (process_slots_ok []) in Hp as [Hs Ht]; [|apply Hwf]. by apply amux_wf_slots.
Qed.

Lemma disconnect_slot_ok owners id slot :
  slot_ok owners slot -> slot_ok owners (disconnect_slot id slot).
Proof. intros [He Hs Hp Ho Hr Hl]. unfold disconnect_slot. split_guard; by split. Qed.

Lemma disconnect_ids id (slots : list (ConnectionSlot E)) : ids (disconnect_slot id <$> slots) = ids slots.
Proof.
  unfold ids. rewrite <-list_fmap_compose. apply list_fmap_ext. intros _ slot _. cbn.
  unfold disconnect_slot. by split_guard.
Qed.

Lemma disconnect_connected id (slots : list (ConnectionSlot E)) :
  connected (disconnect_slot id <$> slots) <= connected slots.
Proof.
  unfold connected. induction slots as [|slot slots IH]; [done|]. rewrite fmap_cons, !filter_cons.
  assert (Hd : cs_disconnected (disconnect_slot id slot) = false -> cs_disconnected slot = false)
    by (unfold disconnect_slot; by split_guard).
  destruct (decide (cs_disconnected (disconnect_slot id slot) = false)) as [Hx|Hx].
  - rewrite decide_True by auto. cbn. lia.
  - case_decide; cbn; lia.
Qed.

Lemma mux_on_disconnected_wf id s : amux_wf s -> amux_wf (on_disconnected id s).
Proof.
  intros [[Hi Hk Ho Hs] Hiss Hn Hc]. unfold on_disconnected. split; cbn.
  - split; [by rewrite disconnect_ids|done|by setoid_rewrite disconnect_ids|].
    apply Forall_fmap. eapply Forall_impl; [exact Hs|]. intros slot. apply disconnect_slot_ok.
  - by rewrite disconnect_ids.
  - done.
  - etrans; [apply disconnect_connected|exact Hc].
Qed.

Lemma disconnect_all_wf l s : amux_wf s -> amux_wf (disconnect_all l s).
Proof. revert s. induction l as [|id l IH]; intros s Hs; [done|]. by apply IH, mux_on_disconnected_wf. Qed.

(** *** Connections *)

Lemma set_closed_wf l s : amux_wf s -> amux_wf (set_closed l s).
Proof. intros []. by split. Qed.

Lemma set_mux_wf m st s : amux_wf s -> amux_wf (set_mux m st s).
Proof. intros []. by split. Qed.

Lemma skip_id_wf s :
  amux_wf s -> (am_next_connection_id s + 1 < UINT64_MODULUS)%Z ->
  amux_wf (set_next_id (u64 (am_next_connection_id s + 1)) s).
Proof.
  intros [Ht Hi Hn Hc] Hr. rewrite u64_small by (unfold in_u64; lia).
  split; cbn; [done| |lia|done]. eapply Forall_impl; [exact Hi|]. intros id ?. cbn in *. lia.
Qed.

Lemma mux_ids_app slots slot : ids (slots ++ [slot]) = ids slots ++ [cs_connection_id slot].
Proof. unfold ids. by rewrite fmap_app. Qed.

(** A slot with an id that was not given out. *)
Lemma add_slot_wf s e server :
  amux_wf s -> (am_next_connection_id s + 1 < UINT64_MODULUS)%Z ->
  connected_slot_count s < mux_expected_count -> svc_ok server ->
  (forall n g, goal_status server n g = None) ->
  let s1 := set_next_id (u64 (am_next_connection_id s + 1)) s in
  amux_wf (set_slots (am_slots s1 ++ [mkConnectionSlot (am_next_connection_id s) (Some e)
                        (Some server) false false false false []]) (am_owners s1) s1).
Proof.
  intros [[Hd Hk Ho Hs] Hi Hn Hc] Hr Hlen Hok Hnone s1.
  assert (Hfresh : am_next_connection_id s ∉ ids (am_slots s)).
  { intros Hin. rewrite Forall_forall in Hi. apply Hi in Hin. lia. }
  subst s1. rewrite u64_small by (unfold in_u64; lia).
  split; [split|..]; cbn [am_slots set_slots set_next_id am_owners am_next_connection_id]; try lia.
  - rewrite mux_ids_app. apply NoDup_app. split_and!; [done| |apply NoDup_singleton].
    intros id Hin ->%list_elem_of_singleton. by destruct Hfresh.
  - done.
  - intros o Hin. rewrite mux_ids_app. apply elem_of_app. left. auto.
  - apply Forall_app. split; [done|]. constructor; [|constructor].
    split; cbn; try done. exists server. split; [done|]. split; [done| |].
    + intros o Hin Hid. destruct Hfresh. rewrite <-Hid. auto.
    + intros n g. by rewrite Hnone.
  - rewrite mux_ids_app. apply Forall_app. split; [|constructor; [cbn; lia|constructor]].
    eapply Forall_impl; [exact Hi|]. intros id ?. cbn in *. lia.
  - unfold connected_slot_count in *. cbn [am_slots set_slots]. rewrite filter_app, length_app.
    rewrite filter_cons_True, filter_nil by done. cbn [length]. lia.
Qed.

Lemma accept_connection_wf s o :
  amux_wf s -> (am_next_connection_id s + 1 < UINT64_MODULUS)%Z ->
  amux_wf (accept_connection s o)
  /\ (am_next_connection_id s <= am_next_connection_id (accept_connection s o)
      <= am_next_connection_id s + 1)%Z.
Proof.
  intros Hg Hr. pose proof (aw_next _ Hg) as H1. unfold accept_connection.
  destruct o as [e|]; [|split; [done|lia]].
  destruct (Nat.leb_spec mux_expected_count (connected_slot_count s)) as [Hl|Hl];
    [split; [by apply set_closed_wf|cbn; lia]|].
  destruct (initialize_services_impl _ _ _ _) as [server ok] eqn:Hi.
  cbn [start_all_services negb]. rewrite orb_false_r.
  split; [|destruct ok; cbn; rewrite u64_small by (unfold in_u64; lia); lia].
  destruct ok; cbn [negb].
  - apply initialize_status in Hi as (Hok & Hnone). by apply add_slot_wf.
  - apply set_closed_wf. by apply skip_id_wf.
Qed.

Lemma accept_new_connections_wf taken s :
  amux_wf s -> (am_next_connection_id s + Z.of_nat (length taken) < UINT64_MODULUS)%Z ->
  amux_wf (accept_new_connections taken s)
  /\ (am_next_connection_id s <= am_next_connection_id (accept_new_connections taken s)
      <= am_next_connection_id s + Z.of_nat (length taken))%Z.
Proof.
  unfold accept_new_connections. revert s.
  induction taken as [|o taken IH]; intros s Hg Hr; cbn in *; [split; [done|lia]|].
  destruct (accept_connection_wf s o Hg) as [Hg1 Hn]; [lia|].
  destruct (IH _ Hg1) as [Hg2 Hn2]; [lia|]. split; [done|lia].
Qed.

Lemma stop_wf s : amux_wf s -> amux_wf (stop s).
Proof.
  intros Hwf. split; cbn; [|constructor|apply Hwf|lia].
  split; try constructor. intros o Ho. by apply not_elem_of_nil in Ho.
Qed.

(** *** Decisions *)

Lemma entry_set_change owners owners' id n g o :
  NoDup (keys owners') -> entry_set owners owners' id n g o ->
  (forall x, x ∈ owners -> owner_key x = (n, g) -> go_connection_id x = id) ->
  owners_change id owners owners'.
Proof.
  intros Hk He Hown. split; [done|]. intros x Hx. etrans; [apply He|]. split.
  - intros [[? _]|(st & _ & ->)]; done.
  - intros Hin. left. split; [done|]. intros Hkey. by apply Hx, Hown.
Qed.

(** The owner of a goal, its slot and the services of the slot. *)
Record routed (s : MuxServer E) (n : string) (g : GoalId) (k : nat) (owner : GoalOwner) (i : nat)
    (slot : ConnectionSlot E) (server : ServicesServer E) : Prop := mkRouted {
  ro_owner : find_owner (am_owners s) n g = Some (k, owner);
  ro_slot : am_slots s !! i = Some slot;
  ro_id : cs_connection_id slot = go_connection_id owner;
  ro_server : cs_server slot = Some server;
}.

Lemma routed_ok s n g k owner i slot server :
  amux_wf s -> routed s n g k owner i slot server ->
  slot_ok (am_owners s) slot
  /\ server_ok (am_owners s) (cs_connection_id slot) server
  /\ owner = mkGoalOwner n g (cs_connection_id slot) (go_state owner)
  /\ am_owners s !! k = Some owner
  /\ (forall x, x ∈ am_owners s -> owner_key x = (n, g) ->
                go_connection_id x = cs_connection_id slot).
Proof.
  intros Hwf [Ho Hs Hid Hsrv]. pose proof (slot_at _ _ _ Hwf Hs) as Hok.
  destruct (sk_server _ _ Hok) as (server' & Hsrv' & Hsok).
  apply find_owner_Some in Ho as (Hk & Hin & Hkey).
  assert (server' = server) as -> by congruence. split_and!; [done|done| |done|].
  - destruct owner. unfold owner_key in Hkey. cbn in *. congruence.
  - intros x Hx Hkx. rewrite Hid. f_equal. eapply keys_same; [|done|done|congruence].
    apply Hwf.
Qed.

Lemma active_slot_routed s n h i slot server :
  active_slot s n h = Some (i, slot, server) ->
  exists k owner, routed s n (sgh_goal_id h) k owner i slot server
                  /\ go_state owner = GoalOwnerState_ACTIVE.
Proof.
  unfold active_slot, find_active_owner.
  destruct (find_owner _ _ _) as [[k owner]|] eqn:Ho; [|done]. cbn.
  case_bool_decide as Hst; [|done]. cbn.
  destruct (find_slot _ _) as [[j slot']|] eqn:Hs; [|done]. cbn.
  destruct (cs_server slot') as [server'|] eqn:Hsrv; [|done]. cbn. intros [= <- <- <-].
  apply find_slot_Some in Hs as [Hs Hid]. by exists k, owner.
Qed.

(** An operation on the services of the owning slot that changes no status. *)
Lemma run_same_wf s n g k owner i slot server server' w' (ok : bool) s' b :
  amux_wf s -> routed s n g k owner i slot server ->
  svc_ok server' -> status_same server server' ->
  run_in_slot s i slot (server', w', ok) = (s', b) -> amux_wf s' /\ b = ok.
Proof.
  intros Hwf Hr Hok Hst [= <- <-]. split; [|done].
  destruct (routed_ok _ _ _ _ _ _ _ _ Hwf Hr) as (Hslot & Hsrv & _ & _ & _).
  eapply amux_wf_insert; [done|apply Hr|done|apply owners_change_refl, Hwf|].
  apply slot_ok_server; [done|]. by eapply server_ok_same.
Qed.

Lemma route_active_goal_wf s n h operation s' b :
  (forall server w server' w' ok, svc_ok server ->
     operation server w n h = (server', w', ok) -> svc_ok server' /\ status_same server server') ->
  amux_wf s -> route_active_goal s n h operation = (s', b) -> amux_wf s'.
Proof.
  intros Hop Hwf. unfold route_active_goal.
  destruct (active_slot s n h) as [[[i slot] server]|] eqn:Ha; [|by intros [= <- <-]].
  apply active_slot_routed in Ha as (k & owner & Hr & _).
  destruct (operation _ _ _ _) as [[server' w'] ok] eqn:Ho.
  destruct (routed_ok _ _ _ _ _ _ _ _ Hwf Hr) as (_ & Hsrv & _).
  apply Hop in Ho as [Hok Hst]; [|apply Hsrv]. intros Hrun. by eapply run_same_wf in Hrun as [? _].
Qed.

Lemma send_feedback_wf s n h d s' b :
  amux_wf s -> send_feedback s n h d = (s', b) -> amux_wf s'.
Proof.
  intros Hwf. unfold send_feedback.
  destruct (active_slot s n h) as [[[i slot] server]|] eqn:Ha; [|by intros [= <- <-]].
  apply active_slot_routed in Ha as (k & owner & Hr & _).
  split_guard; [by intros [= <- <-]|].
  destruct (Services.send_feedback _ _ _ _ _) as [[server' w'] ok] eqn:Ho.
  destruct (routed_ok _ _ _ _ _ _ _ _ Hwf Hr) as (_ & Hsrv & _).
  apply send_feedback_status in Ho as [Hok Hst]; [|apply Hsrv].
  intros Hrun. by eapply run_same_wf in Hrun as [? _].
Qed.

(** A decision on the goal of a connected slot. *)
Lemma decide_wf s n g k owner i slot server server' w' o owners' :
  amux_wf s -> routed s n g k owner i slot server -> cs_disconnected slot = false ->
  svc_ok server' -> status_set server server' n g o ->
  NoDup (keys owners') -> entry_set (am_owners s) owners' (cs_connection_id slot) n g o ->
  amux_wf (set_slots (<[i := set_server server' w' slot]> (am_slots s)) owners' s).
Proof.
  intros Hwf Hr Hdis Hok Hst Hk He.
  destruct (routed_ok _ _ _ _ _ _ _ _ Hwf Hr) as (Hslot & Hsrv & _ & _ & Hown).
  eapply amux_wf_insert; [done|apply Hr|done|by eapply entry_set_change|].
  eapply slot_ok_owners; [done|by eapply server_ok_set|]. left.
  destruct (cs_disconnect_processed slot) eqn:Hp; [|done].
  apply (sk_processed _ _ Hslot) in Hp. congruence.
Qed.

(** How the owner table changes. *)
Lemma entry_activate owners k o n g id :
  NoDup (keys owners) -> owners !! k = Some o -> owner_key o = (n, g) ->
  let o' := mkGoalOwner n g id GoalOwnerState_ACTIVE in
  NoDup (keys (<[k := o']> owners))
  /\ entry_set owners (<[k := o']> owners) id n g (Some GoalOwnerState_ACTIVE).
Proof.
  intros Hd Hk Hkey o'. assert (Hk' : owner_key o' = owner_key o) by done.
  split; [by rewrite (owner_insert_keys _ _ o)|].
  intros x. rewrite (owner_insert _ _ o) by done. rewrite Hkey. naive_solver.
Qed.

Lemma entry_remove owners n g id :
  NoDup (keys owners) ->
  NoDup (keys (remove_owner owners n g))
  /\ entry_set owners (remove_owner owners n g) id n g None.
Proof.
  intros Hd. split; [by apply remove_owner_keys|].
  intros x. rewrite remove_owner_elem by done. naive_solver.
Qed.

(** The outcome of a decision on a goal: which owner it had, how the owner
    table changed, and that the mux stays well formed. *)
Lemma accept_goal_wf s n h s' b :
  amux_wf s -> accept_goal s n h = (s', b) ->
  amux_wf s' /\
  if b then exists id,
              mkGoalOwner n (sgh_goal_id h) id GoalOwnerState_PENDING ∈ am_owners s
              /\ entry_set (am_owners s) (am_owners s') id n (sgh_goal_id h)
                   (Some GoalOwnerState_ACTIVE)
  else am_owners s' = am_owners s.
Proof.
  intros Hwf. unfold accept_goal. set (g := sgh_goal_id h).
  destruct (find_owner _ _ _) as [[k owner]|] eqn:Ho; [|by intros [= <- <-]].
  case_bool_decide as Hst; cbn [negb]; [|by intros [= <- <-]].
  destruct (find_slot _ _) as [[i slot]|] eqn:Hs; [|by intros [= <- <-]].
  destruct (cs_server slot) as [server|] eqn:Hsrv; [|by intros [= <- <-]].
  destruct (cs_disconnected slot) eqn:Hdis; [by intros [= <- <-]|].
  apply find_slot_Some in Hs as [Hs Hid].
  assert (Hr : routed s n g k owner i slot server) by done.
  destruct (routed_ok _ _ _ _ _ _ _ _ Hwf Hr) as (Hslot & Hsok & Heq & Hk & Hown).
  destruct (Services.accept_goal _ _ _ _) as [[server' w'] ok] eqn:Hop.
  apply accept_goal_status in Hop as [Hok Hop]; [|apply Hsok]. cbn [run_in_slot].
  destruct ok; cbn [negb].
  - destruct Hop as [_ Hset]. intros [= <- <-]. rewrite Heq, Hst in Hk |- *.
    destruct (entry_activate (am_owners s) k _ n g (cs_connection_id slot)
      (to_keys _ _ (aw_table _ Hwf)) Hk eq_refl) as [Hk' He].
    split; [by eapply (decide_wf s n g k owner i)|].
    exists (cs_connection_id slot). split; [by eapply list_elem_of_lookup_2|exact He].
  - intros [= <- <-]. split; [|done].
    by destruct (run_same_wf s n g k owner i slot server server' w' false _ _ Hwf Hr Hok Hop eq_refl).
Qed.

Lemma reject_goal_wf s n h s' b :
  amux_wf s -> reject_goal s n h = (s', b) ->
  amux_wf s' /\
  if b then exists id,
              mkGoalOwner n (sgh_goal_id h) id GoalOwnerState_PENDING ∈ am_owners s
              /\ entry_set (am_owners s) (am_owners s') id n (sgh_goal_id h) None
  else am_owners s' = am_owners s.
Proof.
  intros Hwf. unfold reject_goal. set (g := sgh_goal_id h).
  destruct (find_owner _ _ _) as [[k owner]|] eqn:Ho; [|by intros [= <- <-]].
  case_bool_decide as Hst; cbn [negb]; [|by intros [= <- <-]].
  destruct (find_slot _ _) as [[i slot]|] eqn:Hs; [|by intros [= <- <-]].
  destruct (cs_server slot) as [server|] eqn:Hsrv; [|by intros [= <- <-]].
  destruct (cs_disconnected slot) eqn:Hdis; [by intros [= <- <-]|].
  apply find_slot_Some in Hs as [Hs Hid].
  assert (Hr : routed s n g k owner i slot server) by done.
  destruct (routed_ok _ _ _ _ _ _ _ _ Hwf Hr) as (Hslot & Hsok & Heq & Hk & Hown).
  destruct (Services.reject_goal _ _ _ _) as [[server' w'] ok] eqn:Hop.
  apply reject_goal_status in Hop as [Hok Hop]; [|apply Hsok]. cbn [run_in_slot].
  destruct ok; cbn [negb].
  - destruct Hop as [_ Hset]. intros [= <- <-].
    destruct (entry_remove (am_owners s) n g (cs_connection_id slot)
      (to_keys _ _ (aw_table _ Hwf))) as [Hk' He].
    split; [by eapply (decide_wf s n g k owner i)|].
    exists (cs_connection_id slot). split; [|exact He].
    rewrite <-Hst, <-Heq. by eapply list_elem_of_lookup_2.
  - intros [= <- <-]. split; [|done].
    by destruct (run_same_wf s n g k owner i slot server server' w' false _ _ Hwf Hr Hok Hop eq_refl).
Qed.

(** *** Completion *)

Definition retire (slot : ConnectionSlot E) : ConnectionSlot E :=
  mkConnectionSlot (cs_connection_id slot) (cs_endpoint slot)
    (clear_all_instances <$> cs_server slot) (cs_disconnected slot) (cs_orphaned slot)
    (cs_disconnect_processed slot) true (cs_wire slot).

(** What [complete] leaves in the slot: retired when it was orphaned and owns
    nothing any more. *)
Definition completed_slot (owners : list GoalOwner) (slot : ConnectionSlot E)
    : ConnectionSlot E :=
  if existsb (fun o => (go_connection_id o =? cs_connection_id slot)%Z) owners then slot
  else if cs_orphaned slot then retire slot else slot.

Lemma ids_lookup slots i j (a b : ConnectionSlot E) :
  NoDup (ids slots) -> slots !! i = Some a -> slots !! j = Some b ->
  cs_connection_id a = cs_connection_id b -> i = j.
Proof.
  intros Hd Hi Hj He. rewrite NoDup_alt in Hd.
  apply (Hd i j (cs_connection_id a)); unfold ids; rewrite list_lookup_fmap;
    [by rewrite Hi|by rewrite Hj, He].
Qed.

Lemma reclaim_at (s : MuxServer E) i slot :
  NoDup (ids (am_slots s)) -> am_slots s !! i = Some slot ->
  reclaim_orphaned_slot (cs_connection_id slot) s
  = set_slots (<[i := completed_slot (am_owners s) slot]> (am_slots s)) (am_owners s) s.
Proof.
  intros Hd Hi. unfold reclaim_orphaned_slot, completed_slot.
  assert (Hsame : s = set_slots (<[i := slot]> (am_slots s)) (am_owners s) s)
    by (rewrite list_insert_id by done; by destruct s).
  destruct (existsb _ _); [done|]. destruct (list_find _ _) as [[j slot']|] eqn:Hf.
  - apply list_find_Some in Hf as (Hj & [Hid Ho] & _).
    assert (j = i) as -> by (by eapply ids_lookup).
    assert (slot' = slot) as -> by congruence. unfold retire. by rewrite Ho.
  - apply list_find_None in Hf. destruct (cs_orphaned slot) eqn:Ho; [|done].
    eapply Forall_lookup_1 in Hf; [|exact Hi]. by destruct Hf.
Qed.

Lemma reclaim_updated (s : MuxServer E) i slot server w owners :
  NoDup (ids (am_slots s)) -> am_slots s !! i = Some slot ->
  reclaim_orphaned_slot (cs_connection_id slot)
    (set_owners owners
       (set_slots (<[i := set_server server w slot]> (am_slots s)) (am_owners s) s))
  = set_slots (<[i := completed_slot owners (set_server server w slot)]> (am_slots s)) owners s.
Proof.
  intros Hd Hi. pose proof (lookup_lt_Some _ _ _ Hi) as Hlt.
  rewrite (reclaim_at _ i (set_server server w slot)); cbn [am_slots am_owners set_owners set_slots].
  - by rewrite list_insert_insert_eq.
  - rewrite (same_slots_ids (am_slots s)); [done|].
    rewrite <-(list_insert_id (am_slots s) i slot) at 1 by done.
    by apply Forall2_insert; [apply same_slots_refl|].
  - by apply list_lookup_insert_eq.
Qed.

Lemma retire_ok owners slot server w :
  is_Some (cs_endpoint slot) -> svc_ok server ->
  cs_disconnected slot = true -> cs_disconnect_processed slot = true ->
  ~ owns owners (cs_connection_id slot) ->
  slot_ok owners (retire (set_server server w slot)).
Proof.
  intros He Hok Hd Hp Hno. destruct (clear_status _ Hok) as [Hok' Hst].
  split; [exact He| |done|done|done|done]. exists (clear_all_instances server).
  split; [done|]. split; [done| |].
  - intros o Ho Hid. destruct Hno. by exists o.
  - intros n g. by rewrite Hst.
Qed.

Lemma completed_slot_ok owners owners' slot server w :
  slot_ok owners slot -> server_ok owners' (cs_connection_id slot) server ->
  owns owners (cs_connection_id slot) ->
  slot_ok owners' (completed_slot owners' (set_server server w slot)).
Proof.
  intros Hok Hsrv Hown. unfold completed_slot. cbn.
  destruct (existsb _ owners') eqn:Hx.
  - apply existsb_owns in Hx. eapply slot_ok_owners; [done|done|]. right. by split.
  - assert (Hno : ~ owns owners' (cs_connection_id slot)) by (rewrite <-existsb_owns; congruence).
    destruct (cs_orphaned slot) eqn:Ho.
    + pose proof (sk_orphaned _ _ Hok Ho) as Hp. apply retire_ok; [apply Hok|apply Hsrv| |done|done].
      by apply (sk_processed _ _ Hok).
    + eapply slot_ok_owners; [done|done|]. left.
      destruct (cs_disconnect_processed slot) eqn:Hp; [|done].
      destruct (cs_retired slot) eqn:Hret; [by destruct (sk_retired _ _ Hok Hret)|].
      destruct (sk_live _ _ Hok Hp Hret). congruence.
Qed.

Lemma complete_wf s n h st d s' b :
  amux_wf s -> complete s n h st d = (s', b) ->
  amux_wf s' /\
  if b then exists id,
              mkGoalOwner n (sgh_goal_id h) id GoalOwnerState_ACTIVE ∈ am_owners s
              /\ entry_set (am_owners s) (am_owners s') id n (sgh_goal_id h) None
  else am_owners s' = am_owners s.
Proof.
  intros Hwf. unfold complete. set (g := sgh_goal_id h).
  destruct (active_slot s n h) as [[[i slot] server]|] eqn:Ha; [|by intros [= <- <-]].
  apply active_slot_routed in Ha as (k & owner & Hr & Hst).
  destruct (routed_ok _ _ _ _ _ _ _ _ Hwf Hr) as (Hslot & Hsok & Heq & Hk & Hown).
  destruct (if cs_disconnected slot then _ else _) as [[server' w'] ok] eqn:Hop.
  apply complete_either_status in Hop as [Hok Hop]; [|apply Hsok]. cbn [run_in_slot].
  destruct ok; cbn [negb].
  2: { intros [= <- <-]. split; [|done].
       by destruct (run_same_wf s n _ k owner i slot server server' w' false _ _ Hwf Hr Hok Hop
         eq_refl). }
  destruct Hop as [_ Hset]. intros [= <- <-].
  destruct (entry_remove (am_owners s) n g (cs_connection_id slot)
    (to_keys _ _ (aw_table _ Hwf))) as [Hk' He].
  assert (Hin : owner ∈ am_owners s) by (by eapply list_elem_of_lookup_2).
  rewrite (reclaim_updated s i slot server' w') by (done || apply Hr || apply Hwf). split.
  - eapply amux_wf_insert; [done|apply Hr| |by eapply entry_set_change|].
    + unfold completed_slot. by repeat split_guard.
    + eapply completed_slot_ok; [done|by eapply server_ok_set|]. exists owner. split; [done|].
      symmetry. apply Hr.
  - exists (cs_connection_id slot). split; [|exact He]. 
    rewrite Heq, Hst in Hin. exact Hin.
Qed.

Lemma mux_deliver_wf s id i k d : amux_wf s -> amux_wf (deliver s id i k d).
Proof.
  intros Hwf. unfold deliver.
  destruct (find_slot _ _) as [[j slot]|] eqn:Hs; [|done].
  destruct (cs_server slot) as [server|] eqn:Hsrv; [|done].
  destruct (ss_actions server !! i) as [a|] eqn:Ha; [|done].
  apply find_slot_Some in Hs as [Hj _]. pose proof (slot_at _ _ _ Hwf Hj) as Hslot.
  destruct (sk_server _ _ Hslot) as (server' & Hs' & Hsok). simplify_eq.
  destruct (deliver_status server i a k d (vo_services _ _ _ Hsok) Ha) as [Hok Hst].
  eapply amux_wf_insert; [done|exact Hj|done|apply owners_change_refl, Hwf|].
  apply slot_ok_server; [done|]. by eapply server_ok_same.
Qed.
End Inv.
End ActionMuxInv.
