(* ===== verification/ActionMuxProps.v ===== *)
(** * What the Action mux server guarantees

    The server refines a registry that gives every goal one owner: requests
    enter it, decisions and completions move or remove their own goal only, and
    disconnections drop pending goals. In every reachable state the services of
    the connections agree with the registry. *)

From S2P Require Import Prelude Multiplexer KeyedList ActionTypes ActionConfiguration PduPacket.
From S2P Require Import ServerStateMachine ServerInterface ServicesServer ServicesServerFacts.
From S2P Require Import ServicesServerProps ActionServicesMuxServer ActionMuxFacts ActionMuxInv.
From S2P Require Import ServerEndpoint ServerEndpointFacts ServerEndpointProps.
From Stdlib Require Import ZArith Lia.
From stdpp Require Import base gmap strings list fin_maps.

Module ActionMuxProps.
Import ActionConfig ServerIface ServerSM Services ServicesFacts ActionMux ActionMuxFacts ActionMuxInv.

(** ** Runs *)

Inductive amux_op :=
  | AmuxInitialize
  | AmuxStart
  | AmuxStop
  | AmuxPoll (taken : list (option AcceptedEndpoint)) (early late : list Z)
  | AmuxAcceptGoal (n : string) (h : ServerGoalHandle)
  | AmuxRejectGoal (n : string) (h : ServerGoalHandle)
  | AmuxAcceptCancel (n : string) (h : ServerGoalHandle)
  | AmuxRejectCancel (n : string) (h : ServerGoalHandle)
  | AmuxFeedback (n : string) (h : ServerGoalHandle) (pdu : PduData)
  | AmuxComplete (n : string) (h : ServerGoalHandle) (st : TerminalStatus) (pdu : PduData)
  | AmuxDeliver (id : Z) (action : nat) (key : PduResolvedKey) (data : PduData)
  | AmuxDisconnected (id : Z).

Inductive goal_call :=
  | CallAcceptGoal
  | CallRejectGoal
  | CallAcceptCancel
  | CallRejectCancel
  | CallFeedback (pdu : PduData)
  | CallComplete (st : TerminalStatus) (pdu : PduData).

(** ** The registry *)

Definition registry : Type := string -> GoalId -> option (Z * GoalOwnerState).

Definition registry_empty : registry := fun _ _ => None.

Definition registry_set (r : registry) (n : string) (g : GoalId)
    (o : option (Z * GoalOwnerState)) : registry :=
  fun n' g' => if decide (n' = n /\ g' = g) then o else r n' g'.

Inductive label :=
  | LRequest (n : string) (g : GoalId)
  | LAccept (n : string) (g : GoalId)
  | LReject (n : string) (g : GoalId)
  | LUse (n : string) (g : GoalId)
  | LComplete (n : string) (g : GoalId)
  | LDrop
  | LStop.

(** A goal is requested when nobody owns it, decided while it is pending, used
    and completed while it is active; a disconnection drops pending goals. *)
Inductive registry_step : label -> registry -> registry -> Prop :=
  | reg_request r r' n g id : r n g = None ->
      (forall n' g', r' n' g' = registry_set r n g (Some (id, GoalOwnerState_PENDING)) n' g') ->
      registry_step (LRequest n g) r r'
  | reg_accept r r' n g id : r n g = Some (id, GoalOwnerState_PENDING) ->
      (forall n' g', r' n' g' = registry_set r n g (Some (id, GoalOwnerState_ACTIVE)) n' g') ->
      registry_step (LAccept n g) r r'
  | reg_reject r r' n g id : r n g = Some (id, GoalOwnerState_PENDING) ->
      (forall n' g', r' n' g' = registry_set r n g None n' g') ->
      registry_step (LReject n g) r r'
  | reg_use r n g id : r n g = Some (id, GoalOwnerState_ACTIVE) ->
      registry_step (LUse n g) r r
  | reg_complete r r' n g id : r n g = Some (id, GoalOwnerState_ACTIVE) ->
      (forall n' g', r' n' g' = registry_set r n g None n' g') ->
      registry_step (LComplete n g) r r'
  | reg_drop r r' :
      (forall n g, r' n g = r n g
                   \/ exists id, r n g = Some (id, GoalOwnerState_PENDING) /\ r' n g = None) ->
      registry_step LDrop r r'
  | reg_stop r r' : (forall n g, r' n g = None) -> registry_step LStop r r'.

Inductive registry_run : list label -> registry -> registry -> Prop :=
  | run_nil r : registry_run [] r r
  | run_cons l ls r r' r'' :
      registry_step l r r' -> registry_run ls r' r'' -> registry_run (l :: ls) r r''.

Lemma registry_run_app ls ls' r r' r'' :
  registry_run ls r r' -> registry_run ls' r' r'' -> registry_run (ls ++ ls') r r''.
Proof. induction 1; [done|]. intros. cbn. econstructor; eauto. Qed.

Lemma registry_run_one l r r' : registry_step l r r' -> registry_run [l] r r'.
Proof. intros. econstructor; [done|constructor]. Qed.

(** The registry of an owner table. *)
Definition registry_of (owners : list GoalOwner) : registry := fun n g =>
  '(_, o) ← find_owner owners n g; Some (go_connection_id o, go_state o).

Section Props.
Context {E : Type} `{HE : ServerEndpointSpec E} {M : CommMultiplexer}.

(** What an operation did to goals, as far as its result tells. *)
Definition decided (l : label) (b : bool) : list label := if b then [l] else [].

Definition polled_labels (r : string * ServerEvent) : list label :=
  if bool_decide (se_type r.2 = ServerEventType_GOAL_REQUEST)
  then [LRequest r.1 (sgh_goal_id (se_goal r.2))] else [].

Definition run_op (s : MuxServer E) (op : amux_op) : MuxServer E * list label :=
  match op with
  | AmuxInitialize => ((initialize s).1, [])
  | AmuxStart => ((start s).1, [])
  | AmuxStop => (stop s, [LStop])
  | AmuxPoll taken early late =>
      let '(s', r) := poll s taken early late in (s', LDrop :: polled_labels r ++ [LDrop])
  | AmuxAcceptGoal n h =>
      let '(s', b) := accept_goal s n h in (s', decided (LAccept n (sgh_goal_id h)) b)
  | AmuxRejectGoal n h =>
      let '(s', b) := reject_goal s n h in (s', decided (LReject n (sgh_goal_id h)) b)
  | AmuxAcceptCancel n h =>
      let '(s', b) := accept_cancel s n h in (s', decided (LUse n (sgh_goal_id h)) b)
  | AmuxRejectCancel n h =>
      let '(s', b) := reject_cancel s n h in (s', decided (LUse n (sgh_goal_id h)) b)
  | AmuxFeedback n h pdu =>
      let '(s', b) := send_feedback s n h pdu in (s', decided (LUse n (sgh_goal_id h)) b)
  | AmuxComplete n h st pdu =>
      let '(s', b) := complete s n h st pdu in (s', decided (LComplete n (sgh_goal_id h)) b)
  | AmuxDeliver id i key data => (deliver s id i key data, [])
  | AmuxDisconnected id => (on_disconnected id s, [])
  end.

Fixpoint run_ops (s : MuxServer E) (ops : list amux_op) : MuxServer E * list label :=
  match ops with
  | [] => (s, [])
  | op :: rest =>
      let '(s1, l1) := run_op s op in
      let '(s2, l2) := run_ops s1 rest in
      (s2, l1 ++ l2)
  end.

Definition taken_by (op : amux_op) : list (option AcceptedEndpoint) :=
  match op with AmuxPoll taken _ _ => taken | _ => [] end.

Definition all_taken (ops : list amux_op) : list (option AcceptedEndpoint) :=
  concat (taken_by <$> ops).

(** ** The registry and the owner table *)

Lemma registry_of_elem owners n g id st :
  NoDup (keys owners) ->
  registry_of owners n g = Some (id, st) <-> mkGoalOwner n g id st ∈ owners.
Proof.
  intros Hd. unfold registry_of. split.
  - destruct (find_owner owners n g) as [[k o]|] eqn:Hf; [|done]. intros [= <- <-].
    apply find_owner_Some in Hf as (_ & Ho & Hk). destruct o. unfold owner_key in Hk. cbn in *.
    by simplify_eq.
  - intros Ho. destruct (find_owner_elem owners n g _ Hd Ho eq_refl) as [k ->]. done.
Qed.

(** Two tables with the same entries for a goal. *)
Lemma registry_of_ext owners owners' n g n' g' :
  NoDup (keys owners) -> NoDup (keys owners') ->
  (forall id st, mkGoalOwner n g id st ∈ owners <-> mkGoalOwner n' g' id st ∈ owners') ->
  registry_of owners n g = registry_of owners' n' g'.
Proof.
  intros Hd Hd' He. apply option_eq. intros [id st]. rewrite !registry_of_elem by done. apply He.
Qed.

Lemma registry_of_entry owners owners' id n g o :
  NoDup (keys owners) -> NoDup (keys owners') -> entry_set owners owners' id n g o ->
  forall n' g', registry_of owners' n' g'
                = registry_set (registry_of owners) n g ((fun st => (id, st)) <$> o) n' g'.
Proof.
  intros Hd Hd' He n' g'. unfold registry_set. case_decide as Hk.
  - destruct Hk as [-> ->]. apply option_eq. intros [id' st]. rewrite registry_of_elem by done.
    rewrite (He _). unfold owner_key. cbn. destruct o; cbn; naive_solver.
  - apply registry_of_ext; [done|done|]. intros id' st. rewrite (He _). unfold owner_key. cbn.
    naive_solver.
Qed.

(** ** Disconnections drop pending goals only *)

Definition dropped (owners owners' : list GoalOwner) : Prop :=
  owners' `sublist_of` owners
  /\ forall o, o ∈ owners -> go_state o = GoalOwnerState_ACTIVE -> o ∈ owners'.

Lemma dropped_refl owners : dropped owners owners.
Proof. done. Qed.

Lemma dropped_trans a b c : dropped a b -> dropped b c -> dropped a c.
Proof. intros [Hs Ha] [Hs' Ha']. split; [by etrans|auto]. Qed.

Lemma dropped_registry owners owners' :
  NoDup (keys owners) -> dropped owners owners' ->
  registry_step LDrop (registry_of owners) (registry_of owners').
Proof.
  intros Hd [Hs Ha].
  assert (Hd' : NoDup (keys owners')) by (eapply sublist_NoDup; [exact Hd|by apply fmap_sublist]).
  constructor. intros n g. destruct (registry_of owners' n g) as [[id st]|] eqn:Hr'.
  - left. symmetry. apply registry_of_elem; [done|]. apply registry_of_elem in Hr'; [|done].
    by eapply elem_of_sublist.
  - destruct (registry_of owners n g) as [[id []]|] eqn:Hr; [right; eauto| |by left].
    apply registry_of_elem, Ha in Hr; [|done|done]. apply registry_of_elem in Hr; [congruence|done].
Qed.

Lemma process_slot_dropped slot owners slot' owners' :
  slot_ok owners slot -> process_slot slot owners = (slot', owners') -> dropped owners owners'.
Proof.
  intros Hok. unfold process_slot. split_guard; [by intros [= <- <-]|].
  destruct (sk_server _ _ Hok) as (server & -> & Hsrv).
  destruct (discard_pending _ owners _) as [[owners1 server1] active] eqn:Hd.
  apply discard_pending_spec in Hd as (-> & _); [|apply Hsrv]. intros [= <- <-].
  split; [apply sublist_filter|]. intros o Ho Hst. apply list_elem_of_filter.
  split; [by right|done].
Qed.

Lemma process_slots_dropped pre slots owners slots' owners' :
  table_ok (pre ++ slots) owners -> process_slots slots owners = (slots', owners') ->
  dropped owners owners'.
Proof.
  revert pre owners slots' owners'.
  induction slots as [|slot slots IH]; intros pre owners slots' owners' Ht; cbn.
  { by intros [= <- <-]. }
  destruct (process_slot slot owners) as [slot1 owners1] eqn:H1.
  destruct (process_slots slots owners1) as [slots2 owners2] eqn:H2. intros [= <- <-].
  pose proof (to_slots _ _ Ht) as Hs. apply Forall_app in Hs as [_ [Hs _]%Forall_cons].
  destruct (process_slot_ok _ _ _ _ (to_keys _ _ Ht) Hs H1) as (Hsame & Hc & Hs1).
  eapply dropped_trans; [by eapply process_slot_dropped|].
  eapply (IH (pre ++ [slot1])); [|exact H2]. rewrite <-app_assoc. cbn.
  eapply table_update; [exact Ht|apply Hsame|done|done].
Qed.

Lemma process_disconnected_dropped s :
  amux_wf s -> dropped (am_owners s) (am_owners (process_disconnected s)).
Proof.
  intros Hwf. unfold process_disconnected.
  destruct (process_slots _ _) as [slots owners] eqn:Hp.
  apply (process_slots_dropped []) in Hp; [done|apply Hwf].
Qed.

(** ** Polling *)

(** The event of [poll] is a request that nobody owned, or changes no owner. *)
Definition poll_owners (owners owners' : list GoalOwner) (r : option (string * ServerEvent))
    : Prop :=
  match r with
  | Some (n, ev) =>
      se_type ev <> ServerEventType_NONE /\
      if bool_decide (se_type ev = ServerEventType_GOAL_REQUEST)
      then exists id, find_owner owners n (sgh_goal_id (se_goal ev)) = None
             /\ owners' = owners ++ [mkGoalOwner n (sgh_goal_id (se_goal ev)) id
                                       GoalOwnerState_PENDING]
      else owners' = owners
  | None => owners' = owners
  end.

Lemma poll_slot_owners slot owners slot' owners' r :
  poll_slot slot owners = (slot', owners', r) -> poll_owners owners owners' r.
Proof.
  unfold poll_slot. destruct (cs_server slot) as [server|]; [|by intros [= <- <- <-]].
  destruct (cs_retired slot); [by intros [= <- <- <-]|].
  destruct (Services.poll server (cs_wire slot)) as [[server1 w1] [n ev]].
  destruct (se_type ev) eqn:Hty.
  2: { case_bool_decide as Hf.
       - destruct (Services.reject_goal _ _ _ _) as [[? ?] ?]. by intros [= <- <- <-].
       - intros [= <- <- <-]. split; [congruence|]. rewrite bool_decide_eq_true_2 by done.
         exists (cs_connection_id slot). split; [by apply eq_None_not_Some|done]. }
  all: intros [= <- <- <-];
    first [done|split; [congruence|]; by rewrite bool_decide_eq_false_2 by congruence].
Qed.

Lemma poll_slots_owners slots owners slots' owners' r :
  poll_slots slots owners = (slots', owners', r) -> poll_owners owners owners' r.
Proof.
  revert owners slots' owners' r.
  induction slots as [|slot slots IH]; intros owners slots' owners' r; cbn.
  { by intros [= <- <- <-]. }
  destruct (poll_slot slot owners) as [[slot1 owners1] [r1|]] eqn:H1;
    apply poll_slot_owners in H1; [by intros [= <- <- <-]|]. cbn in H1. subst owners1.
  destruct (poll_slots slots owners) as [[slots2 owners2] r2] eqn:H2. intros [= <- <- <-].
  by eapply IH.
Qed.

Lemma poll_owners_registry owners owners' n ev :
  NoDup (keys owners) -> poll_owners owners owners' (Some (n, ev)) ->
  registry_run (polled_labels (n, ev)) (registry_of owners) (registry_of owners').
Proof.
  intros Hd [_ Ho]. unfold polled_labels. cbn [fst snd]. revert Ho. case_bool_decide.
  - intros (id & Hf & ->). apply registry_run_one. apply reg_request with id.
    + unfold registry_of. by rewrite Hf.
    + destruct (owners_add _ _ _ id GoalOwnerState_PENDING Hd Hf) as [[Hd' _] He].
      exact (registry_of_entry _ _ _ _ _ _ Hd Hd' He).
  - intros ->. constructor.
Qed.

Lemma disconnect_all_owners l (s : MuxServer E) : am_owners (disconnect_all l s) = am_owners s.
Proof. revert s. induction l as [|id l IH]; intros s; [done|]. exact (IH _). Qed.

Lemma mux_disconnect_all_next l (s : MuxServer E) :
  am_next_connection_id (disconnect_all l s) = am_next_connection_id s.
Proof. revert s. induction l as [|id l IH]; intros s; [done|]. exact (IH _). Qed.

Lemma accept_connection_owners (s : MuxServer E) o :
  am_owners (accept_connection s o) = am_owners s.
Proof.
  unfold accept_connection. destruct o; [|done]. split_guard; [done|].
  destruct (initialize_services_impl _ _ _ _) as [server []]; done.
Qed.

Lemma accept_new_connections_owners taken (s : MuxServer E) :
  am_owners (accept_new_connections taken s) = am_owners s.
Proof.
  unfold accept_new_connections. revert s. induction taken as [|o taken IH]; intros s; [done|].
  cbn. by rewrite IH, accept_connection_owners.
Qed.

Lemma process_next (s : MuxServer E) :
  am_next_connection_id (process_disconnected s) = am_next_connection_id s.
Proof. unfold process_disconnected. by destruct (process_slots _ _). Qed.

(** The server [poll] works on once connections were accepted and disconnected
    slots processed. *)
Definition poll_ready (s : MuxServer E) (taken : list (option AcceptedEndpoint)) (early : list Z)
    : MuxServer E :=
  process_disconnected (disconnect_all early (accept_new_connections taken s)).

Lemma poll_ready_spec s taken early :
  amux_wf s -> (am_next_connection_id s + Z.of_nat (length taken) < UINT64_MODULUS)%Z ->
  amux_wf (poll_ready s taken early)
  /\ dropped (am_owners s) (am_owners (poll_ready s taken early))
  /\ (am_next_connection_id s <= am_next_connection_id (poll_ready s taken early)
      <= am_next_connection_id s + Z.of_nat (length taken))%Z.
Proof.
  intros Hwf Hr. destruct (accept_new_connections_wf taken s Hwf Hr) as [Hwf1 Hn].
  apply (disconnect_all_wf early) in Hwf1. unfold poll_ready.
  split_and!; [by apply process_disconnected_wf| |rewrite process_next, mux_disconnect_all_next; lia..].
  pose proof (process_disconnected_dropped _ Hwf1) as Hd.
  by rewrite disconnect_all_owners, accept_new_connections_owners in Hd.
Qed.

Lemma mux_poll_spec s taken early late s' r :
  amux_wf s -> (am_next_connection_id s + Z.of_nat (length taken) < UINT64_MODULUS)%Z ->
  poll s taken early late = (s', r) ->
  amux_wf s'
  /\ registry_run (LDrop :: polled_labels r ++ [LDrop])
       (registry_of (am_owners s)) (registry_of (am_owners s'))
  /\ (am_next_connection_id s <= am_next_connection_id s'
      <= am_next_connection_id s + Z.of_nat (length taken))%Z.
Proof.
  intros Hwf Hr. unfold poll. fold (poll_ready s taken early).
  assert (Hk : NoDup (keys (am_owners s))) by apply Hwf.
  destruct (negb (am_started s) || negb (am_mux s)).
  { intros [= <- <-]. split_and!; [done| |lia..].
    repeat (econstructor; [by apply dropped_registry|]). constructor. }
  destruct (poll_ready_spec s taken early Hwf Hr) as (Hwf1 & Hdrop & Hn).
  set (s1 := poll_ready s taken early) in *.
  destruct (poll_slots _ _) as [[slots owners] result] eqn:Hp.
  pose proof (poll_slots_owners _ _ _ _ _ Hp) as Ho.
  destruct (poll_slots_ok [] _ _ _ _ _ (aw_table _ Hwf1) Hp) as [Hss Ht].
  pose proof (amux_wf_slots s1 slots owners Hwf1 Hss Ht) as Hwf2.
  destruct result as [[n ev]|]; intros [= <- <-].
  - split_and!; [by apply disconnect_all_wf| |rewrite mux_disconnect_all_next; cbn; lia..].
    rewrite disconnect_all_owners. econstructor; [by apply dropped_registry|].
    eapply registry_run_app; [eapply poll_owners_registry; [apply Hwf1|exact Ho]|].
    apply registry_run_one, dropped_registry; [apply Hwf2|done].
  - pose proof (disconnect_all_wf late _ Hwf2) as Hwf3.
    split_and!; [by apply process_disconnected_wf| |
      rewrite process_next, mux_disconnect_all_next; cbn; lia..].
    econstructor; [by apply dropped_registry|]. cbn in Ho. subst owners.
    apply registry_run_one. eapply dropped_registry; [apply Hwf1|].
    pose proof (process_disconnected_dropped _ Hwf3) as Hd. by rewrite disconnect_all_owners in Hd.
Qed.

(** ** Operations on goals *)

(** An operation that uses an active goal: it touches the slot of the owning
    connection and no owner. *)
Lemma route_active_goal_owners (s : MuxServer E) n h operation s' b :
  route_active_goal s n h operation = (s', b) ->
  am_owners s' = am_owners s /\ am_next_connection_id s' = am_next_connection_id s
  /\ (b = true -> exists id, registry_of (am_owners s) n (sgh_goal_id h)
                             = Some (id, GoalOwnerState_ACTIVE)).
Proof.
  unfold route_active_goal.
  destruct (active_slot s n h) as [[[i slot] server]|] eqn:Ha; [|by intros [= <- <-]].
  apply active_slot_routed in Ha as (k & owner & [Ho _ _ _] & Hst).
  destruct (operation _ _ _ _) as [[server' w'] ok]. intros [= <- <-]. split_and!; [done|done|].
  intros _. exists (go_connection_id owner). unfold registry_of. by rewrite Ho, <-Hst.
Qed.

Lemma send_feedback_owners (s : MuxServer E) n h d s' b :
  send_feedback s n h d = (s', b) ->
  am_owners s' = am_owners s /\ am_next_connection_id s' = am_next_connection_id s
  /\ (b = true -> exists id, registry_of (am_owners s) n (sgh_goal_id h)
                             = Some (id, GoalOwnerState_ACTIVE)).
Proof.
  unfold send_feedback.
  destruct (active_slot s n h) as [[[i slot] server]|] eqn:Ha; [|by intros [= <- <-]].
  split_guard; [by intros [= <- <-]|]. intros Hrun.
  apply (route_active_goal_owners s n h (fun srv w m g => Services.send_feedback srv w m g d)).
  unfold route_active_goal. by rewrite Ha.
Qed.

Lemma decision_registry owners owners' n g (b : bool) (l : label) from to :
  NoDup (keys owners) -> NoDup (keys owners') ->
  (forall r r' id, r n g = Some (id, from) ->
     (forall n' g', r' n' g' = registry_set r n g ((fun st => (id, st)) <$> to) n' g') ->
     registry_step l r r') ->
  (if b then exists id, mkGoalOwner n g id from ∈ owners /\ entry_set owners owners' id n g to
   else owners' = owners) ->
  registry_run (decided l b) (registry_of owners) (registry_of owners').
Proof.
  intros Hd Hd' Hstep. destruct b; [|intros ->; constructor].
  intros (id & Ho & He). apply registry_run_one, (Hstep _ _ id).
  - by apply registry_of_elem.
  - by apply registry_of_entry.
Qed.

Lemma use_registry owners owners' n g (b : bool) :
  owners' = owners ->
  (b = true -> exists id, registry_of owners n g = Some (id, GoalOwnerState_ACTIVE)) ->
  registry_run (decided (LUse n g) b) (registry_of owners) (registry_of owners').
Proof.
  intros -> Hb. destruct b; [|constructor]. destruct (Hb eq_refl) as [id Hr].
  by eapply registry_run_one, reg_use.
Qed.

Lemma decision_next (s : MuxServer E) n h s' b :
  accept_goal s n h = (s', b) \/ reject_goal s n h = (s', b)
  \/ (exists st d, complete s n h st d = (s', b)) ->
  am_next_connection_id s' = am_next_connection_id s.
Proof.
  intros [Hop|[Hop|(st & d & Hop)]]; revert Hop.
  - unfold accept_goal, run_in_slot. repeat (split_guard; try by intros [= <- <-]).
  - unfold reject_goal, run_in_slot. repeat (split_guard; try by intros [= <- <-]).
  - unfold complete, run_in_slot.
    destruct (active_slot s n h) as [[[i slot] server]|]; [|by intros [= <- <-]].
    destruct (if cs_disconnected slot then _ else _) as [[server' w'] []]; cbn [negb];
      intros [= <- <-]; [|done].
    unfold reclaim_orphaned_slot. by repeat split_guard.
Qed.

Record op_ok (s s' : MuxServer E) (ls : list label) (fresh_ids : nat) : Prop := mkOpOk {
  oo_wf : amux_wf s';
  oo_registry : registry_run ls (registry_of (am_owners s)) (registry_of (am_owners s'));
  oo_next : (am_next_connection_id s <= am_next_connection_id s'
             <= am_next_connection_id s + Z.of_nat fresh_ids)%Z;
}.

Lemma op_ok_keep s s' k :
  amux_wf s' -> am_owners s' = am_owners s ->
  am_next_connection_id s' = am_next_connection_id s -> op_ok s s' [] k.
Proof. intros Hwf Ho Hn. split; [done|rewrite Ho; constructor|lia]. Qed.

Lemma decision_op_ok s s' n g b l from to :
  amux_wf s -> am_next_connection_id s' = am_next_connection_id s ->
  (forall r r' id, r n g = Some (id, from) ->
     (forall n' g', r' n' g' = registry_set r n g ((fun st => (id, st)) <$> to) n' g') ->
     registry_step l r r') ->
  (amux_wf s' /\
   if b : bool
   then exists id, mkGoalOwner n g id from ∈ am_owners s
                   /\ entry_set (am_owners s) (am_owners s') id n g to
   else am_owners s' = am_owners s) ->
  op_ok s s' (decided l b) 0.
Proof.
  intros Hwf Hn Hstep [Hwf' Hd]. split; [done| |lia].
  eapply decision_registry; [apply Hwf|apply Hwf'|exact Hstep|exact Hd].
Qed.

Lemma route_op_ok s n h operation s' b :
  amux_wf s ->
  (forall server w server' w' ok, svc_ok server ->
     operation server w n h = (server', w', ok) -> svc_ok server' /\ status_same server server') ->
  route_active_goal s n h operation = (s', b) ->
  op_ok s s' (decided (LUse n (sgh_goal_id h)) b) 0.
Proof.
  intros Hwf Hop Ha. destruct (route_active_goal_owners _ _ _ _ _ _ Ha) as (Ho & Hn & Hb).
  split; [by eapply route_active_goal_wf|by apply use_registry|lia].
Qed.

Lemma run_op_spec s op s' ls :
  amux_wf s -> (am_next_connection_id s + Z.of_nat (length (taken_by op)) < UINT64_MODULUS)%Z ->
  run_op s op = (s', ls) -> op_ok s s' ls (length (taken_by op)).
Proof.
  intros Hwf Hr Hop.
  destruct op as [| | |taken early late|n h|n h|n h|n h|n h d|n h st d|id i key data|id];
    cbn [run_op taken_by] in *.
  - injection Hop as <- <-. unfold initialize.
    repeat split_guard; by apply op_ok_keep; try by apply set_mux_wf.
  - injection Hop as <- <-. unfold start.
    repeat split_guard; by apply op_ok_keep; try by apply set_mux_wf.
  - injection Hop as <- <-. split; [by apply stop_wf| |cbn; lia].
    apply registry_run_one. by constructor.
  - destruct (poll _ _ _ _) as [s1 r] eqn:Hp. injection Hop as <- <-.
    destruct (mux_poll_spec _ _ _ _ _ _ Hwf Hr Hp) as (? & ? & ?). by split.
  - destruct (accept_goal _ _ _) as [s1 b] eqn:Ha. injection Hop as <- <-.
    eapply decision_op_ok; [done|eapply decision_next; eauto| |by apply accept_goal_wf].
    intros ????. by eapply reg_accept.
  - destruct (reject_goal _ _ _) as [s1 b] eqn:Ha. injection Hop as <- <-.
    eapply decision_op_ok; [done|eapply decision_next; eauto| |by apply reject_goal_wf].
    intros ????. by eapply reg_reject.
  - destruct (accept_cancel _ _ _) as [s1 b] eqn:Ha. injection Hop as <- <-.
    eapply route_op_ok; [done| |exact Ha]. intros. by eapply accept_cancel_status.
  - destruct (reject_cancel _ _ _) as [s1 b] eqn:Ha. injection Hop as <- <-.
    eapply route_op_ok; [done| |exact Ha]. intros. by eapply reject_cancel_status.
  - destruct (send_feedback _ _ _ _) as [s1 b] eqn:Ha. injection Hop as <- <-.
    destruct (send_feedback_owners _ _ _ _ _ _ Ha) as (Ho & Hn & Hb).
    split; [by eapply send_feedback_wf|by apply use_registry|cbn; lia].
  - destruct (complete _ _ _ _ _) as [s1 b] eqn:Ha. injection Hop as <- <-.
    eapply decision_op_ok; [done|eapply decision_next; eauto| |by eapply complete_wf].
    intros ????. by eapply reg_complete.
  - injection Hop as <- <-. pose proof (mux_deliver_wf s id i key data Hwf) as Hwf'.
    revert Hwf'. unfold deliver. repeat split_guard; intros; by apply op_ok_keep.
  - injection Hop as <- <-. by apply op_ok_keep; [apply mux_on_disconnected_wf|..].
Qed.

Lemma run_ops_spec ops s s' ls :
  amux_wf s -> (am_next_connection_id s + Z.of_nat (length (all_taken ops)) < UINT64_MODULUS)%Z ->
  run_ops s ops = (s', ls) -> op_ok s s' ls (length (all_taken ops)).
Proof.
  unfold all_taken. revert s ls. induction ops as [|op ops IH]; intros s ls Hwf Hr; cbn.
  { intros [= <- <-]. by apply op_ok_keep. }
  cbn in Hr. rewrite length_app in Hr |- *.
  destruct (run_op s op) as [s1 l1] eqn:Ho. destruct (run_ops s1 ops) as [s2 l2] eqn:Hops.
  intros [= <- <-]. apply run_op_spec in Ho as [Hwf1 Hr1 Hn1]; [|done|lia].
  apply IH in Hops as [Hwf2 Hr2 Hn2]; [|done|lia].
  split; [done|by eapply registry_run_app|lia].
Qed.

Lemma reachable_wf node cfg mux impl delta time ops s ls :
  run_ops (new_mux_server node cfg mux impl delta time) ops = (s, ls) ->
  (1 + Z.of_nat (length (all_taken ops)) < UINT64_MODULUS)%Z ->
  amux_wf s /\ registry_run ls registry_empty (registry_of (am_owners s)).
Proof.
  intros Hr Hlen. apply run_ops_spec in Hr as [Hwf Hreg _]; [by split|apply new_amux_wf|done].
Qed.

(** ** Routing *)

(** The connections other than [id], at their places. *)
Definition others_kept (id : Z) (s s' : MuxServer E) : Prop :=
  length (am_slots s') = length (am_slots s)
  /\ forall j slot, am_slots s !! j = Some slot -> cs_connection_id slot <> id ->
                    am_slots s' !! j = Some slot.

Lemma others_kept_refl id s : others_kept id s s.
Proof. done. Qed.

Lemma others_kept_insert id (s : MuxServer E) i slot slot' owners :
  am_slots s !! i = Some slot -> cs_connection_id slot = id ->
  others_kept id s (set_slots (<[i := slot']> (am_slots s)) owners s).
Proof.
  intros Hi Hid. split; cbn; [apply length_insert|]. intros j x Hj Hne.
  rewrite list_lookup_insert_ne; [done|]. intros ->. congruence.
Qed.

(** The calls of the application about one goal. *)
Definition call_goal (s : MuxServer E) (n : string) (h : ServerGoalHandle) (c : goal_call)
    : MuxServer E * bool :=
  match c with
  | CallAcceptGoal => accept_goal s n h
  | CallRejectGoal => reject_goal s n h
  | CallAcceptCancel => accept_cancel s n h
  | CallRejectCancel => reject_cancel s n h
  | CallFeedback pdu => send_feedback s n h pdu
  | CallComplete st pdu => complete s n h st pdu
  end.

(** The call reaches the owning connection only, and fails without an owner. *)
Definition routed_to_owner (s : MuxServer E) (n : string) (g : GoalId) (r : MuxServer E * bool)
    : Prop :=
  match registry_of (am_owners s) n g with
  | None => r = (s, false)
  | Some (id, _) => others_kept id s r.1
  end.

Lemma routed_insert s n g k o i slot slot' owners b :
  find_owner (am_owners s) n g = Some (k, o) ->
  am_slots s !! i = Some slot -> cs_connection_id slot = go_connection_id o ->
  routed_to_owner s n g (set_slots (<[i := slot']> (am_slots s)) owners s, b).
Proof.
  intros Ho Hi Hid. unfold routed_to_owner, registry_of. rewrite Ho. cbn.
  by eapply others_kept_insert.
Qed.

Lemma routed_fails s n g : routed_to_owner s n g (s, false).
Proof.
  unfold routed_to_owner. destruct (registry_of _ n g) as [[id st]|]; [|done].
  apply others_kept_refl.
Qed.

Lemma accept_goal_routing s n h : routed_to_owner s n (sgh_goal_id h) (accept_goal s n h).
Proof.
  unfold accept_goal. destruct (find_owner _ _ _) as [[k o]|] eqn:Ho; [|apply routed_fails].
  split_guard; [apply routed_fails|].
  destruct (find_slot _ _) as [[i slot]|] eqn:Hs; [|apply routed_fails].
  apply find_slot_Some in Hs as [Hs Hid].
  destruct (cs_server slot) as [server|]; [|apply routed_fails].
  destruct (cs_disconnected slot); [apply routed_fails|].
  destruct (Services.accept_goal _ _ _ _) as [[server' w'] []];
    by eapply (routed_insert s _ _ k o i slot).
Qed.

Lemma reject_goal_routing s n h : routed_to_owner s n (sgh_goal_id h) (reject_goal s n h).
Proof.
  unfold reject_goal. destruct (find_owner _ _ _) as [[k o]|] eqn:Ho; [|apply routed_fails].
  split_guard; [apply routed_fails|].
  destruct (find_slot _ _) as [[i slot]|] eqn:Hs; [|apply routed_fails].
  apply find_slot_Some in Hs as [Hs Hid].
  destruct (cs_server slot) as [server|]; [|apply routed_fails].
  destruct (cs_disconnected slot); [apply routed_fails|].
  destruct (Services.reject_goal _ _ _ _) as [[server' w'] []];
    by eapply (routed_insert s _ _ k o i slot).
Qed.

Lemma route_active_routing s n h operation :
  routed_to_owner s n (sgh_goal_id h) (route_active_goal s n h operation).
Proof.
  unfold route_active_goal.
  destruct (active_slot s n h) as [[[i slot] server]|] eqn:Ha; [|apply routed_fails].
  apply active_slot_routed in Ha as (k & owner & [Ho Hs Hid _] & _).
  destruct (operation _ _ _ _) as [[server' w'] ok]. by eapply routed_insert.
Qed.

Lemma complete_routing s n h st d :
  amux_wf s -> routed_to_owner s n (sgh_goal_id h) (complete s n h st d).
Proof.
  intros Hwf. unfold complete.
  destruct (active_slot s n h) as [[[i slot] server]|] eqn:Ha; [|apply routed_fails].
  apply active_slot_routed in Ha as (k & owner & [Ho Hs Hid _] & _).
  destruct (if cs_disconnected slot then _ else _) as [[server' w'] []]; cbn [run_in_slot negb];
    [|by eapply routed_insert].
  rewrite (reclaim_updated s i slot server' w') by (done || apply Hwf). by eapply routed_insert.
Qed.

Lemma call_goal_routing s n h c :
  amux_wf s -> routed_to_owner s n (sgh_goal_id h) (call_goal s n h c).
Proof.
  intros Hwf. destruct c; cbn [call_goal].
  - apply accept_goal_routing.
  - apply reject_goal_routing.
  - apply route_active_routing.
  - apply route_active_routing.
  - pose proof (route_active_routing s n h
      (fun srv w m g => Services.send_feedback srv w m g pdu)) as Hr.
    unfold route_active_goal in Hr. unfold send_feedback.
    destruct (active_slot s n h) as [[[i slot] server]|]; [|done].
    destruct (cs_disconnected slot); [apply routed_fails|exact Hr].
  - by apply complete_routing.
Qed.

(** ** Disconnection *)

Lemma active_goal_instance (server : ServicesServer E) n g :
  svc_ok server -> goal_status server n g = Some GoalOwnerState_ACTIVE ->
  exists a gi, a ∈ ss_actions server /\ gi ∈ ai_goals a
               /\ ai_action_name a = n /\ sgh_goal_id (gi_goal gi) = g.
Proof.
  intros Hok. unfold goal_status, list_status, keyed.
  destruct (list_find _ (ss_actions server)) as [[i a]|] eqn:Hf; [|done]. cbn.
  destruct (get_action_ok _ _ _ _ Hok Hf) as [Hc Hn].
  apply list_find_Some in Hf as (Hi & _ & _). unfold endpoint_status.
  destruct (ep_view (ai_endpoint a) !! g) as [[p c]|] eqn:Hv; [|done]. cbn. intros Hst.
  pose proof (co_related _ Hc g) as Hrel. rewrite Hv in Hrel.
  destruct (context_of (ai_goals a) g) as [ctx|] eqn:Hctx.
  - unfold context_of, keyed in Hctx.
    destruct (list_find _ (ai_goals a)) as [[k gi]|] eqn:Hg; [|done].
    apply list_find_Some in Hg as (Hk & Hid & _). exists a, gi.
    split_and!; [by eapply list_elem_of_lookup_2|by eapply list_elem_of_lookup_2|done|done].
  - exfalso. destruct p; cbn in *; done.
Qed.

(** What processing leaves in a slot that was disconnected. *)
Record disconnected_slot (owners : list GoalOwner) (slot : ConnectionSlot E) : Prop := {
  ds_processed : cs_disconnect_processed slot = true;
  ds_pending : forall o, o ∈ owners -> go_connection_id o = cs_connection_id slot ->
    go_state o = GoalOwnerState_ACTIVE;
  ds_outcome : match cs_server slot with
    | None => False
    | Some server =>
        (cs_retired slot = true /\ ~ owns owners (cs_connection_id slot)
         /\ forall n g, goal_status server n g = None)
        \/ (cs_retired slot = false /\ cs_orphaned slot = true
            /\ owns owners (cs_connection_id slot)
            /\ forall n g, mkGoalOwner n g (cs_connection_id slot) GoalOwnerState_ACTIVE ∈ owners ->
                 already_pending n g (ss_pending_runtime_events server) = true)
    end;
}.

Lemma process_slot_disconnected slot owners slot' owners' :
  NoDup (keys owners) -> slot_ok owners slot ->
  cs_disconnected slot = true -> cs_disconnect_processed slot = false ->
  process_slot slot owners = (slot', owners') -> disconnected_slot owners' slot'.
Proof.
  intros Hk Hok Hdis Hproc. unfold process_slot. rewrite Hdis, Hproc. cbn [negb orb].
  destruct (sk_server _ _ Hok) as (server & -> & Hsrv).
  destruct (discard_pending _ owners _) as [[owners1 server1] active] eqn:Hd.
  apply discard_pending_spec in Hd as (-> & (srv & -> & Hok1 & Hst) & ->); [|apply Hsrv].
  set (owners1 := filter _ owners).
  assert (Hact : forall o, o ∈ owners1 -> go_connection_id o = cs_connection_id slot ->
                           go_state o = GoalOwnerState_ACTIVE).
  { intros o [[?|?] _]%list_elem_of_filter ?; done. }
  destruct (stop_status srv Hok1) as [Hok2 Hst2].
  destruct (existsb _ owners1) eqn:Hx; intros [= <- <-]; split; cbn; try done.
  - right. destruct (cs_retired slot) eqn:Hret;
      [destruct (sk_retired _ _ Hok Hret); congruence|].
    split_and!; [done|done|by apply existsb_owns|]. intros n g [_ Hin]%list_elem_of_filter.
    apply (vo_owned _ _ _ Hsrv) in Hin; [|done]. cbn in Hin. apply Hst in Hin.
    rewrite <-Hst2 in Hin. apply active_goal_instance in Hin as (a & gi & Ha & Hgi & <- & <-); [|done].
    by apply ServicesProps.notify_all_pending.
  - left. split_and!; [done|rewrite <-existsb_owns; congruence|].
    intros n g. by apply clear_status.
Qed.

Lemma disconnected_slot_change owners owners' slot :
  (forall o, go_connection_id o = cs_connection_id slot -> o ∈ owners' <-> o ∈ owners) ->
  disconnected_slot owners slot -> disconnected_slot owners' slot.
Proof.
  intros Hsame [Hp Hact Ho]. split; [done| |].
  - intros o Hin Hid. apply Hact; [by apply Hsame|done].
  - destruct (cs_server slot) as [server|]; [|done].
    destruct Ho as [(Hr & Hno & Hn)|(Hr & Hor & Hown & Hall)]; [left|right]; split_and!; try done.
    + intros (o & Hin & Hid). apply Hno. exists o. split; [by apply Hsame|done].
    + destruct Hown as (o & Hin & Hid). exists o. split; [by apply Hsame|done].
    + intros n g Hin. apply Hall. by apply Hsame.
Qed.

Lemma process_slots_others pre slots owners slots' owners' o :
  table_ok (pre ++ slots) owners -> process_slots slots owners = (slots', owners') ->
  go_connection_id o ∉ ids slots -> o ∈ owners' <-> o ∈ owners.
Proof.
  revert pre owners slots' owners'.
  induction slots as [|slot slots IH]; intros pre owners slots' owners' Ht; cbn.
  { by intros [= <- <-]. }
  destruct (process_slot slot owners) as [slot1 owners1] eqn:H1.
  destruct (process_slots slots owners1) as [slots2 owners2] eqn:H2. intros [= <- <-].
  intros [Hne Hni]%not_elem_of_cons.
  pose proof (to_slots _ _ Ht) as Hs. apply Forall_app in Hs as [_ [Hs _]%Forall_cons].
  destruct (process_slot_ok _ _ _ _ (to_keys _ _ Ht) Hs H1) as (Hsame & Hc & Hs1).
  rewrite <-(oc_others _ _ _ Hc) by done. eapply (IH (pre ++ [slot1])); [|exact H2|done].
  rewrite <-app_assoc. cbn. eapply table_update; [exact Ht|apply Hsame|done|done].
Qed.

Lemma process_slots_disconnected pre slots owners slots' owners' j slot :
  table_ok (pre ++ slots) owners -> process_slots slots owners = (slots', owners') ->
  slots !! j = Some slot ->
  cs_disconnected slot = true -> cs_disconnect_processed slot = false ->
  exists slot', slots' !! j = Some slot' /\ cs_connection_id slot' = cs_connection_id slot
                /\ disconnected_slot owners' slot'.
Proof.
  revert pre owners slots' owners' j.
  induction slots as [|slot0 slots IH]; intros pre owners slots' owners' j Ht; cbn; [done|].
  destruct (process_slot slot0 owners) as [slot1 owners1] eqn:H1.
  destruct (process_slots slots owners1) as [slots2 owners2] eqn:H2. intros [= <- <-] Hj Hd Hp.
  pose proof (to_slots _ _ Ht) as Hs. apply Forall_app in Hs as [_ [Hs _]%Forall_cons].
  destruct (process_slot_ok _ _ _ _ (to_keys _ _ Ht) Hs H1) as (Hsame & Hc & Hs1).
  assert (Ht1 : table_ok ((pre ++ [slot1]) ++ slots) owners1).
  { rewrite <-app_assoc. cbn. eapply table_update; [exact Ht|apply Hsame|done|done]. }
  destruct j as [|j]; cbn in Hj |- *; [|by eapply IH].
  injection Hj as ->. exists slot1. split_and!; [done|apply Hsame|].
  eapply disconnected_slot_change;
    [|exact (process_slot_disconnected _ _ _ _ (to_keys _ _ Ht) Hs Hd Hp H1)].
  intros o Hid. eapply process_slots_others; [exact Ht1|exact H2|].
  pose proof (to_ids _ _ Ht1) as Hi. unfold ids in Hi |- *. rewrite !fmap_app in Hi.
  apply NoDup_app in Hi as (_ & Hi & _). intros Hin. eapply Hi; [|exact Hin].
  apply elem_of_app. right. apply list_elem_of_singleton. congruence.
Qed.

(** ** Reachable servers *)

Definition reachable (s : MuxServer E) : Prop :=
  exists node cfg mux impl delta time ops ls,
    run_ops (new_mux_server node cfg mux impl delta time) ops = (s, ls)
    /\ (1 + Z.of_nat (length (all_taken ops)) < UINT64_MODULUS)%Z.

Lemma amux_reachable_wf s : reachable s -> amux_wf s.
Proof.
  intros (node & cfg & mux & impl & delta & time & ops & ls & Hr & Hlen).
  by eapply reachable_wf.
Qed.
End Props.

(** ** Concrete connections

    A multiplexer that expects two connections; each serves the sample action
    with [ActionServerEndpointImpl]. *)

Module Demo.
Import ConcretePdu.
Import ServerEpProps.Demo(reliable, goal_1, handle_1, request_packet).
Import ServicesProps.Demo(config).

#[export] Existing Instance reliable.
#[export] Existing Instance ServerEpFacts.impl_server_endpoint.
#[export] Existing Instance ServerEpFacts.impl_server_endpoint_spec.

#[export] Instance demo_multiplexer : CommMultiplexer := {|
  mux_open _ := true;
  mux_start := true;
  mux_expected_count := 2;
|}.

Definition server : Type := MuxServer ServerEp.ServerEndpoint.

Definition fresh : server :=
  new_mux_server "server" "actions.json" "mux.json" "ActionServerEndpointImpl" 1000 true.

Definition accepted (i : nat) : option AcceptedEndpoint :=
  Some (mkAcceptedEndpoint i (Some config)).

Definition connect (l : list nat) : amux_op := AmuxPoll (accepted <$> l) [] [].

Definition setup : list amux_op := [AmuxInitialize; AmuxStart; connect [10; 11; 12]].

(** Goal 1 is requested on a connection. *)
Definition asks (id : Z) : amux_op :=
  AmuxDeliver id 0 (mkPduResolvedKey "fib" 0) (request_packet 1 goal_1).

(** Goal 1 runs on the first connection. *)
Definition running : list amux_op :=
  setup ++ [asks 1; connect []; AmuxAcceptGoal "fib" handle_1].
End Demo.
Import ConcretePdu.
Import ServerEpProps.Demo(reliable, goal_1, handle_1, request_packet).
Import Demo.

Lemma demo_reachable ops :
  (1 + Z.of_nat (length (all_taken ops)) <? UINT64_MODULUS)%Z = true ->
  reachable (run_ops fresh ops).1.
Proof.
  intros Hlen. exists "server", "actions.json", "mux.json", "ActionServerEndpointImpl", 1000%Z, true.
  exists ops, (run_ops fresh ops).2. split; [apply surjective_pairing|]. by apply Z.ltb_lt.
Qed.

(** ** Properties *)

(** C25 — The tables of the server agree in every reachable state: connection
    ids are distinct and were given out, no goal has two owners, every owner
    names an open slot that is not retired and whose services hold the goal in
    the owner's state, every active goal of every connection has its owner, a
    disconnected slot stays in use exactly while goals of it are left, and never
    more connections are up than the multiplexer expects. *)
Theorem action_mux_well_formed {E} `{HE : ServerEndpointSpec E} {M : CommMultiplexer}
    (s : MuxServer E) :
  reachable s -> amux_wf s /\ connected_count s <= mux_expected_count.
Proof. intros Hwf%amux_reachable_wf. split; [done|]. apply Hwf. Qed.

Lemma action_mux_well_formed_witness :
  connected_count (run_ops fresh running).1 = 2
  /\ amux_wf (run_ops fresh running).1
  /\ connected_count (run_ops fresh running).1 <= mux_expected_count.
Proof.
  split; [by vm_compute|].
  exact (action_mux_well_formed _ (demo_reachable running eq_refl)).
Defined.

(** C10 — The server refines the goal registry: whatever connections come and
    go, what the application sees is a run of the registry, in which a goal is
    reported as requested only while nobody owns it, accepted or rejected once
    while pending, used and completed only while active, and dropped by a
    disconnection only while pending; the owner table is the registry's state. *)
Theorem action_mux_refines_registry {E} `{HE : ServerEndpointSpec E} {M : CommMultiplexer}
    node cfg mux impl delta time ops (s : MuxServer E) ls :
  run_ops (new_mux_server node cfg mux impl delta time) ops = (s, ls) ->
  (1 + Z.of_nat (length (all_taken ops)) < UINT64_MODULUS)%Z ->
  registry_run ls registry_empty (registry_of (am_owners s)).
Proof. intros Hr Hlen. by eapply reachable_wf. Qed.

Lemma action_mux_refines_registry_witness :
  registry_of (am_owners (run_ops fresh running).1) "fib" goal_1
  = Some (1%Z, GoalOwnerState_ACTIVE)
  /\ registry_run (run_ops fresh running).2 registry_empty
       (registry_of (am_owners (run_ops fresh running).1)).
Proof.
  split; [by vm_compute|].
  apply (action_mux_refines_registry "server" "actions.json" "mux.json"
    "ActionServerEndpointImpl" 1000 true running); [apply surjective_pairing|by vm_compute].
Defined.

(** C11 — A goal runs on one connection: when the services of a connection hold
    a goal as active, the registry names that connection as its owner, and no
    other connection holds the same goal of the same action as active. *)
Theorem action_mux_goal_on_one_connection {E} `{HE : ServerEndpointSpec E} {M : CommMultiplexer}
    (s : MuxServer E) i slot server n g :
  reachable s -> am_slots s !! i = Some slot -> cs_server slot = Some server ->
  goal_status server n g = Some GoalOwnerState_ACTIVE ->
  registry_of (am_owners s) n g = Some (cs_connection_id slot, GoalOwnerState_ACTIVE)
  /\ forall j slot' server', am_slots s !! j = Some slot' -> cs_server slot' = Some server' ->
       goal_status server' n g = Some GoalOwnerState_ACTIVE -> j = i.
Proof.
  intros Hwf%amux_reachable_wf Hi Hs Hg.
  assert (Hreg : forall i slot server, am_slots s !! i = Some slot -> cs_server slot = Some server ->
    goal_status server n g = Some GoalOwnerState_ACTIVE ->
    registry_of (am_owners s) n g = Some (cs_connection_id slot, GoalOwnerState_ACTIVE)).
  { intros k x srv Hk Hx Hst. apply registry_of_elem; [apply Hwf|].
    destruct (sk_server _ _ (slot_at _ _ _ Hwf Hk)) as (srv' & Hx' & Hok). simplify_eq.
    by apply (vo_active _ _ _ Hok). }
  split; [by eapply Hreg|]. intros j slot' server' Hj Hs' Hg'.
  pose proof (Hreg _ _ _ Hi Hs Hg) as H1. rewrite (Hreg _ _ _ Hj Hs' Hg') in H1.
  eapply ids_lookup; [apply Hwf|exact Hj|exact Hi|congruence].
Qed.

(** The services of the first connection. *)
Definition first_server (s : server) : ServicesServer ServerEp.ServerEndpoint :=
  default (new_services_server "" "" true) (head (am_slots s) ≫= cs_server).

Definition first_slot (s : server) : ConnectionSlot ServerEp.ServerEndpoint :=
  default (mkConnectionSlot 0 None None false false false false []) (head (am_slots s)).

Lemma action_mux_goal_on_one_connection_witness :
  registry_of (am_owners (run_ops fresh (running ++ [asks 2; connect []])).1) "fib" goal_1
  = Some (1%Z, GoalOwnerState_ACTIVE).
Proof.
  set (s := (run_ops fresh (running ++ [asks 2; connect []])).1).
  destruct (action_mux_goal_on_one_connection s 0 (first_slot s) (first_server s) "fib" goal_1
    (demo_reachable (running ++ [asks 2; connect []]) eq_refl) ltac:(by vm_compute) ltac:(by vm_compute) ltac:(by vm_compute))
    as [H _].
  replace 1%Z with (cs_connection_id (first_slot s)) by by vm_compute. exact H.
Defined.

(** Calls about a goal reach the connection that owns it and no other: the
    slots of all other connections, with their services and what was sent on
    them, are as before; and a call about a goal nobody owns fails and changes
    nothing. *)
Theorem action_mux_calls_routed {E} `{HE : ServerEndpointSpec E} {M : CommMultiplexer}
    (s : MuxServer E) n h c :
  reachable s ->
  match registry_of (am_owners s) n (sgh_goal_id h) with
  | None => call_goal s n h c = (s, false)
  | Some (id, _) => others_kept id s (call_goal s n h c).1
  end.
Proof. intros Hwf%amux_reachable_wf. by apply call_goal_routing. Qed.

Lemma action_mux_calls_routed_witness :
  let s := (run_ops fresh running).1 in
  let r := call_goal s "fib" handle_1
             (CallComplete TerminalStatus_SUCCEEDED ServerEpProps.result_packet) in
  r.2 = true /\ others_kept 1 s r.1.
Proof.
  split; [by vm_compute|].
  pose proof (action_mux_calls_routed (run_ops fresh running).1 "fib" handle_1
    (CallComplete TerminalStatus_SUCCEEDED ServerEpProps.result_packet)
    (demo_reachable running eq_refl)) as H.
  assert (Hr : registry_of (am_owners (run_ops fresh running).1) "fib" (sgh_goal_id handle_1)
               = Some (1%Z, GoalOwnerState_ACTIVE)) by by vm_compute.
  rewrite Hr in H. exact H.
Defined.

(** C29 — A disconnection is handled once and loses no running goal: processing
    a slot whose connection went down marks it processed and drops the goals that
    still awaited their decision. If the connection owned no active goal, the slot
    is retired and no goal is left in its services; if it did, the slot is kept,
    orphaned, with a runtime cancel request queued for each of them. No active goal
    of any connection is dropped and no owner appears. *)
Theorem action_mux_disconnection {E} `{HE : ServerEndpointSpec E} {M : CommMultiplexer}
    (s : MuxServer E) j slot :
  reachable s -> am_slots s !! j = Some slot ->
  cs_disconnected slot = true -> cs_disconnect_processed slot = false ->
  let s' := process_disconnected s in
  (exists slot', am_slots s' !! j = Some slot' /\ cs_connection_id slot' = cs_connection_id slot
     /\ disconnected_slot (am_owners s') slot'
     /\ (cs_retired slot' = false <->
         exists o, o ∈ am_owners s /\ go_connection_id o = cs_connection_id slot
                   /\ go_state o = GoalOwnerState_ACTIVE))
  /\ (forall o, o ∈ am_owners s -> go_state o = GoalOwnerState_ACTIVE -> o ∈ am_owners s')
  /\ am_owners s' `sublist_of` am_owners s.
Proof.
  intros Hwf%amux_reachable_wf Hj Hd Hp s'.
  destruct (process_disconnected_dropped s Hwf) as [Hsub Hkeep]. fold s' in Hsub, Hkeep.
  split; [|split; [exact Hkeep|exact Hsub]].
  assert (Hx : exists slot', am_slots s' !! j = Some slot'
    /\ cs_connection_id slot' = cs_connection_id slot /\ disconnected_slot (am_owners s') slot').
  { subst s'. unfold process_disconnected. destruct (process_slots _ _) as [slots owners] eqn:Hps.
    eapply (process_slots_disconnected []); [apply Hwf|exact Hps|exact Hj|done|done]. }
  destruct Hx as (slot' & Hs' & Hid & Hds). exists slot'. split_and!; [done..|].
  destruct Hds as [_ Hact Ho]. rewrite Hid in Hact, Ho.
  destruct (cs_server slot'); [|done]. split.
  - intros Hr. destruct Ho as [(Hr' & _)|(_ & _ & (o & Hin & Ho) & _)]; [congruence|].
    exists o. split_and!; [|done|by apply Hact].
    by eapply elem_of_submseteq, sublist_submseteq.
  - intros (o & Hin & Ho' & Hac). destruct Ho as [(_ & Hno & _)|(Hr & _)]; [|done].
    destruct Hno. exists o. split; [by apply Hkeep|done].
Qed.

Lemma action_mux_disconnection_witness :
  let s := (run_ops fresh (running ++ [AmuxDisconnected 1])).1 in
  exists slot', am_slots (process_disconnected s) !! 0 = Some slot'
                /\ disconnected_slot (am_owners (process_disconnected s)) slot'.
Proof.
  set (s := (run_ops fresh (running ++ [AmuxDisconnected 1])).1).
  destruct (action_mux_disconnection s 0 (first_slot s)
    (demo_reachable (running ++ [AmuxDisconnected 1]) eq_refl)
    ltac:(by vm_compute) ltac:(by vm_compute) ltac:(by vm_compute)) as [(slot' & H & _ & Hs & _) _].
  exists slot'. exact (conj H Hs).
Defined.

(** ** A rejection that cannot be sent *)

Module Unreliable.
#[local] Instance unreliable : Transport := {| send_result _ _ _ := false |}.

(** Both connections ask for goal 1; the first owns it. *)
Definition refused_run : server :=
  (run_ops fresh (setup ++ [asks 1; asks 2; connect []; connect []])).1.

(** The duplicate's rejection fails, and the goal stays pending on the second
    connection, although its owner is the first: no call can decide it. *)
Lemma failed_duplicate_reject :
  registry_of (am_owners refused_run) "fib" goal_1 = Some (1%Z, GoalOwnerState_PENDING)
  /\ option_map (fun slot => (cs_connection_id slot,
       option_map (fun srv => goal_status srv "fib" goal_1) (cs_server slot)))
       (am_slots refused_run !! 1)
     = Some (2%Z, Some (Some GoalOwnerState_PENDING)).
Proof. split; by vm_compute. Qed.
End Unreliable.
End ActionMuxProps.
