(* ===== verification/ServicesClient.v ===== *)
(** * Action services, client side

    [ActionServicesClient] of include/hakoniwa/pdu/action/action_services_client.hpp
    and src/action_services_client.cpp, over any [IActionClientEndpoint]: for each
    action of this node an endpoint and the goals that were accepted, each with its
    protocol context.

    Every operation holds the mutex from its first access to the end, so each is
    one step. [poll] reads the clock once per endpoint it asks: [clock i] is the
    reading for the [i]-th action. Log output is not modelled. *)

From S2P Require Import Prelude ActionTypes ActionConfiguration PduPacket.
From S2P Require Import ClientStateMachine ClientInterface.
From Stdlib Require Import ZArith Lia.
From stdpp Require Import base gmap strings list fin_maps.

Module ClientServices.
Import ActionConfig ClientIface ClientSM.

(** ** State *)

Record GoalInstance := mkGoalInstance {
  gi_goal : ClientGoalHandle;
  gi_context : ClientGoalContext;
}.

Record ActionInstance (E : Type) := mkActionInstance {
  ai_action_name : string;
  ai_endpoint : E;
  ai_goals : list GoalInstance;
}.
Arguments mkActionInstance {E} _ _ _.
Arguments ai_action_name {E} _.
Arguments ai_endpoint {E} _.
Arguments ai_goals {E} _.

Record ServicesClient (E : Type) := mkServicesClient {
  sc_node_id : string;
  sc_impl_type : string;
  sc_has_time_source : bool;
  sc_actions : list (ActionInstance E);
}.
Arguments mkServicesClient {E} _ _ _ _.
Arguments sc_node_id {E} _.
Arguments sc_impl_type {E} _.
Arguments sc_has_time_source {E} _.
Arguments sc_actions {E} _.

Section Operations.
Context {E : Type} `{IActionClientEndpoint E}.

Definition new_services_client (node_id impl_type : string) (has_time_source : bool)
    : ServicesClient E :=
  mkServicesClient node_id impl_type has_time_source [].

Definition set_actions (actions : list (ActionInstance E)) (s : ServicesClient E)
    : ServicesClient E :=
  mkServicesClient (sc_node_id s) (sc_impl_type s) (sc_has_time_source s) actions.

Definition set_endpoint (e : E) (a : ActionInstance E) : ActionInstance E :=
  mkActionInstance (ai_action_name a) e (ai_goals a).

Definition set_ai_goals (goals : list GoalInstance) (a : ActionInstance E)
    : ActionInstance E :=
  mkActionInstance (ai_action_name a) (ai_endpoint a) goals.

(** A write through the pointer [action], which is the element at [i]. *)
Definition put_action (i : nat) (a : ActionInstance E) (s : ServicesClient E)
    : ServicesClient E :=
  set_actions (<[i := a]> (sc_actions s)) s.

(** ** Lookups; a pointer is an index with the element *)

Definition get_action_locked (s : ServicesClient E) (action_name : string)
    : option (nat * ActionInstance E) :=
  list_find (fun a => ai_action_name a = action_name) (sc_actions s).

Definition get_goal_locked (a : ActionInstance E) (goal_id : GoalId)
    : option (nat * GoalInstance) :=
  list_find (fun gi => cgh_goal_id (gi_goal gi) = goal_id) (ai_goals a).

Definition has_goal_locked (a : ActionInstance E) (goal_id : GoalId) : bool :=
  bool_decide (is_Some (get_goal_locked a goal_id)).

Definition remove_goal_locked (a : ActionInstance E) (goal_id : GoalId)
    : ActionInstance E :=
  match get_goal_locked a goal_id with
  | Some (i, _) => set_ai_goals (delete i (ai_goals a)) a
  | None => a
  end.

(** [goal_instance->context = next] for the goal at [i]. *)
Definition set_context (i : nat) (gi : GoalInstance) (next : ClientGoalContext)
    (a : ActionInstance E) : ActionInstance E :=
  set_ai_goals (<[i := mkGoalInstance (gi_goal gi) next]> (ai_goals a)) a.

(** ** Initialisation *)

(** The loop over the parsed definitions and their JSON entries; [ref] tells
    which endpoint ids the container has. [None] is the error return. *)
Fixpoint init_actions (s : ServicesClient E) (ref : string -> bool)
    (definitions : list (ActionDefinition * json)) : option (list (ActionInstance E)) :=
  match definitions with
  | [] => Some []
  | (definition, entry) :: rest =>
      if negb (bool_decide (aer_node_id (ad_client_endpoint definition) = sc_node_id s))
      then init_actions s ref rest
      else
        let endpoint_id :=
          if bool_decide (aer_endpoint_id (ad_client_endpoint definition) = "")
          then aer_node_id (ad_client_endpoint definition)
          else aer_endpoint_id (ad_client_endpoint definition) in
        if negb (ref endpoint_id) then None
        else if negb (bool_decide (sc_impl_type s = "ActionClientEndpointImpl")) then None
        else
          let '(endpoint, ok) :=
            ic_initialize (ic_make (ad_name definition) true (sc_has_time_source s)) entry in
          if negb ok then None
          else
            match init_actions s ref rest with
            | None => None
            | Some actions =>
                Some (mkActionInstance (ad_name definition) endpoint [] :: actions)
            end
  end.

(** [container] is [None] for a null pointer, [config] is [None] when the file
    cannot be opened or is not JSON. *)
Definition initialize_services (s : ServicesClient E) (container : option (string -> bool))
    (config : option json) : ServicesClient E * bool :=
  match container with
  | None => (s, false)
  | Some ref =>
      match config with
      | None => (s, false)
      | Some root =>
          match parse root with
          | inr _ => (s, false)
          | inl configuration =>
              if negb (bool_decide (sc_actions s = [])) then (s, false)
              else
                match json_find root "actions" with
                | Some (JArray entries) =>
                    match init_actions s ref (zip configuration entries) with
                    | None => (s, false)
                    | Some actions => (set_actions actions s, true)
                    end
                | _ => (s, false) (* excluded by [parse] *)
                end
          end
      end
  end.

Definition start_all_services (s : ServicesClient E) : bool := true.

Definition stop_all_services (s : ServicesClient E) : ServicesClient E :=
  set_actions ((fun a => set_endpoint (ic_clear_pending_events (ai_endpoint a)) a)
               <$> sc_actions s) s.

Definition clear_all_instances (s : ServicesClient E) : ServicesClient E :=
  set_actions
    ((fun a => set_endpoint (ic_reset_contexts (ai_endpoint a)) (set_ai_goals [] a))
     <$> sc_actions s) s.

(** ** Requests *)

Definition send_goal_with_result (s : ServicesClient E) (w : Wire) (action_name : string)
    (goal_pdu : PduData) (goal_id : GoalId) (timeout_usec now : Z)
    : ServicesClient E * Wire * (GoalSendResult * ClientGoalHandle) :=
  let no_handle := mkClientGoalHandle zero_goal_id in
  if bool_decide (action_name = "") || bool_decide (goal_pdu = [])
     || negb (is_valid_goal_id goal_id)
  then (s, w, (GoalSendResult_INVALID_ARGUMENT, no_handle))
  else
    match get_action_locked s action_name with
    | None => (s, w, (GoalSendResult_ACTION_NOT_FOUND, no_handle))
    | Some (i, a) =>
        if has_goal_locked a goal_id
        then (s, w, (GoalSendResult_DUPLICATE_GOAL, no_handle))
        else
          let '(e, w', result) :=
            ic_send_goal_with_result (ai_endpoint a) w goal_pdu goal_id timeout_usec now in
          (put_action i (set_endpoint e a) s, w', result)
    end.

Definition send_goal (s : ServicesClient E) (w : Wire) (action_name : string)
    (goal_pdu : PduData) (goal_id : GoalId) (timeout_usec now : Z)
    : ServicesClient E * Wire * (bool * ClientGoalHandle) :=
  let '(s', w', (result, handle)) :=
    send_goal_with_result s w action_name goal_pdu goal_id timeout_usec now in
  (s', w', (bool_decide (result = GoalSendResult_SUCCESS), handle)).

Definition send_cancel (s : ServicesClient E) (w : Wire) (action_name : string)
    (goal : ClientGoalHandle) : ServicesClient E * Wire * bool :=
  if bool_decide (action_name = "") || negb (ClientGoalHandle_valid goal) then (s, w, false)
  else
    match get_action_locked s action_name with
    | None => (s, w, false)
    | Some (i, a) =>
        match get_goal_locked a (cgh_goal_id goal) with
        | None => (s, w, false)
        | Some (k, gi) =>
            let transition :=
              transition_client_goal (gi_context gi)
                (client_goal_event ClientGoalEventType_REQUEST_CANCEL) in
            if ct_is_error transition then (s, w, false)
            else if negb (ct_transitioned transition) then (s, w, false)
            else
              let '(e, w', sent) := ic_send_cancel (ai_endpoint a) w goal in
              if negb sent then (put_action i (set_endpoint e a) s, w', false)
              else (put_action i (set_context k gi (ct_next transition) (set_endpoint e a)) s,
                    w', true)
        end
    end.

Definition create_goal_buffer (s : ServicesClient E) (action_name : string)
    : option PduData :=
  if bool_decide (action_name = "") then None
  else
    match get_action_locked s action_name with
    | None => None
    | Some (_, a) => ic_create_goal_buffer (ai_endpoint a)
    end.

(** ** Events *)

(** [event.type = ClientEventType::ERROR]. *)
Definition as_error (event : ClientEvent) : ClientEvent :=
  mkClientEvent ClientEventType_ERROR (ce_action_name event) (ce_goal event)
    (ce_decision event) (ce_terminal_status event) (ce_feedback_sequence event)
    (ce_pdu event).

(** [decision] is one of the two the handlers accept. *)
Definition is_answer (d : ActionTypes.Decision) : bool :=
  bool_decide (d = Decision_ACCEPTED) || bool_decide (d = Decision_REJECTED).

(** The handlers return the action and [event_out], whose type is the handled
    type; [empty_client_event] where they return NONE without setting it. *)
Definition handle_goal_response_locked (a : ActionInstance E) (event : ClientEvent)
    : ActionInstance E * ClientEvent :=
  if negb (ClientGoalHandle_valid (ce_goal event)) || negb (is_answer (ce_decision event))
  then (a, as_error event)
  else if bool_decide (ce_decision event = Decision_ACCEPTED) then
    if has_goal_locked a (cgh_goal_id (ce_goal event)) then (a, as_error event)
    else (set_ai_goals
            (ai_goals a ++ [mkGoalInstance (ce_goal event) initial_client_context]) a, event)
  else (a, event).

(** What Feedback and Cancel Response have in common: the state machine is
    asked and its next context stored. *)
Definition apply_transition (a : ActionInstance E) (k : nat) (gi : GoalInstance)
    (state_event : ClientGoalEvent) (event : ClientEvent)
    : ActionInstance E * ClientEvent :=
  let transition := transition_client_goal (gi_context gi) state_event in
  if ct_is_error transition then (a, as_error event)
  else if ct_is_nop transition then (a, empty_client_event)
  else (set_context k gi (ct_next transition) a, event).

Definition handle_feedback_locked (a : ActionInstance E) (event : ClientEvent)
    : ActionInstance E * ClientEvent :=
  if negb (ClientGoalHandle_valid (ce_goal event)) then (a, as_error event)
  else
    match get_goal_locked a (cgh_goal_id (ce_goal event)) with
    | None => (a, as_error event)
    | Some (k, gi) =>
        apply_transition a k gi
          (mkClientGoalEvent ClientGoalEventType_FEEDBACK_RECEIVED
             TerminalStatus_UNSPECIFIED (ce_feedback_sequence event)) event
    end.

Definition handle_cancel_response_locked (a : ActionInstance E) (event : ClientEvent)
    : ActionInstance E * ClientEvent :=
  if negb (ClientGoalHandle_valid (ce_goal event)) || negb (is_answer (ce_decision event))
  then (a, as_error event)
  else
    match get_goal_locked a (cgh_goal_id (ce_goal event)) with
    | None => (a, as_error event)
    | Some (k, gi) =>
        apply_transition a k gi
          (client_goal_event
             (if bool_decide (ce_decision event = Decision_ACCEPTED)
              then ClientGoalEventType_CANCEL_RESPONSE_ACCEPTED
              else ClientGoalEventType_CANCEL_RESPONSE_REJECTED)) event
    end.

(** The next context is not stored: the goal is removed. *)
Definition handle_result_locked (a : ActionInstance E) (event : ClientEvent)
    : ActionInstance E * ClientEvent :=
  if negb (ClientGoalHandle_valid (ce_goal event)) then (a, as_error event)
  else
    match get_goal_locked a (cgh_goal_id (ce_goal event)) with
    | None => (a, as_error event)
    | Some (k, gi) =>
        let transition :=
          transition_client_goal (gi_context gi)
            (mkClientGoalEvent ClientGoalEventType_RESULT_RECEIVED
               (ce_terminal_status event) 0) in
        if ct_is_error transition then (a, as_error event)
        else if ct_is_nop transition then (a, empty_client_event)
        else (remove_goal_locked a (cgh_goal_id (ce_goal event)), event)
    end.

(** [event.type = event_type; event.action_name = action.action_name]. *)
Definition with_action_name (action_name : string) (event : ClientEvent) : ClientEvent :=
  mkClientEvent (ce_type event) action_name (ce_goal event) (ce_decision event)
    (ce_terminal_status event) (ce_feedback_sequence event) (ce_pdu event).

(** One round of the loop. *)
Definition poll_action (a : ActionInstance E) (now : Z) : ActionInstance E * ClientEvent :=
  let '(e, event0) := ic_poll (ai_endpoint a) now in
  let a' := set_endpoint e a in
  let event := with_action_name (ai_action_name a) event0 in
  match ce_type event0 with
  | ClientEventType_NONE => (a', empty_client_event)
  | ClientEventType_ERROR | ClientEventType_TIMEOUT => (a', event)
  | ClientEventType_GOAL_RESPONSE => handle_goal_response_locked a' event
  | ClientEventType_FEEDBACK => handle_feedback_locked a' event
  | ClientEventType_CANCEL_RESPONSE => handle_cancel_response_locked a' event
  | ClientEventType_RESULT => handle_result_locked a' event
  end.

Fixpoint poll_actions (actions : list (ActionInstance E)) (clock : nat -> Z)
    : list (ActionInstance E) * (string * ClientEvent) :=
  match actions with
  | [] => ([], ("", empty_client_event))
  | a :: rest =>
      let '(a', event) := poll_action a (clock 0%nat) in
      if bool_decide (ce_type event = ClientEventType_NONE)
      then let '(rest', result) := poll_actions rest (fun i => clock (S i)) in
           (a' :: rest', result)
      else (a' :: rest, (ai_action_name a, event))
  end.

Definition poll (s : ServicesClient E) (clock : nat -> Z)
    : ServicesClient E * (string * ClientEvent) :=
  let '(actions, result) := poll_actions (sc_actions s) clock in
  (set_actions actions s, result).
End Operations.
End ClientServices.
