(* ===== verification/ServicesClientFacts.v ===== *)
(** * Correctness of the client-side action services

    Two components follow the life of an accepted goal: the endpoint, by packets,
    and the services, by the goal state machine. For every endpoint that meets the
    interface contract the context the services keep is the one the endpoint's
    entry determines, after every operation. *)

From S2P Require Import Prelude KeyedList ActionTypes ActionConfiguration PduPacket.
From S2P Require Import ClientStateMachine ClientInterface ServicesClient.
From Stdlib Require Import ZArith Lia.
From stdpp Require Import base gmap strings list fin_maps relations.

Module ClientServicesFacts.
Import ActionConfig ClientIface ClientSM ClientServices.

Abbreviation instance_id gi := (cgh_goal_id (gi_goal gi)).

(** The context of the instance with this id. *)
Definition client_context_of : list GoalInstance -> GoalId -> option ClientGoalContext :=
  keyed (fun gi => instance_id gi) gi_context.

(** The context an accepted goal has, by its phase at the endpoint. *)
Definition context_for (x : client_phase * Z) : option ClientGoalContext :=
  match x with
  | (WaitingResponse, _) | (Quarantined, _) => None
  | (Running, n) =>
      Some (mkClientGoalContext GoalState_EXECUTING false true n TerminalStatus_UNSPECIFIED)
  | (WaitingCancel, n) =>
      Some (mkClientGoalContext GoalState_EXECUTING true true n TerminalStatus_UNSPECIFIED)
  | (Cancelling, n) =>
      Some (mkClientGoalContext GoalState_CANCELING false true n TerminalStatus_UNSPECIFIED)
  end.

(** Feedback is not counted before acceptance. *)
Definition entry_ok (x : client_phase * Z) : Prop :=
  x.1 = WaitingResponse -> x.2 = 0%Z.

Section Facts.
Context {E : Type} `{HE : ClientEndpointSpec E}.

Record client_coupled (a : ActionInstance E) : Prop := {
  cc_inv : cep_inv (ai_endpoint a);
  cc_nodup : NoDup ((fun gi => instance_id gi) <$> ai_goals a);
  cc_context g : client_context_of (ai_goals a) g
                 = cep_view (ai_endpoint a) !! g ≫= context_for;
  cc_entry g x : cep_view (ai_endpoint a) !! g = Some x -> entry_ok x;
}.

(** ** Lookups in a coupled action *)

Lemma get_goal_known (a : ActionInstance E) g x c :
  client_coupled a -> cep_view (ai_endpoint a) !! g = Some x -> context_for x = Some c ->
  exists k gi, get_goal_locked a g = Some (k, gi) /\ gi_context gi = c /\ instance_id gi = g.
Proof.
  intros Hc Hv Hx. pose proof (cc_context _ Hc g) as Hg. rewrite Hv in Hg. cbn in Hg.
  rewrite Hx in Hg. unfold client_context_of, keyed in Hg. unfold get_goal_locked.
  destruct (list_find _ (ai_goals a)) as [[k gi]|] eqn:Hf; [|done]. injection Hg as <-.
  apply list_find_Some in Hf as (_ & ? & _). by exists k, gi.
Qed.

Lemma get_goal_phase (a : ActionInstance E) g k gi :
  client_coupled a -> get_goal_locked a g = Some (k, gi) ->
  exists x, cep_view (ai_endpoint a) !! g = Some x /\ context_for x = Some (gi_context gi).
Proof.
  intros Hc Hg. pose proof (cc_context _ Hc g) as Hx.
  unfold client_context_of, keyed in Hx. unfold get_goal_locked in Hg. rewrite Hg in Hx.
  cbn in Hx. destruct (cep_view (ai_endpoint a) !! g) as [x|]; [|done]. by exists x.
Qed.

Lemma has_goal_unknown (a : ActionInstance E) g :
  client_coupled a -> cep_view (ai_endpoint a) !! g ≫= context_for = None ->
  has_goal_locked a g = false.
Proof.
  intros Hc Hn. rewrite <-(cc_context _ Hc g) in Hn. apply bool_decide_eq_false. intros [x Hx].
  unfold client_context_of, keyed in Hn. unfold get_goal_locked in Hx. by rewrite Hx in Hn.
Qed.

(** ** Updates that keep an action coupled *)

(** The endpoint changed one entry, and the goal list the context at its id
    accordingly. *)
Lemma update_coupled (a : ActionInstance E) e goals g o :
  client_coupled a -> cep_inv e ->
  cep_view e = partial_alter (fun _ => o) g (cep_view (ai_endpoint a)) ->
  NoDup ((fun gi => instance_id gi) <$> goals) ->
  (forall g', client_context_of goals g'
              = if decide (g = g') then o ≫= context_for
                else client_context_of (ai_goals a) g') ->
  (forall x, o = Some x -> entry_ok x) ->
  client_coupled (mkActionInstance (ai_action_name a) e goals).
Proof.
  intros [Hi Hn Hc He] Hi' Hv Hn' Hg Hx. split; cbn; [done|done|..].
  - intros g'. rewrite Hg, Hv, lookup_partial_alter. by case_decide.
  - intros g' x. rewrite Hv, lookup_partial_alter. case_decide; [apply Hx|apply He].
Qed.

(** The context did not change. *)
Lemma endpoint_coupled (a : ActionInstance E) e g o :
  client_coupled a -> cep_inv e ->
  cep_view e = partial_alter (fun _ => o) g (cep_view (ai_endpoint a)) ->
  o ≫= context_for = cep_view (ai_endpoint a) !! g ≫= context_for ->
  (forall x, o = Some x -> entry_ok x) -> client_coupled (set_endpoint e a).
Proof.
  intros Hc Hi Hv Ho Hx. eapply update_coupled; eauto using cc_nodup.
  intros g'. case_decide; [subst g'|done]. by rewrite Ho, (cc_context _ Hc g).
Qed.

Lemma same_view_client_coupled (a : ActionInstance E) e :
  client_coupled a -> cep_inv e -> cep_view e = cep_view (ai_endpoint a) ->
  client_coupled (set_endpoint e a).
Proof. intros [Hi Hn Hc He] Hi' Hv. by split; cbn; rewrite ?Hv. Qed.

Lemma context_coupled (a : ActionInstance E) e k gi x c :
  client_coupled a -> get_goal_locked a (instance_id gi) = Some (k, gi) -> cep_inv e ->
  cep_view e = <[instance_id gi := x]> (cep_view (ai_endpoint a)) ->
  context_for x = Some c -> client_coupled (set_context k gi c (set_endpoint e a)).
Proof.
  intros Hc Hg Hi Hv Hx. eapply (update_coupled a e _ (instance_id gi) (Some x)); [done|done|done| | |].
  - rewrite (keys_insert _ _ (instance_id gi) k gi) by done. by apply Hc.
  - intros g'. unfold client_context_of.
    rewrite (keyed_insert _ _ _ (instance_id gi) k gi) by done. cbn. by rewrite Hx.
  - intros y [= <-] Hy. by destruct x as [[] ?].
Qed.

Lemma append_coupled (a : ActionInstance E) e goal :
  client_coupled a -> client_context_of (ai_goals a) (cgh_goal_id goal) = None -> cep_inv e ->
  cep_view e = <[cgh_goal_id goal := (Running, 0%Z)]> (cep_view (ai_endpoint a)) ->
  client_coupled (set_ai_goals (ai_goals a ++ [mkGoalInstance goal initial_client_context])
                    (set_endpoint e a)).
Proof.
  intros Hc Hn Hi Hv.
  eapply (update_coupled a e _ (cgh_goal_id goal) (Some (Running, 0%Z))); [done|done|done| | |].
  - apply (keys_app _ gi_context); [by apply Hc|done].
  - intros g'. unfold client_context_of. by rewrite keyed_app.
  - by intros x [= <-].
Qed.

Lemma remove_coupled (a : ActionInstance E) e g k gi :
  client_coupled a -> get_goal_locked a g = Some (k, gi) -> cep_inv e ->
  cep_view e = delete g (cep_view (ai_endpoint a)) ->
  client_coupled (remove_goal_locked (set_endpoint e a) g).
Proof.
  intros Hc Hg Hi Hv. unfold remove_goal_locked.
  change (get_goal_locked (set_endpoint e a) g) with (get_goal_locked a g). rewrite Hg.
  eapply (update_coupled a e _ g None); [done|done|done| | |done].
  - apply keys_delete, Hc.
  - intros g'. unfold client_context_of. rewrite (keyed_delete _ _ _ g k gi) by (done || apply Hc).
    by case_decide.
Qed.

(** ** Polling *)

(** The handler kept the event and left a coupled action with endpoint [e]. *)
Definition handled (a : ActionInstance E) (e : E) (ev : ClientEvent)
    (r : ActionInstance E * ClientEvent) : Prop :=
  r.2 = ev /\ client_coupled r.1 /\ ai_action_name r.1 = ai_action_name a
  /\ ai_endpoint r.1 = e.

Lemma accepted_handled (a : ActionInstance E) e ev n :
  client_coupled a -> cep_inv e -> ClientGoalHandle_valid (ce_goal ev) = true ->
  ce_decision ev = Decision_ACCEPTED ->
  cep_view (ai_endpoint a) !! cgh_goal_id (ce_goal ev) = Some (WaitingResponse, n) ->
  cep_view e = <[cgh_goal_id (ce_goal ev) := (Running, n)]> (cep_view (ai_endpoint a)) ->
  handled a e ev (handle_goal_response_locked (set_endpoint e a) ev).
Proof.
  intros Hc Hi Hval Hd Hv Hv'. unfold handle_goal_response_locked. rewrite Hval, Hd. cbn.
  assert (Hn : n = 0%Z) by (by apply (cc_entry _ Hc _ _ Hv)). subst n.
  change (has_goal_locked (set_endpoint e a) ?g) with (has_goal_locked a g).
  rewrite has_goal_unknown; [|done|by rewrite Hv]. split_and!; [done| |done..].
  apply append_coupled; [done| |done|done]. by rewrite (cc_context _ Hc), Hv.
Qed.

Lemma rejected_handled (a : ActionInstance E) e ev n :
  client_coupled a -> cep_inv e -> ClientGoalHandle_valid (ce_goal ev) = true ->
  ce_decision ev = Decision_REJECTED ->
  cep_view (ai_endpoint a) !! cgh_goal_id (ce_goal ev) = Some (WaitingResponse, n) ->
  cep_view e = delete (cgh_goal_id (ce_goal ev)) (cep_view (ai_endpoint a)) ->
  handled a e ev (handle_goal_response_locked (set_endpoint e a) ev).
Proof.
  intros Hc Hi Hval Hd Hv Hv'. unfold handle_goal_response_locked. rewrite Hval, Hd. cbn.
  split_and!; [done| |done..].
  apply (endpoint_coupled a e (cgh_goal_id (ce_goal ev)) None); [done|done|done| |done].
  by rewrite Hv.
Qed.

(** The state machine follows the endpoint from [x] to [x']. *)
Lemma transition_handled (a : ActionInstance E) e ev sev x c x' c' :
  client_coupled a -> cep_inv e ->
  cep_view (ai_endpoint a) !! cgh_goal_id (ce_goal ev) = Some x -> context_for x = Some c ->
  cep_view e = <[cgh_goal_id (ce_goal ev) := x']> (cep_view (ai_endpoint a)) ->
  context_for x' = Some c' ->
  transition_client_goal c sev
    = mkClientTransition ClientTransitionKind_TRANSITIONED c' ClientTransitionError_NONE ->
  handled a e ev
    match get_goal_locked (set_endpoint e a) (cgh_goal_id (ce_goal ev)) with
    | None => (set_endpoint e a, as_error ev)
    | Some (k, gi) => apply_transition (set_endpoint e a) k gi sev ev
    end.
Proof.
  intros Hc Hi Hv Hx Hv' Hx' Ht.
  change (get_goal_locked (set_endpoint e a) ?g) with (get_goal_locked a g).
  destruct (get_goal_known _ _ _ _ Hc Hv Hx) as (k & gi & Hg & Hgc & Hid). rewrite Hg.
  unfold apply_transition. rewrite Hgc, Ht. cbn. split_and!; [done| |done..].
  apply context_coupled with x'; rewrite ?Hid; done.
Qed.

Lemma result_handled (a : ActionInstance E) e ev x c :
  client_coupled a -> cep_inv e -> ClientGoalHandle_valid (ce_goal ev) = true ->
  cep_view (ai_endpoint a) !! cgh_goal_id (ce_goal ev) = Some x -> context_for x = Some c ->
  cep_view e = delete (cgh_goal_id (ce_goal ev)) (cep_view (ai_endpoint a)) ->
  ct_transitioned (transition_client_goal c
    (mkClientGoalEvent ClientGoalEventType_RESULT_RECEIVED (ce_terminal_status ev) 0)) = true ->
  handled a e ev (handle_result_locked (set_endpoint e a) ev).
Proof.
  intros Hc Hi Hval Hv Hx Hv' Ht. unfold handle_result_locked. rewrite Hval. cbn [negb].
  change (get_goal_locked (set_endpoint e a) ?g) with (get_goal_locked a g).
  destruct (get_goal_known _ _ _ _ Hc Hv Hx) as (k & gi & Hg & Hgc & Hid). rewrite Hg, Hgc.
  unfold ct_transitioned in Ht. unfold ct_is_error, ct_is_nop. cbn zeta.
  apply bool_decide_eq_true in Ht. rewrite Ht. cbn. split_and!; [done| |..].
  - by apply remove_coupled with k gi.
  - unfold remove_goal_locked. by destruct (get_goal_locked _ _) as [[]|].
  - unfold remove_goal_locked. by destruct (get_goal_locked _ _) as [[]|].
Qed.

(** What the application sees of an event the endpoint raised. *)
Definition shown (name : string) (ev0 : ClientEvent) : ClientEvent :=
  if bool_decide (ce_type ev0 = ClientEventType_NONE) then empty_client_event
  else with_action_name name ev0.

(** One event of the endpoint: the services neither drop it nor turn it into
    an error, and stay coupled. *)
Lemma poll_action_handled (a : ActionInstance E) now :
  client_coupled a ->
  handled a (ic_poll (ai_endpoint a) now).1
    (shown (ai_action_name a) (ic_poll (ai_endpoint a) now).2) (poll_action a now)
  /\ ce_type (ic_poll (ai_endpoint a) now).2 <> ClientEventType_ERROR.
Proof.
  intros Hc. unfold poll_action, shown. destruct (ic_poll (ai_endpoint a) now) as [e ev0] eqn:Hp.
  cbn. apply cspec_poll in Hp as [Hi [[Ht Hv]|(p & n & o & Hv & Hr & Hv')]]; [| |apply Hc].
  { rewrite Ht. split; [|done]. by split_and!; [|apply same_view_client_coupled|..]. }
  assert (Hval : ClientGoalHandle_valid (ce_goal ev0) = true)
    by (eapply cspec_view_valid; [apply Hc|done]).
  set (ev := with_action_name (ai_action_name a) ev0).
  destruct Hr as [Ht Hd|Ht Hd|Ht|Ht Hd|Ht Hd|p Hpp Ht Hst|Ht Hst|p Hpp Ht Hq];
    rewrite Ht, bool_decide_eq_false_2 by done; (split; [|done]).
  - by eapply accepted_handled.
  - by eapply rejected_handled.
  - split_and!; [done| |done..]. eapply endpoint_coupled; [done|done|done| |].
    + by rewrite Hv.
    + by intros x [= <-].
  - unfold handle_cancel_response_locked. cbn. rewrite Hval, Hd. cbn.
    by eapply (transition_handled a e ev).
  - unfold handle_cancel_response_locked. cbn. rewrite Hval, Hd. cbn.
    by eapply (transition_handled a e ev).
  - destruct Hpp as [-> | ->]; (eapply result_handled; [done|done|done|exact Hv|done|exact Hv'|]);
      cbn; destruct Hst as [-> | ->]; done.
  - eapply result_handled; [done|done|done|exact Hv|done|exact Hv'|].
    cbn; destruct Hst as [-> | ->]; done.
  - unfold handle_feedback_locked. cbn. rewrite Hval. cbn. rewrite Hq.
    destruct Hpp as [-> |[-> | ->]];
      (eapply (transition_handled a e ev); [done|done|exact Hv|done|exact Hv'|done|]);
      unfold transition_client_goal; cbn; by rewrite Z.eqb_refl.
Qed.

(** ** Every operation keeps all actions coupled *)

Definition client_svc_coupled (s : ServicesClient E) : Prop :=
  Forall client_coupled (sc_actions s).

Lemma client_put_action_coupled i a s :
  client_svc_coupled s -> client_coupled a -> client_svc_coupled (put_action i a s).
Proof. intros Hs Ha. by apply Forall_insert. Qed.

Lemma client_get_action s n i a :
  client_svc_coupled s -> get_action_locked s n = Some (i, a) ->
  client_coupled a /\ sc_actions s !! i = Some a /\ ai_action_name a = n.
Proof.
  intros Hs (Hl & Hn & _)%list_find_Some. split; [|done].
  unfold client_svc_coupled in Hs. rewrite Forall_lookup in Hs. by eapply Hs.
Qed.

Lemma poll_actions_coupled l clock :
  Forall client_coupled l -> Forall client_coupled (poll_actions l clock).1.
Proof.
  revert clock. induction l as [|a l IH]; intros clock Hl; [done|]. cbn.
  apply Forall_cons in Hl as [Ha Hl].
  destruct (poll_action_handled a (clock 0) Ha) as [(_ & Hc & _) _].
  destruct (poll_action a (clock 0)) as [a' ev]. specialize (IH (fun i => clock (S i)) Hl).
  destruct (poll_actions l _) as [l' r]. by case_bool_decide; apply Forall_cons.
Qed.

Lemma client_send_goal_coupled s w n d g t now s' w' r :
  client_svc_coupled s -> send_goal_with_result s w n d g t now = (s', w', r) ->
  client_svc_coupled s'.
Proof.
  intros Hs. unfold send_goal_with_result. split_guard; [by intros [= <- <- <-]|].
  destruct (get_action_locked s n) as [[i a]|] eqn:Ha; [|by intros [= <- <- <-]].
  destruct (client_get_action _ _ _ _ Hs Ha) as (Hc & _).
  split_guard; [by intros [= <- <- <-]|].
  destruct (ic_send_goal_with_result _ _ _ _ _ _) as [[e w1] [r1 h1]] eqn:Hg.
  intros [= <- <- <-]. apply client_put_action_coupled; [done|].
  apply cspec_send_goal in Hg as [Hi Hv]; [|apply Hc].
  case_bool_decide; [|by apply same_view_client_coupled].
  destruct Hv as (Hn & _ & Hv). eapply endpoint_coupled; [done|done|exact Hv| |].
  - by rewrite Hn.
  - by intros x [= <-].
Qed.

(** A cancel request that was sent is pending in both layers. *)
Lemma client_send_cancel_cases s w n h s' w' ok :
  client_svc_coupled s -> send_cancel s w n h = (s', w', ok) ->
  (ok = false /\ s' = s /\ w' = w)
  \/ exists i a a' , sc_actions s !! i = Some a /\ ai_action_name a = n
       /\ s' = put_action i a' s /\ client_coupled a'
       /\ if ok
          then exists m, cep_view (ai_endpoint a) !! cgh_goal_id h = Some (Running, m)
                 /\ cep_view (ai_endpoint a')
                    = <[cgh_goal_id h := (WaitingCancel, m)]> (cep_view (ai_endpoint a))
          else ai_goals a' = ai_goals a
               /\ cep_view (ai_endpoint a') = cep_view (ai_endpoint a).
Proof.
  intros Hs. unfold send_cancel. split_guard; [intros [= <- <- <-]; by left|].
  destruct (get_action_locked s n) as [[i a]|] eqn:Ha; [|intros [= <- <- <-]; by left].
  destruct (client_get_action _ _ _ _ Hs Ha) as (Hc & Hl & Hn).
  destruct (get_goal_locked a _) as [[k gi]|] eqn:Hg; [|intros [= <- <- <-]; by left].
  cbn zeta. split_guard; [intros [= <- <- <-]; by left|].
  split_guard; [intros [= <- <- <-]; by left|].
  destruct (ic_send_cancel _ _ _) as [[e w1] sent] eqn:Hsc.
  apply cspec_send_cancel in Hsc as [Hi Hv]; [|apply Hc].
  destruct sent; cbn [negb]; intros [= <- <- <-]; right; exists i, a; eexists.
  - destruct Hv as (m & Hm & Hv). split_and!; [done|done|done| |by exists m].
    destruct (get_goal_phase _ _ _ _ Hc Hg) as (x & Hx & Hcx). rewrite Hm in Hx.
    injection Hx as <-. injection Hcx as Hcx. rewrite <-Hcx in *.
    apply keyed_found with (val := gi_context) in Hg as Hid. destruct Hid as (_ & Hid & _).
    eapply context_coupled; [done|by rewrite Hid|done|by rewrite Hid|done].
  - split_and!; [done|done|done|by apply same_view_client_coupled|done|done].
Qed.

Lemma client_init_actions_coupled s ref l actions :
  init_actions s ref l = Some actions -> Forall client_coupled actions.
Proof.
  revert actions. induction l as [|[d j] l IH]; intros actions; cbn; [by intros [= <-]|].
  split_guard; [apply IH|]. destruct (ref _); cbn [negb]; [|done].
  destruct (bool_decide (sc_impl_type s = _)); cbn [negb]; [|done].
  destruct (ic_initialize _ _) as [e ok] eqn:Hi. destruct ok; cbn; [|done].
  destruct (init_actions s ref l) as [rest|]; [|done]. intros [= <-].
  constructor; [|by apply IH].
  destruct (cspec_make (ad_name d) true (sc_has_time_source s)) as [Hm Hv].
  apply cspec_initialize in Hi as [Hinv Hv']; [|done].
  split; cbn; [done|by apply NoDup_nil|..]; rewrite Hv', Hv.
  - intros g. by rewrite lookup_empty.
  - intros g x. by rewrite lookup_empty.
Qed.

Lemma client_initialize_coupled s container config s' r :
  client_svc_coupled s -> initialize_services s container config = (s', r) ->
  client_svc_coupled s'.
Proof.
  intros Hs. unfold initialize_services.
  repeat (split_guard; try by intros [= <- <-]). intros [= <- <-].
  by eapply client_init_actions_coupled.
Qed.

Lemma client_stop_coupled s : client_svc_coupled s -> client_svc_coupled (stop_all_services s).
Proof.
  intros Hs. apply Forall_fmap. eapply Forall_impl; [done|]. intros a Hc.
  destruct (cspec_clear (ai_endpoint a)) as [Hi Hv]; [apply Hc|].
  by apply same_view_client_coupled.
Qed.

Lemma client_clear_coupled s : client_svc_coupled s -> client_svc_coupled (clear_all_instances s).
Proof.
  intros Hs. apply Forall_fmap. eapply Forall_impl; [done|]. intros a Hc.
  destruct (cspec_reset (ai_endpoint a)) as [Hi Hv]; [apply Hc|].
  split; cbn; [done|by apply NoDup_nil|..]; rewrite Hv.
  - intros g. by rewrite lookup_empty.
  - intros g x. by rewrite lookup_empty.
Qed.

(** ** Calls in any order *)

(** A packet reaches the callbacks of the [i]-th action's endpoint. *)
Definition deliver_to (i : nat) (k : PduResolvedKey) (d : PduData) (s : ServicesClient E)
    : ServicesClient E :=
  match sc_actions s !! i with
  | Some a => put_action i (set_endpoint (ic_deliver k d (ai_endpoint a)) a) s
  | None => s
  end.

Lemma deliver_to_coupled i k d s :
  client_svc_coupled s -> client_svc_coupled (deliver_to i k d s).
Proof.
  intros Hs. unfold deliver_to. destruct (sc_actions s !! i) as [a|] eqn:Ha; [|done].
  assert (Hc : client_coupled a) by (by apply (Forall_lookup_1 _ _ _ _ Hs Ha)).
  apply client_put_action_coupled; [done|].
  destruct (cspec_deliver k d (ai_endpoint a)); [apply Hc|]. by apply same_view_client_coupled.
Qed.

Inductive csvc_step : ServicesClient E * Wire -> ServicesClient E * Wire -> Prop :=
  | csvc_initialize s w container config s' r :
      initialize_services s container config = (s', r) -> csvc_step (s, w) (s', w)
  | csvc_deliver s w i k d : csvc_step (s, w) (deliver_to i k d s, w)
  | csvc_send_goal s w n d g t now s' w' r :
      send_goal_with_result s w n d g t now = (s', w', r) -> csvc_step (s, w) (s', w')
  | csvc_send_cancel s w n h s' w' r :
      send_cancel s w n h = (s', w', r) -> csvc_step (s, w) (s', w')
  | csvc_poll s w clock s' r : poll s clock = (s', r) -> csvc_step (s, w) (s', w)
  | csvc_stop s w : csvc_step (s, w) (stop_all_services s, w)
  | csvc_clear s w : csvc_step (s, w) (clear_all_instances s, w).

Lemma csvc_step_coupled x y :
  csvc_step x y -> client_svc_coupled x.1 -> client_svc_coupled y.1.
Proof.
  destruct 1 as [? ? ? ? ? ? Hop| |? ? ? ? ? ? ? ? ? ? Hop|? ? ? ? ? ? ? Hop|? ? ? ? ? Hop| |];
    cbn; intros Hs.
  - by eapply client_initialize_coupled.
  - by apply deliver_to_coupled.
  - by eapply client_send_goal_coupled.
  - apply client_send_cancel_cases in Hop as [(_ & -> & _)|(i & a & a' & _ & _ & -> & Hc & _)];
      [done| |done]. by apply client_put_action_coupled.
  - unfold poll in Hop. pose proof (poll_actions_coupled (sc_actions s) clock Hs) as Hp.
    destruct (poll_actions _ _) as [l r']. by injection Hop as <- _.
  - by apply client_stop_coupled.
  - by apply client_clear_coupled.
Qed.

Lemma csvc_reachable_coupled n t b s w :
  rtc csvc_step (new_services_client n t b, []) (s, w) -> client_svc_coupled s.
Proof.
  intros Hr.
  assert (Hg : forall x y, rtc csvc_step x y -> client_svc_coupled x.1 -> client_svc_coupled y.1).
  { induction 1; eauto using csvc_step_coupled. }
  apply Hg in Hr; [done|]. by apply Forall_nil.
Qed.
End Facts.
End ClientServicesFacts.
