(* ===== verification/ServicesClientProps.v ===== *)
(** * What the client-side action services guarantee

    The theorems about [ActionServicesClient]: agreement of its goal contexts
    with the endpoints, what polling shows of the endpoints' events, and the
    outcome of cancel requests. *)

From S2P Require Import Prelude KeyedList ActionTypes ActionConfiguration PduPacket.
From S2P Require Import ClientStateMachine ClientInterface ServicesClient ServicesClientFacts.
From S2P Require Import ClientEndpoint ClientEndpointProps ClientContract.
From Stdlib Require Import ZArith Lia.
From stdpp Require Import base gmap strings list fin_maps relations.

Module ClientServicesProps.
Import ActionConfig ClientIface ClientSM ClientServices ClientServicesFacts.

Section Polling.
Context {E : Type} `{HE : ClientEndpointSpec E}.

(** The event the endpoint of [a] raises. *)
Definition raised (a : ActionInstance E) (now : Z) : ClientEvent :=
  (ic_poll (ai_endpoint a) now).2.

(** The loop stops at the first endpoint that raises something and shows that. *)
Definition first_raised (l : list (ActionInstance E)) (clock : nat -> Z)
    (l' : list (ActionInstance E)) (name : string) (ev : ClientEvent) : Prop :=
  exists k, (forall i a, i < k -> l !! i = Some a -> ce_type (raised a (clock i)) = ClientEventType_NONE)
    /\ (forall i, k < i -> l' !! i = l !! i)
    /\ match l !! k with
       | Some a => ce_type (raised a (clock k)) <> ClientEventType_NONE
           /\ ce_type (raised a (clock k)) <> ClientEventType_ERROR
           /\ name = ai_action_name a /\ ev = with_action_name name (raised a (clock k))
       | None => k = length l /\ name = "" /\ ev = empty_client_event
       end.

Lemma poll_actions_first l clock :
  Forall client_coupled l ->
  first_raised l clock (poll_actions l clock).1 (poll_actions l clock).2.1
    (poll_actions l clock).2.2.
Proof.
  revert clock. induction l as [|a l IH]; intros clock Hl.
  { exists 0. split; [intros; lia|]. by split. }
  apply Forall_cons in Hl as [Ha Hl]. cbn.
  destruct (poll_action_handled a (clock 0) Ha) as [(Hev & _ & Hname & _) Herr].
  destruct (poll_action a (clock 0)) as [a' ev]. cbn in Hev, Hname. subst ev.
  specialize (IH (fun i => clock (S i)) Hl). unfold shown.
  destruct (decide (ce_type (raised a (clock 0)) = ClientEventType_NONE)) as [Hn|Hn].
  - unfold raised in Hn. rewrite (bool_decide_eq_true_2 _ Hn). cbn.
    rewrite bool_decide_eq_true_2 by done.
    destruct (poll_actions l _) as [l' [nm ev]]. destruct IH as (k & Hlt & Hgt & Hk).
    exists (S k). split_and!.
    + intros [|i] x Hi Hx; [injection Hx as <-; exact Hn|]. apply (Hlt i x); [lia|done].
    + intros [|i] Hi; [lia|]. apply Hgt. lia.
    + cbn in *. destruct (l !! k); [done|]. by destruct Hk as (-> & ? & ?).
  - unfold raised in Hn. rewrite (bool_decide_eq_false_2 _ Hn). cbn.
    rewrite bool_decide_eq_false_2 by done. cbn.
    exists 0. split; [intros; lia|]. split; [intros [|i] Hi; [lia|done]|done].
Qed.
End Polling.

(** ** A concrete run

    The sample action with [ActionClientEndpointImpl]: goal 1 is sent, its
    acceptance arrives and is polled. *)

Module Demo.
Import ConcretePdu ClientEpProps.
Import ClientEpProps.Demo(reliable, goal_1, handle_1, response_packet).

#[export] Existing Instance reliable.
#[export] Existing Instance ClientContract.impl_client_endpoint.
#[export] Existing Instance ClientContract.impl_client_endpoint_spec.

Definition client : Type := ServicesClient ClientEp.ClientEndpoint.

Definition config : json := JObject [("actions", JArray [render_definition sample_definition])].

Definition fresh : client := new_services_client "client" "ActionClientEndpointImpl" true.
Definition ready : client :=
  (initialize_services fresh (Some (fun _ => true)) (Some config)).1.

Definition after_send (x : client * Wire) : client * Wire :=
  (send_goal_with_result x.1 x.2 "fib" (default [] (create_goal_buffer x.1 "fib"))
     goal_1 1000 50).1.
Definition after_response (kind status : Z) (x : client * Wire) : client * Wire :=
  (deliver_to 0 (mkPduResolvedKey "fib" 1) (response_packet kind status goal_1) x.1, x.2).
Definition after_poll (x : client * Wire) : client * Wire :=
  ((poll x.1 (fun _ => 60%Z)).1, x.2).

(** The acceptance is queued; it is polled. *)
Definition answered : client * Wire := after_response 1 1 (after_send (ready, [])).
Definition running : client * Wire := after_poll answered.

Lemma after_send_step x : csvc_step x (after_send x).
Proof.
  destruct x as [s w]. rewrite (surjective_pairing (after_send _)).
  eapply csvc_send_goal, triple_eta.
Qed.

Lemma after_response_step kind status x : csvc_step x (after_response kind status x).
Proof. destruct x as [s w]. apply csvc_deliver. Qed.

Lemma client_poll_step x : csvc_step x (after_poll x).
Proof. destruct x as [s w]. eapply csvc_poll, surjective_pairing. Qed.

Lemma answered_reachable : rtc csvc_step (fresh, []) (answered.1, answered.2).
Proof.
  rewrite <-surjective_pairing. eapply rtc_r; [|apply after_response_step].
  eapply rtc_r; [|apply after_send_step]. apply rtc_once.
  exact (csvc_initialize _ _ _ _ _ _
           (surjective_pairing (initialize_services fresh (Some (fun _ => true)) (Some config)))).
Qed.

Lemma running_reachable : rtc csvc_step (fresh, []) (running.1, running.2).
Proof.
  rewrite <-surjective_pairing. eapply rtc_r; [|apply client_poll_step].
  rewrite (surjective_pairing answered). apply answered_reachable.
Qed.
End Demo.
Import ConcretePdu.
Import ClientEpProps.Demo(reliable, goal_1, handle_1).
Import Demo.

(** ** Properties *)

(** C13 — The two layers of the client agree in every reachable state, for every
    endpoint implementation that meets the contract: the goal ids of an action are
    distinct, and the context the services keep of a goal is the one its phase at
    the endpoint determines, with the same expected feedback number — there is one
    exactly while the goal is accepted. *)
Theorem client_services_coupling {E} `{HE : ClientEndpointSpec E} n t b s w a g :
  rtc csvc_step (new_services_client n t b, []) (s, w) -> a ∈ sc_actions s ->
  NoDup ((fun gi => cgh_goal_id (gi_goal gi)) <$> ai_goals a)
  /\ client_context_of (ai_goals a) g = cep_view (ai_endpoint a) !! g ≫= context_for.
Proof.
  intros Hs%csvc_reachable_coupled Ha. unfold client_svc_coupled in Hs.
  rewrite Forall_forall in Hs. destruct (Hs a Ha) as [_ Hn Hc _]. by split.
Qed.

Lemma client_services_coupling_witness :
  match sc_actions running.1 with
  | a :: _ => client_context_of (ai_goals a) goal_1
              = cep_view (ai_endpoint a) !! goal_1 ≫= context_for
  | [] => False
  end.
Proof.
  destruct (sc_actions running.1) as [|a l] eqn:Ha; [vm_compute in Ha; discriminate|].
  apply (client_services_coupling _ _ _ _ _ a goal_1 running_reachable).
  rewrite Ha. apply elem_of_cons. by left.
Defined.

(** C14 — Polling shows every event: it returns exactly the event the first endpoint
    raises that raises one, with the action's name, and asks no endpoint behind it;
    it reports nothing only when every endpoint raised nothing. In particular the
    state machine never discards an event of an endpoint, and ERROR is never
    raised. *)
Theorem client_services_show_every_event {E} `{HE : ClientEndpointSpec E}
    n t b s w clock s' name ev :
  rtc csvc_step (new_services_client n t b, []) (s, w) ->
  poll s clock = (s', (name, ev)) ->
  first_raised (sc_actions s) clock (sc_actions s') name ev
  /\ ce_type ev <> ClientEventType_ERROR.
Proof.
  intros Hs%csvc_reachable_coupled Hp.
  pose proof (poll_actions_first (sc_actions s) clock Hs) as Hf. unfold poll in Hp.
  destruct (poll_actions (sc_actions s) clock) as [l [nm ev']]. injection Hp as <- <- <-.
  split; [done|]. destruct Hf as (k & _ & _ & Hk). cbn in Hk.
  destruct (sc_actions s !! k) as [a|]; [by destruct Hk as (_ & Herr & _ & ->)|].
  by destruct Hk as (_ & _ & ->).
Qed.

Lemma client_services_show_every_event_witness :
  ce_type (poll answered.1 (fun _ => 60%Z)).2.2 = ClientEventType_GOAL_RESPONSE
  /\ ce_type (poll answered.1 (fun _ => 60%Z)).2.2 <> ClientEventType_ERROR.
Proof.
  split; [vm_compute; reflexivity|].
  apply (client_services_show_every_event _ _ _ _ _ (fun _ => 60%Z)
           (poll answered.1 (fun _ => 60%Z)).1 (poll answered.1 (fun _ => 60%Z)).2.1
           _ answered_reachable).
  rewrite <-!surjective_pairing. reflexivity.
Defined.

(** A cancel request changes both layers or neither: success means the goal was
    accepted with no cancel outstanding, and it now waits for the cancel response at
    the endpoint and in its context; after a failure every goal is as it was in
    both, so that the request can be repeated. *)
Theorem client_services_cancel {E} `{HE : ClientEndpointSpec E} n t b s w name h s' w' ok :
  rtc csvc_step (new_services_client n t b, []) (s, w) ->
  send_cancel s w name h = (s', w', ok) ->
  (ok = false /\ s' = s /\ w' = w)
  \/ exists i a a', sc_actions s !! i = Some a /\ ai_action_name a = name
       /\ sc_actions s' = <[i := a']> (sc_actions s)
       /\ if ok
          then exists m,
                 cep_view (ai_endpoint a) !! cgh_goal_id h = Some (Running, m)
                 /\ cep_view (ai_endpoint a')
                    = <[cgh_goal_id h := (WaitingCancel, m)]> (cep_view (ai_endpoint a))
                 /\ client_context_of (ai_goals a') (cgh_goal_id h)
                    = Some (mkClientGoalContext GoalState_EXECUTING true true m
                              TerminalStatus_UNSPECIFIED)
          else ai_goals a' = ai_goals a
               /\ cep_view (ai_endpoint a') = cep_view (ai_endpoint a).
Proof.
  intros Hs%csvc_reachable_coupled Hc.
  destruct (client_send_cancel_cases _ _ _ _ _ _ _ Hs Hc)
    as [?|(i & a & a' & Hl & Hn & -> & Hc' & Hok)]; [by left|]. right.
  exists i, a, a'. split_and!; [done|done|done|]. destruct ok; [|done].
  destruct Hok as (m & Hm & Hv). exists m. split_and!; [done|done|].
  by rewrite (cc_context _ Hc'), Hv, lookup_insert_eq.
Qed.

Lemma client_services_cancel_witness :
  (send_cancel running.1 running.2 "fib" handle_1).2 = true
  /\ exists i a a', sc_actions (send_cancel running.1 running.2 "fib" handle_1).1.1
       = <[i := a']> (sc_actions running.1) /\ sc_actions running.1 !! i = Some a.
Proof.
  assert (Hok : (send_cancel running.1 running.2 "fib" handle_1).2 = true)
    by (vm_compute; reflexivity).
  split; [exact Hok|].
  destruct (client_services_cancel _ _ _ _ _ _ _ _ _ _ running_reachable
    (triple_eta (send_cancel running.1 running.2 "fib" handle_1)))
    as [(H & _)|(i & a & a' & Hl & _ & Hs & _)].
  - rewrite Hok in H. discriminate H.
  - exists i, a, a'. split; [exact Hs|exact Hl].
Defined.
End ClientServicesProps.
