(* ===== verification/ServicesNetwork.v ===== *)
(** * Action services over an unreliable network

    The whole Action stack of two nodes: an [ActionServicesClient] and an
    [ActionServicesServer], each with all the Actions its configuration gives
    it, over one transport that delays, reorders and loses packets. The two
    applications call the services in any order. Each Action is a network of
    its own in the sense of [ActionNetwork]; what the others send passes it by,
    because channel keys carry the Action's name and names are distinct. *)

From S2P Require Import Prelude ActionTypes ActionConfiguration PduPacket Routing.
From S2P Require Import NetworkFlow ServerInterface ServerEndpoint ServerEndpointFacts.
From S2P Require Import ServerEndpointProps.
From S2P Require Import ClientInterface ClientEndpoint ClientEndpointFacts ClientEndpointProps.
From S2P Require Import ClientContract.
From S2P Require Import EndToEnd ActionNetwork ServerStateMachine ClientStateMachine ServicesServer.
From S2P Require Import ServicesClient.
From Stdlib Require Import ZArith Lia.
From stdpp Require Import base gmap strings list fin_maps relations.

Module ServicesNetwork.
Import ActionConfig RoutingTable ServerIface ClientIface ServerEpFacts.
#[local] Existing Instance ServerEpFacts.impl_server_endpoint.
#[local] Existing Instance ClientContract.impl_client_endpoint.

(** ** Whose packets *)

Section Names.
Context {P : PduPlatform} {HL : PduPlatformLaws P} {T : Transport}.

(** All keys of a routing table carry the name. *)
Definition named_routing (name : string) (rs : list SlotRouting) : Prop :=
  forall r, r ∈ rs -> prk_robot (rt_request r) = name /\ prk_robot (rt_response r) = name
                     /\ prk_robot (rt_feedback r) = name.

(** While the log grew from [w] to [w'], the transport accepted packets with
    this name only. *)
Definition sends_named (name : string) (w w' : Wire) : Prop :=
  exists new, w' = w ++ new
    /\ Forall (fun rec => sr_ok rec = true -> prk_robot (sr_key rec) = name) new.

Lemma sends_named_refl name w : sends_named name w w.
Proof. exists []. by rewrite app_nil_r. Qed.

Lemma sends_named_prefix name w w' : sends_named name w w' -> w `prefix_of` w'.
Proof. intros (new & -> & _). by eexists. Qed.

Lemma endpoint_send_named name w key d w' ok :
  endpoint_send w key d = (w', ok) -> prk_robot key = name -> sends_named name w w'.
Proof. intros [= <- _] Hk. eexists. split; [done|]. by constructor. Qed.

Lemma send_response_named name e w b k st d w' ok :
  named_routing name (ServerEp.ep_slot_routing e) ->
  ServerEp.send_response_packet e w b k st d = (w', ok) -> sends_named name w w'.
Proof.
  intros Hn. unfold ServerEp.send_response_packet.
  repeat (split_guard; try (intros [= <- <-]; apply sends_named_refl)).
  intros Hs. eapply endpoint_send_named; [done|]. eapply Hn, list_elem_of_lookup_2; done.
Qed.

Lemma send_control_named name e w b k st w' ok :
  named_routing name (ServerEp.ep_slot_routing e) ->
  ServerEp.send_control_response e w b k st = (w', ok) -> sends_named name w w'.
Proof.
  intros Hn. unfold ServerEp.send_control_response. split_guard;
    [by apply send_response_named|]. intros [= <- <-]. apply sends_named_refl.
Qed.

Ltac solve_named :=
  repeat (split_guard; try (intros [= <- <- <-]; split; [done|apply sends_named_refl]));
  intros [= <- <- <-]; simplify_eq; (split; [done|]);
  match goal with
  | H : ServerEp.send_control_response _ _ _ _ _ = _ |- _ => by eapply send_control_named
  | H : ServerEp.send_response_packet _ _ _ _ _ _ = _ |- _ =>
      eapply send_response_named; [|exact H]; done
  | H : endpoint_send _ _ _ = _, Hn : named_routing _ _ |- _ =>
      eapply endpoint_send_named; [exact H|]; eapply Hn, list_elem_of_lookup_2; done
  end.

Lemma reply_named name op e w h e' w' r :
  named_routing name (ServerEp.ep_slot_routing e) ->
  run_reply op e w h = (e', w', r) ->
  ServerEp.ep_slot_routing e' = ServerEp.ep_slot_routing e /\ sends_named name w w'.
Proof.
  intros Hn. destruct op; cbn; unfold ServerEp.accept_goal, ServerEp.reject_goal,
    ServerEp.accept_cancel, ServerEp.reject_cancel, ServerEp.send_feedback; solve_named.
Qed.

Lemma error_reply_named name e w g s :
  named_routing name (ServerEp.ep_slot_routing e) ->
  sends_named name w (ServerEp.send_goal_error_reply e w g s).
Proof.
  intros Hn. unfold ServerEp.send_goal_error_reply.
  destruct (ServerEp.send_control_response _ _ _ _ _) eqn:Hs. by eapply send_control_named.
Qed.

Lemma server_poll_named name e w e' w' ev :
  named_routing name (ServerEp.ep_slot_routing e) -> ServerEp.poll e w = (e', w', ev) ->
  ServerEp.ep_slot_routing e' = ServerEp.ep_slot_routing e /\ sends_named name w w'.
Proof.
  intros Hn. unfold ServerEp.poll, ServerEp.poll_packet, ServerEp.handle_cancel_packet,
    ServerEp.handle_goal_packet.
  repeat (split_guard; try (intros [= <- <- <-]; split; [done|];
    first [apply sends_named_refl|by apply error_reply_named]));
  intros [= <- <- <-]; simplify_eq; split; try done; apply sends_named_refl.
Qed.

Lemma server_op_named name e w op e' w' evs :
  named_routing name (ServerEp.ep_slot_routing e) ->
  ActionNetwork.run_server_op e w op = (e', w', evs) ->
  ServerEp.ep_slot_routing e' = ServerEp.ep_slot_routing e /\ sends_named name w w'.
Proof.
  intros Hn. destruct op as [|op h|h|h st d|h st d|h| |]; cbn;
    try (intros [= <- <- <-]; split; [|apply sends_named_refl]; done).
  - destruct (ServerEp.poll e w) as [[e1 w1] ev] eqn:Hp. intros [= <- <- <-].
    by eapply server_poll_named.
  - destruct (run_reply op e w h) as [[e1 w1] r] eqn:Hr. intros [= <- <- <-].
    by eapply reply_named.
  - intros [= <- <- <-]. split; [|apply sends_named_refl].
    unfold ServerEp.accept_cancel_locally. by repeat (split_guard; try done).
  - destruct (ServerEp.complete e w h st d) as [[e1 w1] r] eqn:Hc. intros [= <- <- <-].
    revert Hc. unfold ServerEp.complete. solve_named.
  - intros [= <- <- <-]. split; [|apply sends_named_refl].
    unfold ServerEp.complete_locally. by repeat (split_guard; try done).
  - intros [= <- <- <-]. split; [|apply sends_named_refl].
    unfold ServerEp.discard_pending_goal. by repeat (split_guard; try done).
Qed.

(** What others send is nothing to an Action. *)
Lemma responses_foreign name other rs w w' :
  named_routing name rs -> sends_named other w w' -> other <> name ->
  ServerEpProps.responses rs w' = ServerEpProps.responses rs w.
Proof.
  intros Hn (new & -> & Hnew) Hne. rewrite ServerEpProps.responses_app.
  rewrite <-(app_nil_r (ServerEpProps.responses rs w)) at 2. f_equal.
  induction Hnew as [|rec new Hr _ IH]; [done|]. cbn. unfold ServerEpProps.response_of at 1.
  destruct (sr_ok rec); [|done]. cbn. replace (existsb _ rs) with false; [done|]. symmetry.
  apply not_true_iff_false. rewrite existsb_exists. intros (r & Hin%list_elem_of_In & Heq).
  apply bool_decide_eq_true in Heq. destruct (Hn _ Hin) as (_ & Hk & _). rewrite Heq in Hk.
  rewrite Hr in Hk by done. congruence.
Qed.

Lemma goals_sent_foreign name other rs g w w' :
  named_routing name rs -> sends_named other w w' -> other <> name ->
  ActionNetwork.goals_sent rs g w' = ActionNetwork.goals_sent rs g w.
Proof.
  intros Hn (new & -> & Hnew) Hne. unfold ActionNetwork.goals_sent.
  rewrite List.filter_app, length_app. rewrite <-(Nat.add_0_r (length (_ w))) at 2. f_equal.
  induction Hnew as [|rec new Hr _ IH]; [done|]. cbn. unfold ActionNetwork.is_goal_packet at 1.
  destruct (sr_ok rec); [|done]. cbn. replace (existsb _ rs) with false; [done|]. symmetry.
  apply not_true_iff_false. rewrite existsb_exists. intros (r & Hin%list_elem_of_In & Heq).
  apply bool_decide_eq_true in Heq. destruct (Hn _ Hin) as (Hk & _). rewrite Heq in Hk.
  rewrite Hr in Hk by done. congruence.
Qed.

Lemma foreign_server_inv name other c cw e sw w' ts tc cevs sevs :
  named_routing name (ServerEp.ep_slot_routing e) -> sends_named other sw w' -> other <> name ->
  ActionNetwork.net_inv (ActionNetwork.mkNetwork c cw e sw ts tc cevs sevs) ->
  ActionNetwork.net_inv (ActionNetwork.mkNetwork c cw e w' ts
    (tc ++ accepted_since sr_ok sw w') cevs sevs).
Proof.
  intros Hn Hs Hne [[Hwf Hrt Hsil Hb] Hc Hr Hci Hsi Hfc Hfs Hq].
  pose proof (responses_foreign name other _ _ _ Hn Hs Hne) as Hresp.
  cbn in *. split; cbn -[ServerEpProps.responses]; try done.
  - split; [done|done|congruence|by rewrite Hresp].
  - apply flow_send; [done|]. by eapply sends_named_prefix.
  - intros g. rewrite Hresp. apply Hq.
Qed.

Lemma foreign_client_inv c cw e sw w' ts tc cevs sevs :
  cw `prefix_of` w' ->
  ActionNetwork.net_inv (ActionNetwork.mkNetwork c cw e sw ts tc cevs sevs) ->
  ActionNetwork.net_inv (ActionNetwork.mkNetwork c w' e sw
    (ts ++ accepted_since sr_ok cw w') tc cevs sevs).
Proof.
  intros Hp [Ht Hc Hr Hci Hsi Hfc Hfs Hq]. split; try done. by apply flow_send.
Qed.
End Names.

(** ** What the applications did and saw *)

Inductive client_note :=
  | ClientSent (name : string) (g : GoalId)
  | ClientSaw (name : string) (ev : ClientEvent).

Inductive server_note :=
  | ServerSaw (name : string) (ev : ServerEvent)
  | ServerAccepted (name : string) (g : GoalId)
  | ServerCompleted (name : string) (g : GoalId) (status : TerminalStatus).

Definition client_note_name (n : client_note) : string :=
  match n with ClientSent name _ | ClientSaw name _ => name end.

Definition server_note_name (n : server_note) : string :=
  match n with
  | ServerSaw name _ | ServerAccepted name _ | ServerCompleted name _ _ => name
  end.

Definition tally {A} (f : A -> bool) (l : list A) : nat := length (List.filter f l).

Lemma tally_app {A} (f : A -> bool) l l' : tally f (l ++ l') = tally f l + tally f l'.
Proof. unfold tally. by rewrite List.filter_app, length_app. Qed.

Lemma tally_none {A} (f : A -> bool) l : Forall (fun x => f x = false) l -> tally f l = 0.
Proof. unfold tally. induction 1 as [|x l Hx _ IH]; [done|]. cbn. by rewrite Hx. Qed.

(** A RESULT for [g] with this status. *)
Definition is_result_with (g : GoalId) (status : TerminalStatus) (ev : ClientEvent) : bool :=
  ActionNetwork.is_result_event g ev && bool_decide (ce_terminal_status ev = status).

Definition sent_goal (name : string) (g : GoalId) (n : client_note) : bool :=
  match n with
  | ClientSent m h => bool_decide (m = name) && bool_decide (h = g)
  | ClientSaw _ _ => false
  end.

Definition saw_result (name : string) (g : GoalId) (status : TerminalStatus)
    (n : client_note) : bool :=
  match n with
  | ClientSaw m ev => bool_decide (m = name) && is_result_with g status ev
  | ClientSent _ _ => false
  end.

Definition saw_acceptance (name : string) (g : GoalId) (n : client_note) : bool :=
  match n with
  | ClientSaw m ev => bool_decide (m = name) && ActionNetwork.is_acceptance_event g ev
  | ClientSent _ _ => false
  end.

Definition saw_request (name : string) (g : GoalId) (n : server_note) : bool :=
  match n with
  | ServerSaw m ev => bool_decide (m = name) && ActionNetwork.is_goal_request g ev
  | _ => false
  end.

Definition accepted_goal (name : string) (g : GoalId) (n : server_note) : bool :=
  match n with
  | ServerAccepted m h => bool_decide (m = name) && bool_decide (h = g)
  | _ => false
  end.

Definition completed_goal (name : string) (g : GoalId) (status : TerminalStatus)
    (n : server_note) : bool :=
  match n with
  | ServerCompleted m h st =>
      bool_decide (m = name) && bool_decide (h = g) && bool_decide (st = status)
  | _ => false
  end.

Lemma client_notes_other name other f l :
  (forall n, f n = true -> client_note_name n = name) ->
  Forall (fun n => client_note_name n = other) l -> other <> name -> tally f l = 0.
Proof.
  intros Hf Hl Hne. apply tally_none. eapply Forall_impl; [done|]. intros n Hn.
  destruct (f n) eqn:Hfn; [|done]. apply Hf in Hfn. congruence.
Qed.

Lemma server_notes_other name other f l :
  (forall n, f n = true -> server_note_name n = name) ->
  Forall (fun n => server_note_name n = other) l -> other <> name -> tally f l = 0.
Proof.
  intros Hf Hl Hne. apply tally_none. eapply Forall_impl; [done|]. intros n Hn.
  destruct (f n) eqn:Hfn; [|done]. apply Hf in Hfn. congruence.
Qed.

(** ** One Action *)

Section OneAction.
Context {P : PduPlatform} {HL : PduPlatformLaws P} {T : Transport}.

Definition is_result_packet (g : GoalId) (status : TerminalStatus) (x : Z * Z * GoalId) : bool :=
  bool_decide (x = (RESPONSE_KIND_RESULT, TerminalStatus_to_u8 status, g)).

(** The two endpoints of the Action [name] are a network in the sense of
    [ActionNetwork], for some endpoint events, and what the applications noted
    agrees with the packets and the events. *)
Record act_inv (name : string) (c : ClientEp.ClientEndpoint) (cw : Wire)
    (e : ServerEp.ServerEndpoint) (sw : Wire) (ts tc : list SendRecord)
    (clog : list client_note) (slog : list server_note) : Prop := {
  av_net : exists cevs sevs,
    ActionNetwork.net_inv (ActionNetwork.mkNetwork c cw e sw ts tc cevs sevs)
    /\ (forall g, ActionNetwork.goal_requests g sevs = tally (saw_request name g) slog)
    /\ (forall g st, tally (saw_result name g st) clog <= tally (is_result_with g st) cevs)
    /\ (forall g, tally (saw_acceptance name g) clog
                  <= tally (ActionNetwork.is_acceptance_event g) cevs);
  av_accepted g :
    ServerEpProps.count (ServerEpProps.is_acceptance g)
      (ServerEpProps.responses (ServerEp.ep_slot_routing e) sw)
    = tally (accepted_goal name g) slog;
  av_completed g st :
    ServerEpProps.count (is_result_packet g st)
      (ServerEpProps.responses (ServerEp.ep_slot_routing e) sw)
    = tally (completed_goal name g st) slog;
  av_sent g :
    ActionNetwork.goals_sent (ServerEp.ep_slot_routing e) g cw = tally (sent_goal name g) clog;
}.

(** What a call of the server's application may do to the endpoint of its
    Action, and what is noted of it. *)
Record server_effect (name : string) (e : ServerEp.ServerEndpoint) (w : Wire)
    (e' : ServerEp.ServerEndpoint) (w' : Wire) (notes : list server_note) : Prop := {
  se_notes : Forall (fun n => server_note_name n = name) notes;
  se_op : exists op evs, ActionNetwork.run_server_op e w op = (e', w', evs)
    /\ forall g, ActionNetwork.goal_requests g evs = tally (saw_request name g) notes;
  se_responses : ServerEpProps.trace_inv e w ->
    exists extra,
      ServerEpProps.responses (ServerEp.ep_slot_routing e) w'
      = ServerEpProps.responses (ServerEp.ep_slot_routing e) w ++ extra
      /\ (forall g, ServerEpProps.count (ServerEpProps.is_acceptance g) extra
                    = tally (accepted_goal name g) notes)
      /\ (forall g st, ServerEpProps.count (is_result_packet g st) extra
                       = tally (completed_goal name g st) notes);
}.

Lemma own_server_inv name c cw e sw ts tc clog slog e' w' notes :
  act_inv name c cw e sw ts tc clog slog -> server_effect name e sw e' w' notes ->
  act_inv name c cw e' w' ts (tc ++ accepted_since sr_ok sw w') clog (slog ++ notes).
Proof.
  intros [(cevs & sevs & Hn & Hreq & Hres & Hacc) Ha Hc Hs] [_ (op & evs & Hop & Hev) Hx].
  pose proof (ActionNetwork.ni_trace _ Hn) as Ht. cbn in Ht.
  pose proof (ActionNetwork.after_server_inv _ op Hn) as Hn'. cbn in Hn'. rewrite Hop in Hn'.
  destruct (Hx Ht) as (extra & Hr & Hxa & Hxc).
  destruct (ActionNetwork.server_op_requested _ _ _ _ _ _ Ht Hop) as (_ & [F1 _ _ _] & _).
  split.
  - exists cevs, (sevs ++ evs). split_and!; [exact Hn'| |done|done].
    intros g. by rewrite ActionNetwork.goal_requests_app, tally_app, Hreq, Hev.
  - intros g. by rewrite F1, Hr, ServerEpProps.count_app, tally_app, Ha, Hxa.
  - intros g st. by rewrite F1, Hr, ServerEpProps.count_app, tally_app, Hc, Hxc.
  - intros g. by rewrite F1.
Qed.

Lemma foreign_server_act name other c cw e sw ts tc clog slog w' notes :
  named_routing name (ServerEp.ep_slot_routing e) -> sends_named other sw w' -> other <> name ->
  Forall (fun n => server_note_name n = other) notes ->
  act_inv name c cw e sw ts tc clog slog ->
  act_inv name c cw e w' ts (tc ++ accepted_since sr_ok sw w') clog (slog ++ notes).
Proof.
  intros Hk Hs Hne Hnotes [(cevs & sevs & Hn & Hreq & Hres & Hacc) Ha Hc Hst].
  pose proof (responses_foreign _ _ _ _ _ Hk Hs Hne) as Hr.
  assert (Hz : forall f, (forall n, f n = true -> server_note_name n = name) ->
    tally f (slog ++ notes) = tally f slog).
  { intros f Hf. rewrite tally_app, (server_notes_other name other f notes); auto. }
  split; [exists cevs, sevs|..]; try split_and!; try done.
  - by eapply foreign_server_inv.
  - intros g. rewrite Hz; [done|]. intros [] ?; cbn in *; simpl_bools; done.
  - intros g. rewrite Hr, Hz; [done|]. intros [] ?; cbn in *; simpl_bools; done.
  - intros g st. rewrite Hr, Hz; [done|]. intros [] ?; cbn in *; simpl_bools; done.
Qed.

(** The same for the client. *)
Record client_effect (name : string) (c : ClientEp.ClientEndpoint) (w : Wire)
    (c' : ClientEp.ClientEndpoint) (w' : Wire) (notes : list client_note) : Prop := {
  ce_notes : Forall (fun n => client_note_name n = name) notes;
  ce_named : named_routing name (ClientEp.cl_slot_routing c) -> sends_named name w w';
  ce_routing : ClientEp.cl_slot_routing c' = ClientEp.cl_slot_routing c;
  ce_call : ClientEpFacts.cl_wf c ->
    exists evs, ActionNetwork.client_call c w c' w' evs
      /\ (forall g st, tally (saw_result name g st) notes <= tally (is_result_with g st) evs)
      /\ (forall g, tally (saw_acceptance name g) notes
                    <= tally (ActionNetwork.is_acceptance_event g) evs);
  ce_sent g : ClientEpFacts.cl_wf c ->
    ActionNetwork.goals_sent (ClientEp.cl_slot_routing c) g w'
    = ActionNetwork.goals_sent (ClientEp.cl_slot_routing c) g w + tally (sent_goal name g) notes;
}.

Lemma own_client_inv name c cw e sw ts tc clog slog c' w' notes :
  act_inv name c cw e sw ts tc clog slog -> client_effect name c cw c' w' notes ->
  act_inv name c' w' e sw (ts ++ accepted_since sr_ok cw w') tc (clog ++ notes) slog.
Proof.
  intros [(cevs & sevs & Hn & Hreq & Hres & Hacc) Ha Hc Hs] [_ _ _ Hcall Hsent].
  pose proof (ActionNetwork.ni_client _ Hn) as Hwf. cbn in Hwf.
  pose proof (ActionNetwork.ni_routing _ Hn) as Hr. cbn in Hr.
  destruct (Hcall Hwf) as (evs & Hcl & Hnr & Hna).
  pose proof (ActionNetwork.after_client_inv _ _ _ _ Hn Hcl) as Hn'.
  split; [exists (cevs ++ evs), sevs|..]; try split_and!; try done.
  - intros g st. rewrite !tally_app. specialize (Hres g st). specialize (Hnr g st). lia.
  - intros g. rewrite !tally_app. specialize (Hacc g). specialize (Hna g). lia.
  - intros g. rewrite tally_app, <-Hs, <-Hr. auto.
Qed.

Lemma foreign_client_act name other c cw e sw ts tc clog slog w' notes :
  named_routing name (ServerEp.ep_slot_routing e) -> sends_named other cw w' -> other <> name ->
  Forall (fun n => client_note_name n = other) notes ->
  act_inv name c cw e sw ts tc clog slog ->
  act_inv name c w' e sw (ts ++ accepted_since sr_ok cw w') tc (clog ++ notes) slog.
Proof.
  intros Hk Hs Hne Hnotes [(cevs & sevs & Hn & Hreq & Hres & Hacc) Ha Hc Hst].
  assert (Hz : forall f, (forall n, f n = true -> client_note_name n = name) ->
    tally f (clog ++ notes) = tally f clog).
  { intros f Hf. rewrite tally_app, (client_notes_other name other f notes); auto. }
  split; [exists cevs, sevs|..]; try split_and!; try done.
  - eapply foreign_client_inv; [by eapply sends_named_prefix|done].
  - intros g st. rewrite Hz; [done|]. intros [] ?; cbn in *; simpl_bools; done.
  - intros g. rewrite Hz; [done|]. intros [] ?; cbn in *; simpl_bools; done.
  - intros g. rewrite (goals_sent_foreign name other _ g _ _ Hk Hs Hne), Hz; try done.
    intros [] ?; cbn in *; simpl_bools; done.
Qed.
End OneAction.

(** ** The two nodes *)

Abbreviation ServerServices := (Services.ServicesServer ServerEp.ServerEndpoint).
Abbreviation ClientNode := (ClientServices.ServicesClient ClientEp.ClientEndpoint).

Record system := mkSystem {
  sy_client : ClientNode;
  sy_client_wire : Wire;
  sy_server : ServerServices;
  sy_server_wire : Wire;
  sy_to_server : list SendRecord;
  sy_to_client : list SendRecord;
  sy_client_log : list client_note;
  sy_server_log : list server_note;
}.

Inductive sys_op :=
  | SysSendGoal (name : string) (pdu : PduData) (g : GoalId) (timeout_usec now : Z)
  | SysSendCancel (name : string) (h : ClientGoalHandle)
  | SysClientPoll (clock : nat -> Z)
  | SysClientStop
  | SysClientClear
  | SysServerPoll
  | SysAcceptGoal (name : string) (h : ServerGoalHandle)
  | SysRejectGoal (name : string) (h : ServerGoalHandle)
  | SysAcceptCancel (name : string) (h : ServerGoalHandle)
  | SysRejectCancel (name : string) (h : ServerGoalHandle)
  | SysFeedback (name : string) (h : ServerGoalHandle) (pdu : PduData)
  | SysComplete (name : string) (h : ServerGoalHandle) (st : TerminalStatus) (pdu : PduData)
  | SysCompleteLocally (name : string) (h : ServerGoalHandle) (st : TerminalStatus) (pdu : PduData)
  | SysDiscard (name : string) (h : ServerGoalHandle)
  | SysDisconnected
  | SysServerStop
  | SysServerClear
  | SysDeliverToServer (i : nat)
  | SysDeliverToClient (i : nat)
  | SysLoseToServer (i : nat)
  | SysLoseToClient (i : nat).

Section Steps.
Context {P : PduPlatform} {T : Transport}.

(** The callbacks of all Actions see a packet. *)
Definition server_receives (k : PduResolvedKey) (d : PduData) (s : ServerServices)
    : ServerServices :=
  Services.set_actions
    ((fun a => Services.set_endpoint (ServerEp.deliver k d (Services.ai_endpoint a)) a)
     <$> Services.ss_actions s) s.

Definition client_receives (k : PduResolvedKey) (d : PduData) (s : ClientNode) : ClientNode :=
  ClientServices.set_actions
    ((fun a => ClientServices.set_endpoint (ClientEp.deliver k d (ClientServices.ai_endpoint a)) a)
     <$> ClientServices.sc_actions s) s.

Definition client_step (sys : system) (s' : ClientNode) (w' : Wire) (notes : list client_note)
    : system :=
  mkSystem s' w' (sy_server sys) (sy_server_wire sys)
    (sy_to_server sys ++ accepted_since sr_ok (sy_client_wire sys) w') (sy_to_client sys)
    (sy_client_log sys ++ notes) (sy_server_log sys).

Definition server_step (sys : system) (s' : ServerServices) (w' : Wire)
    (notes : list server_note) : system :=
  mkSystem (sy_client sys) (sy_client_wire sys) s' w' (sy_to_server sys)
    (sy_to_client sys ++ accepted_since sr_ok (sy_server_wire sys) w')
    (sy_client_log sys) (sy_server_log sys ++ notes).

(** A call that answers with a flag; a note is taken when it is set. *)
Definition server_call (sys : system) (r : ServerServices * Wire * bool)
    (notes : list server_note) : system :=
  let '(s', w', ok) := r in server_step sys s' w' (if ok then notes else []).

Definition set_flights (to_server to_client : list SendRecord) (sys : system) : system :=
  mkSystem (sy_client sys) (sy_client_wire sys) (sy_server sys) (sy_server_wire sys)
    to_server to_client (sy_client_log sys) (sy_server_log sys).

Definition deliver_to_server (sys : system) (i : nat) : system :=
  match sy_to_server sys !! i with
  | None => sys
  | Some rec =>
      mkSystem (sy_client sys) (sy_client_wire sys)
        (server_receives (sr_key rec) (sr_data rec) (sy_server sys)) (sy_server_wire sys)
        (delete i (sy_to_server sys)) (sy_to_client sys) (sy_client_log sys) (sy_server_log sys)
  end.

Definition deliver_to_client (sys : system) (i : nat) : system :=
  match sy_to_client sys !! i with
  | None => sys
  | Some rec =>
      mkSystem (client_receives (sr_key rec) (sr_data rec) (sy_client sys))
        (sy_client_wire sys) (sy_server sys) (sy_server_wire sys)
        (sy_to_server sys) (delete i (sy_to_client sys)) (sy_client_log sys) (sy_server_log sys)
  end.

Definition run_client_op (sys : system) (op : sys_op) : option system :=
  let c := sy_client sys in
  let w := sy_client_wire sys in
  match op with
  | SysSendGoal name pdu g timeout now =>
      let '(c', w', (result, _)) :=
        ClientServices.send_goal_with_result c w name pdu g timeout now in
      Some (client_step sys c' w'
              (if bool_decide (result = GoalSendResult_SUCCESS) then [ClientSent name g] else []))
  | SysSendCancel name h =>
      let '(c', w', _) := ClientServices.send_cancel c w name h in
      Some (client_step sys c' w' [])
  | SysClientPoll clock =>
      let '(c', (name, ev)) := ClientServices.poll c clock in
      Some (client_step sys c' w
              (if bool_decide (ce_type ev = ClientEventType_NONE) then [] else [ClientSaw name ev]))
  | SysClientStop => Some (client_step sys (ClientServices.stop_all_services c) w [])
  | SysClientClear => Some (client_step sys (ClientServices.clear_all_instances c) w [])
  | _ => None
  end.

Definition run_server_op (sys : system) (op : sys_op) : option system :=
  let s := sy_server sys in
  let w := sy_server_wire sys in
  match op with
  | SysServerPoll =>
      let '(s', w', (name, ev)) := Services.poll s w in
      Some (server_step sys s' w'
              (if bool_decide (se_type ev = ServerEventType_NONE) then [] else [ServerSaw name ev]))
  | SysAcceptGoal name h =>
      Some (server_call sys (Services.accept_goal s w name h)
              [ServerAccepted name (sgh_goal_id h)])
  | SysRejectGoal name h => Some (server_call sys (Services.reject_goal s w name h) [])
  | SysAcceptCancel name h => Some (server_call sys (Services.accept_cancel s w name h) [])
  | SysRejectCancel name h => Some (server_call sys (Services.reject_cancel s w name h) [])
  | SysFeedback name h pdu => Some (server_call sys (Services.send_feedback s w name h pdu) [])
  | SysComplete name h st pdu =>
      Some (server_call sys (Services.complete s w name h st pdu)
              [ServerCompleted name (sgh_goal_id h) st])
  | SysCompleteLocally name h st pdu =>
      Some (server_call sys (Services.complete_locally s w name h st pdu) [])
  | SysDiscard name h =>
      let '(s', _) := Services.discard_pending_goal s name h in Some (server_step sys s' w [])
  | SysDisconnected => Some (server_step sys (Services.notify_transport_disconnected s) w [])
  | SysServerStop => Some (server_step sys (Services.stop_all_services s) w [])
  | SysServerClear => Some (server_step sys (Services.clear_all_instances s) w [])
  | _ => None
  end.

Definition run_transport_op (sys : system) (op : sys_op) : system :=
  match op with
  | SysDeliverToServer i => deliver_to_server sys i
  | SysDeliverToClient i => deliver_to_client sys i
  | SysLoseToServer i => set_flights (delete i (sy_to_server sys)) (sy_to_client sys) sys
  | SysLoseToClient i => set_flights (sy_to_server sys) (delete i (sy_to_client sys)) sys
  | _ => sys
  end.

Definition run_sys_op (sys : system) (op : sys_op) : system :=
  match run_client_op sys op with
  | Some sys' => sys'
  | None => default (run_transport_op sys op) (run_server_op sys op)
  end.

Definition run_sys (sys : system) (ops : list sys_op) : system := foldl run_sys_op sys ops.

Definition system_start (c : ClientNode) (s : ServerServices) : system :=
  mkSystem c [] s [] [] [] [] [].
End Steps.
End ServicesNetwork.
