(* ===== verification/ServicesNetworkInv.v ===== *)
(** * The Action stack: what every step keeps

    The invariant of the two nodes of [ServicesNetwork]: for every Action both
    nodes have, the endpoints, the packets in flight and the application logs
    agree. Every call, poll, delivery and loss keeps it. *)

From S2P Require Import Prelude ActionTypes ActionConfiguration PduPacket Routing.
From S2P Require Import NetworkFlow ServerInterface ServerEndpoint ServerEndpointFacts.
From S2P Require Import ServerEndpointProps.
From S2P Require Import ClientInterface ClientEndpoint ClientEndpointFacts ClientEndpointProps.
From S2P Require Import ClientContract.
From S2P Require Import EndToEnd ActionNetwork ServerStateMachine ClientStateMachine.
From S2P Require Import ServicesServer ServicesServerProps ServicesClient ServicesClientProps.
From S2P Require Import ServicesNetwork.
From Stdlib Require Import ZArith Lia.
From stdpp Require Import base gmap strings list fin_maps relations.

Module ServicesNetInv.
Import ActionConfig RoutingTable ServerIface ClientIface ServerEpFacts ServerSM ServicesNetwork.
#[local] Existing Instance ServerEpFacts.impl_server_endpoint.
#[local] Existing Instance ClientContract.impl_client_endpoint.

Abbreviation sname := Services.ai_action_name.
Abbreviation cname := ClientServices.ai_action_name.
Abbreviation sep := Services.ai_endpoint.
Abbreviation cep := ClientServices.ai_endpoint.
Abbreviation sacts sys := (Services.ss_actions (sy_server sys)).
Abbreviation cacts sys := (ClientServices.sc_actions (sy_client sys)).

Section Invariant.
Context {P : PduPlatform} {HL : PduPlatformLaws P} {T : Transport}.
(** The names of the Actions on the two nodes. *)
Context (snames cnames : list string).

Definition sys_act (sys : system) (name : string) (c : ClientEp.ClientEndpoint)
    (e : ServerEp.ServerEndpoint) : Prop :=
  act_inv name c (sy_client_wire sys) e (sy_server_wire sys) (sy_to_server sys)
    (sy_to_client sys) (sy_client_log sys) (sy_server_log sys).

(** Names are distinct on each node, keys carry them, a waiting runtime event is
    no goal request, and Actions both nodes have are networks. *)
Record sys_inv (sys : system) : Prop := {
  si_names : sname <$> sacts sys = snames /\ cname <$> cacts sys = cnames;
  si_snames : NoDup (sname <$> sacts sys);
  si_cnames : NoDup (cname <$> cacts sys);
  si_skeys i a : sacts sys !! i = Some a ->
    named_routing (sname a) (ServerEp.ep_slot_routing (sep a));
  si_ckeys i a : cacts sys !! i = Some a ->
    named_routing (cname a) (ClientEp.cl_slot_routing (cep a));
  si_runtime : Forall (fun ev => se_type ev <> ServerEventType_GOAL_REQUEST)
    (Services.ss_pending_runtime_events (sy_server sys));
  si_act i a j b : sacts sys !! i = Some a -> cacts sys !! j = Some b -> sname a = cname b ->
    sys_act sys (sname a) (cep b) (sep a);
}.

Lemma fmap_lookup_same {A B} (f : A -> B) (l l' : list A) i x' :
  f <$> l' = f <$> l -> l' !! i = Some x' -> exists x, l !! i = Some x /\ f x = f x'.
Proof.
  intros Hf Hx.
  assert (Hl : (f <$> l) !! i = Some (f x')) by (by rewrite <-Hf, list_lookup_fmap, Hx).
  apply list_lookup_fmap_Some in Hl as (x & ? & ?). eauto.
Qed.

(** The frame of every step. *)
Lemma sys_inv_step sys sys' :
  sys_inv sys ->
  sname <$> sacts sys' = sname <$> sacts sys -> cname <$> cacts sys' = cname <$> cacts sys ->
  (forall i a a', sacts sys !! i = Some a -> sacts sys' !! i = Some a' ->
     ServerEp.ep_slot_routing (sep a') = ServerEp.ep_slot_routing (sep a)) ->
  (forall i b b', cacts sys !! i = Some b -> cacts sys' !! i = Some b' ->
     ClientEp.cl_slot_routing (cep b') = ClientEp.cl_slot_routing (cep b)) ->
  Forall (fun ev => se_type ev <> ServerEventType_GOAL_REQUEST)
    (Services.ss_pending_runtime_events (sy_server sys')) ->
  (forall i a a' j b b', sacts sys !! i = Some a -> sacts sys' !! i = Some a' ->
     cacts sys !! j = Some b -> cacts sys' !! j = Some b' -> sname a = cname b ->
     sys_act sys (sname a) (cep b) (sep a) -> sys_act sys' (sname a) (cep b') (sep a')) ->
  sys_inv sys'.
Proof.
  intros [H0 H1 H2 H3 H4 H5 H6] Hsn Hcn Hsr Hcr Hrt Hact. split; try done.
  - by rewrite Hsn, Hcn.
  - by rewrite Hsn.
  - by rewrite Hcn.
  - intros i a' Ha'. destruct (fmap_lookup_same _ _ _ _ _ Hsn Ha') as (a & Ha & Hn).
    rewrite <-Hn, (Hsr i a a') by done. eauto.
  - intros i a' Ha'. destruct (fmap_lookup_same _ _ _ _ _ Hcn Ha') as (a & Ha & Hn).
    rewrite <-Hn, (Hcr i a a') by done. eauto.
  - intros i a' j b' Ha' Hb' Heq.
    destruct (fmap_lookup_same _ _ _ _ _ Hsn Ha') as (a & Ha & Hn).
    destruct (fmap_lookup_same _ _ _ _ _ Hcn Hb') as (b & Hb & Hn').
    rewrite <-Hn. eapply Hact; eauto; [congruence|]. eapply H6; eauto. congruence.
Qed.

Lemma fmap_insert_same {A B} (f : A -> B) (l : list A) i x y :
  l !! i = Some x -> f y = f x -> f <$> <[i := y]> l = f <$> l.
Proof.
  intros Hl Hy. rewrite list_fmap_insert. apply list_insert_id. by rewrite list_lookup_fmap, Hl, Hy.
Qed.

Lemma other_name {A} (f : A -> string) (l : list A) i j x y :
  NoDup (f <$> l) -> l !! i = Some x -> l !! j = Some y -> i <> j -> f x <> f y.
Proof.
  intros Hn Hi Hj Hne Heq. apply Hne. eapply (NoDup_lookup (f <$> l)); [done|..];
    rewrite list_lookup_fmap; [by rewrite Hi|]. by rewrite Hj, Heq.
Qed.

(** A call of the server's application that works on the Action at [i]. *)
Lemma server_call_inv sys s' i a a' w' notes :
  sys_inv sys -> sacts sys !! i = Some a -> Services.ss_actions s' = <[i := a']> (sacts sys) ->
  sname a' = sname a ->
  Forall (fun ev => se_type ev <> ServerEventType_GOAL_REQUEST)
    (Services.ss_pending_runtime_events s') ->
  server_effect (sname a) (sep a) (sy_server_wire sys) (sep a') w' notes ->
  sys_inv (server_step sys s' w' notes).
Proof.
  intros Hs Ha Hs' Hn Hrt Heff. destruct (se_op _ _ _ _ _ _ Heff) as (op & evs & Hop & _).
  destruct (server_op_named _ _ _ _ _ _ _ (si_skeys _ Hs i a Ha) Hop) as [Hr Hsend].
  apply (sys_inv_step sys); cbn; rewrite ?Hs'; try done.
  - by eapply fmap_insert_same.
  - intros k b b' Hb Hb'. apply list_lookup_insert_Some in Hb' as [(<- & <- & _)|(_ & Hb')];
      by simplify_eq.
  - intros j b b' ? ?. by simplify_eq.
  - intros k b b' j d d' Hb Hb' Hd Hd' Heq Hact. simplify_eq.
    apply list_lookup_insert_Some in Hb' as [(<- & <- & _)|(Hne & Hb')]; simplify_eq.
    + eapply own_server_inv; done.
    + eapply foreign_server_act; [by eapply si_skeys|done| |by eapply se_notes|done].
      by eapply (other_name sname); [apply si_snames| | |].
Qed.

(** A call of the client's application that works on the Action at [i]. *)
Lemma client_call_inv sys s' i b b' w' notes :
  sys_inv sys -> cacts sys !! i = Some b ->
  ClientServices.sc_actions s' = <[i := b']> (cacts sys) ->
  cname b' = cname b ->
  client_effect (cname b) (cep b) (sy_client_wire sys) (cep b') w' notes ->
  sys_inv (client_step sys s' w' notes).
Proof.
  intros Hs Hb Hs' Hn Heff.
  pose proof (ce_named _ _ _ _ _ _ Heff (si_ckeys _ Hs i b Hb)) as Hsend.
  apply (sys_inv_step sys); cbn; rewrite ?Hs'; try done.
  - by eapply fmap_insert_same.
  - intros j a a' ? ?. by simplify_eq.
  - intros k d d' Hd Hd'. apply list_lookup_insert_Some in Hd' as [(<- & <- & _)|(_ & Hd')];
      simplify_eq; [by eapply ce_routing|done].
  - apply Hs.
  - intros k a a' j d d' Ha Ha' Hd Hd' Heq Hact. simplify_eq.
    apply list_lookup_insert_Some in Hd' as [(<- & <- & _)|(Hne & Hd')]; simplify_eq.
    + rewrite Heq in *. eapply own_client_inv; done.
    + eapply foreign_client_act; [by eapply si_skeys|done| |by eapply ce_notes|done].
      rewrite Heq. by eapply (other_name cname); [apply si_cnames| | |].
Qed.

Lemma accepted_since_refl (w : Wire) : accepted_since sr_ok w w = [].
Proof. unfold accepted_since. by rewrite drop_ge. Qed.

Lemma server_step_id sys : server_step sys (sy_server sys) (sy_server_wire sys) [] = sys.
Proof. unfold server_step. rewrite accepted_since_refl, !app_nil_r. by destruct sys. Qed.

Lemma client_step_id sys : client_step sys (sy_client sys) (sy_client_wire sys) [] = sys.
Proof. unfold client_step. rewrite accepted_since_refl, !app_nil_r. by destruct sys. Qed.

(** Calls that send nothing and show nothing. *)
Lemma silent_server_effect name e w op e' :
  ActionNetwork.run_server_op e w op = (e', w, []) -> server_effect name e w e' w [].
Proof.
  intros Hop. split; [constructor|by exists op, []|]. intros _. exists [].
  by rewrite app_nil_r.
Qed.

Lemma silent_client_effect name c w c' :
  ClientEp.cl_slot_routing c' = ClientEp.cl_slot_routing c ->
  (ClientEpFacts.cl_wf c -> ActionNetwork.client_call c w c' w []) ->
  client_effect name c w c' w [].
Proof.
  intros Hr Hc. split; [constructor|intros _; apply sends_named_refl|done|..].
  - intros Hwf. exists []. split_and!; [by apply Hc|done|done].
  - intros g _. unfold tally. cbn. lia.
Qed.

(** A call on the endpoints of all Actions. *)
Lemma server_all_inv sys s' (f : Services.ActionInstance ServerEp.ServerEndpoint -> _) op :
  sys_inv sys -> Services.ss_actions s' = f <$> sacts sys -> (forall a, sname (f a) = sname a) ->
  (forall a, ActionNetwork.run_server_op (sep a) (sy_server_wire sys) op
             = (sep (f a), sy_server_wire sys, [])) ->
  Forall (fun ev => se_type ev <> ServerEventType_GOAL_REQUEST)
    (Services.ss_pending_runtime_events s') ->
  sys_inv (server_step sys s' (sy_server_wire sys) []).
Proof.
  intros Hs Hs' Hn Hop Hrt. apply (sys_inv_step sys); cbn; rewrite ?Hs'; try done.
  - rewrite <-list_fmap_compose. apply list_fmap_ext. intros ? ? _. apply Hn.
  - intros i a a' Ha Ha'. rewrite list_lookup_fmap, Ha in Ha'. injection Ha' as <-.
    by apply (server_op_named (sname a) _ _ _ _ _ _ (si_skeys _ Hs i a Ha) (Hop a)).
  - intros j b b' ? ?. by simplify_eq.
  - intros i a a' j b b' Ha Ha' Hb Hb' Heq Hact. simplify_eq.
    rewrite list_lookup_fmap, Ha in Ha'. injection Ha' as <-.
    eapply own_server_inv; [done|]. by eapply silent_server_effect.
Qed.

Lemma client_all_inv sys s' (f : ClientServices.ActionInstance ClientEp.ClientEndpoint -> _) :
  sys_inv sys -> ClientServices.sc_actions s' = f <$> cacts sys ->
  (forall a, cname (f a) = cname a) ->
  (forall a, client_effect (cname a) (cep a) (sy_client_wire sys) (cep (f a))
               (sy_client_wire sys) []) ->
  sys_inv (client_step sys s' (sy_client_wire sys) []).
Proof.
  intros Hs Hs' Hn Heff. apply (sys_inv_step sys); cbn; rewrite ?Hs'; try done.
  - rewrite <-list_fmap_compose. apply list_fmap_ext. intros ? ? _. apply Hn.
  - intros i a a' ? ?. by simplify_eq.
  - intros i b b' Hb Hb'. rewrite list_lookup_fmap, Hb in Hb'. injection Hb' as <-.
    by eapply ce_routing.
  - apply Hs.
  - intros i a a' j b b' Ha Ha' Hb Hb' Heq Hact. simplify_eq.
    rewrite list_lookup_fmap, Hb in Hb'. injection Hb' as <-.
    eapply own_client_inv; [done|]. rewrite Heq. apply Heff.
Qed.

(** ** The transport *)

Lemma sys_deliver_to_server_inv sys i : sys_inv sys -> sys_inv (deliver_to_server sys i).
Proof.
  intros Hs. unfold deliver_to_server. destruct (sy_to_server sys !! i) as [rec|] eqn:Hi; [|done].
  assert (Hr : forall e, ServerEp.ep_slot_routing (ServerEp.deliver (sr_key rec) (sr_data rec) e)
                         = ServerEp.ep_slot_routing e) by apply ServerEpProps.deliver_frame.
  apply (sys_inv_step sys); cbn; try done.
  - rewrite <-list_fmap_compose. apply list_fmap_ext. by intros.
  - intros k a a' Ha Ha'. rewrite list_lookup_fmap, Ha in Ha'. injection Ha' as <-. cbn. apply Hr.
  - intros j b b' ? ?. by simplify_eq.
  - apply Hs.
  - intros k a a' j b b' Ha Ha' Hb Hb' Heq [(cevs & sevs & Hn & Hrest) H1 H2 H3]. simplify_eq.
    rewrite list_lookup_fmap, Ha in Ha'. injection Ha' as <-.
    pose proof (ActionNetwork.deliver_to_server_inv _ i Hn) as Hn'.
    unfold ActionNetwork.deliver_to_server in Hn'. cbn in Hn'. rewrite Hi in Hn'.
    split; cbn; rewrite ?Hr; try done. by exists cevs, sevs.
Qed.

Lemma client_deliver_routing k d c :
  ClientEp.cl_slot_routing (ClientEp.deliver k d c) = ClientEp.cl_slot_routing c.
Proof.
  unfold ClientEp.deliver. split_guard; [done|]. clear E.
  generalize (ClientEp.cl_slot_routing c) at 1 as l. intros l. revert c.
  induction l as [|r l IH]; intros c; [done|]. cbn [foldl]. rewrite IH. cbn zeta.
  by repeat case_bool_decide.
Qed.

Lemma sys_deliver_to_client_inv sys i : sys_inv sys -> sys_inv (deliver_to_client sys i).
Proof.
  intros Hs. unfold deliver_to_client. destruct (sy_to_client sys !! i) as [rec|] eqn:Hi; [|done].
  apply (sys_inv_step sys); cbn; try done.
  - rewrite <-list_fmap_compose. apply list_fmap_ext. by intros.
  - intros j a a' ? ?. by simplify_eq.
  - intros k b b' Hb Hb'. rewrite list_lookup_fmap, Hb in Hb'. injection Hb' as <-. cbn.
    apply client_deliver_routing.
  - apply Hs.
  - intros k a a' j b b' Ha Ha' Hb Hb' Heq [(cevs & sevs & Hn & Hrest) H1 H2 H3]. simplify_eq.
    rewrite list_lookup_fmap, Hb in Hb'. injection Hb' as <-.
    pose proof (ActionNetwork.deliver_to_client_inv _ i Hn) as Hn'.
    unfold ActionNetwork.deliver_to_client in Hn'. cbn in Hn'. rewrite Hi in Hn'.
    split; cbn; try done. by exists cevs, sevs.
Qed.

Lemma sys_flights_inv sys i :
  sys_inv sys ->
  sys_inv (set_flights (delete i (sy_to_server sys)) (sy_to_client sys) sys)
  /\ sys_inv (set_flights (sy_to_server sys) (delete i (sy_to_client sys)) sys).
Proof.
  intros Hs. split; (apply (sys_inv_step sys); cbn; try done;
    [intros; by simplify_eq|intros; by simplify_eq|apply Hs|]);
    intros k a a' j b b' Ha Ha' Hb Hb' Heq [(cevs & sevs & Hn & Hrest) H1 H2 H3]; simplify_eq;
    (split; cbn; try done); exists cevs, sevs; (split; [|done]).
  - exact (ActionNetwork.run_net_op_inv _ (ActionNetwork.NetLoseToServer i) Hn).
  - exact (ActionNetwork.run_net_op_inv _ (ActionNetwork.NetLoseToClient i) Hn).
Qed.

(** ** The server's calls *)

Ltac solve_counts :=
  intros; rewrite ?ServerEpProps.count_singleton;
  unfold ServerEpProps.count, ServerEpProps.is_acceptance, is_result_packet, tally; cbn;
  repeat (case_bool_decide; cbn); simplify_eq; try done; try congruence.

Lemma status_u8_inj st st' : TerminalStatus_to_u8 st = TerminalStatus_to_u8 st' -> st = st'.
Proof. by destruct st, st'. Qed.

Lemma accept_goal_effect name e w h e' w' r :
  ServerEp.accept_goal e w h = (e', w', r) ->
  server_effect name e w e' w' (if r then [ServerAccepted name (sgh_goal_id h)] else []).
Proof.
  intros Hop. split; [by destruct r; repeat constructor| |].
  - exists (ActionNetwork.SrvReply ReplyAcceptGoal h), []. cbn. rewrite Hop. split; [done|].
    intros g. by destruct r.
  - intros Ht. apply ServerEpProps.accept_goal_framed in Hop as [_ _ _ Hr]; [|apply Ht].
    eexists. split; [exact Hr|]. split; destruct r; solve_counts.
Qed.

(** The answers that are no acceptance. *)
Lemma reply_effect name op e w h e' w' r :
  op <> ReplyAcceptGoal -> run_reply op e w h = (e', w', r) -> server_effect name e w e' w' [].
Proof.
  intros Hne Hop. split; [constructor|..].
  - exists (ActionNetwork.SrvReply op h), []. cbn. by rewrite Hop.
  - intros Ht. pose proof (ServerEpProps.ti_wf _ _ Ht) as Hwf.
    destruct op; cbn in Hop; [done|..].
    + apply ServerEpProps.reject_goal_framed in Hop as [_ _ _ Hr]; [|done].
      eexists. split; [exact Hr|]. split; destruct r; solve_counts.
    + apply ServerEpProps.accept_cancel_framed in Hop as [_ _ _ Hr]; [|done].
      eexists. split; [exact Hr|]. split; destruct r; solve_counts.
    + apply ServerEpProps.reject_cancel_framed in Hop as [_ _ _ Hr]; [|done].
      eexists. split; [exact Hr|]. split; destruct r; solve_counts.
    + apply ServerEpProps.send_feedback_framed in Hop as [_ _ _ Hr]; [|apply Ht].
      eexists. split; [exact Hr|]. done.
Qed.

Lemma complete_effect name e w h st d e' w' r :
  ServerEp.complete e w h st d = (e', w', r) ->
  server_effect name e w e' w'
    (if bool_decide (r = CompleteResult_SENT) then [ServerCompleted name (sgh_goal_id h) st]
     else []).
Proof.
  intros Hop. split; [by case_bool_decide; repeat constructor| |].
  - exists (ActionNetwork.SrvComplete h st d), []. cbn. rewrite Hop. split; [done|].
    intros g. by case_bool_decide.
  - intros Ht. apply ServerEpProps.complete_framed in Hop as [_ _ _ Hr]; [|apply Ht].
    eexists. split; [exact Hr|]. split; case_bool_decide; solve_counts.
    match goal with H : TerminalStatus_to_u8 _ = _ |- _ => apply status_u8_inj in H end. done.
Qed.

(** A poll notes what it shows. *)
Lemma server_poll_effect name e w e' w' ev notes :
  ServerEp.poll e w = (e', w', ev) ->
  (notes = [] /\ se_type ev <> ServerEventType_GOAL_REQUEST
   \/ exists ev', notes = [ServerSaw name ev']
        /\ forall g, ActionNetwork.is_goal_request g ev' = ActionNetwork.is_goal_request g ev) ->
  server_effect name e w e' w' notes.
Proof.
  intros Hop Hnotes. split.
  - destruct Hnotes as [[-> _]|(ev' & -> & _)]; by repeat constructor.
  - exists ActionNetwork.SrvPoll, [ev]. cbn. rewrite Hop. split; [done|]. intros g.
    unfold ActionNetwork.goal_requests, tally. cbn.
    destruct Hnotes as [[-> Hne]|(ev' & -> & Heq)]; cbn.
    + unfold ActionNetwork.is_goal_request. by rewrite (bool_decide_eq_false_2 _ Hne).
    + rewrite Heq, bool_decide_eq_true_2 by done. cbn.
      by destruct (ActionNetwork.is_goal_request g ev).
  - intros Ht. apply ServerEpProps.poll_framed in Hop as (extra & [_ _ _ Hr] & Hx); [|apply Ht].
    exists extra. split; [done|].
    assert (Hz : (forall g, tally (accepted_goal name g) notes = 0)
                 /\ forall g st, tally (completed_goal name g st) notes = 0).
    { by destruct Hnotes as [[-> _]|(ev' & -> & _)]. }
    destruct Hz as [Hz1 Hz2]. destruct Hx as [-> | (_ & g' & ->)];
      (split; intros; rewrite ?Hz1, ?Hz2); solve_counts.
Qed.

(** No call of the endpoint at all. *)
Lemma idle_server_effect name e w notes :
  (notes = []
   \/ exists ev, notes = [ServerSaw name ev] /\ se_type ev <> ServerEventType_GOAL_REQUEST) ->
  server_effect name e w e w notes.
Proof.
  intros Hn. assert (Hz : forall g, tally (saw_request name g) notes = 0).
  { intros g. destruct Hn as [-> |(ev & -> & Hev)]; [done|]. unfold tally. cbn.
    unfold ActionNetwork.is_goal_request. rewrite (bool_decide_eq_false_2 _ Hev). cbn.
    by rewrite andb_false_r. }
  split.
  - destruct Hn as [-> |(ev & -> & _)]; by repeat constructor.
  - exists (ActionNetwork.SrvDiscard (mkServerGoalHandle zero_goal_id)), []. split; [|done].
    cbn. unfold ServerEp.discard_pending_goal, ServerEp.find_binding. done.
  - intros _. exists []. rewrite app_nil_r. destruct Hn as [-> |(ev & -> & _)]; done.
Qed.

Lemma server_put_inv sys i a a' w' notes :
  sys_inv sys -> sacts sys !! i = Some a -> sname a' = sname a ->
  server_effect (sname a) (sep a) (sy_server_wire sys) (sep a') w' notes ->
  sys_inv (server_step sys (Services.put_action i a' (sy_server sys)) w' notes).
Proof. intros Hs Ha Hn He. eapply server_call_inv; [done..|apply Hs|done]. Qed.

Lemma action_found (s : ServerServices) name i a :
  Services.get_action_locked s name = Some (i, a) ->
  Services.ss_actions s !! i = Some a /\ sname a = name.
Proof. by intros (? & ? & _)%list_find_Some. Qed.

Lemma goal_found (s : ServerServices) name h i a k gi :
  Services.find_goal s name h = Some (i, a, (k, gi)) ->
  Services.ss_actions s !! i = Some a /\ sname a = name
  /\ sgh_goal_id (Services.gi_goal gi) = sgh_goal_id h.
Proof.
  unfold Services.find_goal. split_guard; [done|].
  destruct (Services.get_action_locked s name) as [[i0 a0]|] eqn:Ha; [|done].
  destruct (Services.get_goal_locked a0 _) as [[k0 g0]|] eqn:Hg; [|done]. intros [= <- <- <- <-].
  apply action_found in Ha as [? ?]. by apply list_find_Some in Hg as (_ & ? & _).
Qed.

(** What a call of the services does to one Action, or nothing at all. *)
Definition served (sys : system) (name : string) (r : ServerServices * Wire * bool)
    (notes : list server_note) : Prop :=
  (r = (sy_server sys, sy_server_wire sys, false))
  \/ exists i a a' w' ok, r = (Services.put_action i a' (sy_server sys), w', ok)
       /\ sacts sys !! i = Some a /\ sname a = name /\ sname a' = sname a
       /\ server_effect name (sep a) (sy_server_wire sys) (sep a') w' (if ok then notes else []).

Lemma served_inv sys name r notes :
  sys_inv sys -> served sys name r notes -> sys_inv (server_call sys r notes).
Proof.
  intros Hs [-> |(i & a & a' & w' & ok & -> & Ha & <- & Hn & He)]; cbn.
  - by rewrite server_step_id.
  - by eapply server_put_inv.
Qed.

Lemma accept_goal_served sys name h :
  served sys name (Services.accept_goal (sy_server sys) (sy_server_wire sys) name h)
    [ServerAccepted name (sgh_goal_id h)].
Proof.
  unfold Services.accept_goal. split_guard; [by left|].
  destruct (Services.get_action_locked _ name) as [[i a]|] eqn:Ha; [|by left].
  apply action_found in Ha as [Ha Hn]. split_guard; [by left|].
  change (i_accept_goal (Services.ai_endpoint a)) with (ServerEp.accept_goal (sep a)).
  destruct (ServerEp.accept_goal _ _ h) as [[e w'] r] eqn:Hop.
  apply (accept_goal_effect name) in Hop. right.
  destruct r; do 5 eexists; by split_and!.
Qed.

Lemma reject_goal_served sys name h :
  served sys name (Services.reject_goal (sy_server sys) (sy_server_wire sys) name h) [].
Proof.
  unfold Services.reject_goal. split_guard; [by left|].
  destruct (Services.get_action_locked _ name) as [[i a]|] eqn:Ha; [|by left].
  apply action_found in Ha as [Ha Hn]. split_guard; [by left|].
  change (i_reject_goal (Services.ai_endpoint a)) with (run_reply ReplyRejectGoal (sep a)).
  destruct (run_reply _ _ _ h) as [[e w'] r] eqn:Hop.
  apply (reply_effect name) in Hop; [|done]. right.
  do 5 eexists; split_and!; try done. by destruct r.
Qed.

Lemma accept_cancel_served sys name h :
  served sys name (Services.accept_cancel (sy_server sys) (sy_server_wire sys) name h) [].
Proof.
  unfold Services.accept_cancel.
  destruct (Services.find_goal _ name h) as [[[i a] [k gi]]|] eqn:Hf; [|by left].
  apply goal_found in Hf as (Ha & Hn & _). do 2 (split_guard; [by left|]).
  assert (Heff : forall e w' ok,
    (if bool_decide (sgc_cancel_origin (Services.gi_context gi) = CancelOrigin_CLIENT)
      then i_accept_cancel (sep a) (sy_server_wire sys) h
      else let '(e, ok) := i_accept_cancel_locally (sep a) h in (e, sy_server_wire sys, ok))
      = (e, w', ok) -> server_effect name (sep a) (sy_server_wire sys) e w' []).
  { intros e w' ok. split_guard.
    - by apply (reply_effect name ReplyAcceptCancel).
    - destruct (i_accept_cancel_locally (sep a) h) as [e1 ok1] eqn:Hop. intros [= <- <- <-].
      apply (silent_server_effect name _ _ (ActionNetwork.SrvAcceptCancelLocally h)). cbn.
      cbn in Hop. by rewrite Hop. }
  destruct (if bool_decide _ then _ else _) as [[e w'] ok]. specialize (Heff _ _ _ eq_refl).
  right. destruct ok; cbn; do 5 eexists; by split_and!.
Qed.

Lemma reject_cancel_served sys name h :
  served sys name (Services.reject_cancel (sy_server sys) (sy_server_wire sys) name h) [].
Proof.
  unfold Services.reject_cancel.
  destruct (Services.find_goal _ name h) as [[[i a] [k gi]]|] eqn:Hf; [|by left].
  apply goal_found in Hf as (Ha & Hn & _). do 2 (split_guard; [by left|]).
  assert (Heff : forall e w' ok,
    (if bool_decide (sgc_cancel_origin (Services.gi_context gi) = CancelOrigin_CLIENT)
      then i_reject_cancel (sep a) (sy_server_wire sys) h
      else (sep a, sy_server_wire sys, true))
      = (e, w', ok) -> server_effect name (sep a) (sy_server_wire sys) e w' []).
  { intros e w' ok. split_guard.
    - by apply (reply_effect name ReplyRejectCancel).
    - intros [= <- <- <-]. apply idle_server_effect. by left. }
  destruct (if bool_decide _ then _ else _) as [[e w'] ok]. specialize (Heff _ _ _ eq_refl).
  right. destruct ok; cbn; do 5 eexists; by split_and!.
Qed.

Lemma feedback_served sys name h d :
  served sys name (Services.send_feedback (sy_server sys) (sy_server_wire sys) name h d) [].
Proof.
  unfold Services.send_feedback. split_guard; [by left|].
  destruct (Services.find_goal _ name h) as [[[i a] [k gi]]|] eqn:Hf; [|by left].
  apply goal_found in Hf as (Ha & Hn & _). do 2 (split_guard; [by left|]).
  change (i_send_feedback (Services.ai_endpoint a) (sy_server_wire sys) h d)
    with (run_reply (ReplyFeedback d) (sep a) (sy_server_wire sys) h).
  destruct (run_reply _ _ _ h) as [[e w'] r] eqn:Hop.
  apply (reply_effect name) in Hop; [|done]. right.
  do 5 eexists; split_and!; try done. by destruct r.
Qed.

Lemma goal_handle_eq h h' : sgh_goal_id h = sgh_goal_id h' -> h = h'.
Proof. destruct h, h'. cbn. by intros ->. Qed.

Lemma remove_goal_same (a : Services.ActionInstance ServerEp.ServerEndpoint) g :
  sname (Services.remove_goal_locked a g) = sname a
  /\ sep (Services.remove_goal_locked a g) = sep a.
Proof. unfold Services.remove_goal_locked. by destruct (Services.get_goal_locked a g) as [[]|]. Qed.

Lemma complete_served sys name h st d :
  served sys name (Services.complete (sy_server sys) (sy_server_wire sys) name h st d)
    [ServerCompleted name (sgh_goal_id h) st].
Proof.
  unfold Services.complete. split_guard; [by left|].
  destruct (Services.find_goal _ name h) as [[[i a] [k gi]]|] eqn:Hf; [|by left].
  apply goal_found in Hf as (Ha & Hn & Hg%goal_handle_eq).
  unfold Services.complete_goal_locked.
  assert (Hidle : forall notes, served sys name
      (Services.put_action i a (sy_server sys), sy_server_wire sys, false) notes).
  { intros notes. right. do 5 eexists. split_and!; try done. apply idle_server_effect. by left. }
  do 2 (split_guard; [apply Hidle|]). rewrite Hg.
  change (i_complete (Services.ai_endpoint a)) with (ServerEp.complete (sep a)).
  destruct (ServerEp.complete _ _ h st d) as [[e w'] r] eqn:Hop.
  apply (complete_effect name) in Hop. right.
  destruct (remove_goal_same (Services.set_endpoint e a) (sgh_goal_id h)) as [Hrn Hre].
  destruct r; do 5 eexists; split_and!; try done; by rewrite Hre.
Qed.

Lemma complete_locally_served sys name h st d :
  served sys name (Services.complete_locally (sy_server sys) (sy_server_wire sys) name h st d) [].
Proof.
  unfold Services.complete_locally. split_guard; [by left|].
  destruct (Services.find_goal _ name h) as [[[i a] [k gi]]|] eqn:Hf; [|by left].
  apply goal_found in Hf as (Ha & Hn & _). unfold Services.complete_goal_locked.
  assert (Hidle : served sys name
      (Services.put_action i a (sy_server sys), sy_server_wire sys, false) []).
  { right. do 5 eexists. split_and!; try done. apply idle_server_effect. by left. }
  do 2 (split_guard; [apply Hidle|]).
  change (i_complete_locally (Services.ai_endpoint a)) with (ServerEp.complete_locally (sep a)).
  destruct (ServerEp.complete_locally _ _ st d) as [e r] eqn:Hop.
  assert (He : server_effect name (sep a) (sy_server_wire sys) e (sy_server_wire sys) []).
  { apply (silent_server_effect name _ _
      (ActionNetwork.SrvCompleteLocally (Services.gi_goal gi) st d)). cbn. by rewrite Hop. }
  destruct (remove_goal_same (Services.set_endpoint e a) (sgh_goal_id (Services.gi_goal gi)))
    as [Hrn Hre].
  right. destruct r; cbn; do 5 eexists; split_and!; try done. by rewrite Hre.
Qed.

Lemma discard_inv sys name h :
  sys_inv sys ->
  sys_inv (server_step sys (Services.discard_pending_goal (sy_server sys) name h).1
             (sy_server_wire sys) []).
Proof.
  intros Hs. unfold Services.discard_pending_goal. split_guard; [by rewrite server_step_id|].
  destruct (Services.get_action_locked _ name) as [[i a]|] eqn:Ha; [|by rewrite server_step_id].
  apply action_found in Ha as [Ha <-]. split_guard; [by rewrite server_step_id|].
  change (i_discard_pending_goal (Services.ai_endpoint a))
    with (ServerEp.discard_pending_goal (sep a)).
  destruct (ServerEp.discard_pending_goal _ h) as [e r] eqn:Hop.
  eapply server_put_inv; [done|done|done|].
  apply (silent_server_effect _ _ _ (ActionNetwork.SrvDiscard h)). cbn. by rewrite Hop.
Qed.

(** Only runtime cancel requests are queued. *)
Lemma disconnected_inv sys :
  sys_inv sys ->
  sys_inv (server_step sys (Services.notify_transport_disconnected (sy_server sys))
             (sy_server_wire sys) []).
Proof.
  intros Hs. apply (sys_inv_step sys); cbn; try done.
  - intros; by simplify_eq.
  - intros; by simplify_eq.
  - generalize (si_runtime _ Hs). generalize (Services.ss_pending_runtime_events (sy_server sys)).
    induction (sacts sys) as [|a l IH]; intros evs Hevs; [done|]. cbn. apply IH.
    revert evs Hevs. induction (Services.ai_goals a) as [|gi gs IHg]; intros evs Hevs; [done|].
    cbn. apply IHg. unfold Services.notify_goal. split_guard; [done|].
    apply Forall_app. split; [done|]. by repeat constructor.
  - intros i a a' j b b' ? ? ? ? ? Hact. simplify_eq. unfold sys_act. cbn.
    rewrite accepted_since_refl, !app_nil_r. done.
Qed.

(** ** The server's poll *)

Lemma handle_cancel_same (a : Services.ActionInstance ServerEp.ServerEndpoint) ty ev a' ev' :
  Services.handle_cancel_event_locked a ty ev = Some (a', ev') ->
  sname a' = sname a /\ sep a' = sep a
  /\ (ev' = ev \/ se_type ev' = ServerEventType_ERROR).
Proof.
  unfold Services.handle_cancel_event_locked.
  repeat (split_guard; try done); intros [= <- <-]; auto.
Qed.

Lemma poll_runtime_cases (s : ServerServices) evs rest r :
  Services.poll_runtime_events s evs = (rest, r) ->
  Forall (fun ev => se_type ev <> ServerEventType_GOAL_REQUEST) evs ->
  Forall (fun ev => se_type ev <> ServerEventType_GOAL_REQUEST) rest
  /\ match r with
     | None => True
     | Some (i, a', ev) =>
         exists a, Services.ss_actions s !! i = Some a /\ sname a' = sname a /\ sep a' = sep a
           /\ se_type ev <> ServerEventType_GOAL_REQUEST
     end.
Proof.
  induction evs as [|ev evs IH]; cbn; [by intros [= <- <-]|].
  intros Hp [Hev Hevs]%Forall_cons. revert Hp.
  destruct (Services.get_action_locked s _) as [[i a]|] eqn:Ha; [|by intros; apply IH].
  apply action_found in Ha as [Ha _].
  destruct (Services.handle_cancel_event_locked a _ ev) as [[a' ev']|] eqn:Hh;
    [|by intros; apply IH].
  intros [= <- <-]. split; [done|]. exists a.
  apply handle_cancel_same in Hh as (? & ? & [-> |Ht]); split_and!; try done. by rewrite Ht.
Qed.

Lemma poll_action_effect (a : Services.ActionInstance ServerEp.ServerEndpoint) w a' w' r :
  Services.poll_action a w = (a', w', r) ->
  sname a' = sname a
  /\ server_effect (sname a) (sep a) w (sep a') w'
       (match r with Some ev => [ServerSaw (sname a) ev] | None => [] end)
  /\ (forall ev, r = Some ev -> se_type ev <> ServerEventType_NONE).
Proof.
  unfold Services.poll_action.
  change (i_poll (Services.ai_endpoint a) w) with (ServerEp.poll (sep a) w).
  destruct (ServerEp.poll (sep a) w) as [[e w1] ev] eqn:Hp.
  pose proof (fun notes => server_poll_effect (sname a) _ _ _ _ _ notes Hp) as He.
  assert (Hq : forall ev' g, se_type ev' <> ServerEventType_GOAL_REQUEST ->
                 ActionNetwork.is_goal_request g ev' = false).
  { intros ev' g Hn. unfold ActionNetwork.is_goal_request.
    by rewrite (bool_decide_eq_false_2 _ Hn). }
  destruct (se_type ev) eqn:Ht;
    [intros [= <- <- <-]; split_and!; [done|by apply He; left|done]
    |intros [= <- <- <-]; (split_and!; [done|by apply He; right; eexists|]);
       intros ? [= <-]; cbn; congruence
    |..
    |intros [= <- <- <-]; (split_and!; [done|by apply He; right; eexists|]);
       intros ? [= <-]; cbn; congruence].
  all: destruct (Services.handle_cancel_event_locked _ _ _) as [[a2 ev2]|] eqn:Hh;
    intros [= <- <- <-]; [|split_and!; [done|by apply He; left|done]].
  all: apply handle_cancel_same in Hh as (Hn & Hs & Hev); rewrite Hs;
    (split_and!; [done| |]);
    [apply He; right; eexists; (split; [done|]); intros g; rewrite !Hq; [done|congruence|];
       destruct Hev as [-> | ->]; cbn; congruence
    |intros ev' [= <-]; destruct Hev as [-> | ->]; cbn; congruence].
Qed.

Lemma accepted_since_trans (w w1 w2 : Wire) :
  w `prefix_of` w1 -> w1 `prefix_of` w2 ->
  accepted_since sr_ok w w1 ++ accepted_since sr_ok w1 w2 = accepted_since sr_ok w w2.
Proof.
  intros [x ->] [y ->]. rewrite <-app_assoc, !accepted_since_app.
  rewrite (app_assoc w x y), accepted_since_app. by rewrite <-filter_app.
Qed.

Lemma poll_actions_inv acts pre sys acts' w' r s' :
  sys_inv sys -> sacts sys = pre ++ acts ->
  Services.poll_actions acts (sy_server_wire sys) = (acts', w', r) ->
  Services.ss_actions s' = pre ++ acts' ->
  Forall (fun ev => se_type ev <> ServerEventType_GOAL_REQUEST)
    (Services.ss_pending_runtime_events s') ->
  sy_server_wire sys `prefix_of` w'
  /\ sys_inv (server_step sys s' w'
       (match r with Some (n, ev) => [ServerSaw n ev] | None => [] end))
  /\ (forall n ev, r = Some (n, ev) -> se_type ev <> ServerEventType_NONE).
Proof.
  revert pre sys acts' w' r. induction acts as [|a acts IH];
    intros pre sys acts' w' r Hs Hl Hp Hs' Hrt.
  { injection Hp as <- <- <-. split_and!; [done| |done]. apply (sys_inv_step sys); cbn; try done.
    - by rewrite Hs', Hl.
    - rewrite Hs', <-Hl. intros; by simplify_eq.
    - intros; by simplify_eq.
    - rewrite Hs', <-Hl. intros i x x' j b b' ? ? ? ? ? Hact. simplify_eq. unfold sys_act. cbn.
      by rewrite accepted_since_refl, !app_nil_r. }
  assert (Ha : sacts sys !! length pre = Some a) by (rewrite Hl; by apply list_lookup_middle).
  cbn in Hp. destruct (Services.poll_action a _) as [[a1 w1] ev] eqn:Hpa.
  apply poll_action_effect in Hpa as (Hn & Heff & Hne).
  destruct (se_op _ _ _ _ _ _ Heff) as (op & evs & Hop & _).
  destruct (server_op_named _ _ _ _ _ _ _ (si_skeys _ Hs _ a Ha) Hop)
    as [_ Hpre%sends_named_prefix].
  assert (Hins : <[length pre := a1]> (sacts sys) = pre ++ a1 :: acts).
  { rewrite Hl, insert_app_r_alt, Nat.sub_diag by done. done. }
  destruct ev as [ev|].
  { injection Hp as <- <- <-. split_and!; [done| |by intros ? ? [= <- <-]; apply Hne].
    eapply server_call_inv; [done|done|by rewrite Hins|done|done|done]. }
  destruct (Services.poll_actions acts w1) as [[rest w2] res] eqn:Hrest. injection Hp as <- <- <-.
  set (sys1 := server_step sys (Services.set_actions (pre ++ a1 :: acts) (sy_server sys)) w1 []).
  assert (Hs1 : sys_inv sys1).
  { eapply server_call_inv; [done|done|by rewrite Hins|done|apply Hs|done]. }
  destruct (IH (pre ++ [a1]) sys1 rest w2 res Hs1) as (Hpre2 & Hinv & Hne2); try done.
  { cbn. by rewrite <-app_assoc. }
  { by rewrite <-app_assoc. }
  split_and!; [by etrans| |done]. revert Hinv. unfold server_step, sys1. cbn.
  by rewrite <-(accepted_since_trans _ w1 w2), app_assoc, app_nil_r by done.
Qed.

Lemma server_poll_inv sys s' w' name ev :
  sys_inv sys -> Services.poll (sy_server sys) (sy_server_wire sys) = (s', w', (name, ev)) ->
  sys_inv (server_step sys s' w'
    (if bool_decide (se_type ev = ServerEventType_NONE) then [] else [ServerSaw name ev])).
Proof.
  intros Hs. unfold Services.poll.
  destruct (Services.poll_runtime_events _ _) as [rest r] eqn:Hr.
  apply poll_runtime_cases in Hr as [Hrest Hr]; [|apply Hs].
  destruct r as [[[i a'] ev']|].
  - destruct Hr as (a & Ha & Hn & He & Hev). intros [= <- <- <- <-].
    eapply server_call_inv; [done|done|done|done|done|]. rewrite He, Hn.
    apply idle_server_effect. case_bool_decide; [by left|]. right. by eexists.
  - destruct (Services.poll_actions _ _) as [[acts w1] res] eqn:Hp. intros [= <- <- Hres].
    destruct (poll_actions_inv (sacts sys) [] sys acts w1 res
      (Services.set_runtime_events rest (Services.set_actions acts (sy_server sys))))
      as (_ & Hinv & Hne); [done..|].
    destruct res as [[n ev']|]; injection Hres as <- <-; [|done].
    by rewrite (bool_decide_eq_false_2 _ (Hne _ _ eq_refl)).
Qed.

(** ** The client's calls *)

Lemma transmit_named name c w s g k d w' r :
  named_routing name (ClientEp.cl_slot_routing c) ->
  ClientEp.transmit_request c w s g k d = (w', r) -> sends_named name w w'.
Proof.
  intros Hn. unfold ClientEp.transmit_request.
  repeat (split_guard; try (intros [= <- <-]; apply sends_named_refl)).
  all: intros [= <- <-]; eapply endpoint_send_named; [done|];
    eapply Hn, list_elem_of_lookup_2; done.
Qed.

Lemma reserve_routing c g t now :
  ClientEp.cl_slot_routing (ClientEp.reserve_goal c g t now).1 = ClientEp.cl_slot_routing c.
Proof. unfold ClientEp.reserve_goal. by repeat (split_guard; try done). Qed.

Lemma rollback_routing c g :
  ClientEp.cl_slot_routing (ClientEp.rollback_goal c g) = ClientEp.cl_slot_routing c.
Proof.
  unfold ClientEp.rollback_goal, ClientEp.release_binding_locked. by repeat (split_guard; try done).
Qed.

Lemma send_goal_named name c w d g t now c' w' r :
  ClientEp.send_goal_with_result c w d g t now = (c', w', r) ->
  ClientEp.cl_slot_routing c' = ClientEp.cl_slot_routing c
  /\ (named_routing name (ClientEp.cl_slot_routing c) -> sends_named name w w').
Proof.
  unfold ClientEp.send_goal_with_result. pose proof (reserve_routing c g t now) as Hr.
  destruct (ClientEp.reserve_goal c g t now) as [c1 [res|s]]; cbn in Hr.
  { intros [= <- <- <-]. split; [done|]. intros _. apply sends_named_refl. }
  destruct (ClientEp.transmit_request _ _ _ _ _ _) as [w1 res] eqn:Ht.
  assert (Hn : named_routing name (ClientEp.cl_slot_routing c) -> sends_named name w w1).
  { rewrite <-Hr. intros Hn. by eapply transmit_named. }
  split_guard; intros [= <- <- <-]; (split; [|done]); by rewrite ?rollback_routing.
Qed.

Lemma send_cancel_named name c w h c' w' r :
  ClientEp.send_cancel c w h = (c', w', r) ->
  ClientEp.cl_slot_routing c' = ClientEp.cl_slot_routing c
  /\ (named_routing name (ClientEp.cl_slot_routing c) -> sends_named name w w').
Proof.
  unfold ClientEp.send_cancel.
  assert (Hroll : forall c1, ClientEp.cl_slot_routing (ClientEp.rollback_cancel c1 h)
                             = ClientEp.cl_slot_routing c1).
  { intros c1. unfold ClientEp.rollback_cancel. by repeat (split_guard; try done). }
  destruct (ClientEp.commit_cancel c h) as [[c1 b]|] eqn:Hc.
  2:{ intros [= <- <- <-]. split; [done|]. intros _. apply sends_named_refl. }
  assert (Hr : ClientEp.cl_slot_routing c1 = ClientEp.cl_slot_routing c).
  { revert Hc. unfold ClientEp.commit_cancel. repeat (split_guard; try done). by intros [= <- _]. }
  destruct (ClientEp.create_control_request_packet c1) as [pk|].
  2:{ intros [= <- <- <-]. split; [by rewrite Hroll|]. intros _. apply sends_named_refl. }
  destruct (ClientEp.transmit_request _ _ _ _ _ _) as [w1 res] eqn:Ht.
  assert (Hn : named_routing name (ClientEp.cl_slot_routing c) -> sends_named name w w1).
  { rewrite <-Hr. intros Hn. by eapply transmit_named. }
  split_guard; intros [= <- <- <-]; (split; [|done]); by rewrite ?Hroll.
Qed.

(** One delivered request is one goal sent if it is a goal request. *)
Lemma goals_sent_one rs g g' w r kind data :
  r ∈ rs ->
  pdu2cpp_ActionRequestHeader data
    = Some (mkActionRequestHeader ACTION_PROTOCOL_VERSION kind [0; 0]%Z g') ->
  ActionNetwork.goals_sent rs g (w ++ [mkSendRecord (rt_request r) data true])
  = ActionNetwork.goals_sent rs g w
    + (if (kind =? REQUEST_KIND_GOAL)%Z && bool_decide (g' = g) then 1 else 0).
Proof.
  intros Hr Hh. unfold ActionNetwork.goals_sent. rewrite List.filter_app, length_app. f_equal.
  cbn. unfold ActionNetwork.is_goal_packet. cbn. rewrite Hh. cbn.
  replace (existsb _ rs) with true; [by destruct (_ && _)|]. symmetry. apply existsb_exists.
  exists r. split; [by apply list_elem_of_In|]. by apply bool_decide_eq_true.
Qed.

Lemma goals_sent_failed rs g w w' :
  sent_one w w' false -> ActionNetwork.goals_sent rs g w' = ActionNetwork.goals_sent rs g w.
Proof.
  intros (rec & -> & Hf). unfold ActionNetwork.goals_sent. rewrite List.filter_app, length_app.
  cbn. unfold ActionNetwork.is_goal_packet at 2. rewrite Hf. cbn. lia.
Qed.

Lemma send_goal_effect name c w d g t now c' w' r h :
  ClientEp.send_goal_with_result c w d g t now = (c', w', (r, h)) ->
  client_effect name c w c' w'
    (if bool_decide (r = GoalSendResult_SUCCESS) then [ClientSent name g] else []).
Proof.
  intros Hop. destruct (send_goal_named name _ _ _ _ _ _ _ _ _ Hop) as [Hr Hn].
  split; [by case_bool_decide; repeat constructor|done|done|..].
  - intros Hwf. pose proof (ActionNetwork.send_goal_call c w d g t now Hwf) as Hc. cbn in Hc.
    rewrite Hop in Hc. eexists. split; [exact Hc|]. by case_bool_decide.
  - intros g' Hwf.
    apply ClientEpProps.send_goal_cases in Hop
      as [(Hne & -> & _ & Hw)|(-> & _ & s & _ & rt & data & Hrt & -> & _ & Hh)]; [..|done].
    + rewrite bool_decide_eq_false_2 by done. change (tally _ []) with 0. rewrite Nat.add_0_r.
      destruct r; try done; try (by destruct Hw as [-> _]).
      by apply goals_sent_failed.
    + rewrite bool_decide_eq_true_2 by done.
      rewrite (goals_sent_one _ _ g _ _ REQUEST_KIND_GOAL); [|by eapply list_elem_of_lookup_2|done].
      f_equal. unfold tally. cbn. rewrite (bool_decide_eq_true_2 (name = name)) by done. cbn.
      by case_bool_decide.
Qed.

Lemma send_cancel_effect name c w h c' w' r :
  ClientEp.send_cancel c w h = (c', w', r) -> client_effect name c w c' w' [].
Proof.
  intros Hop. destruct (send_cancel_named name _ _ _ _ _ _ Hop) as [Hr Hn].
  split; [constructor|done|done|..].
  - intros Hwf. pose proof (ActionNetwork.send_cancel_call c w h Hwf) as Hc. cbn in Hc.
    rewrite Hop in Hc. by eexists.
  - intros g Hwf. change (tally _ []) with 0. rewrite Nat.add_0_r.
    apply ClientEpProps.send_cancel_cases in Hop. destruct r.
    + destruct Hop as (b & _ & _ & _ & rt & data & Hrt & -> & _ & Hh).
      rewrite (goals_sent_one _ _ (cgh_goal_id h) _ _ REQUEST_KIND_CANCEL);
        [cbn; lia|by eapply list_elem_of_lookup_2|done].
    + destruct Hop as [_ [-> |Hw]]; [done|]. by apply goals_sent_failed.
Qed.

Lemma client_poll_routing c now c' ev :
  ClientEp.poll c now = (c', ev) -> ClientEp.cl_slot_routing c' = ClientEp.cl_slot_routing c.
Proof. by intros (? & _)%ActionNetwork.client_poll_flow. Qed.

(** The event shown says no more than the endpoint's. *)
Definition shows_less (ev' ev : ClientEvent) : Prop :=
  (forall g st, is_result_with g st ev' = true -> is_result_with g st ev = true)
  /\ forall g, ActionNetwork.is_acceptance_event g ev' = true ->
       ActionNetwork.is_acceptance_event g ev = true.

Lemma client_poll_effect name c w now c' ev notes :
  ClientEp.poll c now = (c', ev) ->
  (notes = [] \/ exists ev', notes = [ClientSaw name ev'] /\ shows_less ev' ev) ->
  client_effect name c w c' w notes.
Proof.
  intros Hp Hn. split.
  - destruct Hn as [-> |(ev' & -> & _)]; by repeat constructor.
  - intros _. apply sends_named_refl.
  - by eapply client_poll_routing.
  - intros Hwf. pose proof (ActionNetwork.poll_call c w now Hwf) as Hc. cbn in Hc.
    rewrite Hp in Hc. exists [ev]. split; [exact Hc|].
    destruct Hn as [-> |(ev' & -> & Hr & Ha)]; [split; intros; apply Nat.le_0_l|].
    unfold tally. cbn.
    rewrite (bool_decide_eq_true_2 (name = name)) by done. cbn. split.
    + intros g st. specialize (Hr g st). destruct (is_result_with g st ev'); [|cbn; lia].
      rewrite Hr by done. done.
    + intros g. specialize (Ha g). destruct (ActionNetwork.is_acceptance_event g ev');
        [|cbn; lia]. rewrite Ha by done. done.
  - intros g _. destruct Hn as [-> |(ev' & -> & _)]; unfold tally; cbn; lia.
Qed.

Lemma renamed_shows_less name ev : shows_less (ClientServices.with_action_name name ev) ev.
Proof. by split. Qed.

Lemma other_shows_less ev' ev :
  ce_type ev' = ClientEventType_ERROR -> shows_less ev' ev.
Proof.
  intros Ht. split; [intros g st|intros g]; unfold is_result_with, ActionNetwork.is_result_event,
    ActionNetwork.is_acceptance_event; by rewrite Ht.
Qed.

(** The handlers change the goals of the Action only. *)
Lemma client_poll_action_effect (a : ClientServices.ActionInstance ClientEp.ClientEndpoint)
    w now a' ev :
  ClientServices.poll_action a now = (a', ev) ->
  cname a' = cname a
  /\ client_effect (cname a) (cep a) w (cep a') w
       (if bool_decide (ce_type ev = ClientEventType_NONE) then [] else [ClientSaw (cname a) ev]).
Proof.
  unfold ClientServices.poll_action.
  change (ic_poll (ClientServices.ai_endpoint a) now) with (ClientEp.poll (cep a) now).
  destruct (ClientEp.poll (cep a) now) as [e ev0] eqn:Hp.
  set (a1 := ClientServices.set_endpoint e a).
  set (ev1 := ClientServices.with_action_name (cname a) ev0).
  assert (H : forall a2 ev2, (a2, ev2) = (a', ev) ->
    cname a2 = cname a1 -> cep a2 = cep a1 ->
    (ev2 = ev1 \/ ev2 = empty_client_event \/ ce_type ev2 = ClientEventType_ERROR) ->
    cname a' = cname a /\ client_effect (cname a) (cep a) w (cep a') w
       (if bool_decide (ce_type ev = ClientEventType_NONE) then [] else [ClientSaw (cname a) ev])).
  { intros a2 ev2 [= -> ->] Hn He Hev. split; [done|]. rewrite He.
    eapply client_poll_effect; [done|]. case_bool_decide as Ht; [by left|]. right.
    exists ev. split; [done|]. destruct Hev as [-> |[-> |Her]];
      [apply renamed_shows_less|by destruct Ht|by apply other_shows_less]. }
  assert (Hap : forall k gi se, let '(a2, ev2) := ClientServices.apply_transition a1 k gi se ev1 in
    cname a2 = cname a1 /\ cep a2 = cep a1
    /\ (ev2 = ev1 \/ ev2 = empty_client_event \/ ce_type ev2 = ClientEventType_ERROR)).
  { intros k gi se. unfold ClientServices.apply_transition. repeat (split_guard; auto). }
  assert (Hrm : forall g, cname (ClientServices.remove_goal_locked a1 g) = cname a1
                          /\ cep (ClientServices.remove_goal_locked a1 g) = cep a1).
  { intros g. unfold ClientServices.remove_goal_locked. by repeat split_guard. }
  unfold ClientServices.handle_goal_response_locked, ClientServices.handle_feedback_locked,
    ClientServices.handle_cancel_response_locked, ClientServices.handle_result_locked.
  intros Heq.
  repeat match type of Heq with
  | (_, _) = _ => eapply H; [exact Heq|..]; try done; try apply Hrm; auto
  | ClientServices.apply_transition _ ?k ?gi ?se _ = _ =>
      specialize (Hap k gi se); rewrite Heq in Hap; destruct Hap as (? & ? & ?);
      eapply H; try done
  | _ => split_guard_in Heq
  end.
Qed.

Lemma client_poll_actions_inv acts pre sys clock acts' name ev s' :
  sys_inv sys -> cacts sys = pre ++ acts ->
  ClientServices.poll_actions acts clock = (acts', (name, ev)) ->
  ClientServices.sc_actions s' = pre ++ acts' ->
  sys_inv (client_step sys s' (sy_client_wire sys)
    (if bool_decide (ce_type ev = ClientEventType_NONE) then [] else [ClientSaw name ev])).
Proof.
  revert pre sys clock acts'.
  induction acts as [|a acts IH]; intros pre sys clock acts' Hs Hl Hp Hs'.
  { injection Hp as <- <- <-. cbn. apply (sys_inv_step sys); cbn; try done.
    - by rewrite Hs', Hl.
    - intros; by simplify_eq.
    - rewrite Hs', <-Hl. intros; by simplify_eq.
    - apply Hs.
    - rewrite Hs', <-Hl. intros i x x' j b b' ? ? ? ? ? Hact. simplify_eq. unfold sys_act. cbn.
      by rewrite accepted_since_refl, !app_nil_r. }
  assert (Ha : cacts sys !! length pre = Some a) by (rewrite Hl; by apply list_lookup_middle).
  cbn in Hp. destruct (ClientServices.poll_action a _) as [a1 ev1] eqn:Hpa.
  apply (client_poll_action_effect _ (sy_client_wire sys)) in Hpa as [Hn Heff].
  assert (Hins : <[length pre := a1]> (cacts sys) = pre ++ a1 :: acts).
  { rewrite Hl, insert_app_r_alt, Nat.sub_diag by done. done. }
  destruct (bool_decide (ce_type ev1 = ClientEventType_NONE)) eqn:Hnone.
  2:{ injection Hp as <- <- <-. rewrite Hnone.
      eapply client_call_inv; [done|done|by rewrite Hins|done|done]. }
  destruct (ClientServices.poll_actions acts _) as [rest [n2 ev2]] eqn:Hrest.
  injection Hp as <- <- <-.
  set (sys1 := client_step sys (ClientServices.set_actions (pre ++ a1 :: acts) (sy_client sys))
                 (sy_client_wire sys) []).
  assert (Hs1 : sys_inv sys1).
  { eapply client_call_inv; [done|done|by rewrite Hins|done|done]. }
  assert (Hinv : sys_inv (client_step sys1 s' (sy_client_wire sys1)
    (if bool_decide (ce_type ev2 = ClientEventType_NONE) then [] else [ClientSaw n2 ev2]))).
  { eapply (IH (pre ++ [a1])); [done|cbn; by rewrite <-app_assoc|done|by rewrite <-app_assoc]. }
  revert Hinv. unfold client_step, sys1. cbn -[accepted_since].
  by rewrite !accepted_since_refl, !app_nil_r.
Qed.

Lemma client_action_found (s : ClientNode) name i a :
  ClientServices.get_action_locked s name = Some (i, a) ->
  ClientServices.sc_actions s !! i = Some a /\ cname a = name.
Proof. by intros (? & ? & _)%list_find_Some. Qed.

Lemma client_put_inv sys i b b' w' notes :
  sys_inv sys -> cacts sys !! i = Some b -> cname b' = cname b ->
  client_effect (cname b) (cep b) (sy_client_wire sys) (cep b') w' notes ->
  sys_inv (client_step sys (ClientServices.put_action i b' (sy_client sys)) w' notes).
Proof. intros Hs Ha Hn He. by eapply client_call_inv. Qed.

Lemma client_send_goal_inv sys name d g t now s' w' r h :
  sys_inv sys ->
  ClientServices.send_goal_with_result (sy_client sys) (sy_client_wire sys) name d g t now
  = (s', w', (r, h)) ->
  sys_inv (client_step sys s' w'
    (if bool_decide (r = GoalSendResult_SUCCESS) then [ClientSent name g] else [])).
Proof.
  intros Hs. unfold ClientServices.send_goal_with_result.
  split_guard; [intros [= <- <- <- <-]; by rewrite client_step_id|].
  destruct (ClientServices.get_action_locked _ name) as [[i a]|] eqn:Ha;
    [|intros [= <- <- <- <-]; by rewrite client_step_id].
  apply client_action_found in Ha as [Ha <-].
  split_guard; [intros [= <- <- <- <-]; by rewrite client_step_id|].
  change (ic_send_goal_with_result (ClientServices.ai_endpoint a))
    with (ClientEp.send_goal_with_result (cep a)).
  destruct (ClientEp.send_goal_with_result _ _ _ _ _ _) as [[e w1] [r1 h1]] eqn:Hop.
  intros [= <- <- <- <-]. eapply client_put_inv; [done|done|done|].
  by eapply send_goal_effect.
Qed.

Lemma client_send_cancel_inv sys name h s' w' r :
  sys_inv sys ->
  ClientServices.send_cancel (sy_client sys) (sy_client_wire sys) name h = (s', w', r) ->
  sys_inv (client_step sys s' w' []).
Proof.
  intros Hs. unfold ClientServices.send_cancel.
  split_guard; [intros [= <- <- <-]; by rewrite client_step_id|].
  destruct (ClientServices.get_action_locked _ name) as [[i a]|] eqn:Ha;
    [|intros [= <- <- <-]; by rewrite client_step_id].
  apply client_action_found in Ha as [Ha <-].
  destruct (ClientServices.get_goal_locked a _) as [[k gi]|];
    [|intros [= <- <- <-]; by rewrite client_step_id].
  do 2 (split_guard; [intros [= <- <- <-]; by rewrite client_step_id|]).
  change (ic_send_cancel (ClientServices.ai_endpoint a)) with (ClientEp.send_cancel (cep a)).
  destruct (ClientEp.send_cancel _ _ h) as [[e w1] sent] eqn:Hop.
  apply (send_cancel_effect (cname a)) in Hop.
  destruct sent; intros [= <- <- <-]; by eapply client_put_inv.
Qed.

Lemma client_op_inv sys op sys' :
  sys_inv sys -> run_client_op sys op = Some sys' -> sys_inv sys'.
Proof.
  intros Hs. destruct op; cbn; try done.
  - destruct (ClientServices.send_goal_with_result _ _ _ _ _ _ _) as [[s' w'] [r h]] eqn:Hop.
    intros [= <-]. by eapply client_send_goal_inv.
  - destruct (ClientServices.send_cancel _ _ _ _) as [[s' w'] r] eqn:Hop. intros [= <-].
    by eapply client_send_cancel_inv.
  - unfold ClientServices.poll.
    destruct (ClientServices.poll_actions _ _) as [acts [name ev]] eqn:Hop. intros [= <-].
    by eapply (client_poll_actions_inv (cacts sys) []).
  - intros [= <-]. eapply client_all_inv; [done|done|done|]. intros a. cbn.
    apply silent_client_effect; [done|]. intros Hwf.
    by apply ActionNetwork.clear_call; [apply ClientEpFacts.set_packets_wf|..].
  - intros [= <-]. eapply client_all_inv; [done|done|done|]. intros a. cbn.
    apply silent_client_effect; [done|]. intros Hwf.
    by apply ActionNetwork.clear_call; [apply ClientEpFacts.cl_reset_contexts_wf|..].
Qed.

Lemma server_op_inv sys op sys' :
  sys_inv sys -> ServicesNetwork.run_server_op sys op = Some sys' -> sys_inv sys'.
Proof.
  intros Hs. destruct op; cbn; try done.
  - destruct (Services.poll _ _) as [[s' w'] [name ev]] eqn:Hp. intros [= <-].
    by eapply server_poll_inv.
  - intros [= <-]. eapply served_inv; [done|apply accept_goal_served].
  - intros [= <-]. eapply served_inv; [done|apply reject_goal_served].
  - intros [= <-]. eapply served_inv; [done|apply accept_cancel_served].
  - intros [= <-]. eapply served_inv; [done|apply reject_cancel_served].
  - intros [= <-]. eapply served_inv; [done|apply feedback_served].
  - intros [= <-]. eapply served_inv; [done|apply complete_served].
  - intros [= <-]. eapply served_inv; [done|apply complete_locally_served].
  - pose proof (discard_inv sys name h Hs) as Hd.
    destruct (Services.discard_pending_goal _ name h) as [s' r]. by intros [= <-].
  - intros [= <-]. by apply disconnected_inv.
  - intros [= <-]. by eapply (server_all_inv _ _ _ ActionNetwork.SrvClear).
  - intros [= <-]. by eapply (server_all_inv _ _ _ ActionNetwork.SrvReset).
Qed.

Lemma run_sys_op_inv sys op : sys_inv sys -> sys_inv (run_sys_op sys op).
Proof.
  intros Hs. unfold run_sys_op.
  destruct (run_client_op sys op) as [sys'|] eqn:Hc; [by eapply client_op_inv|].
  destruct (ServicesNetwork.run_server_op sys op) as [sys'|] eqn:Hso; [by eapply server_op_inv|].
  cbn. destruct op; try done; cbn.
  - by apply sys_deliver_to_server_inv.
  - by apply sys_deliver_to_client_inv.
  - by apply sys_flights_inv.
  - by apply sys_flights_inv.
Qed.

Lemma run_sys_inv ops sys : sys_inv sys -> sys_inv (run_sys sys ops).
Proof.
  unfold run_sys. revert sys. induction ops as [|op ops IH]; intros sys Hs; [done|]. cbn.
  by apply IH, run_sys_op_inv.
Qed.
End Invariant.
End ServicesNetInv.
