(* ===== verification/ServicesNetworkProps.v ===== *)
(** * The Action stack end to end

    Two nodes configured alike start in the invariant of [ServicesNetworkInv];
    what it means for the two applications in terms of their own calls. *)

From S2P Require Import Prelude ActionTypes ActionConfiguration PduPacket Routing.
From S2P Require Import NetworkFlow ServerInterface ServerEndpoint ServerEndpointFacts.
From S2P Require Import ServerEndpointProps.
From S2P Require Import ClientInterface ClientEndpoint ClientEndpointFacts ClientEndpointProps.
From S2P Require Import ClientContract.
From S2P Require Import EndToEnd ActionNetwork ServerStateMachine ClientStateMachine.
From S2P Require Import ServicesServer ServicesServerProps ServicesClient ServicesClientProps.
From S2P Require Import ServicesNetwork ServicesNetworkInv.
From Stdlib Require Import ZArith Lia.
From stdpp Require Import base gmap strings list fin_maps relations.

Module ServicesNetProps.
Import ActionConfig RoutingTable ServerIface ClientIface ServerEpFacts ServerSM.
Import ServicesNetwork ServicesNetInv.
#[local] Existing Instance ServerEpFacts.impl_server_endpoint.
#[local] Existing Instance ClientContract.impl_client_endpoint.

(** ** Two nodes with one configuration *)

Section Start.
Context {P : PduPlatform} {HL : PduPlatformLaws P} {T : Transport}.

(** Both services were initialised from one configuration, whatever the nodes
    are called and whichever of its Actions they have. *)
Definition configured (c : ClientNode) (s : ServerServices) : Prop :=
  exists root cn ci ct container sn si st container' override,
    ClientServices.initialize_services (ClientServices.new_services_client cn ci ct)
      container (Some root) = (c, true)
    /\ Services.initialize_services_impl (Services.new_services_server sn si st)
         container' override (Some root) = (s, true).

Lemma zip_name_unique (ds : list ActionDefinition) (js : list json) d j d' j' :
  NoDup (ad_name <$> ds) -> (d, j) ∈ zip ds js -> (d', j') ∈ zip ds js ->
  ad_name d = ad_name d' -> j = j'.
Proof.
  intros Hn [i Hi]%list_elem_of_lookup [k Hk]%list_elem_of_lookup Heq.
  apply lookup_zip_with_Some in Hi as (? & ? & [= <- <-] & Hd & Hj).
  apply lookup_zip_with_Some in Hk as (? & ? & [= <- <-] & Hd' & Hj').
  assert (i = k) as <-; [|congruence].
  eapply (NoDup_lookup (ad_name <$> ds)); [done|..]; rewrite list_lookup_fmap;
    [by rewrite Hd|by rewrite Hd', Heq].
Qed.

Lemma server_initialize_named n b ts j e :
  ServerEp.initialize (ServerEp.new_server_endpoint n b ts) j = (e, true) ->
  named_routing n (ServerEp.ep_slot_routing e).
Proof.
  unfold ServerEp.initialize. destruct (parse_action j) as [d|] eqn:Hp; [|done].
  repeat (split_guard; try done). intros [= <-]. cbn in *. apply parse_action_wf in Hp.
  match goal with H : build_routing _ _ = Some _ |- _ =>
    apply build_routing_spec in H as [_ Hr]; [|done] end.
  intros r [s Hs]%list_elem_of_lookup. destruct (Hr _ _ Hs) as [_ -> -> ->]. done.
Qed.

Lemma client_initialize_named n b ts j c :
  ClientEp.initialize (ClientEp.new_client_endpoint n b ts) j = (c, true) ->
  named_routing n (ClientEp.cl_slot_routing c).
Proof.
  unfold ClientEp.initialize. destruct (parse_action j) as [d|] eqn:Hp; [|done].
  repeat (split_guard; try done). intros [= <-]. cbn in *. apply parse_action_wf in Hp.
  rewrite ClientEpFacts.client_build_routing_same in *.
  match goal with H : build_routing _ _ = Some _ |- _ =>
    apply build_routing_spec in H as [_ Hr]; [|done] end.
  intros r [s Hs]%list_elem_of_lookup. destruct (Hr _ _ Hs) as [_ -> -> ->]. done.
Qed.

Definition server_made (ds : list (ActionDefinition * json))
    (a : Services.ActionInstance ServerEp.ServerEndpoint) : Prop :=
  exists d j ts, (d, j) ∈ ds /\ sname a = ad_name d
    /\ ServerEp.initialize (ServerEp.new_server_endpoint (ad_name d) true ts) j = (sep a, true).

Definition client_made (ds : list (ActionDefinition * json))
    (a : ClientServices.ActionInstance ClientEp.ClientEndpoint) : Prop :=
  exists d j ts, (d, j) ∈ ds /\ cname a = ad_name d
    /\ ClientEp.initialize (ClientEp.new_client_endpoint (ad_name d) true ts) j = (cep a, true).

Lemma server_init_actions (s : ServerServices) cont ov ds l :
  Services.init_actions s cont ov ds = Some l ->
  (sname <$> l) `sublist_of` (ad_name <$> ds.*1) /\ Forall (server_made ds) l.
Proof.
  assert (Hm : forall x ds l, Forall (server_made ds) l -> Forall (server_made (x :: ds)) l).
  { intros x ds0 l0 Hf. eapply Forall_impl; [exact Hf|]. intros a (d & j & ts & Hin & ?).
    exists d, j, ts. split; [by right|done]. }
  revert l. induction ds as [|[d j] ds IH]; intros l; cbn; [by intros [= <-]|].
  split_guard. { intros [? ?]%IH. split; [by apply sublist_cons|auto]. }
  destruct (negb (_ || _)); [done|].
  destruct (negb (bool_decide (Services.ss_impl_type s = _))); [done|].
  destruct (ServerEp.initialize _ j) as [e ok] eqn:Hi. split_guard; [done|].
  destruct (Services.init_actions s cont ov ds) as [l0|]; [|done]. intros [= <-].
  destruct (IH l0 eq_refl) as [Hs Hl]. split; [by apply sublist_skip|].
  constructor; [|auto]. eexists d, j, _. split; [by left|]. split; [done|].
  cbn. by destruct ok.
Qed.

Lemma client_init_actions (s : ClientNode) ref ds l :
  ClientServices.init_actions s ref ds = Some l ->
  (cname <$> l) `sublist_of` (ad_name <$> ds.*1) /\ Forall (client_made ds) l.
Proof.
  assert (Hm : forall x ds l, Forall (client_made ds) l -> Forall (client_made (x :: ds)) l).
  { intros x ds0 l0 Hf. eapply Forall_impl; [exact Hf|]. intros a (d & j & ts & Hin & ?).
    exists d, j, ts. split; [by right|done]. }
  revert l. induction ds as [|[d j] ds IH]; intros l; cbn; [by intros [= <-]|].
  split_guard. { intros [? ?]%IH. split; [by apply sublist_cons|auto]. }
  destruct (negb (ref _)); [done|].
  destruct (negb (bool_decide (ClientServices.sc_impl_type s = _))); [done|].
  destruct (ClientEp.initialize _ j) as [e ok] eqn:Hi. split_guard; [done|].
  destruct (ClientServices.init_actions s ref ds) as [l0|]; [|done]. intros [= <-].
  destruct (IH l0 eq_refl) as [Hs Hl]. split; [by apply sublist_skip|].
  constructor; [|auto]. eexists d, j, _. split; [by left|]. split; [done|].
  cbn. by destruct ok.
Qed.

(** A fresh Action: both endpoints initialised, nothing sent. *)
Lemma fresh_act name n j ts ts' c e :
  ClientEp.initialize (ClientEp.new_client_endpoint n true ts) j = (c, true) ->
  ServerEp.initialize (ServerEp.new_server_endpoint n true ts') j = (e, true) ->
  act_inv name c [] e [] [] [] [] [].
Proof.
  intros Hc He. split; try done. exists [], []. split_and!; try done.
  change (ActionNetwork.net_inv (ActionNetwork.network_start c e)).
  apply ActionNetwork.started_inv. by exists j, n, true, ts, n, true, ts', c, e.
Qed.

Lemma configured_inv c s :
  configured c s ->
  sys_inv (sname <$> Services.ss_actions s) (cname <$> ClientServices.sc_actions c)
    (system_start c s).
Proof.
  intros (root & cn & ci & ct & cont & sn & si & st & cont' & ov & Hc & Hs). revert Hc Hs.
  unfold ClientServices.initialize_services, Services.initialize_services_impl.
  destruct cont as [ref|]; [|done]. split_guard; [done|].
  destruct (parse root) as [conf|] eqn:Hp; [|done].
  destruct (json_find root "actions") as [[| | | | | |entries|]|] eqn:Hf; try done.
  destruct (ClientServices.init_actions _ _ _) as [lc|] eqn:Hic; [|done].
  destruct (_ && negb ov); [done|]. rewrite bool_decide_eq_true_2 by done. cbn [negb].
  destruct (Services.init_actions _ _ _ _) as [ls|] eqn:His; [|done]. intros [= <-] [= <-].
  apply client_init_actions in Hic as [Hcs Hcm]. apply server_init_actions in His as [Hss Hsm].
  unfold parse in Hp. rewrite Hf in Hp. destruct (negb (json_is_object root)); [done|].
  assert (Hpe : parse_actions [] entries = inl conf) by (by destruct entries).
  destruct (parse_actions_sound _ _ _ Hpe) as (Hf2 & Hnd & _).
  rewrite fst_zip in Hcs, Hss by (rewrite (Forall2_length _ _ _ Hf2); done).
  rewrite Forall_forall in Hcm. rewrite Forall_forall in Hsm. split; cbn; try done.
  - by eapply sublist_NoDup.
  - by eapply sublist_NoDup.
  - intros i a Ha%list_elem_of_lookup_2. destruct (Hsm _ Ha) as (d & j & ts & _ & -> & Hi).
    by eapply server_initialize_named.
  - intros i a Ha%list_elem_of_lookup_2. destruct (Hcm _ Ha) as (d & j & ts & _ & -> & Hi).
    by eapply client_initialize_named.
  - intros i a k b Ha%list_elem_of_lookup_2 Hb%list_elem_of_lookup_2 Heq.
    destruct (Hsm _ Ha) as (d & j & ts & Hin & Hn & Hi).
    destruct (Hcm _ Hb) as (d' & j' & ts' & Hin' & Hn' & Hi').
    assert (Hd : ad_name d' = ad_name d) by congruence.
    rewrite (zip_name_unique _ _ _ _ _ _ Hnd Hin' Hin Hd), Hd in Hi'.
    by eapply fresh_act.
Qed.
End Start.

(** ** Counting *)

Section Counting.
Context {P : PduPlatform} {HL : PduPlatformLaws P} {T : Transport}.

Lemma result_with_packet rs g st ev rec :
  ActionNetwork.client_shows rs ev rec -> is_result_with g st ev = true ->
  ActionNetwork.response_is rs (is_result_packet g st) rec = true.
Proof.
  unfold is_result_with, ActionNetwork.is_result_event. intros Hs Hev. simpl_bools.
  destruct (ActionNetwork.client_shows_response rs ev rec Hs) as (hd & Hh & Hr); [congruence|].
  unfold ActionNetwork.response_is, ActionNetwork.response_shown, is_result_packet in *.
  rewrite Hr. repeat match goal with H : _ ev = _ |- _ => rewrite H in Hh; clear H end.
  destruct Hh as [-> ->]. by rewrite bool_decide_eq_true_2 by congruence.
Qed.

Definition completed_any (name : string) (g : GoalId) (n : server_note) : bool :=
  match n with
  | ServerCompleted m h _ => bool_decide (m = name) && bool_decide (h = g)
  | _ => false
  end.

Definition statuses : list TerminalStatus :=
  [TerminalStatus_UNSPECIFIED; TerminalStatus_SUCCEEDED; TerminalStatus_CANCELED;
   TerminalStatus_ABORTED].

Lemma completed_any_sum name g l :
  tally (completed_any name g) l
  = sum_list_with (fun st => tally (completed_goal name g st) l) statuses.
Proof.
  unfold tally. induction l as [|n l IH]; [done|]. cbn in *.
  destruct n as [| |m h st]; cbn; [lia|lia|].
  destruct (bool_decide (m = name) && bool_decide (h = g)); cbn; [|lia].
  destruct st; repeat case_bool_decide; try done; cbn; lia.
Qed.

Lemma result_packet_status g x :
  sum_list_with (fun st => if is_result_packet g st x then 1 else 0) statuses
  <= if ServerEpProps.is_result g x then 1 else 0.
Proof.
  destruct (ServerEpProps.is_result g x) eqn:Hx; cbn.
  - unfold is_result_packet. cbn. repeat case_bool_decide; subst; try done; lia.
  - assert (Hf : forall st, is_result_packet g st x = false).
    { intros st. apply bool_decide_eq_false_2. intros ->. unfold ServerEpProps.is_result in Hx.
      cbn in Hx. by rewrite bool_decide_eq_true_2 in Hx. }
    by rewrite !Hf.
Qed.

Lemma results_sum g tr :
  sum_list_with (fun st => ServerEpProps.count (is_result_packet g st) tr) statuses
  <= ServerEpProps.count (ServerEpProps.is_result g) tr.
Proof.
  assert (Hc : forall f x tr, ServerEpProps.count f (x :: tr)
                = (if f x then 1 else 0) + ServerEpProps.count f tr).
  { intros f x tr'. unfold ServerEpProps.count. cbn. by destruct (f x). }
  induction tr as [|x tr IH]; [done|]. cbn [sum_list_with statuses] in *. rewrite !Hc.
  pose proof (result_packet_status g x) as Hx. cbn [sum_list_with statuses] in Hx. lia.
Qed.

(** Of one Action: results seen, results sent, acceptances, requests, goals. *)
Lemma act_results name c cw e sw ts tc clog slog g st :
  act_inv name c cw e sw ts tc clog slog ->
  tally (saw_result name g st) clog <= tally (completed_goal name g st) slog.
Proof.
  intros [(cevs & sevs & Hn & _ & Hres & _) _ Hc _]. rewrite <-Hc, ActionNetwork.count_responses.
  etrans; [apply Hres|]. apply ActionNetwork.ni_to_client, flow_shown in Hn as (ss & Hss & Hw).
  cbn in *. unfold tally. rewrite <-(filter_weaken _ ActionNetwork.from_packet).
  - eapply shown_count; [exact Hss|exact Hw|]. apply result_with_packet.
  - unfold is_result_with, ActionNetwork.is_result_event, ActionNetwork.from_packet.
    intros ev Hev. simpl_bools. by destruct (ce_type ev).
Qed.

Lemma act_completions name c cw e sw ts tc clog slog g :
  act_inv name c cw e sw ts tc clog slog ->
  tally (completed_any name g) slog <= tally (accepted_goal name g) slog.
Proof.
  intros [(cevs & sevs & Hn & _) Ha Hc _]. rewrite completed_any_sum, <-Ha.
  apply ActionNetwork.ni_trace in Hn. cbn in Hn.
  pose proof (ServerEpProps.ti_balance _ _ Hn g) as Hb.
  pose proof (results_sum g (ServerEpProps.responses (ServerEp.ep_slot_routing e) sw)) as Hs.
  cbn [sum_list_with statuses] in *. rewrite <-!Hc. lia.
Qed.

Lemma act_acceptances name c cw e sw ts tc clog slog g :
  act_inv name c cw e sw ts tc clog slog ->
  tally (saw_acceptance name g) clog <= tally (accepted_goal name g) slog.
Proof.
  intros [(cevs & sevs & Hn & _ & _ & Hacc) Ha _ _]. rewrite <-Ha, ActionNetwork.count_responses.
  etrans; [apply Hacc|]. apply ActionNetwork.ni_to_client, flow_shown in Hn as (ss & Hss & Hw).
  cbn in *. unfold tally. rewrite <-(filter_weaken _ ActionNetwork.from_packet).
  - eapply shown_count; [exact Hss|exact Hw|]. apply ActionNetwork.acceptance_event_packet.
  - unfold ActionNetwork.is_acceptance_event, ActionNetwork.from_packet.
    intros ev Hev. simpl_bools. by destruct (ce_type ev).
Qed.

Lemma act_requests name c cw e sw ts tc clog slog g :
  act_inv name c cw e sw ts tc clog slog ->
  tally (accepted_goal name g) slog <= tally (saw_request name g) slog
  /\ tally (saw_request name g) slog <= tally (sent_goal name g) clog.
Proof.
  intros [(cevs & sevs & Hn & Hreq & _) Ha _ Hs]. rewrite <-Hreq, <-Ha, <-Hs. split.
  - pose proof (ActionNetwork.ni_requested _ Hn g) as Hq. 
    cbn [ActionNetwork.nw_server ActionNetwork.nw_server_wire ActionNetwork.nw_server_events] in Hq.
    lia.
  - apply ActionNetwork.ni_to_server, flow_shown in Hn as (ss & Hss & Hw). cbn in *.
    unfold ActionNetwork.goal_requests. rewrite <-(filter_weaken _
      (fun ev => negb (bool_decide (se_type ev = ServerEventType_NONE)))).
    + eapply shown_count; [exact Hss|exact Hw|]. apply ActionNetwork.goal_request_packet.
    + unfold ActionNetwork.is_goal_request. intros ev Hev. simpl_bools. by destruct (se_type ev).
Qed.
End Counting.

(** ** A run *)

Import ConcretePdu.
#[local] Existing Instance ServerEpProps.Demo.reliable.

Module SysDemo.

Definition client : ClientNode :=
  (ClientServices.initialize_services
     (ClientServices.new_services_client "client" "ActionClientEndpointImpl" true)
     (Some (fun _ => true)) (Some ServicesProps.Demo.config)).1.
Definition server : ServerServices :=
  (Services.initialize_services_impl
     (Services.new_services_server "server" "ActionServerEndpointImpl" true)
     None true (Some ServicesProps.Demo.config)).1.

Definition handle : ServerGoalHandle := ServerEpProps.Demo.handle_1.

(** A goal is sent twice (the second attempt is refused), accepted twice (the
    second is refused), and completed; the result reaches the client. *)
Definition ops : list sys_op :=
  let send := SysSendGoal "fib" ClientEpProps.Demo.goal_packet ServerEpProps.Demo.goal_1 1000 50 in
  [ send; send; SysDeliverToServer 0; SysServerPoll;
    SysAcceptGoal "fib" handle; SysAcceptGoal "fib" handle;
    SysDeliverToClient 0; SysClientPoll (fun _ => 60%Z);
    SysComplete "fib" handle TerminalStatus_SUCCEEDED ServerEpProps.result_packet;
    SysDeliverToClient 0; SysClientPoll (fun _ => 70%Z) ].

Lemma demo_configured : configured client server.
Proof.
  exists ServicesProps.Demo.config, "client", "ActionClientEndpointImpl", true,
    (Some (fun _ => true)), "server", "ActionServerEndpointImpl", true, None, true.
  split.
  - rewrite (surjective_pairing (ClientServices.initialize_services _ _ _)). f_equal; by vm_compute.
  - rewrite (surjective_pairing (Services.initialize_services_impl _ _ _ _)).
    f_equal; by vm_compute.
Qed.
End SysDemo.

(** ** Properties *)

(** C3 — What the two applications of the Action stack can rely on, end to end.
    A client node and a server node are initialised from one configuration, with
    all their Actions over one transport that delays, reorders and loses packets,
    and the applications call the services as they like. For every Action both
    nodes have and every goal id: the client is shown a RESULT with some status
    at most as often as the server's [complete] with that status succeeded; these
    completions are at most as many as the successful [accept_goal] calls; the
    client is shown at most as many acceptances as were made; goals are accepted
    at most as often as the server was shown a GOAL_REQUEST; and that at most as
    often as the client's [send_goal] succeeded. *)
Theorem services_network_accounting {P : PduPlatform} {HL : PduPlatformLaws P} {T : Transport}
    c s ops name g :
  configured c s -> name ∈ sname <$> Services.ss_actions s ->
  name ∈ cname <$> ClientServices.sc_actions c ->
  let sys := run_sys (system_start c s) ops in
  let clog := sy_client_log sys in
  let slog := sy_server_log sys in
  (forall st, tally (saw_result name g st) clog <= tally (completed_goal name g st) slog)
  /\ tally (completed_any name g) slog <= tally (accepted_goal name g) slog
  /\ tally (saw_acceptance name g) clog <= tally (accepted_goal name g) slog
  /\ tally (accepted_goal name g) slog <= tally (saw_request name g) slog
  /\ tally (saw_request name g) slog <= tally (sent_goal name g) clog.
Proof.
  intros Hcf Hsn Hcn sys clog slog.
  pose proof (run_sys_inv _ _ ops _ (configured_inv c s Hcf)) as Hinv. fold sys in Hinv.
  destruct (si_names _ _ _ Hinv) as [Hs Hc]. rewrite <-Hs in Hsn. rewrite <-Hc in Hcn.
  apply list_elem_of_fmap in Hsn as (a & -> & [i Ha]%list_elem_of_lookup).
  apply list_elem_of_fmap in Hcn as (b & Heq & [j Hb]%list_elem_of_lookup).
  pose proof (si_act _ _ _ Hinv i a j b Ha Hb Heq) as Hact.
  destruct (act_requests _ _ _ _ _ _ _ _ _ g Hact) as [Hr1 Hr2].
  split_and!; [by intros st; eapply act_results|by eapply act_completions
    |by eapply act_acceptances|done|done].
Qed.

Lemma services_network_accounting_witness :
  let sys := run_sys (system_start SysDemo.client SysDemo.server) SysDemo.ops in
  tally (saw_result "fib" ServerEpProps.Demo.goal_1 TerminalStatus_SUCCEEDED)
    (sy_client_log sys) = 1
  /\ 1 <= tally (completed_goal "fib" ServerEpProps.Demo.goal_1 TerminalStatus_SUCCEEDED)
            (sy_server_log sys).
Proof.
  intros sys.
  destruct (services_network_accounting SysDemo.client SysDemo.server SysDemo.ops "fib"
    ServerEpProps.Demo.goal_1 SysDemo.demo_configured) as (Hres & _).
  - vm_compute. left.
  - vm_compute. left.
  - assert (H1 : tally (saw_result "fib" ServerEpProps.Demo.goal_1 TerminalStatus_SUCCEEDED)
      (sy_client_log sys) = 1) by (vm_compute; reflexivity).
    split; [exact H1|]. rewrite <-H1 at 1. apply Hres.
Defined.
End ServicesNetProps.
