(* ===== verification/CAction.v ===== *)
(** * The C interface of actions

    src/c_action.cpp and include/hakoniwa/pdu/action/c_action.h. The functions
    of the single-transport server and of the mux server are the same text over
    two services classes; they are defined once over a class of services and
    instantiated for both.

    A handle pointer is an [option]. The transport's endpoint container is
    outside the repository: what its calls return are arguments. The [catch]
    arms, which only an exception of the allocator reaches, are left out. *)

From S2P Require Import Prelude Multiplexer KeyedList ActionTypes CBuffers ActionConfiguration.
From S2P Require Import PduPacket ServerStateMachine ServerInterface ClientInterface.
From S2P Require Import ServicesServer ServicesClient ActionServicesMuxServer.
From Stdlib Require Import ZArith Lia.
From stdpp Require Import base gmap strings list fin_maps.

Module CAction.
Import CBuffers ActionConfig ServerIface ClientIface.

(** ** Types of the header *)

Definition HAKO_PDU_ACTION_NAME_MAX : nat := 128.
Definition HAKO_PDU_ACTION_GOAL_ID_SIZE : nat := 16.

Inductive hako_pdu_action_error_t :=
  | HAKO_PDU_ACTION_OK
  | HAKO_PDU_ACTION_ERROR_INVALID_ARGUMENT
  | HAKO_PDU_ACTION_ERROR_INITIALIZE
  | HAKO_PDU_ACTION_ERROR_START
  | HAKO_PDU_ACTION_ERROR_NOT_RUNNING
  | HAKO_PDU_ACTION_ERROR_SEND
  | HAKO_PDU_ACTION_ERROR_BUFFER_TOO_SMALL
  | HAKO_PDU_ACTION_ERROR_NOT_FOUND
  | HAKO_PDU_ACTION_ERROR_INVALID_STATE
  | HAKO_PDU_ACTION_ERROR_DUPLICATE_GOAL
  | HAKO_PDU_ACTION_ERROR_NO_FREE_SLOT
  | HAKO_PDU_ACTION_ERROR_INVALID_PACKET
  | HAKO_PDU_ACTION_ERROR_INTERNAL.

#[export] Instance action_error_eq_dec : EqDecision hako_pdu_action_error_t.
Proof. solve_decision. Defined.

#[export] Instance action_c_errors : CErrors hako_pdu_action_error_t := {|
  err_ok := HAKO_PDU_ACTION_OK;
  err_invalid_argument := HAKO_PDU_ACTION_ERROR_INVALID_ARGUMENT;
  err_buffer_too_small := HAKO_PDU_ACTION_ERROR_BUFFER_TOO_SMALL;
  err_internal := HAKO_PDU_ACTION_ERROR_INTERNAL;
|}.

Inductive hako_pdu_action_client_event_t :=
  | HAKO_PDU_ACTION_CLIENT_EVENT_NONE
  | HAKO_PDU_ACTION_CLIENT_EVENT_GOAL_RESPONSE
  | HAKO_PDU_ACTION_CLIENT_EVENT_FEEDBACK
  | HAKO_PDU_ACTION_CLIENT_EVENT_CANCEL_RESPONSE
  | HAKO_PDU_ACTION_CLIENT_EVENT_RESULT
  | HAKO_PDU_ACTION_CLIENT_EVENT_TIMEOUT
  | HAKO_PDU_ACTION_CLIENT_EVENT_ERROR.

Inductive hako_pdu_action_server_event_t :=
  | HAKO_PDU_ACTION_SERVER_EVENT_NONE
  | HAKO_PDU_ACTION_SERVER_EVENT_GOAL_REQUEST
  | HAKO_PDU_ACTION_SERVER_EVENT_CANCEL_REQUEST
  | HAKO_PDU_ACTION_SERVER_EVENT_RUNTIME_CANCEL_REQUEST
  | HAKO_PDU_ACTION_SERVER_EVENT_ERROR.

#[export] Instance client_event_eq_dec : EqDecision hako_pdu_action_client_event_t.
Proof. solve_decision. Defined.
#[export] Instance server_event_eq_dec : EqDecision hako_pdu_action_server_event_t.
Proof. solve_decision. Defined.

(** Enumerations that only travel are their values; a terminal status comes
    from the caller and may be any integer. *)
Record client_event_info := mkClientInfo {
  ci_action_name : list Z;
  ci_goal : list Z;
  ci_decision : Z;
  ci_terminal_status : Z;
  ci_feedback_sequence : Z;
  ci_pdu_size : Z;
}.

Record server_event_info := mkServerInfo {
  si_action_name : list Z;
  si_goal : list Z;
  si_runtime_cancel_cause : Z;
  si_pdu_size : Z;
}.

(** [memset] to zero. *)
Definition zero_name : list Z := replicate HAKO_PDU_ACTION_NAME_MAX 0%Z.
Definition zero_goal : list Z := replicate HAKO_PDU_ACTION_GOAL_ID_SIZE 0%Z.
Definition zero_client_info : client_event_info := mkClientInfo zero_name zero_goal 0 0 0 0.
Definition zero_server_info : server_event_info := mkServerInfo zero_name zero_goal 0 0.

(** ** Conversions *)

(** [copy_n] of the sixteen bytes, both ways. *)
Definition to_cpp_goal_id (source : list Z) : GoalId := take HAKO_PDU_ACTION_GOAL_ID_SIZE source.
Definition to_c_goal_id (source : GoalId) : list Z := source.

Definition to_cpp_client_goal (source : list Z) : ClientGoalHandle :=
  mkClientGoalHandle (to_cpp_goal_id source).
Definition to_cpp_server_goal (source : list Z) : ServerGoalHandle :=
  mkServerGoalHandle (to_cpp_goal_id source).

Definition map_client_event (event : ClientEventType) : hako_pdu_action_client_event_t :=
  match event with
  | ClientEventType_GOAL_RESPONSE => HAKO_PDU_ACTION_CLIENT_EVENT_GOAL_RESPONSE
  | ClientEventType_FEEDBACK => HAKO_PDU_ACTION_CLIENT_EVENT_FEEDBACK
  | ClientEventType_CANCEL_RESPONSE => HAKO_PDU_ACTION_CLIENT_EVENT_CANCEL_RESPONSE
  | ClientEventType_RESULT => HAKO_PDU_ACTION_CLIENT_EVENT_RESULT
  | ClientEventType_TIMEOUT => HAKO_PDU_ACTION_CLIENT_EVENT_TIMEOUT
  | ClientEventType_ERROR => HAKO_PDU_ACTION_CLIENT_EVENT_ERROR
  | ClientEventType_NONE => HAKO_PDU_ACTION_CLIENT_EVENT_NONE
  end.

Definition map_server_event (event : ServerEventType) : hako_pdu_action_server_event_t :=
  match event with
  | ServerEventType_GOAL_REQUEST => HAKO_PDU_ACTION_SERVER_EVENT_GOAL_REQUEST
  | ServerEventType_CANCEL_REQUEST => HAKO_PDU_ACTION_SERVER_EVENT_CANCEL_REQUEST
  | ServerEventType_RUNTIME_CANCEL_REQUEST => HAKO_PDU_ACTION_SERVER_EVENT_RUNTIME_CANCEL_REQUEST
  | ServerEventType_ERROR => HAKO_PDU_ACTION_SERVER_EVENT_ERROR
  | ServerEventType_NONE => HAKO_PDU_ACTION_SERVER_EVENT_NONE
  end.

Definition HAKO_PDU_ACTION_TERMINAL_SUCCEEDED : Z := 1.
Definition HAKO_PDU_ACTION_TERMINAL_CANCELED : Z := 2.
Definition HAKO_PDU_ACTION_TERMINAL_ABORTED : Z := 3.

Definition to_cpp_status (status : Z) : TerminalStatus :=
  if (status =? HAKO_PDU_ACTION_TERMINAL_SUCCEEDED)%Z then TerminalStatus_SUCCEEDED
  else if (status =? HAKO_PDU_ACTION_TERMINAL_CANCELED)%Z then TerminalStatus_CANCELED
  else if (status =? HAKO_PDU_ACTION_TERMINAL_ABORTED)%Z then TerminalStatus_ABORTED
  else TerminalStatus_UNSPECIFIED.

Definition map_goal_send_result (result : GoalSendResult) : hako_pdu_action_error_t :=
  match result with
  | GoalSendResult_SUCCESS => HAKO_PDU_ACTION_OK
  | GoalSendResult_INVALID_ARGUMENT => HAKO_PDU_ACTION_ERROR_INVALID_ARGUMENT
  | GoalSendResult_ACTION_NOT_FOUND => HAKO_PDU_ACTION_ERROR_NOT_FOUND
  | GoalSendResult_NOT_INITIALIZED => HAKO_PDU_ACTION_ERROR_INITIALIZE
  | GoalSendResult_DUPLICATE_GOAL => HAKO_PDU_ACTION_ERROR_DUPLICATE_GOAL
  | GoalSendResult_NO_FREE_SLOT => HAKO_PDU_ACTION_ERROR_NO_FREE_SLOT
  | GoalSendResult_INVALID_PACKET => HAKO_PDU_ACTION_ERROR_INVALID_PACKET
  | GoalSendResult_TRANSPORT_ERROR => HAKO_PDU_ACTION_ERROR_SEND
  end.

(** [static_cast] of the runtime cancel cause. *)
Definition runtime_cancel_value (c : RuntimeCancelCause) : Z :=
  match c with
  | RuntimeCancelCause_UNSPECIFIED => 0
  | RuntimeCancelCause_TRANSPORT_DISCONNECTED => 1
  | RuntimeCancelCause_SERVER_SHUTDOWN => 2
  | RuntimeCancelCause_INTERNAL_POLICY => 3
  end.

(** The name field of a zeroed info. *)
Definition name_field (action_name : string) : list Z :=
  default zero_name (copy_name (Some zero_name) HAKO_PDU_ACTION_NAME_MAX action_name).

Definition fill_client_info (action_name : string) (event : ClientEvent) : client_event_info :=
  mkClientInfo (name_field action_name) (to_c_goal_id (cgh_goal_id (ce_goal event)))
    (Decision_to_u8 (ce_decision event)) (TerminalStatus_to_u8 (ce_terminal_status event))
    (ce_feedback_sequence event) (Z.of_nat (length (ce_pdu event))).

Definition fill_server_info (action_name : string) (event : ServerEvent) : server_event_info :=
  mkServerInfo (name_field action_name) (to_c_goal_id (sgh_goal_id (se_goal event)))
    (runtime_cancel_value (se_runtime_cancel_cause event)) (Z.of_nat (length (se_pdu event))).

(** ** Handles *)

(** The three handle structures; the mux handle has no endpoint container. *)
Record ActionHandle (S Ev : Type) := mkActionHandle {
  h_endpoints : bool;
  h_services : option S;
  h_pending_event : option (string * Ev);
  h_started : bool;
}.
Arguments mkActionHandle {S Ev} _ _ _ _.
Arguments h_endpoints {S Ev} _.
Arguments h_services {S Ev} _.
Arguments h_pending_event {S Ev} _.
Arguments h_started {S Ev} _.

Section Handles.
Context {S Ev : Type}.

Definition set_services (s : S) (h : ActionHandle S Ev) : ActionHandle S Ev :=
  mkActionHandle (h_endpoints h) (Some s) (h_pending_event h) (h_started h).

Definition set_pending (e : option (string * Ev)) (h : ActionHandle S Ev) : ActionHandle S Ev :=
  mkActionHandle (h_endpoints h) (h_services h) e (h_started h).

(** [stop_client], [stop_server] and [stop_mux_server]: [stop_all] is what the
    container returns, [None] when it throws; [stop] is what the services do. *)
Definition stop_native (stop : S -> S) (h : ActionHandle S Ev) (stop_all : option bool)
    : ActionHandle S Ev * bool :=
  (mkActionHandle (h_endpoints h) (stop <$> h_services h) None false,
   negb (h_endpoints h) || bool_decide (stop_all = Some true)).

(** [start] of a handle with a container: what [start_all] returns, [None] when
    it throws. The services' own start cannot fail. The [catch] arm stops the
    handle. *)
Definition start_handle (stop : S -> S) (handle : option (ActionHandle S Ev))
    (start_all stop_all : option bool) : option (ActionHandle S Ev) * hako_pdu_action_error_t :=
  match handle with
  | None => (None, HAKO_PDU_ACTION_ERROR_INVALID_ARGUMENT)
  | Some h =>
      if h_started h then (Some h, HAKO_PDU_ACTION_OK)
      else if negb (h_endpoints h) || bool_decide (h_services h = None)
      then (Some h, HAKO_PDU_ACTION_ERROR_INITIALIZE)
      else
        match start_all with
        | None => (Some (stop_native stop h stop_all).1, HAKO_PDU_ACTION_ERROR_INTERNAL)
        | Some false => (Some h, HAKO_PDU_ACTION_ERROR_START)
        | Some true =>
            (Some (mkActionHandle (h_endpoints h) (h_services h) (h_pending_event h) true),
             HAKO_PDU_ACTION_OK)
        end
  end.

Definition stop_handle (stop : S -> S) (handle : option (ActionHandle S Ev))
    (stop_all : option bool) : option (ActionHandle S Ev) * hako_pdu_action_error_t :=
  match handle with
  | None => (None, HAKO_PDU_ACTION_ERROR_INVALID_ARGUMENT)
  | Some h =>
      let '(h', ok) := stop_native stop h stop_all in
      (Some h', if ok then HAKO_PDU_ACTION_OK else HAKO_PDU_ACTION_ERROR_INTERNAL)
  end.

(** The handle as [delete] finds it; [None] when there is none to delete. *)
Definition destroy_handle (stop : S -> S) (handle : option (ActionHandle S Ev))
    (stop_all : option bool) : option (ActionHandle S Ev) :=
  match handle with
  | None => None
  | Some h => Some (stop_native stop h stop_all).1
  end.

(** [running_all] is what the container returns, [None] when it throws; it is
    asked only when the handle is started. *)
Definition is_running_handle (handle : option (ActionHandle S Ev)) (out_running : option Z)
    (running_all : option bool) : option Z * hako_pdu_action_error_t :=
  match handle, out_running with
  | Some h, Some _ =>
      if h_started h && h_endpoints h then
        match running_all with
        | Some running => (Some (if running then 1%Z else 0%Z), HAKO_PDU_ACTION_OK)
        | None => (Some 0%Z, HAKO_PDU_ACTION_ERROR_INTERNAL)
        end
      else (Some 0%Z, HAKO_PDU_ACTION_OK)
  | _, _ => (out_running, HAKO_PDU_ACTION_ERROR_INVALID_ARGUMENT)
  end.

(** The services of a running handle. *)
Definition running_services (h : ActionHandle S Ev) : option S :=
  if h_started h then h_services h else None.

(** *** Calls about a goal *)

(** The common text of the calls on an action: argument checks, the running
    services, the native goal, then the call. *)
Definition call_goal {G : Type} (to_cpp : list Z -> G) (valid : G -> bool)
    (arguments_ok : bool) (call : S -> string -> G -> S * bool)
    (handle : option (ActionHandle S Ev)) (action_name : option string) (goal : option (list Z))
    : option (ActionHandle S Ev) * hako_pdu_action_error_t :=
  match handle, action_name, goal with
  | Some h, Some name, Some goal =>
      if negb (valid_text (Some name)) || negb arguments_ok
      then (Some h, HAKO_PDU_ACTION_ERROR_INVALID_ARGUMENT)
      else
        match running_services h with
        | None => (Some h, HAKO_PDU_ACTION_ERROR_NOT_RUNNING)
        | Some s =>
            let native_goal := to_cpp goal in
            if negb (valid native_goal) then (Some h, HAKO_PDU_ACTION_ERROR_INVALID_ARGUMENT)
            else
              let '(s', ok) := call s name native_goal in
              (Some (set_services s' h),
               if ok then HAKO_PDU_ACTION_OK else HAKO_PDU_ACTION_ERROR_INVALID_STATE)
        end
  | _, _, _ => (handle, HAKO_PDU_ACTION_ERROR_INVALID_ARGUMENT)
  end.

(** *** Buffers *)

Definition create_buffer (create : S -> string -> option PduData)
    (handle : option (ActionHandle S Ev)) (action_name : option string)
    (buffer : option (list Z)) (capacity : nat) (out_size : option Z)
    : option (list Z) * option Z * hako_pdu_action_error_t :=
  match handle, action_name, out_size with
  | Some h, Some name, Some _ =>
      if negb (valid_text (Some name)) then
        (buffer, out_size, HAKO_PDU_ACTION_ERROR_INVALID_ARGUMENT)
      else
        match running_services h with
        | None => (buffer, out_size, HAKO_PDU_ACTION_ERROR_NOT_RUNNING)
        | Some s =>
            match create s name with
            | None => (buffer, out_size, HAKO_PDU_ACTION_ERROR_NOT_FOUND)
            | Some pdu => copy_pdu pdu buffer capacity out_size
            end
        end
  | _, _, _ => (buffer, out_size, HAKO_PDU_ACTION_ERROR_INVALID_ARGUMENT)
  end.

(** How a function treats its buffer parameter: a caller's buffer is left alone,
    a pointer to be handed over is cleared first. *)
Record BufferUse (B : Type) := mkBufferUse {
  bu_reset : B -> B;
  bu_given : B -> bool;
  bu_copy : PduData -> B -> option Z -> B * option Z * hako_pdu_action_error_t;
}.
Arguments mkBufferUse {B} _ _ _.
Arguments bu_reset {B} _ _.
Arguments bu_given {B} _ _.
Arguments bu_copy {B} _ _ _ _.

Definition create_buffer_alloc {B : Type} (C : BufferUse B)
    (create : S -> string -> option PduData) (handle : option (ActionHandle S Ev))
    (action_name : option string) (out_buffer : B) (out_size : option Z)
    : B * option Z * hako_pdu_action_error_t :=
  let out_buffer := bu_reset C out_buffer in
  let out_size := (fun _ => 0%Z) <$> out_size in
  match handle, action_name, out_size with
  | Some h, Some name, Some _ =>
      if negb (valid_text (Some name)) || negb (bu_given C out_buffer) then
        (out_buffer, out_size, HAKO_PDU_ACTION_ERROR_INVALID_ARGUMENT)
      else
        match running_services h with
        | None => (out_buffer, out_size, HAKO_PDU_ACTION_ERROR_NOT_RUNNING)
        | Some s =>
            match create s name with
            | None => (out_buffer, out_size, HAKO_PDU_ACTION_ERROR_NOT_FOUND)
            | Some pdu => bu_copy C pdu out_buffer out_size
            end
        end
  | _, _, _ => (out_buffer, out_size, HAKO_PDU_ACTION_ERROR_INVALID_ARGUMENT)
  end.

(** *** Polling *)

(** The output parameters of a poll; [B] is the type of the buffer parameter. *)
Record PollOut (Info B : Type) := mkPollOut {
  po_info : option Info;
  po_buffer : B;
  po_size : option Z;
  po_error : option hako_pdu_action_error_t;
}.
Arguments mkPollOut {Info B} _ _ _ _.
Arguments po_info {Info B} _.
Arguments po_buffer {Info B} _.
Arguments po_size {Info B} _.
Arguments po_error {Info B} _.

(** What the poll functions do with the events of their side. *)
Record EventUse (Info CEv : Type) := mkEventUse {
  eu_zero_info : Info;
  eu_none : CEv;
  eu_is_none : Ev -> bool;
  eu_is_error : Ev -> bool;
  eu_fill : string -> Ev -> Info;
  eu_pdu : Ev -> PduData;
  eu_map : Ev -> CEv;
}.
Arguments mkEventUse {Info CEv} _ _ _ _ _ _ _.
Arguments eu_zero_info {Info CEv} _.
Arguments eu_none {Info CEv} _.
Arguments eu_is_none {Info CEv} _ _.
Arguments eu_is_error {Info CEv} _ _.
Arguments eu_fill {Info CEv} _ _ _.
Arguments eu_pdu {Info CEv} _ _.
Arguments eu_map {Info CEv} _ _.

Section Poll.
Context {Info CEv B : Type} (U : EventUse Info CEv) (C : BufferUse B).

(** [if (out_error != nullptr) *out_error = error]. *)
Definition set_error (error : hako_pdu_action_error_t) (out : PollOut Info B) : PollOut Info B :=
  mkPollOut (po_info out) (po_buffer out) (po_size out) ((fun _ => error) <$> po_error out).

Definition reset_out (out : PollOut Info B) : PollOut Info B :=
  mkPollOut ((fun _ => eu_zero_info U) <$> po_info out) (bu_reset C (po_buffer out))
    ((fun _ => 0%Z) <$> po_size out) ((fun _ => HAKO_PDU_ACTION_OK) <$> po_error out).

(** The pending event, if there is one or the services raise one. *)
Definition fetch (poll : S -> S * (string * Ev)) (s : S) (h : ActionHandle S Ev)
    : ActionHandle S Ev * option (string * Ev) :=
  match h_pending_event h with
  | Some e => (h, Some e)
  | None =>
      let '(s', (name, event)) := poll s in
      if eu_is_none U event then (set_services s' h, None)
      else (set_pending (Some (name, event)) (set_services s' h), Some (name, event))
  end.

(** Filling in the output; the event stays pending when it cannot be copied. *)
Definition hand_over (h : ActionHandle S Ev) (name : string) (event : Ev) (out : PollOut Info B)
    : ActionHandle S Ev * PollOut Info B * CEv :=
  let '(buffer, size, result) := bu_copy C (eu_pdu U event) (po_buffer out) (po_size out) in
  let out1 := mkPollOut ((fun _ => eu_fill U name event) <$> po_info out) buffer size
                (po_error out) in
  if negb (bool_decide (result = HAKO_PDU_ACTION_OK))
  then (h, set_error result out1, eu_none U)
  else
    (set_pending None h,
     if eu_is_error U event then set_error HAKO_PDU_ACTION_ERROR_INTERNAL out1 else out1,
     eu_map U event).

Definition poll_handle (poll : S -> S * (string * Ev)) (handle : option (ActionHandle S Ev))
    (out : PollOut Info B) : option (ActionHandle S Ev) * PollOut Info B * CEv :=
  let out := reset_out out in
  match handle, po_info out, po_size out with
  | Some h, Some _, Some _ =>
      if negb (bu_given C (po_buffer out)) then
        (Some h, set_error HAKO_PDU_ACTION_ERROR_INVALID_ARGUMENT out, eu_none U)
      else
        match running_services h with
        | None => (Some h, set_error HAKO_PDU_ACTION_ERROR_NOT_RUNNING out, eu_none U)
        | Some s =>
            match fetch poll s h with
            | (h1, None) => (Some h1, out, eu_none U)
            | (h1, Some (name, event)) =>
                let '(h2, out2, e) := hand_over h1 name event out in (Some h2, out2, e)
            end
        end
  | _, _, _ => (handle, set_error HAKO_PDU_ACTION_ERROR_INVALID_ARGUMENT out, eu_none U)
  end.
End Poll.
End Handles.
Arguments mkPollOut {Info B} _ _ _ _.
Arguments po_info {Info B} _.
Arguments po_buffer {Info B} _.
Arguments po_size {Info B} _.
Arguments po_error {Info B} _.
Arguments mkBufferUse {B} _ _ _.
Arguments bu_reset {B} _ _.
Arguments bu_given {B} _ _.
Arguments bu_copy {B} _ _ _ _.
Arguments mkEventUse {Ev Info CEv} _ _ _ _ _ _ _.
Arguments eu_zero_info {Ev Info CEv} _.
Arguments eu_none {Ev Info CEv} _.
Arguments eu_is_none {Ev Info CEv} _ _.
Arguments eu_is_error {Ev Info CEv} _ _.
Arguments eu_fill {Ev Info CEv} _ _ _.
Arguments eu_pdu {Ev Info CEv} _ _.
Arguments eu_map {Ev Info CEv} _ _.

(** A caller buffer of a given capacity, and a buffer handed over. *)
Definition caller_buffer (capacity : nat) : BufferUse (option (list Z)) :=
  mkBufferUse (fun b => b) (fun _ => true) (fun pdu b size => copy_pdu pdu b capacity size).

Definition allocated_buffer (malloc_ok : bool) : BufferUse (option (option (list Z))) :=
  mkBufferUse (fmap (fun _ => None)) (fun b => bool_decide (is_Some b))
    (fun pdu b size => allocate_pdu malloc_ok pdu b size).

Definition client_events : EventUse client_event_info hako_pdu_action_client_event_t :=
  mkEventUse zero_client_info HAKO_PDU_ACTION_CLIENT_EVENT_NONE
    (fun e => bool_decide (ce_type e = ClientEventType_NONE))
    (fun e => bool_decide (ce_type e = ClientEventType_ERROR))
    fill_client_info ce_pdu (fun e => map_client_event (ce_type e)).

Definition server_events : EventUse server_event_info hako_pdu_action_server_event_t :=
  mkEventUse zero_server_info HAKO_PDU_ACTION_SERVER_EVENT_NONE
    (fun e => bool_decide (se_type e = ServerEventType_NONE))
    (fun e => bool_decide (se_type e = ServerEventType_ERROR))
    fill_server_info se_pdu (fun e => map_server_event (se_type e)).

(** ** Client *)

Section Client.
Context {E : Type} `{IActionClientEndpoint E}.

Definition ClientNative : Type := ClientServices.ServicesClient E * Wire.
Definition hako_pdu_action_client_handle : Type := ActionHandle ClientNative ClientEvent.

(** [container_ok], [ref] and [config] are what initialising the endpoint
    container, looking endpoints up in it and reading the configuration give;
    [time_source] tells whether a clock of that name and step can be created. *)
Definition hako_pdu_action_client_create (node_id client_name action_config_path
    endpoint_config_path : option string) (delta_time_usec : Z) (time_source_type : option string)
    (container_ok : bool) (ref : string -> bool) (config : option json)
    (time_source : string -> Z -> bool) : option hako_pdu_action_client_handle :=
  match node_id, client_name, action_config_path, endpoint_config_path with
  | Some node, Some name, Some actions, Some endpoints =>
      if negb (valid_text (Some node)) || negb (valid_text (Some name))
         || negb (valid_text (Some actions)) || negb (valid_text (Some endpoints)) then None
      else if negb container_ok then None
      else
        let time_source_name :=
          if valid_text time_source_type then default "" time_source_type else "real" in
        let '(s, ok) :=
          ClientServices.initialize_services
            (ClientServices.new_services_client node "ActionClientEndpointImpl"
               (time_source time_source_name delta_time_usec)) (Some ref) config in
        if negb ok then None else Some (mkActionHandle true (Some (s, [])) None false)
  | _, _, _, _ => None
  end.

Definition stop_client_services (x : ClientNative) : ClientNative :=
  (ClientServices.clear_all_instances (ClientServices.stop_all_services x.1), x.2).

Definition hako_pdu_action_client_start (handle : option hako_pdu_action_client_handle)
    (start_all stop_all : option bool)
    : option hako_pdu_action_client_handle * hako_pdu_action_error_t :=
  start_handle stop_client_services handle start_all stop_all.

Definition hako_pdu_action_client_stop (handle : option hako_pdu_action_client_handle)
    (stop_all : option bool) : option hako_pdu_action_client_handle * hako_pdu_action_error_t :=
  stop_handle stop_client_services handle stop_all.

Definition hako_pdu_action_client_destroy (handle : option hako_pdu_action_client_handle)
    (stop_all : option bool) : option hako_pdu_action_client_handle :=
  destroy_handle stop_client_services handle stop_all.

Definition hako_pdu_action_client_is_running (handle : option hako_pdu_action_client_handle)
    (out_running : option Z) (running_all : option bool) : option Z * hako_pdu_action_error_t :=
  is_running_handle handle out_running running_all.

Definition hako_pdu_action_client_create_goal_buffer
    (handle : option hako_pdu_action_client_handle) (action_name : option string)
    (buffer : option (list Z)) (capacity : nat) (out_size : option Z)
    : option (list Z) * option Z * hako_pdu_action_error_t :=
  create_buffer (fun s name => ClientServices.create_goal_buffer s.1 name)
    handle action_name buffer capacity out_size.

Definition hako_pdu_action_client_create_goal_buffer_alloc (malloc_ok : bool)
    (handle : option hako_pdu_action_client_handle) (action_name : option string)
    (out_buffer : option (option (list Z))) (out_size : option Z)
    : option (option (list Z)) * option Z * hako_pdu_action_error_t :=
  create_buffer_alloc (allocated_buffer malloc_ok)
    (fun s name => ClientServices.create_goal_buffer s.1 name)
    handle action_name out_buffer out_size.

(** The handle, [*out_goal] and the error; [now] is the services' clock. *)
Definition hako_pdu_action_client_send_goal (handle : option hako_pdu_action_client_handle)
    (action_name : option string) (pdu : option (list Z)) (pdu_size : nat)
    (goal_id out_goal : option (list Z)) (timeout_usec now : Z)
    : option hako_pdu_action_client_handle * option (list Z) * hako_pdu_action_error_t :=
  let out_goal := (fun _ => zero_goal) <$> out_goal in
  match handle, action_name, pdu, goal_id, out_goal with
  | Some h, Some name, Some _, Some id, Some _ =>
      if negb (valid_text (Some name)) || bool_decide (pdu_size = 0)
      then (Some h, out_goal, HAKO_PDU_ACTION_ERROR_INVALID_ARGUMENT)
      else
        match running_services h with
        | None => (Some h, out_goal, HAKO_PDU_ACTION_ERROR_NOT_RUNNING)
        | Some (s, w) =>
            let native_goal_id := to_cpp_goal_id id in
            if negb (is_valid_goal_id native_goal_id)
            then (Some h, out_goal, HAKO_PDU_ACTION_ERROR_INVALID_ARGUMENT)
            else
              let '(s', w', (result, native_goal)) :=
                ClientServices.send_goal_with_result s w name (make_pdu pdu pdu_size)
                  native_goal_id timeout_usec now in
              let h' := set_services (s', w') h in
              if negb (bool_decide (result = GoalSendResult_SUCCESS))
              then (Some h', out_goal, map_goal_send_result result)
              else (Some h', Some (to_c_goal_id (cgh_goal_id native_goal)), HAKO_PDU_ACTION_OK)
        end
  | _, _, _, _, _ => (handle, out_goal, HAKO_PDU_ACTION_ERROR_INVALID_ARGUMENT)
  end.

Definition hako_pdu_action_client_cancel_goal (handle : option hako_pdu_action_client_handle)
    (action_name : option string) (goal : option (list Z))
    : option hako_pdu_action_client_handle * hako_pdu_action_error_t :=
  call_goal to_cpp_client_goal ClientGoalHandle_valid true
    (fun x name g => let '(s', w', ok) := ClientServices.send_cancel x.1 x.2 name g in
                     ((s', w'), ok)) handle action_name goal.

Definition poll_client (clock : nat -> Z) (x : ClientNative)
    : ClientNative * (string * ClientEvent) :=
  let '(s', r) := ClientServices.poll x.1 clock in ((s', x.2), r).

Definition hako_pdu_action_client_poll (clock : nat -> Z) (capacity : nat)
    (handle : option hako_pdu_action_client_handle)
    (out : PollOut client_event_info (option (list Z)))
    : option hako_pdu_action_client_handle * PollOut client_event_info (option (list Z))
      * hako_pdu_action_client_event_t :=
  poll_handle client_events (caller_buffer capacity) (poll_client clock) handle out.

Definition hako_pdu_action_client_poll_alloc (clock : nat -> Z) (malloc_ok : bool)
    (handle : option hako_pdu_action_client_handle)
    (out : PollOut client_event_info (option (option (list Z))))
    : option hako_pdu_action_client_handle * PollOut client_event_info (option (option (list Z)))
      * hako_pdu_action_client_event_t :=
  poll_handle client_events (allocated_buffer malloc_ok) (poll_client clock) handle out.
End Client.

(** ** Servers *)

(** What the C functions of both servers use of the services; [sv_input] is
    what the transport does during a poll. *)
Class ServerServices (S : Type) := {
  sv_input : Type;
  sv_poll : sv_input -> S -> S * (string * ServerEvent);
  sv_accept_goal : S -> string -> ServerGoalHandle -> S * bool;
  sv_reject_goal : S -> string -> ServerGoalHandle -> S * bool;
  sv_accept_cancel : S -> string -> ServerGoalHandle -> S * bool;
  sv_reject_cancel : S -> string -> ServerGoalHandle -> S * bool;
  sv_create_feedback_buffer : S -> string -> option PduData;
  sv_create_result_buffer : S -> string -> option PduData;
  sv_send_feedback : S -> string -> ServerGoalHandle -> PduData -> S * bool;
  sv_complete : S -> string -> ServerGoalHandle -> TerminalStatus -> PduData -> S * bool;
}.

Section Server.
Context {S : Type} `{ServerServices S}.

Definition server_handle : Type := ActionHandle S ServerEvent.

Definition server_poll (input : sv_input) (capacity : nat) (handle : option server_handle)
    (out : PollOut server_event_info (option (list Z)))
    : option server_handle * PollOut server_event_info (option (list Z))
      * hako_pdu_action_server_event_t :=
  poll_handle server_events (caller_buffer capacity) (sv_poll input) handle out.

Definition server_poll_alloc (input : sv_input) (malloc_ok : bool)
    (handle : option server_handle) (out : PollOut server_event_info (option (option (list Z))))
    : option server_handle * PollOut server_event_info (option (option (list Z)))
      * hako_pdu_action_server_event_t :=
  poll_handle server_events (allocated_buffer malloc_ok) (sv_poll input) handle out.

Definition server_goal_call (arguments_ok : bool)
    (call : S -> string -> ServerGoalHandle -> S * bool) (handle : option server_handle)
    (action_name : option string) (goal : option (list Z))
    : option server_handle * hako_pdu_action_error_t :=
  call_goal to_cpp_server_goal ServerGoalHandle_valid arguments_ok call handle action_name goal.

Definition server_accept_goal := server_goal_call true sv_accept_goal.
Definition server_reject_goal := server_goal_call true sv_reject_goal.
Definition server_accept_cancel := server_goal_call true sv_accept_cancel.
Definition server_reject_cancel := server_goal_call true sv_reject_cancel.

Definition server_create_feedback_buffer (handle : option server_handle)
    : option string -> option (list Z) -> nat -> option Z
      -> option (list Z) * option Z * hako_pdu_action_error_t :=
  create_buffer sv_create_feedback_buffer handle.

Definition server_create_feedback_buffer_alloc (malloc_ok : bool) (handle : option server_handle)
    : option string -> option (option (list Z)) -> option Z
      -> option (option (list Z)) * option Z * hako_pdu_action_error_t :=
  create_buffer_alloc (allocated_buffer malloc_ok) sv_create_feedback_buffer handle.

Definition server_create_result_buffer (handle : option server_handle)
    : option string -> option (list Z) -> nat -> option Z
      -> option (list Z) * option Z * hako_pdu_action_error_t :=
  create_buffer sv_create_result_buffer handle.

Definition server_create_result_buffer_alloc (malloc_ok : bool) (handle : option server_handle)
    : option string -> option (option (list Z)) -> option Z
      -> option (option (list Z)) * option Z * hako_pdu_action_error_t :=
  create_buffer_alloc (allocated_buffer malloc_ok) sv_create_result_buffer handle.

Definition server_send_feedback (handle : option server_handle) (action_name : option string)
    (goal : option (list Z)) (pdu : option (list Z)) (pdu_size : nat)
    : option server_handle * hako_pdu_action_error_t :=
  server_goal_call (negb (bool_decide (pdu = None)) && negb (bool_decide (pdu_size = 0)))
    (fun s name g => sv_send_feedback s name g (make_pdu pdu pdu_size)) handle action_name goal.

Definition valid_status (status : Z) : bool :=
  (status =? HAKO_PDU_ACTION_TERMINAL_SUCCEEDED)%Z
  || (status =? HAKO_PDU_ACTION_TERMINAL_CANCELED)%Z
  || (status =? HAKO_PDU_ACTION_TERMINAL_ABORTED)%Z.

Definition server_complete (handle : option server_handle) (action_name : option string)
    (goal : option (list Z)) (status : Z) (pdu : option (list Z)) (pdu_size : nat)
    : option server_handle * hako_pdu_action_error_t :=
  server_goal_call
    (negb (bool_decide (pdu = None)) && negb (bool_decide (pdu_size = 0)) && valid_status status)
    (fun s name g => sv_complete s name g (to_cpp_status status) (make_pdu pdu pdu_size))
    handle action_name goal.
End Server.
Arguments server_handle S : clear implicits.

(** *** The server on one transport *)

Section SingleServer.
Context {E : Type} `{IActionServerEndpoint E}.

Definition ServerNative : Type := Services.ServicesServer E * Wire.

Definition with_wire (r : Services.ServicesServer E * Wire * bool) : ServerNative * bool :=
  let '(s, w, ok) := r in ((s, w), ok).

#[export] Instance single_server_services : ServerServices ServerNative := {|
  sv_input := unit;
  sv_poll _ x := let '(s, w, r) := Services.poll x.1 x.2 in ((s, w), r);
  sv_accept_goal x n g := with_wire (Services.accept_goal x.1 x.2 n g);
  sv_reject_goal x n g := with_wire (Services.reject_goal x.1 x.2 n g);
  sv_accept_cancel x n g := with_wire (Services.accept_cancel x.1 x.2 n g);
  sv_reject_cancel x n g := with_wire (Services.reject_cancel x.1 x.2 n g);
  sv_create_feedback_buffer x n := Services.create_feedback_buffer x.1 n;
  sv_create_result_buffer x n := Services.create_result_buffer x.1 n;
  sv_send_feedback x n g d := with_wire (Services.send_feedback x.1 x.2 n g d);
  sv_complete x n g st d := with_wire (Services.complete x.1 x.2 n g st d);
|}.

Definition hako_pdu_action_server_handle : Type := server_handle ServerNative.

Definition hako_pdu_action_server_create (node_id action_config_path endpoint_config_path
    : option string) (delta_time_usec : Z) (time_source_type : option string)
    (container_ok : bool) (ref : string -> bool) (config : option json)
    (time_source : string -> Z -> bool) : option hako_pdu_action_server_handle :=
  match node_id, action_config_path, endpoint_config_path with
  | Some node, Some actions, Some endpoints =>
      if negb (valid_text (Some node)) || negb (valid_text (Some actions))
         || negb (valid_text (Some endpoints)) then None
      else if negb container_ok then None
      else
        let time_source_name :=
          if valid_text time_source_type then default "" time_source_type else "real" in
        let '(s, ok) :=
          Services.initialize_services_impl
            (Services.new_services_server node "ActionServerEndpointImpl"
               (time_source time_source_name delta_time_usec)) (Some ref) false config in
        if negb ok then None else Some (mkActionHandle true (Some (s, [])) None false)
  | _, _, _ => None
  end.

Definition stop_server_services (x : ServerNative) : ServerNative :=
  (Services.clear_all_instances (Services.stop_all_services x.1), x.2).

Definition hako_pdu_action_server_start (handle : option hako_pdu_action_server_handle)
    (start_all stop_all : option bool)
    : option hako_pdu_action_server_handle * hako_pdu_action_error_t :=
  start_handle stop_server_services handle start_all stop_all.

Definition hako_pdu_action_server_stop (handle : option hako_pdu_action_server_handle)
    (stop_all : option bool) : option hako_pdu_action_server_handle * hako_pdu_action_error_t :=
  stop_handle stop_server_services handle stop_all.

Definition hako_pdu_action_server_destroy (handle : option hako_pdu_action_server_handle)
    (stop_all : option bool) : option hako_pdu_action_server_handle :=
  destroy_handle stop_server_services handle stop_all.

Definition hako_pdu_action_server_is_running (handle : option hako_pdu_action_server_handle)
    (out_running : option Z) (running_all : option bool) : option Z * hako_pdu_action_error_t :=
  is_running_handle handle out_running running_all.

Definition hako_pdu_action_server_poll := server_poll (S := ServerNative) tt.
Definition hako_pdu_action_server_poll_alloc := server_poll_alloc (S := ServerNative) tt.
Definition hako_pdu_action_server_accept_goal := server_accept_goal (S := ServerNative).
Definition hako_pdu_action_server_reject_goal := server_reject_goal (S := ServerNative).
Definition hako_pdu_action_server_accept_cancel := server_accept_cancel (S := ServerNative).
Definition hako_pdu_action_server_reject_cancel := server_reject_cancel (S := ServerNative).
Definition hako_pdu_action_server_create_feedback_buffer :=
  server_create_feedback_buffer (S := ServerNative).
Definition hako_pdu_action_server_create_feedback_buffer_alloc :=
  server_create_feedback_buffer_alloc (S := ServerNative).
Definition hako_pdu_action_server_create_result_buffer :=
  server_create_result_buffer (S := ServerNative).
Definition hako_pdu_action_server_create_result_buffer_alloc :=
  server_create_result_buffer_alloc (S := ServerNative).
Definition hako_pdu_action_server_send_feedback := server_send_feedback (S := ServerNative).
Definition hako_pdu_action_server_complete := server_complete (S := ServerNative).
End SingleServer.

(** *** The server on multiplexed connections *)

Section MuxServer.
Context {E : Type} `{IActionServerEndpoint E} {M : CommMultiplexer}.

Definition MuxNative : Type := ActionMux.MuxServer E.

(** The endpoints taken and the disconnections before the two passes of a
    poll. *)
Definition MuxInput : Type := list (option ActionMux.AcceptedEndpoint) * (list Z * list Z).

#[export] Instance mux_server_services : ServerServices MuxNative := {|
  sv_input := MuxInput;
  sv_poll i x := ActionMux.poll x i.1 i.2.1 i.2.2;
  sv_accept_goal := ActionMux.accept_goal;
  sv_reject_goal := ActionMux.reject_goal;
  sv_accept_cancel := ActionMux.accept_cancel;
  sv_reject_cancel := ActionMux.reject_cancel;
  sv_create_feedback_buffer := ActionMux.create_feedback_buffer;
  sv_create_result_buffer := ActionMux.create_result_buffer;
  sv_send_feedback := ActionMux.send_feedback;
  sv_complete := ActionMux.complete;
|}.

Definition hako_pdu_action_mux_server_handle : Type := server_handle MuxNative.

(** A mux handle has no endpoint container. *)
Definition hako_pdu_action_mux_server_create (node_id action_config_path
    endpoint_mux_config_path : option string) (delta_time_usec : Z)
    (time_source_type : option string) (time_source : string -> Z -> bool)
    : option hako_pdu_action_mux_server_handle :=
  match node_id, action_config_path, endpoint_mux_config_path with
  | Some node, Some actions, Some endpoints =>
      if negb (valid_text (Some node)) || negb (valid_text (Some actions))
         || negb (valid_text (Some endpoints)) || (delta_time_usec =? 0)%Z then None
      else
        let time_source_name :=
          if valid_text time_source_type then default "" time_source_type else "real" in
        let '(s, ok) :=
          ActionMux.initialize
            (ActionMux.new_mux_server node actions endpoints "ActionServerEndpointImpl"
               delta_time_usec (time_source time_source_name delta_time_usec)) in
        if negb ok then None else Some (mkActionHandle false (Some s) None false)
  | _, _, _ => None
  end.

Definition hako_pdu_action_mux_server_start (handle : option hako_pdu_action_mux_server_handle)
    : option hako_pdu_action_mux_server_handle * hako_pdu_action_error_t :=
  match handle with
  | None => (None, HAKO_PDU_ACTION_ERROR_INVALID_ARGUMENT)
  | Some h =>
      if h_started h then (Some h, HAKO_PDU_ACTION_OK)
      else
        match h_services h with
        | None => (Some h, HAKO_PDU_ACTION_ERROR_INITIALIZE)
        | Some s =>
            let '(s', ok) := ActionMux.start s in
            if negb ok then (Some (set_services s' h), HAKO_PDU_ACTION_ERROR_START)
            else (Some (mkActionHandle (h_endpoints h) (Some s') (h_pending_event h) true),
                  HAKO_PDU_ACTION_OK)
        end
  end.

Definition hako_pdu_action_mux_server_stop (handle : option hako_pdu_action_mux_server_handle)
    : option hako_pdu_action_mux_server_handle * hako_pdu_action_error_t :=
  stop_handle ActionMux.stop handle (Some true).

Definition hako_pdu_action_mux_server_destroy (handle : option hako_pdu_action_mux_server_handle)
    : option hako_pdu_action_mux_server_handle :=
  destroy_handle ActionMux.stop handle (Some true).

Definition hako_pdu_action_mux_server_poll := server_poll (S := MuxNative).
Definition hako_pdu_action_mux_server_poll_alloc := server_poll_alloc (S := MuxNative).
Definition hako_pdu_action_mux_server_accept_goal := server_accept_goal (S := MuxNative).
Definition hako_pdu_action_mux_server_reject_goal := server_reject_goal (S := MuxNative).
Definition hako_pdu_action_mux_server_accept_cancel := server_accept_cancel (S := MuxNative).
Definition hako_pdu_action_mux_server_reject_cancel := server_reject_cancel (S := MuxNative).
Definition hako_pdu_action_mux_server_create_feedback_buffer :=
  server_create_feedback_buffer (S := MuxNative).
Definition hako_pdu_action_mux_server_create_feedback_buffer_alloc :=
  server_create_feedback_buffer_alloc (S := MuxNative).
Definition hako_pdu_action_mux_server_create_result_buffer :=
  server_create_result_buffer (S := MuxNative).
Definition hako_pdu_action_mux_server_create_result_buffer_alloc :=
  server_create_result_buffer_alloc (S := MuxNative).
Definition hako_pdu_action_mux_server_send_feedback := server_send_feedback (S := MuxNative).
Definition hako_pdu_action_mux_server_complete := server_complete (S := MuxNative).

Definition mux_services (handle : option hako_pdu_action_mux_server_handle) : option MuxNative :=
  h ← handle; h_services h.

Definition hako_pdu_action_mux_server_connected_count
    (handle : option hako_pdu_action_mux_server_handle) : nat :=
  match mux_services handle with Some s => ActionMux.connected_count s | None => 0 end.

Definition hako_pdu_action_mux_server_expected_count
    (handle : option hako_pdu_action_mux_server_handle) : nat :=
  match mux_services handle with Some s => ActionMux.expected_count s | None => 0 end.

Definition hako_pdu_action_mux_server_is_ready
    (handle : option hako_pdu_action_mux_server_handle) : Z :=
  match mux_services handle with
  | Some s => if ActionMux.is_ready s then 1 else 0
  | None => 0
  end.
End MuxServer.
End CAction.
