(* ===== verification/CActionProps.v ===== *)
(** * What the C interface of actions guarantees

    Events cross the interface exactly once and in order whatever buffers the
    caller offers, calls write within the caller's buffers, and the name and
    goal of an event lead back to the same goal of the services. *)

From S2P Require Import Prelude Multiplexer KeyedList ActionTypes CBuffers ActionConfiguration.
From S2P Require Import PduPacket ServerStateMachine ServerInterface ClientInterface.
From S2P Require Import ServicesServer ServicesClient ActionServicesMuxServer.
From S2P Require Import ServerEndpoint ServerEndpointFacts ServerEndpointProps ServicesServerFacts.
From S2P Require Import ServicesServerProps CAction.
From Stdlib Require Import ZArith Lia Ascii String.
From stdpp Require Import base gmap strings list fin_maps.

Module CActionProps.
Import CBuffers ActionConfig ServerIface ClientIface CAction.

(** ** Polls *)

Section Polls.
Context {S Ev Info CEv : Type} `{EqDecision CEv} (U : EventUse (Ev := Ev) Info CEv).
Hypothesis none_maps : forall ev, eu_map U ev = eu_none U <-> eu_is_none U ev = true.

(** One poll of a C program: into its own buffer or with allocation. *)
Inductive poll_call :=
  | PollInto (capacity : nat) (out : PollOut Info (option (list Z)))
  | PollAlloc (malloc_ok : bool) (out : PollOut Info (option (option (list Z)))).

(** The buffer has the capacity the caller says. *)
Definition call_honest (c : poll_call) : Prop :=
  match c with
  | PollInto capacity out => forall block, po_buffer out = Some block -> capacity <= length block
  | PollAlloc _ _ => True
  end.

Definition arguments_given (c : poll_call) : bool :=
  match c with
  | PollInto _ out => bool_decide (is_Some (po_info out)) && bool_decide (is_Some (po_size out))
  | PollAlloc _ out =>
      bool_decide (is_Some (po_info out)) && bool_decide (is_Some (po_size out))
      && bool_decide (is_Some (po_buffer out))
  end.

(** What the program has after the call: the event code, the info and as many
    bytes as the size says; nothing when the code is NONE. *)
Definition seen {B : Type} (bytes : B -> list Z) (out : PollOut Info B) (e : CEv)
    : list (CEv * option Info * list Z) :=
  if bool_decide (e = eu_none U) then []
  else [(e, po_info out, take (Z.to_nat (default 0%Z (po_size out))) (bytes (po_buffer out)))].

Definition run_call (poll : S -> S * (string * Ev)) (handle : option (ActionHandle S Ev))
    (c : poll_call) : option (ActionHandle S Ev) * list (CEv * option Info * list Z) :=
  match c with
  | PollInto capacity out =>
      let '(h', out', e) := poll_handle U (caller_buffer capacity) poll handle out in
      (h', seen (default []) out' e)
  | PollAlloc malloc_ok out =>
      let '(h', out', e) := poll_handle U (allocated_buffer malloc_ok) poll handle out in
      (h', seen (fun b => default [] (default None b)) out' e)
  end.

(** The event the services raise during the call, if they are polled. *)
Definition raised (poll : S -> S * (string * Ev)) (h : ActionHandle S Ev) (c : poll_call)
    : list (string * Ev) :=
  if arguments_given c && bool_decide (h_pending_event h = None) then
    match running_services h with
    | Some s => if eu_is_none U (poll s).2.2 then [] else [(poll s).2]
    | None => []
    end
  else [].

(** How an event looks to the program. *)
Definition shown (x : string * Ev) : CEv * option Info * list Z :=
  (eu_map U x.2, Some (eu_fill U x.1 x.2), eu_pdu U x.2).

Definition waiting (h : ActionHandle S Ev) : list (string * Ev) :=
  match h_pending_event h with Some e => [e] | None => [] end.

Definition pending_ok (h : ActionHandle S Ev) : Prop :=
  Forall (fun x => eu_is_none U x.2 = false) (waiting h).

Lemma seen_none {B} (bytes : B -> list Z) out : seen bytes out (eu_none U) = [].
Proof. unfold seen. by rewrite bool_decide_eq_true_2. Qed.

(** A kind of buffer that delivers whole packets or reports an error. *)
Definition faithful {B} (C : BufferUse B) (bytes : B -> list Z) (b : B) : Prop :=
  forall pdu size b' size' e, bu_copy C pdu b (Some size) = (b', size', e) ->
    e = HAKO_PDU_ACTION_OK -> size' = Some (Z.of_nat (length pdu))
                              /\ take (length pdu) (bytes b') = pdu.

Lemma hand_over_seen {B} (C : BufferUse B) bytes h name ev out h' out' e :
  faithful C bytes (po_buffer out) -> is_Some (po_info out) -> is_Some (po_size out) ->
  eu_is_none U ev = false -> h_pending_event h = Some (name, ev) ->
  hand_over U C h name ev out = (h', out', e) ->
  pending_ok h' /\ [shown (name, ev)] = seen bytes out' e ++ (shown <$> waiting h').
Proof.
  intros Hf [info Hi] [size Hs] Hne Hpend. unfold hand_over. rewrite Hs, Hi.
  destruct (bu_copy C _ _ _) as [[b' size'] r] eqn:Hc. case_bool_decide as Hr; cbn [negb].
  - destruct (Hf _ _ _ _ _ Hc Hr) as [-> Hb]. intros [= <- <- <-].
    split; [constructor|]. unfold waiting, seen. cbn [set_pending h_pending_event].
    assert (Hm : eu_map U ev <> eu_none U) by (rewrite none_maps; congruence).
    rewrite bool_decide_eq_false_2 by done. rewrite app_nil_r. unfold shown. cbn [fst snd].
    destruct (eu_is_error U ev); cbn; by rewrite Nat2Z.id, Hb.
  - intros [= <- <- <-]. rewrite seen_none. unfold pending_ok, waiting. rewrite Hpend.
    by repeat constructor.
Qed.

Lemma caller_buffer_faithful capacity b :
  (forall block, b = Some block -> capacity <= length block) ->
  faithful (caller_buffer capacity) (default []) b.
Proof.
  intros Hb pdu size b' size' e Hc ->.
  pose proof (copy_pdu_spec pdu b capacity size _ _ _ Hc ltac:(done)) as (-> & _ & [Hok _] & Hw & _).
  split; [done|]. destruct (Hok eq_refl) as [Hl [->|[block ->]]]; [done|].
  by destruct (Hw eq_refl block eq_refl (Hb block eq_refl)) as (block' & -> & _ & Ht & _).
Qed.

Lemma allocated_buffer_faithful malloc_ok b :
  faithful (allocated_buffer malloc_ok) (fun b => default [] (default None b)) b.
Proof.
  intros pdu size b' size' e. cbn. unfold allocate_pdu.
  destruct b; [|by intros [= <- <- <-]].
  case_bool_decide as Hp; [intros [= <- <- <-]; by subst pdu|].
  destruct malloc_ok; cbn; intros [= <- <- <-] He; [|done]. split; [done|].
  cbn. by rewrite take_ge.
Qed.

(** One poll: what was waiting or is raised now is seen now or waits. *)
Lemma poll_handle_seen {B} (C : BufferUse B) bytes poll h out h' out' e given :
  pending_ok h -> faithful C bytes (bu_reset C (po_buffer out)) ->
  given = bool_decide (is_Some (po_info out)) && bool_decide (is_Some (po_size out))
          && bu_given C (bu_reset C (po_buffer out)) ->
  poll_handle U C poll (Some h) out = (h', out', e) ->
  exists h1, h' = Some h1 /\ pending_ok h1
    /\ shown <$> (waiting h ++
         (if given && bool_decide (h_pending_event h = None) then
            match running_services h with
            | Some s => if eu_is_none U (poll s).2.2 then [] else [(poll s).2]
            | None => []
            end
          else []))
       = seen bytes out' e ++ (shown <$> waiting h1).
Proof.
  intros Hp Hf Hg. unfold poll_handle. cbn [reset_out po_info po_size po_buffer].
  destruct (po_info out) as [info|] eqn:Hi; cbn;
    [|intros [= <- <- <-]; exists h; subst given; cbn; by rewrite seen_none, app_nil_r].
  destruct (po_size out) as [size|] eqn:Hs; cbn;
    [|intros [= <- <- <-]; exists h; subst given; cbn; by rewrite seen_none, app_nil_r].
  destruct (bu_given C _) eqn:Hb; cbn [negb];
    [|intros [= <- <- <-]; exists h; subst given; cbn; by rewrite seen_none, app_nil_r].
  subst given. cbn [andb].
  assert (Hgi : is_Some (po_info (reset_out U C out))) by (cbn; rewrite Hi; by eexists).
  assert (Hgs : is_Some (po_size (reset_out U C out))) by (cbn; rewrite Hs; by eexists).
  destruct (running_services h) as [s|] eqn:Hr.
  2: { intros [= <- <- <-]. exists h. rewrite seen_none. by destruct (_ && _); rewrite app_nil_r. }
  unfold fetch. destruct (h_pending_event h) as [[name ev]|] eqn:Hpend.
  - cbn. destruct (hand_over _ _ _ _ _ _) as [[h2 out2] e2] eqn:Ho. intros [= <- <- <-].
    exists h2. split; [done|]. rewrite app_nil_r.
    assert (Hne : eu_is_none U ev = false).
    { unfold pending_ok, waiting in Hp. rewrite Hpend in Hp. by apply Forall_cons in Hp as [? _]. }
    assert (Hw : waiting h = [(name, ev)]) by (unfold waiting; by rewrite Hpend).
    rewrite Hw. exact (hand_over_seen C bytes _ _ _ (reset_out U C out) _ _ _ Hf Hgi Hgs Hne Hpend Ho).
  - rewrite bool_decide_eq_true_2 by done. cbn [andb].
    assert (Hw : waiting h = []) by (unfold waiting; by rewrite Hpend). rewrite Hw.
    destruct (poll s) as [s' [name ev]] eqn:Hps. cbn [fst snd].
    destruct (eu_is_none U ev) eqn:Hne.
    + intros [= <- <- <-]. exists (set_services s' h). rewrite seen_none.
      unfold pending_ok, waiting. cbn. by rewrite Hpend.
    + destruct (hand_over _ _ _ _ _ _) as [[h2 out2] e2] eqn:Ho. intros [= <- <- <-].
      exists h2. split; [done|].
      exact (hand_over_seen C bytes (set_pending (Some (name, ev)) (set_services s' h)) name ev
        (reset_out U C out) _ _ _ Hf Hgi Hgs Hne eq_refl Ho).
Qed.

Lemma run_call_seen poll h c h' obs :
  pending_ok h -> call_honest c -> run_call poll (Some h) c = (h', obs) ->
  exists h1, h' = Some h1 /\ pending_ok h1
    /\ shown <$> (waiting h ++ raised poll h c) = obs ++ (shown <$> waiting h1).
Proof.
  intros Hp Hh. unfold raised. destruct c as [capacity out|malloc_ok out]; cbn [run_call].
  - destruct (poll_handle _ _ _ _ _) as [[h1 out1] e] eqn:Hc. intros [= <- <-].
    apply (poll_handle_seen (caller_buffer capacity) (default []) _ _ _ _ _ _
      (arguments_given (PollInto capacity out))) in Hc; [done|done| |].
    + apply caller_buffer_faithful. exact Hh.
    + cbn. by rewrite andb_true_r.
  - destruct (poll_handle _ _ _ _ _) as [[h1 out1] e] eqn:Hc. intros [= <- <-].
    apply (poll_handle_seen (allocated_buffer malloc_ok)
      (fun b => default [] (default None b)) _ _ _ _ _ _
      (arguments_given (PollAlloc malloc_ok out))) in Hc; [done|done| |].
    + apply allocated_buffer_faithful.
    + cbn. by destruct (po_buffer out).
Qed.

(** A run of polls, each with what the services do at that time. *)
Fixpoint run_calls (handle : option (ActionHandle S Ev))
    (calls : list ((S -> S * (string * Ev)) * poll_call))
    : option (ActionHandle S Ev) * list (CEv * option Info * list Z) * list (string * Ev) :=
  match calls with
  | [] => (handle, [], [])
  | (poll, c) :: rest =>
      let '(handle1, obs1) := run_call poll handle c in
      let raised1 := match handle with Some h => raised poll h c | None => [] end in
      let '(handle2, obs2, raised2) := run_calls handle1 rest in
      (handle2, obs1 ++ obs2, raised1 ++ raised2)
  end.

Lemma run_calls_seen calls h h' obs evs :
  pending_ok h -> Forall (fun x => call_honest x.2) calls ->
  run_calls (Some h) calls = (h', obs, evs) ->
  exists h1, h' = Some h1 /\ pending_ok h1
    /\ shown <$> (waiting h ++ evs) = obs ++ (shown <$> waiting h1).
Proof.
  revert h obs evs. induction calls as [|[poll c] calls IH]; intros h obs evs Hp Hf; cbn.
  { intros [= <- <- <-]. exists h. by rewrite app_nil_r. }
  apply Forall_cons in Hf as [Hc Hf]. cbn [snd] in Hc.
  destruct (run_call poll (Some h) c) as [handle1 obs1] eqn:H1.
  destruct (run_call_seen _ _ _ _ _ Hp Hc H1) as (h1 & -> & Hp1 & Heq1).
  destruct (run_calls (Some h1) calls) as [[handle2 obs2] evs2] eqn:H2. intros [= <- <- <-].
  destruct (IH _ _ _ Hp1 Hf H2) as (h2 & -> & Hp2 & Heq2). exists h2. split_and!; [done|done|].
  rewrite (assoc_L (++)), fmap_app, Heq1, <-!(assoc_L (++)), <-Heq2. by rewrite fmap_app.
Qed.
End Polls.

Lemma client_none_maps ev :
  eu_map client_events ev = eu_none client_events <-> eu_is_none client_events ev = true.
Proof. cbn. rewrite bool_decide_eq_true. by destruct (ce_type ev). Qed.

Lemma server_none_maps ev :
  eu_map server_events ev = eu_none server_events <-> eu_is_none server_events ev = true.
Proof. cbn. rewrite bool_decide_eq_true. by destruct (se_type ev). Qed.

(** ** Names and goals of events *)

Fixpoint text_of (l : list Z) : string :=
  match l with
  | [] => EmptyString
  | b :: rest => String (ascii_of_N (Z.to_N b)) (text_of rest)
  end.

Lemma text_of_bytes s : text_of (bytes_of s) = s.
Proof.
  unfold bytes_of. induction s as [|c s IH]; [done|]. cbn. by rewrite N2Z.id, ascii_N_embedding, IH.
Qed.

(** A name that fits its field comes back whole. *)
Lemma name_field_text name :
  length (bytes_of name) < HAKO_PDU_ACTION_NAME_MAX ->
  Forall (fun b => b <> 0%Z) (bytes_of name) -> text_of (c_text (name_field name)) = name.
Proof.
  intros Hl Hz. unfold name_field.
  destruct (copy_name_spec zero_name name) as (block & Hc & _ & Ht).
  { unfold zero_name. rewrite length_replicate. cbv. lia. }
  { done. }
  change (length zero_name) with HAKO_PDU_ACTION_NAME_MAX in Hc, Ht. rewrite Hc.
  change (default zero_name (Some block)) with block.
  rewrite Ht, take_ge by lia. apply text_of_bytes.
Qed.

(** ** Concrete handles

    A started C server whose transport delivered the request of goal 1. *)

Module Demo.
Import ConcretePdu.
Import ServerEpProps.Demo(reliable, goal_1, handle_1, request_packet).
Import ServicesProps.Demo(requested).

#[export] Existing Instance reliable.
#[export] Existing Instance ServerEpFacts.impl_server_endpoint.
#[export] Existing Instance ServerEpFacts.impl_server_endpoint_spec.

Definition native : Type := ServerNative (E := ServerEp.ServerEndpoint).

Definition started_handle : ActionHandle native ServerEvent :=
  mkActionHandle true (Some (requested, [])) None true.

(** Output parameters with no buffer, and with a place for one. *)
Definition no_buffer : PollOut server_event_info (option (list Z)) :=
  mkPollOut (Some zero_server_info) None (Some 0%Z) (Some HAKO_PDU_ACTION_OK).
Definition room (n : nat) : PollOut server_event_info (option (list Z)) :=
  mkPollOut (Some zero_server_info) (Some (replicate n 7%Z)) (Some 0%Z) (Some HAKO_PDU_ACTION_OK).
Definition place : PollOut server_event_info (option (option (list Z))) :=
  mkPollOut (Some zero_server_info) (Some None) (Some 0%Z) (Some HAKO_PDU_ACTION_OK).

(** Too small, malloc fails, enough room, nothing more. *)
Definition polls : list (sv_input (S := native) * poll_call (Info := server_event_info)) :=
  [(tt, PollInto 0 no_buffer); (tt, PollAlloc false place);
   (tt, PollInto 4096 (room 4096)); (tt, PollAlloc true place)].

Lemma room_honest n : call_honest (PollInto n (room n)).
Proof. intros block [= <-]. by rewrite length_replicate. Qed.
End Demo.
Import ConcretePdu.
Import ServerEpProps.Demo(reliable, goal_1, handle_1, request_packet).
Import Demo.

(** The polls of a C program on a server, single or mux, with what the
    transport does during each. *)
Definition server_polls {S} `{ServerServices S}
    (calls : list (sv_input * poll_call (Info := server_event_info)))
    : list ((S -> S * (string * ServerEvent)) * poll_call (Info := server_event_info)) :=
  (fun x => (sv_poll x.1, x.2)) <$> calls.

(** ** Properties *)

(** C15 — Events cross the C interface of both servers exactly once and in
    order: over any sequence of polls into buffers of any capacity and polls
    with allocation that may fail, the events the program sees, each with its
    code, its info and its whole packet, followed by the one that waits for a
    large enough buffer, are the event that waited before followed by the events
    the services raised. *)
Theorem c_action_server_events_once {S} `{ServerServices S} (h : ActionHandle S ServerEvent)
    calls h' obs evs :
  Forall (fun x => eu_is_none server_events x.2 = false) (waiting h) ->
  Forall (fun x => call_honest x.2) calls ->
  run_calls server_events (Some h) (server_polls calls) = (h', obs, evs) ->
  exists h1, h' = Some h1
    /\ shown server_events <$> (waiting h ++ evs)
       = obs ++ (shown server_events <$> waiting h1).
Proof.
  intros Hp Hc Hr. assert (Hc' : Forall (fun x => call_honest x.2) (server_polls calls))
    by (unfold server_polls; apply Forall_fmap; exact Hc).
  destruct (run_calls_seen server_events server_none_maps _ h h' obs evs Hp Hc' Hr)
    as (h1 & -> & _ & Heq). by exists h1.
Qed.

Lemma c_action_server_events_once_witness :
  let r := run_calls server_events (Some started_handle) (server_polls (S := native) polls) in
  length r.1.2 = 1 /\ length r.2 = 1
  /\ exists h1, r.1.1 = Some h1
       /\ shown server_events <$> r.2 = r.1.2 ++ (shown server_events <$> waiting h1).
Proof.
  set (r := run_calls server_events (Some started_handle) (server_polls (S := native) polls)).
  split_and!; [by vm_compute|by vm_compute|].
  destruct (c_action_server_events_once started_handle polls r.1.1 r.1.2 r.2
    (Forall_nil_2 _)) as (h1 & H1 & H2).
  - apply Forall_cons. split; [intros block; done|]. apply Forall_cons. split; [done|].
    apply Forall_cons. split; [apply room_honest|]. apply Forall_cons. by split.
  - apply triple_eta.
  - exists h1. exact (conj H1 H2).
Defined.

(** Events cross the C interface of the client exactly once and in order,
    in the same sense: none is lost, repeated or reordered by polls whose buffer
    is too small or whose allocation fails. *)
Theorem c_action_client_events_once {S} (h : ActionHandle S ClientEvent) calls h' obs evs :
  Forall (fun x => eu_is_none client_events x.2 = false) (waiting h) ->
  Forall (fun x => call_honest x.2) calls ->
  run_calls client_events (Some h) calls = (h', obs, evs) ->
  exists h1, h' = Some h1
    /\ shown client_events <$> (waiting h ++ evs)
       = obs ++ (shown client_events <$> waiting h1).
Proof.
  intros Hp Hc Hr.
  destruct (run_calls_seen client_events client_none_maps _ h h' obs evs Hp Hc Hr)
    as (h1 & -> & _ & Heq). by exists h1.
Qed.

(** A service that raises one RESULT with three bytes, twice. *)
Definition result_event : ClientEvent :=
  mkClientEvent ClientEventType_RESULT "fib" (mkClientGoalHandle goal_1) Decision_UNSPECIFIED
    TerminalStatus_SUCCEEDED 0 [1; 2; 3]%Z.

Definition raises (n : nat) : nat * (string * ClientEvent) :=
  match n with
  | 0 => (0, ("", empty_client_event))
  | Datatypes.S n => (n, ("fib", result_event))
  end.

Definition client_polls : list ((nat -> nat * (string * ClientEvent))
    * poll_call (Info := client_event_info)) :=
  let out n := mkPollOut (Some zero_client_info) (Some (replicate n 0%Z)) (Some 0%Z) None in
  [(raises, PollInto 2 (out 2)); (raises, PollInto 3 (out 3)); (raises, PollInto 8 (out 8));
   (raises, PollInto 8 (out 8))].

Lemma c_action_client_events_once_witness :
  let r := run_calls client_events (Some (mkActionHandle true (Some 2) None true)) client_polls in
  length r.1.2 = 2 /\ exists h1, r.1.1 = Some h1
    /\ shown client_events <$> r.2 = r.1.2 ++ (shown client_events <$> waiting h1).
Proof.
  set (r := run_calls client_events (Some (mkActionHandle true (Some 2) None true)) client_polls).
  split; [by vm_compute|].
  destruct (c_action_client_events_once (mkActionHandle true (Some 2) None true) client_polls
    r.1.1 r.1.2 r.2 (Forall_nil_2 _)) as (h1 & H1 & H2).
  - repeat constructor; cbn; intros block [= <-]; cbn; lia.
  - apply triple_eta.
  - exists h1. exact (conj H1 H2).
Defined.

(** The buffer protocol of a poll: while an event waits, a poll whose
    buffer is missing or too small returns NONE with BUFFER_TOO_SMALL, the size
    needed and the info, writes nothing to the buffer and keeps the event; a
    poll whose buffer is large enough returns the event, writes the packet to
    the start of the buffer and nothing beyond it, and the event is gone. *)
Theorem c_action_poll_buffer_protocol {S} `{ServerServices S} input capacity h s name ev
    info block size err buffer :
  running_services h = Some s -> h_pending_event h = Some (name, ev) ->
  (buffer = None \/ buffer = Some block /\ capacity <= length block) ->
  let out := mkPollOut (Some info) buffer (Some size) (Some err) in
  let '(h', out', e) := server_poll input capacity (Some h) out in
  po_info out' = Some (fill_server_info name ev)
  /\ po_size out' = Some (Z.of_nat (length (se_pdu ev)))
  /\ if (length (se_pdu ev) <=? capacity)
        && (bool_decide (se_pdu ev = []) || bool_decide (buffer <> None))
     then h' = Some (set_pending None h) /\ e = map_server_event (se_type ev)
          /\ (buffer <> None -> exists block', po_buffer out' = Some block'
               /\ length block' = length block
               /\ take (length (se_pdu ev)) block' = se_pdu ev
               /\ drop (length (se_pdu ev)) block' = drop (length (se_pdu ev)) block)
     else h' = Some h /\ e = HAKO_PDU_ACTION_SERVER_EVENT_NONE /\ po_buffer out' = buffer
          /\ po_error out' = Some HAKO_PDU_ACTION_ERROR_BUFFER_TOO_SMALL.
Proof.
  intros Hr Hp Hb out. unfold server_poll, poll_handle. cbn [reset_out po_info po_size po_buffer out
    fmap option_fmap option_map bu_given caller_buffer negb]. rewrite Hr. unfold fetch. rewrite Hp.
  unfold hand_over. cbn [bu_copy caller_buffer po_buffer po_size reset_out out
    fmap option_fmap option_map bu_reset eu_pdu server_events].
  destruct (copy_pdu _ _ _ _) as [[b' size'] r] eqn:Hc.
  pose proof (copy_pdu_spec _ _ _ _ _ _ _ Hc ltac:(done)) as (-> & Hres & Hok & Hw & Hn).
  assert (Hcond : (length (se_pdu ev) <=? capacity)
    && (bool_decide (se_pdu ev = []) || bool_decide (buffer <> None))
    = bool_decide (r = HAKO_PDU_ACTION_OK)).
  { apply Bool.eq_iff_eq_true. rewrite bool_decide_eq_true, andb_true_iff, orb_true_iff,
      !bool_decide_eq_true, Nat.leb_le, <-not_eq_None_Some in *. exact (iff_sym Hok). }
  rewrite Hcond. destruct (decide (r = HAKO_PDU_ACTION_OK)) as [->|Hrk];
    [rewrite !(bool_decide_eq_true_2 (HAKO_PDU_ACTION_OK = HAKO_PDU_ACTION_OK)) by done
    |rewrite !(bool_decide_eq_false_2 (r = _)) by done]; cbn [negb].
  - split_and!; [by destruct (eu_is_error _ _)|by destruct (eu_is_error _ _)|done|done|].
    intros Hbn. destruct Hb as [?|[-> Hcap]]; [done|].
    destruct (Hw eq_refl block eq_refl Hcap) as (block' & -> & Hl & Ht & Hd).
    exists block'. by destruct (eu_is_error _ _).
  - split_and!; try done; [by apply Hn|]. by destruct Hres as [?| ->].
Qed.

Lemma c_action_poll_buffer_protocol_witness :
  let ev := mkServerEvent ServerEventType_GOAL_REQUEST (mkServerGoalHandle goal_1)
              RuntimeCancelCause_UNSPECIFIED "fib" [1; 2; 3]%Z in
  let h := set_pending (Some ("fib", ev)) started_handle in
  let '(h', out', e) := server_poll (S := native) tt 2 (Some h) (room 2) in
  po_size out' = Some 3%Z /\ h' = Some h.
Proof.
  intros ev h.
  pose proof (c_action_poll_buffer_protocol (S := native) tt 2 h (ServicesProps.Demo.requested, [])
    "fib" ev zero_server_info (replicate 2 7%Z) 0 HAKO_PDU_ACTION_OK (Some (replicate 2 7%Z))
    eq_refl eq_refl (or_intror (conj eq_refl (le_n 2)))) as H.
  change (mkPollOut (Some zero_server_info) (Some (replicate 2 7%Z)) (Some 0%Z)
    (Some HAKO_PDU_ACTION_OK)) with (room 2) in H.
  cbv zeta in H. destruct (server_poll _ _ _ _) as [[h' out'] e].
  destruct H as (_ & Hs & Hh & _). exact (conj Hs Hh).
Defined.

(** The name and the goal of an event lead back to that goal: a call with
    the name and goal the program read from the info of an event calls the
    services with the event's own action name and goal, if the name has fewer
    than 128 bytes, and the returned code tells whether the services did it. *)
Theorem c_action_goal_roundtrip {S} `{ServerServices S} call h s name ev :
  running_services h = Some s -> name <> "" ->
  length (bytes_of name) < HAKO_PDU_ACTION_NAME_MAX ->
  Forall (fun b => b <> 0%Z) (bytes_of name) ->
  goal_id_wf (sgh_goal_id (se_goal ev)) -> is_valid_goal_id (sgh_goal_id (se_goal ev)) = true ->
  let info := fill_server_info name ev in
  server_goal_call (S := S) true call (Some h) (Some (text_of (c_text (si_action_name info))))
    (Some (si_goal info))
  = let '(s', ok) := call s name (se_goal ev) in
    (Some (set_services s' h),
     if ok then HAKO_PDU_ACTION_OK else HAKO_PDU_ACTION_ERROR_INVALID_STATE).
Proof.
  intros Hr Hne Hl Hz [Hg _] Hv info. unfold server_goal_call, call_goal.
  cbn [info fill_server_info si_action_name si_goal]. rewrite name_field_text by done.
  unfold valid_text. rewrite bool_decide_eq_false_2 by done. cbn [negb orb]. rewrite Hr.
  unfold to_cpp_server_goal, to_cpp_goal_id, to_c_goal_id.
  rewrite take_ge by (rewrite Hg; done).
  unfold ServerGoalHandle_valid. cbn [sgh_goal_id]. rewrite Hv. cbn [negb].
  by destruct (se_goal ev).
Qed.

Lemma c_action_goal_roundtrip_witness :
  let ev := mkServerEvent ServerEventType_GOAL_REQUEST handle_1
              RuntimeCancelCause_UNSPECIFIED "fib" [] in
  (server_goal_call (S := native) true sv_accept_goal
     (Some (mkActionHandle true (Some (Services.poll ServicesProps.Demo.requested []).1) None true))
     (Some (text_of (c_text (si_action_name (fill_server_info "fib" ev)))))
     (Some (si_goal (fill_server_info "fib" ev)))).2 = HAKO_PDU_ACTION_OK.
Proof.
  intros ev.
  rewrite (c_action_goal_roundtrip (S := native) sv_accept_goal
    (mkActionHandle true (Some (Services.poll ServicesProps.Demo.requested []).1) None true)
    (Services.poll ServicesProps.Demo.requested []).1 "fib" ev); [by vm_compute|done|done|..].
  - vm_compute. lia.
  - by repeat constructor.
  - split; [done|]. repeat constructor; lia.
  - done.
Defined.

(** A longer name does not come back. *)
Lemma long_name_truncated name :
  HAKO_PDU_ACTION_NAME_MAX <= length (bytes_of name) ->
  Forall (fun b => b <> 0%Z) (bytes_of name) -> text_of (c_text (name_field name)) <> name.
Proof.
  intros Hl Hz Heq. unfold name_field in Heq.
  destruct (copy_name_spec zero_name name) as (block & Hc & _ & Ht); [cbv; lia|done|].
  change (length zero_name) with HAKO_PDU_ACTION_NAME_MAX in Hc, Ht. rewrite Hc in Heq.
  change (default zero_name (Some block)) with block in Heq. rewrite Ht in Heq.
  assert (Hlen : forall l, length (bytes_of (text_of l)) = length l).
  { unfold bytes_of. intros l. rewrite length_fmap. induction l as [|b l IH]; [done|].
    cbn. by rewrite IH. }
  apply (f_equal (fun x => length (bytes_of x))) in Heq. rewrite Hlen, length_take in Heq.
  unfold HAKO_PDU_ACTION_NAME_MAX in *. lia.
Qed.

(** ** Starting and stopping *)

(** The life-cycle calls on a handle, with what its container answers. *)
Inductive life_op :=
  | LifeStart (start_all stop_all : option bool)
  | LifeStop (stop_all : option bool).

Section Lifecycle.
Context {S Ev : Type} (stop : S -> S).

Definition run_life_op (h : ActionHandle S Ev) (op : life_op) : ActionHandle S Ev :=
  default h (match op with
             | LifeStart start_all stop_all => (start_handle stop (Some h) start_all stop_all).1
             | LifeStop stop_all => (stop_handle stop (Some h) stop_all).1
             end).

(** What a caller expects: a start that succeeds turns the handle on, a stop
    turns it off. *)
Definition life_spec (on : bool) (op : life_op) : bool :=
  match op with
  | LifeStart start_all _ => on || bool_decide (start_all = Some true)
  | LifeStop _ => false
  end.

(** The calls that stop the services: a stop, or a start that threw while the
    handle was off. *)
Definition life_stops (on : bool) (op : life_op) : nat :=
  match op with
  | LifeStart None _ => if on then 0 else 1
  | LifeStart (Some _) _ => 0
  | LifeStop _ => 1
  end.

Fixpoint count_stops (on : bool) (ops : list life_op) : nat :=
  match ops with
  | [] => 0
  | op :: rest => life_stops on op + count_stops (life_spec on op) rest
  end.

Lemma run_life_op_spec h op s :
  h_endpoints h = true -> h_services h = Some s ->
  let h' := run_life_op h op in
  let n := life_stops (h_started h) op in
  h_endpoints h' = true /\ h_services h' = Some (Nat.iter n stop s)
  /\ h_started h' = life_spec (h_started h) op
  /\ h_pending_event h' = (if n =? 0 then h_pending_event h else None).
Proof.
  destruct h as [ep sv pe on]. cbn. intros -> ->.
  destruct op as [[[|]|] st|st], on; cbn; done.
Qed.

Lemma run_life_spec ops h s :
  h_endpoints h = true -> h_services h = Some s ->
  let h' := foldl run_life_op h ops in
  let n := count_stops (h_started h) ops in
  h_endpoints h' = true /\ h_services h' = Some (Nat.iter n stop s)
  /\ h_started h' = foldl life_spec (h_started h) ops
  /\ h_pending_event h' = (if n =? 0 then h_pending_event h else None).
Proof.
  revert h s. induction ops as [|op ops IH]; intros h s He Hs; [done|].
  destruct (run_life_op_spec h op s He Hs) as (He1 & Hs1 & Hst & Hp).
  destruct (IH _ _ He1 Hs1) as (He2 & Hs2 & Hst2 & Hp2).
  cbn [foldl count_stops]. rewrite Hst in *.
  split_and!; [done| |done|].
  - rewrite Hs2. f_equal. by rewrite Nat.add_comm, Nat.iter_add.
  - rewrite Hp2, Hp. destruct (life_stops _ _) eqn:Hn, (count_stops (life_spec _ _) _) eqn:Hc; done.
Qed.
End Lifecycle.

(** No goal and no waiting runtime event is left. *)
Definition services_empty {E} (s : Services.ServicesServer E) : Prop :=
  Forall (fun a => Services.ai_goals a = []) (Services.ss_actions s)
  /\ Services.ss_pending_runtime_events s = [].

(** Starting and stopping an Action server through the C interface, in any
    order and whatever the endpoint container answers or throws: the handle is
    on exactly when the last call that counts turned it on; nothing fails half
    way; once a stop or a start that threw has come, no goal, runtime event or
    unread event of before it is left, and the handle can be started again. *)
Theorem c_action_server_lifecycle {E} `{IActionServerEndpoint E}
    (h : hako_pdu_action_server_handle (E := E)) s ops :
  h_endpoints h = true -> h_services h = Some s ->
  let h' := foldl (run_life_op stop_server_services) h ops in
  h_started h' = foldl life_spec (h_started h) ops
  /\ (hako_pdu_action_server_start (Some h') (Some true) (Some true)).2 = HAKO_PDU_ACTION_OK
  /\ (count_stops (h_started h) ops <> 0 ->
        h_pending_event h' = None
        /\ exists x, h_services h' = Some x /\ services_empty x.1).
Proof.
  intros He Hs h'. destruct (run_life_spec stop_server_services ops h s He Hs)
    as (He' & Hs' & Hst & Hp). fold h' in He', Hs', Hst, Hp.
  split_and!; [done| |].
  - unfold hako_pdu_action_server_start, start_handle. rewrite He', Hs'. by destruct (h_started h').
  - intros Hn. destruct (count_stops _ _) as [|n]; [done|]. split; [done|].
    eexists. split; [done|]. cbn. split; [|done]. cbn. rewrite Forall_fmap. by apply Forall_true.
Qed.

Lemma c_action_server_lifecycle_witness :
  let ops := [LifeStop None; LifeStart None None; LifeStart (Some true) None] in
  let h' := foldl (run_life_op stop_server_services) started_handle ops in
  h_started h' = true /\ exists x, h_services h' = Some x /\ services_empty x.1.
Proof.
  intros ops h'.
  destruct (c_action_server_lifecycle started_handle (ServicesProps.Demo.requested, []) ops
              eq_refl eq_refl) as (H1 & _ & H2).
  split; [exact H1|]. apply H2. discriminate.
Defined.
End CActionProps.
