(* ===== verification/RpcTypes.v ===== *)
(** * RPC types and platform

    The types of include/hakoniwa/pdu/rpc/rpc_types.hpp, the service headers,
    and what the RPC endpoints use of code outside this repository: the
    generated header convertors, the PDU definition table of the transport
    endpoint and its [send]. *)

From S2P Require Import Prelude.
From Stdlib Require Import ZArith Lia.
From stdpp Require Import base gmap strings list fin_maps.

Module Rpc.

Abbreviation RpcPduData := (list Z).

(** ** Headers *)

Record ServiceRequestHeader := mkServiceRequestHeader {
  rq_request_id : Z;
  rq_service_name : string;
  rq_client_name : string;
  rq_opcode : Z;
  rq_status_poll_interval_msec : Z;
}.

Record ServiceResponseHeader := mkServiceResponseHeader {
  rp_request_id : Z;
  rp_service_name : string;
  rp_client_name : string;
  rp_status : Z;
  rp_processing_percentage : Z;
  rp_result_code : Z;
}.

#[export] Instance ServiceRequestHeader_eq_dec : EqDecision ServiceRequestHeader.
Proof. solve_decision. Defined.
#[export] Instance ServiceResponseHeader_eq_dec : EqDecision ServiceResponseHeader.
Proof. solve_decision. Defined.

Record RpcRequest := mkRpcRequest {
  req_client_name : string;
  req_header : ServiceRequestHeader;
  req_pdu : RpcPduData;
}.

Record RpcResponse := mkRpcResponse {
  res_header : ServiceResponseHeader;
  res_pdu : RpcPduData;
}.

Inductive RpcServerEventType :=
  | RpcServer_NONE
  | RpcServer_REQUEST_IN
  | RpcServer_REQUEST_CANCEL.

Inductive RpcClientEventType :=
  | RpcClient_NONE
  | RpcClient_RESPONSE_IN
  | RpcClient_RESPONSE_CANCEL
  | RpcClient_RESPONSE_TIMEOUT.

#[export] Instance RpcServerEventType_eq_dec : EqDecision RpcServerEventType.
Proof. solve_decision. Defined.
#[export] Instance RpcClientEventType_eq_dec : EqDecision RpcClientEventType.
Proof. solve_decision. Defined.

Definition HAKO_SERVICE_OPERATION_CODE_REQUEST : Z := 0.
Definition HAKO_SERVICE_OPERATION_CODE_CANCEL : Z := 1.
Definition HAKO_SERVICE_OPERATION_NUM : Z := 2.

Definition HAKO_SERVICE_STATUS_NONE : Z := 0.
Definition HAKO_SERVICE_STATUS_DOING : Z := 1.
Definition HAKO_SERVICE_STATUS_CANCELING : Z := 2.
Definition HAKO_SERVICE_STATUS_DONE : Z := 3.
Definition HAKO_SERVICE_STATUS_ERROR : Z := 4.

Definition HAKO_SERVICE_RESULT_CODE_OK : Z := 0.
Definition HAKO_SERVICE_RESULT_CODE_ERROR : Z := 1.
Definition HAKO_SERVICE_RESULT_CODE_CANCELED : Z := 2.
Definition HAKO_SERVICE_RESULT_CODE_INVALID : Z := 3.
Definition HAKO_SERVICE_RESULT_CODE_BUSY : Z := 4.
Definition HAKO_SERVICE_RESULT_CODE_NOT_SUPPORTED : Z := 5.
Definition HAKO_SERVICE_RESULT_CODE_NUM : Z := 6.

(** ** The transport endpoint *)

Record PduKey := mkPduKey { pk_robot : string; pk_pdu : string }.

#[export] Instance PduKey_eq_dec : EqDecision PduKey.
Proof. solve_decision. Defined.

(** What [add_definition] receives. *)
Record PduDef := mkPduDef {
  pd_org_name : string;
  pd_name : string;
  pd_channel_id : Z;
  pd_pdu_size : Z;
  pd_method_type : string;
}.

(** One [endpoint_->send] call and whether it returned [HAKO_PDU_ERR_OK]. *)
Record RpcSend := mkRpcSend {
  rsn_key : PduKey;
  rsn_data : RpcPduData;
  rsn_ok : bool;
}.

Abbreviation RpcWire := (list RpcSend).

(** [pdu2cpp] writes into the header it is given, so the previous value is an
    argument; [cpp2pdu] fills a buffer of the given size. *)
Class RpcPlatform := {
  pdu2cpp_ServiceRequestHeader : RpcPduData -> ServiceRequestHeader -> ServiceRequestHeader;
  pdu2cpp_ServiceResponseHeader : RpcPduData -> ServiceResponseHeader;
  cpp2pdu_ServiceRequestHeader : ServiceRequestHeader -> Z -> RpcPduData;
  cpp2pdu_ServiceResponseHeader : ServiceResponseHeader -> Z -> RpcPduData;
  get_pdu_size : PduKey -> Z;
  rpc_send_result : RpcWire -> PduKey -> RpcPduData -> bool;
  (** Whether a header can be stored in a buffer of this size: its strings and
      numbers fit the fixed fields and the buffer covers them. *)
  request_fits : ServiceRequestHeader -> Z -> bool;
  response_fits : ServiceResponseHeader -> Z -> bool;
}.

(** A header that fits is read back as it was written. *)
Class RpcPlatformLaws (P : RpcPlatform) : Prop := {
  law_request_roundtrip h n prev :
    request_fits h n = true ->
    pdu2cpp_ServiceRequestHeader (cpp2pdu_ServiceRequestHeader h n) prev = h;
  law_response_roundtrip h n :
    response_fits h n = true ->
    pdu2cpp_ServiceResponseHeader (cpp2pdu_ServiceResponseHeader h n) = h;
}.

Definition rpc_send `{RpcPlatform} (w : RpcWire) (key : PduKey) (data : RpcPduData)
    : RpcWire * bool :=
  let ok := rpc_send_result w key data in
  (w ++ [mkRpcSend key data ok], ok).

(** ** A concrete platform

    Headers as byte lists: five or six numbers of four bytes are enough for a
    witness, with the names as length-prefixed byte strings. *)
Module ConcreteRpc.

Fixpoint string_bytes (s : string) : list Z :=
  match s with
  | EmptyString => []
  | String a s' => Z.of_N (Ascii.N_of_ascii a) :: string_bytes s'
  end.

Fixpoint bytes_string (l : list Z) : string :=
  match l with
  | [] => EmptyString
  | b :: l' => String (Ascii.ascii_of_N (Z.to_N b)) (bytes_string l')
  end.

Lemma bytes_string_bytes s : bytes_string (string_bytes s) = s.
Proof.
  induction s as [|a s IH]; [done|]. cbn. rewrite IH, N2Z.id. f_equal.
  apply Ascii.ascii_N_embedding.
Qed.

Definition put_string (s : string) : list Z :=
  Z.of_nat (length (string_bytes s)) :: string_bytes s.

Definition get_string (l : list Z) : string * list Z :=
  match l with
  | [] => (EmptyString, [])
  | n :: l' => (bytes_string (take (Z.to_nat n) l'), drop (Z.to_nat n) l')
  end.

Lemma get_put_string s l : get_string (put_string s ++ l) = (s, l).
Proof.
  unfold put_string, get_string. cbn. rewrite Nat2Z.id.
  by rewrite take_app_length, drop_app_length, bytes_string_bytes.
Qed.

#[local] Arguments put_string : simpl never.
#[local] Arguments get_string : simpl never.

Definition encode_request (h : ServiceRequestHeader) : list Z :=
  [rq_request_id h; rq_opcode h; rq_status_poll_interval_msec h]
  ++ put_string (rq_service_name h) ++ put_string (rq_client_name h).

Definition decode_request (l : list Z) (prev : ServiceRequestHeader) : ServiceRequestHeader :=
  match l with
  | id :: op :: interval :: rest =>
      let '(service, rest') := get_string rest in
      let '(client, _) := get_string rest' in
      mkServiceRequestHeader id service client op interval
  | _ => prev
  end.

Definition encode_response (h : ServiceResponseHeader) : list Z :=
  [rp_request_id h; rp_status h; rp_processing_percentage h; rp_result_code h]
  ++ put_string (rp_service_name h) ++ put_string (rp_client_name h).

Definition decode_response (l : list Z) : ServiceResponseHeader :=
  match l with
  | id :: status :: percentage :: code :: rest =>
      let '(service, rest') := get_string rest in
      let '(client, _) := get_string rest' in
      mkServiceResponseHeader id service client status percentage code
  | _ => mkServiceResponseHeader 0 "" "" 0 0 0
  end.

Definition pad (l : list Z) (n : Z) : list Z := resize (Z.to_nat n) 0%Z l.

Lemma pad_fits l n : (Z.of_nat (length l) <= n)%Z -> exists rest, pad l n = l ++ rest.
Proof.
  intros Hl. unfold pad. rewrite resize_ge by lia. eauto.
Qed.

#[export] Instance platform : RpcPlatform := {|
  pdu2cpp_ServiceRequestHeader := decode_request;
  pdu2cpp_ServiceResponseHeader := decode_response;
  cpp2pdu_ServiceRequestHeader h n := pad (encode_request h) n;
  cpp2pdu_ServiceResponseHeader h n := pad (encode_response h) n;
  get_pdu_size _ := 64%Z;
  rpc_send_result _ _ _ := true;
  request_fits h n := (Z.of_nat (length (encode_request h)) <=? n)%Z;
  response_fits h n := (Z.of_nat (length (encode_response h)) <=? n)%Z;
|}.

#[export] Instance platform_laws : RpcPlatformLaws platform.
Proof.
  split.
  - intros h n prev Hf.
    assert (Hl : (Z.of_nat (length (encode_request h)) <= n)%Z) by (by apply Z.leb_le).
    cbn [pdu2cpp_ServiceRequestHeader cpp2pdu_ServiceRequestHeader platform].
    destruct (pad_fits _ _ Hl) as [rest ->]. unfold encode_request.
    rewrite <-!(assoc_L (++)). cbn. rewrite get_put_string. cbn.
    rewrite get_put_string. by destruct h.
  - intros h n Hf.
    assert (Hl : (Z.of_nat (length (encode_response h)) <= n)%Z) by (by apply Z.leb_le).
    cbn [pdu2cpp_ServiceResponseHeader cpp2pdu_ServiceResponseHeader platform].
    destruct (pad_fits _ _ Hl) as [rest ->]. unfold encode_response.
    rewrite <-!(assoc_L (++)). cbn. rewrite get_put_string. cbn.
    rewrite get_put_string. by destruct h.
Qed.
End ConcreteRpc.
End Rpc.
