(* ===== verification/RpcServerEndpoint.v ===== *)
(** * RPC server endpoint

    [RpcServerEndpointImpl] of include/hakoniwa/pdu/rpc/rpc_server_endpoint_impl.hpp
    and src/rpc_server_endpoint_impl.cpp: per client one request at a time, with
    its processing state, error replies and replies. Operations hold the
    endpoint mutex and are atomic.

    The service configuration is the record of what the code reads from the
    JSON entry; a member is [None] where nlohmann would throw. The static
    [instances_] list, its callback, and what they mean for the lifetime of
    endpoints are in [RpcInstances.v]; the subscribed lambdas use the endpoint
    itself. *)

From S2P Require Import Prelude RpcTypes.
From Stdlib Require Import ZArith Lia.
From stdpp Require Import base gmap strings list fin_maps relations.

Module RpcServerEp.
Import Rpc.

(** ** State *)

Inductive ServerState :=
  | SERVER_STATE_IDLE
  | SERVER_STATE_RUNNING
  | SERVER_STATE_CANCELLING.

#[export] Instance ServerState_eq_dec : EqDecision ServerState.
Proof. solve_decision. Defined.

Record ServerProcessingStatus := mkServerProcessingStatus {
  sps_request_id : Z;
  sps_state : ServerState;
}.

Record PendingRequest := mkPendingRequest {
  pr_key : PduKey;
  pr_data : RpcPduData;
}.

Record RpcServer := mkRpcServer {
  rs_service_name : string;
  rs_has_endpoint : bool;
  rs_has_pdu_definition : bool;
  rs_server_states : gmap string ServerProcessingStatus;
  rs_registered_clients : list string;
  rs_pending_requests : list PendingRequest;
  rs_max_clients : Z;
  rs_dynamic_client : bool;
  rs_dynamic_request_channel_id : Z;
  rs_dynamic_response_channel_id : Z;
  rs_dynamic_request_pdu_size : Z;
  rs_dynamic_response_pdu_size : Z;
  (** Calls to [add_definition] and [subscribe_on_recv_callback]. *)
  rs_definitions : list (string * PduDef);
  rs_subscriptions : list (string * Z);
}.

Definition new_rpc_server (service_name : string) (has_endpoint has_pdu_definition : bool)
    : RpcServer :=
  mkRpcServer service_name has_endpoint has_pdu_definition ∅ [] [] 0 false 0 0 0 0 [] [].

Definition set_states (m : gmap string ServerProcessingStatus) (s : RpcServer) : RpcServer :=
  mkRpcServer (rs_service_name s) (rs_has_endpoint s) (rs_has_pdu_definition s) m
    (rs_registered_clients s) (rs_pending_requests s) (rs_max_clients s)
    (rs_dynamic_client s) (rs_dynamic_request_channel_id s)
    (rs_dynamic_response_channel_id s) (rs_dynamic_request_pdu_size s)
    (rs_dynamic_response_pdu_size s) (rs_definitions s) (rs_subscriptions s).

Definition set_pending (l : list PendingRequest) (s : RpcServer) : RpcServer :=
  mkRpcServer (rs_service_name s) (rs_has_endpoint s) (rs_has_pdu_definition s)
    (rs_server_states s) (rs_registered_clients s) l (rs_max_clients s)
    (rs_dynamic_client s) (rs_dynamic_request_channel_id s)
    (rs_dynamic_response_channel_id s) (rs_dynamic_request_pdu_size s)
    (rs_dynamic_response_pdu_size s) (rs_definitions s) (rs_subscriptions s).

Definition set_limits (max_clients : Z) (s : RpcServer) : RpcServer :=
  mkRpcServer (rs_service_name s) (rs_has_endpoint s) (rs_has_pdu_definition s)
    (rs_server_states s) (rs_registered_clients s) (rs_pending_requests s) max_clients
    (rs_dynamic_client s) (rs_dynamic_request_channel_id s)
    (rs_dynamic_response_channel_id s) (rs_dynamic_request_pdu_size s)
    (rs_dynamic_response_pdu_size s) (rs_definitions s) (rs_subscriptions s).

Definition set_dynamic (dynamic : bool) (request_channel response_channel request_size
    response_size : Z) (s : RpcServer) : RpcServer :=
  mkRpcServer (rs_service_name s) (rs_has_endpoint s) (rs_has_pdu_definition s)
    (rs_server_states s) (rs_registered_clients s) (rs_pending_requests s)
    (rs_max_clients s) dynamic request_channel response_channel request_size response_size
    (rs_definitions s) (rs_subscriptions s).

(** Registers a client with an idle state. *)
Definition register_client (client_name : string) (s : RpcServer) : RpcServer :=
  mkRpcServer (rs_service_name s) (rs_has_endpoint s) (rs_has_pdu_definition s)
    (<[client_name := mkServerProcessingStatus 0 SERVER_STATE_IDLE]> (rs_server_states s))
    (rs_registered_clients s ++ [client_name]) (rs_pending_requests s) (rs_max_clients s)
    (rs_dynamic_client s) (rs_dynamic_request_channel_id s)
    (rs_dynamic_response_channel_id s) (rs_dynamic_request_pdu_size s)
    (rs_dynamic_response_pdu_size s) (rs_definitions s) (rs_subscriptions s).

Definition add_definition (robot : string) (d : PduDef) (s : RpcServer) : RpcServer :=
  mkRpcServer (rs_service_name s) (rs_has_endpoint s) (rs_has_pdu_definition s)
    (rs_server_states s) (rs_registered_clients s) (rs_pending_requests s)
    (rs_max_clients s) (rs_dynamic_client s) (rs_dynamic_request_channel_id s)
    (rs_dynamic_response_channel_id s) (rs_dynamic_request_pdu_size s)
    (rs_dynamic_response_pdu_size s) (rs_definitions s ++ [(robot, d)])
    (rs_subscriptions s).

Definition subscribe (robot : string) (channel_id : Z) (s : RpcServer) : RpcServer :=
  mkRpcServer (rs_service_name s) (rs_has_endpoint s) (rs_has_pdu_definition s)
    (rs_server_states s) (rs_registered_clients s) (rs_pending_requests s)
    (rs_max_clients s) (rs_dynamic_client s) (rs_dynamic_request_channel_id s)
    (rs_dynamic_response_channel_id s) (rs_dynamic_request_pdu_size s)
    (rs_dynamic_response_pdu_size s) (rs_definitions s)
    (rs_subscriptions s ++ [(robot, channel_id)]).

(** ** Configuration *)

Record ClientSpec := mkClientSpec {
  cs_name : option string;
  cs_has_client_endpoint : bool;
  cs_has_node_id : bool;
  cs_node_id : option string;
  cs_endpoint_id : option string;
  cs_request_channel_id : option Z;
  cs_response_channel_id : option Z;
}.

Record ServiceConfig := mkServiceConfig {
  sc_max_clients : option Z;
  sc_name : option string;
  sc_type : option string;
  sc_dynamic_client : option bool;
  sc_request_channel_id : option Z;
  sc_response_channel_id : option Z;
  sc_server_base_size : option Z;
  sc_server_heap_size : option Z;
  sc_client_base_size : option Z;
  sc_client_heap_size : option Z;
  sc_clients : option (list ClientSpec);
}.

(** [baseSize + heapSize + pdu_meta_data_size] on [size_t]. *)
Definition request_pdu_size (c : ServiceConfig) (meta : Z) : option Z :=
  b ← sc_server_base_size c; h ← sc_client_heap_size c; Some (u64 (b + h + meta)).

Definition response_pdu_size (c : ServiceConfig) (meta : Z) : option Z :=
  b ← sc_client_base_size c; h ← sc_server_heap_size c; Some (u64 (b + h + meta)).

Definition rpc_def (service_name org_name : string) (channel_id size : Z) : PduDef :=
  mkPduDef org_name (service_name +:+ "_" +:+ org_name) channel_id size "RPC".

(** The loop over [service_config["clients"]]; the state reached is kept when a
    member is missing or a client is malformed. *)
Fixpoint init_clients (c : ServiceConfig) (service_name : string) (meta : Z)
    (client_node_id : option string) (clients : list ClientSpec) (s : RpcServer)
    : RpcServer * bool :=
  match clients with
  | [] => (s, true)
  | client :: rest =>
      match cs_name client with
      | None => (s, false)
      | Some client_name =>
          if negb (cs_has_client_endpoint client) then (s, false)
          else if negb (cs_has_node_id client) then (s, false)
          else if match client_node_id with
                  | Some node => negb (bool_decide (cs_node_id client = Some node))
                  | None => false
                  end
          then init_clients c service_name meta client_node_id rest s
          else
            let s1 := register_client client_name s in
            match cs_request_channel_id client, request_pdu_size c meta with
            | Some request_channel, Some request_size =>
                let s2 := add_definition service_name
                            (rpc_def service_name (client_name +:+ "Req") request_channel
                               request_size) s1 in
                match cs_response_channel_id client, response_pdu_size c meta with
                | Some response_channel, Some response_size =>
                    let s3 := add_definition service_name
                                (rpc_def service_name (client_name +:+ "Res")
                                   response_channel response_size) s2 in
                    init_clients c service_name meta client_node_id rest
                      (subscribe service_name request_channel s3)
                | _, _ => (s2, false)
                end
            | _, _ => (s1, false)
            end
      end
  end.

Definition initialize (s : RpcServer) (c : ServiceConfig) (pdu_meta_data_size : Z)
    (client_node_id : option string) : RpcServer * bool :=
  if negb (rs_has_endpoint s) then (s, false)
  else
    match sc_max_clients c with
    | None => (s, false)
    | Some max_clients =>
        let s1 := set_limits max_clients s in
        match sc_name c, sc_type c with
        | Some service_name, Some _ =>
            if negb (rs_has_pdu_definition s) then (s1, false)
            else
              match sc_dynamic_client c with
              | None => (s1, false)
              | Some true =>
                  let response0 := rs_dynamic_response_channel_id s1 in
                  let request_size0 := rs_dynamic_request_pdu_size s1 in
                  let response_size0 := rs_dynamic_response_pdu_size s1 in
                  let s2 := set_dynamic true (rs_dynamic_request_channel_id s1) response0
                              request_size0 response_size0 s1 in
                  match sc_request_channel_id c with
                  | None => (s2, false)
                  | Some request_channel =>
                      let s3 := set_dynamic true request_channel response0
                                  request_size0 response_size0 s1 in
                      match sc_response_channel_id c with
                      | None => (s3, false)
                      | Some response_channel =>
                          let s4 := set_dynamic true request_channel response_channel
                                      request_size0 response_size0 s1 in
                          match request_pdu_size c pdu_meta_data_size with
                          | None => (s4, false)
                          | Some request_size =>
                              let s5 := set_dynamic true request_channel response_channel
                                          request_size response_size0 s1 in
                              match response_pdu_size c pdu_meta_data_size with
                              | None => (s5, false)
                              | Some response_size =>
                                  let s6 := set_dynamic true request_channel response_channel
                                              request_size response_size s1 in
                                  (subscribe service_name request_channel
                                     (add_definition service_name
                                        (mkPduDef "Req" (service_name +:+ "_Req")
                                           request_channel request_size "RPC") s6), true)
                              end
                          end
                      end
                  end
              | Some false =>
                  let s2 := set_dynamic false (rs_dynamic_request_channel_id s1)
                              (rs_dynamic_response_channel_id s1)
                              (rs_dynamic_request_pdu_size s1)
                              (rs_dynamic_response_pdu_size s1) s1 in
                  match sc_clients c with
                  | None => (s2, false)
                  | Some clients =>
                      init_clients c service_name pdu_meta_data_size client_node_id clients s2
                  end
              end
        | _, _ => (s1, false)
        end
    end.

Section Operations.
Context {P : RpcPlatform}.

(** ** Requests and replies *)

Definition put_pending_request (key : PduKey) (data : RpcPduData) (s : RpcServer)
    : RpcServer :=
  set_pending (rs_pending_requests s ++ [mkPendingRequest key data]) s.

Definition response_key (service_name client_name : string) : PduKey :=
  mkPduKey service_name (client_name +:+ "Res").

Definition create_reply_buffer (header : ServiceRequestHeader) (status result_code : Z)
    : RpcPduData :=
  let size := get_pdu_size (response_key (rq_service_name header) (rq_client_name header)) in
  cpp2pdu_ServiceResponseHeader
    (mkServiceResponseHeader (rq_request_id header) (rq_service_name header)
       (rq_client_name header) status 100 result_code) size.

Definition send_reply (s : RpcServer) (w : RpcWire) (client_name : string)
    (pdu : RpcPduData) : RpcServer * RpcWire :=
  match rs_server_states s !! client_name with
  | None => (s, w)
  | Some status =>
      if bool_decide (sps_state status = SERVER_STATE_IDLE) then (s, w)
      else
        let s' := set_states (<[client_name := mkServerProcessingStatus 0 SERVER_STATE_IDLE]>
                                (rs_server_states s)) s in
        (s', fst (rpc_send w (response_key (rs_service_name s) client_name) pdu))
  end.

Definition send_cancel_reply (s : RpcServer) (w : RpcWire) (client_name : string)
    (pdu : RpcPduData) : RpcServer * RpcWire :=
  match rs_server_states s !! client_name with
  | None => (s, w)
  | Some status =>
      if negb (bool_decide (sps_state status = SERVER_STATE_CANCELLING)) then (s, w)
      else
        let s' := set_states (<[client_name := mkServerProcessingStatus 0 SERVER_STATE_IDLE]>
                                (rs_server_states s)) s in
        (s', fst (rpc_send w (response_key (rs_service_name s) client_name) pdu))
  end.

Definition send_error_reply (s : RpcServer) (w : RpcWire) (header : ServiceRequestHeader)
    (result_code : Z) : RpcServer * RpcWire :=
  send_reply s w (rq_client_name header)
    (create_reply_buffer header HAKO_SERVICE_STATUS_ERROR result_code).

(** ** Header checks *)

Definition ensure_dynamic_client (s : RpcServer) (client_name : string) : RpcServer * bool :=
  if bool_decide (client_name = "") then (s, false)
  else if bool_decide (is_Some (rs_server_states s !! client_name)) then (s, true)
  else if (rs_max_clients s <=? Z.of_nat (length (rs_registered_clients s)))%Z then (s, false)
  else if negb (rs_has_pdu_definition s) then (s, false)
  else
    let s1 := add_definition (rs_service_name s)
                (rpc_def (rs_service_name s) (client_name +:+ "Req")
                   (rs_dynamic_request_channel_id s) (rs_dynamic_request_pdu_size s)) s in
    let s2 := add_definition (rs_service_name s)
                (rpc_def (rs_service_name s) (client_name +:+ "Res")
                   (rs_dynamic_response_channel_id s) (rs_dynamic_response_pdu_size s)) s1 in
    (register_client client_name s2, true).

Definition validate_header (s : RpcServer) (header : ServiceRequestHeader)
    : RpcServer * bool :=
  if negb (bool_decide (rq_service_name header = rs_service_name s)) then (s, false)
  else if rs_dynamic_client s then ensure_dynamic_client s (rq_client_name header)
  else if negb (bool_decide (rq_client_name header ∈ rs_registered_clients s)) then (s, false)
  else if (HAKO_SERVICE_OPERATION_NUM <=? rq_opcode header)%Z then (s, false)
  else (s, true).

(** ** Polling *)

(** [server_states_[client]] of a client that [poll] has found there. *)
Definition status_of (s : RpcServer) (client_name : string) : ServerProcessingStatus :=
  default (mkServerProcessingStatus 0 SERVER_STATE_IDLE) (rs_server_states s !! client_name).

Definition handle_request_in (s : RpcServer) (w : RpcWire) (request : RpcRequest)
    : RpcServer * RpcWire * (RpcServerEventType * RpcRequest) :=
  let header := req_header request in
  let client := rq_client_name header in
  match sps_state (status_of s client) with
  | SERVER_STATE_IDLE =>
      (set_states (<[client := mkServerProcessingStatus (rq_request_id header)
                                 SERVER_STATE_RUNNING]> (rs_server_states s)) s, w,
       (RpcServer_REQUEST_IN, mkRpcRequest client header (req_pdu request)))
  | SERVER_STATE_RUNNING | SERVER_STATE_CANCELLING =>
      let '(s', w') := send_error_reply s w header HAKO_SERVICE_RESULT_CODE_BUSY in
      (s', w', (RpcServer_NONE, request))
  end.

Definition handle_cancel_request (s : RpcServer) (w : RpcWire) (request : RpcRequest)
    : RpcServer * RpcWire * (RpcServerEventType * RpcRequest) :=
  let header := req_header request in
  let client := rq_client_name header in
  let status := status_of s client in
  match sps_state status with
  | SERVER_STATE_RUNNING =>
      if negb (sps_request_id status =? rq_request_id header)%Z then
        let '(s', w') := send_error_reply s w header HAKO_SERVICE_RESULT_CODE_INVALID in
        (s', w', (RpcServer_NONE, request))
      else
        (set_states (<[client := mkServerProcessingStatus (sps_request_id status)
                                   SERVER_STATE_CANCELLING]> (rs_server_states s)) s, w,
         (RpcServer_REQUEST_CANCEL, request))
  | SERVER_STATE_IDLE => (s, w, (RpcServer_NONE, request))
  | SERVER_STATE_CANCELLING =>
      let '(s', w') := send_error_reply s w header HAKO_SERVICE_RESULT_CODE_BUSY in
      (s', w', (RpcServer_NONE, request))
  end.

(** [request] is the caller's in/out parameter. *)
Definition poll (s : RpcServer) (w : RpcWire) (request : RpcRequest)
    : RpcServer * RpcWire * (RpcServerEventType * RpcRequest) :=
  match rs_pending_requests s with
  | [] => (s, w, (RpcServer_NONE, request))
  | pending :: rest =>
      let s0 := set_pending rest s in
      let header := pdu2cpp_ServiceRequestHeader (pr_data pending) (req_header request) in
      let request' := mkRpcRequest (req_client_name request) header (pr_data pending) in
      let '(s1, valid) := validate_header s0 header in
      if negb valid then
        let '(s2, w') := send_error_reply s1 w header HAKO_SERVICE_RESULT_CODE_ERROR in
        (s2, w', (RpcServer_NONE, request'))
      else if negb (bool_decide (is_Some (rs_server_states s1 !! rq_client_name header))) then
        let '(s2, w') := send_error_reply s1 w header HAKO_SERVICE_RESULT_CODE_INVALID in
        (s2, w', (RpcServer_NONE, request'))
      else if (rq_opcode header =? HAKO_SERVICE_OPERATION_CODE_CANCEL)%Z then
        handle_cancel_request s1 w request'
      else handle_request_in s1 w request'
  end.

Definition clear_pending_requests (s : RpcServer) : RpcServer := set_pending [] s.
End Operations.
End RpcServerEp.
