(* ===== verification/RpcServerProps.v ===== *)
(** * What the RPC server endpoint guarantees *)

From S2P Require Import Prelude RpcTypes RpcServerEndpoint.
From Stdlib Require Import ZArith Lia.
From stdpp Require Import base gmap strings list fin_maps relations.

Module RpcServerProps.
Import Rpc RpcServerEp.

Section Facts.
Context {P : RpcPlatform}.

(** ** Replies and processing states *)

Definition busy (s : RpcServer) (client : string) : nat :=
  match rs_server_states s !! client with
  | Some st => if bool_decide (sps_state st = SERVER_STATE_IDLE) then 0 else 1
  | None => 0
  end.

(** Replies to [client] handed to the transport, whether or not it takes them. *)
Definition replies (service client : string) (w : RpcWire) : nat :=
  length (List.filter (fun rec => bool_decide (rsn_key rec = response_key service client)) w).

Lemma replies_app service client w w' :
  replies service client (w ++ w') = replies service client w + replies service client w'.
Proof. unfold replies. by rewrite List.filter_app, length_app. Qed.

Lemma response_key_inj n c c' : response_key n c = response_key n c' -> c = c'.
Proof. unfold response_key. intros [= Heq]. by apply string_app_inj_r in Heq. Qed.

Lemma replies_one n c c' data ok :
  replies n c [mkRpcSend (response_key n c') data ok] = if decide (c' = c) then 1 else 0.
Proof.
  unfold replies. cbn. case_bool_decide as Hk.
  - apply response_key_inj in Hk. by rewrite decide_True.
  - rewrite decide_False by congruence. done.
Qed.

Lemma busy_set s m c :
  busy (set_states m s) c
  = match m !! c with
    | Some st => if bool_decide (sps_state st = SERVER_STATE_IDLE) then 0 else 1
    | None => 0
    end.
Proof. done. Qed.

(** A reply is sent exactly when it ends a request in progress. *)
Definition replied (s : RpcServer) (w : RpcWire) (s' : RpcServer) (w' : RpcWire) : Prop :=
  rs_service_name s' = rs_service_name s
  /\ exists extra, w' = w ++ extra
       /\ forall c, replies (rs_service_name s) c extra + busy s' c = busy s c.

Lemma replied_refl s w : replied s w s w.
Proof. split; [done|]. exists []. by rewrite app_nil_r. Qed.

Lemma reply_sent s w client st pdu :
  rs_server_states s !! client = Some st -> sps_state st <> SERVER_STATE_IDLE ->
  replied s w
    (set_states (<[client := mkServerProcessingStatus 0 SERVER_STATE_IDLE]>
                   (rs_server_states s)) s)
    (fst (rpc_send w (response_key (rs_service_name s) client) pdu)).
Proof.
  intros Hst Hne. split; [done|]. cbn. eexists. split; [done|]. intros c.
  rewrite replies_one, busy_set, lookup_insert. unfold busy.
  case_decide; [|done]. subst c. rewrite Hst.
  by rewrite (bool_decide_eq_false_2 _ Hne), bool_decide_eq_true_2.
Qed.

Lemma send_reply_replied s w client pdu s' w' :
  send_reply s w client pdu = (s', w') -> replied s w s' w'.
Proof.
  unfold send_reply. destruct (rs_server_states s !! client) as [st|] eqn:Hst;
    [|intros [= <- <-]; apply replied_refl].
  case_bool_decide; intros [= <- <-]; [apply replied_refl|]. by eapply reply_sent.
Qed.

Lemma send_cancel_reply_replied s w client pdu s' w' :
  send_cancel_reply s w client pdu = (s', w') -> replied s w s' w'.
Proof.
  unfold send_cancel_reply. destruct (rs_server_states s !! client) as [st|] eqn:Hst;
    [|intros [= <- <-]; apply replied_refl].
  case_bool_decide as Hc; cbn [negb]; intros [= <- <-]; [|apply replied_refl].
  eapply reply_sent; [done|]. by rewrite Hc.
Qed.

(** ** Header checks register idle clients only *)

Lemma validate_header_spec s h s' ok :
  validate_header s h = (s', ok) ->
  rs_service_name s' = rs_service_name s
  /\ (rs_server_states s' = rs_server_states s
      \/ (rs_server_states s !! rq_client_name h = None
          /\ rs_server_states s'
             = <[rq_client_name h := mkServerProcessingStatus 0 SERVER_STATE_IDLE]>
                 (rs_server_states s))).
Proof.
  unfold validate_header. split_guard; [by intros [= <- <-]; auto|].
  destruct (rs_dynamic_client s); [|repeat (split_guard; try by intros [= <- <-]; auto)].
  unfold ensure_dynamic_client. split_guard; [by intros [= <- <-]; auto|].
  destruct (bool_decide_reflect (is_Some (rs_server_states s !! rq_client_name h)))
    as [Hn|Hn]; [by intros [= <- <-]; auto|]. apply eq_None_not_Some in Hn.
  do 2 (split_guard; [by intros [= <- <-]; auto|]). intros [= <- <-]. auto.
Qed.

Lemma validate_header_busy s h s' ok c :
  validate_header s h = (s', ok) -> busy s' c = busy s c.
Proof.
  intros [_ [Hm|[Hn Hm]]]%validate_header_spec; unfold busy; rewrite Hm; [done|].
  rewrite lookup_insert. case_decide; [|done]. subst. by rewrite Hn.
Qed.

(** ** One poll *)

Definition admitted (client : string) (ev : RpcServerEventType * RpcRequest) : nat :=
  if bool_decide (ev.1 = RpcServer_REQUEST_IN)
     && bool_decide (req_client_name ev.2 = client) then 1 else 0.

Lemma admitted_other c ty r : ty <> RpcServer_REQUEST_IN -> admitted c (ty, r) = 0.
Proof. intros Hne. unfold admitted. by rewrite (bool_decide_eq_false_2 (_ = _)). Qed.

(** A step whose event, if it is a REQUEST_IN, makes its client busy, and
    whose replies end requests in progress. *)
Definition balanced (s : RpcServer) (w : RpcWire) (s' : RpcServer) (w' : RpcWire)
    (ev : RpcServerEventType * RpcRequest) : Prop :=
  rs_service_name s' = rs_service_name s
  /\ exists extra, w' = w ++ extra
       /\ forall c, replies (rs_service_name s) c extra + busy s' c
                    = busy s c + admitted c ev.

Lemma replied_balanced s w s' w' r :
  replied s w s' w' -> balanced s w s' w' (RpcServer_NONE, r).
Proof.
  intros (Hn & extra & Hw & Hb). split; [done|]. exists extra. split; [done|].
  intros c. by rewrite Hb, admitted_other, Nat.add_0_r.
Qed.

Lemma balanced_quiet s w s' ev :
  rs_service_name s' = rs_service_name s ->
  (forall c, busy s' c = busy s c + admitted c ev) -> balanced s w s' w ev.
Proof. intros Hn Hb. split; [done|]. exists []. by rewrite app_nil_r. Qed.

Lemma handle_request_in_balanced s w r s' w' ev :
  handle_request_in s w r = (s', w', ev) -> balanced s w s' w' ev.
Proof.
  unfold handle_request_in.
  destruct (sps_state (status_of s _)) eqn:Hst;
    [|destruct (send_error_reply _ _ _ _) as [s1 w1] eqn:Hs; intros [= <- <- <-];
      apply send_reply_replied in Hs; by apply replied_balanced..].
  intros [= <- <- <-]. apply balanced_quiet; [done|]. intros c.
  rewrite busy_set, lookup_insert. unfold busy, admitted. cbn [fst snd req_client_name].
  rewrite (bool_decide_eq_true_2 (RpcServer_REQUEST_IN = _)) by done. cbn [andb].
  case_decide as Hc.
  - rewrite (bool_decide_eq_true_2 (rq_client_name _ = c)) by done. cbn. subst c.
    unfold status_of in Hst. destruct (rs_server_states s !! _) as [st|]; [|done].
    cbn in Hst. by rewrite Hst.
  - rewrite (bool_decide_eq_false_2 (rq_client_name _ = c)) by done. lia.
Qed.

Lemma handle_cancel_request_balanced s w r s' w' ev :
  is_Some (rs_server_states s !! rq_client_name (req_header r)) ->
  handle_cancel_request s w r = (s', w', ev) -> balanced s w s' w' ev.
Proof.
  intros [st Hl]. unfold handle_cancel_request.
  assert (Hso : status_of s (rq_client_name (req_header r)) = st)
    by (unfold status_of; by rewrite Hl).
  rewrite Hso. destruct (sps_state st) eqn:Hst.
  - intros [= <- <- <-]. apply replied_balanced, replied_refl.
  - split_guard.
    + destruct (send_error_reply _ _ _ _) as [s1 w1] eqn:Hs. intros [= <- <- <-].
      apply send_reply_replied in Hs. by apply replied_balanced.
    + intros [= <- <- <-]. apply balanced_quiet; [done|]. intros c.
      rewrite admitted_other, Nat.add_0_r, busy_set, lookup_insert by done. unfold busy.
      case_decide; [|done]. subst c. by rewrite Hl, Hst.
  - destruct (send_error_reply _ _ _ _) as [s1 w1] eqn:Hs. intros [= <- <- <-].
    apply send_reply_replied in Hs. by apply replied_balanced.
Qed.

Lemma balanced_after s0 s w s' w' ev :
  rs_service_name s0 = rs_service_name s -> (forall c, busy s0 c = busy s c) ->
  balanced s0 w s' w' ev -> balanced s w s' w' ev.
Proof.
  intros Hn Hb (Hn' & extra & Hw & Hx). split; [congruence|]. exists extra.
  split; [done|]. intros c. by rewrite <-Hn, <-Hb.
Qed.

Lemma poll_balanced s w r s' w' ev :
  poll s w r = (s', w', ev) -> balanced s w s' w' ev.
Proof.
  unfold poll. destruct (rs_pending_requests s) as [|pk rest].
  { intros [= <- <- <-]. apply replied_balanced, replied_refl. }
  set (h := pdu2cpp_ServiceRequestHeader _ _).
  destruct (validate_header (set_pending rest s) h) as [s1 ok] eqn:Hv.
  assert (Hpre : forall s2 w2 ev2, balanced s1 w s2 w2 ev2 -> balanced s w s2 w2 ev2).
  { intros s2 w2 ev2. apply balanced_after.
    - by apply validate_header_spec in Hv as [-> _].
    - intros c. by apply (validate_header_busy _ _ _ _ c) in Hv. }
  destruct ok; cbn [negb]; cycle 1.
  { destruct (send_error_reply _ _ _ _) as [s2 w2] eqn:Hs. intros [= <- <- <-].
    apply Hpre, replied_balanced. by apply send_reply_replied in Hs. }
  case_bool_decide as Hk; cbn [negb]; cycle 1.
  { destruct (send_error_reply _ _ _ _) as [s2 w2] eqn:Hs. intros [= <- <- <-].
    apply Hpre, replied_balanced. by apply send_reply_replied in Hs. }
  split_guard; intros Hh; apply Hpre.
  - eapply handle_cancel_request_balanced; [|exact Hh]. exact Hk.
  - by eapply handle_request_in_balanced.
Qed.

(** ** Runs *)

Inductive server_op :=
  | ServerReceive (key : PduKey) (data : RpcPduData)
  | ServerPoll (request : RpcRequest)
  | ServerReply (client : string) (pdu : RpcPduData)
  | ServerCancelReply (client : string) (pdu : RpcPduData)
  | ServerClear.

Definition run_op (s : RpcServer) (w : RpcWire) (op : server_op)
    : RpcServer * RpcWire * list (RpcServerEventType * RpcRequest) :=
  match op with
  | ServerReceive key data => (put_pending_request key data s, w, [])
  | ServerPoll request => let '(s', w', ev) := poll s w request in (s', w', [ev])
  | ServerReply client pdu => let '(s', w') := send_reply s w client pdu in (s', w', [])
  | ServerCancelReply client pdu =>
      let '(s', w') := send_cancel_reply s w client pdu in (s', w', [])
  | ServerClear => (clear_pending_requests s, w, [])
  end.

Fixpoint run_ops (s : RpcServer) (w : RpcWire) (ops : list server_op)
    : RpcServer * RpcWire * list (RpcServerEventType * RpcRequest) :=
  match ops with
  | [] => (s, w, [])
  | op :: rest =>
      let '(s1, w1, evs1) := run_op s w op in
      let '(s2, w2, evs2) := run_ops s1 w1 rest in
      (s2, w2, evs1 ++ evs2)
  end.

Definition admissions (client : string) (evs : list (RpcServerEventType * RpcRequest)) : nat :=
  sum_list (admitted client <$> evs).

Lemma run_op_balanced s w op s' w' evs :
  run_op s w op = (s', w', evs) ->
  rs_service_name s' = rs_service_name s
  /\ exists extra, w' = w ++ extra
       /\ forall c, replies (rs_service_name s) c extra + busy s' c
                    = busy s c + admissions c evs.
Proof.
  destruct op as [k d|r|c pdu|c pdu|]; cbn.
  - intros [= <- <- <-]. split; [done|]. exists []. rewrite app_nil_r.
    split; [done|]. intros c. unfold busy, admissions. cbn. lia.
  - destruct (poll s w r) as [[s1 w1] ev] eqn:Hp. intros [= <- <- <-].
    apply poll_balanced in Hp as (Hn & extra & Hw & Hb). split; [done|]. exists extra.
    split; [done|]. intros c. rewrite Hb. unfold admissions. cbn. lia.
  - destruct (send_reply s w c pdu) as [s1 w1] eqn:Hs. intros [= <- <- <-].
    apply send_reply_replied in Hs as (Hn & extra & Hw & Hb). split; [done|]. exists extra.
    split; [done|]. intros c'. rewrite Hb. unfold admissions. cbn. lia.
  - destruct (send_cancel_reply s w c pdu) as [s1 w1] eqn:Hs. intros [= <- <- <-].
    apply send_cancel_reply_replied in Hs as (Hn & extra & Hw & Hb). split; [done|].
    exists extra. split; [done|]. intros c'. rewrite Hb. unfold admissions. cbn. lia.
  - intros [= <- <- <-]. split; [done|]. exists []. rewrite app_nil_r.
    split; [done|]. intros c. unfold busy, admissions. cbn. lia.
Qed.

Lemma run_ops_balanced ops s w s' w' evs :
  run_ops s w ops = (s', w', evs) ->
  rs_service_name s' = rs_service_name s
  /\ exists extra, w' = w ++ extra
       /\ forall c, replies (rs_service_name s) c extra + busy s' c
                    = busy s c + admissions c evs.
Proof.
  revert s w s' w' evs. induction ops as [|op ops IH]; intros s w s' w' evs; cbn.
  { intros [= <- <- <-]. split; [done|]. exists []. rewrite app_nil_r. split; [done|].
    intros c. unfold admissions. cbn. lia. }
  destruct (run_op s w op) as [[s1 w1] evs1] eqn:Ho.
  destruct (run_ops s1 w1 ops) as [[s2 w2] evs2] eqn:Hr. intros [= <- <- <-].
  apply run_op_balanced in Ho as (Hn & x & -> & Hx).
  apply IH in Hr as (Hn2 & y & -> & Hy). split; [congruence|]. exists (x ++ y).
  split; [by rewrite (assoc_L (++))|]. intros c. rewrite replies_app.
  specialize (Hx c). specialize (Hy c). rewrite Hn in Hy. unfold admissions in *.
  rewrite fmap_app, sum_list_with_app. lia.
Qed.

(** ** What an event says about its client *)

Definition idle : ServerProcessingStatus := mkServerProcessingStatus 0 SERVER_STATE_IDLE.

Lemma send_reply_states s w c pdu s' w' :
  send_reply s w c pdu = (s', w') ->
  rs_server_states s' = rs_server_states s
  \/ rs_server_states s' = <[c := idle]> (rs_server_states s).
Proof.
  unfold send_reply. destruct (rs_server_states s !! c); [|intros [= <- <-]; by left].
  case_bool_decide; intros [= <- <-]; auto.
Qed.

(** The states after a header check and an optional error reply. *)
Definition states_reset (c : string) (m m' : gmap string ServerProcessingStatus) : Prop :=
  m' = m \/ m' = <[c := idle]> m.

Lemma states_reset_trans c m m1 m2 :
  states_reset c m m1 -> states_reset c m1 m2 -> states_reset c m m2.
Proof.
  intros [->| ->] [->| ->]; [by left|by right|by right|]. right. by rewrite insert_insert_eq.
Qed.

Lemma validate_header_reset s h s' ok :
  validate_header s h = (s', ok) ->
  states_reset (rq_client_name h) (rs_server_states s) (rs_server_states s')
  /\ forall c, status_of s' c = status_of s c.
Proof.
  intros [_ [Hm|[Hn Hm]]]%validate_header_spec.
  - split; [by left|]. intros c. unfold status_of. by rewrite Hm.
  - split; [by right|]. intros c. unfold status_of. rewrite Hm, lookup_insert.
    case_decide; [|done]. subst. by rewrite Hn.
Qed.

Definition poll_effect (s : RpcServer) (w : RpcWire) (s' : RpcServer) (w' : RpcWire)
    (ev : RpcServerEventType * RpcRequest) : Prop :=
  let h := req_header ev.2 in
  let c := rq_client_name h in
  match ev.1 with
  | RpcServer_REQUEST_IN =>
      w' = w /\ req_client_name ev.2 = c
      /\ sps_state (status_of s c) = SERVER_STATE_IDLE
      /\ status_of s' c = mkServerProcessingStatus (rq_request_id h) SERVER_STATE_RUNNING
  | RpcServer_REQUEST_CANCEL =>
      w' = w /\ rq_opcode h = HAKO_SERVICE_OPERATION_CODE_CANCEL
      /\ status_of s c = mkServerProcessingStatus (rq_request_id h) SERVER_STATE_RUNNING
      /\ status_of s' c = mkServerProcessingStatus (rq_request_id h) SERVER_STATE_CANCELLING
  | RpcServer_NONE =>
      forall c', status_of s' c' = status_of s c' \/ status_of s' c' = idle
  end
  /\ forall c', c' <> c -> rs_server_states s' !! c' = rs_server_states s !! c'.

Lemma states_reset_effect s w s' w' r :
  states_reset (rq_client_name (req_header r)) (rs_server_states s) (rs_server_states s') ->
  poll_effect s w s' w' (RpcServer_NONE, r).
Proof.
  intros Hr. split; cbn.
  - intros c'. unfold status_of. destruct Hr as [->| ->]; [by left|].
    rewrite lookup_insert. case_decide; [by right|by left].
  - intros c' Hne. destruct Hr as [->| ->]; [done|]. by rewrite lookup_insert_ne.
Qed.

Lemma error_reply_effect s0 s w h code s1 w1 r :
  states_reset (rq_client_name (req_header r)) (rs_server_states s0) (rs_server_states s) ->
  h = req_header r -> send_error_reply s w h code = (s1, w1) ->
  poll_effect s0 w s1 w1 (RpcServer_NONE, r).
Proof.
  intros Hr -> Hs%send_reply_states. apply states_reset_effect.
  eapply states_reset_trans; [done|]. exact Hs.
Qed.

Lemma handle_request_in_effect s0 s w r s' w' ev :
  states_reset (rq_client_name (req_header r)) (rs_server_states s0) (rs_server_states s) ->
  (forall c, status_of s c = status_of s0 c) ->
  handle_request_in s w r = (s', w', ev) -> poll_effect s0 w s' w' ev.
Proof.
  intros Hr Hso. unfold handle_request_in. rewrite Hso.
  destruct (sps_state (status_of s0 _)) eqn:Hst;
    [|destruct (send_error_reply _ _ _ _) eqn:Hs; intros [= <- <- <-];
      by eapply error_reply_effect..].
  intros [= <- <- <-]. split; cbn; [split_and!; try done|].
  - unfold status_of. cbn. by rewrite lookup_insert_eq.
  - intros c' Hne. rewrite lookup_insert_ne by done.
    destruct Hr as [->| ->]; [done|]. by rewrite lookup_insert_ne.
Qed.

Lemma handle_cancel_request_effect s0 s w r s' w' ev :
  states_reset (rq_client_name (req_header r)) (rs_server_states s0) (rs_server_states s) ->
  (forall c, status_of s c = status_of s0 c) ->
  rq_opcode (req_header r) = HAKO_SERVICE_OPERATION_CODE_CANCEL ->
  handle_cancel_request s w r = (s', w', ev) -> poll_effect s0 w s' w' ev.
Proof.
  intros Hr Hso Hop. unfold handle_cancel_request. rewrite Hso.
  destruct (status_of s0 _) as [id st] eqn:Hst. cbn [sps_state sps_request_id].
  destruct st; [intros [= <- <- <-]; by apply states_reset_effect| |
    destruct (send_error_reply _ _ _ _) eqn:Hs; intros [= <- <- <-];
      by eapply error_reply_effect].
  split_guard; [destruct (send_error_reply _ _ _ _) eqn:Hs; intros [= <- <- <-];
      by eapply error_reply_effect|].
  simpl_bools. subst id. intros [= <- <- <-]. split; cbn; [split_and!; try done|].
  - unfold status_of. cbn. by rewrite lookup_insert_eq.
  - intros c' Hne. rewrite lookup_insert_ne by done.
    destruct Hr as [->| ->]; [done|]. by rewrite lookup_insert_ne.
Qed.

Lemma poll_effect_spec s w r s' w' ev :
  poll s w r = (s', w', ev) -> poll_effect s w s' w' ev.
Proof.
  unfold poll. destruct (rs_pending_requests s) as [|pk rest].
  { intros [= <- <- <-]. apply states_reset_effect. by left. }
  set (h := pdu2cpp_ServiceRequestHeader _ _).
  destruct (validate_header (set_pending rest s) h) as [s1 ok] eqn:Hv.
  apply validate_header_reset in Hv as [Hr Hso]. change (rs_server_states (set_pending rest s))
    with (rs_server_states s) in Hr.
  assert (Hso' : forall c, status_of s1 c = status_of s c) by (intros c; by rewrite Hso).
  destruct ok; cbn [negb];
    [|destruct (send_error_reply _ _ _ _) eqn:Hs; intros [= <- <- <-];
      by eapply error_reply_effect].
  case_bool_decide; cbn [negb];
    [|destruct (send_error_reply _ _ _ _) eqn:Hs; intros [= <- <- <-];
      by eapply error_reply_effect].
  split_guard; intros Hh.
  - simpl_bools. eapply handle_cancel_request_effect; [| | |exact Hh]; done.
  - eapply handle_request_in_effect; [| |exact Hh]; done.
Qed.
End Facts.

(** ** A concrete run

    Client "c" of service "s" sends request 7. *)

Module Demo.
Import ConcreteRpc.

Definition config : ServiceConfig :=
  mkServiceConfig (Some 1%Z) (Some "s") (Some "t") (Some false) None None
    (Some 16%Z) (Some 8%Z) (Some 16%Z) (Some 8%Z)
    (Some [mkClientSpec (Some "c") true true (Some "n") (Some "e") (Some 0%Z) (Some 1%Z)]).

Definition ready : RpcServer := (initialize (new_rpc_server "s" true true) config 24 None).1.

Definition no_request : RpcRequest :=
  mkRpcRequest "" (mkServiceRequestHeader 0 "" "" 0 0) [].

Definition request_header (id : Z) : ServiceRequestHeader :=
  mkServiceRequestHeader id "s" "c" HAKO_SERVICE_OPERATION_CODE_REQUEST 0.

Definition request_packet (id : Z) : RpcPduData :=
  cpp2pdu_ServiceRequestHeader (request_header id) 64.

Definition receive (id : Z) (s : RpcServer) : RpcServer :=
  put_pending_request (mkPduKey "s" "cReq") (request_packet id) s.

Definition running : RpcServer := (poll (receive 7 ready) [] no_request).1.1.
End Demo.
Import ConcreteRpc Demo.

(** ** Properties *)

(** Every admitted request gets exactly one reply attempt: from a server
    whose clients are idle, over any sequence of received packets, polls,
    replies and cancel replies, the replies handed to the transport for a
    client plus one if a request of it is still being processed equal the
    REQUEST_IN events raised for it. *)
Theorem rpc_replies_match_requests {P : RpcPlatform} s ops s' w' evs client :
  (forall c st, rs_server_states s !! c = Some st -> sps_state st = SERVER_STATE_IDLE) ->
  run_ops s [] ops = (s', w', evs) ->
  replies (rs_service_name s) client w' + busy s' client = admissions client evs.
Proof.
  intros Hidle Hr. apply run_ops_balanced in Hr as (_ & extra & -> & Hb).
  rewrite app_nil_l, Hb. unfold busy.
  destruct (rs_server_states s !! client) as [st|] eqn:Hst; [|done].
  by rewrite (Hidle _ _ Hst).
Qed.

Lemma rpc_replies_match_requests_witness :
  let ops := [ServerReceive (mkPduKey "s" "cReq") (request_packet 7); ServerPoll no_request;
              ServerReply "c" []; ServerReply "c" []] in
  admissions "c" (run_ops ready [] ops).2 = 1
  /\ replies "s" "c" (run_ops ready [] ops).1.2 + busy (run_ops ready [] ops).1.1 "c"
     = admissions "c" (run_ops ready [] ops).2.
Proof.
  split; [by vm_compute|].
  apply (rpc_replies_match_requests ready [ServerReceive (mkPduKey "s" "cReq") (request_packet 7);
    ServerPoll no_request; ServerReply "c" []; ServerReply "c" []]).
  - intros c st Hst.
    change (rs_server_states ready) with
      (<["c" := idle]> (∅ : gmap string ServerProcessingStatus)) in Hst.
    apply lookup_insert_Some in Hst as [[_ <-]|[_ Hst]]; [done|].
    by rewrite lookup_empty in Hst.
  - by destruct (run_ops _ _ _) as [[] ].
Defined.

(** What one poll does: REQUEST_IN means the client was idle and now runs
    the request with the id in the header; REQUEST_CANCEL means the client was
    running exactly the request the cancel names and is now cancelling it;
    neither sends anything; without an event a client keeps its state or falls
    back to idle; and no other client is touched. *)
Theorem rpc_poll_transitions {P : RpcPlatform} s w r s' w' ev :
  poll s w r = (s', w', ev) -> poll_effect s w s' w' ev.
Proof. apply poll_effect_spec. Qed.

Lemma rpc_poll_transitions_witness :
  poll_effect (receive 7 ready) [] running (poll (receive 7 ready) [] no_request).1.2
    (poll (receive 7 ready) [] no_request).2.
Proof. apply (rpc_poll_transitions _ _ no_request). by vm_compute. Defined.

(** A second request ends the first: when a client that is running a
    request sends another one, the BUSY reply goes through the reply path and
    resets the client to idle, so the reply of the request in progress is
    refused afterwards and never sent. *)
Theorem rpc_busy_reply_drops_request {P : RpcPlatform} s w r pk rest h id :
  rs_pending_requests s = pk :: rest ->
  pdu2cpp_ServiceRequestHeader (pr_data pk) (req_header r) = h ->
  rs_service_name s = rq_service_name h -> rs_dynamic_client s = false ->
  rq_client_name h ∈ rs_registered_clients s ->
  rq_opcode h = HAKO_SERVICE_OPERATION_CODE_REQUEST ->
  rs_server_states s !! rq_client_name h
    = Some (mkServerProcessingStatus id SERVER_STATE_RUNNING) ->
  exists s' ok r',
    poll s w r = (s', w ++ [mkRpcSend (response_key (rq_service_name h) (rq_client_name h))
      (create_reply_buffer h HAKO_SERVICE_STATUS_ERROR HAKO_SERVICE_RESULT_CODE_BUSY) ok],
      (RpcServer_NONE, r'))
    /\ forall w1 pdu, send_reply s' w1 (rq_client_name h) pdu = (s', w1).
Proof.
  intros Hq Hh Hn Hd Hin Hop Hst. unfold poll. rewrite Hq, Hh. unfold validate_header. cbn.
  rewrite Hn, Hd, Hop. rewrite (bool_decide_eq_true_2 (_ = _)) by done. cbn.
  rewrite (bool_decide_eq_true_2 (_ ∈ _)) by done. cbn.
  rewrite (bool_decide_eq_true_2 (is_Some _)) by eauto. cbn.
  unfold handle_request_in, status_of. cbn. rewrite Hst. cbn.
  unfold send_error_reply, send_reply at 1. cbn. rewrite Hst. cbn. rewrite Hn.
  eexists _, _, _. split; [done|]. intros w1 pdu. unfold send_reply. cbn.
  by rewrite lookup_insert_eq.
Qed.

Lemma rpc_busy_reply_drops_request_witness :
  exists s', (poll (receive 8 running) [] no_request).1.1 = s'
    /\ forall w1 pdu, send_reply s' w1 "c" pdu = (s', w1).
Proof.
  destruct (rpc_busy_reply_drops_request (receive 8 running) [] no_request
    (mkPendingRequest (mkPduKey "s" "cReq") (request_packet 8)) [] (request_header 8) 7
    ltac:(by vm_compute) ltac:(by vm_compute) ltac:(by vm_compute) ltac:(by vm_compute)
    ltac:(by apply list_elem_of_singleton) ltac:(by vm_compute) ltac:(by vm_compute))
    as (s' & ok & r' & Hp & Hs).
  exists s'. split; [by rewrite Hp|exact Hs].
Defined.

End RpcServerProps.
