(* ===== verification/RpcServerFacts.v ===== *)
(** * The RPC server endpoint seen by its clients

    What the services layer relies on: which parts of an endpoint a call may
    change, which packets it may send, and the invariant that the client list
    and the processing states agree. *)

From S2P Require Import Prelude RpcTypes RpcServerEndpoint RpcServerProps.
From Stdlib Require Import ZArith Lia.
From stdpp Require Import base gmap strings list fin_maps.

Module RpcServerFacts.
Import Rpc RpcServerEp RpcServerProps.

(** Packets of one service only are added. *)
Definition wire_ext (service : string) (w w' : RpcWire) : Prop :=
  exists extra, w' = w ++ extra /\ Forall (fun rec => pk_robot (rsn_key rec) = service) extra.

Lemma wire_ext_refl n w : wire_ext n w w.
Proof. exists []. by rewrite app_nil_r. Qed.

Lemma wire_ext_trans n w1 w2 w3 : wire_ext n w1 w2 -> wire_ext n w2 w3 -> wire_ext n w1 w3.
Proof.
  intros (x & -> & Hx) (y & -> & Hy). exists (x ++ y). split; [by rewrite (assoc_L (++))|].
  by apply Forall_app.
Qed.

Lemma wire_ext_one n w pdu_name data ok :
  wire_ext n w (w ++ [mkRpcSend (mkPduKey n pdu_name) data ok]).
Proof. eexists. split; [done|]. by repeat constructor. Qed.

Lemma replies_other n n' c extra :
  Forall (fun rec => pk_robot (rsn_key rec) = n) extra -> n' <> n -> replies n' c extra = 0.
Proof.
  intros Hf Hn. induction Hf as [|rec l Hr _ IH]; [done|]. unfold replies in *. cbn.
  rewrite bool_decide_eq_false_2; [exact IH|]. intros Hk. rewrite Hk in Hr. cbn in Hr. congruence.
Qed.

Section Facts.
Context {P : RpcPlatform}.

(** Only processing states change, and no client appears or disappears. *)
Definition states_only (s s' : RpcServer) : Prop :=
  exists m, s' = set_states m s
    /\ forall c, is_Some (m !! c) <-> is_Some (rs_server_states s !! c).

Lemma states_only_refl s : states_only s s.
Proof. exists (rs_server_states s). by destruct s. Qed.

Lemma states_only_insert s c st st' :
  rs_server_states s !! c = Some st ->
  states_only s (set_states (<[c := st']> (rs_server_states s)) s).
Proof.
  intros Hc. eexists. split; [done|]. intros c'. rewrite lookup_insert.
  case_decide; [|done]. subst. rewrite Hc. by split; eauto.
Qed.

Lemma send_reply_frame s w c pdu s' w' :
  send_reply s w c pdu = (s', w') -> states_only s s' /\ wire_ext (rs_service_name s) w w'.
Proof.
  unfold send_reply. destruct (rs_server_states s !! c) as [st|] eqn:Hc;
    [|intros [= <- <-]; eauto using states_only_refl, wire_ext_refl].
  case_bool_decide; intros [= <- <-]; [eauto using states_only_refl, wire_ext_refl|].
  split; [by eapply states_only_insert|apply wire_ext_one].
Qed.

Lemma send_cancel_reply_frame s w c pdu s' w' :
  send_cancel_reply s w c pdu = (s', w') ->
  states_only s s' /\ wire_ext (rs_service_name s) w w'.
Proof.
  unfold send_cancel_reply. destruct (rs_server_states s !! c) as [st|] eqn:Hc;
    [|intros [= <- <-]; eauto using states_only_refl, wire_ext_refl].
  split_guard; intros [= <- <-]; [eauto using states_only_refl, wire_ext_refl|].
  split; [by eapply states_only_insert|apply wire_ext_one].
Qed.

Definition known (s : RpcServer) (c : string) : Prop := is_Some (rs_server_states s !! c).

(** The result of one of the two handlers or of an error reply. *)
Definition handled (s : RpcServer) (w : RpcWire) (h : ServiceRequestHeader)
    (s' : RpcServer) (w' : RpcWire) (ev : RpcServerEventType * RpcRequest) : Prop :=
  states_only s s' /\ wire_ext (rs_service_name s) w w' /\ req_header ev.2 = h.

Lemma error_reply_handled s w h code s' w' r :
  send_error_reply s w h code = (s', w') -> req_header r = h ->
  handled s w h s' w' (RpcServer_NONE, r).
Proof. intros [Hs Hw]%send_reply_frame Hr. done. Qed.

Lemma handle_request_in_handled s w r s' w' ev :
  known s (rq_client_name (req_header r)) ->
  handle_request_in s w r = (s', w', ev) -> handled s w (req_header r) s' w' ev.
Proof.
  intros [st Hc]. unfold handle_request_in.
  destruct (sps_state _); [|destruct (send_error_reply _ _ _ _) eqn:Hs;
    intros [= <- <- <-]; by eapply error_reply_handled..].
  intros [= <- <- <-].
  split_and!; [by eapply states_only_insert|apply wire_ext_refl|done].
Qed.

Lemma handle_cancel_request_handled s w r s' w' ev :
  known s (rq_client_name (req_header r)) ->
  handle_cancel_request s w r = (s', w', ev) -> handled s w (req_header r) s' w' ev.
Proof.
  intros [st Hc]. unfold handle_cancel_request.
  destruct (sps_state _);
    [intros [= <- <- <-]; split_and!; eauto using states_only_refl, wire_ext_refl| |
     destruct (send_error_reply _ _ _ _) eqn:Hs; intros [= <- <- <-];
       by eapply error_reply_handled].
  split_guard; [destruct (send_error_reply _ _ _ _) eqn:Hs; intros [= <- <- <-];
       by eapply error_reply_handled|].
  intros [= <- <- <-].
  split_and!; [by eapply states_only_insert|apply wire_ext_refl|done].
Qed.

(** A poll takes the first packet, checks its header, and handles it. *)
Lemma poll_cons s w r pk rest s' w' ev :
  rs_pending_requests s = pk :: rest -> poll s w r = (s', w', ev) ->
  let h := pdu2cpp_ServiceRequestHeader (pr_data pk) (req_header r) in
  exists s1 ok, validate_header (set_pending rest s) h = (s1, ok)
    /\ handled s1 w h s' w' ev
    /\ (ev.1 <> RpcServer_NONE -> ok = true /\ known s1 (rq_client_name h)).
Proof.
  intros Hq. unfold poll. rewrite Hq.
  set (h := pdu2cpp_ServiceRequestHeader _ _).
  destruct (validate_header (set_pending rest s) h) as [s1 ok] eqn:Hv.
  intros Hp. exists s1, ok. split; [done|]. destruct ok; cbn [negb] in Hp; cycle 1.
  { destruct (send_error_reply _ _ _ _) eqn:Hs. injection Hp as <- <- <-.
    split; [by eapply error_reply_handled|done]. }
  destruct (bool_decide_reflect (is_Some (rs_server_states s1 !! rq_client_name h)))
    as [Hk|Hk]; cbn [negb] in Hp; cycle 1.
  { destruct (send_error_reply _ _ _ _) eqn:Hs. injection Hp as <- <- <-.
    split; [by eapply error_reply_handled|done]. }
  split; [|done].
  destruct (_ =? _)%Z; [by eapply handle_cancel_request_handled in Hp|].
  by eapply handle_request_in_handled in Hp.
Qed.

(** ** The invariant *)

(** The client list and the keys of the states agree, and a dynamic server
    never registers more clients than [maxClients]. *)
Record server_wf (s : RpcServer) : Prop := mkServerWf {
  wf_clients : forall c, c ∈ rs_registered_clients s <-> known s c;
  wf_dynamic : rs_dynamic_client s = true ->
    (Z.of_nat (length (rs_registered_clients s)) <= Z.max 0 (rs_max_clients s))%Z;
}.

Lemma states_only_wf s s' : states_only s s' -> server_wf s -> server_wf s'.
Proof.
  intros (m & -> & Hm) [Hc Hd]. split; [|done]. intros c. unfold known. cbn.
  by rewrite Hm, Hc.
Qed.

Lemma register_client_wf s c :
  server_wf s -> (rs_dynamic_client s = true ->
    (Z.of_nat (length (rs_registered_clients s)) < rs_max_clients s)%Z) ->
  server_wf (register_client c s).
Proof.
  intros [Hc Hd] Hl. split; cbn.
  - intros c'. rewrite elem_of_app, list_elem_of_singleton, Hc. unfold known. cbn.
    rewrite lookup_insert. case_decide; [subst; split; eauto|].
    split; [by intros [?| ->]|tauto].
  - intros Hdyn. specialize (Hl Hdyn). rewrite length_app. cbn. lia.
Qed.

(** A header check keeps everything but the clients and the definitions. *)
Lemma validate_header_frame s h s1 ok :
  validate_header s h = (s1, ok) ->
  rs_service_name s1 = rs_service_name s /\ rs_pending_requests s1 = rs_pending_requests s
  /\ (ok = true -> rq_service_name h = rs_service_name s)
  /\ (server_wf s -> server_wf s1).
Proof.
  unfold validate_header.
  destruct (bool_decide_reflect (rq_service_name h = rs_service_name s)) as [Hn|Hn];
    cbn [negb]; [|by intros [= <- <-]].
  destruct (rs_dynamic_client s) eqn:Hd;
    [|repeat (split_guard; try by intros [= <- <-])].
  unfold ensure_dynamic_client.
  split_guard; [by intros [= <- <-]|]. split_guard; [by intros [= <- <-]|].
  split_guard; [by intros [= <- <-]|]. split_guard; [by intros [= <- <-]|].
  simpl_bools. intros [= <- <-]. split_and!; [done|done|done|]. intros [Hc Hl].
  apply register_client_wf; [by split|]. intros _. done.
Qed.

(** What one poll does to the queue, the wire, the names and the invariant. *)
Lemma poll_frame s w r s' w' ev :
  poll s w r = (s', w', ev) ->
  rs_service_name s' = rs_service_name s
  /\ rs_pending_requests s' = tail (rs_pending_requests s)
  /\ wire_ext (rs_service_name s) w w'
  /\ (ev.1 <> RpcServer_NONE -> rq_service_name (req_header ev.2) = rs_service_name s)
  /\ (server_wf s -> server_wf s').
Proof.
  destruct (rs_pending_requests s) as [|pk rest] eqn:Hq.
  { unfold poll. rewrite Hq. intros [= <- <- <-]. split_and!; eauto using wire_ext_refl. done. }
  intros (s1 & ok & Hv & (Hso & Hw & Hh) & Hev)%(poll_cons _ _ _ pk rest); [|done].
  apply validate_header_frame in Hv as (Hn & Hp & Hok & Hwf). cbn in Hn, Hp, Hok.
  pose proof (states_only_wf _ _ Hso) as Hwf'. rewrite Hn in Hw.
  destruct Hso as (m & -> & _). split_and!; [done|done|done| |].
  - intros [-> _]%Hev. rewrite Hh. auto.
  - intros [Hc Hd]. apply Hwf', Hwf. by split.
Qed.

(** ** Initialisation *)

Lemma init_clients_frame c n meta node clients s s' ok :
  init_clients c n meta node clients s = (s', ok) -> rs_dynamic_client s = false ->
  rs_service_name s' = rs_service_name s /\ (server_wf s -> server_wf s').
Proof.
  revert s. induction clients as [|cl clients IH]; intros s; cbn; [by intros [= <- <-]|].
  destruct (cs_name cl) as [name|]; [|by intros [= <- <-]].
  destruct (negb (cs_has_client_endpoint cl)); [by intros [= <- <-]|].
  destruct (negb (cs_has_node_id cl)); [by intros [= <- <-]|].
  destruct (match node with Some _ => _ | None => _ end); [by apply IH|].
  intros Hi Hd. assert (Hr : server_wf s -> server_wf (register_client name s)).
  { intros Hwf. apply register_client_wf; [done|]. congruence. }
  repeat split_guard_in Hi; try by injection Hi as <- <-.
  all: try (injection Hi as <- <-; split; [done|]; intros Hwf; apply Hr in Hwf as []; by split).
  apply IH in Hi as [Hn Hwf]; [|done]. split; [done|]. intros Hs. apply Hwf.
  apply Hr in Hs as []. by split.
Qed.

Lemma new_rpc_server_wf n e d : server_wf (new_rpc_server n e d).
Proof.
  split; cbn; [|done]. intros c. rewrite elem_of_nil. unfold known. cbn.
  rewrite lookup_empty. split; [done|by intros []].
Qed.

Lemma initialize_frame n d cfg meta node s' ok :
  initialize (new_rpc_server n true d) cfg meta node = (s', ok) ->
  rs_service_name s' = n /\ server_wf s'.
Proof.
  pose proof (new_rpc_server_wf n true d) as [Hwc _]. unfold initialize. cbn.
  assert (Hempty : forall mx dyn a b x y,
    server_wf (set_dynamic dyn a b x y (set_limits mx (new_rpc_server n true d)))).
  { intros. split; [exact Hwc|]. cbn. lia. }
  destruct (sc_max_clients cfg) as [mx|]; [|intros [= <- <-]; split; [done|split; [exact Hwc|done]]].
  assert (Hlim : server_wf (set_limits mx (new_rpc_server n true d))).
  { split; [exact Hwc|done]. }
  destruct (sc_name cfg), (sc_type cfg); try (intros [= <- <-]; done).
  destruct (negb d); [by intros [= <- <-]|].
  destruct (sc_dynamic_client cfg) as [[]|]; [| |by intros [= <- <-]].
  - repeat split_guard; intros [= <- <-]; try (split; [done|apply Hempty]).
    split; [done|]. split; [exact Hwc|]. cbn. lia.
  - destruct (sc_clients cfg); [|intros [= <- <-]; split; [done|apply Hempty]].
    intros [Hn Hwf]%init_clients_frame; [|done]. split; [done|]. apply Hwf, Hempty.
Qed.

(** ** A freshly initialised endpoint is idle and has nothing queued *)

Definition fresh (s : RpcServer) : Prop :=
  (forall c st, rs_server_states s !! c = Some st -> st = idle) /\ rs_pending_requests s = [].

Lemma fresh_busy s c : fresh s -> busy s c = 0.
Proof.
  intros [Hi _]. unfold busy. destruct (rs_server_states s !! c) eqn:Hc; [|done].
  by rewrite (Hi _ _ Hc).
Qed.

Lemma init_clients_fresh c n meta node clients s s' ok :
  init_clients c n meta node clients s = (s', ok) -> fresh s -> fresh s'.
Proof.
  revert s. induction clients as [|cl clients IH]; intros s; cbn; [by intros [= <- <-]|].
  destruct (cs_name cl) as [name|]; [|by intros [= <- <-]].
  destruct (negb (cs_has_client_endpoint cl)); [by intros [= <- <-]|].
  destruct (negb (cs_has_node_id cl)); [by intros [= <- <-]|].
  destruct (match node with Some _ => _ | None => _ end); [by apply IH|].
  intros Hi Ha. assert (Hr : fresh (register_client name s)).
  { split; [|apply Ha]. intros c' st Hst. cbn in Hst.
    apply lookup_insert_Some in Hst as [[_ <-]|[_ Hst]]; [done|]. by eapply Ha. }
  repeat split_guard_in Hi; try by injection Hi as <- <-. eapply IH; [exact Hi|exact Hr].
Qed.

Lemma initialize_fresh n d cfg meta node s' ok :
  initialize (new_rpc_server n true d) cfg meta node = (s', ok) -> fresh s'.
Proof.
  assert (Hnew : fresh (new_rpc_server n true d)).
  { split; [|done]. intros c st Hst. cbn in Hst. by rewrite lookup_empty in Hst. }
  unfold initialize. cbn. destruct (sc_max_clients cfg) as [mx|]; [|by intros [= <- <-]].
  destruct (sc_name cfg), (sc_type cfg); try (by intros [= <- <-]).
  destruct (negb d); [by intros [= <- <-]|].
  destruct (sc_dynamic_client cfg) as [[]|]; [| |by intros [= <- <-]].
  - repeat split_guard; by intros [= <- <-].
  - destruct (sc_clients cfg); [|by intros [= <- <-]].
    intros Hi. by eapply init_clients_fresh.
Qed.
End Facts.
End RpcServerFacts.
