(* ===== verification/RpcServicesServer.v ===== *)
(** * RPC services, server side

    [RpcServicesServer] of include/hakoniwa/pdu/rpc/rpc_services_server.hpp and
    src/rpc_services_server.cpp: one [RpcServerEndpointImpl] per configured
    service, in a [std::map] by service name.

    The configuration file is an argument of the initialisation: [None] when it
    cannot be opened or is not JSON, otherwise the members the code reads, each
    [None] where reading it throws (a member of the wrong type). The endpoint
    container is the function [ref]. The container pointer, which is only read
    during the initialisation, is not kept in the state. *)

From S2P Require Import Prelude OrderedMap RpcTypes RpcServerEndpoint.
From Stdlib Require Import ZArith Lia.
From stdpp Require Import base gmap strings list fin_maps.

Module RpcServices.
Import Rpc RpcServerEp.

(** ** State *)

Record RpcServicesServer := mkRpcServicesServer {
  rss_node_id : string;
  rss_impl_type : string;
  rss_rpc_endpoints : list (string * RpcServer);
}.

Definition new_rpc_services_server (node_id impl_type : string) : RpcServicesServer :=
  mkRpcServicesServer node_id impl_type [].

Definition set_rpc_endpoints (m : list (string * RpcServer)) (s : RpcServicesServer)
    : RpcServicesServer :=
  mkRpcServicesServer (rss_node_id s) (rss_impl_type s) m.

(** ** Configuration *)

Record ServerEndpointRef := mkServerEndpointRef {
  ser_node_id : option string;
  ser_endpoint_id : option string;
}.

(** [se_server_endpoints] is [None] when the member is missing or no array. *)
Record ServiceEntry := mkServiceEntry {
  se_config : ServiceConfig;
  se_server_endpoints : option (list ServerEndpointRef);
}.

(** [rcf_services] is empty when the member is missing: the code indexes a
    mutable value there, which inserts a null. *)
Record RpcConfigFile := mkRpcConfigFile {
  rcf_pdu_meta_data_size : option Z;
  rcf_services : option (list ServiceEntry);
}.

(** What the code uses of a [hakoniwa::pdu::Endpoint] during initialisation. *)
Record PduEndpoint := mkPduEndpoint { pe_has_pdu_definition : bool }.

Abbreviation EndpointContainer := (string -> option PduEndpoint).

(** ** Initialisation *)

(** The loop over [server_endpoints]: the id in the first entry of this node;
    [None] when there is none or the id is no string. *)
Fixpoint find_server_endpoint_id (node_id : string) (refs : list ServerEndpointRef)
    : option string :=
  match refs with
  | [] => None
  | server_ep :: rest =>
      if negb (bool_decide (ser_node_id server_ep = Some node_id))
      then find_server_endpoint_id node_id rest
      else ser_endpoint_id server_ep
  end.

Definition select_pdu_endpoint (s : RpcServicesServer) (container : option EndpointContainer)
    (endpoint_override : option PduEndpoint) (entry : ServiceEntry) : option PduEndpoint :=
  match endpoint_override with
  | Some e => Some e
  | None =>
      refs ← se_server_endpoints entry;
      server_endpoint_id ← find_server_endpoint_id (rss_node_id s) refs;
      ref ← container;
      ref server_endpoint_id
  end.

Definition stop_all_services (s : RpcServicesServer) : RpcServicesServer :=
  set_rpc_endpoints ((fun kv => (kv.1, clear_pending_requests kv.2)) <$> rss_rpc_endpoints s) s.

(** One turn of the loop over the services; [None] is an error return or an
    exception. *)
Definition initialize_service (s : RpcServicesServer) (container : option EndpointContainer)
    (endpoint_override : option PduEndpoint) (client_node_id : option string)
    (pdu_meta_data_size : Z) (entry : ServiceEntry) : option RpcServicesServer :=
  service_name ← sc_name (se_config entry);
  pdu_endpoint ← select_pdu_endpoint s container endpoint_override entry;
  if negb (bool_decide (rss_impl_type s = "RpcServerEndpointImpl")) then None
  else
    let '(rpc_server_endpoint, ok) :=
      initialize (new_rpc_server service_name true (pe_has_pdu_definition pdu_endpoint))
        (se_config entry) pdu_meta_data_size client_node_id in
    if negb ok then None
    else
      Some (set_rpc_endpoints
              (om_insert service_name rpc_server_endpoint (rss_rpc_endpoints s)) s).

Fixpoint initialize_each (s : RpcServicesServer) (container : option EndpointContainer)
    (endpoint_override : option PduEndpoint) (client_node_id : option string)
    (pdu_meta_data_size : Z) (services : list ServiceEntry) : RpcServicesServer * bool :=
  match services with
  | [] => (s, true)
  | entry :: rest =>
      match initialize_service s container endpoint_override client_node_id
              pdu_meta_data_size entry with
      | None => (stop_all_services s, false)
      | Some s' =>
          initialize_each s' container endpoint_override client_node_id
            pdu_meta_data_size rest
      end
  end.

Definition initialize_services_impl (s : RpcServicesServer)
    (container : option EndpointContainer) (endpoint_override : option PduEndpoint)
    (client_node_id : option string) (file : option RpcConfigFile)
    : RpcServicesServer * bool :=
  if negb (bool_decide (is_Some container)) && negb (bool_decide (is_Some endpoint_override))
  then (s, false)
  else
    match file with
    | None => (s, false)
    | Some json_config =>
        match rcf_pdu_meta_data_size json_config, rcf_services json_config with
        | Some pdu_meta_data_size, Some services =>
            initialize_each s container endpoint_override client_node_id
              pdu_meta_data_size services
        | _, _ => (stop_all_services s, false)
        end
    end.

(** The two public overloads. *)
Definition initialize_services (s : RpcServicesServer) (container : option EndpointContainer)
    (client_node_id : option string) (file : option RpcConfigFile)
    : RpcServicesServer * bool :=
  initialize_services_impl s container None client_node_id file.

Definition initialize_services_on (s : RpcServicesServer) (endpoint : option PduEndpoint)
    (client_node_id : option string) (file : option RpcConfigFile)
    : RpcServicesServer * bool :=
  initialize_services_impl s None endpoint client_node_id file.

Definition start_all_services (s : RpcServicesServer) : bool := true.

Section Operations.
Context {P : RpcPlatform}.

(** ** Polling and replies *)

(** The loop of [poll]: [request] goes from endpoint to endpoint. *)
Fixpoint poll_endpoints (m : list (string * RpcServer)) (w : RpcWire) (request : RpcRequest)
    : list (string * RpcServer) * RpcWire * (RpcServerEventType * RpcRequest) :=
  match m with
  | [] => ([], w, (RpcServer_NONE, request))
  | (name, endpoint) :: rest =>
      let '(endpoint', w', (event, request')) := RpcServerEp.poll endpoint w request in
      if negb (bool_decide (event = RpcServer_NONE))
      then ((name, endpoint') :: rest, w', (event, request'))
      else
        let '(rest', w'', result) := poll_endpoints rest w' request' in
        ((name, endpoint') :: rest', w'', result)
  end.

Definition poll (s : RpcServicesServer) (w : RpcWire) (request : RpcRequest)
    : RpcServicesServer * RpcWire * (RpcServerEventType * RpcRequest) :=
  let '(m, w', result) := poll_endpoints (rss_rpc_endpoints s) w request in
  (set_rpc_endpoints m s, w', result).

(** [pdu] is the caller's in/out parameter, unchanged when the service is not
    found. *)
Definition create_reply_buffer (s : RpcServicesServer) (header : ServiceRequestHeader)
    (status result_code : Z) (pdu : RpcPduData) : RpcPduData :=
  match om_find (rq_service_name header) (rss_rpc_endpoints s) with
  | Some _ => RpcServerEp.create_reply_buffer header status result_code
  | None => pdu
  end.

Definition send_reply (s : RpcServicesServer) (w : RpcWire) (header : ServiceRequestHeader)
    (pdu : RpcPduData) : RpcServicesServer * RpcWire :=
  match om_find (rq_service_name header) (rss_rpc_endpoints s) with
  | Some endpoint =>
      let '(endpoint', w') := RpcServerEp.send_reply endpoint w (rq_client_name header) pdu in
      (set_rpc_endpoints
         (om_update (rq_service_name header) endpoint' (rss_rpc_endpoints s)) s, w')
  | None => (s, w)
  end.

Definition send_cancel_reply (s : RpcServicesServer) (w : RpcWire)
    (header : ServiceRequestHeader) (pdu : RpcPduData) : RpcServicesServer * RpcWire :=
  match om_find (rq_service_name header) (rss_rpc_endpoints s) with
  | Some endpoint =>
      let '(endpoint', w') :=
        RpcServerEp.send_cancel_reply endpoint w (rq_client_name header) pdu in
      (set_rpc_endpoints
         (om_update (rq_service_name header) endpoint' (rss_rpc_endpoints s)) s, w')
  | None => (s, w)
  end.

(** A packet the transport delivers to the endpoint of [service_name] through
    the lambda it subscribed. *)
Definition receive (s : RpcServicesServer) (service_name : string) (key : PduKey)
    (data : RpcPduData) : RpcServicesServer :=
  match om_find service_name (rss_rpc_endpoints s) with
  | Some endpoint =>
      set_rpc_endpoints
        (om_update service_name (put_pending_request key data endpoint)
           (rss_rpc_endpoints s)) s
  | None => s
  end.

(** [clear_all_instances] on the endpoints' queues; the static instance list it
    also clears is in [RpcInstances.v]. *)
Definition clear_all_instances (s : RpcServicesServer) : RpcServicesServer :=
  set_rpc_endpoints ((fun kv => (kv.1, clear_pending_requests kv.2)) <$> rss_rpc_endpoints s) s.
End Operations.
End RpcServices.
