(* ===== verification/RpcServicesServerFacts.v ===== *)
(** * Facts about the RPC services server

    Its invariant, what a poll does to every endpoint, and how queues shrink. *)

From S2P Require Import Prelude OrderedMap RpcTypes RpcServerEndpoint RpcServerProps.
From S2P Require Import RpcServerFacts RpcServicesServer.
From Stdlib Require Import ZArith Lia.
From stdpp Require Import base gmap strings list fin_maps sorting.

Module RpcServicesFacts.
Import Rpc RpcServerEp RpcServerProps RpcServerFacts RpcServices.

(** ** The invariant *)

Abbreviation endpoints := (list (string * RpcServer)).

Definition entry_wf (kv : string * RpcServer) : Prop :=
  rs_service_name kv.2 = kv.1 /\ server_wf kv.2.

Definition endpoints_wf (m : endpoints) : Prop := om_sorted m /\ Forall entry_wf m.

Definition services_wf (s : RpcServicesServer) : Prop := endpoints_wf (rss_rpc_endpoints s).

Lemma endpoints_wf_find m n e :
  endpoints_wf m -> om_find n m = Some e -> rs_service_name e = n /\ server_wf e.
Proof. intros [_ Hf] He%om_find_elem. rewrite Forall_forall in Hf. exact (Hf _ He). Qed.

Lemma endpoints_wf_cons kv m : endpoints_wf (kv :: m) -> entry_wf kv /\ endpoints_wf m.
Proof. intros [[Hs _]%StronglySorted_inv [Hkv Hf]%Forall_cons]. done. Qed.

Lemma endpoints_wf_head_fresh n e m : endpoints_wf ((n, e) :: m) -> n ∉ m.*1.
Proof.
  intros [[_ Hf]%StronglySorted_inv _] Hin. rewrite Forall_forall in Hf.
  by destruct (irreflexivity string_lt n (Hf _ Hin)).
Qed.

Lemma om_update_wf m n e e' :
  endpoints_wf m -> om_find n m = Some e -> entry_wf (n, e') -> endpoints_wf (om_update n e' m).
Proof.
  intros [Hs Hf] He Hwf. split; [auto with hako|].
  apply om_find_split in He as (m1 & m2 & -> & Hn). rewrite om_update_split by done.
  apply Forall_app in Hf as [H1 [_ H2]%Forall_cons]. apply Forall_app. auto.
Qed.

Lemma om_insert_wf m n e :
  endpoints_wf m -> entry_wf (n, e) -> endpoints_wf (om_insert n e m).
Proof.
  intros [Hs Hf] Hwf. split; [auto with hako|]. apply Forall_forall. intros [k v] Hin.
  apply om_elem_find in Hin; [|auto with hako]. rewrite om_find_insert in Hin by done.
  case_decide; [congruence|]. apply om_find_elem in Hin. rewrite Forall_forall in Hf. auto.
Qed.

Lemma clear_wf m :
  endpoints_wf m -> endpoints_wf ((fun kv => (kv.1, clear_pending_requests kv.2)) <$> m).
Proof.
  intros [Hs Hf]. split; [unfold om_sorted; by rewrite om_fmap_keys|].
  apply Forall_fmap. eapply Forall_impl; [exact Hf|]. intros [k v] [Hn [Hc Hd]].
  split; [done|]. by split.
Qed.

(** Packets of services in [ks] only are added. *)
Definition wire_within (ks : list string) (w w' : RpcWire) : Prop :=
  exists extra, w' = w ++ extra /\ Forall (fun rec => pk_robot (rsn_key rec) ∈ ks) extra.

Lemma wire_within_ext n ks w w' : wire_ext n w w' -> n ∈ ks -> wire_within ks w w'.
Proof.
  intros (x & -> & Hx) Hn. exists x. split; [done|]. eapply Forall_impl; [exact Hx|].
  by intros rec ->.
Qed.

Lemma replies_within n c (ks : list string) extra :
  Forall (fun rec => pk_robot (rsn_key rec) ∈ ks) extra -> n ∉ ks -> replies n c extra = 0.
Proof.
  intros Hf Hn. induction Hf as [|rec l Hr _ IH]; [done|]. unfold replies in *. cbn.
  rewrite bool_decide_eq_false_2; [exact IH|]. intros Hk. rewrite Hk in Hr. by cbn in Hr.
Qed.

#[local] Arguments initialize : simpl never.

Section Facts.
Context {P : RpcPlatform}.

(** ** Initialisation *)

Lemma initialize_service_wf s c o node meta entry s' :
  initialize_service s c o node meta entry = Some s' -> services_wf s -> services_wf s'.
Proof.
  unfold initialize_service. destruct (sc_name _) as [n|]; cbn; [|done].
  destruct (select_pdu_endpoint _ _ _ _) as [pe|]; cbn; [|done]. split_guard; [done|].
  destruct (initialize _ _ _ _) as [e ok] eqn:Hi. destruct ok; cbn; [|done].
  intros [= <-] Hwf. apply om_insert_wf; [done|]. by apply initialize_frame in Hi.
Qed.

Lemma initialize_each_wf services s c o node meta s' ok :
  initialize_each s c o node meta services = (s', ok) -> services_wf s -> services_wf s'.
Proof.
  revert s. induction services as [|entry services IH]; intros s; cbn; [by intros [= <- <-]|].
  destruct (initialize_service _ _ _ _ _ _) as [s1|] eqn:Hi.
  - intros Hr Hwf. eapply IH; [done|]. by eapply initialize_service_wf.
  - intros [= <- <-] Hwf. by apply clear_wf.
Qed.

Lemma initialize_services_impl_wf s c o node file s' ok :
  initialize_services_impl s c o node file = (s', ok) -> services_wf s -> services_wf s'.
Proof.
  unfold initialize_services_impl. split_guard; [by intros [= <- <-]|].
  destruct file as [f|]; [|by intros [= <- <-]].
  destruct (rcf_pdu_meta_data_size f), (rcf_services f);
    [by apply initialize_each_wf|by intros [= <- <-] Hwf; apply clear_wf..].
Qed.

Definition endpoints_fresh (m : endpoints) : Prop := Forall (fun kv => fresh kv.2) m.

Lemma om_insert_fresh m n e :
  om_sorted m -> endpoints_fresh m -> fresh e -> endpoints_fresh (om_insert n e m).
Proof.
  intros Hs Hf He. apply Forall_forall. intros [k v] Hin.
  apply om_elem_find in Hin; [|auto with hako]. rewrite om_find_insert in Hin by done.
  destruct (decide (n = k)); [by simplify_eq|]. apply om_find_elem in Hin.
  unfold endpoints_fresh in Hf. rewrite Forall_forall in Hf. exact (Hf _ Hin).
Qed.

Lemma initialize_service_fresh s c o node meta entry s' :
  initialize_service s c o node meta entry = Some s' -> services_wf s ->
  endpoints_fresh (rss_rpc_endpoints s) -> endpoints_fresh (rss_rpc_endpoints s').
Proof.
  unfold initialize_service. destruct (sc_name _) as [n|]; cbn; [|done].
  destruct (select_pdu_endpoint _ _ _ _) as [pe|]; cbn; [|done]. split_guard; [done|].
  destruct (initialize _ _ _ _) as [e ok] eqn:Hi. destruct ok; cbn; [|done].
  intros [= <-] [Hs _] Hid. apply om_insert_fresh; [done|done|]. by apply initialize_fresh in Hi.
Qed.

Lemma initialize_each_fresh services s c o node meta s' :
  initialize_each s c o node meta services = (s', true) -> services_wf s ->
  endpoints_fresh (rss_rpc_endpoints s) -> endpoints_fresh (rss_rpc_endpoints s').
Proof.
  revert s. induction services as [|entry services IH]; intros s; cbn; [by intros [= <-]|].
  destruct (initialize_service _ _ _ _ _ _) as [s1|] eqn:Hi; [|done]. intros Hr Hwf Hid.
  eapply IH; [done|by eapply initialize_service_wf|by eapply initialize_service_fresh].
Qed.

(** ** One poll *)

Lemma poll_endpoints_keys m w r m' w' ev :
  poll_endpoints m w r = (m', w', ev) -> m'.*1 = m.*1.
Proof.
  revert w r m' w' ev. induction m as [|[n e] m IH]; intros w r m' w' ev; cbn;
    [by intros [= <- <- <-]|].
  destruct (RpcServerEp.poll e w r) as [[e1 w1] [ev1 r1]].
  split_guard; [by intros [= <- <- <-]|].
  destruct (poll_endpoints m w1 r1) as [[m2 w2] ev2] eqn:Hm. intros [= <- <- <-]. cbn.
  f_equal. by eapply IH.
Qed.

Lemma poll_endpoints_wf m w r m' w' ev :
  poll_endpoints m w r = (m', w', ev) -> endpoints_wf m -> endpoints_wf m'.
Proof.
  intros Hp [Hs Hf]. split.
  { unfold om_sorted. by rewrite (poll_endpoints_keys _ _ _ _ _ _ Hp). }
  clear Hs. revert w r m' w' ev Hp.
  induction Hf as [|[n e] m [Hn Hwf] Hf IH]; intros w r m' w' ev; cbn;
    [by intros [= <- <- <-]; constructor|].
  destruct (RpcServerEp.poll e w r) as [[e1 w1] [ev1 r1]] eqn:He.
  apply poll_frame in He as (Hn1 & _ & _ & _ & Hwf1). cbn in Hn.
  assert (entry_wf (n, e1)) by (split; [cbn; congruence|auto]).
  split_guard; [intros [= <- <- <-]; by constructor|].
  destruct (poll_endpoints m w1 r1) as [[m2 w2] ev2] eqn:Hm. intros [= <- <- <-].
  constructor; [done|]. by eapply IH.
Qed.

(** The endpoint of a service is not reached because an earlier one raised an
    event, or it is polled once and its event, if any, is the result. *)
Lemma poll_endpoints_at m w r m' w' ev n e :
  poll_endpoints m w r = (m', w', ev) -> om_find n m = Some e ->
  (om_find n m' = Some e /\ ev.1 <> RpcServer_NONE)
  \/ exists w1 r1 e' w2 ev', RpcServerEp.poll e w1 r1 = (e', w2, ev')
       /\ om_find n m' = Some e' /\ (ev'.1 <> RpcServer_NONE -> ev = ev').
Proof.
  revert w r m' w' ev. induction m as [|[n1 e1] m IH]; intros w r m' w' ev; cbn; [done|].
  destruct (RpcServerEp.poll e1 w r) as [[e2 w2] [ev2 r2]] eqn:He.
  destruct (bool_decide_reflect (ev2 = RpcServer_NONE)) as [->|Hev]; cbn [negb].
  - destruct (poll_endpoints m w2 r2) as [[m3 w3] ev3] eqn:Hm. intros [= <- <- <-]. cbn.
    case_decide; [|by eapply IH]. intros [= <-]. right.
    exists w, r, e2, w2, (RpcServer_NONE, r2). by split_and!.
  - intros [= <- <- <-]. cbn. case_decide; [|by left]. intros [= <-]. right.
    exists w, r, e2, w2, (ev2, r2). by split_and!.
Qed.

(** An event comes from one endpoint's poll. *)
Lemma poll_endpoints_event m w r m' w' ev :
  poll_endpoints m w r = (m', w', ev) -> endpoints_wf m -> ev.1 <> RpcServer_NONE ->
  exists e w1 r1 e', let n := rq_service_name (req_header ev.2) in
    om_find n m = Some e /\ RpcServerEp.poll e w1 r1 = (e', w', ev) /\ om_find n m' = Some e'.
Proof.
  revert w r m' w' ev. induction m as [|[n1 e1] m IH]; intros w r m' w' ev; cbn.
  { intros [= <- <- <-]. done. }
  destruct (RpcServerEp.poll e1 w r) as [[e2 w2] [ev2 r2]] eqn:He.
  pose proof (poll_frame _ _ _ _ _ _ He) as (Hn & _ & _ & Hsn & _).
  destruct (bool_decide_reflect (ev2 = RpcServer_NONE)) as [->|Hev]; cbn [negb].
  - destruct (poll_endpoints m w2 r2) as [[m3 w3] ev3] eqn:Hm.
    intros [= <- <- <-] Hwf Hne. pose proof (endpoints_wf_head_fresh _ _ _ Hwf) as Hnin.
    apply endpoints_wf_cons in Hwf as [_ Hwf].
    destruct (IH _ _ _ _ _ Hm Hwf Hne) as (e & w1 & r1 & e' & Hf & Hp & Hf').
    exists e, w1, r1, e'. cbn.
    assert (rq_service_name (req_header ev3.2) <> n1).
    { intros Heq. rewrite Heq, om_find_fresh in Hf; done. }
    by rewrite !decide_False.
  - intros [= <- <- <-] Hwf _. apply endpoints_wf_cons in Hwf as [[Hk _] _]. cbn in Hk.
    specialize (Hsn Hev). cbn in Hsn. exists e1, w, r, e2. cbn.
    rewrite Hsn, Hk, !decide_True by done. done.
Qed.

(** ** Queues *)

Definition total_pending (m : endpoints) : nat :=
  sum_list_with (fun kv => length (rs_pending_requests kv.2)) m.

Lemma poll_endpoints_pending m w r m' w' ev :
  poll_endpoints m w r = (m', w', ev) ->
  total_pending m' <= total_pending m
  /\ (0 < total_pending m -> total_pending m' < total_pending m).
Proof.
  revert w r m' w' ev. induction m as [|[n e] m IH]; intros w r m' w' ev; cbn.
  { intros [= <- <- <-]. cbn. lia. }
  destruct (RpcServerEp.poll e w r) as [[e1 w1] [ev1 r1]] eqn:He.
  pose proof (poll_frame _ _ _ _ _ _ He) as (_ & Hq & _).
  assert (Hq1 : length (rs_pending_requests e1) = length (rs_pending_requests e) - 1).
  { rewrite Hq. destruct (rs_pending_requests e); cbn; lia. }
  destruct (bool_decide_reflect (ev1 = RpcServer_NONE)) as [->|Hev]; cbn [negb].
  - destruct (poll_endpoints m w1 r1) as [[m2 w2] ev2] eqn:Hm. intros [= <- <- <-].
    specialize (IH _ _ _ _ _ Hm). unfold total_pending in *. cbn. lia.
  - intros [= <- <- <-]. unfold total_pending. cbn.
    assert (length (rs_pending_requests e) <> 0); [|lia].
    destruct (rs_pending_requests e) eqn:Hp; [|done].
    unfold RpcServerEp.poll in He. rewrite Hp in He. congruence.
Qed.

(** ** Balance *)

Definition busy_at (m : endpoints) (n c : string) : nat :=
  match om_find n m with Some e => busy e c | None => 0 end.

Lemma endpoints_fresh_busy m n c : endpoints_fresh m -> busy_at m n c = 0.
Proof.
  intros Hf. unfold busy_at. destruct (om_find n m) as [e|] eqn:He; [|done].
  apply om_find_elem in He. unfold endpoints_fresh in Hf. rewrite Forall_forall in Hf.
  apply fresh_busy. exact (Hf _ He).
Qed.

(** A server initialised on one endpoint is well formed and idle. *)
Lemma initialize_services_on_ready node impl pe client_node file s :
  initialize_services_on (new_rpc_services_server node impl) pe client_node file = (s, true) ->
  services_wf s /\ (forall n c, busy_at (rss_rpc_endpoints s) n c = 0)
  /\ total_pending (rss_rpc_endpoints s) = 0.
Proof.
  intros Hi. pose proof (initialize_services_impl_wf _ _ _ _ _ _ _ Hi) as Hwf.
  assert (Hf : endpoints_fresh (rss_rpc_endpoints s)); cycle 1.
  { split_and!; [apply Hwf; split; constructor|intros n c; by apply endpoints_fresh_busy|].
    unfold total_pending. induction Hf as [|kv m [_ Hq] _ IH]; [done|]. cbn. by rewrite Hq. }
  unfold initialize_services_on, initialize_services_impl in Hi. split_guard_in Hi; [done|].
  destruct file as [f|]; [|done].
  destruct (rcf_pdu_meta_data_size f), (rcf_services f); try done.
  eapply initialize_each_fresh; [exact Hi|split; constructor|constructor].
Qed.

(** A REQUEST_IN event of service [n] for client [c]. *)
Definition admitted_at (n c : string) (ev : RpcServerEventType * RpcRequest) : nat :=
  if bool_decide (rq_service_name (req_header ev.2) = n) then admitted c ev else 0.

Definition balanced_at (m : endpoints) (w : RpcWire) (m' : endpoints) (w' : RpcWire)
    (admissions_of : string -> string -> nat) : Prop :=
  exists extra, w' = w ++ extra
    /\ Forall (fun rec => pk_robot (rsn_key rec) ∈ m.*1) extra
    /\ forall n c, replies n c extra + busy_at m' n c = busy_at m n c + admissions_of n c.

Lemma admitted_at_none n c r : admitted_at n c (RpcServer_NONE, r) = 0.
Proof. unfold admitted_at. by case_bool_decide. Qed.

(** One endpoint's poll, seen from all services. *)
Lemma poll_admitted e w r e' w' ev :
  RpcServerEp.poll e w r = (e', w', ev) ->
  exists extra, w' = w ++ extra
    /\ Forall (fun rec => pk_robot (rsn_key rec) = rs_service_name e) extra
    /\ forall n c, replies n c extra + (if decide (n = rs_service_name e) then busy e' c else 0)
         = (if decide (n = rs_service_name e) then busy e c else 0) + admitted_at n c ev.
Proof.
  intros Hp. pose proof (poll_balanced _ _ _ _ _ _ Hp) as (_ & extra & -> & Hb).
  pose proof (poll_frame _ _ _ _ _ _ Hp) as (_ & _ & (x & Hx & Hf) & Hsn & _).
  apply app_inv_head in Hx as <-. exists extra. split_and!; [done|done|]. intros n c.
  assert (Had : admitted_at n c ev = if decide (n = rs_service_name e) then admitted c ev else 0).
  { unfold admitted_at, admitted. destruct ev as [[] rq]; cbn in *;
      [by case_bool_decide; case_decide| |by case_bool_decide; case_decide].
    specialize (Hsn ltac:(done)). rewrite Hsn. case_bool_decide; case_decide; congruence. }
  rewrite Had. case_decide as Hn; [subst n; apply Hb|].
  by rewrite (replies_other _ _ _ _ Hf Hn).
Qed.

Lemma busy_at_cons n e m n' c :
  busy_at ((n, e) :: m) n' c = if decide (n' = n) then busy e c else busy_at m n' c.
Proof. unfold busy_at. cbn. by case_decide. Qed.

Lemma busy_at_fresh m n c : n ∉ m.*1 -> busy_at m n c = 0.
Proof. intros Hn. unfold busy_at. by rewrite om_find_fresh. Qed.

Lemma poll_endpoints_balanced m w r m' w' ev :
  poll_endpoints m w r = (m', w', ev) -> endpoints_wf m ->
  balanced_at m w m' w' (fun n c => admitted_at n c ev).
Proof.
  revert w r m' w' ev. induction m as [|[n e] m IH]; intros w r m' w' ev; cbn.
  { intros [= <- <- <-] _. exists []. rewrite app_nil_r. split_and!; [done|constructor|].
    intros. by rewrite admitted_at_none. }
  destruct (RpcServerEp.poll e w r) as [[e1 w1] [ev1 r1]] eqn:He. intros Hp Hwf.
  pose proof (endpoints_wf_head_fresh _ _ _ Hwf) as Hnin.
  apply endpoints_wf_cons in Hwf as [[Hk _] Hwf]. cbn in Hk.
  apply poll_admitted in He as (x & -> & Hx & Hb). rewrite Hk in Hx, Hb.
  assert (Hx' : Forall (fun rec => pk_robot (rsn_key rec) ∈ n :: m.*1) x).
  { eapply Forall_impl; [exact Hx|]. intros rec ->. left. }
  destruct (bool_decide_reflect (ev1 = RpcServer_NONE)) as [->|Hev]; cbn [negb] in Hp.
  - destruct (poll_endpoints m (w ++ x) r1) as [[m2 w2] ev2] eqn:Hm. injection Hp as <- <- <-.
    destruct (IH _ _ _ _ _ Hm Hwf) as (y & -> & Hy & Hby). exists (x ++ y).
    split_and!; [by rewrite (assoc_L (++))| |].
    { apply Forall_app. split; [done|]. eapply Forall_impl; [exact Hy|].
      intros rec ?. by right. }
    intros n' c. rewrite replies_app, !busy_at_cons. specialize (Hb n' c). specialize (Hby n' c).
    rewrite admitted_at_none in Hb. case_decide as Hn; [|lia]. subst n'.
    rewrite (replies_within n c _ y Hy Hnin) in *. rewrite busy_at_fresh in Hby; [|by
      rewrite (poll_endpoints_keys _ _ _ _ _ _ Hm)].
    rewrite (busy_at_fresh m) in Hby by done. lia.
  - injection Hp as <- <- <-. exists x. split_and!; [done|done|]. intros n' c.
    rewrite !busy_at_cons. specialize (Hb n' c). case_decide; lia.
Qed.
End Facts.
End RpcServicesFacts.
