(* ===== verification/RpcServicesServerProps.v ===== *)
(** * What the RPC services server guarantees *)

From S2P Require Import Prelude OrderedMap RpcTypes RpcServerEndpoint RpcServerProps.
From S2P Require Import RpcServerFacts RpcServicesServer RpcServicesServerFacts.
From Stdlib Require Import ZArith Lia.
From stdpp Require Import base gmap strings list fin_maps sorting.

Module RpcServicesProps.
Import Rpc RpcServerEp RpcServerFacts RpcServices RpcServicesFacts.

(** ** Runs *)

Inductive services_op :=
  | SvcReceive (service_name : string) (key : PduKey) (data : RpcPduData)
  | SvcPoll (request : RpcRequest)
  | SvcReply (header : ServiceRequestHeader) (pdu : RpcPduData)
  | SvcCancelReply (header : ServiceRequestHeader) (pdu : RpcPduData)
  | SvcStop
  | SvcClear.

Section Facts.
Context {P : RpcPlatform}.

Definition run_op (s : RpcServicesServer) (w : RpcWire) (op : services_op)
    : RpcServicesServer * RpcWire * list (RpcServerEventType * RpcRequest) :=
  match op with
  | SvcReceive n key data => (receive s n key data, w, [])
  | SvcPoll r => let '(s', w', ev) := poll s w r in (s', w', [ev])
  | SvcReply h pdu => let '(s', w') := send_reply s w h pdu in (s', w', [])
  | SvcCancelReply h pdu => let '(s', w') := send_cancel_reply s w h pdu in (s', w', [])
  | SvcStop => (stop_all_services s, w, [])
  | SvcClear => (clear_all_instances s, w, [])
  end.

Fixpoint run_ops (s : RpcServicesServer) (w : RpcWire) (ops : list services_op)
    : RpcServicesServer * RpcWire * list (RpcServerEventType * RpcRequest) :=
  match ops with
  | [] => (s, w, [])
  | op :: rest =>
      let '(s1, w1, evs1) := run_op s w op in
      let '(s2, w2, evs2) := run_ops s1 w1 rest in
      (s2, w2, evs1 ++ evs2)
  end.

Definition admissions_at (n c : string) (evs : list (RpcServerEventType * RpcRequest)) : nat :=
  sum_list_with (admitted_at n c) evs.

(** ** One operation keeps the invariant and the balance *)

Lemma balanced_at_quiet m w m' :
  (forall n c, busy_at m' n c = busy_at m n c) -> balanced_at m w m' w (fun _ _ => 0).
Proof.
  intros Hb. exists []. rewrite app_nil_r. split_and!; [done|constructor|]. intros n c.
  rewrite Hb. cbn. lia.
Qed.

Lemma busy_at_update m n e e' :
  om_find n m = Some e -> (forall c, RpcServerProps.busy e' c = RpcServerProps.busy e c) ->
  forall n' c, busy_at (om_update n e' m) n' c = busy_at m n' c.
Proof.
  intros He Hb n' c. unfold busy_at. rewrite (om_find_update _ _ _ _ _ He).
  case_decide; [|done]. subst. by rewrite He, Hb.
Qed.

Lemma clear_balanced m w :
  balanced_at m w ((fun kv => (kv.1, clear_pending_requests kv.2)) <$> m) w (fun _ _ => 0).
Proof.
  apply balanced_at_quiet. intros n c. unfold busy_at. rewrite om_find_fmap.
  by destruct (om_find n m).
Qed.

(** A reply call on the endpoint that is found. *)
Lemma reply_balanced m n e w e' w' :
  endpoints_wf m -> om_find n m = Some e -> states_only e e' ->
  wire_ext (rs_service_name e) w w' -> RpcServerProps.replied e w e' w' ->
  endpoints_wf (om_update n e' m) /\ balanced_at m w (om_update n e' m) w' (fun _ _ => 0).
Proof.
  intros Hwf He Hso (x & -> & Hx) (_ & y & Hy & Hb). apply app_inv_head in Hy as <-.
  destruct (endpoints_wf_find _ _ _ Hwf He) as [Hn Hew]. rewrite Hn in Hx, Hb. split.
  { eapply om_update_wf; [done|done|]. pose proof (states_only_wf _ _ Hso Hew).
    destruct Hso as (? & -> & _). done. }
  exists x. split_and!; [done| |].
  { eapply Forall_impl; [exact Hx|]. intros rec ->. apply om_find_elem in He.
    apply list_elem_of_fmap. by exists (n, e). }
  intros n' c. unfold busy_at. rewrite (om_find_update _ _ _ _ _ He). case_decide as Hd.
  - subst n'. rewrite He, Hb. lia.
  - rewrite (replies_other n n' c x) by done. lia.
Qed.

Lemma run_op_ok s w op s' w' evs :
  run_op s w op = (s', w', evs) -> services_wf s ->
  services_wf s'
  /\ balanced_at (rss_rpc_endpoints s) w (rss_rpc_endpoints s') w'
       (fun n c => admissions_at n c evs).
Proof.
  destruct op as [n k d|r|h pdu|h pdu| |]; cbn; unfold services_wf.
  - intros [= <- <- <-] Hwf. unfold receive.
    destruct (om_find n (rss_rpc_endpoints s)) as [e|] eqn:He;
      [|split; [done|by apply balanced_at_quiet]].
    split; [|by apply balanced_at_quiet, (busy_at_update _ _ e)].
    destruct (endpoints_wf_find _ _ _ Hwf He) as [Hn [Hc Hd]].
    eapply om_update_wf; [done|done|]. split; [done|]. by split.
  - unfold poll. destruct (poll_endpoints _ w r) as [[m w1] ev] eqn:Hp.
    intros [= <- <- <-] Hwf. split; [by eapply poll_endpoints_wf|].
    destruct (poll_endpoints_balanced _ _ _ _ _ _ Hp Hwf) as (x & -> & Hx & Hb).
    exists x. split_and!; [done|done|]. intros n c. rewrite Hb. unfold admissions_at. cbn. lia.
  - unfold send_reply. destruct (om_find _ _) as [e|] eqn:He; cycle 1.
    { intros [= <- <- <-] Hwf. split; [done|by apply balanced_at_quiet]. }
    destruct (RpcServerEp.send_reply _ _ _ _) as [e1 w1] eqn:Hs. intros [= <- <- <-] Hwf.
    pose proof (send_reply_frame _ _ _ _ _ _ Hs) as [? ?].
    eapply reply_balanced; eauto using RpcServerProps.send_reply_replied.
  - unfold send_cancel_reply. destruct (om_find _ _) as [e|] eqn:He; cycle 1.
    { intros [= <- <- <-] Hwf. split; [done|by apply balanced_at_quiet]. }
    destruct (RpcServerEp.send_cancel_reply _ _ _ _) as [e1 w1] eqn:Hs. intros [= <- <- <-] Hwf.
    pose proof (send_cancel_reply_frame _ _ _ _ _ _ Hs) as [? ?].
    eapply reply_balanced; eauto using RpcServerProps.send_cancel_reply_replied.
  - intros [= <- <- <-] Hwf. split; [by apply clear_wf|apply clear_balanced].
  - intros [= <- <- <-] Hwf. split; [by apply clear_wf|apply clear_balanced].
Qed.

Lemma run_ops_ok ops s w s' w' evs :
  run_ops s w ops = (s', w', evs) -> services_wf s ->
  services_wf s'
  /\ exists extra, w' = w ++ extra
       /\ forall n c, RpcServerProps.replies n c extra + busy_at (rss_rpc_endpoints s') n c
                      = busy_at (rss_rpc_endpoints s) n c + admissions_at n c evs.
Proof.
  revert s w s' w' evs. induction ops as [|op ops IH]; intros s w s' w' evs; cbn.
  { intros [= <- <- <-] Hwf. split; [done|]. exists []. rewrite app_nil_r. split; [done|].
    intros n c. cbn. lia. }
  destruct (run_op s w op) as [[s1 w1] evs1] eqn:Ho.
  destruct (run_ops s1 w1 ops) as [[s2 w2] evs2] eqn:Hr. intros [= <- <- <-] Hwf.
  apply run_op_ok in Ho as (Hwf1 & x & -> & _ & Hx); [|done].
  apply IH in Hr as (Hwf2 & y & -> & Hy); [|done]. split; [done|]. exists (x ++ y).
  split; [by rewrite (assoc_L (++))|]. intros n c. rewrite RpcServerProps.replies_app.
  specialize (Hx n c). specialize (Hy n c). unfold admissions_at in *.
  rewrite sum_list_with_app. lia.
Qed.

(** ** Repeated polls *)

Fixpoint poll_many (k : nat) (s : RpcServicesServer) (w : RpcWire) (r : RpcRequest)
    : RpcServicesServer * RpcWire * list (RpcServerEventType * RpcRequest) :=
  match k with
  | 0 => (s, w, [])
  | S k' =>
      let '(s1, w1, ev) := poll s w r in
      let '(s2, w2, evs) := poll_many k' s1 w1 r in
      (s2, w2, ev :: evs)
  end.

Definition backlog (s : RpcServicesServer) : nat := total_pending (rss_rpc_endpoints s).

Lemma poll_backlog s w r s' w' ev :
  poll s w r = (s', w', ev) ->
  backlog s' <= backlog s /\ (0 < backlog s -> backlog s' < backlog s).
Proof.
  unfold poll. destruct (poll_endpoints _ w r) as [[m w1] ev1] eqn:Hp. intros [= <- _ _].
  by eapply poll_endpoints_pending.
Qed.

Lemma poll_idle s w r : backlog s = 0 -> poll s w r = (s, w, (RpcServer_NONE, r)).
Proof.
  unfold poll, backlog, total_pending. destruct s as [n i m]. cbn. intros Hb.
  assert (Hpe : poll_endpoints m w r = (m, w, (RpcServer_NONE, r))); [|by rewrite Hpe].
  induction m as [|[k1 e] m IH]; [done|]. cbn in Hb |- *.
  assert (He : RpcServerEp.poll e w r = (e, w, (RpcServer_NONE, r))).
  { unfold RpcServerEp.poll. destruct (rs_pending_requests e); [done|cbn in Hb; lia]. }
  rewrite He. cbn. rewrite IH by lia. done.
Qed.

Lemma poll_many_backlog k s w r s' w' evs :
  poll_many k s w r = (s', w', evs) -> backlog s <= k -> backlog s' = 0.
Proof.
  revert s w s' w' evs. induction k as [|k IH]; intros s w s' w' evs; cbn.
  { intros [= <- _ _]. lia. }
  destruct (poll s w r) as [[s1 w1] ev] eqn:Hp.
  destruct (poll_many k s1 w1 r) as [[s2 w2] evs2] eqn:Hm. intros [= <- _ _] Hk.
  apply poll_backlog in Hp. eapply IH; [exact Hm|]. lia.
Qed.

(** ** A request that waits *)

(** [pk] is a request (opcode REQUEST) that waits in the queue of service [n],
    which has a static client list that names its client; that client is idle,
    and no packet before it belongs to that client. A service that admits clients
    dynamically serves requests too, but whether it admits one depends on the
    clients it has, and is not described here. *)
Record waiting (n : string) (pk : PendingRequest) (h : ServiceRequestHeader) (e : RpcServer)
    : Prop := mkWaiting {
  wt_name : rs_service_name e = n;
  wt_static : rs_dynamic_client e = false;
  wt_header : forall prev, pdu2cpp_ServiceRequestHeader (pr_data pk) prev = h;
  wt_service : rq_service_name h = n;
  wt_registered : rq_client_name h ∈ rs_registered_clients e;
  wt_idle : exists st, rs_server_states e !! rq_client_name h = Some st
              /\ sps_state st = SERVER_STATE_IDLE;
  wt_opcode : rq_opcode h = HAKO_SERVICE_OPERATION_CODE_REQUEST;
  wt_queue : exists q1 q2, rs_pending_requests e = q1 ++ pk :: q2
    /\ forall pk' prev, pk' ∈ q1 ->
         rq_client_name (pdu2cpp_ServiceRequestHeader (pr_data pk') prev) <> rq_client_name h;
}.

Lemma waiting_raised n pk h e w r q2 :
  waiting n pk h e -> rs_pending_requests e = pk :: q2 ->
  exists e', RpcServerEp.poll e w r
    = (e', w, (RpcServer_REQUEST_IN, mkRpcRequest (rq_client_name h) h (pr_data pk))).
Proof.
  intros [Hn Hd Hh Hs Hr (st & Hst & Hi) Hop _] Hq. unfold RpcServerEp.poll.
  rewrite Hq, Hh. unfold validate_header. cbn. rewrite Hn, Hs, Hd, Hop.
  rewrite (bool_decide_eq_true_2 (n = n)) by done. cbn.
  rewrite (bool_decide_eq_true_2 (_ ∈ _)) by done. cbn.
  rewrite (bool_decide_eq_true_2 (is_Some _)) by eauto. cbn.
  unfold handle_request_in, status_of. cbn. rewrite Hst. cbn. rewrite Hi. eauto.
Qed.

(** Registered clients of a static server do not change. *)
Lemma poll_static e w r e' w' ev :
  RpcServerEp.poll e w r = (e', w', ev) -> rs_dynamic_client e = false ->
  rs_dynamic_client e' = false /\ rs_registered_clients e' = rs_registered_clients e.
Proof.
  destruct (rs_pending_requests e) as [|pk rest] eqn:Hq.
  { unfold RpcServerEp.poll. rewrite Hq. by intros [= <- <- <-]. }
  intros (s1 & ok & Hv & ((m & -> & _) & _) & _)%(poll_cons _ _ _ pk rest) Hd; [|done].
  unfold validate_header in Hv. cbn in Hv. rewrite Hd in Hv.
  repeat split_guard_in Hv; by injection Hv as <- _.
Qed.

Lemma waiting_passed n pk h e w r pk0 q1 q2 e' w' ev :
  waiting n pk h e -> rs_pending_requests e = pk0 :: q1 ++ pk :: q2 ->
  (forall pk' prev, pk' ∈ pk0 :: q1 ->
     rq_client_name (pdu2cpp_ServiceRequestHeader (pr_data pk') prev) <> rq_client_name h) ->
  RpcServerEp.poll e w r = (e', w', ev) -> waiting n pk h e'.
Proof.
  intros [Hn Hd Hh Hs Hr Hst Hop _] Hq Hne Hp.
  pose proof (poll_static _ _ _ _ _ _ Hp Hd) as [Hd' Hr'].
  pose proof (poll_frame _ _ _ _ _ _ Hp) as (Hn' & Hq' & _).
  pose proof (RpcServerProps.poll_effect_spec _ _ _ _ _ _ Hp) as [_ Hoth].
  apply (poll_cons _ _ _ pk0 (q1 ++ pk :: q2)) in Hp
    as (s1 & ok & _ & (_ & _ & Hhd) & _); [|done].
  rewrite Hhd in Hoth. rewrite Hq in Hq'. cbn in Hq'.
  split; try done; [congruence|by rewrite Hr'| |].
  - rewrite Hoth; [done|]. intros Heq. apply (Hne pk0 (req_header r)); [left|done].
  - exists q1, q2. split; [done|]. intros pk' prev Hin. apply Hne. by right.
Qed.

Definition request_in (pk : PendingRequest) (h : ServiceRequestHeader)
    : RpcServerEventType * RpcRequest :=
  (RpcServer_REQUEST_IN, mkRpcRequest (rq_client_name h) h (pr_data pk)).

(** One poll raises the request or leaves it waiting. *)
Lemma poll_waiting n pk h s w r e s' w' ev :
  om_find n (rss_rpc_endpoints s) = Some e -> waiting n pk h e ->
  poll s w r = (s', w', ev) ->
  ev = request_in pk h
  \/ exists e', om_find n (rss_rpc_endpoints s') = Some e' /\ waiting n pk h e'.
Proof.
  intros He Hw. unfold poll.
  destruct (poll_endpoints _ w r) as [[m w3] ev3] eqn:Hpe. intros [= <- <- <-].
  destruct (poll_endpoints_at _ _ _ _ _ _ _ _ Hpe He)
    as [[He1 _]|(w4 & r4 & e4 & w5 & ev5 & Hpo & He1 & Hev)]; [right; by exists e|].
  pose proof Hw as Hw'. destruct Hw' as [_ _ _ _ _ _ _ (q1 & q2 & Hq & Hne)].
  destruct q1 as [|pk0 q1].
  - left. destruct (waiting_raised _ _ _ _ w4 r4 q2 Hw Hq) as [e' Hpo'].
    rewrite Hpo in Hpo'. injection Hpo' as _ _ Hev5. rewrite Hev, Hev5; [done|]. by rewrite Hev5.
  - right. exists e4. split; [done|]. by eapply (waiting_passed _ _ _ e).
Qed.

Lemma waiting_backlog n pk h s e :
  om_find n (rss_rpc_endpoints s) = Some e -> waiting n pk h e -> 0 < backlog s.
Proof.
  intros (m1 & m2 & Hm & _)%om_find_split Hw.
  destruct (wt_queue _ _ _ _ Hw) as (q1 & q2 & Hq & _). unfold backlog, total_pending.
  rewrite Hm, sum_list_with_app. cbn. rewrite Hq, length_app. cbn. lia.
Qed.

Lemma request_served_in k n pk h s w r e s' w' evs :
  om_find n (rss_rpc_endpoints s) = Some e -> waiting n pk h e ->
  poll_many k s w r = (s', w', evs) -> backlog s <= k -> request_in pk h ∈ evs.
Proof.
  revert s w e s' w' evs. induction k as [|k IH]; intros s w e s' w' evs He Hw.
  { pose proof (waiting_backlog _ _ _ _ _ He Hw). lia. }
  cbn. destruct (poll s w r) as [[s1 w1] ev] eqn:Hp.
  destruct (poll_many k s1 w1 r) as [[s2 w2] evs2] eqn:Hm. intros [= <- <- <-] Hk.
  pose proof (poll_backlog _ _ _ _ _ _ Hp) as [Hle Hlt].
  destruct (poll_waiting _ _ _ _ _ _ _ _ _ _ He Hw Hp) as [->|(e' & He' & Hw')]; [left|].
  right. eapply (IH s1); [done|done|done|lia].
Qed.

(** The endpoint a REQUEST_IN comes from is the one its header names, and it is
    running that request. *)
Lemma poll_raised s w r s1 w1 rq :
  services_wf s -> poll s w r = (s1, w1, (RpcServer_REQUEST_IN, rq)) ->
  exists e, om_find (rq_service_name (req_header rq)) (rss_rpc_endpoints s1) = Some e
    /\ rs_service_name e = rq_service_name (req_header rq)
    /\ rs_server_states e !! rq_client_name (req_header rq)
       = Some (mkServerProcessingStatus (rq_request_id (req_header rq)) SERVER_STATE_RUNNING).
Proof.
  intros Hwf Hp. unfold poll in Hp.
  destruct (poll_endpoints _ w r) as [[m w2] ev] eqn:Hpe. injection Hp as <- <- ->.
  pose proof (poll_endpoints_wf _ _ _ _ _ _ Hpe Hwf) as Hwf'.
  apply poll_endpoints_event in Hpe as (e & w3 & r3 & e' & _ & Hpo & He'); [|done|done].
  exists e'. split; [exact He'|]. destruct (endpoints_wf_find _ _ _ Hwf' He') as [Hn _].
  split; [done|]. apply RpcServerProps.poll_effect_spec in Hpo as [(_ & _ & _ & Hst) _].
  unfold status_of in Hst. cbn in Hst.
  destruct (rs_server_states e' !! rq_client_name (req_header rq)) as [st|]; [|done].
  cbn in Hst. by subst st.
Qed.

(** A request that has just arrived, with no earlier packet of its client. *)
Lemma received_request_served ss n se key pdu h k w r ss' w' evs :
  services_wf ss -> om_find n (rss_rpc_endpoints ss) = Some se ->
  rs_dynamic_client se = false -> rq_service_name h = n ->
  rq_client_name h ∈ rs_registered_clients se ->
  status_of se (rq_client_name h) = RpcServerProps.idle ->
  rq_opcode h = HAKO_SERVICE_OPERATION_CODE_REQUEST ->
  (forall prev, pdu2cpp_ServiceRequestHeader pdu prev = h) ->
  (forall pk prev, pk ∈ rs_pending_requests se ->
     rq_client_name (pdu2cpp_ServiceRequestHeader (pr_data pk) prev) <> rq_client_name h) ->
  poll_many k (receive ss n key pdu) w r = (ss', w', evs) ->
  backlog (receive ss n key pdu) <= k ->
  (RpcServer_REQUEST_IN, mkRpcRequest (rq_client_name h) h pdu) ∈ evs.
Proof.
  intros Hwf Hse Hdyn Hn Hreg Hidle Hop Hdec Hnone.
  destruct (endpoints_wf_find _ _ _ Hwf Hse) as [Hsn Hsewf].
  pose proof (proj1 (wf_clients _ Hsewf _) Hreg) as [st Hst]. unfold status_of in Hidle.
  rewrite Hst in Hidle. cbn in Hidle. subst st.
  change (mkRpcRequest (rq_client_name h) h pdu) with
    (mkRpcRequest (rq_client_name h) h (pr_data (mkPendingRequest key pdu))).
  apply (request_served_in _ n (mkPendingRequest key pdu) h _ _ _ (put_pending_request key pdu se)).
  - unfold receive. rewrite Hse. cbn. by rewrite (om_find_update _ _ _ _ _ Hse), decide_True.
  - split; try done; [by exists RpcServerProps.idle|].
    exists (rs_pending_requests se), []. split; [done|exact Hnone].
Qed.

(** ** Initialisation *)

(** What one entry needs to be initialised. *)
Definition entry_ok (node_id impl_type : string) (container : option EndpointContainer)
    (endpoint_override : option PduEndpoint) (client_node_id : option string) (meta : Z)
    (entry : ServiceEntry) : bool :=
  bool_decide (is_Some (initialize_service (new_rpc_services_server node_id impl_type)
    container endpoint_override client_node_id meta entry)).

#[local] Arguments initialize : simpl never.

Lemma initialize_service_Some s c o node meta entry :
  match initialize_service s c o node meta entry with
  | Some s' =>
      entry_ok (rss_node_id s) (rss_impl_type s) c o node meta entry = true
      /\ rss_node_id s' = rss_node_id s /\ rss_impl_type s' = rss_impl_type s
      /\ exists n e, sc_name (se_config entry) = Some n
           /\ rss_rpc_endpoints s' = om_insert n e (rss_rpc_endpoints s)
  | None => entry_ok (rss_node_id s) (rss_impl_type s) c o node meta entry = false
  end.
Proof.
  unfold entry_ok, initialize_service, select_pdu_endpoint. cbn [rss_node_id rss_impl_type
    new_rpc_services_server rss_rpc_endpoints].
  destruct (sc_name _) as [n|]; [|done]. cbn [mbind option_bind].
  destruct (match o with Some _ => _ | None => _ end) as [pe|]; [|done].
  cbn [mbind option_bind]. split_guard; [done|].
  destruct (initialize _ _ _ _) as [e ok]. destruct ok; cbn; [|done]. eauto 10.
Qed.

Lemma initialize_each_spec services s c o node meta s' ok :
  initialize_each s c o node meta services = (s', ok) ->
  ok = forallb (entry_ok (rss_node_id s) (rss_impl_type s) c o node meta) services
  /\ (ok = false -> backlog s' = 0)
  /\ (ok = true -> forall n, n ∈ (rss_rpc_endpoints s').*1 <->
       n ∈ (rss_rpc_endpoints s).*1
       \/ Some n ∈ (fun entry => sc_name (se_config entry)) <$> services).
Proof.
  revert s. induction services as [|entry services IH]; intros s; cbn.
  { intros [= <- <-]. split_and!; [done|done|]. intros _ n. rewrite elem_of_nil. tauto. }
  pose proof (initialize_service_Some s c o node meta entry) as Hs.
  destruct (initialize_service _ _ _ _ _ _) as [s1|].
  - destruct Hs as (Hok & Hn & Hi & name & e & Hname & Hep). intros Hr%IH.
    rewrite Hn, Hi, Hep in Hr. rewrite Hok. destruct Hr as (-> & Hf & Hk).
    split_and!; [done|done|]. intros Ht n. rewrite Hk, om_insert_keys, elem_of_cons by done.
    rewrite Hname. split; [intros [[->|?]|?]; auto|intros [?|[[= ->]|?]]; auto].
  - intros [= <- <-]. rewrite Hs. split_and!; [done| |done]. intros _. unfold backlog, total_pending. cbn.
    induction (rss_rpc_endpoints s) as [|kv m IHm]; [done|]. cbn. exact IHm.
Qed.
End Facts.

(** ** A concrete server

    Services "a" and "s" with client "c" on one endpoint; a request is waiting
    at "s" behind one at "a". *)

Module Demo.
Import ConcreteRpc.

Definition config (n : string) : ServiceConfig :=
  mkServiceConfig (Some 1%Z) (Some n) (Some "t") (Some false) None None
    (Some 16%Z) (Some 8%Z) (Some 16%Z) (Some 8%Z)
    (Some [mkClientSpec (Some "c") true true (Some "n") (Some "e") (Some 0%Z) (Some 1%Z)]).

Definition file : option RpcConfigFile :=
  Some (mkRpcConfigFile (Some 24%Z)
    (Some [mkServiceEntry (config "s") None; mkServiceEntry (config "a") None])).

Definition ready : RpcServicesServer :=
  (initialize_services_on (new_rpc_services_server "n" "RpcServerEndpointImpl")
     (Some (mkPduEndpoint true)) None file).1.

Definition header (n : string) (id : Z) : ServiceRequestHeader :=
  mkServiceRequestHeader id n "c" HAKO_SERVICE_OPERATION_CODE_REQUEST 0.

Definition packet (n : string) (id : Z) : RpcPduData :=
  cpp2pdu_ServiceRequestHeader (header n id) 64.

Definition key (n : string) : PduKey := mkPduKey n "cReq".

Definition queued : RpcServicesServer :=
  receive (receive ready "s" (key "s") (packet "s" 7)) "a" (key "a") (packet "a" 9).

Definition no_request : RpcRequest := RpcServerProps.Demo.no_request.
End Demo.
Import ConcreteRpc Demo.

Lemma demo_ready_wf : services_wf ready.
Proof.
  eapply (initialize_services_impl_wf (new_rpc_services_server "n" "RpcServerEndpointImpl")
    None (Some (mkPduEndpoint true)) None file); [apply surjective_pairing|].
  split; constructor.
Qed.

Lemma demo_queued_wf : services_wf queued.
Proof.
  change queued with (run_op (run_op ready [] (SvcReceive "s" (key "s") (packet "s" 7))).1.1 []
    (SvcReceive "a" (key "a") (packet "a" 9))).1.1.
  eapply run_op_ok; [apply triple_eta|]. eapply run_op_ok; [apply triple_eta|].
  apply demo_ready_wf.
Qed.

(** ** Properties *)

(** C32 — The services server is well formed in every state it can reach: after
    an initialisation with any configuration, successful or not, and any
    sequence of received packets, polls, replies and stops, the endpoints are in
    key order, each is stored under its own service name, its client list is
    exactly the key set of its processing states, and a service with dynamic
    clients never has more of them than maxClients. *)
Theorem rpc_services_well_formed {P : RpcPlatform} node_id impl_type container override node
    file s0 ok w ops s w' evs :
  initialize_services_impl (new_rpc_services_server node_id impl_type) container override
    node file = (s0, ok) ->
  run_ops s0 w ops = (s, w', evs) -> services_wf s.
Proof.
  intros Hi Hr. apply initialize_services_impl_wf in Hi; [|split; constructor].
  by apply run_ops_ok in Hr as [Hwf _].
Qed.

Lemma rpc_services_well_formed_witness :
  let ops := [SvcReceive "s" (key "s") (packet "s" 7); SvcPoll no_request] in
  services_wf (run_ops ready [] ops).1.1 /\ length (rss_rpc_endpoints ready) = 2.
Proof.
  split; [|by vm_compute].
  eapply (rpc_services_well_formed "n" "RpcServerEndpointImpl" None
    (Some (mkPduEndpoint true)) None file ready); [apply surjective_pairing|].
  apply triple_eta.
Defined.

(** Replies match requests in every service: from a well-formed server
    whose clients are all idle, over any sequence of received packets, polls,
    replies, cancel replies and stops, for every service and client the replies
    handed to the transport plus one if a request is still being processed
    equal the REQUEST_IN events of that service for that client. *)
Theorem rpc_services_replies_match {P : RpcPlatform} s ops s' w' evs :
  services_wf s -> (forall n c, busy_at (rss_rpc_endpoints s) n c = 0) ->
  run_ops s [] ops = (s', w', evs) ->
  forall n c, RpcServerProps.replies n c w' + busy_at (rss_rpc_endpoints s') n c
              = admissions_at n c evs.
Proof.
  intros Hwf Hidle Hr n c. apply run_ops_ok in Hr as (_ & extra & -> & Hb); [|done].
  by rewrite app_nil_l, Hb, Hidle.
Qed.

Lemma demo_ready_idle n c : busy_at (rss_rpc_endpoints ready) n c = 0.
Proof.
  unfold busy_at. destruct (om_find n _) as [e|] eqn:He; [|done].
  assert (Hs : rs_server_states e = <["c" := RpcServerProps.idle]> ∅).
  { revert He. change (rss_rpc_endpoints ready) with
      [("a", (initialize (new_rpc_server "a" true true) (config "a") 24 None).1);
       ("s", (initialize (new_rpc_server "s" true true) (config "s") 24 None).1)].
    cbn [om_find]. repeat case_decide; [by intros [= <-]|by intros [= <-]|done]. }
  unfold RpcServerProps.busy. rewrite Hs, lookup_insert. case_decide; [done|].
  by rewrite lookup_empty.
Qed.

Lemma rpc_services_replies_match_witness :
  let ops := [SvcReceive "s" (key "s") (packet "s" 7); SvcReceive "a" (key "a") (packet "a" 9);
              SvcPoll no_request; SvcPoll no_request; SvcReply (header "s" 7) []] in
  admissions_at "s" "c" (run_ops ready [] ops).2 = 1
  /\ forall n c, RpcServerProps.replies n c (run_ops ready [] ops).1.2
       + busy_at (rss_rpc_endpoints (run_ops ready [] ops).1.1) n c
       = admissions_at n c (run_ops ready [] ops).2.
Proof.
  split; [by vm_compute|].
  apply (rpc_services_replies_match ready [SvcReceive "s" (key "s") (packet "s" 7);
    SvcReceive "a" (key "a") (packet "a" 9); SvcPoll no_request; SvcPoll no_request;
    SvcReply (header "s" 7) []]);
    [apply demo_ready_wf|apply demo_ready_idle|apply triple_eta].
Defined.

(** A reply goes to the endpoint that raised the request: after a poll of
    the services returns REQUEST_IN, a reply with that request's header sends
    exactly one packet, on the response channel of that service and client, and
    ends that request and no other. *)
Theorem rpc_services_reply_routed {P : RpcPlatform} s w r s1 w1 rq pdu :
  services_wf s -> poll s w r = (s1, w1, (RpcServer_REQUEST_IN, rq)) ->
  let n := rq_service_name (req_header rq) in
  let c := rq_client_name (req_header rq) in
  busy_at (rss_rpc_endpoints s1) n c = 1
  /\ exists s2 ok,
       send_reply s1 w1 (req_header rq) pdu
       = (s2, w1 ++ [mkRpcSend (response_key n c) pdu ok])
       /\ busy_at (rss_rpc_endpoints s2) n c = 0
       /\ forall n' c', (n', c') <> (n, c) ->
            busy_at (rss_rpc_endpoints s2) n' c' = busy_at (rss_rpc_endpoints s1) n' c'.
Proof.
  intros Hwf Hp n c. destruct (poll_raised _ _ _ _ _ _ Hwf Hp) as (e' & He' & Hn & Hc).
  fold n in He', Hn. fold c in Hc. clear Hp.
  assert (Hb : busy_at (rss_rpc_endpoints s1) n c = 1).
  { unfold busy_at, RpcServerProps.busy. by rewrite He', Hc. }
  split; [done|]. unfold send_reply. cbn [rss_rpc_endpoints set_rpc_endpoints]. fold n c.
  rewrite He'. unfold RpcServerEp.send_reply. rewrite Hc. cbn [sps_state]. cbn -[response_key].
  rewrite Hn. eexists _, _. split; [done|]. cbn. unfold busy_at. split.
  - rewrite (om_find_update _ _ _ _ _ He'), decide_True by done.
    rewrite RpcServerProps.busy_set. by rewrite lookup_insert_eq.
  - intros n' c' Hne. rewrite (om_find_update _ _ _ _ _ He'). case_decide as Hd; [|done].
    subst n'. rewrite He', RpcServerProps.busy_set, lookup_insert_ne by congruence. done.
Qed.

Lemma rpc_services_reply_routed_witness :
  exists s2 ok, send_reply (poll queued [] no_request).1.1 [] (header "a" 9) [1%Z]
    = (s2, [mkRpcSend (response_key "a" "c") [1%Z] ok]).
Proof.
  destruct (rpc_services_reply_routed queued [] no_request (poll queued [] no_request).1.1 []
    (mkRpcRequest "c" (header "a" 9) (packet "a" 9)) [1%Z] demo_queued_wf
    ltac:(by vm_compute)) as (_ & s2 & ok & Hs & _).
  exists s2, ok. exact Hs.
Defined.

(** C22 — Polling drains the queues: every poll with anything queued shortens
    the queues, so as many polls as there are queued packets leave every queue
    empty, whatever the packets contain. *)
Theorem rpc_services_poll_drains {P : RpcPlatform} k s w r s' w' evs :
  poll_many k s w r = (s', w', evs) -> backlog s <= k ->
  backlog s' = 0 /\ poll s' w' r = (s', w', (RpcServer_NONE, r)).
Proof.
  intros Hm Hk. pose proof (poll_many_backlog _ _ _ _ _ _ _ Hm Hk) as Hb. split; [done|].
  by apply poll_idle.
Qed.

Lemma rpc_services_poll_drains_witness :
  backlog queued = 2 /\ backlog (poll_many 2 queued [] no_request).1.1 = 0.
Proof.
  split; [by vm_compute|].
  apply (rpc_services_poll_drains 2 queued [] no_request _ (poll_many 2 queued [] no_request).1.2
    (poll_many 2 queued [] no_request).2); [apply triple_eta|by vm_compute].
Defined.

(** C21 — A waiting request is served: a request (opcode REQUEST) in the queue of
    a service with a static client list (dynamicClient is false), from a listed
    client that is idle, with no earlier packet of that client before it, is
    raised as REQUEST_IN within as many polls as packets are queued in all
    services, however the other packets and services behave. Services that admit
    clients dynamically are not covered. *)
Theorem rpc_services_request_served {P : RpcPlatform} k n pk h s w r e s' w' evs :
  om_find n (rss_rpc_endpoints s) = Some e -> waiting n pk h e ->
  poll_many k s w r = (s', w', evs) -> backlog s <= k ->
  (RpcServer_REQUEST_IN, mkRpcRequest (rq_client_name h) h (pr_data pk)) ∈ evs.
Proof. apply request_served_in. Qed.

Lemma rpc_services_request_served_witness :
  (RpcServer_REQUEST_IN, mkRpcRequest "c" (header "s" 7) (packet "s" 7))
    ∈ (poll_many 2 queued [] no_request).2.
Proof.
  set (e := put_pending_request (key "s") (packet "s" 7)
    (initialize (new_rpc_server "s" true true) (config "s") 24 None).1).
  apply (rpc_services_request_served 2 "s" (mkPendingRequest (key "s") (packet "s" 7))
    (header "s" 7) queued [] no_request e (poll_many 2 queued [] no_request).1.1
    (poll_many 2 queued [] no_request).1.2); [done| |apply triple_eta|by vm_compute].
  split; [done|done| |done| | |done|].
  - intros prev. by vm_compute.
  - by apply list_elem_of_singleton.
  - exists RpcServerProps.idle. split; [|done]. apply lookup_insert_eq.
  - exists [], []. split; [done|]. intros pk' prev Hin. by apply elem_of_nil in Hin.
Defined.

(** When the initialisation succeeds: a fresh server returns true exactly
    when it has a container or an endpoint, the file is readable with its two
    members, and every entry can be initialised; then exactly the configured
    services are registered, and after a failure nothing is queued. *)
Theorem rpc_services_initialize_outcome {P : RpcPlatform} node_id impl_type container override
    node file s' ok :
  initialize_services_impl (new_rpc_services_server node_id impl_type) container override
    node file = (s', ok) ->
  (ok = true <->
     (is_Some container \/ is_Some override)
     /\ exists f meta services, file = Some f /\ rcf_pdu_meta_data_size f = Some meta
          /\ rcf_services f = Some services
          /\ Forall (fun entry => entry_ok node_id impl_type container override node meta entry
                                  = true) services
          /\ forall n, n ∈ (rss_rpc_endpoints s').*1 <->
               Some n ∈ (fun entry => sc_name (se_config entry)) <$> services)
  /\ (ok = false -> backlog s' = 0).
Proof.
  unfold initialize_services_impl.
  destruct (bool_decide_reflect (is_Some container)) as [Hc|Hc], (bool_decide_reflect (is_Some override)) as [Ho|Ho];
    cbn [negb andb]; cycle 3.
  { intros [= <- <-]. split; [|done]. split; [done|]. by intros [[?|?] _]. }
  all: destruct file as [f|];
    [|by intros [= <- <-]; split; [split; [done|]; intros (_ & ? & ? & ? & ? & _)|]].
  all: destruct (rcf_pdu_meta_data_size f) as [meta|] eqn:Hm;
    [|by intros [= <- <-]; split;
      [split; [done|]; intros (_ & ? & ? & ? & [= <-] & ? & _); congruence|]].
  all: destruct (rcf_services f) as [services|] eqn:Hs;
    [|by intros [= <- <-]; split;
      [split; [done|]; intros (_ & ? & ? & ? & [= <-] & _ & ? & _); congruence|]].
  all: intros (-> & Hf & Hk)%initialize_each_spec; split; [|exact Hf].
  all: split; [intros Ht; split; [auto|]; exists f, meta, services; split_and!; try done;
    [by apply Forall_forall; intros x Hx; eapply forallb_forall in Ht;
       [exact Ht|by apply list_elem_of_In]
    |intros n; rewrite Hk by done; rewrite elem_of_nil; tauto]|].
  all: intros (_ & f' & meta' & services' & [= <-] & Hm' & Hs' & Hall & _).
  all: rewrite Hm in Hm'; rewrite Hs in Hs'; simplify_eq; apply forallb_forall;
    intros x Hx; rewrite Forall_forall in Hall; apply Hall; by apply list_elem_of_In.
Qed.

Lemma rpc_services_initialize_outcome_witness :
  true = true <->
     (is_Some (None : option EndpointContainer) \/ is_Some (Some (mkPduEndpoint true)))
     /\ exists f meta services, file = Some f /\ rcf_pdu_meta_data_size f = Some meta
          /\ rcf_services f = Some services
          /\ Forall (fun entry => entry_ok "n" "RpcServerEndpointImpl" None
                (Some (mkPduEndpoint true)) None meta entry = true) services
          /\ forall n, n ∈ (rss_rpc_endpoints ready).*1 <->
               Some n ∈ (fun entry => sc_name (se_config entry)) <$> services.
Proof.
  apply (rpc_services_initialize_outcome "n" "RpcServerEndpointImpl" None
    (Some (mkPduEndpoint true)) None file ready true). by vm_compute.
Defined.
End RpcServicesProps.
