(* ===== verification/RpcServicesMuxServer.v ===== *)
(** * RPC services on multiplexed connections

    [RpcServicesMuxServer] of include/hakoniwa/pdu/rpc/rpc_services_mux_server.hpp
    and src/rpc_services_mux_server.cpp: every accepted connection gets its own
    endpoint and its own [RpcServicesServer], and requests carry the id of the
    connection they came from.

    [EndpointCommMultiplexer] belongs to the transport library. What the code
    asks of it is the class [CommMultiplexer]; the endpoints that
    [take_endpoints] returns are an argument of [poll]. All operations hold the
    mutex; only the disconnection flags change outside it, so [poll] takes the
    connections whose callback fires before each of its two cleanups. *)

From S2P Require Import Prelude Multiplexer OrderedMap RpcTypes RpcServerEndpoint RpcServicesServer.
From Stdlib Require Import ZArith Lia.
From stdpp Require Import base gmap strings list fin_maps.

Module RpcMux.
Import Rpc RpcServerEp RpcServices.

(** An endpoint handed over by [take_endpoints], and the configuration file as
    it is read when the connection is set up. *)
Record AcceptedEndpoint := mkAcceptedEndpoint {
  ae_id : nat;
  ae_endpoint : PduEndpoint;
  ae_file : option RpcConfigFile;
}.

(** ** State *)

Record ConnectionSlot := mkConnectionSlot {
  cs_connection_id : Z;
  cs_endpoint : option AcceptedEndpoint;
  cs_server : option RpcServicesServer;
  cs_disconnected : bool;
}.

Record RpcMuxRequest := mkRpcMuxRequest {
  mr_connection_id : Z;
  mr_request : RpcRequest;
}.

Record RpcMuxServer := mkRpcMuxServer {
  ms_node_id : string;
  ms_impl_type : string;
  ms_service_config_path : string;
  ms_endpoint_mux_config_path : string;
  ms_delta_time_usec : Z;
  ms_mux : bool;
  ms_slots : list ConnectionSlot;
  ms_next_connection_id : Z;
  ms_started : bool;
  (** Everything sent on each connection, and the endpoints that were stopped
      and closed. *)
  ms_wires : gmap Z RpcWire;
  ms_closed : list nat;
}.

Definition new_rpc_mux_server (node_id impl_type service_config_path
    endpoint_mux_config_path : string) (delta_time_usec : Z) : RpcMuxServer :=
  mkRpcMuxServer node_id impl_type service_config_path endpoint_mux_config_path
    delta_time_usec false [] 1 false ∅ [].

Definition set_mux (mux started : bool) (s : RpcMuxServer) : RpcMuxServer :=
  mkRpcMuxServer (ms_node_id s) (ms_impl_type s) (ms_service_config_path s)
    (ms_endpoint_mux_config_path s) (ms_delta_time_usec s) mux (ms_slots s)
    (ms_next_connection_id s) started (ms_wires s) (ms_closed s).

Definition set_slots (slots : list ConnectionSlot) (closed : list nat) (s : RpcMuxServer)
    : RpcMuxServer :=
  mkRpcMuxServer (ms_node_id s) (ms_impl_type s) (ms_service_config_path s)
    (ms_endpoint_mux_config_path s) (ms_delta_time_usec s) (ms_mux s) slots
    (ms_next_connection_id s) (ms_started s) (ms_wires s) closed.

Definition set_next_id (n : Z) (s : RpcMuxServer) : RpcMuxServer :=
  mkRpcMuxServer (ms_node_id s) (ms_impl_type s) (ms_service_config_path s)
    (ms_endpoint_mux_config_path s) (ms_delta_time_usec s) (ms_mux s) (ms_slots s)
    n (ms_started s) (ms_wires s) (ms_closed s).

Definition set_wires (wires : gmap Z RpcWire) (slots : list ConnectionSlot)
    (s : RpcMuxServer) : RpcMuxServer :=
  mkRpcMuxServer (ms_node_id s) (ms_impl_type s) (ms_service_config_path s)
    (ms_endpoint_mux_config_path s) (ms_delta_time_usec s) (ms_mux s) slots
    (ms_next_connection_id s) (ms_started s) wires (ms_closed s).

Definition set_server (server : option RpcServicesServer) (slot : ConnectionSlot)
    : ConnectionSlot :=
  mkConnectionSlot (cs_connection_id slot) (cs_endpoint slot) server (cs_disconnected slot).

Definition wire_of (wires : gmap Z RpcWire) (connection_id : Z) : RpcWire :=
  default [] (wires !! connection_id).

(** ** Closing *)

(** The endpoint [close_slot_] stops and closes; server and endpoint are reset
    and the slot is removed by the caller. *)
Definition close_slot (slot : ConnectionSlot) : list nat :=
  match cs_endpoint slot with Some e => [ae_id e] | None => [] end.

(** The loop over [slots_] with [erase]. *)
Fixpoint cleanup_slots (slots : list ConnectionSlot) (closed : list nat)
    : list ConnectionSlot * list nat :=
  match slots with
  | [] => ([], closed)
  | slot :: rest =>
      if negb (cs_disconnected slot) then
        let '(rest', closed') := cleanup_slots rest closed in (slot :: rest', closed')
      else cleanup_slots rest (closed ++ close_slot slot)
  end.

Definition cleanup_disconnected (s : RpcMuxServer) : RpcMuxServer :=
  let '(slots, closed) := cleanup_slots (ms_slots s) (ms_closed s) in
  set_slots slots closed s.

(** The disconnection callback of a connection; the flag is gone with its
    slot. *)
Definition on_disconnected (connection_id : Z) (s : RpcMuxServer) : RpcMuxServer :=
  set_slots
    ((fun slot => if (cs_connection_id slot =? connection_id)%Z
                  then mkConnectionSlot (cs_connection_id slot) (cs_endpoint slot)
                         (cs_server slot) true
                  else slot) <$> ms_slots s) (ms_closed s) s.

Definition disconnect_all (ids : list Z) (s : RpcMuxServer) : RpcMuxServer :=
  foldl (fun s id => on_disconnected id s) s ids.

(** ** Life cycle *)

Section Operations.
Context {P : RpcPlatform} {M : CommMultiplexer}.

Definition initialize (s : RpcMuxServer) : RpcMuxServer * bool :=
  if ms_mux s then (s, true)
  else if bool_decide (ms_node_id s = "") || bool_decide (ms_impl_type s = "")
          || bool_decide (ms_service_config_path s = "")
          || bool_decide (ms_endpoint_mux_config_path s = "")
          || (ms_delta_time_usec s =? 0)%Z
  then (s, false)
  else if negb (mux_open (ms_endpoint_mux_config_path s)) then (s, false)
  else if bool_decide (mux_expected_count = 0) then (s, false)
  else (set_mux true (ms_started s) s, true).

Definition start (s : RpcMuxServer) : RpcMuxServer * bool :=
  if ms_started s then (s, true)
  else if negb (ms_mux s) then (s, false)
  else if negb mux_start then (s, false)
  else (set_mux (ms_mux s) true s, true).

Definition stop (s : RpcMuxServer) : RpcMuxServer :=
  set_mux false false (set_slots [] (ms_closed s ++ concat (close_slot <$> ms_slots s)) s).

(** ** New connections *)

(** One endpoint of [take_endpoints]. *)
Definition accept_connection (s : RpcMuxServer) (endpoint_unique : option AcceptedEndpoint)
    : RpcMuxServer :=
  match endpoint_unique with
  | None => s
  | Some endpoint =>
      if (mux_expected_count <=? length (ms_slots s)) then
        set_slots (ms_slots s) (ms_closed s ++ [ae_id endpoint]) s
      else
        let connection_id := ms_next_connection_id s in
        let s1 := set_next_id (u64 (connection_id + 1)) s in
        let '(server, ok) :=
          initialize_services_on (new_rpc_services_server (ms_node_id s) (ms_impl_type s))
            (Some (ae_endpoint endpoint)) None (ae_file endpoint) in
        if negb ok || negb (start_all_services server) then
          set_slots (ms_slots s1) (ms_closed s1 ++ [ae_id endpoint]) s1
        else
          set_slots (ms_slots s1
                     ++ [mkConnectionSlot connection_id (Some endpoint) (Some server) false])
            (ms_closed s1) s1
  end.

Definition accept_new_connections (taken : list (option AcceptedEndpoint)) (s : RpcMuxServer)
    : RpcMuxServer :=
  foldl accept_connection s taken.

(** ** Polling *)

Definition default_request : RpcRequest :=
  mkRpcRequest "" (mkServiceRequestHeader 0 "" "" 0 0) [].

(** The loop over the slots, each polled with a fresh candidate. *)
Fixpoint poll_slots (slots : list ConnectionSlot) (wires : gmap Z RpcWire)
    : list ConnectionSlot * gmap Z RpcWire * option (RpcServerEventType * RpcMuxRequest) :=
  match slots with
  | [] => ([], wires, None)
  | slot :: rest =>
      match cs_server slot with
      | None =>
          let '(rest', wires', result) := poll_slots rest wires in
          (slot :: rest', wires', result)
      | Some server =>
          let id := cs_connection_id slot in
          let '(server', w', (event, candidate)) :=
            RpcServices.poll server (wire_of wires id) default_request in
          let slot' := set_server (Some server') slot in
          let wires1 := <[id := w']> wires in
          if negb (bool_decide (event = RpcServer_NONE)) then
            (slot' :: rest, wires1, Some (event, mkRpcMuxRequest id candidate))
          else
            let '(rest', wires', result) := poll_slots rest wires1 in
            (slot' :: rest', wires', result)
      end
  end.

(** [request] is the caller's in/out parameter; [early] and [late] are the
    connections whose disconnection callback fires before the first and before
    the last cleanup. *)
Definition poll (s : RpcMuxServer) (taken : list (option AcceptedEndpoint))
    (early late : list Z) (request : RpcMuxRequest)
    : RpcMuxServer * (RpcServerEventType * RpcMuxRequest) :=
  if negb (ms_started s) || negb (ms_mux s) then (s, (RpcServer_NONE, request))
  else
    let s1 := cleanup_disconnected (disconnect_all early (accept_new_connections taken s)) in
    let '(slots, wires, result) := poll_slots (ms_slots s1) (ms_wires s1) in
    let s2 := set_wires wires slots s1 in
    match result with
    | Some result => (disconnect_all late s2, result)
    | None => (cleanup_disconnected (disconnect_all late s2), (RpcServer_NONE, request))
    end.

(** ** Replies *)

Definition find_slot (connection_id : Z) (s : RpcMuxServer) : option (nat * ConnectionSlot) :=
  list_find (fun slot => cs_connection_id slot = connection_id) (ms_slots s).

(** A call on the server of the connection's slot; [None] when there is no such
    slot or it has no server. *)
Definition find_server (connection_id : Z) (s : RpcMuxServer)
    : option (nat * ConnectionSlot * RpcServicesServer) :=
  '(i, slot) ← find_slot connection_id s;
  server ← cs_server slot;
  Some (i, slot, server).

Definition create_reply_buffer (s : RpcMuxServer) (request : RpcMuxRequest)
    (status result_code : Z) (pdu : RpcPduData) : RpcPduData * bool :=
  match find_server (mr_connection_id request) s with
  | None => (pdu, false)
  | Some (_, _, server) =>
      let pdu' := RpcServices.create_reply_buffer server (req_header (mr_request request))
                    status result_code pdu in
      (pdu', negb (bool_decide (pdu' = [])))
  end.

Definition send_reply (s : RpcMuxServer) (request : RpcMuxRequest) (pdu : RpcPduData)
    : RpcMuxServer * bool :=
  let id := mr_connection_id request in
  match find_server id s with
  | None => (s, false)
  | Some (i, slot, server) =>
      let '(server', w') := RpcServices.send_reply server (wire_of (ms_wires s) id)
                              (req_header (mr_request request)) pdu in
      (set_wires (<[id := w']> (ms_wires s))
         (<[i := set_server (Some server') slot]> (ms_slots s)) s, true)
  end.

Definition send_cancel_reply (s : RpcMuxServer) (request : RpcMuxRequest) (pdu : RpcPduData)
    : RpcMuxServer * bool :=
  let id := mr_connection_id request in
  match find_server id s with
  | None => (s, false)
  | Some (i, slot, server) =>
      let '(server', w') := RpcServices.send_cancel_reply server (wire_of (ms_wires s) id)
                              (req_header (mr_request request)) pdu in
      (set_wires (<[id := w']> (ms_wires s))
         (<[i := set_server (Some server') slot]> (ms_slots s)) s, true)
  end.

(** A packet the transport delivers on a connection. *)
Definition receive (s : RpcMuxServer) (connection_id : Z) (service_name : string)
    (key : PduKey) (data : RpcPduData) : RpcMuxServer :=
  match find_server connection_id s with
  | None => s
  | Some (i, slot, server) =>
      set_wires (ms_wires s)
        (<[i := set_server (Some (RpcServices.receive server service_name key data)) slot]>
           (ms_slots s)) s
  end.

(** ** Counts *)

Definition connected_count (s : RpcMuxServer) : nat := length (ms_slots s).

Definition expected_count (s : RpcMuxServer) : nat :=
  if ms_mux s then mux_expected_count else 0.

(** [mux_ready] is what [mux_->is_ready()] returns. *)
Definition is_ready (s : RpcMuxServer) (mux_ready : bool) : bool :=
  ms_started s && ms_mux s && mux_ready.
End Operations.
End RpcMux.
