(* ===== verification/RpcMuxFacts.v ===== *)
(** * Facts about the RPC mux server

    Connections as a map from ids to servers, the invariant, and the balance of
    requests and replies per connection. *)

From S2P Require Import Prelude Multiplexer KeyedList OrderedMap RpcTypes RpcServerEndpoint.
From S2P Require Import RpcServerProps RpcServerFacts RpcServicesServer.
From S2P Require Import RpcServicesServerFacts RpcServicesServerProps RpcServicesMuxServer.
From Stdlib Require Import ZArith Lia.
From stdpp Require Import base gmap strings list fin_maps sorting.

Module RpcMuxFacts.
Import Rpc RpcServices RpcServicesFacts RpcMux.

(** ** Connections *)

Definition ids (slots : list ConnectionSlot) : list Z := cs_connection_id <$> slots.

Definition conn (slots : list ConnectionSlot) (id : Z) : option (option RpcServicesServer) :=
  keyed cs_connection_id cs_server slots id.

Definition slot_wf (slot : ConnectionSlot) : Prop :=
  is_Some (cs_endpoint slot)
  /\ exists server, cs_server slot = Some server /\ services_wf server.

Lemma conn_wf slots id server :
  Forall slot_wf slots -> conn slots id = Some server ->
  exists srv, server = Some srv /\ services_wf srv.
Proof.
  intros Hf Hc. unfold conn, keyed in Hc. destruct (list_find _ slots) as [[i slot]|] eqn:Hl;
    [|done]. cbn in Hc. injection Hc as <-. apply list_find_Some in Hl as (Hi & _ & _).
  apply list_elem_of_lookup_2 in Hi. rewrite Forall_forall in Hf.
  by destruct (Hf _ Hi) as [_ (srv & -> & ?)]; eauto.
Qed.

Lemma cleanup_slots_spec slots closed :
  cleanup_slots slots closed
  = (filter (fun slot => cs_disconnected slot = false) slots,
     closed ++ concat (close_slot <$> filter (fun slot => cs_disconnected slot = true) slots)).
Proof.
  revert closed. induction slots as [|slot slots IH]; intros closed;
    [cbn; by rewrite app_nil_r|].
  rewrite !filter_cons. cbn [cleanup_slots]. destruct (cs_disconnected slot); cbn [negb];
    rewrite IH; repeat case_decide; try done. cbn. by rewrite (assoc_L (++)).
Qed.

(** ** The invariant *)

Record mux_wf (capacity : nat) (s : RpcMuxServer) : Prop := mkMuxWf {
  mw_distinct : NoDup (ids (ms_slots s));
  mw_issued : Forall (fun id => (1 <= id < ms_next_connection_id s)%Z) (ids (ms_slots s));
  mw_next : (1 <= ms_next_connection_id s)%Z;
  mw_slots : Forall slot_wf (ms_slots s);
  mw_capacity : length (ms_slots s) <= capacity;
  mw_unused : forall id, (ms_next_connection_id s <= id)%Z -> ms_wires s !! id = None;
}.

Lemma new_mux_wf cap node impl cfg mux delta :
  mux_wf cap (new_rpc_mux_server node impl cfg mux delta).
Proof. by split; try constructor; cbn; try lia; intros; rewrite lookup_empty. Qed.

(** A server with other slots: a selection of the old ones. *)
Lemma mux_wf_filter cap s (Q : ConnectionSlot -> Prop) `{forall x, Decision (Q x)} closed :
  mux_wf cap s -> mux_wf cap (set_slots (filter Q (ms_slots s)) closed s).
Proof.
  intros [Hd Hi Hn Hs Hc Hu].
  pose proof (sublist_filter Q (ms_slots s)) as Hsub.
  split; cbn; try done.
  - eapply sublist_NoDup; [exact Hd|]. by apply fmap_sublist.
  - apply Forall_fmap, Forall_filter_keep. by apply Forall_fmap in Hi.
  - by apply Forall_filter_keep.
  - apply sublist_length in Hsub. lia.
Qed.

Lemma on_disconnected_slots id s :
  ids (ms_slots (on_disconnected id s)) = ids (ms_slots s)
  /\ forall k, conn (ms_slots (on_disconnected id s)) k = conn (ms_slots s) k.
Proof.
  split.
  - unfold ids, on_disconnected. cbn. rewrite <-list_fmap_compose. apply list_fmap_ext.
    intros i slot _. cbn. by case_match.
  - intros k. unfold conn, on_disconnected. cbn. apply keyed_fmap; intros slot; by case_match.
Qed.

Lemma on_disconnected_wf cap id s : mux_wf cap s -> mux_wf cap (on_disconnected id s).
Proof.
  intros [Hd Hi Hn Hs Hc Hu]. pose proof (on_disconnected_slots id s) as [Hids _].
  split; rewrite ?Hids; try done.
  - apply Forall_fmap. eapply Forall_impl; [exact Hs|]. intros slot Hslot. cbn.
    by case_match.
  - cbn. by rewrite length_fmap.
Qed.

Section Facts.
Context {P : RpcPlatform} {M : CommMultiplexer}.

(** ** Balance *)

Definition busy_conn (slots : list ConnectionSlot) (id : Z) (n c : string) : nat :=
  match conn slots id with
  | Some (Some server) => busy_at (rss_rpc_endpoints server) n c
  | _ => 0
  end.

(** Replies sent on a connection plus the request in progress. *)
Definition settled (s : RpcMuxServer) (id : Z) (n c : string) : nat :=
  RpcServerProps.replies n c (wire_of (ms_wires s) id) + busy_conn (ms_slots s) id n c.

Abbreviation mux_event := (RpcServerEventType * RpcMuxRequest)%type.

Definition admitted_conn (id : Z) (n c : string) (ev : mux_event) : nat :=
  if bool_decide (mr_connection_id ev.2 = id)
  then admitted_at n c (ev.1, mr_request ev.2) else 0.

Definition admissions_conn (id : Z) (n c : string) (evs : list mux_event) : nat :=
  sum_list_with (admitted_conn id n c) evs.

(** [evs] are the events raised so far: live connections have answered all but
    the requests in progress, closed ones have sent no reply too many, and ids
    that were not given out have no event. *)
Record mux_balanced (s : RpcMuxServer) (evs : list mux_event) : Prop := mkMuxBalanced {
  mb_live : forall id n c, id ∈ ids (ms_slots s) -> settled s id n c = admissions_conn id n c evs;
  mb_all : forall id n c,
    RpcServerProps.replies n c (wire_of (ms_wires s) id) <= admissions_conn id n c evs;
  mb_unused : forall id n c, (ms_next_connection_id s <= id)%Z -> admissions_conn id n c evs = 0;
}.

Lemma busy_conn_gone slots id n c : id ∉ ids slots -> busy_conn slots id n c = 0.
Proof. intros Hid. unfold busy_conn, conn. by rewrite keyed_not_elem. Qed.

(** Slots may disappear, and flags may change. *)
Lemma mux_balanced_shrink s s' evs :
  ms_wires s' = ms_wires s -> ms_next_connection_id s' = ms_next_connection_id s ->
  (forall id, id ∈ ids (ms_slots s') ->
     id ∈ ids (ms_slots s) /\ conn (ms_slots s') id = conn (ms_slots s) id) ->
  mux_balanced s evs -> mux_balanced s' evs.
Proof.
  intros Hw Hn Hs [Hl Ha Hu]. split.
  - intros id n c [Hin Hc]%Hs. rewrite <-(Hl id n c Hin). unfold settled, busy_conn.
    by rewrite Hw, Hc.
  - intros id n c. by rewrite Hw.
  - intros id n c. rewrite Hn. apply Hu.
Qed.

Lemma filter_conn (Q : ConnectionSlot -> Prop) `{forall x, Decision (Q x)} slots id :
  NoDup (ids slots) -> id ∈ ids (filter Q slots) ->
  id ∈ ids slots /\ conn (filter Q slots) id = conn slots id.
Proof.
  intros Hd Hin. split.
  - unfold ids in *. apply list_elem_of_fmap in Hin as (x & -> & Hx).
    apply list_elem_of_filter in Hx as [_ Hx]. by apply list_elem_of_fmap_2.
  - destruct (keyed_filter cs_connection_id cs_server Q slots id Hd) as [Heq|Hn]; [exact Heq|].
    apply (keyed_elem cs_connection_id cs_server) in Hin as [v Hv]. congruence.
Qed.

(** ** Small steps: cleanup, callbacks *)

Definition good (s : RpcMuxServer) (evs : list mux_event) : Prop :=
  mux_wf mux_expected_count s /\ mux_balanced s evs.

Lemma cleanup_good s evs : good s evs -> good (cleanup_disconnected s) evs.
Proof.
  intros [Hwf Hb]. unfold cleanup_disconnected. rewrite cleanup_slots_spec. split.
  - by apply mux_wf_filter.
  - apply (mux_balanced_shrink s); [done|done| |exact Hb]. intros id Hin. cbn in *.
    apply filter_conn; [apply Hwf|done].
Qed.

Lemma on_disconnected_good id s evs : good s evs -> good (on_disconnected id s) evs.
Proof.
  intros [Hwf Hb]. split; [by apply on_disconnected_wf|].
  destruct (on_disconnected_slots id s) as [Hids Hc].
  apply (mux_balanced_shrink s); [done|done| |exact Hb]. intros k. rewrite Hids. auto.
Qed.

Lemma disconnect_all_good l s evs : good s evs -> good (disconnect_all l s) evs.
Proof.
  unfold disconnect_all. revert s. induction l as [|id l IH]; intros s Hg; cbn; [done|].
  by apply IH, on_disconnected_good.
Qed.

Lemma stop_good s evs : good s evs -> good (stop s) evs.
Proof.
  intros [[Hd Hi Hn Hs Hc Hu] Hb]. split.
  - split; cbn; try done; try apply NoDup_nil_2; try apply Forall_nil_2; lia.
  - apply (mux_balanced_shrink s); [done|done| |exact Hb]. intros id Hin.
    by apply elem_of_nil in Hin.
Qed.

Lemma set_mux_good s m st evs : good s evs -> good (set_mux m st s) evs.
Proof. intros [[] []]. by split; split. Qed.

(** ** New connections *)

Lemma skip_id_good s evs :
  good s evs -> (ms_next_connection_id s + 1 < UINT64_MODULUS)%Z ->
  good (set_next_id (u64 (ms_next_connection_id s + 1)) s) evs.
Proof.
  intros [[Hd Hi Hn Hs Hc Hu] [Hl Ha Hz]] Hr.
  rewrite u64_small by (unfold in_u64; lia). split; split; cbn; try done; try lia.
  - eapply Forall_impl; [exact Hi|]. intros id ?. cbn in *. lia.
  - intros id Hid. apply Hu. lia.
  - intros id n c Hid. apply Hz. lia.
Qed.

Lemma ids_app slots slot : ids (slots ++ [slot]) = ids slots ++ [cs_connection_id slot].
Proof. unfold ids. by rewrite fmap_app. Qed.

(** A slot with an id that was not given out. *)
Lemma add_slot_good s evs e server :
  good s evs -> (ms_next_connection_id s + 1 < UINT64_MODULUS)%Z ->
  length (ms_slots s) < mux_expected_count -> services_wf server ->
  (forall n c, busy_at (rss_rpc_endpoints server) n c = 0) ->
  let s1 := set_next_id (u64 (ms_next_connection_id s + 1)) s in
  good (set_slots (ms_slots s1 ++ [mkConnectionSlot (ms_next_connection_id s) (Some e)
                                    (Some server) false]) (ms_closed s1) s1) evs.
Proof.
  intros [[Hd Hi Hn Hs Hc Hu] [Hl Ha Hz]] Hr Hlen Hsw Hidle s1.
  assert (Hfresh : ms_next_connection_id s ∉ ids (ms_slots s)).
  { intros Hin. rewrite Forall_forall in Hi. apply Hi in Hin. lia. }
  subst s1. rewrite u64_small by (unfold in_u64; lia).
  split; split; cbn [ms_slots set_slots set_next_id ms_next_connection_id ms_wires]; try lia.
  - rewrite ids_app. apply NoDup_app. split_and!; [done| |apply NoDup_singleton].
    intros id Hin ->%list_elem_of_singleton. by destruct Hfresh.
  - rewrite ids_app. apply Forall_app. split; [|constructor; [cbn; lia|constructor]].
    eapply Forall_impl; [exact Hi|]. intros id ?. cbn in *. lia.
  - apply Forall_app. split; [done|]. constructor; [|constructor]. split; [done|].
    exists server. done.
  - rewrite length_app. cbn. lia.
  - intros id Hid. apply Hu. lia.
  - intros id n c. rewrite ids_app, elem_of_app, list_elem_of_singleton. unfold settled, busy_conn, conn.
    cbn [ms_wires ms_slots set_slots set_next_id]. rewrite keyed_app by (by apply keyed_not_elem).
    intros [Hin| ->]; [rewrite decide_False by (cbn; intros <-; by destruct Hfresh); by apply Hl|].
    cbn [cs_connection_id]. rewrite decide_True by done. cbn [cs_server]. rewrite Hidle.
    rewrite Hz by lia. unfold wire_of. rewrite Hu by lia. done.
  - done.
  - intros id n c Hid. apply Hz. lia.
Qed.

Lemma set_closed_good s evs closed : good s evs -> good (set_slots (ms_slots s) closed s) evs.
Proof. intros [[] []]. by split; split. Qed.

Lemma accept_connection_good s evs o :
  good s evs -> (ms_next_connection_id s + 1 < UINT64_MODULUS)%Z ->
  good (accept_connection s o) evs
  /\ (ms_next_connection_id s <= ms_next_connection_id (accept_connection s o)
      <= ms_next_connection_id s + 1)%Z.
Proof.
  intros Hg Hr. assert (H1 : (1 <= ms_next_connection_id s)%Z) by apply Hg.
  unfold accept_connection. destruct o as [e|]; [|split; [done|lia]].
  destruct (Nat.leb_spec mux_expected_count (length (ms_slots s))) as [Hl|Hl];
    [split; [by apply set_closed_good|cbn; lia]|].
  destruct (initialize_services_on _ _ _ _) as [server ok] eqn:Hi.
  cbn [start_all_services negb]. rewrite orb_false_r.
  split; [|destruct ok; cbn; rewrite u64_small by (unfold in_u64; lia); lia].
  destruct ok; cbn [negb].
  - apply initialize_services_on_ready in Hi as (Hwf & Hb & _). by apply add_slot_good.
  - apply set_closed_good. by apply skip_id_good.
Qed.

Lemma accept_new_connections_good taken s evs :
  good s evs -> (ms_next_connection_id s + Z.of_nat (length taken) < UINT64_MODULUS)%Z ->
  good (accept_new_connections taken s) evs
  /\ (ms_next_connection_id s <= ms_next_connection_id (accept_new_connections taken s)
      <= ms_next_connection_id s + Z.of_nat (length taken))%Z.
Proof.
  unfold accept_new_connections. revert s.
  induction taken as [|o taken IH]; intros s Hg Hr; cbn in *; [split; [done|lia]|].
  destruct (accept_connection_good s evs o Hg) as [Hg1 Hn]; [lia|].
  destruct (IH _ Hg1) as [Hg2 Hn2]; [lia|]. split; [done|lia].
Qed.

(** ** One server's operation in its slot *)

Lemma wire_of_insert wires id w k :
  wire_of (<[id := w]> wires) k = if decide (id = k) then w else wire_of wires k.
Proof. unfold wire_of. rewrite lookup_insert. by case_decide. Qed.

Lemma busy_conn_cons slot slots id n c :
  busy_conn (slot :: slots) id n c
  = if decide (cs_connection_id slot = id)
    then match cs_server slot with
         | Some server => busy_at (rss_rpc_endpoints server) n c
         | None => 0
         end
    else busy_conn slots id n c.
Proof. unfold busy_conn, conn. rewrite keyed_cons. by case_decide. Qed.

Definition admitted_result (id : Z) (n c : string) (result : option mux_event) : nat :=
  match result with Some ev => admitted_conn id n c ev | None => 0 end.

Lemma poll_slots_balanced slots wires slots' wires' result :
  poll_slots slots wires = (slots', wires', result) ->
  NoDup (ids slots) -> Forall slot_wf slots ->
  ids slots' = ids slots /\ Forall slot_wf slots'
  /\ (forall id, id ∉ ids slots -> wires' !! id = wires !! id)
  /\ (forall ev, result = Some ev -> mr_connection_id ev.2 ∈ ids slots)
  /\ forall id n c,
       RpcServerProps.replies n c (wire_of wires' id) + busy_conn slots' id n c
       = RpcServerProps.replies n c (wire_of wires id) + busy_conn slots id n c
         + admitted_result id n c result.
Proof.
  revert wires slots' wires' result.
  induction slots as [|slot slots IH]; intros wires slots' wires' result; cbn.
  { intros [= <- <- <-] _ _. split_and!; done || (intros; cbn; lia). }
  intros Hp [Hnin Hd]%NoDup_cons [[He (srv & Hsrv & Hsw)] Hf]%Forall_cons.
  rewrite Hsrv in Hp. set (id0 := cs_connection_id slot) in *.
  destruct (RpcServices.poll srv (wire_of wires id0) default_request) as [[srv' w'] [ev cand]]
    eqn:Hpoll.
  assert (Hop : RpcServicesProps.run_op srv (wire_of wires id0)
                  (RpcServicesProps.SvcPoll default_request) = (srv', w', [(ev, cand)]))
    by (cbn; by rewrite Hpoll).
  apply RpcServicesProps.run_op_ok in Hop as (Hsw' & x & -> & _ & Hb); [|done].
  assert (Hslot : slot_wf (set_server (Some srv') slot)) by (split; [done|by exists srv']).
  assert (Hb0 : forall n c, RpcServerProps.replies n c (wire_of wires id0 ++ x)
      + busy_at (rss_rpc_endpoints srv') n c
      = RpcServerProps.replies n c (wire_of wires id0) + busy_at (rss_rpc_endpoints srv) n c
        + admitted_at n c (ev, cand)).
  { intros n c. specialize (Hb n c). rewrite RpcServerProps.replies_app.
    unfold RpcServicesProps.admissions_at in Hb. cbn in Hb. lia. }
  destruct (bool_decide_reflect (ev = RpcServer_NONE)) as [->|Hev]; cbn [negb] in Hp.
  - destruct (poll_slots slots (<[id0 := wire_of wires id0 ++ x]> wires)) as [[sl2 w2] res2] eqn:Hs.
    injection Hp as <- <- <-. destruct (IH _ _ _ _ Hs Hd Hf) as (Hids & Hf2 & Hw2 & Hr2 & Hb2).
    split_and!; [cbn; by f_equal|by constructor| | |].
    + intros id [Hid Hid']%not_elem_of_cons. rewrite Hw2 by done. by rewrite lookup_insert_ne.
    + intros e Hres. right. by apply Hr2.
    + intros id n c. specialize (Hb2 id n c). rewrite !busy_conn_cons, Hsrv.
      cbn [cs_connection_id cs_server set_server]. fold id0. rewrite wire_of_insert in Hb2.
      case_decide as Hid; [|exact Hb2]. subst id. specialize (Hb0 n c).
      rewrite admitted_at_none in Hb0.
      rewrite (busy_conn_gone slots) in Hb2 by done.
      rewrite (busy_conn_gone sl2) in Hb2 by by rewrite Hids. lia.
  - injection Hp as <- <- <-. split_and!; [done|by constructor| | |].
    + intros id [Hid Hid']%not_elem_of_cons. by rewrite lookup_insert_ne.
    + intros e [= <-]. left.
    + intros id n c. rewrite !busy_conn_cons, Hsrv, wire_of_insert.
      cbn [cs_connection_id cs_server set_server]. fold id0. cbn [admitted_result].
      unfold admitted_conn. cbn. fold id0. case_decide as Hid.
      * rewrite bool_decide_eq_true_2 by done. subst id. apply Hb0.
      * rewrite bool_decide_eq_false_2 by done. lia.
Qed.

Lemma poll_slots_good s evs slots wires result :
  good s evs -> poll_slots (ms_slots s) (ms_wires s) = (slots, wires, result) ->
  good (set_wires wires slots s) (evs ++ option_list result).
Proof.
  intros [[Hd Hi Hn Hs Hc Hu] [Hl Ha Hz]] Hp.
  destruct (poll_slots_balanced _ _ _ _ _ Hp Hd Hs) as (Hids & Hs' & Hw & Hr & Hb).
  assert (Hadm : forall id n c, admissions_conn id n c (evs ++ option_list result)
    = admissions_conn id n c evs + admitted_result id n c result).
  { intros id n c. unfold admissions_conn. rewrite sum_list_with_app.
    destruct result; cbn; lia. }
  assert (Hlive : forall id n c, id ∈ ids (ms_slots s) ->
    RpcServerProps.replies n c (wire_of wires id) + busy_conn slots id n c
    = admissions_conn id n c (evs ++ option_list result)).
  { intros id n c Hin. rewrite Hadm, <-(Hl id n c Hin). apply Hb. }
  assert (Hunissued : forall id, (ms_next_connection_id s <= id)%Z -> id ∉ ids (ms_slots s)).
  { intros id Hid Hin. rewrite Forall_forall in Hi. apply Hi in Hin. lia. }
  split; split; cbn [ms_slots ms_wires set_wires ms_next_connection_id]; rewrite ?Hids; try done.
  - unfold ids in Hids. apply (f_equal length) in Hids. rewrite !length_fmap in Hids. lia.
  - intros id Hid. rewrite Hw; [by apply Hu|by apply Hunissued].
  - intros id n c. destruct (decide (id ∈ ids (ms_slots s))) as [Hin|Hin];
      [specialize (Hlive id n c Hin); lia|].
    rewrite Hadm. unfold wire_of. rewrite Hw by done. specialize (Ha id n c).
    unfold wire_of in Ha. lia.
  - intros id n c Hid. rewrite Hadm, Hz by done. destruct result as [ev|]; [|done].
    cbn. unfold admitted_conn. rewrite bool_decide_eq_false_2; [done|].
    intros <-. eapply Hunissued; [exact Hid|]. by apply Hr.
Qed.

(** ** One call on the server of a slot *)

Lemma find_server_Some id s i slot server :
  find_server id s = Some (i, slot, server) ->
  list_find (fun slot => cs_connection_id slot = id) (ms_slots s) = Some (i, slot)
  /\ cs_connection_id slot = id /\ cs_server slot = Some server
  /\ conn (ms_slots s) id = Some (Some server).
Proof.
  unfold find_server, find_slot. intros Hf.
  destruct (list_find _ _) as [[i' slot']|] eqn:Hl; [|done]. cbn in Hf.
  destruct (cs_server slot') as [srv|] eqn:Hsrv; [|done]. injection Hf as <- <- <-.
  destruct (keyed_found cs_connection_id cs_server _ _ _ _ Hl) as (Hk & Hid & _).
  split_and!; try done. unfold conn. by rewrite Hk, Hsrv.
Qed.

Lemma update_slot_good s evs id i slot server server' wires w' :
  good s evs -> find_server id s = Some (i, slot, server) -> services_wf server' ->
  (forall k, wire_of wires k = if decide (id = k) then w' else wire_of (ms_wires s) k) ->
  (forall k, (ms_next_connection_id s <= k)%Z -> wires !! k = None) ->
  (forall n c, RpcServerProps.replies n c w' + busy_at (rss_rpc_endpoints server') n c
     = RpcServerProps.replies n c (wire_of (ms_wires s) id)
       + busy_at (rss_rpc_endpoints server) n c) ->
  good (set_wires wires (<[i := set_server (Some server') slot]> (ms_slots s)) s) evs.
Proof.
  intros [[Hd Hi Hn Hs Hc Hu] [Hl Ha Hz]] (Hf & Hid & Hsrv & Hconn)%find_server_Some
    Hsw Hw Hw0 Hb.
  set (slot' := set_server (Some server') slot).
  assert (Hids : ids (<[i := slot']> (ms_slots s)) = ids (ms_slots s))
    by (by eapply keys_insert).
  assert (Hcn : forall k, conn (<[i := slot']> (ms_slots s)) k
    = if decide (id = k) then Some (Some server') else conn (ms_slots s) k).
  { intros k. unfold conn. by rewrite (keyed_insert _ _ _ id i slot). }
  assert (Hin : id ∈ ids (ms_slots s)).
  { subst id. apply list_elem_of_fmap_2. apply list_find_Some in Hf as (Hf & _ & _).
    by eapply list_elem_of_lookup_2. }
  assert (Hset : forall k n c, k ∈ ids (ms_slots s) ->
    RpcServerProps.replies n c (wire_of wires k) + busy_conn (<[i := slot']> (ms_slots s)) k n c
    = admissions_conn k n c evs).
  { intros k n c Hk. rewrite <-(Hl k n c Hk). unfold settled, busy_conn. rewrite Hw, Hcn.
    case_decide; [|done]. subst k. rewrite Hconn. apply Hb. }
  split; split; cbn [ms_slots ms_wires set_wires ms_next_connection_id]; rewrite ?Hids; try done.
  - apply Forall_insert; [done|]. apply list_find_Some in Hf as (Hf & _ & _).
    apply list_elem_of_lookup_2 in Hf. rewrite Forall_forall in Hs.
    destruct (Hs _ Hf) as [He _]. split; [done|by exists server'].
  - by rewrite length_insert.
  - intros k n c. destruct (decide (id = k)) as [<-|Hne];
      [specialize (Hset id n c Hin); lia|].
    rewrite Hw, decide_False by done. apply Ha.
Qed.

(** A services operation that raises no event. *)
Lemma slot_op_good s evs id i slot server op server' w' :
  good s evs -> find_server id s = Some (i, slot, server) ->
  RpcServicesProps.run_op server (wire_of (ms_wires s) id) op = (server', w', []) ->
  good (set_wires (<[id := w']> (ms_wires s))
          (<[i := set_server (Some server') slot]> (ms_slots s)) s) evs.
Proof.
  intros Hg Hf Hop. pose proof (find_server_Some _ _ _ _ _ Hf) as (_ & _ & _ & Hc).
  assert (Hsw : services_wf server).
  { destruct Hg as [Hwf _]. eapply conn_wf in Hc as (srv & [= <-] & ?); [done|apply Hwf]. }
  assert (Hin : id ∈ ids (ms_slots s)).
  { unfold conn in Hc. destruct (decide (id ∈ ids (ms_slots s))) as [|Hn]; [done|].
    apply (keyed_not_elem cs_connection_id cs_server) in Hn. congruence. }
  apply RpcServicesProps.run_op_ok in Hop as (Hsw' & x & -> & _ & Hb); [|done].
  eapply update_slot_good; [done|exact Hf|done|intros k; apply wire_of_insert| |].
  - intros k Hk. destruct Hg as [Hwf _]. rewrite lookup_insert_ne; [by apply Hwf|].
    intros <-. pose proof (mw_issued _ _ Hwf) as Hi. rewrite Forall_forall in Hi.
    apply Hi in Hin. lia.
  - intros n c. specialize (Hb n c). rewrite RpcServerProps.replies_app.
    unfold RpcServicesProps.admissions_at in Hb. cbn in Hb. lia.
Qed.

Lemma send_reply_good s evs request pdu s' ok :
  good s evs -> send_reply s request pdu = (s', ok) -> good s' evs.
Proof.
  intros Hg. unfold send_reply.
  destruct (find_server _ s) as [[[i slot] server]|] eqn:Hf; [|by intros [= <- _]].
  destruct (RpcServices.send_reply _ _ _ _) as [server' w'] eqn:Hs. intros [= <- _].
  eapply (slot_op_good _ _ _ _ _ _ (RpcServicesProps.SvcReply _ pdu)); [done|exact Hf|].
  cbn. by rewrite Hs.
Qed.

Lemma send_cancel_reply_good s evs request pdu s' ok :
  good s evs -> send_cancel_reply s request pdu = (s', ok) -> good s' evs.
Proof.
  intros Hg. unfold send_cancel_reply.
  destruct (find_server _ s) as [[[i slot] server]|] eqn:Hf; [|by intros [= <- _]].
  destruct (RpcServices.send_cancel_reply _ _ _ _) as [server' w'] eqn:Hs. intros [= <- _].
  eapply (slot_op_good _ _ _ _ _ _ (RpcServicesProps.SvcCancelReply _ pdu)); [done|exact Hf|].
  cbn. by rewrite Hs.
Qed.

Lemma receive_good s evs id n key data : good s evs -> good (receive s id n key data) evs.
Proof.
  intros Hg. unfold receive. destruct (find_server id s) as [[[i slot] server]|] eqn:Hf; [|done].
  pose proof (find_server_Some _ _ _ _ _ Hf) as (_ & _ & _ & Hc). pose proof Hg as [Hwf _].
  eapply conn_wf in Hc as (srv & [= <-] & Hsw); [|apply Hwf].
  destruct (RpcServicesProps.run_op_ok server [] (RpcServicesProps.SvcReceive n key data)
    _ _ _ eq_refl Hsw) as (Hsw' & x & Hx & _ & Hb).
  eapply update_slot_good; [done|exact Hf|exact Hsw'| |apply Hwf|].
  - intros k. instantiate (1 := wire_of (ms_wires s) id). case_decide; [by subst|done].
  - intros n' c. cbn in Hx. subst x. specialize (Hb n' c). cbn in Hb. lia.
Qed.
End Facts.
End RpcMuxFacts.
