(* ===== verification/RpcMuxProps.v ===== *)
(** * What the RPC mux server guarantees *)

From S2P Require Import Prelude Multiplexer KeyedList OrderedMap RpcTypes RpcServerEndpoint.
From S2P Require Import RpcServerProps RpcServerFacts RpcServicesServer.
From S2P Require Import RpcServicesServerFacts RpcServicesServerProps RpcServicesMuxServer.
From S2P Require Import RpcMuxFacts.
From Stdlib Require Import ZArith Lia.
From stdpp Require Import base gmap strings list fin_maps sorting.

Module RpcMuxProps.
Import Rpc RpcServerEp RpcServices RpcServicesFacts RpcMux RpcMuxFacts.

(** ** Runs *)

Inductive mux_op :=
  | MuxInitialize
  | MuxStart
  | MuxStop
  | MuxPoll (taken : list (option AcceptedEndpoint)) (early late : list Z)
      (request : RpcMuxRequest)
  | MuxReply (request : RpcMuxRequest) (pdu : RpcPduData)
  | MuxCancelReply (request : RpcMuxRequest) (pdu : RpcPduData)
  | MuxReceive (connection_id : Z) (service_name : string) (key : PduKey) (data : RpcPduData)
  | MuxDisconnect (connection_id : Z).

#[local] Arguments initialize_services_on : simpl never.

Section Facts.
Context {P : RpcPlatform} {M : CommMultiplexer}.

Definition raised (ev : RpcServerEventType * RpcMuxRequest)
    : list (RpcServerEventType * RpcMuxRequest) :=
  if bool_decide (ev.1 = RpcServer_NONE) then [] else [ev].

Definition run_op (s : RpcMuxServer) (op : mux_op)
    : RpcMuxServer * list (RpcServerEventType * RpcMuxRequest) :=
  match op with
  | MuxInitialize => ((initialize s).1, [])
  | MuxStart => ((start s).1, [])
  | MuxStop => (stop s, [])
  | MuxPoll taken early late request =>
      let '(s', ev) := poll s taken early late request in (s', raised ev)
  | MuxReply request pdu => ((send_reply s request pdu).1, [])
  | MuxCancelReply request pdu => ((send_cancel_reply s request pdu).1, [])
  | MuxReceive id n key data => (receive s id n key data, [])
  | MuxDisconnect id => (on_disconnected id s, [])
  end.

Fixpoint run_ops (s : RpcMuxServer) (ops : list mux_op)
    : RpcMuxServer * list (RpcServerEventType * RpcMuxRequest) :=
  match ops with
  | [] => (s, [])
  | op :: rest =>
      let '(s1, evs1) := run_op s op in
      let '(s2, evs2) := run_ops s1 rest in
      (s2, evs1 ++ evs2)
  end.

(** The endpoints that polls take from the multiplexer. *)
Definition taken_by (op : mux_op) : list (option AcceptedEndpoint) :=
  match op with MuxPoll taken _ _ _ => taken | _ => [] end.

Definition all_taken (ops : list mux_op) : list (option AcceptedEndpoint) :=
  concat (taken_by <$> ops).

(** ** One poll *)

Lemma poll_slots_raised slots wires slots' wires' ev :
  poll_slots slots wires = (slots', wires', Some ev) -> ev.1 <> RpcServer_NONE.
Proof.
  revert wires slots' wires'. induction slots as [|slot slots IH]; intros wires slots' wires';
    cbn; [done|].
  destruct (cs_server slot) as [srv|].
  - destruct (RpcServices.poll srv _ _) as [[srv' w'] [e cand]].
    destruct (bool_decide_reflect (e = RpcServer_NONE)) as [->|He]; cbn [negb].
    + destruct (poll_slots slots _) as [[sl w] res] eqn:Hs. intros [= <- <- ->]. by eapply IH.
    + by intros [= <- <- <-].
  - destruct (poll_slots slots wires) as [[sl w] res] eqn:Hs. intros [= <- <- ->]. by eapply IH.
Qed.

Lemma disconnect_all_next l s :
  ms_next_connection_id (disconnect_all l s) = ms_next_connection_id s.
Proof.
  unfold disconnect_all. revert s. induction l as [|id l IH]; intros s; cbn; [done|].
  by rewrite IH.
Qed.

Lemma cleanup_next s :
  ms_next_connection_id (cleanup_disconnected s) = ms_next_connection_id s.
Proof. unfold cleanup_disconnected. by destruct (cleanup_slots _ _). Qed.

Lemma poll_good s evs taken early late request s' ev :
  good s evs -> (ms_next_connection_id s + Z.of_nat (length taken) < UINT64_MODULUS)%Z ->
  poll s taken early late request = (s', ev) ->
  good s' (evs ++ raised ev)
  /\ (ms_next_connection_id s <= ms_next_connection_id s'
      <= ms_next_connection_id s + Z.of_nat (length taken))%Z.
Proof.
  intros Hg Hr. unfold poll. destruct (negb (ms_started s) || negb (ms_mux s)).
  { intros [= <- <-]. unfold raised. cbn. rewrite app_nil_r. split; [done|lia]. }
  destruct (accept_new_connections_good taken s evs Hg Hr) as [Hg1 Hn].
  apply (disconnect_all_good early), cleanup_good in Hg1.
  destruct (poll_slots _ _) as [[slots wires] result] eqn:Hp.
  pose proof (poll_slots_good _ _ _ _ _ Hg1 Hp) as Hg2.
  destruct result as [ev1|]; cbn [option_list] in Hg2.
  - intros [= <- <-]. apply poll_slots_raised in Hp. unfold raised.
    rewrite bool_decide_eq_false_2 by done. split; [by apply disconnect_all_good|].
    rewrite disconnect_all_next. cbn. by rewrite cleanup_next, disconnect_all_next.
  - rewrite app_nil_r in Hg2. intros [= <- <-]. unfold raised. cbn. rewrite app_nil_r.
    split; [by apply cleanup_good, disconnect_all_good|].
    rewrite cleanup_next, disconnect_all_next. cbn. by rewrite cleanup_next, disconnect_all_next.
Qed.

Lemma run_op_good s evs op s' evs' :
  good s evs ->
  (ms_next_connection_id s + Z.of_nat (length (taken_by op)) < UINT64_MODULUS)%Z ->
  run_op s op = (s', evs') ->
  good s' (evs ++ evs')
  /\ (ms_next_connection_id s <= ms_next_connection_id s'
      <= ms_next_connection_id s + Z.of_nat (length (taken_by op)))%Z.
Proof.
  intros Hg Hr. destruct op as [| | |taken early late request|request pdu|request pdu|id n k d|id];
    cbn in Hr |- *.
  - intros [= <- <-]. rewrite app_nil_r. unfold initialize.
    repeat split_guard; cbn; (split; [try done; by apply set_mux_good|lia]).
  - intros [= <- <-]. rewrite app_nil_r. unfold start.
    repeat split_guard; cbn; (split; [try done; by apply set_mux_good|lia]).
  - intros [= <- <-]. rewrite app_nil_r. split; [by apply stop_good|cbn; lia].
  - destruct (poll _ _ _ _ _) as [s1 ev] eqn:Hp. intros [= <- <-]. by eapply poll_good.
  - destruct (send_reply s request pdu) as [s1 ok] eqn:Hs. intros [= <- <-]. rewrite app_nil_r.
    split; [by eapply send_reply_good|]. unfold send_reply in Hs.
    repeat split_guard_in Hs; injection Hs as <- _; cbn; lia.
  - destruct (send_cancel_reply s request pdu) as [s1 ok] eqn:Hs. intros [= <- <-].
    rewrite app_nil_r. split; [by eapply send_cancel_reply_good|]. unfold send_cancel_reply in Hs.
    repeat split_guard_in Hs; injection Hs as <- _; cbn; lia.
  - intros [= <- <-]. rewrite app_nil_r. split; [by apply receive_good|].
    unfold receive. repeat split_guard; cbn; lia.
  - intros [= <- <-]. rewrite app_nil_r. split; [by apply on_disconnected_good|cbn; lia].
Qed.

Lemma run_ops_good ops s evs s' evs' :
  good s evs ->
  (ms_next_connection_id s + Z.of_nat (length (all_taken ops)) < UINT64_MODULUS)%Z ->
  run_ops s ops = (s', evs') ->
  good s' (evs ++ evs')
  /\ (ms_next_connection_id s <= ms_next_connection_id s'
      <= ms_next_connection_id s + Z.of_nat (length (all_taken ops)))%Z.
Proof.
  unfold all_taken. revert s evs evs'. induction ops as [|op ops IH]; intros s evs evs' Hg Hr; cbn.
  { intros [= <- <-]. rewrite app_nil_r. split; [done|lia]. }
  cbn in Hr. rewrite length_app in Hr |- *.
  destruct (run_op s op) as [s1 evs1] eqn:Ho. destruct (run_ops s1 ops) as [s2 evs2] eqn:Hops.
  intros [= <- <-]. apply (run_op_good _ evs) in Ho as [Hg1 Hn1]; [|done|lia].
  apply (IH _ (evs ++ evs1)) in Hops as [Hg2 Hn2]; [|done|lia].
  rewrite (assoc_L (++)). split; [done|lia].
Qed.

(** ** Endpoints are not lost *)

Definition held (s : RpcMuxServer) : list nat :=
  concat (close_slot <$> ms_slots s) ++ ms_closed s.

Definition taken_ids (taken : list (option AcceptedEndpoint)) : list nat :=
  ae_id <$> omap id taken.

Lemma held_accept_one s o : held (accept_connection s o) ≡ₚ held s ++ taken_ids [o].
Proof.
  unfold accept_connection, held, taken_ids. destruct o as [e|]; cbn; [|by rewrite app_nil_r].
  destruct (_ <=? _); cbn; [by rewrite (assoc_L (++))|].
  destruct (initialize_services_on _ _ _ _) as [server ok].
  destruct (negb ok || _); cbn; [by rewrite (assoc_L (++))|].
  rewrite fmap_app, concat_app. cbn. solve_Permutation.
Qed.

Lemma held_accept taken s :
  held (accept_new_connections taken s) ≡ₚ held s ++ taken_ids taken.
Proof.
  unfold accept_new_connections. revert s. induction taken as [|o taken IH]; intros s;
    [cbn; by rewrite app_nil_r|].
  cbn [foldl]. rewrite IH, held_accept_one. unfold taken_ids.
  rewrite <-(assoc_L (++)). apply Permutation_app_head. by destruct o.
Qed.

Lemma held_cleanup s : held (cleanup_disconnected s) ≡ₚ held s.
Proof.
  unfold cleanup_disconnected, held. rewrite cleanup_slots_spec. cbn [ms_slots ms_closed set_slots].
  induction (ms_slots s) as [|slot slots IH]; [cbn; by rewrite app_nil_r|].
  rewrite !filter_cons. destruct (cs_disconnected slot);
    repeat case_decide; try done; cbn [fmap list_fmap concat];
    rewrite <-(assoc_L (++) (close_slot slot) (concat (close_slot <$> slots))), <-IH;
    solve_Permutation.
Qed.

Lemma held_endpoints s s' :
  cs_endpoint <$> ms_slots s' = cs_endpoint <$> ms_slots s -> ms_closed s' = ms_closed s ->
  held s' = held s.
Proof.
  intros He Hc. unfold held. rewrite Hc. f_equal.
  assert (Hm : forall l : list ConnectionSlot, close_slot <$> l
    = (fun o => match o with Some e => [ae_id e] | None => [] end) <$> (cs_endpoint <$> l)).
  { intros l. rewrite <-list_fmap_compose. by apply list_fmap_ext. }
  by rewrite !Hm, He.
Qed.

Lemma held_disconnect l s : held (disconnect_all l s) = held s.
Proof.
  unfold disconnect_all. revert s. induction l as [|id l IH]; intros s; cbn; [done|].
  rewrite IH. apply held_endpoints; [|done]. cbn. rewrite <-list_fmap_compose.
  apply list_fmap_ext. intros i slot _. cbn. by case_match.
Qed.

Lemma poll_slots_endpoints slots wires slots' wires' result :
  poll_slots slots wires = (slots', wires', result) ->
  cs_endpoint <$> slots' = cs_endpoint <$> slots.
Proof.
  revert wires slots' wires' result. induction slots as [|slot slots IH];
    intros wires slots' wires' result; cbn; [by intros [= <- _ _]|].
  destruct (cs_server slot) as [srv|].
  - destruct (RpcServices.poll srv _ _) as [[srv' w'] [e cand]]. split_guard; [by intros [= <- _ _]|].
    destruct (poll_slots slots _) as [[sl w] res] eqn:Hs. intros [= <- _ _]. cbn. f_equal.
    by eapply IH.
  - destruct (poll_slots slots wires) as [[sl w] res] eqn:Hs. intros [= <- _ _]. cbn. f_equal.
    by eapply IH.
Qed.

Lemma held_poll s taken early late request s' ev :
  poll s taken early late request = (s', ev) -> ms_started s && ms_mux s = true ->
  held s' ≡ₚ held s ++ taken_ids taken.
Proof.
  unfold poll. intros Hp Hs. rewrite <-negb_andb, Hs in Hp. cbn [negb] in Hp.
  destruct (poll_slots _ _) as [[slots wires] result] eqn:Hps.
  set (s1 := cleanup_disconnected _) in *.
  assert (H1 : held (set_wires wires slots s1) = held s1).
  { apply held_endpoints; [|done]. by apply poll_slots_endpoints in Hps. }
  assert (H0 : held s1 ≡ₚ held s ++ taken_ids taken)
    by (subst s1; by rewrite held_cleanup, held_disconnect, held_accept).
  destruct result; injection Hp as <- _; [by rewrite held_disconnect, H1|].
  by rewrite held_cleanup, held_disconnect, H1.
Qed.

Lemma held_update s id i slot server server' wires :
  find_server id s = Some (i, slot, server) ->
  held (set_wires wires (<[i := set_server (Some server') slot]> (ms_slots s)) s) = held s.
Proof.
  intros (Hf & _ & _ & _)%find_server_Some. apply held_endpoints; [|done]. cbn.
  apply list_find_Some in Hf as (Hi & _ & _). rewrite list_fmap_insert. cbn.
  apply list_insert_id. by rewrite list_lookup_fmap, Hi.
Qed.

(** What a poll takes: nothing unless the server runs. *)
Definition accepted_by (s : RpcMuxServer) (op : mux_op) : list nat :=
  if ms_started s && ms_mux s then taken_ids (taken_by op) else [].

Fixpoint accepted_in (s : RpcMuxServer) (ops : list mux_op) : list nat :=
  match ops with
  | [] => []
  | op :: rest => accepted_by s op ++ accepted_in (run_op s op).1 rest
  end.

Lemma held_op s op : held (run_op s op).1 ≡ₚ held s ++ accepted_by s op.
Proof.
  assert (Hnil : forall b : bool, held s ++ (if b then [] else []) ≡ₚ held s)
    by (intros []; by rewrite app_nil_r).
  destruct op as [| | |taken early late request|request pdu|request pdu|id n k d|id];
    unfold accepted_by; cbn [taken_by taken_ids omap list_omap fmap list_fmap];
    cbn [run_op fst]; rewrite ?Hnil.
  - unfold initialize. by repeat split_guard.
  - unfold start. by repeat split_guard.
  - unfold held, stop. cbn. solve_Permutation.
  - destruct (poll _ _ _ _ _) as [s1 ev] eqn:Hp. cbn [fst].
    destruct (ms_started s && ms_mux s) eqn:Hs; [by eapply held_poll|].
    unfold poll in Hp. rewrite <-negb_andb, Hs in Hp. injection Hp as <- _. by rewrite app_nil_r.
  - unfold send_reply. destruct (find_server _ s) as [[[i slot] server]|] eqn:Hf; [|done].
    destruct (RpcServices.send_reply _ _ _ _). cbn [fst]. by rewrite (held_update s _ _ _ _ _ _ Hf).
  - unfold send_cancel_reply.
    destruct (find_server _ s) as [[[i slot] server]|] eqn:Hf; [|done].
    destruct (RpcServices.send_cancel_reply _ _ _ _). cbn [fst].
    by rewrite (held_update s _ _ _ _ _ _ Hf).
  - unfold receive. destruct (find_server _ s) as [[[i slot] server]|] eqn:Hf; [|done].
    by rewrite (held_update s _ _ _ _ _ _ Hf).
  - change (on_disconnected id s) with (disconnect_all [id] s). by rewrite held_disconnect.
Qed.

Lemma held_ops ops s : held (run_ops s ops).1 ≡ₚ held s ++ accepted_in s ops.
Proof.
  revert s. induction ops as [|op ops IH]; intros s; cbn; [by rewrite app_nil_r|].
  pose proof (held_op s op) as Ho. destruct (run_op s op) as [s1 evs1]. cbn [fst] in Ho |- *.
  specialize (IH s1). destruct (run_ops s1 ops) as [s2 evs2]. cbn [fst] in IH |- *.
  by rewrite IH, Ho, (assoc_L (++)).
Qed.

(** ** Ids are never given out twice *)

(** Slots of the second state are slots of the first or have newer ids. *)
Definition no_reuse (s s' : RpcMuxServer) : Prop :=
  forall id, id ∈ ids (ms_slots s') ->
    id ∈ ids (ms_slots s) \/ (ms_next_connection_id s <= id)%Z.

Lemma no_reuse_sub s s' :
  (forall id, id ∈ ids (ms_slots s') -> id ∈ ids (ms_slots s)) -> no_reuse s s'.
Proof. intros H id Hid. left. auto. Qed.

Lemma no_reuse_trans s1 s2 s3 :
  (ms_next_connection_id s1 <= ms_next_connection_id s2)%Z ->
  no_reuse s1 s2 -> no_reuse s2 s3 -> no_reuse s1 s3.
Proof.
  intros Hn H12 H23 id [Hid|Hid]%H23; [by apply H12|right; lia].
Qed.

Lemma accept_no_reuse s o : no_reuse s (accept_connection s o).
Proof.
  unfold accept_connection. destruct o as [e|]; [|by apply no_reuse_sub].
  destruct (_ <=? _); [by apply no_reuse_sub|].
  destruct (initialize_services_on _ _ _ _) as [server ok].
  destruct (negb ok || _); [by apply no_reuse_sub|].
  intros id. cbn. rewrite ids_app, elem_of_app, list_elem_of_singleton. cbn.
  intros [?| ->]; [by left|right; lia].
Qed.

Lemma accept_all_no_reuse taken s evs :
  good s evs -> (ms_next_connection_id s + Z.of_nat (length taken) < UINT64_MODULUS)%Z ->
  no_reuse s (accept_new_connections taken s).
Proof.
  unfold accept_new_connections. revert s.
  induction taken as [|o taken IH]; intros s Hg Hr; cbn in *; [by apply no_reuse_sub|].
  destruct (accept_connection_good s evs o Hg) as [Hg1 Hn]; [lia|].
  eapply no_reuse_trans; [|apply accept_no_reuse|apply IH]; [lia|done|lia].
Qed.

Lemma disconnect_all_ids l s : ids (ms_slots (disconnect_all l s)) = ids (ms_slots s).
Proof.
  unfold disconnect_all. revert s. induction l as [|id l IH]; intros s; cbn; [done|].
  rewrite IH. by destruct (on_disconnected_slots id s).
Qed.

Lemma cleanup_ids s id :
  id ∈ ids (ms_slots (cleanup_disconnected s)) -> id ∈ ids (ms_slots s).
Proof.
  unfold cleanup_disconnected. rewrite cleanup_slots_spec. cbn. unfold ids.
  intros (slot & -> & [_ Hin]%list_elem_of_filter)%list_elem_of_fmap.
  by apply list_elem_of_fmap_2.
Qed.

Lemma update_ids s id i slot server server' wires :
  find_server id s = Some (i, slot, server) ->
  ids (ms_slots (set_wires wires (<[i := set_server (Some server') slot]> (ms_slots s)) s))
  = ids (ms_slots s).
Proof. intros (Hf & _ & _ & _)%find_server_Some. cbn. by eapply keys_insert. Qed.

Lemma poll_slots_ids slots wires slots' wires' result :
  poll_slots slots wires = (slots', wires', result) -> ids slots' = ids slots.
Proof.
  revert wires slots' wires' result. induction slots as [|slot slots IH];
    intros wires slots' wires' result; cbn; [by intros [= <- _ _]|].
  destruct (cs_server slot) as [srv|].
  - destruct (RpcServices.poll srv _ _) as [[srv' w'] [e cand]]. split_guard; [by intros [= <- _ _]|].
    destruct (poll_slots slots _) as [[sl w] res] eqn:Hs. intros [= <- _ _]. cbn. f_equal.
    by eapply IH.
  - destruct (poll_slots slots wires) as [[sl w] res] eqn:Hs. intros [= <- _ _]. cbn. f_equal.
    by eapply IH.
Qed.

Lemma run_op_no_reuse s evs op :
  good s evs ->
  (ms_next_connection_id s + Z.of_nat (length (taken_by op)) < UINT64_MODULUS)%Z ->
  no_reuse s (run_op s op).1.
Proof.
  intros Hg Hr. destruct op as [| | |taken early late request|request pdu|request pdu|id n k d|id];
    cbn [run_op fst taken_by] in *.
  - apply no_reuse_sub. unfold initialize. by repeat split_guard.
  - apply no_reuse_sub. unfold start. by repeat split_guard.
  - apply no_reuse_sub. intros id Hid. by apply elem_of_nil in Hid.
  - destruct (poll _ _ _ _ _) as [s1 ev] eqn:Hp. cbn [fst]. unfold poll in Hp.
    destruct (negb (ms_started s) || negb (ms_mux s));
      [injection Hp as <- _; by apply no_reuse_sub|].
    pose proof (accept_all_no_reuse taken s evs Hg Hr) as Ha.
    destruct (poll_slots _ _) as [[slots wires] result] eqn:Hps. apply poll_slots_ids in Hps.
    intros id Hid. apply Ha. rewrite <-(disconnect_all_ids early). apply cleanup_ids.
    rewrite <-Hps. destruct result; injection Hp as <- _;
      [|apply cleanup_ids in Hid]; by rewrite disconnect_all_ids in Hid.
  - apply no_reuse_sub. intros id. unfold send_reply.
    destruct (find_server _ s) as [[[i slot] server]|] eqn:Hf; [|done].
    destruct (RpcServices.send_reply _ _ _ _). cbn [fst]. by rewrite (update_ids _ _ _ _ _ _ _ Hf).
  - apply no_reuse_sub. intros id. unfold send_cancel_reply.
    destruct (find_server _ s) as [[[i slot] server]|] eqn:Hf; [|done].
    destruct (RpcServices.send_cancel_reply _ _ _ _). cbn [fst].
    by rewrite (update_ids _ _ _ _ _ _ _ Hf).
  - apply no_reuse_sub. intros id'. unfold receive.
    destruct (find_server _ s) as [[[i slot] server]|] eqn:Hf; [|done].
    by rewrite (update_ids _ _ _ _ _ _ _ Hf).
  - apply no_reuse_sub. intros id'. by destruct (on_disconnected_slots id s) as [-> _].
Qed.

Lemma run_ops_no_reuse ops s evs :
  good s evs ->
  (ms_next_connection_id s + Z.of_nat (length (all_taken ops)) < UINT64_MODULUS)%Z ->
  no_reuse s (run_ops s ops).1.
Proof.
  unfold all_taken. revert s evs. induction ops as [|op ops IH]; intros s evs Hg Hr; cbn in *;
    [by apply no_reuse_sub|].
  rewrite length_app in Hr. destruct (run_op s op) as [s1 evs1] eqn:Ho.
  pose proof (run_op_no_reuse s evs op Hg) as H1. rewrite Ho in H1. cbn [fst] in H1.
  apply (run_op_good _ evs) in Ho as [Hg1 Hn1]; [|done|lia].
  specialize (IH s1 _ Hg1). destruct (run_ops s1 ops) as [s2 evs2]. cbn [fst] in *.
  eapply no_reuse_trans; [|apply H1|apply IH]; lia.
Qed.

Lemma find_server_gone s id : id ∉ ids (ms_slots s) -> find_server id s = None.
Proof.
  intros Hid. unfold find_server, find_slot. destruct (list_find _ _) as [[i slot]|] eqn:Hl; [|done].
  apply list_find_Some in Hl as (Hi & Heq & _). destruct Hid. subst id.
  apply list_elem_of_fmap_2. by eapply list_elem_of_lookup_2.
Qed.

(** ** A request that waits on a connection *)

Definition slot_backlog (slot : ConnectionSlot) : nat :=
  match cs_server slot with Some server => RpcServicesProps.backlog server | None => 0 end.

#[local] Arguments slot_backlog : simpl never.

Definition mux_backlog (s : RpcMuxServer) : nat := sum_list_with slot_backlog (ms_slots s).

(** The connection is open and its server has the request waiting: queued, with
    the conditions of [RpcServicesProps.waiting] on the service, the client, the
    opcode and the queue before it. *)
Definition waiting_on (id : Z) (n : string) (pk : PendingRequest) (h : ServiceRequestHeader)
    (slots : list ConnectionSlot) : Prop :=
  exists slot server e, slot ∈ slots /\ cs_connection_id slot = id
    /\ cs_disconnected slot = false /\ cs_server slot = Some server
    /\ om_find n (rss_rpc_endpoints server) = Some e /\ RpcServicesProps.waiting n pk h e.

Lemma accept_waiting id n pk h taken s :
  waiting_on id n pk h (ms_slots s) ->
  waiting_on id n pk h (ms_slots (accept_new_connections taken s))
  /\ mux_backlog (accept_new_connections taken s) = mux_backlog s.
Proof.
  unfold accept_new_connections. revert s.
  induction taken as [|o taken IH]; intros s Hw; cbn [foldl]; [done|].
  assert (H1 : waiting_on id n pk h (ms_slots (accept_connection s o))
    /\ mux_backlog (accept_connection s o) = mux_backlog s).
  { unfold accept_connection. destruct o as [e|]; [|done]. destruct (_ <=? _); [done|].
    destruct (initialize_services_on _ _ _ _) as [server ok] eqn:Hi.
    cbn [start_all_services negb]. rewrite orb_false_r. destruct ok; cbn [negb]; [|done].
    apply initialize_services_on_ready in Hi as (_ & _ & Hq). split.
    - destruct Hw as (slot & srv & ep & Hin & Hw). exists slot, srv, ep.
      split; [apply elem_of_app; by left|done].
    - unfold mux_backlog. cbn. rewrite sum_list_with_app. cbn.
      unfold slot_backlog at 2. cbn. unfold RpcServicesProps.backlog. rewrite Hq. lia. }
  destruct H1 as [Hw1 Hb1]. destruct (IH _ Hw1) as [Hw2 Hb2]. split; [done|]. congruence.
Qed.

Lemma disconnect_waiting id n pk h l s :
  id ∉ l -> waiting_on id n pk h (ms_slots s) ->
  waiting_on id n pk h (ms_slots (disconnect_all l s))
  /\ mux_backlog (disconnect_all l s) = mux_backlog s.
Proof.
  unfold disconnect_all. revert s. induction l as [|k l IH]; intros s Hid Hw; cbn; [done|].
  apply not_elem_of_cons in Hid as [Hk Hid].
  destruct (IH (on_disconnected k s)) as [Hw1 Hb1]; [done| |].
  - destruct Hw as (slot & srv & ep & Hin & Hsid & Hw). exists slot, srv, ep. split; [|done].
    cbn. apply list_elem_of_fmap. exists slot. split; [|done].
    by destruct (Z.eqb_spec (cs_connection_id slot) k); [congruence|].
  - split; [done|]. rewrite Hb1. unfold mux_backlog. cbn. clear.
    induction (ms_slots s) as [|slot slots IHs]; [done|]. cbn. rewrite IHs.
    by destruct (_ =? _)%Z.
Qed.

Lemma cleanup_waiting id n pk h s :
  waiting_on id n pk h (ms_slots s) ->
  waiting_on id n pk h (ms_slots (cleanup_disconnected s))
  /\ mux_backlog (cleanup_disconnected s) <= mux_backlog s.
Proof.
  intros (slot & srv & ep & Hin & Hsid & Hd & Hw). unfold cleanup_disconnected.
  rewrite cleanup_slots_spec. cbn. split.
  - exists slot, srv, ep. split; [|done]. by apply list_elem_of_filter.
  - unfold mux_backlog. cbn. clear. induction (ms_slots s) as [|slot slots IH]; [done|].
    rewrite filter_cons. case_decide; cbn; lia.
Qed.

Definition request_on (id : Z) (pk : PendingRequest) (h : ServiceRequestHeader)
    : RpcServerEventType * RpcMuxRequest :=
  (RpcServer_REQUEST_IN, mkRpcMuxRequest id (RpcServicesProps.request_in pk h).2).

Lemma slot_backlog_server slot server :
  cs_server slot = Some server -> slot_backlog slot = RpcServicesProps.backlog server.
Proof. intros Hs. unfold slot_backlog. by rewrite Hs. Qed.

(** Something that is queued gets shorter. *)
Lemma poll_slots_backlog slots wires slots' wires' result :
  poll_slots slots wires = (slots', wires', result) ->
  sum_list_with slot_backlog slots' <= sum_list_with slot_backlog slots
  /\ (0 < sum_list_with slot_backlog slots ->
      sum_list_with slot_backlog slots' < sum_list_with slot_backlog slots).
Proof.
  revert wires slots' wires' result. induction slots as [|slot slots IH];
    intros wires slots' wires' result; cbn; [intros [= <- _ _]; cbn; lia|].
  destruct (cs_server slot) as [srv|] eqn:Hsrv; cycle 1.
  { destruct (poll_slots slots wires) as [[sl w] res] eqn:Hs. intros [= <- _ <-].
    destruct (IH _ _ _ _ Hs) as (H1 & H2). cbn.
    assert (slot_backlog slot = 0) by (unfold slot_backlog; by rewrite Hsrv). lia. }
  destruct (RpcServices.poll srv _ _) as [[srv' w'] [ev cand]] eqn:Hp.
  pose proof (RpcServicesProps.poll_backlog _ _ _ _ _ _ Hp) as [Hle Hlt].
  rewrite (slot_backlog_server _ _ Hsrv).
  destruct (bool_decide_reflect (ev = RpcServer_NONE)) as [->|Hev]; cbn [negb].
  - destruct (poll_slots slots _) as [[sl w] res] eqn:Hs. intros [= <- _ <-]. cbn.
    rewrite (slot_backlog_server (set_server (Some srv') slot) srv') by done.
    destruct (IH _ _ _ _ Hs) as (H1 & H2). lia.
  - intros [= <- _ <-]. cbn.
    rewrite (slot_backlog_server (set_server (Some srv') slot) srv') by done.
    assert (RpcServicesProps.backlog srv <> 0); [|lia]. intros Hz.
    rewrite RpcServicesProps.poll_idle in Hp by done. congruence.
Qed.

Lemma waiting_on_tail id n pk h slot slots :
  waiting_on id n pk h slots -> waiting_on id n pk h (slot :: slots).
Proof.
  intros (sl & srv & ep & Hin & Hw). exists sl, srv, ep. split; [by right|done].
Qed.

(** Polling the slots raises the request or leaves it waiting. *)
Lemma poll_slots_waiting id n pk h slots wires slots' wires' result :
  poll_slots slots wires = (slots', wires', result) -> waiting_on id n pk h slots ->
  result = Some (request_on id pk h) \/ waiting_on id n pk h slots'.
Proof.
  revert wires slots' wires' result. induction slots as [|slot slots IH];
    intros wires slots' wires' result; cbn; [intros [= <- _ _]; auto|].
  intros Hps (s0 & srv0 & ep & Hin & Hid & Hd & Hs0 & He & Hw).
  apply elem_of_cons in Hin as [->|Hin].
  - rewrite Hs0 in Hps. destruct (RpcServices.poll srv0 _ _) as [[srv' w'] [ev cand]] eqn:Hp.
    destruct (RpcServicesProps.poll_waiting _ _ _ _ _ _ _ _ _ _ He Hw Hp) as [Hx|(e' & ? & ?)].
    + left. rewrite bool_decide_eq_false_2 in Hps by by injection Hx as -> _.
      injection Hps as _ _ <-. unfold request_on. rewrite <-Hx, Hid. by injection Hx as -> _.
    + right. assert (Hh : forall l, waiting_on id n pk h (set_server (Some srv') slot :: l)).
      { intros l. exists (set_server (Some srv') slot), srv', e'. by split; [left|]. }
      repeat split_guard_in Hps; injection Hps as <- _ _; apply Hh.
  - assert (Hrest : waiting_on id n pk h slots) by by exists s0, srv0, ep.
    destruct (cs_server slot) as [srv|].
    + destruct (RpcServices.poll srv _ _) as [[srv' w'] [ev cand]].
      destruct (negb _); [injection Hps as <- _ _; right; by apply waiting_on_tail|].
      destruct (poll_slots slots _) as [[sl w] res] eqn:Hs. injection Hps as <- _ <-.
      destruct (IH _ _ _ _ Hs Hrest); [by left|right; by apply waiting_on_tail].
    + destruct (poll_slots slots wires) as [[sl w] res] eqn:Hs. injection Hps as <- _ <-.
      destruct (IH _ _ _ _ Hs Hrest); [by left|right; by apply waiting_on_tail].
Qed.

Lemma poll_keeps_running s taken early late request :
  ms_started (poll s taken early late request).1 = ms_started s
  /\ ms_mux (poll s taken early late request).1 = ms_mux s.
Proof.
  assert (Ha : forall o s, ms_started (accept_connection s o) = ms_started s
    /\ ms_mux (accept_connection s o) = ms_mux s).
  { intros [e|] s0; [|done]. unfold accept_connection. destruct (_ <=? _); [done|].
    destruct (initialize_services_on _ _ _ _). by destruct (_ || _). }
  assert (Hd : forall l s, ms_started (disconnect_all l s) = ms_started s
    /\ ms_mux (disconnect_all l s) = ms_mux s).
  { induction l as [|i l IH]; intros s0; [done|]. apply (IH (on_disconnected i s0)). }
  assert (Hc : forall s, ms_started (cleanup_disconnected s) = ms_started s
    /\ ms_mux (cleanup_disconnected s) = ms_mux s).
  { intros s0. unfold cleanup_disconnected. by destruct (cleanup_slots _ _). }
  assert (Hn : forall s, ms_started (accept_new_connections taken s) = ms_started s
    /\ ms_mux (accept_new_connections taken s) = ms_mux s).
  { unfold accept_new_connections. induction taken as [|o l IH]; intros s0; [done|]. cbn.
    destruct (IH (accept_connection s0 o)) as [-> ->]. apply Ha. }
  unfold poll. destruct (negb _ || _); [done|]. destruct (poll_slots _ _) as [[sl w] [r|]]; cbn [fst].
  - destruct (Hd late (set_wires w sl (cleanup_disconnected (disconnect_all early
      (accept_new_connections taken s))))) as [-> ->]. cbn.
    destruct (Hc (disconnect_all early (accept_new_connections taken s))) as [-> ->].
    destruct (Hd early (accept_new_connections taken s)) as [-> ->]. apply Hn.
  - destruct (Hc (disconnect_all late (set_wires w sl (cleanup_disconnected (disconnect_all early
      (accept_new_connections taken s)))))) as [-> ->].
    destruct (Hd late (set_wires w sl (cleanup_disconnected (disconnect_all early
      (accept_new_connections taken s))))) as [-> ->]. cbn.
    destruct (Hc (disconnect_all early (accept_new_connections taken s))) as [-> ->].
    destruct (Hd early (accept_new_connections taken s)) as [-> ->]. apply Hn.
Qed.

(** One poll while the connection stays up. *)
Lemma poll_waiting_on id n pk h s taken early late request s' ev :
  ms_started s && ms_mux s = true -> waiting_on id n pk h (ms_slots s) ->
  id ∉ early -> id ∉ late -> poll s taken early late request = (s', ev) ->
  ev = request_on id pk h
  \/ waiting_on id n pk h (ms_slots s') /\ mux_backlog s' < mux_backlog s.
Proof.
  intros Hrun Hw He Hl. unfold poll. rewrite <-negb_andb, Hrun. cbn [negb].
  destruct (accept_waiting _ _ _ _ taken _ Hw) as [Hw1 Hb1].
  destruct (disconnect_waiting _ _ _ _ _ _ He Hw1) as [Hw2 Hb2].
  destruct (cleanup_waiting _ _ _ _ _ Hw2) as [Hw3 Hb3].
  set (s1 := cleanup_disconnected _) in *.
  destruct (poll_slots _ _) as [[slots wires] result] eqn:Hp.
  pose proof (poll_slots_backlog _ _ _ _ _ Hp) as [_ Hlt].
  assert (Hpos : 0 < sum_list_with slot_backlog (ms_slots s1)).
  { destruct Hw3 as (slot & srv & ep & (l1 & l2 & ->)%list_elem_of_split & _ & _ & Hs & Hf & Hwt).
    rewrite sum_list_with_app. cbn. rewrite (slot_backlog_server _ _ Hs).
    pose proof (RpcServicesProps.waiting_backlog _ _ _ _ _ Hf Hwt). lia. }
  specialize (Hlt Hpos).
  destruct (poll_slots_waiting _ _ _ _ _ _ _ _ _ Hp Hw3) as [->|Hw4];
    [intros [= _ <-]; by left|].
  assert (Hw5 : waiting_on id n pk h (ms_slots (set_wires wires slots s1))) by done.
  destruct (disconnect_waiting _ _ _ _ _ _ Hl Hw5) as [Hw6 Hb6].
  assert (Hb5 : mux_backlog (set_wires wires slots s1) < mux_backlog s)
    by (unfold mux_backlog in *; cbn in *; lia).
  destruct result; intros [= <- _]; right; [split; [done|lia]|].
  destruct (cleanup_waiting _ _ _ _ _ Hw6) as [Hw7 Hb7]. split; [done|lia].
Qed.

(** Polls only, each with what it takes and who disconnects meanwhile. *)
Record poll_args := mkPollArgs {
  pa_taken : list (option AcceptedEndpoint);
  pa_early : list Z;
  pa_late : list Z;
  pa_request : RpcMuxRequest;
}.

Fixpoint poll_many (s : RpcMuxServer) (polls : list poll_args)
    : RpcMuxServer * list (RpcServerEventType * RpcMuxRequest) :=
  match polls with
  | [] => (s, [])
  | a :: rest =>
      let '(s1, ev) := poll s (pa_taken a) (pa_early a) (pa_late a) (pa_request a) in
      let '(s2, evs) := poll_many s1 rest in
      (s2, ev :: evs)
  end.

Lemma request_served_on id n pk h polls s s' evs :
  ms_started s && ms_mux s = true -> waiting_on id n pk h (ms_slots s) ->
  Forall (fun a => id ∉ pa_early a /\ id ∉ pa_late a) polls ->
  mux_backlog s <= length polls -> poll_many s polls = (s', evs) ->
  request_on id pk h ∈ evs.
Proof.
  intros Hrun Hw Hf. revert s Hrun Hw s' evs.
  induction Hf as [|a polls [He Hl] Hf IH]; intros s Hrun Hw s' evs Hk; cbn.
  { destruct Hw as (slot & srv & ep & (l1 & l2 & Hm)%list_elem_of_split & _ & _ & Hs & Hfd & Hwt).
    unfold mux_backlog in Hk. rewrite Hm, sum_list_with_app in Hk. cbn in Hk.
    rewrite (slot_backlog_server _ _ Hs) in Hk.
    pose proof (RpcServicesProps.waiting_backlog _ _ _ _ _ Hfd Hwt). lia. }
  destruct (poll _ _ _ _ _) as [s1 ev] eqn:Hp.
  destruct (poll_many s1 polls) as [s2 evs2] eqn:Hm. intros [= <- <-].
  pose proof (poll_keeps_running s (pa_taken a) (pa_early a) (pa_late a) (pa_request a))
    as [Hst Hmx]. rewrite Hp in Hst, Hmx. cbn in Hst, Hmx.
  destruct (poll_waiting_on _ _ _ _ _ _ _ _ _ _ _ Hrun Hw He Hl Hp) as [->|[Hw1 Hlt]]; [left|].
  right. eapply IH; [|done| |exact Hm]; [by rewrite Hst, Hmx|cbn in Hk; lia].
Qed.
End Facts.

(** ** A concrete mux server

    Room for two connections; endpoint 10 is accepted and its client sends
    request 7 to service "s". *)

Module Demo.
Import ConcreteRpc.

#[export] Instance two_connections : CommMultiplexer := {|
  mux_open _ := true;
  mux_start := true;
  mux_expected_count := 2;
|}.

Definition fresh : RpcMuxServer :=
  new_rpc_mux_server "n" "RpcServerEndpointImpl" "services.json" "mux.json" 1000.

Definition accepted (i : nat) : option AcceptedEndpoint :=
  Some (mkAcceptedEndpoint i (mkPduEndpoint true) RpcServicesProps.Demo.file).

Definition no_request : RpcMuxRequest := mkRpcMuxRequest 0 default_request.

Definition connect (l : list nat) : mux_op := MuxPoll (accepted <$> l) [] [] no_request.

Definition setup : list mux_op := [MuxInitialize; MuxStart; connect [10; 11; 12]].

Definition send (id : Z) : mux_op :=
  MuxReceive id "s" (RpcServicesProps.Demo.key "s") (RpcServicesProps.Demo.packet "s" 7).

Definition request (id : Z) : RpcMuxRequest :=
  mkRpcMuxRequest id (mkRpcRequest "c" (RpcServicesProps.Demo.header "s" 7)
                        (RpcServicesProps.Demo.packet "s" 7)).
End Demo.
Import ConcreteRpc Demo.

Lemma fresh_good {P : RpcPlatform} {M : CommMultiplexer} node impl cfg mux delta :
  good (new_rpc_mux_server node impl cfg mux delta) [].
Proof.
  split; [apply new_mux_wf|]. split; cbn; [intros id n c Hid; by apply elem_of_nil in Hid| |done].
  intros id n c. unfold wire_of. by rewrite lookup_empty.
Qed.

(** ** Properties *)

(** C20 — Replies match requests on every connection: over any sequence of life
    cycle calls, polls that accept and drop connections, replies, received
    packets and disconnections, for every open connection, service and client
    the replies sent on that connection plus one if a request is in progress
    equal the REQUEST_IN events that named it; a connection that is closed or
    was never opened has not sent more replies than requests were raised on
    it. A reply counts when it is handed to the transport, whether or not the
    transport takes it, and a BUSY or INVALID error reply ends the request in
    progress, whose own reply is then refused. *)
Theorem rpc_mux_replies_match {P : RpcPlatform} {M : CommMultiplexer}
    node impl cfg mux delta ops s evs id n c :
  run_ops (new_rpc_mux_server node impl cfg mux delta) ops = (s, evs) ->
  (1 + Z.of_nat (length (all_taken ops)) < UINT64_MODULUS)%Z ->
  RpcServerProps.replies n c (wire_of (ms_wires s) id) <= admissions_conn id n c evs
  /\ (id ∈ ids (ms_slots s) ->
      RpcServerProps.replies n c (wire_of (ms_wires s) id) + busy_conn (ms_slots s) id n c
      = admissions_conn id n c evs).
Proof.
  intros Hr Hlen. apply (run_ops_good _ _ []) in Hr as [[_ [Hl Ha _]] _];
    [|apply fresh_good|done]. split; [apply Ha|apply Hl].
Qed.

Lemma rpc_mux_replies_match_witness :
  let ops := setup ++ [send 1; connect []; MuxReply (request 1) []] in
  admissions_conn 1 "s" "c" (run_ops fresh ops).2 = 1
  /\ RpcServerProps.replies "s" "c" (wire_of (ms_wires (run_ops fresh ops).1) 1)
     <= admissions_conn 1 "s" "c" (run_ops fresh ops).2.
Proof.
  split; [by vm_compute|].
  apply (rpc_mux_replies_match "n" "RpcServerEndpointImpl" "services.json" "mux.json" 1000
    (setup ++ [send 1; connect []; MuxReply (request 1) []])); [apply surjective_pairing|].
  by vm_compute.
Defined.

(** The connection table is well formed in every reachable state: the ids
    of open connections are distinct, at least 1 and below the next id, every
    slot has an endpoint and a well-formed services server, and there are never
    more connections than the multiplexer expects. *)
Theorem rpc_mux_well_formed {P : RpcPlatform} {M : CommMultiplexer}
    node impl cfg mux delta ops s evs :
  run_ops (new_rpc_mux_server node impl cfg mux delta) ops = (s, evs) ->
  (1 + Z.of_nat (length (all_taken ops)) < UINT64_MODULUS)%Z ->
  mux_wf mux_expected_count s /\ connected_count s <= mux_expected_count.
Proof.
  intros Hr Hlen. apply (run_ops_good _ _ []) in Hr as [[Hwf _] _]; [|apply fresh_good|done].
  split; [done|]. apply Hwf.
Qed.

Lemma rpc_mux_well_formed_witness :
  connected_count (run_ops fresh setup).1 = 2
  /\ mux_wf mux_expected_count (run_ops fresh setup).1
  /\ connected_count (run_ops fresh setup).1 <= mux_expected_count.
Proof.
  split; [by vm_compute|].
  apply (rpc_mux_well_formed "n" "RpcServerEndpointImpl" "services.json" "mux.json" 1000 setup
    (run_ops fresh setup).1 (run_ops fresh setup).2); [apply surjective_pairing|by vm_compute].
Defined.

(** C31 — No endpoint is lost: after any run, the endpoints taken from the
    multiplexer while the server ran are exactly those of the open connections
    and those that were stopped and closed, each as often as it was taken; so an
    endpoint that is refused, fails to initialise, disconnects or is dropped by
    stop is closed exactly once. *)
Theorem rpc_mux_no_endpoint_lost {P : RpcPlatform} {M : CommMultiplexer}
    node impl cfg mux delta ops :
  let s0 := new_rpc_mux_server node impl cfg mux delta in
  let s := (run_ops s0 ops).1 in
  concat (close_slot <$> ms_slots s) ++ ms_closed s ≡ₚ accepted_in s0 ops.
Proof. intros s0 s. apply (held_ops ops s0). Qed.

(** A connection id is never reused: once a connection is gone, no later
    connection gets its id, and a reply with a request of it is refused and
    changes nothing, whatever happened in between. *)
Theorem rpc_mux_stale_connection {P : RpcPlatform} {M : CommMultiplexer}
    node impl cfg mux delta ops s evs ops' s' evs' request pdu status code :
  run_ops (new_rpc_mux_server node impl cfg mux delta) ops = (s, evs) ->
  (1 + Z.of_nat (length (all_taken (ops ++ ops'))) < UINT64_MODULUS)%Z ->
  (mr_connection_id request < ms_next_connection_id s)%Z ->
  mr_connection_id request ∉ ids (ms_slots s) ->
  run_ops s ops' = (s', evs') ->
  mr_connection_id request ∉ ids (ms_slots s')
  /\ send_reply s' request pdu = (s', false)
  /\ send_cancel_reply s' request pdu = (s', false)
  /\ create_reply_buffer s' request status code pdu = (pdu, false).
Proof.
  intros Hr Hlen Hid Hgone Hr'. unfold all_taken in Hlen.
  rewrite fmap_app, concat_app, length_app in Hlen.
  apply (run_ops_good _ _ []) in Hr as [Hg Hn]; [|apply fresh_good|cbn; unfold all_taken; lia].
  pose proof (run_ops_no_reuse ops' s _ Hg) as Hnr. rewrite Hr' in Hnr.
  assert (Hgone' : mr_connection_id request ∉ ids (ms_slots s')).
  { intros Hin. cbn in Hn. unfold all_taken in *. destruct Hnr with (id := mr_connection_id request);
      [lia|done|done|lia]. }
  unfold send_reply, send_cancel_reply, create_reply_buffer.
  by rewrite (find_server_gone _ _ Hgone').
Qed.

Lemma rpc_mux_stale_connection_witness :
  let ops := setup ++ [MuxDisconnect 1; connect []] in
  let ops' := [connect [13]] in
  length (ms_slots (run_ops (run_ops fresh ops).1 ops').1) = 2
  /\ send_reply (run_ops (run_ops fresh ops).1 ops').1 (request 1) []
     = ((run_ops (run_ops fresh ops).1 ops').1, false).
Proof.
  split; [by vm_compute|].
  apply (rpc_mux_stale_connection "n" "RpcServerEndpointImpl" "services.json" "mux.json" 1000
    (setup ++ [MuxDisconnect 1; connect []]) (run_ops fresh (setup ++ [MuxDisconnect 1; connect []])).1
    (run_ops fresh (setup ++ [MuxDisconnect 1; connect []])).2 [connect [13]] _
    (run_ops (run_ops fresh (setup ++ [MuxDisconnect 1; connect []])).1 [connect [13]]).2
    (request 1) [] 0 0); [apply surjective_pairing|by vm_compute|by vm_compute| |
    apply surjective_pairing].
  assert (Hi : ids (ms_slots (run_ops fresh (setup ++ [MuxDisconnect 1; connect []])).1) = [2%Z])
    by by vm_compute.
  rewrite Hi. cbn. rewrite list_elem_of_singleton. lia.
Defined.

(** C30 — A request that waits on an open connection is raised. It waits when its
    packet is queued at a service of the connection with a static client list
    (dynamicClient is false), carries the opcode REQUEST, comes from a listed
    client that is idle there, and no earlier packet of that client is queued
    before it (a request of a busy client gets a BUSY reply instead). While the
    server runs and the connection stays up, as many polls as packets are queued
    on all connections raise it with the id of its connection, even when polls
    accept new connections, others disconnect and earlier connections have
    requests. *)
Theorem rpc_mux_request_served {P : RpcPlatform} {M : CommMultiplexer} id n pk h polls s s' evs :
  ms_started s && ms_mux s = true -> waiting_on id n pk h (ms_slots s) ->
  Forall (fun a => id ∉ pa_early a /\ id ∉ pa_late a) polls ->
  mux_backlog s <= length polls -> poll_many s polls = (s', evs) ->
  request_on id pk h ∈ evs.
Proof. apply request_served_on. Qed.

Lemma rpc_mux_request_served_witness :
  let s := (run_ops fresh (setup ++ [send 1; send 2])).1 in
  let a := mkPollArgs [accepted 13] [1%Z] [] no_request in
  request_on 2 (mkPendingRequest (RpcServicesProps.Demo.key "s") (RpcServicesProps.Demo.packet "s" 7))
    (RpcServicesProps.Demo.header "s" 7) ∈ (poll_many s [a; a]).2.
Proof.
  set (s := (run_ops fresh (setup ++ [send 1; send 2])).1).
  set (a := mkPollArgs [accepted 13] [1%Z] [] no_request).
  apply (rpc_mux_request_served 2 "s" _ _ [a; a] s (poll_many s [a; a]).1);
    [by vm_compute| | |by vm_compute|apply surjective_pairing].
  - set (server := RpcServices.receive RpcServicesProps.Demo.ready "s"
      (RpcServicesProps.Demo.key "s") (RpcServicesProps.Demo.packet "s" 7)).
    set (e := put_pending_request (RpcServicesProps.Demo.key "s")
      (RpcServicesProps.Demo.packet "s" 7)
      (RpcServerEp.initialize (new_rpc_server "s" true true)
         (RpcServicesProps.Demo.config "s") 24 None).1).
    exists (mkConnectionSlot 2 (accepted 11) (Some server) false), server, e.
    split_and!; [|done|done|done|done|].
    + apply (list_elem_of_lookup_2 _ 1). by vm_compute.
    + split; [done|done| |done| | |done|].
      * intros prev. by vm_compute.
      * by apply list_elem_of_singleton.
      * exists RpcServerProps.idle. split; [|done]. apply lookup_insert_eq.
      * exists [], []. split; [done|]. intros pk' prev Hin. by apply elem_of_nil in Hin.
  - repeat constructor; cbn; rewrite ?list_elem_of_singleton, ?elem_of_nil; lia || tauto.
Defined.
End RpcMuxProps.
