(* ===== verification/RpcClientEndpoint.v ===== *)
(** * RPC client endpoint

    [RpcClientEndpointImpl] of include/hakoniwa/pdu/rpc/rpc_client_endpoint_impl.hpp
    and src/rpc_client_endpoint_impl.cpp: one call at a time, its timeout, its
    cancellation and the matching of responses by request id. The clock reading
    an operation takes is an argument. As on the server side, the JSON entry is
    the record of the members the code reads, and the static list of instances
    is in [RpcInstances.v]. *)

From S2P Require Import Prelude RpcTypes RpcServerEndpoint.
From Stdlib Require Import ZArith Lia.
From stdpp Require Import base gmap strings list fin_maps relations.

Module RpcClientEp.
Import Rpc RpcServerEp.

(** ** State *)

Inductive ClientState :=
  | CLIENT_STATE_IDLE
  | CLIENT_STATE_RUNNING
  | CLIENT_STATE_CANCELLING.

#[export] Instance ClientState_eq_dec : EqDecision ClientState.
Proof. solve_decision. Defined.

Record PendingResponse := mkPendingResponse {
  prs_key : PduKey;
  prs_data : RpcPduData;
}.

Record RpcClient := mkRpcClient {
  rc_service_name : string;
  rc_client_name : string;
  rc_has_endpoint : bool;
  rc_has_pdu_definition : bool;
  rc_request_id : Z;
  rc_state : ClientState;
  rc_pending_responses : list PendingResponse;
  rc_current_timeout_usec : Z;
  rc_request_start_time_usec : Z;
  rc_current_request_id : Z;
  rc_definitions : list (string * PduDef);
  rc_subscriptions : list (string * Z);
}.

Definition new_rpc_client (service_name client_name : string)
    (has_endpoint has_pdu_definition : bool) : RpcClient :=
  mkRpcClient service_name client_name has_endpoint has_pdu_definition 0
    CLIENT_STATE_IDLE [] 0 0 0 [] [].

Definition set_state (st : ClientState) (c : RpcClient) : RpcClient :=
  mkRpcClient (rc_service_name c) (rc_client_name c) (rc_has_endpoint c)
    (rc_has_pdu_definition c) (rc_request_id c) st (rc_pending_responses c)
    (rc_current_timeout_usec c) (rc_request_start_time_usec c) (rc_current_request_id c)
    (rc_definitions c) (rc_subscriptions c).

Definition set_responses (l : list PendingResponse) (c : RpcClient) : RpcClient :=
  mkRpcClient (rc_service_name c) (rc_client_name c) (rc_has_endpoint c)
    (rc_has_pdu_definition c) (rc_request_id c) (rc_state c) l
    (rc_current_timeout_usec c) (rc_request_start_time_usec c) (rc_current_request_id c)
    (rc_definitions c) (rc_subscriptions c).

Definition set_current_request_id (n : Z) (c : RpcClient) : RpcClient :=
  mkRpcClient (rc_service_name c) (rc_client_name c) (rc_has_endpoint c)
    (rc_has_pdu_definition c) (rc_request_id c) (rc_state c) (rc_pending_responses c)
    (rc_current_timeout_usec c) (rc_request_start_time_usec c) n
    (rc_definitions c) (rc_subscriptions c).

(** The assignments of [call] before it sends. *)
Definition start_call (request_id timeout_usec now : Z) (c : RpcClient) : RpcClient :=
  mkRpcClient (rc_service_name c) (rc_client_name c) (rc_has_endpoint c)
    (rc_has_pdu_definition c) request_id CLIENT_STATE_RUNNING (rc_pending_responses c)
    timeout_usec now (rc_current_request_id c) (rc_definitions c) (rc_subscriptions c).

Definition register_channels (defs : list (string * PduDef)) (subs : list (string * Z))
    (c : RpcClient) : RpcClient :=
  mkRpcClient (rc_service_name c) (rc_client_name c) (rc_has_endpoint c)
    (rc_has_pdu_definition c) (rc_request_id c) (rc_state c) (rc_pending_responses c)
    (rc_current_timeout_usec c) (rc_request_start_time_usec c) (rc_current_request_id c)
    (rc_definitions c ++ defs) (rc_subscriptions c ++ subs).

(** ** Initialisation *)

(** The loop over the clients, up to the entry with this client's name. *)
Fixpoint init_client (c : RpcClient) (cfg : ServiceConfig) (meta : Z)
    (clients : list ClientSpec) : RpcClient * bool :=
  match clients with
  | [] => (c, false)
  | client :: rest =>
      match cs_name client with
      | None => (c, false)
      | Some client_name =>
          if negb (bool_decide (client_name = rc_client_name c)) then
            init_client c cfg meta rest
          else
            match cs_request_channel_id client, request_pdu_size cfg meta with
            | Some request_channel, Some request_size =>
                let req_def := (rc_service_name c,
                  rpc_def (rc_service_name c) (rc_client_name c +:+ "Req")
                    request_channel request_size) in
                match cs_response_channel_id client, response_pdu_size cfg meta with
                | Some response_channel, Some response_size =>
                    let res_def := (rc_service_name c,
                      rpc_def (rc_service_name c) (rc_client_name c +:+ "Res")
                        response_channel response_size) in
                    (register_channels [req_def; res_def]
                       [(rc_service_name c, response_channel)] c, true)
                | _, _ => (register_channels [req_def] [] c, false)
                end
            | _, _ => (c, false)
            end
      end
  end.

Definition initialize (c : RpcClient) (cfg : ServiceConfig) (pdu_meta_data_size : Z)
    : RpcClient * bool :=
  if negb (rc_has_endpoint c) then (c, false)
  else
    match sc_name cfg with
    | None => (c, false)
    | Some name =>
        if negb (bool_decide (name = rc_service_name c)) then (c, false)
        else if negb (rc_has_pdu_definition c) then (c, false)
        else
          match sc_clients cfg with
          | None => (c, false)
          | Some clients => init_client c cfg pdu_meta_data_size clients
          end
    end.

Section Operations.
Context {P : RpcPlatform}.

(** ** Requests *)

Definition request_key (c : RpcClient) : PduKey :=
  mkPduKey (rc_service_name c) (rc_client_name c +:+ "Req").

(** The counter is 64 bits wide, the id in the header 32. *)
Definition create_request_buffer (c : RpcClient) (opcode : Z) (is_cancel_request : bool)
    : RpcClient * RpcPduData :=
  let c' := if is_cancel_request then c
            else set_current_request_id (u64 (rc_current_request_id c + 1)) c in
  let request_id := if is_cancel_request then rc_request_id c
                    else rc_current_request_id c' in
  let header := mkServiceRequestHeader (u32 request_id) (rc_service_name c)
                  (rc_client_name c) opcode 0 in
  (c', cpp2pdu_ServiceRequestHeader header (get_pdu_size (request_key c))).

Definition send_request (c : RpcClient) (w : RpcWire) (pdu : RpcPduData) : RpcWire * bool :=
  rpc_send w (request_key c) pdu.

Definition call (c : RpcClient) (w : RpcWire) (pdu : RpcPduData) (timeout_usec now : Z)
    : RpcClient * RpcWire * bool :=
  if negb (bool_decide (rc_state c = CLIENT_STATE_IDLE)) then (c, w, false)
  else
    let c' := start_call (u32 (rc_current_request_id c)) timeout_usec now c in
    let '(w', sent) := send_request c' w pdu in
    if sent then (c', w', true) else (set_state CLIENT_STATE_IDLE c', w', false).

Definition send_cancel_request (c : RpcClient) (w : RpcWire) : RpcClient * RpcWire * bool :=
  if negb (bool_decide (rc_state c = CLIENT_STATE_RUNNING)) then (c, w, false)
  else
    let '(c', pdu) := create_request_buffer c HAKO_SERVICE_OPERATION_CODE_CANCEL true in
    let '(w', sent) := send_request c' w pdu in
    if sent then (set_state CLIENT_STATE_CANCELLING c', w', true) else (c', w', false).

(** ** Responses *)

Definition put_pending_response (key : PduKey) (data : RpcPduData) (c : RpcClient)
    : RpcClient :=
  set_responses (rc_pending_responses c ++ [mkPendingResponse key data]) c.

Definition validate_header (c : RpcClient) (header : ServiceResponseHeader) : bool :=
  if negb (bool_decide (rp_service_name header = rc_service_name c)) then false
  else if negb (bool_decide (rp_client_name header = rc_client_name c)) then false
  else if negb (rp_request_id header =? rc_request_id c)%Z then false
  else if (HAKO_SERVICE_RESULT_CODE_NUM <=? rp_result_code header)%Z then false
  else true.

Definition handle_cancel_response (c : RpcClient) : RpcClient * RpcClientEventType :=
  (set_state CLIENT_STATE_IDLE c, RpcClient_RESPONSE_CANCEL).

Definition handle_response_in (c : RpcClient) (response : RpcResponse)
    : RpcClient * RpcClientEventType :=
  if negb (validate_header c (res_header response)) then
    (set_state CLIENT_STATE_IDLE c, RpcClient_NONE)
  else if (rp_result_code (res_header response) =? HAKO_SERVICE_RESULT_CODE_CANCELED)%Z then
    handle_cancel_response c
  else (set_state CLIENT_STATE_IDLE c, RpcClient_RESPONSE_IN).

(** The loop over [pending_responses_]: the first with the id in question. *)
Definition find_response (c : RpcClient) : option (nat * PendingResponse) :=
  list_find (fun p => rp_request_id (pdu2cpp_ServiceResponseHeader (prs_data p))
                      = rc_request_id c) (rc_pending_responses c).

Definition timed_out (c : RpcClient) (now : Z) : bool :=
  (0 <? rc_current_timeout_usec c)%Z
  && (rc_current_timeout_usec c <? u64 (now - rc_request_start_time_usec c))%Z.

(** [response] is the caller's in/out parameter. *)
Definition poll (c : RpcClient) (response : RpcResponse) (now : Z)
    : RpcClient * RpcClientEventType * RpcResponse :=
  if bool_decide (rc_state c = CLIENT_STATE_IDLE) then (c, RpcClient_NONE, response)
  else if bool_decide (rc_state c = CLIENT_STATE_RUNNING) && timed_out c now then
    (c, RpcClient_RESPONSE_TIMEOUT, response)
  else
    match find_response c with
    | None => (c, RpcClient_NONE, response)
    | Some (i, p) =>
        let response' :=
          mkRpcResponse (pdu2cpp_ServiceResponseHeader (prs_data p)) (prs_data p) in
        let '(c', ev) :=
          handle_response_in (set_responses (delete i (rc_pending_responses c)) c)
            response' in
        (c', ev, response')
    end.

Definition clear_pending_responses (c : RpcClient) : RpcClient := set_responses [] c.
End Operations.
End RpcClientEp.
