(* ===== verification/RpcClientProps.v ===== *)
(** * What the RPC client endpoint guarantees

    The outcome of calls and polls, and the round trip of one request through
    client and server endpoint. *)

From S2P Require Import Prelude RpcTypes RpcServerEndpoint RpcServerProps RpcClientEndpoint.
From Stdlib Require Import ZArith Lia.
From stdpp Require Import base gmap strings list fin_maps relations.

Module RpcClientProps.
Import Rpc RpcServerEp RpcClientEp.

Section Facts.
Context {P : RpcPlatform}.

(** ** Polling *)

Lemma validate_header_true c h :
  validate_header c h = true ->
  rp_service_name h = rc_service_name c /\ rp_client_name h = rc_client_name c
  /\ rp_request_id h = rc_request_id c /\ (rp_result_code h < HAKO_SERVICE_RESULT_CODE_NUM)%Z.
Proof. unfold validate_header. repeat (split_guard; try done). by simpl_bools. Qed.

(** What a poll that raises a response event has done. *)
Definition response_taken (c : RpcClient) (c' : RpcClient) (ev : RpcClientEventType)
    (r : RpcResponse) : Prop :=
  let h := res_header r in
  rc_state c <> CLIENT_STATE_IDLE
  /\ rp_service_name h = rc_service_name c /\ rp_client_name h = rc_client_name c
  /\ rp_request_id h = rc_request_id c
  /\ (ev = RpcClient_RESPONSE_CANCEL
      <-> rp_result_code h = HAKO_SERVICE_RESULT_CODE_CANCELED)
  /\ exists i p,
       rc_pending_responses c !! i = Some p
       /\ h = pdu2cpp_ServiceResponseHeader (prs_data p) /\ res_pdu r = prs_data p
       /\ (forall j q, j < i -> rc_pending_responses c !! j = Some q ->
             rp_request_id (pdu2cpp_ServiceResponseHeader (prs_data q)) <> rc_request_id c)
       /\ c' = set_state CLIENT_STATE_IDLE
                 (set_responses (delete i (rc_pending_responses c)) c).

Lemma poll_cases c r now c' ev r' :
  poll c r now = (c', ev, r') ->
  match ev with
  | RpcClient_NONE => c' = c \/ rc_state c' = CLIENT_STATE_IDLE
  | RpcClient_RESPONSE_TIMEOUT =>
      c' = c /\ rc_state c = CLIENT_STATE_RUNNING /\ timed_out c now = true
  | RpcClient_RESPONSE_IN | RpcClient_RESPONSE_CANCEL => response_taken c c' ev r'
  end.
Proof.
  unfold poll. case_bool_decide as Hi; [intros [= <- <- <-]; by left|].
  destruct (bool_decide (rc_state c = CLIENT_STATE_RUNNING) && timed_out c now) eqn:Ht.
  { simpl_bools. by intros [= <- <- <-]. }
  destruct (find_response c) as [[i p]|] eqn:Hf; [|intros [= <- <- <-]; by left].
  apply list_find_Some in Hf as (Hp & Hid & Hb). unfold handle_response_in. cbn [res_header].
  destruct (validate_header _ _) eqn:Hv; cbn [negb]; [|intros [= <- <- <-]; by right].
  apply validate_header_true in Hv as (H1 & H2 & H3 & _).
  destruct (Z.eqb_spec (rp_result_code (pdu2cpp_ServiceResponseHeader (prs_data p)))
              HAKO_SERVICE_RESULT_CODE_CANCELED) as [Hc|Hc]; intros [= <- <- <-];
    (split_and!; [done|done|done|done|done|]); exists i, p; split_and!; try done; eauto.
Qed.

(** The only queued response answers the call. *)
Lemma poll_single_response c key data resp later h :
  rc_state c = CLIENT_STATE_RUNNING -> timed_out c later = false ->
  rc_pending_responses c = [] -> pdu2cpp_ServiceResponseHeader data = h ->
  validate_header c h = true -> rp_result_code h <> HAKO_SERVICE_RESULT_CODE_CANCELED ->
  poll (put_pending_response key data c) resp later
  = (set_state CLIENT_STATE_IDLE c, RpcClient_RESPONSE_IN, mkRpcResponse h data).
Proof.
  intros Hs Ht Hq Hh Hv Hc.
  assert (Hf : find_response (put_pending_response key data c)
               = Some (0, mkPendingResponse key data)).
  { unfold find_response, put_pending_response.
    cbn [rc_pending_responses set_responses rc_request_id]. rewrite Hq.
    cbn [app list_find prs_data]. rewrite decide_True; [done|]. rewrite Hh.
    by apply validate_header_true in Hv as (_ & _ & ? & _). }
  assert (Hst : rc_state (put_pending_response key data c) = CLIENT_STATE_RUNNING) by done.
  unfold poll. rewrite Hf, Hst.
  change (timed_out (put_pending_response key data c) later) with (timed_out c later).
  rewrite Ht, andb_false_r. rewrite bool_decide_eq_false_2 by done.
  cbn [prs_data]. rewrite Hh. unfold handle_response_in. cbn [res_header].
  match goal with |- context [validate_header ?x h] =>
    change (validate_header x h) with (validate_header c h) end.
  rewrite Hv. cbn [negb].
  destruct (Z.eqb_spec (rp_result_code h) HAKO_SERVICE_RESULT_CODE_CANCELED); [done|].
  f_equal. f_equal. unfold set_state, set_responses, put_pending_response. cbn.
  by rewrite Hq.
Qed.

(** ** Calls and outcomes *)

Inductive client_op :=
  | ClientCreate (opcode : Z)
  | ClientCall (pdu : RpcPduData) (timeout_usec now : Z)
  | ClientCancel
  | ClientReceive (key : PduKey) (data : RpcPduData)
  | ClientPoll (response : RpcResponse) (now : Z)
  | ClientClear.

(** Calls that were started and polls that returned a response. *)
Definition run_op (c : RpcClient) (w : RpcWire) (op : client_op)
    : RpcClient * RpcWire * (nat * nat) :=
  match op with
  | ClientCreate opcode => ((create_request_buffer c opcode false).1, w, (0, 0))
  | ClientCall pdu timeout now =>
      let '(c', w', ok) := call c w pdu timeout now in (c', w', (if ok then 1 else 0, 0))
  | ClientCancel => let '(c', w', _) := send_cancel_request c w in (c', w', (0, 0))
  | ClientReceive key data => (put_pending_response key data c, w, (0, 0))
  | ClientPoll response now =>
      let '(c', ev, _) := poll c response now in
      (c', w, (0, match ev with
                  | RpcClient_RESPONSE_IN | RpcClient_RESPONSE_CANCEL => 1
                  | _ => 0
                  end))
  | ClientClear => (clear_pending_responses c, w, (0, 0))
  end.

Fixpoint run_ops (c : RpcClient) (w : RpcWire) (ops : list client_op)
    : RpcClient * RpcWire * (nat * nat) :=
  match ops with
  | [] => (c, w, (0, 0))
  | op :: rest =>
      let '(c1, w1, (calls1, responses1)) := run_op c w op in
      let '(c2, w2, (calls2, responses2)) := run_ops c1 w1 rest in
      (c2, w2, (calls1 + calls2, responses1 + responses2))
  end.

Definition outstanding (c : RpcClient) : nat :=
  if bool_decide (rc_state c = CLIENT_STATE_IDLE) then 0 else 1.

Lemma outstanding_idle c : rc_state c = CLIENT_STATE_IDLE -> outstanding c = 0.
Proof. intros H. unfold outstanding. by rewrite bool_decide_eq_true_2. Qed.

Lemma outstanding_busy c : rc_state c <> CLIENT_STATE_IDLE -> outstanding c = 1.
Proof. intros H. unfold outstanding. by rewrite bool_decide_eq_false_2. Qed.

Lemma outstanding_le c : outstanding c <= 1.
Proof. unfold outstanding. case_bool_decide; lia. Qed.

Lemma run_op_outcomes c w op c' w' calls responses :
  run_op c w op = (c', w', (calls, responses)) ->
  responses + outstanding c' <= outstanding c + calls.
Proof.
  destruct op as [op|pdu t now| |k d|r now|]; cbn.
  - intros [= <- _ <- <-]. change (0 + outstanding c <= outstanding c + 0). lia.
  - unfold call. case_bool_decide as Hi; cbn [negb]; [|intros [= <- _ <- <-]; lia].
    destruct (send_request _ w pdu) as [w1 []]; intros [= <- _ <- <-];
      rewrite (outstanding_idle c) by done;
      [pose proof (outstanding_le (start_call (u32 (rc_current_request_id c)) t now c)); lia|].
    by rewrite outstanding_idle.
  - unfold send_cancel_request. case_bool_decide as Hi; cbn [negb];
      [|intros [= <- _ <- <-]; lia].
    destruct (create_request_buffer _ _ _) as [c1 p] eqn:Hc. injection Hc as <- _.
    destruct (send_request c w p) as [w1 []]; intros [= <- _ <- <-]; [|lia].
    rewrite (outstanding_busy c) by (rewrite Hi; done).
    pose proof (outstanding_le (set_state CLIENT_STATE_CANCELLING c)). lia.
  - intros [= <- _ <- <-]. change (0 + outstanding c <= outstanding c + 0). lia.
  - destruct (poll c r now) as [[c1 ev] r1] eqn:Hp. apply poll_cases in Hp.
    intros [= <- _ <- <-]. destruct ev.
    + destruct Hp as [->|Hi]; [lia|]. rewrite (outstanding_idle c1) by done. lia.
    + destruct Hp as (Hb & _ & _ & _ & _ & i & p & _ & _ & _ & _ & ->).
      rewrite (outstanding_busy c) by done. by rewrite outstanding_idle.
    + destruct Hp as (Hb & _ & _ & _ & _ & i & p & _ & _ & _ & _ & ->).
      rewrite (outstanding_busy c) by done. by rewrite outstanding_idle.
    + destruct Hp as [-> _]. lia.
  - intros [= <- _ <- <-]. change (0 + outstanding c <= outstanding c + 0). lia.
Qed.

Lemma run_ops_outcomes ops c w c' w' calls responses :
  run_ops c w ops = (c', w', (calls, responses)) ->
  responses + outstanding c' <= outstanding c + calls.
Proof.
  revert c w c' w' calls responses.
  induction ops as [|op ops IH]; intros c w c' w' calls responses; cbn.
  { intros [= <- _ <- <-]. lia. }
  destruct (run_op c w op) as [[c1 w1] [n1 m1]] eqn:Ho.
  destruct (run_ops c1 w1 ops) as [[c2 w2] [n2 m2]] eqn:Hr. intros [= <- _ <- <-].
  apply run_op_outcomes in Ho. apply IH in Hr. lia.
Qed.
End Facts.

(** ** A concrete call

    Client "c" calls service "s" with a timeout of 1000 at time 50. *)

Module Demo.
Import ConcreteRpc.

Definition idle_client : RpcClient :=
  (initialize (new_rpc_client "s" "c" true true) RpcServerProps.Demo.config 24).1.

Definition created : RpcClient * RpcPduData :=
  create_request_buffer idle_client HAKO_SERVICE_OPERATION_CODE_REQUEST false.

Definition calling : RpcClient * RpcWire * bool := call created.1 [] created.2 1000 50.

Definition response_packet (id code : Z) : RpcPduData :=
  cpp2pdu_ServiceResponseHeader (mkServiceResponseHeader id "s" "c" 3 100 code) 64.

Definition answered : RpcClient :=
  put_pending_response (mkPduKey "s" "cRes") (response_packet 1 0) calling.1.1.

Definition no_response : RpcResponse := mkRpcResponse (mkServiceResponseHeader 0 "" "" 0 0 0) [].
End Demo.
Import ConcreteRpc Demo.

(** ** Properties *)

(** What a poll of the client means: a RESPONSE_IN or RESPONSE_CANCEL event
    carries the first queued response whose request id is that of the call in
    progress, from the right service and for this client, RESPONSE_CANCEL
    exactly when the result code says CANCELED; the response is taken from the
    queue, all others stay, and the client is idle. A timeout changes nothing
    and is reported only while the call runs past its limit. *)
Theorem rpc_client_poll_outcomes {P : RpcPlatform} c r now c' ev r' :
  poll c r now = (c', ev, r') ->
  match ev with
  | RpcClient_NONE => c' = c \/ rc_state c' = CLIENT_STATE_IDLE
  | RpcClient_RESPONSE_TIMEOUT =>
      c' = c /\ rc_state c = CLIENT_STATE_RUNNING /\ timed_out c now = true
  | RpcClient_RESPONSE_IN | RpcClient_RESPONSE_CANCEL => response_taken c c' ev r'
  end.
Proof. apply poll_cases. Qed.

Lemma rpc_client_poll_outcomes_witness :
  response_taken answered (poll answered no_response 60).1.1 RpcClient_RESPONSE_IN
    (poll answered no_response 60).2.
Proof.
  apply (rpc_client_poll_outcomes answered no_response 60 _ RpcClient_RESPONSE_IN).
  by vm_compute.
Defined.

(** Responses never outnumber calls: from an idle client, over any sequence
    of buffer creations, calls, cancels, received packets and polls, the polls
    that returned a response plus one if a call is outstanding are at most the
    calls that were started; a second call is refused while one is
    outstanding. *)
Theorem rpc_client_one_call {P : RpcPlatform} c ops c' w' calls responses :
  rc_state c = CLIENT_STATE_IDLE ->
  run_ops c [] ops = (c', w', (calls, responses)) ->
  responses + outstanding c' <= calls
  /\ (outstanding c' = 1 -> forall w pdu t now, call c' w pdu t now = (c', w, false)).
Proof.
  intros Hi Hr. apply run_ops_outcomes in Hr. rewrite (outstanding_idle c Hi) in Hr.
  split; [lia|]. unfold outstanding, call. case_bool_decide; [done|]. done.
Qed.

Lemma rpc_client_one_call_witness :
  let ops := [ClientCall [] 0 0; ClientReceive (mkPduKey "s" "cRes") (response_packet 0 0);
              ClientPoll no_response 5] in
  (run_ops idle_client [] ops).2 = (1, 1)
  /\ (run_ops idle_client [] ops).2.2 + outstanding (run_ops idle_client [] ops).1.1
     <= (run_ops idle_client [] ops).2.1.
Proof.
  split; [by vm_compute|].
  apply (rpc_client_one_call idle_client [ClientCall [] 0 0;
    ClientReceive (mkPduKey "s" "cRes") (response_packet 0 0); ClientPoll no_response 5] _
    (run_ops idle_client [] [ClientCall [] 0 0;
    ClientReceive (mkPduKey "s" "cRes") (response_packet 0 0); ClientPoll no_response 5]).1.2).
  - by vm_compute.
  - by destruct (run_ops _ _ _) as [[] []].
Defined.

(** A timeout hides the response: once a running call is past its limit,
    every later poll reports RESPONSE_TIMEOUT and changes nothing, whatever
    responses are queued, until a cancel request is sent; then the same queue
    is searched again and a response that was already there is delivered. *)
Theorem rpc_timeout_hides_response {P : RpcPlatform} c r now later :
  rc_state c = CLIENT_STATE_RUNNING -> timed_out c now = true ->
  (rc_request_start_time_usec c <= now <= later)%Z ->
  (later - rc_request_start_time_usec c < UINT64_MODULUS)%Z ->
  poll c r later = (c, RpcClient_RESPONSE_TIMEOUT, r)
  /\ forall i p,
       find_response c = Some (i, p) ->
       validate_header c (pdu2cpp_ServiceResponseHeader (prs_data p)) = true ->
       (poll (set_state CLIENT_STATE_CANCELLING c) r later).1.2 <> RpcClient_NONE.
Proof.
  intros Hs Ht Hle Hlt. split.
  - unfold poll. rewrite Hs. cbn.
    assert (Htl : timed_out c later = true); [|by rewrite Htl].
    unfold timed_out in *. rewrite u64_small in Ht by (unfold in_u64; lia).
    rewrite u64_small by (unfold in_u64; lia). simpl_bools.
    apply andb_true_iff. split; apply Z.ltb_lt; lia.
  - intros i p Hf Hv. unfold poll. cbn [rc_state set_state].
    rewrite !bool_decide_eq_false_2 by done. cbn [andb].
    change (find_response (set_state CLIENT_STATE_CANCELLING c)) with (find_response c).
    rewrite Hf. unfold handle_response_in. cbn [res_header].
    match goal with |- context [validate_header ?x ?h] =>
      change (validate_header x h) with (validate_header c h) end.
    rewrite Hv. cbn [negb]. by destruct (_ =? _)%Z.
Qed.

Lemma rpc_timeout_hides_response_witness :
  poll answered no_response 9000 = (answered, RpcClient_RESPONSE_TIMEOUT, no_response).
Proof.
  apply (rpc_timeout_hides_response answered no_response 8000 9000); by vm_compute.
Defined.

(** The round trip of a call: a request buffer an idle client creates and
    sends raises REQUEST_IN at an idle server with the id the client waits for;
    the server's reply buffer for it is sent; and when that reply reaches the
    client before the timeout, its poll returns RESPONSE_IN with exactly the
    status and result code the server set, and the client is idle again. *)
Theorem rpc_roundtrip {P : RpcPlatform} {HL : RpcPlatformLaws P}
    c s w timeout now c1 pdu c2 w2 r0 st :
  rc_state c = CLIENT_STATE_IDLE -> rc_pending_responses c = [] ->
  create_request_buffer c HAKO_SERVICE_OPERATION_CODE_REQUEST false = (c1, pdu) ->
  request_fits (mkServiceRequestHeader (u32 (rc_current_request_id c1)) (rc_service_name c)
                  (rc_client_name c) HAKO_SERVICE_OPERATION_CODE_REQUEST 0)
    (get_pdu_size (request_key c)) = true ->
  call c1 w pdu timeout now = (c2, w2, true) ->
  rs_service_name s = rc_service_name c -> rs_dynamic_client s = false ->
  rc_client_name c ∈ rs_registered_clients s -> rs_pending_requests s = [] ->
  rs_server_states s !! rc_client_name c = Some st -> sps_state st = SERVER_STATE_IDLE ->
  let h := mkServiceRequestHeader (rc_request_id c2) (rc_service_name c) (rc_client_name c)
             HAKO_SERVICE_OPERATION_CODE_REQUEST 0 in
  exists s1,
    RpcServerEp.poll (put_pending_request (request_key c) pdu s) w2 r0
    = (s1, w2, (RpcServer_REQUEST_IN, mkRpcRequest (rc_client_name c) h pdu))
    /\ forall status code,
         let reply_header := mkServiceResponseHeader (rc_request_id c2) (rc_service_name c)
                               (rc_client_name c) status 100 code in
         let reply := create_reply_buffer h status code in
         response_fits reply_header
           (get_pdu_size (response_key (rc_service_name c) (rc_client_name c))) = true ->
         (code < HAKO_SERVICE_RESULT_CODE_NUM)%Z -> code <> HAKO_SERVICE_RESULT_CODE_CANCELED ->
         (exists s2 ok, send_reply s1 w2 (rc_client_name c) reply
            = (s2, w2 ++ [mkRpcSend (response_key (rc_service_name c) (rc_client_name c))
                            reply ok]))
         /\ forall key resp later, timed_out c2 later = false ->
              poll (put_pending_response key reply c2) resp later
              = (set_state CLIENT_STATE_IDLE c2, RpcClient_RESPONSE_IN,
                 mkRpcResponse reply_header reply).
Proof.
  intros Hi Hq Hcr Hfit Hcall Hsn Hdyn Hreg Hsq Hst Hidle. injection Hcr as <- <-.
  unfold call in Hcall. cbn in Hcall. rewrite Hi in Hcall. cbn in Hcall.
  destruct (rpc_send_result _ _ _); [|done]. injection Hcall as <- <-. cbn in Hfit |- *.
  unfold RpcServerEp.poll. cbn. rewrite Hsq. cbn.
  rewrite law_request_roundtrip by done. unfold RpcServerEp.validate_header. cbn.
  rewrite Hsn, Hdyn. rewrite (bool_decide_eq_true_2 (_ = _)) by done. cbn.
  rewrite (bool_decide_eq_true_2 (_ ∈ _)) by done. cbn.
  rewrite (bool_decide_eq_true_2 (is_Some _)) by eauto. cbn.
  unfold handle_request_in, status_of. cbn. rewrite Hst. cbn. rewrite Hidle.
  eexists. split; [done|]. intros status code Hrf Hcode Hnc. split.
  - unfold send_reply. cbn. rewrite lookup_insert_eq. cbn. rewrite Hsn. eauto.
  - intros key resp later Ht. apply poll_single_response; try done.
    + unfold create_reply_buffer. cbn. by rewrite law_response_roundtrip.
    + unfold validate_header. cbn. rewrite !bool_decide_eq_true_2 by done.
      rewrite Z.eqb_refl. cbn.
      destruct (Z.leb_spec HAKO_SERVICE_RESULT_CODE_NUM code); [lia|done].
Qed.

Lemma rpc_roundtrip_witness :
  exists s1,
    RpcServerEp.poll (put_pending_request (request_key idle_client) created.2
      RpcServerProps.Demo.ready) calling.1.2 RpcServerProps.Demo.no_request
    = (s1, calling.1.2, (RpcServer_REQUEST_IN,
         mkRpcRequest "c" (mkServiceRequestHeader 1 "s" "c" 0 0) created.2)).
Proof.
  destruct (rpc_roundtrip idle_client RpcServerProps.Demo.ready [] 1000 50 created.1 created.2
    calling.1.1 calling.1.2 RpcServerProps.Demo.no_request
    (mkServerProcessingStatus 0 SERVER_STATE_IDLE)
    ltac:(by vm_compute) ltac:(by vm_compute) ltac:(by vm_compute) ltac:(by vm_compute)
    ltac:(by vm_compute) ltac:(by vm_compute) ltac:(by vm_compute)
    ltac:(by apply list_elem_of_singleton) ltac:(by vm_compute) ltac:(by vm_compute)
    ltac:(by vm_compute)) as (s1 & Hp & _).
  exists s1. exact Hp.
Defined.

End RpcClientProps.
