(* ===== verification/RpcNetwork.v ===== *)
(** * An RPC client and server over an unreliable network

    One [RpcClientEndpointImpl] and the [RpcServerEndpointImpl] of its service,
    called in any order by their applications, with a transport between them
    that delays, reorders and loses packets. Other clients of the service are
    there too: packets of theirs, with any contents, reach the server at any
    time. *)

From S2P Require Import Prelude NetworkFlow RpcTypes.
From S2P Require Import RpcServerEndpoint RpcServerProps RpcServerFacts.
From S2P Require Import RpcClientEndpoint RpcClientProps.
From Stdlib Require Import ZArith Lia.
From stdpp Require Import base gmap strings list fin_maps relations.

Module RpcNetwork.
Import Rpc RpcServerEp RpcClientEp.

(** ** State and steps *)

Record network := mkNetwork {
  rn_client : RpcClient;
  rn_client_wire : RpcWire;
  rn_server : RpcServer;
  rn_server_wire : RpcWire;
  (** What other clients sent to the server. *)
  rn_others : RpcWire;
  rn_to_server : RpcWire;
  rn_to_client : RpcWire;
  (** Calls the client started, and what the two sides were shown. *)
  rn_calls : nat;
  rn_responses : list (RpcClientEventType * RpcResponse);
  rn_requests : list (RpcServerEventType * RpcRequest);
}.

Inductive net_op :=
  | NetCreate (opcode : Z)
  | NetCall (pdu : RpcPduData) (timeout_usec now : Z)
  | NetCancel
  | NetClientPoll (response : RpcResponse) (now : Z)
  | NetClientClear
  | NetServerPoll (request : RpcRequest)
  | NetReply (client : string) (pdu : RpcPduData)
  | NetCancelReply (client : string) (pdu : RpcPduData)
  | NetServerClear
  | NetOther (key : PduKey) (data : RpcPduData)
  | NetDeliverToServer (i : nat)
  | NetDeliverToClient (i : nat)
  | NetLoseToServer (i : nat)
  | NetLoseToClient (i : nat).

Section Steps.
Context {P : RpcPlatform}.

(** The responses on their way to this client are those the transport accepted
    for its key. *)
Definition for_client (c : RpcClient) (l : RpcWire) : RpcWire :=
  filter (fun rec => rsn_key rec = response_key (rc_service_name c) (rc_client_name c)) l.

(** A client call logs its sends, counts its start, and shows the events that
    carry a response. *)
Definition after_client (n : network) (c' : RpcClient) (w' : RpcWire) (calls : nat)
    (shown : list (RpcClientEventType * RpcResponse)) : network :=
  mkNetwork c' w' (rn_server n) (rn_server_wire n) (rn_others n)
    (rn_to_server n ++ accepted_since rsn_ok (rn_client_wire n) w') (rn_to_client n)
    (rn_calls n + calls) (rn_responses n ++ shown) (rn_requests n).

Definition after_server (n : network)
    (r : RpcServer * RpcWire * list (RpcServerEventType * RpcRequest)) : network :=
  let '(s', w', evs) := r in
  mkNetwork (rn_client n) (rn_client_wire n) s' w' (rn_others n) (rn_to_server n)
    (rn_to_client n
     ++ for_client (rn_client n) (accepted_since rsn_ok (rn_server_wire n) w'))
    (rn_calls n) (rn_responses n) (rn_requests n ++ evs).

(** Events that carry a response. *)
Definition response_event (ev : RpcClientEventType) (r : RpcResponse)
    : list (RpcClientEventType * RpcResponse) :=
  match ev with
  | RpcClient_RESPONSE_IN | RpcClient_RESPONSE_CANCEL => [(ev, r)]
  | _ => []
  end.

Definition deliver_to_server (n : network) (i : nat) : network :=
  match rn_to_server n !! i with
  | None => n
  | Some rec =>
      mkNetwork (rn_client n) (rn_client_wire n)
        (put_pending_request (rsn_key rec) (rsn_data rec) (rn_server n)) (rn_server_wire n)
        (rn_others n) (delete i (rn_to_server n)) (rn_to_client n)
        (rn_calls n) (rn_responses n) (rn_requests n)
  end.

Definition deliver_to_client (n : network) (i : nat) : network :=
  match rn_to_client n !! i with
  | None => n
  | Some rec =>
      mkNetwork (put_pending_response (rsn_key rec) (rsn_data rec) (rn_client n))
        (rn_client_wire n) (rn_server n) (rn_server_wire n) (rn_others n)
        (rn_to_server n) (delete i (rn_to_client n))
        (rn_calls n) (rn_responses n) (rn_requests n)
  end.

Definition set_flights (to_server to_client : RpcWire) (n : network) : network :=
  mkNetwork (rn_client n) (rn_client_wire n) (rn_server n) (rn_server_wire n) (rn_others n)
    to_server to_client (rn_calls n) (rn_responses n) (rn_requests n).

Definition run_net_op (n : network) (op : net_op) : network :=
  let c := rn_client n in
  let w := rn_client_wire n in
  let server := RpcServerProps.run_op (rn_server n) (rn_server_wire n) in
  match op with
  | NetCreate opcode => after_client n (create_request_buffer c opcode false).1 w 0 []
  | NetCall pdu timeout now =>
      let '(c', w', started) := call c w pdu timeout now in
      after_client n c' w' (if started then 1 else 0) []
  | NetCancel => let '(c', w', _) := send_cancel_request c w in after_client n c' w' 0 []
  | NetClientPoll response now =>
      let '(c', ev, r) := poll c response now in
      after_client n c' w 0 (response_event ev r)
  | NetClientClear => after_client n (clear_pending_responses c) w 0 []
  | NetServerPoll request => after_server n (server (RpcServerProps.ServerPoll request))
  | NetReply client pdu => after_server n (server (RpcServerProps.ServerReply client pdu))
  | NetCancelReply client pdu =>
      after_server n (server (RpcServerProps.ServerCancelReply client pdu))
  | NetServerClear => after_server n (server RpcServerProps.ServerClear)
  | NetOther key data =>
      let rec := mkRpcSend key data true in
      mkNetwork c w (rn_server n) (rn_server_wire n) (rn_others n ++ [rec])
        (rn_to_server n ++ [rec]) (rn_to_client n)
        (rn_calls n) (rn_responses n) (rn_requests n)
  | NetDeliverToServer i => deliver_to_server n i
  | NetDeliverToClient i => deliver_to_client n i
  | NetLoseToServer i => set_flights (delete i (rn_to_server n)) (rn_to_client n) n
  | NetLoseToClient i => set_flights (rn_to_server n) (delete i (rn_to_client n)) n
  end.

Definition run_net (n : network) (ops : list net_op) : network := foldl run_net_op n ops.

Definition network_start (c : RpcClient) (s : RpcServer) : network :=
  mkNetwork c [] s [] [] [] [] 0 [] [].

(** ** Where events come from *)

Definition client_queued (sn cn : string) (p : PendingResponse) (rec : RpcSend) : Prop :=
  prs_data p = rsn_data rec /\ rsn_key rec = response_key sn cn.

Definition server_queued (p : PendingRequest) (rec : RpcSend) : Prop :=
  pr_data p = rsn_data rec.

(** The response an event carries is the packet [rec], which the server of [sn]
    sent to the client [cn] and whose header names that service and client. *)
Definition client_shows (sn cn : string) (x : RpcClientEventType * RpcResponse)
    (rec : RpcSend) : Prop :=
  let h := res_header x.2 in
  res_pdu x.2 = rsn_data rec /\ h = pdu2cpp_ServiceResponseHeader (rsn_data rec)
  /\ rsn_key rec = response_key sn cn
  /\ rp_service_name h = sn /\ rp_client_name h = cn
  /\ (x.1 = RpcClient_RESPONSE_CANCEL <-> rp_result_code h = HAKO_SERVICE_RESULT_CODE_CANCELED).

(** The request an event carries is the packet [rec]. *)
Definition server_shows (x : RpcServerEventType * RpcRequest) (rec : RpcSend) : Prop :=
  req_pdu x.2 = rsn_data rec
  /\ exists prev, req_header x.2 = pdu2cpp_ServiceRequestHeader (rsn_data rec) prev.

Definition shown_requests (evs : list (RpcServerEventType * RpcRequest))
    : list (RpcServerEventType * RpcRequest) :=
  List.filter (fun x => negb (bool_decide (x.1 = RpcServer_NONE))) evs.
End Steps.

(** ** The invariant *)

Section Invariant.
Context {P : RpcPlatform}.

Record net_inv (sn cn : string) (n : network) : Prop := {
  ni_service : rc_service_name (rn_client n) = sn;
  ni_name : rc_client_name (rn_client n) = cn;
  ni_server : rs_service_name (rn_server n) = sn;
  ni_keys : Forall (fun rec => rsn_key rec = response_key sn cn) (rn_to_client n);
  ni_to_client :
    flow rsn_ok (client_queued sn cn) (client_shows sn cn) (rc_pending_responses (rn_client n))
      (rn_responses n) (rn_to_client n) (rn_server_wire n);
  ni_to_server :
    flow rsn_ok server_queued server_shows (rs_pending_requests (rn_server n))
      (shown_requests (rn_requests n)) (rn_to_server n) (rn_client_wire n ++ rn_others n);
  ni_replies : RpcServerProps.replies sn cn (rn_server_wire n)
    + RpcServerProps.busy (rn_server n) cn = RpcServerProps.admissions cn (rn_requests n);
  ni_calls : length (rn_responses n) + RpcClientProps.outstanding (rn_client n) <= rn_calls n;
}.

(** What a call of the client may do. *)
Record client_call (c : RpcClient) (w : RpcWire) (c' : RpcClient) (w' : RpcWire)
    (calls : nat) (shown : list (RpcClientEventType * RpcResponse)) : Prop := {
  cc_service : rc_service_name c' = rc_service_name c;
  cc_name : rc_client_name c' = rc_client_name c;
  cc_wire : exists new, w' = w ++ new;
  cc_flow sn cn evs flight w0 :
    rc_service_name c = sn -> rc_client_name c = cn ->
    flow rsn_ok (client_queued sn cn) (client_shows sn cn) (rc_pending_responses c)
      evs flight w0 ->
    flow rsn_ok (client_queued sn cn) (client_shows sn cn) (rc_pending_responses c')
      (evs ++ shown) flight w0;
  cc_calls : length shown + RpcClientProps.outstanding c'
             <= RpcClientProps.outstanding c + calls;
}.

Lemma rpc_after_client_inv sn cn n c' w' calls shown :
  net_inv sn cn n -> client_call (rn_client n) (rn_client_wire n) c' w' calls shown ->
  net_inv sn cn (after_client n c' w' calls shown).
Proof.
  intros [H1 H2 H3 Hk Hc Hs Hr Hl] [C1 C2 [new ->] Cf Cc].
  split; cbn [after_client rn_client rn_server rn_to_client rn_to_server rn_responses
    rn_server_wire rn_requests rn_client_wire rn_others rn_calls]; try done; try congruence.
  - by apply Cf.
  - rewrite accepted_since_app. eapply flow_grow.
    + eapply (flow_new _ _ _ _ _ _ _ _ new Hs); [apply filter_ok|].
      apply sublist_submseteq. by apply sublist_filter.
    + rewrite <-!app_assoc. apply submseteq_app; [done|]. by rewrite (comm (++)).
  - rewrite length_app. lia.
Qed.

(** Calls that leave the queue alone. *)
Lemma rpc_quiet_call c w c' w' calls :
  rc_service_name c' = rc_service_name c -> rc_client_name c' = rc_client_name c ->
  (exists new, w' = w ++ new) -> rc_pending_responses c' = rc_pending_responses c ->
  RpcClientProps.outstanding c' <= RpcClientProps.outstanding c + calls ->
  client_call c w c' w' calls [].
Proof. intros ? ? ? Hq ?. split; try done. intros. by rewrite Hq, app_nil_r. Qed.

Lemma send_request_extends c w pdu w' sent :
  send_request c w pdu = (w', sent) -> exists new, w' = w ++ new.
Proof. unfold send_request, rpc_send. intros [= <- _]. by eexists. Qed.

Lemma create_call c w opcode :
  client_call c w (create_request_buffer c opcode false).1 w 0 [].
Proof.
  apply rpc_quiet_call; try done; [exists []; by rewrite app_nil_r|].
  change (RpcClientProps.outstanding _) with (RpcClientProps.outstanding c) at 1. lia.
Qed.

Lemma call_call c w pdu timeout now c' w' started :
  call c w pdu timeout now = (c', w', started) ->
  client_call c w c' w' (if started then 1 else 0) [].
Proof.
  intros Hc. pose proof (RpcClientProps.run_op_outcomes c w
    (RpcClientProps.ClientCall pdu timeout now) c' w' (if started then 1 else 0) 0) as Ho.
  cbn in Ho. rewrite Hc in Ho. specialize (Ho eq_refl). unfold call in Hc.
  destruct (negb _).
  { injection Hc as <- <- <-. apply rpc_quiet_call; try done. exists []. by rewrite app_nil_r. }
  destruct (send_request _ w pdu) as [w1 sent] eqn:Hs. apply send_request_extends in Hs.
  destruct sent; injection Hc as <- <- <-; by apply rpc_quiet_call.
Qed.

Lemma cancel_call c w c' w' sent :
  send_cancel_request c w = (c', w', sent) -> client_call c w c' w' 0 [].
Proof.
  intros Hc. pose proof (RpcClientProps.run_op_outcomes c w RpcClientProps.ClientCancel c' w' 0 0) as Ho.
  cbn in Ho. rewrite Hc in Ho. specialize (Ho eq_refl). unfold send_cancel_request in Hc.
  destruct (negb _).
  { injection Hc as <- <- <-. apply rpc_quiet_call; try done. exists []. by rewrite app_nil_r. }
  destruct (create_request_buffer _ _ _) as [c1 pdu] eqn:Hb. injection Hb as <- _.
  destruct (send_request c w pdu) as [w1 ok] eqn:Hs. apply send_request_extends in Hs.
  destruct ok; injection Hc as <- <- <-; by apply rpc_quiet_call.
Qed.

Lemma client_poll_queue c r now c' ev r' :
  poll c r now = (c', ev, r') ->
  rc_service_name c' = rc_service_name c /\ rc_client_name c' = rc_client_name c
  /\ ((rc_pending_responses c' = rc_pending_responses c /\ response_event ev r' = [])
      \/ exists i p, rc_pending_responses c !! i = Some p
           /\ rc_pending_responses c' = delete i (rc_pending_responses c)
           /\ (response_event ev r' = []
               \/ response_event ev r' = [(ev, r')] /\ forall rec,
                    client_queued (rc_service_name c) (rc_client_name c) p rec ->
                    client_shows (rc_service_name c) (rc_client_name c) (ev, r') rec)).
Proof.
  intros Hp. pose proof (RpcClientProps.poll_cases _ _ _ _ _ _ Hp) as Hcs. revert Hp.
  unfold poll. destruct (bool_decide _); [intros [= <- <- <-]; auto|].
  destruct (_ && _); [intros [= <- <- <-]; auto|].
  destruct (find_response c) as [[i p]|] eqn:Hf; [|intros [= <- <- <-]; auto].
  apply list_find_Some in Hf as (Hi & _ & _). unfold handle_response_in. cbn [res_header].
  destruct (validate_header _ _); cbn [negb]; cycle 1.
  { intros [= <- <- <-]. split_and!; [done|done|]. right. exists i, p. auto. }
  set (q := set_responses (delete i (rc_pending_responses c)) c).
  destruct (rp_result_code _ =? _)%Z; intros [= <- <- <-]; (split_and!; [done|done|]); right;
    exists i, p; (split_and!; [done|done|]); right; (split; [done|]);
    destruct Hcs as (_ & H1 & H2 & _ & H4 & _); cbn [res_header] in *;
    intros rec [Hd Hk]; unfold client_shows; cbn [fst snd res_header res_pdu];
    rewrite <-Hd; by split_and!.
Qed.

Lemma client_poll_call c w r now c' ev r' :
  poll c r now = (c', ev, r') -> client_call c w c' w 0 (response_event ev r').
Proof.
  intros Hp.
  pose proof (RpcClientProps.run_op_outcomes c w (RpcClientProps.ClientPoll r now) c' w 0
    (length (response_event ev r'))) as Ho.
  cbn in Ho. rewrite Hp in Ho. specialize (Ho ltac:(by destruct ev)).
  apply client_poll_queue in Hp as (H1 & H2 & Hq).
  split; [done|done|exists []; by rewrite app_nil_r| |done].
  intros sn cn evs flight w0 <- <- Hf.
  destruct Hq as [[-> ->]|(i & p & Hi & -> & [->|[-> Hsh]])].
  - by rewrite app_nil_r.
  - rewrite app_nil_r. by apply flow_drop_at.
  - by eapply flow_show_at.
Qed.

Lemma rpc_clear_call c w : client_call c w (clear_pending_responses c) w 0 [].
Proof.
  split; try done; [exists []; by rewrite app_nil_r| |].
  - intros sn cn evs flight w0 _ _ Hf. rewrite app_nil_r. by eapply flow_clear.
  - change (RpcClientProps.outstanding (clear_pending_responses c))
      with (RpcClientProps.outstanding c). cbn. lia.
Qed.

(** ** The server's side *)

Lemma poll_event_packet s w r pk rest s' w' ev :
  rs_pending_requests s = pk :: rest -> RpcServerEp.poll s w r = (s', w', ev) ->
  req_pdu ev.2 = pr_data pk
  /\ req_header ev.2 = pdu2cpp_ServiceRequestHeader (pr_data pk) (req_header r).
Proof.
  intros Hq. unfold RpcServerEp.poll. rewrite Hq.
  destruct (RpcServerEp.validate_header _ _) as [s1 valid].
  unfold handle_cancel_request, handle_request_in. cbn [req_header req_pdu].
  repeat (split_guard; try (by intros [= <- <- <-])).
Qed.

(** What a call of the server may do. *)
Record server_call (s : RpcServer) (w : RpcWire) (s' : RpcServer) (w' : RpcWire)
    (evs : list (RpcServerEventType * RpcRequest)) : Prop := {
  sc_service : rs_service_name s' = rs_service_name s;
  sc_wire : exists new, w' = w ++ new;
  sc_flow shown flight w0 :
    flow rsn_ok server_queued server_shows (rs_pending_requests s) shown flight w0 ->
    flow rsn_ok server_queued server_shows (rs_pending_requests s')
      (shown ++ shown_requests evs) flight w0;
  sc_replies c : RpcServerProps.replies (rs_service_name s) c w'
    + RpcServerProps.busy s' c
    = RpcServerProps.replies (rs_service_name s) c w + RpcServerProps.busy s c
      + RpcServerProps.admissions c evs;
}.

Lemma rpc_server_poll_flow s w r s' w' ev shown flight w0 :
  RpcServerEp.poll s w r = (s', w', ev) ->
  flow rsn_ok server_queued server_shows (rs_pending_requests s) shown flight w0 ->
  flow rsn_ok server_queued server_shows (rs_pending_requests s')
    (shown ++ shown_requests [ev]) flight w0.
Proof.
  intros Hp Hf. destruct (rs_pending_requests s) as [|pk rest] eqn:Hq.
  { unfold RpcServerEp.poll in Hp. rewrite Hq in Hp. injection Hp as <- _ <-.
    unfold shown_requests. cbn. by rewrite app_nil_r, Hq. }
  destruct (poll_event_packet _ _ _ _ _ _ _ _ Hq Hp) as [Hd Hh].
  apply RpcServerFacts.poll_frame in Hp as (_ & -> & _). rewrite Hq. cbn [tail].
  unfold shown_requests. cbn. case_bool_decide as Hn; cbn.
  - rewrite app_nil_r. by eapply flow_drop.
  - eapply flow_show; [done|]. intros rec Hr. unfold server_queued in Hr.
    split; [congruence|]. exists (req_header r). by rewrite <-Hr.
Qed.

Lemma server_op_call s w op s' w' evs :
  (forall k d, op <> RpcServerProps.ServerReceive k d) ->
  RpcServerProps.run_op s w op = (s', w', evs) -> server_call s w s' w' evs.
Proof.
  intros Hne Hop. destruct (RpcServerProps.run_op_balanced _ _ _ _ _ _ Hop)
    as (Hn & extra & -> & Hb).
  split; [done|by eexists| |].
  - intros shown flight w0 Hf. destruct op as [k d|r|c pdu|c pdu|]; cbn in Hop.
    + by destruct (Hne k d).
    + destruct (RpcServerEp.poll s w r) as [[s1 w1] ev] eqn:Hp. injection Hop as -> _ <-.
      by eapply rpc_server_poll_flow.
    + destruct (send_reply s w c pdu) as [s1 w1] eqn:Hs. injection Hop as -> _ <-.
      apply RpcServerFacts.send_reply_frame in Hs as [(m & -> & _) _].
      unfold shown_requests. cbn. by rewrite app_nil_r.
    + destruct (send_cancel_reply s w c pdu) as [s1 w1] eqn:Hs. injection Hop as -> _ <-.
      apply RpcServerFacts.send_cancel_reply_frame in Hs as [(m & -> & _) _].
      unfold shown_requests. cbn. by rewrite app_nil_r.
    + injection Hop as <- _ <-. unfold shown_requests. cbn. rewrite app_nil_r.
      by eapply flow_clear.
  - intros c. rewrite RpcServerProps.replies_app. specialize (Hb c). lia.
Qed.

Lemma rpc_after_server_inv sn cn n op :
  (forall k d, op <> RpcServerProps.ServerReceive k d) -> net_inv sn cn n ->
  net_inv sn cn (after_server n (RpcServerProps.run_op (rn_server n) (rn_server_wire n) op)).
Proof.
  intros Hne [H1 H2 H3 Hk Hc Hs Hr Hl].
  destruct (RpcServerProps.run_op _ _ op) as [[s' w'] evs] eqn:Hop.
  apply server_op_call in Hop as [S1 [new ->] Sf Sr]; [|done].
  split; cbn [after_server rn_client rn_server rn_to_client rn_to_server rn_responses
    rn_server_wire rn_requests rn_client_wire rn_others rn_calls]; try done; [congruence|..].
  - apply Forall_app. split; [done|]. unfold for_client. rewrite H1, H2.
    apply Forall_forall. by intros x [? _]%list_elem_of_filter.
  - rewrite accepted_since_app. apply flow_new; [done|..].
    + unfold for_client. apply Forall_forall. intros x [_ Hx]%list_elem_of_filter.
      by apply list_elem_of_filter in Hx as [? _].
    + apply sublist_submseteq. unfold for_client.
      etrans; [apply sublist_filter|]. apply sublist_filter.
  - unfold shown_requests in *. rewrite List.filter_app. by apply Sf.
  - specialize (Sr cn). rewrite H3 in Sr. unfold RpcServerProps.admissions in *.
    rewrite fmap_app, sum_list_with_app. lia.
Qed.

(** ** The transport's side *)

Lemma rpc_deliver_to_server_inv sn cn n i :
  net_inv sn cn n -> net_inv sn cn (deliver_to_server n i).
Proof.
  intros Hn. unfold deliver_to_server. destruct (rn_to_server n !! i) as [rec|] eqn:Hi; [|done].
  destruct Hn as [H1 H2 H3 Hk Hc Hs Hr Hl]. split; try done.
  by eapply flow_enqueue.
Qed.

Lemma rpc_deliver_to_client_inv sn cn n i :
  net_inv sn cn n -> net_inv sn cn (deliver_to_client n i).
Proof.
  intros Hn. unfold deliver_to_client. destruct (rn_to_client n !! i) as [rec|] eqn:Hi; [|done].
  destruct Hn as [H1 H2 H3 Hk Hc Hs Hr Hl]. split; try done.
  - by apply Forall_delete.
  - eapply flow_enqueue; [done..|]. intros _. split; [done|].
    by apply (Forall_lookup_1 _ _ _ _ Hk Hi).
Qed.

Lemma rpc_other_inv sn cn n key data :
  net_inv sn cn n -> net_inv sn cn (run_net_op n (NetOther key data)).
Proof.
  intros [H1 H2 H3 Hk Hc Hs Hr Hl]. split; try done.
  cbn [run_net_op rn_client_wire rn_others rn_to_server rn_server rn_requests].
  rewrite app_assoc. apply flow_new; [done| |done]. by constructor.
Qed.

Lemma rpc_lose_inv sn cn n i :
  net_inv sn cn n ->
  net_inv sn cn (run_net_op n (NetLoseToServer i)) /\ net_inv sn cn (run_net_op n (NetLoseToClient i)).
Proof.
  intros [H1 H2 H3 Hk Hc Hs Hr Hl]. split; (split; try done).
  - by apply flow_lose.
  - by apply Forall_delete.
  - by apply flow_lose.
Qed.

Lemma rpc_run_net_op_inv sn cn n op :
  net_inv sn cn n -> net_inv sn cn (run_net_op n op).
Proof.
  intros Hn. destruct op as [opcode|pdu timeout now| |r now| |r|c pdu|c pdu| |k d|i|i|i|i];
    try (by apply rpc_after_server_inv); try (by apply rpc_lose_inv); cbn [run_net_op].
  - apply rpc_after_client_inv; [done|apply create_call].
  - destruct (call _ _ _ _ _) as [[c' w'] st] eqn:Hc.
    apply rpc_after_client_inv; [done|by eapply call_call].
  - destruct (send_cancel_request _ _) as [[c' w'] st] eqn:Hc.
    apply rpc_after_client_inv; [done|by eapply cancel_call].
  - destruct (poll _ _ _) as [[c' ev] r'] eqn:Hp.
    apply rpc_after_client_inv; [done|by eapply client_poll_call].
  - apply rpc_after_client_inv; [done|apply rpc_clear_call].
  - by apply rpc_other_inv.
  - by apply rpc_deliver_to_server_inv.
  - by apply rpc_deliver_to_client_inv.
Qed.

(** A client and the server of its service, both idle, nothing queued. *)
Definition net_ready (c : RpcClient) (s : RpcServer) : Prop :=
  rs_service_name s = rc_service_name c /\ RpcServerFacts.fresh s
  /\ rc_state c = CLIENT_STATE_IDLE /\ rc_pending_responses c = [].

Lemma rpc_run_net_inv c s ops :
  net_ready c s ->
  net_inv (rc_service_name c) (rc_client_name c) (run_net (network_start c s) ops).
Proof.
  intros (Hn & Hf & Hi & Hq). unfold run_net.
  assert (Hs : net_inv (rc_service_name c) (rc_client_name c) (network_start c s)).
  { split; cbn [network_start rn_client rn_server rn_to_client rn_to_server rn_responses
      rn_server_wire rn_requests rn_client_wire rn_others rn_calls]; try done.
    - rewrite Hq. apply flow_nil.
    - rewrite (proj2 Hf). apply flow_nil.
    - by rewrite RpcServerFacts.fresh_busy.
    - by rewrite RpcClientProps.outstanding_idle. }
  revert Hs. generalize (network_start c s). induction ops as [|op ops IH]; [done|].
  intros n Hs. apply IH. by apply rpc_run_net_op_inv.
Qed.

Lemma client_shows_reply sn cn evs sent w :
  Forall2 (client_shows sn cn) evs sent -> sent ⊆+ w ->
  length evs <= RpcServerProps.replies sn cn w.
Proof.
  intros Hs Hw. unfold RpcServerProps.replies.
  assert (Hall : List.filter (fun _ => true) evs = evs).
  { clear. induction evs as [|e evs IH]; [done|]. cbn. by rewrite IH. }
  rewrite <-Hall. eapply shown_count; [done|done|].
  intros ev rec (_ & _ & Hk & _) _. by apply bool_decide_eq_true.
Qed.
End Invariant.

(** ** A run *)

Import ConcreteRpc.

Module RpcNetDemo.

Definition start : network :=
  network_start RpcClientProps.Demo.idle_client RpcServerProps.Demo.ready.

Definition reply_packet : RpcPduData :=
  create_reply_buffer (RpcServerProps.Demo.request_header 1)
    HAKO_SERVICE_STATUS_DONE HAKO_SERVICE_RESULT_CODE_OK.

(** One call: the request reaches the server behind a packet of another client,
    the server answers, the client polls the answer. *)
Definition ops : list net_op :=
  [ NetCreate HAKO_SERVICE_OPERATION_CODE_REQUEST;
    NetOther (mkPduKey "s" "xReq") [];
    NetCall RpcClientProps.Demo.created.2 1000 50;
    NetDeliverToServer 1; NetServerPoll RpcServerProps.Demo.no_request;
    NetReply "c" reply_packet; NetReply "c" reply_packet;
    NetDeliverToClient 0; NetClientPoll RpcClientProps.Demo.no_response 60;
    NetDeliverToServer 0; NetServerPoll RpcServerProps.Demo.no_request ].

Lemma start_ready : net_ready RpcClientProps.Demo.idle_client RpcServerProps.Demo.ready.
Proof.
  split_and!; [done| |done|done]. split; [|done]. intros c st Hst.
  change (rs_server_states RpcServerProps.Demo.ready) with
    (<["c" := RpcServerProps.idle]> (∅ : gmap string ServerProcessingStatus)) in Hst.
  apply lookup_insert_Some in Hst as [[_ <-]|[_ Hst]]; [done|].
  by rewrite lookup_empty in Hst.
Qed.
End RpcNetDemo.

(** ** Properties *)

(** C17 — An RPC client and the server of its service over a network that delays,
    reorders and loses packets, with other clients sending to the server what
    they like: every response the client is shown is a packet the server sent to
    it, every request the server is shown is a packet the client or another
    client sent, no packet is shown twice, and the events carry the bytes that
    were sent. So the client sees at most as many responses as the server sent
    replies to it, the server replies at most once per request of this client it
    was shown, and there are at most as many responses as calls. *)
Theorem rpc_network_accounting {P : RpcPlatform} c s ops :
  net_ready c s ->
  let n := run_net (network_start c s) ops in
  let sn := rc_service_name c in
  let cn := rc_client_name c in
  (exists sent, Forall2 (client_shows sn cn) (rn_responses n) sent /\ sent ⊆+ rn_server_wire n)
  /\ (exists sent, Forall2 server_shows (shown_requests (rn_requests n)) sent
        /\ sent ⊆+ rn_client_wire n ++ rn_others n)
  /\ length (rn_responses n) <= RpcServerProps.replies sn cn (rn_server_wire n)
  /\ RpcServerProps.replies sn cn (rn_server_wire n)
      <= RpcServerProps.admissions cn (rn_requests n)
  /\ length (rn_responses n) <= rn_calls n.
Proof.
  intros Hr n sn cn. destruct (rpc_run_net_inv c s ops Hr) as [_ _ _ _ Hc Hs Hb Hl].
  apply flow_shown in Hc as (sc & Hsc & Hwc), Hs as (ss & Hss & Hws).
  split_and!; [by exists sc|by exists ss|by eapply client_shows_reply| |].
  - unfold n, sn, cn in *. lia.
  - unfold n in *. lia.
Qed.

Lemma rpc_network_accounting_witness :
  length (rn_responses (run_net RpcNetDemo.start RpcNetDemo.ops)) = 1
  /\ 1 <= rn_calls (run_net RpcNetDemo.start RpcNetDemo.ops).
Proof.
  destruct (rpc_network_accounting RpcClientProps.Demo.idle_client RpcServerProps.Demo.ready
              RpcNetDemo.ops RpcNetDemo.start_ready) as (_ & _ & _ & _ & H).
  assert (H0 : length (rn_responses (run_net RpcNetDemo.start RpcNetDemo.ops)) = 1)
    by (vm_compute; reflexivity).
  split; [exact H0|]. rewrite <-H0 at 1. exact H.
Defined.
End RpcNetwork.
