(* ===== verification/RpcInstances.v ===== *)
(** * The static registries of RPC endpoints

    [RpcServerEndpointImpl] and [RpcClientEndpointImpl] each keep a static
    [std::vector] of shared pointers, [instances_]: [initialize] appends the
    endpoint, the destructor removes it, [clear_all_instances] empties the
    vector, and [pdu_recv_callback] searches it. What matters of it is object
    lifetime: an endpoint lives while some shared pointer to it exists, in
    [instances_] or in the [rpc_endpoints_] map of a services object.

    A process is the live endpoints by object number, the registry, and the
    maps of its services objects. The endpoint type is a parameter; both
    classes instantiate it at the end. *)

From S2P Require Import Prelude OrderedMap RpcTypes RpcServerEndpoint RpcClientEndpoint.
From Stdlib Require Import ZArith Lia.
From stdpp Require Import base gmap strings list fin_maps relations.

Module RpcInstances.
Import Rpc.

(** What the registry code uses of an endpoint class. *)
Class EndpointClass (E : Type) := {
  ec_has_endpoint : E -> bool;
  ec_clear_pending : E -> E;
}.

Section Registry.
Context {E : Type} {EC : EndpointClass E}.

Record process := mkProcess {
  pc_live : gmap nat E;
  pc_instances : list nat;
  pc_services : gmap nat (list (string * nat));
  pc_next : nat;
}.

Definition empty_process : process := mkProcess ∅ [] ∅ 0.

Definition set_live (m : gmap nat E) (p : process) : process :=
  mkProcess m (pc_instances p) (pc_services p) (pc_next p).
Definition set_instances (l : list nat) (p : process) : process :=
  mkProcess (pc_live p) l (pc_services p) (pc_next p).
Definition set_services (m : gmap nat (list (string * nat))) (p : process) : process :=
  mkProcess (pc_live p) (pc_instances p) m (pc_next p).

(** The endpoints the services objects point to. *)
Definition held (p : process) : list nat :=
  map_to_list (pc_services p) ≫= (fun kv => kv.2.*2).

(** ** Lifetime *)

(** The destructor: [remove_if] and [erase] on the registry. *)
Definition destructor (o : nat) (p : process) : process :=
  mkProcess (delete o (pc_live p)) (filter (fun i => i <> o) (pc_instances p))
    (pc_services p) (pc_next p).

(** A shared pointer to [o] has gone: the last one destroys the endpoint. *)
Definition release (p : process) (o : nat) : process :=
  if bool_decide (o ∈ pc_instances p) || bool_decide (o ∈ held p) then p
  else destructor o p.

(** [instances_.clear()] destroys the pointers in the vector. If one of them is
    the last to its endpoint, the endpoint's destructor runs [remove_if] and
    [erase] on the vector that is being cleared, which the language leaves
    undefined: [None]. No line of the source says so; it is what the C++ standard
    says of a container that is used while one of its operations runs. *)
Definition clear_instances (p : process) : option process :=
  if forallb (fun o => bool_decide (o ∈ held p)) (pc_instances p)
  then Some (set_instances [] p) else None.

(** ** The services objects *)

Definition new_services (sid : nat) (p : process) : process :=
  match pc_services p !! sid with
  | Some _ => p
  | None => set_services (<[sid := []]> (pc_services p)) p
  end.

(** [make_shared], [initialize] and, on success,
    [rpc_endpoints_[service_name] = endpoint]; the local pointer then goes.
    [initialize] registers the endpoint first, whatever its result. *)
Definition add_service (sid : nat) (name : string) (e : E) (init : E -> E * bool)
    (p : process) : process * bool :=
  match pc_services p !! sid with
  | None => (p, false)
  | Some m =>
      let o := pc_next p in
      let '(e', ok) := init e in
      let p1 := mkProcess (<[o := e']> (pc_live p))
                  (if ec_has_endpoint e then pc_instances p ++ [o] else pc_instances p)
                  (pc_services p) (S o) in
      if negb ok then (release p1 o, false)
      else
        let p2 := set_services (<[sid := om_insert name o m]> (pc_services p)) p1 in
        (match om_find name m with Some old => release p2 old | None => p2 end, true)
  end.

Definition clear_pending_of (m : list (string * nat)) (p : process) : process :=
  foldl (fun p' kv => set_live (alter ec_clear_pending kv.2 (pc_live p')) p') p m.

(** The destructor of the services object: [stop_all_services], then its map
    and the pointers in it go. *)
Definition drop_services (sid : nat) (p : process) : process :=
  match pc_services p !! sid with
  | None => p
  | Some m =>
      let p1 := clear_pending_of m p in
      foldl release (set_services (delete sid (pc_services p)) p1) m.*2
  end.

(** [clear_all_instances] of a services object: per endpoint, its queue and
    then the whole static registry. *)
Fixpoint clear_each (m : list (string * nat)) (p : process) : option process :=
  match m with
  | [] => Some p
  | (_, o) :: rest =>
      p' ← clear_instances (set_live (alter ec_clear_pending o (pc_live p)) p);
      clear_each rest p'
  end.

Definition clear_all_instances (sid : nat) (p : process) : option process :=
  match pc_services p !! sid with
  | None => Some p
  | Some m => clear_each m p
  end.

(** ** Runs *)

Inductive registry_op :=
  | RegNew (sid : nat)
  | RegAdd (sid : nat) (name : string) (e : E) (init : E -> E * bool)
  | RegDrop (sid : nat)
  | RegClear (sid : nat).

Definition run_registry_op (p : process) (op : registry_op) : option process :=
  match op with
  | RegNew sid => Some (new_services sid p)
  | RegAdd sid name e init => Some (add_service sid name e init p).1
  | RegDrop sid => Some (drop_services sid p)
  | RegClear sid => clear_all_instances sid p
  end.

Fixpoint run_registry (p : process) (ops : list registry_op) : option process :=
  match ops with
  | [] => Some p
  | op :: rest => p' ← run_registry_op p op; run_registry p' rest
  end.

(** What the C interface and the mux server do to the registry: stopping a
    handle clears it and then drops the services object; destroying a handle
    stops it, which leaves nothing to release; closing a connection of the mux server only drops the
    services object of the connection. *)
Definition stop_handle_ops (sid : nat) : list registry_op := [RegClear sid; RegDrop sid].

Definition destroy_handle_ops (handle : option nat) : list registry_op :=
  match handle with
  | None => []
  | Some sid => stop_handle_ops sid
  end.

Definition close_slot_ops (sid : nat) : list registry_op := [RegDrop sid].

(** ** The invariant *)

Lemma elem_of_held p o :
  o ∈ held p <-> exists sid m, pc_services p !! sid = Some m /\ o ∈ m.*2.
Proof.
  unfold held. rewrite list_elem_of_bind. split.
  - intros ([sid m] & Hin & Hm%elem_of_map_to_list). eauto.
  - intros (sid & m & Hm & Hin). exists (sid, m). split; [done|]. by apply elem_of_map_to_list.
Qed.

Definition referenced (p : process) (o : nat) : Prop := o ∈ pc_instances p \/ o ∈ held p.

(** Live endpoints are exactly the referenced ones, their numbers are used up,
    and no endpoint is in two services objects. *)
Record reg_wf (p : process) : Prop := {
  rw_live o : is_Some (pc_live p !! o) <-> referenced p o;
  rw_fresh o : referenced p o -> o < pc_next p;
  rw_one sid sid' m m' o :
    pc_services p !! sid = Some m -> pc_services p !! sid' = Some m' ->
    o ∈ m.*2 -> o ∈ m'.*2 -> sid = sid';
}.

Lemma empty_process_wf : reg_wf empty_process.
Proof.
  assert (Hn : forall o, ~ referenced empty_process o).
  { intros o [H|(sid & m & H & _)%elem_of_held]; [by apply elem_of_nil in H|].
    cbn in H. by rewrite lookup_empty in H. }
  split.
  - intros o. cbn. rewrite lookup_empty. split; [by intros []|]. by intros ?%Hn.
  - by intros o ?%Hn.
  - intros sid sid' m m' o Hs. cbn in Hs. by rewrite lookup_empty in Hs.
Qed.

Lemma filter_absent (o : nat) (l : list nat) : o ∉ l -> filter (fun i => i <> o) l = l.
Proof.
  induction l as [|x l IH]; [done|]. rewrite not_elem_of_cons. intros [Hx Hl].
  rewrite filter_cons_True by done. by rewrite IH.
Qed.

(** The destructor never finds itself in the registry: it runs only when no
    pointer is left, and the registry's own pointer is one. *)
Lemma release_cases p o :
  (referenced p o /\ release p o = p)
  \/ (~ referenced p o /\ release p o = set_live (delete o (pc_live p)) p).
Proof.
  unfold release, referenced. destruct (decide (o ∈ pc_instances p)) as [Hi|Hi].
  { left. rewrite bool_decide_eq_true_2 by done. auto. }
  destruct (decide (o ∈ held p)) as [Hh|Hh].
  { left. rewrite bool_decide_eq_false_2, bool_decide_eq_true_2 by done. auto. }
  right. rewrite !bool_decide_eq_false_2 by done. cbn. split; [tauto|].
  unfold destructor, set_live. by rewrite filter_absent.
Qed.

Lemma release_frame p o :
  pc_instances (release p o) = pc_instances p /\ pc_services (release p o) = pc_services p
  /\ pc_next (release p o) = pc_next p.
Proof. by destruct (release_cases p o) as [[_ ->]|[_ ->]]. Qed.

(** Endpoints that lost a pointer: the others are live iff referenced. *)
Record reg_wf_but (lost : list nat) (p : process) : Prop := {
  rb_live o : o ∉ lost -> is_Some (pc_live p !! o) <-> referenced p o;
  rb_kept o : referenced p o -> is_Some (pc_live p !! o);
  rb_fresh o : referenced p o -> o < pc_next p;
  rb_one sid sid' m m' o :
    pc_services p !! sid = Some m -> pc_services p !! sid' = Some m' ->
    o ∈ m.*2 -> o ∈ m'.*2 -> sid = sid';
}.

Lemma release_wf_but o lost p : reg_wf_but (o :: lost) p -> reg_wf_but lost (release p o).
Proof.
  intros [Hl Hk Hf Ho]. destruct (release_cases p o) as [[Hr ->]|[Hr ->]].
  - split; [|done..]. intros x Hx. destruct (decide (x = o)) as [->|Hne].
    + split; auto.
    + apply Hl. rewrite not_elem_of_cons. done.
  - assert (Hre : forall x, referenced (set_live (delete o (pc_live p)) p) x <-> referenced p x) by done.
    split; try done.
    + intros x Hx. rewrite Hre. cbn. destruct (decide (x = o)) as [->|Hne].
      * rewrite lookup_delete_eq. split; [by intros []|done].
      * rewrite lookup_delete_ne by done. apply Hl. rewrite not_elem_of_cons. done.
    + intros x Hx%Hre. cbn. rewrite lookup_delete_ne; [auto|]. by intros ->.
Qed.

Lemma releases_wf lost p : reg_wf_but lost p -> reg_wf (foldl release p lost).
Proof.
  revert p. induction lost as [|o lost IH]; intros p Hp; cbn; [|by apply IH, release_wf_but].
  destruct Hp as [Hl _ Hf Ho]. split; [|done..]. intros o. apply Hl. apply not_elem_of_nil.
Qed.

(** ** Every operation keeps the invariant *)

Lemma new_services_wf sid p : reg_wf p -> reg_wf (new_services sid p).
Proof.
  intros Hp. unfold new_services. destruct (pc_services p !! sid) as [m|] eqn:Hs; [done|].
  destruct Hp as [Hl Hf Ho].
  assert (Hre : forall o, referenced (set_services (<[sid := []]> (pc_services p)) p) o
                          <-> referenced p o).
  { intros o. unfold referenced. rewrite !elem_of_held. cbn. split; (intros [?|(s & m & Hm & Hin)];
      [by left|right]); exists s, m; (split; [|done]).
    - rewrite lookup_insert in Hm. case_decide; [|done]. injection Hm as <-.
      by apply elem_of_nil in Hin.
    - rewrite lookup_insert_ne; [done|]. congruence. }
  split.
  - intros o. rewrite Hre. apply Hl.
  - intros o. rewrite Hre. apply Hf.
  - intros s s' m m' o. cbn. rewrite !lookup_insert.
    repeat case_decide; try by (intros; simplify_eq; exfalso; eapply elem_of_nil; eauto).
    apply Ho.
Qed.

(** [set_live] with the same domain changes nothing of the invariant. *)
Lemma set_live_wf p m :
  (forall o, is_Some (m !! o) <-> is_Some (pc_live p !! o)) -> reg_wf p -> reg_wf (set_live m p).
Proof. intros Hd [Hl Hf Ho]. split; [|done..]. intros o. cbn. rewrite Hd. apply Hl. Qed.

Lemma clear_pending_of_spec m p :
  exists live, clear_pending_of m p = set_live live p
    /\ forall o, is_Some (live !! o) <-> is_Some (pc_live p !! o).
Proof.
  unfold clear_pending_of. revert p. induction m as [|[k o] m IH]; intros p; cbn.
  - exists (pc_live p). by destruct p.
  - destruct (IH (set_live (alter ec_clear_pending o (pc_live p)) p)) as (live & -> & Hl).
    exists live. split; [done|]. intros x. rewrite Hl. cbn. apply lookup_alter_is_Some.
Qed.

(** The state after [make_shared] and the registration in [initialize]. *)
Definition constructed (e e' : E) (p : process) : process :=
  mkProcess (<[pc_next p := e']> (pc_live p))
    (if ec_has_endpoint e then pc_instances p ++ [pc_next p] else pc_instances p)
    (pc_services p) (S (pc_next p)).

Lemma constructed_instances e e' p o :
  o ∈ pc_instances (constructed e e' p) ->
  o ∈ pc_instances p \/ o = pc_next p.
Proof. cbn. destruct (ec_has_endpoint e); [|auto]. rewrite elem_of_app, list_elem_of_singleton. auto. Qed.

Lemma constructed_wf e e' p : reg_wf p -> reg_wf_but [pc_next p] (constructed e e' p).
Proof.
  intros [Hl Hf Ho].
  assert (Hre : forall o, o <> pc_next p ->
                  referenced (constructed e e' p) o <-> referenced p o).
  { intros o Hne. unfold referenced. cbn. destruct (ec_has_endpoint e); [|done].
    rewrite elem_of_app, list_elem_of_singleton. tauto. }
  split; [..|done].
  - intros o Hne%not_elem_of_cons. rewrite Hre by tauto. cbn.
    rewrite lookup_insert_ne by (intros <-; tauto). apply Hl.
  - intros o Ho'. cbn. destruct (decide (o = pc_next p)) as [->|Hne]; [by rewrite lookup_insert_eq|].
    rewrite lookup_insert_ne by done. by apply Hl, Hre.
  - intros o Ho'. cbn. destruct (decide (o = pc_next p)) as [->|Hne]; [lia|].
    apply Hre, Hf in Ho'; [lia|done].
Qed.

(** The state after [rpc_endpoints_[name] = endpoint]. *)
Definition stored (e e' : E) (sid : nat) (name : string) (m : list (string * nat))
    (p : process) : process :=
  set_services (<[sid := om_insert name (pc_next p) m]> (pc_services p)) (constructed e e' p).

Lemma stored_held e e' sid name m p o :
  pc_services p !! sid = Some m -> o ∈ held (stored e e' sid name m p) ->
  o = pc_next p \/ o ∈ held p.
Proof.
  intros Hs. rewrite !elem_of_held. cbn. intros (s & m' & Hm & Hin).
  rewrite lookup_insert in Hm. case_decide; [|naive_solver]. injection Hm as <-.
  apply om_insert_values in Hin as [->|Hin]; [by left|]. right. eauto.
Qed.

Lemma stored_keeps e e' sid name m p o :
  pc_services p !! sid = Some m -> o ∉ option_list (om_find name m) -> o ∈ held p ->
  o ∈ held (stored e e' sid name m p).
Proof.
  intros Hs Hn. rewrite !elem_of_held. cbn. intros (s & m' & Hm & Hin).
  destruct (decide (s = sid)) as [->|Hne].
  - exists sid, (om_insert name (pc_next p) m). rewrite lookup_insert_eq. split; [done|].
    rewrite Hs in Hm. injection Hm as <-.
    destruct (om_insert_value_kept name (pc_next p) m o Hin) as [Hx|]; [|done].
    rewrite Hx in Hn. by destruct Hn; left.
  - exists s, m'. by rewrite lookup_insert_ne.
Qed.

Lemma stored_new e e' sid name m p : pc_next p ∈ held (stored e e' sid name m p).
Proof.
  apply elem_of_held. exists sid, (om_insert name (pc_next p) m). cbn.
  rewrite lookup_insert_eq. split; [done|]. apply om_insert_value.
Qed.

Lemma stored_one e e' sid name m p s s' a b o :
  reg_wf p -> pc_services p !! sid = Some m ->
  pc_services (stored e e' sid name m p) !! s = Some a ->
  pc_services (stored e e' sid name m p) !! s' = Some b -> o ∈ a.*2 -> o ∈ b.*2 -> s = s'.
Proof.
  intros [_ Hf Ho] Hs.
  assert (Hnone : forall s m' o, pc_services p !! s = Some m' -> o ∈ m'.*2 -> o <> pc_next p).
  { intros t m' x Hm Hin ->. assert (referenced p (pc_next p)) as ?%Hf; [|lia].
    right. apply elem_of_held. eauto. }
  cbn. rewrite !lookup_insert. repeat case_decide; subst; try done; [..|by apply Ho].
  - intros [= <-] Hb [->|Hin]%om_insert_values Hx; [|by eapply Ho].
    by destruct (Hnone _ _ _ Hb Hx).
  - intros Ha [= <-] Hx [->|Hin]%om_insert_values; [|by eapply Ho].
    by destruct (Hnone _ _ _ Ha Hx).
Qed.

Lemma stored_wf e e' sid name m p :
  reg_wf p -> pc_services p !! sid = Some m ->
  reg_wf_but (option_list (om_find name m)) (stored e e' sid name m p).
Proof.
  intros Hp Hs. pose proof Hp as [Hl0 Hf0 Ho].
  assert (Hback : forall o, referenced (stored e e' sid name m p) o ->
                            o = pc_next p \/ referenced p o).
  { intros o [Hi|Hh]; unfold referenced;
      [apply constructed_instances in Hi|apply stored_held in Hh; [|done]]; tauto. }
  split.
  - intros o Hn. destruct (decide (o = pc_next p)) as [->|Hne].
    { split; [right; apply stored_new|]. intros _. cbn. by rewrite lookup_insert_eq. }
    cbn. rewrite lookup_insert_ne by done. rewrite Hl0. split.
    + intros [Hi|Hh]; [left|right; by apply stored_keeps]. cbn. destruct (ec_has_endpoint e); [|done].
      apply elem_of_app. by left.
    + by intros [->|Hr]%Hback.
  - intros o [->|Hr]%Hback; cbn; [by rewrite lookup_insert_eq|]. apply Hl0 in Hr as Hr'.
    rewrite lookup_insert_ne; [done|]. intros <-. apply Hf0 in Hr. lia.
  - intros o [->|Hr%Hf0]%Hback; cbn; lia.
  - intros s s' a b o. by apply stored_one.
Qed.

Lemma add_service_wf sid name e init p : reg_wf p -> reg_wf (add_service sid name e init p).1.
Proof.
  intros Hp. unfold add_service. destruct (pc_services p !! sid) as [m|] eqn:Hs; [|done].
  destruct (init e) as [e' ok]. destruct ok; cbn [negb fst].
  - pose proof (releases_wf _ _ (stored_wf e e' sid name m p Hp Hs)) as Hr.
    by destruct (om_find name m).
  - apply (releases_wf [pc_next p] (constructed e e' p)). by apply constructed_wf.
Qed.

(** Deleting a services object. *)
Lemma deleted_held sid p o :
  o ∈ held (set_services (delete sid (pc_services p)) p) -> o ∈ held p.
Proof.
  rewrite !elem_of_held. cbn. intros (s & m & Hm & Hin).
  apply lookup_delete_Some in Hm as [_ Hm]. eauto.
Qed.

Lemma deleted_wf sid m p :
  reg_wf p -> pc_services p !! sid = Some m ->
  reg_wf_but m.*2 (set_services (delete sid (pc_services p)) p).
Proof.
  intros [Hl Hf Ho] Hs.
  assert (Hback : forall o, referenced (set_services (delete sid (pc_services p)) p) o ->
                            referenced p o).
  { intros o [?|Hh%deleted_held]; [by left|by right]. }
  split.
  - intros o Hn. cbn. rewrite Hl. split; [|auto]. intros [?|Hh]; [by left|right].
    apply elem_of_held in Hh as (s & m' & Hm & Hin). apply elem_of_held.
    exists s, m'. cbn. rewrite lookup_delete_ne; [done|]. congruence.
  - intros o Ho'. cbn. by apply Hl, Hback.
  - intros o Ho'. cbn. by apply Hf, Hback.
  - intros s s' a b o. cbn. intros [_ ?]%lookup_delete_Some [_ ?]%lookup_delete_Some.
    by apply Ho.
Qed.

Lemma drop_services_eq sid m p :
  pc_services p !! sid = Some m ->
  exists live, (forall o, is_Some (live !! o) <-> is_Some (pc_live p !! o))
    /\ drop_services sid p
       = foldl release (set_services (delete sid (pc_services p)) (set_live live p)) m.*2.
Proof.
  intros Hs. unfold drop_services. rewrite Hs.
  destruct (clear_pending_of_spec m p) as (live & -> & Hl). by exists live.
Qed.

Lemma drop_services_wf sid p : reg_wf p -> reg_wf (drop_services sid p).
Proof.
  intros Hp. destruct (pc_services p !! sid) as [m|] eqn:Hs.
  - destruct (drop_services_eq sid m p Hs) as (live & Hl & ->). apply releases_wf.
    by apply (deleted_wf sid m (set_live live p)); [apply set_live_wf|].
  - unfold drop_services. by rewrite Hs.
Qed.

Lemma clear_instances_Some p p' :
  clear_instances p = Some p' ->
  p' = set_instances [] p /\ forall o, o ∈ pc_instances p -> o ∈ held p.
Proof.
  unfold clear_instances. destruct (forallb _ _) eqn:Hf; [|done]. intros [= <-].
  split; [done|]. intros o Ho. rewrite forallb_forall in Hf.
  apply list_elem_of_In in Ho. apply Hf in Ho. by apply bool_decide_eq_true in Ho.
Qed.

Lemma clear_instances_wf p p' : reg_wf p -> clear_instances p = Some p' -> reg_wf p'.
Proof.
  intros [Hl Hf Ho] [-> Hh]%clear_instances_Some. split; [..|done].
  - intros o. cbn. rewrite Hl. unfold referenced. cbn. split.
    + intros [?|?]; right; [auto|done].
    + intros [?%elem_of_nil|?]; [done|by right].
  - intros o [?%elem_of_nil|?]; [done|]. apply Hf. by right.
Qed.

Lemma clear_each_wf m p p' : reg_wf p -> clear_each m p = Some p' -> reg_wf p'.
Proof.
  revert p. induction m as [|[k o] m IH]; intros p Hp; cbn; [by intros [= <-]|].
  destruct (clear_instances _) as [p1|] eqn:Hc; [|done]. cbn. apply IH.
  eapply clear_instances_wf; [|done]. apply set_live_wf; [|done].
  intros x. apply lookup_alter_is_Some.
Qed.

Lemma run_registry_wf ops p p' : reg_wf p -> run_registry p ops = Some p' -> reg_wf p'.
Proof.
  revert p. induction ops as [|op ops IH]; intros p Hp; cbn; [by intros [= <-]|].
  destruct (run_registry_op p op) as [p1|] eqn:Ho; [|done]. cbn. apply IH.
  destruct op as [sid|sid name e init|sid|sid]; cbn in Ho; simplify_eq.
  - by apply new_services_wf.
  - by apply add_service_wf.
  - by apply drop_services_wf.
  - unfold clear_all_instances in Ho. destruct (pc_services p !! sid); simplify_eq; [|done].
    by eapply clear_each_wf.
Qed.

(** ** Endpoints only the registry keeps *)

Definition orphan (p : process) (o : nat) : Prop :=
  o ∈ pc_instances p /\ o ∉ held p /\ o < pc_next p.

Lemma releases_frame l p :
  pc_instances (foldl release p l) = pc_instances p
  /\ pc_services (foldl release p l) = pc_services p /\ pc_next (foldl release p l) = pc_next p.
Proof.
  revert p. induction l as [|o l IH]; intros p; cbn; [done|].
  destruct (IH (release p o)) as (-> & -> & ->). apply release_frame.
Qed.

Lemma held_ext p p' : pc_services p = pc_services p' -> held p = held p'.
Proof. unfold held. by intros ->. Qed.

Lemma new_services_orphan sid p o : orphan p o -> orphan (new_services sid p) o.
Proof.
  unfold new_services. destruct (pc_services p !! sid) eqn:Hs; [done|]. intros (Hi & Hh & Hn).
  split_and!; [done| |done]. rewrite elem_of_held. cbn. intros (s & m & Hm & Hin).
  rewrite lookup_insert in Hm. case_decide.
  - injection Hm as <-. by apply elem_of_nil in Hin.
  - apply Hh, elem_of_held. eauto.
Qed.

Lemma add_service_orphan sid name e init p o :
  orphan p o -> orphan (add_service sid name e init p).1 o.
Proof.
  intros (Hi & Hh & Hn). unfold add_service.
  destruct (pc_services p !! sid) as [m|] eqn:Hs; [|done]. destruct (init e) as [e' ok].
  assert (Hi' : o ∈ pc_instances (constructed e e' p)).
  { cbn. destruct (ec_has_endpoint e); [apply elem_of_app; by left|done]. }
  destruct ok; cbn [negb fst].
  - assert (Hst : orphan (stored e e' sid name m p) o).
    { split_and!; [done| |cbn; lia]. intros [->|?]%stored_held; [lia|done..]. }
    change (set_services _ _) with (stored e e' sid name m p).
    destruct (om_find name m) as [old|]; [|done]. unfold orphan.
    destruct (release_frame (stored e e' sid name m p) old) as (-> & Hsv & ->).
    by rewrite (held_ext _ _ Hsv).
  - destruct (release_frame (constructed e e' p) (pc_next p)) as (Hri & Hrs & Hrn).
    change (mkProcess _ _ _ _) with (constructed e e' p). unfold orphan.
    rewrite Hri, Hrn, (held_ext _ _ Hrs). split_and!; [done|done|cbn; lia].
Qed.

Lemma drop_services_frame sid p :
  pc_instances (drop_services sid p) = pc_instances p
  /\ pc_services (drop_services sid p) = delete sid (pc_services p)
  /\ pc_next (drop_services sid p) = pc_next p.
Proof.
  destruct (pc_services p !! sid) as [m|] eqn:Hs.
  - destruct (drop_services_eq sid m p Hs) as (live & _ & ->).
    set (q := set_services _ _). destruct (releases_frame m.*2 q) as (-> & -> & ->). done.
  - unfold drop_services. rewrite Hs. by rewrite delete_id.
Qed.

Lemma drop_services_held sid p o : o ∈ held (drop_services sid p) -> o ∈ held p.
Proof.
  rewrite !elem_of_held. destruct (drop_services_frame sid p) as (_ & -> & _).
  intros (s & m & Hm & Hin). apply lookup_delete_Some in Hm as [_ Hm]. eauto.
Qed.

Lemma drop_services_orphan sid p o : orphan p o -> orphan (drop_services sid p) o.
Proof.
  intros (Hi & Hh & Hn). destruct (drop_services_frame sid p) as (Hi' & _ & Hn').
  split_and!; [by rewrite Hi'| |by rewrite Hn']. by intros ?%drop_services_held.
Qed.

(** Dropping a services object orphans its endpoints that are registered. *)
Lemma dropped_orphan sid m p o :
  reg_wf p -> pc_services p !! sid = Some m -> o ∈ m.*2 -> o ∈ pc_instances p ->
  orphan (drop_services sid p) o.
Proof.
  intros [_ Hf Ho] Hs Hin Hi. destruct (drop_services_frame sid p) as (Hi' & Hs' & Hn').
  split_and!; [by rewrite Hi'| |rewrite Hn'; apply Hf; by left].
  rewrite elem_of_held, Hs'. intros (s & m' & Hm & Hin').
  apply lookup_delete_Some in Hm as [Hne Hm]. apply Hne. by eapply Ho.
Qed.

Lemma orphan_clear_undefined p o sid m :
  orphan p o -> pc_services p !! sid = Some m -> m <> [] -> clear_all_instances sid p = None.
Proof.
  intros (Hi & Hh & _) Hs Hm. unfold clear_all_instances. rewrite Hs.
  destruct m as [|[k o'] m]; [done|]. cbn.
  destruct (clear_instances _) as [p1|] eqn:Hc; [|done].
  apply clear_instances_Some in Hc as [_ Hc]. by destruct (Hh (Hc o Hi)).
Qed.

(** Calls of [clear_all_instances] that reach an endpoint. *)
Definition is_clear (op : registry_op) : bool :=
  match op with RegClear _ => true | _ => false end.

Lemma run_registry_orphan ops p p' o :
  forallb (fun op => negb (is_clear op)) ops = true ->
  orphan p o -> run_registry p ops = Some p' -> orphan p' o.
Proof.
  revert p. induction ops as [|op ops IH]; intros p; cbn; [by intros _ ? [= <-]|].
  intros [Hop Hops]%andb_true_iff Ho. destruct op as [sid|sid name e init|sid|sid]; cbn; [..|done];
    apply IH; auto using new_services_orphan, add_service_orphan, drop_services_orphan.
Qed.

(** A successful [clear_all_instances] of a services object with services
    leaves the registry empty. *)
Lemma clear_each_empty m p p' :
  clear_each m p = Some p' -> m <> [] -> pc_instances p' = [].
Proof.
  assert (Hk : forall m p p', pc_instances p = [] -> clear_each m p = Some p' -> pc_instances p' = []).
  { clear. induction m as [|[k o] m IH]; intros p p' Hi; cbn; [by intros [= <-]|].
    destruct (clear_instances _) as [p1|] eqn:Hc; [|done]. cbn. apply IH.
    by apply clear_instances_Some in Hc as [-> _]. }
  destruct m as [|[k o] m]; [done|]. cbn. intros Hc _.
  destruct (clear_instances _) as [p1|] eqn:Hc1; [|done]. cbn in Hc.
  eapply Hk; [|done]. by apply clear_instances_Some in Hc1 as [-> _].
Qed.

Lemma clear_each_services m p p' : clear_each m p = Some p' -> pc_services p' = pc_services p.
Proof.
  revert p. induction m as [|[k o] m IH]; intros p; cbn; [by intros [= <-]|].
  destruct (clear_instances _) as [p1|] eqn:Hc; [|done]. cbn.
  apply clear_instances_Some in Hc as [-> _]. intros Hp%IH. by rewrite Hp.
Qed.

(** Stopping a handle destroys its endpoints. *)
Lemma stopped_destroyed sid m p p' o :
  reg_wf p -> pc_services p !! sid = Some m -> clear_all_instances sid p = Some p' ->
  o ∈ m.*2 -> pc_live (drop_services sid p') !! o = None.
Proof.
  intros Hwf Hs Hc Hin. unfold clear_all_instances in Hc. rewrite Hs in Hc.
  pose proof (clear_each_wf _ _ _ Hwf Hc) as Hwf'.
  assert (Hm : m <> []) by (intros ->; by apply elem_of_nil in Hin).
  pose proof (clear_each_empty _ _ _ Hc Hm) as Hi. apply clear_each_services in Hc.
  rewrite <-Hc in Hs. apply eq_None_not_Some. rewrite (rw_live _ (drop_services_wf sid p' Hwf')).
  destruct (drop_services_frame sid p') as (Hi' & Hsv & _). unfold referenced.
  rewrite Hi', Hi, elem_of_held, Hsv. intros [?%elem_of_nil|(s & m' & Hm' & Hin')]; [done|].
  apply lookup_delete_Some in Hm' as [Hne Hm'].
  by destruct (Hne (rw_one _ Hwf' _ _ _ _ o Hs Hm' Hin Hin')).
Qed.

(** ** The life of handles *)

(** A handle is created with all its services, stopped, or destroyed. *)
Inductive life_op :=
  | LifeCreate (sid : nat) (services : list (string * E * (E -> E * bool)))
  | LifeStop (sid : nat)
  | LifeDestroy (handle : option nat).

Definition life_ops (op : life_op) : list registry_op :=
  match op with
  | LifeCreate sid services =>
      RegNew sid :: ((fun x => RegAdd sid x.1.1 x.1.2 x.2) <$> services)
  | LifeStop sid => stop_handle_ops sid
  | LifeDestroy handle => destroy_handle_ops handle
  end.

Definition run_life (p : process) (ops : list life_op) : option process :=
  run_registry p (ops ≫= life_ops).

(** A creation uses a new handle and services that are each initialised
    successfully and under their own name. *)
Definition careful_op (p : process) (op : life_op) : bool :=
  match op with
  | LifeCreate sid services =>
      bool_decide (pc_services p !! sid = None)
      && bool_decide (NoDup services.*1.*1)
      && forallb (fun x => (x.2 x.1.2).2) services
  | LifeStop _ | LifeDestroy _ => true
  end.

Fixpoint careful (p : process) (ops : list life_op) : bool :=
  match ops with
  | [] => true
  | op :: rest =>
      careful_op p op
      && match run_registry p (life_ops op) with
         | Some p' => careful p' rest
         | None => true
         end
  end.

(** Every registered endpoint is held by a services object. *)
Definition reg_safe (p : process) : Prop :=
  reg_wf p /\ forall o, o ∈ pc_instances p -> o ∈ held p.

Lemma clear_each_defined m p :
  (forall o, o ∈ pc_instances p -> o ∈ held p) ->
  exists p', clear_each m p = Some p'.
Proof.
  revert p. induction m as [|[k o] m IH]; intros p Hp; cbn; [by eexists|].
  set (q := set_live _ p).
  assert (Hc : clear_instances q = Some (set_instances [] q)).
  { unfold clear_instances. replace (forallb _ _) with true; [done|]. symmetry.
    apply forallb_forall. intros x Hx. apply bool_decide_eq_true. apply list_elem_of_In in Hx.
    exact (Hp x Hx). }
  rewrite Hc. cbn. apply IH. by intros x ?%elem_of_nil.
Qed.

Lemma stop_safe sid p :
  reg_safe p -> exists p', run_registry p (stop_handle_ops sid) = Some p' /\ reg_safe p'.
Proof.
  intros [Hwf Hh]. cbn. unfold clear_all_instances.
  destruct (pc_services p !! sid) as [m|] eqn:Hs; cycle 1.
  { exists p. cbn. unfold drop_services. by rewrite Hs. }
  destruct (clear_each_defined m p Hh) as [p' Hc]. rewrite Hc. cbn. eexists. split; [done|].
  pose proof (clear_each_wf _ _ _ Hwf Hc) as Hwf'. split; [by apply drop_services_wf|].
  intros o. destruct (drop_services_frame sid p') as (-> & Hsv & _).
  destruct m as [|x m].
  - injection Hc as <-. intros Ho%Hh. rewrite elem_of_held, Hsv.
    apply elem_of_held in Ho as (s & m' & Hm & Hin). exists s, m'. split; [|done].
    rewrite lookup_delete_ne; [done|]. intros <-. rewrite Hs in Hm. injection Hm as <-.
    by apply elem_of_nil in Hin.
  - rewrite (clear_each_empty _ _ _ Hc) by done. by intros ?%elem_of_nil.
Qed.

Lemma add_safe sid name e init p m :
  reg_safe p -> pc_services p !! sid = Some m -> name ∉ m.*1 -> (init e).2 = true ->
  reg_safe (add_service sid name e init p).1
  /\ pc_services (add_service sid name e init p).1 !! sid = Some (om_insert name (pc_next p) m).
Proof.
  intros [Hwf Hh] Hs Hn Hok. pose proof (add_service_wf sid name e init p Hwf) as Hwf'.
  apply om_find_fresh in Hn. unfold add_service in *. rewrite Hs in *.
  destruct (init e) as [e' ok]. cbn in Hok. subst ok. cbn [negb] in *. rewrite Hn in *. cbn [fst] in *.
  change (set_services _ _) with (stored e e' sid name m p) in *.
  split; [split; [done|]|cbn; by rewrite lookup_insert_eq].
  intros o Ho. apply (constructed_instances e e' p) in Ho as [Ho| ->]; [|apply stored_new].
  apply stored_keeps; [done| |auto]. rewrite Hn. apply not_elem_of_nil.
Qed.

Lemma adds_safe sid services p m :
  reg_safe p -> pc_services p !! sid = Some m -> NoDup services.*1.*1 ->
  (forall k, k ∈ services.*1.*1 -> k ∉ m.*1) ->
  forallb (fun x => (x.2 x.1.2).2) services = true ->
  exists p', run_registry p ((fun x => RegAdd sid x.1.1 x.1.2 x.2) <$> services) = Some p'
    /\ reg_safe p'.
Proof.
  revert p m. induction services as [|[[name e] init] services IH]; intros p m Hp Hs; cbn.
  { by exists p. }
  intros [Hnd Hnds]%NoDup_cons Hfresh [Hok Hoks]%andb_true_iff.
  destruct (add_safe sid name e init p m Hp Hs) as [Hp' Hs']; [apply Hfresh; left|done|].
  eapply IH; [exact Hp'|exact Hs'|done| |done].
  intros k Hk [->|Hm]%om_insert_keys; [done|]. eapply Hfresh; [by right|done].
Qed.

Lemma new_safe sid p : reg_safe p -> reg_safe (new_services sid p).
Proof.
  intros [Hwf Hh]. split; [by apply new_services_wf|]. unfold new_services.
  destruct (pc_services p !! sid) as [m|] eqn:Hs; [done|]. intros o Ho%Hh.
  apply elem_of_held in Ho as (s & m & Hm & Hin). apply elem_of_held. exists s, m. cbn.
  rewrite lookup_insert_ne; [done|]. congruence.
Qed.

Lemma run_registry_app ops ops' p :
  run_registry p (ops ++ ops') = p' ← run_registry p ops; run_registry p' ops'.
Proof.
  revert p. induction ops as [|op ops IH]; intros p; cbn; [done|].
  destruct (run_registry_op p op); cbn; [apply IH|done].
Qed.

Lemma life_op_safe op p :
  reg_safe p -> careful_op p op = true ->
  exists p', run_registry p (life_ops op) = Some p' /\ reg_safe p'.
Proof.
  intros Hp. destruct op as [sid services|sid|[sid|]]; cbn [careful_op life_ops destroy_handle_ops];
    [|by intros; apply stop_safe|by intros; apply stop_safe|by exists p].
  intros [[Hs Hnd]%andb_true_iff Hok]%andb_true_iff.
  apply bool_decide_eq_true in Hs, Hnd. cbn [run_registry run_registry_op].
  eapply (adds_safe sid services (new_services sid p) []); [by apply new_safe| |done| |done].
  - unfold new_services. rewrite Hs. cbn. apply lookup_insert_eq.
  - intros k _. apply not_elem_of_nil.
Qed.

Lemma run_life_safe ops p :
  reg_safe p -> careful p ops = true ->
  exists p', run_life p ops = Some p' /\ reg_safe p'.
Proof.
  unfold run_life. revert p. induction ops as [|op ops IH]; intros p Hp; [by exists p|]. cbn.
  intros [Hc Hcs]%andb_true_iff. destruct (life_op_safe op p Hp Hc) as (p1 & Hr & Hp1).
  rewrite Hr in Hcs. rewrite run_registry_app, Hr. cbn. by apply IH.
Qed.
End Registry.
#[global] Arguments life_op : clear implicits.
#[global] Arguments process : clear implicits.
#[global] Arguments registry_op : clear implicits.

(** ** The two classes *)

#[export] Instance server_class : EndpointClass RpcServerEp.RpcServer := {|
  ec_has_endpoint := RpcServerEp.rs_has_endpoint;
  ec_clear_pending := RpcServerEp.clear_pending_requests;
|}.

#[export] Instance client_class : EndpointClass RpcClientEp.RpcClient := {|
  ec_has_endpoint := RpcClientEp.rc_has_endpoint;
  ec_clear_pending := RpcClientEp.clear_pending_responses;
|}.

(** The step of [RpcServicesServer::initialize_services_impl] and of
    [RpcServicesClient::initialize_services] that makes one endpoint. *)
Definition add_server (sid : nat) (name : string) (has_pdu_definition : bool)
    (cfg : RpcServerEp.ServiceConfig) (meta : Z) (client_node_id : option string)
    : registry_op RpcServerEp.RpcServer :=
  RegAdd sid name (RpcServerEp.new_rpc_server name true has_pdu_definition)
    (fun s => RpcServerEp.initialize s cfg meta client_node_id).

Definition add_client (sid : nat) (name client_name : string) (has_pdu_definition : bool)
    (cfg : RpcServerEp.ServiceConfig) (meta : Z) : registry_op RpcClientEp.RpcClient :=
  RegAdd sid name (RpcClientEp.new_rpc_client name client_name true has_pdu_definition)
    (fun c => RpcClientEp.initialize c cfg meta).

Section Callback.
(** [Endpoint::get_pdu_name] of the transport library, per robot and channel. *)
Context (get_pdu_name : string -> Z -> string).

(** [RpcServerEndpointImpl::pdu_recv_callback]: the first registered endpoint of
    the service takes the packet. *)
Fixpoint server_recv (instances : list nat) (robot : string) (channel_id : Z)
    (data : RpcPduData) (live : gmap nat RpcServerEp.RpcServer)
    : gmap nat RpcServerEp.RpcServer :=
  match instances with
  | [] => live
  | o :: rest =>
      match live !! o with
      | None => server_recv rest robot channel_id data live
      | Some s =>
          if negb (bool_decide (RpcServerEp.rs_service_name s = robot))
          then server_recv rest robot channel_id data live
          else
            <[o := RpcServerEp.put_pending_request
                     (mkPduKey robot (get_pdu_name robot channel_id)) data s]> live
      end
  end.

Definition server_pdu_recv_callback (robot : string) (channel_id : Z) (data : RpcPduData)
    (p : process RpcServerEp.RpcServer) : process RpcServerEp.RpcServer :=
  set_live (server_recv (pc_instances p) robot channel_id data (pc_live p)) p.

(** [RpcClientEndpointImpl::pdu_recv_callback]. *)
Fixpoint client_recv (instances : list nat) (robot : string) (channel_id : Z)
    (data : RpcPduData) (live : gmap nat RpcClientEp.RpcClient)
    : gmap nat RpcClientEp.RpcClient :=
  match instances with
  | [] => live
  | o :: rest =>
      match live !! o with
      | None => client_recv rest robot channel_id data live
      | Some c =>
          let expected_pdu_name := RpcClientEp.rc_client_name c +:+ "Res" in
          if bool_decide (RpcClientEp.rc_service_name c = robot)
             && bool_decide (get_pdu_name robot channel_id = expected_pdu_name)
          then <[o := RpcClientEp.put_pending_response
                        (mkPduKey robot expected_pdu_name) data c]> live
          else client_recv rest robot channel_id data live
      end
  end.

Definition client_pdu_recv_callback (robot : string) (channel_id : Z) (data : RpcPduData)
    (p : process RpcClientEp.RpcClient) : process RpcClientEp.RpcClient :=
  set_live (client_recv (pc_instances p) robot channel_id data (pc_live p)) p.
End Callback.

(** ** Properties *)

(** C37 — The static registry of RPC endpoints outlives the services: whatever
    the services objects of a process do, an endpoint is alive exactly while the
    registry or a services object points to it. Stopping a handle through the C
    interface, when it is defined, destroys the handle's endpoints. But a
    services object that goes without clearing the registry, as when the mux
    server closes a connection, leaves its registered endpoints alive, and until
    someone clears the registry they stay; and then the first
    [clear_all_instances] of any services object that has a service destroys the
    last pointer to them inside [instances_.clear()], where the destructor
    changes the vector being cleared: the call has no defined result. *)
Theorem rpc_registry_outlives_services {E : Type} {EC : EndpointClass E}
    (ops : list (registry_op E)) (p : process E) sid m :
  run_registry empty_process ops = Some p -> pc_services p !! sid = Some m ->
  (forall o, is_Some (pc_live p !! o) <-> o ∈ pc_instances p \/ o ∈ held p)
  /\ (forall p' o, run_registry p (stop_handle_ops sid) = Some p' -> o ∈ m.*2 ->
        pc_live p' !! o = None)
  /\ (forall o ops' p', o ∈ m.*2 -> o ∈ pc_instances p ->
        forallb (fun op => negb (is_clear op)) ops' = true ->
        run_registry p (close_slot_ops sid ++ ops') = Some p' ->
        is_Some (pc_live p' !! o)
        /\ forall sid' m', pc_services p' !! sid' = Some m' -> m' <> [] ->
             clear_all_instances sid' p' = None).
Proof.
  intros Hrun Hs. pose proof (run_registry_wf _ _ _ empty_process_wf Hrun) as Hwf.
  split_and!; [by apply rw_live| |].
  - intros p' o Hst Hin. cbn in Hst.
    destruct (clear_all_instances sid p) as [p1|] eqn:Hc; [|done]. injection Hst as <-.
    by eapply stopped_destroyed.
  - intros o ops' p' Hin Hi Hops Hrun'. cbn in Hrun'.
    pose proof (dropped_orphan sid m p o Hwf Hs Hin Hi) as Ho.
    pose proof (run_registry_orphan _ _ _ _ Hops Ho Hrun') as Ho'.
    split; [|intros sid' m'; by apply (orphan_clear_undefined p' o)].
    apply (rw_live _ (run_registry_wf _ _ _ (drop_services_wf sid p Hwf) Hrun')).
    left. by destruct Ho'.
Qed.

(** A service with one client. *)
Definition sample_service : RpcServerEp.ServiceConfig :=
  RpcServerEp.mkServiceConfig (Some 1%Z) (Some "add") (Some "AddTwoInts") (Some false)
    None None (Some 32%Z) (Some 0%Z) (Some 32%Z) (Some 0%Z)
    (Some [RpcServerEp.mkClientSpec (Some "c1") true true (Some "n") (Some "ep")
             (Some 1%Z) (Some 2%Z)]).

Lemma rpc_registry_outlives_services_witness :
  exists p', run_registry empty_process
      ([RegNew 0; add_server 0 "add" true sample_service 24 None] ++ close_slot_ops 0
       ++ [RegNew 1; add_server 1 "add" true sample_service 24 None]) = Some p'
    /\ is_Some (pc_live p' !! 0) /\ clear_all_instances 1 p' = None.
Proof.
  eexists. split; [reflexivity|].
  destruct (rpc_registry_outlives_services
    [RegNew 0; add_server 0 "add" true sample_service 24 None] _ 0 [("add", 0)]
    eq_refl eq_refl) as (_ & _ & H).
  destruct (H 0 [RegNew 1; add_server 1 "add" true sample_service 24 None] _
    ltac:(left) ltac:(left) eq_refl eq_refl) as [Hl Hc].
  split; [exact Hl|]. apply (Hc 1 [("add", 1)]); [reflexivity|discriminate].
Defined.

(** With every creation successful, the documented life cycle is safe: in a
    process that adds services only with success and under new names, and drops
    services objects only by stopping or destroying their handles, every [clear_all_instances]
    is defined, whatever the order and however many handles there are; and every
    registered endpoint is always held by a services object. *)
Theorem rpc_registry_stop_safe {E : Type} {EC : EndpointClass E}
    (ops : list (life_op E)) :
  careful empty_process ops = true ->
  exists p, run_life empty_process ops = Some p
    /\ forall o, o ∈ pc_instances p -> o ∈ held p.
Proof.
  intros Hc. destruct (run_life_safe ops empty_process) as (p & Hr & Hp); [|done|].
  - split; [apply empty_process_wf|]. by intros o ?%elem_of_nil.
  - exists p. split; [done|]. by destruct Hp.
Qed.

Lemma rpc_registry_stop_safe_witness :
  exists p, run_life empty_process
      [LifeCreate 0 [("add", RpcServerEp.new_rpc_server "add" true true,
                      fun s => RpcServerEp.initialize s sample_service 24 None)];
       LifeCreate 1 [("add", RpcServerEp.new_rpc_server "add" true true,
                      fun s => RpcServerEp.initialize s sample_service 24 None)];
       LifeStop 0; LifeDestroy (Some 1)] = Some p
    /\ pc_live p = ∅.
Proof.
  destruct (rpc_registry_stop_safe (EC := server_class)
      [LifeCreate 0 [("add", RpcServerEp.new_rpc_server "add" true true,
                      fun s => RpcServerEp.initialize s sample_service 24 None)];
       LifeCreate 1 [("add", RpcServerEp.new_rpc_server "add" true true,
                      fun s => RpcServerEp.initialize s sample_service 24 None)];
       LifeStop 0; LifeDestroy (Some 1)] ltac:(vm_compute; reflexivity)) as (p & Hr & _).
  exists p. split; [exact Hr|]. vm_compute in Hr. injection Hr as <-. reflexivity.
Defined.
End RpcInstances.
