(* ===== verification/RpcServicesClient.v ===== *)
(** * RPC services, client side

    [RpcServicesClient] of include/hakoniwa/pdu/rpc/rpc_services_client.hpp and
    src/rpc_services_client.cpp: one [RpcClientEndpointImpl] per service that
    the configuration gives to this client on this node. Configuration and
    container are arguments as on the server side; here a missing container is a
    null dereference in the source, so the container is given. *)

From S2P Require Import Prelude OrderedMap RpcTypes RpcServerEndpoint RpcClientEndpoint.
From S2P Require Import RpcServicesServer.
From Stdlib Require Import ZArith Lia.
From stdpp Require Import base gmap strings list fin_maps.

Module RpcClientServices.
Import Rpc RpcServerEp RpcClientEp.
Import RpcServices (EndpointContainer, PduEndpoint, pe_has_pdu_definition, ServiceEntry,
  se_config, RpcConfigFile, rcf_pdu_meta_data_size, rcf_services).

(** ** State *)

Record RpcServicesClient := mkRpcServicesClient {
  rsc_node_id : string;
  rsc_client_name : string;
  rsc_rpc_endpoints : list (string * RpcClient);
}.

Definition new_rpc_services_client (node_id client_name : string) : RpcServicesClient :=
  mkRpcServicesClient node_id client_name [].

Definition set_rpc_endpoints (m : list (string * RpcClient)) (s : RpcServicesClient)
    : RpcServicesClient :=
  mkRpcServicesClient (rsc_node_id s) (rsc_client_name s) m.

Definition stop_all_services (s : RpcServicesClient) : RpcServicesClient :=
  set_rpc_endpoints ((fun kv => (kv.1, clear_pending_responses kv.2)) <$> rsc_rpc_endpoints s) s.

(** ** Initialisation *)

(** The loop over the clients of a service, up to the entry with this client's
    name; [inr] is an exception, [inl None] that there is no such entry. *)
Fixpoint find_client_endpoint (client_name : string) (clients : list ClientSpec)
    : option (string * string) + unit :=
  match clients with
  | [] => inl None
  | client_spec :: rest =>
      if bool_decide (cs_name client_spec = Some client_name) then
        match cs_node_id client_spec, cs_endpoint_id client_spec with
        | Some node_id, Some endpoint_id => inl (Some (node_id, endpoint_id))
        | _, _ => inr tt
        end
      else find_client_endpoint client_name rest
  end.

(** One turn of the loop over the services; [None] is an error return or an
    exception, and a service that is not for this client on this node is
    skipped. *)
Definition initialize_service (s : RpcServicesClient) (ref : EndpointContainer)
    (pdu_meta_data_size : Z) (entry : ServiceEntry) : option RpcServicesClient :=
  service_name ← sc_name (se_config entry);
  clients ← sc_clients (se_config entry);
  match find_client_endpoint (rsc_client_name s) clients with
  | inr _ => None
  | inl None => Some s
  | inl (Some (client_ep_node_id, client_ep_id)) =>
      if negb (bool_decide (client_ep_node_id = rsc_node_id s)) then Some s
      else
        pdu_endpoint ← ref client_ep_id;
        let '(rpc_client_endpoint, ok) :=
          initialize (new_rpc_client service_name (rsc_client_name s) true
                        (pe_has_pdu_definition pdu_endpoint))
            (se_config entry) pdu_meta_data_size in
        if negb ok then None
        else
          Some (set_rpc_endpoints
                  (om_insert service_name rpc_client_endpoint (rsc_rpc_endpoints s)) s)
  end.

Fixpoint initialize_each (s : RpcServicesClient) (ref : EndpointContainer)
    (pdu_meta_data_size : Z) (services : list ServiceEntry) : RpcServicesClient * bool :=
  match services with
  | [] => (s, true)
  | entry :: rest =>
      match initialize_service s ref pdu_meta_data_size entry with
      | None => (stop_all_services s, false)
      | Some s' => initialize_each s' ref pdu_meta_data_size rest
      end
  end.

Definition initialize_services (s : RpcServicesClient) (ref : EndpointContainer)
    (file : option RpcConfigFile) : RpcServicesClient * bool :=
  match file with
  | None => (s, false)
  | Some json_config =>
      match rcf_pdu_meta_data_size json_config, rcf_services json_config with
      | Some pdu_meta_data_size, Some services =>
          initialize_each s ref pdu_meta_data_size services
      | _, _ => (stop_all_services s, false)
      end
  end.

Definition start_all_services (s : RpcServicesClient) : bool := true.

Section Operations.
Context {P : RpcPlatform}.

(** ** Calls *)

Definition put_endpoint (service_name : string) (e : RpcClient) (s : RpcServicesClient)
    : RpcServicesClient :=
  set_rpc_endpoints (om_update service_name e (rsc_rpc_endpoints s)) s.

Definition call (s : RpcServicesClient) (w : RpcWire) (service_name : string)
    (request_pdu : RpcPduData) (timeout_usec now : Z) : RpcServicesClient * RpcWire * bool :=
  match om_find service_name (rsc_rpc_endpoints s) with
  | None => (s, w, false)
  | Some endpoint =>
      let '(endpoint', w', ok) := RpcClientEp.call endpoint w request_pdu timeout_usec now in
      (put_endpoint service_name endpoint' s, w', ok)
  end.

Definition send_cancel_request (s : RpcServicesClient) (w : RpcWire) (service_name : string)
    : RpcServicesClient * RpcWire * bool :=
  match om_find service_name (rsc_rpc_endpoints s) with
  | None => (s, w, false)
  | Some endpoint =>
      let '(endpoint', w', ok) := RpcClientEp.send_cancel_request endpoint w in
      (put_endpoint service_name endpoint' s, w', ok)
  end.

(** The overload with an operation code; [pdu] is the caller's in/out
    parameter. *)
Definition create_request_buffer_op (s : RpcServicesClient) (service_name : string)
    (opcode : Z) (pdu : RpcPduData) : RpcServicesClient * RpcPduData * bool :=
  match om_find service_name (rsc_rpc_endpoints s) with
  | None => (s, pdu, false)
  | Some endpoint =>
      let is_cancel := (opcode =? HAKO_SERVICE_OPERATION_CODE_CANCEL)%Z in
      let '(endpoint', pdu') := RpcClientEp.create_request_buffer endpoint opcode is_cancel in
      (put_endpoint service_name endpoint' s, pdu', true)
  end.

Definition create_request_buffer (s : RpcServicesClient) (service_name : string)
    (pdu : RpcPduData) : RpcServicesClient * RpcPduData * bool :=
  match om_find service_name (rsc_rpc_endpoints s) with
  | None => (s, pdu, false)
  | Some endpoint =>
      let '(endpoint', pdu') :=
        RpcClientEp.create_request_buffer endpoint HAKO_SERVICE_OPERATION_CODE_REQUEST false in
      (put_endpoint service_name endpoint' s, pdu', true)
  end.

(** ** Polling *)

(** The loop of [poll]; [service_name] and [response_out] are in/out
    parameters, and [now name] is the clock reading the endpoint [name] takes. *)
Fixpoint poll_endpoints (m : list (string * RpcClient)) (service_name : string)
    (response_out : RpcResponse) (now : string -> Z)
    : list (string * RpcClient) * RpcClientEventType * (string * RpcResponse) :=
  match m with
  | [] => ([], RpcClient_NONE, (service_name, response_out))
  | (name, endpoint) :: rest =>
      let '(endpoint', event_type, response') :=
        RpcClientEp.poll endpoint response_out (now name) in
      if negb (bool_decide (event_type = RpcClient_NONE))
      then ((name, endpoint') :: rest, event_type, (name, response'))
      else
        let '(rest', result_event, result) := poll_endpoints rest service_name response' now in
        ((name, endpoint') :: rest', result_event, result)
  end.

Definition poll (s : RpcServicesClient) (service_name : string) (response_out : RpcResponse)
    (now : string -> Z) : RpcServicesClient * RpcClientEventType * (string * RpcResponse) :=
  let '(m, event_type, result) :=
    poll_endpoints (rsc_rpc_endpoints s) service_name response_out now in
  (set_rpc_endpoints m s, event_type, result).

(** A packet the transport delivers to the endpoint of [service_name]. *)
Definition receive (s : RpcServicesClient) (service_name : string) (key : PduKey)
    (data : RpcPduData) : RpcServicesClient :=
  match om_find service_name (rsc_rpc_endpoints s) with
  | Some endpoint => put_endpoint service_name (put_pending_response key data endpoint) s
  | None => s
  end.

Definition clear_all_instances (s : RpcServicesClient) : RpcServicesClient :=
  set_rpc_endpoints ((fun kv => (kv.1, clear_pending_responses kv.2)) <$> rsc_rpc_endpoints s) s.
End Operations.
End RpcClientServices.
