(* ===== verification/RpcServicesClientProps.v ===== *)
(** * What the RPC services client guarantees

    Alone, and together with the services server. *)

From S2P Require Import Prelude OrderedMap RpcTypes RpcServerEndpoint RpcServerProps.
From S2P Require Import RpcServerFacts RpcServicesServer RpcServicesServerFacts.
From S2P Require Import RpcServicesServerProps.
From S2P Require Import RpcClientEndpoint RpcClientProps RpcServicesClient.
From Stdlib Require Import ZArith Lia.
From stdpp Require Import base gmap strings list fin_maps sorting.

Module RpcClientServicesProps.
Import Rpc RpcServerEp RpcServerFacts RpcClientEp RpcClientServices.
Import RpcClientProps (outstanding, outstanding_idle, outstanding_busy, outstanding_le,
  response_taken, poll_cases).

(** ** The invariant *)

Abbreviation endpoints := (list (string * RpcClient)).

Definition entry_wf (client_name : string) (kv : string * RpcClient) : Prop :=
  rc_service_name kv.2 = kv.1 /\ rc_client_name kv.2 = client_name.

Definition client_services_wf (s : RpcServicesClient) : Prop :=
  om_sorted (rsc_rpc_endpoints s) /\ Forall (entry_wf (rsc_client_name s)) (rsc_rpc_endpoints s).

Lemma client_wf_find s n e :
  client_services_wf s -> om_find n (rsc_rpc_endpoints s) = Some e ->
  rc_service_name e = n /\ rc_client_name e = rsc_client_name s.
Proof. intros [_ Hf] He%om_find_elem. rewrite Forall_forall in Hf. exact (Hf _ He). Qed.

(** Names and call parameters are kept; only the queue and the state change. *)
Definition same_call (e e' : RpcClient) : Prop :=
  rc_service_name e' = rc_service_name e /\ rc_client_name e' = rc_client_name e
  /\ rc_request_id e' = rc_request_id e
  /\ rc_current_timeout_usec e' = rc_current_timeout_usec e
  /\ rc_request_start_time_usec e' = rc_request_start_time_usec e.

Section Facts.
Context {P : RpcPlatform}.

Lemma poll_same_call e r now e' ev r' :
  RpcClientEp.poll e r now = (e', ev, r') -> same_call e e'.
Proof.
  unfold RpcClientEp.poll. split_guard; [by intros [= <- _ _]|].
  split_guard; [by intros [= <- _ _]|].
  destruct (find_response e) as [[i p]|]; [|by intros [= <- _ _]].
  unfold handle_response_in, handle_cancel_response.
  repeat split_guard; simplify_eq; by intros [= <- _ _].
Qed.

(** A result other than NONE comes from one endpoint: those before it were
    polled without an event, those after it are untouched. *)
Lemma poll_endpoints_split m n0 r now m' ev n r' :
  poll_endpoints m n0 r now = (m', ev, (n, r')) -> ev <> RpcClient_NONE ->
  exists m1 e m2 m1' e' r1, m = m1 ++ (n, e) :: m2 /\ m' = m1' ++ (n, e') :: m2
    /\ RpcClientEp.poll e r1 (now n) = (e', ev, r') /\ m1'.*1 = m1.*1
    /\ Forall2 (fun kv kv' => exists ra rb,
         RpcClientEp.poll kv.2 ra (now kv.1) = (kv'.2, RpcClient_NONE, rb)) m1 m1'.
Proof.
  revert r m'. induction m as [|[k e] m IH]; intros r m'; cbn; [by intros [= <- <- _ _]|].
  destruct (RpcClientEp.poll e r (now k)) as [[e1 ev1] r1] eqn:He.
  destruct (bool_decide_reflect (ev1 = RpcClient_NONE)) as [->|Hev]; cbn [negb].
  - destruct (poll_endpoints m n0 r1 now) as [[m2 ev2] res2] eqn:Hm. intros [= <- <- ->] Hne.
    destruct (IH _ _ Hm Hne) as (ma & ea & mb & ma' & ea' & ra & -> & -> & Hp & Hk & Hf).
    exists ((k, e) :: ma), ea, mb, ((k, e1) :: ma'), ea', ra. split_and!; try done.
    + cbn. by rewrite Hk.
    + constructor; [by exists r, r1|done].
  - intros [= <- <- <- <-] _. exists [], e, m, [], e1, r. by split_and!; try constructor.
Qed.

Lemma client_poll_endpoints_keys m n0 r now m' ev res :
  poll_endpoints m n0 r now = (m', ev, res) -> m'.*1 = m.*1.
Proof.
  revert r m' ev res. induction m as [|[k e] m IH]; intros r m' ev res; cbn;
    [by intros [= <- _ _]|].
  destruct (RpcClientEp.poll e r (now k)) as [[e1 ev1] r1].
  split_guard; [by intros [= <- _ _]|].
  destruct (poll_endpoints m n0 r1 now) as [[m2 ev2] res2] eqn:Hm. intros [= <- _ _]. cbn.
  f_equal. by eapply IH.
Qed.

(** Every endpoint is polled or untouched. *)
Lemma poll_endpoints_each m n0 r now m' ev res :
  poll_endpoints m n0 r now = (m', ev, res) ->
  Forall2 (fun kv kv' => kv'.1 = kv.1 /\ (kv' = kv \/ exists ra ea rb,
    RpcClientEp.poll kv.2 ra (now kv.1) = (kv'.2, ea, rb))) m m'.
Proof.
  assert (Hrefl : forall m : endpoints, Forall2 (fun kv kv' => kv'.1 = kv.1 /\ (kv' = kv \/
    exists ra ea rb, RpcClientEp.poll kv.2 ra (now kv.1) = (kv'.2, ea, rb))) m m).
  { intros l. induction l; constructor; auto. }
  revert r m' ev res. induction m as [|[k e] m IH]; intros r m' ev res; cbn.
  { intros [= <- _ _]. constructor. }
  destruct (RpcClientEp.poll e r (now k)) as [[e1 ev1] r1] eqn:He.
  split_guard; [intros [= <- _ _]; constructor; eauto 10|].
  destruct (poll_endpoints m n0 r1 now) as [[m2 ev2] res2] eqn:Hm. intros [= <- _ _].
  constructor; [eauto 10|by eapply IH].
Qed.

Lemma client_poll_endpoints_wf c m n0 r now m' ev res :
  poll_endpoints m n0 r now = (m', ev, res) -> Forall (entry_wf c) m -> Forall (entry_wf c) m'.
Proof.
  intros Hp%poll_endpoints_each Hf. induction Hp as [|kv kv' m m' [Hk Hx] _ IH]; [done|].
  apply Forall_cons in Hf as [[Hs Hc] Hf]. constructor; [|auto].
  destruct Hx as [->|(ra & ea & rb & Hp)]; [done|].
  apply poll_same_call in Hp as (H1 & H2 & _). split; congruence.
Qed.

Lemma update_wf s n e e' :
  client_services_wf s -> om_find n (rsc_rpc_endpoints s) = Some e ->
  rc_service_name e' = rc_service_name e -> rc_client_name e' = rc_client_name e ->
  client_services_wf (put_endpoint n e' s).
Proof.
  intros Hwf He H1 H2. pose proof (client_wf_find _ _ _ Hwf He) as [Hn Hc].
  destruct Hwf as [Hs Hf]. split; cbn; [auto with hako|].
  apply om_find_split in He as (m1 & m2 & Hm & Hfr). rewrite Hm, om_update_split by done.
  rewrite Hm in Hf. apply Forall_app in Hf as [Ha [_ Hb]%Forall_cons].
  apply Forall_app. split; [done|]. constructor; [|done]. split; cbn; congruence.
Qed.

(** ** Runs *)

Inductive client_services_op :=
  | CSvcCreate (service_name : string) (opcode : Z) (pdu : RpcPduData)
  | CSvcCall (service_name : string) (pdu : RpcPduData) (timeout_usec now : Z)
  | CSvcCancel (service_name : string)
  | CSvcReceive (service_name : string) (key : PduKey) (data : RpcPduData)
  | CSvcPoll (service_name : string) (response : RpcResponse) (now : string -> Z)
  | CSvcStop.

(** Per service, the calls that were started and the responses returned. *)
Abbreviation counts := ((string -> nat) * (string -> nat))%type.

Definition none : string -> nat := fun _ => 0.
Definition one (b : bool) (n : string) : string -> nat :=
  fun n' => if b && bool_decide (n = n') then 1 else 0.

Definition is_response (ev : RpcClientEventType) : bool :=
  match ev with RpcClient_RESPONSE_IN | RpcClient_RESPONSE_CANCEL => true | _ => false end.

Definition run_op (s : RpcServicesClient) (w : RpcWire) (op : client_services_op)
    : RpcServicesClient * RpcWire * counts :=
  match op with
  | CSvcCreate n opcode pdu => ((create_request_buffer_op s n opcode pdu).1.1, w, (none, none))
  | CSvcCall n pdu t now => let '(s', w', ok) := call s w n pdu t now in (s', w', (one ok n, none))
  | CSvcCancel n => let '(s', w', _) := send_cancel_request s w n in (s', w', (none, none))
  | CSvcReceive n key data => (receive s n key data, w, (none, none))
  | CSvcPoll n0 r now =>
      let '(s', ev, (n, _)) := poll s n0 r now in (s', w, (none, one (is_response ev) n))
  | CSvcStop => (stop_all_services s, w, (none, none))
  end.

Fixpoint run_ops (s : RpcServicesClient) (w : RpcWire) (ops : list client_services_op)
    : RpcServicesClient * RpcWire * counts :=
  match ops with
  | [] => (s, w, (none, none))
  | op :: rest =>
      let '(s1, w1, (calls1, responses1)) := run_op s w op in
      let '(s2, w2, (calls2, responses2)) := run_ops s1 w1 rest in
      (s2, w2, (fun n => calls1 n + calls2 n, fun n => responses1 n + responses2 n))
  end.

Definition outstanding_at (m : endpoints) (n : string) : nat :=
  match om_find n m with Some e => outstanding e | None => 0 end.

Lemma outstanding_at_update m n e e' n' :
  om_find n m = Some e ->
  outstanding_at (om_update n e' m) n'
  = if decide (n = n') then outstanding e' else outstanding_at m n'.
Proof.
  intros He. unfold outstanding_at. rewrite (om_find_update _ _ _ _ _ He). by case_decide.
Qed.

(** ** One operation *)

Lemma endpoint_poll_outcome e r now e' ev r' :
  RpcClientEp.poll e r now = (e', ev, r') ->
  (if is_response ev then 1 else 0) + outstanding e' <= outstanding e.
Proof.
  intros Hp.
  assert (Hr : RpcClientProps.run_op e [] (RpcClientProps.ClientPoll r now)
               = (e', [], (0, if is_response ev then 1 else 0))).
  { cbn. rewrite Hp. by destruct ev. }
  apply RpcClientProps.run_op_outcomes in Hr. lia.
Qed.

Lemma sorted_head_fresh {V} k (v : V) m : om_sorted ((k, v) :: m) -> om_sorted m /\ k ∉ m.*1.
Proof.
  intros [Hs Hf]%StronglySorted_inv. split; [done|]. intros Hin.
  rewrite Forall_forall in Hf. by destruct (irreflexivity string_lt k (Hf _ Hin)).
Qed.

Lemma outstanding_at_cons k e (m : endpoints) n :
  outstanding_at ((k, e) :: m) n = if decide (n = k) then outstanding e else outstanding_at m n.
Proof. unfold outstanding_at. cbn. by case_decide. Qed.

Lemma poll_endpoints_outcome m n0 r now m' ev n r' :
  poll_endpoints m n0 r now = (m', ev, (n, r')) -> om_sorted m ->
  forall n', one (is_response ev) n n' + outstanding_at m' n' <= outstanding_at m n'.
Proof.
  revert r m'. induction m as [|[k e] m IH]; intros r m'; cbn.
  { intros [= <- <- _ _] _ n'. done. }
  destruct (RpcClientEp.poll e r (now k)) as [[e1 ev1] r1] eqn:He.
  apply endpoint_poll_outcome in He.
  destruct (bool_decide_reflect (ev1 = RpcClient_NONE)) as [->|Hev]; cbn [negb].
  - destruct (poll_endpoints m n0 r1 now) as [[m2 ev2] [n2 r2]] eqn:Hm.
    intros [= <- -> -> ->] [Hs Hk]%sorted_head_fresh n'. specialize (IH _ _ Hm Hs n').
    rewrite !outstanding_at_cons. case_decide; [|done]. subst n'. cbn in He.
    assert (one (is_response ev) n k = 0); [|lia]. unfold one.
    destruct (is_response ev) eqn:Hr; [|done]. rewrite bool_decide_eq_false_2; [done|].
    intros ->. apply poll_endpoints_split in Hm as (m1 & ? & m3 & ? & ? & ? & -> & _);
      [|by destruct ev]. destruct Hk. rewrite fmap_app. apply elem_of_app. right. left.
  - intros [= <- <- <- <-] [Hs Hk]%sorted_head_fresh n'. rewrite !outstanding_at_cons.
    unfold one. destruct (decide (n' = k)) as [->|Hn].
    + rewrite bool_decide_eq_true_2 by done. rewrite andb_true_r. done.
    + rewrite bool_decide_eq_false_2 by done. rewrite andb_false_r. done.
Qed.

(** Replacing one endpoint by the result of an operation on it. *)
Lemma update_op_ok s n e w op e' w' calls responses :
  client_services_wf s -> om_find n (rsc_rpc_endpoints s) = Some e ->
  RpcClientProps.run_op e w op = (e', w', (calls, responses)) ->
  rc_service_name e' = rc_service_name e -> rc_client_name e' = rc_client_name e ->
  client_services_wf (put_endpoint n e' s)
  /\ forall n', (if decide (n = n') then responses else 0)
       + outstanding_at (rsc_rpc_endpoints (put_endpoint n e' s)) n'
       <= outstanding_at (rsc_rpc_endpoints s) n' + (if decide (n = n') then calls else 0).
Proof.
  intros Hwf He Ho%RpcClientProps.run_op_outcomes H1 H2.
  split; [by eapply update_wf|]. intros n'. cbn. rewrite (outstanding_at_update _ _ _ _ _ He).
  case_decide; [|lia]. subst. unfold outstanding_at. by rewrite He.
Qed.

Lemma call_names e w pdu t now e' w' ok :
  RpcClientEp.call e w pdu t now = (e', w', ok) ->
  rc_service_name e' = rc_service_name e /\ rc_client_name e' = rc_client_name e.
Proof.
  unfold RpcClientEp.call. split_guard; [by intros [= <- _ _]|].
  destruct (send_request _ _ _) as [w1 []]; by intros [= <- _ _].
Qed.

Lemma cancel_names e w e' w' ok :
  RpcClientEp.send_cancel_request e w = (e', w', ok) ->
  rc_service_name e' = rc_service_name e /\ rc_client_name e' = rc_client_name e.
Proof.
  unfold RpcClientEp.send_cancel_request. split_guard; [by intros [= <- _ _]|].
  cbn. destruct (rpc_send_result _ _ _); by intros [= <- _ _].
Qed.

(** Creating a buffer changes the request counter only. *)
Lemma create_buffer_names e opcode cancel e' pdu :
  RpcClientEp.create_request_buffer e opcode cancel = (e', pdu) ->
  rc_service_name e' = rc_service_name e /\ rc_client_name e' = rc_client_name e
  /\ outstanding e' = outstanding e.
Proof. destruct cancel; by intros [= <- _]. Qed.

Definition op_ok (s s' : RpcServicesClient) (c : counts) : Prop :=
  client_services_wf s'
  /\ forall n, c.2 n + outstanding_at (rsc_rpc_endpoints s') n
       <= outstanding_at (rsc_rpc_endpoints s) n + c.1 n.

Lemma op_ok_same s s' :
  client_services_wf s' ->
  (forall n, outstanding_at (rsc_rpc_endpoints s') n = outstanding_at (rsc_rpc_endpoints s) n) ->
  op_ok s s' (none, none).
Proof. intros Hwf Ho. split; [done|]. intros n. rewrite Ho. unfold none. cbn. lia. Qed.

Lemma update_same_ok s n e e' :
  client_services_wf s -> om_find n (rsc_rpc_endpoints s) = Some e ->
  rc_service_name e' = rc_service_name e -> rc_client_name e' = rc_client_name e ->
  outstanding e' = outstanding e -> op_ok s (put_endpoint n e' s) (none, none).
Proof.
  intros Hwf He H1 H2 Ho. apply op_ok_same; [by eapply update_wf|]. intros n'. cbn.
  rewrite (outstanding_at_update _ _ _ _ _ He). case_decide; [|done]. subst.
  unfold outstanding_at. by rewrite He.
Qed.

Lemma stop_ok s : client_services_wf s -> op_ok s (stop_all_services s) (none, none).
Proof.
  intros [Hs Hf]. apply op_ok_same; cbn.
  - split; cbn; [unfold om_sorted; by rewrite om_fmap_keys|]. apply Forall_fmap.
    eapply Forall_impl; [exact Hf|]. by intros [k v] [? ?].
  - intros n. unfold outstanding_at. rewrite om_find_fmap. by destruct (om_find n _).
Qed.

Lemma client_run_op_ok s w op s' w' c :
  client_services_wf s -> run_op s w op = (s', w', c) -> op_ok s s' c.
Proof.
  intros Hwf. assert (Hself : op_ok s s (none, none)) by by apply op_ok_same.
  destruct op as [n opcode pdu|n pdu t now|n|n key data|n0 r now|]; cbn.
  - unfold create_request_buffer_op. destruct (om_find _ _) as [e|] eqn:He;
      [|by intros [= <- _ <-]].
    destruct (RpcClientEp.create_request_buffer _ _ _) as [e1 p] eqn:Hc. intros [= <- _ <-].
    apply create_buffer_names in Hc as (? & ? & ?). by eapply update_same_ok.
  - unfold call. destruct (om_find _ _) as [e|] eqn:He.
    2: { intros [= <- _ <-]. exact Hself. }
    destruct (RpcClientEp.call _ _ _ _ _) as [[e1 w1] ok] eqn:Hc. intros [= <- _ <-].
    pose proof (call_names _ _ _ _ _ _ _ _ Hc) as [H1 H2].
    destruct (update_op_ok s n e w (RpcClientProps.ClientCall pdu t now) e1 w1
      (if ok then 1 else 0) 0 Hwf He) as [Hw Ho]; [cbn; by rewrite Hc|done|done|].
    split; [done|]. intros n'. specialize (Ho n'). unfold one, none. cbn [fst snd].
    destruct ok; cbn [andb]; [|by destruct (decide (n = n')); cbn in *; lia].
    case_bool_decide; destruct (decide (n = n')); cbn in *; done || lia.
  - unfold send_cancel_request. destruct (om_find _ _) as [e|] eqn:He;
      [|by intros [= <- _ <-]].
    destruct (RpcClientEp.send_cancel_request _ _) as [[e1 w1] ok] eqn:Hc. intros [= <- _ <-].
    pose proof (cancel_names _ _ _ _ _ Hc) as [H1 H2].
    destruct (update_op_ok s n e w RpcClientProps.ClientCancel e1 w1 0 0 Hwf He)
      as [Hw Ho]; [cbn; by rewrite Hc|done|done|].
    split; [done|]. intros n'. specialize (Ho n'). unfold none. cbn [fst snd].
    destruct (decide (n = n')); lia.
  - intros [= <- _ <-]. unfold receive. destruct (om_find _ _) as [e|] eqn:He; [|done].
    by eapply update_same_ok.
  - unfold poll. destruct (poll_endpoints _ n0 r now) as [[m ev] [n r']] eqn:Hp.
    intros [= <- _ <-]. destruct Hwf as [Hs Hf]. split.
    + split; cbn; [unfold om_sorted; by rewrite (client_poll_endpoints_keys _ _ _ _ _ _ _ Hp)|].
      by eapply client_poll_endpoints_wf.
    + intros n'. pose proof (poll_endpoints_outcome _ _ _ _ _ _ _ _ Hp Hs n'). unfold none.
      cbn. lia.
  - intros [= <- _ <-]. by apply stop_ok.
Qed.

Lemma client_run_ops_ok ops s w s' w' c :
  client_services_wf s -> run_ops s w ops = (s', w', c) -> op_ok s s' c.
Proof.
  revert s w s' w' c. induction ops as [|op ops IH]; intros s w s' w' c Hwf; cbn.
  { intros [= <- _ <-]. by apply op_ok_same. }
  destruct (run_op s w op) as [[s1 w1] [c1 r1]] eqn:Ho.
  destruct (run_ops s1 w1 ops) as [[s2 w2] [c2 r2]] eqn:Hr. intros [= <- _ <-].
  apply client_run_op_ok in Ho as [Hwf1 H1]; [|done]. apply IH in Hr as [Hwf2 H2]; [|done].
  split; [done|]. intros n. specialize (H1 n). specialize (H2 n). cbn in *. lia.
Qed.

(** ** Initialisation *)

Lemma initialize_names n c d cfg meta e ok :
  initialize (new_rpc_client n c true d) cfg meta = (e, ok) ->
  rc_service_name e = n /\ rc_client_name e = c /\ rc_state e = CLIENT_STATE_IDLE.
Proof.
  unfold initialize. cbn. destruct (sc_name cfg); [|by intros [= <- _]].
  split_guard; [by intros [= <- _]|]. split_guard; [by intros [= <- _]|].
  destruct (sc_clients cfg) as [clients|]; [|by intros [= <- _]].
  induction clients as [|cl clients IH]; cbn; [by intros [= <- _]|].
  destruct (cs_name cl); [|by intros [= <- _]].
  split_guard; [exact IH|]. repeat split_guard; by intros [= <- _].
Qed.

Definition idle_wf (s : RpcServicesClient) : Prop :=
  client_services_wf s /\ forall n, outstanding_at (rsc_rpc_endpoints s) n = 0.

#[local] Arguments initialize : simpl never.

Lemma initialize_service_idle s ref meta entry s' :
  initialize_service s ref meta entry = Some s' -> idle_wf s -> idle_wf s'.
Proof.
  unfold initialize_service. destruct (sc_name _) as [n|]; [|done].
  destruct (sc_clients _) as [clients|]; [|done]. cbn [mbind option_bind].
  destruct (find_client_endpoint _ _) as [[[node id]|]|]; [|by intros [= <-]|done].
  split_guard; [by intros [= <-]|]. destruct (ref id) as [pe|]; [|done].
  cbn [mbind option_bind]. destruct (initialize _ _ _) as [e ok] eqn:Hi.
  destruct ok; [|done]. cbn [negb]. intros [= <-] [[Hs Hf] Ho].
  apply initialize_names in Hi as (Hn & Hc & Hst). split; [split; cbn; [auto with hako|]|].
  - apply Forall_forall. intros [k v] Hin. apply om_elem_find in Hin; [|auto with hako].
    rewrite om_find_insert in Hin by done. destruct (decide (n = k)); [by simplify_eq|].
    apply om_find_elem in Hin. rewrite Forall_forall in Hf. auto.
  - intros n'. cbn. specialize (Ho n'). unfold outstanding_at in *.
    rewrite om_find_insert by done.
    destruct (decide (n = n')); [|done]. by apply outstanding_idle.
Qed.

Lemma stop_idle s : idle_wf s -> idle_wf (stop_all_services s).
Proof.
  intros [Hwf Ho]. destruct (stop_ok s Hwf) as [Hwf' Hle]. split; [done|]. intros n.
  specialize (Hle n). specialize (Ho n). unfold none in Hle. cbn in *. lia.
Qed.

Lemma initialize_services_idle s ref file s' ok :
  initialize_services s ref file = (s', ok) -> idle_wf s -> idle_wf s'.
Proof.
  unfold initialize_services. destruct file as [f|]; [|by intros [= <- _]].
  destruct (RpcServices.rcf_pdu_meta_data_size f) as [meta|],
    (RpcServices.rcf_services f) as [services|]; try by intros [= <- _]; apply stop_idle.
  revert s. induction services as [|entry services IH]; intros s; cbn; [by intros [= <- _]|].
  destruct (initialize_service _ _ _ _) as [s1|] eqn:Hi.
  - intros Hr Hid. eapply IH; [exact Hr|]. by eapply initialize_service_idle.
  - intros [= <- _]. apply stop_idle.
Qed.

Lemma new_client_idle node client : idle_wf (new_rpc_services_client node client).
Proof. split; [split; constructor|done]. Qed.

(** ** Delivery of responses *)

Definition total_outstanding (m : endpoints) : nat := sum_list_with (fun kv => outstanding kv.2) m.

(** The event and the response for a queued packet. *)
Definition response_of (data : RpcPduData) : RpcClientEventType * RpcResponse :=
  let h := pdu2cpp_ServiceResponseHeader data in
  ((if (rp_result_code h =? HAKO_SERVICE_RESULT_CODE_CANCELED)%Z
    then RpcClient_RESPONSE_CANCEL else RpcClient_RESPONSE_IN), mkRpcResponse h data).

(** A response to the call in progress is queued, the first one with its id. *)
Definition answered (e : RpcClient) (data : RpcPduData) : Prop :=
  rc_state e <> CLIENT_STATE_IDLE
  /\ (exists i p, find_response e = Some (i, p) /\ prs_data p = data)
  /\ validate_header e (pdu2cpp_ServiceResponseHeader data) = true.

Lemma answered_event e data r now e' ev r' :
  answered e data -> timed_out e now = false -> RpcClientEp.poll e r now = (e', ev, r') ->
  (ev, r') = response_of data /\ is_response ev = true.
Proof.
  intros (Hs & (i & p & Hf & <-) & Hv) Ht. unfold RpcClientEp.poll.
  rewrite bool_decide_eq_false_2 by done. rewrite Ht, andb_false_r, Hf.
  unfold handle_response_in. cbn [res_header].
  match goal with |- context [validate_header ?x ?h] =>
    change (validate_header x h) with (validate_header e h) end.
  rewrite Hv. cbn [negb]. unfold response_of.
  by destruct (_ =? _)%Z; intros [= _ <- <-].
Qed.

Definition timely (now : string -> Z) (m : endpoints) : Prop :=
  Forall (fun kv => timed_out kv.2 (now kv.1) = false) m.

Lemma same_call_timed_out e e' now : same_call e e' -> timed_out e' now = timed_out e now.
Proof. intros (_ & _ & _ & Ht & Hs). unfold timed_out. by rewrite Ht, Hs. Qed.

Lemma poll_endpoints_timely m n0 r now m' ev res clock :
  poll_endpoints m n0 r now = (m', ev, res) -> timely clock m -> timely clock m'.
Proof.
  intros Hp%poll_endpoints_each Hf. unfold timely in *.
  induction Hp as [|kv kv' m m' [Hk Hx] _ IH]; [done|].
  apply Forall_cons in Hf as [Hkv Hf]. constructor; [|auto]. rewrite Hk.
  destruct Hx as [->|(ra & ea & rb & Hp)]; [done|]. apply poll_same_call in Hp.
  by rewrite (same_call_timed_out _ _ _ Hp).
Qed.

(** Without a timeout, an event is a response, and one call less is
    outstanding. *)
Lemma poll_endpoints_total m n0 r now m' ev res :
  poll_endpoints m n0 r now = (m', ev, res) -> timely now m ->
  (ev <> RpcClient_NONE -> is_response ev = true)
  /\ (if is_response ev then 1 else 0) + total_outstanding m' <= total_outstanding m.
Proof.
  unfold total_outstanding. revert r m' ev res.
  induction m as [|[k e] m IH]; intros r m' ev res; cbn; [by intros [= <- <- _]|].
  destruct (RpcClientEp.poll e r (now k)) as [[e1 ev1] r1] eqn:He.
  intros Hp [Ht Hm]%Forall_cons. cbn in Ht.
  pose proof (endpoint_poll_outcome _ _ _ _ _ _ He) as Ho. apply poll_cases in He.
  destruct (bool_decide_reflect (ev1 = RpcClient_NONE)) as [->|Hev]; cbn [negb] in Hp.
  - destruct (poll_endpoints m n0 r1 now) as [[m2 ev2] res2] eqn:Hpm. injection Hp as <- <- <-.
    destruct (IH _ _ _ _ Hpm Hm) as [H1 H2]. split; [done|]. cbn in *. lia.
  - injection Hp as <- <- <-. cbn. split; [|lia]. intros _. destruct ev1; try done.
    destruct He as (_ & _ & Hto). congruence.
Qed.

Lemma poll_endpoints_reach m n0 r now m' ev res n e data :
  poll_endpoints m n0 r now = (m', ev, res) -> om_find n m = Some e ->
  answered e data -> timely now m ->
  (res.1 = n /\ (ev, res.2) = response_of data)
  \/ (om_find n m' = Some e /\ is_response ev = true).
Proof.
  revert r m' ev res. induction m as [|[k e1] m IH]; intros r m' ev res; cbn; [done|].
  destruct (RpcClientEp.poll e1 r (now k)) as [[e2 ev2] r2] eqn:He.
  intros Hp Hfind Ha Htm. pose proof (poll_endpoints_total ((k, e1) :: m) n0 r now m' ev res) as Htot.
  cbn in Htot. rewrite He in Htot. specialize (Htot Hp Htm) as [Hresp _].
  apply Forall_cons in Htm as [Ht Hm]. cbn in Ht.
  destruct (decide (n = k)) as [->|Hn].
  - injection Hfind as ->. destruct (answered_event _ _ _ _ _ _ _ Ha Ht He) as [Hdata Hev].
    rewrite bool_decide_eq_false_2 in Hp by by destruct ev2. injection Hp as <- <- <-. by left.
  - destruct (bool_decide_reflect (ev2 = RpcClient_NONE)) as [->|Hev]; cbn [negb] in Hp.
    + destruct (poll_endpoints m n0 r2 now) as [[m3 ev3] res3] eqn:Hpm.
      injection Hp as <- <- <-. cbn. rewrite decide_False by done. by eapply IH.
    + injection Hp as <- <- <-. right. cbn. rewrite decide_False by done. auto.
Qed.

(** One poll per clock; the events with their services and responses. *)
Fixpoint poll_each (s : RpcServicesClient) (n0 : string) (r : RpcResponse)
    (clocks : list (string -> Z))
    : RpcServicesClient * list (string * (RpcClientEventType * RpcResponse)) :=
  match clocks with
  | [] => (s, [])
  | now :: rest =>
      let '(s1, ev, (n, response)) := poll s n0 r now in
      let '(s2, evs) := poll_each s1 n0 r rest in
      (s2, (n, (ev, response)) :: evs)
  end.

Lemma response_delivered_in clocks s n0 r n e data s' evs :
  om_find n (rsc_rpc_endpoints s) = Some e -> answered e data ->
  Forall (fun now => timely now (rsc_rpc_endpoints s)) clocks ->
  total_outstanding (rsc_rpc_endpoints s) <= length clocks ->
  poll_each s n0 r clocks = (s', evs) ->
  (n, response_of data) ∈ evs.
Proof.
  revert s s' evs. induction clocks as [|now clocks IH]; intros s s' evs He Ha Ht Hlen.
  { apply om_find_split in He as (m1 & m2 & Hm & _). unfold total_outstanding in Hlen.
    rewrite Hm, sum_list_with_app in Hlen. cbn in Hlen.
    rewrite (outstanding_busy e) in Hlen by apply Ha. lia. }
  cbn. unfold poll. destruct (poll_endpoints _ n0 r now) as [[m ev] [n1 r1]] eqn:Hp.
  destruct (poll_each _ n0 r clocks) as [s2 evs2] eqn:Hr. intros [= <- <-].
  apply Forall_cons in Ht as [Hnow Ht].
  pose proof (poll_endpoints_total _ _ _ _ _ _ _ Hp Hnow) as [_ Htot].
  destruct (poll_endpoints_reach _ _ _ _ _ _ _ _ _ _ Hp He Ha Hnow) as [[Hn Hev]|[He' Hev]].
  - cbn in Hn, Hev. rewrite Hn, Hev. left.
  - right. rewrite Hev in Htot. apply (IH (set_rpc_endpoints m s) s2 evs2 He' Ha); [| |exact Hr].
    + eapply Forall_impl; [exact Ht|]. intros clock Hc. cbn.
      eapply poll_endpoints_timely; [exact Hp|exact Hc].
    + change (total_outstanding m <= length clocks). cbn [length] in Hlen. lia.
Qed.

(** ** A call and its answer *)

(** What an accepted call leaves at its endpoint. *)
Lemma call_started cs w n e pdu0 cs1 pdu pdu' timeout now cs2 w2 :
  om_find n (rsc_rpc_endpoints cs) = Some e ->
  create_request_buffer cs n pdu0 = (cs1, pdu, true) ->
  call cs1 w n pdu' timeout now = (cs2, w2, true) ->
  let id := u32 (u64 (rc_current_request_id e + 1)) in
  pdu = cpp2pdu_ServiceRequestHeader
          (mkServiceRequestHeader id (rc_service_name e) (rc_client_name e)
             HAKO_SERVICE_OPERATION_CODE_REQUEST 0) (get_pdu_size (request_key e))
  /\ w2 = w ++ [mkRpcSend (request_key e) pdu' true]
  /\ exists e2, om_find n (rsc_rpc_endpoints cs2) = Some e2
       /\ rc_state e2 = CLIENT_STATE_RUNNING /\ rc_request_id e2 = id
       /\ rc_service_name e2 = rc_service_name e /\ rc_client_name e2 = rc_client_name e
       /\ rc_pending_responses e2 = rc_pending_responses e.
Proof.
  intros He. unfold create_request_buffer. rewrite He. intros [= <- <-] Hc.
  split; [done|]. unfold call in Hc. cbn [rsc_rpc_endpoints put_endpoint set_rpc_endpoints] in Hc.
  pose proof (om_find_update n (set_current_request_id (u64 (rc_current_request_id e + 1)) e)
    _ n e He) as He1. rewrite decide_True in He1 by done. rewrite He1 in Hc.
  destruct (RpcClientEp.call _ w _ timeout now) as [[e2 w3] ok] eqn:Hcall.
  injection Hc as <- <- ->. unfold RpcClientEp.call in Hcall. split_guard_in Hcall; [done|].
  cbn in Hcall. destruct (rpc_send_result _ _ _); [|done]. injection Hcall as <- <-.
  split; [done|]. eexists. cbn [rsc_rpc_endpoints put_endpoint set_rpc_endpoints].
  by rewrite (om_find_update _ _ _ _ _ He1), decide_True by done.
Qed.

(** The reply to a call, received by the client that waits for it. *)
Lemma reply_answers cs n e id status code key :
  om_find n (rsc_rpc_endpoints cs) = Some e -> rc_state e = CLIENT_STATE_RUNNING ->
  rc_request_id e = id -> rc_pending_responses e = [] ->
  let rh := mkServiceResponseHeader id (rc_service_name e) (rc_client_name e) status 100 code in
  forall reply, pdu2cpp_ServiceResponseHeader reply = rh ->
  (code < HAKO_SERVICE_RESULT_CODE_NUM)%Z ->
  exists e', om_find n (rsc_rpc_endpoints (receive cs n key reply)) = Some e' /\ answered e' reply.
Proof.
  intros He Hs Hid Hq rh reply Hd Hcode. exists (put_pending_response key reply e).
  unfold receive. rewrite He. cbn [rsc_rpc_endpoints put_endpoint set_rpc_endpoints].
  rewrite (om_find_update _ _ _ _ _ He), decide_True by done. split; [done|]. split_and!.
  - cbn. by rewrite Hs.
  - exists 0, (mkPendingResponse key reply). split; [|done]. unfold find_response. cbn.
    rewrite Hq. cbn. rewrite Hd. cbn. by rewrite decide_True.
  - rewrite Hd. unfold validate_header. cbn. rewrite !bool_decide_eq_true_2 by done.
    rewrite Hid, Z.eqb_refl. cbn.
    by destruct (Z.leb_spec HAKO_SERVICE_RESULT_CODE_NUM code); [lia|].
Qed.

(** ** A call past its limit *)

Lemma poll_endpoints_timeout m1 n e m2 n0 r now :
  Forall (fun kv => rc_state kv.2 = CLIENT_STATE_IDLE) m1 ->
  rc_state e = CLIENT_STATE_RUNNING -> timed_out e (now n) = true ->
  poll_endpoints (m1 ++ (n, e) :: m2) n0 r now
  = (m1 ++ (n, e) :: m2, RpcClient_RESPONSE_TIMEOUT, (n, r)).
Proof.
  intros Hf Hs Ht. induction Hf as [|[k e1] m1 Hi Hf IH]; cbn.
  - unfold RpcClientEp.poll. by rewrite Hs, Ht.
  - assert (He1 : RpcClientEp.poll e1 r (now k) = (e1, RpcClient_NONE, r)).
    { cbn in Hi. unfold RpcClientEp.poll. by rewrite Hi. }
    rewrite He1. cbn. by rewrite IH.
Qed.
End Facts.

(** ** A concrete client

    Client "c" of services "a" and "s" of the concrete server. *)

Module Demo.
Import ConcreteRpc.

Definition ready : RpcServicesClient :=
  (initialize_services (new_rpc_services_client "n" "c")
     (fun id => if decide (id = "e") then Some (RpcServices.mkPduEndpoint true) else None)
     RpcServicesProps.Demo.file).1.

Definition no_response : RpcResponse := RpcClientProps.Demo.no_response.

Definition created : RpcServicesClient * RpcPduData * bool := create_request_buffer ready "s" [].

Definition calling : RpcServicesClient * RpcWire * bool :=
  call created.1.1 [] "s" created.1.2 1000 50.

Definition response_packet (n : string) (id : Z) : RpcPduData :=
  cpp2pdu_ServiceResponseHeader (mkServiceResponseHeader id n "c" 3 100 0) 64.

Definition answered_client : RpcServicesClient :=
  receive calling.1.1 "s" (mkPduKey "s" "cRes") (response_packet "s" 1).
End Demo.
Import ConcreteRpc Demo.

Lemma client_ready_idle : idle_wf ready.
Proof.
  eapply initialize_services_idle; [apply surjective_pairing|apply new_client_idle].
Qed.

(** ** Properties *)

(** Per service, responses never outnumber calls: after the
    initialisation of a fresh services client, over any sequence of buffer
    creations, calls, cancels, received packets, polls and stops, the responses
    that polls returned for a service plus one if a call of it is outstanding
    are at most the calls that were started on that service. *)
Theorem rpc_client_services_one_call {P : RpcPlatform} node client ref file s0 ok ops s w' c :
  initialize_services (new_rpc_services_client node client) ref file = (s0, ok) ->
  run_ops s0 [] ops = (s, w', c) ->
  forall n, c.2 n + outstanding_at (rsc_rpc_endpoints s) n <= c.1 n.
Proof.
  intros Hi Hr n. apply initialize_services_idle in Hi as [Hwf Hz]; [|apply new_client_idle].
  apply client_run_ops_ok in Hr as [_ Ho]; [|done]. specialize (Ho n). rewrite Hz in Ho. lia.
Qed.

Lemma rpc_client_services_one_call_witness :
  let ops := [CSvcCreate "s" 0 []; CSvcCall "s" [] 0 0;
    CSvcReceive "s" (mkPduKey "s" "cRes") (response_packet "s" 1);
    CSvcPoll "" no_response (fun _ => 5%Z)] in
  (run_ops ready [] ops).2.2 "s" = 1
  /\ forall n, (run_ops ready [] ops).2.2 n
       + outstanding_at (rsc_rpc_endpoints (run_ops ready [] ops).1.1) n
       <= (run_ops ready [] ops).2.1 n.
Proof.
  split; [by vm_compute|].
  eapply (rpc_client_services_one_call "n" "c" _ RpcServicesProps.Demo.file ready);
    [apply surjective_pairing|apply triple_eta].
Defined.

(** A poll names the right service: a response event names a registered
    service, its header is for that service and this client and carries the id
    of the call in progress there; that call is over afterwards; every service
    that sorts later is untouched. *)
Theorem rpc_client_services_poll_source {P : RpcPlatform} s n0 r now s' ev n r' :
  client_services_wf s -> poll s n0 r now = (s', ev, (n, r')) -> is_response ev = true ->
  exists m1 e m2 m1' e',
    rsc_rpc_endpoints s = m1 ++ (n, e) :: m2
    /\ rsc_rpc_endpoints s' = m1' ++ (n, e') :: m2
    /\ rp_service_name (res_header r') = n
    /\ rp_client_name (res_header r') = rsc_client_name s
    /\ rp_request_id (res_header r') = rc_request_id e
    /\ rc_state e <> CLIENT_STATE_IDLE /\ rc_state e' = CLIENT_STATE_IDLE.
Proof.
  intros [_ Hf] Hp Hr. unfold poll in Hp.
  destruct (poll_endpoints _ n0 r now) as [[m ev1] [n1 r1]] eqn:Hpe.
  injection Hp as <- -> -> ->.
  apply poll_endpoints_split in Hpe as (m1 & e & m2 & m1' & e' & r2 & Hm & Hm' & Hpo & _);
    [|by destruct ev].
  exists m1, e, m2, m1', e'. rewrite Hm in Hf. apply Forall_app in Hf as [_ [[Hn Hc] _]%Forall_cons].
  cbn in Hn, Hc. apply poll_cases in Hpo.
  destruct ev; try done; destruct Hpo as (H1 & H2 & H3 & H4 & _ & i & p & _ & _ & _ & _ & ->);
    cbn; split_and!; congruence.
Qed.

Lemma rpc_client_services_poll_source_witness :
  rp_service_name (res_header (poll answered_client "" no_response (fun _ => 60%Z)).2.2) = "s".
Proof.
  destruct (rpc_client_services_poll_source answered_client "" no_response (fun _ => 60%Z)
    (poll answered_client "" no_response (fun _ => 60%Z)).1.1 RpcClient_RESPONSE_IN "s"
    (poll answered_client "" no_response (fun _ => 60%Z)).2.2)
    as (? & ? & ? & ? & ? & _ & _ & H & _); [|by vm_compute|done|exact H].
  change answered_client with (run_ops ready [] [CSvcCreate "s" 0 [];
    CSvcCall "s" created.1.2 1000 50;
    CSvcReceive "s" (mkPduKey "s" "cRes") (response_packet "s" 1)]).1.1.
  eapply client_run_ops_ok; [apply client_ready_idle|apply triple_eta].
Defined.

(** A queued response is delivered: when the response to the call in
    progress at a service is queued and no call is past its limit, as many polls
    as there are outstanding calls return it, with its event and content,
    whatever the other services have queued. *)
Theorem rpc_client_services_response_delivered {P : RpcPlatform} clocks s n0 r n e data s' evs :
  om_find n (rsc_rpc_endpoints s) = Some e -> answered e data ->
  Forall (fun now => timely now (rsc_rpc_endpoints s)) clocks ->
  total_outstanding (rsc_rpc_endpoints s) <= length clocks ->
  poll_each s n0 r clocks = (s', evs) ->
  (n, response_of data) ∈ evs.
Proof. apply response_delivered_in. Qed.

Lemma rpc_client_services_response_delivered_witness :
  ("s", response_of (response_packet "s" 1))
    ∈ (poll_each answered_client "" no_response [fun _ => 60%Z]).2.
Proof.
  destruct (om_find "s" (rsc_rpc_endpoints answered_client)) as [e|] eqn:He;
    [|by vm_compute in He].
  apply (rpc_client_services_response_delivered [fun _ => 60%Z] answered_client "" no_response
    "s" e (response_packet "s" 1) (poll_each answered_client "" no_response [fun _ => 60%Z]).1);
    [exact He| | |by vm_compute|apply surjective_pairing].
  - vm_compute in He. injection He as <-. split_and!; [done| |by vm_compute].
    eexists 0, _. split; by vm_compute.
  - repeat constructor.
Defined.

(** C38 — A call past its limit starves the services after it: while a call
    that has timed out is not cancelled and no earlier service has a call, every
    poll reports that timeout again and changes nothing, so responses queued at
    the services that sort later are not delivered however often the client
    polls. *)
Theorem rpc_client_services_timeout_starves {P : RpcPlatform} clocks s m1 n e m2 n0 r :
  rsc_rpc_endpoints s = m1 ++ (n, e) :: m2 ->
  Forall (fun kv => rc_state kv.2 = CLIENT_STATE_IDLE) m1 ->
  rc_state e = CLIENT_STATE_RUNNING ->
  Forall (fun now => timed_out e (now n) = true) clocks ->
  poll_each s n0 r clocks = (s, replicate (length clocks) (n, (RpcClient_RESPONSE_TIMEOUT, r))).
Proof.
  intros Hm Hf Hs Ht. induction Ht as [|now clocks Hnow Ht IH]; [done|]. cbn.
  unfold poll. rewrite Hm, poll_endpoints_timeout by done.
  assert (Hse : set_rpc_endpoints (m1 ++ (n, e) :: m2) s = s)
    by (rewrite <-Hm; by destruct s). by rewrite Hse, IH.
Qed.

(** The call to "a" is past its limit, the response of "s" is queued. *)
Definition stuck_client : RpcServicesClient :=
  (call answered_client [] "a" [] 10 100).1.1.

Lemma rpc_client_services_timeout_starves_witness :
  poll_each stuck_client "" no_response [(fun _ => 500%Z); (fun _ => 600%Z)]
  = (stuck_client, [("a", (RpcClient_RESPONSE_TIMEOUT, no_response));
                    ("a", (RpcClient_RESPONSE_TIMEOUT, no_response))]).
Proof.
  destruct (rsc_rpc_endpoints stuck_client) as [|[k e] m] eqn:Hm; [by vm_compute in Hm|].
  assert (Hk : k = "a" /\ rc_state e = CLIENT_STATE_RUNNING
    /\ timed_out e 500 = true /\ timed_out e 600 = true).
  { vm_compute in Hm. injection Hm as <- <- _. by vm_compute. }
  destruct Hk as (-> & Hs & H5 & H6).
  exact (rpc_client_services_timeout_starves [(fun _ => 500%Z); (fun _ => 600%Z)] stuck_client
    [] "a" e m "" no_response Hm (List.Forall_nil _) Hs
    (List.Forall_cons _ _ _ H5 (List.Forall_cons _ _ _ H6 (List.Forall_nil _)))).
Defined.

(** C18 — The round trip between the services layers: a request buffer created
    and sent by an idle client on a service, received by a server that has that
    service with a static client list (dynamicClient is false) naming the client,
    is idle for the client and has no earlier packet of it, is raised as
    REQUEST_IN with the id the client waits for within as many server polls as
    packets are queued; and the reply buffer the server creates for it, received
    by the client, is returned with exactly the status and result code the
    server chose within as many client polls as calls are outstanding, when the
    code is below NUM and not CANCELED and no outstanding call is past its limit
    at any of the polls. Both headers fit their packets. *)
Theorem rpc_services_roundtrip {P : RpcPlatform} {HL : RpcPlatformLaws P}
    cs ss w n e se pdu0 cs1 pdu timeout now cs2 w2 :
  client_services_wf cs -> RpcServicesFacts.services_wf ss ->
  om_find n (rsc_rpc_endpoints cs) = Some e -> rc_pending_responses e = [] ->
  create_request_buffer cs n pdu0 = (cs1, pdu, true) ->
  call cs1 w n pdu timeout now = (cs2, w2, true) ->
  let client := rsc_client_name cs in
  let id := u32 (u64 (rc_current_request_id e + 1)) in
  let h := mkServiceRequestHeader id n client HAKO_SERVICE_OPERATION_CODE_REQUEST 0 in
  request_fits h (get_pdu_size (mkPduKey n (client +:+ "Req"))) = true ->
  om_find n (RpcServices.rss_rpc_endpoints ss) = Some se ->
  rs_dynamic_client se = false -> client ∈ rs_registered_clients se ->
  status_of se client = RpcServerProps.idle ->
  (forall pk prev, pk ∈ rs_pending_requests se ->
     rq_client_name (pdu2cpp_ServiceRequestHeader (pr_data pk) prev) <> client) ->
  (forall key k wire r ss' w' evs,
     RpcServicesProps.poll_many k (RpcServices.receive ss n key pdu) wire r = (ss', w', evs) ->
     RpcServicesProps.backlog (RpcServices.receive ss n key pdu) <= k ->
     (RpcServer_REQUEST_IN, mkRpcRequest client h pdu) ∈ evs)
  /\ forall status code key clocks n0 r cs' evs,
       let rh := mkServiceResponseHeader id n client status 100 code in
       let reply := RpcServices.create_reply_buffer ss h status code [] in
       let cs3 := receive cs2 n key reply in
       response_fits rh (get_pdu_size (response_key n client)) = true ->
       (code < HAKO_SERVICE_RESULT_CODE_NUM)%Z -> code <> HAKO_SERVICE_RESULT_CODE_CANCELED ->
       Forall (fun clock => timely clock (rsc_rpc_endpoints cs3)) clocks ->
       total_outstanding (rsc_rpc_endpoints cs3) <= length clocks ->
       poll_each cs3 n0 r clocks = (cs', evs) ->
       (n, (RpcClient_RESPONSE_IN, mkRpcResponse rh reply)) ∈ evs.
Proof.
  intros Hcw Hsw He Hq Hcr Hcall client id h Hfit Hse Hdyn Hreg Hidle Hnone.
  destruct (client_wf_find _ _ _ Hcw He) as [Hn Hc].
  destruct (call_started _ _ _ _ _ _ _ _ _ _ _ _ He Hcr Hcall)
    as (Hpdu & _ & e2 & He2 & Hs2 & Hid2 & Hn2 & Hc2 & Hq2).
  rewrite Hn in Hn2. rewrite Hc in Hc2. rewrite Hn, Hc in Hpdu. split.
  - intros key k wire r ss' w' evs Hpm Hk.
    eapply (RpcServicesProps.received_request_served ss n se key pdu h); try done.
    intros prev. rewrite Hpdu. unfold request_key. rewrite Hn, Hc.
    by apply law_request_roundtrip.
  - intros status code key clocks n0 r cs' evs rh reply cs3 Hrf Hcode Hnc Ht Htot Hpe.
    assert (Hreply : pdu2cpp_ServiceResponseHeader reply = rh).
    { unfold reply, RpcServices.create_reply_buffer. cbn. rewrite Hse.
      by apply law_response_roundtrip. }
    rewrite Hq in Hq2.
    destruct (reply_answers cs2 n e2 id status code key He2 Hs2 Hid2 Hq2 reply)
      as (e3 & He3 & Ha); [by rewrite Hn2, Hc2|done|].
    pose proof (response_delivered_in _ _ _ _ _ _ _ _ _ He3 Ha Ht Htot Hpe) as Hin.
    unfold response_of in Hin. rewrite Hreply in Hin. cbn in Hin.
    destruct (Z.eqb_spec code HAKO_SERVICE_RESULT_CODE_CANCELED); [done|exact Hin].
Qed.

Lemma rpc_services_roundtrip_witness :
  (RpcServer_REQUEST_IN, mkRpcRequest "c" (RpcServicesProps.Demo.header "s" 1) created.1.2)
    ∈ (RpcServicesProps.poll_many 1 (RpcServices.receive RpcServicesProps.Demo.ready "s"
         (mkPduKey "s" "cReq") created.1.2) [] RpcServicesProps.Demo.no_request).2
  /\ let reply := RpcServices.create_reply_buffer RpcServicesProps.Demo.ready
       (RpcServicesProps.Demo.header "s" 1) HAKO_SERVICE_STATUS_DONE
       HAKO_SERVICE_RESULT_CODE_OK [] in
     ("s", (RpcClient_RESPONSE_IN, mkRpcResponse (mkServiceResponseHeader 1 "s" "c"
        HAKO_SERVICE_STATUS_DONE 100 HAKO_SERVICE_RESULT_CODE_OK) reply))
     ∈ (poll_each (receive calling.1.1 "s" (mkPduKey "s" "cRes") reply) "" no_response
          [fun _ => 60%Z]).2.
Proof.
  set (e := (initialize (new_rpc_client "s" "c" true true)
               (RpcServicesProps.Demo.config "s") 24).1).
  set (se := (RpcServerEp.initialize (new_rpc_server "s" true true)
                (RpcServicesProps.Demo.config "s") 24 None).1).
  destruct (rpc_services_roundtrip ready RpcServicesProps.Demo.ready [] "s" e se []
    created.1.1 created.1.2 1000 50 calling.1.1 calling.1.2
    (proj1 client_ready_idle) RpcServicesProps.demo_ready_wf ltac:(done) ltac:(done)
    ltac:(by vm_compute) ltac:(by vm_compute) ltac:(by vm_compute) ltac:(done) ltac:(done)
    ltac:(by apply list_elem_of_singleton) ltac:(done)
    ltac:(intros pk prev Hin; by apply elem_of_nil in Hin)) as [Hreq Hrep].
  split.
  - eapply (Hreq (mkPduKey "s" "cReq") 1 [] RpcServicesProps.Demo.no_request);
      [apply triple_eta|by vm_compute].
  - eapply (Hrep HAKO_SERVICE_STATUS_DONE HAKO_SERVICE_RESULT_CODE_OK (mkPduKey "s" "cRes")
      [fun _ => 60%Z] "" no_response);
      [by vm_compute|by vm_compute|done| |by vm_compute|apply surjective_pairing].
    repeat constructor; by vm_compute.
Defined.
End RpcClientServicesProps.
