(* ===== verification/RpcServiceHelper.v ===== *)
(** * Typed RPC helper

    [HakoRpcAssetServiceServer] of include/hakoniwa/pdu/rpc/rpc_service_helper.hpp:
    it puts typed bodies into the packets the services create and takes them
    out again. The packet types and their convertors are template parameters,
    generated outside this repository: here they are the types of the bodies
    and the class [RpcConvertors]. A [bool] result with an output parameter is
    the pair of both, the parameter as it was when the function fails. *)

From S2P Require Import Prelude OrderedMap Multiplexer RpcTypes RpcServerEndpoint.
From S2P Require Import RpcClientEndpoint RpcServicesServer RpcServicesClient.
From S2P Require Import RpcServicesMuxServer.
From Stdlib Require Import ZArith Lia.
From stdpp Require Import base gmap strings list fin_maps.

Module RpcHelper.
Import Rpc.

(** A generated packet type: a service header, then the body. *)
Record RpcPacket (H B : Type) := mkRpcPacket { rpk_header : H; rpk_body : B }.
Arguments mkRpcPacket {H B} _ _.
Arguments rpk_header {H B} _.
Arguments rpk_body {H B} _.

(** [pdu2cpp] fails or fills a packet; [cpp2pdu] writes into the buffer it is
    given and returns a size, negative when the packet cannot be stored. *)
Class RpcConvertors (ReqBody ResBody : Type) := {
  request_pdu2cpp : RpcPduData -> option (RpcPacket ServiceRequestHeader ReqBody);
  request_cpp2pdu : RpcPacket ServiceRequestHeader ReqBody -> RpcPduData -> RpcPduData * Z;
  response_pdu2cpp : RpcPduData -> option (RpcPacket ServiceResponseHeader ResBody);
  response_cpp2pdu : RpcPacket ServiceResponseHeader ResBody -> RpcPduData -> RpcPduData * Z;
}.

(** What the helper relies on: the header is the first member of a packet, so a
    buffer that holds only a header is read as a packet with that header and
    some body, and the header convertors read the header of a packet; and a
    packet that was stored is read back as it was. The last law takes headers and
    bodies to be values the generated structures can hold: a convertor that cuts an
    over-long string to its fixed-size field and still reports a size does not
    meet it for such a packet. *)
Class RpcConvertorsLaws {P : RpcPlatform} {ReqBody ResBody : Type}
    (C : RpcConvertors ReqBody ResBody) : Prop := {
  law_request_of_header h n : request_fits h n = true ->
    exists b, request_pdu2cpp (cpp2pdu_ServiceRequestHeader h n) = Some (mkRpcPacket h b);
  law_request_packet p buffer buffer' size :
    request_cpp2pdu p buffer = (buffer', size) -> (0 <= size)%Z ->
    request_pdu2cpp buffer' = Some p
    /\ forall prev, pdu2cpp_ServiceRequestHeader buffer' prev = rpk_header p;
  law_response_of_header h n : response_fits h n = true ->
    exists b, response_pdu2cpp (cpp2pdu_ServiceResponseHeader h n) = Some (mkRpcPacket h b);
  law_response_packet p buffer buffer' size :
    response_cpp2pdu p buffer = (buffer', size) -> (0 <= size)%Z ->
    response_pdu2cpp buffer' = Some p
    /\ pdu2cpp_ServiceResponseHeader buffer' = rpk_header p;
}.

Section Operations.
Context {P : RpcPlatform} {ReqBody ResBody : Type} {C : RpcConvertors ReqBody ResBody}.

(** ** Reading bodies *)

Definition get_request_body (request : RpcRequest) (req_body : ReqBody) : ReqBody * bool :=
  match request_pdu2cpp (req_pdu request) with
  | None => (req_body, false)
  | Some request_packet => (rpk_body request_packet, true)
  end.

Definition get_response_body (response : RpcResponse) (res_body : ResBody) : ResBody * bool :=
  match response_pdu2cpp (res_pdu response) with
  | None => (res_body, false)
  | Some response_packet => (rpk_body response_packet, true)
  end.

(** ** Writing bodies *)

Definition encode_response_body (res_body : ResBody) (response_pdu : RpcPduData)
    : RpcPduData * bool :=
  match response_pdu2cpp response_pdu with
  | None => (response_pdu, false)
  | Some response_packet =>
      let '(response_pdu', size) :=
        response_cpp2pdu (mkRpcPacket (rpk_header response_packet) res_body) response_pdu in
      (response_pdu', negb (size <? 0)%Z)
  end.

Definition set_response_body (server : RpcServices.RpcServicesServer) (request : RpcRequest)
    (status result_code : Z) (res_body : ResBody) (response_pdu : RpcPduData)
    : RpcPduData * bool :=
  encode_response_body res_body
    (RpcServices.create_reply_buffer server (req_header request) status result_code response_pdu).

Definition set_response_body_mux (server : RpcMux.RpcMuxServer) (request : RpcMux.RpcMuxRequest)
    (status result_code : Z) (res_body : ResBody) (response_pdu : RpcPduData)
    : RpcPduData * bool :=
  let '(response_pdu', ok) :=
    RpcMux.create_reply_buffer server request status result_code response_pdu in
  if negb ok then (response_pdu', false) else encode_response_body res_body response_pdu'.

(** What [create_request_buffer] returns is not looked at. *)
Definition set_request_body (client : RpcClientServices.RpcServicesClient)
    (service_name : string) (req_body : ReqBody) (request_pdu : RpcPduData)
    : RpcClientServices.RpcServicesClient * RpcPduData * bool :=
  let '(client', request_pdu1, _) :=
    RpcClientServices.create_request_buffer client service_name request_pdu in
  match request_pdu2cpp request_pdu1 with
  | None => (client', request_pdu1, false)
  | Some request_packet =>
      let '(request_pdu2, size) :=
        request_cpp2pdu (mkRpcPacket (rpk_header request_packet) req_body) request_pdu1 in
      (client', request_pdu2, negb (size <? 0)%Z)
  end.

(** ** Calls and replies *)

Definition call (client : RpcClientServices.RpcServicesClient) (w : RpcWire)
    (service_name : string) (req_body : ReqBody) (timeout_usec now : Z)
    : RpcClientServices.RpcServicesClient * RpcWire * bool :=
  let '(client', request_pdu, set_req_body) :=
    set_request_body client service_name req_body [] in
  if negb set_req_body then (client', w, false)
  else RpcClientServices.call client' w service_name request_pdu timeout_usec now.

Definition reply (server : RpcServices.RpcServicesServer) (w : RpcWire) (request : RpcRequest)
    (status result_code : Z) (res_body : ResBody)
    : RpcServices.RpcServicesServer * RpcWire * bool :=
  let '(response_pdu, set_res_body) :=
    set_response_body server request status result_code res_body [] in
  if negb set_res_body then (server, w, false)
  else
    let '(server', w') := RpcServices.send_reply server w (req_header request) response_pdu in
    (server', w', true).

Definition reply_mux (server : RpcMux.RpcMuxServer) (request : RpcMux.RpcMuxRequest)
    (status result_code : Z) (res_body : ResBody) : RpcMux.RpcMuxServer * bool :=
  let '(response_pdu, set_res_body) :=
    set_response_body_mux server request status result_code res_body [] in
  if negb set_res_body then (server, false)
  else RpcMux.send_reply server request response_pdu.
End Operations.

(** ** Concrete convertors

    Bodies are byte lists, stored after the header with their length. *)

Module ConcreteHelper.
Import ConcreteRpc.

Definition put_body (b : list Z) : list Z := Z.of_nat (length b) :: b.

Definition get_body (l : list Z) : list Z :=
  match l with [] => [] | n :: l' => take (Z.to_nat n) l' end.

Lemma get_put_body b l : get_body (put_body b ++ l) = b.
Proof. cbn. by rewrite Nat2Z.id, take_app_length. Qed.

(** Storing bytes at the start of a buffer, if they fit. *)
Definition store (bytes buffer : list Z) : list Z * Z :=
  if length bytes <=? length buffer
  then (bytes ++ drop (length bytes) buffer, Z.of_nat (length bytes))
  else (buffer, (-1)%Z).

Definition decode_request_packet (l : list Z)
    : option (RpcPacket ServiceRequestHeader (list Z)) :=
  match l with
  | id :: op :: interval :: rest =>
      let '(service, rest') := get_string rest in
      let '(client, body) := get_string rest' in
      Some (mkRpcPacket (mkServiceRequestHeader id service client op interval) (get_body body))
  | _ => None
  end.

Definition decode_response_packet (l : list Z)
    : option (RpcPacket ServiceResponseHeader (list Z)) :=
  match l with
  | id :: status :: percentage :: code :: rest =>
      let '(service, rest') := get_string rest in
      let '(client, body) := get_string rest' in
      Some (mkRpcPacket (mkServiceResponseHeader id service client status percentage code)
              (get_body body))
  | _ => None
  end.

#[export] Instance convertors : RpcConvertors (list Z) (list Z) := {|
  request_pdu2cpp := decode_request_packet;
  request_cpp2pdu p buffer := store (encode_request (rpk_header p) ++ put_body (rpk_body p)) buffer;
  response_pdu2cpp := decode_response_packet;
  response_cpp2pdu p buffer :=
    store (encode_response (rpk_header p) ++ put_body (rpk_body p)) buffer;
|}.

#[local] Arguments put_string : simpl never.
#[local] Arguments get_string : simpl never.
#[local] Arguments put_body : simpl never.
#[local] Arguments get_body : simpl never.

Lemma store_stored bytes buffer buffer' size :
  store bytes buffer = (buffer', size) -> (0 <= size)%Z -> exists rest, buffer' = bytes ++ rest.
Proof. unfold store. destruct (_ <=? _); intros [= <- <-] Hs; [eauto|lia]. Qed.

Lemma decode_request_bytes h l :
  decode_request_packet (encode_request h ++ l) = Some (mkRpcPacket h (get_body l))
  /\ forall prev, decode_request (encode_request h ++ l) prev = h.
Proof.
  unfold encode_request, decode_request_packet, decode_request.
  rewrite <-!(assoc_L (++)). cbn. rewrite get_put_string. cbn.
  rewrite get_put_string. by destruct h.
Qed.

Lemma decode_response_bytes h l :
  decode_response_packet (encode_response h ++ l) = Some (mkRpcPacket h (get_body l))
  /\ decode_response (encode_response h ++ l) = h.
Proof.
  unfold encode_response, decode_response_packet, decode_response.
  rewrite <-!(assoc_L (++)). cbn. rewrite get_put_string. cbn.
  rewrite get_put_string. by destruct h.
Qed.

#[export] Instance convertors_laws : RpcConvertorsLaws convertors.
Proof.
  split.
  - intros h n Hf%Z.leb_le. destruct (pad_fits _ _ Hf) as [rest Hr].
    exists (get_body rest). change (decode_request_packet (pad (encode_request h) n)
      = Some (mkRpcPacket h (get_body rest))). rewrite Hr. apply decode_request_bytes.
  - intros p buffer buffer' size Hs Hz.
    destruct (store_stored _ _ _ _ Hs Hz) as [rest ->]. rewrite <-(assoc_L (++)).
    destruct (decode_request_bytes (rpk_header p) (put_body (rpk_body p) ++ rest)) as [Hp Hh].
    split; [|exact Hh]. etrans; [exact Hp|]. rewrite get_put_body. by destruct p.
  - intros h n Hf%Z.leb_le. destruct (pad_fits _ _ Hf) as [rest Hr].
    exists (get_body rest). change (decode_response_packet (pad (encode_response h) n)
      = Some (mkRpcPacket h (get_body rest))). rewrite Hr. apply decode_response_bytes.
  - intros p buffer buffer' size Hs Hz.
    destruct (store_stored _ _ _ _ Hs Hz) as [rest ->]. rewrite <-(assoc_L (++)).
    destruct (decode_response_bytes (rpk_header p) (put_body (rpk_body p) ++ rest)) as [Hp Hh].
    split; [|exact Hh]. etrans; [exact Hp|]. rewrite get_put_body. by destruct p.
Qed.
End ConcreteHelper.
End RpcHelper.
