(* ===== verification/RpcServiceHelperProps.v ===== *)
(** * What the typed RPC helper guarantees

    Bodies arrive as they were given, with the header of the call untouched. *)

From S2P Require Import Prelude OrderedMap RpcTypes RpcServerEndpoint RpcServerProps.
From S2P Require Import RpcClientEndpoint RpcServicesServer RpcServicesServerFacts.
From S2P Require Import RpcServicesServerProps RpcServicesClient RpcServicesClientProps.
From S2P Require Import RpcServicesMuxServer RpcServiceHelper.
From Stdlib Require Import ZArith Lia.
From stdpp Require Import base gmap strings list fin_maps.

Module RpcHelperProps.
Import Rpc RpcServerEp RpcClientEp RpcHelper.
Import RpcClientServices (RpcServicesClient, rsc_client_name, rsc_rpc_endpoints).
Import RpcClientServicesProps (timely, total_outstanding, poll_each, client_services_wf).

Section Facts.
Context {P : RpcPlatform} {ReqBody ResBody : Type} {C : RpcConvertors ReqBody ResBody}.
Context {HL : RpcPlatformLaws P} {HC : RpcConvertorsLaws C}.

(** A body that was set is the one that is read, under the same header. *)
Lemma encode_response_body_spec h n b pdu ok :
  response_fits h n = true ->
  encode_response_body b (cpp2pdu_ServiceResponseHeader h n) = (pdu, ok) -> ok = true ->
  response_pdu2cpp pdu = Some (mkRpcPacket h b) /\ pdu2cpp_ServiceResponseHeader pdu = h.
Proof.
  intros Hf. unfold encode_response_body.
  destruct (law_response_of_header h n Hf) as [b0 ->]. cbn.
  destruct (response_cpp2pdu _ _) as [pdu' size] eqn:Hp. intros [= <- <-] Hs.
  apply law_response_packet in Hp as [Hr Hh]; [done|].
  destruct (Z.ltb_spec size 0); [done|lia].
Qed.

(** [create_reply_buffer] of a known service. *)
Lemma create_reply_buffer_header ss n se h status code pdu0 :
  om_find n (RpcServices.rss_rpc_endpoints ss) = Some se -> rq_service_name h = n ->
  RpcServices.create_reply_buffer ss h status code pdu0
  = cpp2pdu_ServiceResponseHeader
      (mkServiceResponseHeader (rq_request_id h) n (rq_client_name h) status 100 code)
      (get_pdu_size (response_key n (rq_client_name h))).
Proof.
  intros Hf Hn. unfold RpcServices.create_reply_buffer. rewrite Hn, Hf.
  unfold RpcServerEp.create_reply_buffer. by rewrite Hn.
Qed.

(** What a successful call has done: the counter of the service has moved on,
    and one packet with the body is on its way. *)
Lemma call_success cs w n e body timeout now cs2 w2 :
  client_services_wf cs -> om_find n (rsc_rpc_endpoints cs) = Some e ->
  call cs w n body timeout now = (cs2, w2, true) ->
  let client := rsc_client_name cs in
  let h := mkServiceRequestHeader (u32 (u64 (rc_current_request_id e + 1))) n client
             HAKO_SERVICE_OPERATION_CODE_REQUEST 0 in
  request_fits h (get_pdu_size (mkPduKey n (client +:+ "Req"))) = true ->
  exists pdu e2, w2 = w ++ [mkRpcSend (mkPduKey n (client +:+ "Req")) pdu true]
    /\ request_pdu2cpp pdu = Some (mkRpcPacket h body)
    /\ (forall prev, pdu2cpp_ServiceRequestHeader pdu prev = h)
    /\ om_find n (rsc_rpc_endpoints cs2) = Some e2
    /\ rc_state e2 = CLIENT_STATE_RUNNING /\ rc_request_id e2 = rq_request_id h
    /\ rc_service_name e2 = n /\ rc_client_name e2 = client
    /\ rc_pending_responses e2 = rc_pending_responses e.
Proof.
  intros Hcw He Hc client h Hf. unfold call, set_request_body in Hc.
  destruct (RpcClientServicesProps.client_wf_find _ _ _ Hcw He) as [Hn Hcl].
  destruct (RpcClientServices.create_request_buffer cs n []) as [[cs1 pdu1] ok1] eqn:Hcr.
  assert (ok1 = true) as ->.
  { unfold RpcClientServices.create_request_buffer in Hcr. rewrite He in Hcr. by injection Hcr. }
  destruct (request_pdu2cpp pdu1) as [pk|] eqn:Hpk; [|done].
  destruct (request_cpp2pdu _ pdu1) as [pdu2 size] eqn:Hst.
  destruct (Z.ltb_spec size 0) as [|Hsize]; [done|]. cbn in Hc.
  destruct (RpcClientServicesProps.call_started _ _ _ _ _ _ _ _ _ _ _ _ He Hcr Hc)
    as (Hpdu & -> & e2 & He2 & Hs2 & Hid2 & Hn2 & Hc2 & Hq2).
  unfold request_key in *. rewrite Hn, Hcl in *. fold client h in Hpdu.
  destruct (law_request_of_header _ _ Hf) as [b0 Hb0]. rewrite Hpdu, Hb0 in Hpk.
  injection Hpk as <-. destruct (law_request_packet _ _ _ _ Hst Hsize) as [Hr Hh].
  exists pdu2, e2. by split_and!.
Qed.

(** What a successful reply has done, when the services run the request. *)
Lemma reply_success ss1 w1 rq se status code body ss2 w2 :
  let n := rq_service_name (req_header rq) in
  let c := rq_client_name (req_header rq) in
  om_find n (RpcServices.rss_rpc_endpoints ss1) = Some se -> rs_service_name se = n ->
  rs_server_states se !! c
    = Some (mkServerProcessingStatus (rq_request_id (req_header rq)) SERVER_STATE_RUNNING) ->
  let rh := mkServiceResponseHeader (rq_request_id (req_header rq)) n c status 100 code in
  response_fits rh (get_pdu_size (response_key n c)) = true ->
  reply ss1 w1 rq status code body = (ss2, w2, true) ->
  exists pdu ok, w2 = w1 ++ [mkRpcSend (response_key n c) pdu ok]
    /\ response_pdu2cpp pdu = Some (mkRpcPacket rh body)
    /\ pdu2cpp_ServiceResponseHeader pdu = rh.
Proof.
  intros n c Hse Hn Hst rh Hf. unfold reply, set_response_body.
  rewrite (create_reply_buffer_header ss1 n se) by done. fold c rh.
  destruct (encode_response_body body _) as [pdu ok] eqn:Hen. destruct ok; [|done]. cbn.
  apply encode_response_body_spec in Hen as [Hr Hh]; [|done|done].
  unfold RpcServices.send_reply. fold n c. rewrite Hse. unfold RpcServerEp.send_reply.
  rewrite Hst. cbn [sps_state]. cbn -[response_key]. rewrite Hn. intros [= _ <-].
  by eexists _, _.
Qed.
End Facts.

(** A reply through the mux server to a connection that is gone. *)
Lemma reply_mux_gone {P : RpcPlatform} {ReqBody ResBody} {C : RpcConvertors ReqBody ResBody}
    s request status code (body : ResBody) :
  RpcMux.find_server (RpcMux.mr_connection_id request) s = None -> reply_mux s request status code body = (s, false).
Proof.
  intros Hf. unfold reply_mux, set_response_body_mux, RpcMux.create_reply_buffer. by rewrite Hf.
Qed.

(** ** A concrete client and server *)

Module Demo.
Import ConcreteRpc ConcreteHelper.

Definition client : RpcServicesClient := RpcClientServicesProps.Demo.ready.
Definition server : RpcServices.RpcServicesServer := RpcServicesProps.Demo.ready.

Definition calling : RpcServicesClient * RpcWire * bool :=
  call (ResBody := list Z) client [] "s" [5; 6]%Z 1000 50.

Definition sent (w : RpcWire) : RpcPduData := default [] (rsn_data <$> last w).

(** The request as the server raises it, and its reply. *)
Definition polled : RpcServices.RpcServicesServer * RpcWire * (RpcServerEventType * RpcRequest) :=
  RpcServices.poll (RpcServices.receive server "s" (mkPduKey "s" "cReq") (sent calling.1.2)) []
    RpcServicesProps.Demo.no_request.

Definition replied : RpcServices.RpcServicesServer * RpcWire * bool :=
  reply (ReqBody := list Z) polled.1.1 polled.1.2 polled.2.2 HAKO_SERVICE_STATUS_DONE
    HAKO_SERVICE_RESULT_CODE_OK [7]%Z.
End Demo.
Import ConcreteRpc ConcreteHelper Demo.

(** ** Properties *)

(** C19 — The typed round trip: when [call] returns true on an idle service, one
    packet with the body was sent; a server that receives it, has that service
    with a static client list (dynamicClient is false) naming the client, is idle
    for the client and has no earlier packet of it, raises REQUEST_IN within as
    many polls as packets are queued, and [get_request_body] of that request gives
    the body of the call; and when [reply] returns true for the request a poll has
    just raised, one packet was sent on the client's response channel, and the
    client that receives it returns RESPONSE_IN with the status and result code of
    the reply, and [get_response_body] gives the body of the reply, when the code
    is below NUM and not CANCELED and no outstanding call is past its limit at any
    of the polls. Both headers fit their packets. *)
Theorem rpc_helper_typed_roundtrip {P : RpcPlatform} {HL : RpcPlatformLaws P} {ReqBody ResBody}
    {C : RpcConvertors ReqBody ResBody} {HC : RpcConvertorsLaws C}
    cs ss w n e se body timeout now cs2 w2 :
  client_services_wf cs -> RpcServicesFacts.services_wf ss ->
  om_find n (rsc_rpc_endpoints cs) = Some e -> rc_pending_responses e = [] ->
  call cs w n body timeout now = (cs2, w2, true) ->
  let client := rsc_client_name cs in
  let id := u32 (u64 (rc_current_request_id e + 1)) in
  let h := mkServiceRequestHeader id n client HAKO_SERVICE_OPERATION_CODE_REQUEST 0 in
  request_fits h (get_pdu_size (mkPduKey n (client +:+ "Req"))) = true ->
  om_find n (RpcServices.rss_rpc_endpoints ss) = Some se ->
  rs_dynamic_client se = false -> client ∈ rs_registered_clients se ->
  status_of se client = RpcServerProps.idle ->
  (forall pk prev, pk ∈ rs_pending_requests se ->
     rq_client_name (pdu2cpp_ServiceRequestHeader (pr_data pk) prev) <> client) ->
  (exists pdu, w2 = w ++ [mkRpcSend (mkPduKey n (client +:+ "Req")) pdu true] /\
     forall key k wire r ss' w' evs,
       RpcServicesProps.poll_many k (RpcServices.receive ss n key pdu) wire r = (ss', w', evs) ->
       RpcServicesProps.backlog (RpcServices.receive ss n key pdu) <= k ->
       exists rq, (RpcServer_REQUEST_IN, rq) ∈ evs /\ req_header rq = h
         /\ forall b0, get_request_body rq b0 = (body, true))
  /\ forall s0 w0 r0 rq s1 w1 status code rbody s2 w3,
       RpcServicesFacts.services_wf s0 ->
       RpcServices.poll s0 w0 r0 = (s1, w1, (RpcServer_REQUEST_IN, rq)) -> req_header rq = h ->
       let rh := mkServiceResponseHeader id n client status 100 code in
       response_fits rh (get_pdu_size (response_key n client)) = true ->
       (code < HAKO_SERVICE_RESULT_CODE_NUM)%Z -> code <> HAKO_SERVICE_RESULT_CODE_CANCELED ->
       reply s1 w1 rq status code rbody = (s2, w3, true) ->
       exists pdu ok, w3 = w1 ++ [mkRpcSend (response_key n client) pdu ok] /\
         forall key clocks n0 r cs' evs,
           let cs3 := RpcClientServices.receive cs2 n key pdu in
           Forall (fun clock => timely clock (rsc_rpc_endpoints cs3)) clocks ->
           total_outstanding (rsc_rpc_endpoints cs3) <= length clocks ->
           poll_each cs3 n0 r clocks = (cs', evs) ->
           exists response, (n, (RpcClient_RESPONSE_IN, response)) ∈ evs
             /\ res_header response = rh
             /\ forall b0, get_response_body response b0 = (rbody, true).
Proof.
  intros Hcw Hsw He Hq Hcall client id h Hfit Hse Hdyn Hreg Hidle Hnone.
  destruct (call_success _ _ _ _ _ _ _ _ _ Hcw He Hcall Hfit)
    as (pdu & e2 & Hw & Hpk & Hh & He2 & Hs2 & Hid2 & Hn2 & Hc2 & Hq2).
  split.
  - exists pdu. split; [exact Hw|]. intros key k wire r ss' w' evs Hpm Hk.
    exists (mkRpcRequest client h pdu). split_and!; [|done|].
    + by eapply (RpcServicesProps.received_request_served ss n se key pdu h).
    + intros b0. unfold get_request_body. cbn. by rewrite Hpk.
  - intros s0 w0 r0 rq s1 w1 status code rbody s2 w3 Hw0 Hp Hrq rh Hrf Hcode Hnc Hre.
    destruct (RpcServicesProps.poll_raised _ _ _ _ _ _ Hw0 Hp) as (se1 & Hse1 & Hn1 & Hst1).
    destruct (reply_success s1 w1 rq se1 status code rbody s2 w3 Hse1 Hn1 Hst1)
      as (rpdu & ok & Hw3 & Hrp & Hrh); [by rewrite Hrq|done|]. rewrite Hrq in Hw3, Hrp, Hrh.
    exists rpdu, ok. split; [exact Hw3|]. intros key clocks n0 r cs' evs cs3 Ht Htot Hpe.
    destruct (RpcClientServicesProps.reply_answers cs2 n e2 id status code key He2 Hs2 Hid2
      ltac:(by rewrite Hq2) rpdu) as (e3 & He3 & Ha); [by rewrite Hn2, Hc2|done|].
    pose proof (RpcClientServicesProps.response_delivered_in _ _ _ _ _ _ _ _ _ He3 Ha Ht Htot Hpe)
      as Hin.
    exists (mkRpcResponse rh rpdu). split_and!; [|done|].
    + unfold RpcClientServicesProps.response_of in Hin. rewrite Hrh in Hin. cbn in Hin.
      destruct (Z.eqb_spec code HAKO_SERVICE_RESULT_CODE_CANCELED); [done|exact Hin].
    + intros b0. unfold get_response_body. cbn. by rewrite Hrp.
Qed.

Lemma rpc_helper_typed_roundtrip_witness :
  (exists rq, (RpcServer_REQUEST_IN, rq)
       ∈ (RpcServicesProps.poll_many 1 (RpcServices.receive server "s" (mkPduKey "s" "cReq")
            (sent calling.1.2)) [] RpcServicesProps.Demo.no_request).2
     /\ forall b0, get_request_body (ResBody := list Z) rq b0 = ([5; 6]%Z, true))
  /\ exists response, ("s", (RpcClient_RESPONSE_IN, response))
       ∈ (poll_each (RpcClientServices.receive calling.1.1 "s" (mkPduKey "s" "cRes")
            (sent replied.1.2)) "" RpcClientServicesProps.Demo.no_response [fun _ => 60%Z]).2
     /\ forall b0, get_response_body (ReqBody := list Z) response b0 = ([7]%Z, true).
Proof.
  set (e := (initialize (new_rpc_client "s" "c" true true)
               (RpcServicesProps.Demo.config "s") 24).1).
  set (se := (RpcServerEp.initialize (new_rpc_server "s" true true)
                (RpcServicesProps.Demo.config "s") 24 None).1).
  destruct (rpc_helper_typed_roundtrip (ReqBody := list Z) (ResBody := list Z) client server [] "s"
    e se [5; 6]%Z 1000 50 calling.1.1 calling.1.2
    (proj1 RpcClientServicesProps.client_ready_idle) RpcServicesProps.demo_ready_wf ltac:(done)
    ltac:(done) ltac:(by vm_compute) ltac:(by vm_compute) ltac:(done) ltac:(done)
    ltac:(by apply list_elem_of_singleton) ltac:(done)
    ltac:(intros pk prev Hin; by apply elem_of_nil in Hin)) as [(pdu & Hw & Hreq) Hrep].
  assert (Hpdu : sent calling.1.2 = pdu) by (by rewrite Hw).
  split.
  - rewrite Hpdu.
    destruct (Hreq (mkPduKey "s" "cReq") 1 [] RpcServicesProps.Demo.no_request _ _ _
      (triple_eta _)) as (rq & Hin & _ & Hb); [rewrite <-Hpdu; by vm_compute|]. by exists rq.
  - destruct (Hrep (RpcServices.receive server "s" (mkPduKey "s" "cReq") (sent calling.1.2)) []
      RpcServicesProps.Demo.no_request polled.2.2 polled.1.1 polled.1.2 HAKO_SERVICE_STATUS_DONE
      HAKO_SERVICE_RESULT_CODE_OK [7]%Z replied.1.1 replied.1.2) as (rpdu & ok & Hw3 & Hres);
      [|by vm_compute|by vm_compute|by vm_compute|by vm_compute|by vm_compute|by vm_compute|].
    { change (RpcServices.receive server "s" (mkPduKey "s" "cReq") (sent calling.1.2))
        with (RpcServicesProps.run_op server []
          (RpcServicesProps.SvcReceive "s" (mkPduKey "s" "cReq") (sent calling.1.2))).1.1.
      eapply RpcServicesProps.run_op_ok; [apply triple_eta|]. apply RpcServicesProps.demo_ready_wf. }
    assert (Hrpdu : sent replied.1.2 = rpdu) by (rewrite Hw3; by vm_compute). rewrite Hrpdu.
    destruct (Hres (mkPduKey "s" "cRes") [fun _ => 60%Z] "" RpcClientServicesProps.Demo.no_response
      (poll_each (RpcClientServices.receive calling.1.1 "s" (mkPduKey "s" "cRes") rpdu) ""
         RpcClientServicesProps.Demo.no_response [fun _ => 60%Z]).1
      (poll_each (RpcClientServices.receive calling.1.1 "s" (mkPduKey "s" "cRes") rpdu) ""
         RpcClientServicesProps.Demo.no_response [fun _ => 60%Z]).2) as (rsp & Hin & _ & Hb);
      [rewrite <-Hrpdu; repeat constructor|rewrite <-Hrpdu; by vm_compute
      |apply surjective_pairing|].
    exists rsp. exact (conj Hin Hb).
Defined.

(** A call that fails leaves nothing outstanding: whatever the convertors
    do, when [call] returns false every service that was idle is idle; nothing
    was handed to the transport if the client does not have the service, in
    which case it did not change at all, or if the body could not be stored. *)
Theorem rpc_helper_failed_call {P : RpcPlatform} {ReqBody ResBody}
    {C : RpcConvertors ReqBody ResBody} cs w n (body : ReqBody) timeout now cs2 w2 :
  call cs w n body timeout now = (cs2, w2, false) ->
  (om_find n (rsc_rpc_endpoints cs) = None -> cs2 = cs /\ w2 = w)
  /\ ((set_request_body cs n body []).2 = false -> w2 = w)
  /\ (forall n' e, om_find n' (rsc_rpc_endpoints cs) = Some e -> rc_state e = CLIENT_STATE_IDLE ->
        exists e2, om_find n' (rsc_rpc_endpoints cs2) = Some e2 /\ rc_state e2 = CLIENT_STATE_IDLE).
Proof.
  unfold call. destruct (set_request_body cs n body []) as [[cs1 pdu] ok] eqn:Hset.
  unfold set_request_body, RpcClientServices.create_request_buffer in Hset.
  destruct (om_find n (rsc_rpc_endpoints cs)) as [e0|] eqn:He0; cbn [snd].
  - assert (cs1 = RpcClientServices.put_endpoint n
      (set_current_request_id (u64 (rc_current_request_id e0 + 1)) e0) cs) as ->.
    { cbn in Hset. destruct (request_pdu2cpp _); [destruct (request_cpp2pdu _ _)|];
        by injection Hset as <- _ _. }
    intros Hc. split; [done|]. split; [by destruct ok; [|injection Hc as _ <-]|].
    intros n' e He Hi. destruct ok; cbn [negb] in Hc.
    + unfold RpcClientServices.call in Hc. cbn [rsc_rpc_endpoints RpcClientServices.put_endpoint
        RpcClientServices.set_rpc_endpoints] in Hc.
      pose proof (om_find_update n (set_current_request_id (u64 (rc_current_request_id e0 + 1)) e0)
        _ n e0 He0) as He1. rewrite decide_True in He1 by done. rewrite He1 in Hc.
      destruct (RpcClientEp.call _ w pdu timeout now) as [[e2 w3] ok] eqn:Hca.
      injection Hc as <- _ ->. cbn [rsc_rpc_endpoints RpcClientServices.put_endpoint
        RpcClientServices.set_rpc_endpoints].
      rewrite (om_find_update _ _ _ _ _ He1), (om_find_update _ _ _ _ _ He0).
      case_decide as Hd; [|by exists e]. subst n'. exists e2. split; [done|].
      rewrite He0 in He. injection He as <-. unfold RpcClientEp.call in Hca. cbn in Hca.
      rewrite Hi in Hca. cbn in Hca. by destruct (rpc_send_result _ _ _); [|injection Hca as <- _].
    + injection Hc as <- _. cbn [rsc_rpc_endpoints RpcClientServices.put_endpoint
        RpcClientServices.set_rpc_endpoints]. rewrite (om_find_update _ _ _ _ _ He0).
      case_decide as Hd; [|by exists e]. subst n'. eexists. split; [done|].
      rewrite He0 in He. by injection He as <-.
  - assert (cs1 = cs) as ->.
    { destruct (request_pdu2cpp []); [destruct (request_cpp2pdu _ _)|]; by injection Hset as <- _ _. }
    destruct ok; cbn [negb]; [unfold RpcClientServices.call; rewrite He0|]; intros [= <- <-];
      split_and!; eauto.
Qed.

Lemma rpc_helper_failed_call_witness :
  let failed := call (ResBody := list Z) client [] "unknown" [5; 6]%Z 1000 50 in
  failed.2 = false /\ failed.1.1 = client /\ failed.1.2 = [].
Proof.
  split; [by vm_compute|].
  apply (rpc_helper_failed_call (ResBody := list Z) client [] "unknown" [5; 6]%Z 1000 50);
    [|by vm_compute].
  rewrite (triple_eta (call _ _ _ _ _ _)). f_equal.
Defined.
End RpcHelperProps.
