(* ===== verification/CRpc.v ===== *)
(** * The C interface of RPC

    src/c_rpc.cpp, src/c_rpc_cancel.cpp, src/c_rpc_alloc.cpp, src/c_rpc_mux.cpp
    and include/hakoniwa/pdu/rpc/c_rpc.h. As for actions, the functions of the
    single-transport server and of the mux server are defined once over a class
    of services, pointers are [option]s, what the endpoint container returns is
    an argument, and [catch] arms are left out. *)

From S2P Require Import Prelude OrderedMap Multiplexer ActionTypes CBuffers RpcTypes.
From S2P Require Import RpcServerEndpoint RpcClientEndpoint RpcServicesServer RpcServicesClient.
From S2P Require Import RpcServicesMuxServer.
From Stdlib Require Import ZArith Lia.
From stdpp Require Import base gmap strings list fin_maps.

Module CRpc.
Import CBuffers Rpc.

(** ** Types of the header *)

Definition HAKO_PDU_RPC_NAME_MAX : nat := 128.

Inductive hako_pdu_rpc_error_t :=
  | HAKO_PDU_RPC_OK
  | HAKO_PDU_RPC_ERROR_INVALID_ARGUMENT
  | HAKO_PDU_RPC_ERROR_INITIALIZE
  | HAKO_PDU_RPC_ERROR_START
  | HAKO_PDU_RPC_ERROR_NOT_RUNNING
  | HAKO_PDU_RPC_ERROR_CALL
  | HAKO_PDU_RPC_ERROR_BUFFER_TOO_SMALL
  | HAKO_PDU_RPC_ERROR_NOT_FOUND
  | HAKO_PDU_RPC_ERROR_INTERNAL.

#[export] Instance rpc_error_eq_dec : EqDecision hako_pdu_rpc_error_t.
Proof. solve_decision. Defined.

#[export] Instance rpc_c_errors : CErrors hako_pdu_rpc_error_t := {|
  err_ok := HAKO_PDU_RPC_OK;
  err_invalid_argument := HAKO_PDU_RPC_ERROR_INVALID_ARGUMENT;
  err_buffer_too_small := HAKO_PDU_RPC_ERROR_BUFFER_TOO_SMALL;
  err_internal := HAKO_PDU_RPC_ERROR_INTERNAL;
|}.

Inductive hako_pdu_rpc_client_event_t :=
  | HAKO_PDU_RPC_CLIENT_EVENT_NONE
  | HAKO_PDU_RPC_CLIENT_EVENT_RESPONSE_IN
  | HAKO_PDU_RPC_CLIENT_EVENT_RESPONSE_CANCEL
  | HAKO_PDU_RPC_CLIENT_EVENT_RESPONSE_TIMEOUT.

Inductive hako_pdu_rpc_server_event_t :=
  | HAKO_PDU_RPC_SERVER_EVENT_NONE
  | HAKO_PDU_RPC_SERVER_EVENT_REQUEST_IN
  | HAKO_PDU_RPC_SERVER_EVENT_REQUEST_CANCEL.

Record response_info := mkResponseInfo {
  ri_service_name : list Z;
  ri_pdu_size : Z;
}.

Record request_info := mkRequestInfo {
  qi_request_token : Z;
  qi_service_name : list Z;
  qi_client_name : list Z;
  qi_pdu_size : Z;
}.

(** ** Conversions *)

Definition map_client_event (event : RpcClientEventType) : hako_pdu_rpc_client_event_t :=
  match event with
  | RpcClient_RESPONSE_IN => HAKO_PDU_RPC_CLIENT_EVENT_RESPONSE_IN
  | RpcClient_RESPONSE_CANCEL => HAKO_PDU_RPC_CLIENT_EVENT_RESPONSE_CANCEL
  | RpcClient_RESPONSE_TIMEOUT => HAKO_PDU_RPC_CLIENT_EVENT_RESPONSE_TIMEOUT
  | _ => HAKO_PDU_RPC_CLIENT_EVENT_NONE
  end.

Definition map_server_event (event : RpcServerEventType) : hako_pdu_rpc_server_event_t :=
  match event with
  | RpcServer_REQUEST_IN => HAKO_PDU_RPC_SERVER_EVENT_REQUEST_IN
  | RpcServer_REQUEST_CANCEL => HAKO_PDU_RPC_SERVER_EVENT_REQUEST_CANCEL
  | _ => HAKO_PDU_RPC_SERVER_EVENT_NONE
  end.

(** [copy_name] to a name field of an info. *)
Definition name_field (field : list Z) (name : string) : list Z :=
  default field (copy_name (Some field) HAKO_PDU_RPC_NAME_MAX name).

(** ** Output parameters of polls *)

Record PollOut (Info B : Type) := mkPollOut {
  po_info : option Info;
  po_buffer : B;
  po_size : option Z;
  po_error : option hako_pdu_rpc_error_t;
}.
Arguments mkPollOut {Info B} _ _ _ _.
Arguments po_info {Info B} _.
Arguments po_buffer {Info B} _.
Arguments po_size {Info B} _.
Arguments po_error {Info B} _.

(** How the two kinds of poll treat the buffer parameters: a poll into a caller
    buffer leaves them alone at first, one with allocation clears them. *)
Record BufferUse (B : Type) := mkBufferUse {
  bu_reset : B * option Z -> B * option Z;
  bu_given : B -> bool;
  bu_copy : PduData -> B -> option Z -> B * option Z * hako_pdu_rpc_error_t;
}.
Arguments mkBufferUse {B} _ _ _.
Arguments bu_reset {B} _ _.
Arguments bu_given {B} _ _.
Arguments bu_copy {B} _ _ _ _.

Definition caller_buffer (capacity : nat) : BufferUse (option (list Z)) :=
  mkBufferUse (fun x => x) (fun _ => true) (fun pdu b size => copy_pdu pdu b capacity size).

Definition allocated_buffer (malloc_ok : bool) : BufferUse (option (option (list Z))) :=
  mkBufferUse (fun x => ((fun _ => None) <$> x.1, (fun _ => 0%Z) <$> x.2))
    (fun b => bool_decide (is_Some b)) (fun pdu b size => allocate_pdu malloc_ok pdu b size).

Section Outputs.
Context {Info B : Type} (C : BufferUse B).

Definition set_error (error : hako_pdu_rpc_error_t) (out : PollOut Info B) : PollOut Info B :=
  mkPollOut (po_info out) (po_buffer out) (po_size out) ((fun _ => error) <$> po_error out).

(** [*out_error] is cleared first; then the buffer parameters. *)
Definition reset_out (out : PollOut Info B) : PollOut Info B :=
  let '(buffer, size) := bu_reset C (po_buffer out, po_size out) in
  mkPollOut (po_info out) buffer size ((fun _ => HAKO_PDU_RPC_OK) <$> po_error out).

Definition set_buffer (buffer : B) (size : option Z) (out : PollOut Info B) : PollOut Info B :=
  mkPollOut (po_info out) buffer size (po_error out).

Definition set_info (info : Info) (out : PollOut Info B) : PollOut Info B :=
  mkPollOut ((fun _ => info) <$> po_info out) (po_buffer out) (po_size out) (po_error out).
End Outputs.

(** ** Client *)

Section Client.
Context {P : RpcPlatform}.
Import RpcClientServices.

Record hako_pdu_rpc_client_handle := mkClientHandle {
  ch_endpoints : bool;
  ch_rpc : option (RpcServicesClient * RpcWire);
  ch_started : bool;
}.

Definition set_client_rpc (x : RpcServicesClient * RpcWire) (h : hako_pdu_rpc_client_handle)
    : hako_pdu_rpc_client_handle :=
  mkClientHandle (ch_endpoints h) (Some x) (ch_started h).

(** The services of a running handle. *)
Definition client_rpc (h : hako_pdu_rpc_client_handle) : option (RpcServicesClient * RpcWire) :=
  if ch_started h then ch_rpc h else None.

(** [container_ok], [ref] and [file] are what initialising the endpoint
    container, looking endpoints up and reading the configuration give. *)
Definition hako_pdu_rpc_client_create (node_id client_name service_config_path
    endpoint_config_path : option string) (container_ok : bool)
    (ref : RpcServices.EndpointContainer) (file : option RpcServices.RpcConfigFile)
    : option hako_pdu_rpc_client_handle :=
  match node_id, client_name, service_config_path, endpoint_config_path with
  | Some node, Some name, Some services, Some endpoints =>
      if negb (valid_text (Some node)) || negb (valid_text (Some name))
         || negb (valid_text (Some services)) || negb (valid_text (Some endpoints)) then None
      else if negb container_ok then None
      else
        let '(rpc, ok) := initialize_services (new_rpc_services_client node name) ref file in
        if negb ok then None else Some (mkClientHandle true (Some (rpc, [])) false)
  | _, _, _, _ => None
  end.

(** [start_all] is what the container returns, [None] when it throws; the
    services' own start cannot fail. *)
Definition hako_pdu_rpc_client_start (handle : option hako_pdu_rpc_client_handle)
    (start_all : option bool) : option hako_pdu_rpc_client_handle * hako_pdu_rpc_error_t :=
  match handle with
  | None => (None, HAKO_PDU_RPC_ERROR_INVALID_ARGUMENT)
  | Some h =>
      if ch_started h then (Some h, HAKO_PDU_RPC_OK)
      else if negb (ch_endpoints h) || bool_decide (ch_rpc h = None)
      then (Some h, HAKO_PDU_RPC_ERROR_INITIALIZE)
      else
        match start_all with
        | None => (Some h, HAKO_PDU_RPC_ERROR_INTERNAL)
        | Some false => (Some h, HAKO_PDU_RPC_ERROR_START)
        | Some true => (Some (mkClientHandle (ch_endpoints h) (ch_rpc h) true), HAKO_PDU_RPC_OK)
        end
  end.

(** [stop_client_rpc] and [release_client]: the services are stopped, cleared
    and destroyed with the handle's members. *)
Definition release_client (h : hako_pdu_rpc_client_handle) : hako_pdu_rpc_client_handle :=
  mkClientHandle false None false.

Definition hako_pdu_rpc_client_stop (handle : option hako_pdu_rpc_client_handle)
    : option hako_pdu_rpc_client_handle * hako_pdu_rpc_error_t :=
  match handle with
  | None => (None, HAKO_PDU_RPC_ERROR_INVALID_ARGUMENT)
  | Some h => (Some (release_client h), HAKO_PDU_RPC_OK)
  end.

(** The handle as [delete] finds it; [None] when there is none to delete. *)
Definition hako_pdu_rpc_client_destroy (handle : option hako_pdu_rpc_client_handle)
    : option hako_pdu_rpc_client_handle :=
  match handle with
  | None => None
  | Some h => (hako_pdu_rpc_client_stop (Some h)).1
  end.

(** [create_request_buffer] of the services on a running handle. *)
Definition native_request_buffer (h : hako_pdu_rpc_client_handle) (service_name : string)
    : option (hako_pdu_rpc_client_handle * (RpcPduData * bool)) :=
  '(s, w) ← client_rpc h;
  let '(s', pdu, ok) := create_request_buffer s service_name [] in
  Some (set_client_rpc (s', w) h, (pdu, ok)).

Definition hako_pdu_rpc_client_create_request_buffer
    (handle : option hako_pdu_rpc_client_handle) (service_name : option string)
    (buffer : option (list Z)) (capacity : nat) (out_size : option Z)
    : option hako_pdu_rpc_client_handle
      * (option (list Z) * option Z * hako_pdu_rpc_error_t) :=
  match handle, service_name, out_size with
  | Some h, Some name, Some _ =>
      if negb (valid_text (Some name))
      then (handle, (buffer, out_size, HAKO_PDU_RPC_ERROR_INVALID_ARGUMENT))
      else
        match native_request_buffer h name with
        | None => (handle, (buffer, out_size, HAKO_PDU_RPC_ERROR_NOT_RUNNING))
        | Some (h', (_, false)) =>
            (Some h', (buffer, out_size, HAKO_PDU_RPC_ERROR_NOT_FOUND))
        | Some (h', (pdu, true)) => (Some h', copy_pdu pdu buffer capacity out_size)
        end
  | _, _, _ => (handle, (buffer, out_size, HAKO_PDU_RPC_ERROR_INVALID_ARGUMENT))
  end.

Definition client_create_request_buffer_alloc {B : Type} (C : BufferUse B)
    (handle : option hako_pdu_rpc_client_handle) (service_name : option string)
    (out_buffer : B) (out_size : option Z)
    : option hako_pdu_rpc_client_handle * (B * option Z * hako_pdu_rpc_error_t) :=
  let '(out_buffer, out_size) := bu_reset C (out_buffer, out_size) in
  match handle, service_name, out_size with
  | Some h, Some name, Some _ =>
      if negb (valid_text (Some name)) || negb (bu_given C out_buffer)
      then (handle, (out_buffer, out_size, HAKO_PDU_RPC_ERROR_INVALID_ARGUMENT))
      else
        match native_request_buffer h name with
        | None => (handle, (out_buffer, out_size, HAKO_PDU_RPC_ERROR_NOT_RUNNING))
        | Some (h', (_, false)) =>
            (Some h', (out_buffer, out_size, HAKO_PDU_RPC_ERROR_NOT_FOUND))
        | Some (h', (pdu, true)) => (Some h', bu_copy C pdu out_buffer out_size)
        end
  | _, _, _ => (handle, (out_buffer, out_size, HAKO_PDU_RPC_ERROR_INVALID_ARGUMENT))
  end.

Definition hako_pdu_rpc_client_create_request_buffer_alloc (malloc_ok : bool)
    : option hako_pdu_rpc_client_handle -> option string -> option (option (list Z))
      -> option Z -> option hako_pdu_rpc_client_handle
         * (option (option (list Z)) * option Z * hako_pdu_rpc_error_t) :=
  client_create_request_buffer_alloc (allocated_buffer malloc_ok).

(** [now] is the clock the services read. *)
Definition hako_pdu_rpc_client_call (handle : option hako_pdu_rpc_client_handle)
    (service_name : option string) (pdu : option (list Z)) (pdu_size : nat)
    (timeout_usec now : Z) : option hako_pdu_rpc_client_handle * hako_pdu_rpc_error_t :=
  match handle, service_name with
  | Some h, Some name =>
      if negb (valid_text (Some name)) || ((0 <? pdu_size) && bool_decide (pdu = None))
      then (handle, HAKO_PDU_RPC_ERROR_INVALID_ARGUMENT)
      else
        match client_rpc h with
        | None => (handle, HAKO_PDU_RPC_ERROR_NOT_RUNNING)
        | Some (s, w) =>
            let '(s', w', ok) := call s w name (make_pdu pdu pdu_size) timeout_usec now in
            (Some (set_client_rpc (s', w') h),
             if ok then HAKO_PDU_RPC_OK else HAKO_PDU_RPC_ERROR_CALL)
        end
  | _, _ => (handle, HAKO_PDU_RPC_ERROR_INVALID_ARGUMENT)
  end.

Definition hako_pdu_rpc_client_cancel (handle : option hako_pdu_rpc_client_handle)
    (service_name : option string)
    : option hako_pdu_rpc_client_handle * hako_pdu_rpc_error_t :=
  match handle, service_name with
  | Some h, Some name =>
      if negb (valid_text (Some name)) then (handle, HAKO_PDU_RPC_ERROR_INVALID_ARGUMENT)
      else
        match client_rpc h with
        | None => (handle, HAKO_PDU_RPC_ERROR_NOT_RUNNING)
        | Some (s, w) =>
            let '(s', w', ok) := send_cancel_request s w name in
            (Some (set_client_rpc (s', w') h),
             if ok then HAKO_PDU_RPC_OK else HAKO_PDU_RPC_ERROR_CALL)
        end
  | _, _ => (handle, HAKO_PDU_RPC_ERROR_INVALID_ARGUMENT)
  end.

(** [RpcResponse{}]. *)
Definition default_response : RpcResponse :=
  mkRpcResponse (mkServiceResponseHeader 0 "" "" 0 0 0) [].

Definition client_poll {B : Type} (C : BufferUse B) (now : string -> Z)
    (handle : option hako_pdu_rpc_client_handle) (out : PollOut response_info B)
    : option hako_pdu_rpc_client_handle * PollOut response_info B
      * hako_pdu_rpc_client_event_t :=
  let out := reset_out C out in
  match handle, po_info out, po_size out with
  | Some h, Some info, Some _ =>
      if negb (bu_given C (po_buffer out)) then
        (handle, set_error HAKO_PDU_RPC_ERROR_INVALID_ARGUMENT out,
         HAKO_PDU_RPC_CLIENT_EVENT_NONE)
      else
        match client_rpc h with
        | None =>
            (handle, set_error HAKO_PDU_RPC_ERROR_NOT_RUNNING out,
             HAKO_PDU_RPC_CLIENT_EVENT_NONE)
        | Some (s, w) =>
            let '(s', event, (name, response)) := poll s "" default_response now in
            let h' := set_client_rpc (s', w) h in
            if bool_decide (event = RpcClient_NONE) then
              (Some h', set_buffer (po_buffer out) (Some 0%Z) out,
               HAKO_PDU_RPC_CLIENT_EVENT_NONE)
            else
              let '(buffer, size, result) :=
                bu_copy C (res_pdu response) (po_buffer out) (po_size out) in
              let out1 := set_buffer buffer size out in
              if negb (bool_decide (result = HAKO_PDU_RPC_OK))
              then (Some h', set_error result out1, HAKO_PDU_RPC_CLIENT_EVENT_NONE)
              else
                (Some h',
                 set_info (mkResponseInfo (name_field (ri_service_name info) name)
                             (Z.of_nat (length (res_pdu response)))) out1,
                 map_client_event event)
        end
  | _, _, _ =>
      (handle, set_error HAKO_PDU_RPC_ERROR_INVALID_ARGUMENT out,
       HAKO_PDU_RPC_CLIENT_EVENT_NONE)
  end.

Definition hako_pdu_rpc_client_poll (now : string -> Z) (capacity : nat)
    : option hako_pdu_rpc_client_handle -> PollOut response_info (option (list Z))
      -> option hako_pdu_rpc_client_handle * PollOut response_info (option (list Z))
         * hako_pdu_rpc_client_event_t :=
  client_poll (caller_buffer capacity) now.

Definition hako_pdu_rpc_client_poll_alloc (now : string -> Z) (malloc_ok : bool)
    : option hako_pdu_rpc_client_handle -> PollOut response_info (option (option (list Z)))
      -> option hako_pdu_rpc_client_handle * PollOut response_info (option (option (list Z)))
         * hako_pdu_rpc_client_event_t :=
  client_poll (allocated_buffer malloc_ok) now.
End Client.

(** ** Servers *)

(** What the C functions of both servers use of the services; [Req] is what is
    kept of a request, and [rv_input] what the transport does during a poll. *)
Class RpcServerServices (S Req : Type) := {
  rv_input : Type;
  rv_poll : rv_input -> S -> S * (RpcServerEventType * Req);
  rv_request : Req -> RpcRequest;
  rv_create_reply_buffer : S -> Req -> Z -> Z -> option RpcPduData;
  rv_send_reply : S -> Req -> RpcPduData -> S * bool;
  rv_send_cancel_reply : S -> Req -> RpcPduData -> S * bool;
}.

(** The two handle structures; the mux handle has no endpoint container. *)
Record RpcServerHandle (S Req : Type) := mkServerHandle {
  sh_endpoints : bool;
  sh_rpc : option S;
  sh_next_token : Z;
  sh_pending_requests : gmap Z Req;
  sh_started : bool;
}.
Arguments mkServerHandle {S Req} _ _ _ _ _.
Arguments sh_endpoints {S Req} _.
Arguments sh_rpc {S Req} _.
Arguments sh_next_token {S Req} _.
Arguments sh_pending_requests {S Req} _.
Arguments sh_started {S Req} _.

Section Server.
Context {S Req : Type} `{RpcServerServices S Req}.

Definition set_server_rpc (s : S) (h : RpcServerHandle S Req) : RpcServerHandle S Req :=
  mkServerHandle (sh_endpoints h) (Some s) (sh_next_token h) (sh_pending_requests h)
    (sh_started h).

Definition set_pending (m : gmap Z Req) (h : RpcServerHandle S Req) : RpcServerHandle S Req :=
  mkServerHandle (sh_endpoints h) (sh_rpc h) (sh_next_token h) m (sh_started h).

Definition server_rpc (h : RpcServerHandle S Req) : option S :=
  if sh_started h then sh_rpc h else None.

(** [next_token++], then [emplace], which keeps an entry that is there. *)
Definition store_request (request : Req) (info : request_info) (h : RpcServerHandle S Req)
    : RpcServerHandle S Req * request_info :=
  let token := sh_next_token h in
  let pending :=
    match sh_pending_requests h !! token with
    | Some _ => sh_pending_requests h
    | None => <[token := request]> (sh_pending_requests h)
    end in
  (mkServerHandle (sh_endpoints h) (sh_rpc h) (u64 (token + 1)) pending (sh_started h),
   mkRequestInfo token
     (name_field (qi_service_name info) (rq_service_name (req_header (rv_request request))))
     (name_field (qi_client_name info) (req_client_name (rv_request request)))
     (Z.of_nat (length (req_pdu (rv_request request))))).

Definition find_request (h : RpcServerHandle S Req) (token : Z) : option Req :=
  sh_pending_requests h !! token.

Definition take_request (h : RpcServerHandle S Req) (token : Z)
    : option (RpcServerHandle S Req * Req) :=
  request ← sh_pending_requests h !! token;
  Some (set_pending (delete token (sh_pending_requests h)) h, request).

Definition server_poll {B : Type} (C : BufferUse B) (input : rv_input)
    (handle : option (RpcServerHandle S Req)) (out : PollOut request_info B)
    : option (RpcServerHandle S Req) * PollOut request_info B * hako_pdu_rpc_server_event_t :=
  let out := reset_out C out in
  match handle, po_info out, po_size out with
  | Some h, Some info, Some _ =>
      if negb (bu_given C (po_buffer out)) then
        (handle, set_error HAKO_PDU_RPC_ERROR_INVALID_ARGUMENT out,
         HAKO_PDU_RPC_SERVER_EVENT_NONE)
      else
        match server_rpc h with
        | None =>
            (handle, set_error HAKO_PDU_RPC_ERROR_NOT_RUNNING out,
             HAKO_PDU_RPC_SERVER_EVENT_NONE)
        | Some s =>
            let '(s', (event, request)) := rv_poll input s in
            let h' := set_server_rpc s' h in
            if bool_decide (event = RpcServer_NONE) then
              (Some h', set_buffer (po_buffer out) (Some 0%Z) out,
               HAKO_PDU_RPC_SERVER_EVENT_NONE)
            else
              let '(buffer, size, result) :=
                bu_copy C (req_pdu (rv_request request)) (po_buffer out) (po_size out) in
              let out1 := set_buffer buffer size out in
              if negb (bool_decide (result = HAKO_PDU_RPC_OK))
              then (Some h', set_error result out1, HAKO_PDU_RPC_SERVER_EVENT_NONE)
              else
                let '(h'', info') := store_request request info h' in
                (Some h'', set_info info' out1, map_server_event event)
        end
  | _, _, _ =>
      (handle, set_error HAKO_PDU_RPC_ERROR_INVALID_ARGUMENT out,
       HAKO_PDU_RPC_SERVER_EVENT_NONE)
  end.

Definition server_create_reply_buffer (handle : option (RpcServerHandle S Req)) (token : Z)
    (status result_code : Z) (buffer : option (list Z)) (capacity : nat) (out_size : option Z)
    : option (list Z) * option Z * hako_pdu_rpc_error_t :=
  match handle, out_size with
  | Some h, Some _ =>
      match server_rpc h with
      | None => (buffer, out_size, HAKO_PDU_RPC_ERROR_NOT_RUNNING)
      | Some s =>
          match find_request h token with
          | None => (buffer, out_size, HAKO_PDU_RPC_ERROR_NOT_FOUND)
          | Some request =>
              match rv_create_reply_buffer s request status result_code with
              | None => (buffer, out_size, HAKO_PDU_RPC_ERROR_NOT_FOUND)
              | Some response => copy_pdu response buffer capacity out_size
              end
          end
      end
  | _, _ => (buffer, out_size, HAKO_PDU_RPC_ERROR_INVALID_ARGUMENT)
  end.

Definition server_create_reply_buffer_alloc {B : Type} (C : BufferUse B)
    (handle : option (RpcServerHandle S Req)) (token : Z) (status result_code : Z)
    (out_buffer : B) (out_size : option Z) : B * option Z * hako_pdu_rpc_error_t :=
  let '(out_buffer, out_size) := bu_reset C (out_buffer, out_size) in
  match handle, out_size with
  | Some h, Some _ =>
      if negb (bu_given C out_buffer)
      then (out_buffer, out_size, HAKO_PDU_RPC_ERROR_INVALID_ARGUMENT)
      else
        match server_rpc h with
        | None => (out_buffer, out_size, HAKO_PDU_RPC_ERROR_NOT_RUNNING)
        | Some s =>
            match find_request h token with
            | None => (out_buffer, out_size, HAKO_PDU_RPC_ERROR_NOT_FOUND)
            | Some request =>
                match rv_create_reply_buffer s request status result_code with
                | None => (out_buffer, out_size, HAKO_PDU_RPC_ERROR_NOT_FOUND)
                | Some response => bu_copy C response out_buffer out_size
                end
            end
        end
  | _, _ => (out_buffer, out_size, HAKO_PDU_RPC_ERROR_INVALID_ARGUMENT)
  end.

(** The common text of the two reply functions. *)
Definition send_with (send : S -> Req -> RpcPduData -> S * bool)
    (handle : option (RpcServerHandle S Req)) (token : Z) (pdu : option (list Z))
    (pdu_size : nat) : option (RpcServerHandle S Req) * hako_pdu_rpc_error_t :=
  match handle with
  | Some h =>
      if (0 <? pdu_size) && bool_decide (pdu = None)
      then (handle, HAKO_PDU_RPC_ERROR_INVALID_ARGUMENT)
      else
        match server_rpc h with
        | None => (handle, HAKO_PDU_RPC_ERROR_NOT_RUNNING)
        | Some s =>
            match take_request h token with
            | None => (handle, HAKO_PDU_RPC_ERROR_NOT_FOUND)
            | Some (h', request) =>
                let '(s', ok) := send s request (make_pdu pdu pdu_size) in
                (Some (set_server_rpc s' h'),
                 if ok then HAKO_PDU_RPC_OK else HAKO_PDU_RPC_ERROR_CALL)
            end
        end
  | None => (None, HAKO_PDU_RPC_ERROR_INVALID_ARGUMENT)
  end.

Definition server_send_reply := send_with rv_send_reply.
Definition server_send_cancel_reply := send_with rv_send_cancel_reply.
End Server.

(** *** The server on one transport *)

Section SingleServer.
Context {P : RpcPlatform}.
Import RpcServices.

Definition SingleNative : Type := RpcServicesServer * RpcWire.

(** [create_reply_buffer], [send_reply] and [send_cancel_reply] of the services
    return nothing. *)
#[export] Instance single_rpc_services : RpcServerServices SingleNative RpcRequest := {|
  rv_input := unit;
  rv_poll _ x := let '(s, w, r) := poll x.1 x.2 RpcMux.default_request in ((s, w), r);
  rv_request r := r;
  rv_create_reply_buffer x r status code :=
    Some (create_reply_buffer x.1 (req_header r) status code []);
  rv_send_reply x r pdu := (send_reply x.1 x.2 (req_header r) pdu, true);
  rv_send_cancel_reply x r pdu := (send_cancel_reply x.1 x.2 (req_header r) pdu, true);
|}.

Definition hako_pdu_rpc_server_handle : Type := RpcServerHandle SingleNative RpcRequest.

Definition hako_pdu_rpc_server_create (node_id service_config_path endpoint_config_path
    : option string) (container_ok : bool) (ref : EndpointContainer)
    (file : option RpcConfigFile) : option hako_pdu_rpc_server_handle :=
  match node_id, service_config_path, endpoint_config_path with
  | Some node, Some services, Some endpoints =>
      if negb (valid_text (Some node)) || negb (valid_text (Some services))
         || negb (valid_text (Some endpoints)) then None
      else if negb container_ok then None
      else
        let '(rpc, ok) :=
          initialize_services (new_rpc_services_server node "RpcServerEndpointImpl")
            (Some ref) None file in
        if negb ok then None
        else Some (mkServerHandle true (Some (rpc, [])) 1 ∅ false)
  | _, _, _ => None
  end.

Definition hako_pdu_rpc_server_start (handle : option hako_pdu_rpc_server_handle)
    (start_all : option bool) : option hako_pdu_rpc_server_handle * hako_pdu_rpc_error_t :=
  match handle with
  | None => (None, HAKO_PDU_RPC_ERROR_INVALID_ARGUMENT)
  | Some h =>
      if sh_started h then (Some h, HAKO_PDU_RPC_OK)
      else if negb (sh_endpoints h) || bool_decide (sh_rpc h = None)
      then (Some h, HAKO_PDU_RPC_ERROR_INITIALIZE)
      else
        match start_all with
        | None => (Some h, HAKO_PDU_RPC_ERROR_INTERNAL)
        | Some false => (Some h, HAKO_PDU_RPC_ERROR_START)
        | Some true =>
            (Some (mkServerHandle (sh_endpoints h) (sh_rpc h) (sh_next_token h)
                     (sh_pending_requests h) true), HAKO_PDU_RPC_OK)
        end
  end.

Definition release_server (h : hako_pdu_rpc_server_handle) : hako_pdu_rpc_server_handle :=
  mkServerHandle false None (sh_next_token h) ∅ false.

Definition hako_pdu_rpc_server_stop (handle : option hako_pdu_rpc_server_handle)
    : option hako_pdu_rpc_server_handle * hako_pdu_rpc_error_t :=
  match handle with
  | None => (None, HAKO_PDU_RPC_ERROR_INVALID_ARGUMENT)
  | Some h => (Some (release_server h), HAKO_PDU_RPC_OK)
  end.

(** The handle as [delete] finds it; [None] when there is none to delete. *)
Definition hako_pdu_rpc_server_destroy (handle : option hako_pdu_rpc_server_handle)
    : option hako_pdu_rpc_server_handle :=
  match handle with
  | None => None
  | Some h => (hako_pdu_rpc_server_stop (Some h)).1
  end.

Definition hako_pdu_rpc_server_poll (capacity : nat) :=
  server_poll (S := SingleNative) (Req := RpcRequest) (caller_buffer capacity) tt.
Definition hako_pdu_rpc_server_poll_alloc (malloc_ok : bool) :=
  server_poll (S := SingleNative) (Req := RpcRequest) (allocated_buffer malloc_ok) tt.
Definition hako_pdu_rpc_server_create_reply_buffer :=
  server_create_reply_buffer (S := SingleNative) (Req := RpcRequest).
Definition hako_pdu_rpc_server_create_reply_buffer_alloc (malloc_ok : bool) :=
  server_create_reply_buffer_alloc (S := SingleNative) (Req := RpcRequest) (allocated_buffer malloc_ok).
Definition hako_pdu_rpc_server_send_reply :=
  server_send_reply (S := SingleNative) (Req := RpcRequest).
Definition hako_pdu_rpc_server_send_cancel_reply :=
  server_send_cancel_reply (S := SingleNative) (Req := RpcRequest).

Definition hako_pdu_rpc_stop_pair (server : option hako_pdu_rpc_server_handle)
    (client : option hako_pdu_rpc_client_handle)
    : option hako_pdu_rpc_server_handle * option hako_pdu_rpc_client_handle
      * hako_pdu_rpc_error_t :=
  match server, client with
  | Some s, Some c => (Some (release_server s), Some (release_client c), HAKO_PDU_RPC_OK)
  | _, _ => (server, client, HAKO_PDU_RPC_ERROR_INVALID_ARGUMENT)
  end.
End SingleServer.

(** *** The server on multiplexed connections *)

Section MuxServer.
Context {P : RpcPlatform} {M : CommMultiplexer}.
Import RpcMux.

Definition MuxInput : Type := list (option AcceptedEndpoint) * (list Z * list Z).

#[export] Instance mux_rpc_services : RpcServerServices RpcMuxServer RpcMuxRequest := {|
  rv_input := MuxInput;
  rv_poll i s := poll s i.1 i.2.1 i.2.2 (mkRpcMuxRequest 0 default_request);
  rv_request := mr_request;
  rv_create_reply_buffer s r status code :=
    let '(pdu, ok) := create_reply_buffer s r status code [] in if ok then Some pdu else None;
  rv_send_reply := send_reply;
  rv_send_cancel_reply := send_cancel_reply;
|}.

Definition hako_pdu_rpc_mux_server_handle : Type := RpcServerHandle RpcMuxServer RpcMuxRequest.

Definition hako_pdu_rpc_mux_server_create (node_id service_config_path
    endpoint_mux_config_path : option string) (delta_time_usec : Z)
    : option hako_pdu_rpc_mux_server_handle :=
  match node_id, service_config_path, endpoint_mux_config_path with
  | Some node, Some services, Some endpoints =>
      if negb (valid_text (Some node)) || negb (valid_text (Some services))
         || negb (valid_text (Some endpoints)) || (delta_time_usec =? 0)%Z then None
      else
        let '(rpc, ok) :=
          initialize (new_rpc_mux_server node "RpcServerEndpointImpl" services endpoints
                        delta_time_usec) in
        if negb ok then None else Some (mkServerHandle false (Some rpc) 1 ∅ false)
  | _, _, _ => None
  end.

Definition hako_pdu_rpc_mux_server_start (handle : option hako_pdu_rpc_mux_server_handle)
    : option hako_pdu_rpc_mux_server_handle * hako_pdu_rpc_error_t :=
  match handle with
  | None => (None, HAKO_PDU_RPC_ERROR_INVALID_ARGUMENT)
  | Some h =>
      if sh_started h then (Some h, HAKO_PDU_RPC_OK)
      else
        match sh_rpc h with
        | None => (Some h, HAKO_PDU_RPC_ERROR_INITIALIZE)
        | Some s =>
            let '(s', ok) := start s in
            if negb ok then (Some (set_server_rpc s' h), HAKO_PDU_RPC_ERROR_START)
            else (Some (mkServerHandle (sh_endpoints h) (Some s') (sh_next_token h)
                          (sh_pending_requests h) true), HAKO_PDU_RPC_OK)
        end
  end.

(** The services are stopped and destroyed. *)
Definition hako_pdu_rpc_mux_server_stop (handle : option hako_pdu_rpc_mux_server_handle)
    : option hako_pdu_rpc_mux_server_handle * hako_pdu_rpc_error_t :=
  match handle with
  | None => (None, HAKO_PDU_RPC_ERROR_INVALID_ARGUMENT)
  | Some h =>
      (Some (mkServerHandle (sh_endpoints h) None (sh_next_token h) ∅ false), HAKO_PDU_RPC_OK)
  end.

Definition hako_pdu_rpc_mux_server_destroy (handle : option hako_pdu_rpc_mux_server_handle)
    : option hako_pdu_rpc_mux_server_handle :=
  match handle with
  | None => None
  | Some h => (hako_pdu_rpc_mux_server_stop (Some h)).1
  end.

Definition hako_pdu_rpc_mux_server_poll (capacity : nat) :=
  server_poll (S := RpcMuxServer) (Req := RpcMuxRequest) (caller_buffer capacity).
Definition hako_pdu_rpc_mux_server_poll_alloc (malloc_ok : bool) :=
  server_poll (S := RpcMuxServer) (Req := RpcMuxRequest) (allocated_buffer malloc_ok).
Definition hako_pdu_rpc_mux_server_create_reply_buffer :=
  server_create_reply_buffer (S := RpcMuxServer) (Req := RpcMuxRequest).
Definition hako_pdu_rpc_mux_server_create_reply_buffer_alloc (malloc_ok : bool) :=
  server_create_reply_buffer_alloc (S := RpcMuxServer) (Req := RpcMuxRequest) (allocated_buffer malloc_ok).
Definition hako_pdu_rpc_mux_server_send_reply :=
  server_send_reply (S := RpcMuxServer) (Req := RpcMuxRequest).
Definition hako_pdu_rpc_mux_server_send_cancel_reply :=
  server_send_cancel_reply (S := RpcMuxServer) (Req := RpcMuxRequest).

Definition mux_rpc (handle : option hako_pdu_rpc_mux_server_handle) : option RpcMuxServer :=
  h ← handle; sh_rpc h.

Definition hako_pdu_rpc_mux_server_connected_count
    (handle : option hako_pdu_rpc_mux_server_handle) : nat :=
  match mux_rpc handle with Some s => connected_count s | None => 0 end.

Definition hako_pdu_rpc_mux_server_expected_count
    (handle : option hako_pdu_rpc_mux_server_handle) : nat :=
  match mux_rpc handle with Some s => expected_count s | None => 0 end.

(** [mux_ready] is what the multiplexer returns. *)
Definition hako_pdu_rpc_mux_server_is_ready (mux_ready : bool)
    (handle : option hako_pdu_rpc_mux_server_handle) : Z :=
  match mux_rpc handle with
  | Some s => if is_ready s mux_ready then 1 else 0
  | None => 0
  end.
End MuxServer.
End CRpc.
