(* ===== verification/CRpcProps.v ===== *)
(** * What the C interface of RPC guarantees

    Every token names one request and answers it at most once, which is stated
    of the calls the services really get: they are recorded by an instance of the
    services' class that wraps another one. A poll whose buffer is too small,
    however, takes the request from the services and gives no token for it. *)

From S2P Require Import Prelude OrderedMap Multiplexer ActionTypes CBuffers RpcTypes.
From S2P Require Import RpcServerEndpoint RpcServerProps RpcClientEndpoint RpcClientProps.
From S2P Require Import RpcServicesServer RpcServicesServerFacts RpcServicesServerProps.
From S2P Require Import RpcServicesClient.
From S2P Require Import RpcServicesClientProps RpcServicesMuxServer CRpc.
From Stdlib Require Import ZArith Lia.
From stdpp Require Import base gmap strings list fin_maps.

Module CRpcProps.
Import CBuffers Rpc CRpc.

(** ** Recording what the services are asked for *)

Inductive reply_kind := NormalReply | CancelReply.

Section Recording.
Context {S Req : Type} {HS : RpcServerServices S Req}.

(** A call of the services, with its arguments or its results. *)
Inductive service_call :=
  | Raised (event : RpcServerEventType) (request : Req)
  | Sent (kind : reply_kind) (request : Req) (pdu : RpcPduData).

#[local] Abbreviation Recorded := (S * list service_call)%type.

(** The same services, keeping a list of the calls that matter for tokens. *)
#[local] Instance recording : RpcServerServices Recorded Req := {|
  rv_input := @rv_input S Req HS;
  rv_poll input x :=
    let '(s, (event, request)) := rv_poll input x.1 in
    ((s, x.2 ++ [Raised event request]), (event, request));
  rv_request := rv_request;
  rv_create_reply_buffer x := rv_create_reply_buffer x.1;
  rv_send_reply x request pdu :=
    let '(s, ok) := rv_send_reply x.1 request pdu in
    ((s, x.2 ++ [Sent NormalReply request pdu]), ok);
  rv_send_cancel_reply x request pdu :=
    let '(s, ok) := rv_send_cancel_reply x.1 request pdu in
    ((s, x.2 ++ [Sent CancelReply request pdu]), ok);
|}.

Definition record (h : RpcServerHandle S Req) : RpcServerHandle Recorded Req :=
  mkServerHandle (sh_endpoints h) ((fun s => (s, [])) <$> sh_rpc h) (sh_next_token h)
    (sh_pending_requests h) (sh_started h).

Definition erase (h : RpcServerHandle Recorded Req) : RpcServerHandle S Req :=
  mkServerHandle (sh_endpoints h) (fst <$> sh_rpc h) (sh_next_token h)
    (sh_pending_requests h) (sh_started h).

(** The poll of both C servers, on recorded services. *)
Definition c_poll {B : Type} (C : BufferUse B) (input : @rv_input S Req HS)
    : option (RpcServerHandle Recorded Req) -> PollOut request_info B
      -> option (RpcServerHandle Recorded Req) * PollOut request_info B
         * hako_pdu_rpc_server_event_t :=
  @server_poll Recorded Req recording B C input.

(** Recording changes neither the handle nor any result. *)
Lemma erase_rpc (h : RpcServerHandle Recorded Req) : server_rpc (erase h) = fst <$> server_rpc h.
Proof. unfold server_rpc. cbn. by destruct (sh_started h). Qed.

Lemma recorded_poll {B} (C : BufferUse B) (input : @rv_input S Req HS)
    (h : RpcServerHandle Recorded Req) out h' out' e :
  c_poll C input (Some h) out = (h', out', e) ->
  server_poll C input (Some (erase h)) out = (erase <$> h', out', e).
Proof.
  unfold c_poll, server_poll. rewrite erase_rpc.
  destruct (po_info (reset_out C out)) as [info|]; [|by intros [= <- <- <-]].
  destruct (po_size (reset_out C out)); [|by intros [= <- <- <-]].
  destruct (negb _); [by intros [= <- <- <-]|].
  destruct (server_rpc h) as [[s l]|]; [|by intros [= <- <- <-]]. cbn.
  destruct (rv_poll input s) as [s' [event request]].
  destruct (bool_decide _); [by intros [= <- <- <-]|].
  destruct (bu_copy _ _ _ _) as [[buffer size] result].
  destruct (negb _); by intros [= <- <- <-].
Qed.

Lemma recorded_reply (h : RpcServerHandle Recorded Req) token pdu pdu_size :
  server_send_reply (Some (erase h)) token pdu pdu_size
    = prod_map (fmap erase) id (server_send_reply (Some h) token pdu pdu_size)
  /\ server_send_cancel_reply (Some (erase h)) token pdu pdu_size
    = prod_map (fmap erase) id (server_send_cancel_reply (Some h) token pdu pdu_size).
Proof.
  unfold server_send_reply, server_send_cancel_reply, send_with, take_request.
  rewrite erase_rpc. cbn [erase sh_pending_requests].
  destruct (_ && _); [done|]. destruct (server_rpc h) as [[s l]|]; [|done]. cbn.
  destruct (sh_pending_requests h !! token); [|done]. cbn.
  split; [by destruct (rv_send_reply _ _ _)|by destruct (rv_send_cancel_reply _ _ _)].
Qed.

(** ** Runs *)

Inductive c_op :=
  | CPoll (input : @rv_input S Req HS) (capacity : nat)
      (out : PollOut request_info (option (list Z)))
  | CPollAlloc (input : @rv_input S Req HS) (malloc_ok : bool)
      (out : PollOut request_info (option (option (list Z))))
  | CReply (kind : reply_kind) (token : Z) (pdu : option (list Z)) (pdu_size : nat).

(** [..._send_reply] or [..._send_cancel_reply]. *)
Definition c_send (kind : reply_kind)
    : option (RpcServerHandle Recorded Req) -> Z -> option (list Z) -> nat
      -> option (RpcServerHandle Recorded Req) * hako_pdu_rpc_error_t :=
  match kind with
  | NormalReply => server_send_reply
  | CancelReply => server_send_cancel_reply
  end.

Definition log (h : RpcServerHandle Recorded Req) : list service_call :=
  from_option snd [] (sh_rpc h).

Definition calls_made (h h' : RpcServerHandle Recorded Req) : list service_call :=
  drop (length (log h)) (log h').

(** What a run shows: the program is given a token in a poll in which the
    services raised a request; the program replies with a token, a function and
    a payload, and the services are asked to send. Sending anything outside a
    reply, or polling inside one, is [Unasked]. *)
Inductive token_event :=
  | Issued (token : Z) (request : Req)
  | Replied (token : Z) (asked : reply_kind * RpcPduData)
      (sent : reply_kind * Req * RpcPduData)
  | Unasked (call : service_call).

Definition poll_events (e : hako_pdu_rpc_server_event_t) (info : option request_info)
    (call : service_call) : list token_event :=
  match call with
  | Raised _ request =>
      match e, info with
      | HAKO_PDU_RPC_SERVER_EVENT_NONE, _ | _, None => []
      | _, Some i => [Issued (qi_request_token i) request]
      end
  | Sent _ _ _ => [Unasked call]
  end.

Definition reply_event (token : Z) (asked : reply_kind * RpcPduData) (call : service_call)
    : token_event :=
  match call with
  | Sent kind request pdu => Replied token asked (kind, request, pdu)
  | Raised _ _ => Unasked call
  end.

Definition run_op (h : RpcServerHandle Recorded Req) (op : c_op)
    : RpcServerHandle Recorded Req * list token_event :=
  match op with
  | CPoll input capacity out =>
      let '(h', out', e) := c_poll (caller_buffer capacity) input (Some h) out in
      let h1 := default h h' in (h1, calls_made h h1 ≫= poll_events e (po_info out'))
  | CPollAlloc input malloc_ok out =>
      let '(h', out', e) := c_poll (allocated_buffer malloc_ok) input (Some h) out in
      let h1 := default h h' in (h1, calls_made h h1 ≫= poll_events e (po_info out'))
  | CReply kind token pdu pdu_size =>
      let h1 := default h (c_send kind (Some h) token pdu pdu_size).1 in
      (h1, reply_event token (kind, make_pdu pdu pdu_size) <$> calls_made h h1)
  end.

Fixpoint run_ops (h : RpcServerHandle Recorded Req) (ops : list c_op)
    : RpcServerHandle Recorded Req * list token_event :=
  match ops with
  | [] => (h, [])
  | op :: rest =>
      let '(h1, t1) := run_op h op in
      let '(h2, t2) := run_ops h1 rest in
      (h2, t1 ++ t2)
  end.

Definition issued_tokens (tr : list token_event) : list Z :=
  omap (fun ev => match ev with Issued t _ => Some t | _ => None end) tr.

Definition spent_tokens (tr : list token_event) : list Z :=
  omap (fun ev => match ev with Replied t _ _ => Some t | _ => None end) tr.

(** ** The invariant *)

Record tokens_ok (h : RpcServerHandle Recorded Req) (tr : list token_event) : Prop := mkTokensOk {
  tk_next : (1 <= sh_next_token h)%Z;
  tk_issued : NoDup (issued_tokens tr);
  tk_spent : NoDup (spent_tokens tr);
  tk_range t : t ∈ issued_tokens tr -> (1 <= t < sh_next_token h)%Z;
  tk_source t asked sent : Replied t asked sent ∈ tr ->
    exists r, Issued t r ∈ tr /\ sent = (asked.1, r, asked.2);
  tk_asked call : Unasked call ∉ tr;
  tk_pending t r : sh_pending_requests h !! t = Some r <->
    Issued t r ∈ tr /\ t ∉ spent_tokens tr;
}.

Lemma issued_tokens_elem tr t r : Issued t r ∈ tr -> t ∈ issued_tokens tr.
Proof. intros Hin. apply list_elem_of_omap. eexists. by split; [exact Hin|]. Qed.

Lemma spent_tokens_elem tr t :
  t ∈ spent_tokens tr -> exists asked sent, Replied t asked sent ∈ tr.
Proof.
  intros ([t' r|t' asked sent|call] & Hin & Heq)%list_elem_of_omap; [done| |done].
  injection Heq as ->. eauto.
Qed.

(** A new token. *)
Lemma tokens_ok_issue h tr r h' :
  tokens_ok h tr -> (sh_next_token h + 1 < UINT64_MODULUS)%Z ->
  sh_next_token h' = u64 (sh_next_token h + 1) ->
  sh_pending_requests h' = <[sh_next_token h := r]> (sh_pending_requests h) ->
  tokens_ok h' (tr ++ [Issued (sh_next_token h) r]).
Proof.
  intros [Hn Hi Ha Hr Hs Hu Hp] Hb Hnext Hpend.
  rewrite u64_small in Hnext by (unfold in_u64; lia).
  assert (Hfresh : sh_next_token h ∉ issued_tokens tr) by (intros Hin%Hr; lia).
  assert (Hiss : issued_tokens (tr ++ [Issued (sh_next_token h) r])
    = issued_tokens tr ++ [sh_next_token h]) by (unfold issued_tokens; by rewrite omap_app).
  assert (Hans : spent_tokens (tr ++ [Issued (sh_next_token h) r]) = spent_tokens tr)
    by (unfold spent_tokens; by rewrite omap_app, app_nil_r).
  split; rewrite ?Hiss, ?Hans, ?Hnext; try done; try lia.
  - apply NoDup_app. split_and!; [done| |apply NoDup_singleton].
    by intros t Hin ->%list_elem_of_singleton.
  - intros t [Hin| ->%list_elem_of_singleton]%elem_of_app; [apply Hr in Hin|]; lia.
  - intros t asked sent [Hin|Hin%list_elem_of_singleton]%elem_of_app; [|done].
    destruct (Hs _ _ _ Hin) as (r' & Hin' & ->). exists r'. by rewrite elem_of_app; auto.
  - intros call [Hin|Hin%list_elem_of_singleton]%elem_of_app; [by apply (Hu call)|done].
  - intros t r'. rewrite Hpend. destruct (decide (t = sh_next_token h)) as [->|Hne].
    + rewrite lookup_insert_eq, elem_of_app, list_elem_of_singleton. split.
      * intros [= <-]. split; [by right|].
        by intros (asked & sent & (r' & Hin%issued_tokens_elem & _)%Hs)%spent_tokens_elem.
      * by intros [[?%issued_tokens_elem|[= ->]] _].
    + rewrite lookup_insert_ne, elem_of_app, list_elem_of_singleton, Hp by done. naive_solver.
Qed.

(** A token is spent: what was sent is what its request and the caller say. *)
Lemma tokens_ok_spend h tr t r k d h' :
  tokens_ok h tr -> sh_pending_requests h !! t = Some r ->
  sh_next_token h' = sh_next_token h ->
  sh_pending_requests h' = delete t (sh_pending_requests h) ->
  tokens_ok h' (tr ++ [Replied t (k, d) (k, r, d)]).
Proof.
  intros [Hn Hi Ha Hr Hs Hu Hp] Ht Hnext Hpend. destruct (proj1 (Hp _ _) Ht) as [Hin Hno].
  assert (Hiss : issued_tokens (tr ++ [Replied t (k, d) (k, r, d)]) = issued_tokens tr)
    by (unfold issued_tokens; by rewrite omap_app, app_nil_r).
  assert (Hans : spent_tokens (tr ++ [Replied t (k, d) (k, r, d)]) = spent_tokens tr ++ [t])
    by (unfold spent_tokens; by rewrite omap_app).
  split; rewrite ?Hiss, ?Hans, ?Hnext; try done.
  - apply NoDup_app. split_and!; [done| |apply NoDup_singleton].
    by intros t' Hin' ->%list_elem_of_singleton.
  - intros t' asked sent [Hin'|Hin'%list_elem_of_singleton]%elem_of_app.
    + destruct (Hs _ _ _ Hin') as (r' & Hr' & ->). exists r'. by rewrite elem_of_app; auto.
    + injection Hin' as -> -> ->. exists r. by rewrite elem_of_app; auto.
  - intros call [Hin'|Hin'%list_elem_of_singleton]%elem_of_app; [by apply (Hu call)|done].
  - intros t' r'. rewrite Hpend, lookup_delete_Some, Hp, !elem_of_app, !list_elem_of_singleton.
    naive_solver.
Qed.

Lemma tokens_ok_same h tr h' :
  tokens_ok h tr -> sh_next_token h' = sh_next_token h ->
  sh_pending_requests h' = sh_pending_requests h -> tokens_ok h' tr.
Proof. intros [Hn Hi Ha Hr Hs Hu Hp] Hnext Hpend. split; rewrite ?Hnext, ?Hpend; try done. Qed.

(** ** Steps *)

Lemma calls_made_app h h' l : log h' = log h ++ l -> calls_made h h' = l.
Proof. unfold calls_made. intros ->. apply drop_app_length. Qed.

Lemma server_rpc_log (h : RpcServerHandle Recorded Req) s l :
  server_rpc h = Some (s, l) -> log h = l.
Proof. unfold server_rpc, log. destruct (sh_started h); [|done]. by intros ->. Qed.

Lemma c_poll_cases {B} (C : BufferUse B) input (h : RpcServerHandle Recorded Req) out
    h' out' e :
  c_poll C input (Some h) out = (h', out', e) ->
  exists h1, h' = Some h1 /\
  ((e = HAKO_PDU_RPC_SERVER_EVENT_NONE
    /\ sh_next_token h1 = sh_next_token h /\ sh_pending_requests h1 = sh_pending_requests h
    /\ (calls_made h h1 = [] \/ exists event r, calls_made h h1 = [Raised event r]))
   \/ exists s event request info,
       calls_made h h1 = [Raised event request]
       /\ event <> RpcServer_NONE /\ e = map_server_event event
       /\ h1 = (store_request request info (set_server_rpc s h)).1
       /\ po_info out' = Some (store_request request info (set_server_rpc s h)).2).
Proof.
  unfold c_poll, server_poll.
  assert (Hquiet : calls_made h h = []) by (apply calls_made_app; by rewrite app_nil_r).
  destruct (po_info (reset_out C out)) as [info|] eqn:Hinfo;
    [|intros [= <- <- <-]; exists h; split; [done|left; by auto]].
  destruct (po_size (reset_out C out)) as [sz|];
    [|intros [= <- <- <-]; exists h; split; [done|left; by auto]].
  destruct (negb _); [intros [= <- <- <-]; exists h; split; [done|left; by auto]|].
  destruct (server_rpc h) as [[s l]|] eqn:Hs;
    [|intros [= <- <- <-]; exists h; split; [done|left; by auto]].
  apply server_rpc_log in Hs. cbn [rv_poll recording fst snd].
  destruct (rv_poll input s) as [s' [event request]].
  assert (Hone : forall h1, sh_rpc h1 = Some (s', l ++ [Raised event request]) ->
                            calls_made h h1 = [Raised event request]).
  { intros h1 Hr. apply calls_made_app. unfold log at 1. by rewrite Hr, Hs. }
  destruct (bool_decide_reflect (event = RpcServer_NONE)) as [->|Hev];
    [intros [= <- <- <-]; eexists; split; [done|]; left; split_and!; [done..|]; by eauto|].
  destruct (bu_copy _ _ _ _) as [[buffer size] result].
  destruct (negb _);
    [intros [= <- <- <-]; eexists; split; [done|]; left; split_and!; [done..|]; by eauto|].
  intros [= <- <- <-]. eexists. split; [done|]. right. eexists _, event, request, info.
  split_and!; [|done|done|done|cbn; by rewrite Hinfo]. by apply Hone.
Qed.

Lemma c_send_cases kind (h : RpcServerHandle Recorded Req) token pdu pdu_size :
  let h1 := default h (c_send kind (Some h) token pdu pdu_size).1 in
  h1 = h
  \/ exists request, sh_pending_requests h !! token = Some request
       /\ calls_made h h1 = [Sent kind request (make_pdu pdu pdu_size)]
       /\ sh_next_token h1 = sh_next_token h
       /\ sh_pending_requests h1 = delete token (sh_pending_requests h).
Proof.
  assert (Hsend : forall send, (forall s l request d,
      exists s' ok, send (s, l) request d = ((s', l ++ [Sent kind request d]), ok)) ->
    let h1 := default h (send_with send (Some h) token pdu pdu_size).1 in
    h1 = h
    \/ exists request, sh_pending_requests h !! token = Some request
         /\ calls_made h h1 = [Sent kind request (make_pdu pdu pdu_size)]
         /\ sh_next_token h1 = sh_next_token h
         /\ sh_pending_requests h1 = delete token (sh_pending_requests h)).
  { intros send Hsend. unfold send_with, take_request. destruct (_ && _); [by left|].
    destruct (server_rpc h) as [[s l]|] eqn:Hs; [|by left].
    destruct (sh_pending_requests h !! token) as [request|]; cbn; [|by left].
    destruct (Hsend s l request (make_pdu pdu pdu_size)) as (s' & ok & ->). right.
    exists request. split_and!; [done| |done|done]. apply calls_made_app.
    by rewrite (server_rpc_log _ _ _ Hs). }
  destruct kind; apply Hsend; intros s l request d; cbn.
  - destruct (rv_send_reply s request d) as [s' ok]. eauto.
  - destruct (rv_send_cancel_reply s request d) as [s' ok]. eauto.
Qed.

(** The tokens a run can use up. *)
Definition is_poll (op : c_op) : bool :=
  match op with CPoll _ _ _ | CPollAlloc _ _ _ => true | _ => false end.

Definition polls (ops : list c_op) : Z := Z.of_nat (length (filter (fun op => is_poll op) ops)).

Lemma polls_one op : polls [op] = (if is_poll op then 1 else 0)%Z.
Proof. unfold polls. rewrite filter_cons. by destruct (is_poll op). Qed.

Lemma poll_tokens_ok {B} (C : BufferUse B) input (h : RpcServerHandle Recorded Req) out h' out' e
    tr :
  tokens_ok h tr -> (sh_next_token h + 1 < UINT64_MODULUS)%Z ->
  c_poll C input (Some h) out = (h', out', e) ->
  tokens_ok (default h h') (tr ++ (calls_made h (default h h') ≫= poll_events e (po_info out')))
  /\ (sh_next_token (default h h') <= sh_next_token h + 1)%Z.
Proof.
  intros Hok Hb (h1 & -> & [(-> & Hn & Hp & Hc)
    | (s & event & request & info & Hc & Hev & -> & Hh & Hinfo)])%c_poll_cases;
    cbn [default from_option id].
  - rewrite Hn. split; [|lia]. destruct Hc as [->|(event & r & ->)]; cbn;
      rewrite app_nil_r; by apply (tokens_ok_same h).
  - assert (Hfresh : sh_pending_requests h !! sh_next_token h = None).
    { destruct (sh_pending_requests h !! sh_next_token h) as [r|] eqn:Hr; [|done].
      apply (tk_pending _ _ Hok) in Hr as [Hr%issued_tokens_elem _].
      apply (tk_range _ _ Hok) in Hr. lia. }
    assert (Hiss : calls_made h h1 ≫= poll_events (map_server_event event) (po_info out')
      = [Issued (sh_next_token h) request]).
    { rewrite Hc, Hinfo. by destruct event. }
    rewrite Hiss. subst h1. split.
    + apply (tokens_ok_issue h); [done..|]. cbn. by rewrite Hfresh.
    + cbn. pose proof (tk_next _ _ Hok). rewrite u64_small by (unfold in_u64; lia). lia.
Qed.

Lemma run_op_tokens_ok (h : RpcServerHandle Recorded Req) op tr :
  tokens_ok h tr -> (sh_next_token h + polls [op] < UINT64_MODULUS)%Z ->
  tokens_ok (run_op h op).1 (tr ++ (run_op h op).2)
  /\ (sh_next_token (run_op h op).1 <= sh_next_token h + polls [op])%Z.
Proof.
  rewrite polls_one. intros Hok Hb.
  destruct op as [input capacity out|input malloc_ok out|kind token pdu sz];
    cbn [run_op is_poll] in Hb |- *.
  1: destruct (c_poll (caller_buffer _) _ _ _) as [[h' out'] e] eqn:He.
  2: destruct (c_poll (allocated_buffer _) _ _ _) as [[h' out'] e] eqn:He.
  1,2: by apply (poll_tokens_ok _ _ _ _ _ _ _ tr Hok Hb) in He.
  cbn [fst snd]. destruct (c_send_cases kind h token pdu sz) as [->|(r & Ht & -> & Hn & Hp)].
  - rewrite (calls_made_app h h []) by (by rewrite app_nil_r). cbn.
    rewrite app_nil_r. split; [done|lia].
  - split; [|lia]. by apply (tokens_ok_spend h).
Qed.

Lemma polls_cons op ops : polls (op :: ops) = (polls [op] + polls ops)%Z.
Proof.
  unfold polls. change (op :: ops) with ([op] ++ ops). rewrite filter_app, length_app. lia.
Qed.

Lemma run_ops_tokens_ok ops (h : RpcServerHandle Recorded Req) tr :
  tokens_ok h tr -> (sh_next_token h + polls ops < UINT64_MODULUS)%Z ->
  tokens_ok (run_ops h ops).1 (tr ++ (run_ops h ops).2).
Proof.
  revert h tr. induction ops as [|op ops IH]; intros h tr Hok Hb; cbn [run_ops].
  - by rewrite app_nil_r.
  - rewrite polls_cons in Hb. assert (0 <= polls ops)%Z by (unfold polls; lia).
    destruct (run_op_tokens_ok h op tr Hok) as [Hok1 Hn]; [lia|].
    destruct (run_op h op) as [h1 t1]. cbn in Hok1, Hn.
    specialize (IH h1 (tr ++ t1) Hok1 ltac:(lia)).
    destruct (run_ops h1 ops) as [h2 t2]. cbn in *. by rewrite app_assoc.
Qed.

(** A handle as the create functions return it, started. *)
Definition fresh_handle (h : RpcServerHandle S Req) : Prop :=
  sh_next_token h = 1%Z /\ sh_pending_requests h = ∅.

Lemma fresh_tokens_ok h : fresh_handle h -> tokens_ok (record h) [].
Proof.
  intros [Hn Hp]. split; cbn; rewrite ?Hn, ?Hp; try lia; try apply NoDup_nil_2.
  - by intros t ?%elem_of_nil.
  - by intros t asked sent ?%elem_of_nil.
  - by intros call ?%elem_of_nil.
  - intros t r. rewrite lookup_empty. split; [done|]. by intros [?%elem_of_nil _].
Qed.

(** A pending token can be spent: the reply functions reach the services. *)
Lemma pending_token_sends kind (h : RpcServerHandle Recorded Req) t r pdu pdu_size :
  sh_pending_requests h !! t = Some r -> is_Some (server_rpc h) ->
  pdu_size = 0 \/ is_Some pdu ->
  calls_made h (default h (c_send kind (Some h) t pdu pdu_size).1)
  = [Sent kind r (make_pdu pdu pdu_size)].
Proof.
  intros Ht [[s l] Hs] Hpdu. destruct (c_send_cases kind h t pdu pdu_size) as [Heq|(r' & Hr & Hc & _)].
  - exfalso. apply (f_equal sh_pending_requests) in Heq. revert Heq.
    assert (Hg : (0 <? pdu_size) && bool_decide (pdu = None) = false).
    { destruct Hpdu as [->|[x ->]]; [done|]. by rewrite andb_false_r. }
    destruct kind; cbn [c_send];
      unfold server_send_reply, server_send_cancel_reply, send_with, take_request;
      rewrite Hg, Hs, Ht; cbn; [destruct (rv_send_reply s r _)|destruct (rv_send_cancel_reply s r _)];
      cbn; intros Heq; rewrite <-Heq, lookup_delete_eq in Ht; done.
  - by rewrite Ht in Hr; injection Hr as <-.
Qed.

(** C16 — Each token names one request and is spent at most once, on that
    request: from a newly created handle, whatever the program then polls and
    replies, and whatever the services return, no two requests get the same token
    as long as the 64-bit counter does not wrap. The services are asked to send
    only inside a reply call, at most once for a token over the whole run, and
    then for the very request that was raised when the token was issued, with the
    bytes the program passed, as a normal or a cancel reply as the program asked.
    The handle keeps the request of a token exactly while the token is issued and
    not yet spent, and a reply with such a token reaches the services when they
    run and the program passes a payload. *)
Theorem c_rpc_token_spent_once (h : RpcServerHandle S Req) ops :
  fresh_handle h -> (1 + polls ops < UINT64_MODULUS)%Z ->
  let '(h', tr) := run_ops (record h) ops in
  NoDup (issued_tokens tr) /\ NoDup (spent_tokens tr)
  /\ (forall t asked sent, Replied t asked sent ∈ tr ->
        exists r, Issued t r ∈ tr /\ sent = (asked.1, r, asked.2))
  /\ (forall call, Unasked call ∉ tr)
  /\ (forall t r, sh_pending_requests h' !! t = Some r
        <-> Issued t r ∈ tr /\ t ∉ spent_tokens tr)
  /\ forall t r kind pdu pdu_size, sh_pending_requests h' !! t = Some r ->
       is_Some (server_rpc h') -> pdu_size = 0 \/ is_Some pdu ->
       calls_made h' (default h' (c_send kind (Some h') t pdu pdu_size).1)
       = [Sent kind r (make_pdu pdu pdu_size)].
Proof.
  intros Hfresh Hb. pose proof (proj1 Hfresh) as Hn.
  destruct (run_ops_tokens_ok ops (record h) []) as [_ Hi Ha _ Hs Hu Hpend];
    [by apply fresh_tokens_ok|cbn; by rewrite Hn|].
  destruct (run_ops (record h) ops) as [h' tr]. split_and!; [done..|].
  intros t r kind pdu pdu_size. by apply pending_token_sends.
Qed.
End Recording.

(** ** A buffer that is too small *)

Section SmallBuffer.
Context {S Req : Type} `{RpcServerServices S Req}.

(** The services have moved on, and the handle knows nothing of the request. *)
Lemma small_buffer_poll input (h : RpcServerHandle S Req) s s' event request capacity info
    buffer size err :
  server_rpc h = Some s -> rv_poll input s = (s', (event, request)) -> event <> RpcServer_NONE ->
  capacity < length (req_pdu (rv_request request)) ->
  server_poll (caller_buffer capacity) input (Some h)
    (mkPollOut (Some info) buffer (Some size) err)
  = (Some (set_server_rpc s' h),
     mkPollOut (Some info) buffer (Some (Z.of_nat (length (req_pdu (rv_request request)))))
       ((fun _ => HAKO_PDU_RPC_ERROR_BUFFER_TOO_SMALL) <$> err),
     HAKO_PDU_RPC_SERVER_EVENT_NONE).
Proof.
  intros Hs Hp Hev Hc. unfold server_poll. cbn -[Nat.ltb].
  rewrite Hs, Hp, (bool_decide_eq_false_2 (event = _)) by done.
  rewrite (proj2 (Nat.ltb_lt _ _)) by done. cbn. unfold set_error. cbn. by destruct err.
Qed.

(** The services have nothing: the poll reports nothing. *)
Lemma quiet_poll input (h : RpcServerHandle S Req) s s' request capacity info buffer size err :
  server_rpc h = Some s -> rv_poll input s = (s', (RpcServer_NONE, request)) ->
  server_poll (caller_buffer capacity) input (Some h)
    (mkPollOut (Some info) buffer (Some size) err)
  = (Some (set_server_rpc s' h),
     mkPollOut (Some info) buffer (Some 0%Z) ((fun _ => HAKO_PDU_RPC_OK) <$> err),
     HAKO_PDU_RPC_SERVER_EVENT_NONE).
Proof.
  intros Hs Hp. unfold server_poll. cbn. rewrite Hs, Hp.
  by rewrite (bool_decide_eq_true_2 (RpcServer_NONE = _)).
Qed.

Lemma server_rpc_set s s' (h : RpcServerHandle S Req) :
  server_rpc h = Some s -> server_rpc (set_server_rpc s' h) = Some s'.
Proof. unfold server_rpc. cbn. by destruct (sh_started h). Qed.
End SmallBuffer.

(** C39 — A poll whose buffer is too small loses the request: when the services
    raise a REQUEST_IN and the caller's buffer cannot hold it, the poll reports
    BUFFER_TOO_SMALL with the size that is needed but gives no token, while the
    services go on treating the request as in progress; when it was the only
    packet queued, the poll that is repeated with a buffer of any size finds
    nothing, so the request can never be answered. *)
Theorem c_rpc_small_buffer_loses_request {P : RpcPlatform} (h : hako_pdu_rpc_server_handle) s w
    s' w' rq capacity info buffer size err :
  server_rpc h = Some (s, w) -> RpcServicesFacts.services_wf s ->
  RpcServices.poll s w RpcMux.default_request = (s', w', (RpcServer_REQUEST_IN, rq)) ->
  capacity < length (req_pdu rq) ->
  exists h',
    hako_pdu_rpc_server_poll capacity (Some h) (mkPollOut (Some info) buffer (Some size) err)
    = (Some h',
       mkPollOut (Some info) buffer (Some (Z.of_nat (length (req_pdu rq))))
         ((fun _ => HAKO_PDU_RPC_ERROR_BUFFER_TOO_SMALL) <$> err),
       HAKO_PDU_RPC_SERVER_EVENT_NONE)
    /\ sh_pending_requests h' = sh_pending_requests h
    /\ server_rpc h' = Some (s', w')
    /\ RpcServicesFacts.busy_at (RpcServices.rss_rpc_endpoints s') (rq_service_name (req_header rq))
         (rq_client_name (req_header rq)) = 1
    /\ (RpcServicesProps.backlog s = 1 ->
        forall capacity2 info2 buffer2 size2 err2,
          hako_pdu_rpc_server_poll capacity2 (Some h')
            (mkPollOut (Some info2) buffer2 (Some size2) err2)
          = (Some h', mkPollOut (Some info2) buffer2 (Some 0%Z)
               ((fun _ => HAKO_PDU_RPC_OK) <$> err2), HAKO_PDU_RPC_SERVER_EVENT_NONE)).
Proof.
  intros Hs Hwf Hp Hc. exists (set_server_rpc (s', w') h).
  assert (Hp' : rv_poll tt (s, w) = ((s', w'), (RpcServer_REQUEST_IN, rq)))
    by (cbn; by rewrite Hp).
  split_and!; [by apply (small_buffer_poll _ _ _ _ _ rq _ _ _ _ _ Hs Hp')|done| | |].
  - by apply (server_rpc_set (s, w)).
  - destruct (RpcServicesProps.poll_raised _ _ _ _ _ _ Hwf Hp) as (e & He & _ & Hst).
    unfold RpcServicesFacts.busy_at, RpcServerProps.busy. by rewrite He, Hst.
  - intros Hb capacity2 info2 buffer2 size2 err2.
    destruct (RpcServicesProps.poll_backlog _ _ _ _ _ _ Hp) as [_ Hlt].
    assert (Hidle : RpcServices.poll s' w' RpcMux.default_request
      = (s', w', (RpcServer_NONE, RpcMux.default_request)))
      by (apply RpcServicesProps.poll_idle; lia).
    assert (Hidle' : rv_poll tt (s', w') = ((s', w'), (RpcServer_NONE, RpcMux.default_request)))
      by (cbn; by rewrite Hidle).
    exact (quiet_poll _ _ _ _ _ capacity2 info2 buffer2 size2 err2
      (server_rpc_set (s, w) (s', w') h Hs) Hidle').
Qed.

(** The client loses a response the same way: the call is over for the services,
    and the program sees no event. *)
Lemma client_small_buffer_poll {P : RpcPlatform} now (h : hako_pdu_rpc_client_handle) s w s' event
    name response capacity info buffer size err :
  client_rpc h = Some (s, w) ->
  RpcClientServices.poll s "" default_response now = (s', event, (name, response)) ->
  event <> RpcClient_NONE -> capacity < length (res_pdu response) ->
  hako_pdu_rpc_client_poll now capacity (Some h) (mkPollOut (Some info) buffer (Some size) err)
  = (Some (set_client_rpc (s', w) h),
     mkPollOut (Some info) buffer (Some (Z.of_nat (length (res_pdu response))))
       ((fun _ => HAKO_PDU_RPC_ERROR_BUFFER_TOO_SMALL) <$> err),
     HAKO_PDU_RPC_CLIENT_EVENT_NONE).
Proof.
  intros Hs Hp Hev Hc. unfold hako_pdu_rpc_client_poll, client_poll. cbn -[Nat.ltb].
  rewrite Hs, Hp, (bool_decide_eq_false_2 (event = _)) by done.
  rewrite (proj2 (Nat.ltb_lt _ _)) by done. cbn. unfold set_error. cbn. by destruct err.
Qed.

(** ** A concrete server *)

Module Demo.
Import ConcreteRpc.

Definition info : request_info := mkRequestInfo 0 (replicate 128 0%Z) (replicate 128 0%Z) 0.

(** A running handle with the services of [s]. *)
Definition running (s : RpcServices.RpcServicesServer) : hako_pdu_rpc_server_handle :=
  mkServerHandle true (Some (s, [])) 1 ∅ true.

Definition waiting : RpcServices.RpcServicesServer :=
  RpcServices.receive RpcServicesProps.Demo.ready "s" (RpcServicesProps.Demo.key "s")
    (RpcServicesProps.Demo.packet "s" 7).

Definition out : PollOut request_info (option (list Z)) :=
  mkPollOut (Some info) (Some (replicate 64 0%Z)) (Some 0%Z) (Some HAKO_PDU_RPC_OK).

Definition request (n : string) (id : Z) : RpcRequest :=
  mkRpcRequest "c" (RpcServicesProps.Demo.header n id) (RpcServicesProps.Demo.packet n id).

Definition ops : list (c_op (S := SingleNative) (Req := RpcRequest)) :=
  [CPoll (tt : rv_input) 64 out; CPoll (tt : rv_input) 64 out;
   CReply NormalReply 2 (Some [1%Z]) 1; CReply CancelReply 2 (Some [1%Z]) 1].
End Demo.
Import ConcreteRpc Demo.

Lemma c_rpc_token_spent_once_witness :
  let tr := (run_ops (record (running RpcServicesProps.Demo.queued)) ops).2 in
  tr = [Issued 1 (request "a" 9); Issued 2 (request "s" 7);
        Replied 2 (NormalReply, [1%Z]) (NormalReply, request "s" 7, [1%Z])]
  /\ NoDup (issued_tokens tr) /\ NoDup (spent_tokens tr).
Proof.
  split; [by vm_compute|].
  pose proof (c_rpc_token_spent_once (running RpcServicesProps.Demo.queued) ops
    ltac:(done) ltac:(by vm_compute)) as Ht.
  destruct (run_ops _ ops) as [h' tr]. destruct Ht as (Hi & Ha & _). exact (conj Hi Ha).
Defined.

Lemma c_rpc_small_buffer_loses_request_witness :
  exists h', sh_pending_requests h' = ∅
    /\ RpcServicesFacts.busy_at (RpcServices.rss_rpc_endpoints
         (RpcServices.poll waiting [] RpcMux.default_request).1.1) "s" "c" = 1
    /\ hako_pdu_rpc_server_poll 64 (Some h') out
       = (Some h', mkPollOut (Some info) (Some (replicate 64 0%Z)) (Some 0%Z)
            (Some HAKO_PDU_RPC_OK), HAKO_PDU_RPC_SERVER_EVENT_NONE).
Proof.
  destruct (c_rpc_small_buffer_loses_request (running waiting) waiting []
    (RpcServices.poll waiting [] RpcMux.default_request).1.1 [] (request "s" 7) 63 info
    (Some (replicate 64 0%Z)) 0 (Some HAKO_PDU_RPC_OK)) as (h' & _ & Hp & _ & Hb & Hr).
  - done.
  - change waiting with (RpcServicesProps.run_op RpcServicesProps.Demo.ready []
      (RpcServicesProps.SvcReceive "s" (RpcServicesProps.Demo.key "s")
        (RpcServicesProps.Demo.packet "s" 7))).1.1.
    eapply RpcServicesProps.run_op_ok; [apply triple_eta|]. apply RpcServicesProps.demo_ready_wf.
  - by vm_compute.
  - by vm_compute.
  - exists h'. split; [exact Hp|]. split; [exact Hb|].
    exact (Hr ltac:(by vm_compute) 64 info (Some (replicate 64 0%Z)) 0%Z (Some HAKO_PDU_RPC_OK)).
Defined.

(** ** Starting and stopping *)

(** A stopped RPC handle cannot be started again, unlike a stopped Action
    handle: stopping drops the services and the container. *)
Lemma rpc_server_stops_for_good {P : RpcPlatform} h start_all :
  let stopped := (hako_pdu_rpc_server_stop (Some h)).1 in
  hako_pdu_rpc_server_start stopped start_all = (stopped, HAKO_PDU_RPC_ERROR_INITIALIZE).
Proof. done. Qed.

Lemma rpc_client_stops_for_good {P : RpcPlatform} h start_all :
  let stopped := (hako_pdu_rpc_client_stop (Some h)).1 in
  hako_pdu_rpc_client_start stopped start_all = (stopped, HAKO_PDU_RPC_ERROR_INITIALIZE).
Proof. done. Qed.
End CRpcProps.
