(* ===== verification/CMemory.v ===== *)
(** * Memory the C interfaces hand over

    The [*_alloc] functions of src/c_action.cpp, src/c_rpc_alloc.cpp and
    src/c_rpc_mux.cpp return packets in blocks that they allocate and the caller
    releases with [hako_pdu_action_buffer_free] or [hako_pdu_rpc_buffer_free].
    [CAction] and [CRpc] describe what such a call returns with the block in
    place of the pointer; here the pointer is an address of a heap, so that
    ownership can be stated: which blocks are live, who frees them and when.

    [malloc] is the C library's: an argument that gives the address of a block
    that is not live, or NULL. [free] of a pointer that is not a live block has
    no result. *)

From S2P Require Import Prelude Multiplexer ActionTypes CBuffers ActionConfiguration PduPacket.
From S2P Require Import ServerStateMachine ServerInterface ClientInterface ServicesServer.
From S2P Require Import ServicesClient.
From S2P Require Import CAction RpcTypes RpcServicesServer RpcServicesClient CRpc.
From S2P Require Import ServerEndpoint ServerEndpointFacts ServerEndpointProps ClientEndpoint.
From S2P Require Import ClientContract CActionProps RpcServerEndpoint RpcServerProps.
From S2P Require Import RpcServicesServerProps CRpcProps.
From Stdlib Require Import ZArith Lia.
From stdpp Require Import base gmap strings list fin_maps.

Module CMemory.
Import CBuffers.
#[local] Existing Instance CAction.action_c_errors.
#[local] Existing Instance CAction.action_error_eq_dec.
#[local] Existing Instance CRpc.rpc_c_errors.
#[local] Existing Instance CRpc.rpc_error_eq_dec.

(** ** The heap *)

(** The live blocks, by address. *)
Abbreviation c_heap := (gmap nat (list Z)).

(** What [malloc] returns for a size, given the blocks that are live. *)
Definition allocator : Type := c_heap -> nat -> option nat.

Definition lawful (malloc : allocator) : Prop :=
  forall heap n a, malloc heap n = Some a -> heap !! a = None.

(** [std::free]: NULL is ignored, a live block is released. *)
Definition free (buffer : option nat) (heap : c_heap) : option c_heap :=
  match buffer with
  | None => Some heap
  | Some a => _ ← heap !! a; Some (delete a heap)
  end.

Definition hako_pdu_action_buffer_free (buffer : option nat) (heap : c_heap) : option c_heap :=
  free buffer heap.

Definition hako_pdu_rpc_buffer_free (buffer : option nat) (heap : c_heap) : option c_heap :=
  free buffer heap.

(** The heap and a [uint8_t**] parameter. *)
Definition place : Type := c_heap * option (option nat).

Definition clear_place (x : place) : place := (x.1, (fun _ => None) <$> x.2).
Definition given_place (x : place) : bool := bool_decide (is_Some x.2).

Definition allocate_pdu {Err : Type} `{CErrors Err} (malloc : allocator) (source : PduData)
    (x : place) (out_size : option Z) : place * option Z * Err :=
  match x.2, out_size with
  | Some _, Some _ =>
      if bool_decide (source = []) then ((x.1, Some None), Some 0%Z, err_ok)
      else
        match malloc x.1 (length source) with
        | None => ((x.1, Some None), Some 0%Z, err_internal)
        | Some a =>
            ((<[a := source]> x.1, Some (Some a)), Some (Z.of_nat (length source)), err_ok)
        end
  | _, _ => (x, out_size, err_invalid_argument)
  end.

(** The buffer parameter of the functions that allocate, with pointers. *)
Definition action_place (malloc : allocator) : CAction.BufferUse place :=
  CAction.mkBufferUse clear_place given_place (allocate_pdu malloc).

Definition rpc_place (malloc : allocator) : CRpc.BufferUse place :=
  CRpc.mkBufferUse (fun x => (clear_place x.1, (fun _ => 0%Z) <$> x.2)) given_place
    (allocate_pdu malloc).

(** ** The RPC server's poll

    After the packet is allocated the request is stored under a new token;
    when that throws, the token is used up, the block is released and the
    caller gets a cleared pointer. *)

Section RpcServerPoll.
Context {S Req : Type} `{CRpc.RpcServerServices S Req}.
Import CRpc Rpc.

Definition skip_token (h : RpcServerHandle S Req) : RpcServerHandle S Req :=
  mkServerHandle (sh_endpoints h) (sh_rpc h) (u64 (sh_next_token h + 1))
    (sh_pending_requests h) (sh_started h).

Definition rpc_server_poll_alloc (malloc : allocator) (store_ok : bool) (input : rv_input)
    (handle : option (RpcServerHandle S Req)) (out : PollOut request_info place)
    : option (option (RpcServerHandle S Req) * PollOut request_info place
              * hako_pdu_rpc_server_event_t) :=
  let C := rpc_place malloc in
  let out := reset_out C out in
  match handle, po_info out, po_size out with
  | Some h, Some info, Some _ =>
      if negb (bu_given C (po_buffer out)) then
        Some (handle, set_error HAKO_PDU_RPC_ERROR_INVALID_ARGUMENT out,
              HAKO_PDU_RPC_SERVER_EVENT_NONE)
      else
        match server_rpc h with
        | None =>
            Some (handle, set_error HAKO_PDU_RPC_ERROR_NOT_RUNNING out,
                  HAKO_PDU_RPC_SERVER_EVENT_NONE)
        | Some s =>
            let '(s', (event, request)) := rv_poll input s in
            let h' := set_server_rpc s' h in
            if bool_decide (event = RpcServer_NONE) then
              Some (Some h', out, HAKO_PDU_RPC_SERVER_EVENT_NONE)
            else
              let '(buffer, size, result) :=
                bu_copy C (req_pdu (rv_request request)) (po_buffer out) (po_size out) in
              let out1 := set_buffer buffer size out in
              if negb (bool_decide (result = HAKO_PDU_RPC_OK))
              then Some (Some h', set_error result out1, HAKO_PDU_RPC_SERVER_EVENT_NONE)
              else if store_ok then
                let '(h'', info') := store_request request info h' in
                Some (Some h'', set_info info' out1, map_server_event event)
              else
                heap ← hako_pdu_rpc_buffer_free (default None buffer.2) buffer.1;
                Some (Some (skip_token h'),
                      set_error HAKO_PDU_RPC_ERROR_INTERNAL
                        (set_buffer (heap, Some None) (Some 0%Z) out1),
                      HAKO_PDU_RPC_SERVER_EVENT_NONE)
        end
  | _, _, _ =>
      Some (handle, set_error HAKO_PDU_RPC_ERROR_INVALID_ARGUMENT out,
            HAKO_PDU_RPC_SERVER_EVENT_NONE)
  end.
End RpcServerPoll.

(** ** A program that uses the allocating functions

    One Action server, one Action client, one RPC server and one RPC client of
    a program share the heap. [pg_held] lists the pointers the program received
    and has not freed. *)

Section Program.
Context {E : Type} `{ClientIface.IActionClientEndpoint E}.
Context {S : Type} `{CAction.ServerServices S}.
Context {RS Req : Type} `{CRpc.RpcServerServices RS Req} {RP : Rpc.RpcPlatform}.

Record program := mkProgram {
  pg_action_client : option (CAction.hako_pdu_action_client_handle (E := E));
  pg_action_server : option (CAction.ActionHandle S ServerEvent);
  pg_rpc_client : option CRpc.hako_pdu_rpc_client_handle;
  pg_rpc_server : option (CRpc.RpcServerHandle RS Req);
  pg_heap : c_heap;
  pg_held : list nat;
}.

(** The output parameters of a poll: info, [uint8_t**], size and error. *)
Record poll_args (Info Err : Type) := mkPollArgs {
  pa_info : option Info;
  pa_buffer : option (option nat);
  pa_size : option Z;
  pa_error : option Err;
}.
Arguments mkPollArgs {Info Err} _ _ _ _.
Arguments pa_info {Info Err} _.
Arguments pa_buffer {Info Err} _.
Arguments pa_size {Info Err} _.
Arguments pa_error {Info Err} _.

Inductive c_call :=
  | ActionServerPoll (malloc : allocator) (input : CAction.sv_input)
      (args : poll_args CAction.server_event_info CAction.hako_pdu_action_error_t)
  | ActionFeedbackBuffer (malloc : allocator) (action_name : option string)
      (out_buffer : option (option nat)) (out_size : option Z)
  | ActionResultBuffer (malloc : allocator) (action_name : option string)
      (out_buffer : option (option nat)) (out_size : option Z)
  | ActionClientPoll (malloc : allocator) (clock : nat -> Z)
      (args : poll_args CAction.client_event_info CAction.hako_pdu_action_error_t)
  | ActionGoalBuffer (malloc : allocator) (action_name : option string)
      (out_buffer : option (option nat)) (out_size : option Z)
  | RpcServerPoll (malloc : allocator) (store_ok : bool) (input : CRpc.rv_input)
      (args : poll_args CRpc.request_info CRpc.hako_pdu_rpc_error_t)
  | RpcReplyBuffer (malloc : allocator) (token status result_code : Z)
      (out_buffer : option (option nat)) (out_size : option Z)
  | RpcClientPoll (malloc : allocator) (now : string -> Z)
      (args : poll_args CRpc.response_info CRpc.hako_pdu_rpc_error_t)
  | RpcRequestBuffer (malloc : allocator) (service_name : option string)
      (out_buffer : option (option nat)) (out_size : option Z)
  | ActionFree (i : nat)
  | RpcFree (i : nat).

(** The allocator of a call. *)
Definition call_malloc (c : c_call) : option allocator :=
  match c with
  | ActionServerPoll m _ _ | ActionFeedbackBuffer m _ _ _ | ActionResultBuffer m _ _ _
  | ActionClientPoll m _ _ | ActionGoalBuffer m _ _ _ | RpcServerPoll m _ _ _
  | RpcReplyBuffer m _ _ _ _ _ | RpcClientPoll m _ _ | RpcRequestBuffer m _ _ _ => Some m
  | ActionFree _ | RpcFree _ => None
  end.

Definition call_lawful (c : c_call) : Prop :=
  match call_malloc c with Some m => lawful m | None => True end.

(** The pointer the program finds in its variable after a call is its own. *)
Definition keep (x : place) (pg : program) : program :=
  mkProgram (pg_action_client pg) (pg_action_server pg) (pg_rpc_client pg) (pg_rpc_server pg)
    x.1 (match x.2 with Some (Some a) => a :: pg_held pg | _ => pg_held pg end).

Definition action_args {Info} (heap : c_heap)
    (args : poll_args Info CAction.hako_pdu_action_error_t) : CAction.PollOut Info place :=
  CAction.mkPollOut (pa_info args) (heap, pa_buffer args) (pa_size args) (pa_error args).

Definition rpc_args {Info} (heap : c_heap)
    (args : poll_args Info CRpc.hako_pdu_rpc_error_t) : CRpc.PollOut Info place :=
  CRpc.mkPollOut (pa_info args) (heap, pa_buffer args) (pa_size args) (pa_error args).

(** Freeing the [i]-th pointer held; beyond the last the program passes NULL. *)
Definition free_held (release : option nat -> c_heap -> option c_heap) (i : nat) (pg : program)
    : option program :=
  heap ← release (pg_held pg !! i) (pg_heap pg);
  Some (mkProgram (pg_action_client pg) (pg_action_server pg) (pg_rpc_client pg)
          (pg_rpc_server pg) heap (delete i (pg_held pg))).

Definition with_action_client h (pg : program) : program :=
  mkProgram h (pg_action_server pg) (pg_rpc_client pg) (pg_rpc_server pg) (pg_heap pg) (pg_held pg).
Definition with_action_server h (pg : program) : program :=
  mkProgram (pg_action_client pg) h (pg_rpc_client pg) (pg_rpc_server pg) (pg_heap pg) (pg_held pg).
Definition with_rpc_client h (pg : program) : program :=
  mkProgram (pg_action_client pg) (pg_action_server pg) h (pg_rpc_server pg) (pg_heap pg)
    (pg_held pg).
Definition with_rpc_server h (pg : program) : program :=
  mkProgram (pg_action_client pg) (pg_action_server pg) (pg_rpc_client pg) h (pg_heap pg)
    (pg_held pg).

(** One call; no result when it frees a block that is not live. *)
Definition run_call (pg : program) (c : c_call) : option program :=
  let heap := pg_heap pg in
  match c with
  | ActionServerPoll m input args =>
      let '(h, out, _) := CAction.poll_handle CAction.server_events (action_place m)
        (CAction.sv_poll input) (pg_action_server pg) (action_args heap args) in
      Some (keep (CAction.po_buffer out) (with_action_server h pg))
  | ActionFeedbackBuffer m name b size =>
      let '(x, _, _) := CAction.create_buffer_alloc (action_place m)
        CAction.sv_create_feedback_buffer (pg_action_server pg) name (heap, b) size in
      Some (keep x pg)
  | ActionResultBuffer m name b size =>
      let '(x, _, _) := CAction.create_buffer_alloc (action_place m)
        CAction.sv_create_result_buffer (pg_action_server pg) name (heap, b) size in
      Some (keep x pg)
  | ActionClientPoll m clock args =>
      let '(h, out, _) := CAction.poll_handle CAction.client_events (action_place m)
        (CAction.poll_client clock) (pg_action_client pg) (action_args heap args) in
      Some (keep (CAction.po_buffer out) (with_action_client h pg))
  | ActionGoalBuffer m name b size =>
      let '(x, _, _) := CAction.create_buffer_alloc (action_place m)
        (fun s name => ClientServices.create_goal_buffer s.1 name) (pg_action_client pg) name
        (heap, b) size in
      Some (keep x pg)
  | RpcServerPoll m store_ok input args =>
      '(h, out, _) ← rpc_server_poll_alloc m store_ok input (pg_rpc_server pg)
        (rpc_args heap args);
      Some (keep (CRpc.po_buffer out) (with_rpc_server h pg))
  | RpcReplyBuffer m token status code b size =>
      let '(x, _, _) := CRpc.server_create_reply_buffer_alloc (rpc_place m) (pg_rpc_server pg)
        token status code (heap, b) size in
      Some (keep x pg)
  | RpcClientPoll m now args =>
      let '(h, out, _) := CRpc.client_poll (rpc_place m) now (pg_rpc_client pg)
        (rpc_args heap args) in
      Some (keep (CRpc.po_buffer out) (with_rpc_client h pg))
  | RpcRequestBuffer m name b size =>
      let '(h, (x, _, _)) := CRpc.client_create_request_buffer_alloc (rpc_place m)
        (pg_rpc_client pg) name (heap, b) size in
      Some (keep x (with_rpc_client h pg))
  | ActionFree i => free_held hako_pdu_action_buffer_free i pg
  | RpcFree i => free_held hako_pdu_rpc_buffer_free i pg
  end.

Fixpoint run_calls (pg : program) (calls : list c_call) : option program :=
  match calls with
  | [] => Some pg
  | c :: calls => pg' ← run_call pg c; run_calls pg' calls
  end.

(** ** Ownership

    Blocks that were live before ([base]) stay as they are; the others are the
    blocks held, each once. *)
Record owned (base heap : c_heap) (held : list nat) : Prop := {
  ow_once : NoDup held;
  ow_held a : a ∈ held -> is_Some (heap !! a) /\ base !! a = None;
  ow_other a : a ∉ held -> heap !! a = base !! a;
}.

(** What a call does to the heap and to the program's pointer variable: nothing
    is allocated and the variable is NULL, or one new block is allocated and the
    variable points to it. *)
Definition handed (heap : c_heap) (x : place) : Prop :=
  (x.1 = heap /\ forall a, x.2 <> Some (Some a))
  \/ exists a bytes, heap !! a = None /\ x = (<[a := bytes]> heap, Some (Some a)).

Lemma handed_cleared heap b : handed heap (clear_place (heap, b)).
Proof. left. split; [done|]. by destruct b. Qed.

Lemma handed_null heap : handed heap (heap, Some None).
Proof. by left. Qed.

Lemma handed_allocate {Err} `{CErrors Err} m source heap b size :
  lawful m -> handed heap (allocate_pdu (Err := Err) m source (clear_place (heap, b)) size).1.1.
Proof.
  intros Hm. unfold allocate_pdu. destruct b as [b|], size as [size|]; try apply handed_cleared.
  cbn. case_bool_decide; [apply handed_null|].
  destruct (m heap (length source)) as [a|] eqn:Ha; [|apply handed_null].
  right. exists a, source. split; [by eapply Hm|done].
Qed.

Lemma action_poll_handed {S' Ev Info CEv} (U : CAction.EventUse (Ev := Ev) Info CEv) m poll
    (h : option (CAction.ActionHandle S' Ev)) heap args :
  lawful m ->
  handed heap (CAction.po_buffer
    (CAction.poll_handle U (action_place m) poll h (action_args heap args)).1.2).
Proof.
  intros Hm. destruct args as [info b size err]. unfold CAction.poll_handle.
  destruct h as [h|], info as [info|], size as [size|]; try apply handed_cleared.
  cbn -[clear_place].
  destruct (negb _); [apply handed_cleared|].
  destruct (CAction.running_services h) as [s|]; [|apply handed_cleared].
  destruct (CAction.fetch U poll s h) as [h1 [[name ev]|]]; [|apply handed_cleared].
  unfold CAction.hand_over. cbn -[clear_place allocate_pdu].
  pose proof (handed_allocate (Err := CAction.hako_pdu_action_error_t) m (CAction.eu_pdu U ev)
    heap b (Some 0%Z) Hm) as Ha.
  destruct (allocate_pdu _ _ _ _) as [[x size'] r].
  by destruct (negb _); [|destruct (CAction.eu_is_error U ev)].
Qed.

Lemma action_create_handed {S' Ev} m create (h : option (CAction.ActionHandle S' Ev)) name
    heap b size :
  lawful m ->
  handed heap (CAction.create_buffer_alloc (action_place m) create h name (heap, b) size).1.1.
Proof.
  intros Hm. unfold CAction.create_buffer_alloc.
  destruct h as [h|], name as [name|], size as [size|]; try apply handed_cleared.
  cbn -[clear_place valid_text]. destruct (_ || _); [apply handed_cleared|].
  destruct (CAction.running_services h) as [s|]; [|apply handed_cleared].
  destruct (create s name) as [pdu|]; [|apply handed_cleared]. by apply handed_allocate.
Qed.

Lemma rpc_reply_handed m (h : option (CRpc.RpcServerHandle RS Req)) token status code heap b size :
  lawful m ->
  handed heap (CRpc.server_create_reply_buffer_alloc (rpc_place m) h token status code
    (heap, b) size).1.1.
Proof.
  intros Hm. unfold CRpc.server_create_reply_buffer_alloc. cbn -[clear_place].
  destruct h as [h|], size as [size|]; try apply handed_cleared.
  cbn -[clear_place].
  destruct (negb _); [apply handed_cleared|].
  destruct (CRpc.server_rpc h) as [s|]; [|apply handed_cleared].
  destruct (CRpc.find_request h token) as [r|]; [|apply handed_cleared].
  destruct (CRpc.rv_create_reply_buffer s r status code); [|apply handed_cleared].
  by apply handed_allocate.
Qed.

Lemma rpc_request_handed m h name heap b size :
  lawful m ->
  handed heap (CRpc.client_create_request_buffer_alloc (rpc_place m) h name (heap, b) size).2.1.1.
Proof.
  intros Hm. unfold CRpc.client_create_request_buffer_alloc. cbn -[clear_place].
  destruct h as [h|], name as [name|], size as [size|]; try apply handed_cleared.
  cbn -[clear_place valid_text CRpc.native_request_buffer].
  destruct (_ || _); [apply handed_cleared|].
  destruct (CRpc.native_request_buffer h name) as [[h' [pdu []]]|]; try apply handed_cleared.
  by apply handed_allocate.
Qed.

Lemma rpc_client_poll_handed m now h heap args :
  lawful m ->
  handed heap (CRpc.po_buffer (CRpc.client_poll (rpc_place m) now h (rpc_args heap args)).1.2).
Proof.
  intros Hm. destruct args as [info b size err]. unfold CRpc.client_poll. cbn -[clear_place].
  destruct h as [h|], info as [info|], size as [size|]; try apply handed_cleared.
  cbn -[clear_place].
  destruct (negb _); [apply handed_cleared|].
  destruct (CRpc.client_rpc h) as [[s w]|]; [|apply handed_cleared].
  destruct (RpcClientServices.poll _ _ _ _) as [[s' ev] [name response]].
  case_bool_decide; [apply handed_cleared|].
  pose proof (handed_allocate (Err := CRpc.hako_pdu_rpc_error_t) m (Rpc.res_pdu response)
    heap b (Some 0%Z) Hm) as Ha.
  destruct (allocate_pdu _ _ _ _) as [[x size'] r]. by destruct (negb _).
Qed.

(** Releasing what a call just allocated. *)
Lemma handed_release heap x :
  handed heap x -> hako_pdu_rpc_buffer_free (default None x.2) x.1 = Some heap.
Proof.
  intros [[<- Hx]|(a & bytes & Ha & ->)]; unfold hako_pdu_rpc_buffer_free, free; cbn.
  - destruct (x.2) as [[a|]|]; [|done|done]. by destruct (Hx a).
  - rewrite lookup_insert, decide_True by done. cbn. by rewrite delete_insert_id.
Qed.

Lemma rpc_server_poll_handed m store_ok input (h : option (CRpc.RpcServerHandle RS Req)) heap args :
  lawful m ->
  exists r, rpc_server_poll_alloc m store_ok input h (rpc_args heap args) = Some r
    /\ handed heap (CRpc.po_buffer r.1.2).
Proof.
  intros Hm. destruct args as [info b size err]. unfold rpc_server_poll_alloc. cbn -[clear_place].
  destruct h as [h|], info as [info|], size as [size|];
    try (eexists; split; [done|apply handed_cleared]). cbn -[clear_place].
  destruct (negb _); [eexists; split; [done|apply handed_cleared]|].
  destruct (CRpc.server_rpc h) as [s|]; [|eexists; split; [done|apply handed_cleared]].
  destruct (CRpc.rv_poll input s) as [s' [ev request]].
  case_bool_decide; [eexists; split; [done|apply handed_cleared]|].
  pose proof (handed_allocate (Err := CRpc.hako_pdu_rpc_error_t) m
    (Rpc.req_pdu (CRpc.rv_request request)) heap b (Some 0%Z) Hm) as Ha.
  destruct (allocate_pdu _ _ _ _) as [[x size'] r]. cbn in Ha.
  destruct (negb _); [by eexists|]. destruct store_ok; [by eexists|].
  rewrite (handed_release heap x Ha). eexists. split; [done|apply handed_null].
Qed.

Lemma keep_owned base pg x :
  owned base (pg_heap pg) (pg_held pg) -> handed (pg_heap pg) x ->
  owned base (pg_heap (keep x pg)) (pg_held (keep x pg)).
Proof.
  intros [Hnd Hin Hout] [[Hx Hn]|(a & bytes & Ha & ->)]; cbn.
  - rewrite Hx. destruct x as [heap [[a|]|]]; [by destruct (Hn a)|by split|by split].
  - assert (Hna : a ∉ pg_held pg) by (intros [[? ?] _]%Hin; congruence). split.
    + by constructor.
    + intros b [->|Hb]%elem_of_cons; [by rewrite lookup_insert_eq, <-Hout|].
      rewrite lookup_insert_ne by congruence. auto.
    + intros b [Hb ?]%not_elem_of_cons. rewrite lookup_insert_ne by done. auto.
Qed.

Lemma delete_beyond {A} (l : list A) i : l !! i = None -> delete i l = l.
Proof.
  revert i. induction l as [|x l IH]; intros [|i] Hi; cbn in *; [done..|]. f_equal. by apply IH.
Qed.

Lemma free_owned base heap held i :
  owned base heap held ->
  exists heap', free (held !! i) heap = Some heap' /\ owned base heap' (delete i held).
Proof.
  intros [Hnd Hin Hout]. destruct (held !! i) as [a|] eqn:Hi; cbn.
  2:{ exists heap. split; [done|]. by rewrite (delete_beyond held i Hi). }
  destruct (Hin a) as [[bytes Ha] Hb]; [by eapply list_elem_of_lookup_2|]. rewrite Ha. cbn.
  eexists. split; [done|]. pose proof (delete_Permutation held i a Hi) as Hp.
  rewrite Hp in Hnd. apply NoDup_cons in Hnd as [Hna Hnd].
  split; [done| |].
  - intros b Hb'. rewrite lookup_delete_ne by congruence. apply Hin. rewrite Hp. by right.
  - intros b Hb'. destruct (decide (b = a)) as [->|Hne]; [by rewrite lookup_delete_eq|].
    rewrite lookup_delete_ne by done. apply Hout. rewrite Hp. by apply not_elem_of_cons.
Qed.

(** A call whose effect on the heap is known: the result is kept. *)
Ltac kept H :=
  let Hh := fresh in pose proof H as Hh;
  repeat match goal with
  | |- context [match ?t with _ => _ end] => destruct t as [? ?]
  end; eexists; split; [done|]; by apply keep_owned.

Lemma run_call_owned base pg c :
  call_lawful c -> owned base (pg_heap pg) (pg_held pg) ->
  exists pg', run_call pg c = Some pg' /\ owned base (pg_heap pg') (pg_held pg').
Proof.
  intros Hm Ho. destruct c as [m input args|m name b size|m name b size|m clock args|m name b size
    |m ok input args|m token status code b size|m now args|m name b size|i|i]; cbn [run_call];
    unfold call_lawful in Hm; cbn in Hm.
  - kept (action_poll_handed CAction.server_events m (CAction.sv_poll input)
      (pg_action_server pg) (pg_heap pg) args Hm).
  - kept (action_create_handed m CAction.sv_create_feedback_buffer (pg_action_server pg) name
      (pg_heap pg) b size Hm).
  - kept (action_create_handed m CAction.sv_create_result_buffer (pg_action_server pg) name
      (pg_heap pg) b size Hm).
  - kept (action_poll_handed CAction.client_events m (CAction.poll_client clock)
      (pg_action_client pg) (pg_heap pg) args Hm).
  - kept (action_create_handed m (fun s name => ClientServices.create_goal_buffer s.1 name)
      (pg_action_client pg) name (pg_heap pg) b size Hm).
  - destruct (rpc_server_poll_handed m ok input (pg_rpc_server pg) (pg_heap pg) args Hm)
      as ([[h out] e] & -> & Hh). cbn. eexists. split; [done|]. by apply keep_owned.
  - kept (rpc_reply_handed m (pg_rpc_server pg) token status code (pg_heap pg) b size Hm).
  - kept (rpc_client_poll_handed m now (pg_rpc_client pg) (pg_heap pg) args Hm).
  - kept (rpc_request_handed m (pg_rpc_client pg) name (pg_heap pg) b size Hm).
  - destruct (free_owned base _ _ i Ho) as (heap & Hf & Hfo). unfold free_held.
    change (hako_pdu_action_buffer_free ?p ?h) with (free p h). rewrite Hf. by eexists.
  - destruct (free_owned base _ _ i Ho) as (heap & Hf & Hfo). unfold free_held.
    change (hako_pdu_rpc_buffer_free ?p ?h) with (free p h). rewrite Hf. by eexists.
Qed.

Lemma run_calls_owned base calls pg :
  Forall call_lawful calls -> owned base (pg_heap pg) (pg_held pg) ->
  exists pg', run_calls pg calls = Some pg' /\ owned base (pg_heap pg') (pg_held pg').
Proof.
  intros Hc. revert pg. induction Hc as [|c calls Hm _ IH]; intros pg Ho; cbn; [by eexists|].
  destruct (run_call_owned base pg c Hm Ho) as (pg1 & -> & Ho1). cbn. by apply IH.
Qed.
End Program.
Arguments mkPollArgs {Info Err} _ _ _ _.

(** ** Pointers and blocks

    What the caller reads through its pointer is what [CAction] and [CRpc] put in
    the pointer's place. *)

Definition view (x : place) : option (option (list Z)) :=
  (fun p => p ≫= (fun a => x.1 !! a)) <$> x.2.

Definition action_view {Info} (out : CAction.PollOut Info place)
    : CAction.PollOut Info (option (option (list Z))) :=
  CAction.mkPollOut (CAction.po_info out) (view (CAction.po_buffer out)) (CAction.po_size out)
    (CAction.po_error out).

Definition rpc_view {Info} (out : CRpc.PollOut Info place)
    : CRpc.PollOut Info (option (option (list Z))) :=
  CRpc.mkPollOut (CRpc.po_info out) (view (CRpc.po_buffer out)) (CRpc.po_size out)
    (CRpc.po_error out).

(** Whether [malloc] succeeds in a heap, for any size. *)
Definition succeeds (malloc : allocator) (heap : c_heap) (ok : bool) : Prop :=
  forall n, bool_decide (is_Some (malloc heap n)) = ok.

Lemma view_clear x : view (clear_place x) = (fun _ => None) <$> view x.
Proof. by destruct x as [heap [p|]]. Qed.

Lemma given_view x : given_place x = bool_decide (is_Some (view x)).
Proof. unfold given_place, view. apply bool_decide_ext. by rewrite fmap_is_Some. Qed.

Lemma allocate_view {Err} `{CErrors Err} m source x size ok x' size' (e : Err) :
  succeeds m x.1 ok -> allocate_pdu m source x size = (x', size', e) ->
  CBuffers.allocate_pdu ok source (view x) size = (view x', size', e).
Proof.
  intros Hok. unfold allocate_pdu, CBuffers.allocate_pdu. destruct x as [heap [p|]], size as [z|];
    cbn; try by intros [= <- <- <-].
  case_bool_decide; [by intros [= <- <- <-]|]. pose proof (Hok (length source)) as Hs. cbn in Hs.
  destruct (m heap (length source)) as [a|]; cbn in Hs; subst ok; intros [= <- <- <-]; [|done].
  cbn. by rewrite lookup_insert_eq.
Qed.

Lemma action_reset_view {Ev Info CEv} (U : CAction.EventUse (Ev := Ev) Info CEv) m ok out :
  CAction.reset_out U (CAction.allocated_buffer ok) (action_view out)
    = action_view (CAction.reset_out U (action_place m) out).
Proof. unfold action_view, CAction.reset_out. cbn. f_equal. symmetry. apply view_clear. Qed.

Lemma action_poll_view {S Ev Info CEv} (U : CAction.EventUse (Ev := Ev) Info CEv) m poll
    (h : option (CAction.ActionHandle S Ev)) out ok h' out' e :
  succeeds m (CAction.po_buffer out).1 ok ->
  CAction.poll_handle U (action_place m) poll h out = (h', out', e) ->
  CAction.poll_handle U (CAction.allocated_buffer ok) poll h (action_view out)
    = (h', action_view out', e).
Proof.
  intros Hok. unfold CAction.poll_handle. rewrite (action_reset_view U m).
  assert (Hok' : succeeds m (CAction.po_buffer (CAction.reset_out U (action_place m) out)).1 ok)
    by apply Hok.
  revert Hok'. generalize (CAction.reset_out U (action_place m) out) as o.
  intros [info x size err]. cbn. intros Hok'. rewrite given_view.
  destruct h as [h|], info as [info|], size as [size|]; try by intros [= <- <- <-].
  destruct (negb _); [by intros [= <- <- <-]|].
  destruct (CAction.running_services h) as [s|]; [|by intros [= <- <- <-]].
  destruct (CAction.fetch U poll s h) as [h1 [[name ev]|]]; [|by intros [= <- <- <-]].
  unfold CAction.hand_over. cbn.
  destruct (allocate_pdu m _ _ _) as [[x1 size1] r] eqn:Ha.
  rewrite (allocate_view _ _ _ _ ok _ _ _ Hok' Ha).
  by destruct (negb _); [|destruct (CAction.eu_is_error U ev)]; intros [= <- <- <-].
Qed.

Lemma rpc_reset_view {Info} m ok (out : CRpc.PollOut Info place) :
  CRpc.reset_out (CRpc.allocated_buffer ok) (rpc_view out)
    = rpc_view (CRpc.reset_out (rpc_place m) out).
Proof. unfold rpc_view, CRpc.reset_out. cbn. f_equal. symmetry. apply view_clear. Qed.

Lemma rpc_poll_view {S Req} `{CRpc.RpcServerServices S Req} m input
    (h : option (CRpc.RpcServerHandle S Req)) out ok h' out' e :
  succeeds m (CRpc.po_buffer out).1 ok ->
  rpc_server_poll_alloc m true input h out = Some (h', out', e) ->
  CRpc.server_poll (CRpc.allocated_buffer ok) input h (rpc_view out) = (h', rpc_view out', e).
Proof.
  intros Hok. unfold rpc_server_poll_alloc, CRpc.server_poll. rewrite (rpc_reset_view m).
  assert (Hok' : succeeds m (CRpc.po_buffer (CRpc.reset_out (rpc_place m) out)).1 ok) by apply Hok.
  assert (Hz : forall z, CRpc.po_size (CRpc.reset_out (rpc_place m) out) = Some z -> z = 0%Z)
    by (intros z; destruct out as [? ? [?|] ?]; cbn; by intros [= <-]).
  revert Hok' Hz. generalize (CRpc.reset_out (rpc_place m) out) as o.
  intros [info x size err]. cbn. intros Hok' Hz. rewrite given_view.
  destruct h as [h|], info as [info|], size as [size|]; try by intros [= <- <- <-].
  destruct (negb _); [by intros [= <- <- <-]|].
  destruct (CRpc.server_rpc h) as [s|]; [|by intros [= <- <- <-]].
  destruct (CRpc.rv_poll input s) as [s' [ev request]].
  case_bool_decide; [by intros [= <- <- <-]; rewrite (Hz size)|]. cbn.
  destruct (allocate_pdu m _ _ _) as [[x1 size1] r] eqn:Ha.
  rewrite (allocate_view _ _ _ _ ok _ _ _ Hok' Ha).
  destruct (negb _); [by intros [= <- <- <-]|].
  by intros [= <- <- <-].
Qed.

(** ** A program with both servers

    The Action server has a goal request waiting, the RPC server two requests. *)

Module Demo.
Import ConcretePdu Rpc.ConcreteRpc.
#[export] Existing Instance ServerEpProps.Demo.reliable.
#[export] Existing Instance ServerEpFacts.impl_server_endpoint.
#[export] Existing Instance ClientContract.impl_client_endpoint.
#[export] Existing Instance CAction.single_server_services.
#[export] Existing Instance CRpc.single_rpc_services.

Definition first_free : allocator := fun heap _ => Some (fresh (dom heap)).
Definition exhausted : allocator := fun _ _ => None.

Lemma first_free_lawful : lawful first_free.
Proof. intros heap n a [= <-]. apply not_elem_of_dom. apply is_fresh. Qed.

Definition start : program (E := ClientEp.ClientEndpoint) (S := CActionProps.Demo.native)
    (RS := CRpc.SingleNative) (Req := Rpc.RpcRequest) :=
  mkProgram None (Some CActionProps.Demo.started_handle) None
    (Some (CRpcProps.Demo.running RpcServicesProps.Demo.queued)) {[0 := [9%Z]]} [].

Definition action_out := mkPollArgs (Some CAction.zero_server_info) (Some (Some 0)) (Some 0%Z)
  (Some CAction.HAKO_PDU_ACTION_OK).
Definition rpc_out := mkPollArgs (Some CRpcProps.Demo.info) (Some (Some 0)) (Some 0%Z)
  (Some CRpc.HAKO_PDU_RPC_OK).

(** The allocation fails, then succeeds; storing the first request throws, the
    second is stored; both blocks are freed, and NULL. *)
Definition receive : list (c_call (S := CActionProps.Demo.native) (RS := CRpc.SingleNative)
    (Req := Rpc.RpcRequest)) :=
  [ActionServerPoll exhausted tt action_out; ActionServerPoll first_free tt action_out;
   RpcServerPoll first_free false tt rpc_out; RpcServerPoll first_free true tt rpc_out].
Definition release : list (c_call (S := CActionProps.Demo.native) (RS := CRpc.SingleNative)
    (Req := Rpc.RpcRequest)) :=
  [ActionFree 1; RpcFree 0; RpcFree 0].

Lemma receive_lawful : Forall call_lawful (receive ++ release).
Proof. repeat constructor; try done; apply first_free_lawful. Qed.
End Demo.
Import ConcretePdu Rpc.ConcreteRpc Demo.

(** ** Properties *)

(** C35 — Ownership of the buffers the C interfaces hand over: whatever a
    program calls of the allocating functions of both servers and both clients,
    with allocations that fail and a stored request that throws, and however it
    frees what it received, no call frees a block that is not live; the blocks
    that are live are the ones live before and the ones the program holds, each
    held once; and once it has freed them all the heap is what it was: no
    function keeps or loses a block. *)
Theorem c_buffers_owned {E S RS Req : Type} `{ClientIface.IActionClientEndpoint E}
    `{CAction.ServerServices S} `{CRpc.RpcServerServices RS Req} {RP : Rpc.RpcPlatform}
    (pg : program (E := E) (S := S) (RS := RS) (Req := Req)) calls :
  pg_held pg = [] -> Forall call_lawful calls ->
  exists pg', run_calls pg calls = Some pg'
    /\ NoDup (pg_held pg')
    /\ (forall a, a ∈ pg_held pg' -> is_Some (pg_heap pg' !! a) /\ pg_heap pg !! a = None)
    /\ (forall a, a ∉ pg_held pg' -> pg_heap pg' !! a = pg_heap pg !! a)
    /\ (pg_held pg' = [] -> pg_heap pg' = pg_heap pg).
Proof.
  intros Hh Hc. destruct (run_calls_owned (pg_heap pg) calls pg Hc) as (pg' & Hr & [Hn Hi Ho]).
  { rewrite Hh. split; [constructor|by intros a ?%elem_of_nil|done]. }
  exists pg'. split_and!; try done. intros Hh'. apply map_eq. intros a. apply Ho.
  rewrite Hh'. apply not_elem_of_nil.
Qed.

Lemma c_buffers_owned_witness :
  pg_held <$> run_calls start receive = Some [2; 1]
  /\ exists pg', run_calls start (receive ++ release) = Some pg' /\ pg_held pg' = []
       /\ pg_heap pg' = {[0 := [9%Z]]}.
Proof.
  split; [by vm_compute|].
  destruct (c_buffers_owned start (receive ++ release) eq_refl receive_lawful)
    as (pg' & Hr & _ & _ & _ & He).
  assert (Hh : pg_held pg' = [])
    by (apply (inj Some); change (pg_held <$> Some pg' = Some []); rewrite <-Hr; by vm_compute).
  exists pg'. exact (conj Hr (conj Hh (He Hh))).
Defined.

(** The polls that allocate, with real pointers, refine the polls that
    return the packet itself: reading the block through the pointer gives the
    same handle, outputs and event, for the Action polls of client and servers
    and for the RPC servers' poll. *)
Theorem c_pointers_refine {S Ev Info CEv RS Req} `{CRpc.RpcServerServices RS Req}
    (U : CAction.EventUse (Ev := Ev) Info CEv) m ok poll
    (h : option (CAction.ActionHandle S Ev)) out input
    (rh : option (CRpc.RpcServerHandle RS Req)) rout :
  succeeds m (CAction.po_buffer out).1 ok -> succeeds m (CRpc.po_buffer rout).1 ok ->
  (let '(h', out', e) := CAction.poll_handle U (action_place m) poll h out in
   CAction.poll_handle U (CAction.allocated_buffer ok) poll h (action_view out)
     = (h', action_view out', e))
  /\ (forall h' out' e, rpc_server_poll_alloc m true input rh rout = Some (h', out', e) ->
      CRpc.server_poll (CRpc.allocated_buffer ok) input rh (rpc_view rout)
        = (h', rpc_view out', e)).
Proof.
  intros Ha Hr. split.
  - destruct (CAction.poll_handle U (action_place m) poll h out) as [[h' out'] e] eqn:Hp.
    by eapply action_poll_view.
  - intros h' out' e Hp. by eapply rpc_poll_view.
Qed.

Lemma c_pointers_refine_witness :
  let h := pg_action_server start in
  let out := action_args ∅ action_out in
  let '(h', out', e) := CAction.poll_handle CAction.server_events (action_place first_free)
    (CAction.sv_poll tt) h out in
  e = CAction.HAKO_PDU_ACTION_SERVER_EVENT_GOAL_REQUEST
  /\ CAction.poll_handle CAction.server_events (CAction.allocated_buffer true)
       (CAction.sv_poll tt) h (action_view out) = (h', action_view out', e).
Proof.
  pose proof (c_pointers_refine CAction.server_events first_free true (CAction.sv_poll tt)
    (pg_action_server start) (action_args ∅ action_out) tt (pg_rpc_server start)
    (rpc_args ∅ rpc_out) (fun _ => eq_refl) (fun _ => eq_refl)) as [Hw _].
  cbv zeta. revert Hw.
  assert (He : (CAction.poll_handle CAction.server_events (action_place first_free)
    (CAction.sv_poll tt) (pg_action_server start) (action_args ∅ action_out)).2
    = CAction.HAKO_PDU_ACTION_SERVER_EVENT_GOAL_REQUEST) by (by vm_compute).
  revert He. destruct (CAction.poll_handle _ (action_place first_free) _ _ _) as [[h' out'] e].
  intros He Hw. exact (conj He Hw).
Defined.
End CMemory.
